(* ===== verification/_CoqProject ===== *)
-Q . S2P
Prelude.v
Words.v
Float64.v
Float32.v
SysctlRegs.v
Sysctl.v
SysctlClock.v
SysctlPll.v
FpioaTable.v
Fpioa.v
Plic.v
Timer.v
FbAlloc.v
Collections.v
LinkedList.v
Vfs.v
Fsort.v
Uart.v
Flash.v
Sha256.v
Rtc.v
RtcIrq.v
Sdcard.v
Gpio.v
SoftSpi.v
Gpiohs.v
Pins.v
HalTimer.v
TouchFilter.v
Dmac.v
DmaService.v
HalDma.v
Wdt.v
I2c.v
Spi.v
HardSpi.v
Imlib.v
Rolling.v
FilterBase.v
Filters.v
ModeFilter.v
Midpoint.v
FloodFill.v
FatFs.v
VfsFat.v
FatSession.v
FatMount.v
Aes.v
Klayers.v
Kfloat.v
Kpu.v
Kmodel.v
