(* ===== verification/Prelude.v ===== *)
(** * Verification of the K210 Arduino core

    This library models parts of the Arduino core for the Kendryte K210 (the C
    code under src/) and proves what makes them correct.  This file is its root:
    it documents the whole and holds what the components share.

    ** The program

    The core is a stack.  At the bottom is the register-level SDK
    (cores/k210/k210-sdk/drivers): the system controller, which owns clocks,
    resets and power; the pin multiplexer; the interrupt controller; the timers
    and the other peripherals.  Above it are a hardware layer
    (cores/k210/k210-hal), the file-system switch and its file systems
    (cores/k210/components), the RT-Thread kernel (a binary), the Arduino
    classes, and the libraries, of which imlib (libraries/imlib) is the largest.
    The drivers meet at a few points: each turns its clock on through the system
    controller, each installs its callbacks in the interrupt controller, and every
    frequency is computed from the clock tree.

    ** The files

    - [Prelude]: outcomes of C code ([res]: a value, a failed assertion, undefined
      behaviour, or fuel used up), machine-width integers ([wrap w]), bit fields of
      register words ([bf_get], [bf_set], [fget], [fset]) and register banks
      (functions from register names to words), loops over a range
      ([for_range]), and the interface [ClockGate] between drivers and the
      clock controller.
    - [Words]: bytes and words of 32 and 64 bits in memory, copies row by row, and loops
      that emit one value after the other.
    - [Float64]: the C type [double] as the IEEE binary64 numbers of the Standard
      Library, with the conversions and roundings that the PLL code uses.
    - [SysctlRegs]: the 32 registers of the system controller and their bit fields
      (k210_sysctl.h), the enumerations of clocks, dividers, selectors, resets and
      DMA channels.
    - [Sysctl]: the switches of k210_sysctl.c: clock gates, dividers, selectors,
      resets, DMA selection.  It is an instance of [ClockGate].
    - [SysctlClock]: the frequency functions of k210_sysctl.c, mutually recursive
      along the clock tree, against an abstract tree (parent and divisor).
    - [SysctlPll]: the divider search with its double arithmetic, the register
      writes, and the power-up sequence with the wait for the lock.
    - [FpioaTable], [Fpioa]: the 256-entry power-on table and the operations of
      k210_fpioa.c.
    - [Plic]: k210_plic.c with its callback table and the external interrupt
      handler; it states the interface [IrqController] that clients rely on.
    - [Timer]: k210_timer.c, written against [IrqController] and the clock gates:
      configuration, callback registration and both interrupt handlers.
    - [FbAlloc], [Collections], [LinkedList]: fb_alloc.c and collections.c of imlib:
      the stack allocator, bitmap, LIFO, FIFO and doubly linked list.
    - [Vfs]: esp_vfs.c: registration, the descriptor table, path resolution and the
      calls that go through them.
    - [Fsort]: the sorting networks of fsort.c.
    - [Uart]: the port side of k210-hal-uart.c and its receive ring.
    - [Flash]: k210-hal-flash.c, the command sequences of a serial flash chip.
    - [Sha256]: k210_sha256.c, which feeds the hash engine; FIPS 180-4 is written out
      beside it as the reference.
    - [Rtc], [RtcIrq]: k210_rtc.c: calendar arithmetic, setting and reading the time,
      counters and protection; then the registration of tick and alarm and the
      interrupt callback that serves both.
    - [Sdcard]: components/sdcard/sdcard.c, written over the structure of bus
      functions it is given; the class [SpiBus] states what it asks of them.
    - [Gpio]: the bit accessors of k210_utils.c, the eight pins of k210_gpio.c and the
      table of pin functions of k210-hal-fpioa.c.
    - [SoftSpi]: k210-hal-soft-spi.c, SPI bit by bit on those pins, and the bus
      functions of sdcard_spi.c that use it, an instance of [SpiBus].
    - [Gpiohs]: k210_gpiohs.c, 32 pins with interrupts.
    - [Pins]: k210-hal-gpio.c and wiring.c: which pin has which of the 32 functions,
      and the Arduino calls on pins.
    - [HalTimer]: k210-hal-timer.c, timer channels lent to pins and clients.
    - [TouchFilter]: the median and mean filters of the touch-screen library.
    - [Dmac]: k210_dmac.c: the six channels of the DMA controller, single transfers,
      linked lists and the interrupt handler; [HalDma]: k210-hal-dma.c, which lends
      the channels; [DmaService]: what a driver asks of a channel (register a callback,
      start a transfer, acknowledge), a class with laws that [Dmac] implements.
    - [Wdt]: k210_wdt.c, the watchdogs.
    - [I2c]: k210_i2c.c: configuration, the slave interrupt, and the polled transfers
      over the FIFOs of the engine.
    - [Spi]: k210_spi.c: configuration, and the four polled transfers in standard
      frames over an engine with its own pace.
    - [HardSpi]: the bus functions of sdcard_spi.c on that controller, a second
      instance of [SpiBus].
    - [Imlib]: images of imlib (imlib.h, imlib.c): the three pixel formats, access to pixels
      and rows, colours and masks; [FloodFill]: the flood fill (blob.c), on a stack of
      [Collections] that takes the memory left in [FbAlloc].
    - [Rolling], [FilterBase]: what the filters of filter.c share: the buffer of rows that
      rolls over the image, the windows that are built or slid, channels, thresholds and
      tables from the pool; [Filters] (mean and median), [ModeFilter], [Midpoint]: the
      filters.
    - [FatFs]: what the FAT glue asks of the FatFs library, as a class of operations and a
      class of laws, with a volume in memory that obeys them; [VfsFat]: the calls of
      vfs_fat.c on files, names and directories over it; [FatMount]: the registration of a
      volume and vfs_fat_sdspi.c; [FatSession]: the switch of [Vfs] in front of a volume.
    - [Aes]: the polled ECB, CBC and GCM calls of k210_aes.c, over a class of what the
      engine does with its FIFOs and a class of the laws of its cipher.

    - [Float32]: the C type [float] as IEEE binary32 numbers, in memory by their bits.
    - [Klayers], [Kfloat]: the layers of a neural network that k210_kpu.c computes on the
      processor, on bytes and on floats, over one memory of bytes.
    - [Kpu]: the accelerator itself: layers pushed into its FIFO, tasks with their input
      and output by DMA, and the events (end of a transfer, interrupt) that drive them.
    - [Kmodel]: models: loading, the interpreter of layers ([ai_step]) that alternates
      between both, and kpu_helper.c.

    The layers meet as in the code: [Sha256], [Rtc], [Dmac], [Wdt], [I2c], [Spi] and [Aes] switch
    their clocks through [Sysctl]; [Timer], [RtcIrq], [Gpiohs], [Pins], [Dmac] and
    [I2c] are proved against [IrqController] and applied to the controller of [Plic];
    [HalDma] lends the channels that [Dmac] drives; [Kpu] and [Kmodel] are proved against
    [DmaService] and [IrqController] and applied to [Dmac] and [Plic]; [FatSession] is the switch of [Vfs] over
    the calls of [VfsFat]; [SoftSpi] and [HardSpi]
    keep what [Sdcard] asks of a bus; [Pins], [HalTimer] and [SoftSpi] reach the multiplexer of
    [Fpioa] through the table of [Gpio].

    ** How state and operations correspond to the code

    A definition has the name of the C function it translates, and a data type
    the name of the C type.  A peripheral is a register bank; a driver operation
    is a function from the bank (and the driver's static variables, in the same
    record) to the new one, the reads and writes in source order.  Operations
    that can fail to return have result type [res].  Arithmetic is on [Z] with the
    wrap-around written at the place where C has it.  Where the code waits for
    hardware, an environment is an argument: the lock bits at each poll of the PLL, the
    line status at each poll of a UART, the claim register of the interrupt
    controller.  Callbacks, the C library's [qsort], [malloc] results and the file
    systems below the switch are arguments too, with their documented behaviour
    as named hypotheses, and each theorem that has such a hypothesis is applied to
    a concrete instance.  Of [qsort] under the comparator of k210-hal-gpio.c, which never
    answers 0, only that it reorders its array is assumed, and that it sorts where the
    keys differ.  Of FatFs, whose source is in the repository, [FatFs] assumes laws that
    are its documented contract.

    ** What the theorems show

    - System controller: enabling and disabling clocks act on the clock asked for
      and stop no other; dividers read back; the frequency functions terminate,
      refine the clock tree and are accurate to one hertz for every register
      content; programming a PLL is all or nothing and within the documented
      bands; the power-up sequence changes dividers only with the output off and
      ends locked; the CPU frequency call reports the PLL output (a
      discrepancy with its documentation).
    - Pin multiplexer: a function is on at most one pin, is found where it was
      put, and no operation disturbs other pins or fields.
    - Interrupt controller: the handler is transparent and completes exactly what
      it claimed; initialisation and line enables are exact.
    - Timers: the handler dispatches every pending channel of its pair once, in
      order, and acknowledges those only; registration is exact; unregistering
      has two flaws, which are stated as they are.
    - Allocator and collections: blocks are inside the pool, aligned and disjoint,
      and a mark-release scope restores the state; the containers refine a set,
      a bounded stack, a bounded queue and a list of nodes.
    - Files: path resolution is the longest-prefix match; [open] and [close] are
      specified on every branch; every reachable state is well formed and no path
      call is stopped by the internal assertion; unregistering leaves high
      descriptors behind (stated as it is).
    - Sorting: the two networks sort every input, by the zero-one principle over a
      block-wise reachable-state check.
    - UART: the programmed divisor and line word are exact; the number of waiting
      characters is exact except on a full ring (stated as it is).
    - Flash: a write is what it means for a chip that only clears bits when
      programmed: the region asked for is replaced and the rest of its sectors kept;
      what was written reads back.
    - SHA-256: the result is the digest of the standard, on any engine that digests
      the blocks it is given; feeding a message in parts does not matter.
    - RTC: weekdays agree with the calendar counted day by day; a time that is set
      reads back; the callback runs what is due and nothing else; the users of the
      tick never lose it by the registrations of the others.  Flaws of the
      single-shot tick, the mode getter and the month check are stated as they are.
    - SD card: every call returns and lets the card go whatever the card does; the
      bytes of a block read on the wire; the card registers are decoded as specified.
      On the soft SPI, which is proved to be a full-duplex exchange in mode 3, and on
      the SPI controller, whole sessions run without a failed assertion.
    - Pins: a pin has one function and a function one pin as long as [pinMode] is
      called once for each pin; writes, modes and interrupts reach the pin asked for.
      What happens when it is called twice, and the pending interrupts that a
      handler of another pin loses, are stated as they are.
    - Touch filters: a median is a sample of the window with half of them on either
      side, the mean filter is a weighted mean of the window, and the stages compose.
    - DMA: a single transfer programs the channel it is given exactly and leaves the
      others as they are, even when transfers end between two accesses; a channel's
      configuration reads back; a linked list of at most 256 rows is walked to its last descriptor;
      registers stay 64-bit words; a DMA channel is lent to one client at a time.
    - Watchdog: the period chosen is the least that covers the time asked for, within
      the range of the register.
    - I2C: transfers end and move exactly the bytes they were given, as long as the
      receive FIFO does not overrun (at most two commands between two status reads) and, for
      the answer, was empty: bytes left there come first.  What happens when it overruns is
      stated as it is.
    - SPI: the polled transfers return exactly for the lengths that are stated, then
      every element has been exchanged once and in order; on other lengths some never
      return (stated as it is).
    - Flood fill: what is filled is a duplicate-free part of the region that grows out of
      the seed, all of it when the stack can hold the image; the pool is given back.
    - Filters: they work in place as if on a copy, return the pool as they found it and write
      only the image: means are scaled sums of the window, medians values of its rank,
      modes most frequent values, midpoints between its ends; sliding a window along a row
      gives what building it anew gives.  A block freed twice, a count taken from the wrong
      channel and a maximum that is missed are stated as they are.
    - FAT volumes: in every session the descriptors of the switch and the open files of the
      volume correspond one to one; reads and writes at a position restore it; a link is a
      copy; unmounting undoes mounting.  A lock that stays held, paths that are cut and two
      variables that are never written are stated as they are.
    - AES: every call returns, feeds the engine exactly the bytes of its arguments, padded to
      the block, and puts out what the engine computed; decrypting what was encrypted gives
      it back.
    - Neural networks: an image is laid out in the memory of the accelerator as it expects
      it; pooling takes maxima over exactly the pixels a kernel covers, a fully connected
      layer computes weighted sums, the layers that move data move what they should, each
      writing its output only; a task reaches the accelerator layer by layer in order,
      however its events fall; running a model has the effect of its layers one after the
      other, whether the processor or the DMA controller brings the input, and ends in one
      call of the user's callback, if its last convolution sends its result to main memory.  The rounding of negative halves
      is stated as it is.
    - Timer channels: no channel has two owners while pins stay below 42, and how the
      made-up numbers of the table clash with real pins above.

    ** Bounds and fuel

    The clock tree has depth seven, and [SysctlClock.tree_fuel] is proved
    enough.  The PLL search runs over the source's own range of candidates.  The
    lock wait is bounded by the poll at which the environment reports the lock.
    The allocator's frees run over at most one block per word of the pool
    ([FbAlloc.pool_fuel], proved enough).  The slot searches of [Vfs] run over
    the size of the table they scan.  The busy-wait of [Sdcard] takes as fuel the
    number of bytes the bus can move within the time-out, proved enough for every
    card; the polls of the flash status and of the hash FIFO, and of the reset bit of
    the DMA controller, end when the environment reports ready.  The loops of [I2c] and
    [Spi] take as fuel a measure of the work left and of the pace at which the environment
    moves bytes, proved enough; [HardSpi] allows 32 frames, the size of the FIFO, between two
    status reads.  The filters are for kernels up to 15 by 15 where their counters are
    bytes.  One more than the number of pixels is enough for
    both loops of [FloodFill]; the number of layers is enough for [ai_step] of [Kmodel].
    The copy loop of [VfsFat] takes the size of the file, a seek in a directory the
    offset.  All other loops are structural (over buffers, tables
    or [seqZ] ranges).  The list frees of [LinkedList] and the
    transmit loop of [Uart] take their fuel as an argument.

    ** What is not modelled

    The remaining SDK drivers (UART, I2S, camera, FFT, PWM,
    core-local interrupts), the DMA variants of the I2C, SPI and AES transfers, the slave
    mode and the multi-line transfers of the SPI controller, the display bus, the SPIFFS glue, the calibration fit of
    the touch-screen library (tscal.c) and the rest of imlib (drawing, blobs, lines; of
    filter.c the histogram equalisation, the morphological and the bilateral filter) are left to later extensions, as are [pulseIn], which polls
    the cycle counter, and the RT-Thread device of the RTC; the read-only status
    readers of the timers and the time functions of the system controller (which
    only read hardware counters) are left out.  FatFs, SPIFFS, Unity, nncase, xtl
    and RT-Thread are third-party code, so [Kmodel] has models of version 3 only, as in a
    build with ONLY_KMODEL_V3, and [expf] is an argument; the C++ classes and the host tools are
    outside the C program; FatFs is an interface with a volume in memory as an
    instance.  In [Vfs], [esp_vfs_select] and the terminal calls; in
    [Uart], the calls into the serial framework of RT-Thread.  Locks are left
    out, each operation is one critical section; [VfsFat] counts how often its lock is held.

    Floating-point operations are those of the C text, each rounded once.  platform.txt builds
    with -ffast-math, which lets the compiler fuse, reorder and simplify them, and with
    -fsingle-precision-constant, which rounds literals such as the 1e-6 of the PLL search to
    [float]; the model has neither, so results of floats in a build may differ in their last
    places. *)

From stdpp Require Export base decidable numbers list functions option gmap.
From Stdlib Require Export ZArith Lia.

#[global] Open Scope Z_scope.

(** ** Outcomes of C code

    [Ok] is a normal return.  The faults are the ways a C function of this
    repository fails to return: a failed [configASSERT]/[RT_ASSERT] (both end in
    an endless loop), undefined behaviour (division by zero, an access outside
    an object), and a loop that outlives the fuel the model gives it. *)
Inductive fault : Set := FAssert | FUB | FFuel.
Inductive res (A : Type) : Type :=
| Ok (a : A)
| Fault (f : fault).
Arguments Ok {A} a.
Arguments Fault {A} f.

#[export] Instance fault_eq_dec : EqDecision fault.
Proof. solve_decision. Defined.
#[export] Instance res_eq_dec {A} `{EqDecision A} : EqDecision (res A).
Proof. solve_decision. Defined.
#[export] Instance res_ret : MRet res := λ A a, Ok a.
#[export] Instance res_bind : MBind res := λ A B k m,
  match m with Ok a => k a | Fault f => Fault f end.

Lemma res_bind_Ok {A B} (m : res A) (k : A → res B) b :
  m ≫= k = Ok b ↔ ∃ a, m = Ok a ∧ k a = Ok b.
Proof. destruct m; simpl; naive_solver. Qed.

(** State passing with faults: the monad of the stateful drivers. *)
Definition M (S A : Type) : Type := S → res (A * S).
#[export] Instance M_ret {S} : MRet (M S) := λ A a s, Ok (a, s).
#[export] Instance M_bind {S} : MBind (M S) := λ A B k m s,
  match m s with Ok (a, s') => k a s' | Fault f => Fault f end.
Definition c_fail {S A} (f : fault) : M S A := λ _, Fault f.
Definition gets {S A} (f : S → A) : M S A := λ s, Ok (f s, s).
Definition modify {S} (f : S → S) : M S unit := λ s, Ok (tt, f s).
(** [configASSERT(c)]: go on when [c] holds, never return otherwise. *)
Definition c_assert {S} (c : bool) : M S unit :=
  λ s, if c then Ok (tt, s) else Fault FAssert.

Lemma M_bind_Ok {S A B} (m : M S A) (k : A → M S B) s b s' :
  (m ≫= k) s = Ok (b, s') ↔ ∃ a s1, m s = Ok (a, s1) ∧ k a s1 = Ok (b, s').
Proof. unfold mbind, M_bind. destruct (m s) as [[??]|]; naive_solver. Qed.

Lemma M_bind_run {S A B} (m : M S A) (k : A → M S B) s a s' : m s = Ok (a, s') → (m ≫= k) s = k a s'.
Proof. intros E. unfold mbind, M_bind. by rewrite E. Qed.

(** ** Machine-width integers *)

(** [wrap w x] is the value an unsigned [w]-bit object holds after [x] is
    stored in it. *)
Definition wrap (w x : Z) : Z := x mod 2 ^ w.
Abbreviation u8 := (wrap 8).
Abbreviation u16 := (wrap 16).
Abbreviation u32 := (wrap 32).
Abbreviation u64 := (wrap 64).
(** Two's complement reading, as an assignment to [int32_t] gives it. *)
Definition s32 (x : Z) : Z :=
  let y := u32 x in if y <? 2 ^ 31 then y else y - 2 ^ 32.
Definition s8 (x : Z) : Z :=
  let y := u8 x in if y <? 2 ^ 7 then y else y - 2 ^ 8.
Abbreviation in_width w x := (0 ≤ x < 2 ^ w).

Lemma wrap_range w x : 0 ≤ w → in_width w (wrap w x).
Proof. intros. apply Z.mod_pos_bound. lia. Qed.

Lemma wrap_id w x : in_width w x → wrap w x = x.
Proof. intros. by apply Z.mod_small. Qed.

Lemma wrap_wrap w x : 0 ≤ w → wrap w (wrap w x) = wrap w x.
Proof. intros. by apply wrap_id, wrap_range. Qed.

Lemma wrap_testbit w x i :
  0 ≤ w → 0 ≤ i → Z.testbit (wrap w x) i = bool_decide (i < w) && Z.testbit x i.
Proof.
  intros. unfold wrap. case_bool_decide; simpl.
  - by rewrite Z.mod_pow2_bits_low.
  - by rewrite Z.mod_pow2_bits_high by lia.
Qed.

Lemma testbit_above w x i :
  in_width w x → w ≤ i → Z.testbit x i = false.
Proof.
  intros Hx ?. destruct (decide (0 ≤ w)); [|rewrite Z.pow_neg_r in Hx; lia].
  rewrite <-(wrap_id w x), wrap_testbit by lia. by case_bool_decide; [lia|].
Qed.

Lemma in_width_testbit w x :
  0 ≤ w → 0 ≤ x → (∀ i, w ≤ i → Z.testbit x i = false) → in_width w x.
Proof.
  intros Hw Hx Hb. split; [done|].
  destruct (decide (x = 0)) as [->|]; [by apply Z.pow_pos_nonneg|].
  apply Z.log2_lt_pow2; [lia|]. apply Z.nle_gt. intros Hle.
  pose proof (Hb (Z.log2 x) Hle) as Hf. by rewrite Z.bit_log2 in Hf by lia.
Qed.

(** ** Bitwise reasoning *)
Create Rewrite HintDb bits.
#[export] Hint Rewrite Z.lor_spec Z.land_spec Z.lxor_spec Z.ldiff_spec
  Z.testbit_0_l Z.bits_0 : bits.
#[export] Hint Rewrite Z.lnot_spec Z.shiftr_spec Z.shiftl_spec wrap_testbit
  Z.testbit_ones_nonneg using lia : bits.

(** [bits i]: prove an equation of integers bit by bit, [i] naming the index. *)
Ltac bits_simpl := autorewrite with bits.
Ltac bits_cases :=
  repeat match goal with
  | |- context [bool_decide ?P] => case_bool_decide
  | |- context [Z.ltb ?a ?b] => destruct (Z.ltb_spec a b)
  | |- context [Z.leb ?a ?b] => destruct (Z.leb_spec a b)
  | |- context [Z.testbit ?x ?i] =>
      rewrite (Z.testbit_neg_r x i) by lia
  end; simpl;
  rewrite ?andb_true_r, ?andb_false_r, ?orb_false_r, ?orb_true_r; simpl.
Ltac bits i :=
  apply Z.bits_inj'; intros i ?; bits_simpl; bits_cases; try done; try lia;
  try (f_equal; lia).

(** ** Bit fields of a register word *)
Record bitfield : Set := BF { bf_off : Z; bf_width : Z }.
Definition bf_wf (w : Z) (f : bitfield) : Prop :=
  0 ≤ bf_off f ∧ 0 < bf_width f ∧ bf_off f + bf_width f ≤ w.
Definition bf_disjoint (f g : bitfield) : Prop :=
  bf_off f + bf_width f ≤ bf_off g ∨ bf_off g + bf_width g ≤ bf_off f.
#[export] Instance bf_wf_dec w f : Decision (bf_wf w f).
Proof. unfold bf_wf. apply _. Defined.
#[export] Instance bf_disjoint_dec f g : Decision (bf_disjoint f g).
Proof. unfold bf_disjoint. apply _. Defined.

Definition bf_get (f : bitfield) (x : Z) : Z :=
  wrap (bf_width f) (Z.shiftr x (bf_off f)).
Definition bf_set (f : bitfield) (v x : Z) : Z :=
  Z.lor (Z.ldiff x (Z.shiftl (Z.ones (bf_width f)) (bf_off f)))
        (Z.shiftl (wrap (bf_width f) v) (bf_off f)).

Lemma bf_set_testbit w f v x i :
  bf_wf w f → 0 ≤ i →
  Z.testbit (bf_set f v x) i =
  if decide (bf_off f ≤ i < bf_off f + bf_width f)
  then Z.testbit v (i - bf_off f) else Z.testbit x i.
Proof.
  intros (?&?&?) ?. unfold bf_set. bits_simpl.
  destruct (decide (bf_off f ≤ i)).
  - bits_simpl. destruct (decide _); bits_cases; try lia; done.
  - rewrite !(Z.testbit_neg_r _ (i - bf_off f)) by lia.
    rewrite decide_False by lia. by rewrite andb_true_r, orb_false_r.
Qed.

Lemma bf_get_testbit w f x i :
  bf_wf w f → 0 ≤ i →
  Z.testbit (bf_get f x) i =
  bool_decide (i < bf_width f) && Z.testbit x (i + bf_off f).
Proof.
  intros (?&?&?) ?. unfold bf_get. rewrite wrap_testbit, Z.shiftr_spec by lia.
  done.
Qed.

Lemma bf_get_range w f x : bf_wf w f → in_width (bf_width f) (bf_get f x).
Proof. intros (?&?&?). apply wrap_range. lia. Qed.

(** Storing [v] in a field and reading it back truncates [v] to the width. *)
Lemma bf_get_set w f v x :
  bf_wf w f → bf_get f (bf_set f v x) = wrap (bf_width f) v.
Proof.
  intros Hwf. pose proof Hwf as (?&?&?). apply Z.bits_inj'. intros i ?.
  rewrite (bf_get_testbit w), (bf_set_testbit w), wrap_testbit by (done || lia).
  case_bool_decide; simpl; [|done]. rewrite decide_True by lia.
  f_equal. lia.
Qed.

(** Fields that do not overlap do not interfere. *)
Lemma bf_get_set_ne w f g v x :
  bf_wf w f → bf_wf w g → bf_disjoint f g →
  bf_get g (bf_set f v x) = bf_get g x.
Proof.
  intros Hf Hg Hd. pose proof Hg as (?&?&?). apply Z.bits_inj'. intros i ?.
  rewrite !(bf_get_testbit w), (bf_set_testbit w) by (done || lia).
  case_bool_decide; simpl; [|done]. rewrite decide_False; [done|].
  unfold bf_disjoint in Hd. lia.
Qed.

Lemma bf_set_range w f v x :
  bf_wf w f → in_width w x → in_width w (bf_set f v x).
Proof.
  intros Hf Hx. pose proof Hf as (?&?&?). apply in_width_testbit; [lia| |].
  - unfold bf_set. apply Z.lor_nonneg. split.
    + apply Z.ldiff_nonneg. left. lia.
    + apply Z.shiftl_nonneg. by apply wrap_range; lia.
  - intros i ?. rewrite (bf_set_testbit w), decide_False by (done || lia).
    by apply (testbit_above w).
Qed.

(** Writing back what a field already holds changes nothing. *)
Lemma bf_set_get_id w f x : bf_wf w f → 0 ≤ x → bf_set f (bf_get f x) x = x.
Proof.
  intros Hf Hx. pose proof Hf as (?&?&?). apply Z.bits_inj'. intros i ?.
  rewrite (bf_set_testbit w) by (done || lia). case_decide; [|done].
  rewrite (bf_get_testbit w), bool_decide_eq_true_2 by (done || lia).
  simpl. f_equal. lia.
Qed.

(** ** Single bits: the idioms [r |= 1 << i], [r &= ~(1 << i)] *)
Definition set_bit_at (i x : Z) : Z := Z.lor x (Z.shiftl 1 i).
Definition clear_bit_at (w i x : Z) : Z :=
  Z.land x (wrap w (Z.lnot (Z.shiftl 1 i))).

Lemma shiftl_1_testbit i j :
  0 ≤ i → 0 ≤ j → Z.testbit (Z.shiftl 1 i) j = bool_decide (i = j).
Proof.
  intros. rewrite Z.shiftl_1_l. rewrite Z.pow2_bits_eqb by lia.
  case_bool_decide; [by apply Z.eqb_eq | by apply Z.eqb_neq].
Qed.

Lemma set_bit_at_testbit i x j :
  0 ≤ i → 0 ≤ j →
  Z.testbit (set_bit_at i x) j = bool_decide (i = j) || Z.testbit x j.
Proof.
  intros. unfold set_bit_at.
  by rewrite Z.lor_spec, shiftl_1_testbit, orb_comm by lia.
Qed.

Lemma clear_bit_at_testbit w i x j :
  0 ≤ i → 0 ≤ j → in_width w x →
  Z.testbit (clear_bit_at w i x) j = negb (bool_decide (i = j)) && Z.testbit x j.
Proof.
  intros Hi Hj Hx. destruct (decide (0 ≤ w)); [|rewrite Z.pow_neg_r in Hx; lia].
  unfold clear_bit_at.
  rewrite Z.land_spec, wrap_testbit, Z.lnot_spec, shiftl_1_testbit by lia.
  destruct (decide (j < w)).
  - rewrite (bool_decide_eq_true_2 (j < w)) by done. by rewrite andb_comm.
  - rewrite (testbit_above w x j) by (done || lia). by rewrite andb_false_r.
Qed.

Lemma set_bit_at_range w i x :
  0 ≤ i < w → in_width w x → in_width w (set_bit_at i x).
Proof.
  intros ? Hx. apply in_width_testbit; [lia| |].
  - apply Z.lor_nonneg. split; [lia|]. by apply Z.shiftl_nonneg.
  - intros j ?. rewrite set_bit_at_testbit, (testbit_above w x) by (done || lia).
    by rewrite bool_decide_eq_false_2 by lia.
Qed.

Lemma clear_bit_at_range w i x : in_width w x → in_width w (clear_bit_at w i x).
Proof.
  intros Hx. destruct (decide (0 ≤ w)); [|rewrite Z.pow_neg_r in Hx; lia].
  pose proof (wrap_range w (Z.lnot (Z.shiftl 1 i))) as Hw.
  apply in_width_testbit; [lia| |].
  - apply Z.land_nonneg. lia.
  - intros j ?. unfold clear_bit_at.
    by rewrite Z.land_spec, (testbit_above w x) by (done || lia).
Qed.

(** ** Register banks

    A memory-mapped device is a function from its register names to the words
    they hold; a driver updates it pointwise ([<[r := v]> regs]). *)
Abbreviation bank K := (K → Z).

(** A bit field of a named register. *)
Record field (K : Type) := Field { f_reg : K; f_bits : bitfield }.
Arguments Field {K} _ _.
Arguments f_reg {K} _.
Arguments f_bits {K} _.

Section fields.
Context {K : Type} `{EqDecision K}.
Implicit Types (f g : field K) (b : bank K).

Definition fget f b : Z := bf_get (f_bits f) (b (f_reg f)).
Definition fset f (v : Z) b : bank K :=
  <[f_reg f := bf_set (f_bits f) v (b (f_reg f))]> b.
Definition f_wf f : Prop := bf_wf 32 (f_bits f).
Definition f_disjoint f g : Prop :=
  f_reg f ≠ f_reg g ∨ bf_disjoint (f_bits f) (f_bits g).
#[export] Instance f_wf_dec f : Decision (f_wf f).
Proof. unfold f_wf. apply _. Defined.
#[export] Instance f_disjoint_dec f g : Decision (f_disjoint f g).
Proof. unfold f_disjoint. apply _. Defined.

Lemma fget_fset f v b : f_wf f → fget f (fset f v b) = wrap (bf_width (f_bits f)) v.
Proof. intros. unfold fget, fset. rewrite fn_lookup_insert. by apply (bf_get_set 32). Qed.

Lemma fget_fset_ne f g v b :
  f_wf f → f_wf g → f_disjoint f g → fget g (fset f v b) = fget g b.
Proof.
  intros Hf Hg Hd. unfold fget, fset.
  destruct (decide (f_reg f = f_reg g)) as [Hr|].
  - rewrite Hr, fn_lookup_insert. apply (bf_get_set_ne 32); [done..|].
    destruct Hd as [Hd|Hd]; [by destruct Hd | done].
  - by rewrite fn_lookup_insert_ne.
Qed.

Lemma fset_reg_ne f v b r : f_reg f ≠ r → fset f v b r = b r.
Proof. intros. unfold fset. by rewrite fn_lookup_insert_ne. Qed.

(** Every register holds a 32-bit word. *)
Definition bank_ok b : Prop := ∀ r, in_width 32 (b r).

Lemma bank_ok_insert r v b : bank_ok b → in_width 32 v → bank_ok (<[r:=v]> b).
Proof. intros Hb Hv r'. unfold insert, fn_insert. by case_decide. Qed.

Lemma bank_ok_fset f v b : f_wf f → bank_ok b → bank_ok (fset f v b).
Proof. intros. apply bank_ok_insert; [done|]. by apply bf_set_range. Qed.
End fields.
Create HintDb bank.
#[export] Hint Resolve bank_ok_insert bank_ok_fset : bank.

(** ** Enumerations

    A C enumeration is an inductive type with its numbering; equality is decided
    on the numbers, so it costs one comparison however many constants there
    are. *)
Lemma enum_eq_dec {A} (to_Z : A → Z) (of_Z : Z → option A) :
  (∀ x, of_Z (to_Z x) = Some x) → EqDecision A.
Proof.
  intros Hinv x y. refine (cast_if (decide (to_Z x = to_Z y))).
  - assert (Some x = Some y) by (rewrite <-!Hinv; congruence). congruence.
  - congruence.
Defined.

(** ** Truncations compose *)
Lemma wrap_wrap_le w w' x : 0 ≤ w ≤ w' → wrap w (wrap w' x) = wrap w x.
Proof.
  intros. apply Z.bits_inj'. intros i ?. rewrite !wrap_testbit by lia.
  repeat case_bool_decide; simpl; done || lia.
Qed.

Lemma land_ones_wrap w x : 0 ≤ w → Z.land x (Z.ones w) = wrap w x.
Proof. intros. by apply Z.land_ones. Qed.

Lemma fset_wrap {K} `{EqDecision K} (f : field K) w v b :
  0 ≤ bf_width (f_bits f) ≤ w → fset f (wrap w v) b = fset f v b.
Proof. intros. unfold fset, bf_set. by rewrite wrap_wrap_le. Qed.

(** Layout facts (well-formedness, disjointness) are decided. *)
Ltac field_dec := apply (bool_decide_unpack _); vm_compute; exact I.

(** ** Termination: the fuel of a model never runs out *)
Definition no_fuel {A} (m : res A) : Prop := m ≠ Fault FFuel.
Create HintDb no_fuel.
Lemma no_fuel_Ok {A} (a : A) : no_fuel (Ok a).
Proof. done. Qed.
Lemma no_fuel_bind {A B} (m : res A) (k : A → res B) :
  no_fuel m → (∀ a, no_fuel (k a)) → no_fuel (m ≫= k).
Proof. unfold no_fuel. destruct m; simpl; naive_solver. Qed.
Lemma no_fuel_bind_Ok {A B} (m : res A) (k : A → res B) :
  no_fuel m → (∀ a, m = Ok a → no_fuel (k a)) → no_fuel (m ≫= k).
Proof. unfold no_fuel. destruct m; simpl; naive_solver. Qed.
#[export] Hint Resolve no_fuel_Ok no_fuel_bind : no_fuel.

(** ** Checks over an interval *)
Lemma forallb_seqZ (f : Z → bool) lo n x :
  forallb f (seqZ lo n) = true → lo ≤ x < lo + n → f x = true.
Proof.
  rewrite forallb_forall. intros Hf Hx. by apply Hf, list_elem_of_In, elem_of_seqZ.
Qed.

Lemma fget_fset_fit {K} `{EqDecision K} (f : field K) v (b : bank K) :
  f_wf f → in_width (bf_width (f_bits f)) v → fget f (fset f v b) = v.
Proof. intros. rewrite fget_fset by done. by apply wrap_id. Qed.

(** ** Interface: a clock controller

    What a device driver relies on when it turns its clock on, whoever keeps
    the gates: the clock asked for runs afterwards, and no running clock
    stops. *)
Class ClockGate (S C : Type) := {
  cg_enable : C → S → S;
  cg_running : C → S → Prop;
  cg_enable_running c s : cg_running c (cg_enable c s);
  cg_enable_mono c c' s : cg_running c' s → cg_running c' (cg_enable c s)
}.

(** ** Loops over an index range: [for(i = lo; i < lo + n; i++)] *)
Definition for_range {S} (lo n : Z) (body : Z → S → S) (s : S) : S :=
  foldl (λ s i, body i s) s (seqZ lo n).

Lemma for_range_0 {S} lo n (body : Z → S → S) s : n ≤ 0 → for_range lo n body s = s.
Proof. intros. unfold for_range. by rewrite seqZ_nil. Qed.
Lemma for_range_S {S} lo n (body : Z → S → S) s :
  0 ≤ n → for_range lo (n + 1) body s = body (lo + n) (for_range lo n body s).
Proof.
  intros. unfold for_range. rewrite (seqZ_app _ n 1) by lia.
  by rewrite foldl_app.
Qed.
(** The loop rule: an invariant indexed by the number of passes done. *)
Lemma for_range_ind {S} (P : Z → S → Prop) lo n (body : Z → S → S) s :
  0 ≤ n → P 0 s → (∀ k s, 0 ≤ k < n → P k s → P (k + 1) (body (lo + k) s)) →
  P n (for_range lo n body s).
Proof.
  intros Hn H0 Hstep.
  assert (∀ m, 0 ≤ m → m ≤ n → P m (for_range lo m body s)) as H; [|by apply H].
  intros m Hm. pattern m. apply natlike_ind; [by rewrite for_range_0| |done].
  intros x Hx IH ?. unfold Z.succ. rewrite for_range_S by done.
  apply Hstep; [lia|]. apply IH. lia.
Qed.

(** ** The first index with a property *)
Lemma find_seqZ_some f lo n i :
  find f (seqZ lo n) = Some i → lo ≤ i < lo + n ∧ f i = true ∧ ∀ j, lo ≤ j < i → f j = false.
Proof.
  remember (Z.to_nat n) as k eqn:Hk. revert lo n Hk. induction k as [|k IH]; intros lo n Hk.
  - by rewrite seqZ_nil by lia.
  - rewrite seqZ_cons by lia. cbn [find]. destruct (f lo) eqn:E.
    + intros [= <-]. split_and!; [lia|lia|done|intros; lia].
    + intros H. destruct (IH (Z.succ lo) (Z.pred n)) as (Hi & Hf & Hj); [lia|done|]. split; [lia|]. split; [done|].
      intros j Hj'. destruct (decide (j = lo)) as [-> |]; [done|apply Hj; lia].
Qed.
Lemma find_seqZ_none f lo n j : find f (seqZ lo n) = None → lo ≤ j < lo + n → f j = false.
Proof. intros H Hj. apply (find_none _ _ H), list_elem_of_In, elem_of_seqZ, Hj. Qed.

(** ** Byte buffers *)
Definition mem_read (m : Z → Z) (off n : Z) : list Z := m <$> seqZ off n.
Definition mem_write (m : Z → Z) (off : Z) (bs : list Z) : Z → Z := λ q,
  match bs !! Z.to_nat (q - off) with
  | Some b => if off <=? q then b else m q
  | None => m q
  end.

Lemma mem_read_length m off n : 0 ≤ n → Z.of_nat (length (mem_read m off n)) = n.
Proof. intros. unfold mem_read. rewrite length_fmap, length_seqZ. lia. Qed.

Lemma mem_write_in m off bs q :
  off ≤ q < off + Z.of_nat (length bs) →
  bs !! Z.to_nat (q - off) = Some (mem_write m off bs q).
Proof.
  intros Hq. unfold mem_write.
  destruct (lookup_lt_is_Some_2 bs (Z.to_nat (q - off))) as [b Hb]; [lia|].
  by rewrite Hb, (proj2 (Z.leb_le _ _)) by lia.
Qed.
Lemma mem_write_out m off bs q :
  q < off ∨ off + Z.of_nat (length bs) ≤ q → mem_write m off bs q = m q.
Proof.
  intros Hq. unfold mem_write. destruct Hq.
  - rewrite (proj2 (Z.leb_gt _ _)) by lia. by case_match.
  - by rewrite lookup_ge_None_2 by lia.
Qed.
Lemma mem_read_write m off bs :
  mem_read (mem_write m off bs) off (Z.of_nat (length bs)) = bs.
Proof.
  apply list_eq_same_length with (length bs); [done| |].
  { apply Nat2Z.inj. by rewrite mem_read_length by lia. }
  intros i x y Hi Hx Hy. unfold mem_read in Hx. apply list_lookup_fmap_Some in Hx as (q & -> & Hq).
  apply lookup_seqZ in Hq as [-> ?].
  pose proof (mem_write_in m off bs (off + Z.of_nat i) ltac:(lia)) as Hw.
  replace (Z.to_nat (off + Z.of_nat i - off)) with i in Hw by lia. congruence.
Qed.
Lemma mem_read_write_ne m off bs off' n :
  off' + n ≤ off ∨ off + Z.of_nat (length bs) ≤ off' →
  mem_read (mem_write m off bs) off' n = mem_read m off' n.
Proof.
  intros Hd. unfold mem_read. apply list_fmap_ext. intros i q Hq.
  apply lookup_seqZ in Hq as [-> ?]. apply mem_write_out. lia.
Qed.
Lemma mem_read_ext m m' off n : (∀ q, off ≤ q < off + n → m q = m' q) → mem_read m off n = mem_read m' off n.
Proof.
  intros E. unfold mem_read. apply list_fmap_ext. intros i q Hq.
  apply lookup_seqZ in Hq as [-> ?]. apply E. lia.
Qed.
Lemma mem_read_app m off n k :
  0 ≤ n → 0 ≤ k → mem_read m off (n + k) = mem_read m off n ++ mem_read m (off + n) k.
Proof. intros. unfold mem_read. by rewrite seqZ_app, fmap_app by done. Qed.
Lemma mem_read_lookup m off n (i : nat) : Z.of_nat i < n → mem_read m off n !! i = Some (m (off + Z.of_nat i)).
Proof. intros. unfold mem_read. rewrite list_lookup_fmap, lookup_seqZ_lt by lia. done. Qed.
Lemma mem_write_spec m off bs q :
  mem_write m off bs q =
  if decide (off ≤ q < off + Z.of_nat (length bs)) then bs !!! Z.to_nat (q - off) else m q.
Proof.
  case_decide; [|apply mem_write_out; lia].
  symmetry. apply list_lookup_total_correct. by apply mem_write_in.
Qed.
Lemma mem_write_app m off xs ys q :
  mem_write (mem_write m off xs) (off + Z.of_nat (length xs)) ys q = mem_write m off (xs ++ ys) q.
Proof.
  rewrite !mem_write_spec, length_app. repeat case_decide; try lia; try done.
  - rewrite lookup_total_app_r by lia. f_equal. lia.
  - by rewrite lookup_total_app_l by lia.
Qed.

(** Aligning down and the offset within a power of two, as masks. *)
Lemma land_mask_mod x k : 0 ≤ k → Z.land x (2 ^ k - 1) = x mod 2 ^ k.
Proof. intros. rewrite <-Z.land_ones by done. by rewrite Z.ones_equiv, Z.sub_1_r. Qed.
Lemma land_align w x k :
  0 ≤ k ≤ w → in_width w x → Z.land x (wrap w (Z.lnot (2 ^ k - 1))) = x - x mod 2 ^ k.
Proof.
  intros Hk Hx. transitivity (Z.ldiff x (Z.ones k)).
  - rewrite Z.ones_equiv, <-Z.sub_1_r. apply Z.bits_inj'. intros i Hi.
    rewrite Z.land_spec, wrap_testbit, Z.lnot_spec, Z.ldiff_spec by lia.
    case_bool_decide; [done|]. by rewrite (testbit_above w x i) by (done || lia).
  - rewrite Z.ldiff_ones_r, Z.shiftl_mul_pow2, Z.shiftr_div_pow2 by lia.
    pose proof (Z.div_mod x (2 ^ k)). lia.
Qed.
(** A flag test, [v & (1 << k)]. *)
Lemma land_pow2_eqb v k : 0 ≤ k → (Z.land v (2 ^ k) =? 0) = negb (Z.testbit v k).
Proof.
  intros Hk. destruct (Z.testbit v k) eqn:E; cbn [negb].
  - apply Z.eqb_neq. intros E0. apply (f_equal (λ x, Z.testbit x k)) in E0.
    rewrite Z.land_spec, E, Z.pow2_bits_true, Z.bits_0 in E0 by done. done.
  - apply Z.eqb_eq, Z.bits_inj'. intros i Hi. rewrite Z.land_spec, Z.bits_0, Z.pow2_bits_eqb by done.
    destruct (Z.eqb_spec k i) as [<-|]; [by rewrite E|apply andb_false_r].
Qed.

(** ** [int] arithmetic and arrays

    A result outside [int], a division by zero and an access outside an array are
    undefined behaviour. *)
Definition c_int (x : Z) : res Z := if (- 2 ^ 31 <=? x) && (x <? 2 ^ 31) then Ok x else Fault FUB.
Lemma c_int_ok x : - 2 ^ 31 ≤ x < 2 ^ 31 → c_int x = Ok x.
Proof. intros. unfold c_int. by rewrite (proj2 (Z.leb_le _ _)), (proj2 (Z.ltb_lt _ _)) by lia. Qed.
Definition c_quot (a b : Z) : res Z := if b =? 0 then Fault FUB else c_int (Z.quot a b).
Definition arr_get {A} (l : list A) (i : Z) : res A :=
  match (if i <? 0 then None else l !! Z.to_nat i) with Some a => Ok a | None => Fault FUB end.
Definition arr_set {A} (l : list A) (i : Z) (a : A) : res (list A) :=
  if (i <? 0) || (Z.of_nat (length l) <=? i) then Fault FUB else Ok (<[Z.to_nat i := a]> l).
Lemma arr_get_ok {A} (l : list A) (i : nat) a : l !! i = Some a → arr_get l (Z.of_nat i) = Ok a.
Proof. intros Hl. unfold arr_get. rewrite (proj2 (Z.ltb_ge _ _)) by lia. by rewrite Nat2Z.id, Hl. Qed.
Lemma arr_set_ok {A} (l : list A) (i : nat) a : (i < length l)%nat → arr_set l (Z.of_nat i) a = Ok (<[i := a]> l).
Proof.
  intros Hl. unfold arr_set. rewrite (proj2 (Z.ltb_ge _ _)), (proj2 (Z.leb_gt _ _)) by lia. by rewrite Nat2Z.id.
Qed.
