(* ===== verification/Words.v ===== *)
(** * Words and arrays in byte memory

    A memory is a function from addresses to bytes; C reads and writes words of it in
    little-endian order.  The second half is about loops that fill memory: a loop that
    stores through a pointer it moves on ([*dest++ = v]) emits a list of bytes, and a loop
    that copies the rows of an array to other places leaves everything else alone. *)

From S2P Require Import Prelude.

(** ** Words *)
Definition word_of (bs : list Z) : Z := little_endian_to_Z 8 bs.
Definition word_bytes (w : Z) : list Z := Z_to_little_endian 4 8 w.
Definition word_at (m : Z → Z) (a : Z) : Z := word_of (mem_read m a 4).
Definition dword_at (m : Z → Z) (a : Z) : Z := word_of (mem_read m a 8).
Definition dword_bytes (w : Z) : list Z := Z_to_little_endian 8 8 w.
Definition bytes_ok (m : Z → Z) : Prop := ∀ q, in_width 8 (m q).

Lemma mem_write_ext m m' off bs q : (∀ q, m q = m' q) → mem_write m off bs q = mem_write m' off bs q.
Proof. intros Hm. rewrite !mem_write_spec. by case_decide. Qed.
Lemma mem_read_bytes m a n : bytes_ok m → Forall (λ x, in_width 8 x) (mem_read m a n).
Proof. intros Hm. unfold mem_read. apply Forall_fmap, Forall_true. intros q. apply Hm. Qed.
Lemma mem_read_total m a n i : 0 ≤ i < n → mem_read m a n !!! Z.to_nat i = m (a + i).
Proof. intros Hi. apply list_lookup_total_correct. rewrite mem_read_lookup by lia. do 2 f_equal. lia. Qed.
Lemma bytes_ok_mem_write m a bs : bytes_ok m → Forall (λ x, in_width 8 x) bs → bytes_ok (mem_write m a bs).
Proof.
  intros Hm Hb q. rewrite mem_write_spec. case_decide; [|apply Hm].
  apply (Forall_lookup_1 _ _ (Z.to_nat (q - a)) _ Hb), list_lookup_lookup_total_lt. lia.
Qed.
Lemma word_bytes_length w : length (word_bytes w) = 4%nat.
Proof. apply Nat2Z.inj. unfold word_bytes. by rewrite length_Z_to_little_endian. Qed.
Lemma dword_bytes_length w : length (dword_bytes w) = 8%nat.
Proof. apply Nat2Z.inj. unfold dword_bytes. by rewrite length_Z_to_little_endian. Qed.
Lemma word_bytes_width w : Forall (λ x, in_width 8 x) (word_bytes w).
Proof. by apply Z_to_little_endian_bound. Qed.
Lemma dword_bytes_width w : Forall (λ x, in_width 8 x) (dword_bytes w).
Proof. by apply Z_to_little_endian_bound. Qed.
Lemma word_bytes_word bs : length bs = 4%nat → Forall (λ x, in_width 8 x) bs → word_bytes (word_of bs) = bs.
Proof. intros Hl Hb. unfold word_bytes, word_of. apply Z_to_little_endian_to_Z; [by rewrite Hl|lia|done]. Qed.
Lemma dword_bytes_dword bs : length bs = 8%nat → Forall (λ x, in_width 8 x) bs → dword_bytes (word_of bs) = bs.
Proof. intros Hl Hb. unfold dword_bytes, word_of. apply Z_to_little_endian_to_Z; [by rewrite Hl|lia|done]. Qed.
Lemma dword_copy m a : bytes_ok m → dword_bytes (dword_at m a) = mem_read m a 8.
Proof. intros Hm. apply dword_bytes_dword; [|by apply mem_read_bytes]. apply Nat2Z.inj. by rewrite mem_read_length. Qed.
Lemma word_at_ext m m' a : (∀ q, a ≤ q < a + 4 → m q = m' q) → word_at m a = word_at m' a.
Proof. intros E. unfold word_at. by rewrite (mem_read_ext m m'). Qed.
Lemma dword_at_ext m m' a : (∀ q, a ≤ q < a + 8 → m q = m' q) → dword_at m a = dword_at m' a.
Proof. intros E. unfold dword_at. by rewrite (mem_read_ext m m'). Qed.
Lemma mem_read_moved m1 m2 a b n : (∀ j, 0 ≤ j < n → m1 (a + j) = m2 (b + j)) → mem_read m1 a n = mem_read m2 b n.
Proof.
  intros E. destruct (decide (0 ≤ n)) as [Hn|]; [|unfold mem_read; by rewrite !seqZ_nil by lia].
  apply list_eq. intros i. destruct (decide (Z.of_nat i < n)) as [Hi|Hi].
  - rewrite !mem_read_lookup by done. f_equal. apply E. lia.
  - pose proof (mem_read_length m1 a n Hn). pose proof (mem_read_length m2 b n Hn). by rewrite !lookup_ge_None_2 by lia.
Qed.
Lemma word_at_moved m1 m2 a b : (∀ j, 0 ≤ j < 4 → m1 (a + j) = m2 (b + j)) → word_at m1 a = word_at m2 b.
Proof. intros E. unfold word_at. by rewrite (mem_read_moved m1 m2 a b). Qed.
Lemma word_at_write m a w : in_width 32 w → word_at (mem_write m a (word_bytes w)) a = w.
Proof.
  intros Hw. unfold word_at. pose proof (mem_read_write m a (word_bytes w)) as E. rewrite word_bytes_length in E.
  change (Z.of_nat 4) with 4 in E. rewrite E. unfold word_of, word_bytes. rewrite little_endian_to_Z_to_little_endian by lia. by apply wrap_id.
Qed.
Lemma word_at_write_ne m a bs a' : a' + 4 ≤ a ∨ a + Z.of_nat (length bs) ≤ a' → word_at (mem_write m a bs) a' = word_at m a'.
Proof. intros. unfold word_at. by rewrite mem_read_write_ne. Qed.
Lemma word_of_width bs : length bs = 4%nat → Forall (λ x, in_width 8 x) bs → in_width 32 (word_of bs).
Proof. intros Hl Hb. unfold word_of. pose proof (little_endian_to_Z_bound 8 bs ltac:(lia) Hb) as Hw. rewrite Hl in Hw. exact Hw. Qed.
Lemma word_bytes_inj w w' : in_width 32 w → in_width 32 w' → word_bytes w = word_bytes w' → w = w'.
Proof.
  intros Hw Hw' E1. apply (f_equal (little_endian_to_Z 8)) in E1. unfold word_bytes in E1.
  rewrite !little_endian_to_Z_to_little_endian in E1 by lia. change (2 ^ (4 * 8)) with (2 ^ 32) in E1. by rewrite !Z.mod_small in E1.
Qed.
Lemma word_at_width m a : bytes_ok m → in_width 32 (word_at m a).
Proof. intros Hm. apply word_of_width; [|by apply mem_read_bytes]. apply Nat2Z.inj. by rewrite mem_read_length. Qed.

(** One byte stored at [a] *)
Lemma insert_mem_write (m : Z → Z) a v q : <[a := v]> m q = mem_write m a [v] q.
Proof.
  rewrite mem_write_spec. unfold insert, fn_insert. cbn [length]. repeat case_decide; subst; try lia; try done.
  by rewrite Z.sub_diag.
Qed.
Lemma mem_write_nil m a q : mem_write m a [] q = m q.
Proof. apply mem_write_out. cbn. lia. Qed.

(** ** Emitting loops

    [emits p vs]: from a pointer [d] inside the output range, [p] stores [vs] from [d] on and
    moves the pointer behind them, as long as memory agrees with the original one at the
    addresses of the input. *)
Section emit.
Context (m0 : Z → Z) (input : Z → Prop) (lo hi : Z) (Hsep : ∀ q, lo ≤ q < hi → ¬ input q).
Definition agree (m : Z → Z) : Prop := ∀ q, input q → m q = m0 q.
Definition emits (p : Z * (Z → Z) → Z * (Z → Z)) (vs : list Z) : Prop := ∀ d m,
  lo ≤ d → d + Z.of_nat (length vs) ≤ hi → agree m →
  ∃ m', p (d, m) = (d + Z.of_nat (length vs), m') ∧ ∀ q, m' q = mem_write m d vs q.

Lemma agree_emitted m m' d vs : lo ≤ d → d + Z.of_nat (length vs) ≤ hi → agree m →
  (∀ q, m' q = mem_write m d vs q) → agree m'.
Proof.
  intros Hd He Hm E q Hq. rewrite E, mem_write_out; [by apply Hm|].
  destruct (decide (q < d ∨ d + Z.of_nat (length vs) ≤ q)) as [|Hin]; [done|]. exfalso. apply (Hsep q); [lia|done].
Qed.
Lemma emits_one (v : (Z → Z) → Z) v0 : (∀ m, agree m → v m = v0) →
  emits (λ '(d, m), (d + 1, <[d := v m]> m)) [v0].
Proof. intros Hv d m _ _ Hm. rewrite (Hv m Hm). eexists. split; [done|]. intros q. apply insert_mem_write. Qed.
Lemma emits_seq p1 p2 vs1 vs2 : emits p1 vs1 → emits p2 vs2 → emits (λ s, p2 (p1 s)) (vs1 ++ vs2).
Proof.
  intros H1 H2 d m Hd He Hm. rewrite length_app in He.
  destruct (H1 d m) as (m1 & E1 & Hm1); [lia..|done|].
  destruct (H2 (d + Z.of_nat (length vs1)) m1) as (m2 & E2 & Hm2); [lia..| |].
  { apply (agree_emitted m m1 d vs1); [lia|lia|done|done]. }
  exists m2. split; [rewrite E1, E2, length_app; f_equal; lia|].
  intros q. rewrite Hm2, (mem_write_ext m1 (mem_write m d vs1)) by done. apply mem_write_app.
Qed.
Lemma emits_ext p p' vs : (∀ s, p s = p' s) → emits p vs → emits p' vs.
Proof. intros E Hp d m. rewrite <-E. apply Hp. Qed.
Lemma emits_range l n body (f : Z → list Z) : (∀ i, l ≤ i < l + n → emits (body i) (f i)) →
  emits (for_range l n body) (concat (f <$> seqZ l n)).
Proof.
  intros Hb. unfold for_range. destruct (decide (0 ≤ n)) as [Hn|]; [|rewrite seqZ_nil by lia; intros d m _ _ _; exists m; split; [by rewrite Z.add_0_r|intros; by rewrite mem_write_nil]].
  revert l Hb. pattern n. apply natlike_ind; [|intros k Hk IH l Hb|done].
  { intros l _ d m _ _ _. exists m. split; [by rewrite Z.add_0_r|intros; by rewrite mem_write_nil]. }
  rewrite seqZ_cons by lia. cbn [foldl fmap list_fmap concat]. rewrite Z.pred_succ.
  apply (emits_seq (body l) (λ s, foldl (λ s i, body i s) s (seqZ (Z.succ l) k))); [apply Hb; lia|].
  apply IH. intros i Hi. apply Hb. lia.
Qed.
(** Every pass of the loop emits one byte. *)
Lemma concat_singles {A} (f : A → Z) (l : list A) : concat ((λ i, [f i]) <$> l) = f <$> l.
Proof. induction l as [|x l IH]; [done|]. cbn [fmap list_fmap concat app]. by f_equal. Qed.
End emit.

(** ** Rows copied to other places

    Row [r] of [w] bytes goes to [addr r]; the first [k] rows are there, nothing else changed. *)
Section rows.
Context (m0 : Z → Z) (src w : Z) (addr : Z → Z).
Definition rows_copied (k : Z) (m : Z → Z) : Prop :=
  (∀ r x, 0 ≤ r < k → 0 ≤ x < w → m (addr r + x) = m0 (src + r * w + x)) ∧
  (∀ q, (∀ r, 0 ≤ r < k → ¬ (addr r ≤ q < addr r + w)) → m q = m0 q).
Lemma rows_copied_0 : rows_copied 0 m0.
Proof. split; [lia|done]. Qed.
Lemma rows_copied_step k m m' : 0 ≤ k → 0 ≤ w → rows_copied k m →
  (∀ r, 0 ≤ r < k → addr r + w ≤ addr k ∨ addr k + w ≤ addr r) →
  (∀ r x, 0 ≤ r < k → 0 ≤ x < w → ¬ (addr r ≤ src + k * w + x < addr r + w)) →
  (∀ q, m' q = mem_write m (addr k) (mem_read m (src + k * w) w) q) → rows_copied (k + 1) m'.
Proof.
  intros Hk Hw [Hin Hout] Hd Hs E.
  assert (Hl : Z.of_nat (length (mem_read m (src + k * w) w)) = w) by (by apply mem_read_length).
  split.
  - intros r x Hr Hx. rewrite E, mem_write_spec, Hl. destruct (decide (r = k)) as [-> |Hne].
    + rewrite decide_True by lia. replace (addr k + x - addr k) with x by lia.
      rewrite (list_lookup_total_correct _ _ (m (src + k * w + x))).
      * apply Hout. intros r Hr'. by apply Hs.
      * rewrite mem_read_lookup by lia. do 2 f_equal. lia.
    + rewrite decide_False by (destruct (Hd r); lia). apply Hin; lia.
  - intros q Hq. rewrite E, mem_write_spec, Hl, decide_False by (apply Hq; lia). apply Hout. intros r Hr. apply Hq. lia.
Qed.
End rows.

(** ** Results of nested loops, by index *)
Lemma concat_uniform_length (f : Z → list Z) l n k : (∀ i, l ≤ i < l + n → Z.of_nat (length (f i)) = k) → 0 ≤ n →
  Z.of_nat (length (concat (f <$> seqZ l n))) = n * k.
Proof.
  intros Hf Hn. revert l Hf. pattern n. apply natlike_ind; [done| |done]. intros x Hx IH l Hf.
  rewrite seqZ_cons by lia. cbn [fmap list_fmap concat]. rewrite length_app, Z.pred_succ, Nat2Z.inj_add, Hf, IH by (intros; try apply Hf; lia). lia.
Qed.
Lemma concat_uniform_lookup (f : Z → list Z) l n k i j : (∀ i, l ≤ i < l + n → Z.of_nat (length (f i)) = k) →
  0 ≤ i < n → 0 ≤ j < k → concat (f <$> seqZ l n) !!! Z.to_nat (i * k + j) = f (l + i) !!! Z.to_nat j.
Proof.
  intros Hf Hi Hj. assert (0 ≤ n) as Hn by lia. revert l i Hf Hi. pattern n. apply natlike_ind; [lia| |done]. intros x Hx IH l i Hf Hi.
  rewrite seqZ_cons by lia. cbn [fmap list_fmap concat]. rewrite Z.pred_succ.
  pose proof (Hf l ltac:(lia)) as Hl. destruct (decide (i = 0)) as [-> |].
  - rewrite lookup_total_app_l by lia. by rewrite Z.mul_0_l, Z.add_0_l, Z.add_0_r.
  - assert (k ≤ i * k) as Hik by nia. rewrite lookup_total_app_r by lia.
    replace (Z.to_nat (i * k + j) - length (f l))%nat with (Z.to_nat ((i - 1) * k + j)) by (rewrite Z.mul_sub_distr_r; lia).
    rewrite IH by (intros; try apply Hf; lia). by replace (Z.succ l + (i - 1)) with (l + i) by lia.
Qed.
Lemma for_range_ext {S} lo n (f g : Z → S → S) s : (∀ i s, lo ≤ i < lo + n → f i s = g i s) → for_range lo n f s = for_range lo n g s.
Proof.
  intros E. destruct (decide (0 ≤ n)) as [Hn|]; [|by rewrite !for_range_0 by lia].
  cut (for_range lo n f s = for_range lo n g s ∧ n ≤ n); [by intros []|].
  refine (for_range_ind (λ k s', s' = for_range lo k g s ∧ k ≤ n) lo n f s Hn _ _); [by rewrite for_range_0|].
  intros k s' Hk [-> _]. rewrite E, for_range_S by lia. by split; [|lia].
Qed.
Lemma for_range_app {S} lo a b (f : Z → S → S) s : 0 ≤ a → 0 ≤ b → for_range lo (a + b) f s = for_range (lo + a) b f (for_range lo a f s).
Proof. intros. unfold for_range. by rewrite seqZ_app, foldl_app by done. Qed.
Lemma for_range_shift {S} lo n (f : Z → S → S) s : for_range lo n f s = for_range 0 n (λ i, f (lo + i)) s.
Proof.
  destruct (decide (0 ≤ n)) as [Hn|]; [|by rewrite !for_range_0 by lia].
  refine (for_range_ind (λ k s', s' = for_range 0 k (λ i, f (lo + i)) s) lo n f s Hn _ _); [by rewrite for_range_0|].
  intros k s' Hk ->. rewrite for_range_S by lia. by rewrite Z.add_0_l.
Qed.
(** A loop whose passes can fault *)
Definition for_res {S} (lo n : Z) (body : Z → S → res S) (s : S) : res S :=
  foldl (λ r i, r ≫= body i) (Ok s) (seqZ lo n).
Lemma for_res_ind {S} (P : Z → S → Prop) lo n (body : Z → S → res S) s : 0 ≤ n → P 0 s →
  (∀ k s, 0 ≤ k < n → P k s → ∃ s', body (lo + k) s = Ok s' ∧ P (k + 1) s') → ∃ s', for_res lo n body s = Ok s' ∧ P n s'.
Proof.
  intros Hn H0 Hs. unfold for_res.
  refine (for_range_ind (λ k r, ∃ s', r = Ok s' ∧ P k s') lo n (λ i r, r ≫= body i) (Ok s) Hn _ _); [by exists s|].
  intros k r Hk (s1 & -> & Hp). by apply Hs.
Qed.
Lemma for_res_ext {S} lo n (f g : Z → S → res S) s : (∀ i s, lo ≤ i < lo + n → f i s = g i s) → for_res lo n f s = for_res lo n g s.
Proof.
  intros H. apply (for_range_ext lo n (λ i r, r ≫= f i) (λ i r, r ≫= g i) (Ok s)). intros i [a|] Hi; [by apply H|done].
Qed.
(** [int64_t] arithmetic: overflow and wide shifts are undefined. *)
Definition c_int64 (x : Z) : res Z := if (- 2 ^ 63 <=? x) && (x <? 2 ^ 63) then Ok x else Fault FUB.
Definition c_shr (x s : Z) : res Z := if (0 <=? s) && (s <? 64) then Ok (Z.shiftr x s) else Fault FUB.
Lemma c_int64_ok x : - 2 ^ 63 ≤ x < 2 ^ 63 → c_int64 x = Ok x.
Proof. intros. unfold c_int64. by rewrite (proj2 (Z.leb_le _ _)), (proj2 (Z.ltb_lt _ _)) by lia. Qed.
Lemma c_shr_ok x s : 0 ≤ s < 64 → c_shr x s = Ok (Z.shiftr x s).
Proof. intros. unfold c_shr. by rewrite (proj2 (Z.leb_le _ _)), (proj2 (Z.ltb_lt _ _)) by lia. Qed.

(** ** Three nested loops that emit [k] bytes in each pass *)
Section grid.
Context (m0 : Z → Z) (input : Z → Prop) (lo hi : Z) (Hsep : ∀ q, lo ≤ q < hi → ¬ input q).
Context (C H W k : Z) (body : Z → Z → Z → Z * (Z → Z) → Z * (Z → Z)) (v : Z → Z → Z → list Z).
Context (HC : 0 ≤ C) (HH : 0 ≤ H) (HW : 0 ≤ W).
Context (Hb : ∀ c y x, 0 ≤ c < C → 0 ≤ y < H → 0 ≤ x < W → emits m0 input lo hi (body c y x) (v c y x)).
Context (Hk : ∀ c y x, 0 ≤ c < C → 0 ≤ y < H → 0 ≤ x < W → Z.of_nat (length (v c y x)) = k).
Definition grid_bytes : list Z :=
  concat ((λ c, concat ((λ y, concat ((λ x, v c y x) <$> seqZ 0 W)) <$> seqZ 0 H)) <$> seqZ 0 C).
Lemma emits_grid : emits m0 input lo hi
  (for_range 0 C (λ c s, for_range 0 H (λ y s, for_range 0 W (body c y) s) s)) grid_bytes.
Proof using Hsep Hb.
  apply emits_range; [done|]. intros c Hc. apply emits_range; [done|]. intros y Hy. apply emits_range; [done|].
  intros x Hx. apply Hb; lia.
Qed.
Lemma grid_row_length c y : 0 ≤ c < C → 0 ≤ y < H → Z.of_nat (length (concat ((λ x, v c y x) <$> seqZ 0 W))) = W * k.
Proof using HW Hk. intros. apply concat_uniform_length; [|done]. intros x Hx. apply Hk; lia. Qed.
Lemma grid_plane_length c : 0 ≤ c < C →
  Z.of_nat (length (concat ((λ y, concat ((λ x, v c y x) <$> seqZ 0 W)) <$> seqZ 0 H))) = H * (W * k).
Proof using HH HW Hk. intros. apply concat_uniform_length; [|done]. intros y Hy. apply grid_row_length; lia. Qed.
Lemma grid_bytes_length : Z.of_nat (length grid_bytes) = C * (H * (W * k)).
Proof using HC HH HW Hk. apply concat_uniform_length; [|done]. intros c Hc. apply grid_plane_length; lia. Qed.
Lemma grid_bytes_lookup c y x j : 0 ≤ c < C → 0 ≤ y < H → 0 ≤ x < W → 0 ≤ j < k →
  grid_bytes !!! Z.to_nat (((c * H + y) * W + x) * k + j) = v c y x !!! Z.to_nat j.
Proof using HC HH HW Hk.
  intros Hc Hy Hx Hj. unfold grid_bytes.
  assert (0 ≤ x * k + j < W * k) as H1 by nia. assert (0 ≤ y * (W * k) + (x * k + j) < H * (W * k)) as H2 by nia.
  replace (((c * H + y) * W + x) * k + j) with (c * (H * (W * k)) + (y * (W * k) + (x * k + j))) by lia.
  rewrite (concat_uniform_lookup _ 0 C (H * (W * k))) by (try done; intros; apply grid_plane_length; lia).
  rewrite (concat_uniform_lookup _ 0 H (W * k)) by (try done; intros; apply grid_row_length; lia).
  rewrite (concat_uniform_lookup _ 0 W k) by (try done; intros; apply Hk; lia). done.
Qed.
(** What the loops leave in memory, at the byte they leave it *)
Lemma grid_result d m : lo ≤ d → d + C * (H * (W * k)) ≤ hi → agree m0 input m →
  let m' := snd (for_range 0 C (λ c s, for_range 0 H (λ y s, for_range 0 W (body c y) s) s) (d, m)) in
  (∀ c y x j, 0 ≤ c < C → 0 ≤ y < H → 0 ≤ x < W → 0 ≤ j < k →
    m' (d + ((c * H + y) * W + x) * k + j) = v c y x !!! Z.to_nat j) ∧
  (∀ q, q < d ∨ d + C * (H * (W * k)) ≤ q → m' q = m q).
Proof using Hsep Hb HC HH HW Hk.
  intros Hd He Hm. cbv zeta. destruct (emits_grid d m) as (m' & -> & E); [done|by rewrite grid_bytes_length|done|]. cbn [snd].
  split.
  - intros c y x j Hc Hy Hx Hj. rewrite E, mem_write_spec, grid_bytes_length.
    assert (0 ≤ x * k + j < W * k) as H1 by nia. assert (0 ≤ y * (W * k) + (x * k + j) < H * (W * k)) as H2 by nia.
    assert (0 ≤ c * (H * (W * k)) + (y * (W * k) + (x * k + j)) < C * (H * (W * k))) as H3 by nia.
    rewrite decide_True by lia. rewrite <-grid_bytes_lookup by done. f_equal. lia.
  - intros q Hq. rewrite E. apply mem_write_out. rewrite grid_bytes_length. lia.
Qed.
End grid.
