(* ===== verification/Float64.v ===== *)
(** * C doubles

    The clock driver computes in [double].  A [double] is IEEE 754 binary64,
    which the Standard Library specifies executably ([SpecFloat] with 53 bits of
    precision and exponent bound 1024, round to nearest even); the operations
    below are its instances.  A conversion to an integer type is [None] where C
    leaves it undefined (not a number, infinite, out of range). *)

From S2P Require Import Prelude.
From Stdlib Require Import SpecFloat.

Definition double : Set := spec_float.

Definition d_of_Z (x : Z) : double := binary_normalize 53 1024 x 0 false.
Definition d_add (x y : double) : double := SFadd 53 1024 x y.
Definition d_sub (x y : double) : double := SFsub 53 1024 x y.
Definition d_mul (x y : double) : double := SFmul 53 1024 x y.
Definition d_div (x y : double) : double := SFdiv 53 1024 x y.
Definition d_abs (x : double) : double := SFabs x.
Definition d_lt (x y : double) : bool := SFltb x y.
Definition d_le (x y : double) : bool := SFleb x y.
Definition d_gt (x y : double) : bool := SFltb y x.
Definition d_ge (x y : double) : bool := SFleb y x.

(** The exact value of a finite double is [m * 2 ^ e]. *)
Definition d_exact (x : double) : option (Z * Z) :=
  match x with
  | S754_zero _ => Some (0, 0)
  | S754_finite false m e => Some (Z.pos m, e)
  | S754_finite true m e => Some (Z.neg m, e)
  | _ => None
  end.

(** The roundings to an integral value: towards minus infinity, towards plus
    infinity, towards zero (the C conversion) and to nearest, ties to even. *)
Definition floor_scaled (m e : Z) : Z :=
  if 0 <=? e then m * 2 ^ e else m / 2 ^ (- e).
Definition d_floor (x : double) : option Z :=
  '(m, e) ← d_exact x; Some (floor_scaled m e).
Definition d_ceil (x : double) : option Z :=
  '(m, e) ← d_exact x; Some (- floor_scaled (- m) e).
Definition d_trunc (x : double) : option Z :=
  '(m, e) ← d_exact x;
  Some (if 0 <=? m then floor_scaled m e else - floor_scaled (- m) e).
Definition d_rint (x : double) : option Z :=
  '(m, e) ← d_exact x;
  Some (if 0 <=? e then m * 2 ^ e else
    let d := 2 ^ (- e) in
    let q := m / d in
    let r2 := 2 * (m mod d) in
    if r2 <? d then q else if d <? r2 then q + 1
    else if Z.even q then q else q + 1).

(** Conversion of an integral value to [int] and to [uint32_t]. *)
Definition to_int (o : option Z) : res Z :=
  match o with
  | Some z => if (- 2 ^ 31 <=? z) && (z <? 2 ^ 31) then Ok z else Fault FUB
  | None => Fault FUB
  end.
Definition to_uint32 (o : option Z) : res Z :=
  match o with
  | Some z => if (0 <=? z) && (z <? 2 ^ 32) then Ok z else Fault FUB
  | None => Fault FUB
  end.

Lemma to_int_Ok o z : to_int o = Ok z → o = Some z ∧ - 2 ^ 31 ≤ z < 2 ^ 31.
Proof.
  destruct o as [z'|]; simpl; [|done]. case_match eqn:E; [|done].
  apply andb_true_iff in E as [?%Z.leb_le ?%Z.ltb_lt]. naive_solver.
Qed.

Lemma to_uint32_Ok o z : to_uint32 o = Ok z → o = Some z ∧ in_width 32 z.
Proof.
  destruct o as [z'|]; simpl; [|done]. case_match eqn:E; [|done].
  apply andb_true_iff in E as [?%Z.leb_le ?%Z.ltb_lt]. naive_solver.
Qed.

(** ** Signs

    Quotients and products of doubles without a sign bit have none, so their
    integral parts are not negative. *)
Definition d_unsigned (x : double) : Prop :=
  match x with
  | S754_zero s | S754_infinity s | S754_finite s _ _ => s = false
  | S754_nan => True
  end.

Lemma binary_round_aux_unsigned m e l :
  d_unsigned (binary_round_aux 53 1024 false m e l).
Proof.
  unfold binary_round_aux. destruct (shr_fexp _ _ _ _ _) as [??].
  destruct (shr_fexp _ _ _ _ _) as [??]. by repeat case_match.
Qed.
#[local] Hint Resolve binary_round_aux_unsigned : core.

Lemma d_of_Z_unsigned x : 0 ≤ x → d_unsigned (d_of_Z x).
Proof.
  intros. unfold d_of_Z, binary_normalize, binary_round.
  destruct x; simpl; [done| |lia]. by case_match.
Qed.

Lemma d_div_unsigned x y : d_unsigned x → d_unsigned y → d_unsigned (d_div x y).
Proof.
  intros Hx Hy. unfold d_div, SFdiv.
  destruct x as [[]|[]| |[] ??], y as [[]|[]| |[] ??]; try done.
  by destruct (SFdiv_core_binary _ _ _ _ _ _) as [[??]?].
Qed.

Lemma d_mul_unsigned x y : d_unsigned x → d_unsigned y → d_unsigned (d_mul x y).
Proof.
  intros Hx Hy. unfold d_mul, SFmul.
  destruct x as [[]|[]| |[] ??], y as [[]|[]| |[] ??]; done.
Qed.

Lemma floor_scaled_nonneg m e : 0 ≤ m → 0 ≤ floor_scaled m e.
Proof.
  intros. unfold floor_scaled. destruct (Z.leb_spec 0 e).
  - apply Z.mul_nonneg_nonneg; [done|]. by apply Z.pow_nonneg.
  - apply Z.div_pos; [done|]. by apply Z.pow_pos_nonneg; lia.
Qed.

Lemma d_exact_unsigned x m e : d_unsigned x → d_exact x = Some (m, e) → 0 ≤ m.
Proof. destruct x as [[]| | |[] ??]; simpl; naive_solver lia. Qed.

Lemma d_floor_nonneg x z : d_unsigned x → d_floor x = Some z → 0 ≤ z.
Proof.
  unfold d_floor. intros Hx Hf. destruct (d_exact x) as [[m e]|] eqn:E; simplify_eq/=.
  by eapply floor_scaled_nonneg, d_exact_unsigned.
Qed.

(** Keep the floating-point operations folded in proofs. *)
Arguments d_of_Z : simpl never.
Arguments d_add : simpl never.
Arguments d_sub : simpl never.
Arguments d_mul : simpl never.
Arguments d_div : simpl never.
Arguments d_lt : simpl never.
Arguments d_le : simpl never.
Arguments d_gt : simpl never.
Arguments d_ge : simpl never.
Arguments d_abs : simpl never.
