(* ===== verification/Float32.v ===== *)
(** * C floats

    [float] is IEEE 754 binary32: the specification of the Standard Library ([SpecFloat])
    with 24 bits of precision and exponent bound 128, as [Float64] is for [double].  Floats
    live in memory as words of 32 bits; every NaN is stored as the canonical one, as the
    processor does.  A product and a sum that the source writes are two operations (the
    compiler may fuse them, which the C standard leaves open). *)

From S2P Require Import Prelude Words Float64.
From Stdlib Require Import SpecFloat.

Definition float : Set := spec_float.
Definition f_of_Z (x : Z) : float := binary_normalize 24 128 x 0 false.
Definition f_add (x y : float) : float := SFadd 24 128 x y.
Definition f_sub (x y : float) : float := SFsub 24 128 x y.
Definition f_mul (x y : float) : float := SFmul 24 128 x y.
Definition f_div (x y : float) : float := SFdiv 24 128 x y.
Definition f_sqrt (x : float) : float := SFsqrt 24 128 x.
Definition f_opp (x : float) : float := SFopp x.
Definition f_lt (x y : float) : bool := SFltb x y.
(** [fmaxf]: the other operand when one is not a number *)
Definition f_max (x y : float) : float :=
  match x, y with
  | S754_nan, _ => y
  | _, S754_nan => x
  | _, _ => if f_lt x y then y else x
  end.
Definition f_neg (x : float) : bool :=
  match x with S754_zero s | S754_infinity s | S754_finite s _ _ => s | S754_nan => false end.
(** A float with an integral value [z], of which a zero keeps the sign [s] *)
Definition f_integral (s : bool) (z : Z) : float := if z =? 0 then S754_zero s else f_of_Z z.
Definition floorf (x : float) : float :=
  match x with S754_finite s m e => f_integral s (floor_scaled (if s then Z.neg m else Z.pos m) e) | _ => x end.
(** To the nearest integer, halves away from zero *)
Definition roundf (x : float) : float :=
  match x with
  | S754_finite s m e =>
      let a := if 0 <=? e then Z.pos m * 2 ^ e else (2 * Z.pos m + 2 ^ (- e)) / (2 * 2 ^ (- e)) in
      f_integral s (if s then - a else a)
  | _ => x
  end.
(** Conversions to integers cut the fraction off; out of range they are undefined. *)
Definition f_to_int (x : float) : res Z := to_int (d_trunc x).
Definition f_to_uint32 (x : float) : res Z := to_uint32 (d_trunc x).

(** ** Floats in memory *)
Definition f_of_bits (w : Z) : float :=
  let s := Z.testbit w 31 in
  let e := w / 2 ^ 23 mod 2 ^ 8 in
  let m := w mod 2 ^ 23 in
  if e =? 255 then if m =? 0 then S754_infinity s else S754_nan
  else if e =? 0 then match m with Z.pos p => S754_finite s p (-149) | _ => S754_zero s end
  else match m + 2 ^ 23 with Z.pos p => S754_finite s p (e - 150) | _ => S754_nan end.
Definition f_to_bits (x : float) : Z :=
  let sign s := if s : bool then 2 ^ 31 else 0 in
  match x with
  | S754_zero s => sign s
  | S754_infinity s => sign s + 255 * 2 ^ 23
  | S754_nan => 0x7fc00000
  | S754_finite s m e => sign s + (if Z.pos m <? 2 ^ 23 then Z.pos m else (e + 150) * 2 ^ 23 + (Z.pos m - 2 ^ 23))
  end.
Definition ld_f (m : Z → Z) (a : Z) : float := f_of_bits (word_at m a).
Definition st_f (a : Z) (x : float) (m : Z → Z) : Z → Z := mem_write m a (word_bytes (f_to_bits x)).

(** A word that is not a NaN survives. *)
Lemma f_bits_roundtrip w : in_width 32 w → f_of_bits w ≠ S754_nan → f_to_bits (f_of_bits w) = w.
Proof.
  intros Hw. unfold f_of_bits. set (e := w / 2 ^ 23 mod 2 ^ 8). set (m := w mod 2 ^ 23).
  assert (Ew : w = (if Z.testbit w 31 then 2 ^ 31 else 0) + e * 2 ^ 23 + m).
  { assert (Z.b2z (Z.testbit w 31) = w / 2 ^ 31) as Hb.
    { rewrite Z.testbit_spec' by lia. apply Z.mod_small. Z.div_mod_to_equations; lia. }
    replace (if Z.testbit w 31 then 2 ^ 31 else 0) with (2 ^ 31 * Z.b2z (Z.testbit w 31)) by (by destruct (Z.testbit w 31)).
    rewrite Hb. unfold e, m. Z.div_mod_to_equations; lia. }
  assert (0 ≤ e < 256) as He by (apply Z.mod_pos_bound; lia). assert (0 ≤ m < 2 ^ 23) as Hm by (apply Z.mod_pos_bound; lia).
  destruct (Z.eqb_spec e 255) as [E|]; [destruct (Z.eqb_spec m 0) as [E0|]; [intros _; cbn [f_to_bits]; lia|done]|].
  destruct (Z.eqb_spec e 0) as [E|].
  - intros _. destruct m as [|p|p]; cbn [f_to_bits]; [lia| |lia]. rewrite (proj2 (Z.ltb_lt _ _)) by lia. lia.
  - destruct (m + 2 ^ 23) as [|p|p] eqn:Ep; [lia| |lia]. intros _. cbn [f_to_bits].
    rewrite (proj2 (Z.ltb_ge _ _)) by lia. lia.
Qed.

(** Keep the operations folded in proofs. *)
Arguments f_of_Z : simpl never.
Arguments f_add : simpl never.
Arguments f_sub : simpl never.
Arguments f_mul : simpl never.
Arguments f_div : simpl never.
Arguments f_sqrt : simpl never.
Arguments f_lt : simpl never.
Arguments f_max : simpl never.
Arguments floorf : simpl never.
Arguments roundf : simpl never.
Arguments f_of_bits : simpl never.
Arguments f_to_bits : simpl never.
