(* ===== verification/SysctlRegs.v ===== *)
(** * System controller: register file and enumerations

    The register map of k210_sysctl.h: the 32 words of [sysctl_t] and the bit
    fields its structures declare, least significant field first, and the
    enumerations the driver switches on. *)

From S2P Require Import Prelude.

(** ** The register words of [sysctl_t], in address order *)
Inductive sysctl_reg : Set :=
| R_git_id
| R_clk_freq
| R_pll0
| R_pll1
| R_pll2
| R_resv5
| R_pll_lock
| R_rom_error
| R_clk_sel0
| R_clk_sel1
| R_clk_en_cent
| R_clk_en_peri
| R_soft_reset
| R_peri_reset
| R_clk_th0
| R_clk_th1
| R_clk_th2
| R_clk_th3
| R_clk_th4
| R_clk_th5
| R_clk_th6
| R_misc
| R_peri
| R_spi_sleep
| R_reset_status
| R_dma_sel0
| R_dma_sel1
| R_power_sel
| R_resv28
| R_resv29
| R_resv30
| R_resv31.

Definition sysctl_reg_index (r : sysctl_reg) : Z :=
  match r with
  | R_git_id => 0
  | R_clk_freq => 1
  | R_pll0 => 2
  | R_pll1 => 3
  | R_pll2 => 4
  | R_resv5 => 5
  | R_pll_lock => 6
  | R_rom_error => 7
  | R_clk_sel0 => 8
  | R_clk_sel1 => 9
  | R_clk_en_cent => 10
  | R_clk_en_peri => 11
  | R_soft_reset => 12
  | R_peri_reset => 13
  | R_clk_th0 => 14
  | R_clk_th1 => 15
  | R_clk_th2 => 16
  | R_clk_th3 => 17
  | R_clk_th4 => 18
  | R_clk_th5 => 19
  | R_clk_th6 => 20
  | R_misc => 21
  | R_peri => 22
  | R_spi_sleep => 23
  | R_reset_status => 24
  | R_dma_sel0 => 25
  | R_dma_sel1 => 26
  | R_power_sel => 27
  | R_resv28 => 28
  | R_resv29 => 29
  | R_resv30 => 30
  | R_resv31 => 31
  end.

Definition sysctl_reg_of_index (i : Z) : option sysctl_reg :=
  match i with
  | 0 => Some R_git_id
  | 1 => Some R_clk_freq
  | 2 => Some R_pll0
  | 3 => Some R_pll1
  | 4 => Some R_pll2
  | 5 => Some R_resv5
  | 6 => Some R_pll_lock
  | 7 => Some R_rom_error
  | 8 => Some R_clk_sel0
  | 9 => Some R_clk_sel1
  | 10 => Some R_clk_en_cent
  | 11 => Some R_clk_en_peri
  | 12 => Some R_soft_reset
  | 13 => Some R_peri_reset
  | 14 => Some R_clk_th0
  | 15 => Some R_clk_th1
  | 16 => Some R_clk_th2
  | 17 => Some R_clk_th3
  | 18 => Some R_clk_th4
  | 19 => Some R_clk_th5
  | 20 => Some R_clk_th6
  | 21 => Some R_misc
  | 22 => Some R_peri
  | 23 => Some R_spi_sleep
  | 24 => Some R_reset_status
  | 25 => Some R_dma_sel0
  | 26 => Some R_dma_sel1
  | 27 => Some R_power_sel
  | 28 => Some R_resv28
  | 29 => Some R_resv29
  | 30 => Some R_resv30
  | 31 => Some R_resv31
  | _ => None
  end.

#[export] Instance sysctl_reg_eq_dec : EqDecision sysctl_reg.
Proof. apply (enum_eq_dec sysctl_reg_index sysctl_reg_of_index). by intros []. Defined.

(** [sysctl_git_id_t] *)
Definition git_id_git_id := Field R_git_id (BF 0 32).

(** [sysctl_clk_freq_t] *)
Definition clk_freq_clk_freq := Field R_clk_freq (BF 0 32).

(** [sysctl_pll0_t] *)
Definition pll0_clkr0 := Field R_pll0 (BF 0 4).
Definition pll0_clkf0 := Field R_pll0 (BF 4 6).
Definition pll0_clkod0 := Field R_pll0 (BF 10 4).
Definition pll0_bwadj0 := Field R_pll0 (BF 14 6).
Definition pll0_pll_reset0 := Field R_pll0 (BF 20 1).
Definition pll0_pll_pwrd0 := Field R_pll0 (BF 21 1).
Definition pll0_pll_intfb0 := Field R_pll0 (BF 22 1).
Definition pll0_pll_bypass0 := Field R_pll0 (BF 23 1).
Definition pll0_pll_test0 := Field R_pll0 (BF 24 1).
Definition pll0_pll_out_en0 := Field R_pll0 (BF 25 1).
Definition pll0_pll_test_en := Field R_pll0 (BF 26 1).

(** [sysctl_pll1_t] *)
Definition pll1_clkr1 := Field R_pll1 (BF 0 4).
Definition pll1_clkf1 := Field R_pll1 (BF 4 6).
Definition pll1_clkod1 := Field R_pll1 (BF 10 4).
Definition pll1_bwadj1 := Field R_pll1 (BF 14 6).
Definition pll1_pll_reset1 := Field R_pll1 (BF 20 1).
Definition pll1_pll_pwrd1 := Field R_pll1 (BF 21 1).
Definition pll1_pll_intfb1 := Field R_pll1 (BF 22 1).
Definition pll1_pll_bypass1 := Field R_pll1 (BF 23 1).
Definition pll1_pll_test1 := Field R_pll1 (BF 24 1).
Definition pll1_pll_out_en1 := Field R_pll1 (BF 25 1).

(** [sysctl_pll2_t] *)
Definition pll2_clkr2 := Field R_pll2 (BF 0 4).
Definition pll2_clkf2 := Field R_pll2 (BF 4 6).
Definition pll2_clkod2 := Field R_pll2 (BF 10 4).
Definition pll2_bwadj2 := Field R_pll2 (BF 14 6).
Definition pll2_pll_reset2 := Field R_pll2 (BF 20 1).
Definition pll2_pll_pwrd2 := Field R_pll2 (BF 21 1).
Definition pll2_pll_intfb2 := Field R_pll2 (BF 22 1).
Definition pll2_pll_bypass2 := Field R_pll2 (BF 23 1).
Definition pll2_pll_test2 := Field R_pll2 (BF 24 1).
Definition pll2_pll_out_en2 := Field R_pll2 (BF 25 1).
Definition pll2_pll_ckin_sel2 := Field R_pll2 (BF 26 2).

(** [sysctl_pll_lock_t] *)
Definition pll_lock_pll_lock0 := Field R_pll_lock (BF 0 2).
Definition pll_lock_pll_slip_clear0 := Field R_pll_lock (BF 2 1).
Definition pll_lock_test_clk_out0 := Field R_pll_lock (BF 3 1).
Definition pll_lock_pll_lock1 := Field R_pll_lock (BF 8 2).
Definition pll_lock_pll_slip_clear1 := Field R_pll_lock (BF 10 1).
Definition pll_lock_test_clk_out1 := Field R_pll_lock (BF 11 1).
Definition pll_lock_pll_lock2 := Field R_pll_lock (BF 16 2).
Definition pll_lock_pll_slip_clear2 := Field R_pll_lock (BF 18 1).
Definition pll_lock_test_clk_out2 := Field R_pll_lock (BF 19 1).

(** [sysctl_rom_error_t] *)
Definition rom_error_rom_mul_error := Field R_rom_error (BF 0 1).
Definition rom_error_rom_one_error := Field R_rom_error (BF 1 1).

(** [sysctl_clk_sel0_t] *)
Definition clk_sel0_aclk_sel := Field R_clk_sel0 (BF 0 1).
Definition clk_sel0_aclk_divider_sel := Field R_clk_sel0 (BF 1 2).
Definition clk_sel0_apb0_clk_sel := Field R_clk_sel0 (BF 3 3).
Definition clk_sel0_apb1_clk_sel := Field R_clk_sel0 (BF 6 3).
Definition clk_sel0_apb2_clk_sel := Field R_clk_sel0 (BF 9 3).
Definition clk_sel0_spi3_clk_sel := Field R_clk_sel0 (BF 12 1).
Definition clk_sel0_timer0_clk_sel := Field R_clk_sel0 (BF 13 1).
Definition clk_sel0_timer1_clk_sel := Field R_clk_sel0 (BF 14 1).
Definition clk_sel0_timer2_clk_sel := Field R_clk_sel0 (BF 15 1).

(** [sysctl_clk_sel1_t] *)
Definition clk_sel1_spi3_sample_clk_sel := Field R_clk_sel1 (BF 0 1).

(** [sysctl_clk_en_cent_t] *)
Definition clk_en_cent_cpu_clk_en := Field R_clk_en_cent (BF 0 1).
Definition clk_en_cent_sram0_clk_en := Field R_clk_en_cent (BF 1 1).
Definition clk_en_cent_sram1_clk_en := Field R_clk_en_cent (BF 2 1).
Definition clk_en_cent_apb0_clk_en := Field R_clk_en_cent (BF 3 1).
Definition clk_en_cent_apb1_clk_en := Field R_clk_en_cent (BF 4 1).
Definition clk_en_cent_apb2_clk_en := Field R_clk_en_cent (BF 5 1).

(** [sysctl_clk_en_peri_t] *)
Definition clk_en_peri_rom_clk_en := Field R_clk_en_peri (BF 0 1).
Definition clk_en_peri_dma_clk_en := Field R_clk_en_peri (BF 1 1).
Definition clk_en_peri_ai_clk_en := Field R_clk_en_peri (BF 2 1).
Definition clk_en_peri_dvp_clk_en := Field R_clk_en_peri (BF 3 1).
Definition clk_en_peri_fft_clk_en := Field R_clk_en_peri (BF 4 1).
Definition clk_en_peri_gpio_clk_en := Field R_clk_en_peri (BF 5 1).
Definition clk_en_peri_spi0_clk_en := Field R_clk_en_peri (BF 6 1).
Definition clk_en_peri_spi1_clk_en := Field R_clk_en_peri (BF 7 1).
Definition clk_en_peri_spi2_clk_en := Field R_clk_en_peri (BF 8 1).
Definition clk_en_peri_spi3_clk_en := Field R_clk_en_peri (BF 9 1).
Definition clk_en_peri_i2s0_clk_en := Field R_clk_en_peri (BF 10 1).
Definition clk_en_peri_i2s1_clk_en := Field R_clk_en_peri (BF 11 1).
Definition clk_en_peri_i2s2_clk_en := Field R_clk_en_peri (BF 12 1).
Definition clk_en_peri_i2c0_clk_en := Field R_clk_en_peri (BF 13 1).
Definition clk_en_peri_i2c1_clk_en := Field R_clk_en_peri (BF 14 1).
Definition clk_en_peri_i2c2_clk_en := Field R_clk_en_peri (BF 15 1).
Definition clk_en_peri_uart1_clk_en := Field R_clk_en_peri (BF 16 1).
Definition clk_en_peri_uart2_clk_en := Field R_clk_en_peri (BF 17 1).
Definition clk_en_peri_uart3_clk_en := Field R_clk_en_peri (BF 18 1).
Definition clk_en_peri_aes_clk_en := Field R_clk_en_peri (BF 19 1).
Definition clk_en_peri_fpioa_clk_en := Field R_clk_en_peri (BF 20 1).
Definition clk_en_peri_timer0_clk_en := Field R_clk_en_peri (BF 21 1).
Definition clk_en_peri_timer1_clk_en := Field R_clk_en_peri (BF 22 1).
Definition clk_en_peri_timer2_clk_en := Field R_clk_en_peri (BF 23 1).
Definition clk_en_peri_wdt0_clk_en := Field R_clk_en_peri (BF 24 1).
Definition clk_en_peri_wdt1_clk_en := Field R_clk_en_peri (BF 25 1).
Definition clk_en_peri_sha_clk_en := Field R_clk_en_peri (BF 26 1).
Definition clk_en_peri_otp_clk_en := Field R_clk_en_peri (BF 27 1).
Definition clk_en_peri_rtc_clk_en := Field R_clk_en_peri (BF 29 1).

(** [sysctl_soft_reset_t] *)
Definition soft_reset_soft_reset := Field R_soft_reset (BF 0 1).

(** [sysctl_peri_reset_t] *)
Definition peri_reset_rom_reset := Field R_peri_reset (BF 0 1).
Definition peri_reset_dma_reset := Field R_peri_reset (BF 1 1).
Definition peri_reset_ai_reset := Field R_peri_reset (BF 2 1).
Definition peri_reset_dvp_reset := Field R_peri_reset (BF 3 1).
Definition peri_reset_fft_reset := Field R_peri_reset (BF 4 1).
Definition peri_reset_gpio_reset := Field R_peri_reset (BF 5 1).
Definition peri_reset_spi0_reset := Field R_peri_reset (BF 6 1).
Definition peri_reset_spi1_reset := Field R_peri_reset (BF 7 1).
Definition peri_reset_spi2_reset := Field R_peri_reset (BF 8 1).
Definition peri_reset_spi3_reset := Field R_peri_reset (BF 9 1).
Definition peri_reset_i2s0_reset := Field R_peri_reset (BF 10 1).
Definition peri_reset_i2s1_reset := Field R_peri_reset (BF 11 1).
Definition peri_reset_i2s2_reset := Field R_peri_reset (BF 12 1).
Definition peri_reset_i2c0_reset := Field R_peri_reset (BF 13 1).
Definition peri_reset_i2c1_reset := Field R_peri_reset (BF 14 1).
Definition peri_reset_i2c2_reset := Field R_peri_reset (BF 15 1).
Definition peri_reset_uart1_reset := Field R_peri_reset (BF 16 1).
Definition peri_reset_uart2_reset := Field R_peri_reset (BF 17 1).
Definition peri_reset_uart3_reset := Field R_peri_reset (BF 18 1).
Definition peri_reset_aes_reset := Field R_peri_reset (BF 19 1).
Definition peri_reset_fpioa_reset := Field R_peri_reset (BF 20 1).
Definition peri_reset_timer0_reset := Field R_peri_reset (BF 21 1).
Definition peri_reset_timer1_reset := Field R_peri_reset (BF 22 1).
Definition peri_reset_timer2_reset := Field R_peri_reset (BF 23 1).
Definition peri_reset_wdt0_reset := Field R_peri_reset (BF 24 1).
Definition peri_reset_wdt1_reset := Field R_peri_reset (BF 25 1).
Definition peri_reset_sha_reset := Field R_peri_reset (BF 26 1).
Definition peri_reset_rtc_reset := Field R_peri_reset (BF 29 1).

(** [sysctl_clk_th0_t] *)
Definition clk_th0_sram0_gclk_threshold := Field R_clk_th0 (BF 0 4).
Definition clk_th0_sram1_gclk_threshold := Field R_clk_th0 (BF 4 4).
Definition clk_th0_ai_gclk_threshold := Field R_clk_th0 (BF 8 4).
Definition clk_th0_dvp_gclk_threshold := Field R_clk_th0 (BF 12 4).
Definition clk_th0_rom_gclk_threshold := Field R_clk_th0 (BF 16 4).

(** [sysctl_clk_th1_t] *)
Definition clk_th1_spi0_clk_threshold := Field R_clk_th1 (BF 0 8).
Definition clk_th1_spi1_clk_threshold := Field R_clk_th1 (BF 8 8).
Definition clk_th1_spi2_clk_threshold := Field R_clk_th1 (BF 16 8).
Definition clk_th1_spi3_clk_threshold := Field R_clk_th1 (BF 24 8).

(** [sysctl_clk_th2_t] *)
Definition clk_th2_timer0_clk_threshold := Field R_clk_th2 (BF 0 8).
Definition clk_th2_timer1_clk_threshold := Field R_clk_th2 (BF 8 8).
Definition clk_th2_timer2_clk_threshold := Field R_clk_th2 (BF 16 8).

(** [sysctl_clk_th3_t] *)
Definition clk_th3_i2s0_clk_threshold := Field R_clk_th3 (BF 0 16).
Definition clk_th3_i2s1_clk_threshold := Field R_clk_th3 (BF 16 16).

(** [sysctl_clk_th4_t] *)
Definition clk_th4_i2s2_clk_threshold := Field R_clk_th4 (BF 0 16).
Definition clk_th4_i2s0_mclk_threshold := Field R_clk_th4 (BF 16 8).
Definition clk_th4_i2s1_mclk_threshold := Field R_clk_th4 (BF 24 8).

(** [sysctl_clk_th5_t] *)
Definition clk_th5_i2s2_mclk_threshold := Field R_clk_th5 (BF 0 8).
Definition clk_th5_i2c0_clk_threshold := Field R_clk_th5 (BF 8 8).
Definition clk_th5_i2c1_clk_threshold := Field R_clk_th5 (BF 16 8).
Definition clk_th5_i2c2_clk_threshold := Field R_clk_th5 (BF 24 8).

(** [sysctl_clk_th6_t] *)
Definition clk_th6_wdt0_clk_threshold := Field R_clk_th6 (BF 0 8).
Definition clk_th6_wdt1_clk_threshold := Field R_clk_th6 (BF 8 8).

(** [sysctl_misc_t] *)
Definition misc_debug_sel := Field R_misc (BF 0 6).
Definition misc_spi_dvp_data_enable := Field R_misc (BF 10 1).

(** [sysctl_peri_t] *)
Definition peri_timer0_pause := Field R_peri (BF 0 1).
Definition peri_timer1_pause := Field R_peri (BF 1 1).
Definition peri_timer2_pause := Field R_peri (BF 2 1).
Definition peri_timer3_pause := Field R_peri (BF 3 1).
Definition peri_timer4_pause := Field R_peri (BF 4 1).
Definition peri_timer5_pause := Field R_peri (BF 5 1).
Definition peri_timer6_pause := Field R_peri (BF 6 1).
Definition peri_timer7_pause := Field R_peri (BF 7 1).
Definition peri_timer8_pause := Field R_peri (BF 8 1).
Definition peri_timer9_pause := Field R_peri (BF 9 1).
Definition peri_timer10_pause := Field R_peri (BF 10 1).
Definition peri_timer11_pause := Field R_peri (BF 11 1).
Definition peri_spi0_xip_en := Field R_peri (BF 12 1).
Definition peri_spi1_xip_en := Field R_peri (BF 13 1).
Definition peri_spi2_xip_en := Field R_peri (BF 14 1).
Definition peri_spi3_xip_en := Field R_peri (BF 15 1).
Definition peri_spi0_clk_bypass := Field R_peri (BF 16 1).
Definition peri_spi1_clk_bypass := Field R_peri (BF 17 1).
Definition peri_spi2_clk_bypass := Field R_peri (BF 18 1).
Definition peri_i2s0_clk_bypass := Field R_peri (BF 19 1).
Definition peri_i2s1_clk_bypass := Field R_peri (BF 20 1).
Definition peri_i2s2_clk_bypass := Field R_peri (BF 21 1).
Definition peri_jtag_clk_bypass := Field R_peri (BF 22 1).
Definition peri_dvp_clk_bypass := Field R_peri (BF 23 1).
Definition peri_debug_clk_bypass := Field R_peri (BF 24 1).

(** [sysctl_spi_sleep_t] *)
Definition spi_sleep_ssi0_sleep := Field R_spi_sleep (BF 0 1).
Definition spi_sleep_ssi1_sleep := Field R_spi_sleep (BF 1 1).
Definition spi_sleep_ssi2_sleep := Field R_spi_sleep (BF 2 1).
Definition spi_sleep_ssi3_sleep := Field R_spi_sleep (BF 3 1).

(** [sysctl_reset_status_t] *)
Definition reset_status_reset_sts_clr := Field R_reset_status (BF 0 1).
Definition reset_status_pin_reset_sts := Field R_reset_status (BF 1 1).
Definition reset_status_wdt0_reset_sts := Field R_reset_status (BF 2 1).
Definition reset_status_wdt1_reset_sts := Field R_reset_status (BF 3 1).
Definition reset_status_soft_reset_sts := Field R_reset_status (BF 4 1).

(** [sysctl_dma_sel0_t] *)
Definition dma_sel0_dma_sel0 := Field R_dma_sel0 (BF 0 6).
Definition dma_sel0_dma_sel1 := Field R_dma_sel0 (BF 6 6).
Definition dma_sel0_dma_sel2 := Field R_dma_sel0 (BF 12 6).
Definition dma_sel0_dma_sel3 := Field R_dma_sel0 (BF 18 6).
Definition dma_sel0_dma_sel4 := Field R_dma_sel0 (BF 24 6).

(** [sysctl_dma_sel1_t] *)
Definition dma_sel1_dma_sel5 := Field R_dma_sel1 (BF 0 6).

(** [sysctl_power_sel_t] *)
Definition power_sel_power_mode_sel0 := Field R_power_sel (BF 0 1).
Definition power_sel_power_mode_sel1 := Field R_power_sel (BF 1 1).
Definition power_sel_power_mode_sel2 := Field R_power_sel (BF 2 1).
Definition power_sel_power_mode_sel3 := Field R_power_sel (BF 3 1).
Definition power_sel_power_mode_sel4 := Field R_power_sel (BF 4 1).
Definition power_sel_power_mode_sel5 := Field R_power_sel (BF 5 1).
Definition power_sel_power_mode_sel6 := Field R_power_sel (BF 6 1).
Definition power_sel_power_mode_sel7 := Field R_power_sel (BF 7 1).

Definition sysctl_fields : list (field sysctl_reg) :=
  [git_id_git_id;
   clk_freq_clk_freq;
   pll0_clkr0;
   pll0_clkf0;
   pll0_clkod0;
   pll0_bwadj0;
   pll0_pll_reset0;
   pll0_pll_pwrd0;
   pll0_pll_intfb0;
   pll0_pll_bypass0;
   pll0_pll_test0;
   pll0_pll_out_en0;
   pll0_pll_test_en;
   pll1_clkr1;
   pll1_clkf1;
   pll1_clkod1;
   pll1_bwadj1;
   pll1_pll_reset1;
   pll1_pll_pwrd1;
   pll1_pll_intfb1;
   pll1_pll_bypass1;
   pll1_pll_test1;
   pll1_pll_out_en1;
   pll2_clkr2;
   pll2_clkf2;
   pll2_clkod2;
   pll2_bwadj2;
   pll2_pll_reset2;
   pll2_pll_pwrd2;
   pll2_pll_intfb2;
   pll2_pll_bypass2;
   pll2_pll_test2;
   pll2_pll_out_en2;
   pll2_pll_ckin_sel2;
   pll_lock_pll_lock0;
   pll_lock_pll_slip_clear0;
   pll_lock_test_clk_out0;
   pll_lock_pll_lock1;
   pll_lock_pll_slip_clear1;
   pll_lock_test_clk_out1;
   pll_lock_pll_lock2;
   pll_lock_pll_slip_clear2;
   pll_lock_test_clk_out2;
   rom_error_rom_mul_error;
   rom_error_rom_one_error;
   clk_sel0_aclk_sel;
   clk_sel0_aclk_divider_sel;
   clk_sel0_apb0_clk_sel;
   clk_sel0_apb1_clk_sel;
   clk_sel0_apb2_clk_sel;
   clk_sel0_spi3_clk_sel;
   clk_sel0_timer0_clk_sel;
   clk_sel0_timer1_clk_sel;
   clk_sel0_timer2_clk_sel;
   clk_sel1_spi3_sample_clk_sel;
   clk_en_cent_cpu_clk_en;
   clk_en_cent_sram0_clk_en;
   clk_en_cent_sram1_clk_en;
   clk_en_cent_apb0_clk_en;
   clk_en_cent_apb1_clk_en;
   clk_en_cent_apb2_clk_en;
   clk_en_peri_rom_clk_en;
   clk_en_peri_dma_clk_en;
   clk_en_peri_ai_clk_en;
   clk_en_peri_dvp_clk_en;
   clk_en_peri_fft_clk_en;
   clk_en_peri_gpio_clk_en;
   clk_en_peri_spi0_clk_en;
   clk_en_peri_spi1_clk_en;
   clk_en_peri_spi2_clk_en;
   clk_en_peri_spi3_clk_en;
   clk_en_peri_i2s0_clk_en;
   clk_en_peri_i2s1_clk_en;
   clk_en_peri_i2s2_clk_en;
   clk_en_peri_i2c0_clk_en;
   clk_en_peri_i2c1_clk_en;
   clk_en_peri_i2c2_clk_en;
   clk_en_peri_uart1_clk_en;
   clk_en_peri_uart2_clk_en;
   clk_en_peri_uart3_clk_en;
   clk_en_peri_aes_clk_en;
   clk_en_peri_fpioa_clk_en;
   clk_en_peri_timer0_clk_en;
   clk_en_peri_timer1_clk_en;
   clk_en_peri_timer2_clk_en;
   clk_en_peri_wdt0_clk_en;
   clk_en_peri_wdt1_clk_en;
   clk_en_peri_sha_clk_en;
   clk_en_peri_otp_clk_en;
   clk_en_peri_rtc_clk_en;
   soft_reset_soft_reset;
   peri_reset_rom_reset;
   peri_reset_dma_reset;
   peri_reset_ai_reset;
   peri_reset_dvp_reset;
   peri_reset_fft_reset;
   peri_reset_gpio_reset;
   peri_reset_spi0_reset;
   peri_reset_spi1_reset;
   peri_reset_spi2_reset;
   peri_reset_spi3_reset;
   peri_reset_i2s0_reset;
   peri_reset_i2s1_reset;
   peri_reset_i2s2_reset;
   peri_reset_i2c0_reset;
   peri_reset_i2c1_reset;
   peri_reset_i2c2_reset;
   peri_reset_uart1_reset;
   peri_reset_uart2_reset;
   peri_reset_uart3_reset;
   peri_reset_aes_reset;
   peri_reset_fpioa_reset;
   peri_reset_timer0_reset;
   peri_reset_timer1_reset;
   peri_reset_timer2_reset;
   peri_reset_wdt0_reset;
   peri_reset_wdt1_reset;
   peri_reset_sha_reset;
   peri_reset_rtc_reset;
   clk_th0_sram0_gclk_threshold;
   clk_th0_sram1_gclk_threshold;
   clk_th0_ai_gclk_threshold;
   clk_th0_dvp_gclk_threshold;
   clk_th0_rom_gclk_threshold;
   clk_th1_spi0_clk_threshold;
   clk_th1_spi1_clk_threshold;
   clk_th1_spi2_clk_threshold;
   clk_th1_spi3_clk_threshold;
   clk_th2_timer0_clk_threshold;
   clk_th2_timer1_clk_threshold;
   clk_th2_timer2_clk_threshold;
   clk_th3_i2s0_clk_threshold;
   clk_th3_i2s1_clk_threshold;
   clk_th4_i2s2_clk_threshold;
   clk_th4_i2s0_mclk_threshold;
   clk_th4_i2s1_mclk_threshold;
   clk_th5_i2s2_mclk_threshold;
   clk_th5_i2c0_clk_threshold;
   clk_th5_i2c1_clk_threshold;
   clk_th5_i2c2_clk_threshold;
   clk_th6_wdt0_clk_threshold;
   clk_th6_wdt1_clk_threshold;
   misc_debug_sel;
   misc_spi_dvp_data_enable;
   peri_timer0_pause;
   peri_timer1_pause;
   peri_timer2_pause;
   peri_timer3_pause;
   peri_timer4_pause;
   peri_timer5_pause;
   peri_timer6_pause;
   peri_timer7_pause;
   peri_timer8_pause;
   peri_timer9_pause;
   peri_timer10_pause;
   peri_timer11_pause;
   peri_spi0_xip_en;
   peri_spi1_xip_en;
   peri_spi2_xip_en;
   peri_spi3_xip_en;
   peri_spi0_clk_bypass;
   peri_spi1_clk_bypass;
   peri_spi2_clk_bypass;
   peri_i2s0_clk_bypass;
   peri_i2s1_clk_bypass;
   peri_i2s2_clk_bypass;
   peri_jtag_clk_bypass;
   peri_dvp_clk_bypass;
   peri_debug_clk_bypass;
   spi_sleep_ssi0_sleep;
   spi_sleep_ssi1_sleep;
   spi_sleep_ssi2_sleep;
   spi_sleep_ssi3_sleep;
   reset_status_reset_sts_clr;
   reset_status_pin_reset_sts;
   reset_status_wdt0_reset_sts;
   reset_status_wdt1_reset_sts;
   reset_status_soft_reset_sts;
   dma_sel0_dma_sel0;
   dma_sel0_dma_sel1;
   dma_sel0_dma_sel2;
   dma_sel0_dma_sel3;
   dma_sel0_dma_sel4;
   dma_sel1_dma_sel5;
   power_sel_power_mode_sel0;
   power_sel_power_mode_sel1;
   power_sel_power_mode_sel2;
   power_sel_power_mode_sel3;
   power_sel_power_mode_sel4;
   power_sel_power_mode_sel5;
   power_sel_power_mode_sel6;
   power_sel_power_mode_sel7].

(** The layout is well formed: every field lies inside its word, and the
    fields of one word do not overlap. *)
Lemma sysctl_fields_wf f : f ∈ sysctl_fields → f_wf f.
Proof. revert f. apply Forall_forall. by apply (bool_decide_unpack _). Qed.

(** [sysctl_pll_t] *)
Inductive sysctl_pll : Set :=
| SYSCTL_PLL0
| SYSCTL_PLL1
| SYSCTL_PLL2.
Definition SYSCTL_PLL_MAX : Z := 3.
Definition sysctl_pll_to_Z (x : sysctl_pll) : Z :=
  match x with
  | SYSCTL_PLL0 => 0
  | SYSCTL_PLL1 => 1
  | SYSCTL_PLL2 => 2
  end.
Definition sysctl_pll_of_Z (z : Z) : option sysctl_pll :=
  match z with
  | 0 => Some SYSCTL_PLL0
  | 1 => Some SYSCTL_PLL1
  | 2 => Some SYSCTL_PLL2
  | _ => None
  end.
#[export] Instance sysctl_pll_eq_dec : EqDecision sysctl_pll.
Proof. apply (enum_eq_dec sysctl_pll_to_Z sysctl_pll_of_Z). by intros []. Defined.
Lemma sysctl_pll_of_to_Z x : sysctl_pll_of_Z (sysctl_pll_to_Z x) = Some x.
Proof. by destruct x. Qed.
Lemma sysctl_pll_of_Z_Some z x : sysctl_pll_of_Z z = Some x → sysctl_pll_to_Z x = z.
Proof.
  unfold sysctl_pll_of_Z. intros H.
  repeat case_match; simplify_eq/=; done.
Qed.

(** [sysctl_clock_source_t] *)
Inductive sysctl_clock_source : Set :=
| SYSCTL_SOURCE_IN0
| SYSCTL_SOURCE_PLL0
| SYSCTL_SOURCE_PLL1
| SYSCTL_SOURCE_PLL2
| SYSCTL_SOURCE_ACLK.
Definition SYSCTL_SOURCE_MAX : Z := 5.
Definition sysctl_clock_source_to_Z (x : sysctl_clock_source) : Z :=
  match x with
  | SYSCTL_SOURCE_IN0 => 0
  | SYSCTL_SOURCE_PLL0 => 1
  | SYSCTL_SOURCE_PLL1 => 2
  | SYSCTL_SOURCE_PLL2 => 3
  | SYSCTL_SOURCE_ACLK => 4
  end.
Definition sysctl_clock_source_of_Z (z : Z) : option sysctl_clock_source :=
  match z with
  | 0 => Some SYSCTL_SOURCE_IN0
  | 1 => Some SYSCTL_SOURCE_PLL0
  | 2 => Some SYSCTL_SOURCE_PLL1
  | 3 => Some SYSCTL_SOURCE_PLL2
  | 4 => Some SYSCTL_SOURCE_ACLK
  | _ => None
  end.
#[export] Instance sysctl_clock_source_eq_dec : EqDecision sysctl_clock_source.
Proof. apply (enum_eq_dec sysctl_clock_source_to_Z sysctl_clock_source_of_Z). by intros []. Defined.
Lemma sysctl_clock_source_of_to_Z x : sysctl_clock_source_of_Z (sysctl_clock_source_to_Z x) = Some x.
Proof. by destruct x. Qed.
Lemma sysctl_clock_source_of_Z_Some z x : sysctl_clock_source_of_Z z = Some x → sysctl_clock_source_to_Z x = z.
Proof.
  unfold sysctl_clock_source_of_Z. intros H.
  repeat case_match; simplify_eq/=; done.
Qed.

(** [sysctl_clock_t] *)
Inductive sysctl_clock : Set :=
| SYSCTL_CLOCK_PLL0
| SYSCTL_CLOCK_PLL1
| SYSCTL_CLOCK_PLL2
| SYSCTL_CLOCK_CPU
| SYSCTL_CLOCK_SRAM0
| SYSCTL_CLOCK_SRAM1
| SYSCTL_CLOCK_APB0
| SYSCTL_CLOCK_APB1
| SYSCTL_CLOCK_APB2
| SYSCTL_CLOCK_ROM
| SYSCTL_CLOCK_DMA
| SYSCTL_CLOCK_AI
| SYSCTL_CLOCK_DVP
| SYSCTL_CLOCK_FFT
| SYSCTL_CLOCK_GPIO
| SYSCTL_CLOCK_SPI0
| SYSCTL_CLOCK_SPI1
| SYSCTL_CLOCK_SPI2
| SYSCTL_CLOCK_SPI3
| SYSCTL_CLOCK_I2S0
| SYSCTL_CLOCK_I2S1
| SYSCTL_CLOCK_I2S2
| SYSCTL_CLOCK_I2C0
| SYSCTL_CLOCK_I2C1
| SYSCTL_CLOCK_I2C2
| SYSCTL_CLOCK_UART1
| SYSCTL_CLOCK_UART2
| SYSCTL_CLOCK_UART3
| SYSCTL_CLOCK_AES
| SYSCTL_CLOCK_FPIOA
| SYSCTL_CLOCK_TIMER0
| SYSCTL_CLOCK_TIMER1
| SYSCTL_CLOCK_TIMER2
| SYSCTL_CLOCK_WDT0
| SYSCTL_CLOCK_WDT1
| SYSCTL_CLOCK_SHA
| SYSCTL_CLOCK_OTP
| SYSCTL_CLOCK_RTC
| SYSCTL_CLOCK_ACLK
| SYSCTL_CLOCK_HCLK
| SYSCTL_CLOCK_IN0.
Definition SYSCTL_CLOCK_MAX : Z := 43.
Definition sysctl_clock_to_Z (x : sysctl_clock) : Z :=
  match x with
  | SYSCTL_CLOCK_PLL0 => 0
  | SYSCTL_CLOCK_PLL1 => 1
  | SYSCTL_CLOCK_PLL2 => 2
  | SYSCTL_CLOCK_CPU => 3
  | SYSCTL_CLOCK_SRAM0 => 4
  | SYSCTL_CLOCK_SRAM1 => 5
  | SYSCTL_CLOCK_APB0 => 6
  | SYSCTL_CLOCK_APB1 => 7
  | SYSCTL_CLOCK_APB2 => 8
  | SYSCTL_CLOCK_ROM => 9
  | SYSCTL_CLOCK_DMA => 10
  | SYSCTL_CLOCK_AI => 11
  | SYSCTL_CLOCK_DVP => 12
  | SYSCTL_CLOCK_FFT => 13
  | SYSCTL_CLOCK_GPIO => 14
  | SYSCTL_CLOCK_SPI0 => 15
  | SYSCTL_CLOCK_SPI1 => 16
  | SYSCTL_CLOCK_SPI2 => 17
  | SYSCTL_CLOCK_SPI3 => 18
  | SYSCTL_CLOCK_I2S0 => 19
  | SYSCTL_CLOCK_I2S1 => 20
  | SYSCTL_CLOCK_I2S2 => 21
  | SYSCTL_CLOCK_I2C0 => 22
  | SYSCTL_CLOCK_I2C1 => 23
  | SYSCTL_CLOCK_I2C2 => 24
  | SYSCTL_CLOCK_UART1 => 25
  | SYSCTL_CLOCK_UART2 => 26
  | SYSCTL_CLOCK_UART3 => 27
  | SYSCTL_CLOCK_AES => 28
  | SYSCTL_CLOCK_FPIOA => 29
  | SYSCTL_CLOCK_TIMER0 => 30
  | SYSCTL_CLOCK_TIMER1 => 31
  | SYSCTL_CLOCK_TIMER2 => 32
  | SYSCTL_CLOCK_WDT0 => 33
  | SYSCTL_CLOCK_WDT1 => 34
  | SYSCTL_CLOCK_SHA => 35
  | SYSCTL_CLOCK_OTP => 36
  | SYSCTL_CLOCK_RTC => 37
  | SYSCTL_CLOCK_ACLK => 40
  | SYSCTL_CLOCK_HCLK => 41
  | SYSCTL_CLOCK_IN0 => 42
  end.
Definition sysctl_clock_of_Z (z : Z) : option sysctl_clock :=
  match z with
  | 0 => Some SYSCTL_CLOCK_PLL0
  | 1 => Some SYSCTL_CLOCK_PLL1
  | 2 => Some SYSCTL_CLOCK_PLL2
  | 3 => Some SYSCTL_CLOCK_CPU
  | 4 => Some SYSCTL_CLOCK_SRAM0
  | 5 => Some SYSCTL_CLOCK_SRAM1
  | 6 => Some SYSCTL_CLOCK_APB0
  | 7 => Some SYSCTL_CLOCK_APB1
  | 8 => Some SYSCTL_CLOCK_APB2
  | 9 => Some SYSCTL_CLOCK_ROM
  | 10 => Some SYSCTL_CLOCK_DMA
  | 11 => Some SYSCTL_CLOCK_AI
  | 12 => Some SYSCTL_CLOCK_DVP
  | 13 => Some SYSCTL_CLOCK_FFT
  | 14 => Some SYSCTL_CLOCK_GPIO
  | 15 => Some SYSCTL_CLOCK_SPI0
  | 16 => Some SYSCTL_CLOCK_SPI1
  | 17 => Some SYSCTL_CLOCK_SPI2
  | 18 => Some SYSCTL_CLOCK_SPI3
  | 19 => Some SYSCTL_CLOCK_I2S0
  | 20 => Some SYSCTL_CLOCK_I2S1
  | 21 => Some SYSCTL_CLOCK_I2S2
  | 22 => Some SYSCTL_CLOCK_I2C0
  | 23 => Some SYSCTL_CLOCK_I2C1
  | 24 => Some SYSCTL_CLOCK_I2C2
  | 25 => Some SYSCTL_CLOCK_UART1
  | 26 => Some SYSCTL_CLOCK_UART2
  | 27 => Some SYSCTL_CLOCK_UART3
  | 28 => Some SYSCTL_CLOCK_AES
  | 29 => Some SYSCTL_CLOCK_FPIOA
  | 30 => Some SYSCTL_CLOCK_TIMER0
  | 31 => Some SYSCTL_CLOCK_TIMER1
  | 32 => Some SYSCTL_CLOCK_TIMER2
  | 33 => Some SYSCTL_CLOCK_WDT0
  | 34 => Some SYSCTL_CLOCK_WDT1
  | 35 => Some SYSCTL_CLOCK_SHA
  | 36 => Some SYSCTL_CLOCK_OTP
  | 37 => Some SYSCTL_CLOCK_RTC
  | 40 => Some SYSCTL_CLOCK_ACLK
  | 41 => Some SYSCTL_CLOCK_HCLK
  | 42 => Some SYSCTL_CLOCK_IN0
  | _ => None
  end.
#[export] Instance sysctl_clock_eq_dec : EqDecision sysctl_clock.
Proof. apply (enum_eq_dec sysctl_clock_to_Z sysctl_clock_of_Z). by intros []. Defined.
Lemma sysctl_clock_of_to_Z x : sysctl_clock_of_Z (sysctl_clock_to_Z x) = Some x.
Proof. by destruct x. Qed.
Lemma sysctl_clock_of_Z_Some z x : sysctl_clock_of_Z z = Some x → sysctl_clock_to_Z x = z.
Proof.
  unfold sysctl_clock_of_Z. intros H.
  repeat case_match; simplify_eq/=; done.
Qed.

(** [sysctl_clock_select_t] *)
Inductive sysctl_clock_select : Set :=
| SYSCTL_CLOCK_SELECT_PLL0_BYPASS
| SYSCTL_CLOCK_SELECT_PLL1_BYPASS
| SYSCTL_CLOCK_SELECT_PLL2_BYPASS
| SYSCTL_CLOCK_SELECT_PLL2
| SYSCTL_CLOCK_SELECT_ACLK
| SYSCTL_CLOCK_SELECT_SPI3
| SYSCTL_CLOCK_SELECT_TIMER0
| SYSCTL_CLOCK_SELECT_TIMER1
| SYSCTL_CLOCK_SELECT_TIMER2
| SYSCTL_CLOCK_SELECT_SPI3_SAMPLE.
Definition SYSCTL_CLOCK_SELECT_MAX : Z := 11.
Definition sysctl_clock_select_to_Z (x : sysctl_clock_select) : Z :=
  match x with
  | SYSCTL_CLOCK_SELECT_PLL0_BYPASS => 0
  | SYSCTL_CLOCK_SELECT_PLL1_BYPASS => 1
  | SYSCTL_CLOCK_SELECT_PLL2_BYPASS => 2
  | SYSCTL_CLOCK_SELECT_PLL2 => 3
  | SYSCTL_CLOCK_SELECT_ACLK => 4
  | SYSCTL_CLOCK_SELECT_SPI3 => 5
  | SYSCTL_CLOCK_SELECT_TIMER0 => 6
  | SYSCTL_CLOCK_SELECT_TIMER1 => 7
  | SYSCTL_CLOCK_SELECT_TIMER2 => 8
  | SYSCTL_CLOCK_SELECT_SPI3_SAMPLE => 9
  end.
Definition sysctl_clock_select_of_Z (z : Z) : option sysctl_clock_select :=
  match z with
  | 0 => Some SYSCTL_CLOCK_SELECT_PLL0_BYPASS
  | 1 => Some SYSCTL_CLOCK_SELECT_PLL1_BYPASS
  | 2 => Some SYSCTL_CLOCK_SELECT_PLL2_BYPASS
  | 3 => Some SYSCTL_CLOCK_SELECT_PLL2
  | 4 => Some SYSCTL_CLOCK_SELECT_ACLK
  | 5 => Some SYSCTL_CLOCK_SELECT_SPI3
  | 6 => Some SYSCTL_CLOCK_SELECT_TIMER0
  | 7 => Some SYSCTL_CLOCK_SELECT_TIMER1
  | 8 => Some SYSCTL_CLOCK_SELECT_TIMER2
  | 9 => Some SYSCTL_CLOCK_SELECT_SPI3_SAMPLE
  | _ => None
  end.
#[export] Instance sysctl_clock_select_eq_dec : EqDecision sysctl_clock_select.
Proof. apply (enum_eq_dec sysctl_clock_select_to_Z sysctl_clock_select_of_Z). by intros []. Defined.
Lemma sysctl_clock_select_of_to_Z x : sysctl_clock_select_of_Z (sysctl_clock_select_to_Z x) = Some x.
Proof. by destruct x. Qed.
Lemma sysctl_clock_select_of_Z_Some z x : sysctl_clock_select_of_Z z = Some x → sysctl_clock_select_to_Z x = z.
Proof.
  unfold sysctl_clock_select_of_Z. intros H.
  repeat case_match; simplify_eq/=; done.
Qed.

(** [sysctl_threshold_t] *)
Inductive sysctl_threshold : Set :=
| SYSCTL_THRESHOLD_ACLK
| SYSCTL_THRESHOLD_APB0
| SYSCTL_THRESHOLD_APB1
| SYSCTL_THRESHOLD_APB2
| SYSCTL_THRESHOLD_SRAM0
| SYSCTL_THRESHOLD_SRAM1
| SYSCTL_THRESHOLD_AI
| SYSCTL_THRESHOLD_DVP
| SYSCTL_THRESHOLD_ROM
| SYSCTL_THRESHOLD_SPI0
| SYSCTL_THRESHOLD_SPI1
| SYSCTL_THRESHOLD_SPI2
| SYSCTL_THRESHOLD_SPI3
| SYSCTL_THRESHOLD_TIMER0
| SYSCTL_THRESHOLD_TIMER1
| SYSCTL_THRESHOLD_TIMER2
| SYSCTL_THRESHOLD_I2S0
| SYSCTL_THRESHOLD_I2S1
| SYSCTL_THRESHOLD_I2S2
| SYSCTL_THRESHOLD_I2S0_M
| SYSCTL_THRESHOLD_I2S1_M
| SYSCTL_THRESHOLD_I2S2_M
| SYSCTL_THRESHOLD_I2C0
| SYSCTL_THRESHOLD_I2C1
| SYSCTL_THRESHOLD_I2C2
| SYSCTL_THRESHOLD_WDT0
| SYSCTL_THRESHOLD_WDT1.
Definition SYSCTL_THRESHOLD_MAX : Z := 28.
Definition sysctl_threshold_to_Z (x : sysctl_threshold) : Z :=
  match x with
  | SYSCTL_THRESHOLD_ACLK => 0
  | SYSCTL_THRESHOLD_APB0 => 1
  | SYSCTL_THRESHOLD_APB1 => 2
  | SYSCTL_THRESHOLD_APB2 => 3
  | SYSCTL_THRESHOLD_SRAM0 => 4
  | SYSCTL_THRESHOLD_SRAM1 => 5
  | SYSCTL_THRESHOLD_AI => 6
  | SYSCTL_THRESHOLD_DVP => 7
  | SYSCTL_THRESHOLD_ROM => 8
  | SYSCTL_THRESHOLD_SPI0 => 9
  | SYSCTL_THRESHOLD_SPI1 => 10
  | SYSCTL_THRESHOLD_SPI2 => 11
  | SYSCTL_THRESHOLD_SPI3 => 12
  | SYSCTL_THRESHOLD_TIMER0 => 13
  | SYSCTL_THRESHOLD_TIMER1 => 14
  | SYSCTL_THRESHOLD_TIMER2 => 15
  | SYSCTL_THRESHOLD_I2S0 => 16
  | SYSCTL_THRESHOLD_I2S1 => 17
  | SYSCTL_THRESHOLD_I2S2 => 18
  | SYSCTL_THRESHOLD_I2S0_M => 19
  | SYSCTL_THRESHOLD_I2S1_M => 20
  | SYSCTL_THRESHOLD_I2S2_M => 21
  | SYSCTL_THRESHOLD_I2C0 => 22
  | SYSCTL_THRESHOLD_I2C1 => 23
  | SYSCTL_THRESHOLD_I2C2 => 24
  | SYSCTL_THRESHOLD_WDT0 => 25
  | SYSCTL_THRESHOLD_WDT1 => 26
  end.
Definition sysctl_threshold_of_Z (z : Z) : option sysctl_threshold :=
  match z with
  | 0 => Some SYSCTL_THRESHOLD_ACLK
  | 1 => Some SYSCTL_THRESHOLD_APB0
  | 2 => Some SYSCTL_THRESHOLD_APB1
  | 3 => Some SYSCTL_THRESHOLD_APB2
  | 4 => Some SYSCTL_THRESHOLD_SRAM0
  | 5 => Some SYSCTL_THRESHOLD_SRAM1
  | 6 => Some SYSCTL_THRESHOLD_AI
  | 7 => Some SYSCTL_THRESHOLD_DVP
  | 8 => Some SYSCTL_THRESHOLD_ROM
  | 9 => Some SYSCTL_THRESHOLD_SPI0
  | 10 => Some SYSCTL_THRESHOLD_SPI1
  | 11 => Some SYSCTL_THRESHOLD_SPI2
  | 12 => Some SYSCTL_THRESHOLD_SPI3
  | 13 => Some SYSCTL_THRESHOLD_TIMER0
  | 14 => Some SYSCTL_THRESHOLD_TIMER1
  | 15 => Some SYSCTL_THRESHOLD_TIMER2
  | 16 => Some SYSCTL_THRESHOLD_I2S0
  | 17 => Some SYSCTL_THRESHOLD_I2S1
  | 18 => Some SYSCTL_THRESHOLD_I2S2
  | 19 => Some SYSCTL_THRESHOLD_I2S0_M
  | 20 => Some SYSCTL_THRESHOLD_I2S1_M
  | 21 => Some SYSCTL_THRESHOLD_I2S2_M
  | 22 => Some SYSCTL_THRESHOLD_I2C0
  | 23 => Some SYSCTL_THRESHOLD_I2C1
  | 24 => Some SYSCTL_THRESHOLD_I2C2
  | 25 => Some SYSCTL_THRESHOLD_WDT0
  | 26 => Some SYSCTL_THRESHOLD_WDT1
  | _ => None
  end.
#[export] Instance sysctl_threshold_eq_dec : EqDecision sysctl_threshold.
Proof. apply (enum_eq_dec sysctl_threshold_to_Z sysctl_threshold_of_Z). by intros []. Defined.
Lemma sysctl_threshold_of_to_Z x : sysctl_threshold_of_Z (sysctl_threshold_to_Z x) = Some x.
Proof. by destruct x. Qed.
Lemma sysctl_threshold_of_Z_Some z x : sysctl_threshold_of_Z z = Some x → sysctl_threshold_to_Z x = z.
Proof.
  unfold sysctl_threshold_of_Z. intros H.
  repeat case_match; simplify_eq/=; done.
Qed.

(** [sysctl_reset_t] *)
Inductive sysctl_reset_id : Set :=
| SYSCTL_RESET_SOC
| SYSCTL_RESET_ROM
| SYSCTL_RESET_DMA
| SYSCTL_RESET_AI
| SYSCTL_RESET_DVP
| SYSCTL_RESET_FFT
| SYSCTL_RESET_GPIO
| SYSCTL_RESET_SPI0
| SYSCTL_RESET_SPI1
| SYSCTL_RESET_SPI2
| SYSCTL_RESET_SPI3
| SYSCTL_RESET_I2S0
| SYSCTL_RESET_I2S1
| SYSCTL_RESET_I2S2
| SYSCTL_RESET_I2C0
| SYSCTL_RESET_I2C1
| SYSCTL_RESET_I2C2
| SYSCTL_RESET_UART1
| SYSCTL_RESET_UART2
| SYSCTL_RESET_UART3
| SYSCTL_RESET_AES
| SYSCTL_RESET_FPIOA
| SYSCTL_RESET_TIMER0
| SYSCTL_RESET_TIMER1
| SYSCTL_RESET_TIMER2
| SYSCTL_RESET_WDT0
| SYSCTL_RESET_WDT1
| SYSCTL_RESET_SHA
| SYSCTL_RESET_RTC.
Definition SYSCTL_RESET_MAX : Z := 31.
Definition sysctl_reset_id_to_Z (x : sysctl_reset_id) : Z :=
  match x with
  | SYSCTL_RESET_SOC => 0
  | SYSCTL_RESET_ROM => 1
  | SYSCTL_RESET_DMA => 2
  | SYSCTL_RESET_AI => 3
  | SYSCTL_RESET_DVP => 4
  | SYSCTL_RESET_FFT => 5
  | SYSCTL_RESET_GPIO => 6
  | SYSCTL_RESET_SPI0 => 7
  | SYSCTL_RESET_SPI1 => 8
  | SYSCTL_RESET_SPI2 => 9
  | SYSCTL_RESET_SPI3 => 10
  | SYSCTL_RESET_I2S0 => 11
  | SYSCTL_RESET_I2S1 => 12
  | SYSCTL_RESET_I2S2 => 13
  | SYSCTL_RESET_I2C0 => 14
  | SYSCTL_RESET_I2C1 => 15
  | SYSCTL_RESET_I2C2 => 16
  | SYSCTL_RESET_UART1 => 17
  | SYSCTL_RESET_UART2 => 18
  | SYSCTL_RESET_UART3 => 19
  | SYSCTL_RESET_AES => 20
  | SYSCTL_RESET_FPIOA => 21
  | SYSCTL_RESET_TIMER0 => 22
  | SYSCTL_RESET_TIMER1 => 23
  | SYSCTL_RESET_TIMER2 => 24
  | SYSCTL_RESET_WDT0 => 25
  | SYSCTL_RESET_WDT1 => 26
  | SYSCTL_RESET_SHA => 27
  | SYSCTL_RESET_RTC => 28
  end.
Definition sysctl_reset_id_of_Z (z : Z) : option sysctl_reset_id :=
  match z with
  | 0 => Some SYSCTL_RESET_SOC
  | 1 => Some SYSCTL_RESET_ROM
  | 2 => Some SYSCTL_RESET_DMA
  | 3 => Some SYSCTL_RESET_AI
  | 4 => Some SYSCTL_RESET_DVP
  | 5 => Some SYSCTL_RESET_FFT
  | 6 => Some SYSCTL_RESET_GPIO
  | 7 => Some SYSCTL_RESET_SPI0
  | 8 => Some SYSCTL_RESET_SPI1
  | 9 => Some SYSCTL_RESET_SPI2
  | 10 => Some SYSCTL_RESET_SPI3
  | 11 => Some SYSCTL_RESET_I2S0
  | 12 => Some SYSCTL_RESET_I2S1
  | 13 => Some SYSCTL_RESET_I2S2
  | 14 => Some SYSCTL_RESET_I2C0
  | 15 => Some SYSCTL_RESET_I2C1
  | 16 => Some SYSCTL_RESET_I2C2
  | 17 => Some SYSCTL_RESET_UART1
  | 18 => Some SYSCTL_RESET_UART2
  | 19 => Some SYSCTL_RESET_UART3
  | 20 => Some SYSCTL_RESET_AES
  | 21 => Some SYSCTL_RESET_FPIOA
  | 22 => Some SYSCTL_RESET_TIMER0
  | 23 => Some SYSCTL_RESET_TIMER1
  | 24 => Some SYSCTL_RESET_TIMER2
  | 25 => Some SYSCTL_RESET_WDT0
  | 26 => Some SYSCTL_RESET_WDT1
  | 27 => Some SYSCTL_RESET_SHA
  | 28 => Some SYSCTL_RESET_RTC
  | _ => None
  end.
#[export] Instance sysctl_reset_id_eq_dec : EqDecision sysctl_reset_id.
Proof. apply (enum_eq_dec sysctl_reset_id_to_Z sysctl_reset_id_of_Z). by intros []. Defined.
Lemma sysctl_reset_id_of_to_Z x : sysctl_reset_id_of_Z (sysctl_reset_id_to_Z x) = Some x.
Proof. by destruct x. Qed.
Lemma sysctl_reset_id_of_Z_Some z x : sysctl_reset_id_of_Z z = Some x → sysctl_reset_id_to_Z x = z.
Proof.
  unfold sysctl_reset_id_of_Z. intros H.
  repeat case_match; simplify_eq/=; done.
Qed.

(** [sysctl_dma_channel_t] *)
Inductive sysctl_dma_channel : Set :=
| SYSCTL_DMA_CHANNEL_0
| SYSCTL_DMA_CHANNEL_1
| SYSCTL_DMA_CHANNEL_2
| SYSCTL_DMA_CHANNEL_3
| SYSCTL_DMA_CHANNEL_4
| SYSCTL_DMA_CHANNEL_5.
Definition SYSCTL_DMA_CHANNEL_MAX : Z := 6.
Definition sysctl_dma_channel_to_Z (x : sysctl_dma_channel) : Z :=
  match x with
  | SYSCTL_DMA_CHANNEL_0 => 0
  | SYSCTL_DMA_CHANNEL_1 => 1
  | SYSCTL_DMA_CHANNEL_2 => 2
  | SYSCTL_DMA_CHANNEL_3 => 3
  | SYSCTL_DMA_CHANNEL_4 => 4
  | SYSCTL_DMA_CHANNEL_5 => 5
  end.
Definition sysctl_dma_channel_of_Z (z : Z) : option sysctl_dma_channel :=
  match z with
  | 0 => Some SYSCTL_DMA_CHANNEL_0
  | 1 => Some SYSCTL_DMA_CHANNEL_1
  | 2 => Some SYSCTL_DMA_CHANNEL_2
  | 3 => Some SYSCTL_DMA_CHANNEL_3
  | 4 => Some SYSCTL_DMA_CHANNEL_4
  | 5 => Some SYSCTL_DMA_CHANNEL_5
  | _ => None
  end.
#[export] Instance sysctl_dma_channel_eq_dec : EqDecision sysctl_dma_channel.
Proof. apply (enum_eq_dec sysctl_dma_channel_to_Z sysctl_dma_channel_of_Z). by intros []. Defined.
Lemma sysctl_dma_channel_of_to_Z x : sysctl_dma_channel_of_Z (sysctl_dma_channel_to_Z x) = Some x.
Proof. by destruct x. Qed.
Lemma sysctl_dma_channel_of_Z_Some z x : sysctl_dma_channel_of_Z z = Some x → sysctl_dma_channel_to_Z x = z.
Proof.
  unfold sysctl_dma_channel_of_Z. intros H.
  repeat case_match; simplify_eq/=; done.
Qed.

