(* ===== verification/Sysctl.v ===== *)
(** * System controller: clock gates, dividers, selectors and resets

    The register-level operations of k210_sysctl.c.  Each takes the register
    file and returns the new one, with the C return value where there is one.
    The enumeration arguments are the C integers; the [switch] goes through the
    enumeration of SysctlRegs.  The busy wait of [sysctl_reset] leaves the
    registers alone. *)

From S2P Require Import Prelude SysctlRegs.

(** ** Operations *)
Definition sysctl_reset_ctl (reset rst_value : Z) (s : bank sysctl_reg) : bank sysctl_reg :=
  match sysctl_reset_id_of_Z reset with
  | Some SYSCTL_RESET_SOC => fset soft_reset_soft_reset rst_value s
  | Some SYSCTL_RESET_ROM => fset peri_reset_rom_reset rst_value s
  | Some SYSCTL_RESET_DMA => fset peri_reset_dma_reset rst_value s
  | Some SYSCTL_RESET_AI => fset peri_reset_ai_reset rst_value s
  | Some SYSCTL_RESET_DVP => fset peri_reset_dvp_reset rst_value s
  | Some SYSCTL_RESET_FFT => fset peri_reset_fft_reset rst_value s
  | Some SYSCTL_RESET_GPIO => fset peri_reset_gpio_reset rst_value s
  | Some SYSCTL_RESET_SPI0 => fset peri_reset_spi0_reset rst_value s
  | Some SYSCTL_RESET_SPI1 => fset peri_reset_spi1_reset rst_value s
  | Some SYSCTL_RESET_SPI2 => fset peri_reset_spi2_reset rst_value s
  | Some SYSCTL_RESET_SPI3 => fset peri_reset_spi3_reset rst_value s
  | Some SYSCTL_RESET_I2S0 => fset peri_reset_i2s0_reset rst_value s
  | Some SYSCTL_RESET_I2S1 => fset peri_reset_i2s1_reset rst_value s
  | Some SYSCTL_RESET_I2S2 => fset peri_reset_i2s2_reset rst_value s
  | Some SYSCTL_RESET_I2C0 => fset peri_reset_i2c0_reset rst_value s
  | Some SYSCTL_RESET_I2C1 => fset peri_reset_i2c1_reset rst_value s
  | Some SYSCTL_RESET_I2C2 => fset peri_reset_i2c2_reset rst_value s
  | Some SYSCTL_RESET_UART1 => fset peri_reset_uart1_reset rst_value s
  | Some SYSCTL_RESET_UART2 => fset peri_reset_uart2_reset rst_value s
  | Some SYSCTL_RESET_UART3 => fset peri_reset_uart3_reset rst_value s
  | Some SYSCTL_RESET_AES => fset peri_reset_aes_reset rst_value s
  | Some SYSCTL_RESET_FPIOA => fset peri_reset_fpioa_reset rst_value s
  | Some SYSCTL_RESET_TIMER0 => fset peri_reset_timer0_reset rst_value s
  | Some SYSCTL_RESET_TIMER1 => fset peri_reset_timer1_reset rst_value s
  | Some SYSCTL_RESET_TIMER2 => fset peri_reset_timer2_reset rst_value s
  | Some SYSCTL_RESET_WDT0 => fset peri_reset_wdt0_reset rst_value s
  | Some SYSCTL_RESET_WDT1 => fset peri_reset_wdt1_reset rst_value s
  | Some SYSCTL_RESET_SHA => fset peri_reset_sha_reset rst_value s
  | Some SYSCTL_RESET_RTC => fset peri_reset_rtc_reset rst_value s
  | None => s
  end.

Definition sysctl_clock_bus_en (clock en : Z) (s : bank sysctl_reg) : bank sysctl_reg :=
  if negb (en =? 0) then
    match sysctl_clock_of_Z clock with
    | Some SYSCTL_CLOCK_GPIO
    | Some SYSCTL_CLOCK_SPI2
    | Some SYSCTL_CLOCK_I2S0
    | Some SYSCTL_CLOCK_I2S1
    | Some SYSCTL_CLOCK_I2S2
    | Some SYSCTL_CLOCK_I2C0
    | Some SYSCTL_CLOCK_I2C1
    | Some SYSCTL_CLOCK_I2C2
    | Some SYSCTL_CLOCK_UART1
    | Some SYSCTL_CLOCK_UART2
    | Some SYSCTL_CLOCK_UART3
    | Some SYSCTL_CLOCK_FPIOA
    | Some SYSCTL_CLOCK_TIMER0
    | Some SYSCTL_CLOCK_TIMER1
    | Some SYSCTL_CLOCK_TIMER2
    | Some SYSCTL_CLOCK_SHA =>
        fset clk_en_cent_apb0_clk_en en s
    | Some SYSCTL_CLOCK_AES
    | Some SYSCTL_CLOCK_WDT0
    | Some SYSCTL_CLOCK_WDT1
    | Some SYSCTL_CLOCK_OTP
    | Some SYSCTL_CLOCK_RTC =>
        fset clk_en_cent_apb1_clk_en en s
    | Some SYSCTL_CLOCK_SPI0
    | Some SYSCTL_CLOCK_SPI1 =>
        fset clk_en_cent_apb2_clk_en en s
    | _ => s
    end
  else s.

Definition sysctl_clock_device_en (clock en : Z) (s : bank sysctl_reg) : bank sysctl_reg :=
  match sysctl_clock_of_Z clock with
  | Some SYSCTL_CLOCK_PLL0 => fset pll0_pll_out_en0 en s
  | Some SYSCTL_CLOCK_PLL1 => fset pll1_pll_out_en1 en s
  | Some SYSCTL_CLOCK_PLL2 => fset pll2_pll_out_en2 en s
  | Some SYSCTL_CLOCK_CPU => fset clk_en_cent_cpu_clk_en en s
  | Some SYSCTL_CLOCK_SRAM0 => fset clk_en_cent_sram0_clk_en en s
  | Some SYSCTL_CLOCK_SRAM1 => fset clk_en_cent_sram1_clk_en en s
  | Some SYSCTL_CLOCK_APB0 => fset clk_en_cent_apb0_clk_en en s
  | Some SYSCTL_CLOCK_APB1 => fset clk_en_cent_apb1_clk_en en s
  | Some SYSCTL_CLOCK_APB2 => fset clk_en_cent_apb2_clk_en en s
  | Some SYSCTL_CLOCK_ROM => fset clk_en_peri_rom_clk_en en s
  | Some SYSCTL_CLOCK_DMA => fset clk_en_peri_dma_clk_en en s
  | Some SYSCTL_CLOCK_AI => fset clk_en_peri_ai_clk_en en s
  | Some SYSCTL_CLOCK_DVP => fset clk_en_peri_dvp_clk_en en s
  | Some SYSCTL_CLOCK_FFT => fset clk_en_peri_fft_clk_en en s
  | Some SYSCTL_CLOCK_SPI3 => fset clk_en_peri_spi3_clk_en en s
  | Some SYSCTL_CLOCK_GPIO => fset clk_en_peri_gpio_clk_en en s
  | Some SYSCTL_CLOCK_SPI2 => fset clk_en_peri_spi2_clk_en en s
  | Some SYSCTL_CLOCK_I2S0 => fset clk_en_peri_i2s0_clk_en en s
  | Some SYSCTL_CLOCK_I2S1 => fset clk_en_peri_i2s1_clk_en en s
  | Some SYSCTL_CLOCK_I2S2 => fset clk_en_peri_i2s2_clk_en en s
  | Some SYSCTL_CLOCK_I2C0 => fset clk_en_peri_i2c0_clk_en en s
  | Some SYSCTL_CLOCK_I2C1 => fset clk_en_peri_i2c1_clk_en en s
  | Some SYSCTL_CLOCK_I2C2 => fset clk_en_peri_i2c2_clk_en en s
  | Some SYSCTL_CLOCK_UART1 => fset clk_en_peri_uart1_clk_en en s
  | Some SYSCTL_CLOCK_UART2 => fset clk_en_peri_uart2_clk_en en s
  | Some SYSCTL_CLOCK_UART3 => fset clk_en_peri_uart3_clk_en en s
  | Some SYSCTL_CLOCK_FPIOA => fset clk_en_peri_fpioa_clk_en en s
  | Some SYSCTL_CLOCK_TIMER0 => fset clk_en_peri_timer0_clk_en en s
  | Some SYSCTL_CLOCK_TIMER1 => fset clk_en_peri_timer1_clk_en en s
  | Some SYSCTL_CLOCK_TIMER2 => fset clk_en_peri_timer2_clk_en en s
  | Some SYSCTL_CLOCK_SHA => fset clk_en_peri_sha_clk_en en s
  | Some SYSCTL_CLOCK_AES => fset clk_en_peri_aes_clk_en en s
  | Some SYSCTL_CLOCK_WDT0 => fset clk_en_peri_wdt0_clk_en en s
  | Some SYSCTL_CLOCK_WDT1 => fset clk_en_peri_wdt1_clk_en en s
  | Some SYSCTL_CLOCK_OTP => fset clk_en_peri_otp_clk_en en s
  | Some SYSCTL_CLOCK_RTC => fset clk_en_peri_rtc_clk_en en s
  | Some SYSCTL_CLOCK_SPI0 => fset clk_en_peri_spi0_clk_en en s
  | Some SYSCTL_CLOCK_SPI1 => fset clk_en_peri_spi1_clk_en en s
  | _ => s
  end.

Definition sysctl_clock_enable (clock : Z) (s : bank sysctl_reg) : Z * bank sysctl_reg :=
  if SYSCTL_CLOCK_MAX <=? clock then (-1, s)
  else (0, sysctl_clock_device_en clock 1 (sysctl_clock_bus_en clock 1 s)).

Definition sysctl_clock_disable (clock : Z) (s : bank sysctl_reg) : Z * bank sysctl_reg :=
  if SYSCTL_CLOCK_MAX <=? clock then (-1, s)
  else (0, sysctl_clock_device_en clock 0 s).

Definition sysctl_clock_set_threshold (which threshold : Z) (s : bank sysctl_reg) : Z * bank sysctl_reg :=
  match sysctl_threshold_of_Z which with
  | Some SYSCTL_THRESHOLD_ACLK =>
      (0, fset clk_sel0_aclk_divider_sel (Z.land (u8 threshold) 0x03) s)
  | Some SYSCTL_THRESHOLD_APB0 =>
      (0, fset clk_sel0_apb0_clk_sel (Z.land (u8 threshold) 0x07) s)
  | Some SYSCTL_THRESHOLD_APB1 =>
      (0, fset clk_sel0_apb1_clk_sel (Z.land (u8 threshold) 0x07) s)
  | Some SYSCTL_THRESHOLD_APB2 =>
      (0, fset clk_sel0_apb2_clk_sel (Z.land (u8 threshold) 0x07) s)
  | Some SYSCTL_THRESHOLD_SRAM0 =>
      (0, fset clk_th0_sram0_gclk_threshold (Z.land (u8 threshold) 0x0F) s)
  | Some SYSCTL_THRESHOLD_SRAM1 =>
      (0, fset clk_th0_sram1_gclk_threshold (Z.land (u8 threshold) 0x0F) s)
  | Some SYSCTL_THRESHOLD_AI =>
      (0, fset clk_th0_ai_gclk_threshold (Z.land (u8 threshold) 0x0F) s)
  | Some SYSCTL_THRESHOLD_DVP =>
      (0, fset clk_th0_dvp_gclk_threshold (Z.land (u8 threshold) 0x0F) s)
  | Some SYSCTL_THRESHOLD_ROM =>
      (0, fset clk_th0_rom_gclk_threshold (Z.land (u8 threshold) 0x0F) s)
  | Some SYSCTL_THRESHOLD_SPI0 =>
      (0, fset clk_th1_spi0_clk_threshold (u8 threshold) s)
  | Some SYSCTL_THRESHOLD_SPI1 =>
      (0, fset clk_th1_spi1_clk_threshold (u8 threshold) s)
  | Some SYSCTL_THRESHOLD_SPI2 =>
      (0, fset clk_th1_spi2_clk_threshold (u8 threshold) s)
  | Some SYSCTL_THRESHOLD_SPI3 =>
      (0, fset clk_th1_spi3_clk_threshold (u8 threshold) s)
  | Some SYSCTL_THRESHOLD_TIMER0 =>
      (0, fset clk_th2_timer0_clk_threshold (u8 threshold) s)
  | Some SYSCTL_THRESHOLD_TIMER1 =>
      (0, fset clk_th2_timer1_clk_threshold (u8 threshold) s)
  | Some SYSCTL_THRESHOLD_TIMER2 =>
      (0, fset clk_th2_timer2_clk_threshold (u8 threshold) s)
  | Some SYSCTL_THRESHOLD_I2S0_M =>
      (0, fset clk_th4_i2s0_mclk_threshold (u8 threshold) s)
  | Some SYSCTL_THRESHOLD_I2S1_M =>
      (0, fset clk_th4_i2s1_mclk_threshold (u8 threshold) s)
  | Some SYSCTL_THRESHOLD_I2S2_M =>
      (0, fset clk_th5_i2s2_mclk_threshold (u8 threshold) s)
  | Some SYSCTL_THRESHOLD_I2C0 =>
      (0, fset clk_th5_i2c0_clk_threshold (u8 threshold) s)
  | Some SYSCTL_THRESHOLD_I2C1 =>
      (0, fset clk_th5_i2c1_clk_threshold (u8 threshold) s)
  | Some SYSCTL_THRESHOLD_I2C2 =>
      (0, fset clk_th5_i2c2_clk_threshold (u8 threshold) s)
  | Some SYSCTL_THRESHOLD_WDT0 =>
      (0, fset clk_th6_wdt0_clk_threshold (u8 threshold) s)
  | Some SYSCTL_THRESHOLD_WDT1 =>
      (0, fset clk_th6_wdt1_clk_threshold (u8 threshold) s)
  | Some SYSCTL_THRESHOLD_I2S0 =>
      (0, fset clk_th3_i2s0_clk_threshold (u16 threshold) s)
  | Some SYSCTL_THRESHOLD_I2S1 =>
      (0, fset clk_th3_i2s1_clk_threshold (u16 threshold) s)
  | Some SYSCTL_THRESHOLD_I2S2 =>
      (0, fset clk_th4_i2s2_clk_threshold (u16 threshold) s)
  | None => (-1, s)
  end.

Definition sysctl_clock_get_threshold (which : Z) (s : bank sysctl_reg) : Z :=
  match sysctl_threshold_of_Z which with
  | Some SYSCTL_THRESHOLD_ACLK => fget clk_sel0_aclk_divider_sel s
  | Some SYSCTL_THRESHOLD_APB0 => fget clk_sel0_apb0_clk_sel s
  | Some SYSCTL_THRESHOLD_APB1 => fget clk_sel0_apb1_clk_sel s
  | Some SYSCTL_THRESHOLD_APB2 => fget clk_sel0_apb2_clk_sel s
  | Some SYSCTL_THRESHOLD_SRAM0 => fget clk_th0_sram0_gclk_threshold s
  | Some SYSCTL_THRESHOLD_SRAM1 => fget clk_th0_sram1_gclk_threshold s
  | Some SYSCTL_THRESHOLD_AI => fget clk_th0_ai_gclk_threshold s
  | Some SYSCTL_THRESHOLD_DVP => fget clk_th0_dvp_gclk_threshold s
  | Some SYSCTL_THRESHOLD_ROM => fget clk_th0_rom_gclk_threshold s
  | Some SYSCTL_THRESHOLD_SPI0 => fget clk_th1_spi0_clk_threshold s
  | Some SYSCTL_THRESHOLD_SPI1 => fget clk_th1_spi1_clk_threshold s
  | Some SYSCTL_THRESHOLD_SPI2 => fget clk_th1_spi2_clk_threshold s
  | Some SYSCTL_THRESHOLD_SPI3 => fget clk_th1_spi3_clk_threshold s
  | Some SYSCTL_THRESHOLD_TIMER0 => fget clk_th2_timer0_clk_threshold s
  | Some SYSCTL_THRESHOLD_TIMER1 => fget clk_th2_timer1_clk_threshold s
  | Some SYSCTL_THRESHOLD_TIMER2 => fget clk_th2_timer2_clk_threshold s
  | Some SYSCTL_THRESHOLD_I2S0 => fget clk_th3_i2s0_clk_threshold s
  | Some SYSCTL_THRESHOLD_I2S1 => fget clk_th3_i2s1_clk_threshold s
  | Some SYSCTL_THRESHOLD_I2S2 => fget clk_th4_i2s2_clk_threshold s
  | Some SYSCTL_THRESHOLD_I2S0_M => fget clk_th4_i2s0_mclk_threshold s
  | Some SYSCTL_THRESHOLD_I2S1_M => fget clk_th4_i2s1_mclk_threshold s
  | Some SYSCTL_THRESHOLD_I2S2_M => fget clk_th5_i2s2_mclk_threshold s
  | Some SYSCTL_THRESHOLD_I2C0 => fget clk_th5_i2c0_clk_threshold s
  | Some SYSCTL_THRESHOLD_I2C1 => fget clk_th5_i2c1_clk_threshold s
  | Some SYSCTL_THRESHOLD_I2C2 => fget clk_th5_i2c2_clk_threshold s
  | Some SYSCTL_THRESHOLD_WDT0 => fget clk_th6_wdt0_clk_threshold s
  | Some SYSCTL_THRESHOLD_WDT1 => fget clk_th6_wdt1_clk_threshold s
  | None => 0
  end.

Definition sysctl_clock_set_clock_select (which select : Z) (s : bank sysctl_reg) : Z * bank sysctl_reg :=
  match sysctl_clock_select_of_Z which with
  | Some SYSCTL_CLOCK_SELECT_PLL0_BYPASS =>
      (0, fset pll0_pll_bypass0 (Z.land select 0x01) s)
  | Some SYSCTL_CLOCK_SELECT_PLL1_BYPASS =>
      (0, fset pll1_pll_bypass1 (Z.land select 0x01) s)
  | Some SYSCTL_CLOCK_SELECT_PLL2_BYPASS =>
      (0, fset pll2_pll_bypass2 (Z.land select 0x01) s)
  | Some SYSCTL_CLOCK_SELECT_ACLK =>
      (0, fset clk_sel0_aclk_sel (Z.land select 0x01) s)
  | Some SYSCTL_CLOCK_SELECT_SPI3 =>
      (0, fset clk_sel0_spi3_clk_sel (Z.land select 0x01) s)
  | Some SYSCTL_CLOCK_SELECT_TIMER0 =>
      (0, fset clk_sel0_timer0_clk_sel (Z.land select 0x01) s)
  | Some SYSCTL_CLOCK_SELECT_TIMER1 =>
      (0, fset clk_sel0_timer1_clk_sel (Z.land select 0x01) s)
  | Some SYSCTL_CLOCK_SELECT_TIMER2 =>
      (0, fset clk_sel0_timer2_clk_sel (Z.land select 0x01) s)
  | Some SYSCTL_CLOCK_SELECT_SPI3_SAMPLE =>
      (0, fset clk_sel1_spi3_sample_clk_sel (Z.land select 0x01) s)
  | Some SYSCTL_CLOCK_SELECT_PLL2 =>
      (0, fset pll2_pll_ckin_sel2 (Z.land select 0x03) s)
  | None => (-1, s)
  end.

Definition sysctl_clock_get_clock_select (which : Z) (s : bank sysctl_reg) : Z :=
  match sysctl_clock_select_of_Z which with
  | Some SYSCTL_CLOCK_SELECT_PLL0_BYPASS => fget pll0_pll_bypass0 s
  | Some SYSCTL_CLOCK_SELECT_PLL1_BYPASS => fget pll1_pll_bypass1 s
  | Some SYSCTL_CLOCK_SELECT_PLL2_BYPASS => fget pll2_pll_bypass2 s
  | Some SYSCTL_CLOCK_SELECT_PLL2 => fget pll2_pll_ckin_sel2 s
  | Some SYSCTL_CLOCK_SELECT_ACLK => fget clk_sel0_aclk_sel s
  | Some SYSCTL_CLOCK_SELECT_SPI3 => fget clk_sel0_spi3_clk_sel s
  | Some SYSCTL_CLOCK_SELECT_TIMER0 => fget clk_sel0_timer0_clk_sel s
  | Some SYSCTL_CLOCK_SELECT_TIMER1 => fget clk_sel0_timer1_clk_sel s
  | Some SYSCTL_CLOCK_SELECT_TIMER2 => fget clk_sel0_timer2_clk_sel s
  | Some SYSCTL_CLOCK_SELECT_SPI3_SAMPLE => fget clk_sel1_spi3_sample_clk_sel s
  | None => 0
  end.
Definition sysctl_reset (reset : Z) (s : bank sysctl_reg) : bank sysctl_reg :=
  sysctl_reset_ctl reset 0 (sysctl_reset_ctl reset 1 s).

Definition sysctl_dma_select (channel select : Z) (s : bank sysctl_reg) : Z * bank sysctl_reg :=
  match sysctl_dma_channel_of_Z channel with
  | Some SYSCTL_DMA_CHANNEL_0 => (0, fset dma_sel0_dma_sel0 select s)
  | Some SYSCTL_DMA_CHANNEL_1 => (0, fset dma_sel0_dma_sel1 select s)
  | Some SYSCTL_DMA_CHANNEL_2 => (0, fset dma_sel0_dma_sel2 select s)
  | Some SYSCTL_DMA_CHANNEL_3 => (0, fset dma_sel0_dma_sel3 select s)
  | Some SYSCTL_DMA_CHANNEL_4 => (0, fset dma_sel0_dma_sel4 select s)
  | Some SYSCTL_DMA_CHANNEL_5 => (0, fset dma_sel1_dma_sel5 select s)
  | None => (-1, s)
  end.

Definition sysctl_set_spi0_dvp_data (en : Z) (s : bank sysctl_reg) : Z * bank sysctl_reg :=
  (0, fset misc_spi_dvp_data_enable en s).

(** The whole power-select word is updated through one bit. *)
Definition sysctl_set_power_mode (power_bank io_power_mode : Z) (s : bank sysctl_reg)
    : bank sysctl_reg :=
  <[R_power_sel :=
      if negb (io_power_mode =? 0) then set_bit_at power_bank (s R_power_sel)
      else clear_bit_at 32 power_bank (s R_power_sel)]> s.

(** The function keeps its first answer in a static variable ([0] before). *)
Definition sysctl_get_reset_status (s_reset_status : Z) (s : bank sysctl_reg)
    : Z * Z * bank sysctl_reg :=
  if negb (s_reset_status =? 0) then (s_reset_status, s_reset_status, s)
  else
    let st :=
      if negb (fget reset_status_wdt0_reset_sts s =? 0) then 2
      else if negb (fget reset_status_wdt1_reset_sts s =? 0) then 3
      else if negb (fget reset_status_soft_reset_sts s =? 0) then 1
      else 0 in
    (st, st, fset reset_status_reset_sts_clr 1 s).

(** ** The divider, selector and reset fields *)
Definition threshold_field (w : sysctl_threshold) : field sysctl_reg :=
  match w with
  | SYSCTL_THRESHOLD_ACLK => clk_sel0_aclk_divider_sel
  | SYSCTL_THRESHOLD_APB0 => clk_sel0_apb0_clk_sel
  | SYSCTL_THRESHOLD_APB1 => clk_sel0_apb1_clk_sel
  | SYSCTL_THRESHOLD_APB2 => clk_sel0_apb2_clk_sel
  | SYSCTL_THRESHOLD_SRAM0 => clk_th0_sram0_gclk_threshold
  | SYSCTL_THRESHOLD_SRAM1 => clk_th0_sram1_gclk_threshold
  | SYSCTL_THRESHOLD_AI => clk_th0_ai_gclk_threshold
  | SYSCTL_THRESHOLD_DVP => clk_th0_dvp_gclk_threshold
  | SYSCTL_THRESHOLD_ROM => clk_th0_rom_gclk_threshold
  | SYSCTL_THRESHOLD_SPI0 => clk_th1_spi0_clk_threshold
  | SYSCTL_THRESHOLD_SPI1 => clk_th1_spi1_clk_threshold
  | SYSCTL_THRESHOLD_SPI2 => clk_th1_spi2_clk_threshold
  | SYSCTL_THRESHOLD_SPI3 => clk_th1_spi3_clk_threshold
  | SYSCTL_THRESHOLD_TIMER0 => clk_th2_timer0_clk_threshold
  | SYSCTL_THRESHOLD_TIMER1 => clk_th2_timer1_clk_threshold
  | SYSCTL_THRESHOLD_TIMER2 => clk_th2_timer2_clk_threshold
  | SYSCTL_THRESHOLD_I2S0 => clk_th3_i2s0_clk_threshold
  | SYSCTL_THRESHOLD_I2S1 => clk_th3_i2s1_clk_threshold
  | SYSCTL_THRESHOLD_I2S2 => clk_th4_i2s2_clk_threshold
  | SYSCTL_THRESHOLD_I2S0_M => clk_th4_i2s0_mclk_threshold
  | SYSCTL_THRESHOLD_I2S1_M => clk_th4_i2s1_mclk_threshold
  | SYSCTL_THRESHOLD_I2S2_M => clk_th5_i2s2_mclk_threshold
  | SYSCTL_THRESHOLD_I2C0 => clk_th5_i2c0_clk_threshold
  | SYSCTL_THRESHOLD_I2C1 => clk_th5_i2c1_clk_threshold
  | SYSCTL_THRESHOLD_I2C2 => clk_th5_i2c2_clk_threshold
  | SYSCTL_THRESHOLD_WDT0 => clk_th6_wdt0_clk_threshold
  | SYSCTL_THRESHOLD_WDT1 => clk_th6_wdt1_clk_threshold
  end.

Lemma threshold_field_wf w : f_wf (threshold_field w).
Proof. destruct w; field_dec. Qed.

Lemma threshold_field_disjoint w w' :
  w ≠ w' → f_disjoint (threshold_field w) (threshold_field w').
Proof. destruct w, w'; intros; try done; field_dec. Qed.

Lemma sysctl_clock_set_threshold_eq w t s :
  sysctl_clock_set_threshold (sysctl_threshold_to_Z w) t s =
  (0, fset (threshold_field w) t s).
Proof.
  unfold sysctl_clock_set_threshold. rewrite sysctl_threshold_of_to_Z.
  destruct w; simpl threshold_field;
    rewrite ?(land_ones_wrap 2), ?(land_ones_wrap 3), ?(land_ones_wrap 4) by lia;
    rewrite ?wrap_wrap_le by lia; by rewrite fset_wrap by (simpl; lia).
Qed.

Lemma sysctl_clock_get_threshold_eq w s :
  sysctl_clock_get_threshold (sysctl_threshold_to_Z w) s = fget (threshold_field w) s.
Proof.
  unfold sysctl_clock_get_threshold. rewrite sysctl_threshold_of_to_Z.
  by destruct w.
Qed.

(** A divider that is set reads back as the value truncated to the width of
    its field, and every other divider keeps its value. *)
Theorem sysctl_threshold_roundtrip w w' t s :
  let '(r, s') := sysctl_clock_set_threshold (sysctl_threshold_to_Z w) t s in
  r = 0 ∧
  sysctl_clock_get_threshold (sysctl_threshold_to_Z w') s' =
    if decide (w = w') then wrap (bf_width (f_bits (threshold_field w))) t
    else sysctl_clock_get_threshold (sysctl_threshold_to_Z w') s.
Proof.
  rewrite sysctl_clock_set_threshold_eq. split; [done|].
  rewrite !sysctl_clock_get_threshold_eq. case_decide as Hw.
  - rewrite <-Hw. apply fget_fset, threshold_field_wf.
  - apply fget_fset_ne; auto using threshold_field_wf, threshold_field_disjoint.
Qed.

Lemma fset_one {f : field sysctl_reg} s : f_wf f → fget f (fset f 1 s) = 1.
Proof.
  intros Hf. rewrite fget_fset by done. destruct Hf as (?&?&?).
  apply wrap_id. split; [lia|]. by apply Z.pow_gt_1.
Qed.

(** ** Clock gates

    The gate of a clock: the enable bit its device looks at.  The composite
    clocks ACLK, HCLK and IN0 have none. *)
Definition clock_gate (c : sysctl_clock) : option (field sysctl_reg) :=
  match c with
  | SYSCTL_CLOCK_PLL0 => Some pll0_pll_out_en0
  | SYSCTL_CLOCK_PLL1 => Some pll1_pll_out_en1
  | SYSCTL_CLOCK_PLL2 => Some pll2_pll_out_en2
  | SYSCTL_CLOCK_CPU => Some clk_en_cent_cpu_clk_en
  | SYSCTL_CLOCK_SRAM0 => Some clk_en_cent_sram0_clk_en
  | SYSCTL_CLOCK_SRAM1 => Some clk_en_cent_sram1_clk_en
  | SYSCTL_CLOCK_APB0 => Some clk_en_cent_apb0_clk_en
  | SYSCTL_CLOCK_APB1 => Some clk_en_cent_apb1_clk_en
  | SYSCTL_CLOCK_APB2 => Some clk_en_cent_apb2_clk_en
  | SYSCTL_CLOCK_ROM => Some clk_en_peri_rom_clk_en
  | SYSCTL_CLOCK_DMA => Some clk_en_peri_dma_clk_en
  | SYSCTL_CLOCK_AI => Some clk_en_peri_ai_clk_en
  | SYSCTL_CLOCK_DVP => Some clk_en_peri_dvp_clk_en
  | SYSCTL_CLOCK_FFT => Some clk_en_peri_fft_clk_en
  | SYSCTL_CLOCK_SPI3 => Some clk_en_peri_spi3_clk_en
  | SYSCTL_CLOCK_GPIO => Some clk_en_peri_gpio_clk_en
  | SYSCTL_CLOCK_SPI2 => Some clk_en_peri_spi2_clk_en
  | SYSCTL_CLOCK_I2S0 => Some clk_en_peri_i2s0_clk_en
  | SYSCTL_CLOCK_I2S1 => Some clk_en_peri_i2s1_clk_en
  | SYSCTL_CLOCK_I2S2 => Some clk_en_peri_i2s2_clk_en
  | SYSCTL_CLOCK_I2C0 => Some clk_en_peri_i2c0_clk_en
  | SYSCTL_CLOCK_I2C1 => Some clk_en_peri_i2c1_clk_en
  | SYSCTL_CLOCK_I2C2 => Some clk_en_peri_i2c2_clk_en
  | SYSCTL_CLOCK_UART1 => Some clk_en_peri_uart1_clk_en
  | SYSCTL_CLOCK_UART2 => Some clk_en_peri_uart2_clk_en
  | SYSCTL_CLOCK_UART3 => Some clk_en_peri_uart3_clk_en
  | SYSCTL_CLOCK_FPIOA => Some clk_en_peri_fpioa_clk_en
  | SYSCTL_CLOCK_TIMER0 => Some clk_en_peri_timer0_clk_en
  | SYSCTL_CLOCK_TIMER1 => Some clk_en_peri_timer1_clk_en
  | SYSCTL_CLOCK_TIMER2 => Some clk_en_peri_timer2_clk_en
  | SYSCTL_CLOCK_SHA => Some clk_en_peri_sha_clk_en
  | SYSCTL_CLOCK_AES => Some clk_en_peri_aes_clk_en
  | SYSCTL_CLOCK_WDT0 => Some clk_en_peri_wdt0_clk_en
  | SYSCTL_CLOCK_WDT1 => Some clk_en_peri_wdt1_clk_en
  | SYSCTL_CLOCK_OTP => Some clk_en_peri_otp_clk_en
  | SYSCTL_CLOCK_RTC => Some clk_en_peri_rtc_clk_en
  | SYSCTL_CLOCK_SPI0 => Some clk_en_peri_spi0_clk_en
  | SYSCTL_CLOCK_SPI1 => Some clk_en_peri_spi1_clk_en
  | SYSCTL_CLOCK_ACLK | SYSCTL_CLOCK_HCLK | SYSCTL_CLOCK_IN0 => None
  end.

(** The APB bus a peripheral sits on; its clock gate must be open too. *)
Definition clock_bus (c : sysctl_clock) : option (field sysctl_reg) :=
  match c with
  | SYSCTL_CLOCK_GPIO | SYSCTL_CLOCK_SPI2 | SYSCTL_CLOCK_I2S0 | SYSCTL_CLOCK_I2S1
  | SYSCTL_CLOCK_I2S2 | SYSCTL_CLOCK_I2C0 | SYSCTL_CLOCK_I2C1 | SYSCTL_CLOCK_I2C2
  | SYSCTL_CLOCK_UART1 | SYSCTL_CLOCK_UART2 | SYSCTL_CLOCK_UART3
  | SYSCTL_CLOCK_FPIOA | SYSCTL_CLOCK_TIMER0 | SYSCTL_CLOCK_TIMER1
  | SYSCTL_CLOCK_TIMER2 | SYSCTL_CLOCK_SHA => Some clk_en_cent_apb0_clk_en
  | SYSCTL_CLOCK_AES | SYSCTL_CLOCK_WDT0 | SYSCTL_CLOCK_WDT1 | SYSCTL_CLOCK_OTP
  | SYSCTL_CLOCK_RTC => Some clk_en_cent_apb1_clk_en
  | SYSCTL_CLOCK_SPI0 | SYSCTL_CLOCK_SPI1 => Some clk_en_cent_apb2_clk_en
  | _ => None
  end.

Definition gate_open (g : option (field sysctl_reg)) (s : bank sysctl_reg) : Prop :=
  match g with Some f => fget f s = 1 | None => True end.
Definition clock_running (c : sysctl_clock) (s : bank sysctl_reg) : Prop :=
  gate_open (clock_gate c) s ∧ gate_open (clock_bus c) s.

Definition gate_set (g : option (field sysctl_reg)) (v : Z) (s : bank sysctl_reg) :=
  match g with Some f => fset f v s | None => s end.

Lemma clock_gate_wf c f : clock_gate c = Some f → f_wf f.
Proof. destruct c; intros [= <-]; field_dec. Qed.
Lemma clock_bus_wf c f : clock_bus c = Some f → f_wf f.
Proof. destruct c; intros [= <-]; field_dec. Qed.

(** Two gates are the same bit or do not overlap. *)
Definition gates : list (field sysctl_reg) :=
  omap clock_gate (omap sysctl_clock_of_Z (seqZ 0 SYSCTL_CLOCK_MAX)).
#[export] Instance bitfield_eq_dec : EqDecision bitfield.
Proof. solve_decision. Defined.
#[export] Instance sysctl_field_eq_dec : EqDecision (field sysctl_reg).
Proof. solve_decision. Defined.

Lemma clock_gate_in c f : clock_gate c = Some f → f ∈ gates.
Proof.
  intros Hf. apply list_elem_of_omap. exists c. split; [|done].
  apply list_elem_of_omap. exists (sysctl_clock_to_Z c).
  split; [|apply sysctl_clock_of_to_Z]. apply elem_of_seqZ. by destruct c.
Qed.
Lemma clock_bus_in c f : clock_bus c = Some f → f ∈ gates.
Proof.
  intros Hf.
  assert (∃ c', clock_gate c' = Some f) as [c' ?]; [|by eapply clock_gate_in].
  destruct c; simplify_eq/=;
    first [by exists SYSCTL_CLOCK_APB0 | by exists SYSCTL_CLOCK_APB1
          | by exists SYSCTL_CLOCK_APB2].
Qed.

Lemma gates_wf f : f ∈ gates → f_wf f.
Proof. revert f. apply Forall_forall. field_dec. Qed.
Lemma gates_apart f g : f ∈ gates → g ∈ gates → f ≠ g → f_disjoint f g.
Proof.
  assert (Forall (λ f, Forall (λ g, f ≠ g → f_disjoint f g) gates) gates) as Hall
    by field_dec.
  rewrite Forall_forall in Hall. intros Hf Hg. specialize (Hall f Hf).
  rewrite Forall_forall in Hall. by apply Hall.
Qed.

Lemma gate_set_open g h s :
  (∀ f, g = Some f → f ∈ gates) → (∀ f, h = Some f → f ∈ gates) →
  gate_open h s ∨ h = g → gate_open h (gate_set g 1 s).
Proof.
  intros Hg Hh Ho. destruct h as [h|], g as [g|]; simpl in *; try done;
    [|by destruct Ho].
  destruct (decide (g = h)) as [->|].
  - apply fset_one. by apply gates_wf, Hh.
  - rewrite fget_fset_ne; auto using gates_wf, gates_apart.
    destruct Ho; naive_solver.
Qed.

Lemma sysctl_clock_device_en_eq c v s :
  sysctl_clock_device_en (sysctl_clock_to_Z c) v s = gate_set (clock_gate c) v s.
Proof. by destruct c. Qed.
Lemma sysctl_clock_bus_en_eq c s :
  sysctl_clock_bus_en (sysctl_clock_to_Z c) 1 s = gate_set (clock_bus c) 1 s.
Proof. by destruct c. Qed.
Lemma sysctl_clock_to_Z_lt c : 0 ≤ sysctl_clock_to_Z c < SYSCTL_CLOCK_MAX.
Proof. by destruct c. Qed.

Lemma sysctl_clock_enable_eq c s :
  sysctl_clock_enable (sysctl_clock_to_Z c) s =
  (0, gate_set (clock_gate c) 1 (gate_set (clock_bus c) 1 s)).
Proof.
  pose proof (sysctl_clock_to_Z_lt c). unfold sysctl_clock_enable.
  rewrite (proj2 (Z.leb_gt _ _)) by lia.
  by rewrite sysctl_clock_device_en_eq, sysctl_clock_bus_en_eq.
Qed.

Lemma clock_enable_running c s : clock_running c (snd (sysctl_clock_enable (sysctl_clock_to_Z c) s)).
Proof.
  rewrite sysctl_clock_enable_eq. simpl. split; apply gate_set_open;
    eauto using clock_gate_in, clock_bus_in.
  left. apply gate_set_open; eauto using clock_gate_in, clock_bus_in.
Qed.

Lemma clock_enable_mono c c' s :
  clock_running c' s → clock_running c' (snd (sysctl_clock_enable (sysctl_clock_to_Z c) s)).
Proof.
  rewrite sysctl_clock_enable_eq. simpl.
  intros [??]. split; apply gate_set_open; eauto using clock_gate_in, clock_bus_in;
    left; apply gate_set_open; eauto using clock_gate_in, clock_bus_in.
Qed.

#[export] Instance sysctl_clock_gate : ClockGate (bank sysctl_reg) sysctl_clock := {
  cg_enable c s := snd (sysctl_clock_enable (sysctl_clock_to_Z c) s);
  cg_running := clock_running;
  cg_enable_running := clock_enable_running;
  cg_enable_mono := clock_enable_mono
}.

(** Enabling a clock returns 0, opens its gate and the gate of its APB bus, and
    stops no clock that was running. *)
Theorem sysctl_clock_enable_runs c s :
  let '(r, s') := sysctl_clock_enable (sysctl_clock_to_Z c) s in
  r = 0 ∧ clock_running c s' ∧ ∀ c', clock_running c' s → clock_running c' s'.
Proof.
  pose proof (clock_enable_running c s). pose proof (λ c', clock_enable_mono c c' s).
  rewrite sysctl_clock_enable_eq in *. done.
Qed.

(** Disabling a clock that is not itself an APB bus stops that clock and no
    other: in particular a peripheral never takes its bus down with it. *)
Theorem sysctl_clock_disable_only c c' f s :
  clock_gate c = Some f →
  c ∉ [SYSCTL_CLOCK_APB0; SYSCTL_CLOCK_APB1; SYSCTL_CLOCK_APB2] →
  let '(r, s') := sysctl_clock_disable (sysctl_clock_to_Z c) s in
  r = 0 ∧ fget f s' = 0 ∧ (c' ≠ c → clock_running c' s ↔ clock_running c' s').
Proof.
  intros Hf Hbus. pose proof (sysctl_clock_to_Z_lt c). unfold sysctl_clock_disable.
  rewrite (proj2 (Z.leb_gt _ _)) by lia.
  rewrite sysctl_clock_device_en_eq, Hf. simpl. split; [done|]. split.
  { rewrite fget_fset by eauto using clock_gate_wf. by rewrite wrap_id by
      (split; [done|]; apply Z.pow_pos_nonneg; [done|];
       destruct (clock_gate_wf _ _ Hf) as (?&?&?); lia). }
  intros Hne.
  assert (∀ h, clock_gate c' = Some h ∨ clock_bus c' = Some h → f ≠ h) as Hfh.
  { intros h Hh <-. clear -Hf Hbus Hne Hh. unfold clock_running in *.
    destruct c; simpl in Hf; simplify_eq; destruct c'; simpl in Hh;
      destruct Hh as [Hh|Hh]; simplify_eq; set_solver. }
  assert (∀ h, clock_gate c' = Some h ∨ clock_bus c' = Some h →
    fget h (fset f 0 s) = fget h s) as Heq.
  { intros h Hh. assert (h ∈ gates) by (destruct Hh; eauto using clock_gate_in, clock_bus_in).
    apply fget_fset_ne; eauto using clock_gate_wf, gates_wf, gates_apart, clock_gate_in. }
  unfold clock_running, gate_open.
  destruct (clock_gate c') eqn:?, (clock_bus c') eqn:?; rewrite ?Heq by auto; done.
Qed.

(** UART1 off leaves UART2 running. *)
Lemma sysctl_clock_disable_only_witness :
  clock_gate SYSCTL_CLOCK_UART1 = Some clk_en_peri_uart1_clk_en ∧
  let s := snd (sysctl_clock_enable (sysctl_clock_to_Z SYSCTL_CLOCK_UART2) (λ _, 0)) in
  clock_running SYSCTL_CLOCK_UART2
    (snd (sysctl_clock_disable (sysctl_clock_to_Z SYSCTL_CLOCK_UART1) s)).
Proof.
  split; [reflexivity|]. cbv zeta.
  pose proof (sysctl_clock_disable_only SYSCTL_CLOCK_UART1 SYSCTL_CLOCK_UART2
    clk_en_peri_uart1_clk_en
    (snd (sysctl_clock_enable (sysctl_clock_to_Z SYSCTL_CLOCK_UART2) (λ _, 0)))
    eq_refl) as H.
  destruct (sysctl_clock_disable _ _) as [r s'] eqn:E. cbn [snd].
  destruct H as (_ & _ & H); [set_solver|].
  apply H; [discriminate|]. apply clock_enable_running.
Defined.
