(* ===== verification/SysctlClock.v ===== *)
(** * System controller: the clock tree

    Frequencies of k210_sysctl.c: [sysctl_clock_get_freq],
    [sysctl_clock_source_get_freq] and [sysctl_pll_get_freq] call each other; the
    model recurses on a call-depth bound, and [clock_freq_total] shows that 7
    levels are always enough.  PLL outputs are computed in doubles. *)

From S2P Require Import Prelude Float64 SysctlRegs Sysctl.

Definition SYSCTRL_CLOCK_FREQ_IN0 : Z := 26000000.

(** [get_source_pll2] and [get_select_pll2]: the tables are as long as their
    last index. *)
Definition get_source_pll2 (select : Z) : option sysctl_clock_source :=
  match select with
  | 0 => Some SYSCTL_SOURCE_IN0
  | 1 => Some SYSCTL_SOURCE_PLL0
  | 2 => Some SYSCTL_SOURCE_PLL1
  | _ => None
  end.
Definition get_select_pll2 (source : sysctl_clock_source) : option Z :=
  match source with
  | SYSCTL_SOURCE_IN0 => Some 0
  | SYSCTL_SOURCE_PLL0 => Some 1
  | SYSCTL_SOURCE_PLL1 => Some 2
  | _ => None
  end.

(** The divider fields of the three PLLs. *)
Definition pll_clkr (p : sysctl_pll) : field sysctl_reg :=
  match p with SYSCTL_PLL0 => pll0_clkr0 | SYSCTL_PLL1 => pll1_clkr1 | SYSCTL_PLL2 => pll2_clkr2 end.
Definition pll_clkf (p : sysctl_pll) : field sysctl_reg :=
  match p with SYSCTL_PLL0 => pll0_clkf0 | SYSCTL_PLL1 => pll1_clkf1 | SYSCTL_PLL2 => pll2_clkf2 end.
Definition pll_clkod (p : sysctl_pll) : field sysctl_reg :=
  match p with SYSCTL_PLL0 => pll0_clkod0 | SYSCTL_PLL1 => pll1_clkod1 | SYSCTL_PLL2 => pll2_clkod2 end.
Definition pll_bwadj (p : sysctl_pll) : field sysctl_reg :=
  match p with SYSCTL_PLL0 => pll0_bwadj0 | SYSCTL_PLL1 => pll1_bwadj1 | SYSCTL_PLL2 => pll2_bwadj2 end.

(** [freq_out = (double)freq_in / (double)nr * (double)nf / (double)od],
    converted to [uint32_t]. *)
Definition pll_fout (freq_in nr nf od : Z) : res Z :=
  to_uint32 (d_trunc
    (d_div (d_mul (d_div (d_of_Z freq_in) (d_of_Z nr)) (d_of_Z nf)) (d_of_Z od))).

Fixpoint clock_source_freq (fuel : nat) (s : bank sysctl_reg)
    (input : sysctl_clock_source) {struct fuel} : res Z :=
  match fuel with
  | O => Fault FFuel
  | S fuel =>
      match input with
      | SYSCTL_SOURCE_IN0 => Ok SYSCTRL_CLOCK_FREQ_IN0
      | SYSCTL_SOURCE_PLL0 => pll_freq fuel s SYSCTL_PLL0
      | SYSCTL_SOURCE_PLL1 => pll_freq fuel s SYSCTL_PLL1
      | SYSCTL_SOURCE_PLL2 => pll_freq fuel s SYSCTL_PLL2
      | SYSCTL_SOURCE_ACLK => clock_freq fuel s SYSCTL_CLOCK_ACLK
      end
  end
with pll_freq (fuel : nat) (s : bank sysctl_reg) (pll : sysctl_pll)
    {struct fuel} : res Z :=
  match fuel with
  | O => Fault FFuel
  | S fuel =>
      let nr := fget (pll_clkr pll) s + 1 in
      let nf := fget (pll_clkf pll) s + 1 in
      let od := fget (pll_clkod pll) s + 1 in
      match pll with
      | SYSCTL_PLL0 | SYSCTL_PLL1 =>
          freq_in ← clock_source_freq fuel s SYSCTL_SOURCE_IN0;
          pll_fout freq_in nr nf od
      | SYSCTL_PLL2 =>
          match get_source_pll2 (fget pll2_pll_ckin_sel2 s) with
          | Some source =>
              freq_in ← clock_source_freq fuel s source;
              pll_fout freq_in nr nf od
          | None => Ok 0
          end
      end
  end
with clock_freq (fuel : nat) (s : bank sysctl_reg) (clock : sysctl_clock)
    {struct fuel} : res Z :=
  match fuel with
  | O => Fault FFuel
  | S fuel =>
      let source_freq := clock_source_freq fuel s in
      let clock_freq := clock_freq fuel s in
      let select w := sysctl_clock_get_clock_select (sysctl_clock_select_to_Z w) s in
      let threshold w := sysctl_clock_get_threshold (sysctl_threshold_to_Z w) s in
      match clock with
      | SYSCTL_CLOCK_IN0 =>
          source_freq SYSCTL_SOURCE_IN0
      | SYSCTL_CLOCK_PLL0 =>
          source_freq SYSCTL_SOURCE_PLL0
      | SYSCTL_CLOCK_PLL1 =>
          source_freq SYSCTL_SOURCE_PLL1
      | SYSCTL_CLOCK_PLL2 =>
          source_freq SYSCTL_SOURCE_PLL2
      | SYSCTL_CLOCK_CPU =>
          match select SYSCTL_CLOCK_SELECT_ACLK with
          | 0 => source_freq SYSCTL_SOURCE_IN0
          | 1 => source ← source_freq SYSCTL_SOURCE_PLL0;
                 Ok (source / (Z.shiftl 2 (threshold SYSCTL_THRESHOLD_ACLK)))
          | _ => Ok 0
          end
      | SYSCTL_CLOCK_DMA =>
          match select SYSCTL_CLOCK_SELECT_ACLK with
          | 0 => source_freq SYSCTL_SOURCE_IN0
          | 1 => source ← source_freq SYSCTL_SOURCE_PLL0;
                 Ok (source / (Z.shiftl 2 (threshold SYSCTL_THRESHOLD_ACLK)))
          | _ => Ok 0
          end
      | SYSCTL_CLOCK_FFT =>
          match select SYSCTL_CLOCK_SELECT_ACLK with
          | 0 => source_freq SYSCTL_SOURCE_IN0
          | 1 => source ← source_freq SYSCTL_SOURCE_PLL0;
                 Ok (source / (Z.shiftl 2 (threshold SYSCTL_THRESHOLD_ACLK)))
          | _ => Ok 0
          end
      | SYSCTL_CLOCK_ACLK =>
          match select SYSCTL_CLOCK_SELECT_ACLK with
          | 0 => source_freq SYSCTL_SOURCE_IN0
          | 1 => source ← source_freq SYSCTL_SOURCE_PLL0;
                 Ok (source / (Z.shiftl 2 (threshold SYSCTL_THRESHOLD_ACLK)))
          | _ => Ok 0
          end
      | SYSCTL_CLOCK_HCLK =>
          match select SYSCTL_CLOCK_SELECT_ACLK with
          | 0 => source_freq SYSCTL_SOURCE_IN0
          | 1 => source ← source_freq SYSCTL_SOURCE_PLL0;
                 Ok (source / (Z.shiftl 2 (threshold SYSCTL_THRESHOLD_ACLK)))
          | _ => Ok 0
          end
      | SYSCTL_CLOCK_SRAM0 =>
          source ← source_freq SYSCTL_SOURCE_ACLK;
          Ok (source / (threshold SYSCTL_THRESHOLD_SRAM0 + 1))
      | SYSCTL_CLOCK_SRAM1 =>
          source ← source_freq SYSCTL_SOURCE_ACLK;
          Ok (source / (threshold SYSCTL_THRESHOLD_SRAM1 + 1))
      | SYSCTL_CLOCK_ROM =>
          source ← source_freq SYSCTL_SOURCE_ACLK;
          Ok (source / (threshold SYSCTL_THRESHOLD_ROM + 1))
      | SYSCTL_CLOCK_DVP =>
          source ← source_freq SYSCTL_SOURCE_ACLK;
          Ok (source / (threshold SYSCTL_THRESHOLD_DVP + 1))
      | SYSCTL_CLOCK_APB0 =>
          source ← source_freq SYSCTL_SOURCE_ACLK;
          Ok (source / (threshold SYSCTL_THRESHOLD_APB0 + 1))
      | SYSCTL_CLOCK_APB1 =>
          source ← source_freq SYSCTL_SOURCE_ACLK;
          Ok (source / (threshold SYSCTL_THRESHOLD_APB1 + 1))
      | SYSCTL_CLOCK_APB2 =>
          source ← source_freq SYSCTL_SOURCE_ACLK;
          Ok (source / (threshold SYSCTL_THRESHOLD_APB2 + 1))
      | SYSCTL_CLOCK_AI =>
          source ← source_freq SYSCTL_SOURCE_PLL1;
          Ok (source / (threshold SYSCTL_THRESHOLD_AI + 1))
      | SYSCTL_CLOCK_I2S0 =>
          source ← source_freq SYSCTL_SOURCE_PLL2;
          Ok (source / ((threshold SYSCTL_THRESHOLD_I2S0 + 1) * 2))
      | SYSCTL_CLOCK_I2S1 =>
          source ← source_freq SYSCTL_SOURCE_PLL2;
          Ok (source / ((threshold SYSCTL_THRESHOLD_I2S1 + 1) * 2))
      | SYSCTL_CLOCK_I2S2 =>
          source ← source_freq SYSCTL_SOURCE_PLL2;
          Ok (source / ((threshold SYSCTL_THRESHOLD_I2S2 + 1) * 2))
      | SYSCTL_CLOCK_WDT0 =>
          source ← source_freq SYSCTL_SOURCE_IN0;
          Ok (source / ((threshold SYSCTL_THRESHOLD_WDT0 + 1) * 2))
      | SYSCTL_CLOCK_WDT1 =>
          source ← source_freq SYSCTL_SOURCE_IN0;
          Ok (source / ((threshold SYSCTL_THRESHOLD_WDT1 + 1) * 2))
      | SYSCTL_CLOCK_SPI0 =>
          source ← source_freq SYSCTL_SOURCE_PLL0;
          Ok (source / ((threshold SYSCTL_THRESHOLD_SPI0 + 1) * 2))
      | SYSCTL_CLOCK_SPI1 =>
          source ← source_freq SYSCTL_SOURCE_PLL0;
          Ok (source / ((threshold SYSCTL_THRESHOLD_SPI1 + 1) * 2))
      | SYSCTL_CLOCK_SPI2 =>
          source ← source_freq SYSCTL_SOURCE_PLL0;
          Ok (source / ((threshold SYSCTL_THRESHOLD_SPI2 + 1) * 2))
      | SYSCTL_CLOCK_I2C0 =>
          source ← source_freq SYSCTL_SOURCE_PLL0;
          Ok (source / ((threshold SYSCTL_THRESHOLD_I2C0 + 1) * 2))
      | SYSCTL_CLOCK_I2C1 =>
          source ← source_freq SYSCTL_SOURCE_PLL0;
          Ok (source / ((threshold SYSCTL_THRESHOLD_I2C1 + 1) * 2))
      | SYSCTL_CLOCK_I2C2 =>
          source ← source_freq SYSCTL_SOURCE_PLL0;
          Ok (source / ((threshold SYSCTL_THRESHOLD_I2C2 + 1) * 2))
      | SYSCTL_CLOCK_SPI3 =>
          source ← match select SYSCTL_CLOCK_SELECT_SPI3 with
                   | 0 => source_freq SYSCTL_SOURCE_IN0
                   | 1 => source_freq SYSCTL_SOURCE_PLL0
                   | _ => Ok 0
                   end;
          Ok (source / ((threshold SYSCTL_THRESHOLD_SPI3 + 1) * 2))
      | SYSCTL_CLOCK_TIMER0 =>
          source ← match select SYSCTL_CLOCK_SELECT_TIMER0 with
                   | 0 => source_freq SYSCTL_SOURCE_IN0
                   | 1 => source_freq SYSCTL_SOURCE_PLL0
                   | _ => Ok 0
                   end;
          Ok (source / ((threshold SYSCTL_THRESHOLD_TIMER0 + 1) * 2))
      | SYSCTL_CLOCK_TIMER1 =>
          source ← match select SYSCTL_CLOCK_SELECT_TIMER1 with
                   | 0 => source_freq SYSCTL_SOURCE_IN0
                   | 1 => source_freq SYSCTL_SOURCE_PLL0
                   | _ => Ok 0
                   end;
          Ok (source / ((threshold SYSCTL_THRESHOLD_TIMER1 + 1) * 2))
      | SYSCTL_CLOCK_TIMER2 =>
          source ← match select SYSCTL_CLOCK_SELECT_TIMER2 with
                   | 0 => source_freq SYSCTL_SOURCE_IN0
                   | 1 => source_freq SYSCTL_SOURCE_PLL0
                   | _ => Ok 0
                   end;
          Ok (source / ((threshold SYSCTL_THRESHOLD_TIMER2 + 1) * 2))
      | SYSCTL_CLOCK_GPIO =>
          clock_freq SYSCTL_CLOCK_APB0
      | SYSCTL_CLOCK_UART1 =>
          clock_freq SYSCTL_CLOCK_APB0
      | SYSCTL_CLOCK_UART2 =>
          clock_freq SYSCTL_CLOCK_APB0
      | SYSCTL_CLOCK_UART3 =>
          clock_freq SYSCTL_CLOCK_APB0
      | SYSCTL_CLOCK_FPIOA =>
          clock_freq SYSCTL_CLOCK_APB0
      | SYSCTL_CLOCK_SHA =>
          clock_freq SYSCTL_CLOCK_APB0
      | SYSCTL_CLOCK_AES =>
          clock_freq SYSCTL_CLOCK_APB1
      | SYSCTL_CLOCK_OTP =>
          clock_freq SYSCTL_CLOCK_APB1
      | SYSCTL_CLOCK_RTC =>
          source_freq SYSCTL_SOURCE_IN0
      end
  end.

(** The entry points; a number outside an enumeration takes the [default]
    branch of its switch, which yields 0. *)
Definition tree_fuel : nat := 7.
Definition sysctl_clock_source_get_freq (input : Z) (s : bank sysctl_reg) : res Z :=
  match sysctl_clock_source_of_Z input with
  | Some i => clock_source_freq tree_fuel s i
  | None => Ok 0
  end.
Definition sysctl_pll_get_freq (pll : Z) (s : bank sysctl_reg) : res Z :=
  match sysctl_pll_of_Z pll with
  | Some p => pll_freq tree_fuel s p
  | None => Ok 0
  end.
Definition sysctl_clock_get_freq (clock : Z) (s : bank sysctl_reg) : res Z :=
  match sysctl_clock_of_Z clock with
  | Some c => clock_freq tree_fuel s c
  | None => Ok 0
  end.

(** ** The call depth is bounded *)
Section depth.
Context (s : bank sysctl_reg).

Lemma source_freq_IN0 n :
  clock_source_freq (S n) s SYSCTL_SOURCE_IN0 = Ok SYSCTRL_CLOCK_FREQ_IN0.
Proof. done. Qed.

Lemma pll_freq_01 n p : p ≠ SYSCTL_PLL2 →
  pll_freq (S (S n)) s p =
  pll_fout SYSCTRL_CLOCK_FREQ_IN0 (fget (pll_clkr p) s + 1)
    (fget (pll_clkf p) s + 1) (fget (pll_clkod p) s + 1).
Proof. by destruct p. Qed.

Lemma get_source_pll2_cases sel i :
  get_source_pll2 sel = Some i →
  i = SYSCTL_SOURCE_IN0 ∨ i = SYSCTL_SOURCE_PLL0 ∨ i = SYSCTL_SOURCE_PLL1.
Proof. unfold get_source_pll2. repeat case_match; naive_solver. Qed.

Lemma source_freq_base n i :
  i = SYSCTL_SOURCE_IN0 ∨ i = SYSCTL_SOURCE_PLL0 ∨ i = SYSCTL_SOURCE_PLL1 →
  clock_source_freq (3 + n) s i = clock_source_freq 3 s i.
Proof. by intros [->|[->| ->]]. Qed.

Lemma pll_freq_depth n p : pll_freq (4 + n) s p = pll_freq 4 s p.
Proof.
  destruct p; [done..|]. cbn -[clock_source_freq].
  destruct (get_source_pll2 _) as [i|] eqn:Hi; [|done].
  by rewrite (source_freq_base n) by eauto using get_source_pll2_cases.
Qed.

Lemma clock_freq_ACLK n :
  clock_freq (4 + n) s SYSCTL_CLOCK_ACLK = clock_freq 4 s SYSCTL_CLOCK_ACLK.
Proof.
  cbn -[clock_source_freq]. by rewrite !(source_freq_base n) by auto.
Qed.

Lemma source_freq_depth n i :
  clock_source_freq (5 + n) s i = clock_source_freq 5 s i.
Proof.
  destruct i; [done..| |]; cbn -[pll_freq clock_freq].
  - apply pll_freq_depth.
  - apply clock_freq_ACLK.
Qed.

Lemma clock_freq_depth n c : clock_freq (7 + n) s c = clock_freq 7 s c.
Proof.
  destruct c; cbn -[clock_source_freq];
    rewrite ?(source_freq_depth (S n)), ?(source_freq_depth 1),
      ?(source_freq_depth n); done.
Qed.

Lemma pll_fout_no_fuel fin nr nf od : no_fuel (pll_fout fin nr nf od).
Proof. unfold no_fuel, pll_fout, to_uint32. by repeat case_match. Qed.
#[local] Hint Resolve pll_fout_no_fuel : no_fuel.

Lemma source_base_no_fuel i :
  i = SYSCTL_SOURCE_IN0 ∨ i = SYSCTL_SOURCE_PLL0 ∨ i = SYSCTL_SOURCE_PLL1 →
  no_fuel (clock_source_freq 3 s i).
Proof. intros [->|[->| ->]]; cbn -[pll_fout]; auto with no_fuel. Qed.

Lemma pll_no_fuel p : no_fuel (pll_freq 4 s p).
Proof.
  destruct p; cbn -[pll_fout clock_source_freq]; try apply no_fuel_bind;
    auto with no_fuel; [done..|].
  destruct (get_source_pll2 _) as [i|] eqn:Hi; [|done].
  apply no_fuel_bind; auto with no_fuel.
  eauto using source_base_no_fuel, get_source_pll2_cases.
Qed.

Lemma aclk_no_fuel : no_fuel (clock_freq 4 s SYSCTL_CLOCK_ACLK).
Proof.
  cbn -[clock_source_freq]. repeat case_match; auto using source_base_no_fuel with no_fuel.
Qed.

Lemma source_no_fuel i : no_fuel (clock_source_freq 5 s i).
Proof.
  destruct i; [done | exact (pll_no_fuel SYSCTL_PLL0) | exact (pll_no_fuel SYSCTL_PLL1)
    | exact (pll_no_fuel SYSCTL_PLL2) | exact aclk_no_fuel].
Qed.

Lemma clock_no_fuel c : no_fuel (clock_freq 7 s c).
Proof.
  destruct c; cbn -[clock_source_freq];
    rewrite ?(source_freq_depth 1), ?(source_freq_depth 0);
    repeat case_match;
    repeat first [apply no_fuel_bind; [|intros ?] | apply no_fuel_Ok];
    auto using source_no_fuel with no_fuel.
Qed.
End depth.

(** ** What the tree computes

    Every clock is one source divided by one divisor: the source its selector
    field picks, the divisor its threshold field gives. *)
Definition sel_source (f : field sysctl_reg) (s : bank sysctl_reg) : sysctl_clock_source :=
  if fget f s =? 0 then SYSCTL_SOURCE_IN0 else SYSCTL_SOURCE_PLL0.
Definition clock_parent (s : bank sysctl_reg) (c : sysctl_clock) : sysctl_clock_source :=
  match c with
  | SYSCTL_CLOCK_IN0 | SYSCTL_CLOCK_WDT0 | SYSCTL_CLOCK_WDT1 | SYSCTL_CLOCK_RTC =>
      SYSCTL_SOURCE_IN0
  | SYSCTL_CLOCK_PLL0 | SYSCTL_CLOCK_SPI0 | SYSCTL_CLOCK_SPI1 | SYSCTL_CLOCK_SPI2
  | SYSCTL_CLOCK_I2C0 | SYSCTL_CLOCK_I2C1 | SYSCTL_CLOCK_I2C2 =>
      SYSCTL_SOURCE_PLL0
  | SYSCTL_CLOCK_PLL1 | SYSCTL_CLOCK_AI =>
      SYSCTL_SOURCE_PLL1
  | SYSCTL_CLOCK_PLL2 | SYSCTL_CLOCK_I2S0 | SYSCTL_CLOCK_I2S1 | SYSCTL_CLOCK_I2S2 =>
      SYSCTL_SOURCE_PLL2
  | SYSCTL_CLOCK_CPU | SYSCTL_CLOCK_DMA | SYSCTL_CLOCK_FFT | SYSCTL_CLOCK_ACLK
  | SYSCTL_CLOCK_HCLK =>
      sel_source clk_sel0_aclk_sel s
  | SYSCTL_CLOCK_SRAM0 | SYSCTL_CLOCK_SRAM1 | SYSCTL_CLOCK_ROM | SYSCTL_CLOCK_DVP
  | SYSCTL_CLOCK_APB0 | SYSCTL_CLOCK_APB1 | SYSCTL_CLOCK_APB2 | SYSCTL_CLOCK_GPIO
  | SYSCTL_CLOCK_UART1 | SYSCTL_CLOCK_UART2 | SYSCTL_CLOCK_UART3 | SYSCTL_CLOCK_FPIOA
  | SYSCTL_CLOCK_SHA | SYSCTL_CLOCK_AES | SYSCTL_CLOCK_OTP =>
      SYSCTL_SOURCE_ACLK
  | SYSCTL_CLOCK_SPI3 =>
      sel_source clk_sel0_spi3_clk_sel s
  | SYSCTL_CLOCK_TIMER0 =>
      sel_source clk_sel0_timer0_clk_sel s
  | SYSCTL_CLOCK_TIMER1 =>
      sel_source clk_sel0_timer1_clk_sel s
  | SYSCTL_CLOCK_TIMER2 =>
      sel_source clk_sel0_timer2_clk_sel s
  end.

Definition clock_divisor (s : bank sysctl_reg) (c : sysctl_clock) : Z :=
  match c with
  | SYSCTL_CLOCK_IN0 | SYSCTL_CLOCK_PLL0 | SYSCTL_CLOCK_PLL1 | SYSCTL_CLOCK_PLL2
  | SYSCTL_CLOCK_RTC => 1
  | SYSCTL_CLOCK_CPU | SYSCTL_CLOCK_DMA | SYSCTL_CLOCK_FFT | SYSCTL_CLOCK_ACLK
  | SYSCTL_CLOCK_HCLK =>
      if fget clk_sel0_aclk_sel s =? 0 then 1
      else 2 * 2 ^ fget clk_sel0_aclk_divider_sel s
  | SYSCTL_CLOCK_SRAM0 =>
      (fget (threshold_field SYSCTL_THRESHOLD_SRAM0) s + 1)
  | SYSCTL_CLOCK_SRAM1 =>
      (fget (threshold_field SYSCTL_THRESHOLD_SRAM1) s + 1)
  | SYSCTL_CLOCK_ROM =>
      (fget (threshold_field SYSCTL_THRESHOLD_ROM) s + 1)
  | SYSCTL_CLOCK_DVP =>
      (fget (threshold_field SYSCTL_THRESHOLD_DVP) s + 1)
  | SYSCTL_CLOCK_APB0 | SYSCTL_CLOCK_GPIO | SYSCTL_CLOCK_UART1 | SYSCTL_CLOCK_UART2
  | SYSCTL_CLOCK_UART3 | SYSCTL_CLOCK_FPIOA | SYSCTL_CLOCK_SHA =>
      (fget (threshold_field SYSCTL_THRESHOLD_APB0) s + 1)
  | SYSCTL_CLOCK_APB1 | SYSCTL_CLOCK_AES | SYSCTL_CLOCK_OTP =>
      (fget (threshold_field SYSCTL_THRESHOLD_APB1) s + 1)
  | SYSCTL_CLOCK_APB2 =>
      (fget (threshold_field SYSCTL_THRESHOLD_APB2) s + 1)
  | SYSCTL_CLOCK_AI =>
      (fget (threshold_field SYSCTL_THRESHOLD_AI) s + 1)
  | SYSCTL_CLOCK_I2S0 =>
      (fget (threshold_field SYSCTL_THRESHOLD_I2S0) s + 1) * 2
  | SYSCTL_CLOCK_I2S1 =>
      (fget (threshold_field SYSCTL_THRESHOLD_I2S1) s + 1) * 2
  | SYSCTL_CLOCK_I2S2 =>
      (fget (threshold_field SYSCTL_THRESHOLD_I2S2) s + 1) * 2
  | SYSCTL_CLOCK_WDT0 =>
      (fget (threshold_field SYSCTL_THRESHOLD_WDT0) s + 1) * 2
  | SYSCTL_CLOCK_WDT1 =>
      (fget (threshold_field SYSCTL_THRESHOLD_WDT1) s + 1) * 2
  | SYSCTL_CLOCK_SPI0 =>
      (fget (threshold_field SYSCTL_THRESHOLD_SPI0) s + 1) * 2
  | SYSCTL_CLOCK_SPI1 =>
      (fget (threshold_field SYSCTL_THRESHOLD_SPI1) s + 1) * 2
  | SYSCTL_CLOCK_SPI2 =>
      (fget (threshold_field SYSCTL_THRESHOLD_SPI2) s + 1) * 2
  | SYSCTL_CLOCK_I2C0 =>
      (fget (threshold_field SYSCTL_THRESHOLD_I2C0) s + 1) * 2
  | SYSCTL_CLOCK_I2C1 =>
      (fget (threshold_field SYSCTL_THRESHOLD_I2C1) s + 1) * 2
  | SYSCTL_CLOCK_I2C2 =>
      (fget (threshold_field SYSCTL_THRESHOLD_I2C2) s + 1) * 2
  | SYSCTL_CLOCK_SPI3 =>
      (fget (threshold_field SYSCTL_THRESHOLD_SPI3) s + 1) * 2
  | SYSCTL_CLOCK_TIMER0 =>
      (fget (threshold_field SYSCTL_THRESHOLD_TIMER0) s + 1) * 2
  | SYSCTL_CLOCK_TIMER1 =>
      (fget (threshold_field SYSCTL_THRESHOLD_TIMER1) s + 1) * 2
  | SYSCTL_CLOCK_TIMER2 =>
      (fget (threshold_field SYSCTL_THRESHOLD_TIMER2) s + 1) * 2
  end.

Definition freq_div (src : res Z) (d : Z) : res Z := g ← src; Ok (g / d).

Lemma freq_div_1 m : freq_div m 1 = m.
Proof. destruct m; simpl; [by rewrite Z.div_1_r|done]. Qed.

Lemma fget_bit f (s : bank sysctl_reg) :
  f_wf f → bf_width (f_bits f) = 1 → fget f s = 0 ∨ fget f s = 1.
Proof.
  intros Hf Hw. pose proof (bf_get_range 32 _ (s (f_reg f)) Hf) as Hr.
  rewrite Hw in Hr. unfold fget. lia.
Qed.

Lemma fget_threshold_nonneg w s : 0 ≤ fget (threshold_field w) s.
Proof. apply (bf_get_range 32), threshold_field_wf. Qed.

Lemma freq_div_div m a b : 0 < a → 0 < b → freq_div (freq_div m a) b = freq_div m (a * b).
Proof. intros. destruct m; simpl; [|done]. by rewrite Z.div_div by lia. Qed.

Lemma clock_divisor_pos s c : 0 < clock_divisor s c.
Proof.
  assert (0 < 2 * 2 ^ fget clk_sel0_aclk_divider_sel s) as Ha.
  { apply Z.mul_pos_pos; [done|]. apply Z.pow_pos_nonneg; [done|].
    apply (fget_threshold_nonneg SYSCTL_THRESHOLD_ACLK). }
  destruct c; cbn [clock_divisor]; try case_match; try lia;
    match goal with |- context [threshold_field ?w] =>
      pose proof (fget_threshold_nonneg w s) end; lia.
Qed.

Lemma aclk_select_eq s :
  sysctl_clock_get_clock_select (sysctl_clock_select_to_Z SYSCTL_CLOCK_SELECT_ACLK) s =
  fget clk_sel0_aclk_sel s.
Proof. done. Qed.

(** A selector switch of the source is a division of the selected source. *)
Lemma sel_switch n f s (d : Z) :
  f_wf f → bf_width (f_bits f) = 1 →
  (source ← match fget f s with
            | 0 => clock_source_freq (S n) s SYSCTL_SOURCE_IN0
            | 1 => clock_source_freq (S n) s SYSCTL_SOURCE_PLL0
            | _ => Ok 0
            end; Ok (source / d)) =
  freq_div (clock_source_freq (S n) s (sel_source f s)) d.
Proof.
  intros Hf Hw. unfold sel_source. by destruct (fget_bit f s Hf Hw) as [-> | ->].
Qed.

Lemma aclk_switch n s :
  match fget clk_sel0_aclk_sel s with
  | 0 => clock_source_freq (S n) s SYSCTL_SOURCE_IN0
  | 1 => source ← clock_source_freq (S n) s SYSCTL_SOURCE_PLL0;
         Ok (source / Z.shiftl 2 (fget clk_sel0_aclk_divider_sel s))
  | _ => Ok 0
  end =
  freq_div (clock_source_freq (S n) s (clock_parent s SYSCTL_CLOCK_ACLK))
    (clock_divisor s SYSCTL_CLOCK_ACLK).
Proof.
  cbn [clock_parent clock_divisor]. unfold sel_source.
  destruct (fget_bit clk_sel0_aclk_sel s) as [-> | ->]; [field_dec|done|..].
  - by rewrite freq_div_1.
  - rewrite Z.shiftl_mul_pow2; [done|].
    apply (fget_threshold_nonneg SYSCTL_THRESHOLD_ACLK).
Qed.

Lemma clock_freq_spec s c :
  clock_freq 7 s c =
  freq_div (clock_source_freq 5 s (clock_parent s c)) (clock_divisor s c).
Proof.
  destruct c;
    first
      [ by rewrite <-(source_freq_depth s 1); apply (aclk_switch 5)
      | by rewrite <-(source_freq_depth s 1); apply sel_switch; [field_dec|]
      | by cbn [clock_divisor]; rewrite freq_div_1, <-(source_freq_depth s 1)
      | by cbn -[clock_source_freq]; rewrite ?(source_freq_depth s 1), ?(source_freq_depth s 0) ].
Qed.

(** The mutually recursive frequency functions terminate: seven nested calls
    serve every clock, and a deeper bound gives the same answer. *)
Theorem clock_freq_total s c n :
  (tree_fuel ≤ n)%nat →
  clock_freq n s c = clock_freq tree_fuel s c ∧ clock_freq n s c ≠ Fault FFuel.
Proof.
  intros Hn. replace n with (7 + (n - 7))%nat by (unfold tree_fuel in Hn; lia).
  rewrite clock_freq_depth. split; [done|]. apply clock_no_fuel.
Qed.

Lemma clock_freq_total_witness :
  (tree_fuel ≤ 9)%nat ∧
  clock_freq 9 (λ _, 0) SYSCTL_CLOCK_UART1 = clock_freq tree_fuel (λ _, 0) SYSCTL_CLOCK_UART1.
Proof. split; [unfold tree_fuel; lia|]. apply clock_freq_total. unfold tree_fuel. lia. Defined.

(** C3: [sysctl_clock_get_freq] refines the clock tree: a clock runs at the
    frequency of its parent source divided by its divisor, rounded down, the
    divisor being positive; so [f * d <= parent < (f + 1) * d]. *)
Theorem sysctl_clock_get_freq_spec s c g :
  sysctl_clock_source_get_freq (sysctl_clock_source_to_Z (clock_parent s c)) s = Ok g →
  ∃ f, sysctl_clock_get_freq (sysctl_clock_to_Z c) s = Ok f ∧
    f * clock_divisor s c ≤ g < (f + 1) * clock_divisor s c.
Proof.
  unfold sysctl_clock_source_get_freq, sysctl_clock_get_freq.
  rewrite sysctl_clock_source_of_to_Z, sysctl_clock_of_to_Z.
  change tree_fuel with (5 + 2)%nat at 1. rewrite source_freq_depth.
  intros Hg. pose proof (clock_divisor_pos s c).
  exists (g / clock_divisor s c). split.
  - unfold tree_fuel. by rewrite clock_freq_spec, Hg.
  - pose proof (Z.mul_div_le g (clock_divisor s c)).
    pose proof (Z.mul_succ_div_gt g (clock_divisor s c)). lia.
Qed.

(** ACLK from PLL0 (all dividers zero): 26 MHz out of the PLL, 13 MHz at APB0
    and at UART1. *)
Definition demo_regs : bank sysctl_reg :=
  snd (sysctl_clock_set_clock_select 4 1 (λ _, 0)).
Lemma sysctl_clock_get_freq_spec_witness :
  sysctl_clock_source_get_freq (sysctl_clock_source_to_Z
    (clock_parent demo_regs SYSCTL_CLOCK_UART1)) demo_regs = Ok 13000000 ∧
  ∃ f, sysctl_clock_get_freq (sysctl_clock_to_Z SYSCTL_CLOCK_UART1) demo_regs = Ok f ∧
    f * 1 ≤ 13000000 < (f + 1) * 1.
Proof.
  split; [by vm_compute|].
  apply (sysctl_clock_get_freq_spec demo_regs SYSCTL_CLOCK_UART1 13000000). by vm_compute.
Defined.

(** ** Accuracy of the PLL readout *)
Definition pll_accurate (nr nf od : Z) : Prop :=
  let f := SYSCTRL_CLOCK_FREQ_IN0 * nf / (nr * od) in
  pll_fout SYSCTRL_CLOCK_FREQ_IN0 nr nf od = Ok f ∨
  pll_fout SYSCTRL_CLOCK_FREQ_IN0 nr nf od = Ok (f - 1) ∧
    SYSCTRL_CLOCK_FREQ_IN0 * nf mod (nr * od) = 0.

(** The 16384 register settings are checked by evaluation, each intermediate
    double computed once. *)
Definition pll_accurate_at (nr nf od : Z) (y : double) : bool :=
  match to_uint32 (d_trunc (d_div y (d_of_Z od))) with
  | Ok v =>
      let f := SYSCTRL_CLOCK_FREQ_IN0 * nf / (nr * od) in
      (v =? f) || (v =? f - 1) && (SYSCTRL_CLOCK_FREQ_IN0 * nf mod (nr * od) =? 0)
  | Fault _ => false
  end.
Section pll_grid.
Context (X : Z → double) (Y : Z → double → double) (A : Z → Z → Z → double → bool).
Definition pll_grid : bool :=
  forallb (λ nr, let x := X nr in
    forallb (λ nf, let y := Y nf x in
      forallb (λ od, A nr nf od y) (seqZ 1 16)) (seqZ 1 64)) (seqZ 1 16).
Lemma pll_grid_sound nr nf od :
  pll_grid = true → 1 ≤ nr ≤ 16 → 1 ≤ nf ≤ 64 → 1 ≤ od ≤ 16 →
  A nr nf od (Y nf (X nr)) = true.
Proof.
  unfold pll_grid. intros H ???.
  apply (forallb_seqZ _ _ _ nr) in H; [|lia].
  apply (forallb_seqZ _ _ _ nf) in H; [|lia].
  by apply (forallb_seqZ _ _ _ od) in H; [|lia].
Qed.
End pll_grid.

Lemma pll_accurate_checked :
  pll_grid (λ nr, d_div (d_of_Z SYSCTRL_CLOCK_FREQ_IN0) (d_of_Z nr))
    (λ nf x, d_mul x (d_of_Z nf)) pll_accurate_at = true.
Proof. vm_compute. reflexivity. Qed.

Lemma pll_accurate_at_sound nr nf od :
  pll_accurate_at nr nf od
    (d_mul (d_div (d_of_Z SYSCTRL_CLOCK_FREQ_IN0) (d_of_Z nr)) (d_of_Z nf)) = true →
  pll_accurate nr nf od.
Proof.
  unfold pll_accurate_at, pll_accurate, pll_fout.
  destruct (to_uint32 _) as [v|]; [|done].
  intros [->%Z.eqb_eq|[->%Z.eqb_eq ?%Z.eqb_eq]%andb_true_iff]%orb_true_iff; auto.
Qed.

Lemma pll_accurate_all nr nf od :
  1 ≤ nr ≤ 16 → 1 ≤ nf ≤ 64 → 1 ≤ od ≤ 16 → pll_accurate nr nf od.
Proof.
  intros. apply pll_accurate_at_sound.
  by apply (pll_grid_sound _ _ _ nr nf od pll_accurate_checked).
Qed.

Lemma pll_get_freq_accurate p s :
  p ≠ SYSCTL_PLL2 →
  let nr := fget (pll_clkr p) s + 1 in
  let nf := fget (pll_clkf p) s + 1 in
  let od := fget (pll_clkod p) s + 1 in
  let f := SYSCTRL_CLOCK_FREQ_IN0 * nf / (nr * od) in
  sysctl_pll_get_freq (sysctl_pll_to_Z p) s = Ok f ∨
  sysctl_pll_get_freq (sysctl_pll_to_Z p) s = Ok (f - 1) ∧
    SYSCTRL_CLOCK_FREQ_IN0 * nf mod (nr * od) = 0.
Proof.
  intros Hp. unfold sysctl_pll_get_freq. rewrite sysctl_pll_of_to_Z.
  change tree_fuel with 7%nat. rewrite (pll_freq_01 s 5 p Hp). apply pll_accurate_all;
    match goal with |- context [fget ?f s] =>
      pose proof (bf_get_range 32 (f_bits f) (s (f_reg f))) as Hr; unfold fget end;
    destruct p; try done; simpl in *; specialize (Hr ltac:(field_dec)); lia.
Qed.

(** C4: for PLL0 and PLL1, whatever their registers hold, the readout neither
    overflows nor faults, and it is the exact frequency [FIN * NF / (NR * OD)]
    rounded down, or one hertz less, the latter only when the quotient is
    exact (the rounding of the intermediate doubles). *)
Theorem sysctl_pll_get_freq_accurate p s :
  p ≠ SYSCTL_PLL2 →
  let nr := fget (pll_clkr p) s + 1 in
  let nf := fget (pll_clkf p) s + 1 in
  let od := fget (pll_clkod p) s + 1 in
  let f := SYSCTRL_CLOCK_FREQ_IN0 * nf / (nr * od) in
  sysctl_pll_get_freq (sysctl_pll_to_Z p) s = Ok f ∨
  sysctl_pll_get_freq (sysctl_pll_to_Z p) s = Ok (f - 1) ∧
    SYSCTRL_CLOCK_FREQ_IN0 * nf mod (nr * od) = 0.
Proof. apply pll_get_freq_accurate. Qed.

Lemma sysctl_pll_get_freq_accurate_witness :
  SYSCTL_PLL0 ≠ SYSCTL_PLL2 ∧
  (sysctl_pll_get_freq 0 (λ _, 0) = Ok 26000000 ∨
   sysctl_pll_get_freq 0 (λ _, 0) = Ok (26000000 - 1) ∧ 26000000 mod 1 = 0).
Proof. split; [done|]. by apply (sysctl_pll_get_freq_accurate SYSCTL_PLL0 (λ _, 0)). Defined.

(** Clocks that come from the crystal or from PLL0 have a frequency whatever the registers hold. *)
Lemma pll0_source_freq s : ∃ g, clock_source_freq 5 s SYSCTL_SOURCE_PLL0 = Ok g ∧ in_width 32 g.
Proof.
  pose proof (bf_get_range 32 (f_bits (pll_clkr SYSCTL_PLL0)) (s (f_reg (pll_clkr SYSCTL_PLL0))) ltac:(field_dec)) as Hr.
  pose proof (bf_get_range 32 (f_bits (pll_clkf SYSCTL_PLL0)) (s (f_reg (pll_clkf SYSCTL_PLL0))) ltac:(field_dec)) as Hf.
  pose proof (bf_get_range 32 (f_bits (pll_clkod SYSCTL_PLL0)) (s (f_reg (pll_clkod SYSCTL_PLL0))) ltac:(field_dec)) as Ho.
  pose proof (pll_get_freq_accurate SYSCTL_PLL0 s ltac:(done)) as Ha. cbv zeta in Ha. unfold fget in Ha.
  unfold sysctl_pll_get_freq in Ha. rewrite sysctl_pll_of_to_Z in Ha. change tree_fuel with (4 + 3)%nat in Ha.
  rewrite pll_freq_depth in Ha.
  change (clock_source_freq 5 s SYSCTL_SOURCE_PLL0) with (pll_freq 4 s SYSCTL_PLL0).
  set (nr := bf_get (f_bits (pll_clkr SYSCTL_PLL0)) _) in *. set (nf := bf_get (f_bits (pll_clkf SYSCTL_PLL0)) _) in *.
  set (od := bf_get (f_bits (pll_clkod SYSCTL_PLL0)) _) in *. clearbody nr nf od. cbn in Hr, Hf, Ho.
  set (f := SYSCTRL_CLOCK_FREQ_IN0 * (nf + 1) / ((nr + 1) * (od + 1))) in *.
  assert (Hb : 1 ≤ f < 2 ^ 32).
  { assert (1 ≤ (nr + 1) * (od + 1) ≤ 256) by nia. unfold f, SYSCTRL_CLOCK_FREQ_IN0.
    split; [apply Z.div_le_lower_bound; lia|apply Z.div_lt_upper_bound; lia]. }
  destruct Ha as [->|[-> _]]; eexists; (split; [done|lia]).
Qed.
Lemma clock_get_freq_defined s c : clock_parent s c = SYSCTL_SOURCE_IN0 ∨ clock_parent s c = SYSCTL_SOURCE_PLL0 →
  ∃ f, sysctl_clock_get_freq (sysctl_clock_to_Z c) s = Ok f ∧ in_width 32 f.
Proof.
  intros Hp. unfold sysctl_clock_get_freq. rewrite sysctl_clock_of_to_Z. unfold tree_fuel. rewrite clock_freq_spec.
  assert (∃ g, clock_source_freq 5 s (clock_parent s c) = Ok g ∧ in_width 32 g) as (g & -> & Hg).
  { destruct Hp as [-> | ->]; [by eexists|apply pll0_source_freq]. }
  pose proof (clock_divisor_pos s c). eexists. split; [done|].
  split; [apply Z.div_pos; lia|]. apply Z.div_lt_upper_bound; nia.
Qed.
