(* ===== verification/SysctlPll.v ===== *)
(** * System controller: programming the PLLs

    [sysctl_pll_source_set_freq] searches the divider settings of a PLL for a
    requested output; [sysctl_pll_set_freq] runs the power-down, program,
    reset, wait-for-lock sequence around it.  Integer divisions by zero and
    conversions of a double that does not fit are [FUB].

    The lock bits are driven by the analogue hardware: polling is modelled by a
    step of the environment between two reads, a parameter of the section. *)

From S2P Require Import Prelude Float64 SysctlRegs Sysctl SysctlClock.

(** ** The divider search *)

(** The constants of the search; [1e-6] and [1e-16] are the doubles nearest to
    those decimals, which is what the correctly rounded quotients give. *)
Definition vco_min : double := d_of_Z 350000000.
Definition vco_max : double := d_of_Z 1750000000.
Definition ref_min : double := d_of_Z 13671900.
Definition ref_max : double := d_of_Z 1750000000.
Definition nr_min : Z := 1.
Definition nr_max : Z := 16.
Definition nf_min : Z := 1.
Definition nf_max : Z := 64.
Definition no_min : Z := 1.
Definition no_max : Z := 16.
Definition nb_min : Z := 1.
Definition nb_max : Z := 64.
Definition d_1e_6 : double := d_div (d_of_Z 1) (d_of_Z 1000000).
Definition d_1e_16 : double := d_div (d_of_Z 1) (d_of_Z 10000000000000000).
Definition d_half : double := d_div (d_of_Z 1) (d_of_Z 2).
(** [terr = 0.5 / ((double)(nf_max / 2))] *)
Definition terr : double := d_div d_half (d_of_Z (nf_max / 2)).

(** C's [/] and [%] on [int] round towards zero; dividing by zero is undefined. *)
Definition c_div (a b : Z) : res Z := if b =? 0 then Fault FUB else Ok (Z.quot a b).
Definition c_rem (a b : Z) : res Z := if b =? 0 then Fault FUB else Ok (Z.rem a b).

(** The best candidate so far, with the loop's [found] and [firstx] flags. *)
Record pll_search := PllSearch {
  found : bool;
  firstx : bool;
  merr : double;
  x_nrx : Z; x_no : Z; x_nfx : Z; x_nb : Z;
  x_fvco : double; x_err : double
}.

(** [for(no = start; no > no_min; --no)]: stop at the first divisor of [nr]. *)
Fixpoint find_no (fuel : nat) (nr no : Z) : Z :=
  match fuel with
  | O => no
  | S fuel =>
      if no_min <? no then
        if (Z.quot nr no <? nr_min) then find_no fuel nr (no - 1)
        else if Z.rem nr no =? 0 then no
        else find_no fuel nr (no - 1)
      else no
  end.

(** The acceptance tests at the end of the loop body: [None] is [continue]. *)
Definition pll_accept (fin err : double) (nrx nfx nf no : Z) (st : pll_search)
    : option pll_search :=
  let nb := if nfx <? nb_min then nb_min else nfx in
  if nb_max <? nb then None else
  let fvco := d_mul (d_div fin (d_of_Z nrx)) (d_of_Z nfx) in
  if d_lt fvco vco_min then None else
  if d_gt fvco vco_max then None else
  if nf <? nf_min then None else
  if d_lt (d_div fin (d_of_Z nrx)) ref_min then None else
  if nr_max <? nrx then None else
  if negb (st.(firstx) && d_lt terr (d_of_Z 0)
           || d_lt (d_abs err) (d_mul st.(merr) (d_sub (d_of_Z 1) d_1e_6))
           || (st.(x_no) <? no)) then None else
  if negb st.(firstx) && d_ge terr (d_of_Z 0) && (st.(x_nrx) <? nrx) then None else
  Some (PllSearch true false (d_abs err) nrx no nfx nb fvco err).

(** One pass of [for(nfi = val; nfi < nf_max; ++nfi)]; [first] is false from the
    start, since [terr] is not -2. *)
Definition pll_step (fin fout val : double) (nfi : Z) (st : pll_search) : res pll_search :=
  nr ← to_int (d_rint (d_div (d_of_Z nfi) val));
  if nr =? 0 then Ok st else
  if nr <? nr_min then Ok st else
  if d_gt (d_div fin (d_of_Z nr)) ref_max then Ok st else
  let nf := if nfi =? 0 then 1 else nfi in
  let nval := d_div (d_of_Z nfi) (d_of_Z nr) in
  let err := d_sub (d_of_Z 1) (d_div nval val) in
  if d_lt (d_abs err) (d_mul st.(merr) (d_add (d_of_Z 1) d_1e_6))
     || d_lt (d_abs err) d_1e_16
  then
    not ← to_int (d_floor (d_div vco_max fout));
    let start := if no_max <? not then no_max else not in
    let no := find_no (Z.to_nat start) nr start in
    r ← c_rem nr no;
    if negb (r =? 0) then Ok st else
    nor0 ← c_div start no;
    nore ← c_div nf_max nf;
    let nor := if nore <? nor0 then nore else nor0 in
    noe ← to_int (d_ceil (d_div vco_min fout));
    if ((no * nor <? Z.shiftr not 1) || (no * nor <? noe)) && (no * nor <? nore) then
      let no := nore in
      let no := if no_max <? no then no_max else no in
      let no := if not <? no then not else no in
      if (1 <? no) && negb st.(firstx) then Ok st
      else Ok (default st (pll_accept fin err nr (nfi * no) (nf * no) no st))
    else
      nrx ← c_div nr no;
      if no_max <? no * nor then Ok st
      else if (1 <? nor) && negb st.(firstx) then Ok st
      else Ok (default st (pll_accept fin err nrx (nfi * nor) (nf * nor) (no * nor) st))
  else Ok st.

Fixpoint pll_loop (fuel : nat) (fin fout val : double) (nfi : Z) (st : pll_search)
    : res pll_search :=
  if nf_max <=? nfi then Ok st else
  match fuel with
  | O => Fault FFuel
  | S fuel => st' ← pll_step fin fout val nfi st; pll_loop fuel fin fout val (nfi + 1) st'
  end.

Definition pll_search0 : pll_search :=
  PllSearch false true (d_abs terr) 0 0 0 0 (d_of_Z 0) (d_of_Z 0).

(** The search proper: the winning setting, if any.  [nfi] starts at
    [(int)val], which is never below 0, so 64 passes are enough. *)
Definition pll_find (freq_in freq : Z) : res (option pll_search) :=
  let fin := d_of_Z freq_in in
  let fout := d_of_Z freq in
  let val := d_div fout fin in
  nfi ← to_int (d_trunc val);
  st ← pll_loop 64 fin fout val nfi pll_search0;
  if negb st.(found) then Ok None
  else if d_ge (d_abs st.(x_err)) (d_mul terr (d_sub (d_of_Z 1) d_1e_6)) then Ok None
  else Ok (Some st).

Definition pll_write (pll : sysctl_pll) (source : sysctl_clock_source) (c : pll_search)
    (s : bank sysctl_reg) : bank sysctl_reg :=
  let s := match pll, get_select_pll2 source with
           | SYSCTL_PLL2, Some sel => fset pll2_pll_ckin_sel2 sel s
           | _, _ => s
           end in
  fset (pll_bwadj pll) (c.(x_nb) - 1) (fset (pll_clkod pll) (c.(x_no) - 1)
    (fset (pll_clkf pll) (c.(x_nfx) - 1) (fset (pll_clkr pll) (c.(x_nrx) - 1) s))).

Definition sysctl_pll_source_set_freq (pll : sysctl_pll) (source : sysctl_clock_source)
    (freq : Z) (s : bank sysctl_reg) : res (Z * bank sysctl_reg) :=
  let program freq_in :=
    if freq_in =? 0 then Ok (0, s) else
    best ← pll_find freq_in freq;
    match best with
    | None => Ok (0, s)
    | Some c =>
        let s' := pll_write pll source c s in
        f ← sysctl_pll_get_freq (sysctl_pll_to_Z pll) s'; Ok (f, s')
    end in
  match pll with
  | SYSCTL_PLL0 | SYSCTL_PLL1 =>
      if decide (source = SYSCTL_SOURCE_IN0) then
        freq_in ← sysctl_clock_source_get_freq (sysctl_clock_source_to_Z source) s;
        program freq_in
      else Ok (0, s)
  | SYSCTL_PLL2 =>
      match get_select_pll2 source with
      | Some _ =>
          freq_in ← sysctl_clock_source_get_freq (sysctl_clock_source_to_Z source) s;
          program freq_in
      | None => Ok (0, s)
      end
  end.

(** ** The search is sound *)

(** What a setting must satisfy: every divider fits its field, the bandwidth
    divider equals the feedback divider, the VCO and the reference stay in
    their bands, and the recorded error is that of the ratio the dividers
    implement, [nfx / (nrx * no)], in lowest search terms [nfi / nr]. *)
Record setting_ok (fin val : double) (c : pll_search) : Prop := {
  ok_nr : 1 ≤ x_nrx c ≤ 16;
  ok_nf : 1 ≤ x_nfx c ≤ 64;
  ok_no : 1 ≤ x_no c ≤ 16;
  ok_nb : x_nb c = x_nfx c;
  ok_fvco : x_fvco c = d_mul (d_div fin (d_of_Z (x_nrx c))) (d_of_Z (x_nfx c));
  ok_vco_min : d_lt (x_fvco c) vco_min = false;
  ok_vco_max : d_gt (x_fvco c) vco_max = false;
  ok_ref : d_lt (d_div fin (d_of_Z (x_nrx c))) ref_min = false;
  ok_err : ∃ nfi nr, 1 ≤ nr ∧ nfi * (x_nrx c * x_no c) = x_nfx c * nr ∧
    x_err c = d_sub (d_of_Z 1) (d_div (d_div (d_of_Z nfi) (d_of_Z nr)) val)
}.
Definition search_ok (fin val : double) (st : pll_search) : Prop :=
  found st = true → setting_ok fin val st.
(** [err] is the error of the setting [nrx], [nfx], [no]. *)
Definition ratio_err (val err : double) (nrx nfx no : Z) : Prop :=
  ∃ nfi nr, 1 ≤ nr ∧ nfi * (nrx * no) = nfx * nr ∧
    err = d_sub (d_of_Z 1) (d_div (d_div (d_of_Z nfi) (d_of_Z nr)) val).

Lemma find_no_range n nr no : 1 ≤ no → 1 ≤ find_no n nr no ≤ no.
Proof.
  revert no. induction n as [|n IH]; intros no Hno; simpl; [lia|].
  unfold no_min. destruct (Z.ltb_spec 1 no); [|lia].
  pose proof (IH (no - 1)). repeat case_match; lia.
Qed.

Lemma find_no_zero n nr : find_no n nr 0 = 0.
Proof. by destruct n. Qed.

Lemma pll_accept_ok fin val err nrx nfx nf no st st' :
  1 ≤ nrx → 1 ≤ nfx → 1 ≤ no ≤ 16 → ratio_err val err nrx nfx no →
  pll_accept fin err nrx nfx nf no st = Some st' → setting_ok fin val st'.
Proof.
  unfold pll_accept, nb_min, nb_max, nr_max. intros ??? He H.
  destruct (Z.ltb_spec nfx 1); [lia|].
  destruct (Z.ltb_spec 64 nfx); [done|].
  destruct (d_lt _ vco_min) eqn:?; [done|].
  destruct (d_gt _ vco_max) eqn:?; [done|].
  destruct (nf <? nf_min); [done|].
  destruct (d_lt _ ref_min) eqn:?; [done|].
  destruct (Z.ltb_spec 16 nrx); [done|].
  destruct (negb _); [done|]. destruct (_ && _); [done|]. simplify_eq.
  split; simpl; done || lia.
Qed.

Lemma default_accept_ok fin val err nrx nfx nf no st :
  1 ≤ nrx → 1 ≤ nfx → 1 ≤ no ≤ 16 → ratio_err val err nrx nfx no →
  search_ok fin val st →
  search_ok fin val (default st (pll_accept fin err nrx nfx nf no st)).
Proof.
  intros ???? Hst. destruct (pll_accept _ _ _ _ _ _ _) eqn:E; simpl; [|done].
  intros _. by eapply pll_accept_ok in E.
Qed.

Lemma c_div_Ok a b q : c_div a b = Ok q → b ≠ 0 ∧ q = Z.quot a b.
Proof. unfold c_div. destruct (Z.eqb_spec b 0); naive_solver. Qed.
Lemma c_rem_Ok a b r : c_rem a b = Ok r → b ≠ 0 ∧ r = Z.rem a b.
Proof. unfold c_rem. destruct (Z.eqb_spec b 0); naive_solver. Qed.

Lemma quot_ge_1 a b : 1 ≤ b ≤ a → 1 ≤ Z.quot a b.
Proof. intros. apply Z.quot_le_lower_bound; lia. Qed.

Lemma rint_zero val z : d_rint (d_div (d_of_Z 0) val) = Some z → z = 0.
Proof. destruct val as [[]|[]| |[] ??]; by intros [= <-]. Qed.

(** One pass keeps the invariant.  The two ways of spreading the output
    divider both leave every divider positive. *)
Lemma pll_step_ok fin fout val nfi st st' :
  d_unsigned fout → 0 ≤ nfi < 64 → search_ok fin val st →
  pll_step fin fout val nfi st = Ok st' → search_ok fin val st'.
Proof.
  unfold pll_step. intros Hfout Hnfi Hst H.
  apply res_bind_Ok in H as (nr & [Hr _]%to_int_Ok & H).
  destruct (Z.eqb_spec nr 0); [by simplify_eq|].
  unfold nr_min in H. destruct (Z.ltb_spec nr 1); [by simplify_eq|].
  destruct (d_gt _ _); [by simplify_eq|].
  destruct (decide (nfi = 0)) as [->|]; [by apply rint_zero in Hr|].
  destruct (Z.eqb_spec nfi 0); [done|].
  destruct (_ || d_lt _ d_1e_16); [|by simplify_eq].
  apply res_bind_Ok in H as (nt & [Hnot _]%to_int_Ok & H).
  apply d_floor_nonneg in Hnot; [|apply d_div_unsigned; [by apply d_of_Z_unsigned|done]].
  set (start := if no_max <? nt then no_max else nt) in *.
  assert (0 ≤ start ≤ 16 ∧ start ≤ nt) as [Hs ?].
  { unfold start, no_max. destruct (Z.ltb_spec 16 nt); lia. }
  apply res_bind_Ok in H as (r & [Hno ->]%c_rem_Ok & H).
  destruct (decide (start = 0)) as [Hz|]; [by rewrite Hz, find_no_zero in Hno|].
  pose proof (find_no_range (Z.to_nat start) nr start) as Hrange.
  set (no := find_no _ _ _) in *.
  destruct (Z.eqb_spec (Z.rem nr no) 0) as [Hrem|]; simpl in H; [|by simplify_eq].
  apply res_bind_Ok in H as (nor0 & [_ ->]%c_div_Ok & H).
  apply res_bind_Ok in H as (nore & [_ ->]%c_div_Ok & H).
  pose proof (quot_ge_1 start no) as Hnor0.
  pose proof (quot_ge_1 nf_max nfi) as Hnore. unfold nf_max in *.
  set (nor := if _ <? _ then _ else _) in H.
  assert (1 ≤ nor). { unfold nor. destruct (Z.ltb_spec (64 ÷ nfi) (start ÷ no)); lia. }
  apply res_bind_Ok in H as (noe & _ & H).
  destruct (_ && (_ <? _)).
  - set (no1 := if no_max <? _ then _ else _) in H.
    set (no2 := if nt <? no1 then _ else _) in H.
    assert (1 ≤ no2 ≤ 16).
    { assert (1 ≤ no1 ≤ 16) by
        (unfold no1, no_max; destruct (Z.ltb_spec 16 (64 ÷ nfi)); lia).
      unfold no2. destruct (Z.ltb_spec nt no1); lia. }
    destruct (_ && negb _) in H; simplify_eq; [done|].
    apply default_accept_ok; [nia|nia|done|exists nfi, nr; repeat split; lia|done].
  - apply res_bind_Ok in H as (nrx & [_ ->]%c_div_Ok & H).
    unfold no_max in H. destruct (Z.ltb_spec 16 (no * nor)); [by simplify_eq|].
    destruct (_ && negb _) in H; simplify_eq; [done|].
    pose proof (Z.quot_rem' nr no) as Hq. rewrite Hrem in Hq.
    apply default_accept_ok; [nia|nia|nia|exists nfi, nr; repeat split; nia|done].
Qed.

Lemma pll_loop_ok n fin fout val nfi st st' :
  d_unsigned fout → 0 ≤ nfi → search_ok fin val st →
  pll_loop n fin fout val nfi st = Ok st' → search_ok fin val st'.
Proof.
  intros Hfout. revert nfi st. induction n as [|n IH]; intros nfi st Hnfi Hst; simpl;
    unfold nf_max; (destruct (Z.leb_spec 64 nfi); [naive_solver|]); [done|].
  intros (st1 & Hstep & Hloop)%res_bind_Ok.
  apply IH in Hloop; [done|lia|]. by eapply pll_step_ok in Hstep.
Qed.

Lemma d_trunc_nonneg x z : d_unsigned x → d_trunc x = Some z → 0 ≤ z.
Proof.
  unfold d_trunc. intros Hx Hf. destruct (d_exact x) as [[m e]|] eqn:E; simplify_eq/=.
  pose proof (d_exact_unsigned _ _ _ Hx E).
  destruct (Z.leb_spec 0 m); [|lia]. by apply floor_scaled_nonneg.
Qed.

Lemma pll_find_ok freq_in freq c :
  0 ≤ freq_in → 0 ≤ freq → pll_find freq_in freq = Ok (Some c) →
  setting_ok (d_of_Z freq_in) (d_div (d_of_Z freq) (d_of_Z freq_in)) c ∧
  d_ge (d_abs (x_err c)) (d_mul terr (d_sub (d_of_Z 1) d_1e_6)) = false.
Proof.
  unfold pll_find. intros Hin Hf H.
  apply res_bind_Ok in H as (nfi & [Hnfi _]%to_int_Ok & H).
  apply d_trunc_nonneg in Hnfi; [|by apply d_div_unsigned; apply d_of_Z_unsigned].
  apply res_bind_Ok in H as (st & Hst & H).
  apply pll_loop_ok in Hst; [|by apply d_of_Z_unsigned|done|done].
  destruct (found st) eqn:Hfound; cbn [negb] in H; [|discriminate].
  destruct (d_ge _ _) eqn:Hge in H; [discriminate|]. injection H as <-. auto.
Qed.

(** The search terminates: 64 passes, none of which loops. *)
Lemma to_int_no_fuel o : no_fuel (to_int o).
Proof. unfold no_fuel, to_int. by repeat case_match. Qed.
Lemma c_div_no_fuel a b : no_fuel (c_div a b).
Proof. unfold no_fuel, c_div. by case_match. Qed.
Lemma c_rem_no_fuel a b : no_fuel (c_rem a b).
Proof. unfold no_fuel, c_rem. by case_match. Qed.
#[export] Hint Resolve to_int_no_fuel c_div_no_fuel c_rem_no_fuel : no_fuel.

Lemma pll_step_no_fuel fin fout val nfi st : no_fuel (pll_step fin fout val nfi st).
Proof.
  unfold pll_step.
  repeat (first [ apply no_fuel_Ok | apply no_fuel_bind; [solve [auto with no_fuel]|intros ?]
                | case_match ]).
Qed.

Lemma pll_loop_no_fuel n fin fout val nfi st :
  64 - nfi ≤ Z.of_nat n → no_fuel (pll_loop n fin fout val nfi st).
Proof.
  revert nfi st. induction n as [|n IH]; intros nfi st Hn; simpl; unfold nf_max;
    (destruct (Z.leb_spec 64 nfi); [done|]); [lia|].
  apply no_fuel_bind; [apply pll_step_no_fuel|]. intros. apply IH. lia.
Qed.

Lemma pll_find_no_fuel freq_in freq :
  0 ≤ freq_in → 0 ≤ freq → no_fuel (pll_find freq_in freq).
Proof.
  intros Hin Hf. unfold pll_find. cbv zeta.
  apply no_fuel_bind_Ok; [apply to_int_no_fuel|]. intros nfi [Hnfi _]%to_int_Ok.
  apply d_trunc_nonneg in Hnfi; [|by apply d_div_unsigned; apply d_of_Z_unsigned].
  apply no_fuel_bind; [apply pll_loop_no_fuel; lia|]. intros st.
  destruct (negb _); [done|]. by destruct (d_ge _ _).
Qed.

(** ** The programmed registers *)
Lemma pll_field_wf p : f_wf (pll_clkr p) ∧ f_wf (pll_clkf p) ∧ f_wf (pll_clkod p) ∧ f_wf (pll_bwadj p).
Proof. destruct p; field_dec. Qed.
Lemma pll_fields_apart p :
  f_disjoint (pll_clkf p) (pll_clkr p) ∧ f_disjoint (pll_clkod p) (pll_clkr p) ∧
  f_disjoint (pll_bwadj p) (pll_clkr p) ∧ f_disjoint (pll_clkod p) (pll_clkf p) ∧
  f_disjoint (pll_bwadj p) (pll_clkf p) ∧ f_disjoint (pll_bwadj p) (pll_clkod p).
Proof. destruct p; field_dec. Qed.

(** A setting that passed the search is read back from the fields unchanged. *)
Lemma pll_write_readback fin val p source c s :
  setting_ok fin val c →
  let s' := pll_write p source c s in
  fget (pll_clkr p) s' + 1 = x_nrx c ∧ fget (pll_clkf p) s' + 1 = x_nfx c ∧
  fget (pll_clkod p) s' + 1 = x_no c ∧ fget (pll_bwadj p) s' + 1 = x_nb c.
Proof.
  intros [Hr Hf Ho Hb _ _ _ _ _]. unfold pll_write. cbv zeta.
  set (s1 := match p with SYSCTL_PLL2 => _ | _ => _ end).
  destruct (pll_field_wf p) as (?&?&?&?), (pll_fields_apart p) as (?&?&?&?&?&?).
  repeat split.
  - rewrite !(fget_fset_ne _ (pll_clkr p)), fget_fset_fit by (done || destruct p; simpl; lia). lia.
  - rewrite !(fget_fset_ne _ (pll_clkf p)), fget_fset_fit by (done || destruct p; simpl; lia). lia.
  - rewrite !(fget_fset_ne _ (pll_clkod p)), fget_fset_fit by (done || destruct p; simpl; lia). lia.
  - rewrite fget_fset_fit by (done || destruct p; simpl; lia). lia.
Qed.

(** ** The programming sequence *)
Definition pll_pwrd (p : sysctl_pll) : field sysctl_reg :=
  match p with SYSCTL_PLL0 => pll0_pll_pwrd0 | SYSCTL_PLL1 => pll1_pll_pwrd1 | SYSCTL_PLL2 => pll2_pll_pwrd2 end.
Definition pll_reset (p : sysctl_pll) : field sysctl_reg :=
  match p with SYSCTL_PLL0 => pll0_pll_reset0 | SYSCTL_PLL1 => pll1_pll_reset1 | SYSCTL_PLL2 => pll2_pll_reset2 end.
Definition pll_bypass (p : sysctl_pll) : field sysctl_reg :=
  match p with SYSCTL_PLL0 => pll0_pll_bypass0 | SYSCTL_PLL1 => pll1_pll_bypass1 | SYSCTL_PLL2 => pll2_pll_bypass2 end.
Definition pll_out_en (p : sysctl_pll) : field sysctl_reg :=
  match p with SYSCTL_PLL0 => pll0_pll_out_en0 | SYSCTL_PLL1 => pll1_pll_out_en1 | SYSCTL_PLL2 => pll2_pll_out_en2 end.

Definition sysctl_pll_is_lock (pll : sysctl_pll) (s : bank sysctl_reg) : bool :=
  match pll with
  | SYSCTL_PLL0 => fget pll_lock_pll_lock0 s =? 3
  | SYSCTL_PLL1 => negb (Z.land (fget pll_lock_pll_lock1 s) 1 =? 0)
  | SYSCTL_PLL2 => negb (Z.land (fget pll_lock_pll_lock2 s) 1 =? 0)
  end.

(** The return value (is it locked now?) is not used by any caller. *)
Definition sysctl_pll_clear_slip (pll : sysctl_pll) (s : bank sysctl_reg) : bank sysctl_reg :=
  match pll with
  | SYSCTL_PLL0 => fset pll_lock_pll_slip_clear0 1 s
  | SYSCTL_PLL1 => fset pll_lock_pll_slip_clear1 1 s
  | SYSCTL_PLL2 => fset pll_lock_pll_slip_clear2 1 s
  end.

Definition sysctl_pll_enable (pll : sysctl_pll) (s : bank sysctl_reg) : bank sysctl_reg :=
  fset (pll_reset pll) 0 (fset (pll_reset pll) 1 (fset (pll_reset pll) 0
    (fset (pll_pwrd pll) 1 (fset (pll_bypass pll) 0 s)))).

Definition sysctl_pll_disable (pll : sysctl_pll) (s : bank sysctl_reg) : bank sysctl_reg :=
  fset (pll_pwrd pll) 0 (fset (pll_bypass pll) 1 s).

(** [sysctl_clock_set_clock_select(SYSCTL_CLOCK_SELECT_ACLK, source)] *)
Definition aclk_to (source : sysctl_clock_source) (s : bank sysctl_reg) : bank sysctl_reg :=
  snd (sysctl_clock_set_clock_select (sysctl_clock_select_to_Z SYSCTL_CLOCK_SELECT_ACLK)
    (sysctl_clock_source_to_Z source) s).
#[global] Arguments aclk_to : simpl never.
Lemma aclk_to_eq source s :
  aclk_to source s = fset clk_sel0_aclk_sel (Z.land (sysctl_clock_source_to_Z source) 1) s.
Proof. done. Qed.

Section hardware.
(** What the hardware does to the registers between two polls of the lock
    bits: it drives the lock word, and nothing else. *)
Context (env : nat → bank sysctl_reg → bank sysctl_reg).

(** [while(sysctl_pll_is_lock(pll) == 0) sysctl_pll_clear_slip(pll);] *)
Fixpoint pll_wait_lock (fuel n : nat) (pll : sysctl_pll) (s : bank sysctl_reg)
    : res (bank sysctl_reg) :=
  let s := env n s in
  if sysctl_pll_is_lock pll s then Ok s else
  match fuel with
  | O => Fault FFuel
  | S fuel => pll_wait_lock fuel (S n) pll (sysctl_pll_clear_slip pll s)
  end.

(** Steps 1 to 3: CPU off the PLL (PLL0 only), output off, power off. *)
Definition pll_set_prepare (pll : sysctl_pll) (s : bank sysctl_reg) : bank sysctl_reg :=
  let s := match pll with
           | SYSCTL_PLL0 =>
               aclk_to SYSCTL_SOURCE_IN0 s
           | _ => s
           end in
  fset (pll_pwrd pll) 0 (fset (pll_out_en pll) 0 s).

(** Steps 5 to 9: power, reset pulse, wait for lock, output on, CPU back. *)
Definition pll_set_finish (fuel : nat) (pll : sysctl_pll) (s : bank sysctl_reg)
    : res (bank sysctl_reg) :=
  let s := fset (pll_reset pll) 0 (fset (pll_reset pll) 1
             (fset (pll_reset pll) 0 (fset (pll_pwrd pll) 1 s))) in
  s ← pll_wait_lock fuel 0 pll s;
  let s := fset (pll_out_en pll) 1 s in
  Ok match pll with
     | SYSCTL_PLL0 =>
         aclk_to SYSCTL_SOURCE_PLL0 s
     | _ => s
     end.

Definition pll_set_source (pll : sysctl_pll) (s : bank sysctl_reg) : option sysctl_clock_source :=
  match pll with
  | SYSCTL_PLL2 => sysctl_clock_source_of_Z (fget pll2_pll_ckin_sel2 s)
  | _ => Some SYSCTL_SOURCE_IN0
  end.

Definition sysctl_pll_set_freq (fuel : nat) (pll pll_freq : Z) (s : bank sysctl_reg)
    : res (Z * bank sysctl_reg) :=
  if pll_freq =? 0 then Ok (0, s) else
  match sysctl_pll_of_Z pll with
  | None => Ok (0, s)
  | Some p =>
      let s := pll_set_prepare p s in
      '(result, s) ← match pll_set_source p s with
                     | Some source => sysctl_pll_source_set_freq p source pll_freq s
                     | None => Ok (0, s)
                     end;
      s ← pll_set_finish fuel p s;
      Ok (result, s)
  end.

(** [sysctl_cpu_set_freq] updates the static [cpu_freq], which
    [sysctl_cpu_get_freq] returns. *)
Definition sysctl_cpu_set_freq (fuel : nat) (freq cpu_freq : Z) (s : bank sysctl_reg)
    : res (Z * Z * bank sysctl_reg) :=
  if freq =? 0 then Ok (0, cpu_freq, s) else
  '(r, s) ← sysctl_pll_set_freq fuel (sysctl_pll_to_Z SYSCTL_PLL0)
              (u32 ((fget clk_sel0_aclk_divider_sel s + 1) * 2 * freq)) s;
  Ok (r, r, s).
Definition sysctl_cpu_get_freq (cpu_freq : Z) : Z := cpu_freq.

Definition pll_set_dividers (p : sysctl_pll) (clkr clkf clkod bwadj : Z)
    (s : bank sysctl_reg) : bank sysctl_reg :=
  fset (pll_bwadj p) bwadj (fset (pll_clkod p) clkod
    (fset (pll_clkf p) clkf (fset (pll_clkr p) clkr s))).

Definition sysctl_pll_fast_enable_pll (fuel : nat) (s : bank sysctl_reg)
    : res (Z * bank sysctl_reg) :=
  let s := pll_set_dividers SYSCTL_PLL0 0 60 1 60 s in
  let s := pll_set_dividers SYSCTL_PLL1 0 59 3 59 s in
  let s := pll_set_dividers SYSCTL_PLL2 0 59 3 59 s in
  let s := sysctl_pll_enable SYSCTL_PLL2 (sysctl_pll_enable SYSCTL_PLL1
             (sysctl_pll_enable SYSCTL_PLL0 s)) in
  s ← pll_wait_lock fuel 0 SYSCTL_PLL0 s;
  s ← pll_wait_lock fuel 0 SYSCTL_PLL1 s;
  s ← pll_wait_lock fuel 0 SYSCTL_PLL2 s;
  let s := snd (sysctl_clock_enable (sysctl_clock_to_Z SYSCTL_CLOCK_PLL0) s) in
  let s := snd (sysctl_clock_enable (sysctl_clock_to_Z SYSCTL_CLOCK_PLL1) s) in
  let s := snd (sysctl_clock_enable (sysctl_clock_to_Z SYSCTL_CLOCK_PLL2) s) in
  Ok (0, aclk_to SYSCTL_SOURCE_PLL0 s).
End hardware.

(** ** Programming is all or nothing *)

(** The frequencies the clock tree reports fit 32 bits. *)
Lemma pll_fout_range fin nr nf od f : pll_fout fin nr nf od = Ok f → in_width 32 f.
Proof. unfold pll_fout. by intros [_ ?]%to_uint32_Ok. Qed.

Lemma pll_source_freq_nonneg s source f :
  source = SYSCTL_SOURCE_IN0 ∨ source = SYSCTL_SOURCE_PLL0 ∨ source = SYSCTL_SOURCE_PLL1 →
  sysctl_clock_source_get_freq (sysctl_clock_source_to_Z source) s = Ok f → 0 ≤ f.
Proof.
  unfold sysctl_clock_source_get_freq. rewrite sysctl_clock_source_of_to_Z.
  change tree_fuel with (3 + 4)%nat. intros Hs. rewrite source_freq_base by done.
  destruct Hs as [->|[->| ->]]; cbn -[pll_fout];
    [intros [= <-]; unfold SYSCTRL_CLOCK_FREQ_IN0; lia
    |by intros ?%pll_fout_range; lia..].
Qed.

Lemma get_select_pll2_cases source sel :
  get_select_pll2 source = Some sel →
  source = SYSCTL_SOURCE_IN0 ∨ source = SYSCTL_SOURCE_PLL0 ∨ source = SYSCTL_SOURCE_PLL1.
Proof. destruct source; simpl; naive_solver. Qed.

(** What a call did: nothing (and it says 0), or it programmed a sound setting
    whose ratio misses the request by less than [terr], and it returns the
    frequency the new registers give. *)
Definition pll_programmed (p : sysctl_pll) (source : sysctl_clock_source)
    (freq : Z) (s s' : bank sysctl_reg) (r : Z) : Prop :=
  ∃ fin c, 0 < fin ∧
    sysctl_clock_source_get_freq (sysctl_clock_source_to_Z source) s = Ok fin ∧
    setting_ok (d_of_Z fin) (d_div (d_of_Z freq) (d_of_Z fin)) c ∧
    d_ge (d_abs (x_err c)) (d_mul terr (d_sub (d_of_Z 1) d_1e_6)) = false ∧
    s' = pll_write p source c s ∧
    sysctl_pll_get_freq (sysctl_pll_to_Z p) s' = Ok r.

Lemma pll_program_cases p source freq s r s' :
  0 ≤ freq →
  sysctl_pll_source_set_freq p source freq s = Ok (r, s') →
  (r = 0 ∧ s' = s) ∨ pll_programmed p source freq s s' r.
Proof.
  intros Hfreq. unfold sysctl_pll_source_set_freq.
  set (program := λ freq_in : Z, _).
  assert (∀ fin, 0 ≤ fin →
    sysctl_clock_source_get_freq (sysctl_clock_source_to_Z source) s = Ok fin →
    program fin = Ok (r, s') →
    (r = 0 ∧ s' = s) ∨ pll_programmed p source freq s s' r) as Hprog.
  { intros fin Hfin Hsrc. unfold program.
    destruct (Z.eqb_spec fin 0); [intros [= <- <-]; auto|].
    intros (best & Hbest & H)%res_bind_Ok. destruct best as [c|]; [|injection H; auto].
    apply res_bind_Ok in H as (f & Hf & [= <- <-]).
    apply pll_find_ok in Hbest as [Hok Herr]; [|lia..].
    right. exists fin, c. split; [lia|]. split; [exact Hsrc|]. split; [exact Hok|].
    split; [exact Herr|]. split; [reflexivity|exact Hf]. }
  assert (∀ m : res (Z * bank sysctl_reg), m = Ok (0, s) → m = Ok (r, s') → r = 0 ∧ s' = s) as Hnone
    by (intros ? -> [= <- <-]; done).
  assert (∀ sel, get_select_pll2 source = Some sel →
    (freq_in ← sysctl_clock_source_get_freq (sysctl_clock_source_to_Z source) s;
     program freq_in) = Ok (r, s') →
    (r = 0 ∧ s' = s) ∨ pll_programmed p source freq s s' r) as Hrun.
  { intros sel Hsel (fin & Hfin & H)%res_bind_Ok. eapply Hprog; [|exact Hfin|exact H].
    eapply pll_source_freq_nonneg; [|exact Hfin]. by eapply get_select_pll2_cases. }
  destruct p; [destruct (decide (source = SYSCTL_SOURCE_IN0)) as [->|]..|
    destruct (get_select_pll2 source) as [sel|] eqn:Hsel];
    first [by eapply Hrun | by intros H; left; eapply Hnone].
Qed.

(** C1: programming a PLL is all or nothing.  Either the call returns 0 and no
    register changed, or it found a setting: the registers read back exactly
    the four dividers found, the VCO frequency lies in 350 MHz .. 1.75 GHz and
    the reference is at least 13.67 MHz, the output ratio is within the error
    bound of the requested one, and the result is what the readout reports. *)
Theorem sysctl_pll_source_set_freq_sound p source freq s r s' :
  0 ≤ freq →
  sysctl_pll_source_set_freq p source freq s = Ok (r, s') →
  (r = 0 ∧ s' = s) ∨
  ∃ fin c,
    sysctl_clock_source_get_freq (sysctl_clock_source_to_Z source) s = Ok fin ∧
    setting_ok (d_of_Z fin) (d_div (d_of_Z freq) (d_of_Z fin)) c ∧
    d_ge (d_abs (x_err c)) (d_mul terr (d_sub (d_of_Z 1) d_1e_6)) = false ∧
    fget (pll_clkr p) s' + 1 = x_nrx c ∧ fget (pll_clkf p) s' + 1 = x_nfx c ∧
    fget (pll_clkod p) s' + 1 = x_no c ∧ fget (pll_bwadj p) s' + 1 = x_nb c ∧
    sysctl_pll_get_freq (sysctl_pll_to_Z p) s' = Ok r.
Proof.
  intros Hfreq [?|(fin & c & _ & Hin & Hok & Herr & -> & Hr)]%pll_program_cases; [by left| |done].
  right. exists fin, c. pose proof (pll_write_readback _ _ p source c s Hok) as (?&?&?&?). auto 10.
Qed.

(** 800 MHz from the 26 MHz crystal gives 806 MHz = 26 * 62 / 2. *)
Lemma pll0_800_run : ∃ s,
  sysctl_pll_source_set_freq SYSCTL_PLL0 SYSCTL_SOURCE_IN0 800000000 (λ _, 0) = Ok (806000000, s).
Proof. eexists. vm_compute. reflexivity. Qed.

Lemma sysctl_pll_source_set_freq_sound_witness :
  ∃ s fin c,
    setting_ok (d_of_Z fin) (d_div (d_of_Z 800000000) (d_of_Z fin)) c ∧
    fget (pll_clkr SYSCTL_PLL0) s + 1 = x_nrx c ∧
    sysctl_pll_get_freq (sysctl_pll_to_Z SYSCTL_PLL0) s = Ok 806000000.
Proof.
  destruct pll0_800_run as [s Hs]. exists s.
  destruct (sysctl_pll_source_set_freq_sound SYSCTL_PLL0 SYSCTL_SOURCE_IN0 800000000
    (λ _, 0) 806000000 s) as [[Hr _]|(fin & c & _ & Hok & _ & Hn & _ & _ & _ & Hr)];
    [lia|exact Hs|lia|].
  exists fin, c. split; [exact Hok|]. split; [exact Hn|exact Hr].
Defined.

(** ** The programming sequence is ordered *)

(** The lock word is the only register the PLL hardware drives. *)
Definition lock_env (env : nat → bank sysctl_reg → bank sysctl_reg) : Prop :=
  ∀ n s r, r ≠ R_pll_lock → env n s r = s r.

(** [fields]: read a field through a stack of field writes. *)
Ltac fields := repeat first
  [ rewrite fget_fset_ne by field_dec | rewrite fget_fset by field_dec ].

(** [each_field H tac]: [tac] for each field of the literal list in [H]. *)
Ltac each_field H tac :=
  repeat (apply elem_of_cons in H as [->|H]; [tac|]); by apply elem_of_nil in H.

Lemma fget_reg f (s s' : bank sysctl_reg) :
  s' (f_reg f) = s (f_reg f) → fget f s' = fget f s.
Proof. unfold fget. by intros ->. Qed.

Lemma is_lock_reg p (s s' : bank sysctl_reg) :
  s' R_pll_lock = s R_pll_lock → sysctl_pll_is_lock p s' = sysctl_pll_is_lock p s.
Proof. 
  intros H. destruct p; cbn [sysctl_pll_is_lock].
  - by rewrite (fget_reg pll_lock_pll_lock0 s s' H).
  - by rewrite (fget_reg pll_lock_pll_lock1 s s' H).
  - by rewrite (fget_reg pll_lock_pll_lock2 s s' H).
Qed.

Lemma clear_slip_frame p s r : r ≠ R_pll_lock → sysctl_pll_clear_slip p s r = s r.
Proof. intros. destruct p; by apply fset_reg_ne. Qed.

(** The wait ends only on a lock, and touches nothing but the lock word. *)
Lemma pll_wait_lock_ok env fuel n p s s' :
  lock_env env → pll_wait_lock env fuel n p s = Ok s' →
  sysctl_pll_is_lock p s' = true ∧ ∀ r, r ≠ R_pll_lock → s' r = s r.
Proof.
  intros Henv. revert n s. induction fuel as [|fuel IH]; intros n s; simpl;
    destruct (sysctl_pll_is_lock p (env n s)) eqn:Hl; try done;
    try (intros [= <-]; split; [done|]; intros; by apply Henv).
  intros [? Hf]%IH. split; [done|]. intros r Hr.
  by rewrite Hf, clear_slip_frame, Henv.
Qed.

Lemma pll_prepare_off p s :
  let s1 := pll_set_prepare p s in
  fget (pll_out_en p) s1 = 0 ∧ fget (pll_pwrd p) s1 = 0 ∧
  (p = SYSCTL_PLL0 → fget clk_sel0_aclk_sel s1 = 0).
Proof.
  unfold pll_set_prepare. rewrite aclk_to_eq.
  destruct p; cbv zeta; split_and!; try discriminate; intros; fields; reflexivity.
Qed.

(** Programming the dividers leaves the power and output bits alone. *)
Definition pll_control (p : sysctl_pll) : list (field sysctl_reg) :=
  [pll_out_en p; pll_pwrd p; clk_sel0_aclk_sel; clk_sel0_aclk_divider_sel].
Lemma pll_write_control p source c s f :
  f ∈ pll_control p → fget f (pll_write p source c s) = fget f s.
Proof.
  intros Hf. unfold pll_write.
  set (s1 := match p with SYSCTL_PLL2 => _ | _ => _ end).
  assert (fget f s1 = fget f s) as <-.
  { unfold s1. destruct p; try reflexivity.
    destruct (get_select_pll2 source); [|reflexivity].
    each_field Hf ltac:(by fields). }
  clearbody s1.
  destruct p; each_field Hf ltac:(by fields).
Qed.

Definition pll_dividers (p : sysctl_pll) : list (field sysctl_reg) :=
  [pll_clkr p; pll_clkf p; pll_clkod p; pll_bwadj p].

Lemma pll_set_finish_ok env fuel p s s' :
  lock_env env → pll_set_finish env fuel p s = Ok s' →
  sysctl_pll_is_lock p s' = true ∧ fget (pll_out_en p) s' = 1 ∧
  fget (pll_pwrd p) s' = 1 ∧ fget (pll_reset p) s' = 0 ∧
  (p = SYSCTL_PLL0 → fget clk_sel0_aclk_sel s' = 1) ∧
  ∀ f, f ∈ clk_sel0_aclk_divider_sel :: pll_dividers p → fget f s' = fget f s.
Proof.
  intros Henv. unfold pll_set_finish. cbv zeta. intros H.
  apply res_bind_Ok in H as (s1 & [Hl Hf]%pll_wait_lock_ok & [= <-]); [|done].
  rewrite aclk_to_eq. set (s0 := fset (pll_reset p) 0 _) in Hf.
  assert (∀ f, f_reg f ≠ R_pll_lock → fget f s1 = fget f s0) as Hg
    by (intros; apply fget_reg; auto).
  split_and!.
  1: rewrite (is_lock_reg _ s1); [exact Hl|];
     destruct p; rewrite ?fset_reg_ne by discriminate; reflexivity.
  1-4: destruct p; intros; try discriminate; fields; try reflexivity;
       rewrite Hg by discriminate; unfold s0; by fields.
  intros f Hin. transitivity (fget f s1).
  - destruct p; each_field Hin ltac:(by fields).
  - destruct p; each_field Hin ltac:(rewrite Hg by discriminate; unfold s0; by fields).
Qed.

(** One run of [sysctl_pll_set_freq], cut at its two middle states. *)
Lemma pll_set_freq_run env fuel p freq s r s' :
  0 < freq →
  sysctl_pll_set_freq env fuel (sysctl_pll_to_Z p) freq s = Ok (r, s') →
  ∃ s2, ((r = 0 ∧ s2 = pll_set_prepare p s) ∨
      ∃ source, pll_programmed p source freq (pll_set_prepare p s) s2 r) ∧
    (∀ f, f ∈ pll_control p → fget f s2 = fget f (pll_set_prepare p s)) ∧
    pll_set_finish env fuel p s2 = Ok s'.
Proof.
  intros Hfreq. unfold sysctl_pll_set_freq.
  destruct (Z.eqb_spec freq 0); [lia|]. rewrite sysctl_pll_of_to_Z.
  intros ([r2 s2] & Hset & H)%res_bind_Ok.
  apply res_bind_Ok in H as (s3 & Hfin & [= -> <-]).
  exists s2.
  assert ((r = 0 ∧ s2 = pll_set_prepare p s) ∨
    ∃ source, pll_programmed p source freq (pll_set_prepare p s) s2 r) as Hcases.
  { destruct (pll_set_source _ _) as [source|]; [|injection Hset; auto].
    apply pll_program_cases in Hset as [?|?]; [by left|by right; exists source|lia]. }
  split; [exact Hcases|]. split; [|exact Hfin]. intros f Hf.
  destruct Hcases as [[_ ->]|(source & fin & c & _ & _ & _ & _ & -> & _)]; [reflexivity|].
  by apply pll_write_control.
Qed.

(** C2: the programming sequence of a PLL.  Before the dividers are written the
    output is off and the PLL powered down (and the CPU runs from the crystal
    when it is PLL0); it still is while they are written; when the call
    returns the PLL is locked, powered, out of reset and its output on, with
    exactly the dividers written, and PLL0 drives the CPU again. *)
Theorem sysctl_pll_set_freq_sequence env fuel p freq s r s' :
  lock_env env → 0 < freq →
  sysctl_pll_set_freq env fuel (sysctl_pll_to_Z p) freq s = Ok (r, s') →
  ∃ s1 s2, s1 = pll_set_prepare p s ∧
    (∀ s, s = s1 ∨ s = s2 → fget (pll_out_en p) s = 0 ∧ fget (pll_pwrd p) s = 0 ∧
      (p = SYSCTL_PLL0 → fget clk_sel0_aclk_sel s = 0)) ∧
    ((r = 0 ∧ s2 = s1) ∨ ∃ source, pll_programmed p source freq s1 s2 r) ∧
    (∀ f, f ∈ pll_dividers p → fget f s' = fget f s2) ∧
    sysctl_pll_is_lock p s' = true ∧ fget (pll_out_en p) s' = 1 ∧
    fget (pll_pwrd p) s' = 1 ∧ fget (pll_reset p) s' = 0 ∧
    (p = SYSCTL_PLL0 → fget clk_sel0_aclk_sel s' = 1).
Proof.
  intros Henv Hfreq (s2 & Hcases & Hctl & Hfin)%pll_set_freq_run; [|done].
  apply pll_set_finish_ok in Hfin as (Hl & Ho & Hp & Hr & Ha & Hd); [|done].
  exists (pll_set_prepare p s), s2. split; [reflexivity|].
  split; [|split; [exact Hcases|split; [by intros; apply Hd, list_elem_of_further|auto 10]]].
  intros s0 [->| ->]; rewrite ?Hctl by (repeat constructor); apply pll_prepare_off.
Qed.

(** Hardware that reports every PLL locked at each poll. *)
Definition lock_now (_ : nat) (s : bank sysctl_reg) : bank sysctl_reg :=
  <[R_pll_lock := 0x10303]> s.
Lemma lock_now_env : lock_env lock_now.
Proof. intros n s r ?. unfold lock_now. by rewrite fn_lookup_insert_ne. Qed.
Lemma lock_now_run : ∃ s,
  sysctl_pll_set_freq lock_now 0 (sysctl_pll_to_Z SYSCTL_PLL0) 800000000 (λ _, 0) = Ok (806000000, s).
Proof. eexists. vm_compute. reflexivity. Qed.

Lemma sysctl_pll_set_freq_sequence_witness :
  lock_env lock_now ∧ ∃ s',
    sysctl_pll_set_freq lock_now 0 (sysctl_pll_to_Z SYSCTL_PLL0) 800000000 (λ _, 0) = Ok (806000000, s') ∧
    sysctl_pll_is_lock SYSCTL_PLL0 s' = true ∧ fget (pll_out_en SYSCTL_PLL0) s' = 1.
Proof.
  split; [exact lock_now_env|]. destruct lock_now_run as [s' Hs]. exists s'.
  split; [exact Hs|].
  destruct (sysctl_pll_set_freq_sequence lock_now 0 SYSCTL_PLL0 800000000 (λ _, 0) 806000000 s'
    lock_now_env ltac:(lia) Hs) as (s1 & s2 & _ & _ & _ & _ & Hl & Ho & _).
  by split.
Defined.

(** Liveness of the lock wait.  If the hardware reports the lock at some
    poll, whatever the registers hold then, the wait ends within that many
    polls, with the PLL locked. *)
Theorem pll_wait_lock_live env fuel p s k :
  (k ≤ fuel)%nat → (∀ s, sysctl_pll_is_lock p (env k s) = true) →
  ∃ s', pll_wait_lock env fuel 0 p s = Ok s' ∧ sysctl_pll_is_lock p s' = true.
Proof.
  intros Hk Hlock.
  assert (∀ n s, (n ≤ k)%nat → (k - n ≤ fuel)%nat →
    ∃ s', pll_wait_lock env fuel n p s = Ok s' ∧ sysctl_pll_is_lock p s' = true) as Hgen;
    [|apply Hgen; lia].
  clear s Hk. induction fuel as [|fuel IH]; intros n s Hn Hf; cbn [pll_wait_lock].
  - replace n with k by lia. rewrite Hlock. eauto.
  - destruct (sysctl_pll_is_lock p (env n s)) eqn:E; [eauto|].
    apply IH; [|lia]. destruct (decide (n = k)) as [->|]; [by rewrite Hlock in E|lia].
Qed.

(** A PLL that locks at the fourth poll. *)
Lemma pll_wait_lock_live_witness :
  (3 ≤ 5)%nat ∧
  ∃ s', pll_wait_lock (λ n s, if bool_decide (n = 3%nat) then lock_now n s else s) 5 0
          SYSCTL_PLL1 (λ _, 0) = Ok s' ∧ sysctl_pll_is_lock SYSCTL_PLL1 s' = true.
Proof. split; [lia|]. by apply (pll_wait_lock_live _ 5 SYSCTL_PLL1 _ 3); [lia|]. Defined.

(** ** What [sysctl_cpu_set_freq] reports *)
Lemma pll_get_freq_fields p s s' :
  p ≠ SYSCTL_PLL2 → (∀ f, f ∈ pll_dividers p → fget f s' = fget f s) →
  sysctl_pll_get_freq (sysctl_pll_to_Z p) s' = sysctl_pll_get_freq (sysctl_pll_to_Z p) s.
Proof.
  intros Hp Hf. unfold sysctl_pll_get_freq. rewrite sysctl_pll_of_to_Z.
  change tree_fuel with (S (S 5)). rewrite !pll_freq_01 by done.
  by rewrite !Hf by (repeat constructor).
Qed.

Lemma cpu_freq_of_pll0 s r :
  fget clk_sel0_aclk_sel s = 1 → sysctl_pll_get_freq (sysctl_pll_to_Z SYSCTL_PLL0) s = Ok r →
  sysctl_clock_get_freq (sysctl_clock_to_Z SYSCTL_CLOCK_CPU) s =
  Ok (r / (2 * 2 ^ fget clk_sel0_aclk_divider_sel s)).
Proof.
  intros Ha Hr. unfold sysctl_clock_get_freq. rewrite sysctl_clock_of_to_Z.
  unfold tree_fuel. rewrite clock_freq_spec. cbn [clock_parent clock_divisor].
  unfold sel_source. rewrite Ha. unfold sysctl_pll_get_freq in Hr.
  rewrite sysctl_pll_of_to_Z in Hr. change tree_fuel with (4 + 3)%nat in Hr.
  rewrite pll_freq_depth in Hr. cbn [Z.eqb].
  change (clock_source_freq 5 s SYSCTL_SOURCE_PLL0) with (pll_freq 4 s SYSCTL_PLL0).
  by rewrite Hr.
Qed.

(** [sysctl_cpu_set_freq] returns, and leaves for [sysctl_cpu_get_freq], the
    output of PLL0; the CPU it has just reclocked runs at that frequency
    divided by [2 << aclk_divider_sel].  (The header promises the CPU
    frequency for both.) *)
Theorem sysctl_cpu_set_freq_reports_pll0 env fuel freq cpu s r c s' :
  lock_env env → sysctl_cpu_set_freq env fuel freq cpu s = Ok (r, c, s') → r ≠ 0 →
  sysctl_cpu_get_freq c = r ∧
  sysctl_pll_get_freq (sysctl_pll_to_Z SYSCTL_PLL0) s' = Ok r ∧
  sysctl_clock_get_freq (sysctl_clock_to_Z SYSCTL_CLOCK_CPU) s' =
    Ok (r / (2 * 2 ^ fget clk_sel0_aclk_divider_sel s)).
Proof.
  intros Henv H Hr. unfold sysctl_cpu_set_freq in H.
  destruct (freq =? 0); [by injection H as <-|].
  apply res_bind_Ok in H as ([r1 s1] & Hset & [= <- <- <-]).
  set (f := u32 _) in Hset. pose proof (wrap_range 32 _ ltac:(lia) : in_width 32 f).
  destruct (decide (f = 0)) as [Hz|]; [rewrite Hz in Hset; by injection Hset as <-|].
  apply pll_set_freq_run in Hset as (s2 & Hcases & Hctl & Hfin); [|lia].
  destruct Hcases as [[? _]|(source & fin & c0 & _ & _ & _ & _ & _ & Hget)]; [done|].
  apply pll_set_finish_ok in Hfin as (_ & _ & _ & _ & Ha & Hd); [|done].
  assert (sysctl_pll_get_freq (sysctl_pll_to_Z SYSCTL_PLL0) s1 = Ok r1) as Hpll.
  { rewrite (pll_get_freq_fields SYSCTL_PLL0 s2); [exact Hget|done|].
    intros. by apply Hd, list_elem_of_further. }
  split; [reflexivity|]. split; [exact Hpll|].
  rewrite (cpu_freq_of_pll0 _ r1) by auto.
  rewrite Hd, Hctl by (repeat constructor).
  unfold pll_set_prepare. rewrite aclk_to_eq. by fields.
Qed.

(** 400 MHz is asked for; the call reports 806 MHz, the CPU runs at 403 MHz. *)
Lemma cpu_400_run : ∃ s,
  sysctl_cpu_set_freq lock_now 0 400000000 390000000 (λ _, 0) = Ok (806000000, 806000000, s).
Proof. eexists. vm_compute. reflexivity. Qed.
Lemma sysctl_cpu_set_freq_reports_pll0_witness :
  ∃ s', sysctl_cpu_get_freq 806000000 = 806000000 ∧
    sysctl_clock_get_freq (sysctl_clock_to_Z SYSCTL_CLOCK_CPU) s' = Ok 403000000.
Proof.
  destruct cpu_400_run as [s' Hs]. exists s'.
  destruct (sysctl_cpu_set_freq_reports_pll0 lock_now 0 400000000 390000000 (λ _, 0)
    806000000 806000000 s' lock_now_env Hs ltac:(lia)) as (Hc & _ & Hcpu).
  split; [exact Hc|]. rewrite Hcpu. vm_compute. reflexivity.
Defined.

(** The search divides by zero when the request exceeds the VCO ceiling and the
    reference is fast enough to reach it: [not = floor(vco_max / fout)] is 0,
    the search for [no] starts at 0 and [nr % no] follows.  Here PLL2 is asked
    for 2 GHz from PLL0 at 800 MHz (clkr 0, clkf 61, clkod 1 gives 806 MHz). *)
Lemma pll2_request_divides_by_zero :
  sysctl_pll_source_set_freq SYSCTL_PLL2 SYSCTL_SOURCE_PLL0 2015000000
    (pll_set_dividers SYSCTL_PLL0 0 61 1 61 (λ _, 0)) = Fault FUB.
Proof. vm_compute. reflexivity. Qed.
