(* ===== verification/Fpioa.v ===== *)
(** * FPIOA: the pin multiplexer driver (k210_fpioa.c)

    The device is a bank of registers: one configuration word per pin and the
    two tie arrays.  Operations return C's [int] (0 or -1) with the new
    registers; parameters of the enumeration types are their numbers. *)

From S2P Require Import Prelude SysctlRegs Sysctl FpioaTable.

Definition FPIOA_NUM_IO : Z := 48.
Definition FPIOA_PULL_NONE : Z := 0.
Definition FPIOA_PULL_DOWN : Z := 1.
Definition FPIOA_PULL_UP : Z := 2.
Definition FPIOA_PULL_MAX : Z := 3.
Definition FPIOA_DRIVING_MAX : Z := 16.

(** ** Registers: [fpioa->io[i]], [fpioa->tie.en[i]], [fpioa->tie.val[i]] *)
Inductive fpioa_reg : Set := IO (i : Z) | TIE_EN (i : Z) | TIE_VAL (i : Z).
#[export] Instance fpioa_reg_eq_dec : EqDecision fpioa_reg.
Proof. solve_decision. Defined.
Abbreviation fpioa_t := (bank fpioa_reg).

(** [fpioa_io_config_t] *)
Definition cfg_ch_sel := BF 0 8.
Definition cfg_ds := BF 8 4.
Definition cfg_oe_en := BF 12 1.
Definition cfg_oe_inv := BF 13 1.
Definition cfg_do_sel := BF 14 1.
Definition cfg_do_inv := BF 15 1.
Definition cfg_pu := BF 16 1.
Definition cfg_pd := BF 17 1.
Definition cfg_sl := BF 19 1.
Definition cfg_ie_en := BF 20 1.
Definition cfg_ie_inv := BF 21 1.
Definition cfg_di_inv := BF 22 1.
Definition cfg_st := BF 23 1.
Definition cfg_pad_di := BF 31 1.
Definition ch_sel (s : fpioa_t) (i : Z) : Z := bf_get cfg_ch_sel (s (IO i)).

Definition bad_io (number : Z) : bool := (number <? 0) || (FPIOA_NUM_IO <=? number).
Definition bad_function (function : Z) : bool := (function <? 0) || (FUNC_MAX <=? function).

Definition config_of (function : Z) : fpioa_assign :=
  nth (Z.to_nat function) function_config (Assign 0 0 0 0 0 0 0 0 0 0 0 0 0 0 0 0 0 0).

(** ** Initialisation *)
Section init.
Context {S : Type} `{ClockGate S sysctl_clock}.

(** The two local words arrays [tie.en] and [tie.val], filled bit by bit. *)
Definition tie_fill (bit : fpioa_assign → Z) : Z → Z :=
  for_range 0 FUNC_MAX (λ i tie,
    <[i / 32 := Z.lor (tie (i / 32)) (Z.shiftl (bit (config_of i)) (i mod 32))]> tie) (λ _, 0).

Definition fpioa_init (sysctl : S) (s : fpioa_t) : Z * S * fpioa_t :=
  let sysctl := cg_enable SYSCTL_CLOCK_FPIOA sysctl in
  let en := tie_fill a_tie_en in
  let val := tie_fill a_tie_val in
  (0, sysctl, for_range 0 (FUNC_MAX / 32) (λ i s,
    <[TIE_EN i := en i]> (<[TIE_VAL i := val i]> s)) s).
End init.

(** ** Pin configuration *)

(** The configuration goes through a pointer: [cfg_null] and [None] are the null
    pointer. *)
Definition fpioa_get_io (number : Z) (cfg_null : bool) (s : fpioa_t) : Z * option Z :=
  if bad_io number || cfg_null then (-1, None) else (0, Some (s (IO number))).
Definition fpioa_set_io (number : Z) (cfg : option Z) (s : fpioa_t) : Z * fpioa_t :=
  match cfg with
  | None => (-1, s)
  | Some cfg => if bad_io number then (-1, s) else (0, <[IO number := cfg]> s)
  end.

Definition fpioa_set_io_pull (number pull : Z) (s : fpioa_t) : Z * fpioa_t :=
  if bad_io number || (FPIOA_PULL_MAX <=? pull) then (-1, s) else
  let cfg := s (IO number) in
  let cfg :=
    if pull =? FPIOA_PULL_NONE then bf_set cfg_pd 0 (bf_set cfg_pu 0 cfg)
    else if pull =? FPIOA_PULL_DOWN then bf_set cfg_pd 1 (bf_set cfg_pu 0 cfg)
    else if pull =? FPIOA_PULL_UP then bf_set cfg_pd 0 (bf_set cfg_pu 1 cfg)
    else cfg in
  (0, <[IO number := cfg]> s).

Definition fpioa_get_io_pull (number : Z) (s : fpioa_t) : Z :=
  if bad_io number then -1 else
  let cfg := s (IO number) in
  if (bf_get cfg_pu cfg =? 0) && (bf_get cfg_pd cfg =? 1) then FPIOA_PULL_DOWN
  else if (bf_get cfg_pu cfg =? 1) && (bf_get cfg_pd cfg =? 0) then FPIOA_PULL_UP
  else FPIOA_PULL_NONE.

Definition fpioa_set_io_driving (number driving : Z) (s : fpioa_t) : Z * fpioa_t :=
  if bad_io number || (FPIOA_DRIVING_MAX <=? driving) then (-1, s) else
  (0, <[IO number := bf_set cfg_ds driving (s (IO number))]> s).
Definition fpioa_set_sl (number sl_enable : Z) (s : fpioa_t) : Z * fpioa_t :=
  if bad_io number then (-1, s) else
  (0, <[IO number := bf_set cfg_sl sl_enable (s (IO number))]> s).
Definition fpioa_set_st (number st_enable : Z) (s : fpioa_t) : Z * fpioa_t :=
  if bad_io number then (-1, s) else
  (0, <[IO number := bf_set cfg_st st_enable (s (IO number))]> s).
Definition fpioa_set_oe_inv (number inv_enable : Z) (s : fpioa_t) : Z * fpioa_t :=
  if bad_io number then (-1, s) else
  (0, <[IO number := bf_set cfg_oe_inv inv_enable (s (IO number))]> s).
Definition fpioa_get_io_driving (number : Z) (s : fpioa_t) : Z :=
  if bad_io number then -1 else bf_get cfg_ds (s (IO number)).

(** ** Function selection *)

(** The compound literal of [fpioa_set_function_raw]; fields without an
    initialiser are zero. *)
Definition function_word (function : Z) : Z :=
  let a := config_of function in
  bf_set cfg_st (a_st a) (bf_set cfg_di_inv (a_di_inv a)
  (bf_set cfg_ie_inv (a_ie_inv a) (bf_set cfg_ie_en (a_ie_en a)
  (bf_set cfg_sl (a_sl a) (bf_set cfg_pd (a_pd a) (bf_set cfg_pu (a_pu a)
  (bf_set cfg_do_inv (a_do_inv a) (bf_set cfg_do_sel (a_do_sel a)
  (bf_set cfg_oe_inv (a_oe_inv a) (bf_set cfg_oe_en (a_oe_en a)
  (bf_set cfg_ds (a_ds a) (bf_set cfg_ch_sel (a_ch_sel a) 0)))))))))))).

Definition fpioa_set_function_raw (number function : Z) (s : fpioa_t) : Z * fpioa_t :=
  if bad_io number || bad_function function then (-1, s) else
  (0, <[IO number := function_word function]> s).

(** One pass of the search for other pins that carry [function]. *)
Definition release_step (number function index : Z) (s : fpioa_t) : fpioa_t :=
  if (ch_sel s index =? function) && negb (index =? number)
  then snd (fpioa_set_function_raw index FUNC_RESV0 s) else s.

Definition fpioa_set_function (number function : Z) (s : fpioa_t) : Z * fpioa_t :=
  if bad_io number || bad_function function then (-1, s) else
  if function =? FUNC_RESV0 then (0, snd (fpioa_set_function_raw number FUNC_RESV0 s)) else
  let s := for_range 0 FPIOA_NUM_IO (release_step number function) s in
  (0, snd (fpioa_set_function_raw number function s)).

(** [1UL << (function % 32)] is a 64-bit value; the store keeps 32 bits. *)
Definition fpioa_set_tie_enable (function enable : Z) (s : fpioa_t) : Z * fpioa_t :=
  if bad_function function then (-1, s) else
  let r := TIE_EN (function / 32) in
  (0, if enable =? 0 then <[r := clear_bit_at 32 (function mod 32) (s r)]> s
      else <[r := set_bit_at (function mod 32) (s r)]> s).
Definition fpioa_set_tie_value (function value : Z) (s : fpioa_t) : Z * fpioa_t :=
  if bad_function function then (-1, s) else
  let r := TIE_VAL (function / 32) in
  (0, if value =? 0 then <[r := clear_bit_at 32 (function mod 32) (s r)]> s
      else <[r := set_bit_at (function mod 32) (s r)]> s).

Fixpoint find_io (fuel : nat) (index function : Z) (s : fpioa_t) : Z :=
  match fuel with
  | O => -1
  | Datatypes.S fuel =>
      if ch_sel s index =? function then index else find_io fuel (index + 1) function s
  end.
Definition fpioa_get_io_by_function (function : Z) (s : fpioa_t) : Z :=
  find_io (Z.to_nat FPIOA_NUM_IO) 0 function s.

(** ** The table *)

(** The configuration fields an entry determines. *)
Definition assign_fields (a : fpioa_assign) : list (bitfield * Z) :=
  [(cfg_ch_sel, a_ch_sel a); (cfg_ds, a_ds a); (cfg_oe_en, a_oe_en a);
   (cfg_oe_inv, a_oe_inv a); (cfg_do_sel, a_do_sel a); (cfg_do_inv, a_do_inv a);
   (cfg_pu, a_pu a); (cfg_pd, a_pd a); (cfg_sl, a_sl a); (cfg_ie_en, a_ie_en a);
   (cfg_ie_inv, a_ie_inv a); (cfg_di_inv, a_di_inv a); (cfg_st, a_st a);
   (cfg_pad_di, 0)].
Definition entry_ok (function : Z) : bool :=
  let a := config_of function in
  (a_ch_sel a =? function) &&
  forallb (λ '(f, v), bf_get f (function_word function) =? v) (assign_fields a).

Lemma table_checked : forallb entry_ok (seqZ 0 256) = true.
Proof. vm_compute. reflexivity. Qed.

Lemma table_entry function :
  0 ≤ function < FUNC_MAX →
  a_ch_sel (config_of function) = function ∧
  ∀ f v, (f, v) ∈ assign_fields (config_of function) → bf_get f (function_word function) = v.
Proof.
  intros Hf. pose proof (forallb_seqZ _ _ _ _ table_checked Hf) as Hok.
  apply andb_true_iff in Hok as [?%Z.eqb_eq Hall]. split; [done|].
  intros f v Hin. rewrite forallb_forall in Hall.
  apply list_elem_of_In in Hin. apply Z.eqb_eq, (Hall (f, v) Hin).
Qed.

Lemma function_word_ch_sel function :
  0 ≤ function < FUNC_MAX → bf_get cfg_ch_sel (function_word function) = function.
Proof.
  intros Hf. destruct (table_entry function Hf) as [Ha Hw].
  rewrite <-Ha at 2. apply Hw. repeat constructor.
Qed.

#[local] Opaque function_word config_of.

Lemma bad_io_false number : bad_io number = false ↔ 0 ≤ number < FPIOA_NUM_IO.
Proof. unfold bad_io. rewrite orb_false_iff, Z.ltb_ge, Z.leb_gt. lia. Qed.
Lemma bad_function_false f : bad_function f = false ↔ 0 ≤ f < FUNC_MAX.
Proof. unfold bad_function. rewrite orb_false_iff, Z.ltb_ge, Z.leb_gt. lia. Qed.

Lemma set_function_raw_eq number function s :
  0 ≤ number < FPIOA_NUM_IO → 0 ≤ function < FUNC_MAX →
  fpioa_set_function_raw number function s = (0, <[IO number := function_word function]> s).
Proof.
  intros ?%bad_io_false ?%bad_function_false. unfold fpioa_set_function_raw.
  by rewrite H, H0.
Qed.

Lemma ch_sel_insert s i j w :
  ch_sel (<[IO i := w]> s) j = if decide (i = j) then bf_get cfg_ch_sel w else ch_sel s j.
Proof.
  unfold ch_sel. case_decide as Hij; [by rewrite Hij, fn_lookup_insert|].
  rewrite fn_lookup_insert_ne; congruence.
Qed.

(** ** The release loop *)
Definition released (number function k : Z) (s : fpioa_t) (r : fpioa_reg) : Z :=
  match r with
  | IO i => if decide (0 ≤ i < k ∧ i ≠ number ∧ ch_sel s i = function)
            then function_word FUNC_RESV0 else s (IO i)
  | _ => s r
  end.

Lemma release_loop number function s :
  ∀ r, for_range 0 FPIOA_NUM_IO (release_step number function) s r =
       released number function FPIOA_NUM_IO s r.
Proof.
  apply (for_range_ind (λ k s', ∀ r, s' r = released number function k s r)); [done|..].
  { intros [i| |]; simpl; [|done..]. by rewrite decide_False by lia. }
  intros k s' Hk IH r. unfold release_step. rewrite Z.add_0_l.
  assert (ch_sel s' k = ch_sel s k) as ->
    by (unfold ch_sel; rewrite IH; simpl; by rewrite decide_False by lia).
  destruct (Z.eqb_spec (ch_sel s k) function), (Z.eqb_spec k number); simpl;
    rewrite ?set_function_raw_eq by (unfold FUNC_RESV0, FUNC_MAX; lia); simpl.
  2: destruct (decide (r = IO k)) as [->|]; [rewrite fn_lookup_insert; simpl;
       by rewrite decide_True by (split; [lia|done])|rewrite fn_lookup_insert_ne by done].
  all: rewrite IH; destruct r as [i| |]; simpl; try done; repeat case_decide; try done;
    exfalso; destruct (decide (i = k)) as [->|]; naive_solver lia.
Qed.

(** ** Function selection: the contract *)

(** [fpioa_set_function_raw] loads a pin with its table entry: every field the
    entry has is read back unchanged, the channel selector is the function's
    own number, and no other register changes; out of range numbers are
    refused with no effect. *)
Theorem fpioa_set_function_raw_spec number function s :
  let '(r, s') := fpioa_set_function_raw number function s in
  if bad_io number || bad_function function then r = -1 ∧ s' = s
  else r = 0 ∧ ch_sel s' number = function ∧
    (∀ f v, (f, v) ∈ assign_fields (config_of function) → bf_get f (s' (IO number)) = v) ∧
    ∀ reg, reg ≠ IO number → s' reg = s reg.
Proof.
  unfold fpioa_set_function_raw.
  destruct (bad_io number) eqn:Hn, (bad_function function) eqn:Hf; simpl; try done.
  apply bad_function_false in Hf. split; [done|]. split; [|split].
  - rewrite ch_sel_insert, decide_True by done. by apply function_word_ch_sel.
  - intros. rewrite fn_lookup_insert. by apply table_entry.
  - intros. by rewrite fn_lookup_insert_ne.
Qed.

Lemma set_function_reg number function s reg :
  0 ≤ number < FPIOA_NUM_IO → 0 ≤ function < FUNC_MAX →
  snd (fpioa_set_function number function s) reg =
  if decide (reg = IO number) then function_word function
  else if decide (function = FUNC_RESV0) then s reg
  else released number function FPIOA_NUM_IO s reg.
Proof.
  intros Hn Hf. unfold fpioa_set_function.
  rewrite (proj2 (bad_io_false _) Hn), (proj2 (bad_function_false _) Hf). cbn [orb].
  destruct (Z.eqb_spec function FUNC_RESV0) as [->|Hne]; cbn [snd];
    rewrite set_function_raw_eq by done; cbn [snd];
    (case_decide as Hr; [by rewrite Hr, fn_lookup_insert|rewrite fn_lookup_insert_ne by done]).
  - done.
  - rewrite decide_False by done. apply release_loop.
Qed.

Lemma set_function_ch_sel number function s i :
  0 ≤ number < FPIOA_NUM_IO → 0 ≤ function < FUNC_MAX → 0 ≤ i < FPIOA_NUM_IO →
  ch_sel (snd (fpioa_set_function number function s)) i =
  if decide (i = number) then function
  else if decide (function ≠ FUNC_RESV0 ∧ ch_sel s i = function) then FUNC_RESV0
  else ch_sel s i.
Proof.
  intros Hn Hf Hi. unfold ch_sel at 1. rewrite set_function_reg by done.
  destruct (decide (i = number)) as [->|].
  - rewrite decide_True by done. by apply function_word_ch_sel.
  - rewrite decide_False by congruence.
    destruct (decide (function = FUNC_RESV0)) as [->|].
    + by rewrite decide_False by naive_solver.
    + cbn [released]. destruct (decide (ch_sel s i = function)).
      * rewrite !decide_True by (split_and!; done || lia).
        by apply function_word_ch_sel.
      * by rewrite !decide_False by naive_solver.
Qed.

(** [fpioa_set_function] moves a function to a pin: the pin gets the whole table
    entry; every other pin that carried the function is handed to the reserved
    function, and nothing else changes, tie registers included. *)
Theorem fpioa_set_function_spec number function s :
  let '(r, s') := fpioa_set_function number function s in
  if bad_io number || bad_function function then r = -1 ∧ s' = s
  else r = 0 ∧ s' (IO number) = function_word function ∧
    ∀ reg, reg ≠ IO number →
      s' reg = match reg with
               | IO i => if decide (function ≠ FUNC_RESV0 ∧ 0 ≤ i < FPIOA_NUM_IO ∧ ch_sel s i = function)
                         then function_word FUNC_RESV0 else s reg
               | _ => s reg
               end.
Proof.
  destruct (fpioa_set_function number function s) as [r s'] eqn:E.
  destruct (bad_io number || bad_function function) eqn:Hbad.
  { unfold fpioa_set_function in E. rewrite Hbad in E. by injection E as <- <-. }
  apply orb_false_iff in Hbad as [Hn%bad_io_false Hf%bad_function_false].
  pose proof (set_function_reg number function s) as Hreg. rewrite E in Hreg.
  split; [|split].
  - unfold fpioa_set_function in E.
    rewrite (proj2 (bad_io_false _) Hn), (proj2 (bad_function_false _) Hf) in E.
    cbn [orb] in E. by destruct (_ =? _); injection E.
  - cbn [snd] in Hreg. by rewrite Hreg, decide_True by done.
  - intros reg Hne. cbn [snd] in Hreg. rewrite Hreg, decide_False by done.
    unfold released. destruct reg as [i| |]; repeat case_decide; try done; naive_solver.
Qed.

(** The multiplexer invariant: a function other than the reserved one is on at
    most one pin. *)
Definition exclusive (s : fpioa_t) : Prop :=
  ∀ i j, 0 ≤ i < FPIOA_NUM_IO → 0 ≤ j < FPIOA_NUM_IO →
    ch_sel s i = ch_sel s j → ch_sel s i ≠ FUNC_RESV0 → i = j.

Lemma find_io_spec fuel k function s :
  (find_io fuel k function s = -1 ∧ ∀ i, k ≤ i < k + Z.of_nat fuel → ch_sel s i ≠ function) ∨
  (k ≤ find_io fuel k function s < k + Z.of_nat fuel ∧
   ch_sel s (find_io fuel k function s) = function).
Proof.
  revert k. induction fuel as [|fuel IH]; intros k; cbn [find_io]; [left; split; [done|lia]|].
  destruct (Z.eqb_spec (ch_sel s k) function); [right; split; [lia|done]|].
  destruct (IH (k + 1)) as [[-> Hall]|[? ?]]; [left|right; split; [lia|done]].
  split; [done|]. intros i Hi. destruct (decide (i = k)) as [->|]; [done|apply Hall; lia].
Qed.

(** Whatever the arguments and the registers, [fpioa_set_function] keeps every
    function but the reserved one on at most one pin. *)
Theorem fpioa_set_function_exclusive number function s :
  exclusive s → exclusive (snd (fpioa_set_function number function s)).
Proof.
  intros Hs. destruct (bad_io number || bad_function function) eqn:Hbad.
  { unfold fpioa_set_function. by rewrite Hbad. }
  apply orb_false_iff in Hbad as [?%bad_io_false ?%bad_function_false].
  intros i j Hi Hj. rewrite !set_function_ch_sel by done.
  specialize (Hs i j Hi Hj). repeat case_decide; naive_solver.
Qed.

Lemma exclusive_init : exclusive (λ r, match r with IO i => i | _ => 0 end).
Proof.
  intros i j Hi Hj. unfold ch_sel, bf_get. cbn [bf_off bf_width cfg_ch_sel].
  rewrite !Z.shiftr_0_r, !wrap_id by (unfold FPIOA_NUM_IO in *; lia). done.
Qed.
Lemma fpioa_set_function_exclusive_witness :
  exclusive (λ r, match r with IO i => i | _ => 0 end) ∧
  exclusive (snd (fpioa_set_function 5 3 (λ r, match r with IO i => i | _ => 0 end))).
Proof. split; [exact exclusive_init|]. apply fpioa_set_function_exclusive, exclusive_init. Defined.

(** The lookup inverts the selection: after a function other than the reserved
    one is put on a pin, [fpioa_get_io_by_function] finds that pin. *)
Theorem fpioa_get_io_by_function_set number function s :
  0 ≤ number < FPIOA_NUM_IO → 0 ≤ function < FUNC_MAX → function ≠ FUNC_RESV0 →
  fpioa_get_io_by_function function (snd (fpioa_set_function number function s)) = number.
Proof.
  intros Hn Hf Hne. unfold fpioa_get_io_by_function.
  set (s' := snd _).
  destruct (find_io_spec (Z.to_nat FPIOA_NUM_IO) 0 function s') as [[_ Hall]|[Hr Hc]].
  - destruct (Hall number ltac:(unfold FPIOA_NUM_IO in *; lia)).
    unfold s'. rewrite set_function_ch_sel, decide_True by done. done.
  - rewrite Z2Nat.id in Hr by done. unfold s' in Hc at 1.
    rewrite set_function_ch_sel in Hc by (done || lia).
    case_decide; [done|]. case_decide as Hcase; [congruence|].
    destruct Hcase. by split.
Qed.
Lemma fpioa_get_io_by_function_set_witness :
  18 ≠ FUNC_RESV0 ∧
  fpioa_get_io_by_function 18 (snd (fpioa_set_function 4 18 (λ _, 18))) = 4.
Proof.
  split; [discriminate|].
  apply (fpioa_get_io_by_function_set 4 18); [unfold FPIOA_NUM_IO; lia|unfold FUNC_MAX; lia|discriminate].
Defined.

(** ** Pulls *)

(** The pull resistor of a pin is what was last set: the set/get pair is a round
    trip for the three pull values, never enables both resistors, keeps every
    other field of the pin and every other register, and refuses bad
    arguments with no effect. *)
Theorem fpioa_pull_roundtrip number pull s :
  0 ≤ pull →
  let '(r, s') := fpioa_set_io_pull number pull s in
  if bad_io number || (FPIOA_PULL_MAX <=? pull) then r = -1 ∧ s' = s
  else r = 0 ∧ fpioa_get_io_pull number s' = pull ∧
    (∀ f, bf_wf 32 f → bf_disjoint cfg_pu f → bf_disjoint cfg_pd f →
      bf_get f (s' (IO number)) = bf_get f (s (IO number))) ∧
    ∀ reg, reg ≠ IO number → s' reg = s reg.
Proof.
  intros Hp. unfold fpioa_set_io_pull, fpioa_get_io_pull.
  destruct (bad_io number) eqn:Hn, (FPIOA_PULL_MAX <=? pull) eqn:Hm; try (split; reflexivity).
  apply Z.leb_gt in Hm. cbn [orb]. rewrite fn_lookup_insert.
  assert (bf_wf 32 cfg_pu ∧ bf_wf 32 cfg_pd) as [??] by field_dec.
  assert (∀ v x, bf_get cfg_pu (bf_set cfg_pd v x) = bf_get cfg_pu x) as Hpd
    by (intros; apply (bf_get_set_ne 32); field_dec).
  split; [done|]. split; [|split; [|by intros; rewrite fn_lookup_insert_ne]].
  - assert (pull = FPIOA_PULL_NONE ∨ pull = FPIOA_PULL_DOWN ∨ pull = FPIOA_PULL_UP)
      as [->|[->| ->]]
      by (unfold FPIOA_PULL_MAX, FPIOA_PULL_NONE, FPIOA_PULL_DOWN, FPIOA_PULL_UP in *; lia);
    cbn [Z.eqb FPIOA_PULL_NONE FPIOA_PULL_DOWN FPIOA_PULL_UP Pos.eqb];
    by rewrite !Hpd, !(bf_get_set 32) by done.
  - intros f Hf Hpu Hpd'.
    repeat destruct (Z.eqb _ _); by rewrite ?(bf_get_set_ne 32) by done.
Qed.
Lemma fpioa_pull_roundtrip_witness :
  0 ≤ FPIOA_PULL_UP ∧
  fpioa_get_io_pull 7 (snd (fpioa_set_io_pull 7 FPIOA_PULL_UP (λ _, 0x20000))) = FPIOA_PULL_UP.
Proof.
  split; [by vm_compute|].
  pose proof (fpioa_pull_roundtrip 7 FPIOA_PULL_UP (λ _, 0x20000) ltac:(by vm_compute)) as H.
  destruct (fpioa_set_io_pull _ _ _) as [r s']. by destruct H as (_ & H & _).
Defined.

(** ** Ties *)
Definition tie_bit (s : fpioa_t) (reg : Z → fpioa_reg) (function : Z) : bool :=
  Z.testbit (s (reg (function / 32))) (function mod 32).

Definition tie_checked (bit : fpioa_assign → Z) : bool :=
  let tie := tie_fill bit in
  forallb (λ i, Z.b2z (Z.testbit (tie (i / 32)) (i mod 32)) =? bit (config_of i)) (seqZ 0 256).
Lemma tie_en_checked : tie_checked a_tie_en = true.
Proof. vm_compute. reflexivity. Qed.
Lemma tie_val_checked : tie_checked a_tie_val = true.
Proof. vm_compute. reflexivity. Qed.

Lemma tie_fill_bit bit i :
  tie_checked bit = true → 0 ≤ i < FUNC_MAX →
  Z.b2z (Z.testbit (tie_fill bit (i / 32)) (i mod 32)) = bit (config_of i).
Proof.
  unfold tie_checked. intros Hc Hi.
  pose proof (forallb_seqZ _ 0 256 i Hc Hi) as H. cbv beta zeta in H.
  apply Z.eqb_eq in H. exact H.
Qed.

Lemma tie_write_loop (en val : Z → Z) s :
  let s' := for_range 0 (FUNC_MAX / 32) (λ i s, <[TIE_EN i := en i]> (<[TIE_VAL i := val i]> s)) s in
  (∀ i, 0 ≤ i < FUNC_MAX / 32 → s' (TIE_EN i) = en i ∧ s' (TIE_VAL i) = val i) ∧
  ∀ i, s' (IO i) = s (IO i).
Proof.
  cbv zeta.
  apply (for_range_ind (λ k s', (∀ i, 0 ≤ i < k → s' (TIE_EN i) = en i ∧ s' (TIE_VAL i) = val i) ∧
    ∀ i, s' (IO i) = s (IO i))); [done|split; [lia|done]|].
  intros k s' Hk [IH Hio]. rewrite Z.add_0_l. split.
  - intros i Hi. destruct (decide (i = k)) as [->|].
    + rewrite fn_lookup_insert, fn_lookup_insert_ne, fn_lookup_insert by discriminate. done.
    + rewrite !fn_lookup_insert_ne by congruence. apply IH. lia.
  - intros i. by rewrite !fn_lookup_insert_ne by discriminate.
Qed.

(** [fpioa_init] turns the FPIOA clock on (stopping no other), loads all 256 tie
    enables and tie values with the table's bits, and leaves the pins alone.
    The clock controller is any that keeps the [ClockGate] contract. *)
Theorem fpioa_init_spec {S} `{ClockGate S sysctl_clock} (sysctl : S) s :
  let '(r, sysctl', s') := fpioa_init sysctl s in
  r = 0 ∧ cg_running SYSCTL_CLOCK_FPIOA sysctl' ∧
  (∀ c, cg_running c sysctl → cg_running c sysctl') ∧
  (∀ f, 0 ≤ f < FUNC_MAX →
    Z.b2z (tie_bit s' TIE_EN f) = a_tie_en (config_of f) ∧
    Z.b2z (tie_bit s' TIE_VAL f) = a_tie_val (config_of f)) ∧
  ∀ i, s' (IO i) = s (IO i).
Proof.
  unfold fpioa_init.
  destruct (tie_write_loop (tie_fill a_tie_en) (tie_fill a_tie_val) s) as [Htie Hio].
  split; [done|]. split; [apply cg_enable_running|]. split; [intros; by apply cg_enable_mono|].
  split; [|exact Hio]. intros f Hf. unfold tie_bit.
  destruct (Htie (f / 32)) as [-> ->].
  { change (FUNC_MAX / 32) with 8. unfold FUNC_MAX in Hf. split; [apply Z.div_pos; lia|apply Z.div_lt_upper_bound; lia]. }
  split; [exact (tie_fill_bit a_tie_en f tie_en_checked Hf)
    |exact (tie_fill_bit a_tie_val f tie_val_checked Hf)].
Qed.

(** With the real clock controller: everything off, then [fpioa_init]. *)
Lemma fpioa_init_spec_witness :
  clock_running SYSCTL_CLOCK_FPIOA (snd (fst (fpioa_init (λ _ : sysctl_reg, 0) (λ _, 0)))).
Proof.
  pose proof (fpioa_init_spec (λ _ : sysctl_reg, 0) (λ _, 0)) as H.
  destruct (fpioa_init _ _) as [[r sysctl'] s']. exact (proj1 (proj2 H)).
Defined.

(** The two tie setters change exactly their bit. *)
Lemma fpioa_set_tie_enable_spec function enable s :
  0 ≤ function < FUNC_MAX → in_width 32 (s (TIE_EN (function / 32))) →
  let s' := snd (fpioa_set_tie_enable function enable s) in
  tie_bit s' TIE_EN function = negb (enable =? 0) ∧
  (∀ g, 0 ≤ g < FUNC_MAX → g ≠ function → tie_bit s' TIE_EN g = tie_bit s TIE_EN g).
Proof.
  intros Hf Hw. unfold fpioa_set_tie_enable. rewrite (proj2 (bad_function_false _) Hf). cbn [snd].
  pose proof (Z.mod_pos_bound function 32 ltac:(lia)).
  unfold tie_bit. split; [|intros g Hg Hne; pose proof (Z.mod_pos_bound g 32 ltac:(lia));
    destruct (decide (g / 32 = function / 32)) as [Hq|Hq]].
  - destruct (enable =? 0); rewrite fn_lookup_insert;
      rewrite ?clear_bit_at_testbit, ?set_bit_at_testbit by (done || lia);
      by rewrite bool_decide_eq_true_2 by done.
  - assert (function mod 32 ≠ g mod 32) by
      (intros Hm; apply Hne; pose proof (Z.div_mod g 32 ltac:(lia));
       pose proof (Z.div_mod function 32 ltac:(lia)); lia).
    destruct (enable =? 0); rewrite Hq, fn_lookup_insert;
      rewrite ?clear_bit_at_testbit, ?set_bit_at_testbit by (done || lia);
      by rewrite bool_decide_eq_false_2 by done.
  - by destruct (enable =? 0); rewrite fn_lookup_insert_ne by congruence.
Qed.
