(* ===== verification/Plic.v ===== *)
(** * Platform interrupt controller (k210_plic.c)

    The registers the driver owns (enables, priorities, thresholds), the callback
    table [plic_instance] and the machine CSRs.  The claim/complete register is
    driven by the hardware and the callbacks are user code: both are parameters.
    Callbacks are named by a type [H], their [void *] contexts by a type [X]. *)

From S2P Require Import Prelude.

Definition IRQN_MAX : Z := 66.
Definition PLIC_NUM_SOURCES : Z := IRQN_MAX - 1.
Definition MSTATUS_MIE : Z := 0x8.
Definition MSTATUS_MPIE : Z := 0x80.
Definition MSTATUS_MPP : Z := 0x1800.
Definition IRQ_M_SOFT : Z := 3.
Definition IRQ_M_TIMER : Z := 7.
Definition IRQ_M_EXT : Z := 11.
Definition MIP_MSIP : Z := Z.shiftl 1 IRQ_M_SOFT.
Definition MIP_MTIP : Z := Z.shiftl 1 IRQ_M_TIMER.
Definition MIP_MEIP : Z := Z.shiftl 1 IRQ_M_EXT.

(** [target_enables.target[core].enable[word]], [source_priorities.priority[irq]],
    [targets.target[core].priority_threshold] *)
Inductive plic_reg : Set :=
| ENABLE (core word : Z)
| PRIORITY (irq : Z)
| THRESHOLD (core : Z).
#[export] Instance plic_reg_eq_dec : EqDecision plic_reg.
Proof. solve_decision. Defined.

(** ** Interface: what a driver asks of an interrupt controller

    A driver registers a callback and its context, sets a priority and enables
    the line; each operation changes only its own line. *)
Class IrqController (P H X : Type) := {
  irq_set_priority : Z → Z → P → P;
  irq_register : Z → H → option X → P → P;
  irq_unregister : Z → P → P;
  irq_enable : Z → P → P;
  irq_disable : Z → P → P;
  irq_handler : P → Z → option (H * option X);
  irq_enabled : P → Z → bool;
  irq_handler_priority i v p j : irq_handler (irq_set_priority i v p) j = irq_handler p j;
  irq_handler_register i h x p j :
    irq_handler (irq_register i h x p) j = if decide (i = j) then Some (h, x) else irq_handler p j;
  irq_handler_unregister i p j :
    irq_handler (irq_unregister i p) j = if decide (i = j) then None else irq_handler p j;
  irq_handler_enable i p j : irq_handler (irq_enable i p) j = irq_handler p j;
  irq_enabled_enable i p : 0 < i < IRQN_MAX → irq_enabled (irq_enable i p) i = true
}.

Section plic.
Context {H X : Type}.

(** [plic_instance_t]: [callback] and [ctx], null pointers as [None]. *)
Record plic_instance_t := Instance_t { callback : option H; ctx : option X }.
Definition no_instance : plic_instance_t := Instance_t None None.

Record plic_t := Plic {
  regs : bank plic_reg;
  plic_instance : Z * Z → plic_instance_t;   (** (core, irq) *)
  s_plic_priorities_init_flag : bool
}.
Definition set_reg (r : plic_reg) (v : Z) (p : plic_t) : plic_t :=
  Plic (<[r := v]> p.(regs)) p.(plic_instance) p.(s_plic_priorities_init_flag).
Definition set_instance (core irq : Z) (i : plic_instance_t) (p : plic_t) : plic_t :=
  Plic p.(regs) (<[(core, irq) := i]> p.(plic_instance)) p.(s_plic_priorities_init_flag).

(** Machine CSRs *)
Record csr_t := Csr { mip : Z; mie : Z; mstatus : Z }.
Definition set_mie (mask : Z) (c : csr_t) := Csr c.(mip) (Z.lor c.(mie) mask) c.(mstatus).
Definition clear_mie (mask : Z) (c : csr_t) := Csr c.(mip) (Z.ldiff c.(mie) mask) c.(mstatus).
Definition write_mie (v : Z) (c : csr_t) := Csr c.(mip) v c.(mstatus).
Definition set_mstatus (mask : Z) (c : csr_t) := Csr c.(mip) c.(mie) (Z.lor c.(mstatus) mask).
Definition clear_mstatus (mask : Z) (c : csr_t) := Csr c.(mip) c.(mie) (Z.ldiff c.(mstatus) mask).

Definition bad_irq (irq : Z) : bool := (PLIC_NUM_SOURCES <? irq) || (irq <? 0).

(** The operations run on core [core] ([current_coreid()]). *)
Section core.
Context (core : Z).

Definition plic_irq_enable (irq : Z) (p : plic_t) : Z * plic_t :=
  if bad_irq irq then (-1, p) else
  let r := ENABLE core (irq / 32) in
  (0, set_reg r (set_bit_at (irq mod 32) (p.(regs) r)) p).
Definition plic_irq_disable (irq : Z) (p : plic_t) : Z * plic_t :=
  if bad_irq irq then (-1, p) else
  let r := ENABLE core (irq / 32) in
  (0, set_reg r (clear_bit_at 32 (irq mod 32) (p.(regs) r)) p).
Definition plic_set_priority (irq priority : Z) (p : plic_t) : Z * plic_t :=
  if bad_irq irq then (-1, p) else (0, set_reg (PRIORITY irq) priority p).
Definition plic_get_priority (irq : Z) (p : plic_t) : Z :=
  if bad_irq irq then 0 else p.(regs) (PRIORITY irq).
Definition plic_irq_register (irq : Z) (cb : option H) (x : option X) (p : plic_t) : plic_t :=
  set_instance core irq (Instance_t cb x) p.
Definition plic_irq_unregister (irq : Z) (p : plic_t) : plic_t :=
  plic_irq_register irq None None p.

(** The rest of the machine, with the claim/complete register in it. *)
Section trap.
Context {W : Type}.
Context (hw_claim : Z → W → Z * W) (hw_complete : Z → Z → W → W).
Context (call : H → option X → plic_t * csr_t * W → plic_t * csr_t * W).

Definition plic_irq_claim (w : W) : Z * W := hw_claim core w.
Definition plic_irq_complete (source : Z) (w : W) : Z * W := (0, hw_complete core source w).

(** [while(claim_complete > 0 && i < 100) i++]: 101 reads at most. *)
Fixpoint drain (fuel : nat) (w : W) : W :=
  let '(n, w) := hw_claim core w in
  if 0 <? n then match fuel with O => w | S fuel => drain fuel w end else w.

Definition plic_init (p : plic_t) (c : csr_t) (w : W) : plic_t * csr_t * W :=
  let p := for_range 0 ((PLIC_NUM_SOURCES + 32) / 32) (λ i, set_reg (ENABLE core i) 0) p in
  let p := if p.(s_plic_priorities_init_flag) then p else
             let p := for_range 0 PLIC_NUM_SOURCES (λ i, set_reg (PRIORITY i) 0) p in
             Plic p.(regs) p.(plic_instance) true in
  let p := set_reg (THRESHOLD core) 0 p in
  let p := for_range 0 IRQN_MAX (λ i, set_instance core i no_instance) p in
  (p, set_mie MIP_MEIP c, drain 100 w).

(** The trap handler.  An interrupt number past the callback table is an
    access outside an object. *)
Definition handle_irq_m_ext (p : plic_t) (c : csr_t) (w : W) : res (plic_t * csr_t * W) :=
  if Z.land c.(mip) MIP_MEIP =? 0 then Ok (p, c, w) else
  let ie_flag := c.(mie) in
  let '(int_num, w) := hw_claim core w in
  if IRQN_MAX <=? int_num then Fault FUB else
  let int_threshold := p.(regs) (THRESHOLD core) in
  let p := set_reg (THRESHOLD core) (p.(regs) (PRIORITY int_num)) p in
  let c := clear_mie (Z.lor MIP_MTIP MIP_MSIP) c in
  let c := set_mstatus MSTATUS_MIE c in
  let inst := p.(plic_instance) (core, int_num) in
  let '(p, c, w) := match inst.(callback) with
                    | Some f => call f inst.(ctx) (p, c, w)
                    | None => (p, c, w)
                    end in
  let w := hw_complete core int_num w in
  let c := clear_mstatus MSTATUS_MIE c in
  let c := set_mstatus (Z.lor MSTATUS_MPIE MSTATUS_MPP) c in
  let c := write_mie ie_flag c in
  Ok (set_reg (THRESHOLD core) int_threshold p, c, w).
End trap.
End core.
End plic.
Arguments plic_instance_t : clear implicits.
Arguments plic_t : clear implicits.

(** ** Lines *)
Section lines.
Context {H X : Type} (core : Z).
Implicit Types p : plic_t H X.

(** Line [irq] is enabled for this core. *)
Definition irq_on p (irq : Z) : bool :=
  Z.testbit (regs p (ENABLE core (irq / 32))) (irq mod 32).
Definition regs_ok p : Prop := bank_ok (regs p).

Lemma bad_irq_false irq : bad_irq irq = false ↔ 0 ≤ irq < IRQN_MAX.
Proof. unfold bad_irq, PLIC_NUM_SOURCES. rewrite orb_false_iff, !Z.ltb_ge. lia. Qed.

Lemma irq_bit_ne i j : i ≠ j → i / 32 = j / 32 → i mod 32 ≠ j mod 32.
Proof.
  intros Hne Hd Hm. apply Hne. pose proof (Z.div_mod i 32 ltac:(lia)).
  pose proof (Z.div_mod j 32 ltac:(lia)). lia.
Qed.

Lemma irq_on_update p i j f :
  (∀ k x, in_width 32 x → 0 ≤ k →
    Z.testbit (f x) k = if decide (k = i mod 32) then Z.testbit (f x) k else Z.testbit x k) →
  regs_ok p →
  irq_on (set_reg (ENABLE core (i / 32)) (f (regs p (ENABLE core (i / 32)))) p) j =
  if decide (i = j) then Z.testbit (f (regs p (ENABLE core (i / 32)))) (i mod 32) else irq_on p j.
Proof.
  intros Hf Hok. unfold irq_on, set_reg. cbn [regs].
  case_decide as Hij; [subst; by rewrite fn_lookup_insert|].
  destruct (decide (i / 32 = j / 32)) as [Hd|].
  - rewrite Hd, fn_lookup_insert, Hf by (try apply Hok; apply Z.mod_pos_bound; lia).
    rewrite decide_False; [done|]. intros ?. by apply (irq_bit_ne i j).
  - rewrite fn_lookup_insert_ne by congruence. done.
Qed.

Lemma irq_enable_on irq p j :
  0 ≤ irq < IRQN_MAX → regs_ok p →
  irq_on (snd (plic_irq_enable core irq p)) j = bool_decide (irq = j) || irq_on p j.
Proof.
  intros Hi Hok. unfold plic_irq_enable. rewrite (proj2 (bad_irq_false irq) Hi). cbn [snd].
  pose proof (Z.mod_pos_bound irq 32 ltac:(lia)).
  rewrite (irq_on_update p irq j (set_bit_at (irq mod 32))); [|clear j|done].
  - case_decide as Hij; [|by rewrite bool_decide_eq_false_2].
    rewrite set_bit_at_testbit by lia. by rewrite !bool_decide_eq_true_2.
  - intros k x ??. case_decide; [done|].
    by rewrite set_bit_at_testbit, bool_decide_eq_false_2 by (done || lia).
Qed.

Lemma irq_disable_on irq p j :
  0 ≤ irq < IRQN_MAX → regs_ok p →
  irq_on (snd (plic_irq_disable core irq p)) j = negb (bool_decide (irq = j)) && irq_on p j.
Proof.
  intros Hi Hok. unfold plic_irq_disable. rewrite (proj2 (bad_irq_false irq) Hi). cbn [snd].
  pose proof (Z.mod_pos_bound irq 32 ltac:(lia)).
  rewrite (irq_on_update p irq j (clear_bit_at 32 (irq mod 32))); [|clear j|done].
  - case_decide as Hij; [|by rewrite bool_decide_eq_false_2].
    rewrite clear_bit_at_testbit by (try apply Hok; lia). by rewrite !bool_decide_eq_true_2.
  - intros k x ??. case_decide; [done|].
    by rewrite clear_bit_at_testbit, bool_decide_eq_false_2 by (done || lia).
Qed.

(** Enabling or disabling a line changes that line only; numbers outside the
    controller's range are refused with no effect. *)
Theorem plic_irq_enable_disable irq p j :
  regs_ok p →
  let '(r, p1) := plic_irq_enable core irq p in
  let '(r', p0) := plic_irq_disable core irq p in
  if bad_irq irq then r = -1 ∧ p1 = p ∧ r' = -1 ∧ p0 = p
  else r = 0 ∧ r' = 0 ∧ irq_on p1 j = bool_decide (irq = j) || irq_on p j ∧
    irq_on p0 j = negb (bool_decide (irq = j)) && irq_on p j ∧
    plic_instance p1 = plic_instance p ∧ plic_instance p0 = plic_instance p.
Proof.
  intros Hok. pose proof (irq_enable_on irq p j) as H1. pose proof (irq_disable_on irq p j) as H0.
  rewrite <-bad_irq_false in H1, H0.
  unfold plic_irq_enable, plic_irq_disable in *. destruct (bad_irq irq); [done|].
  cbn [snd] in H1, H0. auto 10.
Qed.
End lines.

Lemma plic_irq_enable_disable_witness :
  let p := Plic (λ _, 0) (λ _, no_instance (H:=unit) (X:=unit)) false in
  regs_ok p ∧ irq_on 0 (snd (plic_irq_enable 0 65 p)) 65 = true.
Proof.
  cbv zeta. assert (regs_ok (Plic (λ _, 0) (λ _, no_instance (H:=unit) (X:=unit)) false)) as Hok
    by (intros r; simpl; lia).
  split; [exact Hok|].
  pose proof (plic_irq_enable_disable 0 65 _ 65 Hok) as H.
  destruct (plic_irq_enable 0 65 _) as [r p1], (plic_irq_disable 0 65 _) as [r' p0].
  destruct H as (_ & _ & H & _). exact H.
Defined.

(** ** Initialisation *)
Section init.
Context {H X W : Type} (core : Z) (hw_claim : Z → W → Z * W).
Implicit Types (p : plic_t H X) (w : W).

Lemma set_reg_loop (r : Z → plic_reg) n p :
  0 ≤ n →
  let p' := for_range 0 n (λ i, set_reg (r i) 0) p in
  (∀ i, 0 ≤ i < n → regs p' (r i) = 0) ∧
  (∀ q, (∀ i, 0 ≤ i < n → q ≠ r i) → regs p' q = regs p q) ∧
  plic_instance p' = plic_instance p ∧
  s_plic_priorities_init_flag p' = s_plic_priorities_init_flag p.
Proof.
  intros Hn. cbv zeta. apply (for_range_ind (λ k p',
    (∀ i, 0 ≤ i < k → regs p' (r i) = 0) ∧
    (∀ q, (∀ i, 0 ≤ i < k → q ≠ r i) → regs p' q = regs p q) ∧
    plic_instance p' = plic_instance p ∧
    s_plic_priorities_init_flag p' = s_plic_priorities_init_flag p));
    [done|split_and!; [lia|done..]|].
  intros k p' Hk (IH1 & IH2 & IH3 & IH4). cbn [set_reg regs plic_instance s_plic_priorities_init_flag].
  rewrite Z.add_0_l. split; [|split; [|done]].
  - intros i Hi. destruct (decide (r i = r k)) as [->|]; [by rewrite fn_lookup_insert|].
    rewrite fn_lookup_insert_ne by congruence. apply IH1.
    destruct (decide (i = k)) as [->|]; [done|lia].
  - intros q Hq. rewrite fn_lookup_insert_ne by (symmetry; apply Hq; lia).
    apply IH2. intros i Hi. apply Hq. lia.
Qed.

Lemma set_instance_loop n p :
  0 ≤ n →
  let p' := for_range 0 n (λ i, set_instance core i no_instance) p in
  regs p' = regs p ∧
  ∀ c i, plic_instance p' (c, i) =
    if decide (c = core ∧ 0 ≤ i < n) then no_instance else plic_instance p (c, i).
Proof.
  intros Hn. cbv zeta. apply (for_range_ind (λ k p', regs p' = regs p ∧
    ∀ c i, plic_instance p' (c, i) =
      if decide (c = core ∧ 0 ≤ i < k) then no_instance else plic_instance p (c, i))
    0 n (λ i, set_instance core i no_instance) p);
    [done|split; [done|intros; by rewrite decide_False by lia]|].
  intros k p' Hk [IHr IH]. split; [exact IHr|]. intros c i. cbn [set_instance plic_instance].
  rewrite Z.add_0_l. destruct (decide ((core, k) = (c, i))) as [[= <- <-]|Hne].
  - rewrite fn_lookup_insert, decide_True by lia. done.
  - rewrite fn_lookup_insert_ne, IH by done.
    destruct (decide (c = core ∧ 0 ≤ i < k)); [by rewrite decide_True by lia|].
    rewrite decide_False; [done|]. intros [-> ?]. apply Hne. f_equal. lia.
Qed.

(** After the two clearing loops: this core's enables are 0, and so are the
    priorities below [PLIC_NUM_SOURCES] on the first call. *)
Definition init_clear p : plic_t H X :=
  let p := for_range 0 ((PLIC_NUM_SOURCES + 32) / 32) (λ i, set_reg (ENABLE core i) 0) p in
  if s_plic_priorities_init_flag p then p else
    let p := for_range 0 PLIC_NUM_SOURCES (λ i, set_reg (PRIORITY i) 0) p in
    Plic p.(regs) p.(plic_instance) true.

Lemma init_clear_spec p :
  s_plic_priorities_init_flag (init_clear p) = true ∧
  plic_instance (init_clear p) = plic_instance p ∧
  ∀ q, regs (init_clear p) q = match q with
    | PRIORITY irq => if decide (s_plic_priorities_init_flag p = false ∧ 0 ≤ irq < PLIC_NUM_SOURCES)
                      then 0 else regs p q
    | ENABLE c i => if decide (c = core ∧ 0 ≤ i < 3) then 0 else regs p q
    | THRESHOLD _ => regs p q end.
Proof.
  pose proof (set_reg_loop (ENABLE core) ((PLIC_NUM_SOURCES + 32) / 32) p ltac:(done))
    as (La & Lb & Lc & Ld).
  unfold init_clear. set (p1 := for_range 0 ((PLIC_NUM_SOURCES + 32) / 32) _ p) in *.
  clearbody p1. rewrite Ld.
  pose proof (set_reg_loop PRIORITY PLIC_NUM_SOURCES p1 ltac:(done)) as (Ma & Mb & Mc & Md).
  set (p2 := for_range 0 PLIC_NUM_SOURCES _ p1) in *. clearbody p2.
  assert (∀ q, regs p1 q = match q with
    | ENABLE c i => if decide (c = core ∧ 0 ≤ i < 3) then 0 else regs p q
    | _ => regs p q end) as Hp1.
  { intros [c0 i0| |]; [case_decide as Hd|..]; try (by apply Lb).
    - destruct Hd as [-> ?]. by apply La.
    - apply Lb. intros i Hi [= -> ->]. by apply Hd. }
  destruct (s_plic_priorities_init_flag p) eqn:Hf;
    cbn [regs plic_instance s_plic_priorities_init_flag].
  - split; [done|]. split; [done|]. by intros [| |]; rewrite Hp1.
  - split; [done|]. split; [congruence|].
    intros [c0 i0|irq|]; [by rewrite Mb, Hp1 by done| |by rewrite Mb, Hp1 by done].
    case_decide as Hd; [apply Ma; lia|].
    rewrite Mb, Hp1 by (intros i Hi [= ->]; destruct Hd; done). done.
Qed.

(** Initialisation.  The core's lines are all off, its threshold is 0, its
    callbacks are cleared and external interrupts are on; the other cores keep
    their lines, thresholds and callbacks.  The first call also clears the
    priorities of sources 0 to 64; the priority of source 65
    ([IRQN_GPIOHS31_INTERRUPT], which [plic_set_priority] accepts) is left as
    it was. *)
Theorem plic_init_spec p c w :
  let '(p', c', _) := plic_init core hw_claim p c w in
  (∀ irq, 0 ≤ irq < IRQN_MAX → irq_on core p' irq = false) ∧
  regs p' (THRESHOLD core) = 0 ∧
  (∀ c i, plic_instance p' (c, i) =
    if decide (c = core ∧ 0 ≤ i < IRQN_MAX) then no_instance else plic_instance p (c, i)) ∧
  (∀ other, other ≠ core →
    (∀ irq, irq_on other p' irq = irq_on other p irq) ∧
    regs p' (THRESHOLD other) = regs p (THRESHOLD other)) ∧
  Z.testbit (mie c') IRQ_M_EXT = true ∧
  (∀ irq, regs p' (PRIORITY irq) =
    if decide (s_plic_priorities_init_flag p = false ∧ 0 ≤ irq < PLIC_NUM_SOURCES)
    then 0 else regs p (PRIORITY irq)) ∧
  s_plic_priorities_init_flag p' = true ∧
  regs p' (PRIORITY 65) = regs p (PRIORITY 65) ∧ bad_irq 65 = false.
Proof.
  unfold plic_init. fold (init_clear p). cbv zeta.
  pose proof (init_clear_spec p) as (Hflag & Hinst & Hregs). set (p2 := init_clear p) in *.
  pose proof (set_instance_loop IRQN_MAX (set_reg (THRESHOLD core) 0 p2) ltac:(done)) as L3.
  assert (s_plic_priorities_init_flag (for_range 0 IRQN_MAX
    (λ i, set_instance core i no_instance) (set_reg (THRESHOLD core) 0 p2)) = true) as Hflag3.
  { by apply (for_range_ind (λ _ q, s_plic_priorities_init_flag q = true)
      0 IRQN_MAX (λ i, set_instance core i no_instance)). }
  set (p3 := for_range 0 IRQN_MAX _ _) in *. destruct L3 as [Hregs3 Hinst3].
  cbn [set_reg regs plic_instance] in Hregs3, Hinst3.
  assert (∀ q, q ≠ THRESHOLD core → regs p3 q = regs p2 q) as Hq
    by (intros; rewrite Hregs3, fn_lookup_insert_ne; done).
  split_and!.
  - intros irq Hirq. unfold irq_on. rewrite Hq, Hregs by done.
    rewrite decide_True; [apply Z.bits_0|]. unfold IRQN_MAX in Hirq.
    split; [done|]. split; [apply Z.div_pos; lia|apply Z.div_lt_upper_bound; lia].
  - by rewrite Hregs3, fn_lookup_insert.
  - intros c0 i. rewrite Hinst3. by rewrite Hinst.
  - intros other Hne. split.
    + intros irq. unfold irq_on. rewrite Hq, Hregs by done. by rewrite decide_False by naive_solver.
    + rewrite Hq, Hregs by congruence. done.
  - unfold set_mie. cbn [mie]. rewrite Z.lor_spec. by rewrite orb_true_r.
  - intros irq. by rewrite Hq, Hregs.
  - exact Hflag3.
  - rewrite Hq, Hregs by done. by rewrite decide_False by (unfold PLIC_NUM_SOURCES, IRQN_MAX; lia).
  - done.
Qed.
End init.

(** The first initialisation of core 0: callbacks gone, external interrupts on. *)
Lemma plic_init_spec_witness :
  let p := Plic (λ _, 7) (λ _, Instance_t (Some tt) (Some tt)) false in
  let '(p', c', _) := plic_init 0 (λ _ w, (0, w)) p (Csr 0 0 0) tt in
  irq_on 0 p' 65 = false ∧ regs p' (PRIORITY 65) = 7.
Proof.
  cbv zeta.
  pose proof (plic_init_spec 0 (λ _ w, (0, w)) (Plic (λ _, 7) (λ _, Instance_t (Some tt) (Some tt)) false)
    (Csr 0 0 0) tt) as H.
  destruct (plic_init _ _ _ _ _) as [[p' c'] w'].
  destruct H as (H1 & _ & _ & _ & _ & _ & _ & H2 & _). split; [|exact H2].
  apply H1. unfold IRQN_MAX. lia.
Defined.

(** ** The trap handler *)
Section trap_spec.
Context {H X W : Type} (core : Z).
Context (hw_claim : Z → W → Z * W) (hw_complete : Z → Z → W → W).
Context (call : H → option X → plic_t H X * csr_t * W → plic_t H X * csr_t * W).

(** C5: the external interrupt handler is transparent.  Whatever the callback does
    to the interrupt controller, the CSRs and the rest of the machine, on exit
    [mie] and the core's threshold are what they were on entry, global
    interrupts are off with MPIE and MPP set for [mret], and exactly the
    claimed interrupt is completed, once, after the callback.  While the
    callback runs, only interrupts above the claimed one's priority can nest:
    the threshold is that priority, software and timer interrupts are masked
    and global interrupts are on. *)
Theorem handle_irq_m_ext_transparent p c w n w1 :
  Z.testbit (mip c) IRQ_M_EXT = true → hw_claim core w = (n, w1) → 0 ≤ n < IRQN_MAX →
  ∃ p1 c1 p2 c2 w2,
    regs p1 (THRESHOLD core) = regs p (PRIORITY n) ∧
    Z.testbit (mie c1) IRQ_M_SOFT = false ∧ Z.testbit (mie c1) IRQ_M_TIMER = false ∧
    Z.testbit (mstatus c1) 3 = true ∧ plic_instance p1 = plic_instance p ∧
    (p2, c2, w2) = match callback (plic_instance p (core, n)) with
                   | Some f => call f (ctx (plic_instance p (core, n))) (p1, c1, w1)
                   | None => (p1, c1, w1)
                   end ∧
    ∃ p' c', handle_irq_m_ext core hw_claim hw_complete call p c w =
        Ok (p', c', hw_complete core n w2) ∧
      mie c' = mie c ∧ regs p' (THRESHOLD core) = regs p (THRESHOLD core) ∧
      plic_instance p' = plic_instance p2 ∧
      (∀ r, r ≠ THRESHOLD core → regs p' r = regs p2 r) ∧
      Z.testbit (mstatus c') 3 = false ∧ Z.testbit (mstatus c') 7 = true ∧
      Z.testbit (mstatus c') 11 = true ∧ Z.testbit (mstatus c') 12 = true.
Proof.
  intros Hmip Hclaim Hn. unfold handle_irq_m_ext.
  destruct (Z.eqb_spec (Z.land (mip c) MIP_MEIP) 0) as [Hz|_].
  { apply (f_equal (λ x, Z.testbit x IRQ_M_EXT)) in Hz.
    rewrite Z.land_spec, Hmip in Hz. discriminate. }
  rewrite Hclaim. destruct (Z.leb_spec IRQN_MAX n); [lia|].
  cbn [set_reg plic_instance]. cbv zeta.
  set (p1 := set_reg (THRESHOLD core) _ p). set (c1 := set_mstatus MSTATUS_MIE _).
  destruct (match callback _ with Some f => _ | None => _ end) as [[p2 c2] w2] eqn:E.
  exists p1, c1, p2, c2, w2.
  split; [by cbn; rewrite fn_lookup_insert|].
  split; [cbn [c1 set_mstatus clear_mie mie]; by rewrite Z.ldiff_spec, andb_false_r|].
  split; [cbn [c1 set_mstatus clear_mie mie]; by rewrite Z.ldiff_spec, andb_false_r|].
  split; [cbn [c1 set_mstatus clear_mie mstatus]; by rewrite Z.lor_spec, orb_true_r|].
  split; [done|]. split; [by rewrite E|].
  eexists _, _. split; [reflexivity|]. split; [done|].
  split; [by cbn; rewrite fn_lookup_insert|]. split; [done|].
  split; [by intros; cbn; rewrite fn_lookup_insert_ne|].
  cbn [set_mstatus clear_mstatus write_mie mstatus].
  rewrite !Z.lor_spec, !Z.ldiff_spec.
  by rewrite ?andb_false_r, ?orb_true_r.
Qed.
End trap_spec.

(** A pending interrupt 11 with a callback that clobbers the threshold. *)
Lemma handle_irq_m_ext_transparent_witness :
  let call := λ (_ : unit) (_ : option unit) '(p, c, w), (set_reg (THRESHOLD 0) 7 p, write_mie 0 c, w) in
  let p := Plic (λ _, 1) (λ _, Instance_t (Some tt) None) true in
  ∃ p' c', handle_irq_m_ext 0 (λ _ w, (11, w)) (λ _ _ w, w) call p (Csr 0x800 0x888 0) tt
             = Ok (p', c', tt) ∧ mie c' = 0x888 ∧ regs p' (THRESHOLD 0) = 1.
Proof.
  cbv zeta.
  destruct (handle_irq_m_ext_transparent 0 (λ _ w, (11, w)) (λ _ _ w, w)
    (λ (_ : unit) (_ : option unit) '(p, c, w), (set_reg (THRESHOLD 0) 7 p, write_mie 0 c, w))
    (Plic (λ _, 1) (λ _, Instance_t (Some tt) None) true) (Csr 0x800 0x888 0) tt 11 tt)
    as (p1 & c1 & p2 & c2 & [] & _ & _ & _ & _ & _ & _ & p' & c' & Hrun & Hmie & Hthr & _);
    [reflexivity|reflexivity|unfold IRQN_MAX; lia|].
  exists p', c'. auto.
Defined.

(** ** The controller keeps the driver interface *)
Section controller.
Context {H X : Type} (core : Z).
Implicit Types p : plic_t H X.

Definition plic_handler p (irq : Z) : option (H * option X) :=
  let i := plic_instance p (core, irq) in
  match callback i with Some h => Some (h, ctx i) | None => None end.

Lemma plic_handler_register irq h x p j :
  plic_handler (plic_irq_register core irq (Some h) x p) j =
  if decide (irq = j) then Some (h, x) else plic_handler p j.
Proof.
  unfold plic_handler, plic_irq_register, set_instance. cbn [plic_instance].
  case_decide as Hij; [by rewrite Hij, fn_lookup_insert|].
  by rewrite fn_lookup_insert_ne by congruence.
Qed.
Lemma plic_handler_unregister irq p j :
  plic_handler (plic_irq_unregister core irq p) j =
  if decide (irq = j) then None else plic_handler p j.
Proof.
  unfold plic_handler, plic_irq_unregister, plic_irq_register, set_instance. cbn [plic_instance].
  case_decide as Hij; [by rewrite Hij, fn_lookup_insert|].
  by rewrite fn_lookup_insert_ne by congruence.
Qed.
Lemma plic_handler_enable irq p j :
  plic_handler (snd (plic_irq_enable core irq p)) j = plic_handler p j.
Proof. unfold plic_irq_enable. by destruct (bad_irq irq). Qed.
Lemma plic_handler_priority irq v p j :
  plic_handler (snd (plic_set_priority irq v p)) j = plic_handler p j.
Proof. unfold plic_set_priority. by destruct (bad_irq irq). Qed.
Lemma plic_enabled_enable irq p :
  0 < irq < IRQN_MAX → irq_on core (snd (plic_irq_enable core irq p)) irq = true.
Proof.
  intros Hi. unfold plic_irq_enable. rewrite (proj2 (bad_irq_false irq)) by lia.
  unfold irq_on, set_reg. cbn [snd regs]. rewrite fn_lookup_insert.
  pose proof (Z.mod_pos_bound irq 32 ltac:(lia)).
  by rewrite set_bit_at_testbit, bool_decide_eq_true_2 by lia.
Qed.

#[export] Instance plic_controller : IrqController (plic_t H X) H X := {
  irq_set_priority irq v p := snd (plic_set_priority irq v p);
  irq_register irq h x p := plic_irq_register core irq (Some h) x p;
  irq_unregister := plic_irq_unregister core;
  irq_enable irq p := snd (plic_irq_enable core irq p);
  irq_disable irq p := snd (plic_irq_disable core irq p);
  irq_handler := plic_handler;
  irq_enabled := irq_on core;
  irq_handler_priority := plic_handler_priority;
  irq_handler_register := plic_handler_register;
  irq_handler_unregister := plic_handler_unregister;
  irq_handler_enable := plic_handler_enable;
  irq_enabled_enable := plic_enabled_enable
}.
End controller.
