(* ===== verification/Timer.v ===== *)
(** * Timers (k210_timer.c)

    Three devices of four channels.  Interrupts of channels 0 and 1 share one PLIC
    line (A), those of channels 2 and 3 another (B).  The driver passes the PLIC a
    pointer into its own table [timer_instance]; the pointer is part of the
    model, because a later call can change what it points to.

    The driver is a client of an [IrqController] and of the clock controller.  The
    end-of-interrupt registers act on read; their effect on the interrupt status
    is a parameter ([eoi_channel], [eoi_all]). *)

From S2P Require Import Prelude Float64 SysctlRegs Sysctl SysctlClock Plic.

Definition TIMER_DEVICE_MAX : Z := 3.
Definition TIMER_CHANNEL_MAX : Z := 4.
Definition TIMER_CR_ENABLE : Z := 0x1.
Definition TIMER_CR_MODE_MASK : Z := 0x2.
Definition TIMER_CR_USER_MODE : Z := 0x2.
Definition TIMER_CR_INTERRUPT_MASK : Z := 0x4.
Definition TIMER_CR_PWM_ENABLE : Z := 0x8.
Definition IRQN_TIMER0A_INTERRUPT : Z := 14.
Definition IRQN_TIMER0B_INTERRUPT : Z := 15.
Definition IRQN_NO_INTERRUPT : Z := 0.

(** [timer[d]->channel[ch].load_count], [.control] and [timer[d]->load_count2[ch]] *)
Inductive timer_reg : Set := LOAD (d ch : Z) | CONTROL (d ch : Z) | LOAD2 (d ch : Z).
#[export] Instance timer_reg_eq_dec : EqDecision timer_reg.
Proof. solve_decision. Defined.

(** What the driver hands to the PLIC: one of its two handlers, with a pointer to
    a table entry or to the device. *)
Inductive timer_fn : Set := timer_interrupt_handler_fn | timer_isr_fn.
Inductive timer_ptr : Set := timer_instance_ptr (d ch : Z) | timer_base_ptr (d : Z).

Section timer.
(** User callbacks and their contexts, the interrupt controller, everything else. *)
Context {F U P W : Type} `{IrqController P timer_fn timer_ptr}.
(** Effect of reading an end-of-interrupt register on the status word. *)
Context (eoi_channel : Z → Z → Z) (eoi_all : Z → Z).
Record timer_instance_t := TimerInstance {
  device : Z; channel : Z;
  tcallback : option F; tctx : option U; single_shot : bool
}.
Definition timer_no_instance : timer_instance_t := TimerInstance 0 0 None None false.

Record timer_t := Timer {
  tregs : bank timer_reg;
  timer_instance : Z * Z → timer_instance_t;
  time_irq : Z * Z → option F;
  intr_stat : Z → Z
}.
Definition set_tregs f (t : timer_t) : timer_t :=
  Timer (f t.(tregs)) t.(timer_instance) t.(time_irq) t.(intr_stat).
Definition set_tinstance (d ch : Z) i (t : timer_t) : timer_t :=
  Timer t.(tregs) (<[(d, ch) := i]> t.(timer_instance)) t.(time_irq) t.(intr_stat).
Definition set_stat (d v : Z) (t : timer_t) : timer_t :=
  Timer t.(tregs) t.(timer_instance) t.(time_irq) (<[d := v]> t.(intr_stat)).
Definition put_reg (r : timer_reg) (v : Z) : timer_t → timer_t := set_tregs (λ b, <[r := v]> b).
Definition or_reg (r : timer_reg) (v : Z) : timer_t → timer_t :=
  set_tregs (λ b, <[r := Z.lor (b r) v]> b).
Definition andn_reg (r : timer_reg) (v : Z) : timer_t → timer_t :=
  set_tregs (λ b, <[r := Z.ldiff (b r) v]> b).

(** ** Configuration *)
Definition timer_clock (n : Z) : Z := sysctl_clock_to_Z SYSCTL_CLOCK_TIMER0 + n.
Definition timer_init (n : Z) (t : timer_t) (s : bank sysctl_reg) : timer_t * bank sysctl_reg :=
  (for_range 0 TIMER_CHANNEL_MAX (λ i, set_tinstance n i timer_no_instance) t,
   snd (sysctl_clock_enable (timer_clock n) s)).
Definition timer_set_clock_div (n div : Z) (s : bank sysctl_reg) : bank sysctl_reg :=
  let th := if n =? 0 then SYSCTL_THRESHOLD_TIMER0
            else if n =? 1 then SYSCTL_THRESHOLD_TIMER1 else SYSCTL_THRESHOLD_TIMER2 in
  snd (sysctl_clock_set_threshold (sysctl_threshold_to_Z th) div s).

Definition timer_enable (n ch : Z) := or_reg (CONTROL n ch) TIMER_CR_ENABLE.
Definition timer_disable (n ch : Z) := andn_reg (CONTROL n ch) TIMER_CR_ENABLE.
Definition timer_is_enable (n ch : Z) (t : timer_t) : bool :=
  negb (Z.land (t.(tregs) (CONTROL n ch)) TIMER_CR_ENABLE =? 0).
Definition timer_enable_pwm (n ch : Z) := or_reg (CONTROL n ch) TIMER_CR_PWM_ENABLE.
Definition timer_disable_pwm (n ch : Z) := andn_reg (CONTROL n ch) TIMER_CR_PWM_ENABLE.
Definition timer_enable_interrupt (n ch : Z) := andn_reg (CONTROL n ch) TIMER_CR_INTERRUPT_MASK.
Definition timer_disable_interrupt (n ch : Z) := or_reg (CONTROL n ch) TIMER_CR_INTERRUPT_MASK.
Definition timer_set_mode (n ch mode : Z) (t : timer_t) : timer_t :=
  or_reg (CONTROL n ch) mode (andn_reg (CONTROL n ch) TIMER_CR_MODE_MASK t).
Definition timer_set_reload (n ch count : Z) := put_reg (LOAD n ch) count.
Definition timer_set_reload2 (n ch count : Z) := put_reg (LOAD2 n ch) count.
Definition timer_get_reload (n ch : Z) (t : timer_t) : Z := t.(tregs) (LOAD n ch).
Definition timer_get_reload2 (n ch : Z) (t : timer_t) : Z := t.(tregs) (LOAD2 n ch).
Definition timer_get_interrupt_status (n : Z) (t : timer_t) : Z := t.(intr_stat) n.
Definition timer_clear_interrupt (n : Z) (t : timer_t) : timer_t :=
  set_stat n (eoi_all (t.(intr_stat) n)) t.
Definition timer_channel_clear_interrupt (n ch : Z) (t : timer_t) : timer_t :=
  set_stat n (eoi_channel ch (t.(intr_stat) n)) t.
Definition timer_set_enable (n ch enable : Z) : timer_t → timer_t :=
  put_reg (CONTROL n ch)
    (if enable =? 0 then TIMER_CR_INTERRUPT_MASK else Z.lor TIMER_CR_USER_MODE TIMER_CR_ENABLE).

(** [(size_t)d] *)
Definition to_size (o : option Z) : res Z :=
  match o with
  | Some z => if (0 <=? z) && (z <? 2 ^ 64) then Ok z else Fault FUB
  | None => Fault FUB
  end.
Definition timer_set_interval (n ch nanoseconds : Z) (s : bank sysctl_reg) (t : timer_t)
    : res (Z * timer_t) :=
  clk_freq ← sysctl_clock_get_freq (timer_clock n) s;
  let min_step := d_div (d_of_Z 1000000000) (d_of_Z clk_freq) in
  value ← to_size (d_trunc (d_div (d_of_Z nanoseconds) min_step));
  if (0 <? value) && (value <? 2 ^ 32 - 1) then
    r ← to_size (d_trunc (d_mul min_step (d_of_Z value)));
    Ok (r, put_reg (LOAD n ch) value t)
  else Fault FAssert.

(** ** Interrupts: the table *)
Definition get_timer_irqn_by_device_and_channel (d ch : Z) : Z :=
  if (d <? TIMER_DEVICE_MAX) && (ch <? TIMER_CHANNEL_MAX) then
    if ch <? 2 then IRQN_TIMER0A_INTERRUPT + d * 2 else IRQN_TIMER0B_INTERRUPT + d * 2
  else IRQN_NO_INTERRUPT.

Definition timer_irq_register (d ch : Z) (is_single_shot : bool) (priority : Z)
    (cb : option F) (x : option U) (t : timer_t) (p : P) : Z * timer_t * P :=
  if (d <? TIMER_DEVICE_MAX) && (ch <? TIMER_CHANNEL_MAX) then
    let irq_number := get_timer_irqn_by_device_and_channel d ch in
    let t := set_tinstance d ch (TimerInstance d ch cb x is_single_shot) t in
    let p := irq_set_priority irq_number priority p in
    let p := irq_register irq_number timer_interrupt_handler_fn (Some (timer_instance_ptr d ch)) p in
    (0, t, irq_enable irq_number p)
  else (-1, t, p).

Definition has_callback (t : timer_t) (d ch : Z) : bool :=
  bool_decide (is_Some (tcallback (t.(timer_instance) (d, ch)))).
Definition timer_irq_unregister (d ch : Z) (t : timer_t) (p : P) : Z * timer_t * P :=
  if (d <? TIMER_DEVICE_MAX) && (ch <? TIMER_CHANNEL_MAX) then
    let t := set_tinstance d ch timer_no_instance t in
    let p :=
      if negb (has_callback t d 0 || has_callback t d 1)
         || negb (has_callback t d 2 || has_callback t d 3)
      then irq_unregister (get_timer_irqn_by_device_and_channel d ch) p
      else p in
    (0, t, p)
  else (-1, t, p).

Definition timer_set_irq (n ch : Z) (func : option F) (priority : Z) (t : timer_t) (p : P)
    : timer_t * P :=
  let t := Timer t.(tregs) t.(timer_instance) (<[(n, ch) := func]> t.(time_irq)) t.(intr_stat) in
  let irq := if ch <? 2 then IRQN_TIMER0A_INTERRUPT + n * 2 else IRQN_TIMER0B_INTERRUPT + n * 2 in
  let p := irq_set_priority irq priority p in
  let p := irq_register irq timer_isr_fn (Some (timer_base_ptr n)) p in
  (t, irq_enable irq p).

(** ** Interrupts: the handlers *)

(** Running a user callback: it may change anything. *)
Context (call : F → option U → timer_t * W → timer_t * W).

(** One pass over channel [i] of the pair; [stat] is the shifted status word
    read on entry. *)
Definition handler_step (d i : Z) (st : timer_t * W * Z) : timer_t * W * Z :=
  let '(t, w, stat) := st in
  let '(t, w) :=
    if Z.testbit stat 0 then
      let inst := t.(timer_instance) (d, i) in
      let '(t, w) :=
        match inst.(tcallback) with
        | Some f =>
            let '(t, w) := call f inst.(tctx) (t, w) in
            ((if single_shot (t.(timer_instance) (d, i)) then timer_set_enable d i 0 t else t), w)
        | None => (t, w)
        end in
      (timer_channel_clear_interrupt d i t, w)
    else (t, w) in
  (t, w, Z.shiftr stat 1).

Definition timer_interrupt_handler (ptr : timer_ptr) (t : timer_t) (w : W) : res (timer_t * W) :=
  match ptr with
  | timer_instance_ptr pd pch =>
      let instance := t.(timer_instance) (pd, pch) in
      let d := instance.(device) in
      let irq_channel := Z.shiftl (Z.shiftr instance.(channel) 1) 1 in
      let stat := Z.shiftr (t.(intr_stat) d) irq_channel in
      let '(t, w, _) := handler_step d (irq_channel + 1) (handler_step d irq_channel (t, w, stat)) in
      Ok (t, w)
  | timer_base_ptr _ => Fault FUB
  end.

(** The deprecated handler: the first pending channel only, then the whole
    device is acknowledged. *)
Fixpoint isr_scan (fuel : nat) (d i stat : Z) (t : timer_t) (w : W) : timer_t * W :=
  match fuel with
  | O => (t, w)
  | Datatypes.S fuel =>
      if Z.testbit stat 0 then
        match t.(time_irq) (d, i) with Some f => call f None (t, w) | None => (t, w) end
      else isr_scan fuel d (i + 1) (Z.shiftr stat 1) t w
  end.
Definition timer_isr (ptr : timer_ptr) (t : timer_t) (w : W) : res (timer_t * W) :=
  match ptr with
  | timer_base_ptr d =>
      if (0 <=? d) && (d <? TIMER_DEVICE_MAX) then
        let '(t, w) := isr_scan 4 d 0 (t.(intr_stat) d) t w in
        Ok (timer_clear_interrupt d t, w)
      else Fault FUB
  | timer_instance_ptr _ _ => Fault FUB
  end.
End timer.
Arguments timer_instance_t : clear implicits.
Arguments timer_t : clear implicits.

(** ** Registration *)
Section registration.
Context {F U P : Type} `{IrqController P timer_fn timer_ptr}.
Implicit Types (t : timer_t F U) (p : P).

Definition timer_ok (d ch : Z) : Prop := 0 ≤ d < TIMER_DEVICE_MAX ∧ 0 ≤ ch < TIMER_CHANNEL_MAX.
Definition timer_line (d ch : Z) : Z := 14 + 2 * d + ch / 2.
(** The other channel on the same line, and the two on the other line. *)
Definition sibling (ch : Z) : Z := Z.lxor ch 1.
Definition other_pair (ch : Z) : Z * Z := if ch <? 2 then (2, 3) else (0, 1).

Lemma timer_ok_bool d ch :
  timer_ok d ch → (d <? TIMER_DEVICE_MAX) && (ch <? TIMER_CHANNEL_MAX) = true.
Proof. intros [??]. apply andb_true_iff. rewrite !Z.ltb_lt. lia. Qed.

Lemma timer_irqn_line d ch :
  timer_ok d ch → get_timer_irqn_by_device_and_channel d ch = timer_line d ch.
Proof.
  intros Hok. unfold get_timer_irqn_by_device_and_channel, timer_line.
  rewrite (timer_ok_bool _ _ Hok). destruct Hok as [_ Hch]. unfold TIMER_CHANNEL_MAX in Hch.
  unfold IRQN_TIMER0A_INTERRUPT, IRQN_TIMER0B_INTERRUPT.
  destruct (Z.ltb_spec ch 2).
  - rewrite (Z.div_small ch 2) by lia. lia.
  - replace (ch / 2) with 1 by (assert (ch = 2 ∨ ch = 3) as [->| ->] by lia; done). lia.
Qed.

Lemma timer_line_range d ch : timer_ok d ch → 0 < timer_line d ch < IRQN_MAX.
Proof.
  intros [Hd Hch]. unfold timer_line, TIMER_DEVICE_MAX, TIMER_CHANNEL_MAX, IRQN_MAX in *.
  pose proof (Z.div_pos ch 2). pose proof (Z.div_lt_upper_bound ch 2 2). lia.
Qed.

Lemma set_tinstance_lookup d ch i t e :
  timer_instance (set_tinstance d ch i t) e =
  if decide ((d, ch) = e) then i else timer_instance t e.
Proof.
  unfold set_tinstance. cbn [timer_instance].
  case_decide as He; [by rewrite He, fn_lookup_insert|by rewrite fn_lookup_insert_ne].
Qed.

(** Registering a timer callback.  The table entry of the channel holds the
    callback, its line is enabled and points to that entry, and no other entry
    or line changes; a device or channel out of range is refused with no
    effect. *)
Theorem timer_irq_register_spec d ch single priority cb x t p :
  0 ≤ d → 0 ≤ ch →
  let '(r, t', p') := timer_irq_register d ch single priority cb x t p in
  if (d <? TIMER_DEVICE_MAX) && (ch <? TIMER_CHANNEL_MAX) then
    r = 0 ∧ timer_instance t' (d, ch) = TimerInstance d ch cb x single ∧
    irq_handler p' (timer_line d ch) =
      Some (timer_interrupt_handler_fn, Some (timer_instance_ptr d ch)) ∧
    irq_enabled p' (timer_line d ch) = true ∧
    (∀ e, e ≠ (d, ch) → timer_instance t' e = timer_instance t e) ∧
    (∀ irq, irq ≠ timer_line d ch → irq_handler p' irq = irq_handler p irq)
  else r = -1 ∧ t' = t ∧ p' = p.
Proof.
  intros Hd Hch. unfold timer_irq_register.
  destruct (_ && _) eqn:Hb; [|done].
  assert (timer_ok d ch) as Hok.
  { apply andb_true_iff in Hb. rewrite !Z.ltb_lt in Hb. split; lia. }
  rewrite timer_irqn_line by done. split; [done|].
  split; [by rewrite set_tinstance_lookup, decide_True|].
  rewrite irq_handler_enable, irq_handler_register, decide_True by done. split; [done|].
  split; [by apply irq_enabled_enable, timer_line_range|]. split.
  - intros e He. by rewrite set_tinstance_lookup, decide_False.
  - intros irq Hne. by rewrite irq_handler_enable, irq_handler_register, decide_False,
      irq_handler_priority.
Qed.

Lemma has_callback_set d ch i t c :
  has_callback (set_tinstance d ch i t) d c =
  if decide (ch = c) then bool_decide (is_Some (tcallback i)) else has_callback t d c.
Proof.
  unfold has_callback. rewrite set_tinstance_lookup.
  destruct (decide (ch = c)) as [->|]; [by rewrite decide_True|].
  by rewrite decide_False by congruence.
Qed.

(** The line test of [timer_irq_unregister], after the entry is cleared. *)
Lemma unregister_test d ch t :
  timer_ok d ch →
  let t' := set_tinstance d ch timer_no_instance t in
  negb (has_callback t' d 0 || has_callback t' d 1) || negb (has_callback t' d 2 || has_callback t' d 3)
  = negb (has_callback t d (sibling ch)) ||
    negb (has_callback t d (fst (other_pair ch)) || has_callback t d (snd (other_pair ch))).
Proof.
  intros [_ Hch]. cbv zeta. rewrite !has_callback_set.
  cbn [tcallback timer_no_instance]. rewrite (bool_decide_eq_false_2 (is_Some None)) by (by intros []).
  unfold TIMER_CHANNEL_MAX in Hch.
  assert (ch = 0 ∨ ch = 1 ∨ ch = 2 ∨ ch = 3) as [->|[->|[->| ->]]] by lia;
    cbn; rewrite ?orb_false_r; try done; apply orb_comm.
Qed.

Lemma unregister_eq d ch t p :
  timer_ok d ch →
  timer_irq_unregister d ch t p =
  (0, set_tinstance d ch timer_no_instance t,
   if negb (has_callback t d (sibling ch)) ||
      negb (has_callback t d (fst (other_pair ch)) || has_callback t d (snd (other_pair ch)))
   then irq_unregister (timer_line d ch) p else p).
Proof.
  intros Hok. unfold timer_irq_unregister.
  rewrite timer_ok_bool, timer_irqn_line, <-unregister_test by done. done.
Qed.

(** What unregistering a timer callback really does.  The entry is cleared and
    no other entry changes.  The interrupt line, which the channel shares with
    its sibling, is kept only when the sibling still has a callback and one of
    the two channels of the device's other line has one too; no other line
    changes.  (The condition in the code joins the two pairs by a disjunction
    instead of looking at the channel's own pair.) *)
Theorem timer_irq_unregister_spec d ch t p :
  timer_ok d ch →
  let '(r, t', p') := timer_irq_unregister d ch t p in
  r = 0 ∧ timer_instance t' (d, ch) = timer_no_instance ∧
  (∀ e, e ≠ (d, ch) → timer_instance t' e = timer_instance t e) ∧
  irq_handler p' (timer_line d ch) =
    (if has_callback t d (sibling ch) &&
        (has_callback t d (fst (other_pair ch)) || has_callback t d (snd (other_pair ch)))
     then irq_handler p (timer_line d ch) else None) ∧
  (∀ irq, irq ≠ timer_line d ch → irq_handler p' irq = irq_handler p irq).
Proof.
  intros Hok. rewrite unregister_eq by done. split; [done|].
  split; [by rewrite set_tinstance_lookup, decide_True|].
  split; [intros e He; by rewrite set_tinstance_lookup, decide_False|].
  rewrite <-negb_andb.
  destruct (has_callback t d (sibling ch) && _); cbn [negb]; [done|].
  split; [by rewrite irq_handler_unregister, decide_True|].
  intros irq Hne. by rewrite irq_handler_unregister, decide_False.
Qed.

(** A sibling that is still registered loses its interrupts: with nothing on the
    device's other line, unregistering one channel takes the shared line
    down. *)
Lemma timer_irq_unregister_drops_sibling d ch t p :
  timer_ok d ch →
  has_callback t d (sibling ch) = true →
  has_callback t d (fst (other_pair ch)) = false →
  has_callback t d (snd (other_pair ch)) = false →
  let '(_, t', p') := timer_irq_unregister d ch t p in
  has_callback t' d (sibling ch) = true ∧ irq_handler p' (timer_line d ch) = None.
Proof.
  intros Hok Hs H1 H2. rewrite unregister_eq by done. rewrite Hs, H1, H2. cbn [negb orb].
  rewrite irq_handler_unregister, decide_True by done. split; [|done].
  rewrite has_callback_set, decide_False; [done|].
  unfold sibling. intros Heq. apply (f_equal (λ x, Z.testbit x 0)) in Heq.
  rewrite Z.lxor_spec in Heq. by destruct (Z.testbit ch 0).
Qed.
End registration.

(** Channels 0 and 1 of device 1 registered with callbacks [true] and [false]; then
    channel 0 unregistered, under the PLIC driver of core 0. *)
Definition two_channels : timer_t bool unit * plic_t timer_fn timer_ptr :=
  let t0 := Timer (λ _, 0) (λ _, timer_no_instance) (λ _, None) (λ _, 0) in
  let p0 := Plic (λ _, 0) (λ _, no_instance) true in
  let '(_, t1, p1) := timer_irq_register (H:=plic_controller 0) 1 0 false 1 (Some true) None t0 p0 in
  let '(_, t2, p2) := timer_irq_register (H:=plic_controller 0) 1 1 false 1 (Some false) None t1 p1 in
  (t2, p2).
Lemma timer_irq_register_spec_witness :
  irq_handler (IrqController:=plic_controller 0) (snd two_channels) 16 =
    Some (timer_interrupt_handler_fn, Some (timer_instance_ptr 1 1)).
Proof.
  unfold two_channels. cbv zeta.
  destruct (timer_irq_register (H:=plic_controller 0) 1 0 _ _ _ _ _ _) as [[r1 t1] p1].
  pose proof (timer_irq_register_spec (H:=plic_controller 0) 1 1 false 1 (Some false) None t1 p1
    ltac:(lia) ltac:(lia)) as Hs.
  destruct (timer_irq_register (H:=plic_controller 0) 1 1 _ _ _ _ _ _) as [[r2 t2] p2].
  exact (proj1 (proj2 (proj2 Hs))).
Defined.

Lemma timer_irq_unregister_spec_witness :
  let '(t, p) := two_channels in
  let '(_, t', p') := timer_irq_unregister (H:=plic_controller 0) 1 0 t p in
  has_callback t 1 1 = true ∧ irq_handler (IrqController:=plic_controller 0) p' 16 = None.
Proof.
  destruct two_channels as [t p] eqn:E.
  pose proof (timer_irq_unregister_spec (H:=plic_controller 0) 1 0 t p
    ltac:(unfold timer_ok, TIMER_DEVICE_MAX, TIMER_CHANNEL_MAX; lia)) as Hs.
  destruct (timer_irq_unregister (H:=plic_controller 0) 1 0 t p) as [[r t'] p'].
  destruct Hs as (_ & _ & _ & Hl & _).
  vm_compute in E. injection E as <- <-. split; [reflexivity|]. exact Hl.
Defined.

(** ** Dispatch *)
Section dispatch.
Context {F U W : Type} (eoi_channel : Z → Z → Z) (eoi_all : Z → Z).
(** Reading a channel's register acknowledges that channel, reading the device's
    register acknowledges all four. *)
Hypothesis eoi_channel_spec : ∀ ch stat k, 0 ≤ k →
  Z.testbit (eoi_channel ch stat) k = Z.testbit stat k && negb (bool_decide (k = ch)).
Hypothesis eoi_all_spec : ∀ stat, eoi_all stat = 0.
(** Callbacks that do not touch the timer driver. *)
Context (run : F → option U → W → W).
Implicit Types t : timer_t F U.
Let call : F → option U → timer_t F U * W → timer_t F U * W := λ f x '(t, w), (t, run f x w).

Definition serve t (d i : Z) (w : W) : W :=
  if Z.testbit (intr_stat t d) i then
    match tcallback (timer_instance t (d, i)) with
    | Some f => run f (tctx (timer_instance t (d, i))) w
    | None => w
    end
  else w.
(** A single-shot channel that fired is stopped. *)
Definition stopped t (d i : Z) : bool :=
  Z.testbit (intr_stat t d) i && has_callback t d i && single_shot (timer_instance t (d, i)).
Definition ack (i : Z) (stat : Z) : Z :=
  if Z.testbit stat i then eoi_channel i stat else stat.

Lemma ack_testbit i stat k :
  0 ≤ k → Z.testbit (ack i stat) k = Z.testbit stat k && negb (bool_decide (k = i)).
Proof.
  intros Hk. unfold ack. destruct (Z.testbit stat i) eqn:E; [by apply eoi_channel_spec|].
  case_bool_decide as Hki; [subst; by rewrite E|by rewrite andb_true_r].
Qed.

(** The driver state after the pass over channel [i]. *)
Definition stepped t (d i : Z) : timer_t F U :=
  Timer (if stopped t d i then <[CONTROL d i := TIMER_CR_INTERRUPT_MASK]> (tregs t) else tregs t)
    (timer_instance t) (time_irq t) (<[d := ack i (intr_stat t d)]> (intr_stat t)).

Lemma stepped_stat t d i k :
  0 ≤ k → Z.testbit (intr_stat (stepped t d i) d) k =
    Z.testbit (intr_stat t d) k && negb (bool_decide (k = i)).
Proof. intros. cbn [stepped intr_stat]. rewrite fn_lookup_insert. by apply ack_testbit. Qed.
Lemma stepped_other t d i other :
  other ≠ d → intr_stat (stepped t d i) other = intr_stat t other.
Proof. intros. cbn [stepped intr_stat]. by rewrite fn_lookup_insert_ne. Qed.
Lemma stepped_later t d i j :
  0 ≤ j → j ≠ i → serve (stepped t d i) d j = serve t d j ∧ stopped (stepped t d i) d j = stopped t d j.
Proof.
  intros. unfold serve, stopped, has_callback. cbn [stepped timer_instance].
  by rewrite stepped_stat, bool_decide_eq_false_2, andb_true_r by done.
Qed.

(** One pass, with the status word read on entry still current for channel [i]:
    equal up to the extensionality of the status words. *)
Lemma handler_step_eq d i t t0 w stat :
  Z.testbit stat 0 = Z.testbit (intr_stat t d) i →
  tregs t0 = tregs t → timer_instance t0 = timer_instance t → time_irq t0 = time_irq t →
  (∀ e, intr_stat t0 e = intr_stat t e) →
  ∃ t1, handler_step eoi_channel call d i (t0, w, stat) = (t1, serve t d i w, Z.shiftr stat 1) ∧
    tregs t1 = tregs (stepped t d i) ∧ timer_instance t1 = timer_instance t ∧
    time_irq t1 = time_irq t ∧ ∀ e, intr_stat t1 e = intr_stat (stepped t d i) e.
Proof.
  intros Hs Hr Hi Ht He. unfold handler_step, stepped, stopped, serve, has_callback, ack.
  rewrite Hi, <-Hs. cbn [tregs intr_stat].
  destruct (Z.testbit stat 0) eqn:Eb.
  - destruct (tcallback (timer_instance t (d, i))) as [f|]; cbn [call];
      (eexists; split; [reflexivity|]).
    + rewrite bool_decide_eq_true_2 by (by eexists). rewrite Hi. cbn [andb].
      destruct (single_shot _); cbn; rewrite ?Hr, ?He; split_and!; try done;
        intros e; unfold insert, fn_insert; by case_decide.
    + rewrite bool_decide_eq_false_2 by (by intros []). cbn. rewrite Hr, He.
      split_and!; try done. intros e. unfold insert, fn_insert. by case_decide.
  - exists t0. split; [done|]. split_and!; try done. intros e. rewrite He.
    unfold insert, fn_insert. by case_decide; subst.
Qed.

(** C6: the shared line is served channel by channel.  When the pointer the PLIC
    gives leads to an entry of device [d], the handler runs, in order, the
    callback of each pending channel of the pair, stops the single-shot ones,
    acknowledges exactly the pending channels of the pair and leaves the other
    pair's interrupts, the other devices and the table alone. *)
Theorem timer_interrupt_handler_dispatch pd pch t w d ch :
  device (timer_instance t (pd, pch)) = d → channel (timer_instance t (pd, pch)) = ch →
  0 ≤ ch < TIMER_CHANNEL_MAX →
  let lo := 2 * (ch / 2) in
  ∃ t', timer_interrupt_handler eoi_channel call (timer_instance_ptr pd pch) t w =
      Ok (t', serve t d (lo + 1) (serve t d lo w)) ∧
    (∀ k, 0 ≤ k → Z.testbit (intr_stat t' d) k =
      Z.testbit (intr_stat t d) k && negb (bool_decide (k = lo ∨ k = lo + 1))) ∧
    (∀ other, other ≠ d → intr_stat t' other = intr_stat t other) ∧
    timer_instance t' = timer_instance t ∧
    ∀ r, tregs t' r = if bool_decide (r = CONTROL d lo ∧ stopped t d lo = true ∨
                                      r = CONTROL d (lo + 1) ∧ stopped t d (lo + 1) = true)
                      then TIMER_CR_INTERRUPT_MASK else tregs t r.
Proof.
  intros Hd Hc Hch. cbv zeta. unfold timer_interrupt_handler. rewrite Hd, Hc.
  rewrite Z.shiftl_mul_pow2, Z.shiftr_div_pow2 by lia. change (2 ^ 1) with 2.
  rewrite (Z.mul_comm (ch / 2) 2). set (lo := 2 * (ch / 2)).
  assert (0 ≤ lo) by (unfold lo; pose proof (Z.div_pos ch 2); lia).
  set (stat := Z.shiftr (intr_stat t d) lo).
  destruct (handler_step_eq d lo t t w stat) as (t1 & -> & Hr1 & Hi1 & Hq1 & Hs1);
    [unfold stat; by rewrite Z.shiftr_spec by lia|done..|].
  destruct (stepped_later t d lo (lo + 1)) as [Hserve Hstop]; [lia..|].
  destruct (handler_step_eq d (lo + 1) (stepped t d lo) t1 (serve t d lo w) (Z.shiftr stat 1))
    as (t2 & -> & Hr2 & Hi2 & _ & Hs2); [|done..|].
  { rewrite stepped_stat, bool_decide_eq_false_2, andb_true_r by lia.
    unfold stat. rewrite !Z.shiftr_spec by lia. f_equal. lia. }
  rewrite Hserve. exists t2. split; [done|]. split_and!.
  - intros k Hk. rewrite Hs2, !stepped_stat by done. rewrite <-andb_assoc, <-negb_orb. do 2 f_equal.
    repeat case_bool_decide; try done; exfalso; lia.
  - intros other Ho. by rewrite Hs2, !stepped_other.
  - by rewrite Hi2.
  - intros r. rewrite Hr2. cbn [stepped tregs]. rewrite Hstop.
    destruct (stopped t d lo), (stopped t d (lo + 1));
      unfold insert, fn_insert; repeat case_decide; case_bool_decide; naive_solver.
Qed.

(** A stale pointer.  [timer_irq_unregister] clears an entry but can leave its
    line registered with a pointer to it (when the sibling and the other line
    are in use).  The handler then believes it serves channels 0 and 1 of
    device 0: it runs nothing of device [d], and acknowledges none of its
    interrupts, however many are pending. *)
Theorem timer_stale_pointer {P} `{IrqController P timer_fn timer_ptr} d ch t (p : P) w :
  timer_ok d ch → d ≠ 0 →
  irq_handler p (timer_line d ch) = Some (timer_interrupt_handler_fn, Some (timer_instance_ptr d ch)) →
  has_callback t d (sibling ch) = true → has_callback t d (fst (other_pair ch)) = true →
  let '(_, t', p') := timer_irq_unregister d ch t p in
  irq_handler p' (timer_line d ch) = Some (timer_interrupt_handler_fn, Some (timer_instance_ptr d ch)) ∧
  has_callback t' d (sibling ch) = true ∧
  ∃ t'', timer_interrupt_handler eoi_channel call (timer_instance_ptr d ch) t' w =
      Ok (t'', serve t' 0 1 (serve t' 0 0 w)) ∧
    intr_stat t'' d = intr_stat t d.
Proof.
  intros Hok Hd Hline Hsib Hoth. rewrite unregister_eq by done. rewrite Hsib, Hoth. cbn [negb orb].
  split; [done|]. set (t' := set_tinstance d ch timer_no_instance t).
  assert (timer_instance t' (d, ch) = timer_no_instance) as Hcl
    by (unfold t'; by rewrite set_tinstance_lookup, decide_True).
  split.
  { unfold t'. rewrite has_callback_set, decide_False; [done|].
    unfold sibling. intros Heq. apply (f_equal (λ x, Z.testbit x 0)) in Heq.
    rewrite Z.lxor_spec in Heq. by destruct (Z.testbit ch 0). }
  unfold timer_interrupt_handler. rewrite Hcl. cbn [device channel timer_no_instance].
  change (Z.shiftl (Z.shiftr 0 1) 1) with 0. set (stat := Z.shiftr (intr_stat t' 0) 0).
  destruct (handler_step_eq 0 0 t' t' w stat) as (t1 & -> & Hr1 & Hi1 & Hq1 & Hs1);
    [unfold stat; by rewrite Z.shiftr_spec by lia|done..|].
  destruct (stepped_later t' 0 0 1) as [Hserve _]; [lia..|].
  destruct (handler_step_eq 0 1 (stepped t' 0 0) t1 (serve t' 0 0 w) (Z.shiftr stat 1))
    as (t2 & E2 & _ & _ & _ & Hs2); [|done..|].
  { rewrite stepped_stat, bool_decide_eq_false_2, andb_true_r by lia.
    unfold stat. by rewrite !Z.shiftr_spec by lia. }
  change (0 + 1) with 1. rewrite E2, Hserve. exists t2. split; [done|].
  by rewrite Hs2, !stepped_other.
Qed.

(** The deprecated handler serves the lowest pending channel and acknowledges
    them all: an interrupt of a higher channel that is pending at the same time
    is lost. *)
Lemma timer_isr_loses_interrupts d t w f g i j :
  0 ≤ d < TIMER_DEVICE_MAX → (i, j) ∈ [(0, 1); (2, 3)] →
  intr_stat t d = Z.lor (Z.shiftl 1 i) (Z.shiftl 1 j) →
  time_irq t (d, i) = Some f → time_irq t (d, j) = Some g →
  ∃ t', timer_isr eoi_all call (timer_base_ptr d) t w = Ok (t', run f None w) ∧
    intr_stat t' d = 0.
Proof.
  intros Hd Hij Hs Hi Hj. unfold timer_isr.
  rewrite (proj2 (Z.leb_le 0 d)), (proj2 (Z.ltb_lt d TIMER_DEVICE_MAX)) by lia. cbn [andb].
  rewrite Hs. unfold TIMER_DEVICE_MAX in Hd.
  assert (isr_scan call 4 d 0 (Z.lor (Z.shiftl 1 i) (Z.shiftl 1 j)) t w = (t, run f None w)) as ->.
  { apply elem_of_cons in Hij as [[= -> ->]|[[= -> ->]| []%elem_of_nil]%elem_of_cons];
      simpl; try change (0 + 1 + 1) with 2; by rewrite Hi. }
  eexists. split; [reflexivity|]. unfold timer_clear_interrupt, set_stat. cbn [intr_stat].
  by rewrite fn_lookup_insert.
Qed.
End dispatch.

(** Channel acknowledgement clears one bit of the status word. *)
Definition eoi_demo (ch stat : Z) : Z := if 0 <=? ch then Z.ldiff stat (Z.shiftl 1 ch) else stat.
Lemma eoi_demo_spec ch stat k :
  0 ≤ k → Z.testbit (eoi_demo ch stat) k = Z.testbit stat k && negb (bool_decide (k = ch)).
Proof.
  intros. unfold eoi_demo. destruct (Z.leb_spec 0 ch).
  - rewrite Z.ldiff_spec, shiftl_1_testbit by lia. do 2 f_equal. apply bool_decide_ext. lia.
  - by rewrite bool_decide_eq_false_2, andb_true_r by lia.
Qed.

(** Both channels of line 16 pending: both callbacks run, in order. *)
Definition run_demo (f : bool) (_ : option unit) (w : list bool) : list bool := w ++ [f].
Definition pending_both : timer_t bool unit := set_stat 1 3 (fst two_channels).
Lemma timer_interrupt_handler_dispatch_witness :
  ∃ t', timer_interrupt_handler eoi_demo (λ f x '(t, w), (t, run_demo f x w))
          (timer_instance_ptr 1 1) pending_both [] = Ok (t', [true; false]) ∧
    Z.testbit (intr_stat t' 1) 0 = false.
Proof.
  destruct (timer_interrupt_handler_dispatch eoi_demo eoi_demo_spec run_demo 1 1 pending_both [] 1 1)
    as (t' & Hrun & Hs & _); [reflexivity|reflexivity|unfold TIMER_CHANNEL_MAX; lia|].
  exists t'. split; [exact Hrun|]. rewrite Hs by lia. reflexivity.
Defined.

(** Device 1 with channels 0, 1 and 2 registered, then channel 1 unregistered. *)
Definition three_channels : timer_t bool unit * plic_t timer_fn timer_ptr :=
  let '(t, p) := two_channels in
  let '(_, t, p) := timer_irq_register (H:=plic_controller 0) 1 2 false 1 (Some true) None t p in
  (set_stat 1 1 t, p).
Lemma timer_stale_pointer_witness :
  let '(_, t', p') :=
    timer_irq_unregister (H:=plic_controller 0) 1 1 (fst three_channels) (snd three_channels) in
  has_callback t' 1 0 = true ∧
  ∃ t'' w', timer_interrupt_handler eoi_demo (λ f x '(t, w), (t, run_demo f x w))
      (timer_instance_ptr 1 1) t' [] = Ok (t'', w') ∧ intr_stat t'' 1 = 1.
Proof.
  pose proof (timer_stale_pointer (H:=plic_controller 0) eoi_demo eoi_demo_spec run_demo 1 1
    (fst three_channels) (snd three_channels) []
    ltac:(unfold timer_ok, TIMER_DEVICE_MAX, TIMER_CHANNEL_MAX; lia) ltac:(lia)
    ltac:(vm_compute; reflexivity) ltac:(vm_compute; reflexivity) ltac:(vm_compute; reflexivity)) as Hs.
  destruct (timer_irq_unregister _ _ _ _) as [[r t'] p'].
  destruct Hs as (_ & Hsib & t'' & Hrun & Hst). split; [exact Hsib|]. exists t''. eexists.
  split; [exact Hrun|]. rewrite Hst. reflexivity.
Defined.
