(* ===== verification/FbAlloc.v ===== *)
(** * Frame-buffer stack allocator (libraries/imlib/src/fb_alloc.c)

    A pool used as a stack that grows down.  Each block starts with a word that
    holds its length in bytes, header included; a length of 4 is a mark, and bit 1
    of the word flags the block as permanent.  Addresses are byte offsets from
    [_fballoc_start_boundary]; [mem] is the pool, word by word.  The overlay
    memory and the statistics are compiled out in this repository. *)

From S2P Require Import Prelude.

Definition FB_PERMANENT_FLAG : Z := 0x2.
Definition FB_ALLOC_CACHE_ALIGN : Z := 4.
Definition OMV_ALLOC_ALIGNMENT : Z := 64.
(** [sizeof(uint32_t)] *)
Definition word : Z := 4.

Record fb_t := Fb {
  base : Z;            (** the address of [_fballoc_start_boundary] *)
  pool : Z;            (** [_fballoc_end_boundary - _fballoc_start_boundary] *)
  pointer : Z;
  mem : Z → Z
}.
Definition fb_move (p : Z) (s : fb_t) : fb_t := Fb s.(base) s.(pool) p s.(mem).

(** An access outside the pool is undefined. *)
Definition fb_load (p : Z) (s : fb_t) : res Z :=
  if (0 <=? p) && (p + word <=? s.(pool)) then Ok (s.(mem) p) else Fault FUB.
Definition fb_store (p v : Z) (s : fb_t) : res fb_t :=
  if (0 <=? p) && (p + word <=? s.(pool))
  then Ok (Fb s.(base) s.(pool) s.(pointer) (<[p := v]> s.(mem))) else Fault FUB.

(** ** Operations *)

(** [rt_malloc_align] gives the address, or none. *)
Definition fb_alloc_init0 (malloc : option Z) (size : Z) : res fb_t :=
  match malloc with
  | None => Fault FAssert
  | Some b => Ok (Fb b size size (λ _, 0))
  end.

(** The pointer difference is truncated to 32 bits before it is compared. *)
Definition fb_avail (s : fb_t) : Z :=
  let temp := u32 (s.(pointer) - word) in if temp <? word then 0 else temp.

Definition fb_alloc_mark (s : fb_t) : res fb_t :=
  let new_pointer := s.(pointer) - word in
  if new_pointer <? 0 then Fault FAssert else
  s ← fb_store new_pointer word s; Ok (fb_move new_pointer s).

Fixpoint int_fb_alloc_free_till_mark (fuel : nat) (free_permanent : bool) (s : fb_t) : res fb_t :=
  if s.(pointer) <? s.(pool) then
    match fuel with
    | O => Fault FFuel
    | S fuel =>
        size ← fb_load s.(pointer) s;
        if negb free_permanent && negb (Z.land size FB_PERMANENT_FLAG =? 0) then Ok s else
        let size := Z.ldiff size FB_PERMANENT_FLAG in
        let s := fb_move (s.(pointer) + size) s in
        if size =? word then Ok s else int_fb_alloc_free_till_mark fuel free_permanent s
    end
  else Ok s.
(** Enough passes for any pool: a block takes at least one word. *)
Definition pool_fuel (s : fb_t) : nat := Z.to_nat (s.(pool) / word).
Definition fb_alloc_free_till_mark (s : fb_t) := int_fb_alloc_free_till_mark (pool_fuel s) false s.
Definition fb_alloc_free_till_mark_past_mark_permanent (s : fb_t) :=
  int_fb_alloc_free_till_mark (pool_fuel s) true s.

Definition fb_alloc_mark_permanent (s : fb_t) : res fb_t :=
  if s.(pointer) <? s.(pool) then
    size ← fb_load s.(pointer) s;
    fb_store s.(pointer) (Z.lor size FB_PERMANENT_FLAG) s
  else Ok s.

Definition cache_align (hints : Z) : bool := negb (Z.land hints FB_ALLOC_CACHE_ALIGN =? 0).
(** [OMV_ALIGN_TO(x, alignment)] *)
Definition OMV_ALIGN_TO (x alignment : Z) : Z := Z.ldiff (x + alignment - 1) (alignment - 1).
(** The length of a block, a 32-bit value after each assignment. *)
Definition fb_round (size hints : Z) : Z :=
  let size := u32 ((size + word - 1) / word * word) in
  if cache_align hints then
    u32 (u32 (OMV_ALIGN_TO size OMV_ALLOC_ALIGNMENT) + (OMV_ALLOC_ALIGNMENT - word))
  else size.
Definition fb_align_up (base result : Z) : Z :=
  let offset := u32 (base + result) mod OMV_ALLOC_ALIGNMENT in
  if offset =? 0 then 0 else OMV_ALLOC_ALIGNMENT - offset.

Definition fb_alloc (size hints : Z) (s : fb_t) : res (option Z * fb_t) :=
  if size =? 0 then Ok (None, s) else
  let size := fb_round size hints in
  let result := s.(pointer) - size in
  let new_pointer := result - word in
  if new_pointer <? 0 then Fault FAssert else
  s ← fb_store new_pointer (u32 (size + word)) s;
  let s := fb_move new_pointer s in
  Ok (Some (if cache_align hints then result + fb_align_up s.(base) result else result), s).

(** [rt_memset(p, 0, n)] on the words it covers; the last one may be covered in
    part. *)
Definition fb_clear (p n : Z) (s : fb_t) : fb_t :=
  Fb s.(base) s.(pool) s.(pointer) (λ q,
    if (p <=? q) && (q <? p + n) then
      let bits := 8 * Z.min word (p + n - q) in Z.shiftl (Z.shiftr (s.(mem) q) bits) bits
    else s.(mem) q).
Definition fb_alloc0 (size hints : Z) (s : fb_t) : res (option Z * fb_t) :=
  '(p, s) ← fb_alloc size hints s;
  Ok (p, match p with Some q => fb_clear q size s | None => s end).

(** Returns the pointer and [*size]. *)
Definition fb_alloc_all (hints : Z) (s : fb_t) : res (option Z * Z * fb_t) :=
  let temp := u32 (s.(pointer) - word) in
  if temp <? word then Ok (None, 0, s) else
  let size := temp / word * word in
  let result := s.(pointer) - size in
  let new_pointer := result - word in
  s ← fb_store new_pointer (u32 (size + word)) s;
  let s := fb_move new_pointer s in
  if cache_align hints then
    let inc := fb_align_up s.(base) result in
    Ok (Some (result + inc), u32 (size - inc) / OMV_ALLOC_ALIGNMENT * OMV_ALLOC_ALIGNMENT, s)
  else Ok (Some result, size, s).
Definition fb_alloc0_all (hints : Z) (s : fb_t) : res (option Z * Z * fb_t) :=
  '(p, size, s) ← fb_alloc_all hints s;
  Ok (p, size, match p with Some q => fb_clear q size s | None => s end).

Definition fb_free (s : fb_t) : res fb_t :=
  if s.(pointer) <? s.(pool) then
    size ← fb_load s.(pointer) s;
    Ok (fb_move (s.(pointer) + Z.ldiff size FB_PERMANENT_FLAG) s)
  else Ok s.
Fixpoint fb_free_loop (fuel : nat) (s : fb_t) : res fb_t :=
  if s.(pointer) <? s.(pool) then
    match fuel with
    | O => Fault FFuel
    | S fuel =>
        size ← fb_load s.(pointer) s;
        fb_free_loop fuel (fb_move (s.(pointer) + Z.ldiff size FB_PERMANENT_FLAG) s)
    end
  else Ok s.
Definition fb_free_all (s : fb_t) : res fb_t := fb_free_loop (pool_fuel s) s.
Definition fb_alloc_sp (s : fb_t) : Z := s.(pointer).

(** ** Abstract specification: a stack of blocks *)
Record block := Blk { b_len : Z; b_perm : bool }.
Definition is_mark (b : block) : bool := b_len b =? word.
Definition b_word (b : block) : Z := Z.lor (b_len b) (if b_perm b then FB_PERMANENT_FLAG else 0).
Definition block_ok (b : block) : Prop := word ≤ b_len b < 2 ^ 32 ∧ b_len b mod word = 0.

(** What the two scoped releases do. *)
Fixpoint release (free_permanent : bool) (bs : list block) : list block :=
  match bs with
  | [] => []
  | b :: bs' =>
      if negb free_permanent && b_perm b then bs
      else if is_mark b then bs' else release free_permanent bs'
  end.

(** The pool from [p] to [e] holds the headers of [bs], newest first. *)
Fixpoint chain (m : Z → Z) (p : Z) (bs : list block) (e : Z) : Prop :=
  match bs with
  | [] => p = e
  | b :: bs => block_ok b ∧ m p = b_word b ∧ chain m (p + b_len b) bs e
  end.
Record fb_inv (s : fb_t) (bs : list block) : Prop := {
  inv_chain : chain (mem s) (pointer s) bs (pool s);
  inv_low : 0 ≤ pointer s;
  inv_pool : pool s < 2 ^ 32;
  inv_aligned : pool s mod word = 0;
  inv_base : base s mod word = 0
}.

(** ** Headers and chains *)
Lemma len_bit1 b : block_ok b → Z.testbit (b_len b) 1 = false.
Proof.
  intros [_ Hm]. unfold word in Hm.
  assert (Z.testbit (b_len b mod 2 ^ 2) 1 = false) as Hb by (change (2 ^ 2) with 4; by rewrite Hm).
  by rewrite Z.mod_pow2_bits_low in Hb by lia.
Qed.

Lemma perm_bit i : 0 ≤ i → Z.testbit FB_PERMANENT_FLAG i = bool_decide (i = 1).
Proof. intros. change FB_PERMANENT_FLAG with (2 ^ 1). rewrite Z.pow2_bits_eqb by lia.
  case_bool_decide; [by apply Z.eqb_eq|apply Z.eqb_neq; lia].
Qed.

Lemma b_word_len b : block_ok b → Z.ldiff (b_word b) FB_PERMANENT_FLAG = b_len b.
Proof.
  intros Hb. unfold b_word. apply Z.bits_inj'. intros i Hi.
  rewrite Z.ldiff_spec, Z.lor_spec, perm_bit by done.
  case_bool_decide as H1; [subst; by rewrite andb_false_r, len_bit1|].
  rewrite andb_true_r. destruct (b_perm b); [|by rewrite Z.bits_0, orb_false_r].
  by rewrite perm_bit, bool_decide_eq_false_2, orb_false_r by done.
Qed.

Lemma b_word_perm b :
  block_ok b → (Z.land (b_word b) FB_PERMANENT_FLAG =? 0) = negb (b_perm b).
Proof.
  intros Hb. unfold b_word. destruct (b_perm b); cbn [negb].
  - apply Z.eqb_neq. intros Hz. apply (f_equal (λ x, Z.testbit x 1)) in Hz.
    rewrite Z.land_spec, Z.lor_spec, !perm_bit, orb_true_r in Hz by done. discriminate.
  - apply Z.eqb_eq. apply Z.bits_inj'. intros i Hi.
    rewrite Z.lor_0_r, Z.land_spec, perm_bit, Z.bits_0 by done.
    case_bool_decide; [subst; by rewrite len_bit1|by rewrite andb_false_r].
Qed.

Lemma chain_le m p bs e : chain m p bs e → p + word * Z.of_nat (length bs) ≤ e.
Proof.
  revert p. induction bs as [|b bs IH]; intros p; cbn [chain length]; [intros ->; lia|].
  intros (([Hb _] & _) & _ & H%IH). unfold word in *. lia.
Qed.

Lemma chain_mod m p bs e : chain m p bs e → e mod word = 0 → p mod word = 0.
Proof.
  revert p. induction bs as [|b bs IH]; intros p; cbn [chain]; [by intros ->|].
  intros ((_ & Hm) & _ & H) He. specialize (IH _ H He). unfold word in *.
  rewrite Z.add_mod, Hm, Z.add_0_r, Z.mod_mod in IH by lia. done.
Qed.

(** A chain determines where it starts. *)
Definition chain_len (bs : list block) : Z := foldr (λ b n, b_len b + n) 0 bs.
Lemma chain_pointer m p bs e : chain m p bs e → p = e - chain_len bs.
Proof.
  unfold chain_len. revert p. induction bs as [|b bs IH]; intros p; cbn [chain foldr]; [lia|].
  intros (_ & _ & H%IH). lia.
Qed.

(** A store below the chain does not disturb it. *)
Lemma chain_frame m p bs e q v : q < p → chain m p bs e → chain (<[q := v]> m) p bs e.
Proof.
  revert p. induction bs as [|b bs IH]; intros p Hq; cbn [chain]; [done|].
  intros (Hb & Hm & H). split; [done|].
  split; [rewrite fn_lookup_insert_ne by lia; done|].
  apply IH; [|done]. destruct Hb as [[Hb _] _]. unfold word in Hb. lia.
Qed.

(** Reading the header of the newest block. *)
Lemma fb_load_top s b bs :
  fb_inv s (b :: bs) →
  (pointer s <? pool s) = true ∧ fb_load (pointer s) s = Ok (b_word b) ∧ block_ok b ∧
  fb_inv (fb_move (pointer s + b_len b) s) bs.
Proof.
  intros [(Hb & Hm & Hc) Hl Hp Ha Hba]. pose proof (chain_le _ _ _ _ Hc).
  destruct Hb as [[Hb ?] ?]. unfold word in *.
  split; [apply Z.ltb_lt; lia|]. split.
  - unfold fb_load, word. rewrite (proj2 (Z.leb_le _ _)), (proj2 (Z.leb_le _ _)) by lia.
    by rewrite Hm.
  - split; [done|]. split; [exact Hc|cbn; lia|exact Hp|exact Ha|exact Hba].
Qed.

Lemma fb_inv_nil s : fb_inv s [] → (pointer s <? pool s) = false.
Proof. intros [Hc _ _ _ _]. cbn in Hc. apply Z.ltb_ge. lia. Qed.

Lemma fb_inv_fuel s bs : fb_inv s bs → (length bs ≤ pool_fuel s)%nat.
Proof.
  intros [Hc Hl _ _ _]. apply chain_le in Hc. unfold pool_fuel, word in *.
  apply Nat2Z.inj_le. rewrite Z2Nat.id by (apply Z.div_pos; lia).
  apply Z.div_le_lower_bound; lia.
Qed.

(** The release loop implements [release] in as many passes as there are
    blocks. *)
Lemma free_till_mark_run fuel fp s bs :
  fb_inv s bs → (length bs ≤ fuel)%nat →
  ∃ s', int_fb_alloc_free_till_mark fuel fp s = Ok s' ∧ fb_inv s' (release fp bs) ∧
    mem s' = mem s ∧ pool s' = pool s ∧ base s' = base s.
Proof.
  revert s bs. induction fuel as [|fuel IH]; intros s [|b bs] Hinv Hf; cbn [int_fb_alloc_free_till_mark].
  - rewrite fb_inv_nil by done. by exists s.
  - cbn in Hf. lia.
  - rewrite fb_inv_nil by done. by exists s.
  - destruct (fb_load_top _ _ _ Hinv) as (-> & -> & Hb & Hinv'). cbn [mbind res_bind release].
    rewrite b_word_perm, b_word_len, negb_involutive by done.
    destruct (negb fp && b_perm b); [by exists s|]. unfold is_mark.
    destruct (b_len b =? word); [by exists (fb_move (pointer s + b_len b) s)|].
    destruct (IH _ _ Hinv' ltac:(cbn in Hf; lia)) as (s' & Hs' & Hi & Hm & Hp & Hba).
    exists s'. auto.
Qed.

(** ** Sizes *)
Lemma align_to_64 x : OMV_ALIGN_TO x OMV_ALLOC_ALIGNMENT = (x + 63) / 64 * 64.
Proof.
  unfold OMV_ALIGN_TO, OMV_ALLOC_ALIGNMENT. change (64 - 1) with (Z.ones 6).
  rewrite Z.ldiff_ones_r, Z.shiftl_mul_pow2, Z.shiftr_div_pow2 by lia.
  change (2 ^ 6) with 64. f_equal. f_equal. unfold Z.ones. simpl. lia.
Qed.

Lemma round_up x n : 0 < n → let y := (x + n - 1) / n * n in x ≤ y < x + n ∧ y mod n = 0.
Proof.
  intros Hn. cbv zeta. pose proof (Z.div_mod (x + n - 1) n ltac:(lia)).
  pose proof (Z.mod_pos_bound (x + n - 1) n Hn). split; [lia|]. apply Z.mod_mul. lia.
Qed.

(** A request that does not overflow is rounded up to whole words; with the cache
    hint there are 60 bytes to spare for the alignment of the result. *)
Lemma fb_round_spec size hints :
  0 < size ≤ 2 ^ 31 →
  size + (if cache_align hints then 60 else 0) ≤ fb_round size hints < size + 127 ∧
  fb_round size hints mod word = 0.
Proof.
  intros Hs. unfold fb_round. pose proof (round_up size 4 ltac:(lia)) as [H4 M4].
  replace (size + word - 1) with (size + 4 - 1) by (unfold word; lia).
  change word with 4 in *. set (y := (size + 4 - 1) / 4 * 4) in *.
  rewrite (wrap_id 32 y) by lia. destruct (cache_align hints); [|lia].
  rewrite align_to_64. pose proof (round_up y 64 ltac:(lia)) as [H64 M64].
  replace (y + 63) with (y + 64 - 1) by lia. set (z := (y + 64 - 1) / 64 * 64) in *.
  change (OMV_ALLOC_ALIGNMENT - 4) with 60. rewrite (wrap_id 32 z), wrap_id by lia.
  split; [lia|]. rewrite Z.add_mod by lia.
  replace (z mod 4) with 0; [done|].
  replace z with ((y + 64 - 1) / 64 * 16 * 4) by lia. symmetry. apply Z.mod_mul. lia.
Qed.

Lemma fb_align_up_spec b r :
  b mod word = 0 → r mod word = 0 →
  0 ≤ fb_align_up b r ≤ 60 ∧ (b + (r + fb_align_up b r)) mod OMV_ALLOC_ALIGNMENT = 0.
Proof.
  intros Hb Hr. unfold fb_align_up, word, OMV_ALLOC_ALIGNMENT in *.
  assert (u32 (b + r) mod 64 = (b + r) mod 64) as ->.
  { unfold wrap. change (2 ^ 32) with (64 * 67108864).
    rewrite Z.rem_mul_r by lia. rewrite Z.mul_comm, Z.mod_add, Z.mod_mod by lia. done. }
  set (o := (b + r) mod 64). pose proof (Z.mod_pos_bound (b + r) 64 ltac:(lia)). fold o in H.
  assert (o mod 4 = 0).
  { pose proof (Z.div_mod b 4 ltac:(lia)). pose proof (Z.div_mod r 4 ltac:(lia)).
    pose proof (Z.div_mod (b + r) 64 ltac:(lia)).
    replace o with ((b / 4 + r / 4 - 16 * ((b + r) / 64)) * 4) by lia. apply Z.mod_mul. lia. }
  pose proof (Z.div_mod o 4 ltac:(lia)).
  destruct (Z.eqb_spec o 0) as [Ho|]; split; try lia.
  - rewrite Z.add_0_r. exact Ho.
  - replace (b + (r + (64 - o))) with ((b + r) + (64 - o)) by lia.
    pose proof (Z.div_mod (b + r) 64 ltac:(lia)) as Hd. fold o in Hd. rewrite Hd.
    replace (64 * ((b + r) / 64) + o + (64 - o)) with (((b + r) / 64 + 1) * 64) by lia.
    apply Z.mod_mul. lia.
Qed.

(** Pushing a header. *)
Lemma fb_push s bs len :
  fb_inv s bs → word ≤ len → len mod word = 0 → 0 ≤ pointer s - len →
  ∃ s', fb_store (pointer s - len) len s = Ok s' ∧ base s' = base s ∧ pool s' = pool s ∧
    pointer s' = pointer s ∧
    (∀ q, pointer s ≤ q → mem s' q = mem s q) ∧
    fb_inv (fb_move (pointer s - len) s') (Blk len false :: bs).
Proof.
  intros [Hc Hl Hp Ha Hb] Hlen Hm Hnew. pose proof (chain_le _ _ _ _ Hc). unfold word in *.
  unfold fb_store, word. rewrite (proj2 (Z.leb_le _ _)), (proj2 (Z.leb_le _ _)) by lia.
  eexists. split; [reflexivity|]. cbn [base pool pointer mem].
  split; [done|]. split; [done|]. split; [done|].
  split; [intros q Hq; rewrite fn_lookup_insert_ne by lia; done|].
  split; cbn [fb_move base pool pointer mem chain b_len b_perm].
  - split; [split; cbn; unfold word; lia|].
    split; [rewrite fn_lookup_insert; unfold b_word; cbn; by rewrite Z.lor_0_r|].
    replace (pointer s - len + len) with (pointer s) by lia.
    apply chain_frame; [lia|done].
  - lia.
  - done.
  - done.
  - done.
Qed.

(** ** Refinement *)
Lemma fb_alloc_run s bs size hints :
  fb_inv s bs → 0 < size ≤ 2 ^ 31 →
  let len := fb_round size hints + word in
  if pointer s - len <? 0 then fb_alloc size hints s = Fault FAssert
  else ∃ r s', fb_alloc size hints s = Ok (Some r, s') ∧ fb_inv s' (Blk len false :: bs) ∧
    pool s' = pool s ∧ base s' = base s ∧ pointer s' = pointer s - len ∧
    pointer s' + word ≤ r ∧ r + size ≤ pointer s ∧
    (cache_align hints = true → (base s + r) mod OMV_ALLOC_ALIGNMENT = 0) ∧
    ∀ q, pointer s ≤ q → mem s' q = mem s q.
Proof.
  intros Hinv Hs. cbv zeta. pose proof (fb_round_spec size hints Hs) as [Hr Hm].
  unfold fb_alloc. rewrite (proj2 (Z.eqb_neq _ _)) by lia. cbv zeta.
  replace (pointer s - fb_round size hints - word) with (pointer s - (fb_round size hints + word))
    by lia.
  set (n := fb_round size hints) in *. destruct (Z.ltb_spec (pointer s - (n + word)) 0) as [|Hfit]; [done|].
  rewrite (wrap_id 32 (n + word)) by (unfold word in *; destruct (cache_align hints); lia).
  assert ((n + word) mod word = 0) as Hmod
    by (unfold word in *; rewrite Z.add_mod, Hm by lia; done).
  destruct (fb_push s bs (n + word)) as (s1 & -> & Hb1 & Hp1 & Hq1 & Hmem & Hinv1);
    [done|unfold word in *; destruct (cache_align hints); lia|done|lia|].
  cbn [mbind res_bind]. eexists _, _. split; [reflexivity|]. split; [exact Hinv1|].
  cbn [fb_move pool base pointer mem]. rewrite Hb1.
  split; [done|]. split; [done|]. split; [done|].
  destruct Hinv as [Hc _ _ Ha Hbase].
  assert ((pointer s - n) mod word = 0) as Hpm.
  { apply chain_mod in Hc; [|done]. unfold word in *. by rewrite Zminus_mod, Hc, Hm. }
  pose proof (fb_align_up_spec (base s) (pointer s - n) Hbase Hpm) as [Hup Hal].
  destruct (cache_align hints); split_and!; try done; try lia.
Qed.

(** C7: [fb_alloc] refines the block stack.  When the request (rounded to words, and
    with room for the alignment when asked) does not fit, the call stops in
    [fb_alloc_fail]; otherwise it pushes one block, the region returned lies
    inside it, above its header and below everything allocated before, is
    64-byte aligned when the hint asks for it, and nothing allocated before is
    written. *)
Theorem fb_alloc_spec s bs size hints :
  fb_inv s bs → 0 < size ≤ 2 ^ 31 →
  let len := fb_round size hints + word in
  size + word ≤ len ∧
  if pointer s <? len then fb_alloc size hints s = Fault FAssert
  else ∃ r s', fb_alloc size hints s = Ok (Some r, s') ∧ fb_inv s' (Blk len false :: bs) ∧
    pointer s' + word ≤ r ∧ r + size ≤ pointer s ∧
    (cache_align hints = true → (base s + r) mod OMV_ALLOC_ALIGNMENT = 0) ∧
    ∀ q, pointer s ≤ q → mem s' q = mem s q.
Proof.
  intros Hinv Hs. cbv zeta. pose proof (fb_round_spec size hints Hs) as [Hr _].
  split; [destruct (cache_align hints); lia|].
  pose proof (fb_alloc_run s bs size hints Hinv Hs) as H. cbv zeta in H.
  destruct (Z.ltb_spec (pointer s - (fb_round size hints + word)) 0),
    (Z.ltb_spec (pointer s) (fb_round size hints + word)); try lia; [done|].
  destruct H as (r & s' & Hrun & Hi & _ & _ & _ & Hlo & Hhi & Hal & Hmem).
  exists r, s'. auto 10.
Qed.

(** The release operations refine [release]: they terminate within the pool's
    fuel, pop through the first mark (or everything), stop at a permanent block
    unless told otherwise, and write no memory. *)
Theorem fb_free_till_mark_spec s bs :
  fb_inv s bs →
  (∃ s', fb_alloc_free_till_mark s = Ok s' ∧ fb_inv s' (release false bs) ∧ mem s' = mem s) ∧
  (∃ s', fb_alloc_free_till_mark_past_mark_permanent s = Ok s' ∧ fb_inv s' (release true bs) ∧
    mem s' = mem s).
Proof.
  intros Hinv. pose proof (fb_inv_fuel _ _ Hinv) as Hf.
  destruct (free_till_mark_run _ false s bs Hinv Hf) as (s1 & ? & ? & ? & _).
  destruct (free_till_mark_run _ true s bs Hinv Hf) as (s2 & ? & ? & ? & _). eauto 10.
Qed.

(** ** Scopes: mark, allocate, release *)
Fixpoint run_allocs (reqs : list (Z * Z)) (s : fb_t) : res fb_t :=
  match reqs with
  | [] => Ok s
  | (size, hints) :: reqs => '(_, s) ← fb_alloc size hints s; run_allocs reqs s
  end.
Definition reqs_ok (reqs : list (Z * Z)) : Prop := Forall (λ '(size, _), 0 < size ≤ 2 ^ 31) reqs.

Lemma fb_mark_run s bs :
  fb_inv s bs →
  if pointer s <? word then fb_alloc_mark s = Fault FAssert
  else ∃ s', fb_alloc_mark s = Ok s' ∧ fb_inv s' (Blk word false :: bs) ∧
    pool s' = pool s ∧ base s' = base s ∧ ∀ q, pointer s ≤ q → mem s' q = mem s q.
Proof.
  intros Hinv. unfold fb_alloc_mark. cbv zeta.
  destruct (Z.ltb_spec (pointer s) word), (Z.ltb_spec (pointer s - word) 0); try lia; [done|].
  destruct (fb_push s bs word Hinv) as (s1 & -> & ? & ? & _ & ? & ?); [done|done|lia|].
  eexists. split; [reflexivity|]. auto.
Qed.

Lemma run_allocs_run reqs s bs s' :
  reqs_ok reqs → fb_inv s bs → run_allocs reqs s = Ok s' →
  ∃ new, fb_inv s' (new ++ bs) ∧ Forall (λ b, is_mark b = false ∧ b_perm b = false) new ∧
    pool s' = pool s ∧ base s' = base s ∧ ∀ q, pointer s ≤ q → mem s' q = mem s q.
Proof.
  intros Hreqs. revert s bs. induction Hreqs as [|[size hints] reqs Hs _ IH]; intros s bs Hinv H; simpl in H.
  - injection H as <-. exists []. auto.
  - apply res_bind_Ok in H as ([p s1] & Ha & H).
    pose proof (fb_alloc_run s bs size hints Hinv Hs) as Hrun. cbv zeta in Hrun.
    destruct (_ <? 0); [congruence|].
    destruct Hrun as (r & s2 & Ha' & Hi & Hp & Hb & Hq & Hr1 & Hr2 & _ & Hmem).
    rewrite Ha' in Ha. injection Ha as <- <-.
    destruct (IH _ _ Hi H) as (new & Hi' & Hnew & Hp' & Hb' & Hmem').
    exists (new ++ [Blk (fb_round size hints + word) false]). rewrite <-app_assoc.
    split; [done|]. split; [|split; [congruence|split; [congruence|]]].
    + apply Forall_app. split; [done|]. constructor; [|done]. split; [|done].
      unfold is_mark. cbn. apply Z.eqb_neq.
      pose proof (fb_round_spec size hints Hs) as [Hr _]. unfold word in *.
      destruct (cache_align hints); lia.
    + pose proof (fb_round_spec size hints Hs) as [Hr _]. unfold word in *.
      intros q Hq'. rewrite Hmem', Hmem by (destruct (cache_align hints); lia). done.
Qed.

Lemma release_scope fp new b bs :
  Forall (λ b, is_mark b = false ∧ b_perm b = false) new →
  is_mark b = true → b_perm b = false → release fp (new ++ b :: bs) = bs.
Proof.
  intros Hnew Hb Hp. induction Hnew as [|x new [Hx Hxp] _ IH]; cbn [release app].
  - by rewrite Hp, andb_false_r, Hb.
  - by rewrite Hxp, andb_false_r, Hx.
Qed.

Lemma fb_inv_pointer s s' bs : fb_inv s bs → fb_inv s' bs → pool s' = pool s → pointer s' = pointer s.
Proof.
  intros [Hc%chain_pointer _ _ _ _] [Hc'%chain_pointer _ _ _ _] Hp. congruence.
Qed.

(** A scope restores the stack.  Mark, then any sequence of allocations, then
    release to the mark: the release succeeds, the stack pointer is back where it
    was, and everything allocated before the mark is intact. *)
Theorem fb_scope_restores s bs s1 reqs s2 :
  fb_inv s bs → reqs_ok reqs →
  fb_alloc_mark s = Ok s1 → run_allocs reqs s1 = Ok s2 →
  ∃ s3, fb_alloc_free_till_mark s2 = Ok s3 ∧ pointer s3 = pointer s ∧ fb_inv s3 bs ∧
    ∀ q, pointer s ≤ q → mem s3 q = mem s q.
Proof.
  intros Hinv Hreqs Hmark Hrun. pose proof (fb_mark_run s bs Hinv) as Hm.
  destruct (pointer s <? word); [congruence|].
  destruct Hm as (s1' & Hm' & Hi1 & Hp1 & _ & Hmem1). rewrite Hm' in Hmark. injection Hmark as ->.
  destruct (run_allocs_run _ _ _ _ Hreqs Hi1 Hrun) as (new & Hi2 & Hnew & Hp2 & _ & Hmem2).
  destruct (free_till_mark_run _ false s2 _ Hi2 (fb_inv_fuel _ _ Hi2)) as (s3 & Hs3 & Hi3 & Hm3 & Hp3 & _).
  rewrite release_scope in Hi3 by done. exists s3. split; [done|].
  split; [apply (fb_inv_pointer s s3 bs); congruence|]. split; [done|].
  intros q Hq. rewrite Hm3, Hmem2, Hmem1; [done|done|].
  destruct Hi1 as [Hc1%chain_pointer _ _ _ _], Hinv as [Hc%chain_pointer _ _ _ _].
  unfold chain_len in *. cbn in Hc1. unfold word in Hc1. lia.
Qed.

(** A 256-byte pool with a mark and two allocations, one of them aligned. *)
Definition fb_demo : fb_t := Fb 0x80000000 256 256 (λ _, 0).
Lemma fb_demo_inv : fb_inv fb_demo [].
Proof. by split. Qed.
Lemma fb_alloc_spec_witness :
  fb_inv fb_demo [] ∧ ∃ r s', fb_alloc 10 FB_ALLOC_CACHE_ALIGN fb_demo = Ok (Some r, s') ∧
    (0x80000000 + r) mod OMV_ALLOC_ALIGNMENT = 0 ∧ r + 10 ≤ 256.
Proof.
  split; [exact fb_demo_inv|].
  destruct (fb_alloc_spec fb_demo [] 10 FB_ALLOC_CACHE_ALIGN fb_demo_inv ltac:(lia)) as [_ H].
  change (pointer fb_demo <? fb_round 10 FB_ALLOC_CACHE_ALIGN + word) with false in H.
  destruct H as (r & s' & Hrun & _ & _ & Hr & Hal & _). exists r, s'.
  split; [exact Hrun|]. split; [by apply Hal|exact Hr].
Defined.
Lemma fb_free_till_mark_spec_witness :
  fb_inv fb_demo [] ∧ ∃ s', fb_alloc_free_till_mark fb_demo = Ok s' ∧ mem s' = mem fb_demo.
Proof.
  split; [exact fb_demo_inv|].
  destruct (fb_free_till_mark_spec fb_demo [] fb_demo_inv) as [(s' & H & _ & Hm) _]. eauto.
Defined.
Definition fb_demo_reqs : list (Z * Z) := [(10, 0); (20, FB_ALLOC_CACHE_ALIGN)].
Lemma fb_demo_runs : ∃ s1 s2, fb_alloc_mark fb_demo = Ok s1 ∧ run_allocs fb_demo_reqs s1 = Ok s2.
Proof. eexists _, _. split; [reflexivity|]. vm_compute. reflexivity. Qed.
Lemma fb_scope_restores_witness :
  ∃ s2 s3, fb_alloc_free_till_mark s2 = Ok s3 ∧ pointer s3 = 256.
Proof.
  destruct fb_demo_runs as (s1 & s2 & Hm & Hr).
  destruct (fb_scope_restores fb_demo [] s1 fb_demo_reqs s2 fb_demo_inv
    ltac:(repeat constructor; lia) Hm Hr) as (s3 & Hf & Hp & _).
  exists s2, s3. split; [exact Hf|exact Hp].
Defined.

(** The free-space test compares a 32-bit truncation.  With nothing left below
    the stack pointer, [fb_avail] reports 4294967292 bytes instead of none, and
    [fb_alloc_all] writes a block header outside the pool instead of returning
    the null pointer; with one or more words left, the answer is exact. *)
Theorem fb_avail_spec s bs hints :
  fb_inv s bs →
  if pointer s =? 0 then fb_avail s = 4294967292 ∧ fb_alloc_all hints s = Fault FUB
  else fb_avail s = pointer s - word ∧
    if pointer s =? word then fb_alloc_all hints s = Ok (None, 0, s)
    else ∃ r n s', fb_alloc_all hints s = Ok (Some r, n, s') ∧
      fb_inv s' (Blk (pointer s) false :: bs) ∧ pointer s' = 0 ∧ pool s' = pool s ∧
      (cache_align hints = false → n = pointer s - word).
Proof.
  intros Hinv. pose proof Hinv as [Hc Hl Hp Ha Hb].
  pose proof (chain_mod _ _ _ _ Hc Ha) as Hm. pose proof (chain_le _ _ _ _ Hc) as Hle.
  pose proof (Z.div_mod (pointer s) word ltac:(done)) as Hd. rewrite Hm in Hd.
  destruct (Z.eqb_spec (pointer s) 0) as [Hz|Hnz].
  { unfold fb_avail, fb_alloc_all. rewrite Hz. split; [reflexivity|].
    change (u32 (0 - word) <? word) with false. cbv iota zeta.
    unfold fb_store. rewrite (proj2 (Z.leb_gt _ _)) by (by vm_compute). done. }
  unfold fb_avail, fb_alloc_all. unfold word in Hd, Hm, Hle. cbv zeta.
  rewrite (wrap_id 32 (pointer s - word)) by (unfold word; lia).
  destruct (Z.eqb_spec (pointer s) word) as [He|Hne].
  { rewrite He. done. }
  unfold word in Hne. rewrite (proj2 (Z.ltb_ge _ _)) by (unfold word; lia). split; [done|].
  assert ((pointer s - word) / word * word = pointer s - word) as ->.
  { unfold word. replace (pointer s - 4) with ((pointer s / 4 - 1) * 4) by lia.
    rewrite Z.div_mul by lia. lia. }
  replace (pointer s - (pointer s - word) - word) with (pointer s - pointer s) by lia.
  replace (pointer s - word + word) with (pointer s) by lia.
  rewrite (wrap_id 32 (pointer s)) by lia.
  destruct (fb_push s bs (pointer s) Hinv) as (s1 & -> & _ & Hpool & _ & _ & Hi);
    [unfold word; lia|done|lia|]. cbn [mbind res_bind].
  destruct (cache_align hints); eexists _, _, _; (split; [reflexivity|]);
    (split; [exact Hi|]); split_and!; cbn; try done; lia.
Qed.
Lemma fb_avail_spec_witness :
  fb_inv (Fb 0 0 0 (λ _, 0)) [] ∧ fb_avail (Fb 0 0 0 (λ _, 0)) = 4294967292.
Proof. 
  assert (fb_inv (Fb 0 0 0 (λ _, 0)) []) as Hi by (by split).
  split; [exact Hi|]. exact (proj1 (fb_avail_spec _ _ 0 Hi)).
Defined.

(** A request of 4 GB minus 1 to 3 bytes wraps to an empty block, which the release
    loops take for a mark. *)
Lemma fb_alloc_wraps : fb_round 0xFFFFFFFD 0 = 0.
Proof. reflexivity. Qed.
