(* ===== verification/Collections.v ===== *)
(** * Data structures of imlib (libraries/imlib/src/collections.c)

    Bitmap, LIFO and FIFO ring; the linked list is in LinkedList.  Buffers are
    byte arrays ([Z → Z], by offset) filled by [memcpy].  [size_t] is 64 bits. *)

From S2P Require Import Prelude.

(** ** Bitmap *)
Definition CHAR_MASK : Z := 7.
Definition CHAR_SHIFT : Z := 3.
Record bitmap_t := Bitmap { bm_size : Z; bm_data : Z → Z }.
Definition bitmap_clear (b : bitmap_t) : bitmap_t :=
  Bitmap b.(bm_size) (mem_write b.(bm_data) 0
    (replicate (Z.to_nat (Z.shiftr (b.(bm_size) + CHAR_MASK) CHAR_SHIFT)) 0)).
Definition bitmap_bit_set (b : bitmap_t) (index : Z) : bitmap_t :=
  let i := Z.shiftr index CHAR_SHIFT in
  Bitmap b.(bm_size)
    (<[i := u8 (Z.lor (b.(bm_data) i) (Z.shiftl 1 (Z.land index CHAR_MASK)))]> b.(bm_data)).
Definition bitmap_bit_get (b : bitmap_t) (index : Z) : bool :=
  negb (Z.land (Z.shiftr (b.(bm_data) (Z.shiftr index CHAR_SHIFT)) (Z.land index CHAR_MASK)) 1 =? 0).

(** ** LIFO *)
Record lifo_t := Lifo { l_len : Z; l_size : Z; l_data_len : Z; l_data : Z → Z }.
(** [data] is the block that [fb_alloc] gives. *)
Definition lifo_alloc (data : Z → Z) (size data_len : Z) : lifo_t := Lifo 0 size data_len data.
Definition lifo_clear (l : lifo_t) : lifo_t := Lifo 0 l.(l_size) l.(l_data_len) l.(l_data).
Definition lifo_size (l : lifo_t) : Z := l.(l_len).
Definition lifo_is_not_empty (l : lifo_t) : bool := negb (l.(l_len) =? 0).
Definition lifo_is_not_full (l : lifo_t) : bool := negb (l.(l_len) =? l.(l_size)).
Definition lifo_poke (l : lifo_t) (d : list Z) : lifo_t :=
  Lifo l.(l_len) l.(l_size) l.(l_data_len) (mem_write l.(l_data) (l.(l_len) * l.(l_data_len)) d).
Definition lifo_enqueue (l : lifo_t) (d : list Z) : lifo_t :=
  let l := lifo_poke l d in Lifo (u64 (l.(l_len) + 1)) l.(l_size) l.(l_data_len) l.(l_data).
Definition lifo_peek (l : lifo_t) : list Z :=
  mem_read l.(l_data) (u64 (l.(l_len) - 1) * l.(l_data_len)) l.(l_data_len).
Definition lifo_dequeue (l : lifo_t) : list Z * lifo_t :=
  (lifo_peek l, Lifo (u64 (l.(l_len) - 1)) l.(l_size) l.(l_data_len) l.(l_data)).

(** ** FIFO *)
Record fifo_t := Fifo { q_head : Z; q_tail : Z; q_len : Z; q_size : Z; q_data_len : Z; q_data : Z → Z }.
Definition fifo_alloc (d : Z → Z) (size data_len : Z) : fifo_t := Fifo 0 0 0 size data_len d.
Definition fifo_clear (f : fifo_t) : fifo_t := Fifo 0 0 0 f.(q_size) f.(q_data_len) f.(q_data).
Definition fifo_size (f : fifo_t) : Z := f.(q_len).
Definition fifo_is_not_empty (f : fifo_t) : bool := negb (f.(q_len) =? 0).
Definition fifo_is_not_full (f : fifo_t) : bool := negb (f.(q_len) =? f.(q_size)).
Definition fifo_next (f : fifo_t) (i : Z) : Z := let temp := i + 1 in if temp =? f.(q_size) then 0 else temp.
Definition fifo_poke (f : fifo_t) (d : list Z) : fifo_t :=
  Fifo f.(q_head) f.(q_tail) f.(q_len) f.(q_size) f.(q_data_len)
    (mem_write f.(q_data) (f.(q_head) * f.(q_data_len)) d).
Definition fifo_enqueue (f : fifo_t) (d : list Z) : fifo_t :=
  let f := fifo_poke f d in
  Fifo (fifo_next f f.(q_head)) f.(q_tail) (u64 (f.(q_len) + 1)) f.(q_size) f.(q_data_len) f.(q_data).
Definition fifo_peek (f : fifo_t) : list Z :=
  mem_read f.(q_data) (f.(q_tail) * f.(q_data_len)) f.(q_data_len).
Definition fifo_dequeue (f : fifo_t) : list Z * fifo_t :=
  (fifo_peek f,
   Fifo f.(q_head) (fifo_next f f.(q_tail)) (u64 (f.(q_len) - 1)) f.(q_size) f.(q_data_len) f.(q_data)).

(** ** Bitmap: the bits *)

Lemma land_1_testbit x : negb (Z.land x 1 =? 0) = Z.testbit x 0.
Proof.
  pose proof (Z.land_ones x 1 ltac:(lia)) as H. change (Z.ones 1) with 1 in H.
  rewrite H, Z.bit0_odd. change (2 ^ 1) with 2. rewrite Zmod_odd. by destruct (Z.odd x).
Qed.

Lemma bitmap_bit_get_eq sz m k :
  0 ≤ k → bitmap_bit_get (Bitmap sz m) k = Z.testbit (m (k / 8)) (k mod 8).
Proof.
  intros Hk. unfold bitmap_bit_get. cbn [bm_data]. rewrite land_1_testbit.
  unfold CHAR_SHIFT, CHAR_MASK. rewrite (Z.shiftr_div_pow2 k) by lia. change (2 ^ 3) with 8.
  change 7 with (Z.ones 3). rewrite Z.land_ones, Z.shiftr_spec by lia. done.
Qed.

(** A bitmap is a set of indices: after [bitmap_bit_set] exactly that bit has
    been added, and [bitmap_clear] empties the whole map. *)
Theorem bitmap_spec b index j :
  0 ≤ index < bm_size b → 0 ≤ j < bm_size b → (∀ q, in_width 8 (bm_data b q)) →
  bitmap_bit_get (bitmap_bit_set b index) j = bool_decide (j = index) || bitmap_bit_get b j ∧
  bitmap_bit_get (bitmap_clear b) j = false ∧
  ∀ q, in_width 8 (bm_data (bitmap_bit_set b index) q).
Proof.
  intros Hi Hj Hw.
  assert (∀ m k, 0 ≤ k → bitmap_bit_get (Bitmap (bm_size b) m) k = Z.testbit (m (k / 8)) (k mod 8))
    as Hget by (intros; by apply bitmap_bit_get_eq).
  pose proof (Z.mod_pos_bound index 8 ltac:(lia)). pose proof (Z.mod_pos_bound j 8 ltac:(lia)).
  pose proof (Z.div_mod index 8 ltac:(lia)). pose proof (Z.div_mod j 8 ltac:(lia)).
  destruct b as [sz m]. cbn [bm_size bm_data] in *.
  assert (bitmap_bit_set (Bitmap sz m) index =
    Bitmap sz (<[index / 8 := u8 (set_bit_at (index mod 8) (m (index / 8)))]> m)) as Hset.
  { unfold bitmap_bit_set, set_bit_at, CHAR_SHIFT, CHAR_MASK. cbn [bm_size bm_data].
    rewrite Z.shiftr_div_pow2 by lia. change 7 with (Z.ones 3). by rewrite Z.land_ones by lia. }
  split; [|split].
  - rewrite Hset, !Hget by lia. unfold insert, fn_insert. case_decide as Hq.
    + rewrite wrap_testbit, bool_decide_eq_true_2 by lia. cbn [andb].
      rewrite set_bit_at_testbit by lia. rewrite <-Hq. f_equal. apply bool_decide_ext. lia.
    + rewrite bool_decide_eq_false_2; [done|]. intros ->. by apply Hq.
  - unfold bitmap_clear. cbn [bm_size bm_data]. rewrite Hget by lia.
    unfold mem_write. rewrite Z.sub_0_r, lookup_replicate_2; [|].
    + rewrite (proj2 (Z.leb_le 0 (j / 8))) by (apply Z.div_pos; lia). apply Z.bits_0.
    + unfold CHAR_MASK, CHAR_SHIFT. rewrite Z.shiftr_div_pow2 by lia. change (2 ^ 3) with 8.
      apply Z2Nat.inj_lt; [apply Z.div_pos; lia..|].
      pose proof (Z.div_mod (sz + 7) 8 ltac:(lia)). pose proof (Z.mod_pos_bound (sz + 7) 8 ltac:(lia)). lia.
  - rewrite Hset. intros q. cbn [bm_data]. unfold insert, fn_insert. case_decide; [|done].
    by apply wrap_range.
Qed.

Lemma bitmap_spec_witness :
  let b := Bitmap 20 (λ _, 0) in
  bitmap_bit_get (bitmap_bit_set b 13) 13 = true ∧ bitmap_bit_get (bitmap_bit_set b 13) 12 = false.
Proof.
  cbv zeta. split.
  - exact (proj1 (bitmap_spec (Bitmap 20 (λ _, 0)) 13 13 ltac:(cbn; lia) ltac:(cbn; lia)
      ltac:(cbn; intros; lia))).
  - exact (proj1 (bitmap_spec (Bitmap 20 (λ _, 0)) 13 12 ltac:(cbn; lia) ltac:(cbn; lia)
      ltac:(cbn; intros; lia))).
Defined.

(** ** Slots of a buffer of elements *)
Definition slot (m : Z → Z) (dl k : Z) : list Z := mem_read m (k * dl) dl.

Lemma slot_write m dl k j d :
  0 < dl → 0 ≤ k → 0 ≤ j → Z.of_nat (length d) = dl →
  slot (mem_write m (k * dl) d) dl j = if decide (j = k) then d else slot m dl j.
Proof.
  intros Hdl Hk Hj Hd. unfold slot. case_decide as Hjk.
  - subst. by rewrite mem_read_write.
  - apply mem_read_write_ne. rewrite Hd. assert (j + 1 ≤ k ∨ k + 1 ≤ j) as [?|?] by lia; nia.
Qed.

(** The elements of an abstract container have the declared length. *)
Definition elems_ok (dl : Z) (xs : list (list Z)) : Prop := Forall (λ x, Z.of_nat (length x) = dl) xs.

(** ** LIFO refines a stack (top last) *)
Record lifo_inv (l : lifo_t) (xs : list (list Z)) : Prop := {
  li_dl : 0 < l_data_len l;
  li_len : l_len l = Z.of_nat (length xs);
  li_size : l_len l ≤ l_size l < 2 ^ 63;
  li_elems : elems_ok (l_data_len l) xs;
  li_slots : ∀ i x, xs !! i = Some x → slot (l_data l) (l_data_len l) (Z.of_nat i) = x
}.

(** The LIFO is a stack.  A push on a stack that is not full adds the element on
    top, a pop of a non-empty stack returns the last element pushed and removes
    it, [peek] reads it without removing it, [poke] changes nothing that is
    stored, and the emptiness and fullness tests are exact. *)
Theorem lifo_refines l xs d :
  lifo_inv l xs → Z.of_nat (length d) = l_data_len l →
  lifo_is_not_empty l = negb (bool_decide (xs = [])) ∧
  lifo_is_not_full l = negb (bool_decide (Z.of_nat (length xs) = l_size l)) ∧
  (lifo_is_not_full l = true → lifo_inv (lifo_enqueue l d) (xs ++ [d]) ∧ lifo_inv (lifo_poke l d) xs) ∧
  ∀ ys x, xs = ys ++ [x] → lifo_peek l = x ∧
    fst (lifo_dequeue l) = x ∧ lifo_inv (snd (lifo_dequeue l)) ys.
Proof.
  intros [Hdl Hlen Hsz He Hsl] Hd. split; [|split; [|split]].
  - unfold lifo_is_not_empty. f_equal. rewrite Hlen. case_bool_decide as Hx.
    + by rewrite Hx.
    + destruct xs; [done|]. apply Z.eqb_neq. cbn. lia.
  - unfold lifo_is_not_full. f_equal. rewrite Hlen.
    case_bool_decide; [by apply Z.eqb_eq|by apply Z.eqb_neq].
  - intros Hfull%negb_true_iff%Z.eqb_neq.
    assert (∀ i x, xs !! i = Some x →
      slot (mem_write (l_data l) (l_len l * l_data_len l) d) (l_data_len l) (Z.of_nat i) = x) as Hold.
    { intros i x Hx. pose proof (lookup_lt_Some _ _ _ Hx).
      rewrite slot_write, decide_False by (done || lia). by apply Hsl. }
    split; split; cbn [lifo_enqueue lifo_poke l_len l_size l_data_len l_data].
    + done.
    + rewrite wrap_id, length_app, Hlen by lia. cbn. lia.
    + rewrite wrap_id by lia. lia.
    + apply Forall_app. by repeat constructor.
    + intros i x [Hx|[Hi [Hz <-]%list_lookup_singleton_Some]]%lookup_app_Some; [by apply Hold|].
      rewrite slot_write by (done || lia). by rewrite decide_True by lia.
    + done.
    + done.
    + done.
    + done.
    + exact Hold.
  - intros ys x ->. rewrite length_app in Hlen. cbn in Hlen.
    assert (u64 (l_len l - 1) = Z.of_nat (length ys)) as Hu by (rewrite wrap_id; lia).
    assert (lifo_peek l = x) as Hp.
    { unfold lifo_peek. rewrite Hu. apply Hsl. by rewrite list_lookup_middle. }
    split; [done|]. split; [done|]. apply Forall_app in He as [He _].
    split; cbn [lifo_dequeue snd l_len l_size l_data_len l_data]; rewrite ?Hu; try done; [lia|].
    intros i y Hy. apply Hsl. by apply lookup_app_l_Some.
Qed.

Lemma lifo_refines_witness :
  let l := lifo_alloc (λ _, 0) 4 2 in
  lifo_inv l [] ∧ lifo_inv (lifo_enqueue l [7; 9]) [[7; 9]].
Proof.
  cbv zeta. assert (lifo_inv (lifo_alloc (λ _, 0) 4 2) []) as Hi
    by (split; cbn; [lia|done|lia|constructor|done]).
  split; [exact Hi|].
  exact (proj1 (proj1 (proj2 (proj2 (lifo_refines _ [] [7; 9] Hi eq_refl))) eq_refl)).
Defined.

(** ** FIFO refines a queue (oldest first) *)
Record fifo_inv (f : fifo_t) (xs : list (list Z)) : Prop := {
  fi_dl : 0 < q_data_len f;
  fi_len : q_len f = Z.of_nat (length xs);
  fi_size : q_len f ≤ q_size f < 2 ^ 63;
  fi_tail : 0 ≤ q_tail f < q_size f;
  fi_head : q_head f = (q_tail f + q_len f) mod q_size f;
  fi_elems : elems_ok (q_data_len f) xs;
  fi_slots : ∀ i x, xs !! i = Some x →
    slot (q_data f) (q_data_len f) ((q_tail f + Z.of_nat i) mod q_size f) = x
}.

Lemma fifo_next_mod f i : 0 ≤ i < q_size f → fifo_next f i = (i + 1) mod q_size f.
Proof.
  intros Hi. unfold fifo_next. cbv zeta. destruct (Z.eqb_spec (i + 1) (q_size f)) as [->|].
  - rewrite Z.mod_same; lia.
  - rewrite Z.mod_small; lia.
Qed.

(** Two positions of the window are different slots. *)
Lemma ring_distinct t i j n : 0 ≤ i < j → j < n ∨ j = n ∧ 0 < i → (t + i) mod n ≠ (t + j) mod n.
Proof.
  intros Hij Hj Heq. pose proof (Z.div_mod (t + i) n ltac:(lia)). pose proof (Z.div_mod (t + j) n ltac:(lia)).
  assert (j - i = n * ((t + j) / n - (t + i) / n)) as Hd by lia.
  set (k := (t + j) / n - (t + i) / n) in *. clearbody k. assert (k ≤ 0 ∨ 1 ≤ k) as [?|?] by lia; nia.
Qed.

Lemma fifo_write f xs d i x :
  fifo_inv f xs → Z.of_nat (length d) = q_data_len f → fifo_is_not_full f = true →
  xs !! i = Some x →
  slot (mem_write (q_data f) (q_head f * q_data_len f) d) (q_data_len f)
    ((q_tail f + Z.of_nat i) mod q_size f) = x.
Proof.
  intros [Hdl Hlen Hsz Ht Hh He Hsl] Hd Hfull%negb_true_iff%Z.eqb_neq Hx.
  pose proof (lookup_lt_Some _ _ _ Hx).
  pose proof (Z.mod_pos_bound (q_tail f + Z.of_nat i) (q_size f) ltac:(lia)).
  pose proof (Z.mod_pos_bound (q_tail f + q_len f) (q_size f) ltac:(lia)).
  rewrite slot_write by (done || lia). rewrite decide_False; [by apply Hsl|].
  rewrite Hh. apply ring_distinct; lia.
Qed.

(** The FIFO ring is a queue.  Enqueueing into a ring that is not full appends,
    dequeueing from a non-empty ring returns the oldest element and removes it,
    [peek] reads it, [poke] stores nothing visible, clearing empties, the tests
    are exact, and the indices wrap correctly at the end of the buffer. *)
Theorem fifo_refines f xs d :
  fifo_inv f xs → Z.of_nat (length d) = q_data_len f →
  fifo_is_not_empty f = negb (bool_decide (xs = [])) ∧
  fifo_is_not_full f = negb (bool_decide (Z.of_nat (length xs) = q_size f)) ∧
  fifo_inv (fifo_clear f) [] ∧
  (fifo_is_not_full f = true → fifo_inv (fifo_enqueue f d) (xs ++ [d]) ∧ fifo_inv (fifo_poke f d) xs) ∧
  ∀ x ys, xs = x :: ys → fifo_peek f = x ∧
    fst (fifo_dequeue f) = x ∧ fifo_inv (snd (fifo_dequeue f)) ys.
Proof.
  intros Hinv Hd. pose proof Hinv as [Hdl Hlen Hsz Ht Hh He Hsl].
  pose proof (Z.mod_pos_bound (q_tail f + q_len f) (q_size f) ltac:(lia)).
  split; [|split; [|split; [|split]]].
  - unfold fifo_is_not_empty. f_equal. rewrite Hlen. case_bool_decide as Hx.
    + by rewrite Hx.
    + destruct xs; [done|]. apply Z.eqb_neq. cbn. lia.
  - unfold fifo_is_not_full. f_equal. rewrite Hlen.
    case_bool_decide; [by apply Z.eqb_eq|by apply Z.eqb_neq].
  - split; cbn [fifo_clear q_len q_size q_tail q_head q_data_len q_data length]; try done; try lia.
    constructor.
  - intros Hfull. pose proof (λ i x, fifo_write f xs d i x Hinv Hd Hfull) as Hold.
    apply negb_true_iff, Z.eqb_neq in Hfull.
    split; split; cbn [fifo_enqueue fifo_poke q_len q_size q_tail q_head q_data_len q_data];
      try done.
    + rewrite wrap_id, length_app, Hlen by lia. cbn. lia.
    + rewrite wrap_id by lia. lia.
    + change (fifo_next _ (q_head f)) with (fifo_next f (q_head f)).
      rewrite fifo_next_mod, wrap_id, Hh by (rewrite ?Hh; lia). rewrite Zplus_mod_idemp_l. f_equal. lia.
    + apply Forall_app. by repeat constructor.
    + intros i x [Hx|[Hi [Hz <-]%list_lookup_singleton_Some]]%lookup_app_Some; [by apply Hold|].
      rewrite slot_write by (try done; lia || (apply Z.mod_pos_bound; lia)).
      rewrite decide_True; [done|]. rewrite Hh, Hlen. do 2 f_equal. lia.
  - intros x ys ->. cbn [length] in Hlen.
    assert (fifo_peek f = x) as Hp.
    { unfold fifo_peek. rewrite <-(Hsl 0%nat x eq_refl). unfold slot.
      rewrite Z.add_0_r, Z.mod_small by lia. done. }
    split; [done|]. split; [done|].
    split; cbn [fifo_dequeue snd q_len q_size q_tail q_head q_data_len q_data].
    + done.
    + rewrite wrap_id; lia.
    + rewrite wrap_id; lia.
    + rewrite fifo_next_mod by lia. apply Z.mod_pos_bound. lia.
    + rewrite fifo_next_mod, wrap_id, Hh, Zplus_mod_idemp_l by lia. f_equal. lia.
    + by apply Forall_cons in He as [_ He].
    + intros i y Hy. rewrite fifo_next_mod, Zplus_mod_idemp_l by lia.
      rewrite <-(Hsl (S i) y Hy). f_equal. f_equal. lia.
Qed.
Lemma fifo_refines_witness :
  let f := fifo_alloc (λ _, 0) 3 2 in
  fifo_inv f [] ∧ fifo_inv (fifo_enqueue f [7; 9]) [[7; 9]].
Proof.
  cbv zeta. assert (fifo_inv (fifo_alloc (λ _, 0) 3 2) []) as Hi
    by (split; cbn; [lia|done|lia|lia|done|constructor|done]).
  split; [exact Hi|].
  exact (proj1 (proj1 (proj2 (proj2 (proj2 (fifo_refines _ [] [7; 9] Hi eq_refl)))) eq_refl)).
Defined.
