(* ===== verification/LinkedList.v ===== *)
(** * The doubly linked list of imlib (libraries/imlib/src/collections.c)

    Nodes live in a heap (a finite map); reading or writing through a null or
    freed pointer is undefined.  List headers are objects of their own, so that
    [list_move] can be given the same list twice, as in the code. *)

From stdpp Require Import gmap.
From S2P Require Import Prelude.

Abbreviation loc := positive.
Record list_lnk_t := Lnk { next : option loc; prev : option loc; lnk_data : list Z }.
Abbreviation heap := (gmap loc list_lnk_t).
Record list_t := List_t { l_head : option loc; l_tail : option loc; l_size : Z; l_data_len : Z }.

Definition set_next (p : option loc) (n : list_lnk_t) := Lnk p n.(prev) n.(lnk_data).
Definition set_prev (p : option loc) (n : list_lnk_t) := Lnk n.(next) p n.(lnk_data).

(** Load and store through a pointer. *)
Definition deref (p : option loc) (h : heap) : res list_lnk_t :=
  match p with
  | Some l => match h !! l with Some n => Ok n | None => Fault FUB end
  | None => Fault FUB
  end.
Definition store (p : option loc) (f : list_lnk_t → list_lnk_t) (h : heap) : res heap :=
  match p with
  | Some l => match h !! l with Some n => Ok (<[l := f n]> h) | None => Fault FUB end
  | None => Fault FUB
  end.

(** ** Operations *)
Definition list_init (data_len : Z) : list_t := List_t None None 0 data_len.

Fixpoint list_free_from (fuel : nat) (i : option loc) (h : heap) : res heap :=
  match i with
  | None => Ok h
  | Some l =>
      match fuel with
      | O => Fault FFuel
      | S fuel => n ← deref (Some l) h; list_free_from fuel (next n) (delete l h)
      end
  end.
Definition list_free (fuel : nat) (ptr : list_t) (h : heap) : res heap :=
  list_free_from fuel ptr.(l_head) h.
Definition list_clear (fuel : nat) (ptr : list_t) (h : heap) : res (list_t * heap) :=
  h ← list_free fuel ptr h; Ok (List_t None None 0 ptr.(l_data_len), h).

Definition list_link (dst : list_t) (insert_before : option loc) (lnk : loc) (h : heap)
    : res (list_t * heap) :=
  let resize hd tl := List_t hd tl (u64 (dst.(l_size) + 1)) dst.(l_data_len) in
  if dst.(l_size) =? 0 then
    h ← store (Some lnk) (set_next None) h;
    h ← store (Some lnk) (set_prev None) h;
    Ok (resize (Some lnk) (Some lnk), h)
  else if decide (dst.(l_head) = insert_before) then
    h ← store (Some lnk) (set_next insert_before) h;
    h ← store (Some lnk) (set_prev None) h;
    h ← store insert_before (set_prev (Some lnk)) h;
    Ok (resize (Some lnk) dst.(l_tail), h)
  else match insert_before with
  | None =>
      h ← store (Some lnk) (set_next None) h;
      h ← store (Some lnk) (set_prev dst.(l_tail)) h;
      h ← store dst.(l_tail) (set_next (Some lnk)) h;
      Ok (resize dst.(l_head) (Some lnk), h)
  | Some _ =>
      h ← store (Some lnk) (set_next insert_before) h;
      b ← deref insert_before h;
      h ← store (Some lnk) (set_prev (prev b)) h;
      b ← deref insert_before h;
      h ← store (prev b) (set_next (Some lnk)) h;
      h ← store insert_before (set_prev (Some lnk)) h;
      Ok (resize dst.(l_head) dst.(l_tail), h)
  end.

Definition list_unlink (src : list_t) (lnk : loc) (h : heap) : res (list_t * heap) :=
  let resize hd tl := List_t hd tl (u64 (src.(l_size) - 1)) src.(l_data_len) in
  n ← deref (Some lnk) h;
  if decide (src.(l_head) = Some lnk) then
    h ← match next n with Some _ => store (next n) (set_prev None) h | None => Ok h end;
    n ← deref (Some lnk) h;
    Ok (resize (next n) src.(l_tail), h)
  else if decide (src.(l_tail) = Some lnk) then
    h ← match prev n with Some _ => store (prev n) (set_next None) h | None => Ok h end;
    n ← deref (Some lnk) h;
    Ok (resize src.(l_head) (prev n), h)
  else
    h ← store (prev n) (set_next (next n)) h;
    n ← deref (Some lnk) h;
    h ← store (next n) (set_prev (prev n)) h;
    Ok (resize src.(l_head) src.(l_tail), h).

(** [tmp] is the block [m_malloc] returned; the null pointer is written through. *)
Definition list_insert (ptr : list_t) (lnk : option loc) (data : list Z) (tmp : option loc) (h : heap)
    : res (list_t * heap) :=
  match tmp with
  | Some l => list_link ptr lnk l (<[l := Lnk None None data]> h)
  | None => Fault FUB
  end.
Definition list_push_front (ptr : list_t) (data : list Z) (tmp : option loc) (h : heap) :=
  list_insert ptr ptr.(l_head) data tmp h.
Definition list_push_back (ptr : list_t) (data : list Z) (tmp : option loc) (h : heap) :=
  list_insert ptr None data tmp h.

Definition list_remove (ptr : list_t) (lnk : option loc) (h : heap) : res (list Z * list_t * heap) :=
  n ← deref lnk h;
  match lnk with
  | Some l =>
      '(ptr, h) ← list_unlink ptr l h;
      Ok (lnk_data n, ptr, delete l h)
  | None => Fault FUB
  end.
Definition list_pop_front (ptr : list_t) (h : heap) := list_remove ptr ptr.(l_head) h.
Definition list_pop_back (ptr : list_t) (h : heap) := list_remove ptr ptr.(l_tail) h.

(** The list headers, by name. *)
Definition list_move (dst src : Z) (before : option loc) (lnk : loc) (T : Z → list_t) (h : heap)
    : res ((Z → list_t) * heap) :=
  '(s, h) ← list_unlink (T src) lnk h;
  let T := <[src := s]> T in
  '(d, h) ← list_link (T dst) before lnk h;
  Ok (<[dst := d]> T, h).
Definition list_move_front (dst src : Z) (lnk : loc) (T : Z → list_t) (h : heap) :=
  list_move dst src (l_head (T dst)) lnk T h.
Definition list_move_back (dst src : Z) (lnk : loc) (T : Z → list_t) (h : heap) :=
  list_move dst src None lnk T h.

(** ** Representation *)
Definition first (ls : list loc) (n : option loc) : option loc :=
  match ls with [] => n | l :: _ => Some l end.
Definition final (p : option loc) (ls : list loc) : option loc :=
  match last ls with Some l => Some l | None => p end.

(** [ls] is linked both ways from [p] to [n]. *)
Fixpoint seg (h : heap) (p : option loc) (ls : list loc) (n : option loc) : Prop :=
  match ls with
  | [] => True
  | l :: ls => (∃ d, h !! l = Some (Lnk (first ls n) p d)) ∧ seg h (Some l) ls n
  end.
Record list_rep (h : heap) (L : list_t) (ls : list loc) : Prop := {
  lr_seg : seg h None ls None;
  lr_head : l_head L = first ls None;
  lr_tail : ls ≠ [] → l_tail L = last ls;
  lr_size : l_size L = Z.of_nat (length ls);
  lr_nodup : NoDup ls;
  lr_bound : Z.of_nat (length ls) < 2 ^ 63
}.
(** The stored elements, in order. *)
Definition contents (h : heap) (ls : list loc) : list (option (list Z)) :=
  (λ l, lnk_data <$> h !! l) <$> ls.
(** Two heaps with the same nodes and payloads, that agree outside [ls]. *)
Record relinked (h h' : heap) (ls : list loc) : Prop := {
  rl_data : ∀ l, lnk_data <$> h' !! l = lnk_data <$> h !! l;
  rl_frame : ∀ l, l ∉ ls → h' !! l = h !! l
}.
Definition list_copy (src : list_t) : list_t := src.
Definition list_size (ptr : list_t) : Z := ptr.(l_size).

(** ** Segments *)
Lemma final_cons p l ls : final p (l :: ls) = final (Some l) ls.
Proof. unfold final. rewrite last_cons. by destruct (last ls). Qed.
Lemma final_app p xs l : final p (xs ++ [l]) = Some l.
Proof. unfold final. by rewrite last_snoc. Qed.
Lemma first_app xs ys n : first (xs ++ ys) n = first xs (first ys n).
Proof. by destruct xs. Qed.

Lemma seg_app h p xs ys n :
  seg h p (xs ++ ys) n ↔ seg h p xs (first ys n) ∧ seg h (final p xs) ys n.
Proof.
  revert p. induction xs as [|x xs IH]; intros p; cbn [seg app]; [tauto|].
  rewrite IH, final_cons, first_app. tauto.
Qed.

Lemma seg_frame h h' p xs n :
  (∀ l, l ∈ xs → h' !! l = h !! l) → seg h p xs n → seg h' p xs n.
Proof.
  revert p. induction xs as [|x xs IH]; intros p Hf; cbn [seg]; [done|].
  intros [Hx Hs]. rewrite Hf by set_solver. split; [done|].
  apply IH; [|done]. intros l Hl. apply Hf. set_solver.
Qed.

Lemma seg_lookup h p xs n l : seg h p xs n → l ∈ xs → is_Some (h !! l).
Proof.
  revert p. induction xs as [|x xs IH]; intros p; cbn [seg]; [by intros _ ?%elem_of_nil|].
  intros [(d & Hd) Hs] [->|Hl]%elem_of_cons; [by eexists|by eapply IH].
Qed.

Lemma store_Some l f h n : h !! l = Some n → store (Some l) f h = Ok (<[l := f n]> h).
Proof. intros Hl. cbn [store]. by rewrite Hl. Qed.
Lemma deref_Some l h n : h !! l = Some n → deref (Some l) h = Ok n.
Proof. intros Hl. cbn [deref]. by rewrite Hl. Qed.

(** Updating links relinks. *)
Lemma relinked_refl h ls : relinked h h ls.
Proof. by split. Qed.
Lemma relinked_insert h h' ls l n n' :
  relinked h h' ls → l ∈ ls → h' !! l = Some n → lnk_data n' = lnk_data n →
  relinked h (<[l := n']> h') ls.
Proof.
  intros [Hd Hf] Hl Hn Hnn. split.
  - intros k. rewrite <-Hd. destruct (decide (k = l)) as [->|].
    + by rewrite lookup_insert_eq, Hn; simpl; rewrite Hnn.
    + by rewrite lookup_insert_ne by done.
  - intros k Hk. rewrite lookup_insert_ne by set_solver. by apply Hf.
Qed.

Lemma relinked_contents h h' ls xs : relinked h h' ls → contents h' xs = contents h xs.
Proof. intros [Hd _]. unfold contents. apply list_fmap_ext. intros _ l _. apply Hd. Qed.

(** ** Linking *)

(** [heap_lookup] finds a node under pending updates; [run] executes the next
    access. *)
Ltac heap_lookup := first
  [ eassumption | apply lookup_insert_eq
  | rewrite lookup_insert_ne by (solve [congruence]); heap_lookup ].
Ltac run := repeat
  (match goal with
   | |- context [store (Some ?l) ?f ?h] => erewrite (store_Some l f h) by heap_lookup
   | |- context [deref (Some ?l) ?h] => erewrite (deref_Some l h) by heap_lookup
   end; cbn [mbind res_bind next prev lnk_data set_next set_prev]).
(** Nodes of a segment that no update touches. *)
Ltac seg_same := eapply seg_frame; [|eassumption]; intros;
  rewrite ?lookup_insert_ne by set_solver; reflexivity.
Ltac node := eexists; heap_lookup.
Ltac relink :=
  repeat (eapply relinked_insert; [|set_solver|heap_lookup|reflexivity]); apply relinked_refl.

Lemma NoDup_middle (xs ys : list loc) l : NoDup (xs ++ l :: ys) ↔ l ∉ xs ++ ys ∧ NoDup (xs ++ ys).
Proof. by rewrite <-Permutation_middle, NoDup_cons. Qed.

Lemma link_empty h lnk n :
  h !! lnk = Some n →
  ∃ h', (h ← store (Some lnk) (set_next None) h; store (Some lnk) (set_prev None) h) = Ok h' ∧
    seg h' None [lnk] None ∧ relinked h h' [lnk].
Proof.
  intros Hn. run. eexists. split; [reflexivity|]. split.
  - cbn. split; [node|done].
  - relink.
Qed.

Lemma link_front h b ys lnk n :
  seg h None (b :: ys) None → NoDup (b :: ys) → lnk ∉ b :: ys → h !! lnk = Some n →
  ∃ h', (h ← store (Some lnk) (set_next (Some b)) h; h ← store (Some lnk) (set_prev None) h;
         store (Some b) (set_prev (Some lnk)) h) = Ok h' ∧
    seg h' None (lnk :: b :: ys) None ∧ relinked h h' (lnk :: b :: ys).
Proof.
  intros [(d & Hb) Hs] [Hby _]%NoDup_cons Hnew Hn.
  assert (b ≠ lnk) by set_solver. run. eexists. split; [reflexivity|]. split.
  - cbn. split; [node|]. split; [node|]. seg_same.
  - relink.
Qed.

Lemma link_back h xs a lnk n :
  seg h None (xs ++ [a]) None → NoDup (xs ++ [a]) → lnk ∉ xs ++ [a] → h !! lnk = Some n →
  ∃ h', (h ← store (Some lnk) (set_next None) h; h ← store (Some lnk) (set_prev (Some a)) h;
         store (Some a) (set_next (Some lnk)) h) = Ok h' ∧
    seg h' None (xs ++ [a; lnk]) None ∧ relinked h h' (lnk :: xs ++ [a]).
Proof.
  intros [Hs [(d & Ha) _]]%seg_app [Hxa Hnd]%NoDup_middle Hnew Hn. rewrite app_nil_r in *.
  assert (a ≠ lnk) by set_solver. run. eexists. split; [reflexivity|]. split.
  - apply seg_app. split; [seg_same|]. cbn. split; [node|]. split; [node|done].
  - relink.
Qed.

Lemma link_middle h xs a b ys lnk n :
  seg h None (xs ++ a :: b :: ys) None → NoDup (xs ++ a :: b :: ys) → lnk ∉ xs ++ a :: b :: ys →
  h !! lnk = Some n →
  ∃ h', (h ← store (Some lnk) (set_next (Some b)) h; bn ← deref (Some b) h;
         h ← store (Some lnk) (set_prev (prev bn)) h; bn ← deref (Some b) h;
         h ← store (prev bn) (set_next (Some lnk)) h;
         store (Some b) (set_prev (Some lnk)) h) = Ok h' ∧
    seg h' None (xs ++ a :: lnk :: b :: ys) None ∧ relinked h h' (lnk :: xs ++ a :: b :: ys).
Proof.
  intros [Hs [(d & Ha) [(e & Hb) Ht]]]%seg_app Hnd Hnew Hn. cbn [first] in *.
  apply NoDup_app in Hnd as (_ & Hdis & [Hab [Hby _]%NoDup_cons]%NoDup_cons).
  assert (a ≠ lnk) by set_solver. assert (b ≠ lnk) by set_solver. assert (a ≠ b) by set_solver.
  assert (∀ l, l ∈ xs → l ≠ a ∧ l ≠ b ∧ l ≠ lnk) as Hx by set_solver.
  assert (∀ l, l ∈ ys → l ≠ a ∧ l ≠ b ∧ l ≠ lnk) as Hy by set_solver.
  run. eexists. split; [reflexivity|]. split.
  - apply seg_app. split.
    + eapply seg_frame; [|exact Hs]. intros l (?&?&?)%Hx. by rewrite !lookup_insert_ne by congruence.
    + cbn. split; [node|]. split; [node|]. split; [node|].
      eapply seg_frame; [|exact Ht]. intros l (?&?&?)%Hy. by rewrite !lookup_insert_ne by congruence.
  - relink.
Qed.

(** [follow H]: execute the accesses of a run that is known to succeed. *)
Ltac follow H :=
  repeat (let h := fresh "h" in let E := fresh "E" in
          apply res_bind_Ok in H as (h & E & H); rewrite E; cbn [mbind res_bind]);
  rewrite H; cbn [mbind res_bind].

(** The updated header: what is left to check once the nodes are linked. *)
Lemma linked_rep h' xs ys lnk hd tl sz dl :
  seg h' None (xs ++ lnk :: ys) None →
  hd = first (xs ++ lnk :: ys) None → tl = last (xs ++ lnk :: ys) →
  NoDup (xs ++ ys) → lnk ∉ xs ++ ys → sz = Z.of_nat (length (xs ++ ys)) →
  Z.of_nat (length (xs ++ ys)) + 1 < 2 ^ 63 →
  list_rep h' (List_t hd tl (u64 (sz + 1)) dl) (xs ++ lnk :: ys).
Proof.
  intros Hs -> -> Hnd Hnew -> Hb. rewrite length_app in Hb.
  split; cbn [l_head l_tail l_size]; try done.
  - rewrite wrap_id, !length_app; cbn [length]; rewrite ?length_app; lia.
  - by apply NoDup_middle.
  - rewrite length_app. cbn [length]. lia.
Qed.

Lemma last_app_cons (xs ys : list loc) b : last (xs ++ b :: ys) = last (b :: ys).
Proof. rewrite last_app. by destruct (last (b :: ys)) eqn:E; [|apply last_None in E]. Qed.

Lemma link_spec h L xs ys lnk n :
  list_rep h L (xs ++ ys) → lnk ∉ xs ++ ys → h !! lnk = Some n →
  Z.of_nat (length (xs ++ ys)) + 1 < 2 ^ 63 →
  ∃ L' h', list_link L (first ys None) lnk h = Ok (L', h') ∧ list_rep h' L' (xs ++ lnk :: ys) ∧
    relinked h h' (lnk :: xs ++ ys) ∧ l_data_len L' = l_data_len L.
Proof.
  intros [Hs Hh Ht Hz Hnd _] Hnew Hn Hlen. unfold list_link.
  destruct (decide (xs ++ ys = [])) as [[-> ->]%app_eq_nil|Hne].
  { rewrite (proj2 (Z.eqb_eq _ _)) by exact Hz.
    destruct (link_empty h lnk n Hn) as (h' & Hrun & Hs' & Hr).
    follow Hrun. eexists _, h'. split; [reflexivity|].
    split; [by apply (linked_rep h' [] [])|done]. }
  rewrite (proj2 (Z.eqb_neq _ _)) by (rewrite Hz; destruct (xs ++ ys); cbn; [done|lia]).
  specialize (Ht Hne). destruct ys as [|b ys].
  { (* at the end *)
    rewrite app_nil_r in *. destruct xs as [|a xs _] using rev_ind; [done|]. cbn [first].
    rewrite decide_False by (rewrite Hh; by destruct xs).
    rewrite last_snoc in Ht. rewrite Ht.
    destruct (link_back h xs a lnk n Hs Hnd Hnew Hn) as (h' & Hrun & Hs' & Hr).
    follow Hrun. eexists _, h'. split; [reflexivity|].
    rewrite <-app_assoc. cbn [app]. split; [|done].
    replace (xs ++ [a; lnk]) with ((xs ++ [a]) ++ [lnk]) in * by by rewrite <-app_assoc.
    apply linked_rep; rewrite ?app_nil_r; try done;
      first [by rewrite last_snoc | rewrite Hh; by destruct xs]. }
  cbn [first]. rewrite last_app_cons in Ht. destruct xs as [|a xs _] using rev_ind.
  { (* in front *)
    rewrite decide_True by exact Hh.
    destruct (link_front h b ys lnk n Hs Hnd Hnew Hn) as (h' & Hrun & Hs' & Hr).
    follow Hrun. eexists _, h'. split; [reflexivity|].
    split; [|done]. by apply (linked_rep h' [] (b :: ys)). }
  (* in the middle *)
  rewrite <-app_assoc in *. cbn [app] in *.
  rewrite decide_False.
  2: { rewrite Hh. apply NoDup_app in Hnd as (_ & Hdis & [Hab _]%NoDup_cons).
       destruct xs as [|x xs]; cbn [first app]; intros [= ->]; set_solver. }
  destruct (link_middle h xs a b ys lnk n Hs Hnd Hnew Hn) as (h' & Hrun & Hs' & Hr).
  follow Hrun. eexists _, h'. split; [reflexivity|].
  rewrite <-?app_assoc. cbn [app]. split; [|done].
  replace (xs ++ a :: lnk :: b :: ys) with ((xs ++ [a]) ++ lnk :: b :: ys) in * by by rewrite <-app_assoc.
  apply linked_rep; rewrite <-?app_assoc; cbn [app]; try done.
  all: first [rewrite Hh; by destruct xs |
    rewrite Ht; change (a :: lnk :: b :: ys) with ([a; lnk] ++ b :: ys);
    by rewrite app_assoc, last_app_cons | by rewrite <-app_assoc in Hs'].
Qed.

(** ** Unlinking *)
Lemma unlink_head h lnk y ys :
  seg h None (lnk :: y :: ys) None → NoDup (lnk :: y :: ys) →
  ∃ h' n, deref (Some lnk) h = Ok n ∧ next n = Some y ∧
    store (Some y) (set_prev None) h = Ok h' ∧ deref (Some lnk) h' = Ok n ∧
    seg h' None (y :: ys) None ∧ relinked h h' (lnk :: y :: ys).
Proof.
  intros [(d & Hl) [(e & Hy) Hs]] [Hly [Hyy _]%NoDup_cons]%NoDup_cons. cbn [first] in *.
  assert (y ≠ lnk) by set_solver. eexists _, _. split; [by apply deref_Some|]. split; [done|].
  split; [by apply store_Some|]. split; [by apply deref_Some; heap_lookup|]. split; [|relink].
  cbn. split; [node|]. seg_same.
Qed.

Lemma unlink_tail h xs a lnk :
  seg h None (xs ++ [a; lnk]) None → NoDup (xs ++ [a; lnk]) →
  ∃ h' n, deref (Some lnk) h = Ok n ∧ prev n = Some a ∧
    store (Some a) (set_next None) h = Ok h' ∧ deref (Some lnk) h' = Ok n ∧
    seg h' None (xs ++ [a]) None ∧ relinked h h' (xs ++ [a; lnk]).
Proof.
  intros [Hs [(d & Ha) [(e & Hl) _]]]%seg_app (_ & Hdis & [Hal _]%NoDup_cons)%NoDup_app.
  cbn [first] in *. assert (a ≠ lnk) by set_solver. assert (a ∉ xs) by set_solver.
  eexists _, _. split; [by apply deref_Some|]. split; [done|].
  split; [by apply store_Some|]. split; [by apply deref_Some; heap_lookup|]. split; [|relink].
  apply seg_app. split; [seg_same|]. cbn. split; [node|done].
Qed.

Lemma unlink_middle h xs a lnk b ys :
  seg h None (xs ++ a :: lnk :: b :: ys) None → NoDup (xs ++ a :: lnk :: b :: ys) →
  ∃ h1 h' n, deref (Some lnk) h = Ok n ∧
    store (prev n) (set_next (next n)) h = Ok h1 ∧ deref (Some lnk) h1 = Ok n ∧
    store (next n) (set_prev (prev n)) h1 = Ok h' ∧
    seg h' None (xs ++ a :: b :: ys) None ∧ relinked h h' (xs ++ a :: lnk :: b :: ys).
Proof.
  intros [Hs [(d & Ha) [(e & Hl) [(g & Hb) Ht]]]]%seg_app Hnd. cbn [first] in *.
  apply NoDup_app in Hnd as (_ & Hdis & [Ha' [Hl' [Hb' _]%NoDup_cons]%NoDup_cons]%NoDup_cons).
  assert (a ≠ lnk) by set_solver. assert (b ≠ lnk) by set_solver. assert (a ≠ b) by set_solver.
  assert (∀ l, l ∈ xs → l ≠ a ∧ l ≠ b) as Hx by set_solver.
  assert (∀ l, l ∈ ys → l ≠ a ∧ l ≠ b) as Hy by set_solver.
  eexists _, _, _. split; [by apply deref_Some|]. cbn [prev next].
  split; [by apply store_Some|]. split; [by apply deref_Some; heap_lookup|].
  split; [by apply store_Some; heap_lookup|]. split; [|relink].
  apply seg_app. split.
  - eapply seg_frame; [|exact Hs]. intros l (?&?)%Hx. by rewrite !lookup_insert_ne by congruence.
  - cbn. split; [node|]. split; [node|].
    eapply seg_frame; [|exact Ht]. intros l (?&?)%Hy. by rewrite !lookup_insert_ne by congruence.
Qed.

Lemma unlinked_rep h' xs ys lnk hd tl sz dl :
  seg h' None (xs ++ ys) None → hd = first (xs ++ ys) None → (xs ++ ys ≠ [] → tl = last (xs ++ ys)) →
  NoDup (xs ++ lnk :: ys) → sz = Z.of_nat (length (xs ++ lnk :: ys)) →
  Z.of_nat (length (xs ++ lnk :: ys)) < 2 ^ 63 →
  list_rep h' (List_t hd tl (u64 (sz - 1)) dl) (xs ++ ys).
Proof.
  intros Hs -> Ht [_ Hnd]%NoDup_middle -> Hb. rewrite !length_app in Hb. cbn [length] in Hb.
  split; cbn [l_head l_tail l_size]; try done.
  - rewrite !length_app. cbn [length]. rewrite wrap_id; lia.
  - rewrite length_app. lia.
Qed.

Lemma unlink_front h L ys lnk :
  list_rep h L (lnk :: ys) →
  ∃ L' h', list_unlink L lnk h = Ok (L', h') ∧ list_rep h' L' ys ∧
    relinked h h' (lnk :: ys) ∧ l_data_len L' = l_data_len L.
Proof.
  intros [Hs Hh Ht Hz Hnd Hb]. unfold list_unlink. specialize (Ht ltac:(done)).
  destruct ys as [|y ys].
  - pose proof Hs as [(d & Hl) _]. rewrite (deref_Some _ _ _ Hl). cbn [mbind res_bind].
    rewrite decide_True by exact Hh. cbn [next first mbind res_bind].
    rewrite (deref_Some _ _ _ Hl). eexists _, h. split; [reflexivity|].
    split; [by apply (unlinked_rep h [] [] lnk)|]. split; [apply relinked_refl|done].
  - destruct (unlink_head h lnk y ys Hs Hnd) as (h' & n & E1 & Hn & E2 & E3 & Hs' & Hr).
    rewrite E1. cbn [mbind res_bind]. rewrite decide_True by exact Hh.
    rewrite Hn, E2. cbn [mbind res_bind]. rewrite E3. eexists _, h'. split; [reflexivity|].
    split; [|done]. by apply (unlinked_rep h' [] (y :: ys) lnk).
Qed.

Lemma unlink_spec h L xs ys lnk :
  list_rep h L (xs ++ lnk :: ys) →
  ∃ L' h', list_unlink L lnk h = Ok (L', h') ∧ list_rep h' L' (xs ++ ys) ∧
    relinked h h' (xs ++ lnk :: ys) ∧ l_data_len L' = l_data_len L.
Proof.
  destruct xs as [|a xs _] using rev_ind; [apply unlink_front|].
  intros [Hs Hh Ht Hz Hnd Hb]. unfold list_unlink.
  specialize (Ht ltac:(by destruct xs)). rewrite last_app_cons in Ht.
  rewrite <-?app_assoc in *. cbn [app] in *.
  assert (l_head L ≠ Some lnk) as Hhead.
  { rewrite Hh. apply NoDup_app in Hnd as (_ & Hdis & [Hal _]%NoDup_cons).
    destruct xs as [|x xs]; cbn [first app]; intros [= ->]; set_solver. }
  destruct ys as [|b ys].
  - (* at the end *)
    destruct (unlink_tail h xs a lnk Hs Hnd) as (h' & n & E1 & Hn & E2 & E3 & Hs' & Hr).
    rewrite E1. cbn [mbind res_bind]. rewrite decide_False, decide_True by (exact Ht || done).
    rewrite Hn, E2. cbn [mbind res_bind]. rewrite E3. eexists _, h'. split; [reflexivity|].
    split; [|done].
    replace (xs ++ [a; lnk]) with ((xs ++ [a]) ++ [lnk]) in Hnd, Hz, Hb by by rewrite <-app_assoc.
    rewrite <-(app_nil_r (xs ++ [a])).
    apply (unlinked_rep h' (xs ++ [a]) [] lnk); rewrite ?app_nil_r; try done.
    + rewrite Hh. by destruct xs.
    + by rewrite last_snoc.
  - (* in the middle *)
    destruct (unlink_middle h xs a lnk b ys Hs Hnd) as (h1 & h' & n & E1 & E2 & E3 & E4 & Hs' & Hr).
    rewrite E1. cbn [mbind res_bind]. rewrite !decide_False; [|rewrite Ht|done].
    2: { intros Heq%(f_equal (λ o, match o with Some l => l | None => lnk end)).
         apply NoDup_app in Hnd as (_ & _ & [_ [Hl _]%NoDup_cons]%NoDup_cons).
         rewrite last_cons in Heq. destruct (last (b :: ys)) as [z|] eqn:E.
         - apply last_Some_elem_of in E. cbn in Heq. by subst.
         - by apply last_None in E. }
    rewrite E2. cbn [mbind res_bind]. rewrite E3. cbn [mbind res_bind]. rewrite E4.
    eexists _, h'. split; [reflexivity|]. split; [|done].
    replace (xs ++ a :: lnk :: b :: ys) with ((xs ++ [a]) ++ lnk :: b :: ys) in Hnd, Hz, Hb
      by by rewrite <-app_assoc.
    replace (xs ++ a :: b :: ys) with ((xs ++ [a]) ++ b :: ys) in * by by rewrite <-app_assoc.
    apply (unlinked_rep h' (xs ++ [a]) (b :: ys) lnk); try done.
    + rewrite Hh, <-app_assoc. by destruct xs.
    + intros _. by rewrite Ht, last_cons_cons, last_app_cons.
Qed.

(** ** The operations refine lists *)
Lemma list_rep_frame h h' L ls :
  (∀ l, l ∈ ls → h' !! l = h !! l) → list_rep h L ls → list_rep h' L ls.
Proof. intros Hf [Hs ? ? ? ? ?]. split; try done. by eapply seg_frame. Qed.
Lemma contents_frame h h' ls : (∀ l, l ∈ ls → h' !! l = h !! l) → contents h' ls = contents h ls.
Proof.
  intros Hf. unfold contents. apply list_fmap_ext. intros i l Hl. rewrite Hf; [done|].
  by eapply list_elem_of_lookup_2.
Qed.
Lemma contents_app h xs ys : contents h (xs ++ ys) = contents h xs ++ contents h ys.
Proof. apply fmap_app. Qed.

(** Insertion.  Inserting before a node (or at the end, before the null pointer)
    a block fresh from the allocator succeeds, links the new node between the
    same neighbours in both directions, keeps every element and the order, and
    leaves the rest of the heap alone; front and back pushes are the two end
    cases. *)
Theorem list_insert_spec h L xs ys tmp data :
  list_rep h L (xs ++ ys) → h !! tmp = None → Z.of_nat (length (xs ++ ys)) + 1 < 2 ^ 63 →
  ∃ L' h', list_insert L (first ys None) data (Some tmp) h = Ok (L', h') ∧
    list_rep h' L' (xs ++ tmp :: ys) ∧
    contents h' (xs ++ tmp :: ys) = contents h xs ++ Some data :: contents h ys ∧
    (∀ l, l ∉ tmp :: xs ++ ys → h' !! l = h !! l) ∧
    (xs = [] → list_push_front L data (Some tmp) h = Ok (L', h')) ∧
    (ys = [] → list_push_back L data (Some tmp) h = Ok (L', h')).
Proof.
  intros Hrep Hfresh Hlen.
  assert (tmp ∉ xs ++ ys) as Hnew.
  { intros Hin. destruct Hrep as [Hs _ _ _ _ _]. destruct (seg_lookup _ _ _ _ _ Hs Hin). congruence. }
  set (h0 := <[tmp := Lnk None None data]> h).
  assert (∀ l, l ∈ xs ++ ys → h0 !! l = h !! l) as Hf0
    by (intros l Hl; unfold h0; rewrite lookup_insert_ne; [done|by intros ->]).
  destruct (link_spec h0 L xs ys tmp (Lnk None None data)) as (L' & h' & Hrun & Hrep' & Hrl & _);
    [by eapply list_rep_frame|done|apply lookup_insert_eq|done|].
  exists L', h'. split; [exact Hrun|]. split; [done|]. split; [|split; [|split]].
  - rewrite (relinked_contents _ _ _ _ Hrl), contents_app. cbn [contents fmap list_fmap].
    unfold h0 at 2. rewrite lookup_insert_eq. cbn [lnk_data fmap option_fmap option_map].
    f_equal; [|f_equal]; apply contents_frame; intros l Hl; apply Hf0; set_solver.
  - intros l Hl. destruct Hrl as [_ Hfr]. rewrite Hfr by done. unfold h0.
    rewrite lookup_insert_ne; [done|]. intros ->. by apply Hl, list_elem_of_here.
  - intros ->. unfold list_push_front. by rewrite (lr_head _ _ _ Hrep).
  - intros ->. exact Hrun.
Qed.

(** Removal.  Removing a node of a list returns its element, unlinks it in both
    directions, frees exactly that node, and keeps the other elements, their
    order and the rest of the heap. *)
Theorem list_remove_spec h L xs ys lnk :
  list_rep h L (xs ++ lnk :: ys) →
  ∃ d L' h', list_remove L (Some lnk) h = Ok (d, L', h') ∧ lnk_data <$> h !! lnk = Some d ∧
    list_rep h' L' (xs ++ ys) ∧ contents h' (xs ++ ys) = contents h (xs ++ ys) ∧ h' !! lnk = None ∧
    (∀ l, l ∉ xs ++ lnk :: ys → h' !! l = h !! l) ∧
    (xs = [] → list_pop_front L h = Ok (d, L', h')) ∧
    (ys = [] → list_pop_back L h = Ok (d, L', h')).
Proof.
  intros Hrep. pose proof Hrep as [Hs Hh Ht _ Hnd _].
  destruct (seg_lookup _ _ _ _ lnk Hs ltac:(set_solver)) as [n Hn].
  destruct (unlink_spec h L xs ys lnk Hrep) as (L' & h' & Hrun & Hrep' & Hrl & _).
  assert (list_remove L (Some lnk) h = Ok (lnk_data n, L', delete lnk h')) as Hrem
    by (unfold list_remove; by rewrite (deref_Some _ _ _ Hn); cbn [mbind res_bind]; rewrite Hrun).
  apply NoDup_middle in Hnd as [Hnew _].
  assert (∀ l, l ∈ xs ++ ys → delete lnk h' !! l = h' !! l) as Hdel
    by (intros l Hl; rewrite lookup_delete_ne; [done|by intros ->]).
  exists (lnk_data n), L', (delete lnk h'). split; [exact Hrem|]. split; [by rewrite Hn|].
  split; [by eapply list_rep_frame|].
  split; [rewrite (contents_frame h'), (relinked_contents _ _ _ _ Hrl) by exact Hdel; done|].
  split; [apply lookup_delete_eq|]. split; [|split].
  - intros l Hl. rewrite lookup_delete_ne by set_solver. by apply (rl_frame _ _ _ Hrl).
  - intros ->. unfold list_pop_front. by rewrite Hh.
  - intros ->. unfold list_pop_back. by rewrite Ht, last_snoc by (by destruct xs).
Qed.

(** A move between two lists keeps both well linked: the node leaves the source,
    arrives before the chosen node of the destination (front and back included),
    carries its element with it, and nothing is allocated or freed. *)
Theorem list_move_spec h T dst src xs ys us vs lnk :
  dst ≠ src → list_rep h (T src) (xs ++ lnk :: ys) → list_rep h (T dst) (us ++ vs) →
  (∀ l, l ∈ xs ++ lnk :: ys → l ∉ us ++ vs) → Z.of_nat (length (us ++ vs)) + 1 < 2 ^ 63 →
  ∃ T' h', list_move dst src (first vs None) lnk T h = Ok (T', h') ∧
    list_rep h' (T' src) (xs ++ ys) ∧ list_rep h' (T' dst) (us ++ lnk :: vs) ∧
    contents h' (xs ++ ys) = contents h (xs ++ ys) ∧
    contents h' (us ++ lnk :: vs) = contents h (us ++ lnk :: vs) ∧
    (us = [] → list_move_front dst src lnk T h = Ok (T', h')) ∧
    (vs = [] → list_move_back dst src lnk T h = Ok (T', h')).
Proof.
  intros Hne Hsrc Hdst Hdisj Hlen.
  destruct (unlink_spec h (T src) xs ys lnk Hsrc) as (S' & h1 & Hrun1 & Hrep1 & Hrl1 & _).
  destruct (seg_lookup _ _ _ _ lnk (lr_seg _ _ _ Hsrc) ltac:(set_solver)) as [n Hn].
  assert (is_Some (h1 !! lnk)) as [n1 Hn1].
  { pose proof (rl_data _ _ _ Hrl1 lnk) as Hd. rewrite Hn in Hd. destruct (h1 !! lnk); [by eexists|done]. }
  assert (list_rep h1 (T dst) (us ++ vs)) as Hdst1.
  { eapply list_rep_frame; [|exact Hdst]. intros l Hl. apply (rl_frame _ _ _ Hrl1).
    intros Hl'. by apply (Hdisj l). }
  destruct (link_spec h1 (T dst) us vs lnk n1 Hdst1 ltac:(apply Hdisj; set_solver) Hn1 Hlen)
    as (D' & h' & Hrun2 & Hrep2 & Hrl2 & _).
  assert (list_move dst src (first vs None) lnk T h = Ok (<[dst := D']> (<[src := S']> T), h')) as Hmove.
  { unfold list_move. rewrite Hrun1. cbn [mbind res_bind].
    rewrite fn_lookup_insert_ne by done. by rewrite Hrun2. }
  exists (<[dst := D']> (<[src := S']> T)), h'. split; [exact Hmove|].
  rewrite fn_lookup_insert. rewrite (fn_lookup_insert_ne _ dst) by done. rewrite fn_lookup_insert.
  destruct (proj1 (NoDup_middle xs ys lnk) (lr_nodup _ _ _ Hsrc)) as [Hnew _].
  split; [|split; [exact Hrep2|split; [|split; [|split]]]].
  - eapply list_rep_frame; [|exact Hrep1]. intros l Hl. apply (rl_frame _ _ _ Hrl2).
    intros [->|Hl']%elem_of_cons; [done|]. apply (Hdisj l); [set_solver|done].
  - by rewrite (relinked_contents _ _ _ _ Hrl2), (relinked_contents _ _ _ _ Hrl1).
  - by rewrite (relinked_contents _ _ _ _ Hrl2), (relinked_contents _ _ _ _ Hrl1).
  - intros ->. unfold list_move_front. by rewrite (lr_head _ _ _ Hdst).
  - intros ->. exact Hmove.
Qed.

(** Moving the head of a list to the front of the same list goes through a null
    pointer: the destination's head is read before the node is unlinked. *)
Lemma list_move_front_self h T l a b ls :
  list_rep h (T l) (a :: b :: ls) → list_move_front l l a T h = Fault FUB.
Proof.
  intros Hrep. pose proof Hrep as [Hs Hh _ _ Hnd _]. pose proof Hs as [(d & Ha) _].
  unfold list_move_front, list_move. rewrite Hh. cbn [first].
  destruct (unlink_head h a b ls Hs Hnd) as (h1 & n & E1 & Hn & E2 & E3 & Hs' & Hr).
  destruct (unlink_spec h (T l) [] (b :: ls) a Hrep) as (S' & h1' & Hrun & Hrep' & Hrl & _).
  assert (h1' = h1) as ->.
  { unfold list_unlink in Hrun. rewrite E1 in Hrun. cbn [mbind res_bind] in Hrun.
    rewrite decide_True, Hn, E2 in Hrun by exact Hh. cbn [mbind res_bind] in Hrun.
    rewrite E3 in Hrun. cbn [mbind res_bind] in Hrun. congruence. }
  rewrite Hrun. cbn [mbind res_bind]. rewrite fn_lookup_insert. unfold list_link.
  destruct Hrep' as [_ Hh' _ Hz' _ _]. cbn [app] in *.
  rewrite (proj2 (Z.eqb_neq _ _)) by (rewrite Hz'; cbn [length]; lia).
  apply NoDup_cons in Hnd as [Hab _].
  rewrite decide_False by (rewrite Hh'; cbn [first]; intros [= ->]; set_solver).
  rewrite (deref_Some _ _ _ Ha) in E1. injection E1 as <-.
  assert (h1 !! a = Some (Lnk (Some b) None d)) as Ha1.
  { cbn [deref] in E3. destruct (h1 !! a); [by injection E3 as ->|done]. }
  run. reflexivity.
Qed.

(** One-element and empty lists. *)
Definition one_heap : heap := {[1%positive := Lnk None None [7]]}.
Definition one_list : list_t := List_t (Some 1%positive) (Some 1%positive) 1 1.
Lemma one_rep : list_rep one_heap one_list [1%positive].
Proof.
  split; cbn; try done; [split; [by exists [7]|done]|].
  apply NoDup_singleton.
Qed.
Lemma empty_rep h : list_rep h (list_init 1) [].
Proof. split; cbn; try done. constructor. Qed.

Lemma list_insert_spec_witness :
  ∃ L' h', list_push_front (list_init 1) [7] (Some 1%positive) ∅ = Ok (L', h') ∧
    list_rep h' L' [1%positive] ∧ contents h' [1%positive] = [Some [7]].
Proof.
  destruct (list_insert_spec ∅ (list_init 1) [] [] 1%positive [7] (empty_rep ∅) (lookup_empty _)
    ltac:(cbn; lia)) as (L' & h' & _ & Hrep & Hc & _ & Hf & _).
  exists L', h'. split; [exact (Hf eq_refl)|]. split; [exact Hrep|exact Hc].
Defined.
Lemma list_remove_spec_witness :
  ∃ L' h', list_pop_front one_list one_heap = Ok ([7], L', h') ∧ list_rep h' L' [].
Proof.
  destruct (list_remove_spec one_heap one_list [] [] 1%positive one_rep)
    as (d & L' & h' & _ & Hd & Hrep & _ & _ & _ & Hf & _).
  exists L', h'. injection Hd as <-. split; [exact (Hf eq_refl)|exact Hrep].
Defined.
Lemma list_move_spec_witness :
  let T := λ i : Z, if i =? 0 then one_list else list_init 1 in
  ∃ T' h', list_move_back 1 0 1%positive T one_heap = Ok (T', h') ∧
    list_rep h' (T' 0) [] ∧ list_rep h' (T' 1) [1%positive].
Proof.
  cbv zeta.
  destruct (list_move_spec one_heap (λ i : Z, if i =? 0 then one_list else list_init 1) 1 0
    [] [] [] [] 1%positive ltac:(lia) one_rep (empty_rep _) ltac:(intros; apply not_elem_of_nil)
    ltac:(cbn; lia)) as (T' & h' & _ & Hs & Hd & _ & _ & _ & Hb).
  exists T', h'. split; [exact (Hb eq_refl)|]. split; [exact Hs|exact Hd].
Defined.
