(* ===== verification/Vfs.v ===== *)
(** * Virtual file system switch (cores/k210/components/vfs/esp_vfs.c)

    Registration of file systems under path prefixes, the descriptor table, path
    resolution and the calls that go through them.  A file system is a value of a
    type [V]: which methods it has and what they do are parameters.  A pointer
    to an entry is its slot number; the locks are left out (each operation is one
    critical section). *)

From Stdlib Require Import Ascii.
From S2P Require Import Prelude.

Abbreviation path := (list ascii).
Definition slash : ascii := "/"%char.

Definition VFS_MAX_COUNT : Z := 8.
Definition ESP_VFS_PATH_MAX : Z := 15.
(** [SIZE_MAX] *)
Definition LEN_PATH_PREFIX_IGNORED : Z := 2 ^ 64 - 1.

Inductive esp_err_t : Set := ESP_OK | ESP_FAIL | ESP_ERR_NO_MEM | ESP_ERR_INVALID_ARG | ESP_ERR_INVALID_STATE.
Inductive errno_t : Set :=
| E_NONE | ENOENT | EBADF | ENOMEM | EXDEV | ENOSYS | ENOTSUP | EIO | ENODEV | EINVAL | EACCES | EEXIST | ENXIO | EINTR
| ETIMEDOUT | ENFILE | ENOSPC | EPERM.
#[export] Instance errno_eq_dec : EqDecision errno_t.
Proof. solve_decision. Defined.

(** [fd_table_t] *)
Record fd_table_t := FdEntry {
  permanent : bool;
  has_pending_close : bool;
  has_pending_select : bool;
  vfs_index : Z;
  local_fd : Z
}.
(** [local_fd = -1] stored in a [uint8_t] *)
Definition FD_TABLE_ENTRY_UNUSED : fd_table_t := FdEntry false false false (-1) (u8 (-1)).

(** The calls a file system can receive, with the arguments the switch passes. *)
Inductive vfs_call :=
| C_open (p : path) (flags mode : Z)
| C_close (fd : Z)
| C_read (fd dst size : Z)
| C_write (fd src size : Z)
| C_lseek (fd off mode : Z)
| C_pread (fd dst size off : Z)
| C_pwrite (fd src size off : Z)
| C_fstat (fd st : Z)
| C_fcntl (fd cmd arg : Z)
| C_ioctl (fd cmd arg : Z)
| C_fsync (fd : Z)
| C_stat (p : path) (st : Z)
| C_utime (p : path) (times : Z)
| C_link (p q : path)
| C_unlink (p : path)
| C_rename (p q : path)
| C_mkdir (p : path) (mode : Z)
| C_rmdir (p : path)
| C_access (p : path) (amode : Z)
| C_truncate (p : path) (len : Z)
| C_ftruncate (fd len : Z)
| C_opendir (p : path)
| C_readdir (dir : Z)
| C_readdir_r (dir entry out_dirent : Z)
| C_telldir (dir : Z)
| C_seekdir (dir loc : Z)
| C_closedir (dir : Z).

(** A directory stream: the field the switch fills in, and the object itself. *)
Record DIR := Dir { dd_vfs_idx : Z; dd_object : Z }.

Section vfs.
(** File systems, their contexts, and the world they act on. *)
Context {V X W : Type}.
(** The method is not a null pointer; [ESP_VFS_FLAG_CONTEXT_PTR] is set; running it. *)
Context (v_has : V → vfs_call → bool) (v_ctx : V → bool).
Context (v_run : V → option X → vfs_call → W → Z * W).
(** [MAX_FDS] is newlib's [FD_SETSIZE]. *)
Context (MAX_FDS : Z).

(** [vfs_entry_t] *)
Record vfs_entry_t := VfsEntry {
  vfs : V;
  path_prefix : path;
  path_prefix_len : Z;
  ctx : X;
  offset : Z
}.
Record vfs_t := Vfs {
  s_vfs : Z → option vfs_entry_t;
  s_vfs_count : Z;
  s_fd_table : Z → fd_table_t
}.
Definition set_vfs (i : Z) (e : option vfs_entry_t) (s : vfs_t) : vfs_t :=
  Vfs (<[i := e]> s.(s_vfs)) s.(s_vfs_count) s.(s_fd_table).
Definition set_fd (fd : Z) (e : fd_table_t) (s : vfs_t) : vfs_t :=
  Vfs s.(s_vfs) s.(s_vfs_count) (<[fd := e]> s.(s_fd_table)).

Definition plen (p : path) : Z := Z.of_nat (length p).
(** [p[i]], with the terminator past the end *)
Definition char_at (p : path) (i : Z) : ascii := nth (Z.to_nat i) p "000"%char.
Definition char_eqb (a b : ascii) : bool := Ascii.eqb a b.
(** [memcmp(p, q, n) == 0] *)
Fixpoint path_eqb (p q : path) : bool :=
  match p, q with
  | [], [] => true
  | a :: p, b :: q => Ascii.eqb a b && path_eqb p q
  | _, _ => false
  end.
Definition same_prefix (p q : path) (n : Z) : bool :=
  path_eqb (take (Z.to_nat n) p) (take (Z.to_nat n) q).

(** ** Registration *)

(** [for(index = 0; index < s_vfs_count; ++index) if(s_vfs[index] == NULL) break;] *)
Fixpoint free_slot (fuel : nat) (index : Z) (s : vfs_t) : Z :=
  match fuel with
  | O => index
  | S fuel =>
      if index <? s.(s_vfs_count) then
        match s.(s_vfs) index with None => index | Some _ => free_slot fuel (index + 1) s end
      else index
  end.

(** [malloc] says whether [rt_malloc_align] succeeds.  The result carries the new
    slot. *)
Definition esp_vfs_register_common (base_path : path) (len : Z) (v : V) (x : X) (malloc : bool)
    (s : vfs_t) : esp_err_t * Z * vfs_t :=
  if negb (len =? LEN_PATH_PREFIX_IGNORED) &&
     ((len =? 1) || (ESP_VFS_PATH_MAX <? len)) then (ESP_ERR_INVALID_ARG, -1, s) else
  if negb (len =? LEN_PATH_PREFIX_IGNORED) && (2 <=? len) &&
     (negb (char_eqb (char_at base_path 0) slash) || char_eqb (char_at base_path (len - 1)) slash)
  then (ESP_ERR_INVALID_ARG, -1, s) else
  if negb malloc then (ESP_ERR_NO_MEM, -1, s) else
  let index := free_slot (Z.to_nat VFS_MAX_COUNT) 0 s in
  if (index =? s.(s_vfs_count)) && (VFS_MAX_COUNT <=? s.(s_vfs_count)) then (ESP_ERR_NO_MEM, -1, s) else
  let count := if index =? s.(s_vfs_count) then s.(s_vfs_count) + 1 else s.(s_vfs_count) in
  let prefix := if len =? LEN_PATH_PREFIX_IGNORED then [] else base_path in
  (ESP_OK, index,
   Vfs (<[index := Some (VfsEntry v prefix len x index)]> s.(s_vfs)) count s.(s_fd_table)).

Definition esp_vfs_register (base_path : path) (v : V) (x : X) (malloc : bool) (s : vfs_t)
    : esp_err_t * vfs_t :=
  let '(e, _, s) := esp_vfs_register_common base_path (plen base_path) v x malloc s in (e, s).

Definition esp_vfs_register_with_id (v : V) (x : X) (malloc : bool) (s : vfs_t)
    : esp_err_t * Z * vfs_t :=
  esp_vfs_register_common [] LEN_PATH_PREFIX_IGNORED v x malloc s.

(** One pass over the descriptors [i, max_fd): [None] when all were free. *)
Fixpoint claim_fds (fuel : nat) (i max_fd index : Z) (s : vfs_t) : option Z * vfs_t :=
  match fuel with
  | O => (None, s)
  | S fuel =>
      if i <? max_fd then
        let e := s.(s_fd_table) i in
        if negb (e.(vfs_index) =? -1) then (Some i, s)
        else claim_fds fuel (i + 1) max_fd index
               (set_fd i (FdEntry true e.(has_pending_close) e.(has_pending_select) index (u8 i)) s)
      else (None, s)
  end.
Definition drop_fds (lo n id : Z) (s : vfs_t) : vfs_t :=
  for_range lo n (λ j s,
    if vfs_index (s.(s_fd_table) j) =? id then set_fd j FD_TABLE_ENTRY_UNUSED s else s) s.

Definition esp_vfs_register_fd_range (v : V) (x : X) (min_fd max_fd : Z) (malloc : bool) (s : vfs_t)
    : esp_err_t * vfs_t :=
  if (min_fd <? 0) || (max_fd <? 0) || (MAX_FDS <? min_fd) || (MAX_FDS <? max_fd) || (max_fd <? min_fd)
  then (ESP_ERR_INVALID_ARG, s) else
  let '(ret, index, s) := esp_vfs_register_common [] LEN_PATH_PREFIX_IGNORED v x malloc s in
  match ret with
  | ESP_OK =>
      let '(busy, s) := claim_fds (Z.to_nat (max_fd - min_fd)) min_fd max_fd index s in
      match busy with
      | Some i => (ESP_ERR_INVALID_ARG, drop_fds min_fd (i - min_fd) index (set_vfs index None s))
      | None => (ESP_OK, s)
      end
  | _ => (ret, s)
  end.

(** The descriptors examined are those below [VFS_MAX_COUNT]. *)
Definition esp_vfs_unregister_with_id (vfs_id : Z) (s : vfs_t) : esp_err_t * vfs_t :=
  if (vfs_id <? 0) || (VFS_MAX_COUNT <=? vfs_id) then (ESP_ERR_INVALID_ARG, s) else
  match s.(s_vfs) vfs_id with
  | None => (ESP_ERR_INVALID_ARG, s)
  | Some _ => (ESP_OK, drop_fds 0 VFS_MAX_COUNT vfs_id (set_vfs vfs_id None s))
  end.

Fixpoint find_prefix (fuel : nat) (i : Z) (base_path : path) (s : vfs_t) : option Z :=
  match fuel with
  | O => None
  | S fuel =>
      if i <? s.(s_vfs_count) then
        match s.(s_vfs) i with
        | None => find_prefix fuel (i + 1) base_path s
        | Some e =>
            if (plen base_path =? e.(path_prefix_len)) &&
               same_prefix base_path e.(path_prefix) e.(path_prefix_len) then Some i
            else find_prefix fuel (i + 1) base_path s
        end
      else None
  end.
Definition esp_vfs_unregister (base_path : path) (s : vfs_t) : esp_err_t * vfs_t :=
  match find_prefix (Z.to_nat VFS_MAX_COUNT) 0 base_path s with
  | Some i => esp_vfs_unregister_with_id i s
  | None => (ESP_ERR_INVALID_STATE, s)
  end.

(** ** Descriptors *)

(** First unused descriptor from [i]. *)
Fixpoint unused_fd (fuel : nat) (i : Z) (s : vfs_t) : option Z :=
  match fuel with
  | O => None
  | S fuel => if vfs_index (s.(s_fd_table) i) =? -1 then Some i else unused_fd fuel (i + 1) s
  end.
(** The fields assigned when a descriptor is taken. *)
Definition take_fd (i : Z) (perm : bool) (vfs_id lfd : Z) (s : vfs_t) : vfs_t :=
  let e := s.(s_fd_table) i in
  set_fd i (FdEntry perm e.(has_pending_close) e.(has_pending_select) vfs_id (u8 lfd)) s.

Definition esp_vfs_register_fd_with_local_fd (vfs_id lfd : Z) (perm : bool) (s : vfs_t)
    : esp_err_t * Z * vfs_t :=
  if (vfs_id <? 0) || (s.(s_vfs_count) <=? vfs_id) then (ESP_ERR_INVALID_ARG, -1, s) else
  match unused_fd (Z.to_nat MAX_FDS) 0 s with
  | None => (ESP_ERR_NO_MEM, -1, s)
  | Some i => (ESP_OK, i, take_fd i perm vfs_id (if 0 <=? lfd then lfd else i) s)
  end.
Definition esp_vfs_register_fd (vfs_id : Z) (s : vfs_t) : esp_err_t * Z * vfs_t :=
  esp_vfs_register_fd_with_local_fd vfs_id (-1) true s.
Definition esp_vfs_unregister_fd (vfs_id fd : Z) (s : vfs_t) : esp_err_t * vfs_t :=
  if (vfs_id <? 0) || (s.(s_vfs_count) <=? vfs_id) || (fd <? 0) || (MAX_FDS <=? fd)
  then (ESP_ERR_INVALID_ARG, s) else
  let item := s.(s_fd_table) fd in
  if item.(permanent) && (item.(vfs_index) =? vfs_id) && (item.(local_fd) =? fd)
  then (ESP_OK, set_fd fd FD_TABLE_ENTRY_UNUSED s) else (ESP_ERR_INVALID_ARG, s).

Definition get_vfs_for_index (index : Z) (s : vfs_t) : option vfs_entry_t :=
  if (index <? 0) || (s.(s_vfs_count) <=? index) then None else s.(s_vfs) index.
Definition fd_valid (fd : Z) : bool := (fd <? MAX_FDS) && (0 <=? fd).
Definition get_vfs_for_fd (fd : Z) (s : vfs_t) : option vfs_entry_t :=
  if fd_valid fd then get_vfs_for_index (vfs_index (s.(s_fd_table) fd)) s else None.
Definition get_local_fd (v : option vfs_entry_t) (fd : Z) (s : vfs_t) : Z :=
  match v with Some _ => if fd_valid fd then local_fd (s.(s_fd_table) fd) else -1 | None => -1 end.

(** ** Paths *)
Definition translate_path (e : vfs_entry_t) (src_path : path) : res path :=
  if negb (same_prefix src_path e.(path_prefix) e.(path_prefix_len)) then Fault FAssert
  else if plen src_path =? e.(path_prefix_len) then Ok [slash]
  else Ok (drop (Z.to_nat e.(path_prefix_len)) src_path).

(** One pass of [get_vfs_for_path] over slot [i]: the best slot so far and
    [best_match_prefix_len]. *)
Definition match_step (p : path) (s : vfs_t) (i : Z) (best : option Z * Z) : option Z * Z :=
  match s.(s_vfs) i with
  | None => best
  | Some e =>
      if e.(path_prefix_len) =? LEN_PATH_PREFIX_IGNORED then best
      else if (plen p <? e.(path_prefix_len)) ||
              negb (same_prefix p e.(path_prefix) e.(path_prefix_len)) then best
      else if (e.(path_prefix_len) =? 0) && bool_decide (fst best = None) then (Some i, snd best)
      else if (e.(path_prefix_len) <? plen p) &&
              negb (char_eqb (char_at p e.(path_prefix_len)) slash) then best
      else if snd best <? e.(path_prefix_len) then (Some i, e.(path_prefix_len))
      else best
  end.
Definition get_vfs_for_path (p : path) (s : vfs_t) : option Z :=
  fst (for_range 0 s.(s_vfs_count) (match_step p s) (None, -1)).

(** ** Calls *)

(** [CHECK_AND_CALL]: [None] when the method is missing. *)
Definition check_and_call (e : vfs_entry_t) (c : vfs_call) (w : W) : option (Z * W) :=
  if negb (v_has e.(vfs) c) then None
  else Some (v_run e.(vfs) (if v_ctx e.(vfs) then Some e.(ctx) else None) c w).
Definition call_or_enosys (e : vfs_entry_t) (c : vfs_call) (w : W) : Z * errno_t * W :=
  match check_and_call e c w with
  | None => (-1, ENOSYS, w)
  | Some (r, w) => (r, E_NONE, w)
  end.

(** A negative result of [open] leaves the file system's [errno]. *)
Definition esp_vfs_open (p : path) (flags mode : Z) (s : vfs_t) (w : W)
    : res (Z * errno_t * vfs_t * W) :=
  match get_vfs_for_path p s with
  | None => Ok (-1, ENOENT, s, w)
  | Some i =>
      match s.(s_vfs) i with
      | None => Fault FUB
      | Some e =>
          path_within_vfs ← translate_path e p;
          match check_and_call e (C_open path_within_vfs flags mode) w with
          | None => Ok (-1, ENOSYS, s, w)
          | Some (fd_within_vfs, w) =>
              if 0 <=? fd_within_vfs then
                match unused_fd (Z.to_nat MAX_FDS) 0 s with
                | Some fd => Ok (fd, E_NONE, take_fd fd false e.(offset) fd_within_vfs s, w)
                | None =>
                    match check_and_call e (C_close fd_within_vfs) w with
                    | None => Ok (-1, ENOSYS, s, w)
                    | Some (_, w) => Ok (-1, ENOMEM, s, w)
                    end
                end
              else Ok (-1, E_NONE, s, w)
          end
      end
  end.

(** Calls on a descriptor: [default] is what happens when it leads nowhere. *)
Definition fd_call (fd : Z) (c : Z → vfs_call) (default : Z * errno_t * W) (s : vfs_t) (w : W)
    : Z * errno_t * W :=
  let e := get_vfs_for_fd fd s in
  let lfd := get_local_fd e fd s in
  match e with
  | Some e => if lfd <? 0 then default else call_or_enosys e (c lfd) w
  | None => default
  end.
(** [rt_hw_console_write] is output to the hardware console. *)
Definition esp_vfs_write (rt_hw_console_write : Z → Z → W → Z * W) (fd src size : Z) (s : vfs_t) (w : W) : Z * errno_t * W :=
  fd_call fd (λ l, C_write l src size)
    (if (fd =? 1) || (fd =? 2) then let '(r, w) := rt_hw_console_write src size w in (r, E_NONE, w)
     else if fd =? 0 then (-1, ENOTSUP, w) else (-1, EBADF, w)) s w.
Definition esp_vfs_read (fd dst size : Z) (s : vfs_t) (w : W) : Z * errno_t * W :=
  fd_call fd (λ l, C_read l dst size)
    (if (fd =? 0) || (fd =? 1) || (fd =? 2) then (-1, ENOTSUP, w) else (-1, EBADF, w)) s w.
Definition esp_vfs_lseek (fd off mode : Z) (s : vfs_t) (w : W) : Z * errno_t * W :=
  fd_call fd (λ l, C_lseek l off mode) (-1, EBADF, w) s w.
Definition esp_vfs_pread (fd dst size off : Z) (s : vfs_t) (w : W) : Z * errno_t * W :=
  fd_call fd (λ l, C_pread l dst size off) (-1, EBADF, w) s w.
Definition esp_vfs_pwrite (fd src size off : Z) (s : vfs_t) (w : W) : Z * errno_t * W :=
  fd_call fd (λ l, C_pwrite l src size off) (-1, EBADF, w) s w.
Definition esp_vfs_fstat (fd st : Z) (s : vfs_t) (w : W) : Z * errno_t * W :=
  fd_call fd (λ l, C_fstat l st) (-1, EBADF, w) s w.
Definition esp_vfs_fcntl_r (fd cmd arg : Z) (s : vfs_t) (w : W) : Z * errno_t * W :=
  fd_call fd (λ l, C_fcntl l cmd arg) (-1, EBADF, w) s w.
Definition esp_vfs_ioctl (fd cmd arg : Z) (s : vfs_t) (w : W) : Z * errno_t * W :=
  fd_call fd (λ l, C_ioctl l cmd arg) (-1, EBADF, w) s w.
Definition esp_vfs_fsync (fd : Z) (s : vfs_t) (w : W) : Z * errno_t * W :=
  fd_call fd C_fsync (-1, EBADF, w) s w.

Definition esp_vfs_close (fd : Z) (s : vfs_t) (w : W) : Z * errno_t * vfs_t * W :=
  let e := get_vfs_for_fd fd s in
  let lfd := get_local_fd e fd s in
  match e with
  | None => (-1, EBADF, s, w)
  | Some e =>
      if lfd <? 0 then (-1, EBADF, s, w) else
      match check_and_call e (C_close lfd) w with
      | None => (-1, ENOSYS, s, w)
      | Some (ret, w) =>
          let f := s.(s_fd_table) fd in
          let s :=
            if f.(permanent) then s
            else if f.(has_pending_select)
            then set_fd fd (FdEntry false true true f.(vfs_index) f.(local_fd)) s
            else set_fd fd FD_TABLE_ENTRY_UNUSED s in
          (ret, E_NONE, s, w)
      end
  end.

(** Calls on one path and on two. *)
Definition path_call (p : path) (c : path → vfs_call) (s : vfs_t) (w : W) : res (Z * errno_t * W) :=
  match get_vfs_for_path p s with
  | None => Ok (-1, ENOENT, w)
  | Some i =>
      match s.(s_vfs) i with
      | None => Fault FUB
      | Some e => q ← translate_path e p; Ok (call_or_enosys e (c q) w)
      end
  end.
Definition esp_vfs_stat (p : path) (st : Z) := path_call p (λ q, C_stat q st).
Definition esp_vfs_utime (p : path) (times : Z) := path_call p (λ q, C_utime q times).
Definition esp_vfs_unlink (p : path) := path_call p C_unlink.
Definition esp_vfs_mkdir (p : path) (mode : Z) := path_call p (λ q, C_mkdir q mode).
Definition esp_vfs_rmdir (p : path) := path_call p C_rmdir.
Definition esp_vfs_access (p : path) (amode : Z) := path_call p (λ q, C_access q amode).
Definition esp_vfs_truncate (p : path) (len : Z) := path_call p (λ q, C_truncate q len).
Definition path_call2 (p1 p2 : path) (c : path → path → vfs_call) (s : vfs_t) (w : W)
    : res (Z * errno_t * W) :=
  match get_vfs_for_path p1 s with
  | None => Ok (-1, ENOENT, w)
  | Some i =>
      if decide (Some i = get_vfs_for_path p2 s) then
        match s.(s_vfs) i with
        | None => Fault FUB
        | Some e => q1 ← translate_path e p1; q2 ← translate_path e p2; Ok (call_or_enosys e (c q1 q2) w)
        end
      else Ok (-1, EXDEV, w)
  end.
Definition esp_vfs_ftruncate (fd len : Z) (s : vfs_t) (w : W) : Z * errno_t * W :=
  fd_call fd (λ l, C_ftruncate l len) (-1, EBADF, w) s w.
Definition esp_vfs_link (p1 p2 : path) := path_call2 p1 p2 C_link.
Definition esp_vfs_rename (p1 p2 : path) := path_call2 p1 p2 C_rename.

(** Directory streams; [None] and a null result are null pointers. *)
Definition esp_vfs_opendir (p : path) (s : vfs_t) (w : W) : res (option DIR * errno_t * W) :=
  match get_vfs_for_path p s with
  | None => Ok (None, ENOENT, w)
  | Some i =>
      match s.(s_vfs) i with
      | None => Fault FUB
      | Some e =>
          q ← translate_path e p;
          match check_and_call e (C_opendir q) w with
          | None => Ok (None, ENOSYS, w)
          | Some (ret, w) =>
              Ok (if ret =? 0 then None else Some (Dir e.(offset) ret), E_NONE, w)
          end
      end
  end.
(** [null] is the result without a method: a null pointer or -1. *)
Definition dir_call (d : DIR) (c : vfs_call) (null : Z) (s : vfs_t) (w : W) : Z * errno_t * W :=
  match get_vfs_for_index d.(dd_vfs_idx) s with
  | None => (null, EBADF, w)
  | Some e =>
      match check_and_call e c w with
      | None => (null, ENOSYS, w)
      | Some (r, w) => (r, E_NONE, w)
      end
  end.
Definition esp_vfs_readdir (d : DIR) := dir_call d (C_readdir d.(dd_object)) 0.
Definition esp_vfs_readdir_r (d : DIR) (entry out_dirent : Z) :=
  dir_call d (C_readdir_r d.(dd_object) entry out_dirent) (-1).
Definition esp_vfs_telldir (d : DIR) := dir_call d (C_telldir d.(dd_object)) (-1).
(** The result of [seekdir] is dropped. *)
Definition esp_vfs_seekdir (d : DIR) (loc : Z) (s : vfs_t) (w : W) : errno_t * W :=
  let '(_, e, w) := dir_call d (C_seekdir d.(dd_object) loc) 0 s w in (e, w).
Definition esp_vfs_rewinddir (d : DIR) := esp_vfs_seekdir d 0.
Definition esp_vfs_closedir (d : DIR) := dir_call d (C_closedir d.(dd_object)) (-1).

(** ** What keeps the tables well formed *)
Definition entry_ok (i : Z) (e : vfs_entry_t) : Prop :=
  e.(offset) = i ∧
  (e.(path_prefix_len) = LEN_PATH_PREFIX_IGNORED ∨
   e.(path_prefix_len) = plen e.(path_prefix) ∧ e.(path_prefix_len) ≤ ESP_VFS_PATH_MAX).
Definition vfs_ok (s : vfs_t) : Prop :=
  0 ≤ s.(s_vfs_count) ≤ VFS_MAX_COUNT ∧
  (∀ i e, s.(s_vfs) i = Some e → 0 ≤ i < s.(s_vfs_count) ∧ entry_ok i e) ∧
  (∀ fd, -1 ≤ vfs_index (s.(s_fd_table) fd) < s.(s_vfs_count) ∧
         in_width 8 (local_fd (s.(s_fd_table) fd))).

Lemma entry_len_nonneg i e : entry_ok i e → 0 ≤ e.(path_prefix_len).
Proof. unfold entry_ok, LEN_PATH_PREFIX_IGNORED, plen. lia. Qed.

Lemma set_vfs_ok i oe s :
  vfs_ok s → (∀ e, oe = Some e → 0 ≤ i < s.(s_vfs_count) ∧ entry_ok i e) → vfs_ok (set_vfs i oe s).
Proof.
  intros (Hc&He&Hf) Hoe. refine (conj Hc (conj _ Hf)). intros k e. unfold set_vfs; simpl.
  destruct (decide (i = k)) as [->|]; [rewrite fn_lookup_insert; apply Hoe|].
  rewrite fn_lookup_insert_ne by done. apply He.
Qed.
Lemma set_fd_ok fd f s :
  vfs_ok s → -1 ≤ vfs_index f < s.(s_vfs_count) → in_width 8 (local_fd f) → vfs_ok (set_fd fd f s).
Proof.
  intros (Hc&He&Hf) Hi Hl. refine (conj Hc (conj He _)). intros k. unfold set_fd; simpl.
  destruct (decide (fd = k)) as [->|]; [by rewrite fn_lookup_insert|].
  rewrite fn_lookup_insert_ne by done. apply Hf.
Qed.
Lemma set_fd_unused_ok fd s : vfs_ok s → vfs_ok (set_fd fd FD_TABLE_ENTRY_UNUSED s).
Proof.
  intros Hs. apply set_fd_ok; [done| |by apply wrap_range]. destruct Hs as (?&_). simpl. lia.
Qed.
Lemma take_fd_ok fd b id l s :
  vfs_ok s → 0 ≤ id < s.(s_vfs_count) → vfs_ok (take_fd fd b id l s).
Proof. intros. apply set_fd_ok; [done|simpl; lia|]. by apply wrap_range. Qed.

(** [drop_fds] frees exactly the descriptors of its range that lead to [id]. *)
Lemma drop_fds_spec lo n id s :
  0 ≤ n → (vfs_ok s → vfs_ok (drop_fds lo n id s)) ∧
  s_vfs (drop_fds lo n id s) = s.(s_vfs) ∧ s_vfs_count (drop_fds lo n id s) = s.(s_vfs_count) ∧
  (∀ fd, s_fd_table (drop_fds lo n id s) fd =
     if decide (lo ≤ fd < lo + n ∧ vfs_index (s.(s_fd_table) fd) = id)
     then FD_TABLE_ENTRY_UNUSED else s.(s_fd_table) fd).
Proof.
  intros Hn. unfold drop_fds.
  refine (for_range_ind (λ k t, (vfs_ok s → vfs_ok t) ∧ t.(s_vfs) = s.(s_vfs) ∧
    t.(s_vfs_count) = s.(s_vfs_count) ∧ ∀ fd, t.(s_fd_table) fd =
     if decide (lo ≤ fd < lo + k ∧ vfs_index (s.(s_fd_table) fd) = id)
     then FD_TABLE_ENTRY_UNUSED else s.(s_fd_table) fd) lo n _ s Hn _ _).
  - split_and!; [done..|]. intros fd. by rewrite decide_False by lia.
  - intros k t Hk (Hok&Hv&Hc&Hf). rewrite Hf, (decide_False (P := lo ≤ lo + k < lo + k ∧ _)) by lia.
    destruct (Z.eqb_spec (vfs_index (s_fd_table s (lo + k))) id) as [He|He]; (split_and!; [|done..|]).
    + intros. by apply set_fd_unused_ok, Hok.
    + intros fd. unfold set_fd; simpl. destruct (decide (lo + k = fd)) as [<-|].
      * rewrite fn_lookup_insert, decide_True; [done|]. split; [lia|done].
      * rewrite fn_lookup_insert_ne, Hf by done. repeat case_decide; done || lia.
    + done.
    + intros fd. rewrite Hf. destruct (decide (lo + k = fd)) as [<-|]; repeat case_decide; tauto || lia.
Qed.

Lemma free_slot_spec fuel i s :
  0 ≤ i ≤ s.(s_vfs_count) → s.(s_vfs_count) - i ≤ Z.of_nat fuel →
  let j := free_slot fuel i s in
  i ≤ j ≤ s.(s_vfs_count) ∧ (j < s.(s_vfs_count) → s.(s_vfs) j = None) ∧
  ∀ k, i ≤ k < j → is_Some (s.(s_vfs) k).
Proof.
  revert i. induction fuel as [|fuel IH]; intros i Hi Hf; simpl; [split_and!; lia|].
  destruct (Z.ltb_spec i (s_vfs_count s)); [|split_and!; lia].
  destruct (s_vfs s i) eqn:E; [|split_and!; done || lia].
  destruct (IH (i + 1)) as (?&?&Hk); [lia..|]. split_and!; [lia..|done|].
  intros k ?. destruct (decide (k = i)) as [->|]; [by rewrite E|]. apply Hk. lia.
Qed.
Lemma unused_fd_spec fuel i s :
  match unused_fd fuel i s with
  | Some j => i ≤ j < i + Z.of_nat fuel ∧ vfs_index (s.(s_fd_table) j) = -1 ∧
              ∀ k, i ≤ k < j → vfs_index (s.(s_fd_table) k) ≠ -1
  | None => ∀ k, i ≤ k < i + Z.of_nat fuel → vfs_index (s.(s_fd_table) k) ≠ -1
  end.
Proof.
  revert i. induction fuel as [|fuel IH]; intros i; simpl; [lia|].
  destruct (Z.eqb_spec (vfs_index (s_fd_table s i)) (-1)) as [E|E]; [split_and!; done || lia|].
  specialize (IH (i + 1)). destruct (unused_fd fuel (i + 1) s) as [j|].
  - destruct IH as (?&?&Hk). split_and!; [lia..|]. intros k ?.
    destruct (decide (k = i)) as [->|]; [done|]. apply Hk. lia.
  - intros k ?. destruct (decide (k = i)) as [->|]; [done|]. apply IH. lia.
Qed.

Lemma register_common_spec p len v x malloc s e i s' :
  vfs_ok s → len = LEN_PATH_PREFIX_IGNORED ∨ len = plen p →
  esp_vfs_register_common p len v x malloc s = (e, i, s') →
  match e with
  | ESP_OK =>
      let prefix := if len =? LEN_PATH_PREFIX_IGNORED then [] else p in
      vfs_ok s' ∧ 0 ≤ i < s'.(s_vfs_count) ∧ s.(s_vfs_count) ≤ s'.(s_vfs_count) ∧
      s.(s_vfs) i = None ∧ (∀ k, 0 ≤ k < i → is_Some (s.(s_vfs) k)) ∧
      s'.(s_vfs) = <[i := Some (VfsEntry v prefix len x i)]> s.(s_vfs) ∧
      s'.(s_fd_table) = s.(s_fd_table)
  | _ => s' = s ∧ i = -1
  end.
Proof.
  intros Hs Hlen. unfold esp_vfs_register_common. pose proof Hs as ((Hc0&Hc8)&He&Hf).
  destruct (free_slot_spec (Z.to_nat VFS_MAX_COUNT) 0 s) as (Hj&Hnone&Hsome); [unfold VFS_MAX_COUNT in *; lia..|].
  set (j := free_slot _ _ _) in *. clearbody j.
  destruct (negb _ && ((len =? 1) || _)) eqn:E1; [intros [= <- <- <-]; done|].
  destruct (negb _ && _ && _) eqn:E2; [intros [= <- <- <-]; done|].
  destruct malloc; [simpl|intros [= <- <- <-]; done].
  destruct ((j =? s_vfs_count s) && _) eqn:E3; [intros [= <- <- <-]; done|].
  intros [= <- <- <-]. simpl.
  assert (s_vfs s j = None) as Hj0.
  { destruct (decide (j < s_vfs_count s)); [auto|]. destruct (s_vfs s j) eqn:E; [|done].
    apply He in E. lia. }
  set (c := if j =? s_vfs_count s then _ else _).
  assert (0 ≤ c ≤ VFS_MAX_COUNT ∧ j < c ∧ s_vfs_count s ≤ c) as (?&?&?).
  { subst c. destruct (Z.eqb_spec j (s_vfs_count s)); [|lia].
    apply andb_false_iff in E3 as [E3|E3]; lia. }
  clearbody c. split; [|split_and!; done || lia].
  refine (conj _ (conj _ _)); simpl; [done| |].
  - intros k e. destruct (decide (j = k)) as [<-|].
    + rewrite fn_lookup_insert. intros [= <-]. split; [lia|]. split; [done|]. simpl.
      destruct (Z.eqb_spec len LEN_PATH_PREFIX_IGNORED); [by left|]. right.
      destruct Hlen as [?|Hlen]; [done|]. split; [done|].
      apply andb_false_iff in E1 as [E1|E1]; [done|].
      apply orb_false_iff in E1. lia.
    + rewrite fn_lookup_insert_ne by done. intros E. apply He in E. split; [lia|apply E].
  - intros fd. simpl. pose proof (Hf fd). lia.
Qed.

Lemma claim_fds_ok fuel i mx index s :
  vfs_ok s → 0 ≤ index < s.(s_vfs_count) →
  vfs_ok (snd (claim_fds fuel i mx index s)) ∧
  s_vfs_count (snd (claim_fds fuel i mx index s)) = s.(s_vfs_count) ∧
  match fst (claim_fds fuel i mx index s) with Some b => i ≤ b < mx | None => True end.
Proof.
  revert i s. induction fuel as [|fuel IH]; intros i s Hs Hi; simpl; [done|].
  destruct (Z.ltb_spec i mx); [|done]. destruct (negb _); [by split_and!|].
  set (s1 := set_fd _ _ _). destruct (IH (i + 1) s1) as (?&?&Hb).
  - apply set_fd_ok; [done|simpl; lia|by apply wrap_range].
  - done.
  - split_and!; [done..|]. destruct (fst _); [lia|done].
Qed.

(** ** Every state the switch can be in *)
Inductive vfs_step : vfs_t → vfs_t → Prop :=
| S_register p v x m s : vfs_step s (snd (esp_vfs_register p v x m s))
| S_register_with_id v x m s : vfs_step s (snd (esp_vfs_register_with_id v x m s))
| S_register_fd_range v x lo hi m s : vfs_step s (snd (esp_vfs_register_fd_range v x lo hi m s))
| S_unregister p s : vfs_step s (snd (esp_vfs_unregister p s))
| S_unregister_with_id id s : vfs_step s (snd (esp_vfs_unregister_with_id id s))
| S_register_fd id lfd b s : vfs_step s (snd (esp_vfs_register_fd_with_local_fd id lfd b s))
| S_unregister_fd id fd s : vfs_step s (snd (esp_vfs_unregister_fd id fd s))
| S_open p flags mode s w r e s' w' :
    esp_vfs_open p flags mode s w = Ok (r, e, s', w') → vfs_step s s'
| S_close fd s w r e s' w' : esp_vfs_close fd s w = (r, e, s', w') → vfs_step s s'.
Definition vfs_init : vfs_t := Vfs (λ _, None) 0 (λ _, FD_TABLE_ENTRY_UNUSED).
Inductive vfs_reachable : vfs_t → Prop :=
| R_init : vfs_reachable vfs_init
| R_step s s' : vfs_reachable s → vfs_step s s' → vfs_reachable s'.

Lemma unregister_with_id_spec id s :
  (esp_vfs_unregister_with_id id s = (ESP_ERR_INVALID_ARG, s) ∧
   (id < 0 ∨ VFS_MAX_COUNT ≤ id ∨ s.(s_vfs) id = None)) ∨
  (esp_vfs_unregister_with_id id s = (ESP_OK, drop_fds 0 VFS_MAX_COUNT id (set_vfs id None s)) ∧
   0 ≤ id < VFS_MAX_COUNT ∧ is_Some (s.(s_vfs) id)).
Proof.
  unfold esp_vfs_unregister_with_id.
  destruct (Z.ltb_spec id 0); [left; split; [done|lia]|].
  destruct (Z.leb_spec VFS_MAX_COUNT id); [left; split; [done|lia]|]. simpl.
  destruct (s_vfs s id) eqn:E; [right|left]; (split; [done|auto]).
Qed.
Lemma unregister_with_id_ok id s : vfs_ok s → vfs_ok (snd (esp_vfs_unregister_with_id id s)).
Proof.
  intros Hs. destruct (unregister_with_id_spec id s) as [(->&_)|(->&?&_)]; simpl; [done|].
  apply (drop_fds_spec 0 VFS_MAX_COUNT id); [done|]. by apply set_vfs_ok.
Qed.
Lemma register_ok p len v x m s :
  vfs_ok s → len = LEN_PATH_PREFIX_IGNORED ∨ len = plen p →
  vfs_ok (snd (esp_vfs_register_common p len v x m s)).
Proof.
  intros Hs Hl. destruct (esp_vfs_register_common _ _ _ _ _ _) as [[e i] s'] eqn:E.
  apply register_common_spec in E; [|done..]. destruct e; simpl; [apply E|by destruct E as [-> _]..].
Qed.

Lemma register_fd_range_ok v x lo hi m s :
  vfs_ok s → vfs_ok (snd (esp_vfs_register_fd_range v x lo hi m s)).
Proof.
  intros Hs. unfold esp_vfs_register_fd_range. destruct (_ || _); [done|].
  destruct (esp_vfs_register_common _ _ _ _ _ _) as [[e i] s'] eqn:E.
  apply register_common_spec in E; [|by auto..].
  destruct e; simpl; [|by destruct E as [-> _]..]. destruct E as (Hs'&Hi&_).
  destruct (claim_fds_ok (Z.to_nat (hi - lo)) lo hi i s' Hs' Hi) as (Hc&Hn&Hb).
  destruct (claim_fds _ _ _ _ _) as [[b|] s2]; simpl in *; [|done].
  apply (drop_fds_spec lo (b - lo) i); [lia|]. by apply set_vfs_ok.
Qed.

(** ** Path resolution *)

(** The entry is mounted at [p] or above it: its prefix is a whole-component
    prefix of [p]; the empty prefix is above every path. *)
Definition mounted_at (p : path) (e : vfs_entry_t) : Prop :=
  e.(path_prefix_len) ≠ LEN_PATH_PREFIX_IGNORED ∧ e.(path_prefix_len) ≤ plen p ∧
  same_prefix p e.(path_prefix) e.(path_prefix_len) = true ∧
  (e.(path_prefix_len) = 0 ∨ e.(path_prefix_len) = plen p ∨
   char_at p e.(path_prefix_len) = slash).

Definition best_ok (p : path) (s : vfs_t) (k : Z) (b : option Z * Z) : Prop :=
  match b with
  | (None, l) => l = -1 ∧ ∀ j e, 0 ≤ j < k → s.(s_vfs) j = Some e → ¬ mounted_at p e
  | (Some i, l) =>
      ∃ e, 0 ≤ i < k ∧ s.(s_vfs) i = Some e ∧ mounted_at p e ∧
      (l = e.(path_prefix_len) ∨ l = -1 ∧ e.(path_prefix_len) = 0) ∧
      ∀ j e', 0 ≤ j < k → s.(s_vfs) j = Some e' → mounted_at p e' →
        e'.(path_prefix_len) ≤ e.(path_prefix_len)
  end.

(** A pass that keeps the best entry, and one that replaces it. *)
Lemma best_ok_keep p s k b :
  best_ok p s k b → 0 ≤ k →
  (∀ e, s.(s_vfs) k = Some e → mounted_at p e →
     ∃ i e0, fst b = Some i ∧ s.(s_vfs) i = Some e0 ∧ e.(path_prefix_len) ≤ e0.(path_prefix_len)) →
  best_ok p s (k + 1) b.
Proof.
  destruct b as [[i|] l]; simpl.
  - intros (e&?&He&Hm&Hl&Hmax) ? Hk. exists e. split_and!; try done; try lia.
    intros j e' ? Hj Hm'. destruct (decide (j = k)) as [->|].
    + destruct (Hk e' Hj Hm') as (i'&e0&[= <-]&He0&?). rewrite He in He0. by injection He0 as <-.
    + apply (Hmax j); done || lia.
  - intros (->&Hno) ? Hk. split; [done|]. intros j e' ? Hj Hm'. destruct (decide (j = k)) as [->|].
    + destruct (Hk e' Hj Hm') as (i'&e0&?&_). done.
    + eapply (Hno j); done || lia.
Qed.
Lemma best_ok_take p s k b l e :
  best_ok p s k b → 0 ≤ k → s.(s_vfs) k = Some e → mounted_at p e →
  (∀ i e0, fst b = Some i → s.(s_vfs) i = Some e0 → e0.(path_prefix_len) ≤ e.(path_prefix_len)) →
  l = e.(path_prefix_len) ∨ l = -1 ∧ e.(path_prefix_len) = 0 →
  best_ok p s (k + 1) (Some k, l).
Proof.
  intros Hb ? He Hm Hle Hl. exists e. split_and!; try done; try lia.
  intros j e' ? Hj Hm'. destruct (decide (j = k)) as [->|]; [rewrite He in Hj; by injection Hj as <-|].
  destruct b as [[i|] l0]; simpl in *.
  - destruct Hb as (e0&?&He0&_&_&Hmax). specialize (Hle i e0 eq_refl He0).
    specialize (Hmax j e' ltac:(lia) Hj Hm'). lia.
  - destruct Hb as [_ Hno]. by destruct (Hno j e' ltac:(lia) Hj).
Qed.

Lemma match_step_ok p s k b :
  vfs_ok s → 0 ≤ k → best_ok p s k b → best_ok p s (k + 1) (match_step p s k b).
Proof.
  intros Hs Hk Hb. unfold match_step.
  destruct (s_vfs s k) as [e|] eqn:He; [|apply best_ok_keep; [done..|]; congruence].
  destruct Hs as (_&Hent&_). destruct (Hent k e He) as [_ Hok].
  pose proof (entry_len_nonneg _ _ Hok) as Hlen.
  destruct (Z.eqb_spec (path_prefix_len e) LEN_PATH_PREFIX_IGNORED) as [Hi|Hi].
  { apply best_ok_keep; [done..|]. intros e0 E0 [? _]. rewrite He in E0. by injection E0 as <-. }
  destruct ((plen p <? _) || _) eqn:Hpre.
  { apply best_ok_keep; [done..|]. intros e0 E0 (_&?&Hsame&_). rewrite He in E0. injection E0 as <-.
    rewrite Hsame in Hpre. simpl in Hpre. lia. }
  apply orb_false_iff in Hpre as [Hpl Hsame]. apply Z.ltb_ge in Hpl. apply negb_false_iff in Hsame.
  destruct ((path_prefix_len e =? 0) && _) eqn:Hdef.
  { apply andb_true_iff in Hdef as [Hz Hnone]. apply Z.eqb_eq in Hz.
    apply bool_decide_eq_true in Hnone. destruct b as [o l]; simpl in *. subst o.
    apply (best_ok_take p s k (None, l) l e); try done; [split_and!; auto|].
    right. split; [apply Hb|done]. }
  destruct ((path_prefix_len e <? plen p) && _) eqn:Hsep.
  { apply best_ok_keep; [done..|]. intros e0 E0 (_&?&_&Hm). rewrite He in E0. injection E0 as <-.
    apply andb_true_iff in Hsep as [Hlt Hsep]. destruct Hm as [Hz|[?|Hm]]; [|lia|].
    - rewrite Hz in Hdef. simpl in Hdef. apply bool_decide_eq_false in Hdef.
      destruct b as [[i|] l]; [|done]. destruct Hb as (e0&?&He0&Hm0&_). exists i, e0.
      split_and!; [done..|]. destruct (Hent i e0 He0) as [_ Hok0].
      rewrite Hz. by eapply entry_len_nonneg.
    - rewrite Hm in Hsep. done. }
  assert (mounted_at p e) as Hm.
  { split_and!; try done. apply andb_false_iff in Hsep as [Hsep|Hsep]; [right; left; lia|].
    right; right. apply negb_false_iff in Hsep. by apply Ascii.eqb_eq. }
  destruct b as [[i|] l]; simpl.
  - pose proof Hb as (e0&?&He0&Hm0&Hl&_). destruct (Z.ltb_spec l (path_prefix_len e)).
    + eapply best_ok_take; try done; [|by left]. intros i' e0' [= <-] E. rewrite He0 in E.
      injection E as <-. lia.
    + apply best_ok_keep; [done..|]. intros e' E' _. rewrite He in E'. injection E' as <-.
      exists i, e0. split_and!; [done..|]. lia.
  - pose proof Hb as [-> _]. destruct (Z.ltb_spec (-1) (path_prefix_len e)); [|lia].
    eapply best_ok_take; try done. by left.
Qed.
Lemma get_vfs_for_path_best p s :
  vfs_ok s → ∃ l, best_ok p s s.(s_vfs_count) (get_vfs_for_path p s, l).
Proof.
  intros Hs. unfold get_vfs_for_path.
  assert (best_ok p s (s_vfs_count s) (for_range 0 (s_vfs_count s) (match_step p s) (None, -1))) as H.
  { apply for_range_ind; [by destruct Hs as ([]&_)| |].
    - split; [done|lia].
    - intros k t Hk. apply match_step_ok; [done|lia]. }
  destruct (for_range _ _ _ _) as [o l]. by exists l.
Qed.

(** C8: [get_vfs_for_path] is the longest-prefix match over whole path
    components: the slot it returns holds a registered entry mounted at or above
    the path and no registered entry mounted there has a longer prefix; it
    returns nothing exactly when no entry is mounted at or above the path; and
    the path it finds is never refused by the assertion of [translate_path],
    which strips the prefix (an exact match becomes the root). *)
Theorem get_vfs_for_path_longest p s (Hs : vfs_ok s) :
  match get_vfs_for_path p s with
  | Some i =>
      ∃ e, s.(s_vfs) i = Some e ∧ mounted_at p e ∧
      (∀ j e', s.(s_vfs) j = Some e' → mounted_at p e' →
        e'.(path_prefix_len) ≤ e.(path_prefix_len)) ∧
      translate_path e p = Ok (if plen p =? e.(path_prefix_len) then [slash]
                               else drop (Z.to_nat e.(path_prefix_len)) p)
  | None => ∀ j e', s.(s_vfs) j = Some e' → ¬ mounted_at p e'
  end.
Proof.
  destruct (get_vfs_for_path_best p s Hs) as [l Hb]. destruct Hs as (_&Hent&_).
  destruct (get_vfs_for_path p s) as [i|]; simpl in Hb.
  - destruct Hb as (e&?&He&Hm&_&Hmax). exists e. split_and!; try done.
    + intros j e' Hj. apply (Hmax j); [|done]. by apply (Hent j) in Hj as [? _].
    + destruct Hm as (_&_&Hsame&_). unfold translate_path. rewrite Hsame. simpl. by destruct (_ =? _).
  - destruct Hb as [_ Hno]. intros j e' Hj. apply (Hno j); [|done]. by apply (Hent j) in Hj as [? _].
Qed.

(** ** Descriptors *)
Lemma path_entry p s :
  vfs_ok s →
  (get_vfs_for_path p s = None) ∨
  ∃ i e q, get_vfs_for_path p s = Some i ∧ s.(s_vfs) i = Some e ∧ e.(offset) = i ∧
    0 ≤ i < s.(s_vfs_count) ∧ translate_path e p = Ok q.
Proof.
  intros Hs. destruct (get_vfs_for_path_best p s Hs) as [l Hb].
  destruct (get_vfs_for_path p s) as [i|]; [right|by left]. simpl in Hb.
  destruct Hb as (e&?&He&(_&_&Hsame&_)&_). exists i, e.
  destruct Hs as (_&Hent&_). apply Hent in He as Hi. destruct Hi as [? [? _]].
  unfold translate_path. rewrite Hsame. simpl. destruct (_ =? _); eexists; split_and!; done || lia.
Qed.
Lemma path_call_returns p c s w : vfs_ok s → ∃ a, path_call p c s w = Ok a.
Proof.
  intros Hs. unfold path_call. destruct (path_entry p s Hs) as [->|(i&e&q&->&->&_&_&->)]; by eexists.
Qed.
Lemma path_call2_returns p1 p2 c s w : vfs_ok s → ∃ a, path_call2 p1 p2 c s w = Ok a.
Proof.
  intros Hs. unfold path_call2.
  destruct (path_entry p1 s Hs) as [->|(i&e&q&->&He&_&_&Hq)]; [by eexists|].
  destruct (decide _) as [E|]; [|by eexists]. rewrite He, Hq. simpl.
  destruct (path_entry p2 s Hs) as [E2|(i2&e2&q2&E2&He2&_&_&Hq2)]; rewrite E2 in E; [done|].
  injection E as <-. rewrite He in He2. injection He2 as <-. rewrite Hq2. by eexists.
Qed.

(** What [open] does once the path is resolved. *)
Lemma open_cases p flags mode s w :
  vfs_ok s →
  (get_vfs_for_path p s = None ∧ esp_vfs_open p flags mode s w = Ok (-1, ENOENT, s, w)) ∨
  ∃ i e q, get_vfs_for_path p s = Some i ∧ s.(s_vfs) i = Some e ∧ e.(offset) = i ∧
    0 ≤ i < s.(s_vfs_count) ∧ translate_path e p = Ok q ∧
    esp_vfs_open p flags mode s w =
      match check_and_call e (C_open q flags mode) w with
      | None => Ok (-1, ENOSYS, s, w)
      | Some (l, w1) =>
          if l <? 0 then Ok (-1, E_NONE, s, w1) else
          match unused_fd (Z.to_nat MAX_FDS) 0 s with
          | Some fd => Ok (fd, E_NONE, take_fd fd false i l s, w1)
          | None => match check_and_call e (C_close l) w1 with
                    | None => Ok (-1, ENOSYS, s, w1)
                    | Some (_, w2) => Ok (-1, ENOMEM, s, w2)
                    end
          end
      end.
Proof.
  intros Hs. destruct (path_entry p s Hs) as [E|(i&e&q&E&He&Ho&Hi&Hq)];
    [left|right; exists i, e, q; split_and!; try done; try lia]; unfold esp_vfs_open;
    rewrite E; [done|]. rewrite He, Hq. simpl.
  destruct (check_and_call _ _ _) as [[l w1]|]; [|done].
  rewrite Z.leb_antisym. destruct (l <? 0); simpl; [done|].
  destruct (unused_fd _ _ _); [by rewrite Ho|done].
Qed.
Lemma close_cases fd s w :
  esp_vfs_close fd s w = (-1, EBADF, s, w) ∨
  ∃ e, get_vfs_for_fd fd s = Some e ∧
    (esp_vfs_close fd s w = (-1, ENOSYS, s, w) ∨
     ∃ r w', esp_vfs_close fd s w =
       (r, E_NONE,
        if permanent (s.(s_fd_table) fd) then s
        else if has_pending_select (s.(s_fd_table) fd)
        then set_fd fd (FdEntry false true true (vfs_index (s.(s_fd_table) fd))
                          (local_fd (s.(s_fd_table) fd))) s
        else set_fd fd FD_TABLE_ENTRY_UNUSED s, w')).
Proof.
  unfold esp_vfs_close. destruct (get_vfs_for_fd fd s) as [e|]; [|by left].
  destruct (_ <? 0); [by left|]. right. exists e. split; [done|].
  destruct (check_and_call _ _ _) as [[r w']|]; [right|by left]. by exists r, w'.
Qed.

Lemma vfs_step_ok s s' : vfs_ok s → vfs_step s s' → vfs_ok s'.
Proof.
  intros Hs Hstep. revert Hs. destruct Hstep as [p v x m t|v x m t|v x lo hi m t|p t|id t|id lfd b t
    |id fd t|p flags mode t w r e t' w' E|fd t w r e t' w' E]; intros Hs.
  - unfold esp_vfs_register. pose proof (register_ok p (plen p) v x m t Hs (or_intror eq_refl)).
    by destruct (esp_vfs_register_common _ _ _ _ _ _) as [[]].
  - apply register_ok; auto.
  - by apply register_fd_range_ok.
  - unfold esp_vfs_unregister. destruct (find_prefix _ _ _ _); [by apply unregister_with_id_ok|done].
  - by apply unregister_with_id_ok.
  - unfold esp_vfs_register_fd_with_local_fd. destruct (_ || _) eqn:Eb; [done|].
    apply orb_false_iff in Eb. destruct (unused_fd _ _ _); simpl; [|done].
    apply take_fd_ok; [done|lia].
  - unfold esp_vfs_unregister_fd. destruct (_ || _); [done|]. destruct (_ && _); [|done].
    by apply set_fd_unused_ok.
  - destruct (open_cases p flags mode t w Hs) as [[_ E']|(i&e0&q&_&_&_&Hi&_&E')];
      rewrite E' in E; [by injection E as _ _ <- _|].
    destruct (check_and_call _ _ _) as [[l w1]|]; [|by injection E as _ _ <- _].
    destruct (l <? 0); [by injection E as _ _ <- _|].
    destruct (unused_fd _ _ _); [injection E as _ _ <- _; by apply take_fd_ok|].
    destruct (check_and_call _ _ _) as [[??]|]; by injection E as _ _ <- _.
  - destruct (close_cases fd t w) as [E'|(e0&_&[E'|(r0&w0&E')])]; rewrite E' in E;
      injection E as _ _ <- _; [done..|].
    destruct (permanent _); [done|]. destruct (has_pending_select _); [|by apply set_fd_unused_ok].
    pose proof Hs as (_&_&Hf). apply set_fd_ok; [done|apply Hf..].
Qed.

(** C10: whatever sequence of registrations, unregistrations, opens and closes
    runs, in any order and with any file systems, the tables stay well formed
    (at most eight slots, prefixes of at most fifteen characters with their true
    length, every descriptor free or leading to a slot in use at some time), and
    in every such state no path call is stopped by the assertion of
    [translate_path]: it returns, and so do the calls on two paths and
    [opendir]. *)
Theorem vfs_reachable_ok s (Hr : vfs_reachable s) :
  vfs_ok s ∧
  (∀ p flags mode w, ∃ a, esp_vfs_open p flags mode s w = Ok a) ∧
  (∀ p c w, ∃ a, path_call p c s w = Ok a) ∧
  (∀ p1 p2 c w, ∃ a, path_call2 p1 p2 c s w = Ok a) ∧
  (∀ p w, ∃ a, esp_vfs_opendir p s w = Ok a).
Proof.
  assert (vfs_ok s) as Hs.
  { induction Hr as [|s s' _ IH Hstep]; [|by eapply vfs_step_ok].
    refine (conj _ (conj _ _)); simpl; [done..|]. intros. split; [done|]. by apply wrap_range. }
  split_and!; [done| |intros; by apply path_call_returns|intros; by apply path_call2_returns|].
  2: { intros p w. unfold esp_vfs_opendir.
       destruct (path_entry p s Hs) as [->|(i&e&q&->&->&_&_&->)]; [by eexists|]. simpl.
       destruct (check_and_call _ _ _) as [[??]|]; by eexists. }
  intros p flags mode w. destruct (open_cases p flags mode s w Hs) as [[_ ->]|(i&e&q&_&_&_&_&_&->)].
  { by eexists. }
  repeat case_match; by eexists.
Qed.

Lemma get_vfs_for_fd_valid fd s :
  0 ≤ fd < MAX_FDS → get_vfs_for_fd fd s = get_vfs_for_index (vfs_index (s.(s_fd_table) fd)) s.
Proof. intros. unfold get_vfs_for_fd, fd_valid. by rewrite (proj2 (Z.ltb_lt _ _)), (proj2 (Z.leb_le _ _)) by lia. Qed.
Lemma get_vfs_for_index_in i s : 0 ≤ i < s.(s_vfs_count) → get_vfs_for_index i s = s.(s_vfs) i.
Proof.
  intros. unfold get_vfs_for_index.
  by rewrite (proj2 (Z.ltb_ge _ _)), (proj2 (Z.leb_gt _ _)) by lia.
Qed.
Lemma get_local_fd_valid e fd s :
  0 ≤ fd < MAX_FDS → get_local_fd (Some e) fd s = local_fd (s.(s_fd_table) fd).
Proof.
  intros. unfold get_local_fd, fd_valid.
  by rewrite (proj2 (Z.ltb_lt _ _)), (proj2 (Z.leb_le _ _)) by lia.
Qed.
(** A descriptor that leads to an entry delegates to it. *)
Lemma fd_call_delegates e fd c d s w :
  0 ≤ fd < MAX_FDS → get_vfs_for_fd fd s = Some e → 0 ≤ local_fd (s.(s_fd_table) fd) →
  fd_call fd c d s w = call_or_enosys e (c (local_fd (s.(s_fd_table) fd))) w.
Proof.
  intros Hfd He Hl. unfold fd_call. rewrite He, get_local_fd_valid by done.
  by rewrite (proj2 (Z.ltb_ge _ _)) by lia.
Qed.

(** What a descriptor that [esp_vfs_open] has just given out is good for: it leads to the
    file system and to the local descriptor, calls are delegated there, and closing it
    frees it, unless a [select] is waiting on it: then it is marked, and freed later. *)
Definition opened (e : vfs_entry_t) (i l fd : Z) (s s' : vfs_t) : Prop :=
  0 ≤ fd < MAX_FDS ∧ vfs_index (s.(s_fd_table) fd) = -1 ∧
  (∀ k, 0 ≤ k < fd → vfs_index (s.(s_fd_table) k) ≠ -1) ∧
  get_vfs_for_fd fd s' = Some e ∧
  (∀ dst size w2, esp_vfs_read fd dst size s' w2 = call_or_enosys e (C_read (u8 l) dst size) w2) ∧
  s'.(s_vfs) = s.(s_vfs) ∧ (∀ k, k ≠ fd → s'.(s_fd_table) k = s.(s_fd_table) k) ∧
  ∀ w2,
    match check_and_call e (C_close (u8 l)) w2 with
    | None => esp_vfs_close fd s' w2 = (-1, ENOSYS, s', w2)
    | Some (r, w3) => ∃ s'', esp_vfs_close fd s' w2 = (r, E_NONE, s'', w3) ∧ s''.(s_vfs) = s.(s_vfs) ∧
        (∀ k, k ≠ fd → s''.(s_fd_table) k = s.(s_fd_table) k) ∧
        if has_pending_select (s.(s_fd_table) fd)
        then s''.(s_fd_table) fd = FdEntry false true true i (u8 l)
        else vfs_index (s''.(s_fd_table) fd) = -1 ∧ get_vfs_for_fd fd s'' = None
    end.
Lemma take_fd_opened e i l fd s :
  vfs_ok s → s.(s_vfs) i = Some e → 0 ≤ fd < MAX_FDS → vfs_index (s.(s_fd_table) fd) = -1 →
  (∀ k, 0 ≤ k < fd → vfs_index (s.(s_fd_table) k) ≠ -1) → opened e i l fd s (take_fd fd false i l s).
Proof.
  intros Hs He Hv Hu Hlow. destruct Hs as (_&Hes&_). destruct (Hes _ _ He) as [Hi _].
  assert (s_fd_table (take_fd fd false i l s) fd =
          FdEntry false (has_pending_close (s_fd_table s fd)) (has_pending_select (s_fd_table s fd)) i (u8 l))
    as Hf by apply fn_lookup_insert.
  assert (get_vfs_for_fd fd (take_fd fd false i l s) = Some e) as Hlead.
  { rewrite get_vfs_for_fd_valid, Hf by done. simpl. by rewrite get_vfs_for_index_in. }
  assert (0 ≤ u8 l) by (apply wrap_range; lia).
  assert (∀ k, k ≠ fd → s_fd_table (take_fd fd false i l s) k = s_fd_table s k) as Hother.
  { intros k' ?. unfold take_fd, set_fd; simpl. by rewrite fn_lookup_insert_ne. }
  unfold opened. split_and!; try done; try lia.
  - intros. unfold esp_vfs_read. by rewrite (fd_call_delegates e), Hf by (done || rewrite Hf; done).
  - intros w2. unfold esp_vfs_close. rewrite Hlead, get_local_fd_valid, Hf by done. simpl.
    rewrite (proj2 (Z.ltb_ge _ _)) by lia. destruct (check_and_call e _ w2) as [[r w3]|]; [|done].
    eexists. split; [done|]. destruct (has_pending_select (s_fd_table s fd)); (split; [done|]); split.
    1,3: intros k' ?; unfold set_fd at 1; simpl; rewrite fn_lookup_insert_ne by done; by apply Hother.
    + unfold set_fd; simpl. by rewrite fn_lookup_insert.
    + split; [unfold set_fd; simpl; by rewrite fn_lookup_insert|].
      rewrite get_vfs_for_fd_valid by done. unfold set_fd; simpl. by rewrite fn_lookup_insert.
Qed.

(** C9: [esp_vfs_open] on every branch.  A path that no file system serves is [ENOENT] and
    a file system without the method [ENOSYS]; otherwise the file system the path resolves
    to is asked, with the path inside it.  When it refuses, nothing changes; when it answers
    with a local descriptor, the lowest free global one is taken: it then leads to that file
    system and to the local descriptor (which is stored in eight bits), calls on it are
    delegated there, no other descriptor and no registration changes, and closing it frees
    it again, or marks it when a [select] is waiting; when every descriptor is taken the
    local one is closed and the answer is [ENOMEM], or [ENOSYS] when the file system cannot
    close, and the tables are unchanged. *)
Theorem esp_vfs_open_spec p flags mode s w (Hs : vfs_ok s) :
  match get_vfs_for_path p s with
  | None => esp_vfs_open p flags mode s w = Ok (-1, ENOENT, s, w)
  | Some i => ∃ e q, s.(s_vfs) i = Some e ∧ translate_path e p = Ok q ∧
      match check_and_call e (C_open q flags mode) w with
      | None => esp_vfs_open p flags mode s w = Ok (-1, ENOSYS, s, w)
      | Some (l, w1) =>
          (l < 0 → esp_vfs_open p flags mode s w = Ok (-1, E_NONE, s, w1)) ∧
          (0 ≤ l → (∀ k, 0 ≤ k < MAX_FDS → vfs_index (s.(s_fd_table) k) ≠ -1) →
            esp_vfs_open p flags mode s w =
              match check_and_call e (C_close l) w1 with
              | None => Ok (-1, ENOSYS, s, w1)
              | Some (_, w2) => Ok (-1, ENOMEM, s, w2)
              end) ∧
          (0 ≤ l → (∃ k, 0 ≤ k < MAX_FDS ∧ vfs_index (s.(s_fd_table) k) = -1) →
            ∃ fd s', esp_vfs_open p flags mode s w = Ok (fd, E_NONE, s', w1) ∧ opened e i l fd s s')
      end
  end.
Proof.
  destruct (open_cases p flags mode s w Hs) as [[E E']|(i&e&q&E&He&_&Hi&Hq&->)]; rewrite E; [done|].
  exists e, q. split; [done|]. split; [done|].
  destruct (check_and_call e (C_open q flags mode) w) as [[l w1]|]; [|done].
  pose proof (unused_fd_spec (Z.to_nat MAX_FDS) 0 s) as Hu.
  destruct (Z.ltb_spec l 0); [split; [done|]; split; lia|]. split; [lia|]. split.
  - intros _ Hall. destruct (unused_fd _ 0 s) as [fd|]; [|by destruct (check_and_call e _ w1) as [[? ?]|]].
    destruct Hu as (?&Hu&_). destruct (Hall fd ltac:(lia) Hu).
  - intros _ (k&Hk&Hfree). destruct (unused_fd _ 0 s) as [fd|]; [|destruct (Hu k ltac:(lia) Hfree)].
    destruct Hu as (Hfd&Hu&Hlow). exists fd, (take_fd fd false i l s). split; [done|].
    apply take_fd_opened; [done|done|lia|done|]. intros k' ?. apply Hlow. lia.
Qed.

(** [esp_vfs_unregister_with_id] empties the slot and frees the descriptors
    below [VFS_MAX_COUNT] that led there -- and only those: its loop stops at the
    size of the slot table instead of that of the descriptor table.  A higher
    descriptor of that file system stays taken and leads nowhere, until another
    file system is registered in the slot: then it leads to that one. *)
Theorem esp_vfs_unregister_stale s id e fd
    (Hs : vfs_ok s) (He : s.(s_vfs) id = Some e) (Hfd : VFS_MAX_COUNT ≤ fd < MAX_FDS)
    (Hi : vfs_index (s.(s_fd_table) fd) = id) :
  ∃ s1, esp_vfs_unregister_with_id id s = (ESP_OK, s1) ∧ s1.(s_vfs) id = None ∧
    (∀ k, 0 ≤ k < VFS_MAX_COUNT → vfs_index (s1.(s_fd_table) k) ≠ id) ∧
    s1.(s_fd_table) fd = s.(s_fd_table) fd ∧ get_vfs_for_fd fd s1 = None ∧
    ((∀ k, 0 ≤ k < id → is_Some (s.(s_vfs) k)) →
     ∀ p v x s2, esp_vfs_register p v x true s1 = (ESP_OK, s2) →
     ∃ e2, get_vfs_for_fd fd s2 = Some e2 ∧ e2.(vfs) = v ∧ e2.(ctx) = x).
Proof.
  pose proof Hs as ((_&Hc8)&Hent&_). destruct (Hent id e He) as [Hid _].
  destruct (unregister_with_id_spec id s) as [[_ H]|(Eq&_&_)].
  { exfalso. rewrite He in H. destruct H as [?|[?|?]]; done || lia. }
  pose proof (unregister_with_id_ok id s Hs) as Hok. rewrite Eq in Hok |- *. simpl in Hok.
  destruct (drop_fds_spec 0 VFS_MAX_COUNT id (set_vfs id None s)) as (_&Hv&Hc&Hf); [done|].
  set (s1 := drop_fds _ _ _ _) in *. clearbody s1. simpl in Hv, Hc, Hf.
  assert (s_fd_table s1 fd = s_fd_table s fd) as Hfd1 by (rewrite Hf, decide_False; [done|lia]).
  assert (0 ≤ fd < MAX_FDS) as Hval by (unfold VFS_MAX_COUNT in Hfd; lia).
  assert (s_vfs s1 id = None) as H1 by (by rewrite Hv, fn_lookup_insert).
  exists s1. split_and!; try done.
  - intros k Hk. rewrite Hf. case_decide as E; [simpl; lia|]. intros Hki. apply E. split; [lia|done].
  - rewrite get_vfs_for_fd_valid, Hfd1, Hi, get_vfs_for_index_in by (done || lia). done.
  - intros Hlow p v x s2. unfold esp_vfs_register.
    destruct (esp_vfs_register_common _ _ _ _ _ _) as [[r i] t] eqn:E. intros [= -> <-].
    apply register_common_spec in E; [|auto..]. destruct E as (_&Hi2&Hc2&Hnone&Hsome&Hv2&Hf2).
    assert (i = id) as ->.
    { destruct (Z.lt_trichotomy i id) as [?|[?|?]]; [|done|].
      - destruct (Hlow i) as [e0 E0]; [lia|]. rewrite Hv, fn_lookup_insert_ne in Hnone by lia. congruence.
      - destruct (Hsome id) as [e0 E0]; [lia|]. congruence. }
    rewrite get_vfs_for_fd_valid, Hf2, Hfd1, Hi, get_vfs_for_index_in, Hv2, fn_lookup_insert by (done || lia).
    eexists. by split_and!.
Qed.
End vfs.
Arguments vfs_entry_t : clear implicits.
Arguments vfs_t : clear implicits.

(** ** Instances *)
(** One file system, mounted on "/fs"; it opens every path as its descriptor 5. *)
Definition demo_mount : path := ["/"; "f"; "s"]%char.
Definition demo_file : path := ["/"; "f"; "s"; "/"; "a"]%char.
Definition demo_run (v : Z) (x : option Z) (c : vfs_call) (w : Z) : Z * Z :=
  match c with C_open _ _ _ => (5, w + 1) | _ => (0, w) end.
Definition demo_has (v : Z) (c : vfs_call) : bool := true.
Definition demo_flag (v : Z) : bool := false.
Definition demo_mounted : vfs_t Z Z := snd (esp_vfs_register demo_mount 7 0 true vfs_init).
Definition demo_opened : vfs_t Z Z := take_fd 9 false 0 5 demo_mounted.

Lemma demo_mounted_ok : vfs_ok demo_mounted.
Proof.
  apply (vfs_step_ok (W := Z) demo_has demo_flag demo_run 64 vfs_init); [|apply S_register].
  refine (conj _ (conj _ _)); simpl; [done..|]. intros. split; [done|]. by apply wrap_range.
Qed.
Lemma demo_mounted_reachable : vfs_reachable (W := Z) demo_has demo_flag demo_run 64 demo_mounted.
Proof. eapply R_step; [apply R_init|]. apply S_register. Qed.
Lemma demo_opened_ok : vfs_ok demo_opened.
Proof. apply take_fd_ok; [apply demo_mounted_ok|]. split; reflexivity || discriminate. Qed.

Lemma get_vfs_for_path_longest_witness :
  vfs_ok demo_mounted ∧ get_vfs_for_path demo_file demo_mounted = Some 0 ∧
  match get_vfs_for_path demo_file demo_mounted with
  | Some i =>
      ∃ e, demo_mounted.(s_vfs) i = Some e ∧ mounted_at demo_file e ∧
      (∀ j e', demo_mounted.(s_vfs) j = Some e' → mounted_at demo_file e' →
        e'.(path_prefix_len) ≤ e.(path_prefix_len)) ∧
      translate_path e demo_file = Ok (if plen demo_file =? e.(path_prefix_len) then [slash]
                               else drop (Z.to_nat e.(path_prefix_len)) demo_file)
  | None => ∀ j e', demo_mounted.(s_vfs) j = Some e' → ¬ mounted_at demo_file e'
  end.
Proof.
  split; [exact demo_mounted_ok|]. split; [reflexivity|].
  exact (get_vfs_for_path_longest demo_file demo_mounted demo_mounted_ok).
Defined.

Lemma vfs_reachable_ok_witness :
  vfs_reachable (W := Z) demo_has demo_flag demo_run 64 demo_mounted ∧ vfs_ok demo_mounted.
Proof.
  split; [exact demo_mounted_reachable|].
  exact (proj1 (vfs_reachable_ok demo_has demo_flag demo_run 64 demo_mounted demo_mounted_reachable)).
Defined.

Lemma esp_vfs_open_spec_witness :
  get_vfs_for_path demo_file demo_mounted = Some 0 ∧
  ∃ fd s', esp_vfs_open demo_has demo_flag demo_run 64 demo_file 0 0 demo_mounted 0 = Ok (fd, E_NONE, s', 1).
Proof.
  split; [reflexivity|].
  destruct (esp_vfs_open_spec demo_has demo_flag demo_run 64 demo_file 0 0 demo_mounted 0 demo_mounted_ok)
    as (e&q&He&Hq&H).
  injection He as <-. injection Hq as <-. destruct H as (_&_&H).
  destruct H as (fd&s'&H&_); [discriminate| |by exists fd, s'].
  exists 0. split; [split; reflexivity || discriminate|reflexivity].
Defined.

Lemma esp_vfs_unregister_stale_witness :
  vfs_ok demo_opened ∧ vfs_index (demo_opened.(s_fd_table) 9) = 0 ∧
  ∃ s1, esp_vfs_unregister_with_id 0 demo_opened = (ESP_OK, s1) ∧ s1.(s_vfs) 0 = None ∧
    s1.(s_fd_table) 9 = demo_opened.(s_fd_table) 9.
Proof.
  split; [exact demo_opened_ok|]. split; [reflexivity|].
  destruct (esp_vfs_unregister_stale 64 demo_opened 0 (VfsEntry 7 demo_mount 3 0 0) 9 demo_opened_ok eq_refl
    ltac:(split; reflexivity || discriminate) eq_refl) as (s1&?&?&_&?&_).
  by exists s1.
Defined.
