(* ===== verification/Fsort.v ===== *)
(** * Sorting networks (libraries/imlib/src/fsort.c)

    [fsort] sorts 9 and 25 numbers with fixed networks of compare-and-swap
    operations and leaves the other sizes to the C library.  The networks are
    verified by the zero-one principle; the zero-one inputs are not enumerated but
    followed block by block: the sets of values that groups of positions can
    hold. *)

From stdpp Require Import sorting.
From S2P Require Import Prelude.

(** [cmpswp(data + a, data + b)] *)
Definition cmpswp (a b : Z) (data : list Z) : res (list Z) :=
  match data !! Z.to_nat a, data !! Z.to_nat b with
  | Some x, Some y =>
      Ok (if y <? x then <[Z.to_nat b := x]> (<[Z.to_nat a := y]> data) else data)
  | _, _ => Fault FUB
  end.
Abbreviation network := (list (Z * Z)).
Fixpoint run (net : network) (data : list Z) : res (list Z) :=
  match net with
  | [] => Ok data
  | (a, b) :: net => data ← cmpswp a b data; run net data
  end.

Definition fsort9_network : network :=
  [(0, 1); (3, 4); (6, 7);
   (1, 2); (4, 5); (7, 8);
   (0, 1); (3, 4); (6, 7); (2, 5);
   (0, 3); (1, 4); (5, 8);
   (3, 6); (4, 7); (2, 5);
   (0, 3); (1, 4); (5, 7); (2, 6);
   (1, 3); (4, 6);
   (2, 4); (5, 6);
   (2, 3)].

Definition fsort25_network : network :=
  [(1, 2); (4, 5); (7, 8); (10, 11); (13, 14); (16, 17); (19, 20); (21, 22); (23, 24);
   (0, 2); (3, 5); (6, 8); (9, 11); (12, 14); (15, 17); (18, 20); (21, 23); (22, 24);
   (0, 1); (3, 4); (2, 5); (6, 7); (9, 10); (8, 11); (12, 13); (15, 16); (14, 17); (18, 19);
   (22, 23); (20, 24);
   (0, 3); (1, 4); (6, 9); (7, 10); (5, 11); (12, 15); (13, 16); (18, 22); (19, 23); (17, 24);
   (2, 4); (1, 3); (8, 10); (7, 9); (0, 6); (14, 16); (13, 15); (18, 21); (20, 23); (11, 24);
   (2, 3); (8, 9); (1, 7); (4, 10); (14, 15); (19, 21); (20, 22); (16, 23);
   (2, 8); (1, 6); (3, 9); (5, 10); (20, 21); (12, 19); (15, 22); (17, 23);
   (2, 7); (4, 9); (12, 18); (13, 20); (14, 21); (16, 22); (10, 23);
   (2, 6); (5, 9); (4, 7); (14, 20); (13, 18); (17, 22); (11, 23);
   (3, 6); (5, 8); (14, 19); (16, 20); (17, 21); (0, 13); (9, 22);
   (5, 7); (4, 6); (14, 18); (15, 19); (17, 20); (0, 12); (8, 21); (10, 22);
   (5, 6); (15, 18); (17, 19); (1, 14); (7, 20); (11, 22);
   (16, 18); (2, 15); (1, 12); (6, 19); (8, 20); (11, 21);
   (17, 18); (2, 14); (3, 16); (7, 19); (10, 20);
   (2, 13); (4, 17); (5, 18); (8, 19); (11, 20);
   (2, 12); (5, 17); (4, 16); (3, 13); (9, 19);
   (5, 16); (3, 12); (4, 14); (10, 19);
   (5, 15); (4, 12); (11, 19); (9, 16); (10, 17);
   (5, 14); (8, 15); (11, 18); (10, 16);
   (5, 13); (7, 14); (11, 17);
   (5, 12); (6, 13); (8, 14); (11, 16);
   (6, 12); (8, 13); (10, 14); (11, 15);
   (7, 12); (9, 13); (11, 14);
   (8, 12); (11, 13);
   (9, 12);
   (10, 12);
   (11, 12)].

Definition fsort9 (data : list Z) : res (list Z) := run fsort9_network data.
Definition fsort25 (data : list Z) : res (list Z) := run fsort25_network data.

(** [int] subtraction overflows outside 32 bits. *)
Definition fsort_compare (a b : Z) : res Z :=
  let d := a - b in if (- 2 ^ 31 <=? d) && (d <? 2 ^ 31) then Ok d else Fault FUB.

(** [qsort] is that of the C library. *)
Definition fsort (qsort : (Z → Z → res Z) → list Z → res (list Z)) (data : list Z) (n : Z)
    : res (list Z) :=
  if n =? 1 then Ok data
  else if n =? 9 then fsort9 data
  else if n =? 25 then fsort25 data
  else qsort fsort_compare data.

(** ** Networks on vectors *)

(** The effect of a comparator on a vector of numbers and on one of bits. *)
Definition zstep (c : Z * Z) (v : Z → Z) : Z → Z := λ k,
  if k =? fst c then v (fst c) `min` v (snd c)
  else if k =? snd c then v (fst c) `max` v (snd c) else v k.
Definition bstep (c : Z * Z) (v : Z → bool) : Z → bool := λ k,
  if k =? fst c then v (fst c) && v (snd c)
  else if k =? snd c then v (fst c) || v (snd c) else v k.
Definition zrun (net : network) (v : Z → Z) : Z → Z := foldl (λ v c, zstep c v) v net.
Definition brun (net : network) (v : Z → bool) : Z → bool := foldl (λ v c, bstep c v) v net.

Lemma zstep_ext c v w : (∀ k, v k = w k) → ∀ k, zstep c v k = zstep c w k.
Proof. intros E k. unfold zstep. by rewrite !E. Qed.
Lemma zrun_ext net v w : (∀ k, v k = w k) → ∀ k, zrun net v k = zrun net w k.
Proof. revert v w. induction net as [|c net IH]; intros v w E; [done|]. apply IH, zstep_ext, E. Qed.
Lemma bstep_ext c v w : (∀ k, v k = w k) → ∀ k, bstep c v k = bstep c w k.
Proof. intros E k. unfold bstep. by rewrite !E. Qed.
Lemma brun_ext net v w : (∀ k, v k = w k) → ∀ k, brun net v k = brun net w k.
Proof. revert v w. induction net as [|c net IH]; intros v w E; [done|]. apply IH, bstep_ext, E. Qed.

(** Thresholds commute with networks. *)
Lemma brun_threshold t net v k :
  brun net (λ k, t <? v k) k = (t <? zrun net v k).
Proof.
  revert v. induction net as [|c net IH]; intros v; [done|]. simpl. rewrite <-IH.
  apply brun_ext. intros i. unfold bstep, zstep.
  repeat case_match; repeat match goal with |- context [?a <? ?b] => destruct (Z.ltb_spec a b) end;
    simpl; done || lia.
Qed.

(** The zero-one principle. *)
Lemma zero_one net n :
  (∀ v i, 0 ≤ i < n - 1 → brun net v i = true → brun net v (i + 1) = true) →
  ∀ v i, 0 ≤ i < n - 1 → zrun net v i ≤ zrun net v (i + 1).
Proof.
  intros H v i Hi. apply Z.nlt_ge. intros Hlt.
  specialize (H (λ k, zrun net v (i + 1) <? v k) i Hi). rewrite !brun_threshold in H.
  rewrite Z.ltb_irrefl in H. discriminate H. by apply Z.ltb_lt.
Qed.

(** ** Reachable zero-one vectors, block by block *)

(** A block is a set of positions (a mask) and the values they can hold there. *)
Abbreviation blocks := (list (Z * list Z)).
(** Union of value lists.  They are kept in increasing order, so no value is
    repeated; what the check shows does not depend on the order. *)
Fixpoint merge_values (xs : list Z) : list Z → list Z :=
  fix aux (ys : list Z) : list Z :=
    match xs, ys with
    | [], _ => ys
    | _, [] => xs
    | x :: xs', y :: ys' =>
        match Z.compare x y with
        | Lt => x :: merge_values xs' ys
        | Eq => x :: merge_values xs' ys'
        | Gt => y :: aux ys'
        end
    end.
Definition join (b c : Z * list Z) : Z * list Z :=
  (Z.lor (fst b) (fst c), foldr (λ s, merge_values (Z.lor s <$> snd c)) [] (snd b)).
Definition swaps (c : Z * Z) (s : Z) : bool := Z.testbit s (fst c) && negb (Z.testbit s (snd c)).
Definition swapped (c : Z * Z) (s : Z) : Z := Z.lxor s (Z.lor (Z.shiftl 1 (fst c)) (Z.shiftl 1 (snd c))).
Definition block_step (c : Z * Z) (ss : list Z) : list Z :=
  merge_values (swapped c <$> List.filter (swaps c) ss) (List.filter (λ s, negb (swaps c s)) ss).
Definition touches (c : Z * Z) (b : Z * list Z) : bool :=
  Z.testbit (fst b) (fst c) || Z.testbit (fst b) (snd c).
Definition blocks_step (c : Z * Z) (B : blocks) : option blocks :=
  let T := foldr join (0, [0]) (List.filter (touches c) B) in
  if Z.testbit (fst T) (fst c) && Z.testbit (fst T) (snd c)
  then Some ((fst T, block_step c (snd T)) :: List.filter (λ b, negb (touches c b)) B) else None.
Definition wf_comparator (n : Z) (c : Z * Z) : bool :=
  (0 <=? fst c) && (fst c <? n) && (0 <=? snd c) && (snd c <? n) && negb (fst c =? snd c).
Fixpoint blocks_run (net : network) (B : blocks) : option blocks :=
  match net with
  | [] => Some B
  | c :: net => match blocks_step c B with Some B => blocks_run net B | None => None end
  end.
Definition blocks_init (n : Z) : blocks := (λ i, (Z.shiftl 1 i, [0; Z.shiftl 1 i])) <$> seqZ 0 n.
(** The network sorts: its values on [n] positions are sorted vectors. *)
Definition sorts (n : Z) (net : network) : bool :=
  forallb (wf_comparator n) net &&
  match blocks_run net (blocks_init n) with
  | Some [(m, ss)] =>
      (m =? Z.ones n) &&
      forallb (λ s, forallb (λ i, implb (Z.testbit s i) (Z.testbit s (i + 1))) (seqZ 0 (n - 1))) ss
  | _ => false
  end.

(** The block holds the vector: its bits on the block's positions are one of the
    block's values. *)
Definition holds (v : Z → bool) (b : Z * list Z) : Prop :=
  ∃ s, s ∈ snd b ∧ ∀ k, 0 ≤ k → Z.testbit s k = Z.testbit (fst b) k && v k.

Lemma elem_of_filter_b {A} (f : A → bool) x l : x ∈ List.filter f l ↔ x ∈ l ∧ f x = true.
Proof. by rewrite !list_elem_of_In, filter_In. Qed.
Lemma elem_of_merge_values x xs ys : x ∈ xs ∨ x ∈ ys → x ∈ merge_values xs ys.
Proof.
  revert ys. induction xs as [|a xs IHx]; intros ys.
  { intros [H|H]; [by apply not_elem_of_nil in H|]. by destruct ys. }
  induction ys as [|b ys IHy]; intros H.
  { destruct H as [H|H]; [done|by apply not_elem_of_nil in H]. }
  simpl. rewrite !elem_of_cons in H. destruct (Z.compare_spec a b) as [->|?|?]; rewrite elem_of_cons.
  - destruct H as [[->|H]|[->|H]]; auto.
  - destruct H as [[->|H]|H]; [auto|auto|]. right. apply IHx. rewrite elem_of_cons. auto.
  - destruct H as [H|[->|H]]; [|auto|]; right; apply IHy; rewrite elem_of_cons; tauto.
Qed.

Lemma wf_comparator_spec n c :
  wf_comparator n c = true → 0 ≤ fst c < n ∧ 0 ≤ snd c < n ∧ fst c ≠ snd c.
Proof. unfold wf_comparator. rewrite !andb_true_iff, negb_true_iff. lia. Qed.

Lemma block_step_holds n c v m ss :
  wf_comparator n c = true → Z.testbit m (fst c) = true → Z.testbit m (snd c) = true →
  holds v (m, ss) → holds (bstep c v) (m, block_step c ss).
Proof.
  intros Hc Hi Hj (s&Hs&Hb). simpl in *. apply wf_comparator_spec in Hc as (?&?&?).
  exists (if swaps c s then swapped c s else s). simpl. split.
  - apply elem_of_merge_values. destruct (swaps c s) eqn:E; [left|right].
    + apply list_elem_of_fmap. exists s. split; [done|]. by apply elem_of_filter_b.
    + apply elem_of_filter_b. by rewrite E.
  - intros k Hk. pose proof (Hb _ (proj1 H)) as Ei. pose proof (Hb _ (proj1 H0)) as Ej.
    rewrite Hi in Ei. rewrite Hj in Ej. simpl in Ei, Ej. unfold swaps. rewrite Ei, Ej. unfold bstep.
    destruct (v (fst c)) eqn:Vi, (v (snd c)) eqn:Vj; simpl; unfold swapped;
      rewrite ?Z.lxor_spec, ?Z.lor_spec, ?shiftl_1_testbit, Hb by lia;
      repeat case_bool_decide; repeat case_match; repeat match goal with
      | H : (_ =? _) = true |- _ => apply Z.eqb_eq in H
      | H : (_ =? _) = false |- _ => apply Z.eqb_neq in H end;
      subst; rewrite ?Hi, ?Hj, ?Vi, ?Vj; simpl; rewrite ?xorb_false_r; done || congruence.
Qed.
Lemma join_holds v b c : holds v b → holds v c → holds v (join b c).
Proof.
  intros (s&Hs&Eb) (t&Ht&Ec). exists (Z.lor s t). split.
  - simpl. induction (snd b) as [|a l IH]; [by apply not_elem_of_nil in Hs|]. simpl.
    apply elem_of_merge_values. apply elem_of_cons in Hs as [<-|Hs]; [left|auto].
    apply list_elem_of_fmap. by exists t.
  - intros k Hk. simpl. rewrite !Z.lor_spec, Eb, Ec by done.
    by destruct (Z.testbit (fst b) k), (Z.testbit (fst c) k), (v k).
Qed.
Lemma joins_holds v B : Forall (holds v) B → holds v (foldr join (0, [0]) B).
Proof.
  induction 1; simpl; [|by apply join_holds]. exists 0. split; [apply elem_of_cons; auto|].
  intros. by rewrite !Z.bits_0.
Qed.
Lemma blocks_step_holds n c v B B' :
  wf_comparator n c = true → Forall (holds v) B → blocks_step c B = Some B' →
  Forall (holds (bstep c v)) B'.
Proof.
  intros Hc HB. unfold blocks_step. rewrite Forall_forall in HB.
  assert (holds v (foldr join (0, [0]) (List.filter (touches c) B))) as HT.
  { apply joins_holds, Forall_forall. intros b Hb. apply elem_of_filter_b in Hb as [? _]. auto. }
  destruct (foldr join _ _) as [m ss]. destruct (_ && _) eqn:E; [|done]. intros [= <-].
  apply andb_true_iff in E as [Hi Hj]. apply Forall_cons. split; [by eapply block_step_holds|].
  apply Forall_forall. intros b Hb. apply elem_of_filter_b in Hb as [Hb Ht].
  destruct (HB b Hb) as (s&Hs&Eb). exists s. split; [done|]. intros k Hk. rewrite Eb by done.
  apply negb_true_iff, orb_false_iff in Ht as [Hti Htj]. unfold bstep.
  destruct (Z.eqb_spec k (fst c)) as [->|]; [by rewrite Hti|].
  destruct (Z.eqb_spec k (snd c)) as [->|]; [by rewrite Htj|done].
Qed.
Lemma blocks_run_holds n net v B B' :
  forallb (wf_comparator n) net = true → Forall (holds v) B → blocks_run net B = Some B' →
  Forall (holds (brun net v)) B'.
Proof.
  revert v B. induction net as [|c net IH]; intros v B Hwf HB; simpl; [by intros [= <-]|].
  simpl in Hwf. apply andb_true_iff in Hwf as [Hc Hwf].
  destruct (blocks_step c B) as [B1|] eqn:E; [|done]. apply IH; [done|].
  by eapply blocks_step_holds.
Qed.
Lemma blocks_init_holds n v : Forall (holds v) (blocks_init n).
Proof.
  apply Forall_forall. intros b Hb. apply list_elem_of_fmap in Hb as (i&->&Hi).
  apply elem_of_seqZ in Hi. exists (if v i then Z.shiftl 1 i else 0). split.
  - simpl. rewrite !elem_of_cons. destruct (v i); auto.
  - intros k Hk. simpl. destruct (decide (i = k)) as [<-|Hne].
    + destruct (v i); rewrite ?Z.bits_0, ?shiftl_1_testbit, ?bool_decide_eq_true_2 by (done || lia); done.
    + rewrite (shiftl_1_testbit i k), (bool_decide_eq_false_2 (i = k)) by (done || lia). simpl.
      destruct (v i); [|by apply Z.bits_0]. rewrite shiftl_1_testbit by lia. by apply bool_decide_eq_false.
Qed.

(** The check is sound: on zero-one vectors, then on numbers. *)
Lemma sorts_vectors n net :
  sorts n net = true → ∀ v i, 0 ≤ i < n - 1 → zrun net v i ≤ zrun net v (i + 1).
Proof.
  intros H. apply zero_one. intros v i Hi. apply andb_true_iff in H as [Hwf H].
  destruct (blocks_run net (blocks_init n)) as [B|] eqn:E; [|done].
  apply (blocks_run_holds n net v) in E; [|done|apply blocks_init_holds].
  destruct B as [|[m ss] [|]]; [done| |done]. apply Forall_inv in E as (s&Hs&Hb). simpl in *.
  apply andb_true_iff in H as [Hm H]. apply Z.eqb_eq in Hm as ->.
  rewrite forallb_forall in H. apply list_elem_of_In in Hs. specialize (H s Hs).
  apply (forallb_seqZ _ _ _ i) in H; [|lia]. cbv beta in H. rewrite !Hb, !Z.testbit_ones_nonneg in H by lia.
  rewrite !(proj2 (Z.ltb_lt _ _)) in H by lia. simpl in H. intros Hv. by rewrite Hv in H.
Qed.

(** ** Networks on lists *)

(** The list holds the vector on its positions. *)
Definition vec (v : Z → Z) (l : list Z) : Prop :=
  ∀ k : nat, (k < length l)%nat → l !! k = Some (v (Z.of_nat k)).

Lemma cmpswp_spec n c v l :
  wf_comparator n c = true → Z.of_nat (length l) = n → vec v l →
  ∃ l', cmpswp (fst c) (snd c) l = Ok l' ∧ l' ≡ₚ l ∧ vec (zstep c v) l'.
Proof.
  intros Hc Hn Hv. apply wf_comparator_spec in Hc as (Hi&Hj&Hne). unfold cmpswp.
  assert (l !! Z.to_nat (fst c) = Some (v (fst c))) as Ei by (rewrite Hv, Z2Nat.id; done || lia).
  assert (l !! Z.to_nat (snd c) = Some (v (snd c))) as Ej by (rewrite Hv, Z2Nat.id; done || lia).
  rewrite Ei, Ej. eexists. split; [done|].
  destruct (Z.ltb_spec (v (snd c)) (v (fst c))).
  - split; [by apply Permutation_insert_swap|]. intros k. rewrite !length_insert. intros Hk.
    unfold zstep. destruct (Z.eqb_spec (Z.of_nat k) (fst c)) as [E|E].
    + rewrite list_lookup_insert_ne by lia. replace (Z.to_nat (fst c)) with k by lia.
      rewrite list_lookup_insert_eq by done. f_equal. lia.
    + destruct (Z.eqb_spec (Z.of_nat k) (snd c)) as [E'|E'].
      * replace (Z.to_nat (snd c)) with k by lia.
        rewrite list_lookup_insert_eq by (rewrite length_insert; lia). f_equal. lia.
      * rewrite !list_lookup_insert_ne by lia. by apply Hv.
  - split; [done|]. intros k Hk. rewrite Hv by done. unfold zstep. f_equal.
    repeat case_match; repeat match goal with
      | H : (_ =? _) = true |- _ => apply Z.eqb_eq in H; rewrite H end; lia.
Qed.
Lemma run_spec n net v l :
  forallb (wf_comparator n) net = true → Z.of_nat (length l) = n → vec v l →
  ∃ l', run net l = Ok l' ∧ l' ≡ₚ l ∧ vec (zrun net v) l'.
Proof.
  revert v l. induction net as [|c net IH]; intros v l Hwf Hn Hv; simpl in *; [by exists l|].
  apply andb_true_iff in Hwf as [Hc Hwf].
  destruct (cmpswp_spec n c v l Hc Hn Hv) as (l1&E1&P1&V1). destruct c as [a b]; simpl in *.
  rewrite E1. destruct (IH (zstep (a, b) v) l1 Hwf) as (l2&E2&P2&V2); [by rewrite P1|exact V1|].
  exists l2. split_and!; [done| |done]. by rewrite P2.
Qed.

Lemma Sorted_adjacent (l : list Z) :
  (∀ k x y, l !! k = Some x → l !! S k = Some y → x ≤ y) → Sorted Z.le l.
Proof.
  induction l as [|a l IH]; intros H; [constructor|]. constructor.
  - apply IH. intros k x y. apply (H (S k)).
  - destruct l as [|b l]; constructor. by apply (H 0%nat).
Qed.

(** A network that passes the check sorts every list of its size. *)
Lemma sorts_sound n net l :
  sorts n net = true → Z.of_nat (length l) = n →
  ∃ l', run net l = Ok l' ∧ l' ≡ₚ l ∧ Sorted Z.le l'.
Proof.
  intros Hs Hn. pose proof Hs as [Hwf _]%andb_true_iff.
  destruct (run_spec n net (λ k, l !!! Z.to_nat k) l Hwf Hn) as (l'&E&P&V).
  { intros k Hk. rewrite Nat2Z.id. by apply list_lookup_lookup_total_lt. }
  exists l'. split_and!; [done..|]. apply Sorted_adjacent. intros k x y Hx Hy.
  pose proof (lookup_lt_Some _ _ _ Hy) as Hlt. rewrite V in Hx, Hy by lia.
  injection Hx as <-. injection Hy as <-. rewrite Nat2Z.inj_succ. unfold Z.succ.
  apply (sorts_vectors n); [done|]. rewrite P in Hlt. lia.
Qed.

Lemma fsort9_network_sorts : sorts 9 fsort9_network = true.
Proof. vm_compute. reflexivity. Qed.
Lemma fsort25_network_sorts : sorts 25 fsort25_network = true.
Proof. vm_compute. reflexivity. Qed.

(** ** The sort *)

(** What the C library documents of [qsort]: with a comparison function whose
    sign is that of the order of the elements, the array ends up a sorted
    permutation. *)
Definition compares (cmp : Z → Z → res Z) (x y : Z) : Prop :=
  ∃ d, cmp x y = Ok d ∧ (d < 0 ↔ x < y) ∧ (0 < d ↔ y < x).
Definition qsort_sorts (qsort : (Z → Z → res Z) → list Z → res (list Z)) : Prop :=
  ∀ cmp l, (∀ x y, x ∈ l → y ∈ l → compares cmp x y) →
  ∃ l', qsort cmp l = Ok l' ∧ l' ≡ₚ l ∧ Sorted Z.le l'.

Lemma fsort_compare_ok x y :
  - 2 ^ 31 ≤ x - y < 2 ^ 31 → compares fsort_compare x y.
Proof.
  intros H. exists (x - y). unfold fsort_compare.
  rewrite (proj2 (Z.leb_le _ _)), (proj2 (Z.ltb_lt _ _)) by lia. split; [done|]. lia.
Qed.
(** Numbers too far apart overflow the comparison. *)
Lemma fsort_compare_overflows : fsort_compare (2 ^ 31 - 1) (-1) = Fault FUB.
Proof. reflexivity. Qed.

(** C11: [fsort] sorts: for every array the result is a sorted permutation of it.
    For 9 and 25 elements this is a theorem about the two networks of 25 and 154
    comparators, for arbitrary numbers; for the other sizes it rests on [qsort],
    whose comparison function is right as long as the numbers are less than
    2^31 apart. *)
Theorem fsort_sorts qsort data (Hq : qsort_sorts qsort)
    (Hn : length data ∈ [1; 9; 25]%nat ∨ ∀ x y, x ∈ data → y ∈ data → x - y < 2 ^ 31) :
  ∃ data', fsort qsort data (Z.of_nat (length data)) = Ok data' ∧ data' ≡ₚ data ∧ Sorted Z.le data'.
Proof.
  unfold fsort. destruct (Z.eqb_spec (Z.of_nat (length data)) 1) as [E|E].
  { exists data. split_and!; [done..|]. destruct data as [|x [|]]; [done| |simpl in E; lia].
    by repeat constructor. }
  destruct (Z.eqb_spec (Z.of_nat (length data)) 9) as [E9|E9].
  { apply (sorts_sound 9); [exact fsort9_network_sorts|exact E9]. }
  destruct (Z.eqb_spec (Z.of_nat (length data)) 25) as [E25|E25].
  { apply (sorts_sound 25); [exact fsort25_network_sorts|exact E25]. }
  apply Hq. intros x y Hx Hy. apply fsort_compare_ok. destruct Hn as [Hn|Hn].
  - rewrite !elem_of_cons, elem_of_nil in Hn. lia.
  - pose proof (Hn x y Hx Hy). pose proof (Hn y x Hy Hx). lia.
Qed.

(** Insertion sort, as a library [qsort] for the instance below. *)
Fixpoint demo_insert (x : Z) (l : list Z) : list Z :=
  match l with [] => [x] | y :: l' => if x <=? y then x :: l else y :: demo_insert x l' end.
Definition demo_qsort (cmp : Z → Z → res Z) (l : list Z) : res (list Z) := Ok (foldr demo_insert [] l).
Lemma demo_insert_perm x l : demo_insert x l ≡ₚ x :: l.
Proof.
  induction l as [|y l IH]; simpl; [done|]. destruct (x <=? y); [done|].
  rewrite IH. apply Permutation_swap.
Qed.
Lemma demo_insert_sorted x l : Sorted Z.le l → Sorted Z.le (demo_insert x l).
Proof.
  induction 1 as [|y l Hl IH Hy]; simpl; [by repeat constructor|].
  destruct (Z.leb_spec x y); [by repeat constructor|]. constructor; [done|].
  destruct Hy as [|z l]; simpl; [constructor; lia|]. destruct (x <=? z); constructor; lia.
Qed.
Lemma demo_qsort_sorts : qsort_sorts demo_qsort.
Proof.
  intros cmp l _. eexists. split; [done|]. induction l as [|x l IH]; simpl; [done|].
  destruct IH as [IHp IHs]. split; [by rewrite demo_insert_perm, IHp|by apply demo_insert_sorted].
Qed.

Lemma fsort_sorts_witness :
  qsort_sorts demo_qsort ∧
  ∃ data', fsort demo_qsort [9; 8; 7; 6; 5; 4; 3; 2; 1] 9 = Ok data' ∧
  data' ≡ₚ [9; 8; 7; 6; 5; 4; 3; 2; 1] ∧ Sorted Z.le data'.
Proof.
  split; [exact demo_qsort_sorts|].
  apply (fsort_sorts demo_qsort [9; 8; 7; 6; 5; 4; 3; 2; 1] demo_qsort_sorts).
  left. simpl. apply elem_of_cons. right. apply elem_of_cons. by left.
Defined.
