(* ===== verification/Uart.v ===== *)
(** * UART of the hardware layer (cores/k210/k210-hal/k210-hal-uart.c)

    Line configuration and divisor of the high-speed UARTs, the character
    routines, and the length of the receive ring.  The serial framework of
    RT-Thread (registration, opening, reading and writing through the ring) is
    outside the repository. *)

From S2P Require Import Prelude SysctlRegs SysctlClock.

Definition UART_DEVICE_MAX : Z := 3.
Definition UART_BRATE_CONST : Z := 16.
Definition UART1_BASE_ADDR : Z := 0x50210000.
Definition UART2_BASE_ADDR : Z := 0x50220000.
Definition UART3_BASE_ADDR : Z := 0x50230000.
Definition UART_STOP_1 : Z := 0.
Definition UART_STOP_1_5 : Z := 1.
Definition UART_STOP_2 : Z := 2.
Definition UART_PARITY_NONE : Z := 0.
Definition UART_PARITY_ODD : Z := 1.
Definition UART_PARITY_EVEN : Z := 2.
Definition UART_RECEIVE_FIFO_1 : Z := 0.
Definition UART_SEND_FIFO_8 : Z := 3.

(** The words of [uart_t] the driver uses.  The words at offsets 0 and 4 are
    unions; behind them are several registers, selected by bit 7 of [LCR] (the
    divisor latch access bit) and by the direction. *)
Record uart_t := Uart {
  DLL : Z; DLH : Z; DLF : Z; RBR : Z; THR : Z; IER : Z; FCR : Z; LCR : Z; LSR : Z
}.
Definition dlab (u : uart_t) : bool := Z.testbit u.(LCR) 7.
Definition write_0 (v : Z) (u : uart_t) : uart_t :=
  if dlab u then Uart v u.(DLH) u.(DLF) u.(RBR) u.(THR) u.(IER) u.(FCR) u.(LCR) u.(LSR)
  else Uart u.(DLL) u.(DLH) u.(DLF) u.(RBR) v u.(IER) u.(FCR) u.(LCR) u.(LSR).
Definition read_0 (u : uart_t) : Z := if dlab u then u.(DLL) else u.(RBR).
Definition write_4 (v : Z) (u : uart_t) : uart_t :=
  if dlab u then Uart u.(DLL) v u.(DLF) u.(RBR) u.(THR) u.(IER) u.(FCR) u.(LCR) u.(LSR)
  else Uart u.(DLL) u.(DLH) u.(DLF) u.(RBR) u.(THR) v u.(FCR) u.(LCR) u.(LSR).
Definition read_4 (u : uart_t) : Z := if dlab u then u.(DLH) else u.(IER).
Definition write_DLF (v : Z) (u : uart_t) : uart_t :=
  Uart u.(DLL) u.(DLH) v u.(RBR) u.(THR) u.(IER) u.(FCR) u.(LCR) u.(LSR).
Definition write_FCR (v : Z) (u : uart_t) : uart_t :=
  Uart u.(DLL) u.(DLH) u.(DLF) u.(RBR) u.(THR) u.(IER) v u.(LCR) u.(LSR).
Definition write_LCR (v : Z) (u : uart_t) : uart_t :=
  Uart u.(DLL) u.(DLH) u.(DLF) u.(RBR) u.(THR) u.(IER) u.(FCR) v u.(LSR).
Abbreviation uarts := (Z → uart_t).

(** [struct serial_configure]: the members read here. *)
Record serial_configure := Config {
  baud_rate : Z; data_bits : Z; stop_bits : Z; parity : Z; bufsz : Z
}.

Definition get_uart_channel (addr : Z) : Z :=
  if addr =? UART1_BASE_ADDR then 0
  else if addr =? UART2_BASE_ADDR then 1
  else if addr =? UART3_BASE_ADDR then 2
  else UART_DEVICE_MAX.

(** [RT_ASSERT] *)
Definition rt_assert (c : bool) : res unit := if c then Ok tt else Fault FAssert.

(** The divisor in sixteenths, split over [DLH], [DLL] and [DLF]. *)
Definition uart_divisor (freq baud : Z) : res (Z * Z * Z) :=
  if baud =? 0 then Fault FUB else
  let divisor := freq / baud in
  let dlh := u8 (Z.shiftr divisor 12) in
  let dll := u8 (u32 (divisor - Z.shiftl dlh 12) / UART_BRATE_CONST) in
  let dlf := u8 (divisor - Z.shiftl dlh 12 - dll * UART_BRATE_CONST) in
  Ok (dlh, dll, dlf).

(** The stores to the registers of the port. *)
Definition uart_program (dlh dll dlf line : Z) (u : uart_t) : uart_t :=
  let u := write_LCR (Z.lor u.(LCR) (Z.shiftl 1 7)) u in
  let u := write_4 dlh u in
  let u := write_0 dll u in
  let u := write_DLF dlf u in
  let u := write_LCR 0 u in
  let u := write_LCR line u in
  let u := write_LCR (Z.land u.(LCR) (u32 (Z.lnot (Z.shiftl 1 7)))) u in
  let u := write_4 (Z.lor (read_4 u) 0x80) u in
  write_FCR (Z.lor (Z.lor (Z.lor (Z.shiftl UART_RECEIVE_FIFO_1 6) (Z.shiftl UART_SEND_FIFO_8 4))
                          (Z.shiftl 1 3)) 1) u.

Definition rt_uart_configure (hw_base : Z) (cfg : serial_configure) (s : bank sysctl_reg) (U : uarts)
    : res (serial_configure * uarts) :=
  freq ← sysctl_clock_get_freq (sysctl_clock_to_Z SYSCTL_CLOCK_APB0) s;
  '(dlh, dll, dlf) ← uart_divisor freq cfg.(baud_rate);
  let channel := get_uart_channel hw_base in
  _ ← rt_assert (negb (channel =? UART_DEVICE_MAX));
  let data_width := cfg.(data_bits) in
  let stopbit := cfg.(stop_bits) in
  _ ← rt_assert ((5 <=? data_width) && (data_width <=? 8));
  _ ← (if data_width =? 5 then rt_assert (negb (stopbit =? UART_STOP_2))
       else rt_assert (negb (stopbit =? UART_STOP_1_5)));
  let stopbit_val := if stopbit =? UART_STOP_1 then 0 else 1 in
  parity_val ← (if cfg.(parity) =? UART_PARITY_NONE then Ok 0
                else if cfg.(parity) =? UART_PARITY_ODD then Ok 1
                else if cfg.(parity) =? UART_PARITY_EVEN then Ok 3
                else Fault FAssert);
  let line := Z.lor (Z.lor (data_width - 5) (Z.shiftl stopbit_val 2)) (Z.shiftl parity_val 3) in
  Ok (cfg, <[channel := uart_program dlh dll dlf line (U channel)]> U).

Definition RT_DEVICE_CTRL_SET_INT : Z := 6.
Definition RT_DEVICE_CTRL_CLR_INT : Z := 7.
(** The interrupt controller calls are those of RT-Thread; the port's part: *)
Definition uart_control (hw_base cmd : Z) (U : uarts) : res uarts :=
  let channel := get_uart_channel hw_base in
  _ ← rt_assert (negb (channel =? UART_DEVICE_MAX));
  if cmd =? RT_DEVICE_CTRL_CLR_INT then
    Ok (<[channel := write_4 (Z.land (read_4 (U channel)) (u32 (Z.lnot 1))) (U channel)]> U)
  else if cmd =? RT_DEVICE_CTRL_SET_INT then
    Ok (<[channel := write_4 (Z.lor (read_4 (U channel)) 1) (U channel)]> U)
  else Ok U.

(** [-1] is [EOF]; [char] is unsigned on this target. *)
Definition drv_uart_getc (hw_base : Z) (U : uarts) : res Z :=
  let channel := get_uart_channel hw_base in
  _ ← rt_assert (negb (channel =? UART_DEVICE_MAX));
  if Z.testbit (U channel).(LSR) 0 then Ok (Z.land (read_0 (U channel)) 0xff) else Ok (-1).

(** [env k] is the line status register at poll [k]. *)
Fixpoint drv_uart_putc (fuel : nat) (env : nat → Z) (k : nat) (hw_base c : Z) (U : uarts) : res uarts :=
  let channel := get_uart_channel hw_base in
  _ ← rt_assert (negb (channel =? UART_DEVICE_MAX));
  match fuel with
  | O => Fault FFuel
  | S fuel =>
      if Z.testbit (env k) 5 then drv_uart_putc fuel env (S k) hw_base c U
      else Ok (<[channel := write_0 c (U channel)]> U)
  end.

(** ** Line formats of the Arduino interface (the switches of [hal_uart_begin]) *)
Definition SERIAL_PARITY_EVEN : Z := 0x1.
Definition SERIAL_PARITY_ODD : Z := 0x2.
Definition SERIAL_PARITY_NONE : Z := 0x3.
Definition SERIAL_PARITY_MASK : Z := 0xF.
Definition SERIAL_STOP_BIT_1 : Z := 0x10.
Definition SERIAL_STOP_BIT_1_5 : Z := 0x20.
Definition SERIAL_STOP_BIT_2 : Z := 0x30.
Definition SERIAL_STOP_BIT_MASK : Z := 0xF0.
Definition SERIAL_DATA_5 : Z := 0x100.
Definition SERIAL_DATA_6 : Z := 0x200.
Definition SERIAL_DATA_7 : Z := 0x300.
Definition SERIAL_DATA_8 : Z := 0x400.
Definition SERIAL_DATA_MASK : Z := 0xF00.
Definition hal_uart_config (config baudrate bufsize : Z) : serial_configure :=
  let d := Z.land config SERIAL_DATA_MASK in
  let st := Z.land config SERIAL_STOP_BIT_MASK in
  let p := Z.land config SERIAL_PARITY_MASK in
  Config baudrate
    (if d =? SERIAL_DATA_5 then 5 else if d =? SERIAL_DATA_6 then 6 else if d =? SERIAL_DATA_7 then 7 else 8)
    (if st =? SERIAL_STOP_BIT_1_5 then UART_STOP_1_5
     else if st =? SERIAL_STOP_BIT_2 then UART_STOP_2 else UART_STOP_1)
    (if p =? SERIAL_PARITY_EVEN then UART_PARITY_EVEN
     else if p =? SERIAL_PARITY_ODD then UART_PARITY_ODD else UART_PARITY_NONE)
    bufsize.

(** ** Receive ring *)

(** [struct rt_serial_rx_fifo] *)
Record rx_fifo := RxFifo { put_index : Z; get_index : Z; is_full : bool }.
(** [dev] says whether the UART is open, [rx] is null without a ring. *)
Definition hal_uart_available (dev : bool) (rx : option rx_fifo) (size : Z) : Z :=
  if negb dev then 0 else
  match rx with
  | None => 0
  | Some r =>
      s32 (if r.(get_index) <=? r.(put_index) then r.(put_index) - r.(get_index)
           else size - (r.(get_index) - r.(put_index)))
  end.

(** ** Divisor *)
Lemma uart_divisor_spec freq baud :
  in_width 32 freq → 0 < baud →
  ∃ dlh dll dlf, uart_divisor freq baud = Ok (dlh, dll, dlf) ∧
    in_width 8 dlh ∧ in_width 8 dll ∧ in_width 4 dlf ∧
    (dlh * 256 + dll) * 16 + dlf = (freq / baud) mod 2 ^ 20.
Proof.
  intros Hf Hb. unfold uart_divisor. rewrite (proj2 (Z.eqb_neq _ _)) by lia.
  assert (0 ≤ freq / baud < 2 ^ 32) as HD.
  { split; [apply Z.div_pos; lia|]. apply Z.le_lt_trans with freq; [|lia].
    apply Z.div_le_upper_bound; [lia|]. nia. }
  set (D := freq / baud) in *. clearbody D. eexists _, _, _. split; [reflexivity|].
  unfold wrap, UART_BRATE_CONST. rewrite Z.shiftr_div_pow2, !Z.shiftl_mul_pow2 by lia.
  change (2 ^ 12) with 4096. change (2 ^ 8) with 256. change (2 ^ 4) with 16.
  change (2 ^ 20) with 1048576. change (2 ^ 32) with 4294967296 in *.
  rewrite (Z.mod_small (D - _) 4294967296) by (Z.div_mod_to_equations; lia).
  Z.div_mod_to_equations. lia.
Qed.

(** ** Line control word *)
Definition line_ok (cfg : serial_configure) : Prop :=
  5 ≤ cfg.(data_bits) ≤ 8 ∧
  (cfg.(stop_bits) = UART_STOP_1 ∨
   cfg.(data_bits) = 5 ∧ cfg.(stop_bits) = UART_STOP_1_5 ∨
   cfg.(data_bits) ≠ 5 ∧ cfg.(stop_bits) = UART_STOP_2) ∧
  (cfg.(parity) = UART_PARITY_NONE ∨ cfg.(parity) = UART_PARITY_ODD ∨ cfg.(parity) = UART_PARITY_EVEN).
(** Word length, stop bits, parity enable, even parity, divisor latch access. *)
Definition lcr_line (lcr : Z) : Z * bool * bool * bool * bool :=
  (Z.land lcr 3, Z.testbit lcr 2, Z.testbit lcr 3, Z.testbit lcr 4, dlab (write_LCR lcr (Uart 0 0 0 0 0 0 0 0 0))).

Lemma uart_program_spec dlh dll dlf line u :
  0 ≤ line < 2 ^ 7 →
  uart_program dlh dll dlf line u =
    Uart dll dlh dlf u.(RBR) u.(THR) (Z.lor u.(IER) 0x80) 0x39 line u.(LSR).
Proof.
  intros Hl. unfold uart_program.
  set (u1 := write_LCR (Z.lor _ _) u).
  assert (dlab u1 = true) as H1.
  { unfold dlab, u1. cbn [LCR write_LCR]. rewrite Z.lor_spec, (shiftl_1_testbit 7 7) by lia. apply orb_true_r. }
  set (u2 := write_4 dlh u1). assert (u2 = Uart u.(DLL) dlh u.(DLF) u.(RBR) u.(THR) u.(IER) u.(FCR) u1.(LCR) u.(LSR)) as E2
    by (unfold u2, write_4; rewrite H1; done).
  clearbody u2. subst u2.
  assert (∀ a b c d e f g h, write_0 dll (Uart a b c d e f g u1.(LCR) h) = Uart dll b c d e f g u1.(LCR) h) as E3.
  { intros. unfold write_0, dlab in *. cbn [LCR]. by rewrite H1. }
  rewrite E3. cbn [write_DLF write_LCR DLL DLH DLF RBR THR IER FCR LCR LSR].
  change (Z.lor (Z.lor _ _) 1) with 0x39.
  assert (Z.land line (u32 (Z.lnot (Z.shiftl 1 7))) = line) as ->.
  { apply Z.bits_inj'. intros i Hi. destruct (decide (i < 7)).
    - rewrite Z.land_spec, wrap_testbit, bool_decide_eq_true_2, Z.lnot_spec, shiftl_1_testbit,
        bool_decide_eq_false_2 by lia. apply andb_true_r.
    - by rewrite Z.land_spec, (testbit_above 7 line i) by (done || lia). }
  assert (Z.testbit line 7 = false) as H7 by (apply (testbit_above 7); done || lia).
  unfold write_4, read_4, dlab. cbn [LCR IER DLH write_LCR]. rewrite H7. reflexivity.
Qed.
Lemma line_fields d st p :
  5 ≤ d ≤ 8 → st = 0 ∨ st = 1 → p = 0 ∨ p = 1 ∨ p = 3 →
  let line := Z.lor (Z.lor (d - 5) (Z.shiftl st 2)) (Z.shiftl p 3) in
  0 ≤ line < 2 ^ 7 ∧
  lcr_line line = (d - 5, st =? 1, negb (p =? 0), p =? 3, false).
Proof.
  intros Hd Hst Hp. assert (d = 5 ∨ d = 6 ∨ d = 7 ∨ d = 8) as Hd' by lia.
  destruct Hd' as [->|[->|[->| ->]]], Hst as [->| ->], Hp as [->|[->| ->]];
    (split; [field_dec|reflexivity]).
Qed.

(** [rt_uart_configure] programs the port of the device, and only that one:
    the divisor registers hold the clock divided by the baud rate, in
    sixteenths, modulo 2^20; the line control word encodes the word length, the
    stop bits and the parity asked for, with the divisor latch closed again; the
    interrupt enables keep their bits and gain the THRE one; nothing is sent.
    A line the hardware cannot do never returns (assertion), a zero baud rate is a
    division by zero. *)
Theorem rt_uart_configure_spec s hw_base cfg U f
    (Hch : get_uart_channel hw_base ≠ UART_DEVICE_MAX)
    (Hf : sysctl_clock_get_freq (sysctl_clock_to_Z SYSCTL_CLOCK_APB0) s = Ok f) (Hr : in_width 32 f) :
  (cfg.(baud_rate) = 0 → rt_uart_configure hw_base cfg s U = Fault FUB) ∧
  (0 < cfg.(baud_rate) → ¬ line_ok cfg → 0 ≤ cfg.(stop_bits) ≤ 2 →
   rt_uart_configure hw_base cfg s U = Fault FAssert) ∧
  (0 < cfg.(baud_rate) → line_ok cfg →
   let ch := get_uart_channel hw_base in
   ∃ U', rt_uart_configure hw_base cfg s U = Ok (cfg, U') ∧
   ((U' ch).(DLH) * 256 + (U' ch).(DLL)) * 16 + (U' ch).(DLF) = (f / cfg.(baud_rate)) mod 2 ^ 20 ∧
   in_width 8 (U' ch).(DLH) ∧ in_width 8 (U' ch).(DLL) ∧ in_width 4 (U' ch).(DLF) ∧
   lcr_line (U' ch).(LCR) =
     (cfg.(data_bits) - 5, negb (cfg.(stop_bits) =? UART_STOP_1), negb (cfg.(parity) =? UART_PARITY_NONE),
      cfg.(parity) =? UART_PARITY_EVEN, false) ∧
   (U' ch).(IER) = Z.lor (U ch).(IER) 0x80 ∧ (U' ch).(THR) = (U ch).(THR) ∧
   ∀ c, c ≠ ch → U' c = U c).
Proof.
  unfold rt_uart_configure. rewrite Hf. simpl.
  rewrite (proj2 (Z.eqb_neq _ _) Hch). simpl. split_and!.
  - intros E. unfold uart_divisor. by rewrite E.
  - intros Hb Hno Hst. destruct (uart_divisor_spec f cfg.(baud_rate) Hr Hb) as (h&l&d&->&_). simpl.
    unfold rt_assert, line_ok, UART_STOP_1, UART_STOP_1_5, UART_STOP_2, UART_PARITY_NONE,
      UART_PARITY_ODD, UART_PARITY_EVEN in *.
    destruct (Z.leb_spec 5 (data_bits cfg)); [|done].
    destruct (Z.leb_spec (data_bits cfg) 8); [|done]. simpl.
    destruct (Z.eqb_spec (data_bits cfg) 5), (Z.eqb_spec (stop_bits cfg) 2), (Z.eqb_spec (stop_bits cfg) 1);
      simpl; try done; repeat match goal with |- context [?a =? ?b] => destruct (Z.eqb_spec a b) end;
      try done; exfalso; apply Hno; lia.
  - intros Hb Hok. destruct (uart_divisor_spec f cfg.(baud_rate) Hr Hb) as (h&l&d&->&Hh&Hl&Hd&E). simpl.
    destruct Hok as (Hw&Hst&Hp).
    set (sv := if stop_bits cfg =? UART_STOP_1 then 0 else 1).
    set (pv := if parity cfg =? UART_PARITY_NONE then 0 else if parity cfg =? UART_PARITY_ODD then 1 else 3).
    destruct (line_fields cfg.(data_bits) sv pv) as [Hrange Hfields]; [done|subst sv; by case_match; auto|
      subst pv; repeat case_match; auto|].
    set (line := Z.lor _ _) in *.
    exists (<[get_uart_channel hw_base := uart_program h l d line (U (get_uart_channel hw_base))]> U).
    split.
    { unfold rt_assert. rewrite (proj2 (Z.leb_le 5 _)), (proj2 (Z.leb_le _ 8)) by lia. simpl.
      subst line sv pv. unfold UART_STOP_1, UART_STOP_1_5, UART_STOP_2, UART_PARITY_NONE,
        UART_PARITY_ODD, UART_PARITY_EVEN in *.
      destruct Hp as [Ep|[Ep|Ep]]; rewrite Ep; simpl;
        destruct (Z.eqb_spec (data_bits cfg) 5), (Z.eqb_spec (stop_bits cfg) 2), (Z.eqb_spec (stop_bits cfg) 1);
        try lia; done. }
    rewrite fn_lookup_insert, uart_program_spec by done.
    cbn [DLL DLH DLF RBR THR IER FCR LCR LSR]. split_and!; try done; try lia.
    + rewrite Hfields. unfold sv, pv, UART_STOP_1, UART_PARITY_NONE, UART_PARITY_ODD, UART_PARITY_EVEN in *.
      destruct (Z.eqb_spec (stop_bits cfg) 0); destruct Hp as [Ep|[Ep|Ep]]; rewrite Ep; done.
    + intros c Hc. by rewrite fn_lookup_insert_ne.
Qed.

(** ** Receive ring *)

(** A ring of [size] places with [n] characters waiting: indices below the
    size, the write index [n] places after the read index, and a flag to tell a
    full ring from an empty one. *)
Definition ring_ok (size n : Z) (r : rx_fifo) : Prop :=
  0 ≤ r.(get_index) < size ∧ 0 ≤ n ≤ size ∧
  r.(put_index) = (r.(get_index) + n) mod size ∧ r.(is_full) = (n =? size).

(** On an open UART with a ring of at most 65535 places, [hal_uart_available]
    is the number of characters waiting -- except when the ring is full, where it
    is 0: it compares the two indices and does not look at the flag.  Without a
    device or a ring it is 0. *)
Theorem hal_uart_available_spec size n r
    (Hs : 0 < size < 2 ^ 16) (Hr : ring_ok size n r) :
  hal_uart_available true (Some r) size = (if n =? size then 0 else n) ∧
  hal_uart_available false (Some r) size = 0 ∧ hal_uart_available true None size = 0.
Proof.
  split_and!; [|done..]. destruct Hr as (Hg&Hn&Hp&_). unfold hal_uart_available. simpl.
  assert (∀ x, 0 ≤ x < 2 ^ 16 → s32 x = x) as Hs32.
  { intros x Hx. unfold s32. rewrite wrap_id by lia. by rewrite (proj2 (Z.ltb_lt _ _)) by lia. }
  destruct (decide (get_index r + n < size)) as [Hlt|Hge].
  - rewrite Z.mod_small in Hp by lia. rewrite Hp, (proj2 (Z.leb_le _ _)), Hs32 by lia.
    rewrite (proj2 (Z.eqb_neq _ _)) by lia. lia.
  - assert (put_index r = get_index r + n - size) as E.
    { rewrite Hp. symmetry. apply (Z.mod_unique _ _ 1); lia. }
    rewrite E. destruct (Z.eqb_spec n size) as [->|].
    + rewrite (proj2 (Z.leb_le _ _)), Hs32 by lia. lia.
    + rewrite (proj2 (Z.leb_gt _ _)), Hs32 by lia. lia.
Qed.

(** ** Instances *)
Lemma hal_uart_available_spec_witness :
  ring_ok 64 64 (RxFifo 3 3 true) ∧ hal_uart_available true (Some (RxFifo 3 3 true)) 64 = 0.
Proof.
  assert (ring_ok 64 64 (RxFifo 3 3 true)) as H.
  { refine (conj _ (conj _ (conj _ _))); [simpl; lia|lia|reflexivity|reflexivity]. }
  split; [exact H|].
  exact (proj1 (hal_uart_available_spec 64 64 (RxFifo 3 3 true) ltac:(lia) H)).
Defined.

(** Out of reset the bus runs from the crystal. *)
Lemma rt_uart_configure_spec_witness :
  sysctl_clock_get_freq (sysctl_clock_to_Z SYSCTL_CLOCK_APB0) (λ _, 0) = Ok 26000000 ∧
  ∃ U', rt_uart_configure UART2_BASE_ADDR (Config 9600 8 0 0 64) (λ _, 0) (λ _, Uart 0 0 0 0 0 0 0 0 0)
    = Ok (Config 9600 8 0 0 64, U').
Proof.
  assert (sysctl_clock_get_freq (sysctl_clock_to_Z SYSCTL_CLOCK_APB0) (λ _, 0) = Ok 26000000) as Hf
    by reflexivity.
  split; [exact Hf|].
  destruct (rt_uart_configure_spec (λ _, 0) UART2_BASE_ADDR (Config 9600 8 0 0 64)
    (λ _, Uart 0 0 0 0 0 0 0 0 0) 26000000 ltac:(discriminate) Hf ltac:(lia)) as (_&_&H).
  destruct H as (U'&E&_); [reflexivity| |exists U'; exact E].
  split; [simpl; lia|]. split; [by left|by left].
Defined.

(** The format 5N2 that the interface offers ends in the assertion. *)
Lemma hal_uart_5N2_asserts :
  rt_uart_configure UART1_BASE_ADDR
    (hal_uart_config (Z.lor (Z.lor SERIAL_STOP_BIT_2 SERIAL_PARITY_NONE) SERIAL_DATA_5) 9600 64)
    (λ _, 0) (λ _, Uart 0 0 0 0 0 0 0 0 0) = Fault FAssert.
Proof. reflexivity. Qed.
