(* ===== verification/Flash.v ===== *)
(** * Serial flash of the hardware layer (cores/k210/k210-hal/k210-hal-flash.c)

    The NOR flash driver over a W25Qxx chip: status polling, page program,
    sector and block erase, reads, the read-erase-program loop of
    [hal_flash_write_data] and the unit choice of [hal_flash_erase].  The chip is
    reached through SPI transfers only; what its data sheet says of them is the
    interface [FlashChip]. *)

From S2P Require Import Prelude.

Definition WRITE_ENABLE : Z := 0x06.
Definition READ_REG1 : Z := 0x05.
Definition READ_REG3 : Z := 0x15.
Definition WRITE_REG3 : Z := 0x11.
Definition READ_REG2 : Z := 0x35.
Definition WRITE_REG1 : Z := 0x01.
Definition WRITE_REG2 : Z := 0x31.
Definition FAST_READ : Z := 0x0B.
Definition FAST_READ_QUAL_IO : Z := 0xEB.
Definition PAGE_PROGRAM : Z := 0x02.
Definition QUAD_PAGE_PROGRAM : Z := 0x32.
Definition SECTOR_ERASE : Z := 0x20.
Definition BLOCK_32K_ERASE : Z := 0x52.
Definition BLOCK_64K_ERASE : Z := 0xD8.
Definition CHIP_ERASE : Z := 0x60.
Definition READ_ID : Z := 0x90.
Definition REG1_BUSY_MASK : Z := 0x01.
Definition REG2_QUAL_MASK : Z := 0x02.
Definition w25qxx_FLASH_PAGE_SIZE : Z := 256.
Definition w25qxx_FLASH_SECTOR_SIZE : Z := 4096.
Definition w25qxx_FLASH_PAGE_NUM_PER_SECTOR : Z := 16.

Inductive flash_status_t : Set := W25QXX_ERROR | W25QXX_BUSY | W25QXX_OK.

(** An SPI command: bytes in standard frames, or an instruction and an address
    (with its length in bits and the wait cycles) in quad frames. *)
Inductive spi_cmd :=
| SpiStd (cmd : list Z)
| SpiQuad (instr addr addr_bits wait_cycles : Z).

(** [cmd[1..3]] *)
Definition addr24 (addr : Z) : list Z :=
  [u8 (Z.shiftr addr 16); u8 (Z.shiftr addr 8); u8 addr].

(** ** Interface: the chip

    Programming can only clear bits; erasing sets them. *)
Definition programmed (m : Z → Z) (addr : Z) (bs : list Z) : Z → Z := λ q,
  match bs !! Z.to_nat (q - addr) with
  | Some b => if addr <=? q then Z.land (m q) b else m q
  | None => m q
  end.
Definition erased (m : Z → Z) (lo n : Z) : Z → Z := λ q,
  if (lo <=? q) && (q <? lo + n) then 0xFF else m q.
(** A page program stays within a page. *)
Definition page_fits (addr : Z) (bs : list Z) : Prop :=
  0 ≤ addr < 2 ^ 24 ∧ addr mod 256 + Z.of_nat (length bs) ≤ 256 ∧ addr + Z.of_nat (length bs) ≤ 2 ^ 24.

Class FlashOps (D : Type) := {
  fc_tx : spi_cmd → list Z → D → D;
  fc_rx : spi_cmd → Z → D → list Z * D;
  (** contents; status polls until the running operation is over; write
      enable latch; status register 2 *)
  fc_mem : D → Z → Z;
  fc_polls : D → nat;
  fc_wel : D → bool;
  fc_reg2 : D → Z
}.
Definition fc_same {D} `{FlashOps D} (d d' : D) : Prop :=
  fc_mem d' = fc_mem d ∧ fc_polls d' = fc_polls d ∧ fc_wel d' = fc_wel d ∧ fc_reg2 d' = fc_reg2 d.
Class FlashChip (D : Type) `{FlashOps D} := {
  fc_status d : ∃ s d', fc_rx (SpiStd [READ_REG1]) 1 d = ([s], d') ∧
    Z.testbit s 0 = negb (fc_polls d =? 0)%nat ∧ fc_polls d' = Nat.pred (fc_polls d) ∧
    fc_mem d' = fc_mem d ∧ fc_wel d' = fc_wel d ∧ fc_reg2 d' = fc_reg2 d;
  (** a busy chip ignores commands *)
  fc_busy c x d : fc_polls d ≠ 0%nat → fc_same d (fc_tx c x d);
  fc_write_enable d : fc_polls d = 0%nat →
    let d' := fc_tx (SpiStd [WRITE_ENABLE]) [] d in
    fc_mem d' = fc_mem d ∧ fc_polls d' = 0%nat ∧ fc_wel d' = true ∧ fc_reg2 d' = fc_reg2 d;
  fc_page_program addr x d : fc_polls d = 0%nat → fc_wel d = true → page_fits addr x →
    let d' := fc_tx (SpiStd (PAGE_PROGRAM :: addr24 addr)) x d in
    fc_mem d' = programmed (fc_mem d) addr x ∧ fc_reg2 d' = fc_reg2 d;
  fc_quad_program addr x d : fc_polls d = 0%nat → fc_wel d = true → Z.testbit (fc_reg2 d) 1 = true →
    page_fits addr x →
    let d' := fc_tx (SpiQuad QUAD_PAGE_PROGRAM addr 24 0) x d in
    fc_mem d' = programmed (fc_mem d) addr x ∧ fc_reg2 d' = fc_reg2 d;
  fc_erase op n addr d : (op, n) ∈ [(SECTOR_ERASE, 4096); (BLOCK_32K_ERASE, 32768); (BLOCK_64K_ERASE, 65536)] →
    fc_polls d = 0%nat → fc_wel d = true → 0 ≤ addr < 2 ^ 24 →
    let d' := fc_tx (SpiStd (op :: addr24 addr)) [] d in
    fc_mem d' = erased (fc_mem d) (addr - addr mod n) n ∧ fc_polls d' ≠ 0%nat ∧ fc_reg2 d' = fc_reg2 d;
  fc_read addr n d : fc_polls d = 0%nat → 0 ≤ addr → 0 ≤ n → addr + n ≤ 2 ^ 24 →
    ∃ d', fc_rx (SpiStd (FAST_READ :: addr24 addr ++ [0xFF])) n d = (mem_read (fc_mem d) addr n, d') ∧
    fc_same d d';
  fc_quad_read addr n d : fc_polls d = 0%nat → Z.testbit (fc_reg2 d) 1 = true → 0 ≤ addr → 0 ≤ n →
    addr + n ≤ 2 ^ 24 →
    ∃ d', fc_rx (SpiQuad FAST_READ_QUAL_IO (u32 (Z.shiftl addr 8)) 32 4) n d =
          (mem_read (fc_mem d) addr n, d') ∧ fc_same d d';
  fc_read_reg2 d : fc_polls d = 0%nat →
    ∃ d', fc_rx (SpiStd [READ_REG2]) 1 d = ([fc_reg2 d], d') ∧ fc_same d d';
  fc_write_reg2 v d : fc_polls d = 0%nat → fc_wel d = true →
    let d' := fc_tx (SpiStd [WRITE_REG2; v]) [] d in fc_mem d' = fc_mem d ∧ fc_reg2 d' = v;
  fc_write_reg v1 v2 d : fc_polls d = 0%nat → fc_wel d = true →
    let d' := fc_tx (SpiStd [WRITE_REG1; v1; v2]) [] d in fc_mem d' = fc_mem d ∧ fc_reg2 d' = v2
}.

Section driver.
Context {D : Type} `{FlashOps D}.

(** ** Chip commands *)
Definition w25qxx_receive_data_dma (cmd : list Z) (n : Z) (d : D) : list Z * D := fc_rx (SpiStd cmd) n d.
Definition w25qxx_send_data_dma (cmd data : list Z) (d : D) : D := fc_tx (SpiStd cmd) data d.
Definition byte_of (r : list Z * D) : Z * D := (default 0 (head (fst r)), snd r).

Definition w25qxx_read_id_dma (d : D) : Z * Z * D :=
  let '(data, d) := w25qxx_receive_data_dma [READ_ID; 0; 0; 0] 2 d in (data !!! 0%nat, data !!! 1%nat, d).
Definition w25qxx_write_enable_dma (d : D) : D := w25qxx_send_data_dma [WRITE_ENABLE] [] d.
Definition w25qxx_write_status_reg_dma (reg1 reg2 : Z) (d : D) : D :=
  w25qxx_send_data_dma [WRITE_REG1; reg1; reg2] [] (w25qxx_write_enable_dma d).
Definition w25qxx_write_status_reg2_dma (reg : Z) (d : D) : D :=
  w25qxx_send_data_dma [WRITE_REG2; reg] [] (w25qxx_write_enable_dma d).
Definition w25qxx_write_status_reg1_dma (reg : Z) (d : D) : D :=
  w25qxx_send_data_dma [WRITE_REG1; reg] [] (w25qxx_write_enable_dma d).
Definition w25qxx_write_status_reg3_dma (reg : Z) (d : D) : D :=
  w25qxx_send_data_dma [WRITE_REG3; reg] [] (w25qxx_write_enable_dma d).
Definition w25qxx_read_status_reg3_dma (d : D) : Z * D := byte_of (w25qxx_receive_data_dma [READ_REG3] 1 d).
Definition w25qxx_read_status_reg1_dma (d : D) : Z * D := byte_of (w25qxx_receive_data_dma [READ_REG1] 1 d).
Definition w25qxx_read_status_reg2_dma (d : D) : Z * D := byte_of (w25qxx_receive_data_dma [READ_REG2] 1 d).
Definition w25qxx_is_busy_dma (d : D) : flash_status_t * D :=
  let '(status, d) := w25qxx_read_status_reg1_dma d in
  (if negb (Z.land status REG1_BUSY_MASK =? 0) then W25QXX_BUSY else W25QXX_OK, d).
(** [while(w25qxx_is_busy_dma() == W25QXX_BUSY);] *)
Fixpoint wait_ready_loop (fuel : nat) (d : D) : res D :=
  match fuel with
  | O => Fault FFuel
  | S fuel =>
      match w25qxx_is_busy_dma d with
      | (W25QXX_BUSY, d) => wait_ready_loop fuel d
      | (_, d) => Ok d
      end
  end.
Definition wait_ready (d : D) : res D := wait_ready_loop (S (fc_polls d)) d.

Definition erase_cmd (op addr : Z) (d : D) : D :=
  w25qxx_send_data_dma (op :: addr24 addr) [] (w25qxx_write_enable_dma d).
Definition w25qxx_sector_erase_dma (addr : Z) (d : D) : D := erase_cmd SECTOR_ERASE addr d.
Definition w25qxx_32k_block_erase_dma (addr : Z) (d : D) : D := erase_cmd BLOCK_32K_ERASE addr d.
Definition w25qxx_64k_block_erase_dma (addr : Z) (d : D) : D := erase_cmd BLOCK_64K_ERASE addr d.
Definition w25qxx_chip_erase_dma (d : D) : D :=
  w25qxx_send_data_dma [CHIP_ERASE] [] (w25qxx_write_enable_dma d).

Definition w25qxx_page_program_dma (addr : Z) (data : list Z) (d : D) : res D :=
  wait_ready (w25qxx_send_data_dma (PAGE_PROGRAM :: addr24 addr) data (w25qxx_write_enable_dma d)).
Definition w25qxx_quad_page_program_dma (addr : Z) (data : list Z) (d : D) : res D :=
  wait_ready (fc_tx (SpiQuad QUAD_PAGE_PROGRAM addr 24 0) data (w25qxx_write_enable_dma d)).

(** [_w25qxx_read_data_dma] in its two supported modes *)
Inductive flash_read_t : Set := W25QXX_STANDARD_FAST | W25QXX_QUAD_FAST.
Definition w25qxx_read_once (addr n : Z) (mode : flash_read_t) (d : D) : list Z * D :=
  match mode with
  | W25QXX_STANDARD_FAST => w25qxx_receive_data_dma (FAST_READ :: addr24 addr ++ [0xFF]) n d
  | W25QXX_QUAD_FAST => fc_rx (SpiQuad FAST_READ_QUAL_IO (u32 (Z.shiftl addr 8)) 32 4) n d
  end.
Fixpoint read_loop (fuel : nat) (addr length : Z) (mode : flash_read_t) (d : D) : res (list Z * D) :=
  if length =? 0 then Ok ([], d) else
  match fuel with
  | O => Fault FFuel
  | S fuel =>
      let len := if 0x010000 <=? length then 0x010000 else length in
      let '(bs, d) := w25qxx_read_once addr len mode d in
      '(rest, d) ← read_loop fuel (u32 (addr + len)) (length - len) mode d;
      Ok (bs ++ rest, d)
  end.
Definition w25qxx_read_data_dma (addr length : Z) (mode : flash_read_t) (d : D) : res (list Z * D) :=
  read_loop (S (Z.to_nat length)) addr length mode d.
Definition w25qxx_stand_read_data_dma (addr length : Z) (d : D) : res (list Z * D) :=
  w25qxx_read_data_dma addr length W25QXX_STANDARD_FAST d.
Definition w25qxx_quad_read_data_dma (addr length : Z) (d : D) : res (list Z * D) :=
  w25qxx_read_data_dma addr length W25QXX_QUAD_FAST d.

(** ** Driver state: the chip and the two function pointers *)
Inductive program_fun_t : Set := PROGRAM_STANDARD | PROGRAM_QUAD.
Record flash_t := Flash {
  chip : D;
  page_program_fun : program_fun_t;
  read_fun : flash_read_t;
  inited : bool
}.
Definition set_chip (d : D) (s : flash_t) : flash_t := Flash d s.(page_program_fun) s.(read_fun) s.(inited).
Definition w25qxx_page_program_fun (addr : Z) (data : list Z) (s : flash_t) : res flash_t :=
  d ← match s.(page_program_fun) with
      | PROGRAM_STANDARD => w25qxx_page_program_dma addr data s.(chip)
      | PROGRAM_QUAD => w25qxx_quad_page_program_dma addr data s.(chip)
      end;
  Ok (set_chip d s).
Definition w25qxx_read_fun (addr length : Z) (s : flash_t) : res (list Z * flash_t) :=
  '(bs, d) ← match s.(read_fun) with
             | W25QXX_STANDARD_FAST => w25qxx_stand_read_data_dma addr length s.(chip)
             | W25QXX_QUAD_FAST => w25qxx_quad_read_data_dma addr length s.(chip)
             end;
  Ok (bs, set_chip d s).

(** ** Writing *)
Fixpoint program_pages (n : nat) (addr : Z) (data : list Z) (s : flash_t) : res flash_t :=
  match n with
  | O => Ok s
  | S n =>
      s ← w25qxx_page_program_fun addr (take (Z.to_nat w25qxx_FLASH_PAGE_SIZE) data) s;
      program_pages n (u32 (addr + w25qxx_FLASH_PAGE_SIZE)) (drop (Z.to_nat w25qxx_FLASH_PAGE_SIZE) data) s
  end.
Definition w25qxx_sector_program (addr : Z) (data : list Z) (s : flash_t) : res flash_t :=
  program_pages (Z.to_nat w25qxx_FLASH_PAGE_NUM_PER_SECTOR) addr data s.

(** Some byte to be written has a bit that the stored byte has not. *)
Fixpoint needs_erase (pwrite pread : list Z) : bool :=
  match pwrite, pread with
  | w :: pwrite, r :: pread => negb (w =? Z.land w r) || needs_erase pwrite pread
  | _, _ => false
  end.
(** One pass of [w25qxx_write_data_dma], for the part [data] that falls in a sector. *)
Definition write_sector (addr : Z) (data : list Z) (s : flash_t) : res flash_t :=
  let sector_addr := Z.land addr (u32 (Z.lnot (w25qxx_FLASH_SECTOR_SIZE - 1))) in
  let sector_offset := Z.land addr (w25qxx_FLASH_SECTOR_SIZE - 1) in
  '(swap_buf, s) ← w25qxx_read_fun sector_addr w25qxx_FLASH_SECTOR_SIZE s;
  s ← (if needs_erase data (drop (Z.to_nat sector_offset) swap_buf)
       then d ← wait_ready (w25qxx_sector_erase_dma sector_addr s.(chip)); Ok (set_chip d s)
       else Ok s);
  if Z.of_nat (length data) =? w25qxx_FLASH_SECTOR_SIZE
  then w25qxx_sector_program sector_addr data s
  else w25qxx_sector_program sector_addr
         (take (Z.to_nat sector_offset) swap_buf ++ data ++
          drop (Z.to_nat sector_offset + length data) swap_buf) s.
Fixpoint write_loop (fuel : nat) (addr : Z) (data : list Z) (s : flash_t) : res flash_t :=
  match data with
  | [] => Ok s
  | _ =>
      match fuel with
      | O => Fault FFuel
      | S fuel =>
          let sector_remain := w25qxx_FLASH_SECTOR_SIZE - Z.land addr (w25qxx_FLASH_SECTOR_SIZE - 1) in
          let write_len := Z.to_nat (Z.min (Z.of_nat (length data)) sector_remain) in
          s ← write_sector addr (take write_len data) s;
          write_loop fuel (u32 (addr + Z.of_nat write_len)) (drop write_len data) s
      end
  end.
Definition w25qxx_write_data_dma (addr : Z) (data : list Z) (s : flash_t) : res flash_t :=
  write_loop (S (length data)) addr data s.
Fixpoint direct_loop (fuel : nat) (addr : Z) (data : list Z) (s : flash_t) : res flash_t :=
  match data with
  | [] => Ok s
  | _ =>
      match fuel with
      | O => Fault FFuel
      | S fuel =>
          let page_remain := w25qxx_FLASH_PAGE_SIZE - Z.land addr (w25qxx_FLASH_PAGE_SIZE - 1) in
          let write_len := Z.to_nat (Z.min (Z.of_nat (length data)) page_remain) in
          s ← w25qxx_page_program_fun addr (take write_len data) s;
          direct_loop fuel (u32 (addr + Z.of_nat write_len)) (drop write_len data) s
      end
  end.
Definition w25qxx_write_data_direct_dma (addr : Z) (data : list Z) (s : flash_t) : res flash_t :=
  direct_loop (S (length data)) addr data s.

(** ** Modes *)
Definition w25qxx_init_dma (s : flash_t) : flash_t :=
  Flash s.(chip) PROGRAM_STANDARD W25QXX_STANDARD_FAST s.(inited).
(** Both status writes, then wait: the second one is for chips that do not know
    the first. *)
Definition write_reg2_twice (reg : Z) (d : D) : res D :=
  wait_ready (w25qxx_write_status_reg_dma 0 reg (w25qxx_write_status_reg2_dma reg d)).
Definition w25qxx_enable_quad_mode_dma (s : flash_t) : res flash_t :=
  let '(reg, d) := w25qxx_read_status_reg2_dma s.(chip) in
  d ← (if Z.land reg REG2_QUAL_MASK =? 0 then write_reg2_twice (Z.lor reg REG2_QUAL_MASK) d else Ok d);
  Ok (Flash d PROGRAM_QUAD W25QXX_QUAD_FAST s.(inited)).
Definition w25qxx_disable_quad_mode_dma (s : flash_t) : res flash_t :=
  let '(reg, d) := w25qxx_read_status_reg2_dma s.(chip) in
  d ← (if negb (Z.land reg REG2_QUAL_MASK =? 0)
       then write_reg2_twice (Z.land reg (u8 (Z.lnot REG2_QUAL_MASK))) d else Ok d);
  Ok (Flash d PROGRAM_STANDARD W25QXX_STANDARD_FAST s.(inited)).

(** ** The hardware layer *)
Definition hal_flash_init (want_id : bool) (s : flash_t) : res (option (Z * Z) * flash_t) :=
  s ← (if s.(inited) then Ok s
       else w25qxx_enable_quad_mode_dma (w25qxx_init_dma (Flash s.(chip) s.(page_program_fun) s.(read_fun) true)));
  if want_id then let '(m, i, d) := w25qxx_read_id_dma s.(chip) in Ok (Some (m, i), set_chip d s)
  else Ok (None, s).
Definition hal_flash_set_standard_mode := w25qxx_disable_quad_mode_dma.
Definition hal_flash_set_quad_mode := w25qxx_enable_quad_mode_dma.
Definition hal_flash_read_data (addr length : Z) (s : flash_t) : res (list Z * flash_t) :=
  '(bs, d) ← w25qxx_quad_read_data_dma addr length s.(chip); Ok (bs, set_chip d s).
Definition hal_flash_write_data := w25qxx_write_data_dma.
Definition hal_flash_chip_erase (s : flash_t) : flash_t := set_chip (w25qxx_chip_erase_dma s.(chip)) s.

Definition erase_func_table : list (Z * (Z → D → D)) :=
  [(64 * 1024, w25qxx_64k_block_erase_dma); (32 * 1024, w25qxx_32k_block_erase_dma);
   (4 * 1024, w25qxx_sector_erase_dma)].
(** The scan of the table up to its null entry. *)
Fixpoint find_erase (t : list (Z * (Z → D → D))) (addr length : Z) : option (Z * (Z → D → D)) :=
  match t with
  | [] => None
  | (unit, fn) :: t =>
      if (addr mod unit =? 0) && (length mod unit =? 0) then Some (unit, fn) else find_erase t addr length
  end.
Fixpoint erase_loop (n : nat) (fn : Z → D → D) (unit addr : Z) (d : D) : D :=
  match n with O => d | S n => erase_loop n fn unit (u32 (addr + unit)) (fn addr d) end.
Definition hal_flash_erase (addr length : Z) (s : flash_t) : flash_status_t * flash_t :=
  match find_erase erase_func_table addr length with
  | None => (W25QXX_ERROR, s)
  | Some (unit, fn) => (W25QXX_OK, set_chip (erase_loop (Z.to_nat (length / unit)) fn unit addr s.(chip)) s)
  end.
End driver.
Arguments flash_t : clear implicits.

(** ** What the data sheet gives *)
Section laws.
Context {D : Type} `{FlashOps D} `{!FlashChip D}.
Implicit Types (d : D) (s : flash_t D).

Lemma wait_ready_spec d :
  ∃ d', wait_ready d = Ok d' ∧ fc_polls d' = 0%nat ∧ fc_mem d' = fc_mem d ∧
    fc_wel d' = fc_wel d ∧ fc_reg2 d' = fc_reg2 d.
Proof.
  unfold wait_ready. assert (fc_polls d < S (fc_polls d))%nat as Hlt by lia.
  revert Hlt. generalize (S (fc_polls d)) as fuel. intros fuel. revert d.
  induction fuel as [|fuel IH]; intros d Hlt; [lia|]. cbn [wait_ready_loop].
  unfold w25qxx_is_busy_dma, w25qxx_read_status_reg1_dma, w25qxx_receive_data_dma, byte_of.
  destruct (fc_status d) as (st&d'&->&Hb&Hp&Hm&Hw&Hr). cbn [fst snd head default from_option id].
  change REG1_BUSY_MASK with (Z.ones 1). rewrite land_ones_wrap by lia.
  assert (negb (wrap 1 st =? 0) = Z.testbit st 0) as ->.
  { unfold wrap. change (2 ^ 1) with 2. rewrite <-Z.bit0_mod. by destruct (Z.testbit st 0). }
  rewrite Hb. destruct (Nat.eqb_spec (fc_polls d) 0) as [E|E]; cbn [negb].
  - exists d'. split_and!; try done. lia.
  - destruct (IH d') as (d2&->&?&?&?&?); [lia|]. exists d2. split_and!; try done; congruence.
Qed.

(** Ready for commands, in the modes the function pointers say. *)
Definition quad_on d : Prop := Z.testbit (fc_reg2 d) 1 = true.
Record ready (s : flash_t D) : Prop := {
  r_idle : fc_polls (chip s) = 0%nat;
  r_program : page_program_fun s = PROGRAM_QUAD → quad_on (chip s);
  r_read : read_fun s = W25QXX_QUAD_FAST → quad_on (chip s)
}.
(** The driver state is as before, the chip's contents are [m]. *)
Record after (s : flash_t D) (m : Z → Z) (s' : flash_t D) : Prop := {
  a_ready : ready s';
  a_program : page_program_fun s' = page_program_fun s;
  a_read : read_fun s' = read_fun s;
  a_inited : inited s' = inited s;
  a_reg2 : fc_reg2 (chip s') = fc_reg2 (chip s);
  a_mem : ∀ q, fc_mem (chip s') q = m q
}.
Lemma after_set_chip s d m :
  ready s → fc_polls d = 0%nat → fc_reg2 d = fc_reg2 (chip s) → (∀ q, fc_mem d q = m q) →
  after s m (set_chip d s).
Proof.
  intros [? Hp Hr] ? E ?. unfold quad_on in *.
  split; try done. split; unfold quad_on; simpl; rewrite ?E; done.
Qed.
Lemma after_refl s : ready s → after s (fc_mem (chip s)) s.
Proof. by split. Qed.
Lemma after_trans s m1 s1 m2 s2 :
  after s m1 s1 → after s1 m2 s2 → after s m2 s2.
Proof. intros [] []. split; congruence || done. Qed.
Lemma after_ext s m m' s' : after s m s' → (∀ q, m q = m' q) → after s m' s'.
Proof. intros [] E. split; try done. intros q. by rewrite <-E. Qed.

(** ** Programming *)
Lemma programmed_spec m a bs q :
  programmed m a bs q =
  if decide (a ≤ q < a + Z.of_nat (length bs)) then Z.land (m q) (bs !!! Z.to_nat (q - a)) else m q.
Proof.
  unfold programmed. case_decide as Hq.
  - destruct (lookup_lt_is_Some_2 bs (Z.to_nat (q - a))) as [b Hb]; [lia|].
    rewrite Hb, (proj2 (Z.leb_le _ _)) by lia. by rewrite (list_lookup_total_correct _ _ _ Hb).
  - destruct (bs !! Z.to_nat (q - a)) eqn:E; [|done]. apply lookup_lt_Some in E.
    by rewrite (proj2 (Z.leb_gt _ _)) by lia.
Qed.
Lemma programmed_app m m1 a xs ys q :
  (∀ q, m1 q = programmed m a xs q) →
  programmed m1 (a + Z.of_nat (length xs)) ys q = programmed m a (xs ++ ys) q.
Proof.
  intros E. rewrite programmed_spec, E, !programmed_spec, length_app.
  repeat case_decide; try lia; try done.
  - rewrite lookup_total_app_r by lia. do 2 f_equal. lia.
  - by rewrite lookup_total_app_l by lia.
Qed.
Lemma programmed_ext m m' a bs q : (∀ q, m q = m' q) → programmed m a bs q = programmed m' a bs q.
Proof. intros E. rewrite !programmed_spec. by rewrite E. Qed.

Lemma write_enable_idle d :
  fc_polls d = 0%nat →
  let d' := w25qxx_write_enable_dma d in
  fc_mem d' = fc_mem d ∧ fc_polls d' = 0%nat ∧ fc_wel d' = true ∧ fc_reg2 d' = fc_reg2 d.
Proof. apply fc_write_enable. Qed.

Lemma page_program_ok a bs s :
  ready s → page_fits a bs →
  ∃ s', w25qxx_page_program_fun a bs s = Ok s' ∧ after s (programmed (fc_mem (chip s)) a bs) s'.
Proof.
  intros Hs Hf. pose proof Hs as [Hi Hp _]. unfold w25qxx_page_program_fun.
  destruct (write_enable_idle (chip s) Hi) as (Hm&Hi1&Hw&Hr). cbv zeta in *.
  set (d1 := w25qxx_write_enable_dma (chip s)) in *.
  destruct (page_program_fun s).
  - unfold w25qxx_page_program_dma, w25qxx_send_data_dma. fold d1.
    destruct (fc_page_program a bs d1 Hi1 Hw Hf) as [Hm2 Hr2].
    destruct (wait_ready_spec (fc_tx (SpiStd (PAGE_PROGRAM :: addr24 a)) bs d1)) as (d'&->&?&Hm3&_&Hr3).
    eexists. split; [done|]. apply after_set_chip; [done..|congruence|]. intros q. by rewrite Hm3, Hm2, Hm.
  - unfold w25qxx_quad_page_program_dma. fold d1.
    destruct (fc_quad_program a bs d1 Hi1 Hw) as [Hm2 Hr2]; [rewrite Hr; by apply Hp|done|].
    destruct (wait_ready_spec (fc_tx (SpiQuad QUAD_PAGE_PROGRAM a 24 0) bs d1)) as (d'&->&?&Hm3&_&Hr3).
    eexists. split; [done|]. apply after_set_chip; [done..|congruence|]. intros q. by rewrite Hm3, Hm2, Hm.
Qed.

Lemma program_pages_ok n a bs s :
  ready s → 0 ≤ a → a mod 256 = 0 → length bs = (n * 256)%nat → a + Z.of_nat (length bs) ≤ 2 ^ 24 →
  ∃ s', program_pages n a bs s = Ok s' ∧ after s (programmed (fc_mem (chip s)) a bs) s'.
Proof.
  revert a bs s. induction n as [|n IH]; intros a bs s Hs Ha Hal Hlen Hb; cbn [program_pages].
  { exists s. split; [done|]. eapply after_ext; [by apply after_refl|]. intros q.
    rewrite programmed_spec, decide_False by lia. done. }
  change (Z.to_nat w25qxx_FLASH_PAGE_SIZE) with 256%nat. change w25qxx_FLASH_PAGE_SIZE with 256.
  assert (length (take 256 bs) = 256%nat) as Ht by (rewrite length_take; lia).
  destruct (page_program_ok a (take 256 bs) s Hs) as (s1&->&H1); [split; rewrite ?Ht; lia|].
  cbn [mbind res_bind]. rewrite wrap_id by lia.
  destruct (IH (a + 256) (drop 256 bs) s1) as (s2&->&H2).
  - apply H1.
  - lia.
  - rewrite Z.add_mod, Hal by lia. done.
  - rewrite length_drop. lia.
  - rewrite length_drop. lia.
  - exists s2. split; [done|]. eapply after_trans; [exact H1|]. eapply after_ext; [exact H2|].
    intros q. rewrite <-(take_drop 256 bs) at 2. rewrite <-(programmed_app _ (fc_mem (chip s1)));
      [by rewrite Ht|apply H1].
Qed.

(** ** Reading *)
Lemma read_once_ok a n mode d :
  fc_polls d = 0%nat → (mode = W25QXX_QUAD_FAST → quad_on d) → 0 ≤ a → 0 ≤ n → a + n ≤ 2 ^ 24 →
  ∃ d', w25qxx_read_once a n mode d = (mem_read (fc_mem d) a n, d') ∧ fc_same d d'.
Proof.
  intros Hi Hq ? ? ?. destruct mode; cbn [w25qxx_read_once]; unfold w25qxx_receive_data_dma.
  - by apply fc_read.
  - apply fc_quad_read; try done. by apply Hq.
Qed.
Lemma read_data_ok a n mode d :
  fc_polls d = 0%nat → (mode = W25QXX_QUAD_FAST → quad_on d) → 0 ≤ a → 0 ≤ n → a + n ≤ 2 ^ 24 →
  ∃ d', w25qxx_read_data_dma a n mode d = Ok (mem_read (fc_mem d) a n, d') ∧ fc_same d d'.
Proof.
  unfold w25qxx_read_data_dma. assert (n < Z.of_nat (S (Z.to_nat n))) as Hlt by lia. revert Hlt.
  generalize (S (Z.to_nat n)) as fuel. intros fuel. revert a n d.
  induction fuel as [|fuel IH]; intros a n d Hlt Hi Hq Ha Hn Hb; [lia|]. cbn [read_loop].
  destruct (Z.eqb_spec n 0) as [->|Hn0]; [by exists d|].
  set (len := if 65536 <=? n then 65536 else n).
  assert (0 < len ≤ n) as Hl by (subst len; destruct (Z.leb_spec 65536 n); lia). clearbody len.
  destruct (read_once_ok a len mode d) as (d1&->&Hm1&Hp1&Hw1&Hr1); try done; try lia.
  rewrite wrap_id by lia. destruct (IH (a + len) (n - len) d1) as (d2&->&Hm2&Hp2&Hw2&Hr2); try lia.
  { intros E. unfold quad_on. rewrite Hr1. by apply Hq. }
  cbn [mbind res_bind]. exists d2. split.
  - replace n with (len + (n - len)) at 2 by lia. by rewrite mem_read_app, Hm1 by lia.
  - split_and!; congruence.
Qed.
Lemma read_fun_ok a n s :
  ready s → 0 ≤ a → 0 ≤ n → a + n ≤ 2 ^ 24 →
  ∃ s', w25qxx_read_fun a n s = Ok (mem_read (fc_mem (chip s)) a n, s') ∧
    after s (fc_mem (chip s)) s' ∧ fc_mem (chip s') = fc_mem (chip s).
Proof.
  intros Hs ? ? ?. pose proof Hs as [Hi _ Hr].
  assert (w25qxx_read_fun a n s =
    ('(bs, d) ← w25qxx_read_data_dma a n (read_fun s) (chip s); Ok (bs, set_chip d s))) as ->.
  { unfold w25qxx_read_fun. by destruct (read_fun s). }
  destruct (read_data_ok a n (read_fun s) (chip s)) as (d'&->&Hm&Hp&Hw&Hr2); try done.
  eexists. split; [done|]. split; [|done].
  apply after_set_chip; [done|congruence|done|]. intros q. by rewrite Hm.
Qed.

(** ** Erasing *)
Lemma erase_cmd_ok op n a d :
  (op, n) ∈ [(SECTOR_ERASE, 4096); (BLOCK_32K_ERASE, 32768); (BLOCK_64K_ERASE, 65536)] →
  fc_polls d = 0%nat → 0 ≤ a < 2 ^ 24 →
  fc_mem (erase_cmd op a d) = erased (fc_mem d) (a - a mod n) n ∧ fc_polls (erase_cmd op a d) ≠ 0%nat ∧
  fc_reg2 (erase_cmd op a d) = fc_reg2 d.
Proof.
  intros Hop Hi Ha. destruct (write_enable_idle d Hi) as (Hm&Hi1&Hw&Hr). cbv zeta in *.
  unfold erase_cmd, w25qxx_send_data_dma.
  destruct (fc_erase op n a (w25qxx_write_enable_dma d) Hop Hi1 Hw Ha) as (Hm2&Hp2&Hr2).
  split_and!; congruence.
Qed.
(** The chip ignores an erase while it is busy. *)
Lemma erase_cmd_busy op a d : fc_polls d ≠ 0%nat → fc_same d (erase_cmd op a d).
Proof.
  intros Hb. unfold erase_cmd, w25qxx_send_data_dma, w25qxx_write_enable_dma, w25qxx_send_data_dma.
  pose proof (fc_busy (SpiStd [WRITE_ENABLE]) [] d Hb) as (Hm&Hp&Hw&Hr).
  destruct (fc_busy (SpiStd (op :: addr24 a)) [] (fc_tx (SpiStd [WRITE_ENABLE]) [] d))
    as (?&?&?&?); [congruence|]. split_and!; congruence.
Qed.

(** ** The read-erase-program pass *)
Definition bytes_ok (bs : list Z) : Prop := Forall (λ b, in_width 8 b) bs.
Definition mem_ok (m : Z → Z) : Prop := ∀ q, in_width 8 (m q).

Lemma needs_erase_false xs ys i x y :
  needs_erase xs ys = false → xs !! i = Some x → ys !! i = Some y → Z.land y x = x.
Proof.
  revert ys i. induction xs as [|w xs IH]; intros [|r ys] [|i]; cbn; try done;
    intros [E1 E2]%orb_false_iff Hx Hy.
  - injection Hx as ->. injection Hy as ->. apply negb_false_iff, Z.eqb_eq in E1. by rewrite Z.land_comm.
  - by apply (IH ys i).
Qed.
Lemma land_255 x : in_width 8 x → Z.land 255 x = x.
Proof. intros. rewrite Z.land_comm. change 255 with (Z.ones 8). by rewrite land_ones_wrap, wrap_id by lia. Qed.

(** The buffer that is programmed holds the new contents of the sector. *)
Lemma overlay m sa off bs :
  0 ≤ off → off + Z.of_nat (length bs) ≤ 4096 →
  take (Z.to_nat off) (mem_read m sa 4096) ++ bs ++ drop (Z.to_nat off + length bs) (mem_read m sa 4096) =
  mem_read (mem_write m (sa + off) bs) sa 4096.
Proof.
  intros ? ?. apply list_eq_same_length with 4096%nat.
  - pose proof (mem_read_length (mem_write m (sa + off) bs) sa 4096). lia.
  - pose proof (mem_read_length m sa 4096). rewrite !length_app, length_take, length_drop. lia.
  - intros i x y Hi Hx Hy. rewrite mem_read_lookup in Hy by lia. injection Hy as <-.
    rewrite mem_write_spec. apply lookup_app_Some in Hx as [Hx|[Hge Hx]].
    { apply lookup_take_Some in Hx as [Hx ?]. rewrite mem_read_lookup in Hx by lia.
      rewrite decide_False by lia. congruence. }
    pose proof (mem_read_length m sa 4096). rewrite length_take in Hge, Hx.
    apply lookup_app_Some in Hx as [Hx|[Hge2 Hx]].
    + pose proof (lookup_lt_Some _ _ _ Hx). rewrite decide_True by lia.
      apply list_lookup_total_correct in Hx. rewrite <-Hx. f_equal. lia.
    + rewrite lookup_drop, mem_read_lookup in Hx by lia. rewrite decide_False by lia.
      injection Hx as <-. f_equal. lia.
Qed.

(** Programming the sector from contents that only clear bits, or from an
    erased sector, gives the new contents. *)
Lemma sector_contents m m1 M sa :
  mem_ok M →
  (∀ q, q < sa ∨ sa + 4096 ≤ q → M q = m q) →
  ((∀ q, m1 q = erased m sa 4096 q) ∨ (∀ q, m1 q = m q) ∧ (∀ q, Z.land (m q) (M q) = M q)) →
  ∀ q, programmed m1 sa (mem_read M sa 4096) q = M q.
Proof.
  intros HM Hout Hm1 q. rewrite programmed_spec, mem_read_length by done. case_decide as Hq.
  - rewrite (list_lookup_total_correct _ _ (M q)).
    2: { rewrite mem_read_lookup by lia. do 2 f_equal. lia. }
    destruct Hm1 as [E|[E Hland]]; rewrite E; [|apply Hland]. unfold erased.
    rewrite (proj2 (Z.leb_le _ _)), (proj2 (Z.ltb_lt _ _)) by lia. by apply land_255.
  - destruct Hm1 as [E|[E _]]; rewrite E, ?Hout by lia; [|done]. unfold erased.
    destruct (Z.leb_spec sa q), (Z.ltb_spec q (sa + 4096)); done || lia.
Qed.

Lemma mem_write_ok m a bs : mem_ok m → bytes_ok bs → mem_ok (mem_write m a bs).
Proof.
  intros Hm Hb q. rewrite mem_write_spec. case_decide; [|apply Hm].
  unfold bytes_ok in Hb. rewrite Forall_lookup in Hb.
  apply (Hb (Z.to_nat (q - a))), list_lookup_lookup_total_lt. lia.
Qed.

(** The erase decision: afterwards the sector can be programmed. *)
Lemma erase_if_needed sa off bs m s :
  after s m s → 0 ≤ sa → sa mod 4096 = 0 → sa + 4096 ≤ 2 ^ 24 → 0 ≤ off →
  off + Z.of_nat (length bs) ≤ 4096 →
  ∃ s' m1, (if needs_erase bs (drop (Z.to_nat off) (mem_read m sa 4096))
         then d ← wait_ready (w25qxx_sector_erase_dma sa (chip s)); Ok (set_chip d s) else Ok s) = Ok s' ∧
    after s m1 s' ∧
    ((∀ q, m1 q = erased m sa 4096 q) ∨
     (∀ q, m1 q = m q) ∧ (∀ q, Z.land (m q) (mem_write m (sa + off) bs q) = mem_write m (sa + off) bs q)).
Proof.
  intros Hs Hsa Hal Hb Hoff Hlen. pose proof Hs as [[Hi ? ?] _ _ _ _ Hm].
  destruct (needs_erase _ _) eqn:E.
  - destruct (erase_cmd_ok SECTOR_ERASE 4096 sa (chip s)) as (Hm1&_&Hr1); [by left|done|lia|].
    unfold w25qxx_sector_erase_dma.
    destruct (wait_ready_spec (erase_cmd SECTOR_ERASE sa (chip s))) as (d&->&?&Hm2&_&Hr2).
    exists (set_chip d s), (erased m sa 4096). split; [done|]. split; [|by left].
    apply after_set_chip; [apply Hs|done|congruence|]. intros q. rewrite Hm2, Hm1, Hal, Z.sub_0_r.
    unfold erased. by rewrite Hm.
  - exists s, m. split; [done|]. split; [done|]. right. split; [done|]. intros q.
    rewrite mem_write_spec. case_decide as Hq; [|apply Z.land_diag].
    destruct (lookup_lt_is_Some_2 bs (Z.to_nat (q - (sa + off)))) as [x Hx]; [lia|].
    rewrite (list_lookup_total_correct _ _ _ Hx).
    eapply (needs_erase_false _ _ _ x (m q)); [exact E|exact Hx|].
    rewrite lookup_drop, mem_read_lookup by lia. do 2 f_equal. lia.
Qed.

(** One pass writes its part of the data and nothing else. *)
Lemma write_sector_ok a bs s :
  ready s → mem_ok (fc_mem (chip s)) → bytes_ok bs → bs ≠ [] → 0 ≤ a →
  a mod 4096 + Z.of_nat (length bs) ≤ 4096 → a + Z.of_nat (length bs) ≤ 2 ^ 24 →
  ∃ s', write_sector a bs s = Ok s' ∧ after s (mem_write (fc_mem (chip s)) a bs) s'.
Proof.
  intros Hs Hok Hbs Hne Ha Hfit Hb. unfold write_sector.
  assert (0 < Z.of_nat (length bs)) as Hpos by (destruct bs; [done|cbn [length]; lia]).
  change (w25qxx_FLASH_SECTOR_SIZE - 1) with (2 ^ 12 - 1). change w25qxx_FLASH_SECTOR_SIZE with 4096.
  rewrite land_align, land_mask_mod by lia. change (2 ^ 12) with 4096.
  set (off := a mod 4096) in *. set (sa := a - off).
  assert (0 ≤ off < 4096 ∧ 0 ≤ sa ∧ sa mod 4096 = 0 ∧ sa + 4096 ≤ 2 ^ 24 ∧ sa + off = a) as (?&?&Hal&?&Ea).
  { subst sa off. change (2 ^ 24) with 16777216 in *. Z.div_mod_to_equations. lia. }
  clearbody off sa. subst a. set (m := fc_mem (chip s)) in *.
  destruct (read_fun_ok sa 4096 s Hs) as (s1&->&R1&Em); [lia..|]. fold m in R1 |- *. cbn [mbind res_bind].
  destruct (erase_if_needed sa off bs m s1) as (s2&m2&->&R2&Hm2); try done; try lia.
  { split; try done; [apply R1|]. intros q. by rewrite Em. }
  cbn [mbind res_bind]. set (M := mem_write m (sa + off) bs) in *.
  assert ((if Z.of_nat (length bs) =? 4096 then w25qxx_sector_program sa bs s2
           else w25qxx_sector_program sa (take (Z.to_nat off) (mem_read m sa 4096) ++ bs ++
             drop (Z.to_nat off + length bs) (mem_read m sa 4096)) s2) =
          w25qxx_sector_program sa (mem_read M sa 4096) s2) as ->.
  { rewrite overlay by lia. fold M. destruct (Z.eqb_spec (Z.of_nat (length bs)) 4096); [|done].
    f_equal. subst M. replace off with 0 by lia. rewrite Z.add_0_r, <-e. symmetry. apply mem_read_write. }
  destruct (program_pages_ok 16 sa (mem_read M sa 4096) s2) as (s3&E3&R3).
  - apply R2.
  - done.
  - change 4096 with (16 * 256) in Hal. rewrite Z.rem_mul_r in Hal by lia.
    pose proof (Z.mod_pos_bound sa 16). change (16 * 256) with (256 * 16) in Hal.
    Z.div_mod_to_equations. lia.
  - apply Nat2Z.inj. rewrite mem_read_length by lia. done.
  - rewrite mem_read_length by lia. lia.
  - exists s3. split; [exact E3|]. eapply after_trans; [|eapply after_ext; [exact R3|]].
    + eapply after_trans; [exact R1|exact R2].
    + apply (sector_contents m); [by apply mem_write_ok| |].
      * intros q Hq. apply mem_write_out. lia.
      * destruct R2 as [_ _ _ _ _ R2]. destruct Hm2 as [E|[E ?]]; [left|right]; [|split; [|done]];
          intros q; by rewrite R2.
Qed.

Lemma write_loop_cons fuel a bs s :
  bs ≠ [] →
  write_loop (S fuel) a bs s =
    (let n := Z.to_nat (Z.min (Z.of_nat (length bs))
                (w25qxx_FLASH_SECTOR_SIZE - Z.land a (w25qxx_FLASH_SECTOR_SIZE - 1))) in
     s ← write_sector a (take n bs) s;
     write_loop fuel (u32 (a + Z.of_nat n)) (drop n bs) s).
Proof. by destruct bs. Qed.
Lemma write_loop_ok fuel a bs s :
  (length bs < fuel)%nat → ready s → mem_ok (fc_mem (chip s)) → bytes_ok bs → 0 ≤ a →
  a + Z.of_nat (length bs) ≤ 2 ^ 24 →
  ∃ s', write_loop fuel a bs s = Ok s' ∧ after s (mem_write (fc_mem (chip s)) a bs) s'.
Proof.
  revert a bs s. induction fuel as [|fuel IH]; intros a bs s Hf Hs Hok Hbs Ha Hb; [lia|].
  destruct (decide (bs = [])) as [->|Hne].
  { exists s. split; [done|]. by eapply after_ext; [apply after_refl|]; intros. }
  assert (0 < Z.of_nat (length bs)) as Hpos by (destruct bs; [done|cbn [length]; lia]).
  rewrite write_loop_cons by done. cbv zeta.
  change (w25qxx_FLASH_SECTOR_SIZE - 1) with (2 ^ 12 - 1). change w25qxx_FLASH_SECTOR_SIZE with 4096.
  rewrite land_mask_mod by lia. change (2 ^ 12) with 4096.
  set (n := Z.to_nat (Z.min (Z.of_nat (length bs)) (4096 - a mod 4096))).
  assert ((0 < n ≤ length bs)%nat ∧ a mod 4096 + Z.of_nat n ≤ 4096) as [? ?].
  { pose proof (Z.mod_pos_bound a 4096). subst n. lia. }
  clearbody n. rewrite <-(take_drop n bs) in Hbs.
  apply Forall_app in Hbs as [Hb1 Hb2].
  assert (length (take n bs) = n) as Et by (rewrite length_take; lia).
  destruct (write_sector_ok a (take n bs) s) as (s1&->&R1); rewrite ?Et; try done; try lia.
  { intros E. rewrite E in Et. cbn in Et. lia. }
  cbn [mbind res_bind]. rewrite wrap_id by lia.
  destruct (IH (a + Z.of_nat n) (drop n bs) s1) as (s2&->&R2); try done; rewrite ?length_drop; try lia.
  - apply R1.
  - intros q. rewrite (a_mem _ _ _ R1). by apply mem_write_ok.
  - exists s2. split; [done|]. eapply after_trans; [exact R1|]. eapply after_ext; [exact R2|].
    intros q. rewrite <-(take_drop n bs) at 2. rewrite <-mem_write_app, Et.
    rewrite !(mem_write_spec _ (a + Z.of_nat n)). case_decide; [done|]. apply R1.
Qed.

(** Direct writing programs without erasing. *)
Lemma direct_loop_cons fuel a bs s :
  bs ≠ [] →
  direct_loop (S fuel) a bs s =
    (let n := Z.to_nat (Z.min (Z.of_nat (length bs))
                (w25qxx_FLASH_PAGE_SIZE - Z.land a (w25qxx_FLASH_PAGE_SIZE - 1))) in
     s ← w25qxx_page_program_fun a (take n bs) s;
     direct_loop fuel (u32 (a + Z.of_nat n)) (drop n bs) s).
Proof. by destruct bs. Qed.
Lemma direct_loop_ok fuel a bs s :
  (length bs < fuel)%nat → ready s → 0 ≤ a → a + Z.of_nat (length bs) ≤ 2 ^ 24 →
  ∃ s', direct_loop fuel a bs s = Ok s' ∧ after s (programmed (fc_mem (chip s)) a bs) s'.
Proof.
  revert a bs s. induction fuel as [|fuel IH]; intros a bs s Hf Hs Ha Hb; [lia|].
  destruct (decide (bs = [])) as [->|Hne].
  { exists s. split; [done|]. by eapply after_ext; [apply after_refl|]; intros. }
  assert (0 < Z.of_nat (length bs)) as Hpos by (destruct bs; [done|cbn [length]; lia]).
  rewrite direct_loop_cons by done. cbv zeta.
  change (w25qxx_FLASH_PAGE_SIZE - 1) with (2 ^ 8 - 1). change w25qxx_FLASH_PAGE_SIZE with 256.
  rewrite land_mask_mod by lia. change (2 ^ 8) with 256.
  set (n := Z.to_nat (Z.min (Z.of_nat (length bs)) (256 - a mod 256))).
  assert ((0 < n ≤ length bs)%nat ∧ a mod 256 + Z.of_nat n ≤ 256) as [? ?].
  { pose proof (Z.mod_pos_bound a 256). subst n. lia. }
  clearbody n. assert (length (take n bs) = n) as Et by (rewrite length_take; lia).
  destruct (page_program_ok a (take n bs) s) as (s1&->&R1); [done|split; rewrite ?Et; lia|].
  cbn [mbind res_bind]. rewrite wrap_id by lia.
  destruct (IH (a + Z.of_nat n) (drop n bs) s1) as (s2&->&R2); try done; rewrite ?length_drop; try lia.
  - apply R1.
  - exists s2. split; [done|]. eapply after_trans; [exact R1|]. eapply after_ext; [exact R2|].
    intros q. rewrite <-(take_drop n bs) at 2. rewrite <-(programmed_app _ (fc_mem (chip s1)));
      [by rewrite Et|apply R1].
Qed.

(** ** Modes *)
Lemma write_reg2_ok reg d :
  fc_polls d = 0%nat →
  ∃ d', write_reg2_twice reg d = Ok d' ∧ fc_polls d' = 0%nat ∧ fc_mem d' = fc_mem d ∧ fc_reg2 d' = reg.
Proof.
  intros Hi. unfold write_reg2_twice. destruct (write_enable_idle d Hi) as (Hm&Hi1&Hw&Hr). cbv zeta in *.
  unfold w25qxx_write_status_reg2_dma, w25qxx_send_data_dma.
  destruct (fc_write_reg2 reg (w25qxx_write_enable_dma d) Hi1 Hw) as [Hm2 Hr2].
  set (d2 := fc_tx (SpiStd [WRITE_REG2; reg]) [] (w25qxx_write_enable_dma d)) in *.
  unfold w25qxx_write_status_reg_dma.
  assert (fc_mem (w25qxx_send_data_dma [WRITE_REG1; 0; reg] [] (w25qxx_write_enable_dma d2)) = fc_mem d2 ∧
          fc_reg2 (w25qxx_send_data_dma [WRITE_REG1; 0; reg] [] (w25qxx_write_enable_dma d2)) = reg) as [Hm4 Hr4].
  { destruct (decide (fc_polls d2 = 0%nat)) as [E|E].
    - destruct (write_enable_idle d2 E) as (Hm3&Hi3&Hw3&Hr3). cbv zeta in *.
      destruct (fc_write_reg 0 reg (w25qxx_write_enable_dma d2) Hi3 Hw3) as [? ?].
      unfold w25qxx_send_data_dma. split; congruence.
    - unfold w25qxx_write_enable_dma, w25qxx_send_data_dma.
      destruct (fc_busy (SpiStd [WRITE_ENABLE]) [] d2 E) as (?&Hp3&?&?).
      destruct (fc_busy (SpiStd [WRITE_REG1; 0; reg]) [] (fc_tx (SpiStd [WRITE_ENABLE]) [] d2))
        as (?&?&?&?); [congruence|]. split; congruence. }
  destruct (wait_ready_spec (w25qxx_send_data_dma [WRITE_REG1; 0; reg] [] (w25qxx_write_enable_dma d2)))
    as (d'&->&?&Hm5&_&Hr5).
  exists d'. split; [done|]. split; [done|]. split; congruence.
Qed.
Lemma read_reg2_ok d :
  fc_polls d = 0%nat → ∃ d', w25qxx_read_status_reg2_dma d = (fc_reg2 d, d') ∧ fc_same d d'.
Proof.
  intros Hi. unfold w25qxx_read_status_reg2_dma, w25qxx_receive_data_dma, byte_of.
  destruct (fc_read_reg2 d Hi) as (d'&->&?). by exists d'.
Qed.
Lemma enable_quad_ok s :
  fc_polls (chip s) = 0%nat →
  ∃ s', w25qxx_enable_quad_mode_dma s = Ok s' ∧ ready s' ∧ quad_on (chip s') ∧
    page_program_fun s' = PROGRAM_QUAD ∧ read_fun s' = W25QXX_QUAD_FAST ∧ inited s' = inited s ∧
    fc_mem (chip s') = fc_mem (chip s).
Proof.
  intros Hi. unfold w25qxx_enable_quad_mode_dma.
  destruct (read_reg2_ok (chip s) Hi) as (d&->&Hm&Hp&_&Hr).
  assert (∀ v, (Z.land v REG2_QUAL_MASK =? 0) = negb (Z.testbit v 1)) as Hbit.
  { intros v. change REG2_QUAL_MASK with (2 ^ 1). apply land_pow2_eqb. lia. }
  rewrite Hbit. destruct (Z.testbit (fc_reg2 (chip s)) 1) eqn:E; cbn [negb mbind res_bind].
  - eexists. split; [done|]. assert (quad_on d) by (unfold quad_on; congruence).
    split; [split; simpl; intros; congruence|]. done.
  - destruct (write_reg2_ok (Z.lor (fc_reg2 (chip s)) REG2_QUAL_MASK) d) as (d'&->&?&?&Hr2); [congruence|].
    cbn [mbind res_bind]. eexists. split; [done|].
    assert (quad_on d').
    { unfold quad_on. rewrite Hr2, Z.lor_spec, E. done. }
    split; [split; simpl; done|]. split_and!; simpl; try done. congruence.
Qed.
Lemma disable_quad_ok s :
  fc_polls (chip s) = 0%nat →
  ∃ s', w25qxx_disable_quad_mode_dma s = Ok s' ∧ ready s' ∧ ¬ quad_on (chip s') ∧
    read_fun s' = W25QXX_STANDARD_FAST ∧ fc_mem (chip s') = fc_mem (chip s).
Proof.
  intros Hi. unfold w25qxx_disable_quad_mode_dma.
  destruct (read_reg2_ok (chip s) Hi) as (d&->&Hm&Hp&_&Hr).
  assert (∀ v, (Z.land v REG2_QUAL_MASK =? 0) = negb (Z.testbit v 1)) as Hbit.
  { intros v. change REG2_QUAL_MASK with (2 ^ 1). apply land_pow2_eqb. lia. }
  rewrite Hbit, negb_involutive. unfold quad_on.
  destruct (Z.testbit (fc_reg2 (chip s)) 1) eqn:E; cbn [mbind res_bind].
  - destruct (write_reg2_ok (Z.land (fc_reg2 (chip s)) (u8 (Z.lnot REG2_QUAL_MASK))) d)
      as (d'&->&?&?&Hr2); [congruence|].
    cbn [mbind res_bind]. eexists. split; [done|]. split; [by split|].
    cbn [chip read_fun]. rewrite Hr2, Z.land_spec.
    split; [by intros [_ ?]%andb_true_iff|]. split; [done|]. congruence.
  - eexists. split; [done|]. split; [split; simpl; congruence|]. cbn [chip read_fun]. rewrite Hr, E. done.
Qed.
End laws.

(** ** A chip *)
Module Sim.
Record chip_t := Chip { mem : Z → Z; polls : nat; wel : bool; reg2 : Z }.
Definition addr_of (a b c : Z) : Z := a * 65536 + b * 256 + c.
Definition erase_size (op : Z) : Z :=
  if op =? SECTOR_ERASE then 4096 else if op =? BLOCK_32K_ERASE then 32768 else 65536.
Definition is_erase (op : Z) : bool := (op =? SECTOR_ERASE) || (op =? BLOCK_32K_ERASE) || (op =? BLOCK_64K_ERASE).
Definition tx (c : spi_cmd) (x : list Z) (d : chip_t) : chip_t :=
  if negb (polls d =? 0)%nat then d else
  match c with
  | SpiStd [op] => if op =? WRITE_ENABLE then Chip d.(mem) 0 true d.(reg2) else d
  | SpiStd [op; v] => if d.(wel) && (op =? WRITE_REG2) then Chip d.(mem) 3 false v else d
  | SpiStd [op; _; v] => if d.(wel) && (op =? WRITE_REG1) then Chip d.(mem) 3 false v else d
  | SpiStd [op; a; b; c] =>
      if negb d.(wel) then d
      else if op =? PAGE_PROGRAM then Chip (programmed d.(mem) (addr_of a b c) x) 2 false d.(reg2)
      else if is_erase op then
        let addr := addr_of a b c in
        Chip (erased d.(mem) (addr - addr mod erase_size op) (erase_size op)) 4 false d.(reg2)
      else d
  | SpiQuad op a _ _ =>
      if d.(wel) && (op =? QUAD_PAGE_PROGRAM) && Z.testbit d.(reg2) 1
      then Chip (programmed d.(mem) a x) 2 false d.(reg2) else d
  | _ => d
  end.
Definition rx (c : spi_cmd) (n : Z) (d : chip_t) : list Z * chip_t :=
  match c with
  | SpiStd [op] =>
      if op =? READ_REG1
      then ([Z.b2z (negb (polls d =? 0)%nat)], Chip d.(mem) (Nat.pred d.(polls)) d.(wel) d.(reg2))
      else ([d.(reg2)], d)
  | SpiStd [_; a; b; c; _] => (mem_read d.(mem) (addr_of a b c) n, d)
  | SpiQuad _ w _ _ => (mem_read d.(mem) (w / 256) n, d)
  | _ => ([], d)
  end.
#[global] Instance ops : FlashOps chip_t :=
  {| fc_tx := tx; fc_rx := rx; fc_mem := mem; fc_polls := polls; fc_wel := wel; fc_reg2 := reg2 |}.

Lemma addr_of_addr24 a : 0 ≤ a < 2 ^ 24 → ∃ x y z, addr24 a = [x; y; z] ∧ addr_of x y z = a.
Proof.
  intros Ha. unfold addr24, addr_of, wrap. do 3 eexists. split; [reflexivity|].
  rewrite !Z.shiftr_div_pow2 by lia. change (2 ^ 16) with 65536. change (2 ^ 8) with 256.
  change (2 ^ 24) with 16777216 in Ha. Z.div_mod_to_equations. lia.
Qed.
#[global] Instance chip_laws : FlashChip chip_t.
Proof.
  split; cbn [fc_tx fc_rx fc_mem fc_polls fc_wel fc_reg2 ops].
  - intros [m p w r]. do 2 eexists. split; [reflexivity|]. simpl. by destruct p.
  - intros c x d Hp. unfold tx, fc_same. simpl. apply Nat.eqb_neq in Hp. by rewrite Hp.
  - intros [m p w r]. simpl. intros ->. done.
  - intros a x [m p w r]. simpl. intros -> -> (?&?&?).
    by destruct (addr_of_addr24 a) as (?&?&?&->&<-).
  - intros a x [m p w r]. simpl. intros -> -> E ?. unfold tx. simpl. by rewrite E.
  - intros op n a [m p w r] Hop. simpl. intros -> -> Ha.
    destruct (addr_of_addr24 a Ha) as (?&?&?&->&Ea). 
    assert (op =? PAGE_PROGRAM = false ∧ is_erase op = true ∧ erase_size op = n) as (E1&E2&E3).
    { by repeat (apply elem_of_cons in Hop as [[= -> ->]|Hop]); [| | |apply elem_of_nil in Hop]. }
    unfold tx. simpl. by rewrite E1, E2, E3, Ea.
  - intros a n d Hp ? ? ?. exists d. split; [|done]. destruct (decide (n = 0)) as [->|]; [done|].
    destruct (addr_of_addr24 a) as (?&?&?&->&<-); [lia|done].
  - intros a n d Hp ? ? ? ?. exists d. split; [|done]. unfold rx. simpl.
    destruct (decide (n = 0)) as [->|]; [done|].
    rewrite wrap_id, Z.shiftl_mul_pow2 by (try rewrite Z.shiftl_mul_pow2 by lia; lia).
    by rewrite Z.div_mul by lia.
  - intros d _. by exists d.
  - intros v [m p w r]. simpl. by intros -> ->.
  - intros v1 v2 [m p w r]. simpl. by intros -> ->.
Qed.
End Sim.

(** ** The hardware layer's contracts *)
Section contracts.
Context {D : Type} `{FlashOps D} `{!FlashChip D}.
Implicit Types (d : D) (s : flash_t D).

(** C12: the read-erase-program loop of [hal_flash_write_data] is a memory write:
    on an idle chip, in either programming mode, for any address and length
    inside the 16 MB the commands reach, it terminates successfully with the chip
    idle again, the given bytes at the given addresses and every other byte
    of the chip, in the sectors it erased too, as it was. *)
Theorem hal_flash_write_data_spec addr data s :
  ready s → mem_ok (fc_mem (chip s)) → bytes_ok data → 0 ≤ addr →
  addr + Z.of_nat (length data) ≤ 2 ^ 24 →
  ∃ s', hal_flash_write_data addr data s = Ok s' ∧ after s (mem_write (fc_mem (chip s)) addr data) s'.
Proof. intros. apply write_loop_ok; try done. lia. Qed.

(** [w25qxx_write_data_direct_dma] does not erase: it clears bits. *)
Lemma write_data_direct_spec addr data s :
  ready s → 0 ≤ addr → addr + Z.of_nat (length data) ≤ 2 ^ 24 →
  ∃ s', w25qxx_write_data_direct_dma addr data s = Ok s' ∧
    after s (programmed (fc_mem (chip s)) addr data) s'.
Proof. intros. apply direct_loop_ok; try done. lia. Qed.

Lemma hal_flash_init_ok s :
  fc_polls (chip s) = 0%nat → inited s = false →
  ∃ s', hal_flash_init false s = Ok (None, s') ∧ ready s' ∧ quad_on (chip s') ∧ inited s' = true ∧
    fc_mem (chip s') = fc_mem (chip s).
Proof.
  intros Hi Hn. unfold hal_flash_init. rewrite Hn.
  destruct (enable_quad_ok (w25qxx_init_dma (Flash (chip s) (page_program_fun s) (read_fun s) true)) Hi)
    as (s'&->&?&?&_&_&?&?). by exists s'.
Qed.
Lemma hal_flash_read_ok addr n s :
  ready s → quad_on (chip s) → 0 ≤ addr → 0 ≤ n → addr + n ≤ 2 ^ 24 →
  ∃ s', hal_flash_read_data addr n s = Ok (mem_read (fc_mem (chip s)) addr n, s') ∧
    after s (fc_mem (chip s)) s'.
Proof.
  intros Hs ? ? ? ?. unfold hal_flash_read_data, w25qxx_quad_read_data_dma.
  destruct (read_data_ok addr n W25QXX_QUAD_FAST (chip s)) as (d&->&Hm&Hp&_&Hr); try done.
  { apply Hs. }
  eexists. split; [done|].
  apply after_set_chip; [done|rewrite Hp; apply Hs|done|]. intros q. by rewrite Hm.
Qed.

(** C13: round trip through a driver that starts uninitialised on an idle chip
    in any mode: [hal_flash_init] (which sets the quad enable bit when it is
    clear), [hal_flash_write_data] and [hal_flash_read_data] of as many bytes
    return the bytes written. *)
Theorem hal_flash_write_read addr data s :
  fc_polls (chip s) = 0%nat → inited s = false → mem_ok (fc_mem (chip s)) → bytes_ok data → 0 ≤ addr →
  addr + Z.of_nat (length data) ≤ 2 ^ 24 →
  ∃ s', ('(_, s) ← hal_flash_init false s;
         s ← hal_flash_write_data addr data s;
         hal_flash_read_data addr (Z.of_nat (length data)) s) = Ok (data, s').
Proof.
  intros Hi Hn Hok ? ? ?. destruct (hal_flash_init_ok s Hi Hn) as (s1&->&?&Hq&_&Em).
  cbn [mbind res_bind]. destruct (write_loop_ok (S (length data)) addr data s1) as (s2&E2&R2); try done.
  { lia. } { by rewrite Em. }
  unfold hal_flash_write_data, w25qxx_write_data_dma. rewrite E2. cbn [mbind res_bind].
  destruct (hal_flash_read_ok addr (Z.of_nat (length data)) s2) as (s3&->&_); try done; try lia.
  - apply R2.
  - unfold quad_on. rewrite (a_reg2 _ _ _ R2). exact Hq.
  - exists s3. do 2 f_equal. etransitivity; [|apply (mem_read_write (fc_mem (chip s1)) addr)].
    apply mem_read_ext. intros. apply R2.
Qed.

(** Only the first of a run of erases reaches the chip. *)
Lemma erase_loop_busy op n unit addr d :
  fc_polls d ≠ 0%nat → fc_same d (erase_loop n (erase_cmd op) unit addr d).
Proof.
  revert addr d. induction n as [|n IH]; intros addr d Hb; cbn [erase_loop]; [done|].
  destruct (erase_cmd_busy op addr d Hb) as (?&?&?&?).
  destruct (IH (u32 (addr + unit)) (erase_cmd op addr d)) as (?&?&?&?); [congruence|].
  split_and!; congruence.
Qed.
Lemma erase_loop_first op unit addr length d :
  (op, unit) ∈ [(SECTOR_ERASE, 4096); (BLOCK_32K_ERASE, 32768); (BLOCK_64K_ERASE, 65536)] →
  fc_polls d = 0%nat → 0 ≤ addr < 2 ^ 24 → addr mod unit = 0 → length mod unit = 0 → 0 < length →
  let d' := erase_loop (Z.to_nat (length / unit)) (erase_cmd op) unit addr d in
  fc_mem d' = erased (fc_mem d) addr unit ∧ fc_polls d' ≠ 0%nat.
Proof.
  intros Hop Hi Ha Hal Hl Hpos d'.
  assert (0 < unit) as Hu.
  { by repeat (apply elem_of_cons in Hop as [[= -> ->]|Hop]); [| | |apply elem_of_nil in Hop]. }
  assert (0 < length / unit) as Hn.
  { pose proof (Z.div_mod length unit). assert (length / unit ≠ 0); [intros E; rewrite E in *; lia|].
    pose proof (Z.div_pos length unit). lia. }
  subst d'. destruct (Z.to_nat (length / unit)) as [|n] eqn:E; [lia|]. cbn [erase_loop].
  destruct (erase_cmd_ok op unit addr d Hop Hi Ha) as (Hm&Hp&_).
  destruct (erase_loop_busy op n unit (u32 (addr + unit)) (erase_cmd op addr d) Hp) as (Hm2&Hp2&_).
  rewrite Hm2, Hm, Hal, Z.sub_0_r. split; [done|]. congruence.
Qed.

(** The unit [hal_flash_erase] picks. *)
Definition erase_unit (addr length : Z) : option Z :=
  if (addr mod 65536 =? 0) && (length mod 65536 =? 0) then Some 65536
  else if (addr mod 32768 =? 0) && (length mod 32768 =? 0) then Some 32768
  else if (addr mod 4096 =? 0) && (length mod 4096 =? 0) then Some 4096 else None.
(** [hal_flash_erase] refuses ranges that are not whole sectors, leaving
    the chip alone; otherwise it takes the largest unit that divides address
    and length and reports success, but, since it does not wait for the chip
    between two commands, the chip ignores all but the first: one unit is
    erased whatever the length, and the chip is left busy. *)
Theorem hal_flash_erase_spec addr length s :
  fc_polls (chip s) = 0%nat → 0 ≤ addr < 2 ^ 24 → 0 < length →
  match erase_unit addr length with
  | None => hal_flash_erase addr length s = (W25QXX_ERROR, s)
  | Some unit =>
      ∃ d', hal_flash_erase addr length s = (W25QXX_OK, set_chip d' s) ∧
        fc_mem d' = erased (fc_mem (chip s)) addr unit ∧ fc_polls d' ≠ 0%nat
  end.
Proof.
  intros Hi Ha Hl. unfold erase_unit, hal_flash_erase, erase_func_table. cbn [find_erase].
  change (64 * 1024) with 65536. change (32 * 1024) with 32768. change (4 * 1024) with 4096.
  repeat match goal with |- context [(?x mod ?u =? 0) && (?y mod ?u =? 0)] =>
    destruct (Z.eqb_spec (x mod u) 0), (Z.eqb_spec (y mod u) 0); cbn [andb] end;
    try done; eexists; (split; [reflexivity|]); apply erase_loop_first; try done; set_solver.
Qed.
End contracts.

Definition demo_chip : flash_t Sim.chip_t :=
  Flash (Sim.Chip (λ q, q mod 256) 0 false 0) PROGRAM_STANDARD W25QXX_STANDARD_FAST false.
Lemma demo_mem_ok : mem_ok (fc_mem (chip demo_chip)).
Proof. intros q. apply Z.mod_pos_bound. lia. Qed.
Lemma demo_ready : ready demo_chip.
Proof. by split. Qed.
Lemma hal_flash_write_data_witness :
  ∃ s', hal_flash_write_data 4090 [1; 2; 3; 4; 5; 6; 7; 8; 9; 10] demo_chip = Ok s' ∧
    after demo_chip (mem_write (λ q, q mod 256) 4090 [1; 2; 3; 4; 5; 6; 7; 8; 9; 10]) s'.
Proof.
  apply (hal_flash_write_data_spec 4090 [1; 2; 3; 4; 5; 6; 7; 8; 9; 10] demo_chip demo_ready demo_mem_ok).
  - by repeat constructor.
  - done.
  - done.
Defined.
Lemma hal_flash_write_read_witness :
  ∃ s', ('(_, s) ← hal_flash_init false demo_chip;
         s ← hal_flash_write_data 4090 [1; 2; 3; 4; 5; 6; 7; 8; 9; 10] s;
         hal_flash_read_data 4090 10 s) = Ok ([1; 2; 3; 4; 5; 6; 7; 8; 9; 10], s').
Proof.
  apply (hal_flash_write_read 4090 [1; 2; 3; 4; 5; 6; 7; 8; 9; 10] demo_chip); try done.
  - apply demo_mem_ok.
  - by repeat constructor.
Defined.
Lemma hal_flash_erase_witness :
  ∃ d', hal_flash_erase 65536 131072 demo_chip = (W25QXX_OK, set_chip d' demo_chip) ∧
    fc_mem d' = erased (λ q, q mod 256) 65536 65536 ∧ fc_polls d' ≠ 0%nat.
Proof.
  pose proof (hal_flash_erase_spec 65536 131072 demo_chip eq_refl ltac:(lia) ltac:(lia)) as W.
  change (erase_unit 65536 131072) with (Some 65536) in W. exact W.
Defined.
