(* ===== verification/Sha256.v ===== *)
(** * SHA-256 accelerator (cores/k210/k210-sdk/drivers/k210_sha256.c)

    The driver cuts a message into 64-byte blocks, pads it and pushes it word
    by word into the engine's FIFO.  The engine (the compression function in
    hardware) is a parameter with its documented behaviour; the FIPS 180-4
    function is the reference. *)

From S2P Require Import Prelude SysctlRegs Sysctl.
From stdpp Require Import list.
#[local] Open Scope Z_scope.

(** ** Registers *)
Inductive sha_reg : Set := SHA_NUM_REG | SHA_FUNCTION_REG_0 | SHA_FUNCTION_REG_1.
#[export] Instance sha_reg_eq_dec : EqDecision sha_reg.
Proof. solve_decision. Defined.
Definition sha_data_cnt : field sha_reg := Field SHA_NUM_REG (BF 0 16).
Definition sha_en : field sha_reg := Field SHA_FUNCTION_REG_0 (BF 0 1).
Definition sha_endian : field sha_reg := Field SHA_FUNCTION_REG_0 (BF 16 1).
Definition dma_en : field sha_reg := Field SHA_FUNCTION_REG_1 (BF 0 1).
Definition ENABLE_SHA : Z := 1.
Definition SHA256_BIG_ENDIAN : Z := 1.
Definition SHA256_HASH_WORDS : Z := 8.
Definition SHA256_BLOCK_LEN : Z := 64.

(** The engine: its registers, and the words written to [sha_data_in1] since
    its reset. *)
Record sha_t := Sha { sha_regs : bank sha_reg; sha_in : list Z }.
Record sha256_context_t := Context {
  total_len : Z;
  buffer_len : Z;
  buffer : list Z  (* the bytes of the union *)
}.

(** ** Byte order *)
Definition le_bytes (n x : Z) : list Z := Z_to_little_endian n 8 x.
Definition le_word (bs : list Z) : Z := little_endian_to_Z 8 bs.
Definition ROTL (x n : Z) : Z := Z.lor (u32 (Z.shiftl x n)) (Z.shiftr x (32 - n)).
Definition ROTR (x n : Z) : Z := Z.lor (Z.shiftr x n) (u32 (Z.shiftl x (32 - n))).
Definition BYTESWAP (x : Z) : Z :=
  Z.lor (Z.land (ROTR x 8) 0xff00ff00) (Z.land (ROTL x 8) 0x00ff00ff).
Definition byteswap64 (x : Z) : Z :=
  let a := u32 (Z.shiftr x 32) in
  let b := u32 x in
  Z.lor (u64 (Z.shiftl (BYTESWAP b) 32)) (BYTESWAP a).

(** [context->buffer.words[i]], the CPU being little endian *)
Definition buffer_words (bs : list Z) : list Z :=
  (λ i, le_word (take 4 (drop (4 * i) bs))) <$> seq 0 16.
(** [memcpy(&bytes[off], data, n)] *)
Definition copy_in (off : Z) (data buf : list Z) : list Z :=
  take (Z.to_nat off) buf ++ data ++ drop (Z.to_nat off + length data) buf.
Definition padding : list Z := 0x80 :: replicate 63 0.

Section driver.
(** Registers after a reset; result registers; polls of [fifo_in_full] before
    the n-th word is accepted; polls of the completion flag. *)
Variable reset_regs : bank sha_reg.
Variable sha_result : bank sha_reg → list Z → list Z.
Variable full_polls : nat → nat.
Variable busy_polls : nat.

Definition sha256_init (input_len : Z) (buf : list Z) (sysctl : bank sysctl_reg) :
    sha256_context_t * sha_t * bank sysctl_reg :=
  let sysctl := snd (sysctl_clock_enable (sysctl_clock_to_Z SYSCTL_CLOCK_SHA) sysctl) in
  let sysctl := sysctl_reset (sysctl_reset_id_to_Z SYSCTL_RESET_SHA) sysctl in
  let r := reset_regs in
  let r := fset sha_data_cnt (u32 (u64 (input_len + SHA256_BLOCK_LEN + 8) / SHA256_BLOCK_LEN)) r in
  let r := fset dma_en 0 r in
  let r := fset sha_endian SHA256_BIG_ENDIAN r in
  let r := fset sha_en ENABLE_SHA r in
  (Context 0 0 buf, Sha r [], sysctl).

(** [while(busy) ;] where [busy] lasts for [n] polls *)
Fixpoint poll (fuel n : nat) : res unit :=
  match n, fuel with
  | O, _ => Ok tt
  | S n, S fuel => poll fuel n
  | S _, O => Fault FFuel
  end.
Definition push_word (h : sha_t) (w : Z) : res sha_t :=
  let n := full_polls (length h.(sha_in)) in
  _ ← poll n n;
  Ok (Sha h.(sha_regs) (h.(sha_in) ++ [w])).
Fixpoint push_words (ws : list Z) (h : sha_t) : res sha_t :=
  match ws with
  | [] => Ok h
  | w :: ws => h ← push_word h w; push_words ws h
  end.

Fixpoint update_loop (fuel : nat) (data : list Z) (c : sha256_context_t) (h : sha_t) :
    res (sha256_context_t * sha_t) :=
  match data with
  | [] => Ok (c, h)
  | _ =>
      match fuel with
      | O => Fault FFuel
      | S fuel =>
          let buffer_bytes_left := SHA256_BLOCK_LEN - c.(buffer_len) in
          let bytes_to_copy := Z.min buffer_bytes_left (Z.of_nat (length data)) in
          let now := take (Z.to_nat bytes_to_copy) data in
          let c := Context (u64 (c.(total_len) + bytes_to_copy * 8)) (c.(buffer_len) + bytes_to_copy)
                     (copy_in c.(buffer_len) now c.(buffer)) in
          '(c, h) ← (if c.(buffer_len) =? SHA256_BLOCK_LEN
                     then h ← push_words (buffer_words c.(buffer)) h;
                          Ok (Context c.(total_len) 0 c.(buffer), h)
                     else Ok (c, h));
          update_loop fuel (drop (Z.to_nat bytes_to_copy) data) c h
      end
  end.
Definition sha256_update (data : list Z) (c : sha256_context_t) (h : sha_t) :
    res (sha256_context_t * sha_t) := update_loop (S (length data)) data c h.

Definition bytes_to_pad (buffer_len : Z) : Z :=
  let n := 120 - buffer_len in if 64 <? n then n - 64 else n.
Definition sha256_final (want : bool) (c : sha256_context_t) (h : sha_t) :
    res (option (list Z) * sha256_context_t * sha_t) :=
  let pad := take (Z.to_nat (bytes_to_pad c.(buffer_len))) padding in
  let length_pad := byteswap64 c.(total_len) in
  '(c, h) ← sha256_update pad c h;
  '(c, h) ← sha256_update (le_bytes 8 length_pad) c h;
  _ ← poll busy_polls busy_polls;
  let result := sha_result h.(sha_regs) h.(sha_in) in
  Ok (if want
      then Some (concat ((λ i, le_bytes 4 (result !!! Z.to_nat (SHA256_HASH_WORDS - i - 1))) <$>
                 seqZ 0 SHA256_HASH_WORDS))
      else None, c, h).

(** [buf]: what the stack holds where the context is put *)
Definition sha256_hard_calculate (input : list Z) (buf : list Z) (sysctl : bank sysctl_reg) :
    res (option (list Z) * sha_t * bank sysctl_reg) :=
  let '(sha, h, sysctl) := sha256_init (Z.of_nat (length input)) buf sysctl in
  '(sha, h) ← sha256_update input sha h;
  '(out, _, h) ← sha256_final true sha h;
  Ok (out, h, sysctl).
End driver.

(** ** The reference: FIPS 180-4 *)
Module FIPS.
Definition primes : list Z :=
  omap (λ p, if forallb (λ d, negb (p mod d =? 0)) (seqZ 2 (p - 2)) then Some p else None) (seqZ 2 310).
(** Integer roots; the constants are the first 32 fractional bits of the roots
    of the first primes. *)
Fixpoint cube_root (n : nat) (x r : Z) : Z :=
  match n with
  | O => r
  | S n => let r' := r + 2 ^ Z.of_nat n in cube_root n x (if r' * r' * r' <=? x then r' else r)
  end.
Definition round_constants : list Z := (λ p, u32 (cube_root 36 (p * 2 ^ 96) 0)) <$> primes.
Definition initial_hash : list Z := (λ p, u32 (Z.sqrt (p * 2 ^ 64))) <$> take 8 primes.

Definition Ch (x y z : Z) : Z := Z.lxor (Z.land x y) (Z.land (u32 (Z.lnot x)) z).
Definition Maj (x y z : Z) : Z := Z.lxor (Z.lxor (Z.land x y) (Z.land x z)) (Z.land y z).
Definition xor3 (a b c : Z) : Z := Z.lxor (Z.lxor a b) c.
Definition Sum0 (x : Z) : Z := xor3 (ROTR x 2) (ROTR x 13) (ROTR x 22).
Definition Sum1 (x : Z) : Z := xor3 (ROTR x 6) (ROTR x 11) (ROTR x 25).
Definition sigma0 (x : Z) : Z := xor3 (ROTR x 7) (ROTR x 18) (Z.shiftr x 3).
Definition sigma1 (x : Z) : Z := xor3 (ROTR x 17) (ROTR x 19) (Z.shiftr x 10).

(** The message schedule, kept as a window of the last sixteen words, newest
    last, while the rounds run. *)
Definition next_word (w : list Z) : Z :=
  u32 (sigma1 (w !!! 14%nat) + w !!! 9%nat + sigma0 (w !!! 1%nat) + w !!! 0%nat).
Definition round (v : list Z) (k w : Z) : list Z :=
  match v with
  | [a; b; c; d; e; f; g; h] =>
      let t1 := u32 (h + Sum1 e + Ch e f g + k + w) in
      let t2 := u32 (Sum0 a + Maj a b c) in
      [u32 (t1 + t2); a; b; c; u32 (d + t1); e; f; g]
  | _ => v
  end.
Fixpoint rounds (ks : list Z) (w v : list Z) : list Z :=
  match ks with
  | [] => v
  | k :: ks => rounds ks (drop 1 w ++ [next_word w]) (round v k (w !!! 0%nat))
  end.
Definition be_word (bs : list Z) : Z := le_word (reverse bs).
Definition be_bytes (n x : Z) : list Z := reverse (le_bytes n x).
Definition compress (h : list Z) (block : list Z) : list Z :=
  let w := (λ i, be_word (take 4 (drop (4 * i) block))) <$> seq 0 16 in
  zip_with (λ x y, u32 (x + y)) h (rounds round_constants w h).
Fixpoint hash_blocks (n : nat) (bs : list Z) (h : list Z) : list Z :=
  match n with O => h | S n => hash_blocks n (drop 64 bs) (compress h (take 64 bs)) end.
Definition digest (n : nat) (bs : list Z) : list Z := concat (be_bytes 4 <$> hash_blocks n bs initial_hash).
(** One bit, then zeros up to 56 modulo 64, then the length in bits. *)
Definition pad (msg : list Z) : list Z :=
  msg ++ 0x80 :: replicate (Z.to_nat ((55 - Z.of_nat (length msg)) mod 64)) 0 ++
  be_bytes 8 (8 * Z.of_nat (length msg)).
Definition sha256 (msg : list Z) : list Z := digest (length (pad msg) / 64) (pad msg).
End FIPS.

(** "abc", the first example of the standard *)
Example sha256_abc :
  FIPS.sha256 [97; 98; 99] = FIPS.be_bytes 32 0xba7816bf8f01cfea414140de5dae2223b00361a396177a9cb410ff61f20015ad.
Proof. by vm_compute. Qed.

(** ** Words and bytes *)
Definition bytes (bs : list Z) : Prop := Forall (λ b, in_width 8 b) bs.
Lemma le_bytes_length n x : 0 ≤ n → length (le_bytes n x) = Z.to_nat n.
Proof. intros. apply Nat2Z.inj. unfold le_bytes. rewrite length_Z_to_little_endian; lia. Qed.
Lemma le_bytes_bytes n x : 0 ≤ n → bytes (le_bytes n x).
Proof. intros. by apply Z_to_little_endian_bound. Qed.
Lemma le_bytes_word bs : bytes bs → le_bytes (Z.of_nat (length bs)) (le_word bs) = bs.
Proof. intros. apply Z_to_little_endian_to_Z; done || lia. Qed.
Lemma be_bytes_length n x : 0 ≤ n → length (FIPS.be_bytes n x) = Z.to_nat n.
Proof. intros. unfold FIPS.be_bytes. by rewrite length_reverse, le_bytes_length. Qed.

(** Swapping the bytes of a word moves bit [8 k + r] to [8 (n - 1 - k) + r]. *)
Lemma mask_testbit i : 0 ≤ i < 32 →
  Z.testbit 0xff00ff00 i = Z.odd (i / 8) ∧ Z.testbit 0x00ff00ff i = negb (Z.odd (i / 8)).
Proof.
  intros Hi.
  assert (Forall (λ i, Z.testbit 0xff00ff00 i = Z.odd (i / 8) ∧
    Z.testbit 0x00ff00ff i = negb (Z.odd (i / 8))) (seqZ 0 32)) as Hall
    by (apply (bool_decide_unpack _); vm_compute; exact I).
  rewrite Forall_forall in Hall. apply Hall, elem_of_seqZ. lia.
Qed.
Lemma BYTESWAP_testbit x i :
  in_width 32 x → 0 ≤ i →
  Z.testbit (BYTESWAP x) i = bool_decide (i < 32) && Z.testbit x (8 * (3 - i / 8) + i mod 8).
Proof.
  intros Hx Hi. unfold BYTESWAP. rewrite Z.lor_spec, !Z.land_spec. case_bool_decide.
  - destruct (mask_testbit i) as [-> ->]; [lia|]. unfold ROTR, ROTL.
    rewrite !Z.lor_spec, !wrap_testbit, !Z.shiftr_spec, !Z.shiftl_spec by lia.
    rewrite (bool_decide_eq_true_2 (i < 32)) by done.
    pose proof (Z.div_mod i 8 ltac:(lia)) as Ei. pose proof (Z.mod_pos_bound i 8 ltac:(lia)).
    set (r := i mod 8) in *. assert (0 ≤ i / 8 < 4) as Hk by lia. set (k := i / 8) in *. clearbody r k.
    assert (k = 0 ∨ k = 1 ∨ k = 2 ∨ k = 3) as [->|[->|[->| ->]]] by lia; cbn [Z.odd negb andb];
      rewrite ?andb_true_r, ?andb_false_r, ?orb_false_l.
    + rewrite (Z.testbit_neg_r x (i - 8)) by lia. rewrite orb_false_l. f_equal. lia.
    + rewrite (Z.testbit_neg_r x (i - (32 - 8))), orb_false_r by lia. rewrite orb_false_r. f_equal. lia.
    + rewrite (testbit_above 32 x (i + (32 - 8))), orb_false_r by (done || lia). f_equal. lia.
    + rewrite (testbit_above 32 x (i + 8)), orb_false_l by (done || lia).
      rewrite orb_false_r. f_equal. lia.
  - rewrite (testbit_above 32 0xff00ff00 i), (testbit_above 32 0x00ff00ff i) by (done || lia).
    by rewrite !andb_false_r.
Qed.
Lemma byteswap64_testbit x i :
  in_width 64 x → 0 ≤ i →
  Z.testbit (byteswap64 x) i = bool_decide (i < 64) && Z.testbit x (8 * (7 - i / 8) + i mod 8).
Proof.
  intros Hx Hi. unfold byteswap64. rewrite Z.lor_spec, wrap_testbit, Z.shiftl_spec by lia.
  rewrite (BYTESWAP_testbit (u32 (Z.shiftr x 32))) by (apply wrap_range || lia; lia).
  case_bool_decide as H64; simpl.
  2: by rewrite bool_decide_eq_false_2 by lia.
  pose proof (Z.div_mod i 8 ltac:(lia)). pose proof (Z.mod_pos_bound i 8 ltac:(lia)).
  destruct (decide (i < 32)) as [Hlt|Hge].
  - rewrite (Z.testbit_neg_r _ (i - 32)), orb_false_l, bool_decide_eq_true_2 by lia. simpl.
    rewrite wrap_testbit, Z.shiftr_spec, bool_decide_eq_true_2 by lia. simpl. f_equal. lia.
  - rewrite (bool_decide_eq_false_2 (i < 32)) by lia. simpl. rewrite orb_false_r.
    rewrite BYTESWAP_testbit, bool_decide_eq_true_2 by (apply wrap_range || lia; lia). simpl.
    replace ((i - 32) / 8) with (i / 8 - 4) by (Z.div_mod_to_equations; lia).
    replace ((i - 32) mod 8) with (i mod 8) by (Z.div_mod_to_equations; lia).
    rewrite wrap_testbit, bool_decide_eq_true_2 by lia. simpl. f_equal. lia.
Qed.
Lemma le_bytes_lookup n x (i : nat) :
  0 ≤ n → Z.of_nat i < n → le_bytes n x !! i = Some (Z.land (Z.shiftr x (Z.of_nat i * 8)) (Z.ones 8)).
Proof. intros. apply Z_to_little_endian_lookup_Some; [lia..|]. done. Qed.
(** The length field: stored to memory, the swapped length is big endian. *)
Lemma le_bytes_byteswap64 x : in_width 64 x → le_bytes 8 (byteswap64 x) = FIPS.be_bytes 8 x.
Proof.
  intros Hx. apply list_eq_same_length with 8%nat; [by rewrite be_bytes_length|by rewrite le_bytes_length|].
  intros i b b' Hi Hb Hb'. rewrite le_bytes_lookup in Hb by lia. injection Hb as <-.
  unfold FIPS.be_bytes in Hb'. rewrite reverse_lookup in Hb' by (rewrite le_bytes_length; lia).
  rewrite le_bytes_length, le_bytes_lookup in Hb' by lia. injection Hb' as <-.
  rewrite !Z.land_ones by lia. apply Z.bits_inj'. intros j Hj.
  destruct (decide (j < 8)).
  - rewrite !Z.mod_pow2_bits_low, !Z.shiftr_spec, byteswap64_testbit by lia.
    rewrite bool_decide_eq_true_2 by lia. simpl. f_equal. Z.div_mod_to_equations. lia.
  - by rewrite !Z.mod_pow2_bits_high by lia.
Qed.

Lemma concat_chunks n (bs : list Z) :
  concat ((λ i, take 4 (drop (4 * i) bs)) <$> seq 0 n) = take (4 * n) bs.
Proof.
  induction n as [|n IH]; [by rewrite Nat.mul_0_r, take_0|].
  rewrite seq_S, fmap_app, concat_app, IH. simpl fmap. simpl concat.
  rewrite app_nil_r.
  replace (4 * S n)%nat with (4 * n + 4)%nat by lia. by rewrite take_take_drop.
Qed.

(** ** Updating *)
Section update.
Variable full_polls : nat → nat.
Implicit Types (c : sha256_context_t) (h : sha_t).

Lemma poll_ok n : poll n n = Ok tt.
Proof. by induction n. Qed.
Lemma push_words_eq ws h : push_words full_polls ws h = Ok (Sha (sha_regs h) (sha_in h ++ ws)).
Proof.
  revert h. induction ws as [|w ws IH]; intros [r i]; cbn [push_words]; [by rewrite app_nil_r|].
  unfold push_word. rewrite poll_ok. cbn [mbind res_bind]. rewrite IH. simpl. by rewrite <-app_assoc.
Qed.

(** The reference: one byte at a time. *)
Definition flush c h : sha256_context_t * sha_t :=
  if buffer_len c =? SHA256_BLOCK_LEN
  then (Context (total_len c) 0 (buffer c), Sha (sha_regs h) (sha_in h ++ buffer_words (buffer c)))
  else (c, h).
Definition step_byte (b : Z) c h : sha256_context_t * sha_t :=
  flush (Context (u64 (total_len c + 8)) (buffer_len c + 1)
           (<[Z.to_nat (buffer_len c) := b]> (buffer c))) h.
Definition update_bytewise (data : list Z) c h : sha256_context_t * sha_t :=
  foldl (λ s b, step_byte b (fst s) (snd s)) (c, h) data.

Definition ctx_ok c : Prop := 0 ≤ buffer_len c < SHA256_BLOCK_LEN ∧ length (buffer c) = 64%nat.

Lemma copy_in_cons off b bs buf :
  0 ≤ off → (Z.to_nat off < length buf)%nat →
  copy_in off (b :: bs) buf = copy_in (off + 1) bs (<[Z.to_nat off := b]> buf).
Proof.
  intros ? ?. unfold copy_in. replace (Z.to_nat (off + 1)) with (S (Z.to_nat off)) by lia.
  rewrite (take_S_r _ _ b) by (by apply list_lookup_insert_eq).
  rewrite take_insert_ge, drop_insert_lt by lia. rewrite <-app_assoc. simpl. do 3 f_equal.
  f_equal. lia.
Qed.
Lemma copy_in_nil off buf : copy_in off [] buf = buf.
Proof. unfold copy_in. simpl. by rewrite Nat.add_0_r, take_drop. Qed.

Lemma update_bytewise_cons b data c h :
  update_bytewise (b :: data) c h = (let '(c, h) := step_byte b c h in update_bytewise data c h).
Proof. unfold update_bytewise. cbn [foldl fst snd]. by destruct (step_byte b c h). Qed.
(** Copying a part that fits is as many byte steps. *)
Lemma bytewise_block now c h :
  now ≠ [] → ctx_ok c → buffer_len c + Z.of_nat (length now) ≤ SHA256_BLOCK_LEN →
  update_bytewise now c h =
  flush (Context (u64 (total_len c + Z.of_nat (length now) * 8)) (buffer_len c + Z.of_nat (length now))
           (copy_in (buffer_len c) now (buffer c))) h.
Proof.
  revert c. induction now as [|b now IH]; intros c Hne [Hbl Hlen] Hfit; [done|].
  rewrite update_bytewise_cons. cbn [length] in *.
  unfold SHA256_BLOCK_LEN in *. rewrite copy_in_cons by lia. destruct (decide (now = [])) as [->|Hn].
  - cbn [length]. rewrite copy_in_nil. unfold step_byte, update_bytewise. cbn [foldl].
    by destruct (flush _ _).
  - assert (0 < length now)%nat by (destruct now; [done|cbn [length]; lia]).
    unfold step_byte, flush at 1. cbn [buffer_len].
    rewrite (proj2 (Z.eqb_neq (buffer_len c + 1) _)) by (unfold SHA256_BLOCK_LEN; lia).
    rewrite IH; cbn [total_len buffer_len buffer]; [|done| |lia].
    + f_equal. f_equal; [|lia]. unfold wrap. rewrite Zplus_mod_idemp_l. f_equal. lia.
    + split; cbn [buffer_len buffer]; [unfold SHA256_BLOCK_LEN; lia|]. by rewrite length_insert.
Qed.
Lemma flush_ok c h :
  0 ≤ buffer_len c ≤ SHA256_BLOCK_LEN → length (buffer c) = 64%nat → ctx_ok (fst (flush c h)).
Proof.
  unfold flush, ctx_ok, SHA256_BLOCK_LEN. intros ? ?.
  destruct (Z.eqb_spec (buffer_len c) 64); simpl; lia.
Qed.
Lemma copy_in_length off bs buf :
  0 ≤ off → off + Z.of_nat (length bs) ≤ Z.of_nat (length buf) → length (copy_in off bs buf) = length buf.
Proof. intros. unfold copy_in. rewrite !length_app, length_take, length_drop. lia. Qed.

(** The block-copying loop does what the byte-wise reference does. *)
Lemma update_bytewise_eq data c h :
  ctx_ok c →
  sha256_update full_polls data c h = Ok (update_bytewise data c h) ∧ ctx_ok (fst (update_bytewise data c h)).
Proof.
  unfold sha256_update. assert (length data < S (length data))%nat as Hlt by lia. revert Hlt.
  generalize (S (length data)) as fuel. intros fuel. revert data c h.
  induction fuel as [|fuel IH]; intros data c h Hlt Hc; [lia|].
  destruct (decide (data = [])) as [->|Hne]; [done|].
  assert (0 < length data)%nat by (destruct data; [done|cbn [length]; lia]).
  pose proof Hc as [Hbl Hlen].
  set (n := Z.min (SHA256_BLOCK_LEN - buffer_len c) (Z.of_nat (length data))).
  assert (0 < n ≤ Z.of_nat (length data) ∧ n ≤ SHA256_BLOCK_LEN - buffer_len c) as [Hn Hn2] by lia.
  assert (update_loop full_polls (S fuel) data c h =
    (let '(c, h) := flush (Context (u64 (total_len c + n * 8)) (buffer_len c + n)
                     (copy_in (buffer_len c) (take (Z.to_nat n) data) (buffer c))) h in
     update_loop full_polls fuel (drop (Z.to_nat n) data) c h)) as ->.
  { destruct data; [done|]. cbn [update_loop]. fold n. unfold flush. cbn [buffer_len].
    destruct (_ =? _); [|done]. by rewrite push_words_eq. }
  clearbody n.
  assert (length (take (Z.to_nat n) data) = Z.to_nat n) as Et by (rewrite length_take; lia).
  pose proof (bytewise_block (take (Z.to_nat n) data) c h) as Hb. rewrite Et, Z2Nat.id in Hb by lia.
  rewrite <-Hb; [|intros E; rewrite E in Et; cbn in Et; lia|done|lia].
  assert (ctx_ok (fst (update_bytewise (take (Z.to_nat n) data) c h))) as Hok.
  { rewrite Hb; [|intros E; rewrite E in Et; cbn in Et; lia|done|lia].
    apply flush_ok; cbn [buffer_len buffer]; [lia|]. rewrite copy_in_length; rewrite ?Et; try done; try lia.
    unfold SHA256_BLOCK_LEN in *. lia. }
  destruct (update_bytewise (take (Z.to_nat n) data) c h) as [c1 h1] eqn:E1.
  destruct (IH (drop (Z.to_nat n) data) c1 h1) as [-> Hok2]; [rewrite length_drop; lia|done|].
  assert (update_bytewise data c h = update_bytewise (drop (Z.to_nat n) data) c1 h1) as ->; [|done].
  rewrite <-(take_drop (Z.to_nat n) data) at 1. unfold update_bytewise in *. by rewrite foldl_app, E1.
Qed.
End update.

(** ** What the engine has received *)
Definition in_bytes (h : sha_t) : list Z := concat (le_bytes 4 <$> sha_in h).
(** The message so far: what was pushed, in whole blocks, and the buffer. *)
Record fed (msg : list Z) (c : sha256_context_t) (h : sha_t) : Prop := {
  fed_ctx : ctx_ok c;
  fed_blocks : (length (sha_in h) mod 16 = 0)%nat;
  fed_bytes : bytes msg;
  fed_msg : msg = in_bytes h ++ take (Z.to_nat (buffer_len c)) (buffer c);
  fed_total : total_len c = u64 (8 * Z.of_nat (length msg))
}.

Lemma in_bytes_length h : length (in_bytes h) = (4 * length (sha_in h))%nat.
Proof.
  unfold in_bytes. induction (sha_in h) as [|w ws IH]; [done|].
  cbn [fmap list_fmap concat length]. rewrite length_app, IH, le_bytes_length by lia. lia.
Qed.
Lemma buffer_words_bytes bs :
  length bs = 64%nat → bytes bs → concat (le_bytes 4 <$> buffer_words bs) = bs.
Proof.
  intros Hl Hb. unfold buffer_words. rewrite <-list_fmap_compose.
  transitivity (concat ((λ i, take 4 (drop (4 * i) bs)) <$> seq 0 16)).
  - f_equal. apply list_fmap_ext. intros i j Hj. apply lookup_seq in Hj as [-> Hi]. simpl.
    assert (length (take 4 (drop (4 * i) bs)) = 4%nat) as E by (rewrite length_take, length_drop; lia).
    pose proof (le_bytes_word (take 4 (drop (4 * i) bs))) as W. rewrite E in W.
    apply W. by apply Forall_take, Forall_drop.
  - rewrite concat_chunks. apply take_ge. lia.
Qed.

Lemma fed_init msg h buf : sha_in h = [] → length buf = 64%nat → msg = [] → fed msg (Context 0 0 buf) h.
Proof.
  intros E ? ->. split; try done.
  - by rewrite E.
  - by constructor.
  - unfold in_bytes. by rewrite E.
Qed.
Lemma step_byte_fed msg c h b :
  fed msg c h → in_width 8 b →
  let '(c', h') := step_byte b c h in fed (msg ++ [b]) c' h' ∧ sha_regs h' = sha_regs h.
Proof.
  intros [[Hbl Hlen] Hk Hmb Hmsg Htot] Hb. unfold SHA256_BLOCK_LEN in *.
  set (n := Z.to_nat (buffer_len c)).
  assert (take (S n) (<[n:=b]> (buffer c)) = take n (buffer c) ++ [b]) as Etake.
  { rewrite (take_S_r _ _ b) by (apply list_lookup_insert_eq; lia). by rewrite take_insert_ge by lia. }
  assert (bytes (msg ++ [b])) as Hmb2 by (apply Forall_app; split; [done|by apply Forall_singleton]).
  assert (u64 (total_len c + 8) = u64 (8 * Z.of_nat (length (msg ++ [b])))) as Htot2.
  { rewrite Htot, length_app. cbn [length]. unfold wrap. rewrite Zplus_mod_idemp_l. f_equal. lia. }
  assert (msg ++ [b] = in_bytes h ++ take (S n) (<[n:=b]> (buffer c))) as Emsg.
  { by rewrite Hmsg, Etake, app_assoc. }
  unfold step_byte, flush. fold n. cbn [buffer_len total_len buffer]. unfold SHA256_BLOCK_LEN.
  destruct (Z.eqb_spec (buffer_len c + 1) 64) as [E|E]; cbn [fst snd]; (split; [|done]);
    (split; cbn [buffer_len total_len buffer sha_in]; [|try done..]).
  - split; unfold SHA256_BLOCK_LEN; simpl; [lia|]. by rewrite length_insert.
  - rewrite length_app. unfold buffer_words. rewrite length_fmap, length_seq.
    rewrite Nat.Div0.add_mod, Hk. done.
  - assert (take (S n) (<[n:=b]> (buffer c)) = <[n:=b]> (buffer c)) as Eall
      by (apply take_ge; rewrite length_insert; lia).
    rewrite Emsg, take_0, app_nil_r, Eall. rewrite Emsg, Eall in Hmb2. apply Forall_app in Hmb2 as [_ Hbuf].
    unfold in_bytes. cbn [sha_in]. rewrite fmap_app, concat_app. f_equal. symmetry.
    apply buffer_words_bytes; [|done]. by rewrite length_insert.
  - split; unfold SHA256_BLOCK_LEN; cbn [buffer_len buffer]; [lia|]. by rewrite length_insert.
  - rewrite Emsg. do 2 f_equal. lia.
Qed.
Lemma bytewise_fed data msg c h :
  fed msg c h → bytes data →
  let '(c', h') := update_bytewise data c h in fed (msg ++ data) c' h' ∧ sha_regs h' = sha_regs h.
Proof.
  revert msg c h. induction data as [|b data IH]; intros msg c h Hf Hd.
  { simpl. by rewrite app_nil_r. }
  apply Forall_cons in Hd as [Hb Hd]. rewrite update_bytewise_cons.
  pose proof (step_byte_fed msg c h b Hf Hb) as Hs. destruct (step_byte b c h) as [c1 h1].
  destruct Hs as [Hf1 Er]. specialize (IH _ _ _ Hf1 Hd). destruct (update_bytewise data c1 h1).
  rewrite <-app_assoc in IH. simpl in IH. destruct IH as [? ->]. done.
Qed.
Lemma update_fed full data msg c h :
  fed msg c h → bytes data →
  ∃ c' h', sha256_update full data c h = Ok (c', h') ∧ fed (msg ++ data) c' h' ∧ sha_regs h' = sha_regs h.
Proof.
  intros Hf Hd. destruct (update_bytewise_eq full data c h (fed_ctx _ _ _ Hf)) as [-> _].
  pose proof (bytewise_fed data msg c h Hf Hd) as Hb. destruct (update_bytewise data c h) as [c' h'].
  by exists c', h'.
Qed.

(** ** Padding *)
Lemma padding_take bl :
  0 ≤ bl < 64 →
  take (Z.to_nat (bytes_to_pad bl)) padding = 0x80 :: replicate (Z.to_nat ((55 - bl) mod 64)) 0.
Proof.
  intros Hbl. unfold bytes_to_pad, padding.
  assert (∃ k : nat, Z.to_nat (if 64 <? 120 - bl then 120 - bl - 64 else 120 - bl) = S k ∧ (k ≤ 63)%nat ∧
    Z.to_nat ((55 - bl) mod 64) = k) as (k&->&Hk&->).
  { destruct (Z.ltb_spec 64 (120 - bl)).
    - exists (Z.to_nat (55 - bl)). rewrite Z.mod_small by lia. lia.
    - exists (Z.to_nat (119 - bl)). replace (55 - bl) with (119 - bl + (-1) * 64) by lia.
      rewrite Z.mod_add, Z.mod_small by lia. lia. }
  rewrite firstn_cons, take_replicate. do 2 f_equal. lia.
Qed.
Lemma fed_buffer_len msg c h : fed msg c h → buffer_len c = Z.of_nat (length msg) mod 64.
Proof.
  intros [[Hbl Hlen] Hk _ -> _]. unfold SHA256_BLOCK_LEN in *.
  rewrite length_app, in_bytes_length, length_take.
  pose proof (Nat.div_mod (length (sha_in h)) 16 ltac:(lia)) as E. rewrite Hk in E.
  rewrite Nat2Z.inj_add, E. apply (Z.mod_unique _ _ (Z.of_nat (length (sha_in h) / 16))); lia.
Qed.

(** The engine's promise: enabled, big endian, fed by the CPU, with the count
    of the blocks it was given, it holds their digest, last word first. *)
Class ShaEngine (sha_result : bank sha_reg → list Z → list Z) := {
  engine_words regs ws : length (sha_result regs ws) = 8%nat;
  engine_digest regs ws n :
    fget sha_en regs = ENABLE_SHA → fget sha_endian regs = SHA256_BIG_ENDIAN → fget dma_en regs = 0 →
    fget sha_data_cnt regs = Z.of_nat n → length ws = (16 * n)%nat →
    concat (le_bytes 4 <$> reverse (sha_result regs ws)) = FIPS.digest n (concat (le_bytes 4 <$> ws))
}.

Lemma pad_length msg :
  Z.of_nat (length (FIPS.pad msg)) = 64 * ((Z.of_nat (length msg) + 72) / 64).
Proof.
  unfold FIPS.pad. rewrite length_app. cbn [length]. rewrite length_app, length_replicate.
  rewrite be_bytes_length by lia. pose proof (Z.mod_pos_bound (55 - Z.of_nat (length msg)) 64).
  rewrite !Nat2Z.inj_add, Nat2Z.inj_succ, Nat2Z.inj_add, Z2Nat.id by lia. change (Z.of_nat (Z.to_nat 8)) with 8.
  generalize (Z.of_nat (length msg)) as n. intros n.
  Z.div_mod_to_equations. lia.
Qed.

(** The updates of [sha256_final] complete the message to the padded one. *)
Lemma final_fed full sha_result busy want msg c h :
  fed msg c h → 8 * Z.of_nat (length msg) < 2 ^ 64 →
  ∃ c' h', sha256_final sha_result full busy want c h =
    Ok (if want then Some (concat ((λ i, le_bytes 4 (sha_result (sha_regs h') (sha_in h') !!!
          Z.to_nat (SHA256_HASH_WORDS - i - 1))) <$> seqZ 0 SHA256_HASH_WORDS)) else None, c', h') ∧
    in_bytes h' = FIPS.pad msg ∧ sha_regs h' = sha_regs h.
Proof.
  intros Hf Hlen. pose proof (fed_buffer_len msg c h Hf) as Hbl.
  pose proof (Z.mod_pos_bound (Z.of_nat (length msg)) 64 ltac:(lia)) as Hr.
  unfold sha256_final. rewrite padding_take by lia.
  destruct (update_fed full (0x80 :: replicate (Z.to_nat ((55 - buffer_len c) mod 64)) 0) msg c h)
    as (c1&h1&->&Hf1&E1); [done|constructor; [done|by apply Forall_replicate]|].
  cbn [mbind res_bind].
  destruct (update_fed full (le_bytes 8 (byteswap64 (total_len c))) _ c1 h1 Hf1)
    as (c2&h2&->&Hf2&E2); [by apply le_bytes_bytes|].
  cbn [mbind res_bind]. rewrite poll_ok. cbn [mbind res_bind]. exists c2, h2. split; [done|].
  split; [|congruence]. rewrite (fed_total _ _ _ Hf), (wrap_id 64) in Hf2 by lia.
  rewrite le_bytes_byteswap64 in Hf2 by lia.
  assert ((msg ++ 128 :: replicate (Z.to_nat ((55 - buffer_len c) mod 64)) 0) ++
          FIPS.be_bytes 8 (8 * Z.of_nat (length msg)) = FIPS.pad msg) as E.
  { unfold FIPS.pad. rewrite <-app_assoc. simpl. do 4 f_equal. rewrite Hbl.
    rewrite Zminus_mod_idemp_r. done. }
  rewrite E in Hf2. pose proof (fed_buffer_len _ _ _ Hf2) as Hb2.
  rewrite pad_length, Z.mul_comm, Z.mod_mul in Hb2 by lia.
  rewrite (fed_msg _ _ _ Hf2), Hb2. by rewrite take_0, app_nil_r.
Qed.
Lemma result_bytes (ws : list Z) :
  length ws = 8%nat →
  concat ((λ i, le_bytes 4 (ws !!! Z.to_nat (SHA256_HASH_WORDS - i - 1))) <$> seqZ 0 SHA256_HASH_WORDS) =
  concat (le_bytes 4 <$> reverse ws).
Proof. intros E. do 9 (destruct ws as [|? ws]; try done). Qed.
Lemma init_regs reset len buf sysctl :
  let '(c, h, sysctl') := sha256_init reset len buf sysctl in
  c = Context 0 0 buf ∧ sha_in h = [] ∧ fget sha_en (sha_regs h) = ENABLE_SHA ∧
  fget sha_endian (sha_regs h) = SHA256_BIG_ENDIAN ∧ fget dma_en (sha_regs h) = 0 ∧
  fget sha_data_cnt (sha_regs h) = wrap 16 (u32 (u64 (len + 72) / 64)) ∧
  clock_running SYSCTL_CLOCK_SHA sysctl'.
Proof.
  unfold sha256_init. cbn [sha_regs sha_in]. split; [done|]. split; [done|].
  assert (f_wf sha_en ∧ f_wf sha_endian ∧ f_wf dma_en ∧ f_wf sha_data_cnt) as (?&?&?&?) by field_dec.
  assert (f_disjoint sha_en sha_endian ∧ f_disjoint sha_en dma_en ∧ f_disjoint sha_en sha_data_cnt ∧
    f_disjoint sha_endian dma_en ∧ f_disjoint sha_endian sha_data_cnt ∧ f_disjoint dma_en sha_data_cnt)
    as (?&?&?&?&?&?) by field_dec.
  split; [by rewrite fget_fset|].
  split; [by rewrite fget_fset_ne, fget_fset by done|].
  split; [by rewrite !fget_fset_ne, fget_fset by done|].
  split; [rewrite !fget_fset_ne, fget_fset by done; unfold SHA256_BLOCK_LEN; simpl; do 4 f_equal; lia|].
  pose proof (clock_enable_running SYSCTL_CLOCK_SHA sysctl) as Hrun.
  set (s := snd _) in *. clearbody s. exact Hrun.
Qed.

(** ** The driver computes SHA-256 *)
Section driver_theorems.
Variable reset_regs : bank sha_reg.
Variable full_polls : nat → nat.
Variable busy_polls : nat.

(** C14: [sha256_hard_calculate] is the SHA-256 of FIPS 180-4, on any engine that
    digests the blocks it is given: for every message of less than 65535 blocks
    with its padding, whatever the stack held, however long the FIFO and the
    engine are busy, it returns the 32 digest bytes of the message, with the
    accelerator's clock running. *)
Theorem sha256_hard_calculate_spec sha_result `{!ShaEngine sha_result} input buf sysctl :
  bytes input → length buf = 64%nat → Z.of_nat (length input) + 72 < 64 * 2 ^ 16 →
  ∃ h sysctl',
    sha256_hard_calculate reset_regs sha_result full_polls busy_polls input buf sysctl =
      Ok (Some (FIPS.sha256 input), h, sysctl') ∧
    clock_running SYSCTL_CLOCK_SHA sysctl'.
Proof.
  intros Hin Hbuf Hlen. unfold sha256_hard_calculate.
  pose proof (init_regs reset_regs (Z.of_nat (length input)) buf sysctl) as Hi.
  destruct (sha256_init _ _ _ _) as [[c h] sysctl'].
  destruct Hi as (->&Hin0&Hen&Hend&Hdma&Hcnt&Hrun).
  destruct (update_fed full_polls input [] _ h (fed_init [] h buf Hin0 Hbuf eq_refl) Hin) as (c1&h1&->&Hf&E1).
  cbn [mbind res_bind]. simpl app in Hf.
  destruct (final_fed full_polls sha_result busy_polls true input c1 h1 Hf) as (c2&h2&->&Hpad&E2); [lia|].
  cbn [mbind res_bind]. exists h2, sysctl'. split; [|done]. do 4 f_equal.
  rewrite result_bytes by apply engine_words.
  set (n := (length (FIPS.pad input) / 64)%nat).
  assert (Z.of_nat (length (FIPS.pad input)) = 64 * Z.of_nat n ∧
          Z.of_nat n = (Z.of_nat (length input) + 72) / 64) as [El En].
  { pose proof (pad_length input) as E. subst n. rewrite Nat2Z.inj_div, E. change (Z.of_nat 64) with 64.
    rewrite (Z.mul_comm 64), Z.div_mul by lia. lia. }
  unfold FIPS.sha256. fold n. rewrite <-Hpad. apply (engine_digest _ _ n); rewrite ?E2, ?E1; try done.
  - pose proof (Z.div_mod (Z.of_nat (length input) + 72) 64 ltac:(lia)).
    pose proof (Z.mod_pos_bound (Z.of_nat (length input) + 72) 64 ltac:(lia)).
    rewrite Hcnt, En, (wrap_id 64), (wrap_id 32), wrap_id by lia. done.
  - apply (f_equal length) in Hpad. rewrite in_bytes_length in Hpad. lia.
Qed.

(** [sha256_update] on the parts of a message, one after the other. *)
Fixpoint update_all (parts : list (list Z)) (c : sha256_context_t) (h : sha_t) :
    res (sha256_context_t * sha_t) :=
  match parts with
  | [] => Ok (c, h)
  | p :: parts => '(c, h) ← sha256_update full_polls p c h; update_all parts c h
  end.
(** How a message is cut into calls does not matter: from any context
    between blocks, updating with the parts one after the other gives exactly the
    context and engine that one update with their concatenation gives (both
    equal the byte-at-a-time reference). *)
Theorem sha256_update_chunks parts c h :
  ctx_ok c →
  update_all parts c h = sha256_update full_polls (concat parts) c h ∧
  sha256_update full_polls (concat parts) c h = Ok (update_bytewise (concat parts) c h).
Proof.
  revert c h. induction parts as [|p parts IH]; intros c h Hc; [done|]. cbn [update_all concat].
  destruct (update_bytewise_eq full_polls p c h Hc) as [Ep Hok]. rewrite Ep. cbn [mbind res_bind].
  destruct (update_bytewise_eq full_polls (p ++ concat parts) c h Hc) as [E _].
  destruct (update_bytewise p c h) as [c1 h1] eqn:E1. destruct (IH c1 h1 Hok) as [-> E2].
  rewrite E2, E. assert (update_bytewise (p ++ concat parts) c h = update_bytewise (concat parts) c1 h1) as ->.
  { unfold update_bytewise in *. by rewrite foldl_app, E1. }
  done.
Qed.
End driver_theorems.

(** The block counter has 16 bits: from 4 MiB less 72 bytes on, the engine is told too
    few blocks. *)
Lemma sha256_count_truncated reset len buf sysctl :
  64 * 2 ^ 16 ≤ len + 72 < 64 * 2 ^ 17 →
  let '(_, h, _) := sha256_init reset len buf sysctl in
  fget sha_data_cnt (sha_regs h) = (len + 72) / 64 - 2 ^ 16.
Proof.
  intros Hl. pose proof (init_regs reset len buf sysctl) as Hi.
  destruct (sha256_init reset len buf sysctl) as [[c h] s]. destruct Hi as (_&_&_&_&_&->&_).
  rewrite (wrap_id 64) by lia.
  pose proof (Z.div_mod (len + 72) 64 ltac:(lia)). pose proof (Z.mod_pos_bound (len + 72) 64 ltac:(lia)).
  rewrite (wrap_id 32) by lia. unfold wrap.
  symmetry. apply (Z.mod_unique _ _ 1); lia.
Qed.

(** An engine: the reference itself. *)
Definition demo_engine (regs : bank sha_reg) (ws : list Z) : list Z :=
  let h := FIPS.hash_blocks (Z.to_nat (fget sha_data_cnt regs)) (concat (le_bytes 4 <$> ws)) FIPS.initial_hash in
  reverse ((λ i, le_word (FIPS.be_bytes 4 (h !!! i))) <$> seq 0 8).
Lemma length_rounds ks w v : length (FIPS.rounds ks w v) = length v.
Proof.
  revert w v. induction ks as [|k ks IH]; intros w v; [done|]. cbn [FIPS.rounds]. rewrite IH.
  by do 9 (destruct v as [|? v]; try done).
Qed.
Lemma length_hash_blocks n bs h : length h = 8%nat → length (FIPS.hash_blocks n bs h) = 8%nat.
Proof.
  revert bs h. induction n as [|n IH]; intros bs h Hh; [done|]. cbn [FIPS.hash_blocks]. apply IH.
  unfold FIPS.compress. cbv zeta. rewrite length_zip_with, length_rounds. lia.
Qed.
#[export] Instance demo_engine_ok : ShaEngine demo_engine.
Proof.
  split; intros regs ws; unfold demo_engine.
  { by rewrite length_reverse, length_fmap, length_seq. }
  intros n _ _ _ -> _. rewrite Nat2Z.id, reverse_involutive. unfold FIPS.digest. f_equal.
  pose proof (length_hash_blocks n (concat (le_bytes 4 <$> ws)) FIPS.initial_hash eq_refl) as Hl.
  set (h := FIPS.hash_blocks _ _ _) in *. clearbody h.
  rewrite <-list_fmap_compose. transitivity ((λ i, FIPS.be_bytes 4 (h !!! i)) <$> seq 0 8).
  - apply list_fmap_ext. intros i j _. unfold compose.
    pose proof (le_bytes_word (FIPS.be_bytes 4 (h !!! j))) as W. rewrite be_bytes_length in W by lia.
    apply W. unfold FIPS.be_bytes, bytes. rewrite Forall_reverse. by apply le_bytes_bytes.
  - by do 9 (destruct h as [|? h]; try done).
Qed.

Lemma sha256_hard_calculate_witness :
  ∃ h sysctl',
    sha256_hard_calculate (λ _, 0) demo_engine (λ n, n) 7 [97; 98; 99] (replicate 64 0xAA) (λ _, 0) =
      Ok (Some (FIPS.sha256 [97; 98; 99]), h, sysctl') ∧ clock_running SYSCTL_CLOCK_SHA sysctl'.
Proof.
  apply (sha256_hard_calculate_spec (λ _, 0) (λ n, n) 7 demo_engine [97; 98; 99] (replicate 64 0xAA)).
  - by repeat (apply Forall_cons; split).
  - done.
  - done.
Defined.
Definition demo_ctx : sha256_context_t := Context 0 60 (replicate 64 0).
Lemma sha256_update_chunks_witness :
  update_all (λ _, 0%nat) [[1; 2; 3]; [4; 5]] demo_ctx (Sha (λ _, 0) []) =
  sha256_update (λ _, 0%nat) [1; 2; 3; 4; 5] demo_ctx (Sha (λ _, 0) []).
Proof.
  assert (ctx_ok demo_ctx) as Hc by done.
  pose proof (sha256_update_chunks (λ _, 0%nat) [[1; 2; 3]; [4; 5]] demo_ctx (Sha (λ _, 0) []) Hc) as [W _].
  exact W.
Defined.
