(* ===== verification/Rtc.v ===== *)
(** * Real-time clock (cores/k210/k210-sdk/drivers/k210_rtc.c)

    The calendar arithmetic, the timer and alarm registers and their set and
    get functions.  The interrupt side is in RtcIrq.  Hardware time does not
    pass between two register accesses of a theorem; the cycle-count wait of
    [rtc_timer_set_mode] leaves the registers alone. *)

From S2P Require Import Prelude SysctlRegs Sysctl SysctlClock.

(** ** Registers *)
Inductive rtc_reg : Set :=
| RTC_DATE | RTC_TIME | RTC_ALARM_DATE | RTC_ALARM_TIME | RTC_INITIAL_COUNT
| RTC_CURRENT_COUNT | RTC_INTERRUPT_CTRL | RTC_REGISTER_CTRL | RTC_EXTENDED.
#[export] Instance rtc_reg_eq_dec : EqDecision rtc_reg.
Proof. solve_decision. Defined.
Abbreviation rtc_t := (bank rtc_reg).

(** [rtc_date_t], [rtc_alarm_date_t] *)
Definition week : bitfield := BF 0 3.
Definition day : bitfield := BF 8 5.
Definition month : bitfield := BF 16 4.
Definition year : bitfield := BF 20 12.
(** [rtc_time_t], [rtc_alarm_time_t] *)
Definition second : bitfield := BF 10 6.
Definition minute : bitfield := BF 16 6.
Definition hour : bitfield := BF 24 5.
(** [rtc_extended_t] *)
Definition century : bitfield := BF 0 5.
(** [rtc_interrupt_ctrl_t] *)
Definition tick_enable : field rtc_reg := Field RTC_INTERRUPT_CTRL (BF 0 1).
Definition alarm_enable : field rtc_reg := Field RTC_INTERRUPT_CTRL (BF 1 1).
Definition tick_int_mode : field rtc_reg := Field RTC_INTERRUPT_CTRL (BF 2 2).
Definition alarm_compare_mask : field rtc_reg := Field RTC_INTERRUPT_CTRL (BF 24 8).
(** [rtc_register_ctrl_t] *)
Definition read_enable : field rtc_reg := Field RTC_REGISTER_CTRL (BF 0 1).
Definition write_enable : field rtc_reg := Field RTC_REGISTER_CTRL (BF 1 1).
Definition timer_mask : field rtc_reg := Field RTC_REGISTER_CTRL (BF 13 8).
Definition alarm_mask : field rtc_reg := Field RTC_REGISTER_CTRL (BF 21 8).
Definition initial_count_mask : field rtc_reg := Field RTC_REGISTER_CTRL (BF 29 1).
Definition interrupt_register_mask : field rtc_reg := Field RTC_REGISTER_CTRL (BF 30 1).

Definition RTC_TIMER_PAUSE : Z := 0.
Definition RTC_TIMER_RUNNING : Z := 1.
Definition RTC_TIMER_SETTING : Z := 2.

(** ** Modes *)
Definition rtc_timer_set_mode (timer_mode : Z) (s : rtc_t) : rtc_t :=
  if timer_mode =? RTC_TIMER_PAUSE then fset write_enable 0 (fset read_enable 0 s)
  else if timer_mode =? RTC_TIMER_RUNNING then fset write_enable 0 (fset read_enable 1 s)
  else if timer_mode =? RTC_TIMER_SETTING then fset write_enable 1 (fset read_enable 0 s)
  else fset write_enable 0 (fset read_enable 0 s).
Definition rtc_timer_get_mode (s : rtc_t) : Z * rtc_t :=
  let r := negb (fget read_enable s =? 0) in
  let w := negb (fget write_enable s =? 0) in
  if negb r && negb w then (RTC_TIMER_PAUSE, s)
  else if r && negb w then (RTC_TIMER_RUNNING, s)
  else if negb r && w then (RTC_TIMER_RUNNING, s)
  else (RTC_TIMER_PAUSE, rtc_timer_set_mode RTC_TIMER_PAUSE s).

(** ** Calendar *)
Definition rtc_in_range (value min max : Z) : bool := (min <=? value) && (value <=? max).
Definition rtc_year_is_leap (year : Z) : bool :=
  (Z.rem year 4 =? 0) && negb (Z.rem year 100 =? 0) || (Z.rem year 400 =? 0).
Definition days : list (list Z) :=
  [[0; 0; 31; 59; 90; 120; 151; 181; 212; 243; 273; 304; 334];
   [0; 0; 31; 60; 91; 121; 152; 182; 213; 244; 274; 305; 335]].
(** [days[leap][month]]; outside the row the access is undefined. *)
Definition rtc_get_yday (year month day : Z) : res Z :=
  match days !!! Nat.b2n (rtc_year_is_leap year) !! Z.to_nat month with
  | Some d => if 0 <=? month then c_int (d + day) else Fault FUB
  | None => Fault FUB
  end.
Definition rtc_get_wday (year month day : Z) : res Z :=
  '(year, day) ← (if month <? 3
                  then d ← c_int (day + year); y ← c_int (year - 1); Ok (y, d)
                  else y ← c_int (year - 2); d ← c_int (day + y); Ok (year, d));
  m ← c_int (23 * month);
  x ← c_int (Z.quot m 9 + day);
  x ← c_int (x + 4);
  x ← c_int (x + Z.quot year 4);
  x ← c_int (x - Z.quot year 100);
  x ← c_int (x + Z.quot year 400);
  Ok (Z.rem x 7).

(** ** Setting and getting *)
Record tm := Tm {
  tm_sec : Z; tm_min : Z; tm_hour : Z; tm_mday : Z; tm_mon : Z; tm_year : Z;
  tm_wday : Z; tm_yday : Z; tm_isdst : Z
}.
(** The local structures of the two setters: [None] for a field out of range.
    They are not initialised; [d], [t] and [e] are the words they hold. *)
Definition tm_words (d t e : Z) (tm : tm) : res (option (Z * Z * Z)) :=
  if negb (rtc_in_range tm.(tm_sec) 0 59) then Ok None else
  let t := bf_set second tm.(tm_sec) t in
  if negb (rtc_in_range tm.(tm_min) 0 59) then Ok None else
  let t := bf_set minute tm.(tm_min) t in
  if negb (rtc_in_range tm.(tm_hour) 0 23) then Ok None else
  let t := bf_set hour tm.(tm_hour) t in
  if negb (rtc_in_range tm.(tm_mday) 1 31) then Ok None else
  let d := bf_set day tm.(tm_mday) d in
  if negb (rtc_in_range tm.(tm_mon) 0 11) then Ok None else
  let d := bf_set month (tm.(tm_mon) + 1) d in
  human_year ← c_int (tm.(tm_year) + 1900);
  let rtc_year := Z.rem human_year 100 in
  let rtc_century := Z.quot human_year 100 in
  if negb (rtc_in_range rtc_year 0 99 && rtc_in_range rtc_century 0 31) then Ok None else
  let d := bf_set year rtc_year d in
  let e := bf_set century rtc_century e in
  if negb (rtc_in_range tm.(tm_wday) 0 6) then Ok None else
  let d := bf_set week tm.(tm_wday) d in
  Ok (Some (d, t, e)).
Definition rtc_timer_set_tm (local : Z * Z * Z) (tm : option tm) (s : rtc_t) : res (Z * rtc_t) :=
  match tm with
  | None => Ok (0, s)
  | Some tm =>
      let '(d, t, e) := local in
      w ← tm_words d t e tm;
      match w with
      | None => Ok (-1, s)
      | Some (d, t, e) =>
          let s := rtc_timer_set_mode RTC_TIMER_SETTING s in
          let s := <[RTC_EXTENDED := e]> (<[RTC_TIME := t]> (<[RTC_DATE := d]> s)) in
          Ok (0, rtc_timer_set_mode RTC_TIMER_RUNNING s)
      end
  end.
Definition rtc_alarm_set_tm (local : Z * Z) (tm : option tm) (s : rtc_t) : res (Z * rtc_t) :=
  match tm with
  | None => Ok (0, s)
  | Some tm =>
      let '(d, t) := local in
      w ← tm_words d t 0 tm;
      match w with
      | None => Ok (-1, s)
      | Some (d, t, _) =>
          let s := rtc_timer_set_mode RTC_TIMER_SETTING s in
          let s := <[RTC_ALARM_TIME := t]> (<[RTC_ALARM_DATE := d]> s) in
          Ok (0, rtc_timer_set_mode RTC_TIMER_RUNNING s)
      end
  end.

(** The broken-down time of a date, a time and the century word. *)
Definition tm_of_words (d t e : Z) : res tm :=
  let mday := bf_get day d mod 32 in
  let mon := Z.rem (bf_get month d - 1) 12 in
  let y := bf_get year d mod 100 + bf_get century e * 100 - 1900 in
  yday ← rtc_get_yday (y + 1900) (mon + 1) mday;
  Ok (Tm (bf_get second t mod 61) (bf_get minute t mod 60) (bf_get hour t mod 24) mday mon y
        (bf_get week d mod 7) (Z.rem yday 366) (-1)).
Definition rtc_timer_get_tm (s : rtc_t) : res (option tm * rtc_t) :=
  let '(mode, s) := rtc_timer_get_mode s in
  if negb (mode =? RTC_TIMER_RUNNING) then Ok (None, s) else
  tm ← tm_of_words (s RTC_DATE) (s RTC_TIME) (s RTC_EXTENDED);
  Ok (Some tm, s).
Definition rtc_alarm_get_tm (s : rtc_t) : res (option tm * rtc_t) :=
  let '(mode, s) := rtc_timer_get_mode s in
  if negb (mode =? RTC_TIMER_RUNNING) then Ok (None, s) else
  tm ← tm_of_words (s RTC_ALARM_DATE) (s RTC_ALARM_TIME) (s RTC_EXTENDED);
  Ok (Some tm, s).

Definition make_tm (year month day hour minute second : Z) : res tm :=
  y ← c_int (year - 1900);
  m ← c_int (month - 1);
  wday ← rtc_get_wday year month day;
  yday ← rtc_get_yday year month day;
  Ok (Tm second minute hour day m y wday yday (-1)).
Definition rtc_timer_set (local : Z * Z * Z) (year month day hour minute second : Z) (s : rtc_t) :
    res (Z * rtc_t) :=
  tm ← make_tm year month day hour minute second; rtc_timer_set_tm local (Some tm) s.
Definition rtc_alarm_set (local : Z * Z) (year month day hour minute second : Z) (s : rtc_t) :
    res (Z * rtc_t) :=
  tm ← make_tm year month day hour minute second; rtc_alarm_set_tm local (Some tm) s.

(** The values stored through the six pointers, when they are not null *)
Definition split_tm (tm : tm) : Z * Z * Z * Z * Z * Z :=
  (tm.(tm_year) + 1900, tm.(tm_mon) + 1, tm.(tm_mday), tm.(tm_hour), tm.(tm_min), tm.(tm_sec)).
Definition rtc_timer_get (s : rtc_t) : res (Z * option (Z * Z * Z * Z * Z * Z) * rtc_t) :=
  '(tm, s) ← rtc_timer_get_tm s;
  Ok (match tm with Some tm => (0, Some (split_tm tm)) | None => (-1, None) end, s).
Definition rtc_alarm_get (s : rtc_t) : res (Z * option (Z * Z * Z * Z * Z * Z) * rtc_t) :=
  '(tm, s) ← rtc_alarm_get_tm s;
  Ok (match tm with Some tm => (0, Some (split_tm tm)) | None => (-1, None) end, s).

(** ** Counters, interrupt control, protection *)
(** A register written between the switch to setting and back to running mode *)
Definition write_setting (r : rtc_reg) (v : Z) (s : rtc_t) : rtc_t :=
  rtc_timer_set_mode RTC_TIMER_RUNNING (<[r := v]> (rtc_timer_set_mode RTC_TIMER_SETTING s)).
Definition rtc_timer_set_clock_frequency (frequency : Z) (s : rtc_t) : rtc_t :=
  write_setting RTC_INITIAL_COUNT (u32 frequency) s.
Definition rtc_timer_get_clock_frequency (s : rtc_t) : Z := s RTC_INITIAL_COUNT.
Definition rtc_timer_set_clock_count_value (count : Z) (s : rtc_t) : rtc_t :=
  write_setting RTC_CURRENT_COUNT (u32 count) s.
Definition rtc_timer_get_clock_count_value (s : rtc_t) : Z := s RTC_CURRENT_COUNT.
(** Changing one field of the interrupt control word *)
Definition set_interrupt_ctrl (f : field rtc_reg) (v : Z) (s : rtc_t) : rtc_t :=
  write_setting RTC_INTERRUPT_CTRL (bf_set (f_bits f) v (s RTC_INTERRUPT_CTRL)) s.
Definition rtc_tick_set_interrupt (enable : Z) (s : rtc_t) : rtc_t := set_interrupt_ctrl tick_enable enable s.
Definition rtc_tick_get_interrupt (s : rtc_t) : Z := fget tick_enable s.
Definition rtc_tick_set_interrupt_mode (mode : Z) (s : rtc_t) : rtc_t := set_interrupt_ctrl tick_int_mode mode s.
Definition rtc_tick_get_interrupt_mode (s : rtc_t) : Z := fget tick_int_mode s.
Definition rtc_alarm_set_interrupt (enable : Z) (s : rtc_t) : rtc_t := set_interrupt_ctrl alarm_enable enable s.
Definition rtc_alarm_get_interrupt (s : rtc_t) : Z := fget alarm_enable s.
(** A mask is the byte of [rtc_mask_t]: second 1, minute 2, hour 3, week 4, day 5, month 6, year 7. *)
Definition rtc_alarm_set_mask (mask : Z) (s : rtc_t) : rtc_t := set_interrupt_ctrl alarm_compare_mask mask s.
Definition rtc_alarm_get_mask (s : rtc_t) : Z := fget alarm_compare_mask s.

Definition rtc_protect_set (enable : Z) (s : rtc_t) : rtc_t :=
  let m := if enable =? 0 then 0xFE else 0 in
  let b := if enable =? 0 then 1 else 0 in
  fset interrupt_register_mask b (fset initial_count_mask b (fset alarm_mask m (fset timer_mask m s))).
Definition rtc_init (sysctl : bank sysctl_reg) (s : rtc_t) : res (bank sysctl_reg * rtc_t) :=
  let sysctl := sysctl_reset (sysctl_reset_id_to_Z SYSCTL_RESET_RTC) sysctl in
  let sysctl := snd (sysctl_clock_enable (sysctl_clock_to_Z SYSCTL_CLOCK_RTC) sysctl) in
  let s := rtc_protect_set 0 s in
  freq ← sysctl_clock_get_freq (sysctl_clock_to_Z SYSCTL_CLOCK_IN0) sysctl;
  let s := rtc_timer_set_clock_frequency freq s in
  let s := rtc_timer_set_clock_count_value 1 s in
  Ok (sysctl, rtc_timer_set_mode RTC_TIMER_RUNNING s).

Example wday_2024_02_29 : rtc_get_wday 2024 2 29 = Ok 4.
Proof. reflexivity. Qed.

(** ** The calendar *)

(** The Gregorian rule, and the days of the years before [y] counted from 1 January of year 1. *)
Definition is_leap (y : Z) : bool := (y mod 4 =? 0) && negb (y mod 100 =? 0) || (y mod 400 =? 0).
Definition days_before_year (y : Z) : Z := 365 * (y - 1) + (y - 1) / 4 - (y - 1) / 100 + (y - 1) / 400.
Definition month_days : list Z := [31; 28; 31; 30; 31; 30; 31; 31; 30; 31; 30; 31].
Definition month_length (y m : Z) : Z :=
  if (m =? 2) && is_leap y then 29 else month_days !!! Z.to_nat (m - 1).
(** Days of the months before [m] *)
Definition days_before_month (y m : Z) : Z := foldr Z.add 0 (month_length y <$> seqZ 1 (m - 1)).

Lemma rtc_year_is_leap_spec y : 0 ≤ y → rtc_year_is_leap y = is_leap y.
Proof. intros. unfold rtc_year_is_leap, is_leap. by rewrite !Z.rem_mod_nonneg by lia. Qed.
Ltac month_cases m :=
  assert (m ∈ seqZ 1 12) as Hmonth by (apply elem_of_seqZ; lia);
  repeat (apply elem_of_cons in Hmonth as [->|Hmonth]; [|]); [..|by apply elem_of_nil in Hmonth].
Lemma rtc_get_yday_spec y m d :
  0 ≤ y → 1 ≤ m ≤ 12 → - 2 ^ 30 ≤ d ≤ 2 ^ 30 → rtc_get_yday y m d = Ok (days_before_month y m + d).
Proof.
  intros Hy Hm Hd. unfold rtc_get_yday, days_before_month, month_length.
  rewrite rtc_year_is_leap_spec by done.
  month_cases m; destruct (is_leap y); simpl; apply c_int_ok; lia.
Qed.
Lemma leap_count y :
  y / 4 - y / 100 + y / 400 = (y - 1) / 4 - (y - 1) / 100 + (y - 1) / 400 + Z.b2z (is_leap y).
Proof.
  assert (∀ k, 0 < k → y / k = (y - 1) / k + Z.b2z (y mod k =? 0)) as Hk.
  { intros k Hk. pose proof (Z.div_mod y k ltac:(lia)). pose proof (Z.mod_pos_bound y k Hk).
    symmetry. destruct (Z.eqb_spec (y mod k) 0) as [E|E]; cbn [Z.b2z].
    - assert ((y - 1) / k = y / k - 1) as ->; [|lia].
      symmetry. apply (Z.div_unique _ _ _ (k - 1)); [lia|]. nia.
    - rewrite Z.add_0_r. symmetry. apply (Z.div_unique _ _ _ (y mod k - 1)); lia. }
  rewrite (Hk 4), (Hk 100), (Hk 400) by lia. unfold is_leap.
  assert (y mod 100 = 0 → y mod 4 = 0) by (Z.div_mod_to_equations; lia).
  assert (y mod 400 = 0 → y mod 100 = 0) by (Z.div_mod_to_equations; lia).
  destruct (Z.eqb_spec (y mod 4) 0), (Z.eqb_spec (y mod 100) 0), (Z.eqb_spec (y mod 400) 0); simpl; lia.
Qed.
Lemma quot_pos a b : 0 ≤ a → 0 < b → Z.quot a b = a / b.
Proof. intros. by apply Z.quot_div_nonneg. Qed.

(** The magic formula is the day count modulo seven. *)
Lemma rtc_get_wday_spec y m d :
  1 ≤ y ≤ 2 ^ 24 → 1 ≤ m ≤ 12 → 1 ≤ d ≤ 31 →
  rtc_get_wday y m d = Ok ((days_before_year y + days_before_month y m + d) mod 7).
Proof.
  intros Hy Hm Hd.
  assert (∀ y' d', 0 ≤ y' ≤ 2 ^ 24 → 0 ≤ d' ≤ 2 ^ 25 →
    (m ← c_int (23 * m);
     x ← c_int (Z.quot m 9 + d'); x ← c_int (x + 4); x ← c_int (x + Z.quot y' 4);
     x ← c_int (x - Z.quot y' 100); x ← c_int (x + Z.quot y' 400); Ok (Z.rem x 7)) =
    Ok ((23 * m / 9 + d' + 4 + (y' / 4 - y' / 100 + y' / 400)) mod 7)) as Htail.
  { intros y' d' Hy' Hd'. rewrite c_int_ok by lia. cbn [mbind res_bind].
    rewrite !quot_pos by lia.
    assert (0 ≤ 23 * m / 9 ≤ 100 ∧ 0 ≤ y' / 4 ≤ 2 ^ 24 ∧ 0 ≤ y' / 100 ≤ 2 ^ 24 ∧ 0 ≤ y' / 400 ≤ 2 ^ 24 ∧
      y' / 100 ≤ y' / 4) as (?&?&?&?&?).
    { assert (∀ k, 0 < k → 0 ≤ y' / k ≤ 2 ^ 24) as Hdiv.
      { intros k Hk. split; [apply Z.div_pos; lia|]. apply Z.div_le_upper_bound; nia. }
      repeat split; try (apply Hdiv; lia); [apply Z.div_pos; lia|apply Z.div_le_upper_bound; lia|].
      apply Z.div_le_compat_l; lia. }
    do 5 (rewrite c_int_ok by lia; cbn [mbind res_bind]).
    rewrite Z.rem_mod_nonneg by lia. do 2 f_equal. lia. }
  unfold rtc_get_wday, days_before_year. destruct (Z.ltb_spec m 3) as [Hlt|Hge].
  - rewrite (c_int_ok (d + y)), (c_int_ok (y - 1)) by lia.
    etransitivity; [apply Htail; lia|]. f_equal.
    assert (m = 1 ∨ m = 2) as [->| ->] by lia.
    + change (23 * 1 / 9) with 2. change (days_before_month y 1) with 0.
      rewrite <-(Z.mod_add _ (52 * y - 53) 7) by lia. f_equal. lia.
    + change (23 * 2 / 9) with 5. change (days_before_month y 2) with 31.
      rewrite <-(Z.mod_add _ (52 * y - 49) 7) by lia. f_equal. lia.
  - rewrite (c_int_ok (y - 2)) by lia. cbn [mbind res_bind]. rewrite (c_int_ok (d + (y - 2))) by lia.
    etransitivity; [apply Htail; lia|]. f_equal. rewrite leap_count.
    assert (∃ c, days_before_month y m = 23 * m / 9 + 3 + Z.b2z (is_leap y) + 7 * c) as [c ->].
    { exists ((days_before_month y m - Z.b2z (is_leap y) - 23 * m / 9 - 3) / 7).
      unfold days_before_month, month_length. month_cases m; try lia; by destruct (is_leap y). }
    rewrite <-(Z.mod_add _ (c + 52 * (y - 1)) 7) by lia. f_equal. lia.
Qed.

(** The calendar, day by day. *)
Definition date : Type := Z * Z * Z.
Definition next_day (t : date) : date :=
  let '(y, m, d) := t in
  if d <? month_length y m then (y, m, d + 1)
  else if m <? 12 then (y, m + 1, 1) else (y + 1, 1, 1).
Definition date_after (n : nat) : date := Nat.iter n next_day (1900, 1, 1).
Definition date_ok (t : date) : Prop :=
  let '(y, m, d) := t in 1 ≤ y ∧ 1 ≤ m ≤ 12 ∧ 1 ≤ d ≤ month_length y m.
Definition day_number (t : date) : Z :=
  let '(y, m, d) := t in days_before_year y + days_before_month y m + d.

Lemma month_length_range y m : 1 ≤ m ≤ 12 → 28 ≤ month_length y m ≤ 31.
Proof. intros. unfold month_length. month_cases m; destruct (is_leap y); simpl; lia. Qed.
Lemma days_before_month_S y m :
  1 ≤ m < 12 → days_before_month y (m + 1) = days_before_month y m + month_length y m.
Proof.
  intros. unfold days_before_month, month_length.
  month_cases m; try lia; by destruct (is_leap y).
Qed.
Lemma days_before_year_S y : days_before_year (y + 1) = days_before_year y + 365 + Z.b2z (is_leap y).
Proof. unfold days_before_year. rewrite Z.add_simpl_r. pose proof (leap_count y). lia. Qed.
Lemma days_of_year y : days_before_month y 12 + month_length y 12 = 365 + Z.b2z (is_leap y).
Proof. unfold days_before_month, month_length. by destruct (is_leap y). Qed.
Lemma next_day_number t : date_ok t → date_ok (next_day t) ∧ day_number (next_day t) = day_number t + 1.
Proof.
  destruct t as [[y m] d]. intros (Hy&Hm&Hd). unfold next_day.
  destruct (Z.ltb_spec d (month_length y m)); [simpl; lia|].
  assert (d = month_length y m) as -> by lia. destruct (Z.ltb_spec m 12); cbn [date_ok day_number].
  - pose proof (month_length_range y (m + 1)). rewrite days_before_month_S by lia. lia.
  - assert (m = 12) as -> by lia. pose proof (month_length_range (y + 1) 1).
    rewrite days_before_year_S. pose proof (days_of_year y).
    change (days_before_month (y + 1) 1) with 0. lia.
Qed.
Lemma date_after_number n :
  date_ok (date_after n) ∧ day_number (date_after n) = 693596 + Z.of_nat n.
Proof.
  induction n as [|n [Hok Hn]]; [done|]. unfold date_after in *. cbn [Nat.iter nat_rect].
  destruct (next_day_number _ Hok) as [? E]. split; [done|]. unfold Nat.iter in *. rewrite E, Hn. lia.
Qed.
Lemma day_number_year t : date_ok t → let '(y, _, _) := t in 365 * (y - 1) ≤ day_number t.
Proof.
  destruct t as [[y m] d]. intros (Hy&Hm&Hd). cbn [day_number].
  assert (0 ≤ days_before_month y m).
  { unfold days_before_month, month_length. month_cases m; destruct (is_leap y); simpl; lia. }
  unfold days_before_year.
  assert ((y - 1) / 100 ≤ (y - 1) / 4) by (apply Z.div_le_compat_l; lia).
  assert (0 ≤ (y - 1) / 400) by (apply Z.div_pos; lia). lia.
Qed.

(** C15: the weekday formula agrees with the Gregorian calendar counted day by
    day: from Monday 1 January 1900 on, for a million days (past the last year
    the clock can hold), [rtc_get_wday] of the n-th date is n + 1 modulo 7, its
    [int] arithmetic never overflows, and [rtc_get_yday] counts the days of the
    year from one. *)
Theorem rtc_get_wday_calendar n :
  Z.of_nat n < 1000000 →
  let '(y, m, d) := date_after n in
  rtc_get_wday y m d = Ok ((Z.of_nat n + 1) mod 7) ∧
  rtc_get_yday y m d = Ok (Z.of_nat n + 693596 - days_before_year y).
Proof.
  intros Hn. destruct (date_after_number n) as [Hok E]. pose proof (day_number_year _ Hok) as Hy.
  destruct (date_after n) as [[y m] d]. destruct Hok as (?&?&?). pose proof (month_length_range y m).
  split.
  - rewrite rtc_get_wday_spec by lia. cbn [day_number] in E. rewrite E. f_equal.
    replace (693596 + Z.of_nat n) with (Z.of_nat n + 1 + 99085 * 7) by lia. by rewrite Z.mod_add.
  - rewrite rtc_get_yday_spec by lia. f_equal. cbn [day_number] in E. lia.
Qed.
Lemma rtc_get_wday_calendar_witness :
  rtc_get_wday 1900 3 1 = Ok 4 ∧ rtc_get_yday 1900 3 1 = Ok 60.
Proof. exact (rtc_get_wday_calendar 59 ltac:(lia)). Defined.

(** ** Setting and reading back *)
Lemma rtc_in_range_spec v a b : rtc_in_range v a b = bool_decide (a ≤ v ≤ b).
Proof.
  unfold rtc_in_range. apply eq_true_iff_eq. rewrite andb_true_iff, !Z.leb_le, bool_decide_eq_true. lia.
Qed.
Lemma quot_bound a b k : - k ≤ a ≤ k → 0 < b → - k ≤ Z.quot a b ≤ k ∧ (0 ≤ a → 0 ≤ Z.quot a b).
Proof.
  intros Ha Hb. assert (0 ≤ Z.quot (Z.abs a) b ≤ k).
  { rewrite quot_pos by lia. split; [apply Z.div_pos; lia|]. apply Z.div_le_upper_bound; nia. }
  destruct (Z.abs_spec a) as [[? E]|[? E]]; rewrite E in *; [lia|].
  rewrite Z.quot_opp_l in * by lia. lia.
Qed.
(** For any small arguments the weekday is computed without overflow. *)
Lemma rtc_get_wday_total y m d :
  - 2 ^ 24 ≤ y ≤ 2 ^ 24 → 0 ≤ m ≤ 12 → - 2 ^ 24 ≤ d ≤ 2 ^ 24 →
  ∃ w, rtc_get_wday y m d = Ok w ∧ (0 ≤ y → 0 ≤ d → 0 ≤ w ≤ 6).
Proof.
  intros Hy Hm Hd.
  assert (∀ y' d', - 2 ^ 25 ≤ y' ≤ 2 ^ 24 → - 2 ^ 26 ≤ d' ≤ 2 ^ 26 → ∃ w,
    (m ← c_int (23 * m);
     x ← c_int (Z.quot m 9 + d'); x ← c_int (x + 4); x ← c_int (x + Z.quot y' 4);
     x ← c_int (x - Z.quot y' 100); x ← c_int (x + Z.quot y' 400); Ok (Z.rem x 7)) = Ok w ∧
    (-1 ≤ y' → -2 ≤ d' → 0 ≤ w ≤ 6)) as Htail.
  { intros y' d' Hy' Hd'. rewrite c_int_ok by lia. cbn [mbind res_bind].
    destruct (quot_bound (23 * m) 9 276) as [? ?]; [lia..|].
    destruct (quot_bound y' 4 (2 ^ 25)) as [? ?]; [lia..|].
    destruct (quot_bound y' 100 (2 ^ 25)) as [? ?]; [lia..|].
    destruct (quot_bound y' 400 (2 ^ 25)) as [? ?]; [lia..|].
    do 5 (rewrite c_int_ok by lia; cbn [mbind res_bind]). eexists. split; [done|]. intros ? ?.
    assert (0 ≤ Z.quot y' 4 - Z.quot y' 100 ∧ 0 ≤ Z.quot y' 400) as [? ?].
    { destruct (decide (y' = -1)) as [->|]; [done|]. rewrite !quot_pos by lia.
      pose proof (Z.div_le_compat_l y' 4 100). pose proof (Z.div_pos y' 400). lia. }
    rewrite Z.rem_mod_nonneg by lia. pose proof (Z.mod_pos_bound
      (23 * m ÷ 9 + d' + 4 + y' ÷ 4 - y' ÷ 100 + y' ÷ 400) 7). lia. }
  unfold rtc_get_wday. destruct (Z.ltb_spec m 3).
  - rewrite (c_int_ok (d + y)), (c_int_ok (y - 1)) by lia.
    destruct (Htail (y - 1) (d + y)) as (w&E&Hw); [lia..|]. exists w. split; [exact E|]. lia.
  - rewrite (c_int_ok (y - 2)) by lia. cbn [mbind res_bind]. rewrite (c_int_ok (d + (y - 2))) by lia.
    destruct (Htail y (d + (y - 2))) as (w&E&Hw); [lia..|]. exists w. split; [exact E|]. lia.
Qed.
Lemma rtc_get_yday_total y m d :
  0 ≤ m ≤ 12 → - 2 ^ 24 ≤ d ≤ 2 ^ 24 → ∃ k, rtc_get_yday y m d = Ok k.
Proof.
  intros Hm Hd. unfold rtc_get_yday.
  assert (m ∈ seqZ 0 13) as Hin by (apply elem_of_seqZ; lia).
  destruct (rtc_year_is_leap y);
    (repeat (apply elem_of_cons in Hin as [->|Hin]; [eexists; simpl; apply c_int_ok; lia|]));
    by apply elem_of_nil in Hin.
Qed.
(** A month outside the table is read past the end of a row. *)
Lemma rtc_get_yday_bad y m d : ¬ 0 ≤ m ≤ 12 → rtc_get_yday y m d = Fault FUB.
Proof.
  intros Hm. unfold rtc_get_yday. destruct (_ !! Z.to_nat m) eqn:E; [|done].
  destruct (Z.leb_spec 0 m); [|done]. apply lookup_lt_Some in E.
  assert (length (days !!! Nat.b2n (rtc_year_is_leap y)) = 13%nat) by (by destruct (rtc_year_is_leap y)). lia.
Qed.

Definition tm_valid (tm : tm) : Prop :=
  0 ≤ tm_sec tm ≤ 59 ∧ 0 ≤ tm_min tm ≤ 59 ∧ 0 ≤ tm_hour tm ≤ 23 ∧ 1 ≤ tm_mday tm ≤ 31 ∧
  0 ≤ tm_mon tm ≤ 11 ∧ 0 ≤ tm_year tm + 1900 ≤ 3199 ∧ 0 ≤ tm_wday tm ≤ 6.
#[export] Instance tm_valid_dec tm : Decision (tm_valid tm).
Proof. unfold tm_valid. apply _. Defined.
Definition date_word (d : Z) (tm : tm) : Z :=
  bf_set week (tm_wday tm) (bf_set year (Z.rem (tm_year tm + 1900) 100)
    (bf_set month (tm_mon tm + 1) (bf_set day (tm_mday tm) d))).
Definition time_word (t : Z) (tm : tm) : Z :=
  bf_set hour (tm_hour tm) (bf_set minute (tm_min tm) (bf_set second (tm_sec tm) t)).
Definition century_word (e : Z) (tm : tm) : Z := bf_set century (Z.quot (tm_year tm + 1900) 100) e.

Lemma tm_words_spec d t e tm :
  - 2 ^ 30 ≤ tm_year tm ≤ 2 ^ 30 →
  tm_words d t e tm =
  Ok (if decide (tm_valid tm) then Some (date_word d tm, time_word t tm, century_word e tm) else None).
Proof.
  intros Hy. unfold tm_words. rewrite c_int_ok by lia. cbn [mbind res_bind]. rewrite !rtc_in_range_spec.
  unfold tm_valid, date_word, time_word, century_word.
  repeat (case_bool_decide; cbn [negb andb];
    [|rewrite decide_False; [done|]; try (intros (?&?&?&?&?&?&?); lia)]).
  - rewrite decide_True; [done|]. split_and!; try lia.
    + destruct (Z.lt_ge_cases (tm_year tm + 1900) 0) as [Hn|]; [|lia].
      pose proof (Z.quot_rem' (tm_year tm + 1900) 100). lia.
    + pose proof (Z.quot_rem' (tm_year tm + 1900) 100). lia.
  - intros (_&_&_&_&_&?&_). rewrite quot_pos in * by lia.
    assert (0 ≤ (tm_year tm + 1900) / 100 ≤ 31) by (Z.div_mod_to_equations; lia). lia.
  - intros (_&_&_&_&_&?&_). rewrite Z.rem_mod_nonneg in * by lia.
    pose proof (Z.mod_pos_bound (tm_year tm + 1900) 100). lia.
Qed.

Ltac bf_simpl :=
  repeat first [rewrite (bf_get_set 32) by field_dec | rewrite (bf_get_set_ne 32) by field_dec].
(** The words written are read back as the time that was set. *)
Lemma tm_of_words_spec d t e tm :
  tm_valid tm →
  ∃ k, tm_of_words (date_word d tm) (time_word t tm) (century_word e tm) =
    Ok (Tm (tm_sec tm) (tm_min tm) (tm_hour tm) (tm_mday tm) (tm_mon tm) (tm_year tm) (tm_wday tm) k (-1)).
Proof.
  intros (?&?&?&?&?&Hy&?). unfold tm_of_words, date_word, time_word, century_word. bf_simpl.
  change (bf_width day) with 5. change (bf_width month) with 4. change (bf_width year) with 12.
  change (bf_width week) with 3. change (bf_width second) with 6. change (bf_width minute) with 6.
  change (bf_width hour) with 5. change (bf_width century) with 5.
  set (hy := tm_year tm + 1900) in *.
  rewrite (quot_pos hy 100), (Z.rem_mod_nonneg hy 100) by lia. pose proof (Z.div_mod hy 100 ltac:(lia)).
  pose proof (Z.mod_pos_bound hy 100 ltac:(lia)). pose proof (Z.div_pos hy 100 ltac:(lia) ltac:(lia)).
  assert (hy / 100 < 32) by (apply Z.div_lt_upper_bound; lia).
  rewrite !(wrap_id 5), (wrap_id 4), (wrap_id 12), (wrap_id 3), !(wrap_id 6) by lia.
  rewrite Z.add_simpl_r, (Z.rem_small (tm_mon tm)) by lia.
  rewrite !(Z.mod_small (tm_mday tm)), (Z.mod_small (tm_sec tm)), (Z.mod_small (tm_min tm)),
    (Z.mod_small (tm_hour tm)), (Z.mod_small (tm_wday tm)), (Z.mod_small (hy mod 100)) by lia.
  replace (hy mod 100 + hy / 100 * 100 - 1900) with (tm_year tm) by lia.
  destruct (rtc_get_yday_total (tm_year tm + 1900) (tm_mon tm + 1) (tm_mday tm)) as [k ->]; [lia..|].
  cbn [mbind res_bind]. by eexists.
Qed.

Lemma set_mode_ne mode r s : r ≠ RTC_REGISTER_CTRL → rtc_timer_set_mode mode s r = s r.
Proof.
  intros. unfold rtc_timer_set_mode. repeat case_match; by rewrite !fset_reg_ne by done.
Qed.
Lemma get_mode_running s :
  rtc_timer_get_mode (rtc_timer_set_mode RTC_TIMER_RUNNING s) =
  (RTC_TIMER_RUNNING, rtc_timer_set_mode RTC_TIMER_RUNNING s).
Proof.
  unfold rtc_timer_get_mode.
  assert (fget write_enable (rtc_timer_set_mode RTC_TIMER_RUNNING s) = 0 ∧
          fget read_enable (rtc_timer_set_mode RTC_TIMER_RUNNING s) = 1) as [-> ->]; [|done].
  change (rtc_timer_set_mode RTC_TIMER_RUNNING s) with (fset write_enable 0 (fset read_enable 1 s)).
  split; [by rewrite fget_fset by field_dec|]. by rewrite fget_fset_ne, fget_fset by field_dec.
Qed.
(** Setting mode is reported as running. *)
Lemma get_mode_setting s :
  rtc_timer_get_mode (rtc_timer_set_mode RTC_TIMER_SETTING s) =
  (RTC_TIMER_RUNNING, rtc_timer_set_mode RTC_TIMER_SETTING s).
Proof.
  unfold rtc_timer_get_mode.
  assert (fget write_enable (rtc_timer_set_mode RTC_TIMER_SETTING s) = 1 ∧
          fget read_enable (rtc_timer_set_mode RTC_TIMER_SETTING s) = 0) as [-> ->]; [|done].
  change (rtc_timer_set_mode RTC_TIMER_SETTING s) with (fset write_enable 1 (fset read_enable 0 s)).
  split; [by rewrite fget_fset by field_dec|]. by rewrite fget_fset_ne, fget_fset by field_dec.
Qed.

(** The arguments that are a time of the clock; a day up to 31 is taken for any month. *)
Definition time_valid (y mo d h mi sec : Z) : Prop :=
  0 ≤ y ≤ 3199 ∧ 1 ≤ mo ≤ 12 ∧ 1 ≤ d ≤ 31 ∧ 0 ≤ h ≤ 23 ∧ 0 ≤ mi ≤ 59 ∧ 0 ≤ sec ≤ 59.
#[export] Instance time_valid_dec y mo d h mi sec : Decision (time_valid y mo d h mi sec).
Proof. unfold time_valid. apply _. Defined.
Lemma make_tm_spec y mo d h mi sec :
  - 2 ^ 24 ≤ y ≤ 2 ^ 24 → 0 ≤ mo ≤ 12 → - 2 ^ 24 ≤ d ≤ 2 ^ 24 →
  ∃ w k, make_tm y mo d h mi sec = Ok (Tm sec mi h d (mo - 1) (y - 1900) w k (-1)) ∧
    (tm_valid (Tm sec mi h d (mo - 1) (y - 1900) w k (-1)) ↔ time_valid y mo d h mi sec).
Proof.
  intros Hy Hmo Hd. unfold make_tm. rewrite !c_int_ok by lia. cbn [mbind res_bind].
  destruct (rtc_get_wday_total y mo d) as (w&->&Hw); [done..|]. cbn [mbind res_bind].
  destruct (rtc_get_yday_total y mo d) as (k&->); [done..|]. exists w, k. split; [done|].
  unfold tm_valid, time_valid. simpl. lia.
Qed.
(** The only fault of the [int] arithmetic is undefined behaviour. *)
Definition ub_only {A} (m : res A) : Prop := ∀ f, m = Fault f → f = FUB.
Lemma ub_only_bind {A B} (m : res A) (k : A → res B) :
  ub_only m → (∀ a, ub_only (k a)) → ub_only (m ≫= k).
Proof. intros Hm Hk f. destruct m; simpl; [apply Hk|]. intros E. apply Hm. congruence. Qed.
Lemma c_int_ub x : ub_only (c_int x).
Proof. intros f. unfold c_int. case_match; congruence. Qed.
Lemma rtc_get_wday_ub y m d : ub_only (rtc_get_wday y m d).
Proof.
  unfold rtc_get_wday. apply ub_only_bind.
  - destruct (m <? 3); repeat (apply ub_only_bind; [apply c_int_ub|intros ?]); done.
  - intros [y' d']. repeat (apply ub_only_bind; [apply c_int_ub|intros ?]). done.
Qed.
Lemma make_tm_bad y mo d h mi sec :
  - 2 ^ 24 ≤ y ≤ 2 ^ 24 → ¬ 0 ≤ mo ≤ 12 → make_tm y mo d h mi sec = Fault FUB.
Proof.
  intros Hy Hmo. unfold make_tm. rewrite (c_int_ok (y - 1900)) by lia. cbn [mbind res_bind].
  destruct (c_int (mo - 1)) as [|f] eqn:E; cbn [mbind res_bind].
  - destruct (rtc_get_wday y mo d) as [w|f] eqn:E2; cbn [mbind res_bind]; [by rewrite rtc_get_yday_bad|].
    f_equal. by eapply rtc_get_wday_ub.
  - f_equal. by eapply c_int_ub.
Qed.

(** Setting the clock and reading it.  A valid time is stored, whatever the
    uninitialised local words hold, and read back unchanged; any other time with
    a month of 0 to 12 is refused and no register changes; a month outside 0 to
    12 reads [days] out of bounds before the range check is reached. *)
Theorem rtc_timer_set_get local y mo d h mi sec s :
  - 2 ^ 24 ≤ y ≤ 2 ^ 24 → - 2 ^ 24 ≤ d ≤ 2 ^ 24 →
  if decide (0 ≤ mo ≤ 12) then
    if decide (time_valid y mo d h mi sec) then
      ∃ s', rtc_timer_set local y mo d h mi sec s = Ok (0, s') ∧
        rtc_timer_get s' = Ok (0, Some (y, mo, d, h, mi, sec), s') ∧
        ∀ r, r ∉ [RTC_DATE; RTC_TIME; RTC_EXTENDED; RTC_REGISTER_CTRL] → s' r = s r
    else rtc_timer_set local y mo d h mi sec s = Ok (-1, s)
  else rtc_timer_set local y mo d h mi sec s = Fault FUB.
Proof.
  intros Hy Hd. unfold rtc_timer_set. case_decide as Hmo; [|by rewrite make_tm_bad].
  destruct (make_tm_spec y mo d h mi sec Hy Hmo Hd) as (w&k&->&Hv). cbn [mbind res_bind].
  destruct local as [[dw tw] ew]. unfold rtc_timer_set_tm. rewrite tm_words_spec by (simpl; lia).
  cbn [mbind res_bind]. set (tm := Tm sec mi h d (mo - 1) (y - 1900) w k (-1)) in *.
  destruct (decide (tm_valid tm)) as [Htv|Htv].
  - rewrite decide_True by tauto. eexists. split; [done|]. split.
    + unfold rtc_timer_get, rtc_timer_get_tm. rewrite get_mode_running. cbn [negb Z.eqb RTC_TIMER_RUNNING Pos.eqb].
      rewrite !set_mode_ne, fn_lookup_insert_ne, fn_lookup_insert_ne, fn_lookup_insert by done.
      rewrite fn_lookup_insert_ne, fn_lookup_insert by done.
      rewrite fn_lookup_insert by done.
      destruct (tm_of_words_spec dw tw ew tm Htv) as [k' ->]. cbn [mbind res_bind].
      unfold split_tm. simpl. by rewrite !Z.sub_add.
    + intros r Hr. rewrite !not_elem_of_cons in Hr. destruct Hr as (?&?&?&?&_).
      rewrite !set_mode_ne, !fn_lookup_insert_ne by congruence. by apply set_mode_ne.
  - by rewrite decide_False by tauto.
Qed.
Definition demo_rtc : rtc_t := λ _, 0.
Lemma rtc_timer_set_get_witness :
  ∃ s', rtc_timer_set (255, 255, 255) 2024 2 29 23 59 58 demo_rtc = Ok (0, s') ∧
    rtc_timer_get s' = Ok (0, Some (2024, 2, 29, 23, 59, 58), s') ∧
    ∀ r, r ∉ [RTC_DATE; RTC_TIME; RTC_EXTENDED; RTC_REGISTER_CTRL] → s' r = demo_rtc r.
Proof.
  pose proof (rtc_timer_set_get (255, 255, 255) 2024 2 29 23 59 58 demo_rtc ltac:(lia) ltac:(lia)) as W.
  rewrite decide_True in W by lia. rewrite decide_True in W by (unfold time_valid; lia). exact W.
Defined.

(** The alarm holds no century: it reads back with the timer's. *)
Lemma rtc_alarm_set_get local y mo d h mi sec s :
  time_valid y mo d h mi sec → bf_get century (s RTC_EXTENDED) = y / 100 →
  ∃ s', rtc_alarm_set local y mo d h mi sec s = Ok (0, s') ∧
    rtc_alarm_get s' = Ok (0, Some (y, mo, d, h, mi, sec), s').
Proof.
  intros Htv Hc. pose proof Htv as (Hy&Hmo&Hd&_).
  unfold rtc_alarm_set. destruct (make_tm_spec y mo d h mi sec) as (w&k&->&Hv); [lia..|].
  cbn [mbind res_bind]. destruct local as [dw tw]. unfold rtc_alarm_set_tm.
  rewrite tm_words_spec by (simpl; lia).
  cbn [mbind res_bind]. set (tm := Tm sec mi h d (mo - 1) (y - 1900) w k (-1)) in *.
  rewrite decide_True by tauto. eexists. split; [done|].
  unfold rtc_alarm_get, rtc_alarm_get_tm. rewrite get_mode_running. cbn [negb Z.eqb RTC_TIMER_RUNNING Pos.eqb].
  rewrite !set_mode_ne, fn_lookup_insert_ne, fn_lookup_insert by done.
  rewrite fn_lookup_insert by done.
  rewrite !fn_lookup_insert_ne, set_mode_ne by done.
  destruct (tm_of_words_spec dw tw (s RTC_EXTENDED) tm) as [k' E]; [tauto|].
  assert (tm_of_words (date_word dw tm) (time_word tw tm) (s RTC_EXTENDED) =
          tm_of_words (date_word dw tm) (time_word tw tm) (century_word (s RTC_EXTENDED) tm)) as ->.
  { unfold tm_of_words. assert (bf_get century (century_word (s RTC_EXTENDED) tm) = bf_get century (s RTC_EXTENDED)) as ->;
      [|done]. unfold century_word. rewrite (bf_get_set 32) by field_dec. subst tm. simpl.
    rewrite Hc, quot_pos, wrap_id by (change (bf_width century) with 5; Z.div_mod_to_equations; lia). f_equal. lia. }
  rewrite E. cbn [mbind res_bind]. unfold split_tm. simpl. by rewrite !Z.sub_add.
Qed.

(** ** The interrupt control word *)
Lemma interrupt_ctrl_get f g v s :
  f_reg f = RTC_INTERRUPT_CTRL → f_reg g = RTC_INTERRUPT_CTRL → f_wf f → f_wf g →
  fget g (set_interrupt_ctrl f v s) =
  bf_get (f_bits g) (bf_set (f_bits f) v (s RTC_INTERRUPT_CTRL)).
Proof.
  intros Ef Eg ? ?. unfold fget, set_interrupt_ctrl, write_setting. rewrite Eg, set_mode_ne by done.
  by rewrite fn_lookup_insert.
Qed.
Create HintDb rtc.
Ltac interrupt_ctrl := intros; etransitivity; [apply interrupt_ctrl_get; (reflexivity || field_dec)|];
  first [rewrite (bf_get_set 32) by field_dec | rewrite (bf_get_set_ne 32) by field_dec]; reflexivity.
Lemma tick_set_tick v s : fget tick_enable (rtc_tick_set_interrupt v s) = wrap 1 v.
Proof. interrupt_ctrl. Qed.
Lemma tick_set_mode v s : fget tick_enable (rtc_tick_set_interrupt_mode v s) = fget tick_enable s.
Proof. interrupt_ctrl. Qed.
Lemma tick_set_alarm v s : fget tick_enable (rtc_alarm_set_interrupt v s) = fget tick_enable s.
Proof. interrupt_ctrl. Qed.
Lemma tick_set_mask v s : fget tick_enable (rtc_alarm_set_mask v s) = fget tick_enable s.
Proof. interrupt_ctrl. Qed.
Lemma mode_set_tick v s : fget tick_int_mode (rtc_tick_set_interrupt v s) = fget tick_int_mode s.
Proof. interrupt_ctrl. Qed.
Lemma mode_set_mode v s : fget tick_int_mode (rtc_tick_set_interrupt_mode v s) = wrap 2 v.
Proof. interrupt_ctrl. Qed.
Lemma mode_set_alarm v s : fget tick_int_mode (rtc_alarm_set_interrupt v s) = fget tick_int_mode s.
Proof. interrupt_ctrl. Qed.
Lemma mode_set_mask v s : fget tick_int_mode (rtc_alarm_set_mask v s) = fget tick_int_mode s.
Proof. interrupt_ctrl. Qed.
Lemma alarm_set_tick v s : fget alarm_enable (rtc_tick_set_interrupt v s) = fget alarm_enable s.
Proof. interrupt_ctrl. Qed.
Lemma alarm_set_mode v s : fget alarm_enable (rtc_tick_set_interrupt_mode v s) = fget alarm_enable s.
Proof. interrupt_ctrl. Qed.
Lemma alarm_set_alarm v s : fget alarm_enable (rtc_alarm_set_interrupt v s) = wrap 1 v.
Proof. interrupt_ctrl. Qed.
Lemma alarm_set_mask v s : fget alarm_enable (rtc_alarm_set_mask v s) = fget alarm_enable s.
Proof. interrupt_ctrl. Qed.
#[export] Hint Rewrite tick_set_tick tick_set_mode tick_set_alarm tick_set_mask mode_set_tick
  mode_set_mode mode_set_alarm mode_set_mask alarm_set_tick alarm_set_mode alarm_set_alarm
  alarm_set_mask : rtc.
(** Whatever the registers hold, they are read as a time. *)
Lemma tm_of_words_total d t e : ∃ v, tm_of_words d t e = Ok v.
Proof.
  unfold tm_of_words.
  assert (0 ≤ Z.rem (bf_get month d - 1) 12 + 1 ≤ 12) as Hm.
  { pose proof (bf_get_range 32 month d) as Hr. change (bf_width month) with 4 in Hr.
    assert (0 ≤ bf_get month d < 16) by (apply Hr; field_dec).
    destruct (decide (bf_get month d = 0)) as [->|]; [done|].
    rewrite Z.rem_mod_nonneg by lia. pose proof (Z.mod_pos_bound (bf_get month d - 1) 12). lia. }
  pose proof (Z.mod_pos_bound (bf_get day d) 32 ltac:(lia)).
  destruct (rtc_get_yday_total (bf_get year d mod 100 + bf_get century e * 100 - 1900 + 1900)
    (Z.rem (bf_get month d - 1) 12 + 1) (bf_get day d mod 32)) as [k ->]; [done|lia|]. by eexists.
Qed.
