(* ===== verification/RtcIrq.v ===== *)
(** * Real-time clock: interrupts (cores/k210/k210-sdk/drivers/k210_rtc.c)

    One hardware tick interrupt serves two clients, the periodic tick and the
    alarm, each with its own callback: registration, the sharing of the tick
    rate between them, and the interrupt callback. *)

From S2P Require Import Prelude Plic Rtc.

Definition IRQN_RTC_INTERRUPT : Z := 20.
Definition RTC_INT_SECOND : Z := 0.
Definition RTC_INT_MINUTE : Z := 1.
Definition RTC_INT_HOUR : Z := 2.
Definition RTC_INT_DAY : Z := 3.
Definition RTC_INT_MAX : Z := 4.

(** The handler and the context the driver hands to the interrupt controller *)
Inductive rtc_fn : Set := rtc_irq_callback_fn.
Inductive rtc_ptr : Set := rtc_instance_ptr.

Section rtc.
Context {F U P W : Type} `{IrqController P rtc_fn rtc_ptr}.

Record rtc_instance_t := RtcInstance {
  rtc_tick_callback : option F;
  tick_ctx : option U;
  rtc_alarm_callback : option F;
  rtc_alarm_ctx : option U;
  tick_is_single_shot : bool;
  alarm_is_single_shot : bool;
  tick_enable_by_alarm : bool;
  tick_enable_by_user : bool;
  tick_mode_by_user : Z;
  tick_mode_by_alarm : Z
}.
Definition rtc_instance : rtc_instance_t :=
  RtcInstance None None None None false false false false (u32 (-1)) RTC_INT_MAX.

(** The registers, [rtc_instance], the static structures [rtc_timer_date_time]
    and [rtc_alarm_date_time], and the interrupt controller *)
Record drv := Drv {
  regs : rtc_t;
  inst : rtc_instance_t;
  rtc_timer_date_time : tm;
  rtc_alarm_date_time : tm;
  irqs : P
}.
Definition set_regs (r : rtc_t) (d : drv) : drv :=
  Drv r d.(inst) d.(rtc_timer_date_time) d.(rtc_alarm_date_time) d.(irqs).
Definition set_inst (i : rtc_instance_t) (d : drv) : drv :=
  Drv d.(regs) i d.(rtc_timer_date_time) d.(rtc_alarm_date_time) d.(irqs).
Definition set_irqs (p : P) (d : drv) : drv :=
  Drv d.(regs) d.(inst) d.(rtc_timer_date_time) d.(rtc_alarm_date_time) p.
Definition on_regs (f : rtc_t → rtc_t) (d : drv) : drv := set_regs (f d.(regs)) d.
Definition on_irqs (f : P → P) (d : drv) : drv := set_irqs (f d.(irqs)) d.

(** Assignments to the instance's fields *)
Definition set_tick (cb : option F) (x : option U) (i : rtc_instance_t) : rtc_instance_t :=
  RtcInstance cb x i.(rtc_alarm_callback) i.(rtc_alarm_ctx) i.(tick_is_single_shot) i.(alarm_is_single_shot)
    i.(tick_enable_by_alarm) i.(tick_enable_by_user) i.(tick_mode_by_user) i.(tick_mode_by_alarm).
Definition set_alarm (cb : option F) (x : option U) (i : rtc_instance_t) : rtc_instance_t :=
  RtcInstance i.(rtc_tick_callback) i.(tick_ctx) cb x i.(tick_is_single_shot) i.(alarm_is_single_shot)
    i.(tick_enable_by_alarm) i.(tick_enable_by_user) i.(tick_mode_by_user) i.(tick_mode_by_alarm).
Definition set_tick_single (b : bool) (i : rtc_instance_t) : rtc_instance_t :=
  RtcInstance i.(rtc_tick_callback) i.(tick_ctx) i.(rtc_alarm_callback) i.(rtc_alarm_ctx) b
    i.(alarm_is_single_shot) i.(tick_enable_by_alarm) i.(tick_enable_by_user) i.(tick_mode_by_user)
    i.(tick_mode_by_alarm).
Definition set_alarm_single (b : bool) (i : rtc_instance_t) : rtc_instance_t :=
  RtcInstance i.(rtc_tick_callback) i.(tick_ctx) i.(rtc_alarm_callback) i.(rtc_alarm_ctx)
    i.(tick_is_single_shot) b i.(tick_enable_by_alarm) i.(tick_enable_by_user) i.(tick_mode_by_user)
    i.(tick_mode_by_alarm).
Definition set_by_user (b : bool) (mode : Z) (i : rtc_instance_t) : rtc_instance_t :=
  RtcInstance i.(rtc_tick_callback) i.(tick_ctx) i.(rtc_alarm_callback) i.(rtc_alarm_ctx)
    i.(tick_is_single_shot) i.(alarm_is_single_shot) i.(tick_enable_by_alarm) b mode i.(tick_mode_by_alarm).
Definition set_by_alarm (b : bool) (mode : Z) (i : rtc_instance_t) : rtc_instance_t :=
  RtcInstance i.(rtc_tick_callback) i.(tick_ctx) i.(rtc_alarm_callback) i.(rtc_alarm_ctx)
    i.(tick_is_single_shot) i.(alarm_is_single_shot) b i.(tick_enable_by_user) i.(tick_mode_by_user) mode.
Definition on_inst (f : rtc_instance_t → rtc_instance_t) (d : drv) : drv := set_inst (f d.(inst)) d.

(** The getters of Rtc fill the static structures; the result says whether the
    returned pointer is not null. *)
Definition timer_get_tm (d : drv) : res (bool * drv) :=
  '(t, r) ← rtc_timer_get_tm d.(regs);
  Ok (match t with
      | Some t => (true, Drv r d.(inst) t d.(rtc_alarm_date_time) d.(irqs))
      | None => (false, set_regs r d)
      end).
Definition alarm_get_tm (d : drv) : res (bool * drv) :=
  '(t, r) ← rtc_alarm_get_tm d.(regs);
  Ok (match t with
      | Some t => (true, Drv r d.(inst) d.(rtc_timer_date_time) t d.(irqs))
      | None => (false, set_regs r d)
      end).
(** [now_tm->field], [alarm_tm->field] *)
Definition deref (p : bool) (t : tm) : res tm := if p then Ok t else Fault FUB.

(** ** Registration *)

(** The alarm no longer needs the tick. *)
Definition restore_tick (d : drv) : drv :=
  if d.(inst).(tick_enable_by_user) then
    if rtc_tick_get_interrupt_mode d.(regs) <? d.(inst).(tick_mode_by_user) then
      on_regs (rtc_tick_set_interrupt 1)
        (on_regs (rtc_tick_set_interrupt_mode d.(inst).(tick_mode_by_user))
           (on_regs (rtc_tick_set_interrupt 0) d))
    else d
  else on_regs (rtc_tick_set_interrupt 0) d.
Definition hook_irq (priority : Z) (d : drv) : drv :=
  on_irqs (irq_enable IRQN_RTC_INTERRUPT)
    (on_irqs (irq_register IRQN_RTC_INTERRUPT rtc_irq_callback_fn (Some rtc_instance_ptr))
       (on_irqs (irq_set_priority IRQN_RTC_INTERRUPT priority) d)).
Definition unhook_irq (d : drv) : drv :=
  match d.(inst).(rtc_tick_callback), d.(inst).(rtc_alarm_callback) with
  | None, None => on_irqs (irq_unregister IRQN_RTC_INTERRUPT) d
  | _, _ => d
  end.

Definition rtc_tick_irq_register (single : bool) (mode : Z) (cb : option F) (x : option U) (priority : Z)
    (d : drv) : Z * drv :=
  let d := on_irqs (irq_disable IRQN_RTC_INTERRUPT) d in
  let d := on_regs (rtc_tick_set_interrupt 0) d in
  let d := on_inst (set_tick cb x) d in
  let d := on_inst (set_tick_single single) d in
  let d := on_inst (set_by_user true mode) d in
  let d := if negb d.(inst).(tick_enable_by_alarm) ||
              d.(inst).(tick_enable_by_alarm) && (mode <? rtc_tick_get_interrupt_mode d.(regs))
           then on_regs (rtc_tick_set_interrupt_mode mode) d else d in
  let d := hook_irq priority d in
  (0, on_regs (rtc_tick_set_interrupt 1) d).
Definition rtc_tick_irq_unregister (d : drv) : drv :=
  let d := if rtc_alarm_get_interrupt d.(regs) =? 0 then on_regs (rtc_tick_set_interrupt 0) d else d in
  let d := on_inst (set_by_user false (u32 (-1))) d in
  let d := on_inst (set_tick None None) d in
  unhook_irq d.
(** The slowest tick that sees the alarm's finest field *)
Definition alarm_tick_mode (mask : Z) : Z :=
  if Z.testbit mask 1 then RTC_INT_SECOND
  else if Z.testbit mask 2 then RTC_INT_MINUTE
  else if Z.testbit mask 3 then RTC_INT_HOUR else RTC_INT_DAY.
Definition rtc_alarm_irq_register (single : bool) (mask : Z) (cb : option F) (x : option U) (priority : Z)
    (d : drv) : Z * drv :=
  let d := on_irqs (irq_disable IRQN_RTC_INTERRUPT) d in
  let d := on_regs (rtc_tick_set_interrupt 0) d in
  let d := on_regs (rtc_alarm_set_interrupt 0) d in
  let d := on_inst (set_alarm cb x) d in
  let d := on_inst (set_alarm_single single) d in
  let d := on_inst (set_by_alarm true (alarm_tick_mode mask)) d in
  let mode := d.(inst).(tick_mode_by_alarm) in
  let d := if d.(inst).(tick_enable_by_user) && (mode <? rtc_tick_get_interrupt_mode d.(regs)) ||
              negb d.(inst).(tick_enable_by_user)
           then on_regs (rtc_tick_set_interrupt_mode mode) d else d in
  let d := on_regs (rtc_alarm_set_mask mask) d in
  let d := hook_irq priority d in
  let d := on_regs (rtc_alarm_set_interrupt 1) d in
  (0, on_regs (rtc_tick_set_interrupt 1) d).
Definition rtc_alarm_irq_unregister (d : drv) : drv :=
  let d := on_regs (rtc_alarm_set_interrupt 0) d in
  let d := on_inst (set_alarm None None) d in
  let d := on_inst (set_by_alarm false RTC_INT_MAX) d in
  unhook_irq (restore_tick d).

(** ** The interrupt callback *)
Context (call : F → option U → drv * W → drv * W).
Definition run_callback (cb : option F) (x : option U) (s : drv * W) : drv * W :=
  match cb with Some f => call f x s | None => s end.

(** The comparisons, in order; the first difference ends them. *)
Fixpoint compare_fields (fs : list (Z * (tm → Z))) (mask : Z) (now alarm : bool) (d : drv) : res bool :=
  match fs with
  | [] => Ok true
  | (bit, f) :: fs =>
      if Z.testbit mask bit then
        n ← deref now d.(rtc_timer_date_time);
        a ← deref alarm d.(rtc_alarm_date_time);
        if negb (f n =? f a) then Ok false else compare_fields fs mask now alarm d
      else compare_fields fs mask now alarm d
  end.
Definition alarm_fields : list (Z * (tm → Z)) :=
  [(7, tm_year); (6, tm_mon); (5, tm_mday); (3, tm_hour); (2, tm_min); (1, tm_sec)].
Definition alarm_matches (mask : Z) (now alarm : bool) (d : drv) : res bool :=
  if Z.land mask 0xFE =? 0 then Ok false else compare_fields alarm_fields mask now alarm d.
Definition alarm_single_shot (d : drv) : drv :=
  let d := on_regs (rtc_alarm_set_interrupt 0) d in
  let d := on_inst (set_by_alarm false RTC_INT_MAX) d in
  restore_tick d.
(** The alarm's half, up to [tick:] *)
Definition alarm_half (now : bool) (s : drv * W) : res (drv * W) :=
  let '(d, w) := s in
  if rtc_alarm_get_interrupt d.(regs) =? 0 then Ok (d, w) else
  '(alarm, d) ← alarm_get_tm d;
  b ← alarm_matches (rtc_alarm_get_mask d.(regs)) now alarm d;
  Ok (if (b : bool) then
        let d := if d.(inst).(alarm_is_single_shot) then alarm_single_shot d else d in
        run_callback d.(inst).(rtc_alarm_callback) d.(inst).(rtc_alarm_ctx) (d, w)
      else (d, w)).
(** Whether the tick is due: [goto ret] when it is not *)
Definition tick_due (mode : Z) (now : bool) (d : drv) : res bool :=
  if mode =? RTC_INT_MINUTE then n ← deref now d.(rtc_timer_date_time); Ok (tm_sec n =? 0)
  else if mode =? RTC_INT_HOUR then
    n ← deref now d.(rtc_timer_date_time); Ok ((tm_sec n =? 0) && (tm_min n =? 0))
  else if mode =? RTC_INT_DAY then
    n ← deref now d.(rtc_timer_date_time); Ok ((tm_sec n =? 0) && (tm_min n =? 0) && (tm_hour n =? 0))
  else Ok true.
Definition tick_half (now : bool) (s : drv * W) : res (drv * W) :=
  let '(d, w) := s in
  if negb d.(inst).(tick_enable_by_user) then Ok (d, w) else
  b ← tick_due d.(inst).(tick_mode_by_user) now d;
  Ok (if (b : bool) then
        let d := if d.(inst).(tick_is_single_shot)
                 then on_inst (set_by_user false (u32 (-1))) (on_regs (rtc_tick_set_interrupt 0) d) else d in
        run_callback d.(inst).(rtc_tick_callback) d.(inst).(tick_ctx) (d, w)
      else (d, w)).
Definition rtc_irq_callback (s : drv * W) : res (Z * (drv * W)) :=
  let '(d, w) := s in
  '(now, d) ← timer_get_tm d;
  s ← alarm_half now (d, w);
  s ← tick_half now s;
  Ok (0, s).
End rtc.
Arguments rtc_instance_t : clear implicits.
Arguments drv : clear implicits.

(** Computing the driver's fields through its updates *)
Ltac rtc_view := cbn [on_regs on_irqs on_inst set_regs set_inst set_irqs regs inst irqs hook_irq unhook_irq
  set_tick set_alarm set_tick_single set_alarm_single set_by_user set_by_alarm
  rtc_tick_callback tick_ctx rtc_alarm_callback rtc_alarm_ctx tick_is_single_shot alarm_is_single_shot
  tick_enable_by_alarm tick_enable_by_user tick_mode_by_user tick_mode_by_alarm snd] in *;
  unfold rtc_tick_get_interrupt_mode, rtc_alarm_get_interrupt, rtc_tick_get_interrupt in *;
  autorewrite with rtc in *.

(** ** Sharing the tick *)
Section sharing.
Context {F U P : Type} `{IrqController P rtc_fn rtc_ptr}.
Implicit Types (d : drv F U P).

(** Each client that is registered gets a tick at least as often as it asked
    for, and the interrupt reaches the driver. *)
Record tick_shared d : Prop := {
  sh_user : tick_enable_by_user (inst d) = true →
    fget tick_enable (regs d) = 1 ∧ fget tick_int_mode (regs d) ≤ tick_mode_by_user (inst d);
  sh_alarm : tick_enable_by_alarm (inst d) = true →
    fget tick_enable (regs d) = 1 ∧ fget alarm_enable (regs d) = 1 ∧
    fget tick_int_mode (regs d) ≤ tick_mode_by_alarm (inst d);
  sh_irq : is_Some (rtc_tick_callback (inst d)) ∨ is_Some (rtc_alarm_callback (inst d)) →
    irq_handler (irqs d) IRQN_RTC_INTERRUPT = Some (rtc_irq_callback_fn, Some rtc_instance_ptr)
}.

Inductive rtc_op :=
| OpTick (single : bool) (mode : Z) (cb : option F) (x : option U) (priority : Z)
| OpTickOff
| OpAlarm (single : bool) (mask : Z) (cb : option F) (x : option U) (priority : Z)
| OpAlarmOff.
Definition run_op (d : drv F U P) (o : rtc_op) : drv F U P :=
  match o with
  | OpTick single mode cb x priority => snd (rtc_tick_irq_register single mode cb x priority d)
  | OpTickOff => rtc_tick_irq_unregister d
  | OpAlarm single mask cb x priority => snd (rtc_alarm_irq_register single mask cb x priority d)
  | OpAlarmOff => rtc_alarm_irq_unregister d
  end.
Definition op_ok (o : rtc_op) : Prop :=
  match o with OpTick _ mode _ _ _ => 0 ≤ mode < RTC_INT_MAX | _ => True end.

Lemma alarm_tick_mode_range mask : 0 ≤ alarm_tick_mode mask < 4.
Proof. unfold alarm_tick_mode. repeat case_match; done. Qed.
(** The three parts of the invariant, after [rtc_view]. *)
Ltac shared_parts := split; rtc_view; change (wrap 1 1) with 1 in *;
  [try (intros; lia)|try (intros; lia)
  |try (intros; by rewrite irq_handler_enable, irq_handler_register, decide_True)].

Lemma tick_register_shared single mode cb x priority d :
  0 ≤ mode < 4 → tick_shared d → tick_shared (snd (rtc_tick_irq_register single mode cb x priority d)).
Proof.
  intros Hm [Hu Ha Hi]. pose proof (wrap_id 2 mode ltac:(lia)) as Ew. unfold rtc_tick_irq_register.
  destruct d as [r [tc tx ac ax ts als eba ebu mu ma] t1 t2 p]. rtc_view.
  destruct eba; cbn [negb orb andb]; [destruct (Ha eq_refl) as (?&?&?)|shared_parts; done].
  destruct (Z.ltb_spec mode (fget tick_int_mode r)); shared_parts.
Qed.
Lemma alarm_register_shared single mask cb x priority d :
  tick_shared d → tick_shared (snd (rtc_alarm_irq_register single mask cb x priority d)).
Proof.
  intros [Hu Ha Hi]. pose proof (alarm_tick_mode_range mask) as Hm.
  pose proof (wrap_id 2 (alarm_tick_mode mask) ltac:(lia)) as Ew. unfold rtc_alarm_irq_register.
  destruct d as [r [tc tx ac ax ts als eba ebu mu ma] t1 t2 p]. rtc_view.
  destruct ebu; cbn [negb orb andb]; [destruct (Hu eq_refl) as (?&?)|shared_parts; done].
  destruct (Z.ltb_spec (alarm_tick_mode mask) (fget tick_int_mode r)); cbn [orb]; shared_parts.
Qed.
Lemma tick_unregister_shared d : tick_shared d → tick_shared (rtc_tick_irq_unregister d).
Proof.
  intros [Hu Ha Hi]. unfold rtc_tick_irq_unregister, unhook_irq.
  destruct d as [r [tc tx ac ax ts als eba ebu mu ma] t1 t2 p]. rtc_view.
  destruct (Z.eqb_spec (fget alarm_enable r) 0); destruct ac; shared_parts; naive_solver lia.
Qed.
Lemma wrap_le w x y : 0 ≤ w → 0 ≤ x < y → wrap w y ≤ y.
Proof. intros. apply Z.mod_le; lia. Qed.
Lemma mode_nonneg (r : rtc_t) : 0 ≤ fget tick_int_mode r.
Proof. apply (bf_get_range 32). field_dec. Qed.
(** Giving up the alarm keeps the user's tick. *)
Lemma alarm_single_shot_shared d : tick_shared d → tick_shared (alarm_single_shot d).
Proof.
  intros [Hu Ha Hi]. unfold alarm_single_shot, restore_tick.
  destruct d as [r [tc tx ac ax ts als eba ebu mu ma] t1 t2 p]. rtc_view.
  pose proof (mode_nonneg r). pose proof (wrap_le 2 (fget tick_int_mode r) mu ltac:(lia)).
  destruct ebu; [destruct (Z.ltb_spec (fget tick_int_mode r) mu)|]; shared_parts; naive_solver lia.
Qed.
Lemma alarm_unregister_shared d : tick_shared d → tick_shared (rtc_alarm_irq_unregister d).
Proof.
  intros [Hu Ha Hi]. unfold rtc_alarm_irq_unregister, restore_tick, unhook_irq.
  destruct d as [r [tc tx ac ax ts als eba ebu mu ma] t1 t2 p]. rtc_view.
  pose proof (mode_nonneg r). pose proof (wrap_le 2 (fget tick_int_mode r) mu ltac:(lia)).
  destruct ebu; [destruct (Z.ltb_spec (fget tick_int_mode r) mu)|];
    rtc_view; destruct tc; shared_parts; naive_solver lia.
Qed.
Lemma run_op_shared o d : op_ok o → tick_shared d → tick_shared (run_op d o).
Proof.
  destruct o; intros Ho Hd; cbn [run_op].
  - by apply tick_register_shared.
  - by apply tick_unregister_shared.
  - by apply alarm_register_shared.
  - by apply alarm_unregister_shared.
Qed.

(** C16: sharing the tick interrupt.  After any sequence of registrations and
    unregistrations of the tick and the alarm, in any order and with any masks,
    whoever is registered has the hardware tick on at least as often as it
    needs, the alarm has its interrupt on, and the interrupt line leads to the
    driver as long as a callback is left. *)
Theorem rtc_tick_shared_reachable ops r t1 t2 p :
  Forall op_ok ops → tick_shared (foldl run_op (Drv r rtc_instance t1 t2 p) ops).
Proof.
  intros Hops.
  assert (tick_shared (Drv r rtc_instance t1 t2 p : drv F U P)) as Hd.
  { split; simpl; try done. intros [[? ?]|[? ?]]; done. }
  revert Hd. generalize (Drv r rtc_instance t1 t2 p : drv F U P) as d.
  induction Hops as [|o ops Ho Hops IH]; intros d Hd; [done|]. apply IH. by apply run_op_shared.
Qed.
End sharing.

(** ** The interrupt callback, for user callbacks that leave the clock alone *)
Section callback.
Context {F U P W : Type} `{IrqController P rtc_fn rtc_ptr} (run : F → option U → W → W).
Implicit Types (d : drv F U P) (w : W).

Definition quiet (f : F) (x : option U) (s : drv F U P * W) : drv F U P * W := (fst s, run f x (snd s)).
Definition run_opt (cb : option F) (x : option U) (w : W) : W :=
  match cb with Some f => run f x w | None => w end.
Definition clock_running (r : rtc_t) : Prop := fst (rtc_timer_get_mode r) = RTC_TIMER_RUNNING.

(** When the alarm fires and when the tick is due *)
Definition alarm_hit (mask : Z) (now alarm : tm) : bool :=
  negb (Z.land mask 0xFE =? 0) &&
  forallb (λ '(bit, f), negb (Z.testbit mask bit) || (f now =? f alarm))
    [(7, tm_year); (6, tm_mon); (5, tm_mday); (3, tm_hour); (2, tm_min); (1, tm_sec)].
Definition tick_hit (mode : Z) (now : tm) : bool :=
  if mode =? RTC_INT_MINUTE then tm_sec now =? 0
  else if mode =? RTC_INT_HOUR then (tm_sec now =? 0) && (tm_min now =? 0)
  else if mode =? RTC_INT_DAY then (tm_sec now =? 0) && (tm_min now =? 0) && (tm_hour now =? 0)
  else true.

(** A mask that names only the week matches every time: the week is not compared. *)
Lemma alarm_hit_week now alarm : alarm_hit (Z.shiftl 1 4) now alarm = true.
Proof. done. Qed.
Lemma clock_running_mode r : clock_running r → rtc_timer_get_mode r = (RTC_TIMER_RUNNING, r).
Proof. unfold clock_running, rtc_timer_get_mode. by repeat case_match; simpl; try discriminate. Qed.
Lemma compare_fields_spec fs mask d :
  compare_fields fs mask true true d =
  Ok (forallb (λ '(bit, f), negb (Z.testbit mask bit) ||
        (f (rtc_timer_date_time d) =? f (rtc_alarm_date_time d))) fs).
Proof.
  induction fs as [|[bit f] fs IH]; [done|]. cbn [compare_fields forallb deref mbind res_bind].
  destruct (Z.testbit mask bit); cbn [negb orb andb]; [|done]. by destruct (_ =? _).
Qed.
Lemma alarm_matches_spec mask d :
  alarm_matches mask true true d = Ok (alarm_hit mask (rtc_timer_date_time d) (rtc_alarm_date_time d)).
Proof.
  unfold alarm_matches, alarm_hit. destruct (Z.land mask 254 =? 0); [done|]. apply compare_fields_spec.
Qed.
Lemma tick_due_spec mode d : tick_due mode true d = Ok (tick_hit mode (rtc_timer_date_time d)).
Proof. unfold tick_due, tick_hit. by repeat case_match. Qed.

(** Giving up the alarm leaves the user's side of the instance. *)
Lemma alarm_single_shot_inst d :
  inst (alarm_single_shot d) = set_by_alarm false RTC_INT_MAX (inst d) ∧
  rtc_timer_date_time (alarm_single_shot d) = rtc_timer_date_time d ∧
  fget alarm_enable (regs (alarm_single_shot d)) = 0.
Proof.
  unfold alarm_single_shot, restore_tick. destruct d as [r [tc tx ac ax ts als eba ebu mu ma] t1 t2 p].
  rtc_view. destruct ebu; [destruct (fget tick_int_mode r <? mu)|]; rtc_view; done.
Qed.

(** The two halves *)
Definition fires d (alarm : tm) : bool :=
  negb (rtc_alarm_get_interrupt (regs d) =? 0) &&
  alarm_hit (rtc_alarm_get_mask (regs d)) (rtc_timer_date_time d) alarm.
Lemma alarm_half_spec d w alarm :
  rtc_alarm_get_tm (regs d) = Ok (Some alarm, regs d) →
  ∃ d', alarm_half quiet true (d, w) =
      Ok (d', if fires d alarm then run_opt (rtc_alarm_callback (inst d)) (rtc_alarm_ctx (inst d)) w else w) ∧
    rtc_timer_date_time d' = rtc_timer_date_time d ∧
    inst d' = (if fires d alarm && alarm_is_single_shot (inst d)
               then set_by_alarm false RTC_INT_MAX (inst d) else inst d) ∧
    fget alarm_enable (regs d') =
      (if fires d alarm && alarm_is_single_shot (inst d) then 0 else fget alarm_enable (regs d)).
Proof.
  intros Ea. unfold alarm_half, fires. destruct (_ =? 0) eqn:E0; cbn [negb andb]; [by exists d|].
  unfold alarm_get_tm. rewrite Ea. cbn [mbind res_bind]. rewrite alarm_matches_spec. cbn [mbind res_bind regs].
  destruct (alarm_hit _ _ _) eqn:Eh; cbn [andb]; [|by eexists].
  set (d0 := Drv (regs d) (inst d) (rtc_timer_date_time d) alarm (irqs d)).
  change (inst d) with (inst d0). change (regs d) with (regs d0).
  change (rtc_timer_date_time d) with (rtc_timer_date_time d0).
  destruct (alarm_single_shot_inst d0) as (Ei&Et&Eg). clearbody d0. cbn [inst].
  destruct (alarm_is_single_shot (inst d0)).
  - rewrite Ei. exists (alarm_single_shot d0). split; [|done]. cbn [set_by_alarm rtc_alarm_callback rtc_alarm_ctx].
    unfold run_callback, quiet, run_opt. by destruct (rtc_alarm_callback (inst d0)).
  - exists d0. split; [|done]. unfold run_callback, quiet, run_opt. by destruct (rtc_alarm_callback (inst d0)).
Qed.
Definition due d : bool :=
  tick_enable_by_user (inst d) && tick_hit (tick_mode_by_user (inst d)) (rtc_timer_date_time d).
Lemma tick_half_spec d w :
  ∃ d', tick_half quiet true (d, w) =
      Ok (d', if due d then run_opt (rtc_tick_callback (inst d)) (tick_ctx (inst d)) w else w) ∧
    d' = (if due d && tick_is_single_shot (inst d)
          then on_inst (set_by_user false (u32 (-1))) (on_regs (rtc_tick_set_interrupt 0) d) else d).
Proof.
  unfold tick_half, due. destruct (tick_enable_by_user (inst d)); cbn [negb andb]; [|by eexists].
  rewrite tick_due_spec. cbn [mbind res_bind]. destruct (tick_hit _ _); cbn [andb]; [|by eexists].
  eexists. split; [|done]. destruct (tick_is_single_shot (inst d)).
  - cbn [on_inst on_regs set_regs set_inst inst set_by_user rtc_tick_callback tick_ctx].
    unfold run_callback, quiet, run_opt. by destruct (rtc_tick_callback (inst d)).
  - unfold run_callback, quiet, run_opt. by destruct (rtc_tick_callback (inst d)).
Qed.
Lemma clock_read d :
  clock_running (regs d) →
  ∃ now alarm, rtc_timer_get_tm (regs d) = Ok (Some now, regs d) ∧
    rtc_alarm_get_tm (regs d) = Ok (Some alarm, regs d).
Proof.
  intros Hrun. pose proof (clock_running_mode _ Hrun) as Hm.
  destruct (tm_of_words_total (regs d RTC_DATE) (regs d RTC_TIME) (regs d RTC_EXTENDED)) as [now En].
  destruct (tm_of_words_total (regs d RTC_ALARM_DATE) (regs d RTC_ALARM_TIME) (regs d RTC_EXTENDED))
    as [alarm Ea].
  exists now, alarm. unfold rtc_timer_get_tm, rtc_alarm_get_tm. rewrite Hm.
  cbn [negb Z.eqb RTC_TIMER_RUNNING Pos.eqb]. rewrite En, Ea. split; reflexivity.
Qed.

(** The interrupt callback.  With the clock running, whatever the registers
    hold, it returns 0 and runs the alarm's callback, then the tick's: the alarm's
    exactly when its interrupt is on, its mask is not empty and every masked
    field but the week equals the alarm time; the tick's exactly when the
    user asked for a tick and the time is a multiple of the period.  A
    single-shot alarm is switched off, a single-shot tick is taken back. *)
Theorem rtc_irq_callback_spec d w :
  clock_running (regs d) →
  ∃ now alarm d',
    let fires := negb (rtc_alarm_get_interrupt (regs d) =? 0) &&
                 alarm_hit (rtc_alarm_get_mask (regs d)) now alarm in
    let due := tick_enable_by_user (inst d) && tick_hit (tick_mode_by_user (inst d)) now in
    let w1 := if fires then run_opt (rtc_alarm_callback (inst d)) (rtc_alarm_ctx (inst d)) w else w in
    let w2 := if due then run_opt (rtc_tick_callback (inst d)) (tick_ctx (inst d)) w1 else w1 in
    rtc_timer_get_tm (regs d) = Ok (Some now, regs d) ∧
    rtc_alarm_get_tm (regs d) = Ok (Some alarm, regs d) ∧
    rtc_irq_callback quiet (d, w) = Ok (0, (d', w2)) ∧
    fget alarm_enable (regs d') =
      (if fires && alarm_is_single_shot (inst d) then 0 else fget alarm_enable (regs d)) ∧
    tick_enable_by_user (inst d') =
      tick_enable_by_user (inst d) && negb (due && tick_is_single_shot (inst d)).
Proof.
  intros Hrun. destruct (clock_read d Hrun) as (now&alarm&En&Ea). exists now, alarm.
  unfold rtc_irq_callback, timer_get_tm. rewrite En. cbn [mbind res_bind].
  destruct (alarm_half_spec (Drv (regs d) (inst d) now (rtc_alarm_date_time d) (irqs d)) w alarm Ea)
    as (d1&->&Et&Ei&Eg). cbn [mbind res_bind].
  match goal with |- context [tick_half quiet true (d1, ?w1)] => destruct (tick_half_spec d1 w1) as (d2&->&E2) end.
  cbn [mbind res_bind]. exists d2. unfold fires, due in *. cbn [regs inst rtc_timer_date_time] in *.
  assert (tick_enable_by_user (inst d1) = tick_enable_by_user (inst d) ∧
          tick_mode_by_user (inst d1) = tick_mode_by_user (inst d) ∧
          tick_is_single_shot (inst d1) = tick_is_single_shot (inst d) ∧
          rtc_tick_callback (inst d1) = rtc_tick_callback (inst d) ∧
          tick_ctx (inst d1) = tick_ctx (inst d)) as (E1&E3&E4&E5&E6).
  { rewrite Ei. by destruct (_ && _). }
  rewrite E1, E3, E4, E5, E6, Et in *. cbv zeta.
  split; [reflexivity|]. split; [exact Ea|]. split; [reflexivity|].
  rewrite E2. destruct (tick_enable_by_user (inst d) && _) eqn:Edue, (tick_is_single_shot (inst d));
    cbn [andb negb]; rewrite ?andb_true_r;
    cbn [on_inst on_regs set_regs set_inst inst regs set_by_user tick_enable_by_user];
    autorewrite with rtc; rewrite ?andb_false_r; split; (exact Eg || done).
Qed.
(** A clock that is not running hands the callback a null time, which it
    follows when the alarm is on. *)
Lemma rtc_irq_callback_paused d w :
  rtc_timer_get_mode (regs d) = (RTC_TIMER_PAUSE, regs d) → rtc_alarm_get_interrupt (regs d) ≠ 0 →
  Z.testbit (rtc_alarm_get_mask (regs d)) 7 = true → rtc_irq_callback quiet (d, w) = Fault FUB.
Proof.
  intros Hm Ha Hmask.
  assert (rtc_timer_get_tm (regs d) = Ok (None, regs d) ∧ rtc_alarm_get_tm (regs d) = Ok (None, regs d))
    as [En Ea] by (unfold rtc_timer_get_tm, rtc_alarm_get_tm; by rewrite Hm).
  unfold rtc_irq_callback, timer_get_tm. rewrite En. cbn [mbind res_bind]. unfold alarm_half.
  cbn [set_regs regs]. rewrite (proj2 (Z.eqb_neq _ _) Ha). unfold alarm_get_tm. cbn [set_regs regs].
  rewrite Ea. cbn [mbind res_bind set_regs regs].
  unfold alarm_matches. assert (Z.land (rtc_alarm_get_mask (regs d)) 254 =? 0 = false) as ->.
  { apply Z.eqb_neq. intros E. apply (f_equal (λ x, Z.testbit x 7)) in E.
    by rewrite Z.land_spec, Hmask, Z.bits_0 in E. }
  cbn [compare_fields alarm_fields]. by rewrite Hmask.
Qed.

(** A single-shot tick starves the alarm.  When both are registered and the
    single-shot tick runs while the alarm does not fire, the callback
    switches the hardware tick off although the alarm is still armed and
    relies on it: no tick, so no alarm. *)
Theorem rtc_single_shot_tick_stops_alarm d w :
  clock_running (regs d) → tick_shared d → tick_enable_by_alarm (inst d) = true →
  (∀ now alarm, rtc_timer_get_tm (regs d) = Ok (Some now, regs d) →
    rtc_alarm_get_tm (regs d) = Ok (Some alarm, regs d) →
    alarm_hit (rtc_alarm_get_mask (regs d)) now alarm = false ∧
    tick_hit (tick_mode_by_user (inst d)) now = true) →
  tick_enable_by_user (inst d) = true → tick_is_single_shot (inst d) = true →
  ∃ d' w', rtc_irq_callback quiet (d, w) = Ok (0, (d', w')) ∧
    tick_enable_by_alarm (inst d') = true ∧ fget alarm_enable (regs d') = 1 ∧
    fget tick_enable (regs d') = 0 ∧ ¬ tick_shared d'.
Proof.
  intros Hrun Hsh Hal Hq Hu Hs. destruct (clock_read d Hrun) as (now&alarm&En&Ea).
  destruct (Hq now alarm En Ea) as [Hno Hyes]. destruct (sh_alarm _ Hsh Hal) as (_&Hae&_).
  unfold rtc_irq_callback, timer_get_tm. rewrite En. cbn [mbind res_bind].
  destruct (alarm_half_spec (Drv (regs d) (inst d) now (rtc_alarm_date_time d) (irqs d)) w alarm Ea)
    as (d1&->&Et&Ei&Eg). cbn [mbind res_bind].
  unfold fires in *. cbn [regs inst rtc_timer_date_time] in *. rewrite Hno, andb_false_r in *. cbn [andb] in *.
  destruct (tick_half_spec d1 w) as (d2&->&E2). cbn [mbind res_bind].
  unfold due in E2. rewrite Ei, Et, Hu, Hyes, Hs in E2. cbn [andb] in E2. subst d2.
  eexists _, _. split; [done|].
  assert (fget tick_enable (rtc_tick_set_interrupt 0 (regs d1)) = 0) as E0 by (by autorewrite with rtc).
  assert (tick_enable_by_alarm (inst d1) = true) by (by rewrite Ei).
  split; [done|]. 
  split; [cbn [on_inst on_regs set_regs set_inst regs]; autorewrite with rtc; congruence|]. split; [exact E0|].
  intros [_ Ha' _]. destruct Ha' as [E _]; [done|]. cbn [on_inst on_regs set_regs set_inst regs] in E. congruence.
Qed.
End callback.

(** ** Witnesses: the interrupt controller of Plic, callbacks that count *)
Definition demo_run (f : nat) (x : option unit) (w : list nat) : list nat := f :: w.
Definition demo_irqs : plic_t rtc_fn rtc_ptr := Plic (λ _, 0) (λ _, no_instance) false.
Definition demo_tm : tm := Tm 0 0 0 0 0 0 0 0 0.
Definition demo_drv : drv nat unit (plic_t rtc_fn rtc_ptr) :=
  Drv (rtc_timer_set_mode RTC_TIMER_RUNNING (λ _, 0)) rtc_instance demo_tm demo_tm demo_irqs.
Definition demo_core : Z := 0.
#[local] Instance demo_controller : IrqController (plic_t rtc_fn rtc_ptr) rtc_fn rtc_ptr :=
  plic_controller demo_core.
Definition demo_ops : list (rtc_op (F:=nat) (U:=unit)) :=
  [OpAlarm false 0x80 (Some 1%nat) None 1; OpTick true RTC_INT_SECOND (Some 2%nat) None 1].
Lemma demo_ops_ok : Forall op_ok demo_ops.
Proof. repeat (apply Forall_cons; split); done. Qed.
Lemma rtc_tick_shared_reachable_witness :
  tick_shared (foldl run_op demo_drv demo_ops).
Proof. exact (rtc_tick_shared_reachable demo_ops _ demo_tm demo_tm demo_irqs demo_ops_ok). Defined.

Lemma rtc_irq_callback_spec_witness :
  ∃ d' w', rtc_irq_callback (quiet demo_run) (foldl run_op demo_drv demo_ops, []) = Ok (0, (d', w')).
Proof.
  assert (clock_running (regs (foldl run_op demo_drv demo_ops))) as Hrun by (vm_compute; reflexivity).
  destruct (rtc_irq_callback_spec demo_run (foldl run_op demo_drv demo_ops) [] Hrun)
    as (now&alarm&d'&_&_&E&_).
  exists d'. eexists. exact E.
Defined.

(** An alarm for another year, and a tick every second, once *)
Definition demo_late : drv nat unit (plic_t rtc_fn rtc_ptr) :=
  Drv (<[RTC_ALARM_DATE := bf_set year 5 0]> (λ _, 0)) rtc_instance demo_tm demo_tm demo_irqs.
Lemma rtc_single_shot_tick_stops_alarm_witness :
  ∃ d' w', rtc_irq_callback (quiet demo_run) (foldl run_op demo_late demo_ops, []) = Ok (0, (d', w')) ∧
    tick_enable_by_alarm (inst d') = true ∧ fget alarm_enable (regs d') = 1 ∧
    fget tick_enable (regs d') = 0 ∧ ¬ tick_shared d'.
Proof.
  assert (tick_shared demo_late) as Hd by (split; [done|done|by intros [[? ?]|[? ?]]]).
  assert (tick_shared (foldl run_op demo_late demo_ops)) as Hsh.
  { cbn [foldl demo_ops]. by repeat (apply run_op_shared; [done|]). }
  apply (rtc_single_shot_tick_stops_alarm demo_run (foldl run_op demo_late demo_ops) []).
  - vm_compute; reflexivity.
  - exact Hsh.
  - reflexivity.
  - intros now alarm E1 E2.
    apply (f_equal (λ x, match x with Ok (Some t, _) => tm_year t | _ => 0 end)) in E1, E2.
    assert (tm_year now = -1900) as Y1 by (rewrite <-E1; vm_compute; reflexivity).
    assert (tm_year alarm = -1895) as Y2 by (rewrite <-E2; vm_compute; reflexivity).
    assert (rtc_alarm_get_mask (regs (foldl run_op demo_late demo_ops)) = 0x80) as -> by (vm_compute; reflexivity).
    assert (tick_mode_by_user (inst (foldl run_op demo_late demo_ops)) = 0) as -> by reflexivity.
    unfold alarm_hit. cbn [forallb]. rewrite Y1, Y2. done.
  - reflexivity.
  - reflexivity.
Defined.
