(* ===== verification/Sdcard.v ===== *)
(** * SD card over SPI (cores/k210/components/sdcard/sdcard.c)

    Commands, card start-up, block transfers and the decoding of the card
    registers, over the structure of bus functions the code is given
    ([spisd_interface_t]).  The card is whatever answers on the bus. *)

From S2P Require Import Prelude.
From stdpp Require Import list.
#[local] Open Scope Z_scope.

Definition CARD_TYPE_MMC : Z := 0x00.
Definition CARD_TYPE_SDV1 : Z := 0x01.
Definition CARD_TYPE_SDV2 : Z := 0x02.
Definition CARD_TYPE_SDV2HC : Z := 0x04.
Definition DUMMY_BYTE : Z := 0xFF.
Definition BLOCK_SIZE : Z := 512.
Definition CMD0 : Z := 0.
Definition CMD1 : Z := 1.
Definition CMD8 : Z := 8.
Definition CMD9 : Z := 9.
Definition CMD10 : Z := 10.
Definition CMD12 : Z := 12.
Definition CMD16 : Z := 16.
Definition CMD17 : Z := 17.
Definition CMD18 : Z := 18.
Definition ACMD23 : Z := 23.
Definition CMD24 : Z := 24.
Definition CMD25 : Z := 25.
Definition ACMD41 : Z := 41.
Definition CMD55 : Z := 55.
Definition CMD58 : Z := 58.
Definition CMD59 : Z := 59.
Definition CMD_WAIT_RESP_TIMEOUT : Z := 5000.
Definition WAIT_IDLE_TIMEOUT : Z := 50.
Definition CARD_BUSY_TIMEOUT_MS : Z := 500.
Definition SPISD_R1_IDLE_FLAG : Z := 0x01.
Definition SPISD_R1_ILLEGAL_CMD_FLAG : Z := 0x04.
Definition SPI_SPEED_NO_INIT_HZ : Z := 400000.
Definition SPI_SPEED_MAX_HZ : Z := 25000000.

Inductive spisd_result_t : Set :=
| SPISD_RESULT_OK | SPISD_RESULT_ERROR | SPISD_RESULT_NO_CARD | SPISD_RESULT_TIMEOUT.

(** The bus functions, with the state behind them passed along; a bus function may
    fail to return. *)
Record spisd_interface_t (D : Type) := Interface {
  io_init : Z → Z → Z → Z → D → res D;
  io_set_speed : Z → D → res D;
  io_select : D → res D;
  io_relese : D → res D;
  io_is_present : D → bool;
  io_wr_rd_byte : Z → D → res (Z * D);
  io_write : list Z → D → res D;
  io_read : Z → D → res (list Z * D)
}.
Arguments Interface {D}.
Arguments io_init {D}.
Arguments io_set_speed {D}.
Arguments io_select {D}.
Arguments io_relese {D}.
Arguments io_is_present {D}.
Arguments io_wr_rd_byte {D}.
Arguments io_write {D}.
Arguments io_read {D}.

(** The static [_card_type], and what is behind the bus *)
Record sd_t (D : Type) := Sd { card_type : Z; dev : D }.
Arguments Sd {D}.
Arguments card_type {D}.
Arguments dev {D}.

(** ** The card registers *)
Record spisd_csd_t := Csd {
  CSDStruct : Z; SysSpecVersion : Z; CsdReserved1 : Z; TAAC : Z; NSAC : Z; MaxBusClkFrec : Z;
  CardComdClasses : Z; RdBlockLen : Z; PartBlockRead : Z; WrBlockMisalign : Z; RdBlockMisalign : Z;
  DSRImpl : Z; CsdReserved2 : Z; DeviceSize : Z; MaxRdCurrentVDDMin : Z; MaxRdCurrentVDDMax : Z;
  MaxWrCurrentVDDMin : Z; MaxWrCurrentVDDMax : Z; DeviceSizeMul : Z; EraseGrSize : Z; EraseGrMul : Z;
  WrProtectGrSize : Z; WrProtectGrEnable : Z; ManDeflECC : Z; WrSpeedFact : Z; MaxWrBlockLen : Z;
  WriteBlockPaPartial : Z; CsdReserved3 : Z; ContentProtectAppli : Z; FileFormatGrouop : Z; CopyFlag : Z;
  PermWrProtect : Z; TempWrProtect : Z; FileFormat : Z; ECC : Z; CSD_CRC : Z; CsdReserved4 : Z
}.
Record spisd_cid_t := Cid {
  ManufacturerID : Z; OEM_AppliID : Z; ProdName1 : Z; ProdName2 : Z; ProdRev : Z; ProdSN : Z;
  CidReserved1 : Z; ManufactDate : Z; CID_CRC : Z; CidReserved2 : Z
}.
(** [(temp[i] & mask) >> sh] *)
Definition bits_of (temp : list Z) (i : nat) (mask sh : Z) : Z := Z.shiftr (Z.land (temp !!! i) mask) sh.
(** [(temp[i] & mask) << sh] *)
Definition bits_up (temp : list Z) (i : nat) (mask sh : Z) : Z := Z.shiftl (Z.land (temp !!! i) mask) sh.
Definition parse_csd (t : list Z) : spisd_csd_t :=
  let version := bits_of t 0 0xC0 6 in
  let size1 := Z.lor (Z.lor (bits_up t 6 0x03 10) (Z.shiftl (t !!! 7%nat) 2)) (bits_of t 8 0xC0 6) in
  let size2 := u32 (Z.shiftl (Z.land (t !!! 7%nat) 63) 16 + Z.shiftl (t !!! 8%nat) 8 + t !!! 9%nat) in
  Csd version (bits_of t 0 0x3C 2) (Z.land (t !!! 0%nat) 0x03) (t !!! 1%nat) (t !!! 2%nat) (t !!! 3%nat)
    (u16 (Z.lor (u16 (Z.shiftl (t !!! 4%nat) 4)) (bits_of t 5 0xF0 4))) (Z.land (t !!! 5%nat) 0x0F)
    (bits_of t 6 0x80 7) (bits_of t 6 0x40 6) (bits_of t 6 0x20 5) (bits_of t 6 0x10 4) 0
    (if version =? 0 then size1 else size2)
    (bits_of t 8 0x38 3) (Z.land (t !!! 8%nat) 0x07) (bits_of t 9 0xE0 5) (bits_of t 9 0x1C 2)
    (u8 (Z.lor (bits_up t 9 0x03 1) (bits_of t 10 0x80 7))) (bits_of t 10 0x7C 2)
    (u8 (Z.lor (bits_up t 10 0x03 3) (bits_of t 11 0xE0 5))) (Z.land (t !!! 11%nat) 0x1F)
    (bits_of t 12 0x80 7) (bits_of t 12 0x60 5) (bits_of t 12 0x1C 2)
    (u8 (Z.lor (bits_up t 12 0x03 2) (bits_of t 13 0xC0 6))) (bits_of t 13 0x20 5) 0
    (Z.land (t !!! 13%nat) 0x01) (bits_of t 14 0x80 7) (bits_of t 14 0x40 6) (bits_of t 14 0x20 5)
    (bits_of t 14 0x10 4) (bits_of t 14 0x0C 2) (Z.land (t !!! 14%nat) 0x03) (bits_of t 15 0xFE 1) 1.
Definition csd_block_size (csd : spisd_csd_t) : Z := u32 (Z.shiftl 1 csd.(RdBlockLen)).
(** The version 1 product is computed in 32 bits. *)
Definition csd_capacity (csd : spisd_csd_t) : Z :=
  if csd.(CSDStruct) =? 0
  then u32 (Z.shiftl (u32 (csd.(DeviceSize) + 1)) (csd.(DeviceSizeMul) + csd.(RdBlockLen) + 2))
  else u64 (u32 (csd.(DeviceSize) + 1) * csd_block_size csd * 1024).
(** [Reserved1] is or-ed into what the caller's structure holds. *)
Definition parse_cid (reserved1 : Z) (t : list Z) : spisd_cid_t :=
  Cid (t !!! 0%nat) (Z.lor (u16 (Z.shiftl (t !!! 1%nat) 8)) (t !!! 2%nat))
    (Z.lor (Z.lor (Z.lor (u32 (Z.shiftl (t !!! 3%nat) 24)) (Z.shiftl (t !!! 4%nat) 16))
              (Z.shiftl (t !!! 5%nat) 8)) (t !!! 6%nat))
    (t !!! 7%nat) (t !!! 8%nat)
    (Z.lor (Z.lor (Z.lor (u32 (Z.shiftl (t !!! 9%nat) 24)) (Z.shiftl (t !!! 10%nat) 16))
              (Z.shiftl (t !!! 11%nat) 8)) (t !!! 12%nat))
    (Z.lor reserved1 (bits_of t 13 0xF0 4)) (Z.lor (bits_up t 13 0x0F 8) (t !!! 14%nat))
    (bits_of t 15 0xFE 1) 1.
Record spisd_info_t := Info {
  csd : spisd_csd_t; cid : spisd_cid_t; capacity : Z; block_size : Z; info_card_type : Z
}.

Section driver.
Context {D : Type} (io : spisd_interface_t D) (rt_tick_get : D → Z) (rt_tick_from_millisecond : Z → Z).
(** Passes of the busy wait *)
Context (wait_fuel : nat).
Abbreviation M := (Prelude.M (sd_t D)).

Definition wr_rd_byte (b : Z) : M Z := λ s,
  '(r, d) ← io.(io_wr_rd_byte) b s.(dev); Ok (r, Sd s.(card_type) d).
Definition read (n : Z) : M (list Z) := λ s,
  '(r, d) ← io.(io_read) n s.(dev); Ok (r, Sd s.(card_type) d).
Definition on_dev (f : D → res D) : M unit := λ s, d ← f s.(dev); Ok (tt, Sd s.(card_type) d).
Definition write (bs : list Z) : M unit := on_dev (io.(io_write) bs).
Definition select : M unit := on_dev io.(io_select).
Definition relese : M unit := on_dev io.(io_relese).
Definition set_speed (hz : Z) : M unit := on_dev (io.(io_set_speed) hz).
Definition set_card_type (t : Z) : M unit := modify (λ s, Sd t s.(dev)).
Definition get_card_type : M Z := gets card_type.
Definition tick_get : M Z := gets (λ s, rt_tick_get s.(dev)).

(** [for(i = 0; i < n; i++) { r = wr_rd_byte(DUMMY_BYTE); if(stop(r)) break; }] *)
Fixpoint poll_byte (stop : Z → bool) (n : nat) (r : Z) : M Z :=
  match n with
  | O => mret r
  | S n => r ← wr_rd_byte DUMMY_BYTE; if stop r then mret r else poll_byte stop n r
  end.
Definition release_dummy : M unit := relese ≫= λ _, wr_rd_byte DUMMY_BYTE ≫= λ _, mret tt.
Definition packet (cmd arg crc : Z) : list Z :=
  [u8 (Z.lor cmd 0x40); u8 (Z.shiftr arg 24); u8 (Z.shiftr arg 16); u8 (Z.shiftr arg 8); u8 arg; crc].

Definition send_command (cmd arg crc : Z) : M Z :=
  _ ← wr_rd_byte DUMMY_BYTE;
  _ ← select;
  _ ← write (packet cmd arg crc);
  response ← poll_byte (λ r, negb (r =? 0xFF)) (Z.to_nat CMD_WAIT_RESP_TIMEOUT) 0xFF;
  _ ← release_dummy;
  mret response.
(** The data is there when a response came. *)
Definition send_command_recv_response (cmd arg crc size : Z) : M (Z * list Z) :=
  _ ← wr_rd_byte DUMMY_BYTE;
  _ ← select;
  _ ← write (packet cmd arg crc);
  response ← poll_byte (λ r, negb (r =? DUMMY_BYTE)) (Z.to_nat CMD_WAIT_RESP_TIMEOUT) DUMMY_BYTE;
  data ← (if negb (response =? DUMMY_BYTE) then read size else mret []);
  _ ← release_dummy;
  mret (response, data).
Definition send_command_hold (cmd arg crc : Z) : M Z :=
  _ ← wr_rd_byte DUMMY_BYTE;
  _ ← select;
  _ ← write (packet cmd arg crc);
  _ ← (if cmd =? CMD12 then wr_rd_byte DUMMY_BYTE else mret 0);
  response ← poll_byte (λ r, Z.land r 0x80 =? 0) (Z.to_nat CMD_WAIT_RESP_TIMEOUT) 0xFF;
  mret (if Z.land response 0x80 =? 0 then response else 0xFF).

Fixpoint wait_ready_loop (fuel : nat) (start timeout : Z) : M spisd_result_t :=
  match fuel with
  | O => c_fail FFuel
  | S fuel =>
      r ← wr_rd_byte DUMMY_BYTE;
      if r =? DUMMY_BYTE then mret SPISD_RESULT_OK else
      now ← tick_get;
      if u32 (now - start) <? timeout then wait_ready_loop fuel start timeout
      else mret SPISD_RESULT_TIMEOUT
  end.
Definition wait_ready : M spisd_result_t :=
  start ← tick_get;
  wait_ready_loop wait_fuel start (rt_tick_from_millisecond CARD_BUSY_TIMEOUT_MS).

(** [None]: the buffer is as it was *)
Definition read_buffer (len : Z) : M (spisd_result_t * option (list Z)) :=
  response ← poll_byte (λ r, r =? 0xFE) (Z.to_nat CMD_WAIT_RESP_TIMEOUT) 0;
  if negb (response =? 0xFE) then mret (SPISD_RESULT_ERROR, None) else
  buff ← read len;
  _ ← wr_rd_byte DUMMY_BYTE;
  _ ← wr_rd_byte DUMMY_BYTE;
  mret (SPISD_RESULT_OK, Some buff).

(** ** Start-up *)
Fixpoint dummy_clocks (n : nat) : M unit :=
  match n with O => mret tt | S n => _ ← wr_rd_byte DUMMY_BYTE; dummy_clocks n end.
(** The do-while loop over CMD0: the last response and the tries left *)
Fixpoint reset_loop (n : nat) : M (Z * nat) :=
  match n with
  | O => mret (0, O)
  | S n =>
      response ← send_command CMD0 0 0x95;
      match n with
      | O => mret (response, O)
      | _ => if response =? SPISD_R1_IDLE_FLAG then mret (response, n) else reset_loop n
      end
  end.
(** CMD55 and ACMD41 until the card is ready; [None] when CMD55 is refused *)
Fixpoint acmd41_loop (n : nat) (arg response : Z) : M (option Z) :=
  match n with
  | O => mret (Some response)
  | S n =>
      response ← send_command CMD55 0 1;
      if negb (response =? 0x01) then mret None else
      response ← send_command ACMD41 arg 1;
      if response =? 0x00 then mret (Some response) else acmd41_loop n arg response
  end.
Fixpoint cmd1_loop (n : nat) (response : Z) : M Z :=
  match n with
  | O => mret response
  | S n => response ← send_command CMD1 0 1; if response =? 0x00 then mret response else cmd1_loop n response
  end.

Definition init_v2 (buff : list Z) : M spisd_result_t :=
  if (buff !!! 2%nat =? 0x01) && (buff !!! 3%nat =? 0xAA) then
    r ← acmd41_loop (Z.to_nat 0xFFF) 0x40000000 SPISD_R1_IDLE_FLAG;
    match r with
    | None => mret SPISD_RESULT_TIMEOUT
    | Some response =>
        if negb (response =? 0x00) then mret SPISD_RESULT_TIMEOUT else
        '(response, buff) ← send_command_recv_response CMD58 0 1 4;
        if negb (response =? 0x00) then mret SPISD_RESULT_TIMEOUT else
        _ ← set_card_type (if negb (Z.land (buff !!! 0%nat) 0x40 =? 0) then CARD_TYPE_SDV2HC else CARD_TYPE_SDV2);
        _ ← set_speed SPI_SPEED_MAX_HZ;
        mret SPISD_RESULT_OK
    end
  else mret SPISD_RESULT_OK.
Definition init_v1_finish : M spisd_result_t :=
  _ ← set_speed SPI_SPEED_MAX_HZ;
  response ← send_command CMD59 0 0x01;
  if negb (response =? 0x00) then mret SPISD_RESULT_TIMEOUT else
  response ← send_command CMD16 BLOCK_SIZE 1;
  mret (if negb (response =? 0x00) then SPISD_RESULT_TIMEOUT else SPISD_RESULT_OK).
Definition init_v1 (response : Z) : M spisd_result_t :=
  _ ← set_card_type CARD_TYPE_SDV1;
  _ ← release_dummy;
  r ← acmd41_loop (Z.to_nat 0xFFF) 0 response;
  match r with
  | None => mret SPISD_RESULT_TIMEOUT
  | Some response =>
      if negb (response =? 0x00) then
        response ← cmd1_loop (Z.to_nat 0xFFF) response;
        if negb (response =? 0x00) then mret SPISD_RESULT_TIMEOUT else
        _ ← set_card_type CARD_TYPE_MMC;
        init_v1_finish
      else init_v1_finish
  end.
Definition spisd_init (sck miso mosi cs : Z) : M spisd_result_t :=
  _ ← on_dev (io.(io_init) sck miso mosi cs);
  present ← gets (λ s, io.(io_is_present) s.(dev));
  if negb present then mret SPISD_RESULT_NO_CARD else
  _ ← relese;
  _ ← set_speed SPI_SPEED_NO_INIT_HZ;
  _ ← dummy_clocks 20;
  '(_, tries) ← reset_loop (Z.to_nat WAIT_IDLE_TIMEOUT);
  match tries with
  | O => mret SPISD_RESULT_TIMEOUT
  | _ =>
      '(response, buff) ← send_command_recv_response CMD8 0x1AA 0x87 4;
      if response =? SPISD_R1_IDLE_FLAG then init_v2 buff
      else if negb (Z.land response SPISD_R1_ILLEGAL_CMD_FLAG =? 0) then init_v1 response
      else mret SPISD_RESULT_ERROR
  end.

(** ** Blocks *)
Definition block_address (type sector : Z) : Z :=
  if type =? CARD_TYPE_SDV2HC then sector else u32 (Z.shiftl sector 9).

Definition spisd_read_block (sector : Z) : M (spisd_result_t * option (list Z)) :=
  type ← get_card_type;
  response ← send_command_hold CMD17 (block_address type sector) 1;
  r ← (if response =? 0x00 then read_buffer BLOCK_SIZE else mret (SPISD_RESULT_ERROR, None));
  _ ← release_dummy;
  mret r.
Definition spisd_write_block (sector : Z) (buffer : list Z) : M spisd_result_t :=
  type ← get_card_type;
  response ← send_command CMD24 (block_address type sector) 1;
  if negb (response =? 0x00) then mret SPISD_RESULT_ERROR else
  _ ← select;
  _ ← wr_rd_byte DUMMY_BYTE;
  _ ← wr_rd_byte DUMMY_BYTE;
  _ ← wr_rd_byte DUMMY_BYTE;
  _ ← wr_rd_byte 0xFE;
  _ ← write (take (Z.to_nat BLOCK_SIZE) buffer);
  _ ← wr_rd_byte DUMMY_BYTE;
  _ ← wr_rd_byte DUMMY_BYTE;
  response ← wr_rd_byte DUMMY_BYTE;
  ret ← (if Z.land response 0x1F =? 0x05 then wait_ready else mret SPISD_RESULT_ERROR);
  _ ← release_dummy;
  mret ret.

Definition spisd_read_multi_block_begin (sector : Z) : M spisd_result_t :=
  type ← get_card_type;
  response ← send_command CMD18 (block_address type sector) 1;
  mret (if negb (response =? 0x00) then SPISD_RESULT_ERROR else SPISD_RESULT_OK).
(** The blocks read so far, and whether all of them came *)
Fixpoint read_blocks (n : nat) : M (spisd_result_t * list (list Z)) :=
  match n with
  | O => mret (SPISD_RESULT_OK, [])
  | S n =>
      '(ret, buff) ← read_buffer BLOCK_SIZE;
      match ret, buff with
      | SPISD_RESULT_OK, Some b => '(ret, bs) ← read_blocks n; mret (ret, b :: bs)
      | _, _ => mret (SPISD_RESULT_ERROR, [])
      end
  end.
Definition spisd_read_multi_block_read (num_sectors : Z) : M (spisd_result_t * list (list Z)) :=
  _ ← wr_rd_byte DUMMY_BYTE;
  _ ← select;
  r ← read_blocks (Z.to_nat num_sectors);
  _ ← release_dummy;
  mret r.
Definition stop_transmission : M spisd_result_t :=
  response ← send_command_hold CMD12 0 1;
  result ← (if response =? 0x00 then wait_ready
            else mret (if response =? DUMMY_BYTE then SPISD_RESULT_TIMEOUT else SPISD_RESULT_ERROR));
  _ ← release_dummy;
  mret result.
Definition spisd_read_multi_block_end : M spisd_result_t := stop_transmission.

Definition stop_write : M spisd_result_t :=
  _ ← wr_rd_byte 0xFD;
  _ ← wr_rd_byte DUMMY_BYTE;
  result ← wait_ready;
  _ ← release_dummy;
  mret result.
Fixpoint write_blocks (n : nat) (buffer : list Z) : M spisd_result_t :=
  match n with
  | O => stop_write
  | S n =>
      _ ← wr_rd_byte 0xFC;
      _ ← write (take (Z.to_nat BLOCK_SIZE) buffer);
      _ ← wr_rd_byte DUMMY_BYTE;
      _ ← wr_rd_byte DUMMY_BYTE;
      response ← wr_rd_byte DUMMY_BYTE;
      if negb (Z.land response 0x1F =? 0x05) then
        _ ← wait_ready;
        _ ← stop_transmission;
        mret SPISD_RESULT_ERROR
      else
        result ← wait_ready;
        match result with
        | SPISD_RESULT_OK => write_blocks n (drop (Z.to_nat BLOCK_SIZE) buffer)
        | _ => _ ← stop_transmission; mret result
        end
  end.
Definition spisd_write_multi_block (sector : Z) (buffer : list Z) (num_sectors : Z) : M spisd_result_t :=
  type ← get_card_type;
  _ ← (if negb (type =? CARD_TYPE_MMC)
       then _ ← send_command CMD55 0 1; send_command ACMD23 num_sectors 1 else mret 0);
  response ← send_command CMD25 (block_address type sector) 1;
  if negb (response =? 0x00) then mret SPISD_RESULT_ERROR else
  _ ← select;
  _ ← wr_rd_byte DUMMY_BYTE;
  _ ← wr_rd_byte DUMMY_BYTE;
  _ ← wr_rd_byte DUMMY_BYTE;
  write_blocks (Z.to_nat num_sectors) buffer.

(** ** Card information *)
Definition debug_bytes (n : nat) : M unit :=
  match n with
  | O => mret tt
  | _ => _ ← select; _ ← dummy_clocks n; release_dummy
  end.
(** A register read: the command, its token, sixteen bytes and two of checksum.
    [None] with the value the function returns when one of them fails. *)
Definition read_register (cmd crc err : Z) (debug : nat) : M (Z * list Z) :=
  _ ← wr_rd_byte DUMMY_BYTE;
  response ← send_command_hold cmd 0 crc;
  if negb (response =? 0x00) then _ ← release_dummy; mret (response, []) else
  data_token ← poll_byte (λ r, r =? 0xFE) (Z.to_nat (CMD_WAIT_RESP_TIMEOUT * 2)) 0xFF;
  if negb (data_token =? 0xFE) then
    _ ← release_dummy;
    _ ← debug_bytes debug;
    mret (err, [])
  else
    temp ← read 16;
    _ ← wr_rd_byte DUMMY_BYTE;
    _ ← wr_rd_byte DUMMY_BYTE;
    _ ← release_dummy;
    mret (0, temp).
(** The return value; what the caller's structure holds afterwards; [old]: what
    it held before. *)
Definition spisd_get_card_info (old : spisd_info_t) : M (Z * spisd_info_t) :=
  '(r, temp) ← read_register CMD9 0xFF 1 8;
  if negb (r =? 0) then mret (r, old) else
  type ← get_card_type;
  let c := parse_csd temp in
  let info := Info c old.(cid) (csd_capacity c) (csd_block_size c) type in
  '(r, temp) ← read_register CMD10 1 2 0;
  if negb (r =? 0) then mret (r, info) else
  mret (0, Info info.(csd) (parse_cid old.(cid).(CidReserved1) temp) info.(capacity) info.(block_size)
             info.(info_card_type)).
End driver.

(** ** The bus

    What the driver is promised: initialised with usable pins on sound hardware the bus is up, and
    from then on its functions return and keep it up.  The chip select line, and
    time: every byte on the bus takes some, less than 2^30 ticks, and the tick
    counter is time in ticks, modulo 2^32. *)
Definition returns {A} (m : res A) (Q : A → Prop) : Prop := ∃ a, m = Ok a ∧ Q a.
Class SpiBus {D} (io : spisd_interface_t D) (rt_tick_get : D → Z) (bytes_per_tick : Z) := {
  bus_pins : Z → Z → Z → Z → Prop;
  bus_ready : D → Prop;
  bus_up : D → Prop;
  bus_selected : D → bool;
  bus_time : D → Z;
  bus_tick d : 0 < bytes_per_tick ∧ rt_tick_get d = u32 (bus_time d / bytes_per_tick);
  bus_init a b c e d : bus_pins a b c e → bus_ready d →
    returns (io.(io_init) a b c e d) (λ d', bus_up d' ∧ bus_selected d' = false);
  bus_set_speed hz d : 0 < hz → bus_up d →
    returns (io.(io_set_speed) hz d) (λ d', bus_up d' ∧ bus_selected d' = bus_selected d);
  bus_select d : bus_up d → returns (io.(io_select) d) (λ d', bus_up d' ∧ bus_selected d' = true);
  bus_relese d : bus_up d → returns (io.(io_relese) d) (λ d', bus_up d' ∧ bus_selected d' = false);
  bus_byte b d : bus_up d →
    returns (io.(io_wr_rd_byte) b d) (λ '(_, d'), bus_up d' ∧ bus_selected d' = bus_selected d ∧
      bus_time d < bus_time d' ≤ bus_time d + 2 ^ 30 * bytes_per_tick);
  bus_write bs d : bs ≠ [] → bus_up d →
    returns (io.(io_write) bs d) (λ d', bus_up d' ∧ bus_selected d' = bus_selected d);
  bus_read n d : 0 < n ≤ 512 → bus_up d →
    returns (io.(io_read) n d) (λ '(_, d'), bus_up d' ∧ bus_selected d' = bus_selected d)
}.

Section released.
Context {D : Type} (io : spisd_interface_t D) (rt_tick_get : D → Z) (ms : Z → Z) (bytes_per_tick : Z).
Context `{!SpiBus io rt_tick_get bytes_per_tick}.
(** The timeout is well below the wrap-around of the counter; the fuel is the number
    of bytes that fit in it. *)
Context (ms_range : 0 ≤ ms CARD_BUSY_TIMEOUT_MS < 2 ^ 30) (fuel : nat)
  (fuel_enough : ms CARD_BUSY_TIMEOUT_MS * bytes_per_tick < Z.of_nat fuel).
Abbreviation M := (Prelude.M (sd_t D)).
Abbreviation selected s := (bus_selected (dev s)).

(** From a line in [P], [m] returns with the line in [Q], whatever the card does. *)
Definition line (P : bool → Prop) (d : D) : Prop := bus_up d ∧ P (bus_selected d).
Definition returns_in {A} (P Q : D → Prop) (m : M A) : Prop :=
  ∀ s, P (dev s) → ∃ a s', m s = Ok (a, s') ∧ Q (dev s').
Definition cs {A} (P Q : bool → Prop) (m : M A) : Prop := returns_in (line P) (line Q) m.
Definition any : bool → Prop := λ _, True.

Lemma returns_bind {A B} P Q R (m : M A) (k : A → M B) :
  returns_in P Q m → (∀ a, returns_in Q R (k a)) → returns_in P R (m ≫= k).
Proof.
  intros Hm Hk s Hs. destruct (Hm s Hs) as (a&s1&E1&H1). destruct (Hk a s1 H1) as (b&s2&E2&H2).
  exists b, s2. split; [|done]. apply M_bind_Ok. eauto.
Qed.
Lemma cs_bind {A B} P Q R (m : M A) (k : A → M B) : cs P Q m → (∀ a, cs Q R (k a)) → cs P R (m ≫= k).
Proof. apply returns_bind. Qed.
Lemma cs_weaken {A} (P P' Q Q' : bool → Prop) (m : M A) :
  cs P Q m → (∀ b, P' b → P b) → (∀ b, Q b → Q' b) → cs P' Q' m.
Proof. intros Hm HP HQ s [Hu Hs]. destruct (Hm s) as (a&s'&?&?&?); [by split; auto|]. exists a, s'. by repeat split; auto. Qed.
Lemma cs_ret {A} P (a : A) : cs P P (mret a).
Proof. intros s Hs. by exists a, s. Qed.
(** A bus function called through the interface *)
Lemma on_dev_returns (f : D → res D) (P Q : D → Prop) :
  (∀ d, P d → returns (f d) Q) → returns_in P Q (on_dev f).
Proof.
  intros Hf s Hs. destruct (Hf _ Hs) as (d & E & Hd). eexists _, (Sd _ d). unfold on_dev. rewrite E. by split.
Qed.
Lemma cs_wr P b : cs P P (wr_rd_byte io b).
Proof.
  intros s [Hu Hs]. destruct (bus_byte b (dev s) Hu) as ([r d] & E & Hu' & Hc & _).
  eexists r, (Sd _ d). unfold wr_rd_byte. rewrite E. split; [done|]. split; [done|]. cbn [dev]. by rewrite Hc.
Qed.
Lemma cs_read P n : 0 < n ≤ 512 → cs P P (read io n).
Proof.
  intros Hn s [Hu Hs]. destruct (bus_read n (dev s) Hn Hu) as ([r d] & E & Hu' & Hc).
  eexists r, (Sd _ d). unfold read. rewrite E. split; [done|]. split; [done|]. cbn [dev]. by rewrite Hc.
Qed.
Ltac cs_dev law :=
  apply on_dev_returns; intros d [Hu Hs]; destruct (law d Hu) as (d' & -> & Hu' & Hc);
  exists d'; split; [done|split; [done|by rewrite Hc]].
Lemma cs_write P bs : bs ≠ [] → cs P P (write io bs).
Proof. intros Hbs. cs_dev (λ d, bus_write (io:=io) bs d Hbs). Qed.
Lemma cs_set_speed P hz : 0 < hz → cs P P (set_speed io hz).
Proof. intros Hhz. cs_dev (λ d, bus_set_speed (io:=io) hz d Hhz). Qed.
Lemma cs_select P : cs P (eq true) (select io).
Proof. cs_dev (bus_select (io:=io)). Qed.
Lemma cs_relese P : cs P (eq false) (relese io).
Proof. cs_dev (bus_relese (io:=io)). Qed.
Lemma cs_set_card_type P t : cs P P (set_card_type (D:=D) t).
Proof. intros s Hs. by eexists _, _. Qed.
Lemma cs_gets {A} P (f : sd_t D → A) : cs P P (gets f).
Proof. intros s Hs. by eexists _, _. Qed.
Lemma cs_if {A} P Q (b : bool) (m1 m2 : M A) : cs P Q m1 → cs P Q m2 → cs P Q (if b then m1 else m2).
Proof. by destruct b. Qed.

Create HintDb cs.
#[local] Hint Resolve cs_ret cs_wr cs_read cs_write cs_set_speed cs_set_card_type cs_gets cs_select
  cs_relese cs_if : cs.
#[local] Hint Extern 1 (packet _ _ _ ≠ []) => discriminate : cs.
#[local] Hint Extern 1 (0 < _) => first [done|lia] : cs.
#[local] Hint Extern 1 (0 < _ ≤ _) => first [by split|lia] : cs.
(** Straight-line code: the line's state flows forwards. *)
Ltac cs_step :=
  match goal with
  | |- cs _ _ (if ?b then _ else _) => apply cs_if
  | |- cs _ _ (_ ≫= _) => eapply cs_bind; [solve [eauto 4 with cs]|intros ?]
  | |- cs _ _ (match ?x with _ => _ end) => destruct x
  | |- _ => solve [eauto 4 with cs]
  end.
Ltac cs_go := repeat cs_step.

Lemma cs_poll P stop n r : cs P P (poll_byte io stop n r).
Proof. revert r. induction n as [|n IH]; intros r; cbn [poll_byte]; cs_go. Qed.
Lemma cs_release_dummy P : cs P (eq false) (release_dummy io).
Proof. unfold release_dummy. cs_go. Qed.
Lemma cs_dummy_clocks P n : cs P P (dummy_clocks io n).
Proof. induction n as [|n IH]; cbn [dummy_clocks]; cs_go. Qed.
#[local] Hint Resolve cs_poll cs_release_dummy cs_dummy_clocks : cs.
Lemma cs_send_command P cmd arg crc : cs P (eq false) (send_command io cmd arg crc).
Proof. unfold send_command. cs_go. Qed.
Lemma cs_send_command_recv P cmd arg crc n :
  0 < n ≤ 512 → cs P (eq false) (send_command_recv_response io cmd arg crc n).
Proof. intros Hn. unfold send_command_recv_response. cs_go. Qed.
Lemma cs_send_command_hold P cmd arg crc : cs P (eq true) (send_command_hold io cmd arg crc).
Proof. unfold send_command_hold. cs_go. Qed.

(** The busy wait ends: at the latest when the time has passed. *)
Lemma tick_elapsed t0 d :
  t0 ≤ bus_time d → bus_time d - t0 < 2 ^ 31 * bytes_per_tick →
  (bus_time d - t0) / bytes_per_tick ≤ u32 (rt_tick_get d - u32 (t0 / bytes_per_tick)).
Proof.
  intros H0 Hlt. destruct (bus_tick d) as [Hb ->]. unfold wrap. rewrite Zminus_mod_idemp_l, Zminus_mod_idemp_r.
  pose proof (Z.div_le_mono t0 (bus_time d) bytes_per_tick Hb H0).
  rewrite Z.mod_small.
  - replace (bus_time d) with (t0 + (bus_time d - t0)) at 2 by lia.
    pose proof (Z.div_mod t0 bytes_per_tick). pose proof (Z.mod_pos_bound t0 bytes_per_tick Hb).
    pose proof (Z.div_mod (bus_time d - t0) bytes_per_tick).
    pose proof (Z.mod_pos_bound (bus_time d - t0) bytes_per_tick Hb).
    assert (t0 / bytes_per_tick + (bus_time d - t0) / bytes_per_tick ≤ (t0 + (bus_time d - t0)) / bytes_per_tick);
      [|lia]. apply Z.div_le_lower_bound; nia.
  - split; [lia|].
    assert (bus_time d / bytes_per_tick < t0 / bytes_per_tick + 2 ^ 31 + 1); [|lia].
    apply Z.div_lt_upper_bound; [done|]. pose proof (Z.mul_div_le t0 bytes_per_tick Hb).
    pose proof (Z.mul_succ_div_gt t0 bytes_per_tick Hb). nia.
Qed.
Lemma cs_wait_loop (P : bool → Prop) t0 n s :
  t0 ≤ bus_time (dev s) ≤ t0 + ms CARD_BUSY_TIMEOUT_MS * bytes_per_tick →
  t0 + ms CARD_BUSY_TIMEOUT_MS * bytes_per_tick < Z.of_nat n + bus_time (dev s) →
  line P (dev s) →
  ∃ a s', wait_ready_loop io rt_tick_get n (u32 (t0 / bytes_per_tick)) (ms CARD_BUSY_TIMEOUT_MS) s = Ok (a, s') ∧
    line P (dev s').
Proof.
  revert s. induction n as [|n IH]; intros s Ht Hf [Hu Hs]; [lia|].
  destruct (bus_byte DUMMY_BYTE (dev s) Hu) as ([r d] & E & Hu' & Hc & Htm).
  destruct (bus_tick (dev s)) as [Hb _].
  assert (line P d) as Hl by (split; [done|by rewrite Hc]).
  assert (wait_ready_loop io rt_tick_get (S n) (u32 (t0 / bytes_per_tick)) (ms CARD_BUSY_TIMEOUT_MS) s =
    if r =? DUMMY_BYTE then Ok (SPISD_RESULT_OK, Sd (card_type s) d)
    else if u32 (rt_tick_get d - u32 (t0 / bytes_per_tick)) <? ms CARD_BUSY_TIMEOUT_MS
         then wait_ready_loop io rt_tick_get n (u32 (t0 / bytes_per_tick)) (ms CARD_BUSY_TIMEOUT_MS) (Sd (card_type s) d)
         else Ok (SPISD_RESULT_TIMEOUT, Sd (card_type s) d)) as ->.
  { cbn [wait_ready_loop]. unfold mbind, M_bind, wr_rd_byte. rewrite E. unfold mbind, res_bind.
    destruct (r =? DUMMY_BYTE); [done|]. unfold tick_get, gets. cbn [dev]. by destruct (_ <? _). }
  destruct (r =? DUMMY_BYTE); [by eexists _, _|].
  pose proof (tick_elapsed t0 d ltac:(lia) ltac:(nia)) as Hel.
  destruct (Z.ltb_spec (u32 (rt_tick_get d - u32 (t0 / bytes_per_tick))) (ms CARD_BUSY_TIMEOUT_MS)) as [Hlt|Hge].
  - apply IH; cbn [dev]; [|lia|done].
    pose proof (Z.mul_succ_div_gt (bus_time d - t0) bytes_per_tick Hb). nia.
  - by eexists _, _.
Qed.
Lemma cs_wait_ready P : cs P P (wait_ready io rt_tick_get ms fuel).
Proof.
  intros s Hs. unfold wait_ready, mbind, M_bind, tick_get, gets. destruct (bus_tick (dev s)) as [Hb ->].
  apply cs_wait_loop; [|lia|done]. split; [lia|]. nia.
Qed.
#[local] Hint Resolve cs_send_command cs_send_command_recv cs_send_command_hold cs_wait_ready : cs.
Lemma cs_read_buffer P n : 0 < n ≤ 512 → cs P P (read_buffer io n).
Proof. intros Hn. unfold read_buffer. cs_go. Qed.
Lemma cs_stop_transmission P : cs P (eq false) (stop_transmission io rt_tick_get ms fuel).
Proof. unfold stop_transmission. cs_go. Qed.
Lemma cs_stop_write P : cs P (eq false) (stop_write io rt_tick_get ms fuel).
Proof. unfold stop_write. cs_go. Qed.
#[local] Hint Resolve cs_read_buffer cs_stop_transmission cs_stop_write : cs.
Lemma take_block (buffer : list Z) : BLOCK_SIZE ≤ Z.of_nat (length buffer) → take (Z.to_nat BLOCK_SIZE) buffer ≠ [].
Proof.
  unfold BLOCK_SIZE. intros Hlen E. apply (f_equal length) in E. rewrite length_take in E. cbn [length] in E. lia.
Qed.
#[local] Hint Resolve take_block : cs.
Lemma cs_write_blocks P n buffer :
  BLOCK_SIZE * Z.of_nat n ≤ Z.of_nat (length buffer) →
  cs P (eq false) (write_blocks io rt_tick_get ms fuel n buffer).
Proof.
  revert buffer. induction n as [|n IH]; intros buffer Hlen; cbn [write_blocks]; [cs_go|].
  assert (BLOCK_SIZE ≤ Z.of_nat (length buffer)) by (unfold BLOCK_SIZE in *; lia).
  assert (BLOCK_SIZE * Z.of_nat n ≤ Z.of_nat (length (drop (Z.to_nat BLOCK_SIZE) buffer)))
    by (rewrite length_drop; unfold BLOCK_SIZE in *; lia).
  cs_go.
Qed.
Lemma cs_read_blocks P n : cs P P (read_blocks io n).
Proof.
  induction n as [|n IH]; cbn [read_blocks]; cs_go.
Qed.
#[local] Hint Resolve cs_write_blocks cs_read_blocks : cs.
(** Everything after the reset starts and ends with the line released. *)
Lemma cs_acmd41_loop n arg response : cs (eq false) (eq false) (acmd41_loop io n arg response).
Proof. revert response. induction n as [|n IH]; intros response; cbn [acmd41_loop]; cs_go. Qed.
Lemma cs_cmd1_loop n response : cs (eq false) (eq false) (cmd1_loop io n response).
Proof. revert response. induction n as [|n IH]; intros response; cbn [cmd1_loop]; cs_go. Qed.
Lemma cs_reset_loop n : cs (eq false) (eq false) (reset_loop io n).
Proof. induction n as [|n IH]; cbn [reset_loop]; cs_go. Qed.
#[local] Hint Resolve cs_acmd41_loop cs_cmd1_loop cs_reset_loop : cs.
Lemma cs_init_v2 buff : cs (eq false) (eq false) (init_v2 io buff).
Proof. unfold init_v2. cs_go. Qed.
Lemma cs_init_v1_finish : cs (eq false) (eq false) (init_v1_finish io).
Proof. unfold init_v1_finish. cs_go. Qed.
#[local] Hint Resolve cs_init_v2 cs_init_v1_finish : cs.
Lemma cs_init_v1 response : cs (eq false) (eq false) (init_v1 io response).
Proof. unfold init_v1. cs_go. Qed.
#[local] Hint Resolve cs_init_v1 : cs.
Lemma cs_debug_bytes n : cs (eq false) (eq false) (debug_bytes io n).
Proof. unfold debug_bytes. cs_go. Qed.
#[local] Hint Resolve cs_debug_bytes : cs.
Lemma cs_read_register P cmd crc err debug : cs P (eq false) (read_register io cmd crc err debug).
Proof. unfold read_register. cs_go. Qed.
#[local] Hint Resolve cs_read_register : cs.

(** The functions one by one *)
Lemma init_released sck miso mosi cs_pin :
  bus_pins sck miso mosi cs_pin → returns_in bus_ready (line (eq false)) (spisd_init io sck miso mosi cs_pin).
Proof.
  intros Hpins. unfold spisd_init. generalize (Z.to_nat WAIT_IDLE_TIMEOUT) as n. intros n.
  apply returns_bind with (line (eq false)).
  { apply on_dev_returns. intros d Hd. destruct (bus_init sck miso mosi cs_pin d Hpins Hd) as (d' & -> & ? & ?).
    by exists d'. }
  intros _. match goal with |- returns_in _ _ ?m => change (cs (eq false) (eq false) m) end. cs_go.
Qed.
Lemma calls_release sector buffer num old :
  BLOCK_SIZE * Z.max 1 num ≤ Z.of_nat (length buffer) →
  cs any (eq false) (spisd_read_block io sector) ∧
  cs any (eq false) (spisd_write_block io rt_tick_get ms fuel sector buffer) ∧
  cs any (eq false) (spisd_read_multi_block_begin io sector) ∧
  cs any (eq false) (spisd_read_multi_block_read io num) ∧
  cs any (eq false) (spisd_read_multi_block_end io rt_tick_get ms fuel) ∧
  cs any (eq false) (spisd_write_multi_block io rt_tick_get ms fuel sector buffer num) ∧
  cs any (eq false) (spisd_get_card_info io old).
Proof.
  intros Hlen. assert (BLOCK_SIZE ≤ Z.of_nat (length buffer)) by (unfold BLOCK_SIZE in *; lia).
  assert (BLOCK_SIZE * Z.of_nat (Z.to_nat num) ≤ Z.of_nat (length buffer)) by (unfold BLOCK_SIZE in *; lia).
  refine (conj _ (conj _ (conj _ (conj _ (conj _ (conj _ _)))))).
  - unfold spisd_read_block. cs_go.
  - unfold spisd_write_block. cs_go.
  - unfold spisd_read_multi_block_begin. cs_go.
  - unfold spisd_read_multi_block_read. cs_go.
  - apply cs_stop_transmission.
  - unfold spisd_write_multi_block. eapply cs_bind; [apply cs_gets|intros type].
    apply cs_bind with any.
    + destruct (negb _); [|apply cs_ret]. eapply cs_bind; [apply cs_send_command|intros ?].
      eapply cs_weaken; [apply (cs_send_command any)|done|done].
    + intros ?. cs_go.
  - unfold spisd_get_card_info. cs_go.
Qed.

(** A program that uses the card: calls in any order, with their results ignored *)
Inductive sd_call : Type :=
| ReadBlock (sector : Z)
| WriteBlock (sector : Z) (buffer : list Z)
| ReadBegin (sector : Z)
| ReadBlocks (num_sectors : Z)
| ReadEnd
| WriteBlocks (sector : Z) (buffer : list Z) (num_sectors : Z)
| CardInfo (old : spisd_info_t).
Definition run_call (c : sd_call) : M unit :=
  match c with
  | ReadBlock sector => spisd_read_block io sector ≫= λ _, mret tt
  | WriteBlock sector buffer => spisd_write_block io rt_tick_get ms fuel sector buffer ≫= λ _, mret tt
  | ReadBegin sector => spisd_read_multi_block_begin io sector ≫= λ _, mret tt
  | ReadBlocks num => spisd_read_multi_block_read io num ≫= λ _, mret tt
  | ReadEnd => spisd_read_multi_block_end io rt_tick_get ms fuel ≫= λ _, mret tt
  | WriteBlocks sector buffer num => spisd_write_multi_block io rt_tick_get ms fuel sector buffer num ≫= λ _, mret tt
  | CardInfo old => spisd_get_card_info io old ≫= λ _, mret tt
  end.
Fixpoint run_calls (cs : list sd_call) : M unit :=
  match cs with [] => mret tt | c :: cs => run_call c ≫= λ _, run_calls cs end.
(** Writes come with whole blocks. *)
Definition call_ok (c : sd_call) : Prop :=
  match c with
  | WriteBlock _ buffer => BLOCK_SIZE ≤ Z.of_nat (length buffer)
  | WriteBlocks _ buffer num => BLOCK_SIZE * Z.max 1 num ≤ Z.of_nat (length buffer)
  | _ => True
  end.
Lemma run_call_released (old : spisd_info_t) c :
  call_ok c → cs any (eq false) (run_call c).
Proof.
  intros Hc.
  set (num := match c with WriteBlocks _ _ n => n | ReadBlocks n => n | _ => 1 end).
  set (sector := match c with ReadBlock n | WriteBlock n _ | ReadBegin n | WriteBlocks n _ _ => n | _ => 0 end).
  pose proof (λ buffer H, calls_release sector buffer num
    (match c with CardInfo o => o | _ => old end) H) as Hcalls.
  assert (BLOCK_SIZE * Z.max 1 num ≤ Z.of_nat (length (replicate (Z.to_nat (BLOCK_SIZE * Z.max 1 num)) 0))) as Hrep
    by (rewrite length_replicate; unfold BLOCK_SIZE; lia).
  assert (∀ A (m : M A), cs any (eq false) m → cs any (eq false) (m ≫= λ _, mret tt)) as Hm
    by (intros; eapply cs_bind; [done|intros; apply cs_ret]).
  destruct c; cbn [run_call call_ok] in *; apply Hm;
    first [destruct (Hcalls _ Hrep) as (?&_&?&?&?&_&?); assumption
          |destruct (Hcalls buffer ltac:(subst num; unfold BLOCK_SIZE in *; lia)) as (_&?&_&_&_&?&_); assumption].
Qed.
Lemma run_calls_released (old : spisd_info_t) calls :
  Forall call_ok calls → cs (eq false) (eq false) (run_calls calls).
Proof.
  intros Hc. induction Hc as [|c calls Hc _ IH]; cbn [run_calls]; [apply cs_ret|].
  apply cs_bind with (eq false); [|done].
  eapply cs_weaken; [by apply (run_call_released old c)|done|done].
Qed.

Definition session (sck miso mosi cs_pin : Z) (calls : list sd_call) : M unit :=
  spisd_init io sck miso mosi cs_pin ≫= λ _, run_calls calls.
Lemma session_released sck miso mosi cs_pin (old : spisd_info_t) calls :
  bus_pins sck miso mosi cs_pin → Forall call_ok calls →
  returns_in bus_ready (line (eq false)) (session sck miso mosi cs_pin calls).
Proof.
  intros Hp Hc.
  apply returns_bind with (line (eq false)); [|intros _; by apply (run_calls_released old)].
  by apply init_released.
Qed.

(** C17: on a bus that keeps its promises, whatever the card answers and however long
    it stays busy: the start-up, and after it every call of every sequence of calls,
    returns (the polls are bounded, the busy wait ends with its timeout) and leaves
    the card deselected, on its error paths too.  Buffers hold the blocks written
    from them. *)
Theorem spisd_calls_release sck miso mosi cs_pin (old : spisd_info_t) calls call :
  bus_pins sck miso mosi cs_pin → Forall call_ok (calls ++ [call]) →
  returns_in bus_ready (line (eq false)) (spisd_init io sck miso mosi cs_pin) ∧
  returns_in bus_ready (line (eq false)) (session sck miso mosi cs_pin calls) ∧
  cs any (eq false) (run_call call).
Proof.
  intros Hp [Hc [Hl _]%Forall_cons]%Forall_app. split; [|split].
  - by apply init_released.
  - by apply (session_released _ _ _ _ old).
  - exact (run_call_released old call Hl).
Qed.
End released.

(** ** A bus with a script

    The card's answers are given; what the host clocks out is recorded. *)
Module Script.
Record bus := Bus { sel : bool; answers : list Z; sent : list Z }.
Definition wr_rd (b : Z) (d : bus) : res (Z * bus) :=
  match d.(answers) with
  | [] => Ok (0xFF, Bus d.(sel) [] (d.(sent) ++ [b]))
  | r :: rest => Ok (r, Bus d.(sel) rest (d.(sent) ++ [b]))
  end.
Definition io : spisd_interface_t bus :=
  Interface (λ _ _ _ _ d, Ok (Bus false d.(answers) d.(sent))) (λ _ d, Ok d)
    (λ d, Ok (Bus true d.(answers) d.(sent))) (λ d, Ok (Bus false d.(answers) d.(sent))) (λ _, true)
    wr_rd (λ bs d, Ok (Bus d.(sel) d.(answers) (d.(sent) ++ bs)))
    (λ n d, Ok (take (Z.to_nat n) d.(answers),
             Bus d.(sel) (drop (Z.to_nat n) d.(answers)) (d.(sent) ++ replicate (Z.to_nat n) 0xFF))).
Definition tick (d : bus) : Z := u32 (Z.of_nat (length d.(sent)) / 1).
#[global] Instance laws : SpiBus io tick 1.
Proof.
  refine {| bus_pins _ _ _ _ := True; bus_ready _ := True; bus_up _ := True; bus_selected := sel;
            bus_time d := Z.of_nat (length d.(sent)) |}; try (intros; by eexists); try done.
  intros b d _. unfold io, io_wr_rd_byte, wr_rd. destruct (answers d); (eexists (_, _); split; [done|]);
    cbn [sent sel]; rewrite length_app; cbn [length]; (split; [done|split; [done|lia]]).
Defined.
End Script.

Section script.
Import Script.
Implicit Types (s : sd_t bus) (xs ys rest : list Z).
Definition st (ty : Z) (b : bool) xs ys : sd_t bus := Sd ty (Bus b xs ys).

Lemma wr_script b ty c x xs ys :
  wr_rd_byte io b (st ty c (x :: xs) ys) = Ok (x, st ty c xs (ys ++ [b])).
Proof. done. Qed.
Lemma poll_script stop n r ty c xs y rest ys :
  Forall (λ x, stop x = false) xs → stop y = true → (length xs < n)%nat →
  poll_byte io stop n r (st ty c (xs ++ y :: rest) ys) =
  Ok (y, st ty c rest (ys ++ replicate (length xs) 0xFF ++ [0xFF])).
Proof.
  revert n r ys. induction xs as [|x xs IH]; intros [|n] r ys Hxs Hy Hn; cbn [length] in Hn; try lia;
    cbn [poll_byte app]; unfold mbind at 1, M_bind at 1; rewrite wr_script.
  - rewrite Hy. done.
  - apply Forall_cons in Hxs as [-> Hxs]. rewrite IH by (done || lia).
    cbn [length replicate]. rewrite <-app_assoc. done.
Qed.
Lemma type_script ty c xs ys : get_card_type (st ty c xs ys) = Ok (ty, st ty c xs ys).
Proof. done. Qed.
Lemma select_script ty c xs ys : select io (st ty c xs ys) = Ok (tt, st ty true xs ys).
Proof. done. Qed.
Lemma write_script bs ty c xs ys : write io bs (st ty c xs ys) = Ok (tt, st ty c xs (ys ++ bs)).
Proof. done. Qed.
Lemma read_script n ty c xs rest ys :
  length xs = Z.to_nat n →
  read io n (st ty c (xs ++ rest) ys) = Ok (xs, st ty c rest (ys ++ replicate (Z.to_nat n) 0xFF)).
Proof.
  intros Hn. unfold read, io, io_read, st. cbn [dev answers sent sel card_type mbind res_bind].
  by rewrite take_app_length', drop_app_length' by done.
Qed.
Lemma release_script ty c x xs ys : release_dummy io (st ty c (x :: xs) ys) = Ok (tt, st ty false xs (ys ++ [0xFF])).
Proof. done. Qed.
Lemma bind_script {A B} (m : Prelude.M (sd_t bus) A) (k : A → Prelude.M (sd_t bus) B) s a s' :
  m s = Ok (a, s') → (m ≫= k) s = k a s'.
Proof. unfold mbind, M_bind. by intros ->. Qed.

(** A card that answers [x], then bytes with the top bit set, then R1, then
    anything but the token, then the token, the block and its checksum. *)
Definition not_r1 (x : Z) : Prop := (Z.land x 0x80 =? 0) = false.
Definition not_token (x : Z) : Prop := (x =? 0xFE) = false.

(** A single-block read on the wire.  When the card answers the command with R1 0 and then sends
    a start token within the allowed number of bytes, the host has clocked out
    exactly CMD17 with the block address of the card type (byte address,
    modulo 2^32, unless the card is high capacity), big endian, the buffer is
    exactly the 512 bytes after the token, and the answers after the checksum and
    the trailing byte are untouched; any other R1 gives an error and no data. *)
Theorem spisd_read_block_wire ty sector ff r1 tok data c1 c2 x t rest sent0 c :
  Forall not_r1 ff → Z.of_nat (length ff) < CMD_WAIT_RESP_TIMEOUT → (Z.land r1 0x80 =? 0) = true →
  Forall not_token tok → Z.of_nat (length tok) < CMD_WAIT_RESP_TIMEOUT →
  Z.of_nat (length data) = BLOCK_SIZE →
  let addr := if ty =? CARD_TYPE_SDV2HC then sector else u32 (sector * 512) in
  let sent1 := sent0 ++ [0xFF; 0x51; u8 (Z.shiftr addr 24); u8 (Z.shiftr addr 16); u8 (Z.shiftr addr 8);
                         u8 addr; 1] ++ replicate (length ff + 1) 0xFF in
  if r1 =? 0 then
    spisd_read_block io sector (st ty c (x :: ff ++ r1 :: tok ++ 0xFE :: data ++ [c1; c2; t] ++ rest) sent0) =
    Ok ((SPISD_RESULT_OK, Some data), st ty false rest (sent1 ++ replicate (length tok + 1 + 512 + 3) 0xFF))
  else
    spisd_read_block io sector (st ty c (x :: ff ++ r1 :: t :: rest) sent0) =
    Ok ((SPISD_RESULT_ERROR, None), st ty false rest (sent1 ++ [0xFF])).
Proof.
  intros Hff Hlf Hr1 Htok Hlt Hld addr sent1.
  assert (∀ l, poll_byte io (λ r, Z.land r 0x80 =? 0) (Z.to_nat CMD_WAIT_RESP_TIMEOUT) 0xFF
    (st ty true (ff ++ r1 :: l) ((sent0 ++ [0xFF]) ++ packet CMD17 addr 1)) =
    Ok (r1, st ty true l sent1)) as Hpoll.
  { intros l. rewrite poll_script by (done || lia). do 3 f_equal. subst sent1.
    rewrite replicate_add. by rewrite <-!app_assoc. }
  assert (∀ l, send_command_hold io CMD17 (block_address ty sector) 1
      (st ty c (x :: ff ++ r1 :: l) sent0) = Ok (r1, st ty true l sent1)) as Hhold.
  { intros l. unfold send_command_hold.
    assert (block_address ty sector = addr) as ->.
    { unfold block_address. subst addr. by rewrite Z.shiftl_mul_pow2 by lia. }
    rewrite (bind_script _ _ _ _ _ (wr_script _ _ _ _ _ _)).
    rewrite (bind_script _ _ _ _ _ (select_script _ _ _ _)).
    rewrite (bind_script _ _ _ _ _ (write_script _ _ _ _ _)).
    rewrite (bind_script (if CMD17 =? CMD12 then _ else _) _ _ 0 _ eq_refl).
    rewrite (bind_script _ _ _ _ _ (Hpoll l)). by rewrite Hr1. }
  clear Hpoll. clearbody sent1 addr. unfold spisd_read_block.
  destruct (r1 =? 0) eqn:E0.
  - rewrite (bind_script _ _ _ _ _ (type_script _ _ _ _)), (bind_script _ _ _ _ _ (Hhold _)), E0.
    assert (read_buffer io BLOCK_SIZE (st ty true (tok ++ 0xFE :: data ++ [c1; c2; t] ++ rest) sent1) =
      Ok ((SPISD_RESULT_OK, Some data),
          st ty true (t :: rest) (sent1 ++ replicate (length tok + 1 + 512 + 2) 0xFF))) as Hbuf.
    { unfold read_buffer.
      rewrite (bind_script _ _ _ _ _ (poll_script (λ r, r =? 0xFE) (Z.to_nat CMD_WAIT_RESP_TIMEOUT) 0 ty true tok 0xFE
        _ _ Htok eq_refl ltac:(lia))).
      cbn [Z.eqb Pos.eqb negb].
      rewrite (bind_script _ _ _ _ _ (read_script BLOCK_SIZE _ _ data _ _ ltac:(lia))).
      cbn [app]. rewrite (bind_script _ _ _ _ _ (wr_script _ _ _ _ _ _)), (bind_script _ _ _ _ _ (wr_script _ _ _ _ _ _)).
      unfold mret, M_ret. do 2 f_equal. f_equal. rewrite !replicate_add. by rewrite <-!app_assoc. }
    rewrite (bind_script _ _ _ _ _ Hbuf), (bind_script _ _ _ _ _ (release_script _ _ _ _ _)).
    unfold mret, M_ret. do 2 f_equal. f_equal. rewrite !replicate_add. by rewrite <-!app_assoc.
  - rewrite (bind_script _ _ _ _ _ (type_script _ _ _ _)), (bind_script _ _ _ _ _ (Hhold _)), E0.
    rewrite (bind_script (mret _) _ _ _ _ eq_refl).
    by rewrite (bind_script _ _ _ _ _ (release_script _ _ _ _ _)).
Qed.
End script.

(** ** The card registers as bit fields *)

(** The register as a 128-bit number, the first byte on top, and its bits [hi:lo]. *)
Definition register (t : list Z) : Z := little_endian_to_Z 8 (reverse t).
Definition slice (hi lo : Z) (r : Z) : Z := wrap (hi - lo + 1) (Z.shiftr r lo).

Section register.
Context (t : list Z) (Ht : length t = 16%nat) (Hb : Forall (λ b, in_width 8 b) t).

Lemma byte_range i : in_width 8 (t !!! i).
Proof.
  destruct (t !! i) as [b|] eqn:E.
  - rewrite (list_lookup_total_correct _ _ _ E). rewrite Forall_lookup in Hb. by apply (Hb i).
  - rewrite list_lookup_total_alt, E. done.
Qed.
(** A field inside byte [i] *)
Lemma slice_byte i s k :
  (i < 16)%nat → 0 ≤ s → 0 < k → s + k ≤ 8 →
  slice (8 * (15 - Z.of_nat i) + s + k - 1) (8 * (15 - Z.of_nat i) + s) (register t) =
  wrap k (Z.shiftr (t !!! i) s).
Proof.
  intros Hi Hs Hk Hsk. unfold slice.
  replace (8 * (15 - Z.of_nat i) + s + k - 1 - (8 * (15 - Z.of_nat i) + s) + 1) with k by lia.
  apply Z.bits_inj'. intros j Hj. rewrite !wrap_testbit, !Z.shiftr_spec by lia. case_bool_decide; [|done].
  cbn [andb]. unfold register.
  assert ((j + (8 * (15 - Z.of_nat i) + s)) / 8 = 15 - Z.of_nat i) as Ed.
  { symmetry. apply (Z.div_unique _ _ _ (j + s)); lia. }
  rewrite (little_endian_to_Z_spec 8 (reverse t) _ (t !!! i)).
  - f_equal. symmetry. apply (Z.mod_unique _ _ (15 - Z.of_nat i)); lia.
  - lia.
  - lia.
  - by apply Forall_reverse.
  - rewrite Ed, reverse_lookup by lia. rewrite Ht. replace (16 - S (Z.to_nat (15 - Z.of_nat i)))%nat with i by lia.
    apply list_lookup_lookup_total_lt. lia.
Qed.
(** A field in two parts *)
Lemma slice_app hi mid lo r :
  0 ≤ lo ≤ mid → mid ≤ hi →
  slice hi lo r = Z.lor (Z.shiftl (slice hi mid r) (mid - lo)) (slice (mid - 1) lo r).
Proof.
  intros ? ?. unfold slice. apply Z.bits_inj'. intros i Hi.
  rewrite Z.lor_spec, Z.shiftl_spec by lia.
  rewrite (wrap_testbit (hi - lo + 1)), (wrap_testbit (mid - 1 - lo + 1)), !Z.shiftr_spec by lia.
  destruct (decide (i < mid - lo)).
  - rewrite (Z.testbit_neg_r _ (i - (mid - lo))), !bool_decide_eq_true_2 by lia. done.
  - rewrite wrap_testbit, Z.shiftr_spec, (bool_decide_eq_false_2 (i < mid - 1 - lo + 1)) by lia.
    cbn [andb]. rewrite orb_false_r. f_equal; [|f_equal; lia]. apply bool_decide_ext. lia.
Qed.
Lemma slice_range hi lo r : 0 ≤ hi - lo + 1 → in_width (hi - lo + 1) (slice hi lo r).
Proof. intros. by apply wrap_range. Qed.
Lemma bits_of_eq i k s :
  0 ≤ s → 0 < k → bits_of t i (Z.shiftl (Z.ones k) s) s = wrap k (Z.shiftr (t !!! i) s).
Proof.
  intros ? ?. unfold bits_of. apply Z.bits_inj'. intros j Hj.
  rewrite Z.shiftr_spec, Z.land_spec, Z.shiftl_spec, wrap_testbit, Z.shiftr_spec by lia.
  rewrite Z.testbit_ones_nonneg by lia. rewrite andb_comm. f_equal.
  rewrite Z.add_simpl_r. apply eq_true_iff_eq. by rewrite Z.ltb_lt, bool_decide_eq_true.
Qed.

(** Byte [i], bits [s, s + k) *)
Lemma field_byte i s k :
  (i < 16)%nat → 0 ≤ s → 0 < k → s + k ≤ 8 →
  bits_of t i (Z.shiftl (Z.ones k) s) s =
  slice (8 * (15 - Z.of_nat i) + s + k - 1) (8 * (15 - Z.of_nat i) + s) (register t).
Proof. intros. by rewrite bits_of_eq, slice_byte by lia. Qed.
Lemma field_low i k :
  (i < 16)%nat → 0 < k ≤ 8 →
  Z.land (t !!! i) (Z.ones k) =
  slice (8 * (15 - Z.of_nat i) + k - 1) (8 * (15 - Z.of_nat i)) (register t).
Proof.
  intros. rewrite land_ones_wrap by lia. pose proof (slice_byte i 0 k) as E.
  rewrite !Z.add_0_r, Z.shiftr_0_r in E. by rewrite E by lia.
Qed.
Lemma field_whole i :
  (i < 16)%nat → t !!! i = slice (8 * (15 - Z.of_nat i) + 7) (8 * (15 - Z.of_nat i)) (register t).
Proof.
  intros. pose proof (field_low i 8 ltac:(done) ltac:(lia)) as E. rewrite land_ones_wrap in E by lia.
  rewrite (wrap_id 8) in E by apply byte_range. rewrite E at 1. f_equal. lia.
Qed.
(** The fields of the CSD register in the SD physical layer specification, versions 1.0 and
    2.0 of the structure, with the bits they occupy *)
Inductive sd_csd_field : Set :=
  | CSD_STRUCTURE | F_TAAC | F_NSAC | TRAN_SPEED | CCC | READ_BL_LEN | READ_BL_PARTIAL | WRITE_BLK_MISALIGN | READ_BLK_MISALIGN
  | DSR_IMP | C_SIZE | VDD_R_CURR_MIN | VDD_R_CURR_MAX | VDD_W_CURR_MIN | VDD_W_CURR_MAX | C_SIZE_MULT | ERASE_BLK_EN
  | SECTOR_SIZE | WP_GRP_SIZE | WP_GRP_ENABLE | R2W_FACTOR | WRITE_BL_LEN | WRITE_BL_PARTIAL | FILE_FORMAT_GRP | COPY
  | PERM_WRITE_PROTECT | TMP_WRITE_PROTECT | FILE_FORMAT | F_CRC.
Definition sd_common (f : sd_csd_field) : option (Z * Z) :=
  match f with
  | CSD_STRUCTURE => Some (127, 126) | F_TAAC => Some (119, 112) | F_NSAC => Some (111, 104) | TRAN_SPEED => Some (103, 96)
  | CCC => Some (95, 84) | READ_BL_LEN => Some (83, 80) | READ_BL_PARTIAL => Some (79, 79) | WRITE_BLK_MISALIGN => Some (78, 78)
  | READ_BLK_MISALIGN => Some (77, 77) | DSR_IMP => Some (76, 76) | ERASE_BLK_EN => Some (46, 46) | SECTOR_SIZE => Some (45, 39)
  | WP_GRP_SIZE => Some (38, 32) | WP_GRP_ENABLE => Some (31, 31) | R2W_FACTOR => Some (28, 26) | WRITE_BL_LEN => Some (25, 22)
  | WRITE_BL_PARTIAL => Some (21, 21) | FILE_FORMAT_GRP => Some (15, 15) | COPY => Some (14, 14) | PERM_WRITE_PROTECT => Some (13, 13)
  | TMP_WRITE_PROTECT => Some (12, 12) | FILE_FORMAT => Some (11, 10) | F_CRC => Some (7, 1)
  | _ => None
  end.
Definition sd_version1 (f : sd_csd_field) : option (Z * Z) :=
  match f with
  | C_SIZE => Some (73, 62) | VDD_R_CURR_MIN => Some (61, 59) | VDD_R_CURR_MAX => Some (58, 56) | VDD_W_CURR_MIN => Some (55, 53)
  | VDD_W_CURR_MAX => Some (52, 50) | C_SIZE_MULT => Some (49, 47) | _ => sd_common f
  end.
Definition sd_version2 (f : sd_csd_field) : option (Z * Z) := match f with C_SIZE => Some (69, 48) | _ => sd_common f end.
Definition sd_field (version : Z) (f : sd_csd_field) : option (Z * Z) :=
  if version =? 0 then sd_version1 f else if version =? 1 then sd_version2 f else None.
Definition sd_value (r : Z) (f : sd_csd_field) : Z :=
  match sd_field (slice 127 126 r) f with Some (hi, lo) => slice hi lo r | None => 0 end.
(** The member of the structure that is named after the field; three fields have none.
    [WrProtectGrSize] is not the member of [WP_GRP_SIZE]: with [EraseGrSize] and
    [EraseGrMul] it follows the layout of a MultiMediaCard. *)
Definition csd_member (f : sd_csd_field) : option (spisd_csd_t → Z) :=
  match f with
  | CSD_STRUCTURE => Some CSDStruct | F_TAAC => Some TAAC | F_NSAC => Some NSAC | TRAN_SPEED => Some MaxBusClkFrec
  | CCC => Some CardComdClasses | READ_BL_LEN => Some RdBlockLen | READ_BL_PARTIAL => Some PartBlockRead
  | WRITE_BLK_MISALIGN => Some WrBlockMisalign | READ_BLK_MISALIGN => Some RdBlockMisalign | DSR_IMP => Some DSRImpl
  | C_SIZE => Some DeviceSize | VDD_R_CURR_MIN => Some MaxRdCurrentVDDMin | VDD_R_CURR_MAX => Some MaxRdCurrentVDDMax
  | VDD_W_CURR_MIN => Some MaxWrCurrentVDDMin | VDD_W_CURR_MAX => Some MaxWrCurrentVDDMax | C_SIZE_MULT => Some DeviceSizeMul
  | WP_GRP_ENABLE => Some WrProtectGrEnable | R2W_FACTOR => Some WrSpeedFact | WRITE_BL_LEN => Some MaxWrBlockLen
  | WRITE_BL_PARTIAL => Some WriteBlockPaPartial | FILE_FORMAT_GRP => Some FileFormatGrouop | COPY => Some CopyFlag
  | PERM_WRITE_PROTECT => Some PermWrProtect | TMP_WRITE_PROTECT => Some TempWrProtect | FILE_FORMAT => Some FileFormat | F_CRC => Some CSD_CRC
  | ERASE_BLK_EN | SECTOR_SIZE | WP_GRP_SIZE => None
  end.
(** What the masks and shifts of the code select *)
Definition csd_slices (r : Z) : spisd_csd_t :=
  Csd (slice 127 126 r) (slice 125 122 r) (slice 121 120 r) (slice 119 112 r) (slice 111 104 r)
    (slice 103 96 r) (slice 95 84 r) (slice 83 80 r) (slice 79 79 r) (slice 78 78 r) (slice 77 77 r)
    (slice 76 76 r) 0
    (if slice 127 126 r =? 0 then slice 73 62 r else slice 69 48 r)
    (slice 61 59 r) (slice 58 56 r) (slice 55 53 r) (slice 52 50 r) (slice 49 47 r) (slice 46 42 r)
    (slice 41 37 r) (slice 36 32 r) (slice 31 31 r) (slice 30 29 r) (slice 28 26 r) (slice 25 22 r)
    (slice 21 21 r) 0 (slice 16 16 r) (slice 15 15 r) (slice 14 14 r) (slice 13 13 r) (slice 12 12 r)
    (slice 11 10 r) (slice 9 8 r) (slice 7 1 r) 1.

Lemma bits_up_low i k s : 0 < k → bits_up t i (Z.ones k) s = Z.shiftl (wrap k (t !!! i)) s.
Proof. intros. unfold bits_up. by rewrite land_ones_wrap by lia. Qed.
Lemma two_parts hi mid lo r a b :
  0 ≤ lo ≤ mid → mid ≤ hi → a = slice hi mid r → b = slice (mid - 1) lo r →
  Z.lor (Z.shiftl a (mid - lo)) b = slice hi lo r.
Proof. intros ? ? -> ->. symmetry. by apply slice_app. Qed.
Lemma wrap_slice w hi lo r : 0 ≤ hi - lo + 1 ≤ w → wrap w (slice hi lo r) = slice hi lo r.
Proof.
  intros. pose proof (slice_range hi lo r ltac:(lia)).
  assert (2 ^ (hi - lo + 1) ≤ 2 ^ w) by (apply Z.pow_le_mono_r; lia). apply wrap_id. lia.
Qed.

Lemma field_CardComdClasses :
  u16 (Z.lor (u16 (Z.shiftl (t !!! 4%nat) 4)) (bits_of t 5 0xF0 4)) = slice 95 84 (register t).
Proof.
  rewrite (wrap_id 16 (Z.shiftl _ _)).
  2: { pose proof (byte_range 4). rewrite Z.shiftl_mul_pow2 by lia. lia. }
  rewrite <-(wrap_slice 16 95 84) by lia. f_equal. apply (two_parts 95 88 84); try lia.
  - apply (field_whole 4); lia.
  - apply (field_byte 5 4 4); lia.
Qed.
Lemma field_small i j hi mid lo k1 s2 k2 :
  hi - mid + 1 = k1 → mid - lo = k2 → 0 < k1 → 0 < k2 → 0 ≤ lo → k1 + k2 ≤ 8 → s2 + k2 = 8 → 0 ≤ s2 →
  (i < 16)%nat → (j < 16)%nat → mid = 8 * (15 - Z.of_nat i) → lo = 8 * (15 - Z.of_nat j) + s2 →
  u8 (Z.lor (bits_up t i (Z.ones k1) k2) (bits_of t j (Z.shiftl (Z.ones k2) s2) s2)) = slice hi lo (register t).
Proof.
  intros. subst k1 k2. rewrite bits_up_low by lia. rewrite <-(wrap_slice 8 hi lo) by lia. f_equal.
  apply two_parts; [lia..| |].
  - rewrite <-land_ones_wrap, field_low by lia. f_equal; lia.
  - rewrite field_byte by lia. f_equal; lia.
Qed.
Lemma field_size1 :
  Z.lor (Z.lor (bits_up t 6 0x03 10) (Z.shiftl (t !!! 7%nat) 2)) (bits_of t 8 0xC0 6) = slice 73 62 (register t).
Proof.
  rewrite <-Z.lor_assoc. apply (two_parts 73 72 62); try lia.
  - apply (field_low 6 2); lia.
  - apply (two_parts 71 64 62); try lia; [apply (field_whole 7); lia|apply (field_byte 8 6 2); lia].
Qed.
Lemma field_size2 :
  u32 (Z.shiftl (Z.land (t !!! 7%nat) 63) 16 + Z.shiftl (t !!! 8%nat) 8 + t !!! 9%nat) = slice 69 48 (register t).
Proof.
  assert (Z.land (t !!! 7%nat) 63 = slice 69 64 (register t)) as -> by (apply (field_low 7 6); lia).
  assert (t !!! 8%nat = slice 63 56 (register t)) as -> by (apply (field_whole 8); lia).
  assert (t !!! 9%nat = slice 55 48 (register t)) as -> by (apply (field_whole 9); lia).
  pose proof (slice_range 69 64 (register t) ltac:(lia)). pose proof (slice_range 63 56 (register t) ltac:(lia)).
  pose proof (slice_range 55 48 (register t) ltac:(lia)).
  change (69 - 64 + 1) with 6 in *. change (63 - 56 + 1) with 8 in *. change (55 - 48 + 1) with 8 in *.
  rewrite !Z.shiftl_mul_pow2 by lia. rewrite wrap_id by lia.
  unfold slice in *. unfold wrap in *. rewrite !Z.shiftr_div_pow2 in * by lia.
  change (69 - 64 + 1) with 6 in *. change (63 - 56 + 1) with 8 in *. change (55 - 48 + 1) with 8 in *.
  change (69 - 48 + 1) with 22.
  change (2 ^ 64) with (2 ^ 48 * 2 ^ 16). change (2 ^ 56) with (2 ^ 48 * 2 ^ 8).
  rewrite <-!Z.div_div by lia. set (q := register t / 2 ^ 48). clearbody q.
  change (2 ^ 22) with (2 ^ 8 * (2 ^ 8 * 2 ^ 6)). rewrite (Z.rem_mul_r q (2 ^ 8)) by lia.
  rewrite (Z.rem_mul_r (q / 2 ^ 8) (2 ^ 8)) by lia. rewrite Z.div_div by lia.
  change (2 ^ 8 * 2 ^ 8) with (2 ^ 16). lia.
Qed.

Ltac field_bits :=
  match goal with
  | |- bits_of t ?i _ ?s = slice ?hi ?lo _ =>
      let k := eval vm_compute in (hi - lo + 1) in apply (field_byte i s k); lia
  end.
Lemma parse_csd_slices : parse_csd t = csd_slices (register t).
Proof.
  unfold parse_csd, csd_slices. cbv zeta. rewrite field_CardComdClasses, field_size1, field_size2.
  assert (bits_of t 0 0xC0 6 = slice 127 126 (register t)) as -> by (apply (field_byte 0 6 2); lia).
  f_equal; try done; try (apply field_whole; lia);
    first [apply (field_low 0 2); lia | apply (field_low 5 4); lia | apply (field_low 8 3); lia
      | apply (field_low 11 5); lia | apply (field_low 13 1); lia | apply (field_low 14 2); lia
      | field_bits
      | apply (field_small 9 10 49 48 47 2 7 1); lia
      | apply (field_small 10 11 41 40 37 2 5 3); lia
      | apply (field_small 12 13 25 24 22 2 6 2); lia].
Qed.
(** The write protection group size of an SD card is two bits longer than what the code
    stores as [WrProtectGrSize]. *)
Lemma wp_grp_size_cut : WrProtectGrSize (parse_csd t) = wrap 5 (slice 38 32 (register t)).
Proof.
  rewrite parse_csd_slices. cbn [WrProtectGrSize csd_slices]. unfold slice. change (36 - 32 + 1) with 5. change (38 - 32 + 1) with 7.
  unfold wrap. change (2 ^ 7) with (2 ^ 5 * 2 ^ 2). rewrite Z.rem_mul_r by lia. rewrite Z.mul_comm, Z.mod_add by lia. by rewrite Z.mod_mod.
Qed.

(** C18: decoding the CSD of an SD card, against the tables of the SD specification for
    both versions of the register: every field that the structure has a member for is the
    slice of bits where the specification puts it; the capacity is the specification's,
    [(C_SIZE + 1) * 2^(C_SIZE_MULT + 2)] blocks of [2^READ_BL_LEN] bytes in version 1, but
    modulo 2^32 (so a card of 4 GiB reads as zero), and [C_SIZE + 1] times 512 KiB in version 2,
    where the block length is fixed to 512 bytes. *)
Theorem parse_csd_spec :
  let r := register t in
  (∀ f hi lo m, sd_field (slice 127 126 r) f = Some (hi, lo) → csd_member f = Some m → m (parse_csd t) = slice hi lo r) ∧
  (slice 127 126 r = 0 → csd_block_size (parse_csd t) = 2 ^ sd_value r READ_BL_LEN ∧
    csd_capacity (parse_csd t) = wrap 32 ((sd_value r C_SIZE + 1) * 2 ^ (sd_value r C_SIZE_MULT + 2) * 2 ^ sd_value r READ_BL_LEN)) ∧
  (slice 127 126 r = 1 → sd_value r READ_BL_LEN = 9 → csd_block_size (parse_csd t) = 512 ∧
    csd_capacity (parse_csd t) = (sd_value r C_SIZE + 1) * (512 * 1024)).
Proof.
  cbv zeta. rewrite parse_csd_slices. set (r := register t).
  split; [|split].
  - intros f hi lo m Hf Hm. unfold sd_field in Hf. destruct (slice 127 126 r =? 0) eqn:E0; [|destruct (slice 127 126 r =? 1); [|done]];
      destruct f; cbn in Hf, Hm; try done; injection Hf as <- <-; injection Hm as <-; cbn [csd_slices CSDStruct TAAC NSAC MaxBusClkFrec
        CardComdClasses RdBlockLen PartBlockRead WrBlockMisalign RdBlockMisalign DSRImpl DeviceSize MaxRdCurrentVDDMin MaxRdCurrentVDDMax
        MaxWrCurrentVDDMin MaxWrCurrentVDDMax DeviceSizeMul WrProtectGrEnable WrSpeedFact MaxWrBlockLen WriteBlockPaPartial FileFormatGrouop
        CopyFlag PermWrProtect TempWrProtect FileFormat CSD_CRC]; rewrite ?E0; done.
  - intros E0. unfold sd_value, sd_field. rewrite E0. cbn [Z.eqb sd_version1 sd_common]. unfold csd_block_size, csd_capacity.
    cbn [csd_slices CSDStruct RdBlockLen DeviceSize DeviceSizeMul]. rewrite E0. cbn [Z.eqb].
    pose proof (slice_range 83 80 r ltac:(lia)). pose proof (slice_range 73 62 r ltac:(lia)). pose proof (slice_range 49 47 r ltac:(lia)).
    change (83 - 80 + 1) with 4 in *. change (73 - 62 + 1) with 12 in *. change (49 - 47 + 1) with 3 in *. split.
    + rewrite Z.shiftl_1_l. apply wrap_id. split; [lia|]. apply Z.pow_lt_mono_r; lia.
    + rewrite (wrap_id 32 (_ + 1)), Z.shiftl_mul_pow2 by lia. f_equal. rewrite <-Z.mul_assoc, <-Z.pow_add_r by lia. do 2 f_equal. lia.
  - intros E1 E9. unfold sd_value, sd_field in *. rewrite E1 in *. cbn [Z.eqb Pos.eqb sd_version2 sd_common] in *. unfold csd_block_size, csd_capacity, csd_block_size.
    cbn [csd_slices CSDStruct RdBlockLen DeviceSize]. rewrite E1, E9. change (1 =? 0) with false. cbn iota.
    pose proof (slice_range 69 48 r ltac:(lia)). change (69 - 48 + 1) with 22 in *. split; [done|].
    rewrite (wrap_id 32 (_ + 1)) by lia. change (u32 (Z.shiftl 1 9)) with 512. rewrite wrap_id by lia. lia.
Qed.
End register.

(** ** Start-up cases *)
Section startup.
Context {D : Type} (io : spisd_interface_t D).
(** A reset that succeeds on the last of the fifty tries counts as a timeout. *)
Lemma reset_loop_last_try s :
  reset_loop io 1 s = (send_command io CMD0 0 0x95 ≫= λ response, mret (response, O)) s.
Proof. done. Qed.
(** A version 2 card that does not echo the voltage pattern is accepted, with the card type
    and the bus speed left as they were. *)
Lemma init_v2_voltage_mismatch buff s :
  (buff !!! 2%nat =? 0x01) && (buff !!! 3%nat =? 0xAA) = false → init_v2 io buff s = Ok (SPISD_RESULT_OK, s).
Proof. unfold init_v2. by intros ->. Qed.
End startup.

(** ** Witnesses *)
Definition demo_ms (x : Z) : Z := x.
Definition demo_info : spisd_info_t := Info (parse_csd []) (parse_cid 0 []) 0 0 0.
Definition demo_calls : list sd_call := [ReadBlock 3; WriteBlocks 7 (replicate 1024 0) 2; CardInfo demo_info].
Lemma spisd_calls_release_witness :
  returns_in (bus_ready (io:=Script.io)) (line Script.io Script.tick 1 (eq false))
    (session Script.io Script.tick demo_ms 501 1 2 3 4 demo_calls).
Proof.
  apply (spisd_calls_release Script.io Script.tick demo_ms 1 ltac:(done) 501 ltac:(done)
    1 2 3 4 demo_info demo_calls ReadEnd I).
  by repeat (apply Forall_cons; split).
Defined.
Lemma spisd_read_block_wire_witness :
  spisd_read_block Script.io 3
    (st CARD_TYPE_SDV2 true (0xFF :: [0xFF] ++ 0 :: [0xFF; 0xFF] ++ 0xFE :: replicate 512 0xAA ++ [1; 2; 3] ++ [4]) []) =
  Ok ((SPISD_RESULT_OK, Some (replicate 512 0xAA)),
      st CARD_TYPE_SDV2 false [4]
        (([] ++ [0xFF; 0x51; 0; 0; 6; 0; 1] ++ replicate 2 0xFF) ++ replicate (2 + 1 + 512 + 3) 0xFF)).
Proof.
  apply (spisd_read_block_wire CARD_TYPE_SDV2 3 [0xFF] 0 [0xFF; 0xFF] (replicate 512 0xAA) 1 2 0xFF 3 [4] [] true).
  - by apply Forall_singleton.
  - done.
  - done.
  - by repeat (apply Forall_cons; split).
  - done.
  - done.
Defined.
(** The CSD of a 16 GB card *)
Definition demo_csd : list Z :=
  [0x40; 0x0E; 0x00; 0x32; 0x5B; 0x59; 0x00; 0x00; 0x76; 0xB2; 0x7F; 0x80; 0x0A; 0x40; 0x40; 0xE5].
Lemma parse_csd_spec_witness : csd_capacity (parse_csd demo_csd) = 30387 * (512 * 1024) ∧ MaxBusClkFrec (parse_csd demo_csd) = 0x32.
Proof.
  assert (Forall (λ b, in_width 8 b) demo_csd) as Hb by (by repeat (apply Forall_cons; split)).
  destruct (parse_csd_spec demo_csd eq_refl Hb) as (Hf & _ & H2). split.
  - destruct (H2 ltac:(vm_compute; reflexivity) ltac:(vm_compute; reflexivity)) as [_ E]. rewrite E. vm_compute. reflexivity.
  - rewrite (Hf TRAN_SPEED 103 96 MaxBusClkFrec); [vm_compute; reflexivity|vm_compute; reflexivity|reflexivity].
Defined.
