(* ===== verification/Gpio.v ===== *)
(** * Bit accessors and GPIO (k210_utils.c, k210_gpio.c)

    The eight general-purpose pins: drive mode, input and output, over the pin
    multiplexer.  What is wired to the pins is outside: it sees each store to the
    output register and supplies the input register. *)

From S2P Require Import Prelude SysctlRegs Sysctl FpioaTable Fpioa.

(** ** k210_utils.c: the word stored back, or the value read *)
Definition set_bit (bits mask value : Z) : Z :=
  let org := Z.land bits (u32 (Z.lnot mask)) in
  Z.lor org (Z.land value mask).
Definition set_bit_offset (bits mask offset value : Z) : Z :=
  set_bit bits (u32 (Z.shiftl mask offset)) (u32 (Z.shiftl value offset)).
Definition set_gpio_bit (bits offset value : Z) : Z := set_bit_offset bits 1 offset value.
Definition get_bit (bits mask offset : Z) : Z :=
  Z.shiftr (Z.land bits (u32 (Z.shiftl mask offset))) offset.
Definition get_gpio_bit (bits offset : Z) : Z := get_bit bits 1 offset.
Definition is_memory_cache (address : Z) : bool :=
  (0x80000000 <=? address) && (address <? 0x80000000 + 6 * 1024 * 1024).

(** The accessors are the one-bit field operations. *)
Lemma bit_wf offset : 0 ≤ offset < 32 → bf_wf 32 (BF offset 1).
Proof. unfold bf_wf. cbn. lia. Qed.
Lemma set_gpio_bit_field bits offset value :
  in_width 32 bits → 0 ≤ offset < 32 → set_gpio_bit bits offset value = bf_set (BF offset 1) value bits.
Proof.
  intros Hb Ho. apply Z.bits_inj'. intros i Hi.
  rewrite (bf_set_testbit 32) by (lia || (apply bit_wf; lia)). cbn [bf_off bf_width].
  unfold set_gpio_bit, set_bit_offset, set_bit.
  rewrite Z.lor_spec, !Z.land_spec, !wrap_testbit, Z.lnot_spec, wrap_testbit, shiftl_1_testbit, Z.shiftl_spec by lia.
  destruct (decide (offset ≤ i < offset + 1)).
  - replace i with offset by lia. rewrite !bool_decide_eq_true_2 by lia.
    by rewrite andb_false_r, andb_true_r.
  - rewrite (bool_decide_eq_false_2 (offset = i)), !andb_false_r, orb_false_r by lia. cbn [negb].
    case_bool_decide; [by rewrite !andb_true_r|]. by rewrite (testbit_above 32 bits i) by (done || lia).
Qed.
Lemma get_gpio_bit_field bits offset :
  0 ≤ offset < 32 → get_gpio_bit bits offset = bf_get (BF offset 1) bits.
Proof.
  intros Ho. apply Z.bits_inj'. intros i Hi.
  rewrite (bf_get_testbit 32) by (lia || (apply bit_wf; lia)). cbn [bf_off bf_width].
  unfold get_gpio_bit, get_bit. rewrite Z.shiftr_spec, Z.land_spec, wrap_testbit, shiftl_1_testbit by lia.
  case_bool_decide; [|rewrite (bool_decide_eq_false_2 (i < 1)), andb_false_r by lia; done].
  destruct (decide (i = 0)) as [->|].
  - rewrite !bool_decide_eq_true_2 by lia. by rewrite andb_true_r.
  - rewrite !bool_decide_eq_false_2 by lia. by rewrite andb_false_r.
Qed.
Lemma set_gpio_bit_range bits offset value :
  in_width 32 bits → 0 ≤ offset < 32 → in_width 32 (set_gpio_bit bits offset value).
Proof. intros. rewrite set_gpio_bit_field by done. apply bf_set_range; [apply bit_wf; lia|done]. Qed.
Lemma set_gpio_bit_testbit bits offset value i :
  in_width 32 bits → 0 ≤ offset < 32 → 0 ≤ i →
  Z.testbit (set_gpio_bit bits offset value) i = if decide (i = offset) then Z.odd value else Z.testbit bits i.
Proof.
  intros. rewrite set_gpio_bit_field, (bf_set_testbit 32) by (lia || (apply bit_wf; lia)). cbn [bf_off bf_width].
  repeat case_decide; try lia; [|done]. subst. by rewrite Z.sub_diag, Z.bit0_odd.
Qed.
Lemma get_gpio_bit_testbit bits offset :
  0 ≤ offset < 32 → get_gpio_bit bits offset = Z.b2z (Z.testbit bits offset).
Proof.
  intros. rewrite get_gpio_bit_field by done. unfold bf_get. cbn [bf_off bf_width]. unfold wrap.
  rewrite Z.pow_1_r, <-Z.bit0_mod, Z.shiftr_spec by lia. done.
Qed.

(** ** The GPIO block *)
Inductive gpio_reg : Set :=
| GPIO_DATA_OUTPUT | GPIO_DIRECTION | GPIO_SOURCE | GPIO_INTERRUPT_ENABLE | GPIO_INTERRUPT_MASK
| GPIO_INTERRUPT_LEVEL | GPIO_INTERRUPT_POLARITY | GPIO_INTERRUPT_STATUS | GPIO_INTERRUPT_STATUS_RAW
| GPIO_INTERRUPT_DEBOUNCE | GPIO_INTERRUPT_CLEAR | GPIO_SYNC_LEVEL | GPIO_ID_CODE
| GPIO_INTERRUPT_BOTHEDGE.
#[export] Instance gpio_reg_eq_dec : EqDecision gpio_reg.
Proof. solve_decision. Defined.

Definition GPIO_MAX_PINNO : Z := 8.
Definition GPIO_DM_INPUT : Z := 0.
Definition GPIO_DM_INPUT_PULL_DOWN : Z := 1.
Definition GPIO_DM_INPUT_PULL_UP : Z := 2.
Definition GPIO_DM_OUTPUT : Z := 3.
Definition GPIO_PV_LOW : Z := 0.
Definition GPIO_PV_HIGH : Z := 1.

(** The [switch] of both drivers: pull and direction *)
Definition drive_mode (mode : Z) : option (Z * Z) :=
  if mode =? GPIO_DM_INPUT then Some (FPIOA_PULL_NONE, 0)
  else if mode =? GPIO_DM_INPUT_PULL_DOWN then Some (FPIOA_PULL_DOWN, 0)
  else if mode =? GPIO_DM_INPUT_PULL_UP then Some (FPIOA_PULL_UP, 0)
  else if mode =? GPIO_DM_OUTPUT then Some (FPIOA_PULL_DOWN, 1)
  else None.

(** The registers, the multiplexer, and what is outside *)
Record gpio_drv (W : Type) := GpioDrv { gpio : bank gpio_reg; pads : fpioa_t; outside : W }.
Arguments GpioDrv {W}.
Arguments gpio {W}.
Arguments pads {W}.
Arguments outside {W}.

Definition gpio_init (sysctl : bank sysctl_reg) : Z * bank sysctl_reg :=
  sysctl_clock_enable (sysctl_clock_to_Z SYSCTL_CLOCK_GPIO) sysctl.

Section gpio.
Context {W : Type} (hw_out : Z → W → W) (hw_in : W → Z).
Abbreviation M := (Prelude.M (gpio_drv W)).

Definition out_write (v : Z) (d : gpio_drv W) : gpio_drv W :=
  GpioDrv (<[GPIO_DATA_OUTPUT := v]> d.(gpio)) d.(pads) (hw_out v d.(outside)).
Definition set_direction (v : Z) (d : gpio_drv W) : gpio_drv W :=
  GpioDrv (<[GPIO_DIRECTION := v]> d.(gpio)) d.(pads) d.(outside).
Definition set_pads (p : fpioa_t) (d : gpio_drv W) : gpio_drv W := GpioDrv d.(gpio) p d.(outside).
(** [pin] is a [uint8_t]. *)
Definition gpio_set_drive_mode (pin mode : Z) : M unit :=
  _ ← c_assert (pin <? GPIO_MAX_PINNO);
  io_number ← gets (λ d, fpioa_get_io_by_function (FUNC_GPIO0 + pin) d.(pads));
  _ ← c_assert (0 <=? io_number);
  match drive_mode mode with
  | None => c_fail FAssert
  | Some (pull, dir) =>
      _ ← modify (λ d, set_pads (snd (fpioa_set_io_pull io_number pull d.(pads))) d);
      modify (λ d, set_direction (set_gpio_bit (d.(gpio) GPIO_DIRECTION) pin dir) d)
  end.
Definition gpio_get_pin (pin : Z) : M Z :=
  _ ← c_assert (pin <? GPIO_MAX_PINNO);
  dir ← gets (λ d, get_gpio_bit (d.(gpio) GPIO_DIRECTION) pin);
  gets (λ d, get_gpio_bit (if dir =? 0 then hw_in d.(outside) else d.(gpio) GPIO_DATA_OUTPUT) pin).
Definition gpio_set_pin (pin value : Z) : M unit :=
  _ ← c_assert (pin <? GPIO_MAX_PINNO);
  dir ← gets (λ d, get_gpio_bit (d.(gpio) GPIO_DIRECTION) pin);
  _ ← c_assert (dir =? 1);
  modify (λ d, out_write (set_gpio_bit (d.(gpio) GPIO_DATA_OUTPUT) pin value) d).
End gpio.

(** ** Lemmas *)
Section spec.
Context {W : Type} (hw_out : Z → W → W) (hw_in : W → Z).
Implicit Types d : gpio_drv W.

(** The pin is an output. *)
Definition is_output (pin : Z) d : bool := Z.testbit (d.(gpio) GPIO_DIRECTION) pin.

Lemma gpio_set_pin_spec pin value d :
  0 ≤ pin < GPIO_MAX_PINNO →
  gpio_set_pin hw_out pin value d =
  if is_output pin d
  then Ok (tt, out_write hw_out (set_gpio_bit (d.(gpio) GPIO_DATA_OUTPUT) pin value) d)
  else Fault FAssert.
Proof.
  intros Hp. unfold gpio_set_pin, is_output, mbind, M_bind, c_assert, gets.
  rewrite (proj2 (Z.ltb_lt pin GPIO_MAX_PINNO)) by lia. unfold GPIO_MAX_PINNO in Hp.
  rewrite get_gpio_bit_testbit by lia.
  by destruct (Z.testbit (d.(gpio) GPIO_DIRECTION) pin).
Qed.

(** An output pin reads back what was driven, an input pin what is outside. *)
Lemma gpio_get_pin_spec pin d :
  0 ≤ pin < GPIO_MAX_PINNO →
  gpio_get_pin hw_in pin d =
  Ok (Z.b2z (Z.testbit (if is_output pin d then d.(gpio) GPIO_DATA_OUTPUT else hw_in d.(outside)) pin), d).
Proof.
  intros Hp. unfold gpio_get_pin, is_output, mbind, M_bind, c_assert, gets.
  rewrite (proj2 (Z.ltb_lt pin GPIO_MAX_PINNO)) by lia. unfold GPIO_MAX_PINNO in Hp.
  rewrite !get_gpio_bit_testbit by lia.
  by destruct (Z.testbit (d.(gpio) GPIO_DIRECTION) pin).
Qed.

Lemma gpio_set_drive_mode_spec pin mode d d' :
  0 ≤ pin → bank_ok d.(gpio) →
  gpio_set_drive_mode pin mode d = Ok (tt, d') →
  pin < GPIO_MAX_PINNO ∧ is_output pin d' = (mode =? GPIO_DM_OUTPUT) ∧
  (∀ p, 0 ≤ p → p ≠ pin → is_output p d' = is_output p d) ∧
  (∀ r, r ≠ GPIO_DIRECTION → d'.(gpio) r = d.(gpio) r) ∧ d'.(outside) = d.(outside) ∧ bank_ok d'.(gpio).
Proof.
  intros Hp Hok. unfold gpio_set_drive_mode, mbind, M_bind. cbn [c_assert gets].
  destruct (Z.ltb_spec pin GPIO_MAX_PINNO) as [Hlt|]; [|done]. unfold GPIO_MAX_PINNO in Hlt. cbn [c_assert gets].
  destruct (0 <=? _); [|done]. unfold drive_mode.
  repeat match goal with |- context [if ?m =? ?k then _ else _] => destruct (Z.eqb_spec m k) end; try done;
    intros [= <-]; cbn [gpio outside set_direction set_pads is_output]; unfold is_output;
    cbn [gpio set_direction set_pads];
    (split; [exact Hlt|split; [|split; [|split; [|split; [done|]]]]]);
    rewrite ?fn_lookup_insert.
  all: try (intros p ? Hne); try (intros; by rewrite fn_lookup_insert_ne by done);
    try (apply bank_ok_insert; [done|]; apply set_gpio_bit_range; [apply Hok|lia]).
  all: rewrite ?fn_lookup_insert; rewrite set_gpio_bit_testbit by (lia || apply Hok).
  all: repeat case_decide; try done; subst; try reflexivity.
Qed.
End spec.

(** ** The hardware layer of the multiplexer (k210-hal-fpioa.c)

    The static table [_k210_pin_func_map] next to the multiplexer; [pin] is a
    [uint8_t]. *)
Definition K210_IO_NUMS : Z := 48.
Record hal_pads := HalPads { k210_pin_func_map : Z → Z; mux : fpioa_t }.
Definition hal_fpioa_init (h : hal_pads) : hal_pads :=
  HalPads (for_range 0 K210_IO_NUMS (λ i m, <[i := FUNC_MAX]> m) h.(k210_pin_func_map)) h.(mux).
Definition hal_fpioa_set_pin_func (pin func : Z) (h : hal_pads) : hal_pads :=
  if pin <? K210_IO_NUMS
  then HalPads (<[pin := func]> h.(k210_pin_func_map)) (snd (fpioa_set_function pin func h.(mux)))
  else h.
Definition hal_fpioa_get_pin_func (pin : Z) (h : hal_pads) : Z :=
  if pin <? K210_IO_NUMS then h.(k210_pin_func_map) pin else FUNC_MAX.
Definition hal_fpioa_clr_pin_func (pin : Z) (h : hal_pads) : hal_pads :=
  if pin <? K210_IO_NUMS then HalPads (<[pin := FUNC_MAX]> h.(k210_pin_func_map)) h.(mux) else h.

(** After the call the function is on the pin and on no other. *)
Lemma hal_set_pin_ch_sel pin func h i :
  0 ≤ pin < K210_IO_NUMS → 0 ≤ func < FUNC_MAX → 0 ≤ i < K210_IO_NUMS →
  ch_sel (hal_fpioa_set_pin_func pin func h).(mux) i =
  if decide (i = pin) then func
  else if decide (func ≠ FUNC_RESV0 ∧ ch_sel h.(mux) i = func) then FUNC_RESV0 else ch_sel h.(mux) i.
Proof.
  intros Hp Hf Hi. unfold hal_fpioa_set_pin_func. rewrite (proj2 (Z.ltb_lt _ _)) by lia. cbn [mux].
  by apply set_function_ch_sel.
Qed.
(** A function that is on some pin is found. *)
Lemma get_io_found s i func :
  0 ≤ i < FPIOA_NUM_IO → ch_sel s i = func → 0 ≤ fpioa_get_io_by_function func s < FPIOA_NUM_IO.
Proof.
  intros Hi Hs. unfold fpioa_get_io_by_function.
  destruct (find_io_spec (Z.to_nat FPIOA_NUM_IO) 0 func s) as [[_ Hn]|[Hr _]].
  - by destruct (Hn i ltac:(unfold FPIOA_NUM_IO in *; lia)).
  - unfold FPIOA_NUM_IO in *. lia.
Qed.
(** Pulls do not move functions. *)
Lemma set_io_pull_ch_sel number pull s i : ch_sel (snd (fpioa_set_io_pull number pull s)) i = ch_sel s i.
Proof.
  unfold fpioa_set_io_pull. destruct (_ || _); [done|]. cbn [snd]. rewrite ch_sel_insert. case_decide; [|done].
  subst. unfold ch_sel. repeat case_match; rewrite ?(bf_get_set_ne 32) by field_dec; done.
Qed.
(** With its function on some pin and a mode of the enumeration the call
    returns. *)
Lemma gpio_set_drive_mode_returns {W} pin mode (d : gpio_drv W) i :
  0 ≤ pin < GPIO_MAX_PINNO → 0 ≤ mode ≤ GPIO_DM_OUTPUT →
  0 ≤ i < FPIOA_NUM_IO → ch_sel d.(pads) i = FUNC_GPIO0 + pin →
  ∃ d', gpio_set_drive_mode pin mode d = Ok (tt, d') ∧ ∀ j, ch_sel d'.(pads) j = ch_sel d.(pads) j.
Proof.
  intros Hp Hm Hi Hs. unfold gpio_set_drive_mode, mbind, M_bind, c_assert, gets.
  rewrite (proj2 (Z.ltb_lt _ _)) by lia.
  rewrite (proj2 (Z.leb_le _ _)) by (by apply (get_io_found d.(pads) i)).
  unfold GPIO_DM_OUTPUT in Hm.
  assert (∃ pd, drive_mode mode = Some pd) as [[pull dir] ->].
  { unfold drive_mode, GPIO_DM_INPUT, GPIO_DM_INPUT_PULL_DOWN, GPIO_DM_INPUT_PULL_UP, GPIO_DM_OUTPUT.
    destruct (Z.eqb_spec mode 0), (Z.eqb_spec mode 1), (Z.eqb_spec mode 2), (Z.eqb_spec mode 3);
      try lia; by eexists. }
  eexists. split; [done|]. intros j. cbn [pads set_direction set_pads]. apply set_io_pull_ch_sel.
Qed.
