(* ===== verification/SoftSpi.v ===== *)
(** * Bit-banged SPI and the SD card bus (k210-hal-soft-spi.c, components/sdcard/sdcard_spi.c)

    Transfers on three GPIO pins and the bus functions the SD card driver is
    given.  The slave is whatever is wired to the pins; it sees the edges of
    the clock. *)

From S2P Require Import Prelude SysctlRegs Sysctl FpioaTable Fpioa Gpio Sdcard.

Definition SOFT_SPI_CPHA : Z := Z.shiftl 1 0.
Definition SOFT_SPI_CPOL : Z := Z.shiftl 1 1.
Definition SOFT_SPI_MSB : Z := Z.shiftl 1 2.
Definition SOFT_SPI_MODE_3 : Z := Z.lor SOFT_SPI_CPOL SOFT_SPI_CPHA.
Definition soft_spi_mode : Z := Z.lor SOFT_SPI_MODE_3 SOFT_SPI_MSB.
Definition SOFT_SPI_SCLK_GPIO_FUNC : Z := 1.
Definition SOFT_SPI_MISO_GPIO_FUNC : Z := 2.
Definition SOFT_SPI_MOSI_GPIO_FUNC : Z := 3.
Definition SOFT_SPI_CSXX_GPIO_FUNC : Z := 4.
Definition mode_has (flag : Z) : bool := negb (Z.land soft_spi_mode flag =? 0).

(** The static [_soft_spi_sclk_sts], the GPIO block, the pin table of the
    multiplexer's hardware layer, and which transfer [_spi_transfer] points to *)
Record soft_spi (W : Type) := SoftSpi {
  soft_spi_sclk_sts : Z;
  gpio_block : gpio_drv W;
  pin_func_map : Z → Z;
  spi_transfer_fast : bool
}.
Arguments SoftSpi {W}.
Arguments soft_spi_sclk_sts {W}.
Arguments gpio_block {W}.
Arguments pin_func_map {W}.
Arguments spi_transfer_fast {W}.

Section soft_spi.
Context {W : Type} (hw_out : Z → W → W) (hw_in : W → Z).
(** Delays: [k210_usleep(us)], and the four [nop]s *)
Context (k210_usleep : Z → W → W) (nops : W → W).
Abbreviation St := (soft_spi W).
Abbreviation M := (Prelude.M St).

Definition set_sts (v : Z) (s : St) : St := SoftSpi v s.(gpio_block) s.(pin_func_map) s.(spi_transfer_fast).
Definition on_gpio (f : gpio_drv W → gpio_drv W) (s : St) : St :=
  SoftSpi s.(soft_spi_sclk_sts) (f s.(gpio_block)) s.(pin_func_map) s.(spi_transfer_fast).
Definition wait (f : W → W) : St → St :=
  on_gpio (λ d, GpioDrv d.(gpio) d.(pads) (f d.(outside))).
Definition data_output (s : St) : Z := s.(gpio_block).(gpio) GPIO_DATA_OUTPUT.
Definition GPIO_OUT_HIGH (io : Z) (s : St) : St :=
  on_gpio (out_write hw_out (Z.lor (data_output s) (Z.shiftl 1 io))) s.
Definition GPIO_OUT_LOWX (io : Z) (s : St) : St :=
  on_gpio (out_write hw_out (Z.land (data_output s) (u32 (Z.lnot (Z.shiftl 1 io))))) s.
Definition GET_GPIO_VALX (io : Z) (s : St) : Z :=
  Z.land (Z.shiftr (hw_in s.(gpio_block).(outside)) io) 1.

Definition hal_soft_spi_toggle_sclk (s : St) : St :=
  let s := if negb (s.(soft_spi_sclk_sts) =? 0) then GPIO_OUT_LOWX SOFT_SPI_SCLK_GPIO_FUNC s
           else GPIO_OUT_HIGH SOFT_SPI_SCLK_GPIO_FUNC s in
  set_sts (u32 (1 - s.(soft_spi_sclk_sts))) s.

(** The two transfers differ in their delays only: [settle] after the sampling edge,
    [hold] after the other one. *)
Section transfer.
Context (settle hold : W → W).
(** One pass of the [for] loop; [size] is what is left after this byte. *)
Definition spi_bit (size send : Z) (rs : Z * St) (i : Z) : Z * St :=
  let '(read, s) := rs in
  let msb := mode_has SOFT_SPI_MSB in
  let bit := Z.land send (Z.shiftl 1 (if msb then 7 - i else i)) in
  let read := if msb then u8 (Z.shiftl read 1) else Z.shiftr read 1 in
  let rbit := if msb then 0x01 else 0x80 in
  let s := if negb (bit =? 0) then GPIO_OUT_HIGH SOFT_SPI_MOSI_GPIO_FUNC s
           else GPIO_OUT_LOWX SOFT_SPI_MOSI_GPIO_FUNC s in
  let s := hal_soft_spi_toggle_sclk s in
  let s := wait settle s in
  let read := if negb (GET_GPIO_VALX SOFT_SPI_MISO_GPIO_FUNC s =? 0) then Z.lor read rbit
              else Z.land read (u8 (Z.lnot rbit)) in
  if negb (mode_has SOFT_SPI_CPHA) || negb (size =? 0) || (i <? 7)
  then (read, wait hold (hal_soft_spi_toggle_sclk s))
  else (read, s).
Definition spi_byte (size send : Z) (s : St) : Z * St := foldl (spi_bit size send) (0xFF, s) (seqZ 0 8).
(** The bytes received; the caller drops them when [rx_buff] is null.  A transmit
    buffer shorter than [size] is read past its end. *)
Fixpoint spi_bytes (n : nat) (tx_buff : option (list Z)) : M (list Z) :=
  match n with
  | O => mret []
  | S n =>
      '(send, tx_buff) ← match tx_buff with
                         | None => mret (0xFF, None)
                         | Some (b :: bs) => mret (b, Some bs)
                         | Some [] => c_fail FUB
                         end;
      read ← (λ s, Ok (spi_byte (Z.of_nat n) send s));
      rest ← spi_bytes n tx_buff;
      mret (read :: rest)
  end.
Definition spi_transfer (tx_buff : option (list Z)) (size : Z) : M (list Z) :=
  _ ← (if mode_has SOFT_SPI_CPHA then modify hal_soft_spi_toggle_sclk else mret tt);
  spi_bytes (Z.to_nat size) tx_buff.
End transfer.
Definition hal_soft_spi_transfer_slow : option (list Z) → Z → M (list Z) :=
  spi_transfer (k210_usleep 1) (k210_usleep 1).
Definition hal_soft_spi_transfer_fast : option (list Z) → Z → M (list Z) :=
  spi_transfer nops (λ w, w).

(** The calls into the layers below *)
Definition set_pin_func (pin func : Z) : M unit := modify (λ s,
  let h := hal_fpioa_set_pin_func (u8 pin) func (HalPads s.(pin_func_map) s.(gpio_block).(pads)) in
  SoftSpi s.(soft_spi_sclk_sts) (set_pads h.(mux) s.(gpio_block)) h.(k210_pin_func_map) s.(spi_transfer_fast)).
Definition on_block (m : Prelude.M (gpio_drv W) unit) : M unit := λ s,
  '(_, d) ← m s.(gpio_block);
  Ok (tt, SoftSpi s.(soft_spi_sclk_sts) d s.(pin_func_map) s.(spi_transfer_fast)).

Definition hal_soft_spi_init (sck miso mosi : Z) : M unit :=
  _ ← set_pin_func sck (FUNC_GPIO0 + SOFT_SPI_SCLK_GPIO_FUNC);
  _ ← set_pin_func miso (FUNC_GPIO0 + SOFT_SPI_MISO_GPIO_FUNC);
  _ ← set_pin_func mosi (FUNC_GPIO0 + SOFT_SPI_MOSI_GPIO_FUNC);
  _ ← on_block (gpio_set_drive_mode SOFT_SPI_SCLK_GPIO_FUNC GPIO_DM_OUTPUT);
  _ ← on_block (gpio_set_drive_mode SOFT_SPI_MISO_GPIO_FUNC GPIO_DM_INPUT);
  _ ← on_block (gpio_set_drive_mode SOFT_SPI_MOSI_GPIO_FUNC GPIO_DM_OUTPUT);
  if mode_has SOFT_SPI_CPOL
  then modify (λ s, GPIO_OUT_HIGH SOFT_SPI_SCLK_GPIO_FUNC (set_sts 1 s))
  else modify (λ s, GPIO_OUT_LOWX SOFT_SPI_SCLK_GPIO_FUNC (set_sts 0 s)).

(** ** The bus functions (sdcard_spi.c) *)
Definition _spi_transfer (tx_buff : option (list Z)) (size : Z) : M (list Z) := λ s,
  (if s.(spi_transfer_fast) then hal_soft_spi_transfer_fast tx_buff size
   else hal_soft_spi_transfer_slow tx_buff size) s.
Definition _soft_spi_init (sck miso mosi cs : Z) : M unit :=
  _ ← set_pin_func cs (FUNC_GPIO0 + SOFT_SPI_CSXX_GPIO_FUNC);
  _ ← on_block (gpio_set_drive_mode SOFT_SPI_CSXX_GPIO_FUNC GPIO_DM_OUTPUT);
  _ ← on_block (gpio_set_pin hw_out SOFT_SPI_CSXX_GPIO_FUNC GPIO_PV_HIGH);
  hal_soft_spi_init sck miso mosi.
Definition _soft_spi_set_speed (freq : Z) : M unit := modify (λ s,
  SoftSpi s.(soft_spi_sclk_sts) s.(gpio_block) s.(pin_func_map) (SPI_SPEED_NO_INIT_HZ <? freq)).
Definition _soft_spi_select : M unit := on_block (gpio_set_pin hw_out SOFT_SPI_CSXX_GPIO_FUNC GPIO_PV_LOW).
Definition _soft_spi_relese : M unit := on_block (gpio_set_pin hw_out SOFT_SPI_CSXX_GPIO_FUNC GPIO_PV_HIGH).
Definition _soft_spi_is_present : bool := true.
Definition _soft_spi_wr_rd_byte (byte : Z) : M Z :=
  rx ← _spi_transfer (Some [byte]) 1;
  mret (hd 0x00 rx).
Definition _soft_spi_write (buffer : list Z) : M unit :=
  _ ← _spi_transfer (Some buffer) (Z.of_nat (length buffer));
  mret tt.
Definition _soft_spi_read (size : Z) : M (list Z) := _spi_transfer None size.

Definition run {A} (m : M A) (s : St) : res St := '(_, s) ← m s; Ok s.
Definition soft_spi_interface : spisd_interface_t St :=
  Interface (λ sck miso mosi cs, run (_soft_spi_init sck miso mosi cs)) (λ f, run (_soft_spi_set_speed f))
    (run _soft_spi_select) (run _soft_spi_relese) (λ _, _soft_spi_is_present)
    _soft_spi_wr_rd_byte (λ bs, run (_soft_spi_write bs)) _soft_spi_read.
End soft_spi.

(** ** A slave on the wires

    The output word last stored and the state of the slave.  Stores reach it as
    edges of the clock, the data line going along with the rising one, and as
    changes of the chip select line (low is selected). *)
Record wire (D : Type) := Wire { pins : Z; slave : D }.
Arguments Wire {D}.
Arguments pins {D}.
Arguments slave {D}.

Section slave.
Context {D : Type} (sl_select : bool → D → D) (sl_fall : D → D) (sl_rise : bool → D → D) (sl_miso : D → bool).
Definition edges (p v : Z) (d : D) : D :=
  let d := if Bool.eqb (Z.testbit p SOFT_SPI_CSXX_GPIO_FUNC) (Z.testbit v SOFT_SPI_CSXX_GPIO_FUNC) then d
           else sl_select (negb (Z.testbit v SOFT_SPI_CSXX_GPIO_FUNC)) d in
  if Bool.eqb (Z.testbit p SOFT_SPI_SCLK_GPIO_FUNC) (Z.testbit v SOFT_SPI_SCLK_GPIO_FUNC) then d
  else if Z.testbit v SOFT_SPI_SCLK_GPIO_FUNC then sl_rise (Z.testbit v SOFT_SPI_MOSI_GPIO_FUNC) d
  else sl_fall d.
Definition wire_out (v : Z) (w : wire D) : wire D := Wire v (edges w.(pins) v w.(slave)).
Definition wire_in (w : wire D) : Z := Z.shiftl (Z.b2z (sl_miso w.(slave))) SOFT_SPI_MISO_GPIO_FUNC.
Definition on_slave (f : D → D) (w : wire D) : wire D := Wire w.(pins) (f w.(slave)).

(** The contract of a transfer in mode 3, most significant bit first: the slave sees
    one falling and one rising edge a bit and its line is sampled [settle] after the
    rising one; after the last bit the clock stays up. *)
Fixpoint shift_bits (settle hold : D → D) (last : bool) (bits : list bool) (d : D) : list bool * D :=
  match bits with
  | [] => ([], d)
  | b :: bs =>
      let d := settle (sl_rise b d) in
      let '(rs, d') := shift_bits settle hold last bs
                         (match bs with [] => if last then d else hold (sl_fall d) | _ => hold (sl_fall d) end) in
      (sl_miso d :: rs, d')
  end.
Definition byte_bits (b : Z) : list bool := (λ i, Z.testbit b (7 - i)) <$> seqZ 0 8.
Definition bits_value (bs : list bool) : Z := foldl (λ a (b : bool), 2 * a + Z.b2z b) 0 bs.
Fixpoint shift_bytes (settle hold : D → D) (tx : list Z) (d : D) : list Z * D :=
  match tx with
  | [] => ([], d)
  | b :: tx =>
      let '(rs, d) := shift_bits settle hold (match tx with [] => true | _ => false end) (byte_bits b) d in
      let '(bytes, d) := shift_bytes settle hold tx d in
      (bits_value rs :: bytes, d)
  end.
Definition exchange (settle hold : D → D) (tx : list Z) (d : D) : list Z * D :=
  shift_bytes settle hold tx (sl_fall d).

Implicit Types s : soft_spi (wire D).
(** The clock line and the driver's idea of it agree, and the slave has seen the pins. *)
Record at_clock (clk : bool) (d : D) s : Prop := {
  ac_sts : s.(soft_spi_sclk_sts) = Z.b2z clk;
  ac_range : in_width 32 (data_output s);
  ac_clk : Z.testbit (data_output s) SOFT_SPI_SCLK_GPIO_FUNC = clk;
  ac_wire : s.(gpio_block).(outside) = Wire (data_output s) d
}.
(** Nothing but the clock and the data line moved. *)
Record frame s s' : Prop := {
  fr_bits i : i ≠ SOFT_SPI_SCLK_GPIO_FUNC → i ≠ SOFT_SPI_MOSI_GPIO_FUNC →
    Z.testbit (data_output s') i = Z.testbit (data_output s) i;
  fr_regs r : r ≠ GPIO_DATA_OUTPUT → s'.(gpio_block).(gpio) r = s.(gpio_block).(gpio) r;
  fr_pads : s'.(gpio_block).(pads) = s.(gpio_block).(pads);
  fr_map : s'.(pin_func_map) = s.(pin_func_map);
  fr_fast : s'.(spi_transfer_fast) = s.(spi_transfer_fast)
}.
Lemma frame_refl s : frame s s.
Proof. by constructor. Qed.
Lemma frame_trans s1 s2 s3 : frame s1 s2 → frame s2 s3 → frame s1 s3.
Proof.
  intros [] []. constructor; [|intros; rewrite fr_regs1 by done; auto|congruence..].
  intros. rewrite fr_bits1 by done. auto.
Qed.

Definition store_bit (io : Z) (b : bool) s : soft_spi (wire D) :=
  if b then GPIO_OUT_HIGH wire_out io s else GPIO_OUT_LOWX wire_out io s.
Lemma store_bit_testbit io b s i :
  0 ≤ io → in_width 32 (data_output s) →
  Z.testbit (data_output (store_bit io b s)) i = if decide (i = io) then b else Z.testbit (data_output s) i.
Proof.
  intros Hio Hr. destruct (decide (0 ≤ i)).
  2: { rewrite !(Z.testbit_neg_r _ i) by lia. by rewrite decide_False by lia. }
  assert (data_output (store_bit io b s) =
    if b then set_bit_at io (data_output s) else clear_bit_at 32 io (data_output s)) as ->.
  { unfold store_bit. destruct b; unfold data_output, GPIO_OUT_HIGH, GPIO_OUT_LOWX, on_gpio, out_write;
      cbn [gpio_block gpio]; by rewrite fn_lookup_insert. }
  destruct b; rewrite ?set_bit_at_testbit, ?clear_bit_at_testbit by done; case_decide; subst.
  - by rewrite bool_decide_eq_true_2.
  - by rewrite bool_decide_eq_false_2.
  - by rewrite bool_decide_eq_true_2.
  - by rewrite bool_decide_eq_false_2.
Qed.
Lemma store_bit_range io b s :
  0 ≤ io < 32 → in_width 32 (data_output s) → in_width 32 (data_output (store_bit io b s)).
Proof.
  intros Hio Hr. unfold store_bit. destruct b; unfold data_output, GPIO_OUT_HIGH, GPIO_OUT_LOWX, on_gpio, out_write;
    cbn [gpio_block gpio]; rewrite fn_lookup_insert.
  - by apply set_bit_at_range.
  - by apply clear_bit_at_range.
Qed.
Lemma store_bit_wire io b s d :
  s.(gpio_block).(outside) = Wire (data_output s) d →
  (store_bit io b s).(gpio_block).(outside) =
  Wire (data_output (store_bit io b s)) (edges (data_output s) (data_output (store_bit io b s)) d).
Proof.
  intros Hw. unfold store_bit. destruct b; unfold data_output, GPIO_OUT_HIGH, GPIO_OUT_LOWX, on_gpio, out_write;
    cbn [gpio_block gpio outside]; rewrite Hw, fn_lookup_insert; done.
Qed.
Lemma store_bit_frame io b s :
  io = SOFT_SPI_SCLK_GPIO_FUNC ∨ io = SOFT_SPI_MOSI_GPIO_FUNC → in_width 32 (data_output s) →
  frame s (store_bit io b s).
Proof.
  intros Hio Hr. constructor.
  - intros i ? ?. rewrite store_bit_testbit by (done || destruct Hio; subst; done).
    rewrite decide_False by (destruct Hio; congruence). done.
  - intros r ?. unfold store_bit, GPIO_OUT_HIGH, GPIO_OUT_LOWX, on_gpio, out_write.
    destruct b; cbn [gpio_block gpio]; by rewrite fn_lookup_insert_ne by congruence.
  - by destruct b.
  - by destruct b.
  - by destruct b.
Qed.

(** Driving the data line moves no edge. *)
Lemma mosi_step clk d b s :
  at_clock clk d s →
  at_clock clk d (store_bit SOFT_SPI_MOSI_GPIO_FUNC b s) ∧
  Z.testbit (data_output (store_bit SOFT_SPI_MOSI_GPIO_FUNC b s)) SOFT_SPI_MOSI_GPIO_FUNC = b.
Proof.
  intros [Hs Hr Hc Hw]. pose proof (store_bit_testbit SOFT_SPI_MOSI_GPIO_FUNC b s) as Ht. split; [constructor|].
  - by destruct b.
  - by apply store_bit_range.
  - by rewrite Ht.
  - rewrite (store_bit_wire _ _ _ d Hw). f_equal. unfold edges. by rewrite !Ht, !eqb_reflx by done.
  - by rewrite Ht.
Qed.
(** The toggle is one edge of the clock. *)
Lemma toggle_step clk d s :
  at_clock clk d s →
  at_clock (negb clk) (if clk then sl_fall d else sl_rise (Z.testbit (data_output s) SOFT_SPI_MOSI_GPIO_FUNC) d)
    (hal_soft_spi_toggle_sclk wire_out s) ∧
  frame s (hal_soft_spi_toggle_sclk wire_out s).
Proof.
  intros [Hs Hr Hc Hw].
  assert (hal_soft_spi_toggle_sclk wire_out s =
    set_sts (Z.b2z (negb clk)) (store_bit SOFT_SPI_SCLK_GPIO_FUNC (negb clk) s)) as ->.
  { unfold hal_soft_spi_toggle_sclk, store_bit. rewrite Hs.
    destruct clk; cbn [negb Z.b2z Z.eqb]; unfold GPIO_OUT_HIGH, GPIO_OUT_LOWX, on_gpio; cbn [soft_spi_sclk_sts];
      by rewrite Hs. }
  pose proof (store_bit_testbit SOFT_SPI_SCLK_GPIO_FUNC (negb clk) s) as Ht.
  pose proof (store_bit_frame SOFT_SPI_SCLK_GPIO_FUNC (negb clk) s ltac:(by left) Hr) as Hf.
  split; [constructor|].
  - done.
  - by apply (store_bit_range SOFT_SPI_SCLK_GPIO_FUNC (negb clk) s).
  - exact (eq_trans (Ht SOFT_SPI_SCLK_GPIO_FUNC ltac:(done) Hr) eq_refl).
  - transitivity (outside (gpio_block (store_bit SOFT_SPI_SCLK_GPIO_FUNC (negb clk) s))); [done|].
    rewrite (store_bit_wire _ _ _ d Hw). change (data_output (set_sts _ ?x)) with (data_output x). f_equal.
    unfold edges. rewrite !Ht, eqb_reflx, Hc by done. by destruct clk.
  - destruct Hf. by constructor.
Qed.
(** A delay of the processor as the slave goes through it *)
Definition delays (fw : wire D → wire D) (f : D → D) : Prop := ∀ w, fw w = on_slave f w.
Lemma wait_step clk d fw f s :
  delays fw f → at_clock clk d s → at_clock clk (f d) (wait fw s) ∧ frame s (wait fw s).
Proof.
  intros Hf [Hs Hr Hc Hw]. split; constructor; try done. unfold wait, on_gpio. cbn [gpio_block outside].
  by rewrite Hf, Hw.
Qed.

Section transfers.
Context (settle_w hold_w : wire D → wire D) (settle hold : D → D).
Context (Hsettle : delays settle_w settle) (Hhold : delays hold_w hold).


(** One bit *)
Lemma spi_bit_step size send read i d s :
  0 ≤ i < 8 → at_clock false d s →
  let b := Z.testbit send (7 - i) in
  let d1 := settle (sl_rise b d) in
  let stop := (size =? 0) && (i =? 7) in
  ∃ s', spi_bit wire_out wire_in settle_w hold_w size send (read, s) i =
      (u8 (2 * read) + Z.b2z (sl_miso d1), s') ∧
    at_clock stop (if stop then d1 else hold (sl_fall d1)) s' ∧ frame s s'.
Proof.
  intros Hi Hs. cbv zeta. set (b := Z.testbit send (7 - i)). set (d1 := settle (sl_rise b d)).
  destruct (mosi_step false d b s Hs) as [H1 Hb].
  pose proof (store_bit_frame SOFT_SPI_MOSI_GPIO_FUNC b s ltac:(by right) (ac_range _ _ _ Hs)) as F1.
  set (s1 := store_bit SOFT_SPI_MOSI_GPIO_FUNC b s) in *.
  destruct (toggle_step false d s1 H1) as [H2 F2]. set (s2 := hal_soft_spi_toggle_sclk wire_out s1) in *.
  cbn [negb] in H2. rewrite Hb in H2.
  destruct (wait_step true _ settle_w settle s2 Hsettle H2) as [H3 F3]. fold d1 in H3. set (s3 := wait settle_w s2) in *.
  destruct (toggle_step true d1 s3 H3) as [H4 F4]. set (s4 := hal_soft_spi_toggle_sclk wire_out s3) in *.
  cbn [negb] in H4.
  destruct (wait_step false _ hold_w hold s4 Hhold H4) as [H5 F5]. set (s5 := wait hold_w s4) in *.
  pose proof (frame_trans _ _ _ F1 (frame_trans _ _ _ F2 F3)) as F13.
  exists (if (size =? 0) && (i =? 7) then s3 else s5). split; [|split].
  - unfold spi_bit. change (mode_has SOFT_SPI_MSB) with true. change (mode_has SOFT_SPI_CPHA) with true.
    cbv iota. cbn [negb orb].
    assert (negb (Z.land send (Z.shiftl 1 (7 - i)) =? 0) = b) as ->.
    { rewrite Z.shiftl_1_l, land_pow2_eqb by lia. by rewrite negb_involutive. }
    change (if b then GPIO_OUT_HIGH wire_out SOFT_SPI_MOSI_GPIO_FUNC s
            else GPIO_OUT_LOWX wire_out SOFT_SPI_MOSI_GPIO_FUNC s) with s1.
    fold s2. fold s3. fold s4. fold s5.
    assert (GET_GPIO_VALX wire_in SOFT_SPI_MISO_GPIO_FUNC s3 = Z.b2z (sl_miso d1)) as ->.
    { unfold GET_GPIO_VALX. rewrite (ac_wire _ _ _ H3). unfold wire_in. cbn [slave].
      rewrite Z.shiftr_shiftl_l, Z.sub_diag, Z.shiftl_0_r by done. by destruct (sl_miso d1). }
    assert ((if negb (Z.b2z (sl_miso d1) =? 0) then Z.lor (u8 (Z.shiftl read 1)) 1
             else Z.land (u8 (Z.shiftl read 1)) (u8 (Z.lnot 1))) = u8 (2 * read) + Z.b2z (sl_miso d1)) as ->.
    { rewrite Z.shiftl_mul_pow2, (Z.mul_comm read) by lia. change (2 ^ 1) with 2.
      assert (∀ x, u8 (2 * x) = 2 * (x mod 2 ^ 7)) as E8.
      { intros x. unfold wrap. change (2 ^ 8) with (2 * 2 ^ 7). by rewrite Z.mul_mod_distr_l. }
      rewrite E8. set (q := read mod 2 ^ 7). pose proof (Z.mod_pos_bound read (2 ^ 7)). fold q in H.
      destruct (sl_miso d1); cbn [Z.b2z negb Z.eqb].
      - symmetry. apply Z.add_nocarry_lor. change 1 with (Z.ones 1). rewrite Z.land_ones by done.
        by rewrite Z.mul_comm, Z.mod_mul.
      - change 1 with (2 ^ 1 - 1). rewrite (land_align 8 _ 1) by lia.
        change (2 ^ 1) with 2. rewrite (Z.mul_comm 2 q), Z.mod_mul by done. lia. }
    destruct (size =? 0), (Z.eqb_spec i 7), (Z.ltb_spec i 7); try lia; done.
  - destruct ((size =? 0) && (i =? 7)); done.
  - destruct ((size =? 0) && (i =? 7)); [done|].
    exact (frame_trans _ _ _ F13 (frame_trans _ _ _ F4 F5)).
Qed.

(** One byte *)
Lemma bits_value_snoc rs b : bits_value (rs ++ [b]) = 2 * bits_value rs + Z.b2z b.
Proof. unfold bits_value. by rewrite foldl_snoc. Qed.
Lemma bits_value_range rs : in_width (Z.of_nat (length rs)) (bits_value rs).
Proof.
  induction rs as [|b rs IH] using rev_ind; [done|].
  rewrite bits_value_snoc, length_app. cbn [length].
  replace (Z.of_nat (length rs + 1)) with (Z.succ (Z.of_nat (length rs))) by lia.
  rewrite Z.pow_succ_r by lia. destruct b; cbn [Z.b2z]; lia.
Qed.
Lemma shift_in_value read rs :
  in_width 8 read →
  foldl (λ a (b : bool), u8 (2 * a) + Z.b2z b) read rs = u8 (read * 2 ^ Z.of_nat (length rs) + bits_value rs).
Proof.
  intros Hr. induction rs as [|b rs IH] using rev_ind; [cbn; by rewrite Z.mul_1_r, Z.add_0_r, wrap_id|].
  rewrite foldl_snoc, IH, bits_value_snoc, length_app. cbn [length].
  replace (Z.of_nat (length rs + 1)) with (Z.succ (Z.of_nat (length rs))) by lia.
  rewrite Z.pow_succ_r by lia. set (X := read * 2 ^ Z.of_nat (length rs) + bits_value rs).
  replace (read * (2 * 2 ^ Z.of_nat (length rs)) + (2 * bits_value rs + Z.b2z b)) with (2 * X + Z.b2z b) by lia.
  unfold wrap. change (2 ^ 8) with 256. destruct b; cbn [Z.b2z]; Z.div_mod_to_equations; lia.
Qed.
Lemma shift_bits_length last bs d : length (fst (shift_bits settle hold last bs d)) = length bs.
Proof.
  revert d. induction bs as [|b bs IH]; intros d; [done|]. cbn [shift_bits].
  specialize (IH (match bs with [] => if last then settle (sl_rise b d) else hold (sl_fall (settle (sl_rise b d)))
                             | _ => hold (sl_fall (settle (sl_rise b d))) end)).
  destruct (shift_bits settle hold last bs _) as [rs d']. cbn [fst length] in *. by rewrite IH.
Qed.
Lemma spi_bits size send n read d s :
  Z.of_nat n ≤ 8 → at_clock false d s →
  let bs := (λ i, Z.testbit send (7 - i)) <$> seqZ (8 - Z.of_nat n) (Z.of_nat n) in
  let '(rs, d') := shift_bits settle hold (size =? 0) bs d in
  ∃ s', foldl (spi_bit wire_out wire_in settle_w hold_w size send) (read, s)
          (seqZ (8 - Z.of_nat n) (Z.of_nat n)) =
      (foldl (λ a (b : bool), u8 (2 * a) + Z.b2z b) read rs, s') ∧
    at_clock (match n with O => false | _ => size =? 0 end) d' s' ∧ frame s s'.
Proof.
  revert read d s. induction n as [|n IH]; intros read d s Hn Hs; cbv zeta.
  { rewrite !seqZ_nil by lia. cbn. eexists. split; [done|]. split; [done|apply frame_refl]. }
  rewrite (seqZ_cons _ (Z.of_nat (S n))) by lia.
  replace (Z.succ (8 - Z.of_nat (S n))) with (8 - Z.of_nat n) by lia.
  replace (Z.pred (Z.of_nat (S n))) with (Z.of_nat n) by lia. cbn [fmap list_fmap shift_bits foldl].
  set (i := 8 - Z.of_nat (S n)). set (b := Z.testbit send (7 - i)). set (d1 := settle (sl_rise b d)).
  destruct (spi_bit_step size send read i d s ltac:(lia) Hs) as (s1 & E1 & H1 & F1).
  fold b in E1, H1. fold d1 in E1, H1. rewrite E1. destruct n as [|n].
  - rewrite seqZ_nil by lia. cbn [fmap list_fmap shift_bits foldl].
    replace (i =? 7) with true in H1 by (symmetry; apply Z.eqb_eq; lia). rewrite andb_true_r in H1.
    exists s1. split; [done|]. by destruct (size =? 0).
  - replace (i =? 7) with false in H1 by (symmetry; apply Z.eqb_neq; lia). rewrite andb_false_r in H1.
    specialize (IH (u8 (2 * read) + Z.b2z (sl_miso d1)) (hold (sl_fall d1)) s1 ltac:(lia) H1).
    cbv zeta in IH.
    rewrite (seqZ_cons _ (Z.of_nat (S n))) in IH |- * by lia. cbn [fmap list_fmap] in IH |- *.
    destruct (shift_bits settle hold (size =? 0) _ _) as [rs d']. destruct IH as (s' & E & H' & F').
    exists s'. split; [exact E|]. split; [exact H'|]. by apply (frame_trans _ s1).
Qed.
Lemma spi_byte_spec size send d s :
  at_clock false d s →
  let '(rs, d') := shift_bits settle hold (size =? 0) (byte_bits send) d in
  ∃ s', spi_byte wire_out wire_in settle_w hold_w size send s = (bits_value rs, s') ∧
    at_clock (size =? 0) d' s' ∧ frame s s'.
Proof.
  intros Hs. pose proof (spi_bits size send 8 0xFF d s ltac:(lia) Hs) as H. cbv zeta in H.
  change (8 - Z.of_nat 8) with 0 in H. change (Z.of_nat 8) with 8 in H.
  change ((λ i, Z.testbit send (7 - i)) <$> seqZ 0 8) with (byte_bits send) in H.
  pose proof (shift_bits_length (size =? 0) (byte_bits send) d) as Hlen.
  destruct (shift_bits settle hold (size =? 0) (byte_bits send) d) as [rs d']. cbn [fst] in Hlen.
  destruct H as (s' & E & H' & F'). exists s'. split; [|done]. unfold spi_byte. rewrite E. f_equal.
  rewrite shift_in_value by done.
  pose proof (bits_value_range rs) as Hv. rewrite Hlen in Hv |- *.
  change (Z.of_nat (length (byte_bits send))) with 8 in *.
  unfold wrap. rewrite Z.add_comm, Z.mod_add by done. by apply Z.mod_small.
Qed.

(** ** Transfers *)
(** The bytes that go out: the buffer's, or all ones without a buffer *)
Definition sends (tx_buff : option (list Z)) (n : nat) : list Z :=
  match tx_buff with None => replicate n 0xFF | Some bs => take n bs end.

Lemma spi_bytes_spec n tx_buff d s :
  length (sends tx_buff n) = n → (0 < n)%nat → at_clock false d s →
  let '(bytes, d') := shift_bytes settle hold (sends tx_buff n) d in
  ∃ s', spi_bytes wire_out wire_in settle_w hold_w n tx_buff s = Ok (bytes, s') ∧
    at_clock true d' s' ∧ frame s s'.
Proof.
  revert tx_buff d s. induction n as [|n IH]; intros tx_buff d s Hlen Hn Hs; [lia|].
  assert (∃ send tx', sends tx_buff (S n) = send :: sends tx' n ∧
    (match tx_buff with None => mret (0xFF, None) | Some (b :: bs) => mret (b, Some bs) | Some [] => c_fail FUB end
     : Prelude.M (soft_spi (wire D)) (Z * option (list Z))) s = Ok ((send, tx'), s)) as (send & tx' & Es & Em).
  { destruct tx_buff as [[|b bs]|]; [done| |]; [by exists b, (Some bs)|by exists 0xFF, None]. }
  rewrite Es in Hlen |- *. cbn [length] in Hlen.
  cbn [spi_bytes shift_bytes]. unfold mbind at 1, M_bind at 1. rewrite Em. unfold mbind at 1, M_bind at 1.
  pose proof (spi_byte_spec (Z.of_nat n) send d s Hs) as H.
  replace (match sends tx' n with [] => true | _ => false end) with (Z.of_nat n =? 0).
  2: { destruct n, (sends tx' _); cbn [length] in Hlen; try lia; done. }
  destruct (shift_bits settle hold (Z.of_nat n =? 0) (byte_bits send) d) as [rs d1].
  destruct H as (s1 & -> & H1 & F1). destruct n as [|n].
  - cbn [Z.of_nat Z.eqb] in H1. assert (sends tx' 0 = []) as -> by (by destruct tx').
    cbn [shift_bytes spi_bytes]. eexists. split; [done|]. split; done.
  - change (Z.of_nat (S n) =? 0) with false in H1.
    specialize (IH tx' d1 s1 ltac:(lia) ltac:(lia) H1).
    destruct (shift_bytes settle hold (sends tx' (S n)) d1) as [bytes d2].
    destruct IH as (s2 & E2 & H2 & F2). exists s2. unfold mbind at 1, M_bind at 1. rewrite E2.
    split; [done|]. split; [done|]. by apply (frame_trans _ s1).
Qed.

Lemma transfer_exchange tx_buff size d s :
  0 < size → length (sends tx_buff (Z.to_nat size)) = Z.to_nat size →
  at_clock true d s →
  let '(bytes, d') := exchange settle hold (sends tx_buff (Z.to_nat size)) d in
  ∃ s', spi_transfer wire_out wire_in settle_w hold_w tx_buff size s = Ok (bytes, s') ∧
    at_clock true d' s' ∧ frame s s'.
Proof.
  intros Hsz Hlen Hs. unfold exchange, spi_transfer. change (mode_has SOFT_SPI_CPHA) with true. cbv iota.
  destruct (toggle_step true d s Hs) as [H1 F1].
  pose proof (spi_bytes_spec (Z.to_nat size) tx_buff _ _ Hlen ltac:(lia) H1) as H.
  destruct (shift_bytes settle hold _ _) as [bytes d']. destruct H as (s' & E & H' & F').
  exists s'. split; [exact E|]. split; [exact H'|]. by apply (frame_trans _ _ _ F1).
Qed.
(** A transfer of no bytes gives the slave a falling edge and leaves the clock down:
    the next transfer starts with the wrong edge. *)
Lemma soft_spi_transfer_empty tx_buff d s :
  at_clock true d s →
  ∃ s', spi_transfer wire_out wire_in settle_w hold_w tx_buff 0 s = Ok ([], s') ∧
    at_clock false (sl_fall d) s' ∧ frame s s'.
Proof.
  intros Hs. destruct (toggle_step true d s Hs) as [H1 F1]. unfold spi_transfer.
  change (mode_has SOFT_SPI_CPHA) with true. cbv iota. by eexists.
Qed.
End transfers.

(** C22: a transfer of one byte or more at either speed, started with the clock idle, is a full-duplex
    exchange in SPI mode 3: the slave gets the bytes of the buffer (ones without a
    buffer) bit by bit, most significant first, one falling and one rising clock edge
    each; the bytes returned are what it drove at the sampling points; the clock is
    idle again, and no other pin, register or setting has changed. *)
Theorem soft_spi_transfer_exchange (usleep_d : Z → D → D) (nops_d : D → D) tx_buff size d s :
  0 < size → length (sends tx_buff (Z.to_nat size)) = Z.to_nat size → at_clock true d s →
  let settle := if s.(spi_transfer_fast) then nops_d else usleep_d 1 in
  let hold := if s.(spi_transfer_fast) then λ d, d else usleep_d 1 in
  let '(bytes, d') := exchange settle hold (sends tx_buff (Z.to_nat size)) d in
  ∃ s', _spi_transfer wire_out wire_in (λ us, on_slave (usleep_d us)) (on_slave nops_d) tx_buff size s =
      Ok (bytes, s') ∧ at_clock true d' s' ∧ frame s s'.
Proof.
  intros Hsz Hlen Hs. cbv zeta. unfold _spi_transfer. destruct (spi_transfer_fast s).
  - apply (transfer_exchange (on_slave nops_d) (λ w, w)); [done|by intros []|done..].
  - by apply (transfer_exchange (on_slave (usleep_d 1)) (on_slave (usleep_d 1))).
Qed.

(** ** The bus promised to the SD card driver

    What is assumed of the world: the edges take no time, every delay takes some
    and at most 2^25 ticks, and the tick counter counts time. *)
Section bus.
Context (usleep_d : Z → D → D) (nops_d : D → D) (dev_time : D → Z) (bytes_per_tick : Z).
Definition delay_ok (f : D → D) : Prop :=
  ∀ d, dev_time d < dev_time (f d) ≤ dev_time d + 2 ^ 25 * bytes_per_tick.
Record timing : Prop := {
  tm_tick : 0 < bytes_per_tick;
  tm_rise b d : dev_time (sl_rise b d) = dev_time d;
  tm_fall d : dev_time (sl_fall d) = dev_time d;
  tm_select b d : dev_time (sl_select b d) = dev_time d;
  tm_usleep : delay_ok (usleep_d 1);
  tm_nops : delay_ok nops_d
}.
Context (Htm : timing).
Definition tick_get (s : soft_spi (wire D)) : Z := u32 (dev_time (slave (outside (gpio_block s))) / bytes_per_tick).
Definition sd_bus : spisd_interface_t (soft_spi (wire D)) :=
  soft_spi_interface wire_out wire_in (λ us, on_slave (usleep_d us)) (on_slave nops_d).

Lemma shift_bits_time settle hold last bs d :
  delay_ok settle → (∀ d, dev_time d ≤ dev_time (hold d) ≤ dev_time d + 2 ^ 25 * bytes_per_tick) →
  dev_time d + Z.of_nat (length bs) ≤ dev_time (snd (shift_bits settle hold last bs d)) ≤
    dev_time d + Z.of_nat (length bs) * (2 ^ 26 * bytes_per_tick).
Proof.
  intros Hse Hho. revert d. induction bs as [|b bs IH]; intros d; [cbn; lia|]. cbn [shift_bits length].
  pose proof (Hse (sl_rise b d)) as H1. rewrite (tm_rise Htm) in H1.
  set (d1 := settle (sl_rise b d)) in *. pose proof (Hho (sl_fall d1)) as H2. rewrite (tm_fall Htm) in H2.
  set (d2 := match bs with [] => if last then d1 else hold (sl_fall d1) | _ => hold (sl_fall d1) end).
  assert (dev_time d1 ≤ dev_time d2 ≤ dev_time d1 + 2 ^ 25 * bytes_per_tick) as H3.
  { pose proof (tm_tick Htm). subst d2. destruct bs; [destruct last|]; lia. }
  specialize (IH d2). destruct (shift_bits settle hold last bs d2) as [rs d']. cbn [snd] in *. lia.
Qed.

Definition cs_pin s : bool := Z.testbit (data_output s) SOFT_SPI_CSXX_GPIO_FUNC.
(** The bus is up: clock idle, chip select an output *)
Definition up s : Prop := (∃ d, at_clock true d s) ∧ is_output SOFT_SPI_CSXX_GPIO_FUNC s.(gpio_block) = true.
Lemma frame_up s s' d : frame s s' → at_clock true d s' → up s → up s' ∧ cs_pin s' = cs_pin s.
Proof.
  intros Hf Hs [_ Ho]. split; [split; [by exists d|]|].
  - unfold is_output in *. by rewrite (fr_regs _ _ Hf).
  - by apply (fr_bits _ _ Hf).
Qed.
Lemma transfer_bus tx_buff size s :
  0 < size → length (sends tx_buff (Z.to_nat size)) = Z.to_nat size → up s →
  ∃ settle hold d bytes s',
    _spi_transfer wire_out wire_in (λ us, on_slave (usleep_d us)) (on_slave nops_d) tx_buff size s = Ok (bytes, s') ∧
    at_clock true d s ∧ bytes = fst (exchange settle hold (sends tx_buff (Z.to_nat size)) d) ∧
    at_clock true (snd (exchange settle hold (sends tx_buff (Z.to_nat size)) d)) s' ∧
    frame s s' ∧ delay_ok settle ∧ ∀ d, dev_time d ≤ dev_time (hold d) ≤ dev_time d + 2 ^ 25 * bytes_per_tick.
Proof.
  intros Hsz Hlen [[d Hs] Ho]. pose proof (tm_tick Htm). unfold _spi_transfer.
  assert (∀ settle_w hold_w settle hold, delays settle_w settle → delays hold_w hold →
    ∃ s', spi_transfer wire_out wire_in settle_w hold_w tx_buff size s =
        Ok (fst (exchange settle hold (sends tx_buff (Z.to_nat size)) d), s') ∧
      at_clock true (snd (exchange settle hold (sends tx_buff (Z.to_nat size)) d)) s' ∧ frame s s') as Ht.
  { intros sw hw se ho Hse Hho. pose proof (transfer_exchange sw hw se ho Hse Hho tx_buff size d s Hsz Hlen Hs) as Hx.
    destruct (exchange se ho _ d) as [bytes d']. exact Hx. }
  destruct (spi_transfer_fast s).
  - destruct (Ht (on_slave nops_d) (λ w, w) nops_d (λ d, d)) as (s' & E & H1 & F1); [done|by intros []|].
    exists nops_d, (λ d, d), d. eexists _, s'. split; [exact E|]. repeat (split; [done|]).
    split; [exact (tm_nops Htm)|]. intros. lia.
  - destruct (Ht (on_slave (usleep_d 1)) (on_slave (usleep_d 1)) (usleep_d 1) (usleep_d 1)) as (s' & E & H1 & F1); [done..|].
    exists (usleep_d 1), (usleep_d 1), d. eexists _, s'. split; [exact E|]. repeat (split; [done|]).
    split; [exact (tm_usleep Htm)|]. intros d0. pose proof (tm_usleep Htm d0). lia.
Qed.

(** The chip select functions *)
Lemma cs_write_bus (v : bool) s :
  up s → ∃ s', on_block (gpio_set_pin wire_out SOFT_SPI_CSXX_GPIO_FUNC (Z.b2z v)) s = Ok (tt, s') ∧ up s' ∧ cs_pin s' = v.
Proof.
  intros [[d [Hs Hr Hc Hw]] Ho].
  unfold on_block. rewrite (gpio_set_pin_spec wire_out) by done. rewrite Ho. cbn [mbind res_bind].
  set (w := set_gpio_bit _ _ _).
  assert (∀ i, Z.testbit w i = if decide (i = SOFT_SPI_CSXX_GPIO_FUNC) then v else Z.testbit (data_output s) i) as Hwb.
  { intros i. destruct (decide (0 ≤ i)).
    - unfold w. rewrite set_gpio_bit_testbit by done. case_decide; [by destruct v|done].
    - rewrite !(Z.testbit_neg_r _ i) by lia. by rewrite decide_False by (unfold SOFT_SPI_CSXX_GPIO_FUNC; lia). }
  assert (in_width 32 w) as Hww by (by apply set_gpio_bit_range).
  eexists. split; [done|]. split; [split|].
  - exists (edges (data_output s) w d). split.
    + done.
    + unfold data_output. cbn. by rewrite fn_lookup_insert.
    + unfold data_output. cbn [gpio_block out_write gpio]. by rewrite fn_lookup_insert, Hwb.
    + unfold data_output. cbn [gpio_block out_write gpio outside]. by rewrite fn_lookup_insert, Hw.
  - unfold is_output in *. cbn [gpio_block out_write gpio]. by rewrite fn_lookup_insert_ne.
  - unfold cs_pin, data_output. cbn [gpio_block out_write gpio]. by rewrite fn_lookup_insert, Hwb.
Qed.

(** ** Start-up of the bus *)
(** Sound hardware: registers of 32 bits, and the pins as the output register says *)
Definition sound s : Prop :=
  bank_ok s.(gpio_block).(gpio) ∧ ∃ d, s.(gpio_block).(outside) = Wire (data_output s) d.
Definition has_func s (pin func : Z) : Prop := ch_sel s.(gpio_block).(pads) pin = func.
Definition output s (pin : Z) : bool := is_output pin s.(gpio_block).

Lemma set_pin_func_step pin func s :
  0 ≤ pin < K210_IO_NUMS → 0 ≤ func < FUNC_MAX → func ≠ FUNC_RESV0 →
  ∃ s', set_pin_func pin func s = Ok (tt, s') ∧ s'.(gpio_block).(gpio) = s.(gpio_block).(gpio) ∧
    s'.(gpio_block).(outside) = s.(gpio_block).(outside) ∧ has_func s' pin func ∧
    ∀ p f, 0 ≤ p < K210_IO_NUMS → p ≠ pin → f ≠ func → has_func s p f → has_func s' p f.
Proof.
  intros Hp Hf Hne. unfold set_pin_func, modify, has_func. eexists. split; [done|]. cbn [gpio_block gpio outside pads set_pads].
  assert (u8 pin = pin) as -> by (apply wrap_id; unfold K210_IO_NUMS in *; lia).
  split; [done|]. split; [done|].
  set (h := HalPads _ _). split.
  - rewrite hal_set_pin_ch_sel by done. by rewrite decide_True.
  - intros p f Hp' Hpp Hff Hch. rewrite hal_set_pin_ch_sel by done. rewrite decide_False by done. cbn [mux h].
    rewrite decide_False; [done|]. intros [_ ?]. congruence.
Qed.
Lemma drive_mode_step pin mode i s :
  0 ≤ pin < GPIO_MAX_PINNO → 0 ≤ mode ≤ GPIO_DM_OUTPUT → 0 ≤ i < K210_IO_NUMS →
  sound s → has_func s i (FUNC_GPIO0 + pin) →
  ∃ s', on_block (gpio_set_drive_mode pin mode) s = Ok (tt, s') ∧ sound s' ∧ data_output s' = data_output s ∧
    output s' pin = (mode =? GPIO_DM_OUTPUT) ∧ (∀ p, 0 ≤ p → p ≠ pin → output s' p = output s p) ∧
    ∀ p f, has_func s p f → has_func s' p f.
Proof.
  intros Hp Hm Hi [Hok [d Hw]] Hf.
  destruct (gpio_set_drive_mode_returns pin mode _ i Hp Hm Hi Hf) as (g & E & Hch).
  destruct (gpio_set_drive_mode_spec pin mode _ g ltac:(lia) Hok E) as (_ & Ho & Hoo & Hr & Hout & Hok').
  unfold on_block. rewrite E. eexists. split; [done|].
  assert (∀ x y z, data_output (SoftSpi x g y z) = data_output s) as Hd by (intros; by apply Hr).
  split; [split; [done|exists d; cbn [gpio_block]; by rewrite Hd, Hout]|].
  split; [apply Hd|]. split; [exact Ho|]. split; [exact Hoo|].
  intros p f. unfold has_func. cbn [gpio_block]. by rewrite Hch.
Qed.
Lemma sound_set_pin s s' :
  s'.(gpio_block).(gpio) = s.(gpio_block).(gpio) → s'.(gpio_block).(outside) = s.(gpio_block).(outside) →
  sound s → sound s' ∧ data_output s' = data_output s ∧ ∀ p, output s' p = output s p.
Proof. intros Hg Ho [Hok [d Hw]]. unfold sound, output, is_output, data_output. rewrite Hg, Ho. eauto. Qed.
Lemma cs_high_step s :
  sound s → output s SOFT_SPI_CSXX_GPIO_FUNC = true →
  ∃ s', on_block (gpio_set_pin wire_out SOFT_SPI_CSXX_GPIO_FUNC GPIO_PV_HIGH) s = Ok (tt, s') ∧ sound s' ∧
    cs_pin s' = true ∧ (∀ p, output s' p = output s p) ∧ ∀ p f, has_func s p f → has_func s' p f.
Proof.
  intros [Hok [d Hw]] Ho. unfold on_block. rewrite (gpio_set_pin_spec wire_out) by done.
  unfold output in Ho. rewrite Ho. cbn [mbind res_bind]. eexists. split; [done|]. split; [split|].
  - cbn [gpio_block out_write gpio]. apply bank_ok_insert; [done|]. by apply set_gpio_bit_range.
  - eexists. unfold data_output. cbn [gpio_block out_write gpio outside]. by rewrite Hw, fn_lookup_insert.
  - unfold cs_pin, output, is_output, has_func, data_output. cbn [gpio_block out_write gpio outside pads].
    rewrite fn_lookup_insert. split; [by rewrite set_gpio_bit_testbit|].
    split; [|done]. intros p. by rewrite fn_lookup_insert_ne.
Qed.
(** Four different pins of the chip *)
Definition pins_ok (sck miso mosi cs : Z) : Prop :=
  Forall (λ p, 0 ≤ p < K210_IO_NUMS) [sck; miso; mosi; cs] ∧ NoDup [sck; miso; mosi; cs].
Lemma run_bind {A B} (m : Prelude.M (soft_spi (wire D)) A) (k : A → Prelude.M (soft_spi (wire D)) B) s a s' :
  m s = Ok (a, s') → (m ≫= k) s = k a s'.
Proof. unfold mbind, M_bind. by intros ->. Qed.
Lemma hal_soft_spi_init_step sck miso mosi cs s :
  pins_ok sck miso mosi cs → sound s → output s SOFT_SPI_CSXX_GPIO_FUNC = true →
  ∃ s', hal_soft_spi_init wire_out sck miso mosi s = Ok (tt, s') ∧ up s' ∧ cs_pin s' = cs_pin s.
Proof.
  intros [Hr Hd] Hs Ho.
  rewrite !Forall_cons in Hr. destruct Hr as (Hsck & Hmiso & Hmosi & Hcs & _).
  rewrite !NoDup_cons, !not_elem_of_cons in Hd. destruct Hd as ((N1 & N2 & _) & (N3 & _) & _).
  destruct (set_pin_func_step sck (FUNC_GPIO0 + SOFT_SPI_SCLK_GPIO_FUNC) s) as (s1 & E1 & G1 & O1 & F1 & _); [done..|].
  destruct (sound_set_pin _ _ G1 O1 Hs) as (H1 & D1 & U1).
  destruct (set_pin_func_step miso (FUNC_GPIO0 + SOFT_SPI_MISO_GPIO_FUNC) s1) as (s2 & E2 & G2 & O2 & F2 & K2); [done..|].
  destruct (sound_set_pin _ _ G2 O2 H1) as (H2 & D2 & U2).
  destruct (set_pin_func_step mosi (FUNC_GPIO0 + SOFT_SPI_MOSI_GPIO_FUNC) s2) as (s3 & E3 & G3 & O3 & F3 & K3); [done..|].
  destruct (sound_set_pin _ _ G3 O3 H2) as (H3 & D3 & U3).
  pose proof (K3 sck (FUNC_GPIO0 + SOFT_SPI_SCLK_GPIO_FUNC) Hsck N2 ltac:(done) (K2 sck (FUNC_GPIO0 + SOFT_SPI_SCLK_GPIO_FUNC) Hsck N1 ltac:(done) F1)) as F1'.
  pose proof (K3 miso (FUNC_GPIO0 + SOFT_SPI_MISO_GPIO_FUNC) Hmiso N3 ltac:(done) F2) as F2'.
  destruct (drive_mode_step SOFT_SPI_SCLK_GPIO_FUNC GPIO_DM_OUTPUT sck s3) as (s4 & E4 & H4 & D4 & _ & U4 & K4); [done..|].
  destruct (drive_mode_step SOFT_SPI_MISO_GPIO_FUNC GPIO_DM_INPUT miso s4) as (s5 & E5 & H5 & D5 & _ & U5 & K5); [try done; auto..|].
  destruct (drive_mode_step SOFT_SPI_MOSI_GPIO_FUNC GPIO_DM_OUTPUT mosi s5) as (s6 & E6 & H6 & D6 & _ & U6 & K6); [try done; auto..|].
  unfold hal_soft_spi_init. rewrite (run_bind _ _ _ _ _ E1), (run_bind _ _ _ _ _ E2), (run_bind _ _ _ _ _ E3).
  rewrite (run_bind _ _ _ _ _ E4), (run_bind _ _ _ _ _ E5), (run_bind _ _ _ _ _ E6).
  change (mode_has SOFT_SPI_CPOL) with true. cbv iota. unfold modify. eexists. split; [done|].
  destruct H6 as [Hok [d Hw]].
  pose proof (Hok GPIO_DATA_OUTPUT) as Hdr. change (in_width 32 (data_output s6)) in Hdr.
  set (s7 := set_sts 1 s6).
  change (GPIO_OUT_HIGH wire_out SOFT_SPI_SCLK_GPIO_FUNC s7) with (store_bit SOFT_SPI_SCLK_GPIO_FUNC true s7).
  pose proof (store_bit_testbit SOFT_SPI_SCLK_GPIO_FUNC true s7) as Ht.
  split; [split|].
  - eexists. constructor; [done|by apply store_bit_range|by rewrite Ht|]. by apply (store_bit_wire _ _ _ d).
  - change (output (store_bit SOFT_SPI_SCLK_GPIO_FUNC true s7) SOFT_SPI_CSXX_GPIO_FUNC = true).
    transitivity (output s6 SOFT_SPI_CSXX_GPIO_FUNC).
    + unfold output, is_output, store_bit, GPIO_OUT_HIGH, on_gpio, out_write. cbn [gpio_block gpio].
      by rewrite fn_lookup_insert_ne.
    + rewrite U6, U5, U4, U3, U2, U1 by done. done.
  - unfold cs_pin. rewrite Ht by done. rewrite decide_False by done.
    change (data_output s7) with (data_output s6). by rewrite D6, D5, D4, D3, D2, D1.
Qed.
Lemma soft_spi_init_up sck miso mosi cs s :
  pins_ok sck miso mosi cs → sound s →
  ∃ s', _soft_spi_init wire_out sck miso mosi cs s = Ok (tt, s') ∧ up s' ∧ cs_pin s' = true.
Proof.
  intros Hp Hs. pose proof Hp as [Hr _]. rewrite !Forall_cons in Hr. destruct Hr as (_ & _ & _ & Hcs & _).
  destruct (set_pin_func_step cs (FUNC_GPIO0 + SOFT_SPI_CSXX_GPIO_FUNC) s) as (s1 & E1 & G1 & O1 & F1 & _); [done..|].
  destruct (sound_set_pin _ _ G1 O1 Hs) as (H1 & D1 & U1).
  destruct (drive_mode_step SOFT_SPI_CSXX_GPIO_FUNC GPIO_DM_OUTPUT cs s1) as (s2 & E2 & H2 & D2 & U2 & _ & K2); [done..|].
  destruct (cs_high_step s2 H2 U2) as (s3 & E3 & H3 & C3 & U3 & _).
  destruct (hal_soft_spi_init_step sck miso mosi cs s3 Hp H3) as (s4 & E4 & H4 & C4); [by rewrite U3|].
  exists s4. unfold _soft_spi_init. rewrite (run_bind _ _ _ _ _ E1), (run_bind _ _ _ _ _ E2), (run_bind _ _ _ _ _ E3).
  split; [done|]. split; [done|]. by rewrite C4.
Qed.

(** The soft SPI is a bus for the SD card driver. *)
Lemma run_returns {A} (m : Prelude.M (soft_spi (wire D)) A) s a s' (Q : soft_spi (wire D) → Prop) :
  m s = Ok (a, s') → Q s' → returns (run m s) Q.
Proof. intros E HQ. exists s'. unfold run. by rewrite E. Qed.
#[export] Instance soft_spi_bus : SpiBus sd_bus tick_get bytes_per_tick.
Proof.
  refine {| bus_pins := pins_ok; bus_ready := sound; bus_up := up; bus_selected s := negb (cs_pin s);
            bus_time s := dev_time s.(gpio_block).(outside).(slave) |}.
  - intros s. split; [exact (tm_tick Htm)|done].
  - intros a b c e s Hp Hs. destruct (soft_spi_init_up a b c e s Hp Hs) as (s' & E & Hu & Hc).
    apply (run_returns _ _ _ _ _ E). by rewrite Hc.
  - intros hz s _ [[d []] Ho]. eapply run_returns; [done|]. split; [|done]. split; [by exists d|done].
  - intros s Hu. destruct (cs_write_bus false s Hu) as (s' & E & Hu' & Hc).
    apply (run_returns _ _ _ _ _ E). by rewrite Hc.
  - intros s Hu. destruct (cs_write_bus true s Hu) as (s' & E & Hu' & Hc).
    apply (run_returns _ _ _ _ _ E). by rewrite Hc.
  - intros b s Hu. destruct (transfer_bus (Some [b]) 1 s) as (se & ho & d & bytes & s' & E & Hd & -> & Hs' & Hf & Hse & Hho); [done..|].
    eexists (_, s'). split; [unfold sd_bus, soft_spi_interface, io_wr_rd_byte, _soft_spi_wr_rd_byte; by rewrite (run_bind _ _ _ _ _ E)|].
    destruct (frame_up _ _ _ Hf Hs' Hu) as [Hu' Hc]. split; [done|]. rewrite Hc. split; [done|].
    rewrite (ac_wire _ _ _ Hd), (ac_wire _ _ _ Hs'). cbn [slave]. unfold exchange. change (sends (Some [b]) (Z.to_nat 1)) with [b].
    cbn [shift_bytes]. pose proof (shift_bits_time se ho true (byte_bits b) (sl_fall d) Hse Hho) as Ht.
    rewrite (tm_fall Htm) in Ht. change (Z.of_nat (length (byte_bits b))) with 8 in Ht.
    destruct (shift_bits se ho true (byte_bits b) (sl_fall d)) as [rs d']. cbn [snd shift_bytes] in *.
    pose proof (tm_tick Htm). lia.
  - intros bs s Hbs Hu. destruct (transfer_bus (Some bs) (Z.of_nat (length bs)) s) as (se & ho & d & bytes & s' & E & Hd & -> & Hs' & Hf & Hse & Hho).
    { destruct bs; [done|cbn [length]; lia]. }
    { cbn [sends]. rewrite length_take. lia. }
    { done. }
    destruct (frame_up _ _ _ Hf Hs' Hu) as [Hu' Hc].
    eapply run_returns; [unfold _soft_spi_write; by rewrite (run_bind _ _ _ _ _ E)|]. by rewrite Hc.
  - intros n s [Hn _] Hu. destruct (transfer_bus None n s) as (se & ho & d & bytes & s' & E & Hd & -> & Hs' & Hf & Hse & Hho).
    { done. }
    { cbn [sends]. by rewrite length_replicate. }
    { done. }
    destruct (frame_up _ _ _ Hf Hs' Hu) as [Hu' Hc].
    eexists (_, s'). split; [exact E|]. by rewrite Hc.
Defined.

(** The SD card driver on the soft SPI: from sound hardware and four different
    pins, the start-up and after it any sequence of calls with whole buffers return,
    whatever the card answers and without a failed assertion, and leave the chip
    select line high and the clock idle. *)
Theorem soft_spi_sd_session ms fuel sck miso mosi cs calls ty s :
  0 ≤ ms CARD_BUSY_TIMEOUT_MS < 2 ^ 30 → ms CARD_BUSY_TIMEOUT_MS * bytes_per_tick < Z.of_nat fuel →
  pins_ok sck miso mosi cs → Forall call_ok calls → sound s →
  ∃ s' : sd_t (soft_spi (wire D)), session sd_bus tick_get ms fuel sck miso mosi cs calls (Sd ty s) = Ok (tt, s') ∧
    cs_pin s'.(dev) = true ∧ ∃ d, at_clock true d s'.(dev).
Proof.
  intros Hms Hfuel Hp Hc Hs.
  destruct (session_released sd_bus tick_get ms bytes_per_tick (SpiBus0 := soft_spi_bus) Hms fuel Hfuel sck miso mosi cs
    (Info (parse_csd []) (parse_cid 0 []) 0 0 0) calls Hp Hc (Sd ty s) Hs) as ([] & s' & E & [Hclk _] & Hsel).
  exists s'. split; [exact E|]. split; [|exact Hclk].
  change (false = negb (cs_pin (dev s'))) in Hsel. by destruct (cs_pin (dev s')).
Qed.
End bus.
End slave.

(** ** Witnesses: a shift register on the wires *)
Record demo_slave := DemoSlave { clock : Z; line_out : bool; to_send : list bool; got : list bool }.
Definition demo_fall (d : demo_slave) : demo_slave :=
  DemoSlave d.(clock) (hd true d.(to_send)) (tl d.(to_send)) d.(got).
Definition demo_rise (b : bool) (d : demo_slave) : demo_slave :=
  DemoSlave d.(clock) d.(line_out) d.(to_send) (d.(got) ++ [b]).
Definition demo_select (b : bool) (d : demo_slave) : demo_slave := d.
Definition demo_delay (n : Z) (d : demo_slave) : demo_slave :=
  DemoSlave (d.(clock) + n) d.(line_out) d.(to_send) d.(got).
Definition demo_state (d : demo_slave) : soft_spi (wire demo_slave) :=
  SoftSpi 1 (GpioDrv (λ r, match r with GPIO_DATA_OUTPUT => 18 | GPIO_DIRECTION => 26 | _ => 0 end) (λ _, 0) (Wire 18 d))
    (λ _, 0) false.
Lemma demo_at_clock d : at_clock true d (demo_state d).
Proof. by constructor. Qed.
(** 0xA5 goes out while 0xC3 comes in. *)
Lemma soft_spi_transfer_exchange_witness :
  ∃ s', _spi_transfer (wire_out demo_select demo_fall demo_rise) (wire_in line_out)
      (λ us, on_slave (demo_delay us)) (on_slave (demo_delay 1)) (Some [0xA5]) 1
      (demo_state (DemoSlave 0 true (byte_bits 0xC3) [])) = Ok ([0xC3], s') ∧
    at_clock true (DemoSlave 15 true [] (byte_bits 0xA5)) s' ∧
    frame (demo_state (DemoSlave 0 true (byte_bits 0xC3) [])) s'.
Proof.
  apply (soft_spi_transfer_exchange demo_select demo_fall demo_rise line_out demo_delay (demo_delay 1)
    (Some [0xA5]) 1 (DemoSlave 0 true (byte_bits 0xC3) []) (demo_state (DemoSlave 0 true (byte_bits 0xC3) []))).
  - done.
  - done.
  - apply demo_at_clock.
Defined.
Lemma demo_timing : timing demo_select demo_fall demo_rise demo_delay (demo_delay 1) clock 8.
Proof. constructor; try done; intros d; cbn; lia. Qed.
Lemma soft_spi_sd_session_witness :
  ∃ s' : sd_t (soft_spi (wire demo_slave)), session (sd_bus demo_select demo_fall demo_rise line_out demo_delay (demo_delay 1)) (tick_get clock 8)
      demo_ms 5000 26 27 28 29 demo_calls (Sd 0 (demo_state (DemoSlave 0 true [] []))) = Ok (tt, s') ∧
    cs_pin s'.(dev) = true ∧ ∃ d, at_clock true d s'.(dev).
Proof.
  apply (soft_spi_sd_session demo_select demo_fall demo_rise line_out demo_delay (demo_delay 1) clock 8 demo_timing
    demo_ms 5000 26 27 28 29 demo_calls 0).
  - done.
  - done.
  - split; [by repeat (apply Forall_cons; split)|by apply (bool_decide_unpack _)].
  - by repeat (apply Forall_cons; split).
  - split; [by intros []|by eexists].
Defined.
