(* ===== verification/Gpiohs.v ===== *)
(** * High-speed GPIO (k210_gpiohs.c)

    Thirty-two pins with edge and level interrupts.  A store to a pending
    register clears the bits that are one in the stored word (k210_gpiohs.h: a
    bit stays pending "until a 1 is written to the *_ip register at that bit"). *)

From S2P Require Import Prelude SysctlRegs FpioaTable Fpioa Plic Gpio.

Inductive gpiohs_reg : Set :=
| INPUT_EN | OUTPUT_EN | OUTPUT_VAL | PULLUP_EN | DRIVE | RISE_IE | RISE_IP | FALL_IE | FALL_IP
| HIGH_IE | HIGH_IP | LOW_IE | LOW_IP | IOF_EN | IOF_SEL | OUTPUT_XOR.
#[export] Instance gpiohs_reg_eq_dec : EqDecision gpiohs_reg.
Proof. solve_decision. Defined.

Definition GPIOHS_MAX_PINNO : Z := 32.
Definition GPIO_PE_NONE : Z := 0.
Definition GPIO_PE_FALLING : Z := 1.
Definition GPIO_PE_RISING : Z := 2.
Definition GPIO_PE_BOTH : Z := 3.
Definition GPIO_PE_LOW : Z := 4.
Definition GPIO_PE_HIGH : Z := 8.
Definition IRQN_GPIOHS0_INTERRUPT : Z := 34.

Definition is_pending (r : gpiohs_reg) : bool :=
  match r with RISE_IP | FALL_IP | HIGH_IP | LOW_IP => true | _ => false end.
(** What a store does to the device *)
Definition hs_store (r : gpiohs_reg) (v : Z) (b : bank gpiohs_reg) : bank gpiohs_reg :=
  <[r := if is_pending r then Z.ldiff (b r) v else v]> b.

(** The handler and the context given to the interrupt controller:
    [gpiohs_pin_onchange_isr] and [&pin_instance[k]] *)
Inductive gpiohs_fn : Set := gpiohs_pin_onchange_isr_fn.
Inductive gpiohs_ptr : Set := pin_instance_ptr (k : Z).

Section gpiohs.
(** User callbacks without and with an argument, the argument, the controller *)
Context {F H X P : Type} `{IrqController P gpiohs_fn gpiohs_ptr}.

Record gpiohs_pin_instance_t := PinInstance {
  inst_pin : Z;
  inst_edge : Z;
  inst_callback : option F;
  inst_gpiohs_callback : option H;
  inst_context : option X
}.
Definition zero_instance : gpiohs_pin_instance_t := PinInstance 0 0 None None None.
(** The device, [pin_instance], the multiplexer and the interrupt controller *)
Record gpiohs_drv := HsDrv {
  gpiohs : bank gpiohs_reg;
  pin_instance : Z → gpiohs_pin_instance_t;
  hs_pads : fpioa_t;
  hs_irqs : P
}.
Definition on_gpiohs (f : bank gpiohs_reg → bank gpiohs_reg) (d : gpiohs_drv) : gpiohs_drv :=
  HsDrv (f d.(gpiohs)) d.(pin_instance) d.(hs_pads) d.(hs_irqs).
Definition on_hs_irqs (f : P → P) (d : gpiohs_drv) : gpiohs_drv :=
  HsDrv d.(gpiohs) d.(pin_instance) d.(hs_pads) (f d.(hs_irqs)).
Definition set_hs_pads (p : fpioa_t) (d : gpiohs_drv) : gpiohs_drv :=
  HsDrv d.(gpiohs) d.(pin_instance) p d.(hs_irqs).
Definition set_pin_instance (k : Z) (i : gpiohs_pin_instance_t) (d : gpiohs_drv) : gpiohs_drv :=
  HsDrv d.(gpiohs) (<[k := i]> d.(pin_instance)) d.(hs_pads) d.(hs_irqs).
(** [set_gpio_bit(gpiohs->r.u32, pin, value)]: read, change, store *)
Definition hs_bit (r : gpiohs_reg) (pin value : Z) (b : bank gpiohs_reg) : bank gpiohs_reg :=
  hs_store r (set_gpio_bit (b r) pin value) b.

Definition gpiohs_set_drive_mode (pin mode : Z) (d : gpiohs_drv) : res gpiohs_drv :=
  if negb (pin <? GPIOHS_MAX_PINNO) then Fault FAssert else
  let io_number := fpioa_get_io_by_function (FUNC_GPIOHS0 + pin) d.(hs_pads) in
  if negb (0 <=? io_number) then Fault FAssert else
  match drive_mode mode with
  | None => Fault FAssert
  | Some (pull, dir) =>
      let d := set_hs_pads (snd (fpioa_set_io_pull io_number pull d.(hs_pads))) d in
      let reg := if negb (dir =? 0) then OUTPUT_EN else INPUT_EN in
      let reg_d := if dir =? 0 then OUTPUT_EN else INPUT_EN in
      Ok (on_gpiohs (λ b, hs_bit reg pin 1 (hs_bit reg_d pin 0 b)) d)
  end.
(** [input_val]: what the input register reads *)
Definition gpiohs_get_pin (input_val pin : Z) : res Z :=
  if negb (pin <? GPIOHS_MAX_PINNO) then Fault FAssert else Ok (get_gpio_bit input_val pin).
Definition gpiohs_set_pin (pin value : Z) (d : gpiohs_drv) : res gpiohs_drv :=
  if negb (pin <? GPIOHS_MAX_PINNO) then Fault FAssert else Ok (on_gpiohs (hs_bit OUTPUT_VAL pin value) d).

(** The stores of [gpiohs_set_pin_edge], in order *)
Definition edge_bit (edge flag : Z) : Z := if negb (Z.land edge flag =? 0) then 1 else 0.
Definition set_edge (pin edge : Z) (b : bank gpiohs_reg) : bank gpiohs_reg :=
  let b := hs_bit RISE_IP pin 1 (hs_bit RISE_IE pin 0 b) in
  let b := hs_bit FALL_IP pin 1 (hs_bit FALL_IE pin 0 b) in
  let b := hs_bit LOW_IP pin 1 (hs_bit LOW_IE pin 0 b) in
  let b := hs_bit HIGH_IP pin 1 (hs_bit HIGH_IE pin 0 b) in
  let b := hs_bit FALL_IE pin (edge_bit edge GPIO_PE_FALLING) b in
  let b := hs_bit RISE_IE pin (edge_bit edge GPIO_PE_RISING) b in
  let b := hs_bit LOW_IE pin (edge_bit edge GPIO_PE_LOW) b in
  hs_bit HIGH_IE pin (edge_bit edge GPIO_PE_HIGH) b.
(** No check of [pin]: past 31 the shift and the table access are out of range. *)
Definition bad_pin (pin : Z) : bool := negb (pin <? GPIOHS_MAX_PINNO).
Definition gpiohs_set_pin_edge (pin edge : Z) (d : gpiohs_drv) : res gpiohs_drv :=
  if bad_pin pin then Fault FUB else
  let d := on_gpiohs (set_edge pin edge) d in
  let i := d.(pin_instance) pin in
  Ok (set_pin_instance pin
        (PinInstance i.(inst_pin) edge i.(inst_callback) i.(inst_gpiohs_callback) i.(inst_context)) d).

(** Installing the handler on the pin's line *)
Definition hook_pin (pin priority : Z) (d : gpiohs_drv) : gpiohs_drv :=
  on_hs_irqs (λ p,
    irq_enable (IRQN_GPIOHS0_INTERRUPT + pin)
      (irq_register (IRQN_GPIOHS0_INTERRUPT + pin) gpiohs_pin_onchange_isr_fn (Some (pin_instance_ptr pin))
        (irq_set_priority (IRQN_GPIOHS0_INTERRUPT + pin) priority p))) d.
Definition gpiohs_set_irq (pin priority : Z) (func : option F) (d : gpiohs_drv) : res gpiohs_drv :=
  if bad_pin pin then Fault FUB else
  let i := d.(pin_instance) pin in
  let d := set_pin_instance pin (PinInstance pin i.(inst_edge) func i.(inst_gpiohs_callback) i.(inst_context)) d in
  Ok (hook_pin pin priority d).
Definition gpiohs_irq_register (pin priority : Z) (callback : option H) (ctx : option X) (d : gpiohs_drv) :
    res gpiohs_drv :=
  if bad_pin pin then Fault FUB else
  let i := d.(pin_instance) pin in
  let d := set_pin_instance pin (PinInstance pin i.(inst_edge) i.(inst_callback) callback ctx) d in
  Ok (hook_pin pin priority d).
Definition gpiohs_irq_unregister (pin : Z) (d : gpiohs_drv) : res gpiohs_drv :=
  if bad_pin pin then Fault FUB else
  let d := set_pin_instance pin zero_instance d in
  let d := on_gpiohs (λ b, hs_bit HIGH_IE pin 0 (hs_bit LOW_IE pin 0 (hs_bit FALL_IE pin 0 (hs_bit RISE_IE pin 0 b)))) d in
  Ok (on_hs_irqs (irq_unregister (IRQN_GPIOHS0_INTERRUPT + pin)) d).
Definition gpiohs_irq_disable (pin : Z) (d : gpiohs_drv) : gpiohs_drv :=
  on_hs_irqs (irq_disable (IRQN_GPIOHS0_INTERRUPT + pin)) d.

(** The handler: acknowledge what the instance asks for, then the callbacks.  [k] is
    the instance its argument points to. *)
Section isr.
Context {W : Type}.
Context (call0 : F → gpiohs_drv * W → gpiohs_drv * W) (call : H → option X → gpiohs_drv * W → gpiohs_drv * W).
Definition ack (ie ip : gpiohs_reg) (pin : Z) (b : bank gpiohs_reg) : bank gpiohs_reg :=
  hs_bit ie pin 1 (hs_bit ip pin 1 (hs_bit ie pin 0 b)).
Definition ack_edges (edge pin : Z) (b : bank gpiohs_reg) : bank gpiohs_reg :=
  let b := if negb (Z.land edge GPIO_PE_FALLING =? 0) then ack FALL_IE FALL_IP pin b else b in
  let b := if negb (Z.land edge GPIO_PE_RISING =? 0) then ack RISE_IE RISE_IP pin b else b in
  let b := if negb (Z.land edge GPIO_PE_LOW =? 0) then ack LOW_IE LOW_IP pin b else b in
  if negb (Z.land edge GPIO_PE_HIGH =? 0) then ack HIGH_IE HIGH_IP pin b else b.
Definition gpiohs_pin_onchange_isr (k : Z) (s : gpiohs_drv * W) : res (gpiohs_drv * W) :=
  let '(d, w) := s in
  let i := d.(pin_instance) k in
  if bad_pin i.(inst_pin) then Fault FUB else
  let s := (on_gpiohs (ack_edges i.(inst_edge) i.(inst_pin)) d, w) in
  let s := match (fst s).(pin_instance) k with
           | PinInstance _ _ (Some f) _ _ => call0 f s
           | _ => s
           end in
  let i := (fst s).(pin_instance) k in
  Ok (match i.(inst_gpiohs_callback) with Some f => call f i.(inst_context) s | None => s end).
End isr.
End gpiohs.
Arguments gpiohs_pin_instance_t : clear implicits.
Arguments gpiohs_drv : clear implicits.

(** ** Lemmas on the stores *)
Section stores.
Implicit Types b : bank gpiohs_reg.
Lemma hs_bit_ne r r' pin v b : r ≠ r' → hs_bit r pin v b r' = b r'.
Proof. intros. unfold hs_bit, hs_store. by rewrite fn_lookup_insert_ne. Qed.
Lemma hs_bit_eq r pin v b : is_pending r = false → hs_bit r pin v b r = set_gpio_bit (b r) pin v.
Proof. intros Hr. unfold hs_bit, hs_store. by rewrite fn_lookup_insert, Hr. Qed.
(** Reading a pending register, setting a bit and storing the word clears it all. *)
Lemma hs_bit_pending r pin b :
  is_pending r = true → in_width 32 (b r) → 0 ≤ pin < 32 → hs_bit r pin 1 b r = 0.
Proof.
  intros Hr Hb Hp. unfold hs_bit, hs_store. rewrite fn_lookup_insert, Hr.
  apply Z.bits_inj'. intros i Hi. rewrite Z.ldiff_spec, set_gpio_bit_testbit, Z.bits_0 by done.
  case_decide; [by rewrite andb_false_r|apply andb_negb_r].
Qed.
Lemma hs_bit_ok r pin v b : bank_ok b → 0 ≤ pin < 32 → bank_ok (hs_bit r pin v b).
Proof.
  intros Hb Hp. apply bank_ok_insert; [done|]. destruct (is_pending r); [|by apply set_gpio_bit_range].
  pose proof (Hb r) as Hr. apply in_width_testbit; [done|apply Z.ldiff_nonneg; lia|].
  intros i Hi. by rewrite Z.ldiff_spec, (testbit_above 32 (b r)) by done.
Qed.
Lemma set_gpio_bit_twice x pin v w :
  in_width 32 x → 0 ≤ pin < 32 → set_gpio_bit (set_gpio_bit x pin v) pin w = set_gpio_bit x pin w.
Proof.
  intros Hx Hp. apply Z.bits_inj'. intros i Hi.
  rewrite !set_gpio_bit_testbit by (done || by apply set_gpio_bit_range). by case_decide.
Qed.
End stores.
(** Follow one register through a sequence of stores. *)
Ltac hs_track :=
  repeat first [rewrite hs_bit_ne by discriminate | rewrite hs_bit_eq by reflexivity];
  rewrite ?set_gpio_bit_twice by (done || (repeat apply set_gpio_bit_range; done)).

(** The four sources of interrupt: enable, pending, flag *)
Definition kinds : list (gpiohs_reg * gpiohs_reg * Z) :=
  [(FALL_IE, FALL_IP, GPIO_PE_FALLING); (RISE_IE, RISE_IP, GPIO_PE_RISING);
   (LOW_IE, LOW_IP, GPIO_PE_LOW); (HIGH_IE, HIGH_IP, GPIO_PE_HIGH)].
Definition interrupt_reg (r : gpiohs_reg) : bool :=
  match r with
  | FALL_IE | RISE_IE | LOW_IE | HIGH_IE | FALL_IP | RISE_IP | LOW_IP | HIGH_IP => true
  | _ => false
  end.

Lemma set_edge_spec pin edge b :
  bank_ok b → 0 ≤ pin < 32 →
  Forall (λ '(ie, ip, flag),
    set_edge pin edge b ie = set_gpio_bit (b ie) pin (edge_bit edge flag) ∧ set_edge pin edge b ip = 0) kinds ∧
  ∀ r, interrupt_reg r = false → set_edge pin edge b r = b r.
Proof.
  intros Hb Hp. pose proof (λ r, Hb r) as Hw. unfold set_edge. split.
  - repeat (apply Forall_cons; split); [..|done]; (split; [hs_track; reflexivity|]);
      repeat rewrite hs_bit_ne by discriminate;
      (rewrite hs_bit_pending; [done|done| |done]); repeat rewrite hs_bit_ne by discriminate; apply Hb.
  - intros r Hr. destruct r; try done; repeat rewrite hs_bit_ne by discriminate; done.
Qed.
Lemma ack_spec ie ip pin b r :
  bank_ok b → 0 ≤ pin < 32 → is_pending ie = false → is_pending ip = true →
  ack ie ip pin b r =
  if decide (r = ie) then set_gpio_bit (b ie) pin 1 else if decide (r = ip) then 0 else b r.
Proof.
  intros Hb Hp Hie Hip. unfold ack. assert (ie ≠ ip) by congruence.
  destruct (decide (r = ie)) as [->|]; [|destruct (decide (r = ip)) as [->|]].
  - rewrite hs_bit_eq, hs_bit_ne, hs_bit_eq by done. by rewrite set_gpio_bit_twice.
  - rewrite hs_bit_ne by done. rewrite hs_bit_pending; [done|done| |done]. rewrite hs_bit_ne by done. apply Hb.
  - by rewrite !hs_bit_ne by done.
Qed.
Lemma ack_ok ie ip pin b : bank_ok b → 0 ≤ pin < 32 → bank_ok (ack ie ip pin b).
Proof. intros. unfold ack. by repeat apply hs_bit_ok. Qed.
Definition has_flag (edge flag : Z) : bool := negb (Z.land edge flag =? 0).
Lemma ack_edges_spec pin edge b :
  bank_ok b → 0 ≤ pin < 32 →
  Forall (λ '(ie, ip, flag),
    if has_flag edge flag
    then ack_edges edge pin b ie = set_gpio_bit (b ie) pin 1 ∧ ack_edges edge pin b ip = 0
    else ack_edges edge pin b ie = b ie ∧ ack_edges edge pin b ip = b ip) kinds ∧
  ∀ r, interrupt_reg r = false → ack_edges edge pin b r = b r.
Proof.
  intros Hb Hp. unfold ack_edges. fold (has_flag edge GPIO_PE_FALLING) (has_flag edge GPIO_PE_RISING)
    (has_flag edge GPIO_PE_LOW) (has_flag edge GPIO_PE_HIGH). cbv zeta. split.
  - unfold kinds. repeat (apply Forall_cons; split); [..|done];
      destruct (has_flag edge GPIO_PE_FALLING), (has_flag edge GPIO_PE_RISING), (has_flag edge GPIO_PE_LOW),
        (has_flag edge GPIO_PE_HIGH); (split; rewrite ?ack_spec by (by repeat apply ack_ok); reflexivity).
  - intros r Hr. destruct (has_flag edge GPIO_PE_FALLING), (has_flag edge GPIO_PE_RISING), (has_flag edge GPIO_PE_LOW),
      (has_flag edge GPIO_PE_HIGH); rewrite ?ack_spec by (by repeat apply ack_ok); destruct r; done.
Qed.

(** ** The operations *)
Section spec.
Context {F H X P W : Type} `{IrqController P gpiohs_fn gpiohs_ptr}.
Implicit Types d : gpiohs_drv F H X P.

(** The pin's interrupts of kind [ie], and the pending ones *)
Definition hs_on (r : gpiohs_reg) d (j : Z) : bool := Z.testbit (d.(gpiohs) r) j.

Lemma bad_pin_false pin : bad_pin pin = false ↔ pin < 32.
Proof. unfold bad_pin, GPIOHS_MAX_PINNO. by rewrite negb_false_iff, Z.ltb_lt. Qed.

(** Drive modes: with the function on some pin the call returns; an output drives and
    does not listen, an input the other way round. *)
Lemma gpiohs_set_drive_mode_spec pin mode i d :
  0 ≤ pin < 32 → 0 ≤ mode ≤ GPIO_DM_OUTPUT → 0 ≤ i < FPIOA_NUM_IO →
  ch_sel d.(hs_pads) i = FUNC_GPIOHS0 + pin → bank_ok d.(gpiohs) →
  ∃ d', gpiohs_set_drive_mode pin mode d = Ok d' ∧ bank_ok d'.(gpiohs) ∧
    (∀ j, ch_sel d'.(hs_pads) j = ch_sel d.(hs_pads) j) ∧
    (∀ j, 0 ≤ j → hs_on OUTPUT_EN d' j = (if decide (j = pin) then mode =? GPIO_DM_OUTPUT else hs_on OUTPUT_EN d j) ∧
      hs_on INPUT_EN d' j = (if decide (j = pin) then negb (mode =? GPIO_DM_OUTPUT) else hs_on INPUT_EN d j)) ∧
    (∀ r, r ≠ OUTPUT_EN → r ≠ INPUT_EN → d'.(gpiohs) r = d.(gpiohs) r) ∧
    d'.(pin_instance) = d.(pin_instance) ∧ d'.(hs_irqs) = d.(hs_irqs).
Proof.
  intros Hp Hm Hi Hs Hok. unfold gpiohs_set_drive_mode, GPIOHS_MAX_PINNO.
  rewrite (proj2 (Z.ltb_lt _ _)) by lia. rewrite (proj2 (Z.leb_le _ _)) by (by apply (get_io_found _ i)).
  unfold GPIO_DM_OUTPUT in Hm |- *. cbn [negb].
  assert (∃ pull, drive_mode mode = Some (pull, if mode =? 3 then 1 else 0)) as [pull ->].
  { unfold drive_mode, GPIO_DM_INPUT, GPIO_DM_INPUT_PULL_DOWN, GPIO_DM_INPUT_PULL_UP, GPIO_DM_OUTPUT.
    destruct (Z.eqb_spec mode 0), (Z.eqb_spec mode 1), (Z.eqb_spec mode 2), (Z.eqb_spec mode 3);
      try lia; by eexists. }
  eexists. split; [done|]. unfold hs_on. cbn [gpiohs hs_pads pin_instance hs_irqs on_gpiohs set_hs_pads].
  split; [by repeat apply hs_bit_ok|]. split; [intros; apply set_io_pull_ch_sel|].
  split; [|split; [intros r ? ?; destruct (mode =? 3); cbn [negb Z.eqb]; by rewrite !hs_bit_ne by congruence|done]].
  intros j Hj. destruct (mode =? 3); cbn [negb Z.eqb]; split; hs_track;
    rewrite set_gpio_bit_testbit by (done || apply Hok); by case_decide.
Qed.
Lemma gpiohs_set_pin_ok pin value d :
  0 ≤ pin < 32 → bank_ok d.(gpiohs) →
  ∃ d', gpiohs_set_pin pin value d = Ok d' ∧ bank_ok d'.(gpiohs) ∧ d'.(hs_pads) = d.(hs_pads) ∧
    (∀ j, 0 ≤ j → hs_on OUTPUT_VAL d' j = if decide (j = pin) then Z.odd value else hs_on OUTPUT_VAL d j) ∧
    (∀ r, r ≠ OUTPUT_VAL → d'.(gpiohs) r = d.(gpiohs) r) ∧
    d'.(pin_instance) = d.(pin_instance) ∧ d'.(hs_irqs) = d.(hs_irqs).
Proof.
  intros Hp Hok. unfold gpiohs_set_pin, GPIOHS_MAX_PINNO. rewrite (proj2 (Z.ltb_lt _ _)) by lia.
  eexists. split; [done|]. unfold hs_on. cbn [gpiohs hs_pads pin_instance hs_irqs on_gpiohs].
  split; [by apply hs_bit_ok|]. split; [done|].
  split; [|split; [intros; by rewrite hs_bit_ne by congruence|done]].
  intros j Hj. rewrite hs_bit_eq, set_gpio_bit_testbit by (done || apply Hok). done.
Qed.
Lemma set_edge_ok pin edge b : bank_ok b → 0 ≤ pin < 32 → bank_ok (set_edge pin edge b).
Proof. intros. unfold set_edge. by repeat apply hs_bit_ok. Qed.
Lemma gpiohs_set_pin_edge_ok pin edge d :
  0 ≤ pin < 32 → bank_ok d.(gpiohs) →
  gpiohs_set_pin_edge pin edge d =
    Ok (set_pin_instance pin (PinInstance (inst_pin (d.(pin_instance) pin)) edge (inst_callback (d.(pin_instance) pin))
          (inst_gpiohs_callback (d.(pin_instance) pin)) (inst_context (d.(pin_instance) pin)))
          (on_gpiohs (set_edge pin edge) d)) ∧
  bank_ok (set_edge pin edge d.(gpiohs)).
Proof.
  intros Hp Hok. split; [|by apply set_edge_ok]. unfold gpiohs_set_pin_edge.
  by rewrite (proj2 (bad_pin_false _)) by lia.
Qed.

Lemma set_edge_enables pin edge b :
  bank_ok b → 0 ≤ pin < 32 →
  Forall (λ '(ie, ip, flag), ∀ j, 0 ≤ j →
    Z.testbit (set_edge pin edge b ie) j = (if decide (j = pin) then has_flag edge flag else Z.testbit (b ie) j) ∧
    Z.testbit (set_edge pin edge b ip) j = false) kinds.
Proof.
  intros Hb Hp. destruct (set_edge_spec pin edge b Hb Hp) as [Hk _].
  eapply Forall_impl; [exact Hk|]. intros [[ie ip] flag] [Hie Hip] j Hj. rewrite Hie, Hip, Z.bits_0. split; [|done].
  rewrite set_gpio_bit_testbit by (done || apply Hb).
  case_decide; [|done]. unfold edge_bit, has_flag. by destruct (_ =? 0).
Qed.

(** Choosing the edges of a pin enables on it exactly the interrupts whose flag is in
    the argument, and changes the enables of no other pin; but it clears the
    pending interrupts of every pin, because the acknowledgement stores back the
    other pending bits as ones.  Past pin 31 the code runs out of its table. *)
Theorem gpiohs_set_pin_edge_spec pin edge d :
  0 ≤ pin → bank_ok d.(gpiohs) →
  if bad_pin pin then gpiohs_set_pin_edge pin edge d = Fault FUB else
  ∃ d', gpiohs_set_pin_edge pin edge d = Ok d' ∧
    Forall (λ '(ie, ip, flag), ∀ j, 0 ≤ j →
      hs_on ie d' j = (if decide (j = pin) then has_flag edge flag else hs_on ie d j) ∧ hs_on ip d' j = false) kinds ∧
    (∀ r, interrupt_reg r = false → d'.(gpiohs) r = d.(gpiohs) r) ∧
    inst_edge (d'.(pin_instance) pin) = edge ∧ (∀ k, k ≠ pin → d'.(pin_instance) k = d.(pin_instance) k) ∧
    d'.(hs_pads) = d.(hs_pads) ∧ d'.(hs_irqs) = d.(hs_irqs).
Proof.
  intros Hp Hok. unfold gpiohs_set_pin_edge. destruct (bad_pin pin) eqn:Hbad; [done|]. apply bad_pin_false in Hbad.
  destruct (set_edge_spec pin edge d.(gpiohs) Hok ltac:(lia)) as [_ Hr].
  eexists. split; [done|]. cbn [pin_instance hs_pads hs_irqs set_pin_instance on_gpiohs].
  split; [by apply (set_edge_enables pin edge d.(gpiohs))|split; [exact Hr|split; [by rewrite fn_lookup_insert|split; [|done]]]].
  intros k Hk'. by rewrite fn_lookup_insert_ne by congruence.
Qed.

(** Callbacks that leave the driver alone, with their effect on the rest *)
Context (run0 : F → W → W) (run : H → option X → W → W).
Definition quiet0 (f : F) (s : gpiohs_drv F H X P * W) : gpiohs_drv F H X P * W := (fst s, run0 f (snd s)).
Definition quiet (f : H) (x : option X) (s : gpiohs_drv F H X P * W) : gpiohs_drv F H X P * W := (fst s, run f x (snd s)).

Lemma gpiohs_isr_quiet k d w :
  0 ≤ inst_pin (d.(pin_instance) k) < 32 →
  let i := d.(pin_instance) k in
  gpiohs_pin_onchange_isr quiet0 quiet k (d, w) =
    Ok (on_gpiohs (ack_edges i.(inst_edge) i.(inst_pin)) d,
        let w := match i.(inst_callback) with Some f => run0 f w | None => w end in
        match i.(inst_gpiohs_callback) with Some f => run f i.(inst_context) w | None => w end).
Proof.
  intros Hp. cbv zeta. unfold gpiohs_pin_onchange_isr. rewrite (proj2 (bad_pin_false _)) by lia.
  destruct (d.(pin_instance) k) as [p e [f|] [g|] x] eqn:Ei; cbn [fst on_gpiohs pin_instance inst_edge inst_pin];
    rewrite Ei; unfold quiet0, quiet; cbn [fst snd on_gpiohs pin_instance]; rewrite ?Ei; done.
Qed.
(** The interrupt handler of a pin.  It runs the plain callback and then the callback
    with its context, once each when installed; the interrupts the pin is
    registered for stay enabled.  It acknowledges them, but for all thirty-two
    pins: what is pending on another pin for the same kind of event is lost. *)
Theorem gpiohs_isr_loses_other_pins k d w :
  0 ≤ inst_pin (d.(pin_instance) k) < 32 → bank_ok d.(gpiohs) →
  let i := d.(pin_instance) k in
  ∃ d', gpiohs_pin_onchange_isr quiet0 quiet k (d, w) =
      Ok (d', let w := match i.(inst_callback) with Some f => run0 f w | None => w end in
              match i.(inst_gpiohs_callback) with Some f => run f i.(inst_context) w | None => w end) ∧
    Forall (λ '(ie, ip, flag), ∀ j, 0 ≤ j →
      hs_on ie d' j = (has_flag i.(inst_edge) flag && bool_decide (j = i.(inst_pin))) || hs_on ie d j ∧
      hs_on ip d' j = negb (has_flag i.(inst_edge) flag) && hs_on ip d j) kinds ∧
    (∀ r, interrupt_reg r = false → d'.(gpiohs) r = d.(gpiohs) r) ∧
    d'.(pin_instance) = d.(pin_instance) ∧ d'.(hs_irqs) = d.(hs_irqs).
Proof.
  intros Hp Hok. cbv zeta. rewrite (gpiohs_isr_quiet k d w Hp).
  destruct (ack_edges_spec (inst_pin (d.(pin_instance) k)) (inst_edge (d.(pin_instance) k)) d.(gpiohs) Hok Hp) as [Hk Hr].
  eexists. split; [done|]. split; [|by split].
  - eapply Forall_impl; [exact Hk|]. intros [[ie ip] flag] Hi j Hj. unfold hs_on. cbn [gpiohs on_gpiohs].
    destruct (has_flag _ flag); destruct Hi as [-> ->]; cbn [andb orb negb]; [|done].
    rewrite set_gpio_bit_testbit, Z.bits_0 by (done || apply Hok). split; [|done].
    case_decide; [by rewrite bool_decide_eq_true_2|by rewrite bool_decide_eq_false_2].
Qed.
End spec.

(** ** Witnesses *)
Definition demo_irqs : plic_t gpiohs_fn gpiohs_ptr := Plic (λ _, 0) (λ _, no_instance) false.
Definition demo_hs (k edge pending : Z) : gpiohs_drv nat nat nat (plic_t gpiohs_fn gpiohs_ptr) :=
  HsDrv (λ r, match r with FALL_IP => pending | _ => 0 end)
    (λ j, if j =? k then PinInstance k edge (Some 1%nat) (Some 2%nat) (Some 3%nat) else zero_instance)
    (λ _, 0) demo_irqs.
Lemma demo_hs_ok k edge pending : in_width 32 pending → bank_ok (gpiohs (demo_hs k edge pending)).
Proof. by intros ? []. Qed.
(** Pin 7 takes falling edges while one is pending on pin 3 (bit 3 of 0x88). *)
Lemma gpiohs_set_pin_edge_spec_witness :
  ∃ d', gpiohs_set_pin_edge 7 GPIO_PE_FALLING (demo_hs 7 0 0x88) = Ok d' ∧
    hs_on FALL_IE d' 7 = true ∧ hs_on FALL_IP (demo_hs 7 0 0x88) 3 = true ∧ hs_on FALL_IP d' 3 = false.
Proof.
  destruct (gpiohs_set_pin_edge_spec 7 GPIO_PE_FALLING (demo_hs 7 0 0x88) ltac:(done) (demo_hs_ok 7 0 0x88 ltac:(done)))
    as (d' & E & Hk & _).
  exists d'. split; [exact E|]. apply Forall_cons in Hk as [Hk _].
  split; [exact (proj1 (Hk 7 ltac:(done)))|]. split; [done|]. exact (proj2 (Hk 3 ltac:(done))).
Defined.
Lemma gpiohs_isr_loses_other_pins_witness :
  ∃ d', gpiohs_pin_onchange_isr (quiet0 (λ f w, f :: w)) (quiet (λ f x w, f :: w)) 7
      (demo_hs 7 GPIO_PE_FALLING 0x88, []) = Ok (d', [2; 1]%nat) ∧
    hs_on FALL_IP (demo_hs 7 GPIO_PE_FALLING 0x88) 3 = true ∧ hs_on FALL_IP d' 3 = false.
Proof.
  destruct (gpiohs_isr_loses_other_pins (λ f w, f :: w) (λ f x w, f :: w) 7 (demo_hs 7 GPIO_PE_FALLING 0x88) []
    ltac:(done) (demo_hs_ok 7 GPIO_PE_FALLING 0x88 ltac:(done))) as (d' & E & Hk & _).
  exists d'. split; [exact E|]. apply Forall_cons in Hk as [Hk _]. split; [done|]. exact (proj2 (Hk 3 ltac:(done))).
Defined.
