(* ===== verification/Pins.v ===== *)
(** * Digital pins (k210-hal-gpio.c, wiring.c)

    The Arduino pin functions.  A table lends the 32 high-speed GPIO functions to
    the 48 pins, the least recently used one to the next pin that asks; the
    multiplexer connects it, and reads and writes go through the table. *)

From S2P Require Import Prelude SysctlRegs FpioaTable Fpioa Plic Gpio Gpiohs.
From stdpp Require Import list sorting.
#[local] Open Scope Z_scope.

Definition GPIOHS_FUNC_SIZE : Z := 32.
Definition LOW : Z := 0.
Definition HIGH : Z := 1.
Definition CHANGE : Z := 2.
Definition FALLING : Z := 3.
Definition RISING : Z := 4.
Definition INPUT : Z := 0.
Definition OUTPUT : Z := 1.
Definition INPUT_PULLUP : Z := 2.
Definition INPUT_PULLDOWN : Z := 3.
Definition OUTPUT_OPENDRAIN : Z := 4.
Definition LSBFIRST : Z := 0.
Definition MSBFIRST : Z := 1.

Record gpiohs_func_info_t := FuncInfo { last_time : Z; func : Z; pin : Z }.
#[export] Instance func_info_eq_dec : EqDecision gpiohs_func_info_t.
Proof. solve_decision. Defined.
(** [comp_gpiohs_func_tab] *)
Definition comp_gpiohs_func_tab (i1 i2 : gpiohs_func_info_t) : Z :=
  if i2.(last_time) <? i1.(last_time) then 1 else -1.
(** [onPinInterrupt] and [&__pinInterruptHandlers[k]] *)
Inductive pin_fn : Set := onPinInterrupt_fn.
Inductive pin_ptr : Set := pinInterruptHandler_ptr (k : Z).

Section pins.
Context {F G A P W : Type} `{IrqController P gpiohs_fn gpiohs_ptr}.
(** The C library's [qsort], the microsecond clock and the input register *)
Context (qsort : (gpiohs_func_info_t → gpiohs_func_info_t → Z) → list gpiohs_func_info_t → list gpiohs_func_info_t).
Context (sysctl_get_time_us : W → Z * W) (read_input_val : W → Z * W).

Record InterruptHandle_t := InterruptHandle { fn : option F; arg : option A }.
Record pins_t := Pins {
  hs : gpiohs_drv G pin_fn pin_ptr P;
  pin_func_map : Z → Z;
  gpiohs_func_table : list gpiohs_func_info_t;
  pinInterruptHandlers : Z → InterruptHandle_t;
  world : W
}.
Definition set_hs d (s : pins_t) : pins_t :=
  Pins d s.(pin_func_map) s.(gpiohs_func_table) s.(pinInterruptHandlers) s.(world).
Definition set_table t (s : pins_t) : pins_t :=
  Pins s.(hs) s.(pin_func_map) t s.(pinInterruptHandlers) s.(world).
Definition set_world w (s : pins_t) : pins_t :=
  Pins s.(hs) s.(pin_func_map) s.(gpiohs_func_table) s.(pinInterruptHandlers) w.
Definition set_handler k h (s : pins_t) : pins_t :=
  Pins s.(hs) s.(pin_func_map) s.(gpiohs_func_table) (<[k := h]> s.(pinInterruptHandlers)) s.(world).
Definition on_hal (f : hal_pads → hal_pads) (s : pins_t) : pins_t :=
  let h := f (HalPads s.(pin_func_map) s.(hs).(hs_pads)) in
  Pins (set_hs_pads h.(mux) s.(hs)) h.(k210_pin_func_map) s.(gpiohs_func_table) s.(pinInterruptHandlers) s.(world).
Definition get_time (s : pins_t) : Z * pins_t :=
  let '(t, w) := sysctl_get_time_us s.(world) in (t, set_world w s).

(** ** The table of functions *)
Definition initPins (s : pins_t) : pins_t :=
  set_table ((λ i, FuncInfo 0 (FUNC_GPIOHS0 + i) 255) <$> seqZ 0 GPIOHS_FUNC_SIZE) s.
Definition hal_gpiohs_set_pin_func (pinNumber : Z) (s : pins_t) : Z * pins_t :=
  if K210_IO_NUMS <=? pinNumber then (FUNC_MAX, s) else
  match qsort comp_gpiohs_func_tab s.(gpiohs_func_table) with
  | e :: rest =>
      let '(t, s) := get_time s in
      let s := set_table (FuncInfo t e.(func) pinNumber :: rest) s in
      (e.(func), on_hal (hal_fpioa_set_pin_func pinNumber e.(func)) s)
  | [] => (FUNC_MAX, s)
  end.
(** The first entry of the table with this pin *)
Definition find_pin (pinNumber : Z) (t : list gpiohs_func_info_t) : option (nat * gpiohs_func_info_t) :=
  list_find (λ e, pinNumber = e.(pin)) t.
Definition hal_gpiohs_get_pin_func (pinNumber : Z) (s : pins_t) : Z * pins_t :=
  match find_pin pinNumber s.(gpiohs_func_table) with
  | Some (i, e) =>
      let '(t, s) := get_time s in
      (e.(func), set_table (<[i := FuncInfo t e.(func) e.(pin)]> s.(gpiohs_func_table)) s)
  | None => (FUNC_MAX, s)
  end.
Definition hal_gpiohs_clr_pin_func (pinNumber : Z) (s : pins_t) : pins_t :=
  match find_pin pinNumber s.(gpiohs_func_table) with
  | Some (i, e) =>
      let s := on_hal (hal_fpioa_clr_pin_func pinNumber) s in
      set_table (<[i := FuncInfo 0 e.(func) 255]> s.(gpiohs_func_table)) s
  | None => s
  end.

(** ** wiring.c *)
Definition is_gpiohs (func : Z) : bool := (FUNC_GPIOHS0 <=? func) && (func <=? FUNC_GPIOHS31).
Definition on_hs (f : gpiohs_drv G pin_fn pin_ptr P → res (gpiohs_drv G pin_fn pin_ptr P)) (s : pins_t) : res pins_t :=
  d ← f s.(hs); Ok (set_hs d s).
Definition drive_of (mode : Z) : Z :=
  if mode =? INPUT then GPIO_DM_INPUT else if mode =? INPUT_PULLUP then GPIO_DM_INPUT_PULL_UP
  else if mode =? INPUT_PULLDOWN then GPIO_DM_INPUT_PULL_DOWN else GPIO_DM_OUTPUT.
Definition pinMode (pinNumber mode : Z) (s : pins_t) : res pins_t :=
  if K210_IO_NUMS <=? pinNumber then Ok s else
  let '(func, s) := hal_gpiohs_set_pin_func pinNumber s in
  if is_gpiohs func then on_hs (gpiohs_set_drive_mode (func - FUNC_GPIOHS0) (drive_of mode)) s else Ok s.
Definition pinModeClear (pinNumber : Z) (s : pins_t) : pins_t := hal_gpiohs_clr_pin_func pinNumber s.
Definition digitalWrite (pinNumber status : Z) (s : pins_t) : res pins_t :=
  if K210_IO_NUMS <=? pinNumber then Ok s else
  let '(func, s) := hal_gpiohs_get_pin_func pinNumber s in
  if is_gpiohs func
  then on_hs (gpiohs_set_pin (func - FUNC_GPIOHS0) (if status =? LOW then GPIO_PV_LOW else GPIO_PV_HIGH)) s
  else Ok s.
Definition digitalRead (pinNumber : Z) (s : pins_t) : res (Z * pins_t) :=
  if K210_IO_NUMS <=? pinNumber then Ok (LOW, s) else
  let '(func, s) := hal_gpiohs_get_pin_func pinNumber s in
  if is_gpiohs func then
    let '(v, w) := read_input_val s.(world) in
    val ← gpiohs_get_pin v (func - FUNC_GPIOHS0);
    Ok (if val =? GPIO_PV_LOW then LOW else HIGH, set_world w s)
  else Ok (LOW, s).
Definition analogRead (pinNumber : Z) : Z := -1.

(** ** Pin interrupts *)
Section interrupt.
Context {X : Type} (handlers : Z → InterruptHandle_t) (call : F → option A → X → X).
(** [isr] points into [__pinInterruptHandlers]. *)
Definition onPinInterrupt (isr : pin_ptr) (w : X) : X :=
  let '(pinInterruptHandler_ptr k) := isr in
  match (handlers k).(fn) with
  | Some f => call f (handlers k).(arg) w
  | None => w
  end.
(** What the driver calls through the pointer it was given *)
Definition pin_call (f : pin_fn) (context : option pin_ptr) (w : X) : X :=
  match f, context with onPinInterrupt_fn, Some isr => onPinInterrupt isr w | onPinInterrupt_fn, None => w end.
End interrupt.
Definition edge_of (mode : Z) : Z :=
  if mode =? LOW then GPIO_PE_LOW else if mode =? HIGH then GPIO_PE_HIGH
  else if mode =? CHANGE then GPIO_PE_BOTH else if mode =? FALLING then GPIO_PE_FALLING
  else if mode =? RISING then GPIO_PE_RISING else GPIO_PE_NONE.
Definition attachInterruptFunctionalParam (pinNumber : Z) (callback : option F) (mode : Z) (param : option A)
    (s : pins_t) : res pins_t :=
  if K210_IO_NUMS <=? pinNumber then Ok s else
  let '(func, s) := hal_gpiohs_get_pin_func pinNumber s in
  if is_gpiohs func then
    let s := set_handler pinNumber (InterruptHandle callback param) s in
    s ← on_hs (gpiohs_set_pin_edge (func - FUNC_GPIOHS0) (edge_of mode)) s;
    on_hs (gpiohs_irq_register (func - FUNC_GPIOHS0) 1 (Some onPinInterrupt_fn)
             (Some (pinInterruptHandler_ptr pinNumber))) s
  else Ok s.
Definition attachInterrupt (pinNumber : Z) (callback : option F) (mode : Z) : pins_t → res pins_t :=
  attachInterruptFunctionalParam pinNumber callback mode None.
Definition attachInterruptParam (pinNumber : Z) (callback : option F) (mode : Z) (param : option A) :
    pins_t → res pins_t :=
  attachInterruptFunctionalParam pinNumber callback mode param.
Definition detachInterrupt (pinNumber : Z) (s : pins_t) : res pins_t :=
  if K210_IO_NUMS <=? pinNumber then Ok s else
  let '(func, s) := hal_gpiohs_get_pin_func pinNumber s in
  if is_gpiohs func then
    s ← on_hs (gpiohs_set_pin_edge (func - FUNC_GPIOHS0) GPIO_PE_NONE) s;
    on_hs (gpiohs_irq_unregister (func - FUNC_GPIOHS0)) s
  else Ok s.

(** ** Shifting bytes on two pins *)
Definition shift_pos (bitOrder i : Z) : Z := if bitOrder =? LSBFIRST then i else 7 - i.
Definition clock_pulse (clockPin : Z) (s : pins_t) : res pins_t :=
  s ← digitalWrite clockPin HIGH s; digitalWrite clockPin LOW s.
Definition shiftIn (dataPin clockPin bitOrder : Z) (s : pins_t) : res (Z * pins_t) :=
  foldl (λ r i,
    '(value, s) ← r;
    '(b, s) ← digitalRead dataPin s;
    s ← clock_pulse clockPin s;
    Ok (u8 (Z.lor value (Z.shiftl b (shift_pos bitOrder i))), s)) (Ok (0, s)) (seqZ 0 8).
Definition shiftOut (dataPin clockPin bitOrder val : Z) (s : pins_t) : res pins_t :=
  foldl (λ r i,
    s ← r;
    s ← digitalWrite dataPin (if Z.land val (Z.shiftl 1 (shift_pos bitOrder i)) =? 0 then LOW else HIGH) s;
    clock_pulse clockPin s) (Ok s) (seqZ 0 8).
End pins.
Arguments InterruptHandle_t : clear implicits.
Arguments pins_t : clear implicits.

(** ** The table and the multiplexer agree *)
Section spec.
Context {F G A P W : Type} `{IrqController P gpiohs_fn gpiohs_ptr}.
Context (qsort : (gpiohs_func_info_t → gpiohs_func_info_t → Z) → list gpiohs_func_info_t → list gpiohs_func_info_t).
Context (sysctl_get_time_us : W → Z * W) (read_input_val : W → Z * W).
(** What the C library documents of [qsort]: when it returns, the array has been reordered.
    The comparison function never returns 0, so it orders a table consistently only when
    no two times are equal; that [qsort] sorts is assumed of such tables alone, and only
    where it is needed. *)
Context (qsort_permutes : ∀ t, qsort comp_gpiohs_func_tab t ≡ₚ t).
Implicit Types s : pins_t F G A P W.
Implicit Types e : gpiohs_func_info_t.

Definition functions : list Z := seqZ FUNC_GPIOHS0 GPIOHS_FUNC_SIZE.
Abbreviation all_funcs s := (func <$> s.(gpiohs_func_table) ≡ₚ functions).
(** The table holds every function once, and a function lent to a pin is the one
    the multiplexer connects to it. *)
Record table_ok s : Prop := {
  t_funcs : all_funcs s;
  t_pins e : e ∈ s.(gpiohs_func_table) → e.(pin) = 255 ∨
    0 ≤ e.(pin) < K210_IO_NUMS ∧ ch_sel s.(hs).(hs_pads) e.(pin) = e.(func) ∧ s.(pin_func_map) e.(pin) = e.(func)
}.
Definition pins_inv s : Prop := table_ok s ∧ bank_ok s.(hs).(gpiohs).
Definition bound s (p : Z) : Prop := p ∈ pin <$> s.(gpiohs_func_table).

Lemma t_range s e : all_funcs s → e ∈ s.(gpiohs_func_table) → FUNC_GPIOHS0 ≤ e.(func) ≤ FUNC_GPIOHS31.
Proof.
  intros Hf He. apply (list_elem_of_fmap_2 func) in He. rewrite Hf in He.
  apply elem_of_seqZ in He. change FUNC_GPIOHS31 with (FUNC_GPIOHS0 + 31); unfold GPIOHS_FUNC_SIZE in *. lia.
Qed.
Lemma funcs_nodup s : all_funcs s → NoDup (func <$> s.(gpiohs_func_table)).
Proof. intros ->. apply NoDup_seqZ. Qed.
(** A function is lent once. *)
Lemma func_index s i j e1 e2 :
  table_ok s → s.(gpiohs_func_table) !! i = Some e1 → s.(gpiohs_func_table) !! j = Some e2 →
  e1.(func) = e2.(func) → i = j.
Proof.
  intros Hs Hi Hj Hf. eapply NoDup_lookup; [apply funcs_nodup, Hs|rewrite list_lookup_fmap, Hi; done|].
  by rewrite list_lookup_fmap, Hj, Hf.
Qed.
Lemma pin_index s i j e1 e2 :
  table_ok s → s.(gpiohs_func_table) !! i = Some e1 → s.(gpiohs_func_table) !! j = Some e2 →
  e1.(pin) = e2.(pin) → e1.(pin) ≠ 255 → i = j.
Proof.
  intros Hs Hi Hj Hp Hne. eapply func_index; [done..|].
  destruct (t_pins _ Hs e1) as [?|(_ & <- & _)]; [by eapply list_elem_of_lookup_2|done|].
  destruct (t_pins _ Hs e2) as [?|(_ & <- & _)]; [by eapply list_elem_of_lookup_2|congruence|].
  by rewrite Hp.
Qed.
Lemma find_pin_Some p (t : list gpiohs_func_info_t) i e :
  find_pin p t = Some (i, e) → t !! i = Some e ∧ e.(pin) = p ∧ e ∈ t.
Proof.
  intros (Hi & Hp & _)%list_find_Some. split; [done|]. split; [done|]. by eapply list_elem_of_lookup_2.
Qed.
Lemma find_pin_None p (t : list gpiohs_func_info_t) : find_pin p t = None ↔ p ∉ pin <$> t.
Proof.
  unfold find_pin. rewrite list_find_None, Forall_forall. split.
  - intros Hf (e & -> & He)%list_elem_of_fmap. by apply (Hf e).
  - intros Hn e He ->. apply Hn. by apply list_elem_of_fmap_2.
Qed.
Lemma find_pin_head p e (t : list gpiohs_func_info_t) : e.(pin) = p → find_pin p (e :: t) = Some (0%nat, e).
Proof. intros <-. unfold find_pin. cbn [list_find]. by rewrite decide_True. Qed.

Lemma is_gpiohs_entry s e : all_funcs s → e ∈ s.(gpiohs_func_table) → is_gpiohs e.(func) = true.
Proof.
  intros Hs He. pose proof (t_range s e Hs He). unfold is_gpiohs.
  rewrite andb_true_iff, !Z.leb_le. lia.
Qed.
Lemma is_gpiohs_max : is_gpiohs FUNC_MAX = false.
Proof. done. Qed.

(** Refreshing the time of an entry *)
Lemma table_touch s i e t :
  table_ok s → s.(gpiohs_func_table) !! i = Some e →
  func <$> <[i := FuncInfo t e.(func) e.(pin)]> s.(gpiohs_func_table) ≡ₚ functions ∧
  ∀ e', e' ∈ <[i := FuncInfo t e.(func) e.(pin)]> s.(gpiohs_func_table) →
    ∃ e0, e0 ∈ s.(gpiohs_func_table) ∧ e'.(func) = e0.(func) ∧ e'.(pin) = e0.(pin).
Proof.
  intros [Hf _] Hi. split.
  - rewrite list_fmap_insert. cbn [func]. rewrite list_insert_id; [done|]. by rewrite list_lookup_fmap, Hi.
  - intros e' (j & Hj)%list_elem_of_lookup. destruct (decide (i = j)) as [->|].
    + rewrite list_lookup_insert_eq in Hj by (by eapply lookup_lt_Some). injection Hj as <-.
      exists e. split; [by eapply list_elem_of_lookup_2|done].
    + rewrite list_lookup_insert_ne in Hj by done. exists e'. split; [by eapply list_elem_of_lookup_2|done].
Qed.
(** [hal_gpiohs_get_pin_func] finds the function of the pin and moves nothing. *)
Lemma get_pin_func_spec p s :
  table_ok s →
  let '(f, s') := hal_gpiohs_get_pin_func sysctl_get_time_us p s in
  table_ok s' ∧ s'.(hs) = s.(hs) ∧ s'.(pinInterruptHandlers) = s.(pinInterruptHandlers) ∧
  (∀ q, bound s' q ↔ bound s q) ∧
  f = match find_pin p s.(gpiohs_func_table) with Some (_, e) => e.(func) | None => FUNC_MAX end.
Proof.
  intros Hs. unfold hal_gpiohs_get_pin_func. destruct (find_pin p _) as [[i e]|] eqn:E; [|done].
  apply find_pin_Some in E as (Hi & Hp & He). unfold get_time.
  destruct (sysctl_get_time_us (world s)) as [t w]. cbn [gpiohs_func_table set_world hs pinInterruptHandlers set_table].
  destruct (table_touch s i e t Hs Hi) as [Hf Ht]. split; [|split; [done|split; [done|split; [|done]]]].
  - constructor; [exact Hf|]. intros e' He'. cbn [gpiohs_func_table set_table] in He'.
    destruct (Ht e' He') as (e0 & H0 & -> & ->). exact (t_pins _ Hs e0 H0).
  - intros q. unfold bound. cbn [gpiohs_func_table set_table]. rewrite list_fmap_insert. cbn [pin].
    rewrite list_insert_id; [done|]. by rewrite list_lookup_fmap, Hi.
Qed.

(** Lending: the first function that [qsort] leaves in the table goes to the pin. *)
Lemma set_pin_func_spec p s :
  all_funcs s → 0 ≤ p < K210_IO_NUMS →
  ∃ e t rest, qsort comp_gpiohs_func_tab s.(gpiohs_func_table) = e :: rest ∧
    e ∈ s.(gpiohs_func_table) ∧
    let '(f, s') := hal_gpiohs_set_pin_func qsort sysctl_get_time_us p s in
    f = e.(func) ∧ s'.(gpiohs_func_table) = FuncInfo t e.(func) p :: rest ∧
    s'.(hs) = set_hs_pads (snd (fpioa_set_function p e.(func) s.(hs).(hs_pads))) s.(hs) ∧
    s'.(pin_func_map) = <[p := e.(func)]> s.(pin_func_map).
Proof.
  intros Hs Hp. pose proof (qsort_permutes s.(gpiohs_func_table)) as Hperm.
  destruct (qsort comp_gpiohs_func_tab _) as [|e rest] eqn:E.
  { apply Permutation_nil_l in Hperm. pose proof Hs as Hf. rewrite <-Hperm in Hf.
    by apply Permutation_nil_l in Hf. }
  exists e, (fst (sysctl_get_time_us s.(world))), rest. split; [done|].
  split; [rewrite <-Hperm; apply list_elem_of_here|].
  unfold hal_gpiohs_set_pin_func. rewrite E, (proj2 (Z.leb_gt _ _)) by lia. unfold get_time.
  destruct (sysctl_get_time_us (world s)) as [t w]. cbn [fst]. split; [done|]. split; [done|].
  unfold on_hal, hal_fpioa_set_pin_func. cbn [set_table set_world hs pin_func_map mux k210_pin_func_map].
  rewrite (proj2 (Z.ltb_lt _ _)) by lia. done.
Qed.
Lemma funcs_ok f : FUNC_GPIOHS0 ≤ f ≤ FUNC_GPIOHS31 → 0 ≤ f < FUNC_MAX ∧ f ≠ FUNC_RESV0.
Proof. unfold FUNC_GPIOHS31, FUNC_GPIOHS0, FUNC_MAX, FUNC_RESV0. lia. Qed.
Lemma set_pin_func_ok p s :
  table_ok s → 0 ≤ p < K210_IO_NUMS → ¬ bound s p →
  table_ok (snd (hal_gpiohs_set_pin_func qsort sysctl_get_time_us p s)).
Proof.
  intros Hs Hp Hb. destruct (set_pin_func_spec p s (t_funcs _ Hs) Hp) as (e & t & rest & Eq & He & Hst).
  destruct (hal_gpiohs_set_pin_func _ _ p s) as [f s']. destruct Hst as (-> & Ht & Hhs & Hmap). cbn [snd].
  pose proof (qsort_permutes s.(gpiohs_func_table)) as Hperm. rewrite Eq in Hperm.
  destruct (funcs_ok _ (t_range s e (t_funcs _ Hs) He)) as [Hef Hne].
  constructor.
  - rewrite Ht. cbn [fmap list_fmap func]. rewrite <-(t_funcs _ Hs), <-Hperm. done.
  - intros e' He'. rewrite Ht in He'. rewrite Hhs, Hmap. cbn [set_hs_pads hs_pads].
    apply elem_of_cons in He' as [->|He']; [right; cbn [pin func]|].
    { split; [done|]. rewrite set_function_ch_sel by done. by rewrite decide_True, fn_lookup_insert. }
    assert (e' ∈ s.(gpiohs_func_table)) as He0 by (rewrite <-Hperm; by apply list_elem_of_further).
    destruct (t_pins _ Hs e' He0) as [?|(Hr & Hc & Hm)]; [by left|right].
    assert (e'.(pin) ≠ p) as Hnp by (intros <-; apply Hb; by apply list_elem_of_fmap_2).
    assert (e'.(func) ≠ e.(func)) as Hnf.
    { pose proof (funcs_nodup s (t_funcs _ Hs)) as Hnd. rewrite <-Hperm in Hnd. cbn [fmap list_fmap] in Hnd.
      apply NoDup_cons in Hnd as [Hn _]. intros Heq. apply Hn. rewrite <-Heq. by apply list_elem_of_fmap_2. }
    split; [done|]. rewrite set_function_ch_sel by done.
    rewrite decide_False, decide_False, fn_lookup_insert_ne by (done || congruence || (intros [_ ?]; congruence)). done.
Qed.
(** Returning a function *)
Lemma clr_pin_func_ok p s : pins_inv s → pins_inv (hal_gpiohs_clr_pin_func p s).
Proof.
  intros [Hs Hok]. unfold hal_gpiohs_clr_pin_func. destruct (find_pin p _) as [[i e]|] eqn:E; [|done].
  apply find_pin_Some in E as (Hi & Hp & He).
  set (s1 := on_hal (hal_fpioa_clr_pin_func p) s).
  assert (s1.(hs) = s.(hs)) as Hhs.
  { unfold s1, on_hal, hal_fpioa_clr_pin_func. destruct (p <? K210_IO_NUMS); cbn; by destruct (hs s). }
  assert (∀ q, q ≠ p → s1.(pin_func_map) q = s.(pin_func_map) q) as Hmap.
  { intros q Hq. unfold s1, on_hal, hal_fpioa_clr_pin_func.
    destruct (p <? K210_IO_NUMS); cbn [pin_func_map k210_pin_func_map]; [|done]. by rewrite fn_lookup_insert_ne by congruence. }
  split; [constructor|by cbn [set_table hs]; rewrite Hhs].
  - cbn [set_table gpiohs_func_table]. change (gpiohs_func_table s1) with (gpiohs_func_table s).
    rewrite list_fmap_insert. cbn [func]. rewrite list_insert_id; [by apply t_funcs|]. by rewrite list_lookup_fmap, Hi.
  - cbn [set_table gpiohs_func_table hs pin_func_map]. change (gpiohs_func_table s1) with (gpiohs_func_table s).
    rewrite Hhs. intros e' (j & Hj)%list_elem_of_lookup. destruct (decide (i = j)) as [<-|Hij].
    { rewrite list_lookup_insert_eq in Hj by (by eapply lookup_lt_Some). injection Hj as <-. by left. }
    rewrite list_lookup_insert_ne in Hj by done.
    destruct (t_pins _ Hs e') as [?|(Hr & Hc & Hm)]; [by eapply list_elem_of_lookup_2|by left|right].
    split; [done|]. split; [done|]. rewrite Hmap; [done|]. intros Heq. apply Hij.
    apply (pin_index s i j e e'); [done..|congruence|]. rewrite Hp, <-Heq. unfold K210_IO_NUMS in Hr. lia.
Qed.

(** ** The pin functions *)
Lemma table_ok_hs s d :
  (∀ i, ch_sel d.(hs_pads) i = ch_sel s.(hs).(hs_pads) i) → table_ok s → table_ok (set_hs d s).
Proof.
  intros Hd [Hf Hp]. constructor; [done|]. intros e He. cbn [set_hs hs pin_func_map gpiohs_func_table] in *.
  rewrite Hd. by apply Hp.
Qed.
Lemma drive_of_range mode : 0 ≤ drive_of mode ≤ GPIO_DM_OUTPUT.
Proof. unfold drive_of. by repeat case_match. Qed.
(** The pin drives its line. *)
Definition drives s (f : Z) : bool := hs_on OUTPUT_EN s.(hs) (f - FUNC_GPIOHS0).

Lemma pinMode_lends p mode s :
  pins_inv s → 0 ≤ p < K210_IO_NUMS → ¬ bound s p →
  ∃ e rest s', pinMode qsort sysctl_get_time_us p mode s = Ok s' ∧ pins_inv s' ∧
    qsort comp_gpiohs_func_tab s.(gpiohs_func_table) = e :: rest ∧ e ∈ s.(gpiohs_func_table) ∧
    (∀ i, 0 ≤ i < K210_IO_NUMS → ch_sel s'.(hs).(hs_pads) i = e.(func) ↔ i = p) ∧
    (∃ t, find_pin p s'.(gpiohs_func_table) = Some (0%nat, FuncInfo t e.(func) p)) ∧
    drives s' e.(func) = (drive_of mode =? GPIO_DM_OUTPUT) ∧
    (∀ f, FUNC_GPIOHS0 ≤ f → f ≠ e.(func) → drives s' f = drives s f) ∧
    s'.(hs).(gpiohs) OUTPUT_VAL = s.(hs).(gpiohs) OUTPUT_VAL.
Proof.
  intros [Hs Hok] Hp Hb. pose proof (set_pin_func_ok p s Hs Hp Hb) as Hs1.
  destruct (set_pin_func_spec p s (t_funcs _ Hs) Hp) as (e & t & rest & Eq & He & Hst).
  pose proof (t_range s e (t_funcs _ Hs) He) as Hr. destruct (funcs_ok _ Hr) as [Hef Hne].
  unfold pinMode. rewrite (proj2 (Z.leb_gt _ _)) by lia.
  destruct (hal_gpiohs_set_pin_func _ _ p s) as [f s1]. cbn [snd] in Hs1. destruct Hst as (-> & Ht & Hhs & _).
  rewrite (is_gpiohs_entry s e (t_funcs _ Hs) He).
  assert (∀ i, 0 ≤ i < K210_IO_NUMS → ch_sel s1.(hs).(hs_pads) i = e.(func) ↔ i = p) as Hch.
  { intros i Hi. rewrite Hhs. cbn [set_hs_pads hs_pads]. rewrite set_function_ch_sel by done.
    repeat case_decide; naive_solver. }
  destruct (gpiohs_set_drive_mode_spec (e.(func) - FUNC_GPIOHS0) (drive_of mode) p s1.(hs))
    as (d & E & Hok' & Hcs & Hdir & Hreg & _).
  { change FUNC_GPIOHS31 with (FUNC_GPIOHS0 + 31) in Hr. lia. }
  { apply drive_of_range. }
  { done. }
  { rewrite (proj2 (Hch p Hp) eq_refl). lia. }
  { rewrite Hhs. exact Hok. }
  exists e, rest, (set_hs d s1). unfold on_hs. rewrite E. split; [done|].
  split; [split; [by apply table_ok_hs|exact Hok']|]. split; [done|]. split; [done|].
  split; [intros i Hi; cbn [set_hs hs]; rewrite Hcs; by apply Hch|].
  split; [exists t; cbn [set_hs gpiohs_func_table]; rewrite Ht; by apply find_pin_head|].
  unfold drives. cbn [set_hs hs]. split; [|split].
  - rewrite (proj1 (Hdir (e.(func) - FUNC_GPIOHS0) ltac:(lia))). by rewrite decide_True.
  - intros f Hf Hfe. rewrite (proj1 (Hdir (f - FUNC_GPIOHS0) ltac:(lia))), decide_False by lia. by rewrite Hhs.
  - rewrite Hreg by done. by rewrite Hhs.
Qed.

Lemma pinMode_ok p mode s :
  pins_inv s → 0 ≤ p < K210_IO_NUMS → ¬ bound s p →
  ∃ s', pinMode qsort sysctl_get_time_us p mode s = Ok s' ∧ pins_inv s'.
Proof. intros Hs Hp Hb. destruct (pinMode_lends p mode s Hs Hp Hb) as (e & rest & s' & E & Hs' & _). by exists s'. Qed.

(** [digitalWrite].  It never fails.  When a function is lent to the pin, the
    multiplexer connects that function to it, and the call changes the output value of
    that function, high for every status but [LOW], and of no other; otherwise
    nothing at all changes on the pins. *)
Lemma digitalWrite_spec p status s :
  pins_inv s → 0 ≤ p < K210_IO_NUMS →
  ∃ s', digitalWrite sysctl_get_time_us p status s = Ok s' ∧ pins_inv s' ∧ (∀ q, bound s' q ↔ bound s q) ∧
    s'.(hs).(hs_pads) = s.(hs).(hs_pads) ∧ (∀ r, r ≠ OUTPUT_VAL → s'.(hs).(gpiohs) r = s.(hs).(gpiohs) r) ∧
    match find_pin p s.(gpiohs_func_table) with
    | Some (_, e) => ch_sel s.(hs).(hs_pads) p = e.(func) ∧
        ∀ j, 0 ≤ j → hs_on OUTPUT_VAL s'.(hs) j =
          if decide (j = e.(func) - FUNC_GPIOHS0) then negb (status =? LOW) else hs_on OUTPUT_VAL s.(hs) j
    | None => s'.(hs) = s.(hs)
    end.
Proof.
  intros [Hs Hok] Hp. unfold digitalWrite. rewrite (proj2 (Z.leb_gt _ _)) by lia.
  pose proof (get_pin_func_spec p s Hs) as Hg. destruct (hal_gpiohs_get_pin_func _ p s) as [f s1].
  destruct Hg as (Hs1 & Hhs & _ & Hb & ->). destruct (find_pin p _) as [[i e]|] eqn:E.
  - apply find_pin_Some in E as (Hi & Hpe & He). rewrite (is_gpiohs_entry s e (t_funcs _ Hs) He).
    pose proof (t_range s e (t_funcs _ Hs) He) as Hr. change FUNC_GPIOHS31 with (FUNC_GPIOHS0 + 31) in Hr.
    destruct (gpiohs_set_pin_ok (e.(func) - FUNC_GPIOHS0) (if status =? LOW then GPIO_PV_LOW else GPIO_PV_HIGH) s1.(hs))
      as (d & Ed & Hokd & Hpads & Hval & Hreg & _); [lia|by rewrite Hhs|].
    exists (set_hs d s1). unfold on_hs. rewrite Ed. split; [done|].
    split; [split; [apply table_ok_hs; [intros; by rewrite Hpads|done]|exact Hokd]|].
    split; [exact Hb|]. cbn [set_hs hs]. rewrite Hpads, Hhs in *. split; [done|]. split; [done|]. split.
    + destruct (t_pins _ Hs e He) as [?|(_ & Hc & _)]; [|by rewrite <-Hpe].
      exfalso. unfold K210_IO_NUMS in Hp. lia.
    + intros j Hj. rewrite (Hval j Hj). case_decide; [by destruct (status =? LOW)|done].
  - rewrite is_gpiohs_max. exists s1. split; [done|]. split; [by split; [|rewrite Hhs]|].
    rewrite Hhs. by split_and!.
Qed.

(** ** Every operation keeps table and multiplexer in agreement *)
Definition keeps (m : pins_t F G A P W → res (pins_t F G A P W)) : Prop :=
  ∀ s, pins_inv s → ∃ s', m s = Ok s' ∧ pins_inv s'.
(** Calls that go to the function of a pin, if it has one *)
Lemma keeps_lookup p (k : Z → pins_t F G A P W → res (pins_t F G A P W)) :
  (∀ f s, FUNC_GPIOHS0 ≤ f ≤ FUNC_GPIOHS31 → pins_inv s → ∃ s', k f s = Ok s' ∧ pins_inv s') →
  keeps (λ s, if K210_IO_NUMS <=? p then Ok s else
    let '(f, s) := hal_gpiohs_get_pin_func sysctl_get_time_us p s in if is_gpiohs f then k f s else Ok s).
Proof.
  intros Hk s [Hs Hok]. destruct (K210_IO_NUMS <=? p); [by eexists|].
  pose proof (get_pin_func_spec p s Hs) as Hg. destruct (hal_gpiohs_get_pin_func _ p s) as [f s1].
  destruct Hg as (Hs1 & Hhs & _ & _ & ->).
  assert (pins_inv s1) as Hinv by (split; [done|by rewrite Hhs]).
  destruct (is_gpiohs _) eqn:Ei; [|by eexists]. apply Hk; [|done].
  unfold is_gpiohs in Ei. apply andb_true_iff in Ei as [?%Z.leb_le ?%Z.leb_le]. done.
Qed.
Lemma on_hs_ok s f d :
  pins_inv s → f s.(hs) = Ok d → (∀ i, ch_sel d.(hs_pads) i = ch_sel s.(hs).(hs_pads) i) → bank_ok d.(gpiohs) →
  ∃ s', on_hs f s = Ok s' ∧ pins_inv s' ∧ s'.(hs) = d.
Proof.
  intros [Hs Hok] E Hc Hd. exists (set_hs d s). unfold on_hs. rewrite E. split; [done|]. split; [|done].
  split; [by apply table_ok_hs|done].
Qed.
Lemma keeps_digitalWrite p v : keeps (digitalWrite (F:=F) (A:=A) sysctl_get_time_us p v).
Proof.
  apply keeps_lookup. intros f s Hf Hs.
  destruct (gpiohs_set_pin_ok (f - FUNC_GPIOHS0) (if v =? LOW then GPIO_PV_LOW else GPIO_PV_HIGH) s.(hs))
    as (d & E & Hd & Hp & _); [change FUNC_GPIOHS31 with (FUNC_GPIOHS0 + 31) in Hf; lia|apply Hs|].
  destruct (on_hs_ok s _ d Hs E) as (s' & E' & Hs' & _); [intros; by rewrite Hp|done|]. by exists s'.
Qed.
Lemma keeps_attach p callback mode param :
  keeps (attachInterruptFunctionalParam sysctl_get_time_us p callback mode param).
Proof.
  apply keeps_lookup. intros f s Hf Hs.
  set (s1 := set_handler p (InterruptHandle callback param) s).
  assert (pins_inv s1) as Hs1 by (destruct Hs as [[] ?]; by split).
  assert (0 ≤ f - FUNC_GPIOHS0 < 32) as Hr by (change FUNC_GPIOHS31 with (FUNC_GPIOHS0 + 31) in Hf; lia).
  destruct (gpiohs_set_pin_edge_ok (f - FUNC_GPIOHS0) (edge_of mode) s1.(hs) Hr (proj2 Hs1)) as [E Hok].
  destruct (on_hs_ok s1 _ _ Hs1 E ltac:(done) Hok) as (s2 & E2 & Hs2 & _). rewrite E2. cbn [mbind res_bind].
  edestruct (on_hs_ok s2 (gpiohs_irq_register (f - FUNC_GPIOHS0) 1 (Some onPinInterrupt_fn)
    (Some (pinInterruptHandler_ptr p)))) as (s3 & E3 & Hs3 & _); [exact Hs2| | | |by eexists].
  - unfold gpiohs_irq_register. by rewrite (proj2 (bad_pin_false _)) by lia.
  - done.
  - apply Hs2.
Qed.
Lemma keeps_detach p : keeps (detachInterrupt (F:=F) (A:=A) sysctl_get_time_us p).
Proof.
  apply keeps_lookup. intros f s Hf Hs.
  assert (0 ≤ f - FUNC_GPIOHS0 < 32) as Hr by (change FUNC_GPIOHS31 with (FUNC_GPIOHS0 + 31) in Hf; lia).
  destruct (gpiohs_set_pin_edge_ok (f - FUNC_GPIOHS0) GPIO_PE_NONE s.(hs) Hr (proj2 Hs)) as [E Hok].
  destruct (on_hs_ok s _ _ Hs E ltac:(done) Hok) as (s2 & E2 & Hs2 & _). rewrite E2. cbn [mbind res_bind].
  edestruct (on_hs_ok s2 (gpiohs_irq_unregister (f - FUNC_GPIOHS0))) as (s3 & E3 & Hs3 & _); [exact Hs2| | | |by eexists].
  - unfold gpiohs_irq_unregister. by rewrite (proj2 (bad_pin_false _)) by lia.
  - done.
  - cbn [gpiohs on_gpiohs on_hs_irqs set_pin_instance]. repeat apply hs_bit_ok; try done. apply Hs2.
Qed.
Lemma digitalRead_ok p s :
  pins_inv s → ∃ b s', digitalRead sysctl_get_time_us read_input_val p s = Ok (b, s') ∧ pins_inv s'.
Proof.
  intros [Hs Hok]. unfold digitalRead. destruct (K210_IO_NUMS <=? p); [by eexists _, _|].
  pose proof (get_pin_func_spec p s Hs) as Hg. destruct (hal_gpiohs_get_pin_func _ p s) as [f s1].
  destruct Hg as (Hs1 & Hhs & _ & _ & ->).
  assert (bank_ok (gpiohs (hs s1))) as Hok1 by (by rewrite Hhs).
  destruct (is_gpiohs _) eqn:Ei; [|by eexists _, _]. destruct (read_input_val (world s1)) as [v w].
  unfold gpiohs_get_pin, GPIOHS_MAX_PINNO.
  unfold is_gpiohs in Ei; change FUNC_GPIOHS31 with (FUNC_GPIOHS0 + 31) in Ei. apply andb_true_iff in Ei as [?%Z.leb_le ?%Z.leb_le].
  rewrite (proj2 (Z.ltb_lt _ _)) by lia. eexists _, _. split; [done|]. split; [|done]. by destruct Hs1.
Qed.
Lemma keeps_clock_pulse p : keeps (clock_pulse (F:=F) (A:=A) sysctl_get_time_us p).
Proof.
  intros s Hs. unfold clock_pulse. destruct (keeps_digitalWrite p HIGH s Hs) as (s1 & -> & H1).
  exact (keeps_digitalWrite p LOW s1 H1).
Qed.
Lemma keeps_shiftOut dataPin clockPin order val :
  keeps (shiftOut (F:=F) (A:=A) sysctl_get_time_us dataPin clockPin order val).
Proof.
  intros s Hs. unfold shiftOut. generalize (seqZ 0 8) as idxs. intros idxs. revert s Hs.
  induction idxs as [|i idxs IH]; intros s Hs; cbn [foldl]; [by exists s|].
  cbn [mbind res_bind]. destruct (keeps_digitalWrite dataPin (if Z.land val (Z.shiftl 1 (shift_pos order i)) =? 0 then LOW else HIGH)
    s Hs) as (s1 & -> & H1). cbn [mbind res_bind].
  destruct (keeps_clock_pulse clockPin s1 H1) as (s2 & -> & H2). by apply IH.
Qed.
Lemma shiftIn_ok dataPin clockPin order s :
  pins_inv s →
  ∃ b s', shiftIn sysctl_get_time_us read_input_val dataPin clockPin order s = Ok (b, s') ∧ pins_inv s'.
Proof.
  intros Hs. unfold shiftIn. generalize (seqZ 0 8) as idxs. intros idxs. generalize 0 as v. revert s Hs.
  induction idxs as [|i idxs IH]; intros s Hs v; cbn [foldl]; [by exists v, s|]. cbn [mbind res_bind].
  destruct (digitalRead_ok dataPin s Hs) as (b & s1 & -> & H1). cbn [mbind res_bind].
  destruct (keeps_clock_pulse clockPin s1 H1) as (s2 & -> & H2). cbn [mbind res_bind]. by apply IH.
Qed.

(** ** Programs *)
Inductive pin_op : Type :=
| OpMode (p mode : Z) | OpClear (p : Z) | OpWrite (p status : Z) | OpRead (p : Z)
| OpAttach (p : Z) (callback : option F) (mode : Z) (param : option A) | OpDetach (p : Z)
| OpShiftIn (dataPin clockPin order : Z) | OpShiftOut (dataPin clockPin order val : Z).
Definition run_op (o : pin_op) (s : pins_t F G A P W) : res (pins_t F G A P W) :=
  match o with
  | OpMode p mode => pinMode qsort sysctl_get_time_us p mode s
  | OpClear p => Ok (pinModeClear p s)
  | OpWrite p status => digitalWrite sysctl_get_time_us p status s
  | OpRead p => '(_, s) ← digitalRead sysctl_get_time_us read_input_val p s; Ok s
  | OpAttach p callback mode param => attachInterruptParam sysctl_get_time_us p callback mode param s
  | OpDetach p => detachInterrupt sysctl_get_time_us p s
  | OpShiftIn d c order => '(_, s) ← shiftIn sysctl_get_time_us read_input_val d c order s; Ok s
  | OpShiftOut d c order val => shiftOut sysctl_get_time_us d c order val s
  end.
(** [pinMode] is called on a pin number, and on a pin of the chip only while it has no
    function: for the first time, or after [pinModeClear]. *)
Definition op_allowed (o : pin_op) s : Prop :=
  match o with OpMode p _ => 0 ≤ p ∧ ¬ bound s p | _ => True end.
Inductive reachable : pins_t F G A P W → Prop :=
| reach_init s : bank_ok s.(hs).(gpiohs) → reachable (initPins s)
| reach_op o s s' : reachable s → op_allowed o s → run_op o s = Ok s' → reachable s'.

Lemma initPins_inv s : bank_ok s.(hs).(gpiohs) → pins_inv (initPins s).
Proof.
  intros Hok. split; [constructor|done].
  - unfold initPins. cbn [gpiohs_func_table set_table]. rewrite <-list_fmap_compose. done.
  - intros e He. left. unfold initPins in He. cbn [gpiohs_func_table set_table] in He.
    by apply list_elem_of_fmap in He as (i & -> & _).
Qed.
Lemma run_op_inv o s : pins_inv s → op_allowed o s → ∃ s', run_op o s = Ok s' ∧ pins_inv s'.
Proof.
  intros Hs Ho. destruct o; cbn [run_op op_allowed] in *.
  - destruct Ho as [Hp Hb]. destruct (decide (p < K210_IO_NUMS)).
    + by apply (pinMode_ok p mode s Hs).
    + unfold pinMode. rewrite (proj2 (Z.leb_le _ _)) by lia. by exists s.
  - eexists. split; [done|]. by apply clr_pin_func_ok.
  - by apply keeps_digitalWrite.
  - destruct (digitalRead_ok p s Hs) as (b & s' & -> & Hs'). by exists s'.
  - by apply keeps_attach.
  - by apply keeps_detach.
  - destruct (shiftIn_ok dataPin clockPin order s Hs) as (b & s' & -> & Hs'). by exists s'.
  - by apply keeps_shiftOut.
Qed.
(** C19: programs that give a pin its function once.  In every state they reach, the table
    holds the 32 functions once each and the multiplexer connects every lent function
    to the pin the table says; no operation ever fails an assertion. *)
Theorem pins_reachable_ok s o :
  reachable s → op_allowed o s → pins_inv s ∧ ∃ s', run_op o s = Ok s'.
Proof.
  intros Hr Ho. assert (pins_inv s) as Hs.
  { clear Ho. induction Hr as [s Hok|o' s s' _ IH Ho' E]; [by apply initPins_inv|].
    destruct (run_op_inv o' s IH Ho') as (s1 & E1 & H1). congruence. }
  split; [done|]. destruct (run_op_inv o s Hs Ho) as (s' & E & _). by exists s'.
Qed.

(** Where the times differ the first function is the least recently used one. *)
Definition qsort_sorts : Prop := ∀ t, NoDup (last_time <$> t) →
  StronglySorted (λ a b, a.(last_time) ≤ b.(last_time)) (qsort comp_gpiohs_func_tab t).
Lemma first_oldest t e rest : qsort_sorts → qsort comp_gpiohs_func_tab t = e :: rest → NoDup (last_time <$> t) →
  ∀ e', e' ∈ t → e.(last_time) ≤ e'.(last_time).
Proof.
  intros Hq E Hn e' He'. pose proof (Hq t Hn) as Hsort. rewrite E in Hsort. rewrite <-(qsort_permutes t), E in He'.
  apply StronglySorted_inv in Hsort as [_ Hall]. rewrite Forall_forall in Hall. apply elem_of_cons in He' as [->|He']; [done|by apply Hall].
Qed.
(** C20: [pinMode] and [digitalWrite] together, on a pin without a function.  Neither
    fails; the pin gets a function of the table, the least recently used one when the times
    of the table differ, which the multiplexer then connects to it and to no other pin; for
    an output mode the pin drives its line, high for every status but [LOW]; no other
    function changes direction or value. *)
Theorem pinMode_digitalWrite p mode status s :
  qsort_sorts → pins_inv s → 0 ≤ p < K210_IO_NUMS → ¬ bound s p →
  ∃ e s1 s2, pinMode qsort sysctl_get_time_us p mode s = Ok s1 ∧
    digitalWrite sysctl_get_time_us p status s1 = Ok s2 ∧ pins_inv s2 ∧
    e ∈ s.(gpiohs_func_table) ∧
    (NoDup (last_time <$> s.(gpiohs_func_table)) → ∀ e', e' ∈ s.(gpiohs_func_table) → e.(last_time) ≤ e'.(last_time)) ∧
    (∀ i, 0 ≤ i < K210_IO_NUMS → ch_sel s2.(hs).(hs_pads) i = e.(func) ↔ i = p) ∧
    drives s2 e.(func) = (drive_of mode =? GPIO_DM_OUTPUT) ∧
    hs_on OUTPUT_VAL s2.(hs) (e.(func) - FUNC_GPIOHS0) = negb (status =? LOW) ∧
    ∀ f, FUNC_GPIOHS0 ≤ f → f ≠ e.(func) →
      drives s2 f = drives s f ∧
      hs_on OUTPUT_VAL s2.(hs) (f - FUNC_GPIOHS0) = hs_on OUTPUT_VAL s.(hs) (f - FUNC_GPIOHS0).
Proof.
  intros Hq Hs Hp Hb.
  destruct (pinMode_lends p mode s Hs Hp Hb) as (e & rest & s1 & E1 & H1 & Eq & He & Hch & [t Hfind] & Hd & Hdo & Hv).
  destruct (digitalWrite_spec p status s1 H1 Hp) as (s2 & E2 & H2 & _ & Hpads & Hreg & Hw).
  rewrite Hfind in Hw. cbn [func] in Hw. destruct Hw as [_ Hw].
  pose proof (t_range s e (t_funcs _ (proj1 Hs)) He) as Hr.
  exists e, s1, s2. split; [done|]. split; [done|]. split; [done|]. split; [done|]. split; [intros Hn; by eapply first_oldest|].
  split; [by rewrite Hpads|]. unfold drives in *. unfold hs_on at 1. rewrite Hreg by done.
  split; [done|]. split; [rewrite Hw by lia; by rewrite decide_True|].
  intros f Hf Hne. unfold hs_on at 1. rewrite Hreg by done. split; [by apply Hdo|].
  rewrite Hw by lia. rewrite decide_False by lia. unfold hs_on. by rewrite Hv.
Qed.

(** ** [pinMode] twice on one pin

    Each call takes a new function and leaves the old entry in the table.  The table
    is searched from its least recently used end, so the stale entry is found
    first. *)
Lemma find_pin_oldest p (t : list gpiohs_func_info_t) e1 i e :
  StronglySorted (λ a b, a.(last_time) ≤ b.(last_time)) t →
  e1 ∈ t → e1.(pin) = p → find_pin p t = Some (i, e) → e.(last_time) ≤ e1.(last_time).
Proof.
  revert i. induction t as [|x t IH]; intros i Hs He Hp Hf; [by apply not_elem_of_nil in He|].
  apply StronglySorted_inv in Hs as [Hs Hall]. unfold find_pin in Hf. cbn [list_find] in Hf.
  destruct (decide (p = pin x)) as [Hx|Hx].
  - injection Hf as <- <-. apply elem_of_cons in He as [->|He]; [done|].
    rewrite Forall_forall in Hall. by apply Hall.
  - apply elem_of_cons in He as [->|He]; [by rewrite Hp in Hx|].
    destruct (list_find _ t) as [[j x']|] eqn:E; [|done]. injection Hf as <- ->.
    apply (IH j Hs He Hp). exact E.
Qed.
(** [pinMode] whatever entries the pin already has *)
Lemma pinMode_any q mode s :
  all_funcs s → bank_ok s.(hs).(gpiohs) → 0 ≤ q < K210_IO_NUMS →
  ∃ e t rest s1, pinMode qsort sysctl_get_time_us q mode s = Ok s1 ∧
    qsort comp_gpiohs_func_tab s.(gpiohs_func_table) = e :: rest ∧
    s1.(gpiohs_func_table) = FuncInfo t e.(func) q :: rest ∧ bank_ok s1.(hs).(gpiohs) ∧
    (∀ i, 0 ≤ i < K210_IO_NUMS → i ≠ q → ch_sel s.(hs).(hs_pads) i ≠ e.(func) → ch_sel s1.(hs).(hs_pads) i = ch_sel s.(hs).(hs_pads) i) ∧
    (∀ r, r ≠ OUTPUT_EN → r ≠ INPUT_EN → s1.(hs).(gpiohs) r = s.(hs).(gpiohs) r).
Proof.
  intros Hf Hok Hq. destruct (set_pin_func_spec q s Hf Hq) as (e & t & rest & Eq & He & Hst).
  pose proof (t_range s e Hf He) as Hr. destruct (funcs_ok _ Hr) as [Hef1 Hef2].
  unfold pinMode. rewrite (proj2 (Z.leb_gt K210_IO_NUMS q)) by lia.
  destruct (hal_gpiohs_set_pin_func _ _ q s) as [f sa]. destruct Hst as (-> & Hta & Hhs & _).
  rewrite (is_gpiohs_entry s e Hf He).
  destruct (gpiohs_set_drive_mode_spec (e.(func) - FUNC_GPIOHS0) (drive_of mode) q sa.(hs))
    as (d & Ed & Hokd & Hcs & _ & Hreg & _).
  { change FUNC_GPIOHS31 with (FUNC_GPIOHS0 + 31) in Hr. lia. }
  { apply drive_of_range. }
  { done. }
  { rewrite Hhs. cbn [set_hs_pads hs_pads]. rewrite set_function_ch_sel by done. rewrite decide_True by done. lia. }
  { rewrite Hhs. exact Hok. }
  exists e, t, rest, (set_hs d sa). unfold on_hs. rewrite Ed. split; [done|]. split; [done|]. split; [exact Hta|].
  split; [done|]. cbn [set_hs hs]. split; [|intros r ? ?; rewrite Hreg by done; by rewrite Hhs].
  intros i Hi Hiq Hne. rewrite Hcs, Hhs. cbn [set_hs_pads hs_pads]. rewrite set_function_ch_sel by done.
  repeat case_decide; naive_solver.
Qed.
Lemma find_stale p q t f rest e1 :
  StronglySorted (λ a b, a.(last_time) ≤ b.(last_time)) rest → e1 ∈ rest → e1.(pin) = p → q ≠ p →
  ∃ j x, find_pin p (FuncInfo t f q :: rest) = Some (j, x) ∧ x ∈ rest ∧ x.(last_time) ≤ e1.(last_time).
Proof.
  intros Hs He Hp Hq. unfold find_pin. cbn [list_find pin]. rewrite decide_False by congruence.
  destruct (list_find (λ e, p = pin e) rest) as [[j x]|] eqn:Ef.
  - exists (S j), x. split; [done|]. split; [by apply (find_pin_Some p rest j x)|]. by apply (find_pin_oldest p rest e1 j x).
  - exfalso. apply find_pin_None in Ef. apply Ef. rewrite <-Hp. by apply list_elem_of_fmap_2.
Qed.
Lemma NoDup_fmap_inj_in (f : gpiohs_func_info_t → Z) t x y : NoDup (f <$> t) → x ∈ t → y ∈ t → f x = f y → x = y.
Proof.
  intros Hn (i & Hi)%list_elem_of_lookup (j & Hj)%list_elem_of_lookup Hxy.
  assert (i = j) as ->; [|congruence].
  eapply NoDup_lookup; [exact Hn|by rewrite list_lookup_fmap, Hi|by rewrite list_lookup_fmap, Hj, Hxy].
Qed.
(** A pin that went through [pinMode] twice has two entries, of which the newer one is
    what the multiplexer connects.  When the mode of another pin is then set and an
    older function is free for it, the pin's entry that is found is a stale one if the
    table was left sorted:
    [digitalWrite] on the pin returns normally and leaves the value of the function
    that is connected to the pin as it was. *)
Theorem pinMode_again_misdirects p q mode status s e0 e1 e2 :
  all_funcs s → bank_ok s.(hs).(gpiohs) → 0 ≤ p < K210_IO_NUMS → 0 ≤ q < K210_IO_NUMS → q ≠ p →
  e0 ∈ s.(gpiohs_func_table) → e1 ∈ s.(gpiohs_func_table) → e2 ∈ s.(gpiohs_func_table) →
  e1.(pin) = p → e2.(pin) = p → e0.(last_time) < e1.(last_time) < e2.(last_time) →
  ch_sel s.(hs).(hs_pads) p = e2.(func) →
  StronglySorted (λ a b, a.(last_time) ≤ b.(last_time)) (qsort comp_gpiohs_func_tab s.(gpiohs_func_table)) →
  ∃ s1 s2, pinMode qsort sysctl_get_time_us q mode s = Ok s1 ∧
    digitalWrite sysctl_get_time_us p status s1 = Ok s2 ∧
    ch_sel s2.(hs).(hs_pads) p = e2.(func) ∧
    hs_on OUTPUT_VAL s2.(hs) (e2.(func) - FUNC_GPIOHS0) = hs_on OUTPUT_VAL s.(hs) (e2.(func) - FUNC_GPIOHS0).
Proof.
  intros Hf Hok Hp Hq Hqp H0 H1 H2 Hp1 Hp2 Ht Hc Hsort.
  destruct (pinMode_any q mode s Hf Hok Hq) as (e & t & rest & s1 & E1 & Eq & Ht1 & Hok1 & Hch & Hreg).
  pose proof (qsort_permutes s.(gpiohs_func_table)) as Hperm.
  rewrite Eq in Hperm, Hsort. apply StronglySorted_inv in Hsort as [Hsort Hmin]. rewrite Forall_forall in Hmin.
  pose proof (funcs_nodup s Hf) as Hnd. rewrite <-Hperm in Hnd. cbn [fmap list_fmap] in Hnd.
  apply NoDup_cons in Hnd as [Hne Hnd].
  assert (∀ x, x ∈ s.(gpiohs_func_table) → e0.(last_time) < x.(last_time) → x ∈ rest) as Hin.
  { intros x Hx Hlt. rewrite <-Hperm in Hx, H0. apply elem_of_cons in Hx as [->|]; [|done].
    apply elem_of_cons in H0 as [->|H0]; [lia|]. specialize (Hmin e0 H0). lia. }
  pose proof (Hin e1 H1 ltac:(lia)) as R1. pose proof (Hin e2 H2 ltac:(lia)) as R2.
  assert (ch_sel s1.(hs).(hs_pads) p = e2.(func)) as Hc1.
  { rewrite Hch; [done|done|congruence|]. rewrite Hc. intros Heq. apply Hne. rewrite <-Heq. by apply list_elem_of_fmap_2. }
  destruct (find_stale p q t e.(func) rest e1 Hsort R1 Hp1 Hqp) as (j & x & Ex & Hx & Hxt).
  assert (x ∈ s.(gpiohs_func_table)) as Hxs by (rewrite <-Hperm; by apply list_elem_of_further).
  assert (x.(func) ≠ e2.(func)) as Hxf.
  { intros Heq. rewrite (NoDup_fmap_inj_in func rest x e2 Hnd Hx R2 Heq) in Hxt. lia. }
  pose proof (t_range s x Hf Hxs) as Hxr. pose proof (t_range s e2 Hf H2) as H2r.
  exists s1. unfold digitalWrite. rewrite (proj2 (Z.leb_gt K210_IO_NUMS p)) by lia. unfold hal_gpiohs_get_pin_func.
  rewrite Ht1, Ex. unfold get_time. destruct (sysctl_get_time_us (world s1)) as [t' w].
  rewrite (is_gpiohs_entry s x Hf Hxs).
  destruct (gpiohs_set_pin_ok (x.(func) - FUNC_GPIOHS0) (if status =? LOW then GPIO_PV_LOW else GPIO_PV_HIGH) s1.(hs))
    as (d2 & E2 & _ & Hpads & Hval & _); [change FUNC_GPIOHS31 with (FUNC_GPIOHS0 + 31) in Hxr; lia|done|].
  eexists. split; [done|]. split; [unfold on_hs; cbn [set_table set_world hs]; by rewrite E2|].
  cbn [set_hs hs]. split; [by rewrite Hpads|].
  rewrite Hval by lia. rewrite decide_False by lia. unfold hs_on. by rewrite Hreg.
Qed.

(** The events the Arduino modes name *)
Definition wanted (mode flag : Z) : bool :=
  (mode =? LOW) && (flag =? GPIO_PE_LOW) || (mode =? HIGH) && (flag =? GPIO_PE_HIGH) ||
  ((mode =? FALLING) || (mode =? CHANGE)) && (flag =? GPIO_PE_FALLING) ||
  ((mode =? RISING) || (mode =? CHANGE)) && (flag =? GPIO_PE_RISING).
Lemma edge_of_wanted mode : Forall (λ '(_, _, flag), has_flag (edge_of mode) flag = wanted mode flag) kinds.
Proof.
  unfold edge_of, wanted, kinds, LOW, HIGH, FALLING, RISING, CHANGE.
  destruct (Z.eqb_spec mode 0), (Z.eqb_spec mode 1), (Z.eqb_spec mode 2), (Z.eqb_spec mode 3), (Z.eqb_spec mode 4);
    try lia; by repeat constructor.
Qed.
Lemma edge_enables k mode (d : gpiohs_drv G pin_fn pin_ptr P) b :
  0 ≤ k < 32 → bank_ok b → d.(gpiohs) = set_edge k (edge_of mode) b →
  Forall (λ '(ie, _, flag), hs_on ie d k = wanted mode flag) kinds.
Proof.
  intros Hk Hok Hd. pose proof (set_edge_enables k (edge_of mode) _ Hok Hk) as He.
  pose proof (edge_of_wanted mode) as Hw. rewrite Forall_forall in He, Hw |- *.
  intros [[ie ip] flag] Hin. specialize (He _ Hin k ltac:(lia)) as [He _]. specialize (Hw _ Hin).
  unfold hs_on. by rewrite Hd, He, decide_True.
Qed.
(** C21: [attachInterruptParam] on a pin with a function, delivered: exactly the events
    of the mode are enabled on that function, its interrupt line is enabled and leads
    to the pin's instance, and the handler run from there calls, after a plain callback
    that was installed on the function before, the user's function with its parameter,
    once, or nothing when the user gave no function. *)
Theorem attachInterrupt_delivers {X : Type} p f mode x s i e (call : F → option A → X → X) (call0 : G → X → X) (w : X) :
  pins_inv s → 0 ≤ p < K210_IO_NUMS → find_pin p s.(gpiohs_func_table) = Some (i, e) →
  let k := e.(func) - FUNC_GPIOHS0 in
  ∃ s', attachInterruptParam sysctl_get_time_us p f mode x s = Ok s' ∧ pins_inv s' ∧
    irq_handler s'.(hs).(hs_irqs) (IRQN_GPIOHS0_INTERRUPT + k) = Some (gpiohs_pin_onchange_isr_fn, Some (pin_instance_ptr k)) ∧
    irq_enabled s'.(hs).(hs_irqs) (IRQN_GPIOHS0_INTERRUPT + k) = true ∧
    Forall (λ '(ie, _, flag), hs_on ie s'.(hs) k = wanted mode flag) kinds ∧
    ∃ d, gpiohs_pin_onchange_isr (quiet0 call0) (quiet (pin_call s'.(pinInterruptHandlers) call)) k (s'.(hs), w) =
      Ok (d, let w := match inst_callback (s.(hs).(pin_instance) k) with Some g => call0 g w | None => w end in
             match f with Some g => call g x w | None => w end).
Proof.
  intros [Hs Hok] Hp Hfind k. unfold attachInterruptParam, attachInterruptFunctionalParam.
  rewrite (proj2 (Z.leb_gt _ _)) by lia.
  pose proof (get_pin_func_spec p s Hs) as Hg. destruct (hal_gpiohs_get_pin_func _ p s) as [f0 s1].
  destruct Hg as (Hs1 & Hhs & _ & _ & ->). rewrite Hfind.
  apply find_pin_Some in Hfind as (_ & _ & He). rewrite (is_gpiohs_entry s e (t_funcs _ Hs) He).
  pose proof (t_range s e (t_funcs _ Hs) He) as Hr. fold k.
  assert (0 ≤ k < 32) as Hk by (unfold k; change FUNC_GPIOHS31 with (FUNC_GPIOHS0 + 31) in *; lia).
  set (s2 := set_handler p (InterruptHandle f x) s1).
  assert (pins_inv s2) as Hs2 by (split; [by destruct Hs1|change (bank_ok (gpiohs (hs s1))); by rewrite Hhs]).
  destruct (gpiohs_set_pin_edge_ok k (edge_of mode) s2.(hs) Hk (proj2 Hs2)) as [E Hokd].
  destruct (on_hs_ok s2 _ _ Hs2 E ltac:(done) Hokd) as (s3 & E3 & Hs3 & Hd3). rewrite E3. cbn [mbind res_bind].
  assert (s3.(pinInterruptHandlers) = s2.(pinInterruptHandlers)) as Hh3.
  { unfold on_hs in E3. rewrite E in E3. by injection E3 as <-. }
  set (d := hook_pin k 1 (set_pin_instance k (PinInstance k (inst_edge (pin_instance (hs s3) k))
    (inst_callback (pin_instance (hs s3) k)) (Some onPinInterrupt_fn) (Some (pinInterruptHandler_ptr p))) (hs s3))).
  assert (gpiohs_irq_register k 1 (Some onPinInterrupt_fn) (Some (pinInterruptHandler_ptr p)) (hs s3) = Ok d) as Er.
  { unfold gpiohs_irq_register. by rewrite (proj2 (bad_pin_false _)) by lia. }
  exists (set_hs d s3). unfold on_hs. rewrite Er. split; [done|].
  split; [split; [by apply table_ok_hs; [done|apply Hs3]|apply Hs3]|].
  cbn [set_hs hs pinInterruptHandlers d hook_pin on_hs_irqs hs_irqs set_pin_instance pin_instance].
  split; [by rewrite irq_handler_enable, irq_handler_register, decide_True|].
  split; [apply irq_enabled_enable; unfold IRQN_GPIOHS0_INTERRUPT, IRQN_MAX; lia|].
  split; [by apply (edge_enables k mode _ (gpiohs (hs s2))); [|apply Hs2|transitivity (gpiohs (hs s3)); [done|by rewrite Hd3]]|].
  rewrite gpiohs_isr_quiet; cbn [pin_instance d hook_pin on_hs_irqs set_pin_instance];
    rewrite fn_lookup_insert; cbn [inst_pin inst_callback inst_gpiohs_callback inst_context inst_edge]; [|lia].
  unfold pin_call, onPinInterrupt. rewrite Hh3. cbn [s2 set_handler pinInterruptHandlers]. rewrite fn_lookup_insert. cbn [fn arg].
  rewrite Hd3. cbn [set_pin_instance on_gpiohs pin_instance]. rewrite fn_lookup_insert. cbn [inst_callback].
  change (pin_instance (hs s2)) with (pin_instance (hs s1)). rewrite Hhs. by eexists.
Qed.
End spec.

(** ** Witnesses: an insertion sort that asks the comparison function, a clock that ticks at
    every reading, the interrupt controller of Plic *)
Fixpoint insert_by (cmp : gpiohs_func_info_t → gpiohs_func_info_t → Z) (x : gpiohs_func_info_t) (t : list gpiohs_func_info_t) :
    list gpiohs_func_info_t :=
  match t with
  | [] => [x]
  | y :: t => if cmp x y <=? 0 then x :: y :: t else y :: insert_by cmp x t
  end.
Definition pins_qsort (cmp : gpiohs_func_info_t → gpiohs_func_info_t → Z) (t : list gpiohs_func_info_t) :
  list gpiohs_func_info_t := foldr (insert_by cmp) [] t.
Lemma insert_by_permutes cmp x t : insert_by cmp x t ≡ₚ x :: t.
Proof. induction t as [|y t IH]; [done|]. cbn. destruct (_ <=? 0); [done|]. rewrite IH. apply Permutation_swap. Qed.
Lemma pins_qsort_permutes t : pins_qsort comp_gpiohs_func_tab t ≡ₚ t.
Proof. induction t as [|x t IH]; [done|]. cbn. by rewrite insert_by_permutes, IH. Qed.
Lemma insert_by_sorted x t : StronglySorted (λ a b, a.(last_time) ≤ b.(last_time)) t →
  StronglySorted (λ a b, a.(last_time) ≤ b.(last_time)) (insert_by comp_gpiohs_func_tab x t).
Proof.
  induction 1 as [|y t Ht IH Hy]; [by repeat constructor|]. cbn [insert_by]. unfold comp_gpiohs_func_tab at 1. rewrite Forall_forall in Hy.
  destruct (Z.ltb_spec (last_time y) (last_time x)); cbn.
  - constructor; [done|]. apply Forall_forall. intros z Hz. rewrite insert_by_permutes in Hz. apply elem_of_cons in Hz as [->|Hz]; [lia|by apply Hy].
  - constructor; [constructor; [done|by apply Forall_forall]|]. apply Forall_forall. intros z Hz. apply elem_of_cons in Hz as [->|Hz]; [done|]. specialize (Hy z Hz). lia.
Qed.
Lemma pins_qsort_sorted t : StronglySorted (λ a b, a.(last_time) ≤ b.(last_time)) (pins_qsort comp_gpiohs_func_tab t).
Proof. induction t as [|x t IH]; [constructor|]. by apply insert_by_sorted. Qed.
Lemma pins_qsort_sorts : qsort_sorts pins_qsort.
Proof. intros t _. apply pins_qsort_sorted. Qed.
Definition demo_time (w : Z) : Z * Z := (w, w + 1).
Definition demo_input (w : Z) : Z * Z := (0, w).
#[local] Instance demo_controller : IrqController (plic_t gpiohs_fn gpiohs_ptr) gpiohs_fn gpiohs_ptr := plic_controller 0.
Definition demo_pins : pins_t nat nat nat (plic_t gpiohs_fn gpiohs_ptr) Z :=
  Pins (HsDrv (λ _, 0) (λ _, zero_instance) (λ _, 0) (Plic (λ _, 0) (λ _, no_instance) false)) (λ _, FUNC_MAX) []
    (λ _, InterruptHandle None None) 1.
Lemma demo_bank_ok : bank_ok demo_pins.(hs).(gpiohs).
Proof. intros r. done. Qed.
Lemma demo_unbound p : p ≠ 255 → ¬ bound (initPins demo_pins) p.
Proof.
  intros Hp Hb. unfold bound, initPins in Hb. cbn [gpiohs_func_table set_table] in Hb.
  apply list_elem_of_fmap in Hb as (e & -> & He). by apply list_elem_of_fmap in He as (i & -> & _).
Qed.
Lemma pinMode_digitalWrite_witness :
  ∃ e s1 s2, pinMode pins_qsort demo_time 8 OUTPUT (initPins demo_pins) = Ok s1 ∧
    digitalWrite demo_time 8 HIGH s1 = Ok s2 ∧ drives s2 (func e) = true ∧
    hs_on OUTPUT_VAL s2.(hs) (func e - FUNC_GPIOHS0) = true.
Proof.
  destruct (pinMode_digitalWrite pins_qsort demo_time pins_qsort_permutes 8 OUTPUT HIGH (initPins demo_pins)
    pins_qsort_sorts (initPins_inv demo_pins demo_bank_ok) ltac:(done) (demo_unbound 8 ltac:(done)))
    as (e & s1 & s2 & E1 & E2 & _ & _ & _ & _ & Hd & Hv & _).
  exists e, s1, s2. repeat (split; [assumption|]). exact Hv.
Defined.
Lemma pins_reachable_ok_witness :
  pins_inv (initPins demo_pins) ∧
  ∃ s', run_op pins_qsort demo_time demo_input (OpMode 8 OUTPUT) (initPins demo_pins) = Ok s'.
Proof.
  apply (pins_reachable_ok pins_qsort demo_time demo_input pins_qsort_permutes
    (initPins demo_pins) (OpMode 8 OUTPUT)).
  - apply reach_init, demo_bank_ok.
  - split; [done|]. by apply demo_unbound.
Defined.
(** Pin 8 twice, then pin 9 *)
Definition demo_once : pins_t nat nat nat (plic_t gpiohs_fn gpiohs_ptr) Z :=
  match pinMode pins_qsort demo_time 8 INPUT (initPins demo_pins) with Ok s => s | Fault _ => demo_pins end.
Definition demo_twice : pins_t nat nat nat (plic_t gpiohs_fn gpiohs_ptr) Z :=
  match pinMode pins_qsort demo_time 8 OUTPUT demo_once with Ok s => s | Fault _ => demo_pins end.
Lemma pinMode_again_misdirects_witness :
  ∃ s1 s2, pinMode pins_qsort demo_time 9 OUTPUT demo_twice = Ok s1 ∧
    digitalWrite demo_time 8 HIGH s1 = Ok s2 ∧
    ch_sel s2.(hs).(hs_pads) 8 = 25 ∧ hs_on OUTPUT_VAL s2.(hs) 1 = hs_on OUTPUT_VAL demo_twice.(hs) 1.
Proof.
  apply (pinMode_again_misdirects pins_qsort demo_time pins_qsort_permutes 8 9 OUTPUT HIGH demo_twice
    (FuncInfo 0 26 255) (FuncInfo 1 24 8) (FuncInfo 2 25 8)).
  - apply (bool_decide_unpack _). vm_compute. exact I.
  - intros []; vm_compute; split; congruence.
  - done.
  - done.
  - done.
  - apply (bool_decide_unpack _). vm_compute. exact I.
  - apply (bool_decide_unpack _). vm_compute. exact I.
  - apply (bool_decide_unpack _). vm_compute. exact I.
  - done.
  - done.
  - done.
  - vm_compute. reflexivity.
  - apply pins_qsort_sorted.
Defined.
Lemma attachInterrupt_delivers_witness :
  ∃ s' d, attachInterruptParam demo_time 8 (Some 7%nat) FALLING (Some 5%nat) demo_once = Ok s' ∧
    irq_handler s'.(hs).(hs_irqs) (IRQN_GPIOHS0_INTERRUPT + 0) = Some (gpiohs_pin_onchange_isr_fn, Some (pin_instance_ptr 0)) ∧
    gpiohs_pin_onchange_isr (quiet0 (λ _ w, w)) (quiet (pin_call s'.(pinInterruptHandlers) (λ f x w, (f, x) :: w))) 0 (s'.(hs), []) =
      Ok (d, [(7%nat, Some 5%nat)]).
Proof.
  assert (pins_inv demo_once) as Hinv.
  { destruct (pinMode_ok pins_qsort demo_time pins_qsort_permutes 8 INPUT (initPins demo_pins)
      (initPins_inv demo_pins demo_bank_ok) ltac:(done) (demo_unbound 8 ltac:(done))) as (s' & E & Hs').
    unfold demo_once. by rewrite E. }
  destruct (attachInterrupt_delivers demo_time 8 (Some 7%nat) FALLING (Some 5%nat) demo_once 0%nat (FuncInfo 1 24 8)
    (λ f x w, (f, x) :: w) (λ _ w, w) [] Hinv ltac:(done)) as (s' & E & _ & Hh & _ & _ & d & Hd).
  - vm_compute. reflexivity.
  - exists s', d. split; [exact E|]. split; [exact Hh|exact Hd].
Defined.
