(* ===== verification/HalTimer.v ===== *)
(** * Timer channels lent to pins (k210-hal-timer.c)

    Twelve timer channels serve pins (as toggle outputs) and clients without a pin,
    which hold a channel under a made-up pin number, 42 to 53. *)

From S2P Require Import Prelude FpioaTable Fpioa Gpio.
From stdpp Require Import list.
#[local] Open Scope Z_scope.

Definition K210_TIMER_DEC_CHN_NUMS : Z := 12.
(** The members [pin] of [timer_dev_chn_map] (the pointers to its entries are their
    indices), [_pin_place_holder], and the pin multiplexer *)
Record hal_timer := HalTimer {
  timer_dev_chn_map : list Z;
  pin_place_holder : list (Z * Z);
  timer_pads : hal_pads
}.
(** Device and channel of an entry *)
Definition chn_device (i : nat) : Z := Z.of_nat i / 4.
Definition chn_channel (i : nat) : Z := Z.of_nat i mod 4.
Definition hal_timer_init (h : hal_pads) : hal_timer :=
  HalTimer (replicate (Z.to_nat K210_TIMER_DEC_CHN_NUMS) (-1))
    ((λ t, (t, 0)) <$> seqZ 42 K210_TIMER_DEC_CHN_NUMS) h.

(** The first index of a pin *)
Definition index_of (pin : Z) (l : list Z) : option nat := fst <$> list_find (λ p, pin = p) l.
Definition get_free_timer_chn (pin : Z) (s : hal_timer) : option nat :=
  match index_of pin s.(timer_dev_chn_map) with
  | Some i => Some i
  | None => index_of (-1) s.(timer_dev_chn_map)
  end.
Definition set_chn_pin (i : nat) (pin : Z) (s : hal_timer) : hal_timer :=
  HalTimer (<[i := pin]> s.(timer_dev_chn_map)) s.(pin_place_holder) s.(timer_pads).
Definition set_holder (i : nat) (t sts : Z) (s : hal_timer) : hal_timer :=
  HalTimer s.(timer_dev_chn_map) (<[i := (t, sts)]> s.(pin_place_holder)) s.(timer_pads).
Definition on_timer_pads (f : hal_pads → hal_pads) (s : hal_timer) : hal_timer :=
  HalTimer s.(timer_dev_chn_map) s.(pin_place_holder) (f s.(timer_pads)).
(** [pin] is an [int8_t], passed on as a [uint8_t]. *)
Definition hal_timer_set_pin_func (pin : Z) (s : hal_timer) : option nat * hal_timer :=
  match get_free_timer_chn pin s with
  | Some chn =>
      (Some chn, on_timer_pads (hal_fpioa_set_pin_func (u8 pin) (FUNC_TIMER0_TOGGLE1 + Z.of_nat chn)) (set_chn_pin chn pin s))
  | None => (None, s)
  end.
Definition hal_timer_clr_pin_func (pin : Z) (s : hal_timer) : hal_timer :=
  for_range 0 K210_TIMER_DEC_CHN_NUMS (λ i s,
    if decide (s.(timer_dev_chn_map) !! Z.to_nat i = Some pin)
    then set_chn_pin (Z.to_nat i) (-1) (on_timer_pads (hal_fpioa_clr_pin_func (u8 pin)) s) else s) s.
Definition hal_timer_get_free_chn (s : hal_timer) : option nat * hal_timer :=
  match list_find (λ h, snd h = 0x00) s.(pin_place_holder) with
  | Some (pin_idx, (pin, _)) =>
      match get_free_timer_chn pin s with
      | Some chn => (Some chn, set_chn_pin chn pin (set_holder pin_idx pin 1 s))
      | None => (None, s)
      end
  | None => (None, s)
  end.
Definition hal_timer_release_chn (map : option nat) (s : hal_timer) : hal_timer :=
  match map with
  | None => s
  | Some m =>
      let released_pin := s.(timer_dev_chn_map) !!! m in
      let s := match index_of released_pin s.(timer_dev_chn_map) with
               | Some i => set_chn_pin i (-1) s
               | None => s
               end in
      match list_find (λ h, fst h = released_pin) s.(pin_place_holder) with
      | Some (i, (t, _)) => set_holder i t 0 s
      | None => s
      end
  end.

(** ** Lemmas *)
Lemma index_of_Some p l i : index_of p l = Some i → l !! i = Some p ∧ ∀ j, l !! j = Some p → (i ≤ j)%nat.
Proof.
  unfold index_of. destruct (list_find _ l) as [[k x]|] eqn:E; [|done]. intros [= <-].
  apply list_find_Some in E as (Hk & -> & Hfirst). split; [done|]. intros j Hj.
  destruct (decide (k ≤ j)%nat); [done|]. exfalso. by eapply (Hfirst j); [done|lia|].
Qed.
Lemma index_of_None p l : index_of p l = None ↔ p ∉ l.
Proof.
  unfold index_of. destruct (list_find _ l) as [[k x]|] eqn:E; cbn [fmap option_fmap option_map].
  - apply list_find_Some in E as (Hk & -> & _). split; [done|]. intros Hn. destruct Hn. by eapply list_elem_of_lookup_2.
  - apply list_find_None in E. rewrite Forall_forall in E. split; [|done]. intros _ Hp. by apply (E p).
Qed.

(** ** The channels are shared out without overlap

    Pins are the multiplexer's, below the made-up numbers; each made-up number is in
    the table exactly while it is marked as taken. *)
Definition one_owner (l : list Z) : Prop :=
  ∀ i j p, l !! i = Some p → l !! j = Some p → p ≠ -1 → i = j.
Record timer_inv (s : hal_timer) : Prop := {
  ti_length : length s.(timer_dev_chn_map) = 12%nat;
  ti_owner : one_owner s.(timer_dev_chn_map);
  ti_tokens : fst <$> s.(pin_place_holder) = seqZ 42 12;
  ti_taken t sts : (t, sts) ∈ s.(pin_place_holder) → sts ≠ 0 ↔ t ∈ s.(timer_dev_chn_map)
}.
Lemma token_range s t sts : timer_inv s → (t, sts) ∈ s.(pin_place_holder) → 42 ≤ t < 54.
Proof.
  intros Hs Ht. apply (list_elem_of_fmap_2 fst) in Ht. rewrite (ti_tokens _ Hs) in Ht.
  apply elem_of_seqZ in Ht. cbn [fst] in Ht. lia.
Qed.
Lemma owner_insert l i p : one_owner l → (p ∈ l → p = -1 ∨ l !! i = Some p) → one_owner (<[i := p]> l).
Proof.
  intros Hl Hp a b q Ha Hb Hq. apply list_lookup_insert_Some in Ha as [(<- & -> & Hi)|[Hai Ha]];
    apply list_lookup_insert_Some in Hb as [(<- & E & _)|[Hbi Hb]]; try done.
  - destruct Hp as [?|Hip]; [by eapply list_elem_of_lookup_2|done|]. by apply (Hl i b q).
  - subst q. destruct Hp as [?|Hip]; [by eapply list_elem_of_lookup_2|done|]. by apply (Hl a i p).
  - by apply (Hl a b q).
Qed.
Lemma elem_of_insert_other (l : list Z) (i : nat) (p old q : Z) :
  l !! i = Some old → q ≠ p → q ≠ old → q ∈ <[i := p]> l ↔ q ∈ l.
Proof.
  intros Hi Hqp Hqo. split; intros (j & Hj)%list_elem_of_lookup; apply list_elem_of_lookup; exists j.
  - apply list_lookup_insert_Some in Hj as [(_ & -> & _)|[_ Hj]]; done.
  - rewrite list_lookup_insert_ne; [done|]. intros ->. congruence.
Qed.
(** The table of made-up numbers has each once. *)
Lemma token_index s i j t a b :
  timer_inv s → s.(pin_place_holder) !! i = Some (t, a) → s.(pin_place_holder) !! j = Some (t, b) → i = j.
Proof.
  intros Hs Hi Hj. apply (NoDup_lookup (fst <$> s.(pin_place_holder)) i j t);
    [rewrite (ti_tokens _ Hs); apply NoDup_seqZ|by rewrite list_lookup_fmap, Hi|by rewrite list_lookup_fmap, Hj].
Qed.
Lemma hal_timer_init_inv h : timer_inv (hal_timer_init h).
Proof.
  constructor; cbn [hal_timer_init timer_dev_chn_map pin_place_holder].
  - done.
  - intros i j p [-> _]%lookup_replicate. done.
  - rewrite <-list_fmap_compose. done.
  - intros t sts (x & E & Hx)%list_elem_of_fmap. injection E as -> ->. apply elem_of_seqZ in Hx.
    split; [done|]. intros Ht%elem_of_replicate. lia.
Qed.

(** ** The operations keep the shares *)
Definition user_pin (p : Z) : Prop := 0 ≤ p < 42.
Lemma set_chn_pin_inv s i p old pads :
  timer_inv s → s.(timer_dev_chn_map) !! i = Some old → old < 42 → p < 42 →
  (p ∈ s.(timer_dev_chn_map) → p = -1 ∨ old = p) →
  timer_inv (HalTimer (<[i := p]> s.(timer_dev_chn_map)) s.(pin_place_holder) pads).
Proof.
  intros Hs Hi Hold Hp Hown. constructor; cbn [timer_dev_chn_map pin_place_holder].
  - rewrite length_insert. apply (ti_length _ Hs).
  - apply owner_insert; [apply (ti_owner _ Hs)|]. intros Hin. destruct (Hown Hin) as [?|<-]; auto.
  - apply (ti_tokens _ Hs).
  - intros t sts Ht. rewrite (ti_taken _ Hs t sts Ht). pose proof (token_range s t sts Hs Ht).
    symmetry. apply (elem_of_insert_other _ i p old); [done|lia|lia].
Qed.
Lemma set_pin_func_inv p s :
  timer_inv s → user_pin p →
  timer_inv (snd (hal_timer_set_pin_func p s)) ∧
  match fst (hal_timer_set_pin_func p s) with
  | Some i => (s.(timer_dev_chn_map) !! i = Some p ∨ p ∉ s.(timer_dev_chn_map) ∧ s.(timer_dev_chn_map) !! i = Some (-1)) ∧
      ch_sel (snd (hal_timer_set_pin_func p s)).(timer_pads).(mux) p = FUNC_TIMER0_TOGGLE1 + Z.of_nat i
  | None => p ∉ s.(timer_dev_chn_map) ∧ -1 ∉ s.(timer_dev_chn_map)
  end.
Proof.
  intros Hs Hp. unfold user_pin in Hp. unfold hal_timer_set_pin_func.
  assert (match get_free_timer_chn p s with
    | Some i => s.(timer_dev_chn_map) !! i = Some p ∨ p ∉ s.(timer_dev_chn_map) ∧ s.(timer_dev_chn_map) !! i = Some (-1)
    | None => p ∉ s.(timer_dev_chn_map) ∧ -1 ∉ s.(timer_dev_chn_map) end) as Hfree.
  { unfold get_free_timer_chn. destruct (index_of p _) as [i|] eqn:E; [left; by apply index_of_Some in E as [? _]|].
    apply index_of_None in E. destruct (index_of (-1) _) as [i|] eqn:E1; [|by apply index_of_None in E1].
    right. split; [done|]. by apply index_of_Some in E1 as [? _]. }
  destruct (get_free_timer_chn p s) as [i|]; [|done]. cbn [fst snd].
  assert ((i < 12)%nat) as Hlt.
  { rewrite <-(ti_length _ Hs). destruct Hfree as [Hi|[_ Hi]]; by eapply lookup_lt_Some. }
  split; [|split; [done|]].
  - unfold on_timer_pads, set_chn_pin. cbn [timer_dev_chn_map pin_place_holder timer_pads].
    destruct Hfree as [Hi|[Hn Hi]]; (eapply set_chn_pin_inv; [done|exact Hi|lia|lia|]); [intros _; by right|intros ?; by destruct Hn].
  - unfold on_timer_pads, set_chn_pin. cbn [timer_pads].
    rewrite (wrap_id 8) by lia. unfold K210_IO_NUMS, FUNC_TIMER0_TOGGLE1, FUNC_MAX in *.
    rewrite hal_set_pin_ch_sel by (unfold K210_IO_NUMS, FUNC_MAX; lia). by rewrite decide_True.
Qed.
Lemma clr_pin_func_inv p s :
  timer_inv s → user_pin p →
  timer_inv (hal_timer_clr_pin_func p s) ∧
  (hal_timer_clr_pin_func p s).(timer_dev_chn_map) = (λ q, if decide (q = p) then -1 else q) <$> s.(timer_dev_chn_map).
Proof.
  intros Hs Hp. unfold user_pin in Hp. unfold hal_timer_clr_pin_func.
  set (P := λ (k : Z) s', timer_inv s' ∧ ∀ j, s'.(timer_dev_chn_map) !! j =
    (λ q, if decide (q = p ∧ Z.of_nat j < k) then -1 else q) <$> s.(timer_dev_chn_map) !! j).
  match goal with |- timer_inv ?x ∧ _ => enough (P K210_TIMER_DEC_CHN_NUMS x) as [Hi Hm] end.
  - split; [exact Hi|]. apply list_eq. intros j. rewrite Hm, list_lookup_fmap.
    destruct (timer_dev_chn_map s !! j) as [q|] eqn:E; [|done]. cbn. f_equal.
    pose proof (lookup_lt_Some _ _ _ E) as Hlt. rewrite (ti_length _ Hs) in Hlt. unfold K210_TIMER_DEC_CHN_NUMS.
    assert (Z.of_nat j < 12) by lia. destruct (decide (q = p)), (decide (q = p ∧ _)); tauto.
  - apply (for_range_ind P); [done| |].
    + split; [done|]. intros j. destruct (timer_dev_chn_map s !! j) as [q|]; [|done]. cbn. f_equal.
      by rewrite decide_False by lia.
    + intros k s' Hk [Hi Hm]. rewrite Z.add_0_l.
      destruct (timer_dev_chn_map s !! Z.to_nat k) as [q|] eqn:E.
      2: { apply lookup_ge_None in E. rewrite (ti_length _ Hs) in E. unfold K210_TIMER_DEC_CHN_NUMS in Hk. lia. }
      pose proof (Hm (Z.to_nat k)) as Hk'. rewrite E in Hk'. cbn in Hk'. rewrite decide_False in Hk' by lia.
      case_decide as Hc; rewrite Hk' in Hc.
      * injection Hc as ->. split.
        { unfold set_chn_pin, on_timer_pads. cbn [timer_dev_chn_map pin_place_holder timer_pads].
          eapply set_chn_pin_inv; [done|exact Hk'|lia|lia|by left]. }
        intros j. unfold set_chn_pin, on_timer_pads. cbn [timer_dev_chn_map].
        destruct (decide (j = Z.to_nat k)) as [->|Hj].
        { rewrite list_lookup_insert_eq by (by eapply lookup_lt_Some). rewrite E. cbn. by rewrite decide_True by lia. }
        rewrite list_lookup_insert_ne, Hm by done. destruct (timer_dev_chn_map s !! j) as [q|]; [|done]. cbn. f_equal.
        apply decide_ext. assert (Z.of_nat j ≠ k) by lia. lia.
      * split; [done|]. intros j. rewrite Hm. destruct (timer_dev_chn_map s !! j) as [q'|] eqn:Ej; [|done]. cbn. f_equal.
        apply decide_ext.
        split; intros [-> Hjk]; (split; [done|]); [lia|].
        destruct (decide (j = Z.to_nat k)) as [->|]; [congruence|lia].
Qed.
(** A client without a pin *)
Lemma take_token s i k t sts' p :
  timer_inv s → s.(pin_place_holder) !! k = Some (t, sts') →
  (sts' = 0 ∧ s.(timer_dev_chn_map) !! i = Some (-1) ∧ p = (t, 1) ∨
   s.(timer_dev_chn_map) !! i = Some t ∧ p = (-1, 0)) →
  let '(q, sts) := p in
  timer_inv (HalTimer (<[i := q]> s.(timer_dev_chn_map)) (<[k := (t, sts)]> s.(pin_place_holder)) s.(timer_pads)).
Proof.
  intros Hs Hk Hcase. destruct p as [q sts].
  pose proof (token_range s t sts' Hs (list_elem_of_lookup_2 _ _ _ Hk)) as Ht.
  assert (∃ old, s.(timer_dev_chn_map) !! i = Some old ∧
    (old = -1 ∧ q = t ∧ sts = 1 ∧ t ∉ s.(timer_dev_chn_map) ∨ old = t ∧ q = -1 ∧ sts = 0)) as (old & Hi & Hold).
  { destruct Hcase as [(-> & Hi & Ep)|(Hi & Ep)]; injection Ep as Eq Ests; [exists (-1)|exists t]; (split; [done|]); [left|by right].
    repeat (split; [done|]). intros Hin. apply (ti_taken _ Hs t 0); [by eapply list_elem_of_lookup_2|done|done]. }
  clear Hcase. constructor; cbn [timer_dev_chn_map pin_place_holder].
  - rewrite length_insert. apply (ti_length _ Hs).
  - apply owner_insert; [apply (ti_owner _ Hs)|]. destruct Hold as [(-> & -> & _ & Hn)|(-> & -> & _)]; [done|by left].
  - rewrite list_fmap_insert. cbn [fst]. rewrite list_insert_id; [apply (ti_tokens _ Hs)|]. by rewrite list_lookup_fmap, Hk.
  - intros t' s' Hin. apply list_elem_of_lookup in Hin as (j & Hj).
    assert (i < length s.(timer_dev_chn_map))%nat as Hlt by (by eapply lookup_lt_Some).
    apply list_lookup_insert_Some in Hj as [(<- & [= -> ->] & _)|[Hkj Hj]].
    + destruct Hold as [(-> & -> & -> & Hn)|(-> & -> & ->)].
      * split; [intros _|done]. apply list_elem_of_lookup. exists i. by apply list_lookup_insert_eq.
      * split; [done|]. intros (j & Hj)%list_elem_of_lookup. exfalso.
        apply list_lookup_insert_Some in Hj as [(_ & ? & _)|[Hij Hj]]; [lia|].
        apply Hij, (ti_owner _ Hs i j t'); [done..|lia].
    + assert (t' ≠ t) as Hne by (intros ->; apply Hkj; by apply (token_index s k j t sts' s')).
      pose proof (token_range s t' s' Hs (list_elem_of_lookup_2 _ _ _ Hj)) as Ht'.
      rewrite (ti_taken _ Hs t' s' (list_elem_of_lookup_2 _ _ _ Hj)). symmetry.
      apply (elem_of_insert_other _ i q old); [done|destruct Hold; lia|destruct Hold; lia].
Qed.
(** When every number is taken no channel is free. *)
Lemma tokens_fill s :
  timer_inv s → Forall (λ h, snd h ≠ 0) s.(pin_place_holder) → -1 ∉ s.(timer_dev_chn_map).
Proof.
  intros Hs Hall. rewrite Forall_forall in Hall.
  assert (seqZ 42 12 ⊆+ s.(timer_dev_chn_map)) as Hsub.
  { apply NoDup_submseteq; [apply NoDup_seqZ|]. intros t Ht. rewrite <-(ti_tokens _ Hs) in Ht.
    apply list_elem_of_fmap in Ht as ([t' sts] & -> & Hin). apply (ti_taken _ Hs t' sts Hin). by apply (Hall (t', sts)). }
  apply submseteq_length_Permutation in Hsub; [|rewrite (ti_length _ Hs); done].
  rewrite <-Hsub. intros Hm%elem_of_seqZ. lia.
Qed.
Lemma get_free_chn_inv s :
  timer_inv s →
  timer_inv (snd (hal_timer_get_free_chn s)) ∧
  match fst (hal_timer_get_free_chn s) with
  | Some i => s.(timer_dev_chn_map) !! i = Some (-1) ∧
      ∃ t, 42 ≤ t < 54 ∧ (snd (hal_timer_get_free_chn s)).(timer_dev_chn_map) = <[i := t]> s.(timer_dev_chn_map)
  | None => -1 ∉ s.(timer_dev_chn_map)
  end.
Proof.
  intros Hs. unfold hal_timer_get_free_chn. destruct (list_find _ _) as [[k [t sts]]|] eqn:E.
  - apply list_find_Some in E as (Hk & Hz & _). cbn [snd] in Hz. subst sts.
    pose proof (list_elem_of_lookup_2 _ _ _ Hk) as Hin.
    assert (index_of t s.(timer_dev_chn_map) = None) as Hn.
    { apply index_of_None. intros Ht. by apply (ti_taken _ Hs t 0 Hin) in Ht. }
    unfold get_free_timer_chn. rewrite Hn. destruct (index_of (-1) _) as [i|] eqn:Ei; cbn [fst snd].
    + apply index_of_Some in Ei as [Hi _]. split; [|split; [done|]].
      * exact (take_token s i k t 0 (t, 1) Hs Hk (or_introl (conj eq_refl (conj Hi eq_refl)))).
      * exists t. split; [by apply (token_range s t 0)|done].
    + split; [done|]. by apply index_of_None.
  - cbn [fst snd]. split; [done|]. apply tokens_fill; [done|]. exact (proj1 (list_find_None _ _) E).
Qed.
(** The holder of a made-up number gives it back. *)
Lemma release_chn_inv s i t :
  timer_inv s → s.(timer_dev_chn_map) !! i = Some t → 42 ≤ t < 54 →
  timer_inv (hal_timer_release_chn (Some i) s) ∧
  (hal_timer_release_chn (Some i) s).(timer_dev_chn_map) = <[i := -1]> s.(timer_dev_chn_map).
Proof.
  intros Hs Hi Ht. unfold hal_timer_release_chn. rewrite (list_lookup_total_correct _ _ _ Hi).
  destruct (index_of t _) as [j|] eqn:E.
  2: { apply index_of_None in E. destruct E. by eapply list_elem_of_lookup_2. }
  apply index_of_Some in E as [Hj _]. assert (j = i) as -> by (apply (ti_owner _ Hs j i t); [done..|lia]).
  cbn [set_chn_pin pin_place_holder].
  destruct (list_find (λ h, fst h = t) s.(pin_place_holder)) as [[k [t' sts]]|] eqn:Ek.
  - apply list_find_Some in Ek as (Hk & Hft & _). cbn [fst] in Hft. subst t'. split; [|done].
    exact (take_token s i k t sts (-1, 0) Hs Hk (or_intror (conj Hi eq_refl))).
  - exfalso. apply list_find_None in Ek. rewrite Forall_forall in Ek.
    assert (t ∈ fst <$> s.(pin_place_holder)) as Hin by (rewrite (ti_tokens _ Hs); apply elem_of_seqZ; lia).
    apply list_elem_of_fmap in Hin as (h & -> & Hh). by apply (Ek h).
Qed.

(** ** Programs *)
Inductive timer_op : Type := SetPin (p : Z) | ClrPin (p : Z) | GetFree | Release (i : nat).
Definition run_timer_op (o : timer_op) (s : hal_timer) : hal_timer :=
  match o with
  | SetPin p => snd (hal_timer_set_pin_func p s)
  | ClrPin p => hal_timer_clr_pin_func p s
  | GetFree => snd (hal_timer_get_free_chn s)
  | Release i => hal_timer_release_chn (Some i) s
  end.
(** Pins below the made-up numbers; only who holds one gives a channel back. *)
Definition timer_allowed (o : timer_op) (s : hal_timer) : Prop :=
  match o with
  | SetPin p | ClrPin p => user_pin p
  | GetFree => True
  | Release i => ∃ t, s.(timer_dev_chn_map) !! i = Some t ∧ 42 ≤ t < 54
  end.
Inductive timer_reachable : hal_timer → Prop :=
| timer_start h : timer_reachable (hal_timer_init h)
| timer_step o s : timer_reachable s → timer_allowed o s → timer_reachable (run_timer_op o s).
Lemma timer_reachable_inv s : timer_reachable s → timer_inv s.
Proof.
  induction 1 as [h|o s _ IH Ho]; [apply hal_timer_init_inv|]. destruct o; cbn [run_timer_op timer_allowed] in *.
  - by apply set_pin_func_inv.
  - by apply clr_pin_func_inv.
  - by apply get_free_chn_inv.
  - destruct Ho as (t & Hi & Ht). by apply (release_chn_inv s i t).
Qed.
(** Programs whose pins stay below 42.  No channel ever serves two owners: a client
    without a pin gets a channel that was free, and none only when all twelve are in
    use; a pin gets its own channel again or a free one, connected to it by the
    multiplexer; giving a channel back frees that channel alone. *)
Theorem hal_timer_exclusive s :
  timer_reachable s →
  one_owner s.(timer_dev_chn_map) ∧
  match fst (hal_timer_get_free_chn s) with
  | Some i => s.(timer_dev_chn_map) !! i = Some (-1) ∧
      ∃ t, 42 ≤ t < 54 ∧ (snd (hal_timer_get_free_chn s)).(timer_dev_chn_map) = <[i := t]> s.(timer_dev_chn_map)
  | None => -1 ∉ s.(timer_dev_chn_map)
  end ∧
  (∀ p, user_pin p →
    match fst (hal_timer_set_pin_func p s) with
    | Some i => (s.(timer_dev_chn_map) !! i = Some p ∨ p ∉ s.(timer_dev_chn_map) ∧ s.(timer_dev_chn_map) !! i = Some (-1)) ∧
        ch_sel (snd (hal_timer_set_pin_func p s)).(timer_pads).(mux) p = FUNC_TIMER0_TOGGLE1 + Z.of_nat i
    | None => p ∉ s.(timer_dev_chn_map) ∧ -1 ∉ s.(timer_dev_chn_map)
    end) ∧
  ∀ i t, s.(timer_dev_chn_map) !! i = Some t → 42 ≤ t < 54 →
    (hal_timer_release_chn (Some i) s).(timer_dev_chn_map) = <[i := -1]> s.(timer_dev_chn_map).
Proof.
  intros Hs%timer_reachable_inv. split; [apply (ti_owner _ Hs)|].
  split; [apply (get_free_chn_inv s Hs)|]. split.
  - intros p Hp. apply (set_pin_func_inv p s Hs Hp).
  - intros i t Hi Ht. by apply (release_chn_inv s i t).
Qed.
(** The made-up numbers 42 to 47 are real pins.  When such a pin has a channel and its
    number is the next free one, a client without a pin is given the pin's own channel,
    however many others are free. *)
Theorem hal_timer_token_clash s k t i :
  list_find (λ h, snd h = 0) s.(pin_place_holder) = Some (k, (t, 0)) → index_of t s.(timer_dev_chn_map) = Some i →
  fst (hal_timer_get_free_chn s) = Some i ∧ s.(timer_dev_chn_map) !! i = Some t ∧
  hal_timer_release_chn (Some i) (snd (hal_timer_get_free_chn s)) =
    HalTimer (<[i := -1]> s.(timer_dev_chn_map))
      (hal_timer_release_chn (Some i) (snd (hal_timer_get_free_chn s))).(pin_place_holder) s.(timer_pads).
Proof.
  intros Hk Hi. pose proof (index_of_Some _ _ _ Hi) as [Hl _].
  unfold hal_timer_get_free_chn. rewrite Hk. unfold get_free_timer_chn. rewrite Hi. cbn [fst snd].
  split; [done|]. split; [done|].
  assert (∀ (o : option (nat * (Z * Z))) m h g, timer_dev_chn_map g = m → timer_pads g = h →
    let r := match o with Some (j, (u, _)) => set_holder j u 0 g | None => g end in
    r = HalTimer m r.(pin_place_holder) h) as Hr.
  { intros [[j [u v]]|] m h [? ? ?] ? ?; cbn in *; by subst. }
  unfold hal_timer_release_chn, set_chn_pin. cbn [timer_dev_chn_map pin_place_holder timer_pads set_holder].
  rewrite (list_insert_id (timer_dev_chn_map s)) by done.
  rewrite (list_lookup_total_correct _ _ _ Hl), Hi. by apply Hr.
Qed.

(** ** Witnesses *)
Definition demo_hal : hal_pads := HalPads (λ _, FUNC_MAX) (λ _, 0).
Lemma hal_timer_exclusive_witness :
  fst (hal_timer_get_free_chn (hal_timer_init demo_hal)) = Some 0%nat ∧ one_owner (timer_dev_chn_map (hal_timer_init demo_hal)).
Proof.
  split; [vm_compute; reflexivity|].
  exact (proj1 (hal_timer_exclusive (hal_timer_init demo_hal) (timer_start demo_hal))).
Defined.
Lemma hal_timer_token_clash_witness :
  let s := run_timer_op (SetPin 42) (hal_timer_init demo_hal) in
  fst (hal_timer_get_free_chn s) = Some 0%nat ∧ s.(timer_dev_chn_map) !! 0%nat = Some 42.
Proof.
  cbv zeta.
  assert (list_find (λ h, snd h = 0) (pin_place_holder (run_timer_op (SetPin 42) (hal_timer_init demo_hal))) =
    Some (0%nat, (42, 0))) as Hk by (vm_compute; reflexivity).
  assert (index_of 42 (timer_dev_chn_map (run_timer_op (SetPin 42) (hal_timer_init demo_hal))) = Some 0%nat) as Hi
    by (vm_compute; reflexivity).
  destruct (hal_timer_token_clash _ _ _ _ Hk Hi) as (H1 & H2 & _). by split.
Defined.
