(* ===== verification/TouchFilter.v ===== *)
(** * Touch-screen filters (libraries/TouchScreen/src/ts_lib)

    The running median and mean through which the samples of a touch panel go, the
    affine calibration after them, and their allocation. *)

From S2P Require Import Prelude.
From stdpp Require Import list sorting.
#[local] Open Scope Z_scope.

Definition INT_MAX : Z := 0x7fffffff.

(** A pointer to an object that nothing else points to: null, to a freed object, or
    to a live one with its contents *)
Inductive ptr (A : Type) : Type := Null | Dangling | To (a : A).
Arguments Null {A}.
Arguments Dangling {A}.
Arguments To {A}.
Definition is_null {A} (p : ptr A) : bool := match p with Null => true | _ => false end.
(** Following a pointer *)
Definition follow {A} (p : ptr A) : res A := match p with To a => Ok a | _ => Fault FUB end.

Record mean_filter_t := Mean {
  mean_buffer : list Z; mean_length : Z; mean_index : Z; mean_count : Z; mean_sum : Z
}.
Record median_filter_t := Median {
  med_buffer : list Z; med_index : list Z; med_length : Z; med_position : Z; med_count : Z
}.

(** ** Updates *)
Definition mean_update (f : mean_filter_t) (value : Z) : res (Z * mean_filter_t) :=
  old ← arr_get f.(mean_buffer) f.(mean_index);
  sum ← c_int (f.(mean_sum) - old);
  sum ← c_int (sum + value);
  buffer ← arr_set f.(mean_buffer) f.(mean_index) value;
  next ← c_int (f.(mean_index) + 1);
  index ← (if f.(mean_length) =? 0 then Fault FUB else Ok (Z.rem next f.(mean_length)));
  let count := if f.(mean_count) <? f.(mean_length) then f.(mean_count) + 1 else f.(mean_count) in
  result ← c_quot sum count;
  Ok (result, Mean buffer f.(mean_length) index count sum).

(** [while(filter->index[oidx] != pos) ++oidx] over the rest of the array *)
Fixpoint find_index (index : list Z) (pos : Z) : res nat :=
  match index with
  | [] => Fault FUB
  | i :: index => if i =? pos then Ok O else oidx ← find_index index pos; Ok (S oidx)
  end.
(** The entries [j] and [j + 1] change places. *)
Definition swap_next (index : list Z) (j : nat) : res (list Z) :=
  a ← arr_get index (Z.of_nat j);
  b ← arr_get index (Z.of_nat j + 1);
  index ← arr_set index (Z.of_nat j) b;
  arr_set index (Z.of_nat j + 1) a.
(** The loop towards the end of the array, [n] entries from [oidx] *)
Fixpoint sift_up (buffer : list Z) (value : Z) (n oidx : nat) (index : list Z) : res (list Z) :=
  match n with
  | O => Ok index
  | S n =>
      cidx ← arr_get index (Z.of_nat (S oidx));
      v ← arr_get buffer cidx;
      if v <? value then index ← swap_next index oidx; sift_up buffer value n (S oidx) index
      else Ok index
  end.
(** The loop towards its start *)
Fixpoint sift_down (buffer : list Z) (value : Z) (oidx : nat) (index : list Z) : res (list Z) :=
  match oidx with
  | O => Ok index
  | S oidx =>
      cidx ← arr_get index (Z.of_nat oidx);
      v ← arr_get buffer cidx;
      if value <? v then index ← swap_next index oidx; sift_down buffer value oidx index
      else Ok index
  end.
(** The branch of a filter that has samples: the new one takes its place in the buffer
    and in the sorted index *)
Definition insert_sample (f : median_filter_t) (value : Z) : res (list Z * list Z) :=
  let pos := f.(med_position) in
  let cnt := f.(med_count) in
  '(oidx, oval, index) ← (if cnt =? f.(med_length) then
      oidx ← find_index f.(med_index) pos;
      oval ← arr_get f.(med_buffer) pos;
      Ok (oidx, oval, f.(med_index))
    else
      index ← arr_set f.(med_index) pos pos;
      Ok (Z.to_nat pos, INT_MAX, index));
  buffer ← arr_set f.(med_buffer) pos value;
  index ← (if oval <? value then sift_up buffer value (Z.to_nat cnt - S oidx) oidx index
           else if value <? oval then sift_down buffer value oidx index
           else Ok index);
  Ok (buffer, index).
Definition median_update (f : median_filter_t) (value : Z) : res (Z * median_filter_t) :=
  let pos := f.(med_position) in
  let cnt := f.(med_count) in
  '(result, buffer, index) ← (if 0 <? cnt then
      '(buffer, index) ← insert_sample f value;
      m ← arr_get index (Z.quot cnt 2);
      result ← arr_get buffer m;
      Ok (result, buffer, index)
    else
      buffer ← arr_set f.(med_buffer) 0 value;
      index ← arr_set f.(med_index) 0 0;
      Ok (value, buffer, index));
  next ← c_int (pos + 1);
  Ok (result, Median buffer index f.(med_length) (if next =? f.(med_length) then 0 else next)
        (let count := if 0 <? cnt then cnt else 0 in if cnt <? f.(med_length) then count + 1 else count)).

Definition mean_clear (f : mean_filter_t) : mean_filter_t :=
  Mean (replicate (Z.to_nat f.(mean_length)) 0) f.(mean_length) 0 0 0.
Definition median_clear (f : median_filter_t) : median_filter_t :=
  Median f.(med_buffer) f.(med_index) f.(med_length) 0 0.

(** ** The filter of a panel *)
Record tsfilter_t := TsFilter {
  mx : ptr median_filter_t; my : ptr median_filter_t; nx : ptr mean_filter_t; ny : ptr mean_filter_t; cal : list Z
}.
(** [(cal[k + 2] + cal[k] * tx + cal[k + 1] * ty) / cal[6]] *)
Definition calibrate (c : list Z) (k tx ty : Z) : res Z :=
  c2 ← arr_get c (k + 2); c0 ← arr_get c k; p ← c_int (c0 * tx); s ← c_int (c2 + p);
  c1 ← arr_get c (k + 1); q ← c_int (c1 * ty); s ← c_int (s + q);
  d ← arr_get c 6; c_quot s d.
Definition tsfilter_update (f : tsfilter_t) (sample : Z * Z) : res ((Z * Z) * tsfilter_t) :=
  let '(x, y) := sample in
  m ← follow f.(mx); '(tx, m) ← median_update m x; let f := TsFilter (To m) f.(my) f.(nx) f.(ny) f.(cal) in
  m ← follow f.(my); '(ty, m) ← median_update m y; let f := TsFilter f.(mx) (To m) f.(nx) f.(ny) f.(cal) in
  n ← follow f.(nx); '(tx, n) ← mean_update n tx; let f := TsFilter f.(mx) f.(my) (To n) f.(ny) f.(cal) in
  n ← follow f.(ny); '(ty, n) ← mean_update n ty; let f := TsFilter f.(mx) f.(my) f.(nx) (To n) f.(cal) in
  x ← calibrate f.(cal) 0 tx ty;
  y ← calibrate f.(cal) 3 tx ty;
  Ok ((x, y), f).
Definition tsfilter_setcal (f : tsfilter_t) (c : list Z) : res tsfilter_t :=
  new ← foldl (λ l j, l ← l; v ← arr_get c j; arr_set l j v) (Ok f.(cal)) (seqZ 0 7);
  Ok (TsFilter f.(mx) f.(my) f.(nx) f.(ny) new).
Definition clear_at {A} (clear : A → A) (p : ptr A) : res (ptr A) :=
  match p with Null => Ok Null | Dangling => Fault FUB | To a => Ok (To (clear a)) end.
Definition tsfilter_clear (f : tsfilter_t) : res tsfilter_t :=
  mx ← clear_at median_clear f.(mx); my ← clear_at median_clear f.(my);
  nx ← clear_at mean_clear f.(nx); ny ← clear_at mean_clear f.(ny);
  Ok (TsFilter mx my nx ny f.(cal)).

(** ** Allocation

    [rt_malloc k] is what the [k]-th call of [rt_malloc_align] finds: no room, or a
    block with these contents; [live] counts the blocks in use. *)
Record mem := Mem { calls : nat; live : Z }.
Section alloc.
Context (rt_malloc : nat → option (Z → Z)).
Abbreviation M := (Prelude.M mem).
Definition touchscreen_malloc : M (option (Z → Z)) := λ s,
  let r := rt_malloc s.(calls) in
  Ok (r, Mem (S s.(calls)) (match r with Some _ => s.(live) + 1 | None => s.(live) end)).
Definition touchscreen_free : M unit := modify (λ s, Mem s.(calls) (s.(live) - 1)).
Definition mean_alloc (length : Z) : M (ptr mean_filter_t) :=
  if length <=? 0 then mret Null else
  filter ← touchscreen_malloc;
  match filter with
  | None => mret Null
  | Some _ =>
      buffer ← touchscreen_malloc;
      match buffer with
      | None => _ ← touchscreen_free; mret Null
      | Some _ => mret (To (Mean (replicate (Z.to_nat length) 0) length 0 0 0))
      end
  end.
Definition cells_of (block : Z → Z) (length : Z) : list Z := block <$> seqZ 0 length.
Definition free_block (block : option (Z → Z)) : M unit :=
  match block with Some _ => touchscreen_free | None => mret tt end.
Definition median_alloc (length : Z) : M (ptr median_filter_t) :=
  if length <=? 0 then mret Null else
  filter ← touchscreen_malloc;
  match filter with
  | None => mret Null
  | Some _ =>
      buffer ← touchscreen_malloc;
      index ← touchscreen_malloc;
      match buffer, index with
      | Some b, Some i => mret (To (Median (cells_of b length) (cells_of i length) length 0 0))
      | _, _ => _ ← free_block buffer; _ ← free_block index; _ ← touchscreen_free; mret Null
      end
  end.
(** A live filter owns its [blocks] and its own structure. *)
Definition free_filter {A} (blocks : nat) (p : ptr A) : M unit :=
  match p with
  | Null => mret tt
  | Dangling => c_fail FUB
  | To _ => _ ← Nat.iter blocks (λ m : M unit, _ ← touchscreen_free; m) (mret tt); touchscreen_free
  end.
Definition mean_free : ptr mean_filter_t → M unit := free_filter 1.
Definition median_free : ptr median_filter_t → M unit := free_filter 2.
(** [if(filter->p) free(filter->p)], and what the member then is *)
Definition freed {A} (free : ptr A → M unit) (p : ptr A) : M (ptr A) :=
  if is_null p then mret Null else _ ← free p; mret Dangling.
Definition tsfilter_alloc (ml nl : Z) : M (ptr tsfilter_t) :=
  if (ml <=? 0) || (nl <=? 0) then mret Null else
  filter ← touchscreen_malloc;
  match filter with
  | None => mret Null
  | Some _ =>
      mx ← median_alloc ml; my ← median_alloc ml; nx ← mean_alloc nl; ny ← mean_alloc nl;
      let cal := [1; 0; 0; 0; 1; 0; 1] in
      if is_null mx || is_null my || is_null nx || is_null ny then
        mx ← freed median_free mx; my ← freed median_free my; nx ← freed mean_free nx; ny ← freed mean_free ny;
        mret (To (TsFilter mx my nx ny cal))
      else mret (To (TsFilter mx my nx ny cal))
  end.
Definition tsfilter_free (p : ptr tsfilter_t) : M unit :=
  match p with
  | Null => mret tt
  | Dangling => c_fail FUB
  | To f =>
      _ ← freed median_free f.(mx); _ ← freed median_free f.(my);
      _ ← freed mean_free f.(nx); _ ← freed mean_free f.(ny);
      touchscreen_free
  end.
End alloc.

(** ** Events *)
Inductive event_type : Set := TOUCH_NONE | TOUCH_BEGIN | TOUCH_MOVE | TOUCH_END.
Record ts_event_t := TsEvent { event : event_type; event_x : Z; event_y : Z }.
Definition push_event_begin (x y : Z) (e : ts_event_t) : ts_event_t := TsEvent TOUCH_BEGIN x y.
Definition push_event_move (x y : Z) (e : ts_event_t) : ts_event_t := TsEvent TOUCH_MOVE x y.
Definition push_event_end (x y : Z) (e : ts_event_t) : ts_event_t := TsEvent TOUCH_END x y.
Definition push_event_none (e : ts_event_t) : ts_event_t := TsEvent TOUCH_NONE 0 0.

(** ** The ring of samples

    Both filters write their samples round an array; [w] is the window: the last
    [n] samples, oldest first. *)
Definition push (n : nat) (w : list Z) (v : Z) : list Z := drop (S (length w) - n) (w ++ [v]).
Definition ring (b : list Z) (pos n : nat) (w : list Z) : Prop :=
  length b = n ∧ (pos < n)%nat ∧
  ((length w < n ∧ pos = length w ∧ take pos b = w) ∨ (length w = n ∧ drop pos b ++ take pos b = w))%nat.
Definition next_pos (pos n : nat) : nat := if decide (S pos = n) then O else S pos.

Lemma push_length n w v : (0 < n)%nat → (length w ≤ n)%nat → length (push n w v) = (S (length w) `min` n)%nat.
Proof. intros. unfold push. rewrite length_drop, length_app. cbn [length]. lia. Qed.
Lemma ring_push b pos n w v :
  ring b pos n w → ring (<[pos := v]> b) (next_pos pos n) n (push n w v).
Proof.
  intros (Hb & Hp & Hw). unfold ring. rewrite length_insert. split; [done|].
  split; [unfold next_pos; case_decide; lia|].
  assert (take (S pos) (<[pos:=v]> b) = take pos b ++ [v]) as Htake.
  { rewrite (take_S_r _ _ v) by (by apply list_lookup_insert_eq; lia). by rewrite take_insert_ge by lia. }
  destruct Hw as [(Hl & -> & Hw)|(Hl & Hw)].
  - assert (push n w v = w ++ [v]) as ->.
    { unfold push. by replace (S (length w) - n)%nat with O by lia. }
    rewrite length_app. cbn [length]. unfold next_pos. case_decide as E.
    + right. split; [lia|]. rewrite drop_0, take_0, app_nil_r. rewrite Hw in Htake. rewrite <-Htake.
      by rewrite firstn_all2 by (rewrite length_insert; lia).
    + left. split; [lia|]. split; [lia|]. by rewrite Htake, Hw.
  - right. rewrite push_length by lia. split; [lia|]. unfold push. replace (S (length w) - n)%nat with 1%nat by lia.
    destruct (drop pos b) as [|x d] eqn:Ed.
    { apply (f_equal length) in Ed. rewrite length_drop in Ed. cbn [length] in Ed. lia. }
    rewrite <-Hw. cbn [app drop]. rewrite <-app_assoc, <-Htake.
    assert (drop (S pos) (<[pos:=v]> b) = d) as Hd.
    { rewrite drop_insert_lt by lia. replace (S pos) with (pos + 1)%nat by lia. by rewrite <-drop_drop, Ed. }
    unfold next_pos. case_decide as E; [|by rewrite Hd].
    rewrite drop_0, take_0, app_nil_r.
    assert (d = []) as ->.
    { apply (f_equal length) in Ed. rewrite length_drop in Ed. cbn [length] in Ed. by apply nil_length_inv; lia. }
    by rewrite firstn_all2 by (rewrite length_insert; lia).
Qed.
Lemma ring_oldest b pos n w : ring b pos n w → length w = n → ∃ w', w = b !!! pos :: w'.
Proof.
  intros (Hb & Hp & [(Hl & _)|(_ & Hw)]) E; [lia|].
  destruct (lookup_lt_is_Some_2 b pos ltac:(lia)) as [x Hx].
  rewrite (drop_S _ _ _ Hx) in Hw. rewrite (list_lookup_total_correct _ _ _ Hx). by eexists.
Qed.
(** The window as a bag: the first cells of the array *)
Lemma ring_perm b pos n w : ring b pos n w → take (length w) b ≡ₚ w.
Proof.
  intros (Hb & Hp & [(Hl & -> & Hw)|(Hl & Hw)]); [by rewrite Hw|].
  rewrite firstn_all2 by lia. rewrite <-Hw. rewrite <-(take_drop pos b) at 1. apply Permutation_app_comm.
Qed.

(** ** The sorted index of the median *)
Lemma arr_get_app {A} (l : list A) x r : arr_get (l ++ x :: r) (Z.of_nat (length l)) = Ok x.
Proof. apply arr_get_ok. by rewrite list_lookup_middle. Qed.
Lemma arr_set_app {A} (l : list A) x y r : arr_set (l ++ x :: r) (Z.of_nat (length l)) y = Ok (l ++ y :: r).
Proof.
  rewrite arr_set_ok by (rewrite length_app; cbn [length]; lia). f_equal.
  by rewrite insert_app_r_alt, Nat.sub_diag by lia.
Qed.
Lemma swap_next_app l x y r : swap_next (l ++ x :: y :: r) (length l) = Ok (l ++ y :: x :: r).
Proof.
  unfold swap_next. rewrite arr_get_app. cbn [mbind res_bind].
  assert (Z.of_nat (length l) + 1 = Z.of_nat (length (l ++ [x]))) as -> by (rewrite length_app; cbn [length]; lia).
  replace (l ++ x :: y :: r) with ((l ++ [x]) ++ y :: r) by by rewrite <-app_assoc.
  rewrite arr_get_app. cbn [mbind res_bind]. rewrite <-app_assoc. cbn [app]. rewrite arr_set_app. cbn [mbind res_bind].
  assert (length (l ++ [x]) = length (l ++ [y])) as -> by by rewrite !length_app.
  replace (l ++ y :: y :: r) with ((l ++ [y]) ++ y :: r) by by rewrite <-app_assoc.
  rewrite arr_set_app, <-app_assoc. done.
Qed.
Lemma find_index_app l p r : p ∉ l → find_index (l ++ p :: r) p = Ok (length l).
Proof.
  induction l as [|x l IH]; cbn [app find_index length]; intros Hp; [by rewrite Z.eqb_refl|].
  rewrite (proj2 (Z.eqb_neq _ _)) by (intros ->; apply Hp; by left). rewrite IH by (intros ?; apply Hp; by right). done.
Qed.
Section index.
Context (b : list Z) (v : Z).
Definition key (j : Z) : Z := b !!! Z.to_nat j.
Definition kle (i j : Z) : Prop := key i ≤ key j.
Definition cell (j : Z) : Prop := 0 ≤ j < Z.of_nat (length b).
Lemma get_key j : cell j → arr_get b j = Ok (key j).
Proof.
  intros Hj. unfold arr_get, key. rewrite (proj2 (Z.ltb_ge _ _)) by (destruct Hj; lia).
  by rewrite (list_lookup_lookup_total_lt b) by (unfold cell in Hj; lia).
Qed.
Lemma insert_between l p r :
  StronglySorted kle (l ++ r) → key p = v → Forall (λ j, key j ≤ v) l → Forall (λ j, v ≤ key j) r →
  StronglySorted kle (l ++ p :: r).
Proof.
  intros (Hlr & Hl & Hr)%StronglySorted_app Hp Hl' Hr'. rewrite Forall_forall in Hl', Hr'. apply StronglySorted_app_2; [|done|].
  - intros x y Hx [->|Hy]%elem_of_cons; [unfold kle; rewrite Hp; auto|auto].
  - constructor; [done|]. apply Forall_forall. intros j Hj. unfold kle. rewrite Hp. auto.
Qed.
Lemma last_le l c : StronglySorted kle (l ++ [c]) → key c ≤ v → Forall (λ j, key j ≤ v) (l ++ [c]).
Proof.
  intros (Hl & _ & _)%StronglySorted_app Hc. apply Forall_forall. intros j [Hj| ->%list_elem_of_singleton]%elem_of_app; [|done].
  specialize (Hl j c Hj ltac:(by apply list_elem_of_singleton)). unfold kle in Hl. lia.
Qed.
Lemma sift_down_ok l p r rest :
  Forall cell l → StronglySorted kle (l ++ r) → key p = v → Forall (λ j, v ≤ key j) r →
  ∃ i, sift_down b v (length l) (l ++ p :: r ++ rest) = Ok (i ++ rest) ∧ StronglySorted kle i ∧ i ≡ₚ l ++ p :: r.
Proof.
  revert r. induction l as [|c l IH] using rev_ind; intros r Hc Hs Hp Hr.
  { exists (p :: r). split; [done|]. split; [by apply (insert_between [])|done]. }
  rewrite length_app, Nat.add_1_r. cbn [sift_down]. rewrite <-!app_assoc in Hs |- *. cbn [app] in Hs |- *.
  rewrite arr_get_app. cbn [mbind res_bind]. apply Forall_app in Hc as [Hcl Hcc]. apply Forall_cons in Hcc as [Hcc _].
  rewrite get_key by done. cbn [mbind res_bind]. destruct (Z.ltb_spec v (key c)).
  - rewrite swap_next_app. cbn [mbind res_bind].
    destruct (IH (c :: r) Hcl Hs Hp) as (i & E & Hi & Hperm); [constructor; [lia|done]|].
    exists i. split; [exact E|]. split; [done|]. rewrite Hperm. rewrite <-?app_assoc. apply Permutation_app_head. constructor.
  - exists (l ++ c :: p :: r). split; [by rewrite <-app_assoc|]. split; [|by rewrite <-app_assoc].
    replace (l ++ c :: p :: r) with ((l ++ [c]) ++ p :: r) by by rewrite <-app_assoc.
    replace (l ++ c :: r) with ((l ++ [c]) ++ r) in Hs by by rewrite <-app_assoc.
    apply insert_between; [done|done| |done]. apply last_le; [|lia]. by apply StronglySorted_app_1_l in Hs.
Qed.
Lemma sift_up_ok l p r :
  Forall cell r → StronglySorted kle (l ++ r) → key p = v → Forall (λ j, key j ≤ v) l →
  ∃ i, sift_up b v (length r) (length l) (l ++ p :: r) = Ok i ∧ StronglySorted kle i ∧ i ≡ₚ l ++ p :: r.
Proof.
  revert l. induction r as [|c r IH]; intros l Hc Hs Hp Hl; cbn [length sift_up].
  { exists (l ++ [p]). split; [done|]. split; [by apply insert_between|done]. }
  apply Forall_cons in Hc as [Hcc Hcr].
  replace (Z.of_nat (S (length l))) with (Z.of_nat (length (l ++ [p]))) by (rewrite length_app; cbn [length]; lia).
  replace (l ++ p :: c :: r) with ((l ++ [p]) ++ c :: r) by by rewrite <-app_assoc.
  rewrite arr_get_app. cbn [mbind res_bind]. rewrite get_key by done. cbn [mbind res_bind].
  rewrite <-app_assoc. cbn [app]. destruct (Z.ltb_spec (key c) v).
  - rewrite swap_next_app. cbn [mbind res_bind].
    destruct (IH (l ++ [c])) as (i & E & Hi & Hperm); [done|by rewrite <-app_assoc|done| |].
    { apply Forall_app. split; [done|]. constructor; [lia|done]. }
    rewrite length_app, Nat.add_1_r, <-app_assoc in E. cbn [app] in E.
    exists i. split; [exact E|]. split; [done|]. rewrite Hperm, <-app_assoc. apply Permutation_app_head. constructor.
  - exists (l ++ p :: c :: r). split; [done|]. split; [|done]. apply insert_between; [done|done|done|].
    apply StronglySorted_app_1_r, StronglySorted_inv in Hs as [_ Hs]. constructor; [lia|].
    eapply Forall_impl; [exact Hs|]. unfold kle. intros. lia.
Qed.
End index.

(** ** The median filter *)
Record median_ok (n : nat) (w : list Z) (f : median_filter_t) : Prop := {
  mo_length : f.(med_length) = Z.of_nat n;
  mo_int : (Z.of_nat n ≤ INT_MAX);
  mo_count : f.(med_count) = Z.of_nat (length w);
  mo_window : Forall (λ x, x ≤ INT_MAX) w;
  mo_ring : ∃ pos, f.(med_position) = Z.of_nat pos ∧ ring f.(med_buffer) pos n w;
  mo_index : ∃ i rest, f.(med_index) = i ++ rest ∧ length (i ++ rest) = n ∧
    i ≡ₚ seqZ 0 (Z.of_nat (length w)) ∧ StronglySorted (kle f.(med_buffer)) i
}.
Lemma ring_window b pos n w : ring b pos n w → (length w ≤ n)%nat.
Proof. intros (_ & _ & [(? & _)|(? & _)]); lia. Qed.
Lemma cells (b : list Z) i k : (k ≤ length b)%nat → i ≡ₚ seqZ 0 (Z.of_nat k) → Forall (cell b) i.
Proof. intros Hk Hi. rewrite Hi. apply Forall_forall. intros j Hj%elem_of_seqZ. unfold cell. lia. Qed.
Lemma kle_insert b (pos : nat) v i :
  Forall (cell b) i → Z.of_nat pos ∉ i → StronglySorted (kle b) i → StronglySorted (kle (<[pos := v]> b)) i.
Proof.
  intros Hc Hp Hs. induction Hs as [|j i Hs IH Hj]; [constructor|]. apply Forall_cons in Hc as [Hcj Hc].
  apply not_elem_of_cons in Hp as [Hpj Hp]. constructor; [auto|]. rewrite Forall_forall in Hj, Hc |- *.
  intros x Hx. specialize (Hj x Hx). specialize (Hc x Hx). unfold kle, key, cell in *.
  assert (x ≠ Z.of_nat pos) by (intros ->; done). rewrite !list_lookup_total_insert_ne by lia. done.
Qed.
Lemma key_insert b pos v : (pos < length b)%nat → key (<[pos := v]> b) (Z.of_nat pos) = v.
Proof. intros. unfold key. by rewrite Nat2Z.id, list_lookup_total_insert_eq. Qed.
Lemma key_insert_ne b (pos : nat) v j : cell b j → j ≠ Z.of_nat pos → key (<[pos := v]> b) j = key b j.
Proof. intros Hc Hj. unfold key, cell in *. by rewrite list_lookup_total_insert_ne by lia. Qed.
Lemma sorted_fmap b i : StronglySorted (kle b) i → StronglySorted Z.le (key b <$> i).
Proof. induction 1 as [|j i Hs IH Hj]; cbn [fmap list_fmap]; constructor; [done|]. by apply Forall_fmap. Qed.
(** The window in the order of the index *)
Lemma sorted_keys b i w :
  (length w ≤ length b)%nat → StronglySorted (kle b) i → i ≡ₚ seqZ 0 (Z.of_nat (length w)) → take (length w) b ≡ₚ w →
  key b <$> i = merge_sort Z.le w.
Proof.
  intros Hl Hs Hi Hw. apply (StronglySorted_unique Z.le).
  - by apply sorted_fmap.
  - apply (StronglySorted_merge_sort Z.le).
  - rewrite merge_sort_Permutation, <-Hw, Hi. apply reflexive_eq, list_eq. intros k.
    rewrite list_lookup_fmap. destruct (decide (k < length w)%nat).
    + rewrite lookup_take_lt by done. rewrite lookup_seqZ_lt by lia. cbn [fmap option_fmap option_map]. unfold key.
      rewrite Z.add_0_l, Nat2Z.id. by rewrite (list_lookup_lookup_total_lt b) by lia.
    + rewrite lookup_take_ge by lia. by rewrite lookup_seqZ_ge by lia.
Qed.

Lemma settle b v o l p r rest n :
  Forall (cell b) l → Forall (cell b) r → StronglySorted (kle b) (l ++ r) → key b p = v →
  Forall (λ j, key b j ≤ o) l → Forall (λ j, o ≤ key b j) r → (o < v → n = length r ∧ rest = []) →
  ∃ i, (if o <? v then sift_up b v n (length l) (l ++ p :: r ++ rest)
        else if v <? o then sift_down b v (length l) (l ++ p :: r ++ rest)
        else Ok (l ++ p :: r ++ rest)) = Ok (i ++ rest) ∧
    StronglySorted (kle b) i ∧ i ≡ₚ l ++ p :: r.
Proof.
  intros Hcl Hcr Hs Hp Hl Hr Hn. destruct (Z.ltb_spec o v) as [Hov|Hov].
  - destruct Hn as [-> ->]; [done|]. rewrite app_nil_r.
    destruct (sift_up_ok b v l p r Hcr Hs Hp) as (i & E & Hi); [eapply Forall_impl; [exact Hl|]; simpl; lia|].
    exists i. by rewrite E, app_nil_r.
  - assert (Forall (λ j, v ≤ key b j) r) as Hr' by (eapply Forall_impl; [exact Hr|]; simpl; lia).
    destruct (Z.ltb_spec v o); [by apply sift_down_ok|].
    exists (l ++ p :: r). split; [by rewrite <-app_assoc|]. split; [|done].
    apply (insert_between b v); [done|done| |done]. eapply Forall_impl; [exact Hl|]; simpl; lia.
Qed.
(** A full filter: the oldest sample gives way. *)
Lemma insert_full n w f v pos :
  median_ok n w f → length w = n → f.(med_position) = Z.of_nat pos → ring f.(med_buffer) pos n w →
  ∃ i, insert_sample f v = Ok (<[pos := v]> f.(med_buffer), i) ∧ StronglySorted (kle (<[pos := v]> f.(med_buffer))) i ∧
    i ≡ₚ seqZ 0 (Z.of_nat n).
Proof.
  intros [Hlen _ Hcnt _ _ (i & rest & Ei & Hir & Hi & Hs)] Hw Hpos (Hb & Hp & _).
  assert (length i = n) as Hil by (rewrite Hi, length_seqZ; lia).
  assert (rest = []) as -> by (rewrite length_app in Hir; apply nil_length_inv; lia). rewrite app_nil_r in Ei.
  assert (Z.of_nat pos ∈ i) as Hin by (rewrite Hi; apply elem_of_seqZ; lia).
  apply list_elem_of_split in Hin as (l & r & El). rewrite El in *.
  assert (NoDup (l ++ Z.of_nat pos :: r)) as Hnd by (rewrite Hi; apply NoDup_seqZ).
  apply NoDup_app in Hnd as (_ & Hlr & [Hpr _]%NoDup_cons).
  assert (Z.of_nat pos ∉ l) as Hpl by (intros Hx; apply (Hlr _ Hx); by left).
  pose proof (cells f.(med_buffer) _ (length w) ltac:(lia) Hi) as Hc.
  apply Forall_app in Hc as [Hcl Hcr]. apply Forall_cons in Hcr as [Hcp Hcr].
  apply StronglySorted_app in Hs as (Hlr' & Hsl & [Hsr Hpr']%StronglySorted_inv).
  unfold insert_sample. rewrite Hcnt, Hlen, Hw, Z.eqb_refl, Hpos, Ei, find_index_app by done. cbn [mbind res_bind].
  set (b := f.(med_buffer)) in *. rewrite (get_key b _ Hcp). cbn [mbind res_bind].
  rewrite arr_set_ok by lia. cbn [mbind res_bind].
  assert (∀ j, cell b j → j ≠ Z.of_nat pos → key (<[pos := v]> b) j = key b j) as Hk by (intros; by apply key_insert_ne).
  rewrite Forall_forall in Hcl, Hcr, Hpr'.
  destruct (settle (<[pos := v]> b) v (key b (Z.of_nat pos)) l (Z.of_nat pos) r [] (Z.to_nat (Z.of_nat n) - S (length l)))
    as (i' & E & Hsi & Hpi).
  1, 2: unfold cell; rewrite length_insert; apply Forall_forall; auto.
  { apply kle_insert; [apply Forall_app; split; by apply Forall_forall|by apply not_elem_of_app|].
    apply StronglySorted_app_2; [|done|done]. intros x y Hx Hy. apply Hlr'; [done|by right]. }
  { apply key_insert. lia. }
  { apply Forall_forall. intros j Hj. rewrite Hk by (auto || by intros ->). apply Hlr'; [done|by left]. }
  { apply Forall_forall. intros j Hj. rewrite Hk by (auto || by intros ->). by apply Hpr'. }
  { rewrite length_app in Hil. cbn [length] in Hil. split; [lia|done]. }
  rewrite !app_nil_r in E. rewrite E. cbn [mbind res_bind]. exists i'. split; [done|]. split; [done|]. by rewrite Hpi, Hi, Hw.
Qed.
(** A filter with room *)
Lemma insert_room n w f v pos :
  median_ok n w f → (length w < n)%nat → v ≤ INT_MAX → f.(med_position) = Z.of_nat pos → ring f.(med_buffer) pos n w →
  ∃ i rest, insert_sample f v = Ok (<[pos := v]> f.(med_buffer), i ++ rest) ∧ length (i ++ rest) = n ∧
    StronglySorted (kle (<[pos := v]> f.(med_buffer))) i ∧ i ≡ₚ seqZ 0 (Z.of_nat (S (length w))).
Proof.
  intros [Hlen _ Hcnt Hint _ (i & rest & Ei & Hir & Hi & Hs)] Hw Hv Hpos (Hb & Hp & Hr).
  destruct Hr as [(_ & -> & Hr)|[? _]]; [|lia].
  assert (length i = length w) as Hil by (rewrite Hi, length_seqZ; lia).
  destruct rest as [|x rest]; [rewrite app_nil_r in Hir; lia|].
  unfold insert_sample. rewrite Hcnt, Hlen, (proj2 (Z.eqb_neq _ _)) by lia. rewrite Hpos, Ei.
  pose proof (arr_set_app i x (Z.of_nat (length w)) rest) as E0. rewrite Hil in E0. rewrite E0. cbn [mbind res_bind].
  rewrite arr_set_ok by lia. cbn [mbind res_bind]. rewrite !Nat2Z.id.
  pose proof (cells f.(med_buffer) _ (length w) ltac:(lia) Hi) as Hc.
  assert (Z.of_nat (length w) ∉ i) as Hpl by (rewrite Hi; intros ?%elem_of_seqZ; lia).
  destruct (settle (<[length w := v]> f.(med_buffer)) v INT_MAX i (Z.of_nat (length w)) [] rest
    (length w - S (length w))) as (i' & E & Hsi & Hpi).
  { unfold cell. rewrite length_insert. done. }
  { done. }
  { rewrite app_nil_r. by apply kle_insert. }
  { apply key_insert. lia. }
  { rewrite Forall_forall in Hc, Hint |- *. intros j Hj. specialize (Hc j Hj). rewrite key_insert_ne by (done || by intros ->).
    apply Hint. rewrite <-Hr at 1. unfold key. rewrite Hi, elem_of_seqZ in Hj. apply list_elem_of_lookup. exists (Z.to_nat j).
    rewrite lookup_take_lt by lia. by apply list_lookup_lookup_total_lt; lia. }
  { done. }
  { lia. }
  cbn [app] in E. rewrite Hil in E. rewrite E. cbn [mbind res_bind]. exists i', rest. split; [done|]. split; [|split; [done|]].
  - rewrite !length_app in *. cbn [length] in *. rewrite Hpi, length_app. cbn [length]. lia.
  - rewrite Hpi, Hi. by rewrite seqZ_S.
Qed.

(** What is reported: the sample at half the count before the update, in the sorted window *)
Definition median_of (n : nat) (w : list Z) (v : Z) : Z := merge_sort Z.le (push n w v) !!! (length w / 2)%nat.
Definition place_sample (f : median_filter_t) (v : Z) : res (list Z * list Z) :=
  if 0 <? f.(med_count) then insert_sample f v
  else buffer ← arr_set f.(med_buffer) 0 v; index ← arr_set f.(med_index) 0 0; Ok (buffer, index).
Lemma place_sample_ok n w f v pos :
  median_ok n w f → v ≤ INT_MAX → f.(med_position) = Z.of_nat pos → ring f.(med_buffer) pos n w →
  ∃ i rest, place_sample f v = Ok (<[pos := v]> f.(med_buffer), i ++ rest) ∧ length (i ++ rest) = n ∧
    StronglySorted (kle (<[pos := v]> f.(med_buffer))) i ∧ i ≡ₚ seqZ 0 (Z.of_nat (length (push n w v))).
Proof.
  intros Hok Hv Hpos Hring. pose proof (ring_window _ _ _ _ Hring) as Hwn. pose proof Hring as (Hb & Hp & Hr).
  unfold place_sample. rewrite (mo_count _ _ _ Hok), push_length by lia.
  destruct (Z.ltb_spec 0 (Z.of_nat (length w))) as [Hw|Hw].
  - destruct (decide (length w = n)) as [Hf|Hf].
    + destruct (insert_full n w f v pos Hok Hf Hpos Hring) as (i & E & Hs & Hi). exists i, [].
      rewrite app_nil_r. replace (S (length w) `min` n)%nat with n by lia.
      split; [done|]. split; [|done]. pose proof (Permutation_length Hi) as Hl. rewrite length_seqZ in Hl. lia.
    + destruct (insert_room n w f v pos Hok ltac:(lia) Hv Hpos Hring) as (i & rest & E & Hir & Hs & Hi).
      exists i, rest. by replace (S (length w) `min` n)%nat with (S (length w)) by lia.
  - destruct (mo_index _ _ _ Hok) as (i0 & rest & Ei & Hir & Hi0 & _). assert (length w = 0%nat) as Hw0 by lia.
    assert (pos = 0%nat) as -> by (destruct Hr as [(_ & -> & _)|[? _]]; lia).
    assert (i0 = []) as -> by (rewrite Hw0 in Hi0; by apply Permutation_nil_r in Hi0).
    destruct rest as [|x rest]; [cbn [app length] in Hir; lia|]. exists [0], rest.
    rewrite Ei, Hw0. cbn [app] in Hir |- *. rewrite (arr_set_ok _ 0) by lia. cbn [mbind res_bind].
    rewrite (arr_set_ok _ 0) by (cbn [length]; lia). cbn [mbind res_bind].
    replace (1 `min` n)%nat with 1%nat by lia. split; [done|]. split; [exact Hir|]. split; [by repeat constructor|done].
Qed.
Lemma read_median n w f v pos i rest :
  f.(med_count) = Z.of_nat (length w) → (0 < n)%nat → (length w ≤ n)%nat →
  place_sample f v = Ok (<[pos := v]> f.(med_buffer), i ++ rest) →
  Forall (cell (<[pos := v]> f.(med_buffer))) i → length i = length (push n w v) →
  key (<[pos := v]> f.(med_buffer)) <$> i = merge_sort Z.le (push n w v) →
  (if 0 <? f.(med_count) then '(buffer, index) ← insert_sample f v;
      m ← arr_get index (Z.quot f.(med_count) 2); result ← arr_get buffer m; Ok (result, buffer, index)
   else buffer ← arr_set f.(med_buffer) 0 v; index ← arr_set f.(med_index) 0 0; Ok (v, buffer, index)) =
  Ok (median_of n w v, <[pos := v]> f.(med_buffer), i ++ rest).
Proof.
  intros Hcnt Hn Hwn E Hc Hl Hkeys. unfold place_sample, median_of in *. rewrite <-Hkeys, Hcnt in *.
  rewrite push_length in Hl by done. pose proof (Nat.Div0.div_le_upper_bound (length w) 2 (length w) ltac:(lia)) as Hd.
  pose proof (Nat.mul_div_le (length w) 2 ltac:(lia)) as Hd2.
  destruct (lookup_lt_is_Some_2 i (length w / 2)%nat ltac:(lia)) as [m Hm].
  assert ((key (<[pos := v]> f.(med_buffer)) <$> i) !!! (length w / 2)%nat = key (<[pos := v]> f.(med_buffer)) m) as Hmed.
  { apply list_lookup_total_correct. by rewrite list_lookup_fmap, Hm. }
  destruct (Z.ltb_spec 0 (Z.of_nat (length w))) as [Hw|Hw].
  - rewrite E. cbn [mbind res_bind]. rewrite Z.quot_div_nonneg by lia. rewrite <-(Nat2Z.inj_div _ 2).
    rewrite (arr_get_ok _ _ m) by by apply lookup_app_l_Some. cbn [mbind res_bind].
    rewrite get_key by (rewrite Forall_forall in Hc; apply Hc; by eapply list_elem_of_lookup_2). cbn [mbind res_bind].
    by rewrite Hmed.
  - destruct (arr_set (med_buffer f) 0 v) as [b|]; [|done]. destruct (arr_set (med_index f) 0 0) as [x|]; [|done].
    cbn [mbind res_bind] in E |- *. injection E as -> ->. f_equal. f_equal. f_equal.
    assert (length w = 0%nat) as Hw0 by lia. apply nil_length_inv in Hw0 as ->. rewrite Hkeys. cbn [length].
    unfold push. cbn [length app]. by replace (1 - n)%nat with O by lia.
Qed.
Lemma median_update_ok n w f v :
  median_ok n w f → v ≤ INT_MAX →
  ∃ f', median_update f v = Ok (median_of n w v, f') ∧ median_ok n (push n w v) f'.
Proof.
  intros Hok Hv. destruct (mo_ring _ _ _ Hok) as (pos & Hpos & Hring).
  pose proof (ring_window _ _ _ _ Hring) as Hwn. pose proof Hring as (Hb & Hp & _).
  pose proof (ring_push _ _ _ _ v Hring) as Hring'. pose proof (push_length n w v ltac:(lia) Hwn) as Hpl.
  pose proof Hok as [Hlen Hint Hcnt Hvals _ _].
  destruct (place_sample_ok n w f v pos Hok Hv Hpos Hring) as (i & rest & E & Hir & Hs & Hi).
  assert (key (<[pos := v]> f.(med_buffer)) <$> i = merge_sort Z.le (push n w v)) as Hkeys.
  { apply sorted_keys; [rewrite length_insert; lia|done|done|]. by eapply ring_perm. }
  pose proof (Permutation_length Hi) as Hil. rewrite length_seqZ in Hil.
  pose proof (cells (<[pos := v]> f.(med_buffer)) i (length (push n w v)) ltac:(rewrite length_insert; lia) Hi) as Hc.
  assert (median_update f v = Ok (median_of n w v, Median (<[pos := v]> f.(med_buffer)) (i ++ rest) (Z.of_nat n)
    (Z.of_nat (next_pos pos n)) (Z.of_nat (length (push n w v))))) as Eu.
  { unfold median_update. rewrite (read_median n w f v pos i rest) by (done || lia || congruence). rewrite Hcnt, Hlen, Hpos.
    cbn [mbind res_bind]. rewrite c_int_ok by (unfold INT_MAX in Hint; lia). cbn [mbind res_bind]. do 3 f_equal.
    - unfold next_pos. case_decide; destruct (Z.eqb_spec (Z.of_nat pos + 1) (Z.of_nat n)); lia.
    - rewrite Hpl. cbv zeta. destruct (Z.ltb_spec 0 (Z.of_nat (length w))), (Z.ltb_spec (Z.of_nat (length w)) (Z.of_nat n)); lia. }
  eexists. split; [exact Eu|]. constructor; cbn [med_length med_count med_position med_buffer med_index]; try done.
  - unfold push. apply Forall_drop, Forall_app. split; [done|by constructor].
  - by exists (next_pos pos n).
  - by exists i, rest.
Qed.

(** ** The mean filter *)
Definition total (l : list Z) : Z := foldr Z.add 0 l.
Lemma total_app l r : total (l ++ r) = total l + total r.
Proof. induction l; cbn [total foldr app]; [done|]. unfold total in *. lia. Qed.
Lemma total_perm l r : l ≡ₚ r → total l = total r.
Proof. induction 1; cbn [total foldr]; unfold total in *; lia. Qed.
Lemma total_bound c l : Forall (λ x, Z.abs x ≤ c) l → Z.abs (total l) ≤ Z.of_nat (length l) * c.
Proof. induction 1; cbn [total foldr length]; [lia|]. unfold total in *. lia. Qed.
Lemma quot_abs_bound a k c : 0 < k → Z.abs a ≤ k * c → Z.abs (Z.quot a k) ≤ c.
Proof.
  intros Hk Ha. rewrite <-Z.quot_abs, (Z.abs_eq k), Z.quot_div_nonneg by lia. by apply Z.div_le_upper_bound.
Qed.
Lemma quot_abs_le a b : b ≠ 0 → Z.abs (Z.quot a b) ≤ Z.abs a.
Proof.
  intros Hb. rewrite <-Z.quot_abs, Z.quot_div_nonneg by lia. apply Z.div_le_upper_bound; [lia|].
  rewrite <-(Z.mul_1_l (Z.abs a)) at 1. apply Z.mul_le_mono_nonneg_r; lia.
Qed.
Lemma total_without c w old :
  Forall (λ x, Z.abs x ≤ c) w → old = 0 ∨ old ∈ w → Z.abs (total w - old) ≤ Z.of_nat (length w) * c.
Proof.
  intros Hw [->|Hin]; [rewrite Z.sub_0_r; by apply total_bound|].
  apply list_elem_of_split in Hin as (l & r & ->). apply Forall_app in Hw as [Hl [Ho Hr]%Forall_cons].
  pose proof (total_bound c l Hl). pose proof (total_bound c r Hr). rewrite total_app, length_app. cbn [total foldr length].
  unfold total in *. nia.
Qed.
Record mean_ok (n : nat) (c : Z) (w : list Z) (f : mean_filter_t) : Prop := {
  me_length : f.(mean_length) = Z.of_nat n;
  me_int : Z.of_nat n ≤ INT_MAX ∧ Z.of_nat n * c ≤ INT_MAX;
  me_count : f.(mean_count) = Z.of_nat (length w);
  me_window : Forall (λ x, Z.abs x ≤ c) w;
  me_ring : ∃ pos, f.(mean_index) = Z.of_nat pos ∧ ring f.(mean_buffer) pos n w;
  me_unused : Forall (λ x, x = 0) (drop (length w) f.(mean_buffer));
  me_sum : f.(mean_sum) = total w
}.
Definition mean_of (n : nat) (w : list Z) (v : Z) : Z := Z.quot (total (push n w v)) (Z.of_nat (length (push n w v))).
(** What the written cell held: the oldest sample, or zero *)
Lemma total_push b pos n w v :
  ring b pos n w → Forall (λ x, x = 0) (drop (length w) b) →
  ∃ old, b !! pos = Some old ∧ total (push n w v) = total w - old + v ∧ (old = 0 ∨ old ∈ w) ∧
    Forall (λ x, x = 0) (drop (length (push n w v)) (<[pos := v]> b)).
Proof.
  intros Hr H0. pose proof (ring_window _ _ _ _ Hr) as Hw. pose proof Hr as (Hb & Hp & Hc).
  rewrite push_length by lia. destruct (lookup_lt_is_Some_2 b pos ltac:(lia)) as [old Ho]. exists old. split; [done|].
  destruct (decide (length w = n)) as [E|E].
  - destruct (ring_oldest _ _ _ _ Hr E) as [w' Ew]. rewrite (list_lookup_total_correct _ _ _ Ho) in Ew.
    replace (S (length w) `min` n)%nat with n by lia. rewrite drop_ge by (rewrite length_insert; lia).
    split; [|split; [right; rewrite Ew; by left|done]]. unfold push. rewrite Ew. cbn [length app].
    replace (S (S (length w')) - n)%nat with 1%nat by (rewrite <-E, Ew; cbn [length]; lia). cbn [drop].
    rewrite drop_0, total_app. cbn [total foldr]. unfold total. lia.
  - destruct Hc as [(_ & -> & _)|[? _]]; [|lia]. rewrite (drop_S _ _ _ Ho) in H0. apply Forall_cons in H0 as [-> H0].
    replace (S (length w) `min` n)%nat with (S (length w)) by lia. rewrite drop_insert_lt by lia.
    split; [|split; [by left|done]]. unfold push. replace (S (length w) - n)%nat with 0%nat by lia. rewrite drop_0, total_app.
    cbn [total foldr]. lia.
Qed.
Lemma mean_update_ok n c w f v :
  mean_ok n c w f → Z.abs v ≤ c →
  ∃ f', mean_update f v = Ok (mean_of n w v, f') ∧ mean_ok n c (push n w v) f'.
Proof.
  intros [Hlen [Hn Hint] Hcnt Hvals (pos & Hpos & Hring) H0 Hsum] Hv.
  pose proof (ring_window _ _ _ _ Hring) as Hwn. pose proof Hring as (Hb & Hp & _).
  destruct (total_push _ _ _ _ v Hring H0) as (old & Ho & Ht & Hold & H0').
  assert (Forall (λ x, Z.abs x ≤ c) (push n w v)) as Hvals'.
  { unfold push. apply Forall_drop, Forall_app. split; [done|by constructor]. }
  pose proof (push_length n w v ltac:(lia) Hwn) as Hpl.
  pose proof (total_bound c w Hvals) as B1. pose proof (total_bound c _ Hvals') as B2. rewrite Hpl in B2.
  pose proof (total_without c w old Hvals Hold) as B3.
  assert (0 ≤ c) as Hc by lia. assert (Z.of_nat (length w) * c ≤ Z.of_nat n * c) as Hm by (apply Z.mul_le_mono_nonneg_r; lia).
  assert (Z.of_nat (S (length w) `min` n) * c ≤ Z.of_nat n * c) as Hm' by (apply Z.mul_le_mono_nonneg_r; lia).
  assert (c ≤ Z.of_nat n * c) as Hcn by nia.
  assert (Z.abs (mean_of n w v) ≤ c) as Hmean.
  { unfold mean_of. rewrite Hpl. apply quot_abs_bound; lia. }
  eexists. split.
  - unfold mean_update. rewrite Hpos, (arr_get_ok _ _ _ Ho), Hsum. cbn [mbind res_bind]. unfold INT_MAX in *.
    rewrite (c_int_ok (total w - old)) by lia. cbn [mbind res_bind]. rewrite <-Ht, (c_int_ok (total _)) by lia. cbn [mbind res_bind].
    rewrite arr_set_ok by lia. cbn [mbind res_bind]. rewrite c_int_ok by lia. cbn [mbind res_bind].
    rewrite Hlen, (proj2 (Z.eqb_neq _ _)) by lia. cbn [mbind res_bind].
    assert ((if mean_count f <? Z.of_nat n then mean_count f + 1 else mean_count f) = Z.of_nat (length (push n w v))) as ->.
    { rewrite Hcnt, Hpl. destruct (Z.ltb_spec (Z.of_nat (length w)) (Z.of_nat n)); lia. }
    unfold c_quot. rewrite (proj2 (Z.eqb_neq _ _)) by lia. fold (mean_of n w v). rewrite c_int_ok by lia. done.
  - constructor; cbn [mean_length mean_index mean_count mean_buffer mean_sum]; try done.
    exists (next_pos pos n). split; [|by apply ring_push]. unfold next_pos. case_decide.
    + replace (Z.of_nat pos + 1) with (Z.of_nat n) by lia. by rewrite Z.rem_same by lia.
    + rewrite Z.rem_small by lia. lia.
Qed.

(** ** Whole runs

    The reference: after the samples [vs], what a filter of [n] cells reports for
    each of them. *)
Fixpoint feed {F A B : Type} (step : F → A → res (B * F)) (f : F) (vs : list A) : res (list B * F) :=
  match vs with
  | [] => Ok ([], f)
  | v :: vs => '(r, f) ← step f v; '(rs, f) ← feed step f vs; Ok (r :: rs, f)
  end.
Definition last_n (n : nat) (l : list Z) : list Z := drop (length l - n) l.
Definition medians (n : nat) (vs : list Z) : list Z :=
  (λ i : nat, merge_sort Z.le (last_n n (take (S i) vs)) !!! (i `min` n / 2)%nat) <$> seq 0 (length vs).
Definition means (n : nat) (vs : list Z) : list Z :=
  (λ i : nat, Z.quot (total (last_n n (take (S i) vs))) (Z.of_nat (S i `min` n))) <$> seq 0 (length vs).

Lemma last_n_length n l : length (last_n n l) = (length l `min` n)%nat.
Proof. unfold last_n. rewrite length_drop. lia. Qed.
Lemma push_last_n n l v : push n (last_n n l) v = last_n n (l ++ [v]).
Proof.
  unfold push. rewrite last_n_length. unfold last_n. rewrite length_app. cbn [length].
  destruct (decide (length l < n)%nat).
  - replace (length l - n)%nat with 0%nat by lia. by replace (S (length l `min` n) - n)%nat with (length l + 1 - n)%nat by lia.
  - rewrite <-(drop_app_le l [v]) by lia. rewrite drop_drop. f_equal. lia.
Qed.
(** A filter whose every step reports [out] of its window reports it of every prefix. *)
Lemma feed_windows {F} (step : F → Z → res (Z * F)) (ok : list Z → F → Prop) (good : Z → Prop)
    (n : nat) (out : list Z → Z → Z) past vs f :
  (∀ w f v, ok w f → good v → ∃ f', step f v = Ok (out w v, f') ∧ ok (push n w v) f') →
  ok (last_n n past) f → Forall good vs →
  ∃ f', feed step f vs =
    Ok ((λ i : nat, out (last_n n (take i (past ++ vs))) ((past ++ vs) !!! i)) <$> seq (length past) (length vs), f').
Proof.
  intros Hstep. revert past f. induction vs as [|v vs IH]; intros past f Hf Hvs; [by exists f|].
  apply Forall_cons in Hvs as [Hv Hvs]. destruct (Hstep _ f v Hf Hv) as (f1 & E1 & H1). rewrite push_last_n in H1.
  destruct (IH _ _ H1 Hvs) as (f2 & E2). exists f2. cbn [feed]. rewrite E1. cbn [mbind res_bind]. rewrite E2.
  cbn [mbind res_bind length seq fmap list_fmap]. rewrite <-app_assoc. cbn [app]. rewrite length_app. cbn [length].
  rewrite Nat.add_1_r. do 3 f_equal. rewrite take_app_length. by rewrite list_lookup_total_middle.
Qed.
Lemma take_lookup_last n (vs : list Z) i : (i < length vs)%nat →
  push n (last_n n (take i vs)) (vs !!! i) = last_n n (take (S i) vs).
Proof.
  intros Hi. rewrite push_last_n. by rewrite (take_S_r _ _ (vs !!! i)) by by apply list_lookup_lookup_total_lt.
Qed.
Lemma median_run n f vs :
  median_ok n [] f → Forall (λ v, v ≤ INT_MAX) vs → ∃ f', feed median_update f vs = Ok (medians n vs, f').
Proof.
  intros Hf Hvs. destruct (feed_windows median_update (median_ok n) (λ v, v ≤ INT_MAX) n (median_of n) [] vs f)
    as (f' & E); [intros; by apply median_update_ok|done|done|].
  exists f'. rewrite E. do 2 f_equal. apply list_fmap_ext. intros j i [-> Hi]%lookup_seq. cbn [length app Nat.add] in Hi |- *.
  unfold median_of. rewrite take_lookup_last by lia. do 2 f_equal. rewrite last_n_length, length_take. lia.
Qed.
Lemma mean_run n c f vs :
  mean_ok n c [] f → Forall (λ v, Z.abs v ≤ c) vs → ∃ f', feed mean_update f vs = Ok (means n vs, f').
Proof.
  intros Hf Hvs. destruct (feed_windows mean_update (mean_ok n c) (λ v, Z.abs v ≤ c) n (mean_of n) [] vs f)
    as (f' & E); [intros; by apply mean_update_ok|done|done|].
  exists f'. rewrite E. do 2 f_equal. apply list_fmap_ext. intros j i [-> Hi]%lookup_seq. cbn [length app Nat.add] in Hi |- *.
  unfold mean_of. rewrite take_lookup_last by lia. do 2 f_equal. rewrite last_n_length, length_take. lia.
Qed.
Lemma last_n_Forall (P : Z → Prop) n i vs : Forall P vs → Forall P (last_n n (take i vs)).
Proof. intros. by apply Forall_drop, Forall_take. Qed.
Lemma medians_bound n c vs : (0 < n)%nat → Forall (λ v, Z.abs v ≤ c) vs → Forall (λ v, Z.abs v ≤ c) (medians n vs).
Proof.
  intros Hn Hvs. apply Forall_fmap, Forall_forall. intros i Hi%elem_of_seq. cbn [compose].
  pose proof (last_n_Forall _ n (S i) vs Hvs) as Hw. pose proof (last_n_length n (take (S i) vs)) as Hl.
  rewrite length_take in Hl. rewrite Forall_forall in Hw. apply Hw.
  pose proof (merge_sort_Permutation Z.le (last_n n (take (S i) vs))) as Hs. revert Hs.
  generalize (merge_sort Z.le (last_n n (take (S i) vs))). intros s Hs. rewrite <-Hs.
  pose proof (Nat.Div0.div_le_upper_bound (i `min` n) 2 (i `min` n) ltac:(lia)) as Hd.
  pose proof (Nat.mul_div_le (i `min` n) 2 ltac:(lia)) as Hd2.
  eapply list_elem_of_lookup_2, list_lookup_lookup_total_lt. rewrite Hs. lia.
Qed.
Lemma means_bound n c vs : (0 < n)%nat → Forall (λ v, Z.abs v ≤ c) vs → Forall (λ v, Z.abs v ≤ c) (means n vs).
Proof.
  intros Hn Hvs. apply Forall_fmap, Forall_forall. intros i Hi%elem_of_seq. cbn [compose].
  pose proof (total_bound c _ (last_n_Forall _ n (S i) vs Hvs)) as Hb. rewrite last_n_length, length_take in Hb.
  replace (S i `min` length vs)%nat with (S i) in Hb by lia. apply quot_abs_bound; lia.
Qed.

(** ** The panel's filter *)
Definition affine (cal : list Z) (k : nat) (tx ty : Z) : Z :=
  Z.quot (cal !!! (k + 2)%nat + cal !!! k * tx + cal !!! (k + 1)%nat * ty) (cal !!! 6%nat).
(** Calibrations whose sums stay in [int] for samples up to [c] *)
Definition cal_ok (c : Z) (cal : list Z) : Prop :=
  length cal = 7%nat ∧ cal !!! 6%nat ≠ 0 ∧ ∃ C, Forall (λ a, Z.abs a ≤ C) (take 6 cal) ∧ C * (2 * c + 1) ≤ INT_MAX.
Lemma arr_get_total (l : list Z) (i : nat) z : (i < length l)%nat → z = Z.of_nat i → arr_get l z = Ok (l !!! i).
Proof. intros Hi ->. by apply arr_get_ok, list_lookup_lookup_total_lt. Qed.
Lemma calibrate_ok c cal (k : nat) tx ty :
  cal_ok c cal → (k ≤ 3)%nat → Z.abs tx ≤ c → Z.abs ty ≤ c → calibrate cal (Z.of_nat k) tx ty = Ok (affine cal k tx ty).
Proof.
  intros (Hl & H6 & C & HC & Hint) Hk Hx Hy.
  assert (∀ j, (j < 6)%nat → Z.abs (cal !!! j) ≤ C) as Hb.
  { intros j Hj. rewrite Forall_forall in HC. apply HC. apply (list_elem_of_lookup_2 _ j).
    rewrite lookup_take_lt by done. apply list_lookup_lookup_total_lt. lia. }
  unfold calibrate, affine. pose proof (Hb k ltac:(lia)). pose proof (Hb (k + 1)%nat ltac:(lia)). pose proof (Hb (k + 2)%nat ltac:(lia)).
  rewrite (arr_get_total cal (k + 2) (Z.of_nat k + 2)), (arr_get_total cal k (Z.of_nat k)),
    (arr_get_total cal (k + 1) (Z.of_nat k + 1)), (arr_get_total cal 6 6) by lia.
  cbn [mbind res_bind]. unfold INT_MAX in Hint.
  assert (Z.abs (cal !!! k * tx) ≤ C * c) as Hp by (rewrite Z.abs_mul; apply Z.mul_le_mono_nonneg; lia).
  assert (Z.abs (cal !!! (k + 1)%nat * ty) ≤ C * c) as Hq by (rewrite Z.abs_mul; apply Z.mul_le_mono_nonneg; lia).
  rewrite (c_int_ok (cal !!! k * tx)) by lia. cbn [mbind res_bind]. rewrite (c_int_ok (_ + _ * tx)) by lia. cbn [mbind res_bind].
  rewrite (c_int_ok (cal !!! (k + 1)%nat * ty)) by lia. cbn [mbind res_bind]. rewrite (c_int_ok (_ + _ * ty)) by lia.
  cbn [mbind res_bind]. unfold c_quot. rewrite (proj2 (Z.eqb_neq _ _)) by done. apply c_int_ok.
  pose proof (quot_abs_le (cal !!! (k + 2)%nat + cal !!! k * tx + cal !!! (k + 1)%nat * ty) _ H6). lia.
Qed.
Lemma tsfilter_step c cal m1 m2 n1 n2 x y tx ty ux uy m1' m2' n1' n2' :
  cal_ok c cal → median_update m1 x = Ok (tx, m1') → median_update m2 y = Ok (ty, m2') →
  mean_update n1 tx = Ok (ux, n1') → mean_update n2 ty = Ok (uy, n2') → Z.abs ux ≤ c → Z.abs uy ≤ c →
  tsfilter_update (TsFilter (To m1) (To m2) (To n1) (To n2) cal) (x, y) =
    Ok ((affine cal 0 ux uy, affine cal 3 ux uy), TsFilter (To m1') (To m2') (To n1') (To n2') cal).
Proof.
  intros Hcal E1 E2 E3 E4 Hx Hy. unfold tsfilter_update. cbn [follow mx my nx ny mbind res_bind TouchFilter.cal].
  rewrite E1. cbn [mbind res_bind]. rewrite E2. cbn [mbind res_bind]. rewrite E3. cbn [mbind res_bind]. rewrite E4.
  cbn [mbind res_bind].
  pose proof (calibrate_ok c cal 0 ux uy Hcal ltac:(lia) Hx Hy) as C0. change (Z.of_nat 0) with 0 in C0.
  pose proof (calibrate_ok c cal 3 ux uy Hcal ltac:(lia) Hx Hy) as C3. change (Z.of_nat 3) with 3 in C3.
  rewrite C0. cbn [mbind res_bind]. by rewrite C3.
Qed.
Lemma tsfilter_feed c cal samples : cal_ok c cal → ∀ m1 m2 n1 n2 xs ys us vs m1' m2' n1' n2',
  feed median_update m1 (fst <$> samples) = Ok (xs, m1') → feed median_update m2 (snd <$> samples) = Ok (ys, m2') →
  feed mean_update n1 xs = Ok (us, n1') → feed mean_update n2 ys = Ok (vs, n2') →
  Forall (λ v, Z.abs v ≤ c) us → Forall (λ v, Z.abs v ≤ c) vs →
  feed tsfilter_update (TsFilter (To m1) (To m2) (To n1) (To n2) cal) samples =
    Ok (zip_with (λ x y, (affine cal 0 x y, affine cal 3 x y)) us vs, TsFilter (To m1') (To m2') (To n1') (To n2') cal).
Proof.
  intros Hcal. induction samples as [|[x y] samples IH]; intros * Ex Ey Eu Ev Hu Hv.
  { injection Ex as <- <-. injection Ey as <- <-. injection Eu as <- <-. by injection Ev as <- <-. }
  cbn [fmap list_fmap feed fst snd] in Ex, Ey.
  apply res_bind_Ok in Ex as ([x1 m1a] & Ex1 & ([xs1 m1b] & Ex2 & [= <- <-])%res_bind_Ok).
  apply res_bind_Ok in Ey as ([y1 m2a] & Ey1 & ([ys1 m2b] & Ey2 & [= <- <-])%res_bind_Ok).
  apply res_bind_Ok in Eu as ([u1 n1a] & Eu1 & ([us1 n1b] & Eu2 & [= <- <-])%res_bind_Ok).
  apply res_bind_Ok in Ev as ([v1 n2a] & Ev1 & ([vs1 n2b] & Ev2 & [= <- <-])%res_bind_Ok).
  apply Forall_cons in Hu as [Hu1 Hu]. apply Forall_cons in Hv as [Hv1 Hv].
  cbn [feed]. rewrite (tsfilter_step _ _ _ _ _ _ _ _ _ _ _ _ _ _ _ _ Hcal Ex1 Ey1 Eu1 Ev1 Hu1 Hv1). cbn [mbind res_bind].
  by rewrite (IH _ _ _ _ _ _ _ _ _ _ _ _ Ex2 Ey2 Eu2 Ev2 Hu Hv).
Qed.
Lemma median_fresh n b i :
  0 < n ≤ INT_MAX → median_ok (Z.to_nat n) [] (Median (cells_of b n) (cells_of i n) n 0 0).
Proof.
  intros Hn. assert (∀ g, length (cells_of g n) = Z.to_nat n) as Hl by (intros; unfold cells_of; by rewrite length_fmap, length_seqZ).
  constructor; cbn [med_length med_count med_position med_buffer med_index length]; [lia|lia|done|done| |].
  - exists 0%nat. split; [done|]. split; [apply Hl|]. split; [lia|]. left. split; [cbn [length]; lia|]. done.
  - exists [], (cells_of i n). split; [done|]. split; [apply Hl|]. split; [done|constructor].
Qed.
Lemma mean_fresh n c :
  0 < n ≤ INT_MAX → n * c ≤ INT_MAX → mean_ok (Z.to_nat n) c [] (Mean (replicate (Z.to_nat n) 0) n 0 0 0).
Proof.
  intros Hn Hc. constructor; cbn [mean_length mean_count mean_index mean_buffer mean_sum length]; try done; [lia|lia| |].
  - exists 0%nat. split; [done|]. split; [apply length_replicate|]. split; [lia|]. left. split; [cbn [length]; lia|]. done.
  - rewrite drop_0. by apply Forall_replicate.
Qed.

(** Whatever the allocated memory held, a median filter of [n] cells reports for every
    sample the middle of the last [n] samples in sorted order (the lower middle while
    it fills up, the upper one when it is full with an even [n]); no access leaves
    its arrays and its loops end. *)
Theorem median_filter_run n b i vs :
  0 < n ≤ INT_MAX → Forall (λ v, v ≤ INT_MAX) vs →
  ∃ f', feed median_update (Median (cells_of b n) (cells_of i n) n 0 0) vs = Ok (medians (Z.to_nat n) vs, f').
Proof. intros Hn Hvs. apply median_run; [by apply median_fresh|done]. Qed.

Lemma coordinate_run ml nl c b i vs :
  0 < ml ≤ INT_MAX → 0 < nl ≤ INT_MAX → nl * c ≤ INT_MAX → c ≤ INT_MAX → Forall (λ v, Z.abs v ≤ c) vs →
  ∃ m n, feed median_update (Median (cells_of b ml) (cells_of i ml) ml 0 0) vs = Ok (medians (Z.to_nat ml) vs, m) ∧
    feed mean_update (Mean (replicate (Z.to_nat nl) 0) nl 0 0 0) (medians (Z.to_nat ml) vs) =
      Ok (means (Z.to_nat nl) (medians (Z.to_nat ml) vs), n) ∧
    Forall (λ v, Z.abs v ≤ c) (means (Z.to_nat nl) (medians (Z.to_nat ml) vs)).
Proof.
  intros Hml Hnl Hc Hci Hvs. pose proof (medians_bound (Z.to_nat ml) c vs ltac:(lia) Hvs) as Hm.
  destruct (median_run (Z.to_nat ml) _ vs (median_fresh ml b i Hml)) as [m Em].
  { eapply Forall_impl; [exact Hvs|]. simpl. lia. }
  destruct (mean_run (Z.to_nat nl) c _ _ (mean_fresh nl c Hnl Hc) Hm) as [n En].
  exists m, n. split; [exact Em|]. split; [exact En|]. apply means_bound; [lia|done].
Qed.

Section allocation.
Context (rt_malloc : nat → option (Z → Z)).
Implicit Types s : mem.
Ltac mem_done :=
  cbn [free_block is_null]; unfold touchscreen_free, modify, mret, M_ret; cbn [calls live is_null];
  do 3 f_equal; cbn [is_null]; lia.
(** An allocation of [n] blocks: all of them or none, and the calls it takes when it succeeds *)
Definition allocates (n : nat) s {A} (p : ptr A) (s' : mem) : Prop :=
  s'.(live) = s.(live) + (if is_null p then 0 else Z.of_nat n) ∧
  (is_null p = false ↔ ∀ j, (j < n)%nat → rt_malloc (s.(calls) + j)%nat ≠ None) ∧
  (is_null p = false → s'.(calls) = (s.(calls) + n)%nat).
Lemma all_some_S n k :
  (∀ j, (j < S n)%nat → rt_malloc (k + j)%nat ≠ None) ↔
  rt_malloc k ≠ None ∧ ∀ j, (j < n)%nat → rt_malloc (S k + j)%nat ≠ None.
Proof.
  split.
  - intros H. split; [by rewrite <-(Nat.add_0_r k); apply H; lia|]. intros j Hj. rewrite Nat.add_succ_comm. apply H. lia.
  - intros [H0 H] [|j] Hj; [by rewrite Nat.add_0_r|]. rewrite <-Nat.add_succ_comm. apply H. lia.
Qed.
Ltac alloc_calls :=
  unfold allocates; rewrite !all_some_S; cbn [live calls is_null];
  split; [lia|]; split; [|intros; (done || lia)]; split; [intros; repeat split; try congruence; lia|intuition congruence].
Lemma mean_alloc_cases n s : 0 < n →
  ∃ p s', mean_alloc rt_malloc n s = Ok (p, s') ∧ allocates 2 s p s' ∧
    (p = Null ∨ p = To (Mean (replicate (Z.to_nat n) 0) n 0 0 0)).
Proof.
  intros Hn. unfold mean_alloc. rewrite (proj2 (Z.leb_gt _ _)) by lia. unfold mbind, M_bind, touchscreen_malloc.
  destruct (rt_malloc (calls s)) eqn:E1.
  2: { exists Null. eexists. split; [done|]. split; [|by left]. alloc_calls. }
  cbn [calls live]. destruct (rt_malloc (S (calls s))) eqn:E2.
  - eexists _, _. split; [done|]. split; [|by right]. alloc_calls.
  - exists Null. eexists. split; [done|]. split; [|by left]. alloc_calls.
Qed.
Lemma median_alloc_cases n s : 0 < n →
  ∃ p s', median_alloc rt_malloc n s = Ok (p, s') ∧ allocates 3 s p s' ∧
    (p = Null ∨ ∃ b i, p = To (Median (cells_of b n) (cells_of i n) n 0 0)).
Proof.
  intros Hn. unfold median_alloc. rewrite (proj2 (Z.leb_gt _ _)) by lia. unfold mbind, M_bind, touchscreen_malloc.
  destruct (rt_malloc (calls s)) eqn:E1.
  2: { exists Null. eexists. split; [done|]. split; [|by left]. alloc_calls. }
  cbn [calls live]. destruct (rt_malloc (S (calls s))) eqn:E2, (rt_malloc (S (S (calls s)))) eqn:E3.
  { eexists _, _. split; [done|]. split; [|right; by eexists _, _]. alloc_calls. }
  all: exists Null; eexists; (split; [done|]); (split; [|by left]); alloc_calls.
Qed.
Lemma free_filter_live {A} k (p : ptr A) s : p ≠ Dangling →
  ∃ c, free_filter k p s = Ok (tt, Mem c (s.(live) - if is_null p then 0 else Z.of_nat k + 1)).
Proof.
  assert (∀ k s, Nat.iter k (λ m : M mem unit, _ ← touchscreen_free; m) (mret tt) s =
    Ok (tt, Mem s.(calls) (s.(live) - Z.of_nat k))) as Hi.
  { clear. intros k. induction k as [|k IH]; intros [c l]; cbn [Nat.iter calls live].
    - by rewrite Z.sub_0_r.
    - etransitivity; [exact (IH (Mem c (l - 1)))|mem_done]. }
  destruct p as [| |a]; intros Hp; [|done|]; cbn [free_filter is_null].
  - exists s.(calls). rewrite Z.sub_0_r. by destruct s.
  - exists s.(calls). rewrite (M_bind_run _ _ _ _ _ (Hi k s)). mem_done.
Qed.
Lemma freed_bind {A B} k (p : ptr A) s : p ≠ Dangling →
  ∃ s', s'.(live) = s.(live) - (if is_null p then 0 else Z.of_nat k + 1) ∧
    ∀ (K : ptr A → M mem B), (freed (free_filter k) p ≫= K) s = K (if is_null p then Null else Dangling) s'.
Proof.
  intros Hp. unfold freed. destruct (is_null p) eqn:E.
  - exists s. split; [lia|done].
  - destruct (free_filter_live k p s Hp) as [c Ec]. rewrite E in Ec. eexists. split; [|intros K].
    2: { etransitivity; [apply M_bind_run; by rewrite (M_bind_run _ _ _ _ _ Ec)|done]. }
    cbn [live]. lia.
Qed.
(** The four filters, as they come from their allocations *)
Lemma tsfilter_parts ml nl s :
  0 < ml → 0 < nl → rt_malloc s.(calls) ≠ None →
  ∃ p1 p2 p3 p4 s', (if is_null p1 || is_null p2 || is_null p3 || is_null p4 then
      (mx ← freed median_free p1; my ← freed median_free p2; nx ← freed mean_free p3; ny ← freed mean_free p4;
       mret (To (TsFilter mx my nx ny [1; 0; 0; 0; 1; 0; 1])) : M mem (ptr tsfilter_t))
    else mret (To (TsFilter p1 p2 p3 p4 [1; 0; 0; 0; 1; 0; 1]))) s' = tsfilter_alloc rt_malloc ml nl s ∧
    s'.(live) = s.(live) + 1 + (if is_null p1 then 0 else 3) + (if is_null p2 then 0 else 3) +
      (if is_null p3 then 0 else 2) + (if is_null p4 then 0 else 2) ∧
    (p1 = Null ∨ ∃ b i, p1 = To (Median (cells_of b ml) (cells_of i ml) ml 0 0)) ∧
    (p2 = Null ∨ ∃ b i, p2 = To (Median (cells_of b ml) (cells_of i ml) ml 0 0)) ∧
    (p3 = Null ∨ p3 = To (Mean (replicate (Z.to_nat nl) 0) nl 0 0 0)) ∧
    (p4 = Null ∨ p4 = To (Mean (replicate (Z.to_nat nl) 0) nl 0 0 0)) ∧
    (is_null p1 = false ↔ ∀ j, (j < 3)%nat → rt_malloc (S s.(calls) + j)%nat ≠ None) ∧
    (is_null p1 || is_null p2 || is_null p3 || is_null p4 = false ↔
     ∀ j, (j < 10)%nat → rt_malloc (S s.(calls) + j)%nat ≠ None).
Proof.
  intros Hm Hn H0. unfold tsfilter_alloc. rewrite !(proj2 (Z.leb_gt _ _)) by lia. cbn [orb].
  destruct (rt_malloc (calls s)) as [b0|] eqn:E0; [|done].
  set (s0 := Mem (S s.(calls)) (s.(live) + 1)).
  destruct (median_alloc_cases ml s0 Hm) as (p1 & s1 & E1 & (L1 & A1 & C1) & D1).
  destruct (median_alloc_cases ml s1 Hm) as (p2 & s2 & E2 & (L2 & A2 & C2) & D2).
  destruct (mean_alloc_cases nl s2 Hn) as (p3 & s3 & E3 & (L3 & A3 & C3) & D3).
  destruct (mean_alloc_cases nl s3 Hn) as (p4 & s4 & E4 & (L4 & A4 & C4) & D4).
  exists p1, p2, p3, p4, s4. split.
  { unfold mbind, M_bind in E1, E2, E3, E4 |- *. unfold touchscreen_malloc at 1. rewrite E0. fold s0.
    rewrite E1, E2, E3, E4. done. }
  split; [cbn [s0 live] in L1; destruct (is_null p1), (is_null p2), (is_null p3), (is_null p4); lia|]. do 5 (split; [done|]).
  rewrite !orb_false_iff. cbn [s0 calls] in A1, C1. split.
  - intros [[[N1 N2] N3] N4]. specialize (C1 N1). specialize (C2 N2). specialize (C3 N3). rewrite C1 in C2, A2. rewrite C2 in C3, A3. rewrite C3 in A4.
    intros j Hj. destruct (decide (j < 3)%nat); [by apply A1|]. destruct (decide (j < 6)%nat).
    { replace (S (calls s) + j)%nat with (S (calls s) + 3 + (j - 3))%nat by lia. apply A2; [done|lia]. }
    destruct (decide (j < 8)%nat).
    { replace (S (calls s) + j)%nat with (S (calls s) + 3 + 3 + (j - 6))%nat by lia. apply A3; [done|lia]. }
    replace (S (calls s) + j)%nat with (S (calls s) + 3 + 3 + 2 + (j - 8))%nat by lia. apply A4; [done|lia].
  - intros Hall. assert (is_null p1 = false) as N1 by (apply A1; intros; apply Hall; lia). specialize (C1 N1).
    rewrite C1 in C2, A2.
    assert (is_null p2 = false) as N2 by (apply A2; intros; rewrite <-Nat.add_assoc; apply Hall; lia).
    specialize (C2 N2). rewrite C2 in C3, A3.
    assert (is_null p3 = false) as N3 by (apply A3; intros; rewrite <-!Nat.add_assoc; apply Hall; lia).
    specialize (C3 N3). rewrite C3 in A4. split; [done|]. apply A4. intros. rewrite <-!Nat.add_assoc. apply Hall. lia.
Qed.
Lemma freed_all (f : tsfilter_t) s :
  f.(mx) ≠ Dangling → f.(my) ≠ Dangling → f.(nx) ≠ Dangling → f.(ny) ≠ Dangling →
  ∃ s', tsfilter_free (To f) s = Ok (tt, s') ∧
    s'.(live) = s.(live) - 1 - (if is_null f.(mx) then 0 else 3) - (if is_null f.(my) then 0 else 3) -
      (if is_null f.(nx) then 0 else 2) - (if is_null f.(ny) then 0 else 2).
Proof.
  intros H1 H2 H3 H4. cbn [tsfilter_free]. unfold median_free, mean_free.
  destruct (freed_bind (B:=unit) 2 f.(mx) s H1) as (s1 & L1 & ->).
  destruct (freed_bind (B:=unit) 2 f.(my) s1 H2) as (s2 & L2 & ->).
  destruct (freed_bind (B:=unit) 1 f.(nx) s2 H3) as (s3 & L3 & ->).
  destruct (freed_bind (B:=unit) 1 f.(ny) s3 H4) as (s4 & L4 & ->).
  eexists. split; [done|]. cbn [live]. destruct (is_null (mx f)), (is_null (my f)), (is_null (nx f)), (is_null (ny f)); lia.
Qed.
Lemma setcal_ok f c :
  length f.(cal) = 7%nat → length c = 7%nat → tsfilter_setcal f c = Ok (TsFilter f.(mx) f.(my) f.(nx) f.(ny) c).
Proof.
  intros Hf Hc. unfold tsfilter_setcal. destruct f as [m1 m2 n1 n2 c0]. cbn [cal] in *.
  do 8 (destruct c0 as [|? c0]; try done). do 8 (destruct c as [|? c]; try done).
Qed.

(** The filter of a panel from its allocation to its end, when memory does not run
    out: with any calibration that stays in [int] every sample comes out as the affine
    image of the mean of the medians, coordinate by coordinate, and freeing the filter
    gives back every block. *)
Theorem tsfilter_run ml nl c calib samples s :
  0 < ml ≤ INT_MAX → 0 < nl ≤ INT_MAX → nl * c ≤ INT_MAX → 0 ≤ c → (∀ j, rt_malloc j ≠ None) → cal_ok c calib →
  Forall (λ p, Z.abs (fst p) ≤ c ∧ Z.abs (snd p) ≤ c) samples →
  let means_of := λ f : Z * Z → Z, means (Z.to_nat nl) (medians (Z.to_nat ml) (f <$> samples)) in
  ∃ f f1 f2 s1 s2, tsfilter_alloc rt_malloc ml nl s = Ok (To f, s1) ∧ tsfilter_setcal f calib = Ok f1 ∧
    feed tsfilter_update f1 samples =
      Ok (zip_with (λ x y, (affine calib 0 x y, affine calib 3 x y)) (means_of fst) (means_of snd), f2) ∧
    tsfilter_free (To f2) s1 = Ok (tt, s2) ∧ s2.(live) = s.(live).
Proof.
  intros Hml Hnl Hc Hc0 Hmem Hcal Hs means_of.
  destruct (tsfilter_parts ml nl s ltac:(lia) ltac:(lia) (Hmem _))
    as (p1 & p2 & p3 & p4 & s1 & E & Hlive & D1 & D2 & D3 & D4 & _ & Hnull).
  pose proof (proj2 Hnull (λ j _, Hmem _)) as Hn. rewrite Hn in E.
  rewrite !orb_false_iff in Hn. destruct Hn as [[[N1 N2] N3] N4]. rewrite N1, N2, N3, N4 in Hlive.
  destruct D1 as [->|(b1 & i1 & ->)]; [done|]. destruct D2 as [->|(b2 & i2 & ->)]; [done|].
  destruct D3 as [->| ->]; [done|]. destruct D4 as [->| ->]; [done|].
  assert (∀ f : Z * Z → Z, f = fst ∨ f = snd → Forall (λ v, Z.abs v ≤ c) (f <$> samples)) as Hv.
  { intros f Hf. apply Forall_fmap. eapply Forall_impl; [exact Hs|]. intros p Hp. destruct Hf as [-> | ->]; apply Hp. }
  assert (c ≤ INT_MAX) as Hci by nia.
  destruct (coordinate_run ml nl c b1 i1 (fst <$> samples)) as (m1 & n1 & Em1 & En1 & Hb1); [lia..|by apply Hv; left|].
  destruct (coordinate_run ml nl c b2 i2 (snd <$> samples)) as (m2 & n2 & Em2 & En2 & Hb2); [lia..|by apply Hv; right|].
  pose proof (tsfilter_feed c calib samples Hcal _ _ _ _ _ _ _ _ _ _ _ _ Em1 Em2 En1 En2 Hb1 Hb2) as Ef.
  edestruct (freed_all (TsFilter (To m1) (To m2) (To n1) (To n2) calib) s1) as (s2 & E2 & L2); [done..|].
  eexists _, _, _, s1, s2. split; [by rewrite <-E|]. split; [by apply setcal_ok; [|apply Hcal]|].
  split; [exact Ef|]. split; [exact E2|]. cbn [mx my nx ny is_null] in L2. lia.
Qed.

(** When one of the ten allocations inside [tsfilter_alloc] fails, the call frees what
    it had got but still returns the filter: it is not null, its first update follows
    a pointer that is null or freed, and once the first median filter had been
    allocated, freeing the filter frees that a second time. *)
Theorem tsfilter_alloc_failure ml nl j s sample :
  0 < ml → 0 < nl → rt_malloc s.(calls) ≠ None → (j < 10)%nat → rt_malloc (S s.(calls) + j)%nat = None →
  ∃ f s', tsfilter_alloc rt_malloc ml nl s = Ok (To f, s') ∧ s'.(live) = s.(live) + 1 ∧
    tsfilter_update f sample = Fault FUB ∧
    ((∀ i, (i < 3)%nat → rt_malloc (S s.(calls) + i)%nat ≠ None) → tsfilter_free (To f) s' = Fault FUB).
Proof.
  intros Hml Hnl H0 Hj Hf.
  destruct (tsfilter_parts ml nl s Hml Hnl H0) as (p1 & p2 & p3 & p4 & s1 & E & Hlive & D1 & D2 & D3 & D4 & Hp1 & Hnull).
  destruct (is_null p1 || is_null p2 || is_null p3 || is_null p4).
  2: { exfalso. by apply (proj1 Hnull eq_refl j Hj). }
  assert (p1 ≠ Dangling ∧ p2 ≠ Dangling ∧ p3 ≠ Dangling ∧ p4 ≠ Dangling) as (N1 & N2 & N3 & N4).
  { split; [|split; [|split]]; intros ->; naive_solver. }
  unfold median_free, mean_free in E.
  destruct (freed_bind (B:=ptr tsfilter_t) 2 p1 s1 N1) as (s2 & L2 & E2). rewrite E2 in E.
  destruct (freed_bind (B:=ptr tsfilter_t) 2 p2 s2 N2) as (s3 & L3 & E3). rewrite E3 in E.
  destruct (freed_bind (B:=ptr tsfilter_t) 1 p3 s3 N3) as (s4 & L4 & E4). rewrite E4 in E.
  destruct (freed_bind (B:=ptr tsfilter_t) 1 p4 s4 N4) as (s5 & L5 & E5). rewrite E5 in E.
  eexists _, _. split; [by rewrite <-E|].
  split; [destruct (is_null p1), (is_null p2), (is_null p3), (is_null p4); lia|].
  split; [unfold tsfilter_update; destruct sample; cbn [mx]; by destruct (is_null p1)|].
  intros Hi. apply Hp1 in Hi. by rewrite Hi.
Qed.
End allocation.

(** ** Witnesses *)
Lemma median_filter_run_witness :
  (∃ f', feed median_update (Median (cells_of (λ _, 77) 3) (cells_of (λ _, -1) 3) 3 0 0) [500; 100; 900; 200] =
    Ok (medians (Z.to_nat 3) [500; 100; 900; 200], f')) ∧
  medians (Z.to_nat 3) [500; 100; 900; 200] = [500; 100; 500; 200].
Proof.
  split; [|reflexivity].
  apply (median_filter_run 3 (λ _, 77) (λ _, -1) [500; 100; 900; 200]); [done|repeat constructor; done].
Defined.
Lemma tsfilter_run_witness :
  let samples := [(500, 10); (100, 20); (900, 30); (200, 40)] in
  let calib := [65536; 0; 0; 0; 65536; 65536; 65536] in
  let means_of := λ f : Z * Z → Z, means (Z.to_nat 2) (medians (Z.to_nat 3) (f <$> samples)) in
  (∃ f f1 f2 s1 s2, tsfilter_alloc (λ _, Some (λ _, 7)) 3 2 (Mem 0 0) = Ok (To f, s1) ∧ tsfilter_setcal f calib = Ok f1 ∧
    feed tsfilter_update f1 samples =
      Ok (zip_with (λ x y, (affine calib 0 x y, affine calib 3 x y)) (means_of fst) (means_of snd), f2) ∧
    tsfilter_free (To f2) s1 = Ok (tt, s2) ∧ s2.(live) = 0) ∧
  zip_with (λ x y, (affine calib 0 x y, affine calib 3 x y)) (means_of fst) (means_of snd) =
    [(500, 11); (300, 11); (300, 16); (350, 26)].
Proof.
  split; [|reflexivity].
  apply (tsfilter_run (λ _, Some (λ _, 7)) 3 2 4095 [65536; 0; 0; 0; 65536; 65536; 65536]
    [(500, 10); (100, 20); (900, 30); (200, 40)] (Mem 0 0)); try done.
  - split; [done|]. split; [done|]. exists 65536. split; [repeat constructor; done|done].
  - repeat constructor; done.
Defined.
Lemma tsfilter_alloc_failure_witness :
  ∃ f s', tsfilter_alloc (λ k, if decide (k = 5%nat) then None else Some (λ _, 0)) 3 2 (Mem 0 0) = Ok (To f, s') ∧
    s'.(live) = 1 ∧ tsfilter_update f (1, 2) = Fault FUB ∧
    ((∀ i, (i < 3)%nat → (if decide ((S (calls (Mem 0 0)) + i)%nat = 5%nat) then None else Some (λ _ : Z, 0)) ≠ None) →
      tsfilter_free (To f) s' = Fault FUB).
Proof.
  apply (tsfilter_alloc_failure (λ k, if decide (k = 5%nat) then None else Some (λ _, 0)) 3 2 4 (Mem 0 0) (1, 2));
    first [done|lia|reflexivity].
Defined.
