(* ===== verification/Dmac.v ===== *)
(** * DMA controller (k210_dmac.c)

    Six channels, each with its own registers, and the common registers; all are 64
    bits wide.  The driver reads a register into a union, sets bit fields and
    writes it back.  [FIX_CACHE] is 0 in this build, so there are no bounce buffers.

    The hardware acts between the accesses of the driver: [step] is what the
    controller does meanwhile (transfers end, reset completes), [latch] what a
    write does to the channel enables, which have write-enable bits beside them.
    Both are parameters; [DmacHw] is what the register description says of them. *)

From S2P Require Import Prelude SysctlRegs Sysctl Plic.

Definition DMAC_CHANNEL_MAX : Z := 6.
Definition LAST_ROW : Z := -1.
Definition DMAC_SRC : Z := 1.
Definition DMAC_DST : Z := 2.
Definition DMAC_SRC_DST : Z := 3.
Definition DMAC_HS_HARDWARE : Z := 0.
Definition DMAC_HS_SOFTWARE : Z := 1.
Definition DMAC_MASTER1 : Z := 0.
Definition DMAC_MASTER2 : Z := 1.
Definition DMAC_MEM2MEM_DMA : Z := 0.
Definition DMAC_MEM2PRF_DMA : Z := 1.
Definition DMAC_PRF2MEM_DMA : Z := 2.
Definition DMAC_PRF2PRF_DMA : Z := 3.
Definition DMAC_MSIZE_256 : Z := 7.
Definition IRQN_DMA0_INTERRUPT : Z := 27.

(** [dmac_channel_t] and [dmac_t] *)
Inductive dmac_channel_reg : Set :=
| sar | dar | block_ts | ctl | cfg | llp | status | swhssrc | swhsdst | blk_tfr
| axi_id | axi_qos | intstatus_en | intstatus | intsignal_en | intclear.
#[export] Instance dmac_channel_reg_eq_dec : EqDecision dmac_channel_reg.
Proof. solve_decision. Defined.
Inductive dmac_reg : Set :=
| id | compver | dmac_cfg | chen | dmac_intstatus | com_intclear | com_intstatus_en
| com_intsignal_en | com_intstatus | dmac_reset
| channel (n : Z) (r : dmac_channel_reg).
#[export] Instance dmac_reg_eq_dec : EqDecision dmac_reg.
Proof. solve_decision. Defined.
Abbreviation dmac_bank := (bank dmac_reg).

(** [dmac_cfg_t] *)
Definition cfg_dmac_en := BF 0 1.
Definition cfg_int_en := BF 1 1.
(** [damc_chen_t]: [ch1_en] is the enable of channel 0, and so on. *)
Definition ch_en (n : Z) := BF n 1.
Definition ch_en_we (n : Z) := BF (8 + n) 1.
(** [dmac_commonreg_intclear_t], [dmac_commonreg_intstatus_enable_t],
    [dmac_commonreg_intsignal_enable_t]: the same five bits *)
Definition slvif_dec_err := BF 0 1.
Definition slvif_wr2ro_err := BF 1 1.
Definition slvif_rd2wo_err := BF 2 1.
Definition slvif_wronhold_err := BF 3 1.
Definition slvif_undefinedreg_dec_err := BF 8 1.
(** [dmac_reset_t] *)
Definition reset_rst := BF 0 1.
(** [dmac_ch_ctl_t] *)
Definition ch_ctl_sms := BF 0 1.
Definition ch_ctl_dms := BF 2 1.
Definition ch_ctl_sinc := BF 4 1.
Definition ch_ctl_dinc := BF 6 1.
Definition ch_ctl_src_tr_width := BF 8 3.
Definition ch_ctl_dst_tr_width := BF 11 3.
Definition ch_ctl_src_msize := BF 14 4.
Definition ch_ctl_dst_msize := BF 18 4.
Definition ch_ctl_src_stat_en := BF 56 1.
Definition ch_ctl_dst_stat_en := BF 57 1.
Definition ch_ctl_ioc_blktfr := BF 58 1.
Definition ch_ctl_shadowreg_or_lli_last := BF 62 1.
Definition ch_ctl_shadowreg_or_lli_valid := BF 63 1.
(** [dmac_ch_cfg_t] *)
Definition ch_cfg_src_multblk_type := BF 0 2.
Definition ch_cfg_dst_multblk_type := BF 2 2.
Definition ch_cfg_tt_fc := BF 32 3.
Definition ch_cfg_hs_sel_src := BF 35 1.
Definition ch_cfg_hs_sel_dst := BF 36 1.
Definition ch_cfg_src_hwhs_pol := BF 37 1.
Definition ch_cfg_dst_hwhs_pol := BF 38 1.
Definition ch_cfg_src_per := BF 39 4.
Definition ch_cfg_dst_per := BF 44 4.
Definition ch_cfg_ch_prior := BF 49 3.
(** [dmac_ch_llp_t] *)
Definition ch_llp_lms := BF 0 1.
Definition ch_llp_loc := BF 6 58.
(** [dmac_ch_intstatus_enable_t] *)
Definition enable_src_transcomp_intstat := BF 3 1.

Record dmac_channel_config_t := DmacChannelConfig {
  cfg_sar : Z; cfg_dar : Z; ctl_sms : Z; ctl_dms : Z; ctl_src_msize : Z; ctl_drc_msize : Z;
  ctl_sinc : Z; ctl_dinc : Z; ctl_src_tr_width : Z; ctl_dst_tr_width : Z; ctl_ioc_blktfr : Z;
  ctl_src_stat_en : Z; ctl_dst_stat_en : Z; cfg_dst_per : Z; cfg_src_per : Z; cfg_src_hs_pol : Z;
  cfg_dst_hs_pol : Z; cfg_hs_sel_src : Z; cfg_hs_sel_dst : Z; cfg_src_multblk_type : Z;
  cfg_dst_multblk_type : Z; llp_loc : Z; llp_lms : Z; ctl_block_ts : Z; ctl_tt_fc : Z;
  cfg_protctl : Z; cfg_fifo_mode : Z; cfg_fcmode : Z; cfg_lock_ch_l : Z; cfg_ch_prior : Z
}.
Record dmac_lli_item_t := DmacLliItem {
  lli_sar : Z; lli_dar : Z; lli_ch_block_ts : Z; lli_llp : Z; lli_ctl : Z; lli_sstat : Z; lli_dstat : Z
}.

Definition is_memory (address : Z) : Z :=
  Z.b2z (((0x80000000 <=? address) && (address <? 0x80000000 + 6 * 1024 * 1024))
      || ((0x40000000 <=? address) && (address <? 0x40000000 + 8 * 1024 * 1024))
      || (address =? 0x50450040)).

(** What the register description says of the channel enables: a write moves only
    the enables whose write-enable bit is set, and may keep a channel that it stops
    running for a while; write-enable bits read as 0.  Meanwhile channels end but do not
    start, and a channel that is not enabled keeps its registers. *)
Definition en (n : Z) (x : Z) : bool := Z.testbit x n.
Definition we_clear (x : Z) : Prop := ∀ n, 0 ≤ n < 6 → Z.testbit x (8 + n) = false.
Class DmacHw (latch : Z → Z → Z) (step : dmac_bank → dmac_bank) := {
  latch_keep old v n : 0 ≤ n < 6 → Z.testbit v (8 + n) = false → en n (latch old v) = en n old;
  latch_start old v n : 0 ≤ n < 6 → Z.testbit v (8 + n) = true → en n v = true → en n (latch old v) = true;
  latch_stop old v n : 0 ≤ n < 6 → Z.testbit v (8 + n) = true → en n v = false →
    en n (latch old v) = true → en n old = true;
  latch_we old v : we_clear (latch old v);
  latch_width old v : in_width 64 old → in_width 64 v → in_width 64 (latch old v);
  step_en b n : 0 ≤ n < 6 → en n (step b chen) = true → en n (b chen) = true;
  step_we b : we_clear (b chen) → we_clear (step b chen);
  step_idle b n r : 0 ≤ n < 6 → en n (b chen) = false → step b (channel n r) = b (channel n r);
  step_width b : (∀ r, in_width 64 (b r)) → ∀ r, in_width 64 (step b r)
}.

Section dmac.
Context (latch : Z → Z → Z) (step : dmac_bank → dmac_bank).

(** [writeq]; a write to the channel enables goes through their write-enable bits. *)
Definition writeq (v : Z) (r : dmac_reg) (b : dmac_bank) : dmac_bank :=
  if decide (r = chen) then <[chen := latch (b chen) v]> b else <[r := v]> b.
(** [while(!c) ;] on a register of the controller, which moves on before each read *)
Fixpoint poll (fuel : nat) (c : dmac_bank → bool) (b : dmac_bank) : res dmac_bank :=
  let b := step b in
  if c b then Ok b else match fuel with O => Fault FFuel | S fuel => poll fuel c b end.

Definition dmac_read_id (b : dmac_bank) : Z := b id.
Definition dmac_read_version (b : dmac_bank) : Z := b compver.
Definition dmac_read_channel_id (channel_num : Z) (b : dmac_bank) : Z := b (channel channel_num axi_id).

Definition dmac_enable (b : dmac_bank) : dmac_bank :=
  let data := b dmac_cfg in
  let data := bf_set cfg_dmac_en 1 data in
  let data := bf_set cfg_int_en 1 data in
  writeq data dmac_cfg b.
Definition dmac_disable (b : dmac_bank) : dmac_bank :=
  let data := b dmac_cfg in
  let data := bf_set cfg_dmac_en 0 data in
  let data := bf_set cfg_int_en 0 data in
  writeq data dmac_cfg b.
Definition src_transaction_complete_int_enable (channel_num : Z) (b : dmac_bank) : dmac_bank :=
  let data := b (channel channel_num intstatus_en) in
  let data := bf_set enable_src_transcomp_intstat 1 data in
  writeq data (channel channel_num intstatus_en) b.

(** The six cases of the [switch]; another number falls through to the write. *)
Definition set_chen (channel_num v data : Z) : Z :=
  if (0 <=? channel_num) && (channel_num <? 6)
  then bf_set (ch_en_we channel_num) 1 (bf_set (ch_en channel_num) v data) else data.
(** The controller may move on between the read and the write back. *)
Definition dmac_channel_enable (channel_num : Z) (b : dmac_bank) : dmac_bank :=
  let data := b chen in
  let data := set_chen channel_num 1 data in
  writeq data chen (step b).
Definition dmac_channel_disable (channel_num : Z) (b : dmac_bank) : dmac_bank :=
  let data := b chen in
  let data := set_chen channel_num 0 data in
  writeq data chen (step b).
Definition dmac_check_channel_busy (channel_num : Z) (b : dmac_bank) : Z * dmac_bank :=
  let data := b chen in
  let ret := if (0 <=? channel_num) && (channel_num <? 6)
             then if bf_get (ch_en channel_num) data =? 1 then 1 else 0 else 0 in
  (ret, writeq data chen (step b)).
Definition dmac_set_list_master_select (channel_num sd_sel mst_num : Z) (b : dmac_bank) : Z * dmac_bank :=
  let data := b (channel channel_num ctl) in
  let '(ret, b) := dmac_check_channel_busy channel_num b in
  if ret =? 0 then
    let data := if (sd_sel =? DMAC_SRC) || (sd_sel =? DMAC_SRC_DST) then bf_set ch_ctl_sms mst_num data else data in
    let data := if (sd_sel =? DMAC_DST) || (sd_sel =? DMAC_SRC_DST) then bf_set ch_ctl_dms mst_num data else data in
    (ret, writeq data (channel channel_num ctl) b)
  else (ret, b).

Definition five_bits (data : Z) : Z :=
  let data := bf_set slvif_dec_err 1 data in
  let data := bf_set slvif_wr2ro_err 1 data in
  let data := bf_set slvif_rd2wo_err 1 data in
  let data := bf_set slvif_wronhold_err 1 data in
  bf_set slvif_undefinedreg_dec_err 1 data.
Definition dmac_enable_common_interrupt_status (b : dmac_bank) : dmac_bank :=
  writeq (five_bits (b com_intstatus_en)) com_intstatus_en b.
Definition dmac_enable_common_interrupt_signal (b : dmac_bank) : dmac_bank :=
  writeq (five_bits (b com_intsignal_en)) com_intsignal_en b.
Definition dmac_enable_channel_interrupt (channel_num : Z) (b : dmac_bank) : dmac_bank :=
  let b := writeq 0xffffffff (channel channel_num intclear) b in
  writeq 0x2 (channel channel_num intstatus_en) b.
Definition dmac_disable_channel_interrupt (channel_num : Z) (b : dmac_bank) : dmac_bank :=
  writeq 0 (channel channel_num intstatus_en) b.
Definition dmac_channel_interrupt_clear (channel_num : Z) (b : dmac_bank) : dmac_bank :=
  writeq 0xffffffff (channel channel_num intclear) b.

Definition dmac_set_channel_config (channel_num : Z) (p : dmac_channel_config_t) (b : dmac_bank) : Z * dmac_bank :=
  if DMAC_MASTER2 <? p.(ctl_sms) then (-1, b) else
  if DMAC_MASTER2 <? p.(ctl_dms) then (-1, b) else
  if DMAC_MSIZE_256 <? p.(ctl_src_msize) then (-1, b) else
  if DMAC_MSIZE_256 <? p.(ctl_drc_msize) then (-1, b) else
  let c := b (channel channel_num cfg) in
  let c := bf_set ch_cfg_hs_sel_src p.(cfg_hs_sel_src) c in
  let c := bf_set ch_cfg_hs_sel_dst p.(cfg_hs_sel_dst) c in
  let c := bf_set ch_cfg_src_hwhs_pol p.(cfg_src_hs_pol) c in
  let c := bf_set ch_cfg_dst_hwhs_pol p.(cfg_dst_hs_pol) c in
  let c := bf_set ch_cfg_src_per p.(cfg_src_per) c in
  let c := bf_set ch_cfg_dst_per p.(cfg_dst_per) c in
  let c := bf_set ch_cfg_ch_prior p.(cfg_ch_prior) c in
  let c := bf_set ch_cfg_tt_fc p.(ctl_tt_fc) c in
  let c := bf_set ch_cfg_src_multblk_type p.(cfg_src_multblk_type) c in
  let c := bf_set ch_cfg_dst_multblk_type p.(cfg_dst_multblk_type) c in
  let b := writeq c (channel channel_num cfg) b in
  let x := b (channel channel_num ctl) in
  let x := bf_set ch_ctl_sms p.(ctl_sms) x in
  let x := bf_set ch_ctl_dms p.(ctl_dms) x in
  let x := bf_set ch_ctl_sinc p.(ctl_sinc) x in
  let x := bf_set ch_ctl_dinc p.(ctl_dinc) x in
  let x := bf_set ch_ctl_src_tr_width p.(ctl_src_tr_width) x in
  let x := bf_set ch_ctl_dst_tr_width p.(ctl_dst_tr_width) x in
  let x := bf_set ch_ctl_src_msize p.(ctl_src_msize) x in
  let x := bf_set ch_ctl_dst_msize p.(ctl_drc_msize) x in
  let x := bf_set ch_ctl_ioc_blktfr p.(ctl_ioc_blktfr) x in
  let b := writeq p.(ctl_block_ts) (channel channel_num block_ts) b in
  let b := writeq p.(cfg_sar) (channel channel_num sar) b in
  let b := writeq p.(cfg_dar) (channel channel_num dar) b in
  let l := b (channel channel_num llp) in
  let l := bf_set ch_llp_loc p.(llp_loc) l in
  let l := bf_set ch_llp_lms p.(llp_lms) l in
  let b := writeq l (channel channel_num llp) b in
  let b := writeq x (channel channel_num ctl) b in
  (0, b).

(** The test on the two ends of a transfer *)
Definition flow_control (mem_type_src mem_type_dest : Z) : Z :=
  if (mem_type_src =? 0) && (mem_type_dest =? 0) then DMAC_PRF2PRF_DMA
  else if (mem_type_src =? 1) && (mem_type_dest =? 0) then DMAC_MEM2PRF_DMA
  else if (mem_type_src =? 0) && (mem_type_dest =? 1) then DMAC_PRF2MEM_DMA
  else DMAC_MEM2MEM_DMA.
Definition hs_sel (mem_type : Z) : Z := if mem_type =? 0 then DMAC_HS_HARDWARE else DMAC_HS_SOFTWARE.
Definition dmac_set_channel_param (channel_num src dest src_inc dest_inc dmac_burst_size dmac_trans_width
    blockSize : Z) (b : dmac_bank) : dmac_bank :=
  let mem_type_src := is_memory src in
  let mem_type_dest := is_memory dest in
  let c := b (channel channel_num cfg) in
  let c := bf_set ch_cfg_tt_fc (flow_control mem_type_src mem_type_dest) c in
  let c := bf_set ch_cfg_hs_sel_src (hs_sel mem_type_src) c in
  let c := bf_set ch_cfg_hs_sel_dst (hs_sel mem_type_dest) c in
  let c := bf_set ch_cfg_src_per channel_num c in
  let c := bf_set ch_cfg_dst_per channel_num c in
  let c := bf_set ch_cfg_src_multblk_type 0 c in
  let c := bf_set ch_cfg_dst_multblk_type 0 c in
  let b := writeq c (channel channel_num cfg) b in
  let b := writeq src (channel channel_num sar) b in
  let b := writeq dest (channel channel_num dar) b in
  let x := b (channel channel_num ctl) in
  let x := bf_set ch_ctl_sms DMAC_MASTER1 x in
  let x := bf_set ch_ctl_dms DMAC_MASTER2 x in
  let x := bf_set ch_ctl_sinc src_inc x in
  let x := bf_set ch_ctl_dinc dest_inc x in
  let x := bf_set ch_ctl_src_tr_width dmac_trans_width x in
  let x := bf_set ch_ctl_dst_tr_width dmac_trans_width x in
  let x := bf_set ch_ctl_src_msize dmac_burst_size x in
  let x := bf_set ch_ctl_dst_msize dmac_burst_size x in
  let b := writeq x (channel channel_num ctl) b in
  writeq (u32 (blockSize - 1)) (channel channel_num block_ts) b.

(** [cfg_param] is a valid pointer to [p]. *)
Definition dmac_get_channel_config (channel_num : Z) (p : dmac_channel_config_t) (b : dmac_bank)
  : Z * dmac_channel_config_t :=
  if (channel_num <? 0) || (3 <? channel_num) then (-1, p) else
  let x := b (channel channel_num ctl) in
  let c := b (channel channel_num cfg) in
  let l := b (channel channel_num llp) in
  (0, {| cfg_sar := b (channel channel_num sar);
         cfg_dar := b (channel channel_num dar);
         ctl_sms := bf_get ch_ctl_sms x;
         ctl_dms := bf_get ch_ctl_dms x;
         ctl_src_msize := bf_get ch_ctl_src_msize x;
         ctl_drc_msize := bf_get ch_ctl_dst_msize x;
         ctl_sinc := bf_get ch_ctl_sinc x;
         ctl_dinc := bf_get ch_ctl_dinc x;
         ctl_src_tr_width := bf_get ch_ctl_src_tr_width x;
         ctl_dst_tr_width := bf_get ch_ctl_dst_tr_width x;
         ctl_ioc_blktfr := bf_get ch_ctl_ioc_blktfr x;
         ctl_src_stat_en := p.(ctl_src_stat_en);
         ctl_dst_stat_en := p.(ctl_dst_stat_en);
         cfg_dst_per := bf_get ch_cfg_dst_per c;
         cfg_src_per := bf_get ch_cfg_src_per c;
         cfg_src_hs_pol := bf_get ch_cfg_src_hwhs_pol c;
         cfg_dst_hs_pol := bf_get ch_cfg_dst_hwhs_pol c;
         cfg_hs_sel_src := bf_get ch_cfg_hs_sel_src c;
         cfg_hs_sel_dst := bf_get ch_cfg_hs_sel_dst c;
         cfg_src_multblk_type := bf_get ch_cfg_src_multblk_type c;
         cfg_dst_multblk_type := bf_get ch_cfg_dst_multblk_type c;
         llp_loc := bf_get ch_llp_loc l;
         llp_lms := bf_get ch_llp_lms l;
         ctl_block_ts := b (channel channel_num block_ts);
         ctl_tt_fc := p.(ctl_tt_fc);
         cfg_protctl := p.(cfg_protctl);
         cfg_fifo_mode := p.(cfg_fifo_mode);
         cfg_fcmode := p.(cfg_fcmode);
         cfg_lock_ch_l := p.(cfg_lock_ch_l);
         cfg_ch_prior := bf_get ch_cfg_ch_prior c |}).

Definition dmac_set_address (channel_num src_addr dst_addr : Z) (b : dmac_bank) : dmac_bank :=
  let b := writeq src_addr (channel channel_num sar) b in
  writeq dst_addr (channel channel_num dar) b.
Definition dmac_set_block_ts (channel_num block_size : Z) (b : dmac_bank) : dmac_bank :=
  writeq (Z.land block_size 0x3fffff) (channel channel_num block_ts) b.
Definition dmac_source_control (channel_num master_select address_mode tr_width burst_length : Z)
    (b : dmac_bank) : dmac_bank :=
  let x := b (channel channel_num ctl) in
  let x := bf_set ch_ctl_sms master_select x in
  let x := bf_set ch_ctl_sinc address_mode x in
  let x := bf_set ch_ctl_src_tr_width tr_width x in
  let x := bf_set ch_ctl_src_msize burst_length x in
  writeq x (channel channel_num ctl) b.
Definition dmac_master_control (channel_num master_select address_mode tr_width burst_length : Z)
    (b : dmac_bank) : dmac_bank :=
  let x := b (channel channel_num ctl) in
  let x := bf_set ch_ctl_dms master_select x in
  let x := bf_set ch_ctl_dinc address_mode x in
  let x := bf_set ch_ctl_dst_tr_width tr_width x in
  let x := bf_set ch_ctl_dst_msize burst_length x in
  writeq x (channel channel_num ctl) b.
Definition dmac_set_source_transfer_control (channel_num transfer_type handshak_select : Z)
    (b : dmac_bank) : dmac_bank :=
  let c := b (channel channel_num cfg) in
  let c := bf_set ch_cfg_src_multblk_type transfer_type c in
  let c := bf_set ch_cfg_hs_sel_src handshak_select c in
  writeq c (channel channel_num cfg) b.
Definition dmac_set_destination_transfer_control (channel_num transfer_type handshak_select : Z)
    (b : dmac_bank) : dmac_bank :=
  let c := b (channel channel_num cfg) in
  let c := bf_set ch_cfg_dst_multblk_type transfer_type c in
  let c := bf_set ch_cfg_hs_sel_dst handshak_select c in
  writeq c (channel channel_num cfg) b.
Definition dmac_set_flow_control (channel_num flow_control : Z) (b : dmac_bank) : dmac_bank :=
  let c := b (channel channel_num cfg) in
  let c := bf_set ch_cfg_tt_fc flow_control c in
  writeq c (channel channel_num cfg) b.
Definition dmac_set_linked_list_addr_point (channel_num addr : Z) (b : dmac_bank) : dmac_bank :=
  let l := b (channel channel_num llp) in
  let l := bf_set ch_llp_loc addr l in
  writeq l (channel channel_num llp) b.

(** [while(dmac_reset.reset.rst) dmac_reset.data = readq(&dmac->reset);] *)
Fixpoint reset_loop (fuel : nat) (data : Z) (b : dmac_bank) : res dmac_bank :=
  if bf_get reset_rst data =? 0 then Ok b else
  match fuel with
  | O => Fault FFuel
  | S fuel => let b := step b in reset_loop fuel (b dmac_reset) b
  end.
Definition dmac_init (fuel : nat) (s : bank sysctl_reg) (b : dmac_bank) : res (bank sysctl_reg * dmac_bank) :=
  let '(_, s) := sysctl_clock_enable (sysctl_clock_to_Z SYSCTL_CLOCK_DMA) s in
  let data := bf_set reset_rst 1 (b dmac_reset) in
  let b := writeq data dmac_reset b in
  b ← reset_loop fuel data b;
  let b := writeq (five_bits (b com_intclear)) com_intclear b in
  let data := b dmac_cfg in
  let data := bf_set cfg_dmac_en 0 data in
  let data := bf_set cfg_int_en 0 data in
  let b := writeq data dmac_cfg b in
  b ← poll fuel (λ b, b dmac_cfg =? 0) b;
  let tmp := b chen in
  let tmp := Z.land tmp (u64 (-16)) in
  let b := writeq tmp chen (step b) in
  let b := for_range 0 DMAC_CHANNEL_MAX dmac_disable_channel_interrupt b in
  Ok (s, dmac_enable b).

(** The two ways of filling in a list item and the shadow registers share the
    assignments to the control word; [last] is an [int8_t]. *)
Definition lli_ctl_word (last : Z) (p : dmac_channel_config_t) (x : Z) : Z :=
  let x := bf_set ch_ctl_sms p.(ctl_sms) x in
  let x := bf_set ch_ctl_dms p.(ctl_dms) x in
  let x := bf_set ch_ctl_sinc p.(ctl_sinc) x in
  let x := bf_set ch_ctl_dinc p.(ctl_dinc) x in
  let x := bf_set ch_ctl_src_tr_width p.(ctl_src_tr_width) x in
  let x := bf_set ch_ctl_dst_tr_width p.(ctl_dst_tr_width) x in
  let x := bf_set ch_ctl_src_msize p.(ctl_src_msize) x in
  let x := bf_set ch_ctl_dst_msize p.(ctl_drc_msize) x in
  let x := bf_set ch_ctl_src_stat_en p.(ctl_src_stat_en) x in
  let x := bf_set ch_ctl_dst_stat_en p.(ctl_dst_stat_en) x in
  if negb (last =? LAST_ROW) then
    bf_set ch_ctl_shadowreg_or_lli_last 0 (bf_set ch_ctl_shadowreg_or_lli_valid 1 x)
  else bf_set ch_ctl_shadowreg_or_lli_last 1 (bf_set ch_ctl_shadowreg_or_lli_valid 1 x).
(** The array [lli_item] at address [base], items of 64 bytes.  The item's
    reserved word is never written and is left out.  The row is a [uint8_t] and the last
    row an [int8_t]. *)
Definition lli_addr (base row : Z) : Z := base + 64 * row.
Definition dmac_link_list_item (channel_num LLI_row_num LLI_last_row base : Z) (p : dmac_channel_config_t)
    (b : dmac_bank) (lli_item : Z → dmac_lli_item_t) : Z → dmac_lli_item_t :=
  let LLI_row_num := u8 LLI_row_num in
  let LLI_last_row := s8 LLI_last_row in
  let x := lli_ctl_word LLI_last_row p (b (channel channel_num ctl)) in
  let l := b (channel channel_num llp) in
  let l := if negb (LLI_last_row =? LAST_ROW)
           then bf_set ch_llp_loc (Z.shiftr (lli_addr base (LLI_row_num + 1)) 6) l
           else bf_set ch_llp_loc 0 l in
  <[LLI_row_num := DmacLliItem p.(cfg_sar) p.(cfg_dar) p.(ctl_block_ts) l x 0 0]> lli_item.
Definition dmac_update_shandow_register (fuel : nat) (channel_num last_block : Z) (p : dmac_channel_config_t)
    (b : dmac_bank) : res dmac_bank :=
  b ← poll fuel (λ b, bf_get ch_ctl_shadowreg_or_lli_valid (b (channel channel_num ctl)) =? 0) b;
  let x := b (channel channel_num ctl) in
  let b := writeq p.(cfg_sar) (channel channel_num sar) b in
  let b := writeq p.(cfg_dar) (channel channel_num dar) b in
  let b := writeq p.(ctl_block_ts) (channel channel_num block_ts) b in
  let x := lli_ctl_word (s8 last_block) p x in
  let b := writeq x (channel channel_num ctl) b in
  Ok (writeq 0 (channel channel_num blk_tfr) b).
Definition dmac_set_shadow_invalid_flag (channel_num : Z) (b : dmac_bank) : dmac_bank :=
  let x := b (channel channel_num ctl) in
  let x := bf_set ch_ctl_shadowreg_or_lli_valid 1 x in
  let x := bf_set ch_ctl_shadowreg_or_lli_last 0 x in
  writeq x (channel channel_num ctl) b.

Definition dmac_is_done (channel_num : Z) (b : dmac_bank) : Z :=
  if Z.land (b (channel channel_num intstatus)) 0x2 =? 0 then 0 else 1.
Definition dmac_is_idle (channel_num : Z) (b : dmac_bank) : Z :=
  if Z.land (Z.shiftr (b chen) channel_num) 1 =? 0 then 1 else 0.
Definition dmac_wait_idle (fuel : nat) (channel_num : Z) (b : dmac_bank) : res dmac_bank :=
  b ← poll fuel (λ b, negb (dmac_is_idle channel_num b =? 0)) b;
  Ok (dmac_channel_interrupt_clear channel_num b).
Definition dmac_wait_done (fuel : nat) (channel_num : Z) (b : dmac_bank) : res dmac_bank :=
  dmac_wait_idle fuel channel_num b.
(** [block_size] is a [size_t], the parameter of [dmac_set_channel_param] 32 bits wide. *)
Definition dmac_set_single_mode (fuel : nat) (channel_num src dest src_inc dest_inc dmac_burst_size
    dmac_trans_width block_size : Z) (b : dmac_bank) : res dmac_bank :=
  let b := dmac_channel_interrupt_clear channel_num b in
  let b := dmac_channel_disable channel_num b in
  b ← dmac_wait_idle fuel channel_num b;
  let b := dmac_set_channel_param channel_num src dest src_inc dest_inc dmac_burst_size dmac_trans_width
             (u32 block_size) b in
  let b := dmac_enable b in
  Ok (dmac_channel_enable channel_num b).
Definition dmac_set_src_dest_length (channel_num src dest len : Z) (b : dmac_bank) : dmac_bank :=
  let b := if src =? 0 then b else writeq src (channel channel_num sar) b in
  let b := if dest =? 0 then b else writeq dest (channel channel_num dar) b in
  let b := if 0 <? len then dmac_set_block_ts channel_num (u32 (len - 1)) b else b in
  dmac_channel_enable channel_num b.
End dmac.

(** ** Registers and words *)
Section registers.
Context (latch : Z → Z → Z).

Lemma writeq_eq v r b : r ≠ chen → writeq latch v r b r = v.
Proof. intros. unfold writeq. by rewrite decide_False, fn_lookup_insert. Qed.
Lemma writeq_ne v r r' b : r ≠ r' → writeq latch v r b r' = b r'.
Proof. intros. unfold writeq. case_decide; by rewrite fn_lookup_insert_ne by congruence. Qed.
Lemma writeq_chen v b : writeq latch v chen b chen = latch (b chen) v.
Proof. unfold writeq. by rewrite decide_True, fn_lookup_insert. Qed.

Lemma bit_get n x : 0 ≤ n → bf_get (BF n 1) x = Z.b2z (Z.testbit x n).
Proof.
  intros Hn. apply Z.bits_inj'. intros i Hi. rewrite (bf_get_testbit (n + 1)) by (unfold bf_wf; cbn; lia).
  cbn [bf_off bf_width]. rewrite Z.b2z_bit0 || idtac.
  destruct (decide (i = 0)) as [->|].
  - rewrite Z.b2z_bit0, bool_decide_eq_true_2 by lia. by rewrite Z.add_0_l.
  - rewrite bool_decide_eq_false_2 by lia. symmetry. destruct (Z.testbit x n); [|apply Z.bits_0].
    apply (testbit_above 1); cbn; lia.
Qed.
Lemma is_idle_en n b : 0 ≤ n → dmac_is_idle n b = if en n (b chen) then 0 else 1.
Proof.
  intros Hn. unfold dmac_is_idle, en. rewrite (Z.land_ones _ 1) by lia.
  change (Z.shiftr (b chen) n mod 2 ^ 1) with (bf_get (BF n 1) (b chen)). rewrite bit_get by done.
  by destruct (Z.testbit (b chen) n).
Qed.
(** What [dmac_channel_enable] ([v] = 1) and [dmac_channel_disable] (0) write *)
Lemma set_chen_testbit n v x i : 0 ≤ n < 6 → 0 ≤ i →
  Z.testbit (set_chen n v x) i =
  if decide (i = 8 + n) then true else if decide (i = n) then Z.odd v else Z.testbit x i.
Proof.
  intros Hn Hi. unfold set_chen. rewrite (proj2 (Z.leb_le 0 n)), (proj2 (Z.ltb_lt n 6)) by lia. cbn [andb].
  unfold ch_en_we, ch_en.
  rewrite !(bf_set_testbit 64) by (first [lia | unfold bf_wf; cbn; lia]). cbn [bf_off bf_width].
  repeat case_decide; try lia; try done.
  - by replace (i - (8 + n)) with 0 by lia.
  - replace (i - n) with 0 by lia. apply Z.bit0_odd.
Qed.
End registers.

(** Reads of a word that was just put together *)
Ltac word64 := repeat first
  [ rewrite (bf_get_set 64) by field_dec
  | rewrite (bf_get_set_ne 64) by field_dec ].
Ltac bank_reads := repeat first
  [ rewrite writeq_eq by discriminate
  | rewrite writeq_ne by (first [discriminate | congruence]) ].

(** ** Configuration words read back *)
(** What [dmac_get_channel_config] has after [p] was set, in a structure that held
    [p0]: each field truncated to its width, the fields it does not fetch kept. *)
Definition config_read (p p0 : dmac_channel_config_t) : dmac_channel_config_t :=
  {| cfg_sar := p.(cfg_sar); cfg_dar := p.(cfg_dar);
     ctl_sms := wrap 1 p.(ctl_sms); ctl_dms := wrap 1 p.(ctl_dms);
     ctl_src_msize := wrap 4 p.(ctl_src_msize); ctl_drc_msize := wrap 4 p.(ctl_drc_msize);
     ctl_sinc := wrap 1 p.(ctl_sinc); ctl_dinc := wrap 1 p.(ctl_dinc);
     ctl_src_tr_width := wrap 3 p.(ctl_src_tr_width); ctl_dst_tr_width := wrap 3 p.(ctl_dst_tr_width);
     ctl_ioc_blktfr := wrap 1 p.(ctl_ioc_blktfr);
     ctl_src_stat_en := p0.(ctl_src_stat_en); ctl_dst_stat_en := p0.(ctl_dst_stat_en);
     cfg_dst_per := wrap 4 p.(cfg_dst_per); cfg_src_per := wrap 4 p.(cfg_src_per);
     cfg_src_hs_pol := wrap 1 p.(cfg_src_hs_pol); cfg_dst_hs_pol := wrap 1 p.(cfg_dst_hs_pol);
     cfg_hs_sel_src := wrap 1 p.(cfg_hs_sel_src); cfg_hs_sel_dst := wrap 1 p.(cfg_hs_sel_dst);
     cfg_src_multblk_type := wrap 2 p.(cfg_src_multblk_type); cfg_dst_multblk_type := wrap 2 p.(cfg_dst_multblk_type);
     llp_loc := wrap 58 p.(llp_loc); llp_lms := wrap 1 p.(llp_lms);
     ctl_block_ts := p.(ctl_block_ts); ctl_tt_fc := p0.(ctl_tt_fc);
     cfg_protctl := p0.(cfg_protctl); cfg_fifo_mode := p0.(cfg_fifo_mode); cfg_fcmode := p0.(cfg_fcmode);
     cfg_lock_ch_l := p0.(cfg_lock_ch_l); cfg_ch_prior := wrap 3 p.(cfg_ch_prior) |}.
Definition config_ok (p : dmac_channel_config_t) : Prop :=
  p.(ctl_sms) ≤ 1 ∧ p.(ctl_dms) ≤ 1 ∧ p.(ctl_src_msize) ≤ 7 ∧ p.(ctl_drc_msize) ≤ 7.
Lemma dmac_set_channel_config_other latch c p b r :
  (∀ x, r ≠ channel c x) → snd (dmac_set_channel_config latch c p b) r = b r.
Proof.
  intros Hr. unfold dmac_set_channel_config. repeat case_match; cbn [snd]; try done.
  by rewrite !writeq_ne by (intros E; by eapply Hr).
Qed.
Lemma dmac_set_channel_config_read latch c p p0 b : 0 ≤ c ≤ 3 → config_ok p →
  fst (dmac_set_channel_config latch c p b) = 0 ∧
  dmac_get_channel_config c p0 (snd (dmac_set_channel_config latch c p b)) = (0, config_read p p0).
Proof.
  intros Hc (H1 & H2 & H3 & H4). unfold dmac_set_channel_config.
  rewrite !(proj2 (Z.ltb_ge _ _)) by done. cbn [fst snd]. split; [done|].
  unfold dmac_get_channel_config. rewrite (proj2 (Z.ltb_ge c 0)), (proj2 (Z.ltb_ge 3 c)) by lia. cbn [orb].
  bank_reads. unfold config_read. f_equal. f_equal; word64; done.
Qed.

(** ** One channel at a time

    [undisturbed c b b']: from [b] to [b'] nothing was done to the channels other
    than [c]; they may have come to an end, but none was started or stopped, and
    those at rest have the registers they had. *)
Definition undisturbed (c : Z) (b b' : dmac_bank) : Prop :=
  we_clear (b chen) → we_clear (b' chen) ∧ ∀ n, 0 ≤ n < 6 → n ≠ c →
    (en n (b' chen) = true → en n (b chen) = true) ∧
    (en n (b chen) = false → ∀ r, b' (channel n r) = b (channel n r)).
#[export] Instance undisturbed_preorder c : PreOrder (undisturbed c).
Proof.
  split.
  - by intros b Hb.
  - intros b1 b2 b3 H12 H23 H1. destruct (H12 H1) as [H2 E12]. destruct (H23 H2) as [H3 E23].
    split; [done|]. intros n Hn Hc. destruct (E12 n Hn Hc) as [A1 A2], (E23 n Hn Hc) as [B1 B2].
    split; [auto|]. intros Hoff r. rewrite B2, A2; [done..|].
    destruct (en n (b2 chen)); [by rewrite A1 in Hoff|done].
Qed.

Section hardware.
Context {latch : Z → Z → Z} {step : dmac_bank → dmac_bank} `{!DmacHw latch step}.
Implicit Types b : dmac_bank.

Lemma undisturbed_step c b : undisturbed c b (step b).
Proof.
  intros Hw. split; [by apply (step_we (DmacHw:=DmacHw0))|]. intros n Hn _.
  split; [by apply (step_en (DmacHw:=DmacHw0))|]. intros Hoff r. by apply (step_idle (DmacHw:=DmacHw0)).
Qed.
Lemma undisturbed_iter c k b : undisturbed c b (Nat.iter k step b).
Proof. induction k as [|k IH]; [done|]. etrans; [exact IH|]. apply undisturbed_step. Qed.
(** A write to a register of [c], or to a common register other than [chen] *)
Lemma undisturbed_write c v r b :
  r ≠ chen → (∀ n x, n ≠ c → r ≠ channel n x) → undisturbed c b (writeq latch v r b).
Proof.
  intros Hr Hc Hw. rewrite writeq_ne by done. split; [done|]. intros n Hn Hnc. split; [done|].
  intros _ x. by rewrite writeq_ne by (by apply Hc).
Qed.
(** The read of [chen] was before the step: a channel that ends in between is not
    started again, since its write-enable bit is written as 0. *)
Lemma undisturbed_chen c v b : 0 ≤ c < 6 → undisturbed c b (writeq latch (set_chen c v (b chen)) chen (step b)).
Proof.
  intros Hc Hw. destruct (undisturbed_step c b Hw) as [Hw' Hs]. rewrite writeq_chen.
  split; [by apply (latch_we (DmacHw:=DmacHw0))|]. intros n Hn Hnc. destruct (Hs n Hn Hnc) as [Hs1 Hs2]. split.
  - intros He. apply Hs1. rewrite <-He. symmetry. apply (latch_keep (DmacHw:=DmacHw0)); [done|].
    rewrite set_chen_testbit, !decide_False by lia. by apply Hw.
  - intros Hoff r. rewrite writeq_ne by done. by apply Hs2.
Qed.
Lemma dmac_channel_enable_en c b : 0 ≤ c < 6 → en c (dmac_channel_enable latch step c b chen) = true.
Proof.
  intros Hc. unfold dmac_channel_enable. rewrite writeq_chen.
  apply (latch_start (DmacHw:=DmacHw0)); [done|..]; unfold en; rewrite set_chen_testbit by lia.
  - by rewrite decide_True by lia.
  - by rewrite decide_False, decide_True by lia.
Qed.
Lemma dmac_check_channel_busy_harmless c b n : 0 ≤ n < 6 → we_clear (b chen) →
  en n (snd (dmac_check_channel_busy latch step c b) chen) = en n (step b chen).
Proof.
  intros Hn Hw. unfold dmac_check_channel_busy. cbn [snd]. rewrite writeq_chen.
  by apply (latch_keep (DmacHw:=DmacHw0)), Hw.
Qed.
(** [dmac_init] clears enables without their write-enable bits, which does nothing. *)
Lemma chen_mask_keeps b n : 0 ≤ n < 6 → we_clear (b chen) →
  en n (writeq latch (Z.land (b chen) (u64 (-16))) chen (step b) chen) = en n (step b chen).
Proof.
  intros Hn Hw. rewrite writeq_chen. apply (latch_keep (DmacHw:=DmacHw0)); [done|].
  rewrite Z.land_spec. by rewrite (Hw n Hn).
Qed.

(** ** Waiting *)
Lemma poll_run c fuel n b : (n ≤ fuel)%nat → c (Nat.iter (S n) step b) = true →
  ∃ m, (m ≤ n)%nat ∧ poll step fuel c b = Ok (Nat.iter (S m) step b) ∧ c (Nat.iter (S m) step b) = true.
Proof.
  revert n b. induction fuel as [|fuel IH]; intros n b Hn Hc.
  - replace n with O in Hc by lia. exists O. split; [lia|]. cbn [poll]. cbn in Hc. by rewrite Hc.
  - cbn [poll]. destruct (c (step b)) eqn:E; [exists O; split; [lia|]; done|].
    destruct n as [|n]; [cbn in Hc; congruence|].
    rewrite Nat.iter_succ_r in Hc. destruct (IH n (step b)) as (m & Hm & -> & Hd); [lia|done|].
    exists (S m). split; [lia|]. rewrite <-Nat.iter_succ_r in Hd. by rewrite <-Nat.iter_succ_r.
Qed.
(** Without an end of the transfer the wait does not return. *)
Lemma poll_never c fuel b : (∀ n, c (Nat.iter (S n) step b) = false) → poll step fuel c b = Fault FFuel.
Proof.
  revert b. induction fuel as [|fuel IH]; intros b Hc; cbn [poll]; rewrite (Hc O : c (step b) = false); [done|].
  apply IH. intros n. rewrite <-Nat.iter_succ_r. apply (Hc (S n)).
Qed.
Lemma dmac_wait_idle_run fuel n c b : 0 ≤ c < 6 → (n ≤ fuel)%nat → en c (Nat.iter (S n) step b chen) = false →
  ∃ b', dmac_wait_idle latch step fuel c b = Ok b' ∧ undisturbed c b b' ∧ en c (b' chen) = false.
Proof.
  intros Hc Hn Hoff. unfold dmac_wait_idle.
  destruct (poll_run (λ b, negb (dmac_is_idle c b =? 0)) fuel n b) as (m & _ & -> & Hd); [done|..].
  { by rewrite is_idle_en, Hoff by lia. }
  eexists. split; [done|]. unfold dmac_channel_interrupt_clear. split.
  - etrans; [apply undisturbed_iter|]. apply undisturbed_write; [done|]. intros ???; congruence.
  - rewrite writeq_ne by done. rewrite is_idle_en in Hd by lia. by destruct (en c (Nat.iter (S m) step b chen)).
Qed.

(** ** A single transfer *)
Lemma dmac_channel_disable_undisturbed c b : 0 ≤ c < 6 → undisturbed c b (dmac_channel_disable latch step c b).
Proof. apply undisturbed_chen. Qed.
Lemma dmac_channel_enable_undisturbed c b : 0 ≤ c < 6 → undisturbed c b (dmac_channel_enable latch step c b).
Proof. apply undisturbed_chen. Qed.
Lemma dmac_channel_enable_regs c b r : 0 ≤ c < 6 → en c (b chen) = false →
  dmac_channel_enable latch step c b (channel c r) = b (channel c r).
Proof.
  intros Hc Hoff. unfold dmac_channel_enable. rewrite writeq_ne by done. by apply (step_idle (DmacHw:=DmacHw0)).
Qed.
Lemma undisturbed_set_param c src dest si di burst tw bs b :
  undisturbed c b (dmac_set_channel_param latch c src dest si di burst tw bs b).
Proof.
  unfold dmac_set_channel_param.
  repeat (etrans; [|apply undisturbed_write; [done|intros ???; congruence]]). done.
Qed.
(** The request that [dmac_set_channel_param] leaves in the registers of a channel *)
Record programmed (c src dest si di burst tw bs : Z) (b : dmac_bank) : Prop := {
  pr_sar : b (channel c sar) = src;
  pr_dar : b (channel c dar) = dest;
  pr_block : b (channel c block_ts) = u32 (bs - 1);
  pr_flow : bf_get ch_cfg_tt_fc (b (channel c cfg)) = flow_control (is_memory src) (is_memory dest);
  pr_hs_src : bf_get ch_cfg_hs_sel_src (b (channel c cfg)) = is_memory src;
  pr_hs_dst : bf_get ch_cfg_hs_sel_dst (b (channel c cfg)) = is_memory dest;
  pr_src_per : bf_get ch_cfg_src_per (b (channel c cfg)) = c;
  pr_dst_per : bf_get ch_cfg_dst_per (b (channel c cfg)) = c;
  pr_contiguous : bf_get ch_cfg_src_multblk_type (b (channel c cfg)) = 0 ∧
                  bf_get ch_cfg_dst_multblk_type (b (channel c cfg)) = 0;
  pr_masters : bf_get ch_ctl_sms (b (channel c ctl)) = 0 ∧ bf_get ch_ctl_dms (b (channel c ctl)) = 1;
  pr_sinc : bf_get ch_ctl_sinc (b (channel c ctl)) = wrap 1 si;
  pr_dinc : bf_get ch_ctl_dinc (b (channel c ctl)) = wrap 1 di;
  pr_src_width : bf_get ch_ctl_src_tr_width (b (channel c ctl)) = wrap 3 tw;
  pr_dst_width : bf_get ch_ctl_dst_tr_width (b (channel c ctl)) = wrap 3 tw;
  pr_src_burst : bf_get ch_ctl_src_msize (b (channel c ctl)) = wrap 4 burst;
  pr_dst_burst : bf_get ch_ctl_dst_msize (b (channel c ctl)) = wrap 4 burst
}.
Lemma is_memory_bit a : wrap 1 (hs_sel (is_memory a)) = is_memory a.
Proof. unfold is_memory. by destruct (_ || _). Qed.
Lemma flow_control_bits a a' : wrap 3 (flow_control (is_memory a) (is_memory a')) = flow_control (is_memory a) (is_memory a').
Proof. unfold is_memory. by destruct (_ || _), (_ || _). Qed.
Lemma set_param_programmed c src dest si di burst tw bs b : 0 ≤ c < 6 →
  programmed c src dest si di burst tw bs (dmac_set_channel_param latch c src dest si di burst tw bs b).
Proof.
  intros Hc. unfold dmac_set_channel_param. split; bank_reads; try done; word64.
  all: rewrite ?is_memory_bit, ?flow_control_bits; try done.
  all: cbn; apply wrap_id; lia.
Qed.
Lemma request_ext c src dest si di burst tw bs b b' :
  (∀ r, b' (channel c r) = b (channel c r)) →
  programmed c src dest si di burst tw bs b → programmed c src dest si di burst tw bs b'.
Proof. intros E []. by split; rewrite ?E. Qed.
Lemma dmac_set_single_mode_run fuel n c src dest si di burst tw bs b : 0 ≤ c < 6 → (n ≤ fuel)%nat →
  en c (Nat.iter (S n) step (dmac_channel_disable latch step c (dmac_channel_interrupt_clear latch c b)) chen) = false →
  ∃ b', dmac_set_single_mode latch step fuel c src dest si di burst tw bs b = Ok b' ∧
    undisturbed c b b' ∧ en c (b' chen) = true ∧ programmed c src dest si di burst tw (u32 bs) b'.
Proof.
  intros Hc Hn Hoff. unfold dmac_set_single_mode.
  destruct (dmac_wait_idle_run fuel n c _ Hc Hn Hoff) as (b1 & -> & Hu & Hidle).
  eexists. split; [done|]. set (b2 := dmac_set_channel_param _ _ _ _ _ _ _ _ _ _).
  assert (Hidle2 : en c (dmac_enable latch b2 chen) = false).
  { unfold dmac_enable. rewrite writeq_ne by done. unfold b2, dmac_set_channel_param. by bank_reads. }
  split; [|split].
  - etrans; [|by apply dmac_channel_enable_undisturbed].
    etrans; [|apply undisturbed_write; done].
    etrans; [|apply undisturbed_set_param]. etrans; [|exact Hu].
    etrans; [|by apply dmac_channel_disable_undisturbed].
    apply undisturbed_write; [done|]. intros ???; congruence.
  - by apply dmac_channel_enable_en.
  - apply (request_ext _ _ _ _ _ _ _ _ b2); [|by apply set_param_programmed]. intros r.
    rewrite dmac_channel_enable_regs by done. unfold dmac_enable. by rewrite writeq_ne by done.
Qed.
End hardware.

(** ** A controller for examples: every transfer ends, and a reset completes, before
    the next access; reserved bits read as 0. *)
Definition demo_latch (old v : Z) : Z :=
  let m := Z.shiftr v 8 in Z.land (Z.lor (Z.land v m) (Z.ldiff old m)) 63.
Definition demo_step (b : dmac_bank) : dmac_bank := 
  <[chen := 0]> (<[dmac_reset := 0]> (<[dmac_cfg := Z.land (b dmac_cfg) 3]> b)).
Lemma demo_latch_testbit old v n : 0 ≤ n < 6 →
  en n (demo_latch old v) = if Z.testbit v (8 + n) then en n v else en n old.
Proof.
  intros Hn. unfold en, demo_latch. rewrite Z.land_spec, Z.lor_spec, Z.land_spec, Z.ldiff_spec, Z.shiftr_spec by lia.
  rewrite (Z.add_comm n 8). rewrite (Z.testbit_ones_nonneg 6), (proj2 (Z.ltb_lt n 6)) by lia.
  by destruct (Z.testbit v (8 + n)), (Z.testbit v n), (Z.testbit old n).
Qed.
#[export] Instance demo_hw : DmacHw demo_latch demo_step.
Proof.
  split.
  - intros old v n Hn Hw. by rewrite demo_latch_testbit, Hw.
  - intros old v n Hn Hw He. by rewrite demo_latch_testbit, Hw.
  - intros old v n Hn Hw He. by rewrite demo_latch_testbit, Hw, He.
  - intros old v n Hn. unfold demo_latch. rewrite Z.land_spec.
    rewrite (Z.testbit_ones_nonneg 6), (proj2 (Z.ltb_ge _ _)) by lia. by rewrite andb_false_r.
  - intros old v Ho Hv. unfold demo_latch. rewrite (Z.land_ones _ 6) by lia.
    pose proof (Z.mod_pos_bound (Z.lor (Z.land v (Z.shiftr v 8)) (Z.ldiff old (Z.shiftr v 8))) (2 ^ 6)). lia.
  - intros b n Hn. unfold demo_step. rewrite fn_lookup_insert. unfold en. by rewrite Z.bits_0.
  - intros b Hb n Hn. unfold demo_step. rewrite fn_lookup_insert. by rewrite Z.bits_0.
  - done.
  - intros b Hb r. unfold demo_step, insert, fn_insert. case_decide; [lia|]. case_decide; [lia|].
    case_decide; [|apply Hb]. rewrite (Z.land_ones _ 2) by lia. pose proof (Z.mod_pos_bound (b dmac_cfg) (2 ^ 2)). lia.
Qed.
Definition demo_dmac : dmac_bank := λ _, 0.

(** For every state of the controller in which the channel asked for comes to rest,
    [dmac_set_single_mode] returns with the channel enabled and the whole request in its
    registers: both addresses, the flow control and handshakes that the kinds of the two
    addresses call for, widths and bursts.  No other channel is started, stopped or
    changed, although transfers may end between any read and write of the driver. *)
Theorem dmac_set_single_mode_spec latch step `{!DmacHw latch step}
    fuel n c src dest si di burst tw bs b :
  0 ≤ c < 6 → (n ≤ fuel)%nat → we_clear (b chen) →
  en c (Nat.iter (S n) step (dmac_channel_disable latch step c (dmac_channel_interrupt_clear latch c b)) chen) = false →
  ∃ b', dmac_set_single_mode latch step fuel c src dest si di burst tw bs b = Ok b' ∧
    programmed c src dest si di burst tw (u32 bs) b' ∧ en c (b' chen) = true ∧ we_clear (b' chen) ∧
    ∀ j, 0 ≤ j < 6 → j ≠ c → (en j (b' chen) = true → en j (b chen) = true) ∧
      (en j (b chen) = false → ∀ r, b' (channel j r) = b (channel j r)).
Proof.
  intros Hc Hn Hw Hoff.
  destruct (dmac_set_single_mode_run fuel n c src dest si di burst tw bs b Hc Hn Hoff) as (b' & -> & Hu & He & Hp).
  destruct (Hu Hw) as [Hw' Ho]. by exists b'.
Qed.
Lemma dmac_set_single_mode_spec_witness : ∃ b',
  dmac_set_single_mode demo_latch demo_step 0 2 0x80001000 0x38000004 0 1 2 2 128 demo_dmac = Ok b' ∧
  b' (channel 2 block_ts) = 127 ∧ bf_get ch_cfg_tt_fc (b' (channel 2 cfg)) = DMAC_MEM2PRF_DMA.
Proof.
  destruct (dmac_set_single_mode_spec demo_latch demo_step 0 0 2 0x80001000 0x38000004 0 1 2 2 128 demo_dmac)
    as (b' & E & Hp & _); [lia|lia|intros n Hn; apply Z.bits_0|reflexivity|].
  exists b'. split; [exact E|]. split; [exact (pr_block _ _ _ _ _ _ _ _ _ Hp)|exact (pr_flow _ _ _ _ _ _ _ _ _ Hp)].
Defined.

(** A channel configuration reads back: after [dmac_set_channel_config] accepts it, on
    any of the channels 0 to 3, [dmac_get_channel_config] fetches what was set, each
    field cut to its width in the register; the other channels keep their registers. *)
Theorem dmac_channel_config_roundtrip latch c p p0 b : 0 ≤ c ≤ 3 → config_ok p →
  ∃ b', dmac_set_channel_config latch c p b = (0, b') ∧
    dmac_get_channel_config c p0 b' = (0, config_read p p0) ∧
    ∀ r, (∀ x, r ≠ channel c x) → b' r = b r.
Proof.
  intros Hc Hp. destruct (dmac_set_channel_config_read latch c p p0 b Hc Hp) as [H0 H1].
  destruct (dmac_set_channel_config latch c p b) as [r b'] eqn:E. cbn [fst snd] in *. subst r.
  exists b'. split; [done|]. split; [done|]. intros r Hr.
  rewrite <-(dmac_set_channel_config_other latch c p b r Hr). by rewrite E.
Qed.
Definition demo_config : dmac_channel_config_t :=
  {| cfg_sar := 0x80000000; cfg_dar := 0x38000000; ctl_sms := 0; ctl_dms := 1; ctl_src_msize := 3; ctl_drc_msize := 3;
     ctl_sinc := 0; ctl_dinc := 1; ctl_src_tr_width := 2; ctl_dst_tr_width := 2; ctl_ioc_blktfr := 1;
     ctl_src_stat_en := 0; ctl_dst_stat_en := 0; cfg_dst_per := 5; cfg_src_per := 6; cfg_src_hs_pol := 0;
     cfg_dst_hs_pol := 0; cfg_hs_sel_src := 1; cfg_hs_sel_dst := 0; cfg_src_multblk_type := 3;
     cfg_dst_multblk_type := 0; llp_loc := 0x2000001; llp_lms := 0; ctl_block_ts := 99; ctl_tt_fc := 1;
     cfg_protctl := 0; cfg_fifo_mode := 0; cfg_fcmode := 0; cfg_lock_ch_l := 0; cfg_ch_prior := 7 |}.
Lemma dmac_channel_config_roundtrip_witness : ∃ b',
  dmac_set_channel_config demo_latch 3 demo_config demo_dmac = (0, b') ∧
  dmac_get_channel_config 3 demo_config b' = (0, demo_config).
Proof.
  destruct (dmac_channel_config_roundtrip demo_latch 3 demo_config demo_config demo_dmac) as (b' & E & G & _);
    [lia|unfold config_ok; cbn; lia|]. exists b'. split; [exact E|exact G].
Defined.
(** The channels 4 and 5 can be set but not read back. *)
Lemma dmac_get_channel_config_refuses c p b : 4 ≤ c < 6 → dmac_get_channel_config c p b = (-1, p).
Proof. intros Hc. unfold dmac_get_channel_config. by rewrite (proj2 (Z.ltb_lt 3 c)), orb_true_r by lia. Qed.

(** ** Words stay 64 bits wide *)
Definition regs64 (b : dmac_bank) : Prop := ∀ r, in_width 64 (b r).
Lemma bf_set_64 f v x : bf_wf 64 f → in_width 64 x → in_width 64 (bf_set f v x).
Proof. apply bf_set_range. Qed.
Lemma regs64_word b r : regs64 b → in_width 64 (b r).
Proof. intros Hb. apply Hb. Qed.
Section width.
Context {latch : Z → Z → Z} {step : dmac_bank → dmac_bank} `{!DmacHw latch step}.
Lemma writeq_64 v r b : regs64 b → in_width 64 v → regs64 (writeq latch v r b).
Proof.
  intros Hb Hv r'. unfold writeq, insert, fn_insert. repeat case_decide; try done.
  by apply (latch_width (DmacHw:=DmacHw0)).
Qed.
Lemma step_64 b : regs64 b → regs64 (step b).
Proof. intros Hb r. exact (step_width (DmacHw:=DmacHw0) b Hb r). Qed.
Lemma set_chen_64 c v x : 0 ≤ c < 6 → in_width 64 x → in_width 64 (set_chen c v x).
Proof.
  intros Hc Hx. unfold set_chen. case_match; [|done].
  repeat apply bf_set_64; try done; unfold bf_wf; cbn; lia.
Qed.
Lemma poll_64 fuel f b b' : regs64 b → poll step fuel f b = Ok b' → regs64 b'.
Proof.
  revert b. induction fuel as [|fuel IH]; intros b Hb; cbn [poll]; case_match; try done.
  - intros [= <-]. by apply step_64.
  - intros [= <-]. by apply step_64.
  - apply IH. by apply step_64.
Qed.
Lemma reset_loop_64 fuel v b b' : regs64 b → reset_loop step fuel v b = Ok b' → regs64 b'.
Proof.
  revert v b. induction fuel as [|fuel IH]; intros v b Hb; cbn [reset_loop]; case_match; try done.
  - by intros [= <-].
  - by intros [= <-].
  - apply IH. by apply step_64.
Qed.
Lemma lli_ctl_word_64 last p x : in_width 64 x → in_width 64 (lli_ctl_word last p x).
Proof. intros Hx. unfold lli_ctl_word. case_match; repeat (apply bf_set_64; [field_dec|]); done. Qed.

(** The operations of the driver on its registers, with arguments of their C types *)
Inductive dmac_op : Type :=
| OEnable | ODisable | OSrcTransInt (c : Z) | OChannelEnable (c : Z) | OChannelDisable (c : Z)
| OCheckBusy (c : Z) | OListMaster (c sd mst : Z) | OCommonStatus | OCommonSignal
| OEnableInt (c : Z) | ODisableInt (c : Z) | OClearInt (c : Z)
| OSetConfig (c : Z) (p : dmac_channel_config_t)
| OSetAddress (c src dst : Z) | OBlockTs (c n : Z) | OSource (c m a w l : Z) | OMaster (c m a w l : Z)
| OSourceTransfer (c t h : Z) | ODestTransfer (c t h : Z) | OFlow (c f : Z) | OListPointer (c a : Z)
| OInit (s : bank sysctl_reg) | OShadow (c last : Z) (p : dmac_channel_config_t) | OShadowInvalid (c : Z)
| OWaitIdle (c : Z) | OSingle (c src dest si di burst tw bs : Z) | OSrcDest (c src dest len : Z).
Definition run_op (fuel : nat) (o : dmac_op) (b : dmac_bank) : res dmac_bank :=
  match o with
  | OEnable => Ok (dmac_enable latch b)
  | ODisable => Ok (dmac_disable latch b)
  | OSrcTransInt c => Ok (src_transaction_complete_int_enable latch c b)
  | OChannelEnable c => Ok (dmac_channel_enable latch step c b)
  | OChannelDisable c => Ok (dmac_channel_disable latch step c b)
  | OCheckBusy c => Ok (snd (dmac_check_channel_busy latch step c b))
  | OListMaster c sd mst => Ok (snd (dmac_set_list_master_select latch step c sd mst b))
  | OCommonStatus => Ok (dmac_enable_common_interrupt_status latch b)
  | OCommonSignal => Ok (dmac_enable_common_interrupt_signal latch b)
  | OEnableInt c => Ok (dmac_enable_channel_interrupt latch c b)
  | ODisableInt c => Ok (dmac_disable_channel_interrupt latch c b)
  | OClearInt c => Ok (dmac_channel_interrupt_clear latch c b)
  | OSetConfig c p => Ok (snd (dmac_set_channel_config latch c p b))
  | OSetAddress c src dst => Ok (dmac_set_address latch c src dst b)
  | OBlockTs c n => Ok (dmac_set_block_ts latch c n b)
  | OSource c m a w l => Ok (dmac_source_control latch c m a w l b)
  | OMaster c m a w l => Ok (dmac_master_control latch c m a w l b)
  | OSourceTransfer c t h => Ok (dmac_set_source_transfer_control latch c t h b)
  | ODestTransfer c t h => Ok (dmac_set_destination_transfer_control latch c t h b)
  | OFlow c f => Ok (dmac_set_flow_control latch c f b)
  | OListPointer c a => Ok (dmac_set_linked_list_addr_point latch c a b)
  | OInit s => '(_, b) ← dmac_init latch step fuel s b; Ok b
  | OShadow c last p => dmac_update_shandow_register latch step fuel c last p b
  | OShadowInvalid c => Ok (dmac_set_shadow_invalid_flag latch c b)
  | OWaitIdle c => dmac_wait_idle latch step fuel c b
  | OSingle c src dest si di burst tw bs => dmac_set_single_mode latch step fuel c src dest si di burst tw bs b
  | OSrcDest c src dest len => Ok (dmac_set_src_dest_length latch step c src dest len b)
  end.
Definition op_typed (o : dmac_op) : Prop :=
  match o with
  | OChannelEnable c | OChannelDisable c | OSingle c _ _ _ _ _ _ _ | OSrcDest c _ _ _ => 0 ≤ c < 6
  | _ => True
  end ∧
  match o with
  | OSetConfig _ p | OShadow _ _ p => in_width 64 p.(cfg_sar) ∧ in_width 64 p.(cfg_dar) ∧ in_width 64 p.(ctl_block_ts)
  | OSetAddress _ src dst | OSingle _ src dst _ _ _ _ _ | OSrcDest _ src dst _ => in_width 64 src ∧ in_width 64 dst
  | OBlockTs _ n => in_width 32 n
  | _ => True
  end.
Lemma u32_64 x : in_width 64 (u32 x).
Proof. pose proof (wrap_range 32 x ltac:(lia)). lia. Qed.
Lemma land_64 x m : in_width 64 x → in_width 64 (Z.land x m).
Proof.
  intros Hx. apply in_width_testbit; [lia|by apply Z.land_nonneg; left; lia|].
  intros i Hi. by rewrite Z.land_spec, (testbit_above 64) by done.
Qed.
End width.
(** Peel off the accesses of an operation *)
Ltac wide := cbv zeta; repeat first
  [ assumption | apply writeq_64 | apply step_64 | apply set_chen_64 | apply lli_ctl_word_64 | apply u32_64 | apply land_64
  | apply bf_set_64; [field_dec|] | apply regs64_word | lia ].

Section typed.
Context {latch : Z → Z → Z} {step : dmac_bank → dmac_bank} `{!DmacHw latch step}.
Lemma set_channel_param_64 c src dest si di burst tw bs b : in_width 64 src → in_width 64 dest →
  regs64 b → regs64 (dmac_set_channel_param latch c src dest si di burst tw bs b).
Proof. intros Hs Hd Hb. unfold dmac_set_channel_param. wide. Qed.
Lemma set_channel_config_64 c p b :
  in_width 64 p.(cfg_sar) → in_width 64 p.(cfg_dar) → in_width 64 p.(ctl_block_ts) →
  regs64 b → regs64 (snd (dmac_set_channel_config latch c p b)).
Proof. intros Hs Hd Ht Hb. unfold dmac_set_channel_config. repeat (case_match; [done|]). cbn [snd]. wide. Qed.
Lemma check_channel_busy_64 c b : regs64 b → regs64 (snd (dmac_check_channel_busy latch step c b)).
Proof. intros Hb. unfold dmac_check_channel_busy. cbn [snd]. wide. Qed.
Lemma list_master_select_64 c sd mst b : regs64 b → regs64 (snd (dmac_set_list_master_select latch step c sd mst b)).
Proof.
  intros Hb. unfold dmac_set_list_master_select. pose proof (check_channel_busy_64 c b Hb) as Hc.
  destruct (dmac_check_channel_busy _ _ _ _) as [ret b1]. cbn [snd] in Hc. repeat case_match; cbn [snd]; by wide.
Qed.
Lemma set_src_dest_length_64 c src dest len b : 0 ≤ c < 6 → in_width 64 src → in_width 64 dest →
  regs64 b → regs64 (dmac_set_src_dest_length latch step c src dest len b).
Proof.
  intros Hc Hs Hd Hb. unfold dmac_set_src_dest_length, dmac_set_block_ts, dmac_channel_enable.
  repeat case_match; by wide.
Qed.
Lemma wait_idle_64 fuel c b b' : regs64 b → dmac_wait_idle latch step fuel c b = Ok b' → regs64 b'.
Proof.
  intros Hb (b1 & E & [= <-])%res_bind_Ok. apply poll_64 in E; [|done]. unfold dmac_channel_interrupt_clear. wide.
Qed.
Lemma dmac_init_64 fuel s b s' b' : regs64 b → dmac_init latch step fuel s b = Ok (s', b') → regs64 b'.
Proof.
  intros Hb. unfold dmac_init. destruct (sysctl_clock_enable _ s) as [z s1]. cbv zeta.
  intros (b1 & E1 & (b2 & E2 & [= _ <-])%res_bind_Ok)%res_bind_Ok.
  apply reset_loop_64 in E1; [|by wide]. apply poll_64 in E2; [|unfold five_bits; by wide].
  match goal with |- regs64 (dmac_enable _ ?x) => assert (Hx : regs64 x) end; [|unfold dmac_enable; by wide].
  apply (for_range_ind (λ _, regs64)); [done|by wide|]. intros i b3 _ Hb3. unfold dmac_disable_channel_interrupt. by wide.
Qed.
Lemma update_shadow_64 fuel c last p b b' :
  in_width 64 p.(cfg_sar) → in_width 64 p.(cfg_dar) → in_width 64 p.(ctl_block_ts) → regs64 b →
  dmac_update_shandow_register latch step fuel c last p b = Ok b' → regs64 b'.
Proof.
  intros Hs Hd Ht Hb (b1 & E & [= <-])%res_bind_Ok. apply poll_64 in E; [|done]. wide.
Qed.
Lemma set_single_mode_64 fuel c src dest si di burst tw bs b b' : 0 ≤ c < 6 →
  in_width 64 src → in_width 64 dest → regs64 b →
  dmac_set_single_mode latch step fuel c src dest si di burst tw bs b = Ok b' → regs64 b'.
Proof.
  intros Hc Hs Hd Hb (b1 & E & [= <-])%res_bind_Ok. apply wait_idle_64 in E.
  - unfold dmac_channel_enable, dmac_enable.
    pose proof (set_channel_param_64 c src dest si di burst tw (u32 bs) b1 Hs Hd E). by wide.
  - unfold dmac_channel_disable, dmac_channel_interrupt_clear. by wide.
Qed.
Lemma run_op_64 fuel o b b' : regs64 b → op_typed o → run_op (latch:=latch) (step:=step) fuel o b = Ok b' → regs64 b'.
Proof.
  intros Hb [Hc Ho]. destruct o; cbn [run_op] in *; intros E; try (injection E as <-).
  all: try (unfold dmac_enable, dmac_disable, src_transaction_complete_int_enable, dmac_channel_enable,
    dmac_channel_disable, dmac_enable_common_interrupt_status, dmac_enable_common_interrupt_signal, five_bits,
    dmac_enable_channel_interrupt, dmac_disable_channel_interrupt, dmac_channel_interrupt_clear, dmac_set_address,
    dmac_set_block_ts, dmac_source_control, dmac_master_control, dmac_set_source_transfer_control,
    dmac_set_destination_transfer_control, dmac_set_flow_control, dmac_set_linked_list_addr_point,
    dmac_set_shadow_invalid_flag; by (destruct_and?; wide)).
  - by apply list_master_select_64.
  - destruct_and!. by apply set_channel_config_64.
  - apply res_bind_Ok in E as ([s' b1] & E & [= <-]). by apply dmac_init_64 in E.
  - destruct_and!. by apply update_shadow_64 in E.
  - by apply wait_idle_64 in E.
  - destruct_and!. by apply set_single_mode_64 in E.
  - destruct_and!. by apply set_src_dest_length_64.
Qed.
Lemma poll_fault fuel f b x : poll step fuel f b = Fault x → x = FFuel.
Proof. revert b. induction fuel as [|fuel IH]; intros b; cbn [poll]; case_match; try done; [by intros [= <-]|apply IH]. Qed.
Lemma reset_loop_fault fuel v b x : reset_loop step fuel v b = Fault x → x = FFuel.
Proof. revert v b. induction fuel as [|fuel IH]; intros v b; cbn [reset_loop]; case_match; try done; [by intros [= <-]|apply IH]. Qed.
Lemma run_op_fault fuel o b x : run_op (latch:=latch) (step:=step) fuel o b = Fault x → x = FFuel.
Proof.
  destruct o; cbn [run_op]; try done.
  - unfold dmac_init. destruct (sysctl_clock_enable _ s) as [z s1]. cbv zeta.
    destruct (reset_loop _ _ _ _) as [b1|g] eqn:E1; cbn [mbind res_bind]; [|intros [= <-]; by apply reset_loop_fault in E1].
    destruct (poll _ _ _ _) as [b2|g] eqn:E2; cbn; [done|]. intros [= <-]. by apply poll_fault in E2.
  - unfold dmac_update_shandow_register. destruct (poll _ _ _ _) as [b2|g] eqn:E2; cbn; [done|].
    intros [= <-]. by apply poll_fault in E2.
  - unfold dmac_wait_idle. destruct (poll _ _ _ _) as [b2|g] eqn:E2; cbn; [done|]. intros [= <-]. by apply poll_fault in E2.
  - unfold dmac_set_single_mode, dmac_wait_idle. destruct (poll _ _ _ _) as [b2|g] eqn:E2; cbn; [done|].
    intros [= <-]. by apply poll_fault in E2.
Qed.
End typed.

(** Every operation of the driver, called with arguments of its C types, keeps every
    register of the controller a 64-bit word, or waits for a state that the hardware
    does not reach; it has no other way to fail. *)
Theorem dmac_ops_typed latch step `{!DmacHw latch step} fuel o b : regs64 b → op_typed o →
  match run_op (latch:=latch) (step:=step) fuel o b with
  | Ok b' => regs64 b'
  | Fault f => f = FFuel
  end.
Proof.
  intros Hb Ho. destruct (run_op fuel o b) as [b'|f] eqn:E; [|by apply (run_op_fault (latch:=latch) (step:=step) fuel o b)].
  by apply (run_op_64 (latch:=latch) (step:=step) fuel o b).
Qed.
Lemma dmac_ops_typed_witness :
  match run_op (latch:=demo_latch) (step:=demo_step) 0 (OSingle 1 0x80000000 0x80002000 0 0 0 5 0) demo_dmac with
  | Ok b' => regs64 b'
  | Fault f => f = FFuel
  end.
Proof. apply (dmac_ops_typed demo_latch demo_step); [intros r; unfold demo_dmac; lia|unfold op_typed; lia]. Defined.

(** ** Linked lists of blocks

    How the controller walks a list: [loc] of the link register (address / 64) names the
    next item, an item that is not marked as valid is not transferred and stops the
    channel, and the item that is marked as the last ends the list. *)
Definition lli_valid (i : dmac_lli_item_t) : bool := Z.testbit i.(lli_ctl) 63.
Definition lli_last (i : dmac_lli_item_t) : bool := Z.testbit i.(lli_ctl) 62.
Definition lli_next (i : dmac_lli_item_t) : Z := bf_get ch_llp_loc i.(lli_llp).
Definition lli_at (base : Z) (items : Z → dmac_lli_item_t) (loc : Z) : dmac_lli_item_t :=
  items ((Z.shiftl loc 6 - base) / 64).
Fixpoint lli_walk (n : nat) (base : Z) (items : Z → dmac_lli_item_t) (loc : Z) : list (Z * Z * Z) :=
  match n with
  | O => []
  | S n => let i := lli_at base items loc in
           if lli_valid i
           then (i.(lli_sar), i.(lli_dar), i.(lli_ch_block_ts)) :: if lli_last i then [] else lli_walk n base items (lli_next i)
           else []
  end.
Definition transfer_of (p : dmac_channel_config_t) : Z * Z * Z := (p.(cfg_sar), p.(cfg_dar), p.(ctl_block_ts)).
(** A list is made by one call for each row, the last one with [LAST_ROW]. *)
Fixpoint build_list (c row base : Z) (ps : list dmac_channel_config_t) (b : dmac_bank)
    (items : Z → dmac_lli_item_t) : Z → dmac_lli_item_t :=
  match ps with
  | [] => items
  | p :: ps => build_list c (row + 1) base ps b
                 (dmac_link_list_item c row (if ps is [] then LAST_ROW else row) base p b items)
  end.
Lemma lli_ctl_last last p x : Z.testbit (lli_ctl_word last p x) 62 = (last =? LAST_ROW).
Proof.
  unfold lli_ctl_word. destruct (last =? LAST_ROW); cbn [negb];
  rewrite (bf_set_testbit 64) by (field_dec || lia); cbn [bf_off bf_width ch_ctl_shadowreg_or_lli_last];
  by rewrite decide_True by lia.
Qed.
Lemma lli_ctl_valid last p x : Z.testbit (lli_ctl_word last p x) 63 = true.
Proof.
  unfold lli_ctl_word. destruct (last =? LAST_ROW); cbn [negb];
  rewrite !(bf_set_testbit 64) by (field_dec || lia); cbn [bf_off bf_width ch_ctl_shadowreg_or_lli_last ch_ctl_shadowreg_or_lli_valid];
  by rewrite decide_False, decide_True by lia.
Qed.
(** A row below 255 is stored under its number and is not taken for the last one. *)
Lemma s8_row row : 0 ≤ row < 255 → s8 row ≠ LAST_ROW.
Proof. intros Hr. unfold s8, LAST_ROW. rewrite wrap_id by lia. destruct (Z.ltb_spec row (2 ^ 7)); lia. Qed.
Lemma dmac_link_list_item_row c row last base p b items : 0 ≤ row < 256 →
  dmac_link_list_item c row last base p b items row =
    DmacLliItem p.(cfg_sar) p.(cfg_dar) p.(ctl_block_ts)
      (bf_set ch_llp_loc (if s8 last =? LAST_ROW then 0 else Z.shiftr (lli_addr base (row + 1)) 6) (b (channel c llp)))
      (lli_ctl_word (s8 last) p (b (channel c ctl))) 0 0.
Proof. intros Hr. unfold dmac_link_list_item. cbv zeta. rewrite (wrap_id 8), fn_lookup_insert by lia. by destruct (s8 last =? LAST_ROW). Qed.
Lemma dmac_link_list_item_other c row last base p b items r : 0 ≤ row < 256 → r ≠ row →
  dmac_link_list_item c row last base p b items r = items r.
Proof. intros Hr Hne. unfold dmac_link_list_item. cbv zeta. by rewrite (wrap_id 8), fn_lookup_insert_ne by (done || lia). Qed.
Lemma lli_at_row base items row : base mod 64 = 0 → lli_at base items (Z.shiftr (lli_addr base row) 6) = items row.
Proof.
  intros Hb. unfold lli_at, lli_addr. rewrite Z.shiftr_div_pow2, Z.shiftl_mul_pow2 by lia.
  change (2 ^ 6) with 64. f_equal. apply Z.mod_divide in Hb as [k ->]; [|lia].
  replace (k * 64 + 64 * row) with ((k + row) * 64) by lia. rewrite Z.div_mul by lia.
  replace ((k + row) * 64 - k * 64) with (row * 64) by lia. by rewrite Z.div_mul by lia.
Qed.
Lemma build_list_before c ps : ∀ row base b items r, 0 ≤ row → row + Z.of_nat (length ps) ≤ 256 → r < row →
  build_list c row base ps b items r = items r.
Proof.
  induction ps as [|p ps IH]; intros row base b items r Hr0 Hl Hr; cbn [build_list length] in *; [done|].
  rewrite IH by lia. apply dmac_link_list_item_other; lia.
Qed.
Lemma lli_next_row c row last base p b items : 0 ≤ row < 256 → 0 ≤ base → base + 64 * (row + 2) ≤ 2 ^ 64 → s8 last ≠ LAST_ROW →
  lli_next (dmac_link_list_item c row last base p b items row) = Z.shiftr (lli_addr base (row + 1)) 6.
Proof.
  intros Hr Hb Hs Hl. rewrite dmac_link_list_item_row by done. unfold lli_next. cbn [lli_llp].
  rewrite (proj2 (Z.eqb_neq _ LAST_ROW)) by done. rewrite (bf_get_set 64) by field_dec.
  cbn [bf_width ch_llp_loc]. apply wrap_id. unfold lli_addr. rewrite Z.shiftr_div_pow2 by lia.
  split; [apply Z.div_pos; lia|]. apply Z.div_lt_upper_bound; lia.
Qed.
Lemma lli_walk_build c k ps : ∀ row base b items, ps ≠ [] → 0 ≤ row → row + Z.of_nat (length ps) ≤ 256 → 0 ≤ base → base mod 64 = 0 →
  base + 64 * (row + Z.of_nat (length ps) + 1) ≤ 2 ^ 64 →
  lli_walk (length ps + k) base (build_list c row base ps b items) (Z.shiftr (lli_addr base row) 6) = transfer_of <$> ps.
Proof.
  induction ps as [|p ps IH]; intros row base b items Hne Hr H256 Hb Ha Hs; [done|].
  cbn [length] in *. cbn [Nat.add lli_walk build_list]. rewrite lli_at_row by done.
  rewrite build_list_before by lia.
  set (last := match ps with [] => LAST_ROW | _ => row end).
  assert (Hlast : (s8 last =? LAST_ROW) = if ps is [] then true else false).
  { unfold last. destruct ps as [|q ps]; [done|]. apply Z.eqb_neq, s8_row. cbn [length] in H256. lia. }
  set (items' := dmac_link_list_item c row last base p b items).
  assert (E : items' row = DmacLliItem p.(cfg_sar) p.(cfg_dar) p.(ctl_block_ts) (items' row).(lli_llp)
                (lli_ctl_word (s8 last) p (b (channel c ctl))) 0 0) by (unfold items'; by rewrite dmac_link_list_item_row by lia).
  assert (Hv : lli_valid (items' row) = true) by (rewrite E; apply lli_ctl_valid).
  assert (Hl : lli_last (items' row) = (s8 last =? LAST_ROW)) by (rewrite E; apply lli_ctl_last).
  rewrite Hv, Hl, Hlast. cbn [fmap list_fmap]. f_equal; [by rewrite E|].
  destruct ps as [|q ps]; [done|]. unfold items'. cbn [length] in *.
  rewrite lli_next_row; [apply IH; [done|lia..]|lia|done|lia|by apply Z.eqb_neq].
Qed.

(** C24: A list of at most 256 blocks (a row number is eight bits wide, and row 255 taken as
    the mark of a row that is not the last reads as [LAST_ROW]) that is made by one call of
    [dmac_link_list_item] for each row is walked by the controller from its address: every
    item is valid, the blocks of the configurations follow in order, and the walk ends at
    the last one.  But [dmac_set_linked_list_addr_point] puts the address itself where the
    address / 64 belongs, so a channel that is given the list by it starts at 64 times its
    address. *)
Theorem dmac_linked_list_walk latch c d ps base b items :
  ps ≠ [] → Z.of_nat (length ps) ≤ 256 → 0 ≤ base → base mod 64 = 0 → base + 64 * (Z.of_nat (length ps) + 1) ≤ 2 ^ 64 →
  (∀ k, lli_walk (length ps + k) base (build_list c 0 base ps b items) (base / 64) = transfer_of <$> ps) ∧
  (base < 2 ^ 58 → Z.shiftl (bf_get ch_llp_loc (dmac_set_linked_list_addr_point latch d base b (channel d llp))) 6 = 64 * base).
Proof.
  intros Hne H256 Hb Ha Hs. split.
  - intros k. rewrite <-(lli_walk_build c k ps 0 base b items) by (done || lia). f_equal.
    unfold lli_addr. by rewrite Z.mul_0_r, Z.add_0_r, Z.shiftr_div_pow2 by lia.
  - intros H58. unfold dmac_set_linked_list_addr_point. rewrite writeq_eq by done.
    rewrite (bf_get_set 64) by field_dec. cbn [bf_width ch_llp_loc]. rewrite wrap_id by lia.
    rewrite Z.shiftl_mul_pow2 by lia. lia.
Qed.
(** The 256th row of a longer list is written as the last one. *)
Lemma dmac_row_255_ends p b items base c : lli_last (dmac_link_list_item c 255 255 base p b items 255) = true.
Proof. rewrite dmac_link_list_item_row by lia. apply lli_ctl_last. Qed.
Lemma dmac_linked_list_walk_witness :
  lli_walk 5 0x80000040 (build_list 0 0 0x80000040 [demo_config; demo_config] demo_dmac (λ _, DmacLliItem 0 0 0 0 0 0 0))
    (0x80000040 / 64) = [(0x80000000, 0x38000000, 99); (0x80000000, 0x38000000, 99)].
Proof.
  exact (proj1 (dmac_linked_list_walk demo_latch 0 0 [demo_config; demo_config] 0x80000040 demo_dmac
    (λ _, DmacLliItem 0 0 0 0 0 0 0) ltac:(done) ltac:(cbn; lia) ltac:(lia) ltac:(reflexivity) ltac:(cbn; lia)) 3%nat).
Defined.

(** ** Initialisation *)
Section init.
Context {latch : Z → Z → Z} {step : dmac_bank → dmac_bank} `{!DmacHw latch step}.
Implicit Types b : dmac_bank.

Lemma reset_loop_run fuel n v b : (n ≤ fuel)%nat →
  (bf_get reset_rst v = 0 ∨ ∃ m, (m < n)%nat ∧ bf_get reset_rst (Nat.iter (S m) step b dmac_reset) = 0) →
  ∃ m, reset_loop step fuel v b = Ok (Nat.iter m step b).
Proof.
  revert n v b. induction fuel as [|fuel IH]; intros n v b Hn Hr; cbn [reset_loop].
  all: destruct (Z.eqb_spec (bf_get reset_rst v) 0) as [E|E]; [by exists O|].
  all: destruct Hr as [|(m & Hm & Hr)]; [done|].
  { lia. }
  destruct (IH (pred n) (step b dmac_reset) (step b)) as (k & ->).
  - lia.
  - destruct m as [|m]; [by left|]. right. exists m. split; [lia|]. by rewrite Nat.iter_succ_r in Hr.
  - exists (S k). by rewrite Nat.iter_succ_r.
Qed.
Lemma cfg_bits v x : 0 ≤ v ≤ 1 → Z.land (bf_set cfg_int_en v (bf_set cfg_dmac_en v x)) 3 = 3 * v.
Proof.
  intros Hv. apply Z.bits_inj'. intros i Hi. rewrite Z.land_spec, (Z.testbit_ones_nonneg 2) by lia.
  rewrite !(bf_set_testbit 64) by (field_dec || lia). cbn [bf_off bf_width cfg_int_en cfg_dmac_en].
  assert (v = 0 ∨ v = 1) as [->| ->] by lia; destruct (Z.ltb_spec i 2); rewrite ?andb_true_r, ?andb_false_r;
    rewrite ?Z.bits_0; try done.
  - repeat case_decide; try lia; apply Z.bits_0.
  - repeat case_decide; try lia; rewrite (Z.testbit_ones_nonneg 2) by lia; rewrite (proj2 (Z.ltb_lt i 2)) by lia.
    + by replace (i - 1) with 0 by lia.
    + by replace (i - 0) with 0 by lia.
  - symmetry. rewrite (Z.testbit_ones_nonneg 2) by lia. by apply Z.ltb_ge.
Qed.
Lemma disable_interrupts_all n b c : 0 ≤ n → 0 ≤ c < n →
  for_range 0 n (dmac_disable_channel_interrupt latch) b (channel c intstatus_en) = 0.
Proof.
  intros Hn Hc. revert Hc. pattern n, (for_range 0 n (dmac_disable_channel_interrupt latch) b).
  apply for_range_ind; [done|lia|]. intros m b1 Hm IH Hc. unfold dmac_disable_channel_interrupt.
  destruct (decide (c = 0 + m)) as [->|]; [by rewrite writeq_eq by done|].
  rewrite writeq_ne by (intros [=]; lia). apply IH. lia.
Qed.
End init.

(** C25: [dmac_init] returns, on a controller that completes a reset and that reports itself
    off some time after it is switched off: the DMA clock then runs, the controller and its
    interrupts are on, and the interrupts of all six channels are masked. *)
Theorem dmac_init_returns latch step `{!DmacHw latch step} fuel s b :
  (∀ b, ∃ n, (n < fuel)%nat ∧ bf_get reset_rst (Nat.iter (S n) step b dmac_reset) = 0) →
  (∀ b, Z.land (b dmac_cfg) 3 = 0 → ∃ n, (n < fuel)%nat ∧ Nat.iter (S n) step b dmac_cfg = 0) →
  ∃ s' b', dmac_init latch step fuel s b = Ok (s', b') ∧ clock_running SYSCTL_CLOCK_DMA s' ∧
    Z.land (b' dmac_cfg) 3 = 3 ∧ ∀ c, 0 ≤ c < 6 → b' (channel c intstatus_en) = 0.
Proof.
  intros Hreset Hoff. unfold dmac_init. pose proof (clock_enable_running SYSCTL_CLOCK_DMA s) as Hck.
  destruct (sysctl_clock_enable _ s) as [z s1]. cbv zeta.
  set (b0 := writeq _ _ dmac_reset b). destruct (Hreset b0) as (n & Hn & Hr).
  destruct (reset_loop_run (step:=step) fuel (S n) (bf_set reset_rst 1 (b dmac_reset)) b0) as (k & ->); [lia|by right; exists n; auto|].
  cbn [mbind res_bind]. set (b1 := writeq _ _ dmac_cfg _).
  destruct (Hoff b1) as (m & Hm & Hz); [unfold b1; rewrite writeq_eq by done; by apply cfg_bits|].
  destruct (poll_run (step:=step) (λ b, b dmac_cfg =? 0) fuel m b1) as (j & _ & -> & _); [lia|by rewrite Hz|].
  cbn [mbind res_bind]. eexists _, _. split; [done|]. split; [done|]. split; [unfold dmac_enable; rewrite writeq_eq by done; by apply cfg_bits|].
  intros c Hc. unfold dmac_enable at 1. rewrite writeq_ne by done. by apply disable_interrupts_all.
Qed.
Lemma dmac_init_returns_witness : ∃ s' b',
  dmac_init demo_latch demo_step 1 (λ _, 0) (λ _, 0xff) = Ok (s', b') ∧ clock_running SYSCTL_CLOCK_DMA s'.
Proof.
  destruct (dmac_init_returns demo_latch demo_step 1 (λ _, 0) (λ _, 0xff)) as (s' & b' & E & Hck & _).
  - intros b. exists O. split; [lia|reflexivity].
  - intros b Hb. exists O. split; [lia|]. exact Hb.
  - exists s', b'. split; [exact E|exact Hck].
Defined.

(** ** Interrupts

    The driver gives the PLIC one function for all channels and a pointer into its own
    table [dmac_context]. *)
Inductive dmac_fn : Set := dmac_irq_callback_fn.
Inductive dmac_ptr : Set := dmac_context_ptr (n : Z).

Section irq.
Context {F U P : Type} `{IrqController P dmac_fn dmac_ptr} (latch : Z → Z → Z).
Record dmac_context_t := DmacContext { dmac_channel : Z; dcallback : option F; dctx : option U }.
Record dmac_t := Dmac { dregs : dmac_bank; dmac_context : Z → dmac_context_t }.
(** User callbacks act on the driver and on the rest of the machine. *)
Context {W : Type} (call : F → option U → dmac_t * W → dmac_t * W).

Definition dmac_irq_callback (x : dmac_ptr) (s : dmac_t * W) : Z * (dmac_t * W) :=
  let '(d, w) := s in
  let '(dmac_context_ptr n) := x in
  let v_dmac_context := d.(dmac_context) n in
  let d := Dmac (dmac_channel_interrupt_clear latch v_dmac_context.(dmac_channel) d.(dregs)) d.(dmac_context) in
  let s := match v_dmac_context.(dcallback) with
           | Some f => call f v_dmac_context.(dctx) (d, w)
           | None => (d, w)
           end in
  (0, s).
(** [dmac_context] has six entries. *)
Definition dmac_irq_register (channel_num : Z) (cb : option F) (ctx : option U) (priority : Z)
    (d : dmac_t) (p : P) : res (dmac_t * P) :=
  if negb ((0 <=? channel_num) && (channel_num <? 6)) then Fault FUB else
  let d := Dmac d.(dregs) (<[channel_num := DmacContext channel_num cb ctx]> d.(dmac_context)) in
  let d := Dmac (dmac_enable_channel_interrupt latch channel_num d.(dregs)) d.(dmac_context) in
  let p := irq_set_priority (IRQN_DMA0_INTERRUPT + channel_num) priority p in
  let p := irq_register (IRQN_DMA0_INTERRUPT + channel_num) dmac_irq_callback_fn
             (Some (dmac_context_ptr channel_num)) p in
  Ok (d, irq_enable (IRQN_DMA0_INTERRUPT + channel_num) p).
Definition dmac_irq_unregister (channel_num : Z) (d : dmac_t) (p : P) : res (dmac_t * P) :=
  if negb ((0 <=? channel_num) && (channel_num <? 6)) then Fault FUB else
  let d := Dmac d.(dregs)
    (<[channel_num := DmacContext (d.(dmac_context) channel_num).(dmac_channel) None None]> d.(dmac_context)) in
  let d := Dmac (dmac_disable_channel_interrupt latch channel_num d.(dregs)) d.(dmac_context) in
  Ok (d, irq_unregister (IRQN_DMA0_INTERRUPT + channel_num) p).
End irq.
Arguments dmac_context_t : clear implicits.
Arguments dmac_t : clear implicits.

(** A callback that is registered for a channel is what its interrupt runs: the line is
    on with the handler of the driver, the lines of other devices keep theirs, and whenever
    that line fires, as long as the channel is not registered again, the interrupt of this
    channel and no other is acknowledged and the callback is called once, with the context
    it was registered with.  Unregistering takes the line away and masks the channel. *)
Theorem dmac_irq_dispatch {F U P W} `{IrqController P dmac_fn dmac_ptr} latch
    (call : F → option U → dmac_t F U * W → dmac_t F U * W) c f u prio d p : 0 ≤ c < 6 →
  ∃ d' p', dmac_irq_register latch c (Some f) u prio d p = Ok (d', p') ∧
    irq_handler p' (IRQN_DMA0_INTERRUPT + c) = Some (dmac_irq_callback_fn, Some (dmac_context_ptr c)) ∧
    irq_enabled p' (IRQN_DMA0_INTERRUPT + c) = true ∧
    (∀ j, j ≠ IRQN_DMA0_INTERRUPT + c → irq_handler p' j = irq_handler p j) ∧
    d'.(dregs) (channel c intstatus_en) = 2 ∧
    (∀ d1 w, d1.(dmac_context) c = d'.(dmac_context) c →
      dmac_irq_callback latch call (dmac_context_ptr c) (d1, w) =
      (0, call f u (Dmac (<[channel c intclear := 0xffffffff]> d1.(dregs)) d1.(dmac_context), w))) ∧
    ∃ d2 p2, dmac_irq_unregister latch c d' p' = Ok (d2, p2) ∧
      irq_handler p2 (IRQN_DMA0_INTERRUPT + c) = None ∧ d2.(dregs) (channel c intstatus_en) = 0.
Proof.
  intros Hc. unfold dmac_irq_register. rewrite (proj2 (Z.leb_le 0 c)), (proj2 (Z.ltb_lt c 6)) by lia. cbn [andb negb].
  eexists _, _. split; [done|]. split; [|split; [|split; [|split; [|split]]]].
  - by rewrite irq_handler_enable, irq_handler_register, decide_True.
  - apply irq_enabled_enable. unfold IRQN_DMA0_INTERRUPT, IRQN_MAX. lia.
  - intros j Hj. by rewrite irq_handler_enable, irq_handler_register, decide_False, irq_handler_priority by done.
  - cbn [dregs]. unfold dmac_enable_channel_interrupt. by rewrite writeq_eq by done.
  - intros d1 w E. unfold dmac_irq_callback. rewrite E. cbn [dmac_context]. rewrite fn_lookup_insert. done.
  - unfold dmac_irq_unregister. rewrite (proj2 (Z.leb_le 0 c)), (proj2 (Z.ltb_lt c 6)) by lia. cbn [andb negb].
    eexists _, _. split; [done|]. split; [by rewrite irq_handler_unregister, decide_True|].
    cbn [dregs]. unfold dmac_disable_channel_interrupt. by rewrite writeq_eq by done.
Qed.
#[local] Instance demo_dma_controller : IrqController (plic_t dmac_fn dmac_ptr) dmac_fn dmac_ptr := plic_controller 0.
Lemma dmac_irq_dispatch_witness : ∃ (d' : dmac_t nat nat) p',
  dmac_irq_register demo_latch 5 (Some 7%nat) (Some 8%nat) 1 (Dmac demo_dmac (λ _, DmacContext 0 None None))
    (Plic (λ _, 0) (λ _, no_instance) true) = Ok (d', p') ∧
  irq_handler p' 32 = Some (dmac_irq_callback_fn, Some (dmac_context_ptr 5)).
Proof.
  destruct (dmac_irq_dispatch demo_latch (λ f u (s : dmac_t nat nat * nat), s) 5 7%nat (Some 8%nat) 1
    (Dmac demo_dmac (λ _, DmacContext 0 None None)) (Plic (λ _, 0) (λ _, no_instance) true))
    as (d' & p' & E & Hh & _); [lia|]. exists d', p'. split; [exact E|exact Hh].
Defined.
