(* ===== verification/DmaService.v ===== *)
(** * What the clients of the DMA controller rely on

    Drivers that move their data by DMA register a callback for a channel and start single
    transfers on it.  [DmaService] states what they need of that; the driver of the DMA
    controller ([Dmac]) over an interrupt controller ([IrqController]) keeps it, on hardware
    whose channels stop soon after they are told to. *)

From S2P Require Import Prelude SysctlRegs Sysctl Plic Dmac.

Record dma_request := DmaRequest {
  rq_src : Z; rq_dst : Z; rq_src_inc : Z; rq_dest_inc : Z; rq_burst : Z; rq_width : Z; rq_count : Z
}.
(** The arguments of [dmac_set_single_mode] in their ranges *)
Definition request_ok (r : dma_request) : Prop :=
  in_width 1 r.(rq_src_inc) ∧ in_width 1 r.(rq_dest_inc) ∧ in_width 4 r.(rq_burst) ∧ in_width 3 r.(rq_width) ∧ 1 ≤ r.(rq_count) < 2 ^ 32.

(** [ds_callback d c] is what the interrupt of channel [c] calls, [ds_request d c] the
    transfer that the channel was started with, as long as it runs. *)
Class DmaService (D F : Type) := {
  ds_register : Z → F → Z → Z → D → res D;
  ds_single : Z → dma_request → D → res D;
  ds_intclear : Z → D → D;
  ds_callback : D → Z → option (F * Z);
  ds_request : D → Z → option dma_request;
  ds_ok : D → Prop;
  ds_register_ok c f u prio d : 0 ≤ c < 6 → ds_ok d → ∃ d', ds_register c f u prio d = Ok d' ∧ ds_ok d' ∧
    ds_callback d' c = Some (f, u) ∧ (∀ j, 0 ≤ j < 6 → j ≠ c → ds_callback d' j = ds_callback d j) ∧
    ∀ j, 0 ≤ j < 6 → ds_request d' j = ds_request d j;
  ds_single_ok c r d : 0 ≤ c < 6 → request_ok r → ds_ok d → ∃ d', ds_single c r d = Ok d' ∧ ds_ok d' ∧
    ds_request d' c = Some r ∧ (∀ j, 0 ≤ j < 6 → ds_callback d' j = ds_callback d j) ∧
    ∀ j, 0 ≤ j < 6 → j ≠ c → ds_request d j = None → ds_request d' j = None;
  ds_intclear_ok c d : 0 ≤ c < 6 → ds_ok d → ds_ok (ds_intclear c d) ∧
    ∀ j, 0 ≤ j < 6 → ds_callback (ds_intclear c d) j = ds_callback d j ∧ ds_request (ds_intclear c d) j = ds_request d j
}.

(** ** The service of [Dmac] *)
Section dmac_service.
Context {F P : Type} `{IrqController P dmac_fn dmac_ptr} (latch : Z → Z → Z) (step : dmac_bank → dmac_bank) (fuel : nat).
(** A channel that is told to stop has stopped before the driver loses patience. *)
Class DmacStops := {
  stops c b : 0 ≤ c < 6 → ∃ n, (n ≤ fuel)%nat ∧
    en c (Nat.iter (S n) step (dmac_channel_disable latch step c (dmac_channel_interrupt_clear latch c b)) chen) = false
}.
Abbreviation service := (dmac_t F Z * P)%type.
Definition sv_register (c : Z) (f : F) (u prio : Z) (s : service) : res service :=
  dmac_irq_register latch c (Some f) (Some u) prio (fst s) (snd s).
Definition on_bank (g : dmac_bank → res dmac_bank) (s : service) : res service :=
  b ← g (fst s).(dregs); Ok (Dmac b (fst s).(dmac_context), snd s).
Definition sv_single (c : Z) (r : dma_request) : service → res service :=
  on_bank (dmac_set_single_mode latch step fuel c r.(rq_src) r.(rq_dst) r.(rq_src_inc) r.(rq_dest_inc)
    r.(rq_burst) r.(rq_width) r.(rq_count)).
Definition sv_intclear (c : Z) (s : service) : service :=
  (Dmac (writeq latch 0xFFFFFFFF (channel c intclear) (fst s).(dregs)) (fst s).(dmac_context), snd s).
Definition sv_callback (s : service) (c : Z) : option (F * Z) :=
  '(_, x) ← irq_handler (snd s) (IRQN_DMA0_INTERRUPT + c);
  x ← x;
  let '(dmac_context_ptr n) := x in
  f ← ((fst s).(dmac_context) n).(dcallback); u ← ((fst s).(dmac_context) n).(dctx); Some (f, u).
Definition sv_request (s : service) (c : Z) : option dma_request :=
  let b := (fst s).(dregs) in
  if en c (b chen) then
    Some (DmaRequest (b (channel c sar)) (b (channel c dar)) (bf_get ch_ctl_sinc (b (channel c ctl))) (bf_get ch_ctl_dinc (b (channel c ctl)))
      (bf_get ch_ctl_src_msize (b (channel c ctl))) (bf_get ch_ctl_src_tr_width (b (channel c ctl))) (b (channel c block_ts) + 1))
  else None.
Definition sv_ok (s : service) : Prop := we_clear ((fst s).(dregs) chen) ∧
  ∀ j, 0 ≤ j < 6 → ∀ x y, irq_handler (snd s) (IRQN_DMA0_INTERRUPT + j) = Some (x, Some y) → y = dmac_context_ptr j.
Context `{!DmacHw latch step} `{!DmacStops}.
Lemma request_same (s s' : service) j : (fst s').(dregs) chen = (fst s).(dregs) chen →
  (∀ r, r ∈ [sar; dar; ctl; block_ts] → (fst s').(dregs) (channel j r) = (fst s).(dregs) (channel j r)) → sv_request s' j = sv_request s j.
Proof. intros Ec Er. unfold sv_request. rewrite Ec, !Er by set_solver. done. Qed.
Lemma sv_register_ok c f u prio s : 0 ≤ c < 6 → sv_ok s → ∃ s', sv_register c f u prio s = Ok s' ∧ sv_ok s' ∧
    sv_callback s' c = Some (f, u) ∧ (∀ j, 0 ≤ j < 6 → j ≠ c → sv_callback s' j = sv_callback s j) ∧
    ∀ j, 0 ≤ j < 6 → sv_request s' j = sv_request s j.
Proof.
  intros Hc [Hw Hctx]. unfold sv_register, dmac_irq_register.
  rewrite (proj2 (Z.leb_le 0 c)), (proj2 (Z.ltb_lt c 6)) by lia. cbn [andb negb].
  eexists. split; [done|]. unfold dmac_enable_channel_interrupt.
  assert (Hh : ∀ j, irq_handler (irq_enable (IRQN_DMA0_INTERRUPT + c) (irq_register (IRQN_DMA0_INTERRUPT + c) dmac_irq_callback_fn
      (Some (dmac_context_ptr c)) (irq_set_priority (IRQN_DMA0_INTERRUPT + c) prio (snd s)))) (IRQN_DMA0_INTERRUPT + j) =
    if decide (c = j) then Some (dmac_irq_callback_fn, Some (dmac_context_ptr c)) else irq_handler (snd s) (IRQN_DMA0_INTERRUPT + j)).
  { intros j. rewrite irq_handler_enable, irq_handler_register, irq_handler_priority. repeat case_decide; try done; lia. }
  split; [split|split; [|split]]; cbn [fst snd dregs dmac_context].
  - by rewrite !writeq_ne by done.
  - intros j Hj x y. rewrite Hh. case_decide; [by intros [= <- <-]; subst|]. by apply Hctx.
  - unfold sv_callback. cbn [fst snd dmac_context]. rewrite Hh, decide_True by done. cbn. by rewrite fn_lookup_insert.
  - intros j Hj Hne. unfold sv_callback. cbn [fst snd dmac_context]. rewrite Hh, decide_False by done.
    destruct (irq_handler (snd s) (IRQN_DMA0_INTERRUPT + j)) as [[x [y|]]|] eqn:Ej; [|done|done].
    rewrite (Hctx j Hj x y Ej). cbn. by rewrite fn_lookup_insert_ne.
  - intros j Hj. apply request_same; cbn [fst dregs]; [by rewrite !writeq_ne by done|].
    intros r Hr. rewrite !writeq_ne by (intros [= ??]; subst; set_solver). done.
Qed.
Lemma sv_single_ok c r s : 0 ≤ c < 6 → request_ok r → sv_ok s → ∃ s', sv_single c r s = Ok s' ∧ sv_ok s' ∧
    sv_request s' c = Some r ∧ (∀ j, 0 ≤ j < 6 → sv_callback s' j = sv_callback s j) ∧
    ∀ j, 0 ≤ j < 6 → j ≠ c → sv_request s j = None → sv_request s' j = None.
Proof.
  intros Hc (Hsi & Hdi & Hb & Hw & Hn) [Hwe Hctx]. unfold sv_single, on_bank.
  destruct (stops c (fst s).(dregs) Hc) as (n & Hle & Hoff).
  destruct (dmac_set_single_mode_run fuel n c r.(rq_src) r.(rq_dst) r.(rq_src_inc) r.(rq_dest_inc) r.(rq_burst) r.(rq_width) r.(rq_count)
    (fst s).(dregs) Hc Hle Hoff) as (b' & -> & Hu & He & Hp). cbn [mbind res_bind].
  destruct (Hu Hwe) as [Hwe' Ho]. eexists. split; [done|]. split; [split; [done|exact Hctx]|]. split; [|split; [done|]].
  - unfold sv_request. cbn [fst dregs]. rewrite He. destruct Hp as [-> -> Hbt _ _ _ _ _ _ _ -> -> -> _ -> _].
    rewrite Hbt, !wrap_id by (rewrite ?wrap_id; lia). destruct r; cbn. f_equal. f_equal. lia.
  - intros j Hj Hne. unfold sv_request. cbn [fst dregs]. destruct (Ho j Hj Hne) as [Hstart _].
    destruct (en j (b' chen)) eqn:Ej; [by rewrite Hstart|done].
Qed.
Lemma sv_intclear_ok c s : 0 ≤ c < 6 → sv_ok s → sv_ok (sv_intclear c s) ∧
    ∀ j, 0 ≤ j < 6 → sv_callback (sv_intclear c s) j = sv_callback s j ∧ sv_request (sv_intclear c s) j = sv_request s j.
Proof.
  intros Hc [Hw Hctx]. split; [split; [|exact Hctx]|]; cbn; [by rewrite writeq_ne by done|].
  intros j Hj. split; [done|]. apply request_same; cbn; [by rewrite writeq_ne by done|].
  intros r Hr. rewrite writeq_ne by (intros [= ??]; subst; set_solver). done.
Qed.
#[export] Instance dmac_service : DmaService service F := {
  ds_register := sv_register; ds_single := sv_single; ds_intclear := sv_intclear;
  ds_callback := sv_callback; ds_request := sv_request; ds_ok := sv_ok;
  ds_register_ok := sv_register_ok; ds_single_ok := sv_single_ok; ds_intclear_ok := sv_intclear_ok
}.
End dmac_service.

#[export] Instance demo_stops : DmacStops demo_latch demo_step 0.
Proof. constructor. intros c b Hc. exists O. split; [lia|]. unfold demo_step. cbn. rewrite fn_lookup_insert. apply Z.bits_0. Qed.
