(* ===== verification/HalDma.v ===== *)
(** * DMA channels lent out (k210-hal-dma.c)

    Four of the six channels of the controller are lent to clients; the other two
    belong to the flash. *)

From S2P Require Import Prelude Dmac.
From stdpp Require Import list.
#[local] Open Scope Z_scope.

(** [struct dma_chn_info_t]: in use or not, and the channel *)
Record dma_chn_info_t := ChnInfo { chn_sts : Z; chn : Z }.
Definition dma_chn_info_init : list dma_chn_info_t := [ChnInfo 0 0; ChnInfo 0 1; ChnInfo 0 2; ChnInfo 0 3].
Definition hal_dma_get_free_chn (info : list dma_chn_info_t) : Z * list dma_chn_info_t :=
  match list_find (λ e, e.(chn_sts) = 0x00) info with
  | Some (i, e) => (e.(chn), <[i := ChnInfo 1 e.(chn)]> info)
  | None => (DMAC_CHANNEL_MAX, info)
  end.
Definition hal_dma_releas_chn (c : Z) (info : list dma_chn_info_t) : list dma_chn_info_t :=
  if Z.of_nat (length info) <=? c then info else
  match list_find (λ e, c = e.(chn)) info with
  | Some (i, e) => <[i := ChnInfo 0 e.(chn)]> info
  | None => info
  end.

(** ** Clients

    A system of clients: who holds which channel.  A client that gets a channel holds
    it, one that is refused goes on without, and clients give back what they hold. *)
Section clients.
Context {C : Type}.
Record lending := Lending { info : list dma_chn_info_t; held : list (C * Z) }.
Inductive lend_step : lending → lending → Prop :=
| lend_get t h t' c n : hal_dma_get_free_chn t = (n, t') → n ≠ DMAC_CHANNEL_MAX →
    lend_step (Lending t h) (Lending t' ((c, n) :: h))
| lend_refused t h t' : hal_dma_get_free_chn t = (DMAC_CHANNEL_MAX, t') →
    lend_step (Lending t h) (Lending t' h)
| lend_release t h1 c n h2 :
    lend_step (Lending t (h1 ++ (c, n) :: h2)) (Lending (hal_dma_releas_chn n t) (h1 ++ h2)).
Definition lend_init : lending := Lending dma_chn_info_init [].

(** The table marks exactly the channels that are held, each by one client. *)
Record lend_inv (s : lending) : Prop := {
  li_chn : chn <$> s.(info) = seqZ 0 4;
  li_held : NoDup (snd <$> s.(held));
  li_range n : n ∈ snd <$> s.(held) → 0 ≤ n < 4;
  li_marked (i : nat) e : s.(info) !! i = Some e → (e.(chn_sts) ≠ 0 ↔ Z.of_nat i ∈ snd <$> s.(held))
}.
Implicit Types s : lending.

Lemma info_chn s i e : lend_inv s → s.(info) !! i = Some e → e.(chn) = Z.of_nat i ∧ (i < 4)%nat.
Proof.
  intros Hs Hi. assert (E : (chn <$> s.(info)) !! i = Some e.(chn)) by (by rewrite list_lookup_fmap, Hi).
  rewrite (li_chn _ Hs) in E. apply lookup_seqZ in E. lia.
Qed.
Lemma info_length s : lend_inv s → length s.(info) = 4%nat.
Proof. intros Hs. by rewrite <-(length_fmap chn), (li_chn _ Hs). Qed.
Lemma get_free_spec s n t' : lend_inv s → hal_dma_get_free_chn s.(info) = (n, t') →
  (n = DMAC_CHANNEL_MAX ∧ t' = s.(info) ∧ ∀ m, 0 ≤ m < 4 → m ∈ snd <$> s.(held)) ∨
  (0 ≤ n < 4 ∧ n ∉ snd <$> s.(held) ∧ t' = <[Z.to_nat n := ChnInfo 1 n]> s.(info) ∧
   ∀ m, 0 ≤ m < n → m ∈ snd <$> s.(held)).
Proof.
  intros Hs. unfold hal_dma_get_free_chn. destruct (list_find _ _) as [[i e]|] eqn:F; intros [= <- <-].
  - right. apply list_find_Some in F as (Hi & He & Hfirst). destruct (info_chn _ _ _ Hs Hi) as [-> Hlt].
    split; [lia|]. split; [|split; [by rewrite Nat2Z.id|]].
    + intros Hin. by apply (li_marked _ Hs i e Hi) in Hin.
    + intros m Hm. destruct (lookup_lt_is_Some_2 s.(info) (Z.to_nat m)) as [e' He']; [rewrite (info_length s Hs); lia|].
      rewrite <-(Z2Nat.id m) by lia. apply (li_marked _ Hs _ e' He'). apply (Hfirst _ _ He'). lia.
  - left. split; [done|]. split; [done|]. intros m Hm. apply list_find_None in F. rewrite Forall_forall in F.
    destruct (lookup_lt_is_Some_2 s.(info) (Z.to_nat m)) as [e' He']; [rewrite (info_length s Hs); lia|].
    rewrite <-(Z2Nat.id m) by lia. apply (li_marked _ Hs _ e' He'). apply F. by eapply list_elem_of_lookup_2.
Qed.
(** Marking an entry *)
Lemma insert_chn s (n v : Z) : lend_inv s → 0 ≤ n < 4 → chn <$> <[Z.to_nat n := ChnInfo v n]> s.(info) = seqZ 0 4.
Proof.
  intros Hs Hn. rewrite list_fmap_insert, (li_chn _ Hs). cbn [chn]. apply list_insert_id.
  apply lookup_seqZ. lia.
Qed.
Lemma releas_chn_eq s n : lend_inv s → 0 ≤ n < 4 →
  hal_dma_releas_chn n s.(info) = <[Z.to_nat n := ChnInfo 0 n]> s.(info).
Proof.
  intros Hs Hn. unfold hal_dma_releas_chn. rewrite (info_length s Hs), (proj2 (Z.leb_gt _ _)) by lia.
  destruct (lookup_lt_is_Some_2 s.(info) (Z.to_nat n)) as [e He]; [rewrite (info_length s Hs); lia|].
  destruct (info_chn _ _ _ Hs He) as [Hc _]. destruct (list_find _ _) as [[i e']|] eqn:F.
  - apply list_find_Some in F as (Hi & -> & _). destruct (info_chn _ _ _ Hs Hi) as [E _].
    f_equal. rewrite E. by rewrite Nat2Z.id.
  - apply list_find_None in F. rewrite Forall_forall in F. destruct (F e); [by eapply list_elem_of_lookup_2|lia].
Qed.
Lemma lend_init_inv : lend_inv lend_init.
Proof.
  split; cbn; [done|apply NoDup_nil_2|intros n Hn; by apply elem_of_nil in Hn|].
  intros i e Hi. split; [|intros Hn; by apply elem_of_nil in Hn].
  intros He. destruct He. apply list_elem_of_lookup_2 in Hi. unfold dma_chn_info_init in Hi. set_solver.
Qed.
Lemma lend_step_inv s s' : lend_inv s → lend_step s s' → lend_inv s'.
Proof.
  intros Hs Hst. destruct Hst as [t h t' c n G Hn|t h t' G|t h1 c n h2].
  - destruct (get_free_spec _ _ _ Hs G) as [(-> & _)|(Hr & Hnot & -> & _)]; [done|]. cbn [info held] in *. split; cbn.
    + by apply (insert_chn (Lending t h)).
    + apply NoDup_cons. split; [done|]. apply Hs.
    + intros m [->|Hm]%elem_of_cons; [done|]. by apply (li_range _ Hs).
    + intros i e [(<- & <- & _)|[Hne Hi]]%list_lookup_insert_Some.
      * rewrite Z2Nat.id by lia. cbn. set_solver.
      * rewrite (li_marked _ Hs i e Hi). cbn [held]. rewrite elem_of_cons.
        assert (Z.of_nat i ≠ n) by lia. naive_solver.
  - destruct (get_free_spec _ _ _ Hs G) as [(_ & -> & _)|(Hr & _)]; [done|]. unfold DMAC_CHANNEL_MAX in Hr. lia.
  - pose proof (li_held _ Hs) as Hnd. cbn [held] in Hnd. rewrite fmap_app, fmap_cons in Hnd. cbn [snd] in Hnd.
    assert (Hr : 0 ≤ n < 4) by (apply (li_range _ Hs); cbn [held]; rewrite fmap_app, fmap_cons; apply elem_of_app; right; left).
    assert (Hperm : (snd <$> h1) ++ n :: (snd <$> h2) ≡ₚ n :: (snd <$> h1) ++ (snd <$> h2)) by (symmetry; apply Permutation_middle).
    rewrite Hperm, NoDup_cons, <-fmap_app in Hnd. destruct Hnd as [Hout Hnd].
    rewrite (releas_chn_eq (Lending t (h1 ++ (c, n) :: h2))) by done. split; cbn [info held].
    + by apply (insert_chn (Lending t (h1 ++ (c, n) :: h2))).
    + done.
    + intros m Hm. apply (li_range _ Hs). cbn [held]. rewrite fmap_app, fmap_cons. rewrite fmap_app in Hm. set_solver.
    + intros i e [(<- & <- & _)|[Hne Hi]]%list_lookup_insert_Some.
      * rewrite Z2Nat.id by lia. cbn. naive_solver.
      * rewrite (li_marked _ Hs i e Hi). cbn [held]. assert (Z.of_nat i ≠ n) by lia. set_solver.
Qed.
Lemma lend_reachable_inv s : rtc lend_step lend_init s → lend_inv s.
Proof. apply (rtc_ind_r lend_inv); [apply lend_init_inv|]. intros y z _ Hst Hy. by eapply lend_step_inv. Qed.
End clients.
Arguments lending : clear implicits.

(** However clients take and give back DMA channels, no channel is held by two of them
    and the two channels of the flash are never lent; a client is refused only when all
    four channels are held, and otherwise gets the lowest free one. *)
Theorem hal_dma_exclusive {C} (s : lending C) : rtc lend_step lend_init s →
  (∀ i j a b n, s.(held) !! i = Some (a, n) → s.(held) !! j = Some (b, n) → i = j) ∧
  (∀ a n, (a, n) ∈ s.(held) → 0 ≤ n < 4) ∧
  let '(n, t') := hal_dma_get_free_chn s.(info) in
  (n = DMAC_CHANNEL_MAX ↔ length s.(held) = 4%nat) ∧
  (n ≠ DMAC_CHANNEL_MAX → n ∉ snd <$> s.(held) ∧ ∀ m, 0 ≤ m < n → m ∈ snd <$> s.(held)).
Proof.
  intros Hs%lend_reachable_inv. split; [|split].
  - intros i j a b n Hi Hj. apply (NoDup_lookup (snd <$> s.(held)) i j n (li_held _ Hs));
      rewrite list_lookup_fmap; [by rewrite Hi|by rewrite Hj].
  - intros a n Hin. apply (li_range _ Hs). apply (list_elem_of_fmap_2 snd _ _ Hin).
  - destruct (hal_dma_get_free_chn s.(info)) as [n t'] eqn:G.
    assert (Hsub : snd <$> s.(held) ⊆+ seqZ 0 4).
    { apply NoDup_submseteq; [apply Hs|]. intros m Hm%(li_range _ Hs). apply elem_of_seqZ. lia. }
    destruct (get_free_spec _ _ _ Hs G) as [(-> & _ & Hall)|(Hr & Hnot & _ & Hlow)].
    + split; [|done]. split; [|done]. intros _. rewrite <-(length_fmap snd). apply Nat.le_antisymm.
      * by apply submseteq_length in Hsub.
      * apply (submseteq_length (seqZ 0 4)), NoDup_submseteq; [apply NoDup_seqZ|].
        intros m Hm%elem_of_seqZ. apply Hall. lia.
    + split; [|done]. split; [unfold DMAC_CHANNEL_MAX; lia|]. intros Hlen. exfalso. apply Hnot.
      assert (Hp : snd <$> s.(held) ≡ₚ seqZ 0 4) by (apply submseteq_length_Permutation; [done|by rewrite length_fmap, Hlen]).
      rewrite Hp. apply elem_of_seqZ. lia.
Qed.
Lemma hal_dma_exclusive_witness :
  fst (hal_dma_get_free_chn [ChnInfo 1 0; ChnInfo 1 1; ChnInfo 0 2; ChnInfo 0 3]) = DMAC_CHANNEL_MAX ↔ 2%nat = 4%nat.
Proof.
  apply (hal_dma_exclusive (Lending [ChnInfo 1 0; ChnInfo 1 1; ChnInfo 0 2; ChnInfo 0 3] [(2%nat, 1); (1%nat, 0)])).
  eapply rtc_l; [apply (lend_get _ [] [ChnInfo 1 0; ChnInfo 0 1; ChnInfo 0 2; ChnInfo 0 3] 1%nat 0); [reflexivity|discriminate]|].
  eapply rtc_l; [|apply rtc_refl].
  apply (lend_get _ _ [ChnInfo 1 0; ChnInfo 1 1; ChnInfo 0 2; ChnInfo 0 3] 2%nat 1); [reflexivity|discriminate].
Defined.
