(* ===== verification/Wdt.v ===== *)
(** * Watchdogs (k210_wdt.c)

    Two devices.  A watchdog counts down from a power of two of its clock; the driver
    picks the power from a time in milliseconds.  [log2] of the C library, truncated to
    an integer, is [Z.log2]: the arguments for which the rounding of the library
    function could matter are far above the largest value that is used. *)

From S2P Require Import Prelude SysctlRegs Sysctl SysctlClock Plic.

Definition WDT_CR_ENABLE : Z := 0x1.
Definition WDT_CR_RMOD_MASK : Z := 0x2.
Definition WDT_CR_RMOD_INTERRUPT : Z := 0x2.
Definition WDT_TORR_TOP (x : Z) : Z := Z.lor (Z.shiftl x 4) (Z.shiftl x 0).
Definition WDT_CRR_MASK : Z := 0x76.
Definition IRQN_WDT0_INTERRUPT : Z := 21.
Definition IRQN_WDT1_INTERRUPT : Z := 22.
(** [wdt[id]->cr] and so on *)
Inductive wdt_reg : Set := CR (id : Z) | TORR (id : Z) | CRR (id : Z) | EOI (id : Z).
#[export] Instance wdt_reg_eq_dec : EqDecision wdt_reg.
Proof. solve_decision. Defined.

Definition wdt_enable (id : Z) (b : bank wdt_reg) : bank wdt_reg :=
  let b := <[CRR id := WDT_CRR_MASK]> b in
  <[CR id := Z.lor (b (CR id)) WDT_CR_ENABLE]> b.
Definition wdt_disable (id : Z) (b : bank wdt_reg) : bank wdt_reg :=
  let b := <[CRR id := WDT_CRR_MASK]> b in
  <[CR id := Z.ldiff (b (CR id)) WDT_CR_ENABLE]> b.
Definition wdt_set_timeout (id timeout : Z) (b : bank wdt_reg) : bank wdt_reg :=
  <[TORR id := WDT_TORR_TOP timeout]> b.
Definition wdt_response_mode (id mode : Z) (b : bank wdt_reg) : bank wdt_reg :=
  let b := <[CR id := Z.ldiff (b (CR id)) WDT_CR_RMOD_MASK]> b in
  <[CR id := Z.lor (b (CR id)) mode]> b.
Definition wdt_feed (id : Z) (b : bank wdt_reg) : bank wdt_reg := <[CRR id := WDT_CRR_MASK]> b.
Definition wdt_clear_interrupt (id : Z) (b : bank wdt_reg) : bank wdt_reg := <[EOI id := b (EOI id)]> b.
Definition wdt_stop (id : Z) (b : bank wdt_reg) : bank wdt_reg := wdt_disable id b.

(** [id ? x : y] *)
Definition by_id {A} (id : Z) (x y : A) : A := if id =? 0 then y else x.
Definition wdt_get_pclk (id : Z) (s : bank sysctl_reg) : res Z :=
  sysctl_clock_get_freq (sysctl_clock_to_Z (by_id id SYSCTL_CLOCK_WDT1 SYSCTL_CLOCK_WDT0)) s.
Definition wdt_get_top (id timeout_ms : Z) (s : bank sysctl_reg) : res Z :=
  wdt_clk ← wdt_get_pclk id s;
  let ret := Z.shiftr (u64 (timeout_ms * wdt_clk) / 1000) 16 in
  let ret := if ret =? 0 then ret else u32 (Z.log2 ret) in
  let ret := if 0xf <? ret then 0xf else ret in
  Ok (u8 ret).

(** [wdt_start] and [wdt_init] have the same body up to the result; the context of the
    former is [NULL]. *)
Section start.
Context {H X P : Type} `{IrqController P H X}.
Record wdt_sys := WdtSys { wregs : bank wdt_reg; wsysctl : bank sysctl_reg; wplic : P }.
Definition wdt_clock_on (id : Z) (s : bank sysctl_reg) : bank sysctl_reg :=
  let s := sysctl_reset (sysctl_reset_id_to_Z (by_id id SYSCTL_RESET_WDT1 SYSCTL_RESET_WDT0)) s in
  let '(_, s) := sysctl_clock_set_threshold (sysctl_threshold_to_Z (by_id id SYSCTL_THRESHOLD_WDT1 SYSCTL_THRESHOLD_WDT0)) 0 s in
  snd (sysctl_clock_enable (sysctl_clock_to_Z (by_id id SYSCTL_CLOCK_WDT1 SYSCTL_CLOCK_WDT0)) s).
Definition wdt_irq_on (id : Z) (on_irq : H) (ctx : option X) (p : P) : P :=
  let irq := by_id id IRQN_WDT1_INTERRUPT IRQN_WDT0_INTERRUPT in
  irq_register irq on_irq ctx (irq_enable irq (irq_set_priority irq 1 p)).
Definition wdt_run (id time_out_ms : Z) (on_irq : H) (ctx : option X) (w : wdt_sys) : res (Z * wdt_sys) :=
  let s := wdt_clock_on id w.(wsysctl) in
  let p := wdt_irq_on id on_irq ctx w.(wplic) in
  let b := wdt_response_mode id WDT_CR_RMOD_INTERRUPT w.(wregs) in
  m_top ← wdt_get_top id time_out_ms s;
  let b := wdt_set_timeout id m_top b in
  let b := wdt_enable id b in
  Ok (m_top, WdtSys b s p).
Definition wdt_start (id time_out_ms : Z) (on_irq : H) (w : wdt_sys) : res wdt_sys :=
  '(_, w) ← wdt_run id time_out_ms on_irq None w; Ok w.
Definition wdt_init (id time_out_ms : Z) (on_irq : H) (ctx : option X) (w : wdt_sys) : res (Z * wdt_sys) :=
  '(m_top, w) ← wdt_run id time_out_ms on_irq ctx w;
  clk ← wdt_get_pclk id w.(wsysctl);
  if clk =? 0 then Fault FUB else
  Ok (u32 (u64 (u64 (Z.shiftl 1 (m_top + 16 + 1)) * 1000) / clk), w).
End start.
Arguments wdt_sys : clear implicits.

(** ** Lemmas *)
(** The clock of a watchdog that was started: 26 MHz by two *)
Definition wdt_hz : Z := 13000000.
Lemma wdt_clock_on_pclk id s : wdt_get_pclk id (wdt_clock_on id s) = Ok wdt_hz.
Proof.
  unfold wdt_get_pclk, wdt_clock_on. rewrite sysctl_clock_set_threshold_eq.
  set (c := by_id id SYSCTL_CLOCK_WDT1 SYSCTL_CLOCK_WDT0).
  set (w := by_id id SYSCTL_THRESHOLD_WDT1 SYSCTL_THRESHOLD_WDT0).
  set (s' := snd _). assert (Hth : fget (threshold_field w) s' = 0).
  { unfold s'. rewrite sysctl_clock_enable_eq. cbn [snd].
    unfold c, w, by_id. destruct (id =? 0); cbn [clock_gate clock_bus gate_set threshold_field];
      rewrite !fget_fset_ne by field_dec; by rewrite fget_fset by field_dec. }
  assert (E : sysctl_clock_get_freq (sysctl_clock_to_Z c) s' =
    Ok (26000000 / ((fget (threshold_field w) s' + 1) * 2))); [|by rewrite E, Hth].
  unfold c, w, by_id. by destruct (id =? 0).
Qed.
Lemma wdt_clock_on_running id s :
  clock_running (by_id id SYSCTL_CLOCK_WDT1 SYSCTL_CLOCK_WDT0) (wdt_clock_on id s).
Proof. unfold wdt_clock_on. rewrite sysctl_clock_set_threshold_eq. apply clock_enable_running. Qed.

(** The power for a number of ticks *)
Definition wdt_top (ticks : Z) : Z := Z.min 15 (Z.log2 (ticks / 2 ^ 16)).
Lemma wdt_top_range t : 0 ≤ wdt_top t ≤ 15.
Proof. unfold wdt_top. pose proof (Z.log2_nonneg (t / 2 ^ 16)). lia. Qed.
Lemma wdt_get_top_run id ms s : 0 ≤ ms → ms * wdt_hz < 2 ^ 64 → wdt_get_pclk id s = Ok wdt_hz →
  wdt_get_top id ms s = Ok (wdt_top (ms * wdt_hz / 1000)).
Proof.
  intros Hms Hov E. unfold wdt_get_top. rewrite E. cbn [mbind res_bind].
  rewrite (wrap_id 64) by (unfold wdt_hz in *; lia). rewrite Z.shiftr_div_pow2 by lia. unfold wdt_top.
  set (q := ms * wdt_hz / 1000 / 2 ^ 16).
  assert (Hq : 0 ≤ q < 2 ^ 64).
  { unfold q. split; [repeat apply Z.div_pos; unfold wdt_hz in *; lia|].
    apply Z.div_lt_upper_bound; [lia|]. apply Z.div_lt_upper_bound; lia. }
  destruct (Z.eqb_spec q 0) as [Hz|Hz].
  { rewrite Hz. reflexivity. }
  assert (Z.log2 q < 64) by (apply Z.log2_lt_pow2; lia). pose proof (Z.log2_nonneg q).
  rewrite (wrap_id 32) by lia. destruct (Z.ltb_spec 0xf (Z.log2 q)).
  - rewrite Z.min_l by lia. reflexivity.
  - rewrite Z.min_r, wrap_id by lia. reflexivity.
Qed.
Lemma wdt_top_period t : 2 ^ 16 ≤ t < 2 ^ 32 → 2 ^ (16 + wdt_top t) ≤ t < 2 * 2 ^ (16 + wdt_top t).
Proof.
  intros Ht. unfold wdt_top. set (q := t / 2 ^ 16).
  assert (Hq : 1 ≤ q < 2 ^ 16).
  { unfold q. split; [by apply Z.div_le_lower_bound; lia|by apply Z.div_lt_upper_bound; lia]. }
  assert (Z.log2 q < 16) by (apply Z.log2_lt_pow2; lia). rewrite Z.min_r by lia.
  pose proof (Z.log2_spec q ltac:(lia)) as [H1 H2]. rewrite Z.pow_add_r by (try apply Z.log2_nonneg; lia).
  rewrite Z.pow_succ_r in H2 by apply Z.log2_nonneg.
  pose proof (Z.mul_div_le t (2 ^ 16) ltac:(lia)) as H3. pose proof (Z.mul_succ_div_gt t (2 ^ 16) ltac:(lia)) as H4.
  fold q in H3, H4. set (e := 2 ^ Z.log2 q) in *. lia.
Qed.
Lemma wdt_cr_bits x i : 0 ≤ i < 2 → Z.testbit (Z.lor (Z.lor (Z.ldiff x WDT_CR_RMOD_MASK) WDT_CR_RMOD_INTERRUPT) WDT_CR_ENABLE) i = true.
Proof. intros Hi. assert (i = 0 ∨ i = 1) as [-> | ->] by lia; rewrite !Z.lor_spec; cbn; by rewrite ?orb_true_r. Qed.
Lemma wdt_reported top : 0 ≤ top ≤ 15 →
  u32 (u64 (u64 (Z.shiftl 1 (top + 16 + 1)) * 1000) / wdt_hz) = 2 * 2 ^ (16 + top) * 1000 / wdt_hz.
Proof.
  intros Ht. rewrite Z.shiftl_mul_pow2 by lia. rewrite Z.mul_1_l.
  replace (top + 16 + 1) with (Z.succ (16 + top)) by lia. rewrite Z.pow_succ_r by lia.
  assert (0 < 2 ^ (16 + top) ≤ 2 ^ 31) by (split; [apply Z.pow_pos_nonneg; lia|apply Z.pow_le_mono_r; lia]).
  rewrite (wrap_id 64 (2 * _)) by lia. rewrite (wrap_id 64) by lia. apply wrap_id. split.
  - apply Z.div_pos; unfold wdt_hz; lia.
  - apply Z.div_lt_upper_bound; unfold wdt_hz; lia.
Qed.
Lemma wdt_enable_cr id top b i : 0 ≤ i < 2 →
  Z.testbit (wdt_enable id (wdt_set_timeout id top (wdt_response_mode id WDT_CR_RMOD_INTERRUPT b)) (CR id)) i = true.
Proof.
  intros Hi. unfold wdt_enable, wdt_set_timeout, wdt_response_mode.
  repeat first [rewrite fn_lookup_insert | rewrite fn_lookup_insert_ne by done]. by apply wdt_cr_bits.
Qed.
(** Twice the period in milliseconds against the time asked for *)
Lemma wdt_reported_bounds ms p : 0 ≤ ms → p ≤ ms * wdt_hz / 1000 < 2 * p →
  ms ≤ 2 * p * 1000 / wdt_hz ≤ 2 * ms.
Proof.
  intros Hms [H1 H2]. pose proof (Z.mul_div_le (ms * wdt_hz) 1000 ltac:(lia)).
  pose proof (Z.mul_succ_div_gt (ms * wdt_hz) 1000 ltac:(lia)).
  set (t := ms * wdt_hz / 1000) in *. unfold wdt_hz in *. split.
  - apply Z.div_le_lower_bound; lia.
  - apply Z.div_le_upper_bound; lia.
Qed.
Section spec.
Context {H X P : Type} `{IrqController P H X}.
Lemma wdt_init_run id ms (h : H) (x : option X) (w : wdt_sys P) : 0 ≤ ms → ms * wdt_hz < 2 ^ 64 →
  let top := wdt_top (ms * wdt_hz / 1000) in
  wdt_init id ms h x w = Ok (2 * 2 ^ (16 + top) * 1000 / wdt_hz,
    WdtSys (wdt_enable id (wdt_set_timeout id top (wdt_response_mode id WDT_CR_RMOD_INTERRUPT w.(wregs))))
      (wdt_clock_on id w.(wsysctl)) (wdt_irq_on id h x w.(wplic))).
Proof.
  intros Hms Hov top. unfold wdt_init, wdt_run. rewrite wdt_get_top_run by (done || apply wdt_clock_on_pclk).
  cbn [mbind res_bind wsysctl]. rewrite wdt_clock_on_pclk. cbn [mbind res_bind].
  change (wdt_hz =? 0) with false. cbn iota. by rewrite wdt_reported by apply wdt_top_range.
Qed.
Lemma wdt_irq_on_handler id (h : H) (x : option X) (p : P) : 0 ≤ id < 2 →
  irq_handler (wdt_irq_on id h x p) (IRQN_WDT0_INTERRUPT + id) = Some (h, x).
Proof.
  intros Hid. unfold wdt_irq_on. rewrite irq_handler_register. apply decide_True. unfold by_id.
  destruct (Z.eqb_spec id 0) as [->|]; [done|]. unfold IRQN_WDT0_INTERRUPT, IRQN_WDT1_INTERRUPT. lia.
Qed.
End spec.

(** Starting a watchdog leaves its clock running at 13 MHz, its interrupt line on with
    the callback, and the device enabled in interrupt mode.  Its period is the largest
    power of two of clock ticks that fits the time asked for (so the interrupt comes at
    most that late, and not before half of it), and the time reported, two periods, lies between
    the time asked for and its double; but times below 2^16 ticks (5 ms) get that
    period, and times from 2^32 ticks on (5.5 minutes) are cut to 2^31 without notice. *)
Theorem wdt_init_spec {H X P} `{IrqController P H X} id ms (h : H) (x : option X) (w : wdt_sys P) :
  0 ≤ id < 2 → 0 ≤ ms → ms * wdt_hz < 2 ^ 64 →
  ∃ ret w', wdt_init id ms h x w = Ok (ret, w') ∧
    clock_running (by_id id SYSCTL_CLOCK_WDT1 SYSCTL_CLOCK_WDT0) w'.(wsysctl) ∧
    wdt_get_pclk id w'.(wsysctl) = Ok wdt_hz ∧
    irq_handler w'.(wplic) (IRQN_WDT0_INTERRUPT + id) = Some (h, x) ∧
    (∀ i, 0 ≤ i < 2 → Z.testbit (w'.(wregs) (CR id)) i = true) ∧
    ∃ top, 0 ≤ top ≤ 15 ∧ w'.(wregs) (TORR id) = WDT_TORR_TOP top ∧
      let ticks := ms * wdt_hz / 1000 in
      let period := 2 ^ (16 + top) in
      (2 ^ 16 ≤ ticks < 2 ^ 32 → period ≤ ticks < 2 * period ∧ ms ≤ ret ≤ 2 * ms) ∧
      (ticks < 2 ^ 16 → period = 2 ^ 16) ∧ (2 ^ 32 ≤ ticks → period = 2 ^ 31 ∧ ret = 330382).
Proof.
  intros Hid Hms Hov. rewrite (wdt_init_run id ms h x w Hms Hov). set (ticks := ms * wdt_hz / 1000).
  eexists _, _. split; [done|]. cbn [wsysctl wplic wregs].
  split; [apply wdt_clock_on_running|]. split; [apply wdt_clock_on_pclk|]. split; [by apply wdt_irq_on_handler|].
  split; [apply wdt_enable_cr|]. exists (wdt_top ticks). split; [apply wdt_top_range|].
  split; [unfold wdt_enable, wdt_set_timeout; by rewrite fn_lookup_insert_ne, fn_lookup_insert_ne, fn_lookup_insert by done|].
  split; [|split].
  - intros Ht. pose proof (wdt_top_period ticks Ht) as Hp. split; [done|]. by apply wdt_reported_bounds.
  - intros Ht. assert (E : ticks / 2 ^ 16 = 0); [|unfold wdt_top; by rewrite E].
    apply Z.div_small. split; [|done]. unfold ticks. apply Z.div_pos; unfold wdt_hz; lia.
  - intros Ht. assert (E : wdt_top ticks = 15); [|by rewrite E]. unfold wdt_top. apply Z.min_l.
    apply Z.log2_le_pow2; [apply Z.div_str_pos; lia|]. apply Z.div_le_lower_bound; lia.
Qed.
#[local] Instance demo_wdt_controller : IrqController (plic_t nat nat) nat nat := plic_controller 0.
Lemma wdt_init_spec_witness : ∃ ret w',
  wdt_init 1 100 5%nat None (WdtSys (λ _, 0) (λ _, 0) (Plic (λ _, 0) (λ _, no_instance) true)) = Ok (ret, w') ∧
  100 ≤ ret ≤ 200.
Proof.
  destruct (wdt_init_spec 1 100 5%nat None (WdtSys (λ _, 0) (λ _, 0) (Plic (λ _, 0) (λ _, no_instance) true)))
    as (ret & w' & E & _ & _ & _ & _ & top & _ & _ & Hb & _); [lia|lia|unfold wdt_hz; lia|].
  exists ret, w'. split; [exact E|]. apply Hb. split; [discriminate|reflexivity].
Defined.
