(* ===== verification/I2c.v ===== *)
(** * I2C (k210_i2c.c)

    A device is its configuration registers and two FIFOs of eight entries, between the
    program and a bus.  [Fifo] models the FIFOs: commands that were written and wait for
    their turn, bytes that were received and wait to be read.  The hardware takes
    commands from the queue at its own pace, between the status reads of the driver; the
    parameter [step] is that pace, and what is at the other end of the bus
    ([slave_write], [slave_read]) is a parameter too. *)

From S2P Require Import Prelude SysctlRegs Sysctl SysctlClock Plic Dmac.

Definition I2C_MAX_NUM : Z := 3.
Definition I2C_CON_MASTER_MODE : Z := 0x1.
Definition I2C_CON_SPEED (x : Z) : Z := Z.shiftl x 1.
Definition I2C_CON_10BITADDR_SLAVE : Z := 0x8.
Definition I2C_CON_RESTART_EN : Z := 0x20.
Definition I2C_CON_SLAVE_DISABLE : Z := 0x40.
Definition I2C_CON_STOP_DET_IFADDRESSED : Z := 0x80.
Definition I2C_DATA_CMD_CMD : Z := 0x100.
Definition I2C_INTR_RX_FULL : Z := 0x4.
Definition I2C_INTR_RD_REQ : Z := 0x20.
Definition I2C_INTR_STOP_DET : Z := 0x200.
Definition I2C_INTR_START_DET : Z := 0x400.
Definition I2C_ENABLE_ENABLE : Z := 0x1.
Definition IRQN_I2C0_INTERRUPT : Z := 8.
Definition I2C_EV_START : Z := 0.
Definition I2C_EV_STOP : Z := 2.

(** ** Configuration *)
Inductive i2c_reg : Set :=
| con | tar | slave_addr | ss_scl_hcnt | ss_scl_lcnt | intr_mask | rx_tl | tx_tl | enable
| dma_cr | dma_tdlr | dma_rdlr.
#[export] Instance i2c_reg_eq_dec : EqDecision i2c_reg.
Proof. solve_decision. Defined.

Definition i2c_clk_init (i2c_num : Z) (s : bank sysctl_reg) : res (bank sysctl_reg) :=
  if negb (i2c_num <? I2C_MAX_NUM) then Fault FAssert else
  let '(_, s) := sysctl_clock_enable (sysctl_clock_to_Z SYSCTL_CLOCK_I2C0 + i2c_num) s in
  let '(_, s) := sysctl_clock_set_threshold (sysctl_threshold_to_Z SYSCTL_THRESHOLD_I2C0 + i2c_num) 3 s in
  Ok s.
(** The counts are the two phases of the bus clock.  [v_i2c_freq] is a [uint32_t],
    [v_period_clk_cnt] a [uint16_t]. *)
Definition i2c_init (i2c_num slave_address address_width i2c_clk : Z) (s : bank sysctl_reg) (r : bank i2c_reg)
  : res (bank sysctl_reg * bank i2c_reg) :=
  if negb (i2c_num <? I2C_MAX_NUM) then Fault FAssert else
  if negb ((address_width =? 7) || (address_width =? 10)) then Fault FAssert else
  s ← i2c_clk_init i2c_num s;
  f ← sysctl_clock_get_freq (sysctl_clock_to_Z SYSCTL_CLOCK_I2C0 + i2c_num) s;
  let v_i2c_freq := u32 f in
  if i2c_clk =? 0 then Fault FUB else
  let v_period_clk_cnt := u16 (v_i2c_freq / i2c_clk / 2) in
  let v_period_clk_cnt := if v_period_clk_cnt =? 0 then 1 else v_period_clk_cnt in
  let r := <[enable := 0]> r in
  let r := <[con := Z.lor (Z.lor (Z.lor (Z.lor I2C_CON_MASTER_MODE I2C_CON_SLAVE_DISABLE) I2C_CON_RESTART_EN)
                     (if address_width =? 10 then I2C_CON_10BITADDR_SLAVE else 0)) (I2C_CON_SPEED 1)]> r in
  let r := <[ss_scl_hcnt := v_period_clk_cnt]> r in
  let r := <[ss_scl_lcnt := v_period_clk_cnt]> r in
  let r := <[tar := slave_address]> r in
  let r := <[intr_mask := 0]> r in
  let r := <[dma_cr := 0x3]> r in
  let r := <[dma_rdlr := 0]> r in
  let r := <[dma_tdlr := 4]> r in
  Ok (s, <[enable := I2C_ENABLE_ENABLE]> r).

(** ** The FIFOs of a device *)
Module Fifo.
Section fifo.
Context {W : Type} (slave_write : Z → W → W) (slave_read : W → Z * W).
(** [txflr] and [rxflr] are the lengths of the queues; [active] is the activity bit of
    the status register. *)
Record dev := Dev { txf : list Z; rxf : list Z; tx_abrt_source : Z; active : bool; bus : W }.
Definition depth : nat := 8.
Definition txflr (d : dev) : Z := Z.of_nat (length d.(txf)).
Definition rxflr (d : dev) : Z := Z.of_nat (length d.(rxf)).
(** A write to or a read from [data_cmd]; a full or an empty queue is left as it is. *)
Definition put (c : Z) (d : dev) : dev :=
  if decide (length d.(txf) < depth)%nat
  then Dev (d.(txf) ++ [c]) d.(rxf) d.(tx_abrt_source) d.(active) d.(bus) else d.
Definition get (d : dev) : Z * dev :=
  match d.(rxf) with
  | [] => (0, d)
  | v :: q => (v, Dev d.(txf) q d.(tx_abrt_source) d.(active) d.(bus))
  end.
Definition clr_tx_abrt (d : dev) : dev := Dev d.(txf) d.(rxf) 0 d.(active) d.(bus).
(** The hardware takes the next command: a read brings a byte, which is lost when the
    receive queue is full. *)
Definition exec1 (d : dev) : dev :=
  match d.(txf) with
  | [] => d
  | c :: q =>
      if Z.testbit c 8 then
        let '(v, w) := slave_read d.(bus) in
        Dev q (if decide (length d.(rxf) < depth)%nat then d.(rxf) ++ [v] else d.(rxf)) d.(tx_abrt_source) d.(active) w
      else Dev q d.(rxf) d.(tx_abrt_source) d.(active) (slave_write (wrap 8 c) d.(bus))
  end.
Definition exec (k : nat) (d : dev) : dev := Nat.iter k exec1 d.
Definition set_active (b : bool) (d : dev) : dev := Dev d.(txf) d.(rxf) d.(tx_abrt_source) b d.(bus).

(** What the hardware may do between two status reads: run some of the waiting
    commands, or abort.  [rank] is a bound on the number of status reads for which it is
    still busy; a command adds at most [cost] to it. *)
Class Pace (step : dev → dev) (rank : dev → nat) (cost : nat) := {
  step_exec d : (step d).(tx_abrt_source) = 0 → d.(tx_abrt_source) = 0 ∧ ∃ k b, step d = set_active b (exec k d);
  step_rank d : (rank (step d) ≤ rank d)%nat;
  step_busy d : d.(txf) ≠ [] ∨ d.(active) = true → (rank (step d) < rank d)%nat;
  step_idle d : d.(txf) = [] → (step d).(txf) = [] ∧ (d.(active) = false → (step d).(active) = false);
  rank_put c d : (rank (put c d) ≤ rank d + cost)%nat;
  rank_get d : (rank (snd (get d)) ≤ rank d)%nat;
  rank_clr d : rank (clr_tx_abrt d) = rank d
}.
(** A bus that is slow against the program: at most two commands between two status reads *)
Class Slow (step : dev → dev) := {
  step_slow d : (step d).(tx_abrt_source) = 0 → ∃ k b, (k ≤ 2)%nat ∧ step d = set_active b (exec k d)
}.

Context (step : dev → dev).
Definition put_all (cs : list Z) (d : dev) : dev := foldl (λ d c, put c d) d cs.
Fixpoint get_n (n : nat) (d : dev) : list Z * dev :=
  match n with
  | O => ([], d)
  | S n => let '(v, d) := get d in let '(vs, d) := get_n n d in (wrap 8 v :: vs, d)
  end.
(** The first loop of both transfers; [true] when it was aborted. *)
Fixpoint send_loop (fuel : nat) (send_buf : list Z) (d : dev) : res (bool * dev) :=
  match send_buf with
  | [] => Ok (false, d)
  | _ :: _ =>
      match fuel with
      | O => Fault FFuel
      | S fuel =>
          let d := step d in
          let fifo_len := 8 - txflr d in
          let fifo_len := Z.min (Z.of_nat (length send_buf)) fifo_len in
          let d := put_all (take (Z.to_nat fifo_len) send_buf) d in
          let d := step d in
          if negb (d.(tx_abrt_source) =? 0) then Ok (true, d)
          else send_loop fuel (drop (Z.to_nat fifo_len) send_buf) d
      end
  end.
(** [while((status & ACTIVITY) || !(status & TFE)) ;] *)
Fixpoint wait_loop (fuel : nat) (d : dev) : res dev :=
  match fuel with
  | O => Fault FFuel
  | S fuel =>
      let d := step d in
      if d.(active) then wait_loop fuel d else
      let d := step d in
      if decide (d.(txf) = []) then Ok d else wait_loop fuel d
  end.
Definition i2c_send_data (fuel : nat) (i2c_num : Z) (send_buf : list Z) (d : dev) : res (Z * dev) :=
  if negb (i2c_num <? I2C_MAX_NUM) then Fault FAssert else
  let d := clr_tx_abrt d in
  '(aborted, d) ← send_loop fuel send_buf d;
  if aborted : bool then Ok (1, d) else
  d ← wait_loop fuel d;
  let d := step d in
  if negb (d.(tx_abrt_source) =? 0) then Ok (1, d) else Ok (0, d).
(** [rx_len]: bytes to come; [receive_buf_len]: read commands to issue.  The result has
    the bytes that were stored. *)
Fixpoint recv_loop (fuel : nat) (receive_buf_len rx_len : nat) (out : list Z) (d : dev) : res (Z * list Z * dev) :=
  if decide (receive_buf_len = O ∧ rx_len = O) then Ok (0, out, d) else
  match fuel with
  | O => Fault FFuel
  | S fuel =>
      let d := step d in
      let fifo_len := Z.to_nat (Z.min (Z.of_nat rx_len) (rxflr d)) in
      let '(vs, d) := get_n fifo_len d in
      let out := out ++ vs in
      let rx_len := (rx_len - fifo_len)%nat in
      let d := step d in
      let fifo_len := Z.to_nat (Z.min (Z.of_nat receive_buf_len) (8 - txflr d)) in
      let d := put_all (replicate fifo_len I2C_DATA_CMD_CMD) d in
      let d := step d in
      if negb (d.(tx_abrt_source) =? 0) then Ok (1, out, d)
      else recv_loop fuel (receive_buf_len - fifo_len) rx_len out d
  end.
Definition i2c_recv_data (fuel : nat) (i2c_num : Z) (send_buf : list Z) (receive_buf_len : nat) (d : dev)
  : res (Z * list Z * dev) :=
  if negb (i2c_num <? I2C_MAX_NUM) then Fault FAssert else
  '(aborted, d) ← send_loop fuel send_buf d;
  if aborted : bool then Ok (1, [], d) else
  recv_loop fuel receive_buf_len receive_buf_len [] d.
End fifo.
Arguments dev : clear implicits.
Arguments step_exec {W slave_write slave_read step rank cost Pace} d _.
Arguments step_rank {W slave_write slave_read step rank cost Pace} d.
Arguments step_busy {W slave_write slave_read step rank cost Pace} d _.
Arguments step_idle {W slave_write slave_read step rank cost Pace} d _.
Arguments rank_put {W slave_write slave_read step rank cost Pace} c d.
Arguments rank_get {W slave_write slave_read step rank cost Pace} d.
Arguments rank_clr {W slave_write slave_read step rank cost Pace} d.
Arguments step_slow {W slave_write slave_read step Slow} d _.
End Fifo.

(** ** Transfers

    What a sequence of commands does to the other end, and the bytes it brings: *)
Module Transfer.
Import Fifo.
Section transfer.
Context {W : Type} (slave_write : Z → W → W) (slave_read : W → Z * W).
Fixpoint run (cs : list Z) (w : W) : list Z * W :=
  match cs with
  | [] => ([], w)
  | c :: cs =>
      if Z.testbit c 8 then let '(v, w) := slave_read w in let '(vs, w) := run cs w in (v :: vs, w)
      else run cs (slave_write (wrap 8 c) w)
  end.
Definition is_write (c : Z) : Prop := Z.testbit c 8 = false.
Lemma run_writes cs w : Forall is_write cs → fst (run cs w) = [].
Proof. intros Hc. revert w. induction Hc as [|c cs Hc _ IH]; intros w; cbn [run]; [done|]. rewrite Hc. apply IH. Qed.
Lemma run_reads_length n w : length (fst (run (replicate n I2C_DATA_CMD_CMD) w)) = n.
Proof.
  revert w. induction n as [|n IH]; intros w; [done|]. cbn. destruct (slave_read w) as [v w1].
  specialize (IH w1). destruct (run _ w1) as [vs w2]. cbn in *. by rewrite IH.
Qed.
Lemma run_app cs cs' w : run (cs ++ cs') w =
  (fst (run cs w) ++ fst (run cs' (snd (run cs w))), snd (run cs' (snd (run cs w)))).
Proof.
  revert w. induction cs as [|c cs IH]; intros w; cbn [app run].
  - cbn [fst snd app]. by destruct (run cs' w).
  - case_match; [|apply IH]. destruct (slave_read w) as [v w1]. rewrite IH. by destruct (run cs w1).
Qed.

Notation exec1 := (exec1 slave_write slave_read).
Notation exec := (exec slave_write slave_read).
Implicit Types d : dev W.
(** ** Commands in the queue have their effect sooner or later *)
Lemma exec1_final d rest :
  snd (run ((exec1 d).(txf) ++ rest) (exec1 d).(bus)) = snd (run (d.(txf) ++ rest) d.(bus)).
Proof.
  unfold Fifo.exec1. destruct (txf d) as [|c q] eqn:E; [by rewrite E|]. cbn [app run].
  destruct (Z.testbit c 8); [|done]. destruct (slave_read (bus d)) as [v w]. cbn [txf bus].
  by destruct (run (q ++ rest) w).
Qed.
Lemma exec1_bytes d rest : (length d.(rxf) < depth)%nat →
  (exec1 d).(rxf) ++ fst (run ((exec1 d).(txf) ++ rest) (exec1 d).(bus)) =
  d.(rxf) ++ fst (run (d.(txf) ++ rest) d.(bus)).
Proof.
  intros Hl. unfold Fifo.exec1. destruct (txf d) as [|c q] eqn:E; [by rewrite E|]. cbn [app run].
  destruct (Z.testbit c 8); [|done]. destruct (slave_read (bus d)) as [v w]. cbn [txf bus rxf].
  rewrite decide_True by done. destruct (run (q ++ rest) w). by rewrite <-app_assoc.
Qed.
Lemma exec1_rx_length d : (length (exec1 d).(rxf) ≤ S (length d.(rxf)))%nat.
Proof.
  unfold Fifo.exec1. destruct (txf d); [lia|]. destruct (Z.testbit z 8); [|cbn; lia].
  destruct (slave_read (bus d)). cbn [rxf]. case_decide; rewrite ?length_app; cbn; lia.
Qed.
Lemma exec1_txf d : (exec1 d).(txf) = tl d.(txf).
Proof.
  unfold Fifo.exec1. destruct (txf d) as [|c q] eqn:E; [by rewrite E|]. destruct (Z.testbit c 8); [|done].
  by destruct (slave_read (bus d)).
Qed.
Lemma exec1_writes d : Forall is_write d.(txf) → Forall is_write (exec1 d).(txf) ∧ (exec1 d).(rxf) = d.(rxf).
Proof.
  unfold Fifo.exec1. destruct (txf d) as [|c q] eqn:E; [by rewrite E|]. intros Hw.
  apply Forall_cons in Hw as [Hc Hq]. by rewrite Hc.
Qed.
(** The same for any number of commands *)
Lemma exec_final k d rest :
  snd (run ((exec k d).(txf) ++ rest) (exec k d).(bus)) = snd (run (d.(txf) ++ rest) d.(bus)).
Proof. induction k as [|k IH]; [done|]. change (exec (S k) d) with (exec1 (exec k d)). by rewrite exec1_final. Qed.
Lemma exec_bytes k d rest : (length d.(rxf) + k ≤ depth)%nat →
  (length (exec k d).(rxf) ≤ length d.(rxf) + k)%nat ∧
  (exec k d).(rxf) ++ fst (run ((exec k d).(txf) ++ rest) (exec k d).(bus)) =
  d.(rxf) ++ fst (run (d.(txf) ++ rest) d.(bus)).
Proof.
  induction k as [|k IH]; intros Hl; [split; [cbn; lia|done]|]. change (exec (S k) d) with (exec1 (exec k d)).
  destruct IH as [Hk <-]; [lia|]. pose proof (exec1_rx_length (exec k d)).
  split; [lia|]. apply exec1_bytes. lia.
Qed.
Lemma exec_txf_length k d : (length (exec k d).(txf) ≤ length d.(txf))%nat.
Proof.
  induction k as [|k IH]; [done|]. change (exec (S k) d) with (exec1 (exec k d)). rewrite exec1_txf.
  destruct (txf (exec k d)); cbn in *; lia.
Qed.
Lemma exec_writes k d : Forall is_write d.(txf) → Forall is_write (exec k d).(txf) ∧ (exec k d).(rxf) = d.(rxf).
Proof.
  intros Hw. induction k as [|k [IH1 IH2]]; [done|]. change (exec (S k) d) with (exec1 (exec k d)).
  destruct (exec1_writes _ IH1) as [H1 H2]. by rewrite H2.
Qed.
(** Writing to the queue while it has room *)
Lemma put_all_room cs d : (length d.(txf) + length cs ≤ depth)%nat →
  put_all cs d = Dev (d.(txf) ++ cs) d.(rxf) d.(tx_abrt_source) d.(active) d.(bus).
Proof.
  unfold put_all. revert d. induction cs as [|c cs IH]; intros d Hl; cbn [foldl].
  - rewrite app_nil_r. by destruct d.
  - cbn [length] in Hl. unfold put at 2. rewrite decide_True by lia.
    rewrite IH by (cbn [txf]; rewrite length_app; cbn; lia). cbn [txf rxf tx_abrt_source active bus].
    by rewrite <-app_assoc.
Qed.
Lemma put_all_abrt cs d : (put_all cs d).(tx_abrt_source) = d.(tx_abrt_source).
Proof.
  unfold put_all. revert d. induction cs as [|c cs IH]; intros d; cbn [foldl]; [done|]. rewrite IH.
  unfold put. by case_decide.
Qed.
Lemma get_n_prefix n d : (n ≤ length d.(rxf))%nat →
  get_n n d = (wrap 8 <$> take n d.(rxf), Dev d.(txf) (drop n d.(rxf)) d.(tx_abrt_source) d.(active) d.(bus)).
Proof.
  revert d. induction n as [|n IH]; intros d Hn; cbn [get_n take drop].
  - by destruct d, rxf0.
  - unfold get. destruct (rxf d) as [|v q] eqn:E; [cbn in Hn; lia|].
    rewrite IH by (cbn in *; lia). done.
Qed.

Section paced.
Context {step : dev W → dev W} {rank : dev W → nat} {cost : nat} `{!Pace slave_write slave_read step rank cost}.
Lemma rank_put_all cs d : (rank (put_all cs d) ≤ rank d + cost * length cs)%nat.
Proof.
  unfold put_all. revert d. induction cs as [|c cs IH]; intros d; cbn [foldl length]; [lia|].
  etrans; [apply IH|]. pose proof (rank_put c d). lia.
Qed.
Lemma rank_get_n n d : (rank (snd (get_n n d)) ≤ rank d)%nat.
Proof.
  revert d. induction n as [|n IH]; intros d; cbn [get_n]; [done|].
  pose proof (rank_get d) as Hg. destruct (get d) as [v d1]. specialize (IH d1).
  destruct (get_n n d1) as [vs d2]. cbn [snd] in *. lia.
Qed.
Lemma step_txf_length d : (step d).(tx_abrt_source) = 0 → (length (step d).(txf) ≤ length d.(txf))%nat.
Proof. intros Ha. destruct (step_exec d Ha) as (_ & k & b & ->). cbn [set_active txf]. apply exec_txf_length. Qed.
Lemma step_final d rest : (step d).(tx_abrt_source) = 0 →
  snd (run ((step d).(txf) ++ rest) (step d).(bus)) = snd (run (d.(txf) ++ rest) d.(bus)).
Proof. intros Ha. destruct (step_exec d Ha) as (_ & k & b & ->). apply exec_final. Qed.
Lemma step_writes d : (step d).(tx_abrt_source) = 0 → Forall is_write d.(txf) →
  Forall is_write (step d).(txf) ∧ (step d).(rxf) = d.(rxf).
Proof. intros Ha. destruct (step_exec d Ha) as (_ & k & b & ->). apply exec_writes. Qed.
(** An abort stays until it is cleared. *)
Lemma step_aborted d : d.(tx_abrt_source) ≠ 0 → (step d).(tx_abrt_source) ≠ 0.
Proof. intros Ha E. by destruct (step_exec d E). Qed.

(** ** The sending loop *)
Lemma send_round buf d (m : nat) : (length d.(txf) ≤ depth)%nat → buf ≠ [] →
  m = Z.to_nat (Z.min (Z.of_nat (length buf)) (8 - txflr (step d))) →
  (m = O → (rank (step d) < rank d)%nat ∨ (step d).(tx_abrt_source) ≠ 0) ∧ (m ≤ length buf)%nat ∧
  ((step (put_all (take m buf) (step d))).(tx_abrt_source) = 0 →
    (step d).(tx_abrt_source) = 0 ∧ d.(tx_abrt_source) = 0 ∧
    put_all (take m buf) (step d) =
      Dev ((step d).(txf) ++ take m buf) (step d).(rxf) (step d).(tx_abrt_source) (step d).(active) (step d).(bus) ∧
    (length ((step d).(txf) ++ take m buf) ≤ depth)%nat).
Proof.
  intros Hl Hbuf Hm. unfold txflr in Hm. assert (Hmb : (m ≤ length buf)%nat) by lia. split; [|split; [done|]].
  - intros ->. destruct (decide ((step d).(tx_abrt_source) = 0)) as [Ha|]; [|by right]. left.
    pose proof (step_txf_length d Ha). apply step_busy. left. intros E. rewrite E in *. destruct buf; [done|].
    cbn [length] in *. lia.
  - intros Ha. assert (Ha1 : tx_abrt_source (put_all (take m buf) (step d)) = 0).
    { destruct (decide (tx_abrt_source (put_all (take m buf) (step d)) = 0)); [done|]. by destruct (step_aborted _ n). }
    destruct (decide ((step d).(tx_abrt_source) = 0)) as [Ha2|Ha2].
    + pose proof (step_txf_length d Ha2) as Hlen.
      assert (Hroom : (length (step d).(txf) + length (take m buf) ≤ depth)%nat).
      { rewrite length_take. unfold depth in *. lia. }
      split; [done|]. split; [by destruct (step_exec d Ha2)|]. rewrite put_all_room by done.
      by rewrite length_app.
    + by rewrite put_all_abrt in Ha1.
Qed.
(** What a transfer has done when the loop ends without an abort *)
Record sent (buf : list Z) (d d' : dev W) : Prop := {
  se_nil : buf = [] → d' = d;
  se_abort : buf ≠ [] → d'.(tx_abrt_source) = 0 ∧ d.(tx_abrt_source) = 0;
  se_room : (length d'.(txf) ≤ depth)%nat;
  se_final rest : snd (run (d'.(txf) ++ rest) d'.(bus)) = snd (run (d.(txf) ++ buf ++ rest) d.(bus));
  se_rank : (rank d' ≤ rank d + cost * length buf)%nat;
  se_writes : Forall is_write d.(txf) → Forall is_write buf → Forall is_write d'.(txf) ∧ d'.(rxf) = d.(rxf)
}.
(** One round, then the rest *)
Lemma sent_round buf m d d' : (length d.(txf) ≤ depth)%nat → buf ≠ [] →
  m = Z.to_nat (Z.min (Z.of_nat (length buf)) (8 - txflr (step d))) →
  (step (put_all (take m buf) (step d))).(tx_abrt_source) = 0 →
  sent (drop m buf) (step (put_all (take m buf) (step d))) d' → sent buf d d'.
Proof.
  intros Hl Hbuf Hm Ha [Hsn Hsa Hsr Hsf Hsk Hsw].
  destruct (send_round buf d m Hl Hbuf Hm) as (_ & Hmb & (Ha1 & Ha0 & Ep & Hroom)%(λ f, f Ha)).
  pose proof (rank_put_all (take m buf) (step d)) as Hk2. rewrite length_take, Nat.min_l in Hk2 by done.
  pose proof (step_rank (put_all (take m buf) (step d))). pose proof (step_rank d).
  set (d2 := put_all (take m buf) (step d)) in *. split.
  - done.
  - intros _. split; [|done]. destruct (drop m buf) as [|x l]; [by rewrite Hsn|by apply Hsa].
  - done.
  - intros rest. rewrite Hsf, step_final by done. rewrite Ep. cbn [txf bus].
    rewrite <-app_assoc, step_final by done. by rewrite (app_assoc (take m buf)), take_drop.
  - rewrite length_drop in Hsk. remember (length buf - m)%nat as r.
    assert (E : length buf = (m + r)%nat) by lia. rewrite E, Nat.mul_add_distr_l. lia.
  - intros Hw Hb. destruct (step_writes d Ha1 Hw) as [Hw1 Hr1].
    destruct (step_writes d2 Ha) as [Hw2 Hr2].
    { rewrite Ep. cbn [txf]. apply Forall_app. split; [done|by apply Forall_take]. }
    rewrite <-Hr1. replace (rxf (step d)) with (rxf d2) by (by rewrite Ep). rewrite <-Hr2.
    apply Hsw; [done|by apply Forall_drop].
Qed.
Lemma send_loop_run fuel buf d : (length d.(txf) ≤ depth)%nat → (rank d + S cost * length buf ≤ fuel)%nat →
  ∃ a d', send_loop step fuel buf d = Ok (a, d') ∧
    (a = true → d'.(tx_abrt_source) ≠ 0) ∧ (a = false → sent buf d d').
Proof.
  revert buf d. induction fuel as [|fuel IH]; intros [|x l] d Hl Hf.
  1, 3: exists false, d; split; [done|]; split; [done|]; intros _; split; [done..|lia|done].
  { cbn [length] in Hf. lia. }
  cbn [send_loop]. set (buf := x :: l) in *. set (m := Z.to_nat _).
  assert (Hne : buf ≠ []) by done. destruct (send_round buf d m Hl Hne eq_refl) as (Hm0 & Hmb & Hround).
  destruct (Z.eqb_spec (tx_abrt_source (step (put_all (take m buf) (step d)))) 0) as [Ha|Ha]; cbn [negb].
  2: { eexists true, _. done. }
  destruct (Hround Ha) as (Ha1 & _ & Ep & Hroom).
  pose proof (rank_put_all (take m buf) (step d)) as Hk2. rewrite length_take, Nat.min_l in Hk2 by done.
  pose proof (step_rank (put_all (take m buf) (step d))). pose proof (step_rank d).
  destruct (IH (drop m buf) (step (put_all (take m buf) (step d)))) as (a & d' & E & Ht & Hs).
  - pose proof (step_txf_length _ Ha). rewrite Ep in *. cbn [txf] in *. lia.
  - rewrite length_drop. remember (length buf - m)%nat as r. assert (E : length buf = (m + r)%nat) by lia.
    rewrite E in Hf. rewrite Nat.mul_add_distr_l in Hf. destruct m as [|m']; [|lia].
    destruct Hm0 as [Hr|]; [done|lia|done].
  - exists a, d'. split; [done|]. split; [done|]. intros Hf'. by apply (sent_round buf m d d' Hl Hne eq_refl Ha), Hs.
Qed.
(** The wait ends with the queue empty. *)
Lemma wait_loop_run fuel d : (rank d < fuel)%nat → ∃ d', wait_loop step fuel d = Ok d' ∧ d'.(txf) = [] ∧
  (d'.(tx_abrt_source) = 0 → d.(tx_abrt_source) = 0 ∧ ∀ rest, snd (run rest d'.(bus)) = snd (run (d.(txf) ++ rest) d.(bus))).
Proof.
  revert d. induction fuel as [|fuel IH]; intros d Hf; [lia|]. cbn [wait_loop].
  pose proof (step_rank d) as Hk1. pose proof (step_rank (step d)) as Hk2.
  assert (Hbusy : (step d).(txf) ≠ [] ∨ (step d).(active) = true → (rank (step d) < rank d)%nat).
  { intros Hb. apply step_busy. destruct (decide (txf d = [])) as [E|]; [|by left]. right.
    destruct (step_idle d E) as [E' Hi]. destruct Hb as [|Hb]; [done|]. destruct (active d); [done|]. by rewrite Hi in Hb. }
  destruct (active (step d)) eqn:Eact.
  - destruct (IH (step d)) as (d' & -> & Hq & Hd); [pose proof (Hbusy (or_intror eq_refl)); lia|].
    exists d'. split; [done|]. split; [done|]. intros [Ha Hr]%Hd. split; [by destruct (step_exec d Ha)|].
    intros rest. by rewrite Hr, step_final.
  - case_decide as Hq.
    + eexists. split; [done|]. split; [done|]. intros Ha. destruct (step_exec _ Ha) as [Ha1 _].
      split; [by destruct (step_exec d Ha1)|]. intros rest. rewrite <-(step_final d rest Ha1), <-(step_final (step d) rest Ha).
      by rewrite Hq.
    + assert (Hq1 : txf (step d) ≠ []) by (intros E; by destruct (step_idle _ E)).
      pose proof (Hbusy (or_introl Hq1)).
      destruct (IH (step (step d))) as (d' & -> & Hq' & Hd); [lia|].
      exists d'. split; [done|]. split; [done|]. intros [Ha Hr]%Hd. destruct (step_exec _ Ha) as [Ha1 _].
      split; [by destruct (step_exec d Ha1)|]. intros rest. by rewrite Hr, !step_final.
Qed.

(** ** The receiving loop *)
Context `{!Slow slave_write slave_read step}.
(** The bytes still to come when [c] more read commands are issued *)
Definition coming (c : nat) (d : dev W) : list Z :=
  d.(rxf) ++ fst (run (d.(txf) ++ replicate c I2C_DATA_CMD_CMD) d.(bus)).
Lemma step_bytes d rest : (step d).(tx_abrt_source) = 0 → (length d.(rxf) + 2 ≤ depth)%nat →
  (length (step d).(rxf) ≤ length d.(rxf) + 2)%nat ∧
  (step d).(rxf) ++ fst (run ((step d).(txf) ++ rest) (step d).(bus)) = d.(rxf) ++ fst (run (d.(txf) ++ rest) d.(bus)).
Proof.
  intros Ha Hl. destruct (step_slow d Ha) as (k & b & Hk & ->). cbn [set_active rxf txf bus].
  destruct (exec_bytes k d rest) as [H1 H2]; [lia|]. split; [lia|done].
Qed.
Definition popped (s : nat) (d : dev W) : dev W := Dev d.(txf) (drop s d.(rxf)) d.(tx_abrt_source) d.(active) d.(bus).
Lemma rank_popped s d : (s ≤ length d.(rxf))%nat → (rank (popped s d) ≤ rank d)%nat.
Proof. intros Hs. pose proof (rank_get_n s d) as Hg. by rewrite get_n_prefix in Hg by done. Qed.
(** One round: [s] bytes of the receive queue are stored, [m] read commands are issued. *)
Definition issued (c : nat) (d : dev W) : nat := Z.to_nat (Z.min (Z.of_nat c) (8 - txflr d)).
Definition reads (m : nat) (d : dev W) : dev W := put_all (replicate m I2C_DATA_CMD_CMD) d.
Lemma recv_round c s d : (length d.(txf) ≤ depth)%nat → (length d.(rxf) ≤ 4)%nat →
  (s ≤ length (step d).(rxf) ≤ s + 4)%nat →
  let d2 := popped s (step d) in let d3 := step d2 in let m := issued c d3 in let d5 := step (reads m d3) in
  d5.(tx_abrt_source) = 0 →
  (step d).(tx_abrt_source) = 0 ∧ (length d5.(txf) ≤ depth)%nat ∧ (length d5.(rxf) + s ≤ length (step d).(rxf) + 4)%nat ∧ (m ≤ c)%nat ∧
  coming c d = take s (step d).(rxf) ++ coming (c - m) d5 ∧
  (∀ rest, snd (run (d5.(txf) ++ replicate (c - m) I2C_DATA_CMD_CMD ++ rest) d5.(bus)) =
           snd (run (d.(txf) ++ replicate c I2C_DATA_CMD_CMD ++ rest) d.(bus))) ∧
  (rank d5 ≤ rank d + cost * m)%nat ∧
  (m = O → s = O → c ≠ O ∨ (step d).(rxf) = [] ∧ coming c d ≠ [] → (rank d5 < rank d)%nat).
Proof.
  intros Hl Hr Hs d2 d3 m d5 Ha5. assert (Ha4 : (reads m d3).(tx_abrt_source) = 0) by by destruct (step_exec _ Ha5).
  assert (Ha3 : d3.(tx_abrt_source) = 0) by (unfold reads in Ha4; by rewrite put_all_abrt in Ha4).
  assert (Ha1 : (step d).(tx_abrt_source) = 0) by (by destruct (step_exec _ Ha3)).
  pose proof (step_txf_length d Ha1) as Hl1. pose proof (step_txf_length d2 Ha3) as Hl3. cbn [d2 popped txf] in Hl3.
  destruct (step_bytes d (replicate c I2C_DATA_CMD_CMD) Ha1) as [Hr1 Hb1]; [unfold depth; lia|].
  assert (Hroom : (length d3.(txf) + length (replicate m I2C_DATA_CMD_CMD) ≤ depth)%nat).
  { rewrite length_replicate. unfold m, issued, txflr. fold d3 in Hl3. unfold depth in *. lia. }
  assert (E4 : reads m d3 = Dev (d3.(txf) ++ replicate m I2C_DATA_CMD_CMD) d3.(rxf) d3.(tx_abrt_source) d3.(active) d3.(bus))
    by (by apply put_all_room).
  assert (Hm : (m ≤ c)%nat) by (unfold m, issued; lia).
  destruct (step_bytes d2 (replicate c I2C_DATA_CMD_CMD) Ha3) as [Hr3 Hb3]; [cbn; rewrite length_drop; unfold depth; lia|].
  destruct (step_bytes (reads m d3) (replicate (c - m) I2C_DATA_CMD_CMD) Ha5) as [Hr5 Hb5].
  { rewrite E4. cbn [rxf]. cbn in Hr3. rewrite length_drop in Hr3. fold d3 in Hr3. unfold depth. lia. }
  pose proof (step_txf_length (reads m d3) Ha5) as Hl5.
  pose proof (step_rank d) as Hk1. pose proof (step_rank d2) as Hk3. pose proof (step_rank (reads m d3)) as Hk5.
  pose proof (rank_put_all (replicate m I2C_DATA_CMD_CMD) d3) as Hk4. rewrite length_replicate in Hk4.
  pose proof (rank_popped s (step d) ltac:(lia)) as Hk2. fold d2 in Hk2. fold d3 in Hk3, Hl3, Hr3, Hb3. fold d5 in Hk5, Hl5, Hr5, Hb5.
  assert (Hsplit : replicate m I2C_DATA_CMD_CMD ++ replicate (c - m) I2C_DATA_CMD_CMD = replicate c I2C_DATA_CMD_CMD)
    by (rewrite <-replicate_add; f_equal; lia).
  split; [done|]. split; [rewrite E4 in Hl5; cbn [txf] in Hl5; rewrite length_app in Hl5; lia|].
  split; [rewrite E4 in Hr5; cbn [rxf d2 popped length] in *; rewrite length_drop in Hr3; lia|]. split; [done|]. split; [|split; [|split]].
  - unfold coming. rewrite <-Hb1, Hb5, E4. cbn [rxf txf bus]. rewrite <-app_assoc, Hsplit, Hb3. cbn [d2 popped rxf txf bus].
    by rewrite (app_assoc (take s _)), take_drop.
  - intros rest. unfold d5. rewrite step_final by done. rewrite E4. cbn [txf bus].
    rewrite <-app_assoc, (app_assoc (replicate m _)), Hsplit. unfold d3. rewrite step_final by done.
    cbn [d2 popped txf bus]. by rewrite step_final.
  - unfold reads in Hk5. lia.
  - intros E0 Es Hcome. unfold reads in Hk5. rewrite E0 in *. rewrite Nat.mul_0_r in Hk4.
    destruct (decide (d3.(txf) = [])) as [Ht|Ht].
    + assert (c = O) as -> by (unfold m, issued, txflr in E0; rewrite Ht in E0; cbn in E0; lia).
      destruct Hcome as [|[Erx Hcome]]; [done|].
      assert ((rank d3 < rank d2)%nat); [|lia]. apply step_busy. left. intros Ht2. apply Hcome.
      unfold coming. rewrite <-Hb1, Erx. cbn [d2 popped txf] in Ht2. by rewrite Ht2.
    + assert ((rank (step d3) < rank d3)%nat) by (apply step_busy; by left).
      assert (E5 : d5 = step d3) by (unfold d5, reads; by rewrite E0). rewrite E5. lia.
Qed.
Lemma coming_length c d : (c ≤ length (coming c d))%nat.
Proof. unfold coming. rewrite run_app. cbn [fst]. rewrite !length_app, run_reads_length. lia. Qed.
Lemma coming_step c d : (step d).(tx_abrt_source) = 0 → (length d.(rxf) ≤ 4)%nat →
  (length (step d).(rxf) ≤ length (coming c d))%nat.
Proof.
  intros Ha Hl. destruct (step_bytes d (replicate c I2C_DATA_CMD_CMD) Ha) as [_ Hb]; [unfold depth; lia|].
  unfold coming. rewrite <-Hb, length_app. lia.
Qed.
Lemma get_n_abrt n d : (snd (get_n n d)).(tx_abrt_source) = d.(tx_abrt_source).
Proof.
  revert d. induction n as [|n IH]; intros d; cbn [get_n]; [done|]. unfold get.
  destruct (rxf d) as [|v q]; [specialize (IH d)|specialize (IH (Dev (txf d) q (tx_abrt_source d) (active d) (bus d)))];
    destruct (get_n n _); exact IH.
Qed.
(** Fuel after a round that made progress *)
Lemma recv_fuel (rk rk' c m r s fuel : nat) : (m ≤ c)%nat → (s ≤ r)%nat → (rk + S cost * c + r ≤ S fuel)%nat →
  (rk' ≤ rk + cost * m)%nat → (m = O → s = O → (rk' < rk)%nat) → (rk' + S cost * (c - m) + (r - s) ≤ fuel)%nat.
Proof.
  intros Hm Hs Hf Hk Hk0. remember (c - m)%nat as x. assert (E : c = (m + x)%nat) by lia.
  rewrite E, Nat.mul_add_distr_l in Hf. destruct m as [|m]; [|lia]. destruct s as [|s]; [|lia].
  specialize (Hk0 eq_refl eq_refl). lia.
Qed.
(** [stale] bytes more than are asked for *)
Lemma recv_loop_run fuel stale c r out d : (stale ≤ 4)%nat → (length d.(txf) ≤ depth)%nat → (length d.(rxf) ≤ 4)%nat →
  length (coming c d) = (r + stale)%nat → (rank d + S cost * c + r ≤ fuel)%nat →
  ∃ q out' d', recv_loop step fuel c r out d = Ok (q, out', d') ∧
    ((q = 1 ∧ d'.(tx_abrt_source) ≠ 0) ∨
     (q = 0 ∧ out' = out ++ (wrap 8 <$> take r (coming c d)) ∧ (d' = d ∨ d'.(tx_abrt_source) = 0) ∧
      ∀ rest, snd (run (d'.(txf) ++ rest) d'.(bus)) =
              snd (run (d.(txf) ++ replicate c I2C_DATA_CMD_CMD ++ rest) d.(bus)))).
Proof.
  intros Hst. revert c r out d. induction fuel as [|fuel IH]; intros c r out d Hl Hrx Hlen Hf.
  all: cbn [recv_loop]; case_decide as Hdone.
  1, 3: destruct Hdone as [-> ->]; exists 0, out, d; split; [done|]; right;
    split; [done|]; split; [by rewrite take_0, app_nil_r|]; split; [by left|done].
  { lia. }
  set (s := Z.to_nat (Z.min (Z.of_nat r) (rxflr (step d)))).
  destruct (get_n s (step d)) as [vs d2] eqn:Eg. cbn zeta. fold (issued c (step d2)). fold (reads (issued c (step d2)) (step d2)).
  destruct (Z.eqb_spec (step (reads (issued c (step d2)) (step d2))).(tx_abrt_source) 0) as [Ha|Ha]; cbn [negb].
  2: { eexists 1, _, _. split; [done|]. by left. }
  assert (Ha1 : (step d).(tx_abrt_source) = 0).
  { destruct (step_exec _ Ha) as [Ha4 _]. unfold reads in Ha4. rewrite put_all_abrt in Ha4.
    destruct (step_exec _ Ha4) as [Ha2 _]. by rewrite <-(get_n_abrt s (step d)), Eg. }
  pose proof (coming_step c d Ha1 Hrx) as Hle.
  assert (Hs : s = Nat.min r (length (step d).(rxf))) by (unfold s, rxflr; lia).
  rewrite get_n_prefix in Eg by lia. change (Dev (txf (step d)) (drop s _) _ _ _) with (popped s (step d)) in Eg. injection Eg as <- <-.
  destruct (recv_round c s d Hl Hrx ltac:(lia) Ha) as (_ & Hl5 & Hr5 & Hmc & Hcome & Hfin & Hk & Hk0).
  set (m := issued c (step (popped s (step d)))) in *. set (d5 := step (reads m (step (popped s (step d))))) in *.
  assert (Hlen5 : length (coming (c - m) d5) = (r - s + stale)%nat).
  { rewrite Hcome, length_app, length_take, Nat.min_l in Hlen by lia. lia. }
  destruct (IH (c - m)%nat (r - s)%nat (out ++ (wrap 8 <$> take s (rxf (step d)))) d5) as (q & out' & d' & E & Hq); [done| |done| |].
  - pose proof (length_app (rxf d5) (fst (run (txf d5 ++ replicate (c - m) I2C_DATA_CMD_CMD) (bus d5)))) as Hrc.
    change (_ ++ fst (run (txf d5 ++ _) _)) with (coming (c - m) d5) in Hrc. lia.
  - apply (recv_fuel (rank d) (rank d5) c m r s); [done|lia|done|done|]. intros Hm0 Hs0. apply Hk0; [done|done|].
    destruct (decide (c = O)) as [Ec|]; [right|by left]. split; [apply length_zero_iff_nil; lia|].
    intros Hnil. rewrite Hnil in Hlen. cbn in Hlen. lia.
  - exists q, out', d'. split; [done|]. destruct Hq as [?|(-> & -> & Hab & Hq)]; [by left|]. right. split; [done|].
    split; [|split; [right; by destruct Hab as [-> |]|intros rest; by rewrite Hq, Hfin]].
    rewrite Hcome, take_app, length_take, (Nat.min_l s) by lia. rewrite (take_ge (take s _)) by (rewrite length_take; lia).
    by rewrite fmap_app, app_assoc.
Qed.
(** An abort that is left over from an earlier transfer *)
Lemma send_loop_stale fuel buf d : d.(tx_abrt_source) ≠ 0 → buf ≠ [] → (0 < fuel)%nat →
  ∃ d', send_loop step fuel buf d = Ok (true, d').
Proof.
  intros Ha Hb Hf. destruct fuel as [|fuel]; [lia|]. destruct buf as [|x l]; [done|]. cbn [send_loop].
  rewrite (proj2 (Z.eqb_neq _ _)); [cbn [negb]; by eexists|]. apply step_aborted. rewrite put_all_abrt. by apply step_aborted.
Qed.
Lemma recv_loop_stale fuel n out d : d.(tx_abrt_source) ≠ 0 → n ≠ O → (0 < fuel)%nat →
  ∃ out' d', recv_loop step fuel n n out d = Ok (1, out', d').
Proof.
  intros Ha Hn Hf. destruct fuel as [|fuel]; [lia|]. cbn [recv_loop]. rewrite decide_False by lia.
  destruct (get_n _ (step d)) as [vs d2] eqn:E. rewrite (proj2 (Z.eqb_neq _ _)); [cbn [negb]; by eexists _, _|].
  apply step_aborted. rewrite put_all_abrt. apply step_aborted.
  replace d2 with (snd (vs, d2)) by done. rewrite <-E, get_n_abrt. by apply step_aborted.
Qed.
Lemma i2c_send_data_run fuel n buf d : n < I2C_MAX_NUM → (length d.(txf) ≤ depth)%nat →
  (rank d + S cost * length buf < fuel)%nat →
  ∃ q d', i2c_send_data step fuel n buf d = Ok (q, d') ∧
    ((q = 1 ∧ d'.(tx_abrt_source) ≠ 0) ∨
     (q = 0 ∧ d'.(tx_abrt_source) = 0 ∧ d'.(txf) = [] ∧ d'.(bus) = snd (run (d.(txf) ++ buf) d.(bus)))).
Proof.
  intros Hn Hl Hf. unfold i2c_send_data. rewrite (proj2 (Z.ltb_lt _ _)) by done. cbn [negb].
  destruct (send_loop_run fuel buf (clr_tx_abrt d)) as (a & d1 & E & Ht & Hs); [done|rewrite rank_clr; lia|].
  rewrite E. cbn [mbind res_bind]. destruct a; [by exists 1, d1; split; [done|left; auto]|].
  destruct (Hs eq_refl) as [_ _ _ Hfin Hk _]. rewrite rank_clr in Hk.
  destruct (wait_loop_run fuel d1) as (d2 & -> & Hq & Hd); [lia|]. cbn [mbind res_bind].
  destruct (Z.eqb_spec (tx_abrt_source (step d2)) 0) as [Ha|Ha]; cbn [negb].
  - exists 0, (step d2). split; [done|]. right. split; [done|]. split; [done|].
    destruct (step_idle d2 Hq) as [Hq' _]. split; [done|]. destruct (step_exec d2 Ha) as [Ha2 _].
    destruct (Hd Ha2) as [_ Hr]. pose proof (step_final d2 [] Ha) as Hst. rewrite Hq', Hq in Hst. cbn [app run snd] in Hst.
    rewrite Hst. specialize (Hr []). cbn [run snd] in Hr. rewrite Hr, Hfin. cbn [clr_tx_abrt txf bus]. by rewrite app_nil_r.
  - exists 1, (step d2). split; [done|]. by left.
Qed.
Lemma i2c_recv_data_run fuel i buf n d : i < I2C_MAX_NUM → (length d.(txf) ≤ depth)%nat →
  Forall is_write d.(txf) → (length d.(rxf) ≤ 4)%nat → Forall is_write buf →
  (rank d + S cost * length buf + S cost * n + n ≤ fuel)%nat →
  let w := snd (run (d.(txf) ++ buf) d.(bus)) in let '(vs, w') := run (replicate n I2C_DATA_CMD_CMD) w in
  ∃ q out d', i2c_recv_data step fuel i buf n d = Ok (q, out, d') ∧
    ((q = 1 ∧ d'.(tx_abrt_source) ≠ 0) ∨ (q = 0 ∧ out = wrap 8 <$> take n (d.(rxf) ++ vs) ∧ snd (run d'.(txf) d'.(bus)) = w')).
Proof.
  intros Hi Hl Hw Hrx Hb Hf w. destruct (run (replicate n I2C_DATA_CMD_CMD) w) as [vs w'] eqn:Er.
  unfold i2c_recv_data. rewrite (proj2 (Z.ltb_lt _ _)) by done. cbn [negb].
  destruct (send_loop_run fuel buf d) as (a & d1 & E & Ht & Hs); [done|lia|].
  rewrite E. cbn [mbind res_bind]. destruct a; [by exists 1, [], d1; split; [done|left; auto]|].
  destruct (Hs eq_refl) as [_ _ Hroom Hfin Hk Hwr]. destruct (Hwr Hw Hb) as [Hw1 Hr1].
  assert (Hw2 : snd (run (txf d1) (bus d1)) = w).
  { pose proof (Hfin []) as Hf0. by rewrite !app_nil_r in Hf0. }
  assert (Hcome : coming n d1 = d.(rxf) ++ vs).
  { unfold coming. rewrite Hr1, run_app, run_writes by done. cbn [app fst]. by rewrite Hw2, Er. }
  destruct (recv_loop_run fuel (length d.(rxf)) n n [] d1) as (q & out & d' & E' & Hq); [done|done|by rewrite Hr1| |lia|].
  { rewrite Hcome, length_app. replace vs with (fst (vs, w')) by done. rewrite <-Er, run_reads_length. lia. }
  exists q, out, d'. split; [done|]. destruct Hq as [?|(-> & -> & _ & Hq)]; [by left|]. right. split; [done|].
  split; [by rewrite Hcome|]. specialize (Hq []). rewrite !app_nil_r in Hq. rewrite Hq, run_app. cbn [snd]. by rewrite Hw2, Er.
Qed.
End paced.
End transfer.

(** ** A device for examples: one command between two status reads; the other end
    keeps what is written to it and answers with its last byte plus one. *)
Definition demo_write (v : Z) (w : list Z) : list Z := w ++ [v].
Definition demo_read (w : list Z) : Z * list Z := (List.last w 0 + 1, w ++ [List.last w 0 + 1]).
Definition demo_dev : dev (list Z) := Dev [] [] 0 false [].
Definition demo_step (d : dev (list Z)) : dev (list Z) := set_active false (exec1 demo_write demo_read d).
Definition demo_rank (d : dev (list Z)) : nat := length d.(txf) + (if d.(active) then 1 else 0).
Lemma exec1_abrt {W} sw sr (d : dev W) : (exec1 sw sr d).(tx_abrt_source) = d.(tx_abrt_source).
Proof. unfold exec1. destruct (txf d); [done|]. destruct (Z.testbit z 8); [|done]. by destruct (sr (bus d)). Qed.
#[export] Instance demo_pace : Pace demo_write demo_read demo_step demo_rank 1.
Proof.
  split; unfold demo_step, demo_rank.
  - intros d Ha. split; [by rewrite <-Ha; cbn; rewrite exec1_abrt|]. by exists 1%nat, false.
  - intros d. cbn [set_active txf active]. rewrite exec1_txf. destruct (txf d); cbn; lia.
  - intros d Hb. cbn [set_active txf active]. rewrite exec1_txf. destruct (txf d); cbn in *; [|lia].
    destruct Hb as [| ->]; [done|lia].
  - intros d Hq. cbn [set_active txf active]. by rewrite exec1_txf, Hq.
  - intros c d. unfold put. case_decide; cbn [txf active]; rewrite ?length_app; cbn; lia.
  - intros d. unfold get. by destruct (rxf d).
  - done.
Qed.
#[export] Instance demo_slow : Slow demo_write demo_read demo_step.
Proof. split. intros d Ha. exists 1%nat, false. split; [lia|done]. Qed.

(** C26: [i2c_send_data] returns on every device that works its queue off, whatever its pace:
    with 1 after an abort, or with 0 when the bytes, in order, behind what was queued
    before, have all had their effect on the bus.  No byte is written to a full queue. *)
Theorem i2c_send_data_spec {W} (sw : Z → W → W) sr step rank cost `{!Pace sw sr step rank cost} fuel i buf d :
  i < I2C_MAX_NUM → (length d.(txf) ≤ depth)%nat → (rank d + S cost * length buf < fuel)%nat →
  ∃ q d', i2c_send_data step fuel i buf d = Ok (q, d') ∧
    ((q = 1 ∧ d'.(tx_abrt_source) ≠ 0) ∨
     (q = 0 ∧ d'.(tx_abrt_source) = 0 ∧ d'.(txf) = [] ∧ d'.(bus) = snd (run sw sr (d.(txf) ++ buf) d.(bus)))).
Proof. intros. by apply (i2c_send_data_run sw sr (rank:=rank) (cost:=cost)). Qed.
Lemma i2c_send_data_spec_witness : ∃ q d',
  i2c_send_data demo_step 25 0 [1; 2; 3; 4; 5; 6; 7; 8; 9; 10; 11; 12] demo_dev = Ok (q, d').
Proof.
  destruct (i2c_send_data_spec demo_write demo_read demo_step demo_rank 1 25 0 [1; 2; 3; 4; 5; 6; 7; 8; 9; 10; 11; 12]
    demo_dev) as (q & d' & E & _); [reflexivity|cbn; lia|cbn; lia|]. exists q, d'. exact E.
Defined.

(** C27: On a bus that is slow against the program (between two status reads the device works
    off at most two commands), with nothing but writes queued and at most four bytes left in
    the receive queue, [i2c_recv_data] returns: with 1 after an abort, or with 0 and [n]
    bytes, first those that were left in the receive queue, then, in order, what the other
    end answers after it was sent the first buffer.  So it is exactly the answer when the
    queue was empty, and not otherwise: the queue is not emptied first.  And an abort that an
    earlier transfer left behind makes it return 1 at once: unlike [i2c_send_data] it does
    not clear it. *)
Theorem i2c_recv_data_spec {W} (sw : Z → W → W) sr step rank cost
    `{!Pace sw sr step rank cost} `{!Slow sw sr step} fuel i buf n d :
  i < I2C_MAX_NUM → (length d.(txf) ≤ depth)%nat → Forall is_write d.(txf) → (length d.(rxf) ≤ 4)%nat → Forall is_write buf →
  (rank d + S cost * length buf + S cost * n + n ≤ fuel)%nat →
  (let w := snd (run sw sr (d.(txf) ++ buf) d.(bus)) in
   let '(vs, w') := run sw sr (replicate n I2C_DATA_CMD_CMD) w in
   ∃ q out d', i2c_recv_data step fuel i buf n d = Ok (q, out, d') ∧
     ((q = 1 ∧ d'.(tx_abrt_source) ≠ 0) ∨
      (q = 0 ∧ out = wrap 8 <$> take n (d.(rxf) ++ vs) ∧ (d.(rxf) = [] → out = wrap 8 <$> vs) ∧ snd (run sw sr d'.(txf) d'.(bus)) = w'))) ∧
  (d.(tx_abrt_source) ≠ 0 → n ≠ O → ∃ out d', i2c_recv_data step fuel i buf n d = Ok (1, out, d')).
Proof.
  intros Hi Hl Hw Hrx Hb Hf. split.
  { pose proof (i2c_recv_data_run sw sr (rank:=rank) (cost:=cost) fuel i buf n d Hi Hl Hw Hrx Hb Hf) as H. cbv zeta in *.
    destruct (run sw sr (replicate n _) _) as [vs w'] eqn:Er. destruct H as (q & out & d' & E & [H|(Eq & Eo & Ew)]); exists q, out, d';
      (split; [done|]); [by left|right]. split; [done|]. split; [done|]. split; [|done]. intros En. rewrite Eo, En. cbn [app].
    rewrite take_ge; [done|]. replace vs with (fst (vs, w')) by done. by rewrite <-Er, run_reads_length. }
  intros Ha Hn.
  unfold i2c_recv_data. rewrite (proj2 (Z.ltb_lt _ _)) by done. cbn [negb].
  destruct (decide (buf = [])) as [->|Hne].
  - destruct fuel as [|fuel]; [lia|]. cbn [send_loop mbind res_bind]. apply (recv_loop_stale sw sr (rank:=rank) (cost:=cost)); [done|done|lia].
  - destruct (send_loop_stale sw sr (rank:=rank) (cost:=cost) fuel buf d) as [d' ->]; [done|done|destruct n; lia|]. cbn [mbind res_bind]. by exists [], d'.
Qed.
Lemma i2c_recv_data_spec_witness : ∃ q out d',
  i2c_recv_data demo_step 60 2 [0x10] 3 (Dev [] [0x77] 0 false []) = Ok (q, out, d') ∧ (q = 0 → out = [0x77; 17; 18]).
Proof.
  destruct (i2c_recv_data_spec demo_write demo_read demo_step demo_rank 1 60 2 [0x10] 3 (Dev [] [0x77] 0 false []))
    as [(q & out & d' & E & Hq) _]; [reflexivity|cbn; lia|constructor|cbn; lia|repeat constructor|cbn; lia|].
  exists q, out, d'. split; [exact E|]. intros Eq. destruct Hq as [[Hq _]|(_ & Hq & _)]; [congruence|]. rewrite Hq. clear. vm_compute. reflexivity.
Defined.

(** ** A fast bus, or a program that was held up

    When the other end answers all queued reads between two status reads, sixteen
    answers can come together where eight have room.  The rest are lost, and the call waits
    for them for ever. *)
Lemma recv_loop_stuck {W} (step : dev W → dev W) fuel r out d : step d = d → r ≠ O →
  d.(txf) = [] → d.(rxf) = [] → d.(tx_abrt_source) = 0 → recv_loop step fuel 0 r out d = Fault FFuel.
Proof.
  intros Hs Hr Ht Hx Ha. revert out. induction fuel as [|fuel IH]; intros out; cbn [recv_loop].
  - by rewrite decide_False by lia.
  - rewrite decide_False by lia. rewrite Hs. unfold rxflr. rewrite Hx. cbn [length Z.of_nat].
    rewrite Z.min_r by lia. change (Z.to_nat (Z.of_nat 0)) with O. cbn [get_n]. rewrite ?Hs.
    replace (Z.to_nat (Z.min (Z.of_nat 0) (8 - txflr d))) with O by (unfold txflr; by rewrite Ht).
    unfold put_all. cbn [replicate foldl]. rewrite Hs, Ha. cbn [Z.eqb negb]. rewrite !Nat.sub_0_r. apply IH.
Qed.
(** The bus of this example works off its queue in bursts: nothing between two status
    reads, or everything. *)
Definition burst_step (d : dev (list bool)) : dev (list bool) :=
  match d.(bus) with
  | [] => d
  | b :: bs =>
      let d := Dev d.(txf) d.(rxf) d.(tx_abrt_source) d.(active) bs in
      if b then exec (λ _ w, w) (λ w, (0x55, w)) 8 d else d
  end.
Lemma i2c_recv_data_overrun fuel : i2c_recv_data burst_step fuel 0 [] 16
  (Dev [] [] 0 false [false; false; false; false; true; true; false]) = Fault FFuel.
Proof.
  do 2 (destruct fuel as [|fuel]; [reflexivity|]).
  assert (E : i2c_recv_data burst_step (S (S fuel)) 0 [] 16
    (Dev [] [] 0 false [false; false; false; false; true; true; false]) =
    recv_loop burst_step fuel 0 16 [] (Dev [] (replicate 8 0x55) 0 false [false])) by reflexivity.
  rewrite E. destruct fuel as [|fuel]; [reflexivity|].
  assert (E2 : recv_loop burst_step (S fuel) 0 16 [] (Dev [] (replicate 8 0x55) 0 false [false]) =
    recv_loop burst_step fuel 0 8 (replicate 8 0x55) (Dev [] [] 0 false [])) by reflexivity.
  rewrite E2. by apply recv_loop_stuck.
Qed.
End Transfer.

(** ** Slave mode *)
Section slave.
Context {W : Type} (on_event : Z → W → W) (on_receive : Z → W → W) (on_transmit : W → Z * W).
(** The interrupt status of the device, the bytes of its receive and transmit side, and the
    rest of the machine, on which the handler of the user acts *)
Record slave_dev := SlaveDev { intr_stat : Z; received : list Z; answered : list Z; world : W }.
Definition clr_bit (m : Z) (d : slave_dev) : slave_dev :=
  SlaveDev (Z.ldiff d.(intr_stat) m) d.(received) d.(answered) d.(world).
Definition on_world (f : W → W) (d : slave_dev) : slave_dev :=
  SlaveDev d.(intr_stat) d.(received) d.(answered) (f d.(world)).
Definition i2c_slave_irq (d : slave_dev) : Z * slave_dev :=
  let status := d.(intr_stat) in
  let d := if negb (Z.land status I2C_INTR_START_DET =? 0)
           then clr_bit I2C_INTR_START_DET (on_world (on_event I2C_EV_START) d) else d in
  let d := if negb (Z.land status I2C_INTR_STOP_DET =? 0)
           then clr_bit I2C_INTR_STOP_DET (on_world (on_event I2C_EV_STOP) d) else d in
  let d := if negb (Z.land status I2C_INTR_RX_FULL =? 0)
           then SlaveDev d.(intr_stat) (tl d.(received)) d.(answered) (on_receive (hd 0 d.(received)) d.(world)) else d in
  let d := if negb (Z.land status I2C_INTR_RD_REQ =? 0)
           then let '(v, w) := on_transmit d.(world) in
                clr_bit I2C_INTR_RD_REQ (SlaveDev d.(intr_stat) d.(received) (d.(answered) ++ [v]) w) else d in
  (0, d).
End slave.
Inductive i2c_fn : Set := i2c_slave_irq_fn.
Inductive i2c_ptr : Set := slave_instance_ptr (n : Z).
Section slave_init.
Context {P : Type} `{IrqController P i2c_fn i2c_ptr}.
(** [slave_instance[i2c_num]] gets the handlers; here it is the table of who has one. *)
Definition i2c_init_as_slave {Hd : Type} (i2c_num slave_address address_width : Z) (handler : Hd)
    (inst : Z → option Hd) (s : bank sysctl_reg) (r : bank i2c_reg) (p : P)
  : res ((Z → option Hd) * bank sysctl_reg * bank i2c_reg * P) :=
  if negb ((address_width =? 7) || (address_width =? 10)) then Fault FAssert else
  let inst := <[i2c_num := Some handler]> inst in
  s ← i2c_clk_init i2c_num s;
  let r := <[enable := 0]> r in
  let r := <[con := Z.lor (Z.lor (if address_width =? 10 then I2C_CON_10BITADDR_SLAVE else 0) (I2C_CON_SPEED 1))
                     I2C_CON_STOP_DET_IFADDRESSED]> r in
  let r := <[ss_scl_hcnt := 37]> r in
  let r := <[ss_scl_lcnt := 40]> r in
  let r := <[slave_addr := slave_address]> r in
  let r := <[rx_tl := 0]> r in
  let r := <[tx_tl := 0]> r in
  let r := <[intr_mask := Z.lor (Z.lor (Z.lor I2C_INTR_RX_FULL I2C_INTR_START_DET) I2C_INTR_STOP_DET) I2C_INTR_RD_REQ]> r in
  let p := irq_set_priority (IRQN_I2C0_INTERRUPT + i2c_num) 1 p in
  let p := irq_register (IRQN_I2C0_INTERRUPT + i2c_num) i2c_slave_irq_fn (Some (slave_instance_ptr i2c_num)) p in
  let p := irq_enable (IRQN_I2C0_INTERRUPT + i2c_num) p in
  Ok (inst, s, <[enable := I2C_ENABLE_ENABLE]> r, p).
End slave_init.

(** ** Properties of the configuration *)
Lemma i2c_clk_init_run n s : n < 3 → ∃ s', i2c_clk_init n s = Ok s'.
Proof.
  intros Hn. unfold i2c_clk_init. rewrite (proj2 (Z.ltb_lt n _)) by done. cbn [negb].
  destruct (sysctl_clock_enable _ s) as [? s1]. destruct (sysctl_clock_set_threshold _ _ s1) as [? s2]. by exists s2.
Qed.
(** The bus clock is never slower than asked for and off by less than one count, as long as
    the count fits its sixteen bits; a slower clock wraps without notice. *)
Lemma i2c_init_counts n addr w clk s r s1 f : n < 3 → w = 7 ∨ w = 10 → 0 < clk →
  i2c_clk_init n s = Ok s1 → sysctl_clock_get_freq (sysctl_clock_to_Z SYSCTL_CLOCK_I2C0 + n) s1 = Ok f → in_width 32 f →
  ∃ r' p, i2c_init n addr w clk s r = Ok (s1, r') ∧ r' ss_scl_hcnt = p ∧ r' ss_scl_lcnt = p ∧ 0 < p < 2 ^ 16 ∧
    r' tar = addr ∧ r' enable = 1 ∧ r' con = (if w =? 10 then 0x6b else 0x63) ∧
    (2 * clk ≤ f < 2 ^ 17 * clk → 2 * p * clk ≤ f < 2 * (p + 1) * clk).
Proof.
  intros Hn Hw Hc E1 Ef Hf. unfold i2c_init. rewrite (proj2 (Z.ltb_lt n _)) by done. cbn [negb].
  replace ((w =? 7) || (w =? 10)) with true by (by destruct Hw as [-> | ->]). cbn [negb].
  rewrite E1. cbn [mbind res_bind]. rewrite Ef. cbn [mbind res_bind]. rewrite (wrap_id 32 f) by done.
  rewrite (proj2 (Z.eqb_neq clk 0)) by lia. set (q := f / clk / 2). set (p := if u16 q =? 0 then 1 else u16 q).
  eexists _, p. split; [done|].
  assert (Hp : 0 < p < 2 ^ 16).
  { unfold p. pose proof (wrap_range 16 q ltac:(lia)). destruct (Z.eqb_spec (u16 q) 0); lia. }
  split; [done|]. split; [done|]. split; [done|]. split; [done|]. split; [done|]. split; [by destruct Hw as [-> | ->]|].
  intros Hfit. assert (Hq : 1 ≤ q < 2 ^ 16).
  { unfold q. rewrite Z.div_div by lia. split; [apply Z.div_le_lower_bound; lia|apply Z.div_lt_upper_bound; lia]. }
  assert (p = q) as ->. { unfold p. rewrite (wrap_id 16) by lia. by rewrite (proj2 (Z.eqb_neq q 0)) by lia. }
  unfold q. rewrite Z.div_div by lia. pose proof (Z.mul_div_le f (clk * 2) ltac:(lia)).
  pose proof (Z.mul_succ_div_gt f (clk * 2) ltac:(lia)). lia.
Qed.
(** When the stop is seen together with the last byte, the handler of the user gets
    the stop first. *)
Lemma i2c_slave_irq_stop_first {W} (ev rcv : Z → W → W) tr v l ans (w : W) :
  i2c_slave_irq ev rcv tr (SlaveDev (Z.lor I2C_INTR_STOP_DET I2C_INTR_RX_FULL) (v :: l) ans w) =
  (0, SlaveDev I2C_INTR_RX_FULL l ans (rcv v (ev I2C_EV_STOP w))).
Proof. reflexivity. Qed.
(** The slave's interrupt is installed with its device. *)
Lemma i2c_init_as_slave_irq {P Hd} `{IrqController P i2c_fn i2c_ptr} n addr w (h : Hd) inst s r p :
  0 ≤ n < 3 → w = 7 ∨ w = 10 → ∃ inst' s' r' p', i2c_init_as_slave n addr w h inst s r p = Ok (inst', s', r', p') ∧
    inst' n = Some h ∧ irq_handler p' (IRQN_I2C0_INTERRUPT + n) = Some (i2c_slave_irq_fn, Some (slave_instance_ptr n)) ∧
    irq_enabled p' (IRQN_I2C0_INTERRUPT + n) = true ∧ r' slave_addr = addr ∧ r' enable = 1.
Proof.
  intros Hn Hw. unfold i2c_init_as_slave.
  replace ((w =? 7) || (w =? 10)) with true by (by destruct Hw as [-> | ->]). cbn [negb].
  destruct (i2c_clk_init_run n s) as [s1 ->]; [lia|]. cbn [mbind res_bind]. eexists _, _, _, _. split; [done|].
  split; [by rewrite fn_lookup_insert|]. split; [by rewrite irq_handler_enable, irq_handler_register, decide_True|].
  split; [apply irq_enabled_enable; unfold IRQN_I2C0_INTERRUPT, IRQN_MAX; lia|]. done.
Qed.
