(* ===== verification/Spi.v ===== *)
(** * SPI (k210_spi.c)

    Configuration, and the transfers in which the program itself fills and empties the
    FIFOs.  [engine] is what the register description says of the device: in each
    transfer mode, which frames go out, when frames come in, and that a frame for a full
    receive FIFO is lost.  It works at its own pace between the status reads of the driver
    (the parameter [step]); what is at the other end of the wires ([shift]) is a parameter
    too. *)

From S2P Require Import Prelude SysctlRegs Sysctl SysctlClock Gpio.

Definition SPI_DEVICE_MAX : Z := 4.
Definition SPI_FF_DUAL : Z := 1.
Definition SPI_FF_QUAD : Z := 2.
Definition SPI_FF_OCTAL : Z := 3.
Definition SPI_TMOD_TRANS_RECV : Z := 0.
Definition SPI_TMOD_TRANS : Z := 1.
Definition SPI_TMOD_RECV : Z := 2.
Definition SPI_TMOD_EEROM : Z := 3.
Definition SPI_TRANS_CHAR : nat := 1.
Definition SPI_TRANS_SHORT : nat := 2.
Definition SPI_TRANS_INT : nat := 4.

(** ** Registers *)
Inductive spi_reg : Set :=
| ctrlr0 | ctrlr1 | ssienr | ser | baudr | imr | dmacr | dmatdlr | dmardlr | spi_ctrlr0 | endian.
#[export] Instance spi_reg_eq_dec : EqDecision spi_reg.
Proof. solve_decision. Defined.

(** Where the fields of [ctrlr0] are depends on the device. *)
Definition dfs_offset (spi_num : Z) : Z := if (spi_num =? 0) || (spi_num =? 1) then 16 else 0.
Definition frf_offset (spi_num : Z) : Z := if (spi_num =? 0) || (spi_num =? 1) then 21 else 22.
Definition work_mode_offset (spi_num : Z) : Z := if (spi_num =? 0) || (spi_num =? 1) then 6 else 8.
Definition tmod_offset (spi_num : Z) : Z :=
  if (spi_num =? 0) || (spi_num =? 1) || (spi_num =? 2) then 8 else 10.
Definition good_num (spi_num : Z) : bool := (spi_num <? SPI_DEVICE_MAX) && negb (spi_num =? 2).
(** [(ctrlr0 >> dfs_offset) & 0x1F]: one less than the bits of a frame *)
Definition data_bit_length (spi_num : Z) (r : bank spi_reg) : Z :=
  Z.land (Z.shiftr (r ctrlr0) (dfs_offset spi_num)) 0x1F.
Definition tmod_of (spi_num : Z) (r : bank spi_reg) : Z :=
  Z.land (Z.shiftr (r ctrlr0) (tmod_offset spi_num)) 3.
Definition spi_get_frame_format (spi_num : Z) (r : bank spi_reg) : res Z :=
  if spi_num =? 2 then Fault FAssert else Ok (Z.land (Z.shiftr (r ctrlr0) (frf_offset spi_num)) 0x3).
Definition spi_get_frame_size (data_bit_length : Z) : nat :=
  if data_bit_length <? 8 then SPI_TRANS_CHAR
  else if data_bit_length <? 16 then SPI_TRANS_SHORT
  else SPI_TRANS_INT.

(** ** Configuration *)
Definition spi_clk_init (spi_num : Z) (s : bank sysctl_reg) : res (bank sysctl_reg) :=
  if negb (good_num spi_num) then Fault FAssert else
  let s := if spi_num =? 3
           then snd (sysctl_clock_set_clock_select (sysctl_clock_select_to_Z SYSCTL_CLOCK_SELECT_SPI3) 1 s) else s in
  let '(_, s) := sysctl_clock_enable (sysctl_clock_to_Z SYSCTL_CLOCK_SPI0 + spi_num) s in
  let '(_, s) := sysctl_clock_set_threshold (sysctl_threshold_to_Z SYSCTL_THRESHOLD_SPI0 + spi_num) 0 s in
  Ok s.
Definition set_tmod_bits (spi_num tmod : Z) (r : bank spi_reg) : bank spi_reg :=
  let off := tmod_offset spi_num in
  <[ctrlr0 := set_bit (r ctrlr0) (Z.shiftl 3 off) (Z.shiftl tmod off)]> r.
Definition spi_set_tmod (spi_num tmod : Z) (r : bank spi_reg) : res (bank spi_reg) :=
  if negb (spi_num <? SPI_DEVICE_MAX) then Fault FAssert else Ok (set_tmod_bits spi_num tmod r).
Definition spi_init (spi_num work_mode frame_format data_bit_length endian_v : Z)
    (s : bank sysctl_reg) (r : bank spi_reg) : res (bank sysctl_reg * bank spi_reg) :=
  if negb ((4 <=? data_bit_length) && (data_bit_length <=? 32)) then Fault FAssert else
  if negb (good_num spi_num) then Fault FAssert else
  s ← spi_clk_init spi_num s;
  if (frame_format =? SPI_FF_DUAL) && negb (data_bit_length mod 2 =? 0) then Fault FAssert else
  if (frame_format =? SPI_FF_QUAD) && negb (data_bit_length mod 4 =? 0) then Fault FAssert else
  if (frame_format =? SPI_FF_OCTAL) && negb (data_bit_length mod 8 =? 0) then Fault FAssert else
  let r := if r baudr =? 0 then <[baudr := 0x14]> r else r in
  let r := <[imr := 0x00]> r in
  let r := <[dmacr := 0x00]> r in
  let r := <[dmatdlr := 0x10]> r in
  let r := <[dmardlr := 0x00]> r in
  let r := <[ser := 0x00]> r in
  let r := <[ssienr := 0x00]> r in
  let r := <[ctrlr0 := Z.lor (Z.lor (Z.shiftl work_mode (work_mode_offset spi_num))
                                (Z.shiftl frame_format (frf_offset spi_num)))
                         (Z.shiftl (data_bit_length - 1) (dfs_offset spi_num))]> r in
  let r := <[spi_ctrlr0 := 0]> r in
  Ok (s, <[endian := endian_v]> r).
Definition spi_init_non_standard (spi_num instruction_length address_length wait_cycles
    instruction_address_trans_mode : Z) (r : bank spi_reg) : res (bank spi_reg) :=
  if negb (wait_cycles <? Z.shiftl 1 5) then Fault FAssert else
  if negb (instruction_address_trans_mode <? 3) then Fault FAssert else
  if negb (good_num spi_num) then Fault FAssert else
  inst_l ← (if instruction_length =? 0 then Ok 0
            else if instruction_length =? 4 then Ok 1
            else if instruction_length =? 8 then Ok 2
            else if instruction_length =? 16 then Ok 3
            else Fault FAssert);
  if negb ((address_length mod 4 =? 0) && (address_length <=? 60)) then Fault FAssert else
  let addr_l := address_length / 4 in
  Ok (<[spi_ctrlr0 := Z.lor (Z.lor (Z.lor (Z.shiftl wait_cycles 11) (Z.shiftl inst_l 8)) (Z.shiftl addr_l 2))
                        instruction_address_trans_mode]> r).
(** Frequencies are [uint32_t]. *)
Definition spi_set_clk_rate (spi_num spi_clk : Z) (s : bank sysctl_reg) (r : bank spi_reg)
  : res (Z * bank spi_reg) :=
  f ← sysctl_clock_get_freq (sysctl_clock_to_Z SYSCTL_CLOCK_SPI0 + spi_num) s;
  if spi_clk =? 0 then Fault FUB else
  let spi_baudr := u32 f / spi_clk in
  let spi_baudr := if spi_baudr <? 2 then 2 else if 65534 <? spi_baudr then 65534 else spi_baudr in
  Ok (u32 f / spi_baudr, <[baudr := spi_baudr]> r).

(** ** The device *)
Module Engine.
Section engine.
Context {W : Type} (spi_num : Z).
(** What comes back, and the other end afterwards, when a frame is shifted out, or when
    frames are only received ([None]).  The configuration says how many wires, which byte
    order, which chip select. *)
Context (shift : bank spi_reg → option Z → W → Z * W).

(** [txflr] and [rxflr] are the lengths of the FIFOs; [pending] are the frames that are
    still to be received; [busy] is the activity bit of the status register. *)
Record dev := Dev {
  regs : bank spi_reg; txf : list Z; rxf : list Z; pending : nat; busy : bool; bus : W
}.
Definition depth : nat := 32.
Definition on (r : bank spi_reg) : bool := negb (r ssienr =? 0) && negb (r ser =? 0).
Definition bits (r : bank spi_reg) : Z := data_bit_length spi_num r + 1.
(** The sixteen bits of [ctrlr1]: one less than the frames to receive *)
Definition ndf (r : bank spi_reg) : nat := Z.to_nat (wrap 16 (r ctrlr1) + 1).
Definition set_busy (b : bool) (d : dev) : dev := Dev d.(regs) d.(txf) d.(rxf) d.(pending) b d.(bus).
(** Register writes; disabling the device ends what it does and empties the FIFOs. *)
Definition wr (r : spi_reg) (v : Z) (d : dev) : dev :=
  if decide (r = ssienr ∧ v = 0) then Dev (<[r := v]> d.(regs)) [] [] 0 false d.(bus)
  else Dev (<[r := v]> d.(regs)) d.(txf) d.(rxf) d.(pending) d.(busy) d.(bus).
(** Writes to and reads from the data register *)
Definition put (c : Z) (d : dev) : dev :=
  if decide (length d.(txf) < depth)%nat
  then Dev d.(regs) (d.(txf) ++ [c]) d.(rxf) d.(pending) d.(busy) d.(bus) else d.
Definition get (d : dev) : Z * dev :=
  match d.(rxf) with
  | [] => (0, d)
  | v :: q => (v, Dev d.(regs) d.(txf) q d.(pending) d.(busy) d.(bus))
  end.
Definition push_rx (v : Z) (q : list Z) : list Z := if decide (length q < depth)%nat then q ++ [v] else q.
(** The next frame *)
Definition exec1 (d : dev) : dev :=
  let r := d.(regs) in
  if negb (on r) then d else
  match d.(pending), d.(txf) with
  | S p, q => let '(v, w) := shift r None d.(bus) in
              Dev r q (push_rx (wrap (bits r) v) d.(rxf)) p d.(busy) w
  | O, [] => d
  | O, c :: q =>
      if tmod_of spi_num r =? SPI_TMOD_RECV then Dev r q d.(rxf) (ndf r) d.(busy) d.(bus) else
      let '(v, w) := shift r (Some (wrap (bits r) c)) d.(bus) in
      if tmod_of spi_num r =? SPI_TMOD_TRANS_RECV then Dev r q (push_rx (wrap (bits r) v) d.(rxf)) 0 d.(busy) w
      else Dev r q d.(rxf)
             (if (tmod_of spi_num r =? SPI_TMOD_EEROM) && bool_decide (q = []) then ndf r else 0) d.(busy) w
  end.
Definition exec (k : nat) (d : dev) : dev := Nat.iter k exec1 d.
(** How often [exec1] has still something to do *)
Definition todo (d : dev) : nat :=
  if negb (on d.(regs)) then 0 else
  d.(pending) +
  if tmod_of spi_num d.(regs) =? SPI_TMOD_RECV then length d.(txf) * S (ndf d.(regs))
  else if tmod_of spi_num d.(regs) =? SPI_TMOD_EEROM
       then length d.(txf) + (if decide (d.(txf) = []) then 0 else ndf d.(regs))
  else length d.(txf).

(** What the hardware may do between two status reads: some of the frames.  It is not
    idle for more than [stall] reads while there is work, and busy not longer after it. *)
Class Pace (step : dev → dev) (slack : dev → nat) (stall : nat) := {
  pace_exec d : ∃ k b, step d = set_busy b (exec k d);
  pace_slack d : (slack d ≤ stall)%nat;
  pace_busy d : todo d ≠ O ∨ d.(busy) = true →
    (todo (step d) < todo d)%nat ∨ (todo (step d) = todo d ∧ (slack (step d) < slack d)%nat);
  pace_idle d : todo d = O → d.(busy) = false → (step d).(busy) = false
}.
(** A program that is quick against the bus: at most as many frames between two status
    reads as the FIFO holds *)
Class Slow (step : dev → dev) := {
  slow_exec d : ∃ k b, (k ≤ depth)%nat ∧ step d = set_busy b (exec k d)
}.
End engine.
Arguments dev : clear implicits.
Arguments pace_exec {W spi_num shift step slack stall Pace} d.
Arguments pace_slack {W spi_num shift step slack stall Pace} d.
Arguments pace_busy {W spi_num shift step slack stall Pace} d _.
Arguments pace_idle {W spi_num shift step slack stall Pace} d _ _.
Arguments slow_exec {W spi_num shift step Slow} d.
End Engine.

(** ** Transfers *)
Module Transfer.
Import Engine.
(** Little-endian elements of a byte buffer *)
Fixpoint le_value (bs : list Z) : Z :=
  match bs with [] => 0 | b :: bs => b + 256 * le_value bs end.
Fixpoint le_bytes (w : nat) (v : Z) : list Z :=
  match w with O => [] | S w => wrap 8 v :: le_bytes w (v / 256) end.
Definition load (w off : nat) (buf : list Z) : res Z :=
  if decide (off + w ≤ length buf)%nat then Ok (le_value (take w (drop off buf))) else Fault FUB.

Section transfer.
Context {W : Type} (spi_num : Z) (step : dev W → dev W).
Implicit Types d : dev W.

(** What the pass of a [for] loop writes to the data register: element [i] of the buffer, or,
    when the buffer is misaligned, what [memcpy] leaves in [v_send_data] at byte [i], whose
    upper half is not initialised for 16-bit elements ([junk]). *)
Definition tx_elem (w : nat) (mis : bool) (junk : Z) (buf : list Z) (i : nat) : res Z :=
  v ← load w (if mis then i else w * i)%nat buf;
  Ok (if mis && bool_decide (w = SPI_TRANS_SHORT) then Z.lor (Z.land junk 0xffff0000) v else v).
Fixpoint put_elems (k : nat) (elem : nat → res Z) (stride i : nat) d : res (nat * dev W) :=
  match k with
  | O => Ok (i, d)
  | S k => v ← elem i; put_elems k elem stride (i + stride) (put v d)
  end.
(** [while(tx_len)]: [tx_len] counts bytes. *)
Fixpoint send_loop (fuel w : nat) (mis : bool) (junk : Z) (buf : list Z) (i tx_len : nat) d : res (dev W) :=
  match tx_len with
  | O => Ok d
  | S _ =>
      match fuel with
      | O => Fault FFuel
      | S fuel =>
          let d := step d in
          let fifo_len := Nat.min (32 - length d.(txf)) tx_len in
          let fifo_len := (fifo_len / w * w)%nat in
          '(i, d) ← put_elems (fifo_len / w) (tx_elem w mis junk buf) (if mis then w else 1) i d;
          send_loop fuel w mis junk buf i (tx_len - fifo_len) d
      end
  end.
(** [while((sr & 0x05) != 0x04) ;] *)
Fixpoint wait_loop (fuel : nat) d : res (dev W) :=
  match fuel with
  | O => Fault FFuel
  | S fuel => let d := step d in
              if negb d.(busy) && bool_decide (d.(txf) = []) then Ok d else wait_loop fuel d
  end.
Definition set_tmod (tmod : Z) d : res (dev W) :=
  r ← spi_set_tmod spi_num tmod d.(regs);
  Ok (Dev r d.(txf) d.(rxf) d.(pending) d.(busy) d.(bus)).
Definition frame_width d : nat := spi_get_frame_size (data_bit_length spi_num d.(regs)).
Definition finish d : dev W := wr ssienr 0x00 (wr ser 0x00 d).
Definition spi_send_data_normal (fuel : nat) (chip_select : Z) (junk addr : Z) (tx_buff : list Z) d : res (dev W) :=
  if negb (good_num spi_num) then Fault FAssert else
  d ← set_tmod SPI_TMOD_TRANS d;
  let w := frame_width d in
  let v_misalign_flag := negb (addr mod Z.of_nat w =? 0) in
  let d := wr ssienr 0x01 d in
  let d := wr ser (u32 (Z.shiftl 1 chip_select)) d in
  d ← send_loop fuel w v_misalign_flag junk tx_buff 0 (length tx_buff) d;
  d ← wait_loop fuel d;
  Ok (finish d).
(** [rt_malloc_align] gives an address, or null; the code writes to it all the same. *)
Definition spi_send_data_standard (fuel : nat) (rt_malloc_align : Z → option Z) (chip_select junk : Z)
    (cmd_buff tx_buff : list Z) d : res (dev W) :=
  if negb (good_num spi_num) then Fault FAssert else
  match rt_malloc_align (Z.of_nat (length cmd_buff + length tx_buff)) with
  | Some v_buf => spi_send_data_normal fuel chip_select junk v_buf (cmd_buff ++ tx_buff) d
  | None => if decide (cmd_buff ++ tx_buff = []) then spi_send_data_normal fuel chip_select junk 0 [] d else Fault FUB
  end.

(** Elements read from the data register, as they are stored in the receive buffer *)
Fixpoint get_elems (k w : nat) d : list Z * dev W :=
  match k with
  | O => ([], d)
  | S k => let '(v, d) := get d in let '(bs, d) := get_elems k w d in (le_bytes w v ++ bs, d)
  end.
(** [while(v_cmd_len)] and [while(v_rx_len)]: these count elements. *)
Fixpoint cmd_loop (fuel w : nat) (chip_select : Z) (buf : list Z) (i v_cmd_len : nat) d : res (dev W) :=
  match v_cmd_len with
  | O => Ok d
  | S _ =>
      match fuel with
      | O => Fault FFuel
      | S fuel =>
          let d := step d in
          let fifo_len := Nat.min (32 - length d.(txf)) v_cmd_len in
          '(i, d) ← put_elems fifo_len (tx_elem w false 0 buf) 1 i d;
          let d := wr ser (u32 (Z.shiftl 1 chip_select)) d in
          cmd_loop fuel w chip_select buf i (v_cmd_len - fifo_len) d
      end
  end.
Fixpoint recv_loop (fuel w v_rx_len : nat) (out : list Z) d : res (list Z * dev W) :=
  match v_rx_len with
  | O => Ok (out, d)
  | S _ =>
      match fuel with
      | O => Fault FFuel
      | S fuel =>
          let d := step d in
          let fifo_len := Nat.min (length d.(rxf)) v_rx_len in
          let '(bs, d) := get_elems fifo_len w d in
          recv_loop fuel w (v_rx_len - fifo_len) (out ++ bs) d
      end
  end.
(** The result has the bytes stored; what is behind them in the buffer stays. *)
Definition spi_receive_data_standard (fuel : nat) (chip_select : Z) (cmd_buff : list Z) (rx_len : nat) d
  : res (list Z * dev W) :=
  if negb (good_num spi_num) then Fault FAssert else
  d ← set_tmod (if decide (cmd_buff = []) then SPI_TMOD_RECV else SPI_TMOD_EEROM) d;
  let w := frame_width d in
  let v_cmd_len := (length cmd_buff / w)%nat in
  let v_rx_len := (rx_len / w)%nat in
  let d := wr ctrlr1 (u32 (Z.of_nat v_rx_len - 1)) d in
  let d := wr ssienr 0x01 d in
  d ← cmd_loop fuel w chip_select cmd_buff 0 v_cmd_len d;
  let d := if decide (cmd_buff = [])
           then wr ser (u32 (Z.shiftl 1 chip_select)) (put 0xffffffff d) else d in
  '(out, d) ← recv_loop fuel w v_rx_len [] d;
  Ok (out, finish d).

(** [while(rx_len)] of the duplex transfer: [rx_len] counts bytes again, the level of the FIFO
    counts elements. *)
Fixpoint transfer_rx_loop (fuel w rx_len : nat) (out : list Z) d : res (list Z * dev W) :=
  match rx_len with
  | O => Ok (out, d)
  | S _ =>
      match fuel with
      | O => Fault FFuel
      | S fuel =>
          let d := step d in
          let fifo_len := Nat.min (length d.(rxf)) rx_len in
          let fifo_len := (fifo_len / w * w)%nat in
          let '(bs, d) := get_elems (fifo_len / w) w d in
          transfer_rx_loop fuel w (rx_len - fifo_len) (out ++ bs) d
      end
  end.
(** [rx_buff] says whether there is a receive buffer. *)
Definition spi_transfer_data_standard (fuel : nat) (chip_select : Z) (tx_buff : list Z) (rx_buff : bool) d
  : res (list Z * dev W) :=
  if negb (good_num spi_num) then Fault FAssert else
  if decide (tx_buff = []) then Fault FAssert else
  d ← set_tmod SPI_TMOD_TRANS_RECV d;
  let w := frame_width d in
  let d := wr ctrlr1 (u32 (Z.of_nat (length tx_buff / w) - 1)) d in
  let d := wr ssienr 0x01 d in
  let d := wr ser (u32 (Z.shiftl 1 chip_select)) d in
  d ← send_loop fuel w false 0 tx_buff 0 (length tx_buff) d;
  d ← wait_loop fuel d;
  '(out, d) ← (if rx_buff then transfer_rx_loop fuel w (length tx_buff) [] d else Ok ([], d));
  Ok (out, finish d).
End transfer.

(** ** What a device does in the end *)
Section outcome.
Context {W : Type} (spi_num : Z) (shift : bank spi_reg → option Z → W → Z * W).
Notation exec1 := (exec1 spi_num shift).
Notation exec := (exec spi_num shift).
Notation todo := (todo spi_num).
Notation bits := (bits spi_num).
Implicit Types (d : dev W) (r : bank spi_reg).
(** Frames shifted out and what came back, and frames received *)
Fixpoint exchange r (fs : list Z) (w : W) : list Z * W :=
  match fs with
  | [] => ([], w)
  | c :: fs => let '(v, w) := shift r (Some (wrap (bits r) c)) w in
               let '(vs, w) := exchange r fs w in (wrap (bits r) v :: vs, w)
  end.
Fixpoint receive r (n : nat) (w : W) : list Z * W :=
  match n with
  | O => ([], w)
  | S n => let '(v, w) := shift r None w in
           let '(vs, w) := receive r n w in (wrap (bits r) v :: vs, w)
  end.

Lemma exchange_length r fs w : length (fst (exchange r fs w)) = length fs.
Proof.
  revert w. induction fs as [|c fs IH]; intros w; cbn [exchange]; [done|].
  destruct (shift _ _ _) as [v w1]. specialize (IH w1). destruct (exchange r fs w1). cbn in *. by rewrite IH.
Qed.
Lemma receive_length r n w : length (fst (receive r n w)) = n.
Proof.
  revert w. induction n as [|n IH]; intros w; cbn [receive]; [done|].
  destruct (shift _ _ _) as [v w1]. specialize (IH w1). destruct (receive r n w1). cbn in *. by rewrite IH.
Qed.

(** ** The engine does its work and then stops *)
Lemma exec1_regs d : (exec1 d).(regs) = d.(regs).
Proof.
  unfold Engine.exec1. destruct (negb (on (regs d))); [done|]. destruct (pending d); [destruct (txf d); [done|]|];
    repeat case_match; done.
Qed.
Lemma exec_regs k d : (exec k d).(regs) = d.(regs).
Proof. induction k as [|k IH]; [done|]. change (exec (S k) d) with (exec1 (exec k d)). by rewrite exec1_regs. Qed.
Lemma exec1_idle d : todo d = O → exec1 d = d.
Proof.
  unfold Engine.todo, Engine.exec1. destruct (negb (on (regs d))); [done|]. destruct (pending d); [|done].
  destruct (txf d) as [|c q]; [done|]. cbn [length]. repeat case_match; done.
Qed.
Lemma exec_idle k d : todo d = O → exec k d = d.
Proof. intros Ht. induction k as [|k IH]; [done|]. change (exec (S k) d) with (exec1 (exec k d)). by rewrite IH, exec1_idle. Qed.
Lemma exec1_todo d : todo (exec1 d) = pred (todo d).
Proof.
  unfold Engine.todo. rewrite exec1_regs. unfold Engine.exec1. destruct (negb (on (regs d))) eqn:Eon; [done|].
  destruct (pending d) as [|p] eqn:Ep.
  - destruct (txf d) as [|c q] eqn:Eq; [cbn; rewrite Ep, Eq; repeat case_match; done|].
    destruct (tmod_of spi_num (regs d) =? SPI_TMOD_RECV) eqn:Er; [cbn [pending txf length Nat.mul pred]; lia|].
    destruct (shift _ _ _) as [v w]. destruct (tmod_of spi_num (regs d) =? SPI_TMOD_TRANS_RECV) eqn:Et.
    + apply Z.eqb_eq in Et. rewrite Et. cbn [pending txf length]. done.
    + cbn [pending txf length]. rewrite (decide_False (P := c :: q = [])) by done.
      destruct (tmod_of spi_num (regs d) =? SPI_TMOD_EEROM) eqn:Ee; cbn [andb]; [|done].
      destruct q; [rewrite bool_decide_eq_true_2, decide_True by done|rewrite bool_decide_eq_false_2, decide_False by done]; cbn [length]; lia.
  - destruct (shift _ _ _) as [v w]. cbn [pending txf]. repeat case_match; cbn [pred]; lia.
Qed.
Lemma exec_todo k d : todo (exec k d) = (todo d - k)%nat.
Proof.
  induction k as [|k IH]; [cbn; lia|]. change (exec (S k) d) with (exec1 (exec k d)). rewrite exec1_todo, IH. lia.
Qed.
Lemma todo_set_busy b d : todo (set_busy b d) = todo d.
Proof. done. Qed.

(** ** Sending, with or without receiving what comes back *)
Record duplex d : Prop := {
  dx_on : on d.(regs) = true;
  dx_mode : tmod_of spi_num d.(regs) = SPI_TMOD_TRANS_RECV ∨ tmod_of spi_num d.(regs) = SPI_TMOD_TRANS;
  dx_pending : d.(pending) = O;
  dx_tx : (length d.(txf) ≤ depth)%nat;
  dx_rx : (length d.(rxf) ≤ depth)%nat
}.
(** The receive FIFO and the other end once the frames in the FIFO, and then [rest], have been
    shifted out *)
Definition outcome d (rest : list Z) : list Z * W :=
  let '(vs, w) := exchange d.(regs) (d.(txf) ++ rest) d.(bus) in
  (if tmod_of spi_num d.(regs) =? SPI_TMOD_TRANS_RECV then take depth (d.(rxf) ++ vs) else d.(rxf), w).
Lemma duplex_todo d : duplex d → todo d = length d.(txf).
Proof. intros [Ho Hm Hp _ _]. unfold Engine.todo. rewrite Ho, Hp. by destruct Hm as [-> | ->]. Qed.
Lemma push_rx_take v q vs : (length q ≤ depth)%nat → take depth (push_rx v q ++ vs) = take depth (q ++ v :: vs).
Proof.
  intros Hl. unfold push_rx. case_decide; [by rewrite <-app_assoc|].
  rewrite !take_app_le by lia. done.
Qed.
Lemma push_rx_length v q : (length q ≤ depth)%nat → (length (push_rx v q) ≤ depth)%nat.
Proof. intros. unfold push_rx. case_decide; rewrite ?length_app; cbn [length]; lia. Qed.
Lemma duplex_exec1 d : duplex d → duplex (exec1 d) ∧ ∀ rest, outcome (exec1 d) rest = outcome d rest.
Proof.
  intros [Ho Hm Hp Htx Hrx]. unfold Engine.exec1. rewrite Ho, Hp. cbn [negb].
  destruct (txf d) as [|c q] eqn:Eq; [split; [constructor; try done; by rewrite Eq|done]|].
  assert (Hr : tmod_of spi_num (regs d) =? SPI_TMOD_RECV = false) by (by destruct Hm as [-> | ->]).
  assert (He : tmod_of spi_num (regs d) =? SPI_TMOD_EEROM = false) by (by destruct Hm as [-> | ->]).
  rewrite Hr, He. cbn [andb]. destruct (shift _ _ _) as [v w] eqn:Es. cbn [length] in Htx.
  destruct (tmod_of spi_num (regs d) =? SPI_TMOD_TRANS_RECV) eqn:Et.
  - split; [constructor; cbn [regs txf rxf pending]; [done..|lia|by apply push_rx_length]|].
    intros rest. unfold outcome. cbn [regs txf rxf bus]. rewrite Eq, Et. cbn [app exchange]. rewrite Es.
    destruct (exchange (regs d) (q ++ rest) w) as [vs w']. by rewrite push_rx_take.
  - split; [constructor; cbn [regs txf rxf pending]; [done..|lia|done]|].
    intros rest. unfold outcome. cbn [regs txf rxf bus]. rewrite Eq, Et. cbn [app exchange]. rewrite Es.
    by destruct (exchange (regs d) (q ++ rest) w) as [vs w'].
Qed.
Lemma duplex_exec k d : duplex d → duplex (exec k d) ∧ ∀ rest, outcome (exec k d) rest = outcome d rest.
Proof.
  intros Hd. induction k as [|k [IH1 IH2]]; [done|]. change (exec (S k) d) with (exec1 (exec k d)).
  destruct (duplex_exec1 _ IH1) as [H1 H2]. split; [done|]. intros rest. by rewrite H2.
Qed.
(** Frames behind those in the FIFO *)
Definition add_tx (cs : list Z) d : dev W := Dev d.(regs) (d.(txf) ++ cs) d.(rxf) d.(pending) d.(busy) d.(bus).
Lemma put_elems_ok k elem stride i d (f : nat → Z) : (length d.(txf) + k ≤ depth)%nat →
  (∀ j, (j < k)%nat → elem (i + stride * j)%nat = Ok (f j)) →
  put_elems k elem stride i d = Ok ((i + stride * k)%nat, add_tx (f <$> seq 0 k) d).
Proof.
  revert i d f. induction k as [|k IH]; intros i d f Hl He; cbn [put_elems seq].
  - rewrite Nat.mul_0_r, Nat.add_0_r. unfold add_tx. cbn. rewrite app_nil_r. by destruct d.
  - pose proof (He 0%nat ltac:(lia)) as H0. rewrite Nat.mul_0_r, Nat.add_0_r in H0. rewrite H0. cbn [mbind res_bind].
    unfold put. rewrite decide_True by lia.
    rewrite (IH _ _ (λ j, f (S j))); cbn [txf]; [|rewrite length_app; cbn; lia|].
    + do 2 f_equal; [lia|]. unfold add_tx. cbn [regs txf rxf pending busy bus]. f_equal. rewrite <-app_assoc. cbn [app fmap list_fmap].
      by rewrite <-(fmap_S_seq 0), <-list_fmap_compose.
    + intros j Hj. rewrite <-(He (S j)) by lia. f_equal. lia.
Qed.
Lemma duplex_add cs d : duplex d → (length d.(txf) + length cs ≤ depth)%nat →
  duplex (add_tx cs d) ∧ ∀ rest, outcome (add_tx cs d) rest = outcome d (cs ++ rest).
Proof.
  intros [] Hl. split; [constructor; cbn [add_tx regs txf rxf pending]; rewrite ?length_app; done|].
  intros rest. unfold outcome, add_tx. cbn [regs txf rxf bus]. by rewrite <-app_assoc.
Qed.

(** ** Progress *)
Section paced.
Context (step : dev W → dev W) (slack : dev W → nat) (stall : nat) `{!Pace spi_num shift step slack stall}.
(** Fuel for [c] units of work *)
Definition cost (c : nat) d : nat := (c * S stall + slack d)%nat.
Lemma step_regs d : (step d).(regs) = d.(regs).
Proof. destruct (pace_exec d) as (k & b & ->). cbn [set_busy regs]. apply exec_regs. Qed.
Lemma step_todo d : (todo (step d) ≤ todo d)%nat.
Proof. destruct (pace_exec d) as (k & b & ->). rewrite todo_set_busy, exec_todo. lia. Qed.
Lemma step_duplex d : duplex d → duplex (step d) ∧ ∀ rest, outcome (step d) rest = outcome d rest.
Proof.
  intros Hd. destruct (pace_exec d) as (k & b & ->). destruct (duplex_exec k d Hd) as [[] Ho].
  split; [by constructor|]. exact Ho.
Qed.
Lemma step_idle d : todo d = O → d.(busy) = false → step d = d.
Proof.
  intros Ht Hb. pose proof (pace_idle d Ht Hb) as Hb'. destruct (pace_exec d) as (k & b & E). rewrite E in Hb' |- *.
  rewrite (exec_idle k d Ht) in *. destruct d. cbn in *. by subst.
Qed.
Lemma cost_less c c' d d' : (c' < c)%nat → (cost c' d' < cost c d)%nat.
Proof. intros Hc. unfold cost. pose proof (pace_slack d'). nia. Qed.
Lemma cost_step c d : todo d ≠ O ∨ d.(busy) = true → (cost (c + todo (step d)) (step d) < cost (c + todo d) d)%nat.
Proof.
  intros Hw. destruct (pace_busy d Hw) as [Hl|[-> Hl]]; [apply cost_less; lia|]. unfold cost. lia.
Qed.

Definition width_ok (w : nat) : Prop := w = 1%nat ∨ w = 2%nat ∨ w = 4%nat.
(** Element [j] as it is written to the data register *)
Definition raw (w : nat) (mis : bool) (junk : Z) (buf : list Z) (j : nat) : Z :=
  let v := le_value (take w (drop (w * j) buf)) in
  if mis && bool_decide (w = SPI_TRANS_SHORT) then Z.lor (Z.land junk 0xffff0000) v else v.
Definition index (w : nat) (mis : bool) (b : nat) : nat := if mis then w * b else b.
Lemma tx_elem_raw w mis junk buf j : (w * j + w ≤ length buf)%nat →
  tx_elem w mis junk buf (index w mis j) = Ok (raw w mis junk buf j).
Proof.
  intros Hj. unfold tx_elem, load, index. replace (if mis then _ else _) with (w * j)%nat by (by destruct mis).
  by rewrite decide_True.
Qed.
(** One pass of the loop: [k] elements from element [b] *)
Lemma put_pass w mis junk buf b k d : duplex d → (length d.(txf) + k ≤ depth)%nat → (w * (b + k) ≤ length buf)%nat →
  put_elems k (tx_elem w mis junk buf) (if mis then w else 1) (index w mis b) d =
  Ok (index w mis (b + k), add_tx ((λ j, raw w mis junk buf (b + j)) <$> seq 0 k) d).
Proof.
  intros Hd Hl Hb. rewrite (put_elems_ok _ _ _ _ _ (λ j, raw w mis junk buf (b + j))); [|done|].
  - do 2 f_equal. unfold index. destruct mis; lia.
  - intros j Hj. rewrite <-tx_elem_raw by nia. f_equal. unfold index. destruct mis; lia.
Qed.
Lemma chunk_bound w free n : w ≠ O → ((Nat.min free n / w) * w ≤ n ∧ Nat.min free n / w ≤ free)%nat.
Proof.
  intros Hw. pose proof (Nat.Div0.mul_div_le (Nat.min free n) w).
  assert (Nat.min free n / w ≤ Nat.min free n)%nat by (apply Nat.Div0.div_le_upper_bound; nia). nia.
Qed.
Lemma send_loop_ok w mis junk buf fuel b n d : width_ok w → duplex d → length buf = (w * (b + n))%nat →
  (cost (2 * (w * n) + todo d) d < fuel)%nat →
  ∃ d', send_loop step fuel w mis junk buf (index w mis b) (w * n) d = Ok d' ∧ duplex d' ∧ d'.(regs) = d.(regs) ∧
    outcome d' [] = outcome d ((λ j, raw w mis junk buf (b + j)) <$> seq 0 n).
Proof.
  intros Hw. assert (Hw0 : (1 ≤ w ≤ 4)%nat) by (unfold width_ok in Hw; lia).
  revert b n d. induction fuel as [|fuel IH]; intros b n d Hd Hb Hf; [lia|].
  destruct (decide (n = O)) as [->|Hn]; [rewrite Nat.mul_0_r; by exists d|].
  cbn [send_loop]. destruct (w * n)%nat as [|n0] eqn:En; [lia|]. rewrite <-En in *. clear n0 En.
  destruct (step_duplex d Hd) as [Hd1 Ho1]. pose proof (step_todo d) as Ht. pose proof (step_regs d) as Hr.
  pose proof (cost_step (2 * (w * n)) d) as Hc. rewrite !duplex_todo in Ht, Hc by done. rewrite duplex_todo in Hf by done.
  set (d1 := step d) in *. set (k := (Nat.min (32 - length (txf d1)) (w * n) / w)%nat).
  destruct (chunk_bound w (32 - length (txf d1)) (w * n)) as [Hk1 Hk2]; [lia|]. fold k in Hk1, Hk2.
  pose proof (dx_tx _ Hd1) as Hl1. change depth with 32%nat in Hl1. rewrite Nat.div_mul by lia.
  rewrite put_pass; [|done|change depth with 32%nat; lia|nia]. cbn [mbind res_bind].
  set (cs := (λ j, raw w mis junk buf (b + j)) <$> seq 0 k).
  assert (Hlc : length cs = k) by (unfold cs; by rewrite length_fmap, length_seq).
  destruct (duplex_add cs d1 Hd1) as [Hd2 Ho2]; [change depth with 32%nat; lia|].
  replace (w * n - k * w)%nat with (w * (n - k))%nat by nia.
  destruct (IH (b + k)%nat (n - k)%nat (add_tx cs d1) Hd2) as (d' & E & Hd' & Hr' & Ho'); [nia| |].
  { rewrite duplex_todo by done. destruct (decide (k = O)) as [Ek|Ek].
    - assert (Hne : length (txf d) ≠ O).
      { intros H0. assert (length (txf d1) = O) by lia. unfold k in Ek. apply Nat.div_small_iff in Ek; [nia|lia]. }
      assert (cs = []) as -> by (destruct cs; [done|cbn in Hlc; lia]). rewrite Ek, Nat.sub_0_r.
      replace (add_tx [] d1) with d1 by (unfold add_tx; rewrite app_nil_r; by destruct d1).
      specialize (Hc ltac:(by left)). lia.
    - cbn [add_tx txf]. rewrite length_app, Hlc.
      pose proof (cost_less (2 * (w * n) + length (txf d)) (2 * (w * (n - k)) + (length (txf d1) + k)) d (add_tx cs d1)
        ltac:(nia)). lia. }
  exists d'. split; [exact E|]. split; [done|]. split; [by rewrite Hr'|].
  rewrite Ho', Ho2, Ho1. f_equal. unfold cs. replace n with (k + (n - k))%nat at 2 by nia.
  rewrite seq_app, fmap_app, Nat.add_0_l. f_equal. replace (seq k (n - k)) with (Nat.add k <$> seq 0 (n - k)) by (by rewrite fmap_add_seq, Nat.add_0_r).
  rewrite <-list_fmap_compose.
  apply list_fmap_ext. intros ? j _. cbn. f_equal. lia.
Qed.
(** A rest that does not fill an element keeps the loop going for ever. *)
Lemma send_loop_short w mis junk buf fuel b n d : width_ok w → duplex d → length buf = (w * b + n)%nat →
  (n mod w ≠ 0)%nat → send_loop step fuel w mis junk buf (index w mis b) n d = Fault FFuel.
Proof.
  intros Hw. assert (Hw0 : (1 ≤ w ≤ 4)%nat) by (unfold width_ok in Hw; lia).
  revert b n d. induction fuel as [|fuel IH]; intros b n d Hd Hb Hn; (destruct n as [|n0] eqn:En; [by rewrite Nat.Div0.mod_0_l in Hn|]);
    cbn [send_loop]; [done|]. rewrite <-En in *. clear n0 En.
  destruct (step_duplex d Hd) as [Hd1 _]. set (d1 := step d) in *.
  set (k := (Nat.min (32 - length (txf d1)) n / w)%nat).
  destruct (chunk_bound w (32 - length (txf d1)) n) as [Hk1 Hk2]; [lia|]. fold k in Hk1, Hk2.
  pose proof (dx_tx _ Hd1) as Hl1. change depth with 32%nat in Hl1. rewrite Nat.div_mul by lia.
  rewrite put_pass; [|done|change depth with 32%nat; lia|nia]. cbn [mbind res_bind].
  apply IH; [|nia|].
  - apply duplex_add; [done|]. rewrite length_fmap, length_seq. change depth with 32%nat. lia.
  - intros Hm. apply Hn. replace n with (n - k * w + k * w)%nat by lia. by rewrite Nat.Div0.mod_add.
Qed.
Lemma wait_loop_ok fuel d : duplex d → (cost (todo d) d < fuel)%nat →
  ∃ d', wait_loop step fuel d = Ok d' ∧ duplex d' ∧ d'.(regs) = d.(regs) ∧ d'.(txf) = [] ∧ d'.(busy) = false ∧
    ∀ rest, outcome d' rest = outcome d rest.
Proof.
  revert d. induction fuel as [|fuel IH]; intros d Hd Hf; [lia|]. cbn [wait_loop].
  destruct (step_duplex d Hd) as [Hd1 Ho1]. pose proof (step_regs d) as Hr. pose proof (step_todo d) as Ht.
  destruct (busy (step d)) eqn:Eb; [|case_bool_decide as Eq]; cbn [negb andb].
  2: { exists (step d). by rewrite Hr. }
  all: assert (Hw : todo d ≠ O ∨ busy d = true);
    [destruct (decide (todo d = O)) as [E0|]; [|by left]; destruct (busy d) eqn:Ebd; [by right|]; exfalso|
     destruct (IH (step d) Hd1) as (d' & E & ? & Hr' & ? & ? & Ho');
      [pose proof (cost_step 0 d Hw) as Hc; rewrite !Nat.add_0_l in Hc; lia|];
     exists d'; rewrite E, Hr', Hr; split_and!; [done..|]; intros rest; by rewrite Ho'].
  - by rewrite (pace_idle d E0 Ebd) in Eb.
  - apply Eq. rewrite E0, duplex_todo in Ht by done. destruct (txf (step d)); [done|]. cbn [length] in Ht. lia.
Qed.

(** ** Emptying the receive FIFO *)
Definition set_rx (q : list Z) d : dev W := Dev d.(regs) d.(txf) q d.(pending) d.(busy) d.(bus).
Definition stored (w : nat) (vs : list Z) : list Z := concat (le_bytes w <$> vs).
Lemma get_elems_prefix k w d : (k ≤ length d.(rxf))%nat →
  get_elems k w d = (stored w (take k d.(rxf)), set_rx (drop k d.(rxf)) d).
Proof.
  revert d. induction k as [|k IH]; intros d Hk; cbn [get_elems take drop]; [unfold set_rx; by destruct d|].
  unfold get. destruct (rxf d) as [|v q] eqn:Eq; [cbn in Hk; lia|]. cbn [length] in Hk.
  rewrite IH by (cbn [rxf]; lia). done.
Qed.
(** The receiving loop of the duplex transfer, when the device is idle: single bytes come out,
    wider elements never do. *)
Lemma transfer_rx_bytes fuel out d : todo d = O → d.(busy) = false → (0 < fuel)%nat →
  transfer_rx_loop step fuel 1 (length d.(rxf)) out d = Ok (out ++ stored 1 d.(rxf), set_rx [] d).
Proof.
  intros Ht Hb Hf. destruct fuel as [|fuel]; [lia|]. cbn [transfer_rx_loop]. rewrite step_idle by done.
  destruct (length (rxf d)) as [|n] eqn:El.
  - assert (rxf d = []) as E by (by destruct (rxf d)). rewrite E. cbn. rewrite app_nil_r. do 2 f_equal. unfold set_rx. destruct d; cbn in *; by subst.
  - rewrite <-El. rewrite Nat.min_id, Nat.div_1_r, Nat.mul_1_r, Nat.div_1_r, get_elems_prefix by done.
    rewrite firstn_all, skipn_all, Nat.sub_diag. by destruct fuel.
Qed.
Lemma transfer_rx_stuck fuel w rx_len out d : width_ok w → todo d = O → d.(busy) = false → rx_len ≠ O →
  (length d.(rxf) * w ≤ rx_len)%nat → (w = 1%nat → (length d.(rxf) < rx_len)%nat) →
  transfer_rx_loop step fuel w rx_len out d = Fault FFuel.
Proof.
  intros Hw. assert (Hw0 : (1 ≤ w ≤ 4)%nat) by (unfold width_ok in Hw; lia).
  revert rx_len out d. induction fuel as [|fuel IH]; intros rx_len out d Ht Hb Hr Hl H1;
    (destruct rx_len as [|n] eqn:En; [done|]); cbn [transfer_rx_loop]; [done|]. rewrite <-En in *. clear n En.
  rewrite step_idle by done. destruct (chunk_bound w (length (rxf d)) rx_len) as [Hk1 Hk2]; [lia|].
  rewrite Nat.div_mul by lia. set (k := (Nat.min (length (rxf d)) rx_len / w)%nat) in *.
  assert (Hk3 : (k * w ≤ length (rxf d))%nat).
  { unfold k. pose proof (Nat.Div0.mul_div_le (Nat.min (length (rxf d)) rx_len) w). lia. }
  rewrite get_elems_prefix by lia. apply IH; [done|done|..]; unfold set_rx; cbn [rxf]; rewrite ?length_drop; nia.
Qed.

(** ** Receiving *)
Record receiving d : Prop := {
  rc_on : on d.(regs) = true;
  rc_mode : (tmod_of spi_num d.(regs) = SPI_TMOD_RECV ∧ (length d.(txf) ≤ 1)%nat) ∨
            tmod_of spi_num d.(regs) = SPI_TMOD_EEROM;
  rc_one : d.(pending) = O ∨ d.(txf) = []
}.
(** The frames to come, and the other end after them *)
Definition coming d : list Z * W :=
  match d.(pending), d.(txf) with
  | O, [] => ([], d.(bus))
  | O, q => receive d.(regs) (ndf d.(regs))
              (if tmod_of spi_num d.(regs) =? SPI_TMOD_RECV then d.(bus) else snd (exchange d.(regs) q d.(bus)))
  | S p, _ => receive d.(regs) (S p) d.(bus)
  end.
Lemma coming_nil d p : d.(txf) = [] → d.(pending) = p → coming d = receive d.(regs) p d.(bus).
Proof. intros Hq Hp. unfold coming. rewrite Hq, Hp. by destruct p. Qed.
Lemma receiving_exec1 d : receiving d → (length d.(rxf) < depth)%nat →
  receiving (exec1 d) ∧ (length (exec1 d).(rxf) ≤ S (length d.(rxf)))%nat ∧
  (exec1 d).(rxf) ++ fst (coming (exec1 d)) = d.(rxf) ++ fst (coming d) ∧ snd (coming (exec1 d)) = snd (coming d).
Proof.
  intros [Ho Hm H1] Hl. unfold Engine.exec1. rewrite Ho. cbn [negb]. destruct (pending d) as [|p] eqn:Ep.
  - destruct (txf d) as [|c q] eqn:Eq; [split; [by constructor; rewrite ?Ep, ?Eq; auto|]; split; [lia|done]|].
    assert (Hcd : coming d = receive (regs d) (ndf (regs d)) (if tmod_of spi_num (regs d) =? SPI_TMOD_RECV then bus d
      else snd (exchange (regs d) (c :: q) (bus d)))) by (unfold coming; by rewrite Ep, Eq).
    rewrite Hcd. clear Hcd. destruct Hm as [[Hm Hq]|Hm]; rewrite Hm in *; cbn [Z.eqb].
    + change (SPI_TMOD_RECV =? SPI_TMOD_RECV) with true. cbn [length] in Hq. destruct q; [|cbn in Hq; lia].
      split; [constructor; cbn [regs txf pending]; auto|]. split; [cbn; lia|].
      by erewrite (coming_nil _ (ndf (regs d))) by done.
    + change (SPI_TMOD_EEROM =? SPI_TMOD_RECV) with false. change (SPI_TMOD_EEROM =? SPI_TMOD_TRANS_RECV) with false.
      change (SPI_TMOD_EEROM =? SPI_TMOD_EEROM) with true. cbn [andb]. cbn [exchange]. destruct (shift _ _ _) as [v w].
      split; [constructor; cbn [regs txf pending]; [done|by right|]|split; [cbn; lia|]].
      { destruct q; [by right|]. rewrite bool_decide_eq_false_2 by done. by left. }
      destruct q as [|c' q].
      * rewrite bool_decide_eq_true_2 by done. by erewrite (coming_nil _ (ndf (regs d))) by done.
      * rewrite bool_decide_eq_false_2 by done. unfold coming. cbn [pending txf regs bus rxf]. rewrite Hm.
        change (SPI_TMOD_EEROM =? SPI_TMOD_RECV) with false. by destruct (exchange _ (c' :: q) w).
  - destruct H1 as [|Hq]; [done|]. rewrite (coming_nil d (S p)) by done. cbn [receive].
    destruct (shift _ _ _) as [v w]. split; [constructor; cbn [regs txf pending]; auto|].
    unfold push_rx. rewrite decide_True by done. split; [cbn [rxf]; rewrite length_app; cbn; lia|].
    rewrite (coming_nil _ p) by done. cbn [regs bus rxf]. destruct (receive (regs d) p w). by rewrite <-app_assoc.
Qed.
Lemma receiving_exec k d : receiving d → (length d.(rxf) + k ≤ depth)%nat →
  receiving (exec k d) ∧ (length (exec k d).(rxf) ≤ length d.(rxf) + k)%nat ∧
  (exec k d).(rxf) ++ fst (coming (exec k d)) = d.(rxf) ++ fst (coming d) ∧ snd (coming (exec k d)) = snd (coming d).
Proof.
  intros Hd. induction k as [|k IH]; intros Hl; [split; [done|cbn; split; [lia|done]]|].
  change (exec (S k) d) with (exec1 (exec k d)). destruct IH as (H1 & H2 & H3 & H4); [lia|].
  destruct (receiving_exec1 _ H1) as (G1 & G2 & G3 & G4); [lia|]. rewrite G3, G4. split; [done|]. split; [lia|]. done.
Qed.
Lemma coming_todo d : receiving d → todo d = O → fst (coming d) = [].
Proof.
  intros [Ho Hm _]. unfold Engine.todo, coming. rewrite Ho. cbn [negb]. destruct (pending d); [|lia].
  destruct (txf d); [done|]. destruct Hm as [[-> _]| ->]; cbn [length]; [cbn; lia|].
  change (SPI_TMOD_EEROM =? SPI_TMOD_RECV) with false. change (SPI_TMOD_EEROM =? SPI_TMOD_EEROM) with true. cbn [length]. lia.
Qed.
Lemma coming_done d : receiving d → fst (coming d) = [] → snd (coming d) = d.(bus).
Proof.
  intros [_ _ H1] Hc. unfold coming in *. destruct (pending d) as [|p]; [destruct (txf d) as [|c q]; [done|]|];
    apply (f_equal length) in Hc; rewrite receive_length in Hc; [|done].
  unfold ndf in Hc. pose proof (wrap_range 16 (regs d ctrlr1)). cbn [length] in Hc. lia.
Qed.
Lemma stored_app w xs ys : stored w (xs ++ ys) = stored w xs ++ stored w ys.
Proof. unfold stored. by rewrite fmap_app, concat_app. Qed.
Lemma receiving_set_rx q d : receiving d → receiving (set_rx q d) ∧ coming (set_rx q d) = coming d ∧ todo (set_rx q d) = todo d.
Proof. intros []. by repeat split. Qed.
Lemma recv_loop_ok `{!Slow spi_num shift step} fuel w n out d : receiving d → d.(rxf) = [] → n = length (fst (coming d)) →
  (cost (2 * n + todo d) d < fuel)%nat →
  ∃ d', recv_loop step fuel w n out d = Ok (out ++ stored w (fst (coming d)), d') ∧ d'.(regs) = d.(regs) ∧
    receiving d' ∧ fst (coming d') = [] ∧ snd (coming d') = snd (coming d).
Proof.
  revert n out d. induction fuel as [|fuel IH]; intros n out d Hd Hq Hn Hf; [lia|].
  destruct (decide (n = O)) as [->|Hn0].
  { destruct (fst (coming d)) eqn:Ec; [|done]. exists d. cbn. by rewrite app_nil_r. }
  cbn [recv_loop]. destruct n as [|n0] eqn:En; [lia|]. rewrite <-En in *. clear n0 En.
  pose proof (step_regs d) as Hr. pose proof (step_todo d) as Ht. pose proof (cost_step (2 * n) d) as Hc.
  destruct (slow_exec d) as (k & b & Hk & E). rewrite E in *. clear E. set (d1 := set_busy b (exec k d)) in *.
  destruct (receiving_exec k d Hd) as (Hd1 & Hl1 & Hc1 & Hs1); [rewrite Hq; cbn; lia|].
  change (exec k d).(rxf) with d1.(rxf) in *. change (coming (exec k d)) with (coming d1) in *.
  assert (Hdd : receiving d1) by (destruct Hd1; by constructor). clear Hd1. rewrite Hq in Hc1. cbn [app] in Hc1.
  assert (Hle : (length (rxf d1) ≤ n)%nat) by (rewrite Hn, <-Hc1, length_app; lia).
  rewrite Nat.min_l, get_elems_prefix, firstn_all, skipn_all by lia.
  destruct (receiving_set_rx [] d1 Hdd) as (Hd2 & Hcd & Htd).
  destruct (IH (n - length (rxf d1))%nat (out ++ stored w (rxf d1)) (set_rx [] d1) Hd2 eq_refl) as (d' & E & Hr' & H1 & H2 & H3).
  - rewrite Hcd, Hn, <-Hc1, length_app. lia.
  - rewrite Htd. destruct (rxf d1) as [|v q] eqn:Eq.
    + cbn [length]. rewrite Nat.sub_0_r. replace (set_rx [] d1) with d1 by (unfold set_rx; rewrite <-Eq; by destruct d1).
      assert (todo d ≠ O); [|specialize (Hc ltac:(by left)); lia].
      intros H0. apply Hn0. by rewrite Hn, coming_todo.
    + cbn [length]. pose proof (cost_less (2 * n + todo d) (2 * (n - S (length q)) + todo d1) d (set_rx [] d1)
        ltac:(cbn [length] in *; lia)). lia.
  - exists d'. rewrite E, Hcd, <-Hc1, <-app_assoc, stored_app. split; [done|]. split; [by rewrite Hr'|].
    split; [done|]. split; [done|]. by rewrite H3, Hcd.
Qed.
End paced.

(** ** Setting a transfer up *)
Lemma set_bit_testbit b m v i : 0 ≤ i < 32 →
  Z.testbit (set_bit b m v) i = if Z.testbit m i then Z.testbit v i else Z.testbit b i.
Proof.
  intros Hi. unfold set_bit. rewrite Z.lor_spec, !Z.land_spec, wrap_testbit, Z.lnot_spec by lia.
  rewrite bool_decide_eq_true_2 by lia. cbn [andb]. by destruct (Z.testbit m i), (Z.testbit v i), (Z.testbit b i).
Qed.
Lemma tmod_mask_testbit off i : 0 ≤ i → 0 ≤ off → Z.testbit (Z.shiftl 3 off) i = bool_decide (off ≤ i < off + 2).
Proof.
  intros Hi Ho. change 3 with (Z.ones 2). rewrite Z.shiftl_spec by done. case_bool_decide.
  - apply Z.ones_spec_low. lia.
  - destruct (decide (i < off)); [by apply Z.testbit_neg_r; lia|]. apply Z.ones_spec_high. lia.
Qed.
Lemma tmod_of_set t r : 0 ≤ t < 4 → tmod_of spi_num (set_tmod_bits spi_num t r) = t.
Proof.
  intros Ht. unfold tmod_of, set_tmod_bits. rewrite fn_lookup_insert. set (off := tmod_offset spi_num).
  assert (Ho : off = 8 ∨ off = 10) by (unfold off, tmod_offset; case_match; auto).
  apply Z.bits_inj'. intros i Hi. rewrite Z.land_spec, Z.shiftr_spec by done. change 3 with (Z.ones 2) at 2.
  destruct (decide (i < 2)).
  - rewrite Z.ones_spec_low, andb_true_r by lia. rewrite set_bit_testbit, tmod_mask_testbit by lia.
    rewrite bool_decide_eq_true_2 by lia. rewrite Z.shiftl_spec by lia. f_equal. lia.
  - rewrite Z.ones_spec_high, andb_false_r by lia. symmetry. apply (testbit_above 2); lia.
Qed.
Lemma data_bit_length_set t r : data_bit_length spi_num (set_tmod_bits spi_num t r) = data_bit_length spi_num r.
Proof.
  unfold data_bit_length, set_tmod_bits. rewrite fn_lookup_insert. set (off := tmod_offset spi_num).
  set (o := dfs_offset spi_num).
  assert (Ho : (off = 8 ∨ off = 10) ∧ (o = 0 ∨ o = 16)) by (unfold o, off, tmod_offset, dfs_offset; repeat case_match; auto).
  apply Z.bits_inj'. intros i Hi. rewrite !Z.land_spec, !Z.shiftr_spec by done. change 0x1F with (Z.ones 5).
  destruct (decide (i < 5)); [|by rewrite !Z.ones_spec_high, !andb_false_r by lia].
  f_equal. rewrite set_bit_testbit, tmod_mask_testbit by lia. by rewrite bool_decide_eq_false_2 by lia.
Qed.
Lemma data_bit_length_range r : 0 ≤ data_bit_length spi_num r < 32.
Proof. unfold data_bit_length. change 0x1F with (Z.ones 5). rewrite Z.land_ones by done. by apply Z.mod_pos_bound. Qed.

(** A device at rest, the configuration in force during a transfer, and the one after it *)
Definition idle_dev r (w : W) : dev W := Dev r [] [] 0 false w.
Definition select (cs : Z) r : bank spi_reg := <[ser := u32 (Z.shiftl 1 cs)]> r.
Definition enabled (tmod : Z) r : bank spi_reg := <[ssienr := 0x01]> (set_tmod_bits spi_num tmod r).
Definition live (tmod cs : Z) r : bank spi_reg := select cs (enabled tmod r).
Definition released r : bank spi_reg := <[ssienr := 0x00]> (<[ser := 0x00]> r).
Definition with_count (n : nat) r : bank spi_reg := <[ctrlr1 := u32 (Z.of_nat n - 1)]> r.
Lemma finish_idle d : finish d = idle_dev (released d.(regs)) d.(bus).
Proof. done. Qed.
Lemma width_ok_frame r : width_ok (spi_get_frame_size (data_bit_length spi_num r)).
Proof. unfold spi_get_frame_size, width_ok. repeat case_match; auto. Qed.
Lemma on_live r cs : 0 ≤ cs < 32 → r ssienr = 1 → on (select cs r) = true.
Proof.
  intros Hc Hs. unfold on, select. rewrite fn_lookup_insert_ne, fn_lookup_insert, Hs by done.
  assert (u32 (Z.shiftl 1 cs) ≠ 0); [|by rewrite (proj2 (Z.eqb_neq (u32 _) 0))].
  rewrite Z.shiftl_1_l, wrap_id; [pose proof (Z.pow_pos_nonneg 2 cs); lia|].
  split; [by apply Z.pow_nonneg|]. apply Z.pow_lt_mono_r; lia.
Qed.
Lemma good_num_max : good_num spi_num = true → spi_num <? SPI_DEVICE_MAX = true.
Proof. unfold good_num. by intros [? _]%andb_true_iff. Qed.
Lemma set_tmod_run t d : good_num spi_num = true →
  set_tmod spi_num t d = Ok (Dev (set_tmod_bits spi_num t d.(regs)) d.(txf) d.(rxf) d.(pending) d.(busy) d.(bus)).
Proof. intros Hn. unfold set_tmod, spi_set_tmod. by rewrite good_num_max. Qed.
Lemma duplex_start t cs r w : 0 ≤ cs < 32 → t = SPI_TMOD_TRANS_RECV ∨ t = SPI_TMOD_TRANS → tmod_of spi_num r = t →
  r ssienr = 1 → duplex (idle_dev (select cs r) w).
Proof.
  intros Hc Ht Hm Hs. constructor; cbn [idle_dev regs txf rxf pending length]; [by apply on_live| |done|lia..].
  assert (tmod_of spi_num (select cs r) = t) as ->; [|by destruct Ht; auto].
  rewrite <-Hm. unfold tmod_of, select. by rewrite fn_lookup_insert_ne.
Qed.
(** Elements of a buffer, as frames; the upper bits of what is written to the data register
    do not matter. *)
Definition elems (w : nat) (buf : list Z) : list Z :=
  (λ j, le_value (take w (drop (w * j) buf))) <$> seq 0 (length buf / w).
Lemma exchange_ext r fs fs' w : wrap (bits r) <$> fs = wrap (bits r) <$> fs' → exchange r fs w = exchange r fs' w.
Proof.
  revert fs' w. induction fs as [|c fs IH]; intros [|c' fs'] w E; try done. cbn in E. injection E as E1 E2.
  cbn [exchange]. rewrite E1. destruct (shift _ _ _) as [v w']. by rewrite (IH fs').
Qed.
Lemma exchange_raw r mis junk buf w : exchange r
    (raw (spi_get_frame_size (data_bit_length spi_num r)) mis junk buf <$>
       seq 0 (length buf / spi_get_frame_size (data_bit_length spi_num r))) w =
  exchange r (elems (spi_get_frame_size (data_bit_length spi_num r)) buf) w.
Proof.
  apply exchange_ext. unfold elems. rewrite <-!list_fmap_compose. apply list_fmap_ext. intros ? j _. cbn [compose].
  unfold raw. destruct mis; [|done]. case_bool_decide as Hw; [|done]. cbn [andb].
  pose proof (data_bit_length_range r).
  assert (Hb : 0 ≤ bits r ≤ 16).
  { unfold Engine.bits. revert Hw. unfold spi_get_frame_size. destruct (Z.ltb_spec (data_bit_length spi_num r) 8); [lia|].
    destruct (Z.ltb_spec (data_bit_length spi_num r) 16); [lia|done]. }
  apply Z.bits_inj'. intros b Hi. rewrite !wrap_testbit by lia. case_bool_decide; [|done]. cbn [andb].
  rewrite Z.lor_spec, Z.land_spec. assert (Z.testbit 0xffff0000 b = false) as ->; [|by rewrite andb_false_r].
  change 0xffff0000 with (Z.shiftl 0xffff 16). rewrite Z.shiftl_spec by done. apply Z.testbit_neg_r. lia.
Qed.

(** ** The transfers as a whole *)
Section whole.
Context (step : dev W → dev W) (slack : dev W → nat) (stall : nat) `{!Pace spi_num shift step slack stall}.
Context (Hgood : good_num spi_num = true) (cs : Z) (Hcs : 0 ≤ cs < 32).
Notation width r := (spi_get_frame_size (data_bit_length spi_num r)).
(** Fuel for [n] bytes *)
Definition fuel_for (n : nat) : nat := S ((3 * n + 33) * S stall + stall).
Lemma cost_fuel c n d fuel : (c ≤ 3 * n + 33)%nat → (fuel_for n ≤ fuel)%nat → (cost slack stall c d < fuel)%nat.
Proof. unfold fuel_for, cost. pose proof (pace_slack d). nia. Qed.
Lemma width_select r : width (select cs r) = width r.
Proof. unfold select, data_bit_length. by rewrite fn_lookup_insert_ne. Qed.
(** The frames go out, and the device comes to rest. *)
Lemma send_and_wait fuel r mis junk buf w :
  duplex (idle_dev (select cs r) w) → (length buf mod width r = 0)%nat → (fuel_for (length buf) ≤ fuel)%nat →
  ∃ d2, (d ← send_loop step fuel (width r) mis junk buf 0 (length buf) (idle_dev (select cs r) w);
         wait_loop step fuel d) = Ok d2 ∧
    d2.(regs) = select cs r ∧ todo d2 = O ∧ d2.(busy) = false ∧
    let '(vs, w') := exchange (select cs r) (elems (width r) buf) w in
    d2.(bus) = w' ∧ d2.(rxf) = if tmod_of spi_num (select cs r) =? SPI_TMOD_TRANS_RECV then take depth vs else [].
Proof.
  intros Hd Hm Hf. assert (Hw := width_ok_frame r). assert (Hw0 : width r ≠ O) by (unfold width_ok in Hw; lia).
  assert (Hn : length buf = (width r * (length buf / width r))%nat) by (by apply Nat.Div0.div_exact).
  set (n := (length buf / width r)%nat) in *.
  destruct (send_loop_ok step slack stall (width r) mis junk buf fuel 0 n (idle_dev (select cs r) w)) as (d1 & E1 & Hd1 & Hr1 & Ho1);
    [done|done|by rewrite Nat.add_0_l| |].
  { apply (cost_fuel _ (length buf)); [|done]. rewrite duplex_todo by done. cbn [idle_dev txf length]. rewrite Hn. lia. }
  replace (index (width r) mis 0) with 0%nat in E1 by (unfold index; destruct mis; lia). rewrite <-Hn in E1. rewrite E1.
  cbn [mbind res_bind]. destruct (wait_loop_ok step slack stall fuel d1 Hd1) as (d2 & E2 & Hd2 & Hr2 & Hq2 & Hb2 & Ho2).
  { apply (cost_fuel _ (length buf)); [|done]. rewrite duplex_todo by done. pose proof (dx_tx _ Hd1) as Hl. change depth with 32%nat in Hl. lia. }
  exists d2. split; [done|]. split; [by rewrite Hr2, Hr1|]. split; [by rewrite duplex_todo, Hq2 by done|]. split; [done|].
  specialize (Ho2 []). rewrite Ho1 in Ho2. unfold outcome in Ho2. rewrite Hr2, Hr1, Hq2 in Ho2. cbn [app exchange idle_dev regs txf rxf bus] in Ho2.
  pose proof (exchange_raw (select cs r) mis junk buf w) as Hx. rewrite width_select in Hx. fold n in Hx. cbn [Nat.add] in Ho2.
  rewrite (list_fmap_ext (λ j, raw (width r) mis junk buf j) (raw (width r) mis junk buf)) in Ho2 by done. rewrite Hx in Ho2.
  destruct (exchange (select cs r) (elems (width r) buf) w) as [vs w']. destruct (tmod_of _ _ =? _); injection Ho2 as Hrx Hbus.
  - split; [done|]. rewrite app_nil_r in Hrx. rewrite <-Hrx. symmetry. apply take_ge, (dx_rx _ Hd2).
  - by split.
Qed.
Lemma send_short fuel r mis junk buf w : duplex (idle_dev (select cs r) w) → (length buf mod width r ≠ 0)%nat →
  send_loop step fuel (width r) mis junk buf 0 (length buf) (idle_dev (select cs r) w) = Fault FFuel.
Proof.
  intros Hd Hm. pose proof (send_loop_short step slack stall (width r) mis junk buf fuel 0 (length buf) (idle_dev (select cs r) w)
    (width_ok_frame r) Hd) as E. rewrite Nat.mul_0_r in E. replace (index (width r) mis 0) with 0%nat in E by (unfold index; destruct mis; lia).
  by apply E.
Qed.
Lemma width_enabled t r : width (enabled t r) = width r.
Proof. rewrite <-(data_bit_length_set t r). unfold enabled, data_bit_length. by rewrite fn_lookup_insert_ne. Qed.
Lemma duplex_live t r w : t = SPI_TMOD_TRANS_RECV ∨ t = SPI_TMOD_TRANS → duplex (idle_dev (live t cs r) w).
Proof.
  intros Ht. apply (duplex_start t); [done|done| |unfold enabled; by rewrite fn_lookup_insert].
  transitivity (tmod_of spi_num (set_tmod_bits spi_num t r)); [|apply tmod_of_set; by destruct Ht as [-> | ->]].
  unfold tmod_of, enabled. by rewrite fn_lookup_insert_ne.
Qed.
Lemma tmod_live t r : 0 ≤ t < 4 → tmod_of spi_num (live t cs r) = t.
Proof. intros Ht. rewrite <-(tmod_of_set t r Ht) at 2. unfold live, select, enabled, tmod_of. by rewrite !fn_lookup_insert_ne. Qed.
Definition sent r buf w : list Z * W := exchange (live SPI_TMOD_TRANS cs r) (elems (width r) buf) w.
Lemma send_normal_run fuel junk addr buf r w : (fuel_for (length buf) ≤ fuel)%nat → (length buf mod width r = 0)%nat →
  spi_send_data_normal spi_num step fuel cs junk addr buf (idle_dev r w) =
  Ok (idle_dev (released (live SPI_TMOD_TRANS cs r)) (snd (sent r buf w))).
Proof.
  intros Hf Hm. unfold spi_send_data_normal. rewrite Hgood, set_tmod_run by done. cbn [negb mbind res_bind].
  unfold frame_width. cbn [idle_dev regs txf rxf pending busy bus]. rewrite data_bit_length_set.
  set (mis := negb _). destruct (send_and_wait fuel (enabled SPI_TMOD_TRANS r) mis junk buf w) as (d2 & E & Hr & _ & _ & Hx);
    rewrite ?width_enabled in *; [apply duplex_live; auto|done|done|].
  change (wr ser _ (wr ssienr _ _)) with (idle_dev (live SPI_TMOD_TRANS cs r) w).
  apply res_bind_Ok in E as (d1 & E1 & E2). unfold live in *. rewrite E1. cbn [mbind res_bind]. rewrite E2. cbn [mbind res_bind].
  rewrite finish_idle, Hr. do 2 f_equal. unfold sent, live. destruct (exchange _ _ _). by destruct Hx as [-> _].
Qed.
Lemma send_normal_short fuel junk addr buf r w : (length buf mod width r ≠ 0)%nat →
  spi_send_data_normal spi_num step fuel cs junk addr buf (idle_dev r w) = Fault FFuel.
Proof.
  intros Hm. unfold spi_send_data_normal. rewrite Hgood, set_tmod_run by done. cbn [negb mbind res_bind].
  unfold frame_width. cbn [idle_dev regs txf rxf pending busy bus]. rewrite data_bit_length_set.
  change (wr ser _ (wr ssienr _ _)) with (idle_dev (live SPI_TMOD_TRANS cs r) w).
  pose proof (send_short fuel (enabled SPI_TMOD_TRANS r)) as E. rewrite width_enabled in E. unfold live at 1.
  rewrite E; [done|apply duplex_live; auto|done].
Qed.

(** The configuration of the other two transfers *)
Definition counted (t : Z) (n : nat) r : bank spi_reg := <[ssienr := 0x01]> (with_count n (set_tmod_bits spi_num t r)).
Lemma width_counted t n r : width (counted t n r) = width r.
Proof.
  rewrite <-(data_bit_length_set t r). unfold counted, with_count, data_bit_length.
  by rewrite (fn_lookup_insert_ne _ ssienr), fn_lookup_insert_ne.
Qed.
Lemma tmod_counted t n r : 0 ≤ t < 4 → tmod_of spi_num (select cs (counted t n r)) = t.
Proof.
  intros Ht. rewrite <-(tmod_of_set t r Ht) at 2. unfold select, counted, with_count, tmod_of.
  by rewrite (fn_lookup_insert_ne _ ser), (fn_lookup_insert_ne _ ssienr), fn_lookup_insert_ne.
Qed.
Lemma counted_enabled t n r : counted t n r ssienr = 1.
Proof. unfold counted. by rewrite fn_lookup_insert. Qed.
Lemma duplex_counted n r w : duplex (idle_dev (select cs (counted SPI_TMOD_TRANS_RECV n r)) w).
Proof.
  apply (duplex_start SPI_TMOD_TRANS_RECV); [done|auto| |apply counted_enabled].
  transitivity (tmod_of spi_num (select cs (counted SPI_TMOD_TRANS_RECV n r))); [|by apply tmod_counted].
  unfold tmod_of, select. by rewrite fn_lookup_insert_ne.
Qed.
Definition exchanged r buf w : list Z * W :=
  exchange (select cs (counted SPI_TMOD_TRANS_RECV (length buf / width r) r)) (elems (width r) buf) w.
Lemma transfer_start fuel buf b r w : buf ≠ [] →
  let rl := select cs (counted SPI_TMOD_TRANS_RECV (length buf / width r) r) in
  spi_transfer_data_standard spi_num step fuel cs buf b (idle_dev r w) =
  (d ← send_loop step fuel (width r) false 0 buf 0 (length buf) (idle_dev rl w);
   d ← wait_loop step fuel d;
   '(out, d) ← (if b then transfer_rx_loop step fuel (width r) (length buf) [] d else Ok ([], d));
   Ok (out, finish d)).
Proof.
  intros Hb rl. unfold spi_transfer_data_standard. rewrite Hgood. cbn [negb]. rewrite decide_False, set_tmod_run by done.
  cbn [mbind res_bind]. unfold frame_width. cbn [idle_dev regs txf rxf pending busy bus]. by rewrite data_bit_length_set.
Qed.
Lemma transfer_run fuel buf b r w : buf ≠ [] → (fuel_for (length buf) ≤ fuel)%nat → (length buf mod width r = 0)%nat →
  let '(vs, w') := exchanged r buf w in
  spi_transfer_data_standard spi_num step fuel cs buf b (idle_dev r w) =
  if b then
    if decide (width r = 1%nat ∧ (length buf ≤ 32)%nat)
    then Ok (stored 1 vs, idle_dev (released (select cs (counted SPI_TMOD_TRANS_RECV (length buf / width r) r))) w')
    else Fault FFuel
  else Ok ([], idle_dev (released (select cs (counted SPI_TMOD_TRANS_RECV (length buf / width r) r))) w').
Proof.
  intros Hb Hf Hm. destruct (exchanged r buf w) as [vs w'] eqn:Ex. unfold exchanged in Ex. rewrite transfer_start by done. cbv zeta.
  set (rc := counted _ _ r) in *. assert (Hwc : width rc = width r) by apply width_counted.
  destruct (send_and_wait fuel rc false 0 buf w (duplex_counted _ _ _)) as (d2 & E & Hr & Ht & Hbz & Hx); rewrite ?Hwc in *; [done|done|].
  apply res_bind_Ok in E as (d1 & E1 & E2). rewrite E1. cbn [mbind res_bind]. rewrite E2. cbn [mbind res_bind].
  rewrite Ex in Hx. destruct Hx as [Hbus Hrx]. unfold rc in Hrx at 1. rewrite tmod_counted in Hrx by done. cbn [Z.eqb SPI_TMOD_TRANS_RECV] in Hrx.
  destruct b; [|cbn [mbind res_bind]; by rewrite finish_idle, Hr, Hbus].
  assert (Hl : length vs = (length buf / width r)%nat).
  { pose proof (exchange_length (select cs rc) (elems (width r) buf) w) as El. rewrite Ex in El. cbn [fst] in El. rewrite El.
    unfold elems. by rewrite length_fmap, length_seq. }
  assert (Hfp : (0 < fuel)%nat) by (unfold fuel_for in Hf; lia). pose proof (width_ok_frame r) as Hw.
  case_decide as Hd.
  - destruct Hd as [Hw1 Hl32]. rewrite Hw1, Nat.div_1_r in Hl. rewrite take_ge in Hrx by (rewrite Hl; exact Hl32).
    rewrite Hw1, <-Hl, <-Hrx, (transfer_rx_bytes _ _ _ _ _ _ Ht Hbz Hfp). cbn [mbind res_bind app]. rewrite finish_idle.
    cbn [set_rx regs bus]. by rewrite Hr, Hbus, Hrx.
  - rewrite (transfer_rx_stuck step slack stall fuel (width r) (length buf) [] d2 Hw Ht Hbz); [done|by destruct buf|..]; rewrite Hrx, length_take, Hl.
    + assert (length buf = width r * (length buf / width r))%nat by (apply Nat.Div0.div_exact; exact Hm). nia.
    + intros Hw1. rewrite Hw1, Nat.div_1_r. change depth with 32%nat. lia.
Qed.
Lemma transfer_short fuel buf b r w : buf ≠ [] → (length buf mod width r ≠ 0)%nat →
  spi_transfer_data_standard spi_num step fuel cs buf b (idle_dev r w) = Fault FFuel.
Proof.
  intros Hb Hm. rewrite transfer_start by done. cbv zeta. set (rc := counted _ _ r).
  assert (Hwc : width rc = width r) by apply width_counted.
  pose proof (send_short fuel rc false 0 buf w (duplex_counted _ _ _)) as E. rewrite Hwc in E. by rewrite E.
Qed.

(** Receiving: the commands fit the FIFO, so they are all there when the device is selected. *)
Lemma cmd_loop_run fuel w buf k r b : width_ok w → (k ≤ 32)%nat → (w * k ≤ length buf)%nat → k ≠ O →
  r ser = 0 → (0 < fuel)%nat →
  cmd_loop step fuel w cs buf 0 k (idle_dev r b) = Ok (Dev (select cs r) (raw w false 0 buf <$> seq 0 k) [] 0 false b).
Proof.
  intros Hw Hk Hb Hk0 Hs Hf. assert (Hw0 : (1 ≤ w ≤ 4)%nat) by (unfold width_ok in Hw; lia).
  destruct fuel as [|fuel]; [lia|]. cbn [cmd_loop]. destruct k as [|k0] eqn:Ek; [done|]. rewrite <-Ek in *. clear k0 Ek.
  assert (Hoff : on r = false) by (unfold on; rewrite Hs; apply andb_false_r).
  rewrite (step_idle step slack stall) by (unfold todo; cbn [idle_dev regs]; by rewrite ?Hoff).
  cbn [idle_dev txf length]. rewrite Nat.sub_0_r, Nat.min_r by done.
  rewrite (put_elems_ok _ _ _ _ _ (raw w false 0 buf)); [|done|].
  - cbn [mbind res_bind]. rewrite Nat.sub_diag. by destruct fuel.
  - intros j Hj. pose proof (tx_elem_raw w false 0 buf j) as E. unfold index in E. rewrite Nat.mul_1_l, Nat.add_0_l, E by nia. done.
Qed.
Definition received r cmd n w : list Z * W :=
  let rl := select cs (counted (if decide (cmd = []) then SPI_TMOD_RECV else SPI_TMOD_EEROM) n r) in
  receive rl n (snd (exchange rl (elems (width r) cmd) w)).
Lemma ndf_counted t n r : 1 ≤ Z.of_nat n ≤ 65536 → ndf (select cs (counted t n r)) = n.
Proof.
  intros Hn. unfold ndf, select, counted, with_count.
  rewrite (fn_lookup_insert_ne _ ser), (fn_lookup_insert_ne _ ssienr), fn_lookup_insert by done.
  rewrite (wrap_id 32), wrap_id; lia.
Qed.
Lemma receiving_start t n r q w : t = SPI_TMOD_RECV ∧ (length q ≤ 1)%nat ∨ t = SPI_TMOD_EEROM → q ≠ [] → 1 ≤ Z.of_nat n ≤ 65536 →
  let rl := select cs (counted t n r) in let d := Dev rl q [] 0 false w in
  receiving d ∧ (todo d ≤ length q + n)%nat ∧
  coming d = receive rl n (if t =? SPI_TMOD_RECV then w else snd (exchange rl q w)).
Proof.
  intros Ht Hq Hn rl d. assert (Hm : tmod_of spi_num rl = t) by (apply tmod_counted; by destruct Ht as [[-> _]| ->]).
  assert (Ho : on rl = true) by (apply on_live; [done|apply counted_enabled]).
  assert (Hnd : ndf rl = n) by (by apply ndf_counted). split; [|split].
  - constructor; cbn [d regs txf pending]; [done|rewrite Hm|by left]. destruct Ht as [[-> ?]| ->]; auto.
  - unfold Engine.todo. cbn [d regs txf pending]. rewrite Ho, Hm, Hnd. cbn [negb].
    destruct Ht as [[-> Hl]| ->]; [change (SPI_TMOD_RECV =? SPI_TMOD_RECV) with true; destruct q as [|? [|]]; cbn [length] in *; lia|].
    change (SPI_TMOD_EEROM =? SPI_TMOD_RECV) with false. change (SPI_TMOD_EEROM =? SPI_TMOD_EEROM) with true.
    rewrite decide_False by done. lia.
  - unfold coming. cbn [d regs txf pending bus]. rewrite Hnd, Hm. by destruct q.
Qed.
(** After the first part the device is selected and has something to send. *)
Lemma receive_setup fuel cmd n r w : (length cmd mod width r = 0)%nat → (length cmd / width r ≤ 32)%nat → r ser = 0 →
  (0 < fuel)%nat →
  let t := if decide (cmd = []) then SPI_TMOD_RECV else SPI_TMOD_EEROM in let rc := counted t n r in
  ∃ q, q ≠ [] ∧ (t = SPI_TMOD_RECV ∧ (length q ≤ 1)%nat ∨ t = SPI_TMOD_EEROM) ∧ (length q ≤ 33)%nat ∧
    (d ← cmd_loop step fuel (width r) cs cmd 0 (length cmd / width r) (idle_dev rc w);
     Ok (if decide (cmd = []) then wr ser (u32 (Z.shiftl 1 cs)) (put 0xffffffff d) else d)) = Ok (Dev (select cs rc) q [] 0 false w) ∧
    (if t =? SPI_TMOD_RECV then w else snd (exchange (select cs rc) q w)) = snd (exchange (select cs rc) (elems (width r) cmd) w).
Proof.
  intros Hm Hk Hs Hf t rc. unfold t. destruct (decide (cmd = [])) as [Hc|Hc].
  - exists [0xffffffff]. subst cmd. rewrite Nat.Div0.div_0_l. cbn [length]. split; [done|]. split; [by left|]. split; [lia|].
    split; [by destruct fuel|]. unfold elems. cbn [length]. by rewrite Nat.Div0.div_0_l.
  - assert (Hlen : (length cmd = width r * (length cmd / width r))%nat) by (apply Nat.Div0.div_exact; exact Hm).
    assert (length cmd / width r ≠ 0)%nat by (intros E0; rewrite E0, Nat.mul_0_r in Hlen; by destruct cmd).
    exists (raw (width r) false 0 cmd <$> seq 0 (length cmd / width r)).
    split; [intros E0%(f_equal length); rewrite length_fmap, length_seq in E0; done|]. split; [by right|].
    split; [rewrite length_fmap, length_seq; lia|]. split.
    + rewrite cmd_loop_run; [done|apply width_ok_frame|done|lia|done| |done].
      unfold rc, counted, with_count, set_tmod_bits. by rewrite !fn_lookup_insert_ne.
    + change (SPI_TMOD_EEROM =? SPI_TMOD_RECV) with false. cbv iota.
      pose proof (exchange_raw (select cs rc) false 0 cmd w) as Hx. assert (Hwc : width (select cs rc) = width r) by (rewrite width_select; apply width_counted).
      rewrite Hwc in Hx. by rewrite Hx.
Qed.
Lemma receive_run `{!Slow spi_num shift step} fuel cmd rx_len r w : (length cmd mod width r = 0)%nat →
  (length cmd / width r ≤ 32)%nat → 1 ≤ Z.of_nat (rx_len / width r) ≤ 65536 → r ser = 0 → (fuel_for rx_len ≤ fuel)%nat →
  let n := (rx_len / width r)%nat in let '(vs, w') := received r cmd n w in
  spi_receive_data_standard spi_num step fuel cs cmd rx_len (idle_dev r w) =
  Ok (stored (width r) vs,
      idle_dev (released (select cs (counted (if decide (cmd = []) then SPI_TMOD_RECV else SPI_TMOD_EEROM) n r))) w').
Proof.
  intros Hm Hk Hn Hs Hf n. destruct (received r cmd n w) as [vs w'] eqn:Er. unfold received in Er.
  destruct (receive_setup fuel cmd n r w Hm Hk Hs) as (q & Hq & Ht & Hql & E & Hx); [unfold fuel_for in Hf; lia|].
  set (t := if decide (cmd = []) then SPI_TMOD_RECV else SPI_TMOD_EEROM) in *. set (rc := counted t n r) in *.
  assert (Hnle : (n ≤ rx_len)%nat).
  { pose proof (width_ok_frame r) as Hw. apply Nat.Div0.div_le_upper_bound. unfold width_ok in Hw. nia. }
  unfold spi_receive_data_standard. rewrite Hgood, set_tmod_run by done. cbn [negb mbind res_bind]. unfold frame_width.
  cbn [idle_dev regs txf rxf pending busy bus]. rewrite data_bit_length_set. fold t n.
  change (wr ssienr 1 _) with (idle_dev rc w).
  apply res_bind_Ok in E as (d1 & E1 & E2). injection E2 as E2. rewrite E1. cbn [mbind res_bind]. rewrite E2.
  destruct (receiving_start t n r q w Ht Hq Hn) as (Hd & Htodo & Hcom). fold rc in Hd, Htodo, Hcom. rewrite Hx, Er in Hcom.
  assert (Hvs : length vs = n).
  { replace vs with (fst (vs, w')) by done. rewrite <-Er. apply receive_length. }
  destruct (recv_loop_ok step slack stall fuel (width r) n [] (Dev (select cs rc) q [] 0 false w) Hd eq_refl)
    as (d2 & E3 & Hr2 & Hrc2 & Hc2 & Hs2); [by rewrite Hcom|apply (cost_fuel _ rx_len); [lia|done]|].
  rewrite E3, Hcom. cbn [mbind res_bind app fst]. rewrite finish_idle, Hr2, <-(coming_done d2 Hrc2 Hc2), Hs2, Hcom. done.
Qed.
End whole.
End outcome.

(** ** A device for examples: one frame between two status reads; the other end keeps what it
    gets and answers with the number of frames it has seen. *)
Definition demo_shift (r : bank spi_reg) (c : option Z) (w : list Z) : Z * list Z :=
  (Z.of_nat (length w), w ++ [default 0xff c]).
Definition demo_step (d : dev (list Z)) : dev (list Z) := set_busy false (exec1 1 demo_shift d).
Definition demo_slack (d : dev (list Z)) : nat := if d.(busy) then 1 else 0.
#[export] Instance demo_pace : Pace 1 demo_shift demo_step demo_slack 1.
Proof.
  split; unfold demo_step, demo_slack.
  - intros d. by exists 1%nat, false.
  - intros d. destruct (busy d); lia.
  - intros d Hw. rewrite todo_set_busy, exec1_todo. cbn [set_busy busy].
    destruct (decide (todo 1 d = O)) as [E|]; [|left; lia]. right. rewrite E. destruct Hw as [Hw| ->]; [done|]. split; [done|lia].
  - done.
Qed.
#[export] Instance demo_slow : Slow 1 demo_shift demo_step.
Proof. split. intros d. exists 1%nat, false. split; [unfold depth; lia|done]. Qed.
(** Eight bits a frame; and sixteen *)
Definition demo_regs (dfs : Z) : bank spi_reg := λ r, match r with ctrlr0 => Z.shiftl dfs 16 | _ => 0 end.

(** [spi_send_data_normal] on a device at rest.  When the buffer is a whole number of frame
    elements it returns, whatever the pace of the device, with the device at rest again and
    every element sent once and in order, little-endian; the alignment of the buffer and
    the uninitialised half word of the misaligned case do not show on the wires.  When it is
    not, the call never returns. *)
Theorem spi_send_data_normal_spec {W} num (shift : bank spi_reg → option Z → W → Z * W) step slack stall
    `{!Pace num shift step slack stall} cs junk addr buf r w :
  good_num num = true → 0 ≤ cs < 32 →
  let width := spi_get_frame_size (data_bit_length num r) in let rl := live num SPI_TMOD_TRANS cs r in
  if decide (length buf mod width = 0)%nat then
    ∀ fuel, (fuel_for stall (length buf) ≤ fuel)%nat →
    spi_send_data_normal num step fuel cs junk addr buf (idle_dev r w) =
    Ok (idle_dev (released rl) (snd (exchange num shift rl (elems width buf) w)))
  else ∀ fuel, spi_send_data_normal num step fuel cs junk addr buf (idle_dev r w) = Fault FFuel.
Proof.
  intros Hn Hc width rl. case_decide as Hd; intros fuel.
  - intros Hf. by apply (send_normal_run num shift step slack stall).
  - by apply (send_normal_short num shift step slack stall).
Qed.
Lemma spi_send_data_normal_spec_witness :
  snd (exchange 1 demo_shift (live 1 SPI_TMOD_TRANS 3 (demo_regs 15)) (elems 2 [1; 2; 3; 4]) []) = [0x201; 0x403] ∧
  spi_send_data_normal 1 demo_step 200 3 (-1) 0x80000001 [1; 2; 3; 4] (idle_dev (demo_regs 15) []) =
  Ok (idle_dev (released (live 1 SPI_TMOD_TRANS 3 (demo_regs 15))) [0x201; 0x403]).
Proof.
  pose proof (spi_send_data_normal_spec 1 demo_shift demo_step demo_slack 1 3 (-1) 0x80000001 [1; 2; 3; 4] (demo_regs 15) []
    ltac:(reflexivity) ltac:(lia)) as H.
  split; [reflexivity|]. apply (H 200%nat). by apply Nat.leb_le.
Defined.

(** C28: [spi_transfer_data_standard] on a device at rest returns exactly when the buffer is a
    whole number of elements and, if the answer is wanted, elements are single bytes and at
    most 32.  Then every element is exchanged and the answers are stored; the device is at rest again.
    In all other cases the call never returns: it reads the receive FIFO only after everything is sent,
    so more than 32 answers are lost, and it takes the level of the FIFO, which counts
    elements, for bytes. *)
Theorem spi_transfer_data_standard_spec {W} num (shift : bank spi_reg → option Z → W → Z * W) step slack stall
    `{!Pace num shift step slack stall} cs buf (rx : bool) r w :
  good_num num = true → 0 ≤ cs < 32 → buf ≠ [] →
  let width := spi_get_frame_size (data_bit_length num r) in
  let rl := select cs (counted num SPI_TMOD_TRANS_RECV (length buf / width) r) in
  let '(vs, w') := exchange num shift rl (elems width buf) w in
  if decide ((length buf mod width = 0)%nat ∧ (rx = true → width = 1%nat ∧ (length buf ≤ 32)%nat)) then
    ∀ fuel, (fuel_for stall (length buf) ≤ fuel)%nat →
    spi_transfer_data_standard num step fuel cs buf rx (idle_dev r w) =
    Ok (if rx then stored 1 vs else [], idle_dev (released rl) w')
  else ∀ fuel, (fuel_for stall (length buf) ≤ fuel)%nat →
    spi_transfer_data_standard num step fuel cs buf rx (idle_dev r w) = Fault FFuel.
Proof.
  intros Hn Hc Hb width rl. destruct (exchange num shift rl (elems width buf) w) as [vs w'] eqn:E.
  destruct (decide (length buf mod width = 0)%nat) as [Hm|Hm].
  - case_decide as Hd; intros fuel Hf;
      pose proof (transfer_run num shift step slack stall Hn cs Hc fuel buf rx r w Hb Hf Hm) as H;
      unfold exchanged in H; fold width rl in H; rewrite E in H; rewrite H; destruct rx; try done.
    + destruct Hd as [_ Hd]. by rewrite decide_True by auto.
    + by rewrite decide_False by naive_solver.
    + by destruct Hd.
  - rewrite decide_False by naive_solver. intros fuel _. by apply (transfer_short num shift step slack stall).
Qed.
Lemma spi_transfer_data_standard_spec_witness :
  spi_transfer_data_standard 1 demo_step 200 0 [7; 8; 9] true (idle_dev (demo_regs 7) []) =
    Ok ([0; 1; 2], idle_dev (released (select 0 (counted 1 SPI_TMOD_TRANS_RECV 3 (demo_regs 7)))) [7; 8; 9]) ∧
  spi_transfer_data_standard 1 demo_step 200 0 [7; 8] true (idle_dev (demo_regs 15) []) = Fault FFuel.
Proof.
  split.
  - pose proof (spi_transfer_data_standard_spec 1 demo_shift demo_step demo_slack 1 0 [7; 8; 9] true (demo_regs 7) []
      ltac:(reflexivity) ltac:(lia) ltac:(discriminate)) as H. apply (H 200%nat). by apply Nat.leb_le.
  - pose proof (spi_transfer_data_standard_spec 1 demo_shift demo_step demo_slack 1 0 [7; 8] true (demo_regs 15) []
      ltac:(reflexivity) ltac:(lia) ltac:(discriminate)) as H. apply (H 200%nat). by apply Nat.leb_le.
Defined.

(** [spi_receive_data_standard] on a device at rest, with commands that fit the FIFO and a program
    that is quick enough for no answer to be lost: it returns with exactly the elements that
    the other end gives after it was sent the commands, and the device is at rest
    again.  The bound on the number of elements is the sixteen bits of the device's counter. *)
Theorem spi_receive_data_standard_spec {W} num (shift : bank spi_reg → option Z → W → Z * W) step slack stall
    `{!Pace num shift step slack stall} `{!Slow num shift step} cs cmd rx_len r w fuel :
  good_num num = true → 0 ≤ cs < 32 → r ser = 0 →
  let width := spi_get_frame_size (data_bit_length num r) in let n := (rx_len / width)%nat in
  (length cmd mod width = 0)%nat → (length cmd / width ≤ 32)%nat → 1 ≤ Z.of_nat n ≤ 65536 → (fuel_for stall rx_len ≤ fuel)%nat →
  let rl := select cs (counted num (if decide (cmd = []) then SPI_TMOD_RECV else SPI_TMOD_EEROM) n r) in
  let '(vs, w') := receive num shift rl n (snd (exchange num shift rl (elems width cmd) w)) in
  spi_receive_data_standard num step fuel cs cmd rx_len (idle_dev r w) =
  Ok (stored width vs, idle_dev (released rl) w') ∧ length vs = n.
Proof.
  intros Hn Hc Hs width n Hm Hk Hnr Hf rl.
  pose proof (receive_run num shift step slack stall Hn cs Hc fuel cmd rx_len r w Hm Hk Hnr Hs Hf) as H.
  unfold received in H. fold width n rl in H.
  pose proof (receive_length num shift rl n (snd (exchange num shift rl (elems width cmd) w))) as Hl.
  destruct (receive num shift rl n _) as [vs w']. done.
Qed.
Lemma spi_receive_data_standard_spec_witness : ∃ d,
  spi_receive_data_standard 1 demo_step 400 2 [0x9f; 0] 40 (idle_dev (demo_regs 7) []) = Ok (seqZ 2 40, d) ∧ d.(rxf) = [].
Proof.
  pose proof (spi_receive_data_standard_spec 1 demo_shift demo_step demo_slack 1 2 [0x9f; 0] 40 (demo_regs 7) [] 400
    ltac:(reflexivity) ltac:(lia) ltac:(reflexivity) ltac:(reflexivity) ltac:(by apply Nat.leb_le) ltac:(by split; apply Z.leb_le) ltac:(by apply Nat.leb_le)) as H.
  cbn zeta in H. destruct (receive _ _ _ _ _) as [vs w'] eqn:E. destruct H as [H _].
  vm_compute in E. injection E as E1 E2. subst vs w'. eexists. rewrite H. split; reflexivity.
Defined.
End Transfer.

(** ** Properties of the configuration *)
Module Config.
Definition spi_clock (spi_num : Z) : sysctl_clock :=
  if spi_num =? 0 then SYSCTL_CLOCK_SPI0 else if spi_num =? 1 then SYSCTL_CLOCK_SPI1 else SYSCTL_CLOCK_SPI3.
Lemma good_num_cases n : 0 ≤ n → good_num n = true → n = 0 ∨ n = 1 ∨ n = 3.
Proof.
  unfold good_num, SPI_DEVICE_MAX. intros Hn [?%Z.ltb_lt H]%andb_true_iff. apply negb_true_iff, Z.eqb_neq in H. lia.
Qed.
Lemma spi_clock_num n : 0 ≤ n → good_num n = true → sysctl_clock_to_Z (spi_clock n) = sysctl_clock_to_Z SYSCTL_CLOCK_SPI0 + n.
Proof. intros Hn Hg. by destruct (good_num_cases n Hn Hg) as [-> |[-> | ->]]. Qed.
Lemma spi_clk_init_run n s : 0 ≤ n → good_num n = true → ∃ s', spi_clk_init n s = Ok s' ∧ clock_running (spi_clock n) s'.
Proof.
  intros Hn Hg. unfold spi_clk_init. rewrite Hg. cbn [negb].
  set (s1 := if n =? 3 then _ else s). clearbody s1. rewrite <-spi_clock_num by done.
  destruct (sysctl_clock_enable (sysctl_clock_to_Z (spi_clock n)) s1) as [x s2] eqn:E.
  pose proof (clock_enable_running (spi_clock n) s1) as Hr. rewrite E in Hr. cbn [snd] in Hr.
  assert (∃ w, sysctl_threshold_to_Z SYSCTL_THRESHOLD_SPI0 + n = sysctl_threshold_to_Z w ∧
    ∀ s, clock_running (spi_clock n) s → clock_running (spi_clock n) (snd (sysctl_clock_set_threshold (sysctl_threshold_to_Z w) 0 s)))
    as (w & -> & Hw).
  { destruct (good_num_cases n Hn Hg) as [-> |[-> | ->]];
      [exists SYSCTL_THRESHOLD_SPI0|exists SYSCTL_THRESHOLD_SPI1|exists SYSCTL_THRESHOLD_SPI3]; (split; [done|]);
      intros s' Hs'; rewrite sysctl_clock_set_threshold_eq; revert Hs'; unfold clock_running, gate_open;
      cbn [spi_clock Z.eqb snd threshold_field]; rewrite ?fget_fset_ne by field_dec; done. }
  destruct (sysctl_clock_set_threshold (sysctl_threshold_to_Z w) 0 s2) as [y s3] eqn:E3. exists s3. split; [done|].
  specialize (Hw s2 Hr). by rewrite E3 in Hw.
Qed.
(** The fields of the control word, checked for every configuration *)
Definition control_word (n mode fmt len : Z) : Z :=
  Z.lor (Z.lor (Z.shiftl mode (work_mode_offset n)) (Z.shiftl fmt (frf_offset n))) (Z.shiftl (len - 1) (dfs_offset n)).
Definition word_bits (off mask w : Z) : Z := Z.land (Z.shiftr w off) mask.
Definition control_ok (n mode fmt len : Z) : bool :=
  let w := control_word n mode fmt len in
  (word_bits (dfs_offset n) 0x1F w =? len - 1) && (word_bits (frf_offset n) 0x3 w =? fmt) &&
  (word_bits (tmod_offset n) 3 w =? 0) && (word_bits (work_mode_offset n) 3 w =? mode).
Lemma control_checked : forallb (λ n, forallb (λ mode, forallb (λ fmt, forallb (control_ok n mode fmt) (seqZ 4 29))
  (seqZ 0 4)) (seqZ 0 4)) [0; 1; 3] = true.
Proof. by vm_compute. Qed.
Lemma control_fields n mode fmt len : 0 ≤ n → good_num n = true → 0 ≤ mode < 4 → 0 ≤ fmt < 4 → 4 ≤ len ≤ 32 →
  let w := control_word n mode fmt len in
  word_bits (dfs_offset n) 0x1F w = len - 1 ∧ word_bits (frf_offset n) 0x3 w = fmt ∧
  word_bits (tmod_offset n) 3 w = 0 ∧ word_bits (work_mode_offset n) 3 w = mode.
Proof.
  intros Hn Hg Hm Hf Hl w. pose proof control_checked as Hc. rewrite forallb_forall in Hc.
  assert (Hi : In n [0; 1; 3]) by (destruct (good_num_cases n Hn Hg) as [-> |[-> | ->]]; cbn; auto).
  specialize (Hc n Hi). apply (forallb_seqZ _ _ _ mode) in Hc; [|lia]. apply (forallb_seqZ _ _ _ fmt) in Hc; [|lia].
  apply (forallb_seqZ _ _ _ len) in Hc; [|lia]. unfold control_ok in Hc. fold w in Hc.
  apply andb_true_iff in Hc as [[[?%Z.eqb_eq ?%Z.eqb_eq]%andb_true_iff ?%Z.eqb_eq]%andb_true_iff ?%Z.eqb_eq]. done.
Qed.
Lemma octal_mod len fmt : 0 ≤ fmt < 4 →
  ((fmt =? SPI_FF_DUAL) && negb (len mod 2 =? 0)) || ((fmt =? SPI_FF_QUAD) && negb (len mod 4 =? 0)) ||
  ((fmt =? SPI_FF_OCTAL) && negb (len mod 8 =? 0)) = negb (len mod 2 ^ fmt =? 0).
Proof.
  intros Hf. assert (fmt = 0 ∨ fmt = 1 ∨ fmt = 2 ∨ fmt = 3) as [-> |[-> |[-> | ->]]] by lia; cbn [Z.eqb andb orb SPI_FF_DUAL SPI_FF_QUAD SPI_FF_OCTAL Pos.eqb];
    [by rewrite Z.mod_1_r|change (2 ^ 1) with 2|change (2 ^ 2) with 4|change (2 ^ 3) with 8]; by rewrite ?orb_false_r.
Qed.
Lemma spi_init_run n mode fmt len e s r : 0 ≤ n → good_num n = true → 0 ≤ fmt < 4 → 4 ≤ len ≤ 32 → len mod 2 ^ fmt = 0 →
  ∃ s' r', spi_init n mode fmt len e s r = Ok (s', r') ∧ clock_running (spi_clock n) s' ∧
    r' ctrlr0 = control_word n mode fmt len ∧ r' ssienr = 0 ∧ r' ser = 0 ∧ r' endian = e ∧
    r' baudr = if r baudr =? 0 then 0x14 else r baudr.
Proof.
  intros Hn Hg Hf Hl Hm. destruct (spi_clk_init_run n s Hn Hg) as (s' & E & Hs'). unfold spi_init.
  rewrite !(proj2 (Z.leb_le _ _)) by lia. rewrite Hg. cbn [negb andb]. rewrite E. cbn [mbind res_bind].
  pose proof (octal_mod len fmt Hf) as Ho. rewrite Hm in Ho. cbn [Z.eqb negb] in Ho.
  apply orb_false_iff in Ho as [[-> ->]%orb_false_iff ->]. eexists s', _. split; [done|]. split; [done|]. by case_match.
Qed.

(** [spi_init] accepts a frame length between 4 and 32 that fills the lines of the frame
    format evenly and fails its assertions otherwise.  It leaves the clock of the device
    running and the device disabled; length, format and mode read back from the
    control word where the transfers look for them (the layout depends on the device), and the element in
    which the transfers take frames from buffers is the smallest integer type that holds one. *)
Theorem spi_init_spec n mode fmt len e s r : 0 ≤ n → good_num n = true → 0 ≤ mode < 4 → 0 ≤ fmt < 4 →
  if decide (4 ≤ len ≤ 32 ∧ len mod 2 ^ fmt = 0) then
    ∃ s' r', spi_init n mode fmt len e s r = Ok (s', r') ∧ clock_running (spi_clock n) s' ∧
      data_bit_length n r' = len - 1 ∧ spi_get_frame_format n r' = Ok fmt ∧ tmod_of n r' = SPI_TMOD_TRANS_RECV ∧
      word_bits (work_mode_offset n) 3 (r' ctrlr0) = mode ∧ r' ssienr = 0 ∧ r' ser = 0 ∧ r' baudr ≠ 0 ∧
      let w := Z.of_nat (spi_get_frame_size (data_bit_length n r')) in len ≤ 8 * w ∧ (8 < len → 4 * w < len)
  else spi_init n mode fmt len e s r = Fault FAssert.
Proof.
  intros Hn Hg Hm Hf. case_decide as Hd.
  - destruct Hd as [Hl Hd]. destruct (spi_init_run n mode fmt len e s r) as (s' & r' & E & Hs & Hc & H1 & H2 & _ & Hb); [done..|].
    destruct (control_fields n mode fmt len) as (F1 & F2 & F3 & F4); [done..|]. rewrite <-Hc in F1, F2, F3, F4.
    exists s', r'. split; [done|]. split; [done|]. split; [exact F1|].
    split. { unfold spi_get_frame_format. destruct (Z.eqb_spec n 2) as [->|]; [done|]. f_equal. exact F2. }
    split; [exact F3|]. split; [exact F4|]. split; [done|]. split; [done|].
    split. { rewrite Hb. by destruct (Z.eqb_spec (r baudr) 0). }
    change (data_bit_length n r') with (word_bits (dfs_offset n) 0x1F (r' ctrlr0)). rewrite F1. unfold spi_get_frame_size.
    destruct (Z.ltb_spec (len - 1) 8); [unfold SPI_TRANS_CHAR; lia|]. destruct (Z.ltb_spec (len - 1) 16); unfold SPI_TRANS_SHORT, SPI_TRANS_INT; lia.
  - unfold spi_init. rewrite Hg. cbn [negb]. destruct (Z.leb_spec 4 len), (Z.leb_spec len 32); cbn [andb negb]; try done.
    destruct (spi_clk_init_run n s Hn Hg) as (s' & -> & _). cbn [mbind res_bind].
    pose proof (octal_mod len fmt Hf) as Ho. destruct (Z.eqb_spec (len mod 2 ^ fmt) 0); [by destruct Hd|]. cbn [negb] in Ho.
    by apply orb_true_iff in Ho as [[-> | ->]%orb_true_iff | ->]; repeat case_match.
Qed.
Lemma spi_init_spec_witness : (∃ s' r', spi_init 3 0 2 8 0 (λ _, 0) (λ _, 0) = Ok (s', r') ∧ data_bit_length 3 r' = 7) ∧
  spi_init 0 0 3 12 0 (λ _, 0) (λ _, 0) = Fault FAssert.
Proof.
  split.
  - pose proof (spi_init_spec 3 0 2 8 0 (λ _, 0) (λ _, 0) ltac:(lia) ltac:(reflexivity) ltac:(lia) ltac:(lia)) as H.
    rewrite decide_True in H by (split; [lia|reflexivity]). destruct H as (s' & r' & E & _ & Hl & _). by exists s', r'.
  - pose proof (spi_init_spec 0 0 3 12 0 (λ _, 0) (λ _, 0) ltac:(lia) ltac:(reflexivity) ltac:(lia) ltac:(lia)) as H.
    rewrite decide_False in H by (intros [_ E]; discriminate E). exact H.
Defined.

(** The baud rate: the divisor is between 2 and 65534, and the quotient is rounded down, so the clock is
    never slower than asked for within that range, but can be faster by up to a half. *)
Lemma spi_set_clk_rate_run n clk s r f : 0 < clk →
  sysctl_clock_get_freq (sysctl_clock_to_Z SYSCTL_CLOCK_SPI0 + n) s = Ok f → in_width 32 f →
  ∃ rate b, spi_set_clk_rate n clk s r = Ok (rate, <[baudr := b]> r) ∧ 2 ≤ b ≤ 65534 ∧ rate = f / b ∧
    (2 * clk ≤ f < 65535 * clk → clk ≤ rate ∧ 2 * rate < 3 * clk).
Proof.
  intros Hc Ef Hf. unfold spi_set_clk_rate. rewrite Ef. cbn [mbind res_bind]. rewrite (proj2 (Z.eqb_neq clk 0)) by lia.
  rewrite wrap_id by done. eexists _, _. split; [done|].
  assert (Hb : ∀ q, 2 ≤ (if q <? 2 then 2 else if 65534 <? q then 65534 else q) ≤ 65534).
  { intros q. destruct (Z.ltb_spec q 2), (Z.ltb_spec 65534 q); lia. }
  split; [apply Hb|]. split; [done|]. intros Hr.
  assert (Hq : 2 ≤ f / clk < 65535) by (split; [apply Z.div_le_lower_bound; lia|apply Z.div_lt_upper_bound; lia]).
  rewrite (proj2 (Z.ltb_ge _ _)), (proj2 (Z.ltb_ge _ _)) by lia. set (q := f / clk) in *.
  pose proof (Z.mul_div_le f clk Hc). pose proof (Z.mul_succ_div_gt f clk Hc). fold q in H, H0.
  split; [apply Z.div_le_lower_bound; nia|]. pose proof (Z.mul_div_le f q). nia.
Qed.
End Config.
