(* ===== verification/HardSpi.v ===== *)
(** * The SD card bus on the SPI controller (components/sdcard/sdcard_spi.c, hard half)

    The other structure of bus functions that the SD card driver can be given: bytes go
    through the second SPI controller ([Spi]), the chip select line is a GPIO pin. *)

From S2P Require Import Prelude SysctlRegs Sysctl SysctlClock FpioaTable Fpioa Gpio Sdcard SoftSpi Spi.
Import Spi.Engine Spi.Transfer Spi.Config.

Definition SPI_DEVICE_1 : Z := 1.
Definition SPI_CHIP_SELECT_0 : Z := 0.

(** The controller with what is on its wires, the system controller, the registers of the GPIO
    block, the multiplexer and its table, and [_sdcard_use_hw_spi1].  The chip select pin leads
    to the same card as the wires. *)
Record hard_spi (W : Type) := HardSpi {
  spi1 : dev W;
  sys : bank sysctl_reg;
  pins_regs : bank gpio_reg;
  pins_mux : hal_pads;
  _sdcard_use_hw_spi1 : Z
}.
Arguments HardSpi {W}.
Arguments spi1 {W}.
Arguments sys {W}.
Arguments pins_regs {W}.
Arguments pins_mux {W}.
Arguments _sdcard_use_hw_spi1 {W}.

Section hard_spi.
Context {W : Type} (hw_out : Z → W → W) (step : dev W → dev W) (spi_fuel : nat → nat) (rt_malloc_align : Z → option Z).
Abbreviation St := (hard_spi W).
Abbreviation M := (Prelude.M St).
(** The calls into the layers below *)
Definition set_func (pin func : Z) : M unit := modify (λ s,
  HardSpi s.(spi1) s.(sys) s.(pins_regs) (hal_fpioa_set_pin_func (u8 pin) func s.(pins_mux)) s.(_sdcard_use_hw_spi1)).
Definition on_pins (m : Prelude.M (gpio_drv W) unit) : M unit := λ s,
  '(_, d) ← m (GpioDrv s.(pins_regs) s.(pins_mux).(mux) s.(spi1).(bus));
  let c := s.(spi1) in
  Ok (tt, HardSpi (Dev c.(regs) c.(txf) c.(rxf) c.(pending) c.(busy) d.(outside)) s.(sys) d.(gpio)
            (HalPads s.(pins_mux).(k210_pin_func_map) d.(pads)) s.(_sdcard_use_hw_spi1)).
Definition on_spi {A} (f : dev W → res (A * dev W)) : M A := λ s,
  '(a, d) ← f s.(spi1);
  Ok (a, HardSpi d s.(sys) s.(pins_regs) s.(pins_mux) s.(_sdcard_use_hw_spi1)).
(** [spi_init] disables the controller, which ends what it does. *)
Definition init_spi (work_mode frame_format data_bit_length endian : Z) : M unit := λ s,
  '(c, r) ← spi_init SPI_DEVICE_1 work_mode frame_format data_bit_length endian s.(sys) s.(spi1).(regs);
  Ok (tt, HardSpi (idle_dev r s.(spi1).(bus)) c s.(pins_regs) s.(pins_mux) s.(_sdcard_use_hw_spi1)).
Definition set_clk_rate (freq : Z) : M unit := λ s,
  '(_, r) ← spi_set_clk_rate SPI_DEVICE_1 freq s.(sys) s.(spi1).(regs);
  let c := s.(spi1) in
  Ok (tt, HardSpi (Dev r c.(txf) c.(rxf) c.(pending) c.(busy) c.(bus)) s.(sys) s.(pins_regs) s.(pins_mux) s.(_sdcard_use_hw_spi1)).

Definition _hard_spi_init (sck miso mosi cs : Z) : M unit :=
  _ ← set_func cs (FUNC_GPIO0 + SOFT_SPI_CSXX_GPIO_FUNC);
  _ ← on_pins (gpio_set_drive_mode SOFT_SPI_CSXX_GPIO_FUNC GPIO_DM_OUTPUT);
  _ ← on_pins (gpio_set_pin hw_out SOFT_SPI_CSXX_GPIO_FUNC GPIO_PV_HIGH);
  _ ← set_func sck FUNC_SPI1_SCLK;
  _ ← set_func miso FUNC_SPI1_D1;
  _ ← set_func mosi FUNC_SPI1_D0;
  _ ← init_spi 0 0 8 0;
  _ ← set_clk_rate (400 * 1000);
  modify (λ s, HardSpi s.(spi1) s.(sys) s.(pins_regs) s.(pins_mux) 1).
Definition _hard_spi_set_speed (freq : Z) : M unit := set_clk_rate freq.
Definition _hard_spi_select : M unit := on_pins (gpio_set_pin hw_out SOFT_SPI_CSXX_GPIO_FUNC GPIO_PV_LOW).
Definition _hard_spi_relese : M unit := on_pins (gpio_set_pin hw_out SOFT_SPI_CSXX_GPIO_FUNC GPIO_PV_HIGH).
Definition _hard_spi_is_present : bool := true.
Definition _hard_spi_wr_rd_byte (byte : Z) : M Z :=
  rx ← on_spi (spi_transfer_data_standard SPI_DEVICE_1 step (spi_fuel 1) SPI_CHIP_SELECT_0 [byte] true);
  mret (hd 0 rx).
Definition _hard_spi_write (buffer : list Z) : M unit :=
  on_spi (λ d, d ← spi_send_data_standard SPI_DEVICE_1 step (spi_fuel (length buffer)) rt_malloc_align SPI_CHIP_SELECT_0 0 [] buffer d;
               Ok (tt, d)).
Definition _hard_spi_read (size : Z) : M (list Z) :=
  on_spi (spi_receive_data_standard SPI_DEVICE_1 step (spi_fuel (Z.to_nat size)) SPI_CHIP_SELECT_0 [] (Z.to_nat size)).
Definition run {A} (m : M A) (s : St) : res St := '(_, s) ← m s; Ok s.
Definition hard_spi_interface : spisd_interface_t St :=
  Interface (λ sck miso mosi cs, run (_hard_spi_init sck miso mosi cs)) (λ f, run (_hard_spi_set_speed f))
    (run _hard_spi_select) (run _hard_spi_relese) (λ _, _hard_spi_is_present)
    _hard_spi_wr_rd_byte (λ bs, run (_hard_spi_write bs)) _hard_spi_read.
End hard_spi.

Section bus.
Context {W : Type} (hw_out : Z → W → W) (shift : bank spi_reg → option Z → W → Z * W).
Context (step : dev W → dev W) (slack : dev W → nat) (stall : nat).
Context `{!Pace SPI_DEVICE_1 shift step slack stall} `{!Slow SPI_DEVICE_1 shift step}.
Context (spi_fuel : nat → nat) (spi_fuel_enough : ∀ n, (fuel_for stall n ≤ spi_fuel n)%nat).
(** The heap has room; every frame on the wires takes some time, less than 2^30 ticks. *)
Context (rt_malloc_align : Z → option Z) (malloc_ok : ∀ n, is_Some (rt_malloc_align n)).
Context (time : W → Z) (bytes_per_tick : Z) (tick_pos : 0 < bytes_per_tick)
  (shift_time : ∀ r c w, time w < time (snd (shift r c w)) ≤ time w + 2 ^ 30 * bytes_per_tick).
Implicit Types s : hard_spi W.
Definition tick_get s : Z := u32 (time s.(spi1).(bus) / bytes_per_tick).
Definition sd_bus : spisd_interface_t (hard_spi W) := hard_spi_interface hw_out step spi_fuel rt_malloc_align.
Definition cs_high s : bool := Z.testbit (s.(pins_regs) GPIO_DATA_OUTPUT) SOFT_SPI_CSXX_GPIO_FUNC.
Definition cs_output s : bool := Z.testbit (s.(pins_regs) GPIO_DIRECTION) SOFT_SPI_CSXX_GPIO_FUNC.
Definition pins_sound s : Prop := bank_ok s.(pins_regs).
(** The controller is at rest and set for frames of single bytes, the chip select is an output. *)
Record up s : Prop := {
  up_pins : pins_sound s;
  up_cs : cs_output s = true;
  up_spi : ∃ r w, s.(spi1) = idle_dev r w ∧ r ser = 0 ∧ spi_get_frame_size (data_bit_length SPI_DEVICE_1 r) = 1%nat
}.
Definition with_spi (d : dev W) s : hard_spi W := HardSpi d s.(sys) s.(pins_regs) s.(pins_mux) s.(_sdcard_use_hw_spi1).

Lemma hard_run_returns {A} (m : Prelude.M (hard_spi W) A) s a s' (Q : hard_spi W → Prop) :
  m s = Ok (a, s') → Q s' → returns (run m s) Q.
Proof. intros E HQ. exists s'. unfold run. by rewrite E. Qed.
Lemma cs_write_pin (v : bool) s : pins_sound s → cs_output s = true →
  ∃ s', on_pins (gpio_set_pin hw_out SOFT_SPI_CSXX_GPIO_FUNC (Z.b2z v)) s = Ok (tt, s') ∧
    pins_sound s' ∧ cs_output s' = true ∧ cs_high s' = v ∧ s'.(sys) = s.(sys) ∧
    ∃ w, s'.(spi1) = Dev s.(spi1).(regs) s.(spi1).(txf) s.(spi1).(rxf) s.(spi1).(pending) s.(spi1).(busy) w.
Proof.
  intros Hp Ho. unfold on_pins. rewrite gpio_set_pin_spec by done.
  change (is_output SOFT_SPI_CSXX_GPIO_FUNC _) with (cs_output s). rewrite Ho. cbn [mbind res_bind].
  eexists. split; [done|]. unfold pins_sound, cs_output, cs_high. cbn [pins_regs gpio out_write sys spi1 outside].
  split; [apply bank_ok_insert; [done|apply set_gpio_bit_range; [apply Hp|done]]|].
  rewrite fn_lookup_insert_ne, fn_lookup_insert by done. split; [done|].
  split; [rewrite set_gpio_bit_testbit by (done || apply Hp); rewrite decide_True by done; by destruct v|]. split; [done|]. by eexists.
Qed.
Lemma cs_write_up v s : up s → ∃ s', on_pins (gpio_set_pin hw_out SOFT_SPI_CSXX_GPIO_FUNC (Z.b2z v)) s = Ok (tt, s') ∧
  up s' ∧ cs_high s' = v.
Proof.
  intros [Hp Ho (r & w & Hs & Hser & Hw)]. destruct (cs_write_pin v s Hp Ho) as (s' & E & H1 & H2 & H3 & _ & w' & H4).
  exists s'. split; [done|]. split; [|done]. constructor; [done|done|]. exists r, w'. by rewrite H4, Hs.
Qed.
(** A transfer that leaves the controller at rest keeps the bus up. *)
Lemma up_after s r w : up s → r ser = 0 → spi_get_frame_size (data_bit_length SPI_DEVICE_1 r) = 1%nat → up (with_spi (idle_dev r w) s).
Proof. intros [] Hs Hw. constructor; [done|done|]. by exists r, w. Qed.
Lemma released_ser r : released r ser = 0.
Proof. unfold released. by rewrite fn_lookup_insert_ne, fn_lookup_insert. Qed.
Lemma released_width r : data_bit_length SPI_DEVICE_1 (released r) = data_bit_length SPI_DEVICE_1 r.
Proof. unfold released, data_bit_length. by rewrite !fn_lookup_insert_ne. Qed.
Lemma select_width r : data_bit_length SPI_DEVICE_1 (select SPI_CHIP_SELECT_0 r) = data_bit_length SPI_DEVICE_1 r.
Proof. unfold select, data_bit_length. by rewrite fn_lookup_insert_ne. Qed.
Lemma counted_width t n r : data_bit_length SPI_DEVICE_1 (counted SPI_DEVICE_1 t n r) = data_bit_length SPI_DEVICE_1 r.
Proof.
  rewrite <-(data_bit_length_set SPI_DEVICE_1 t r). unfold counted, with_count, data_bit_length.
  by rewrite (fn_lookup_insert_ne _ ssienr), fn_lookup_insert_ne.
Qed.
Lemma enabled_width t r : data_bit_length SPI_DEVICE_1 (enabled SPI_DEVICE_1 t r) = data_bit_length SPI_DEVICE_1 r.
Proof.
  rewrite <-(data_bit_length_set SPI_DEVICE_1 t r). unfold enabled, data_bit_length. by rewrite fn_lookup_insert_ne.
Qed.
Lemma elems_bytes buf : elems 1 buf = buf.
Proof.
  unfold elems. rewrite Nat.div_1_r. apply list_eq. intros i. rewrite list_lookup_fmap.
  destruct (decide (i < length buf)%nat) as [Hi|Hi].
  - rewrite lookup_seq_lt by done. cbn [fmap option_fmap option_map Nat.add]. rewrite Nat.mul_1_l.
    destruct (lookup_lt_is_Some_2 buf i Hi) as [b Hb]. rewrite Hb, (drop_S _ b) by done. cbn. rewrite take_0. cbn. f_equal. lia.
  - by rewrite lookup_seq_ge, lookup_ge_None_2 by lia.
Qed.
Lemma stored_bytes vs : Forall (λ v, in_width 8 v) vs → stored 1 vs = vs.
Proof.
  unfold stored. induction 1 as [|v vs Hv _ IH]; [done|]. cbn. f_equal; [by apply wrap_id|exact IH].
Qed.

(** The bytes the controller exchanges are bytes. *)
Lemma bits_range r : spi_get_frame_size (data_bit_length SPI_DEVICE_1 r) = 1%nat → 0 ≤ bits SPI_DEVICE_1 r ≤ 8.
Proof.
  intros Hw. unfold bits. pose proof (data_bit_length_range SPI_DEVICE_1 r). revert Hw. unfold spi_get_frame_size.
  destruct (Z.ltb_spec (data_bit_length SPI_DEVICE_1 r) 8); [lia|]. by case_match.
Qed.
Lemma exchange_bytes r fs w : spi_get_frame_size (data_bit_length SPI_DEVICE_1 r) = 1%nat →
  Forall (λ v, in_width 8 v) (fst (exchange SPI_DEVICE_1 shift r fs w)).
Proof.
  intros Hw. pose proof (bits_range r Hw) as Hb. revert w. induction fs as [|c fs IH]; intros w; cbn [exchange]; [constructor|].
  destruct (shift _ _ _) as [v w1]. specialize (IH w1). destruct (exchange _ _ r fs w1). constructor; [|done].
  pose proof (wrap_range (bits SPI_DEVICE_1 r) v ltac:(lia)). pose proof (Z.pow_le_mono_r 2 (bits SPI_DEVICE_1 r) 8). lia.
Qed.
Lemma receive_bytes r n w : spi_get_frame_size (data_bit_length SPI_DEVICE_1 r) = 1%nat →
  Forall (λ v, in_width 8 v) (fst (receive SPI_DEVICE_1 shift r n w)).
Proof.
  intros Hw. pose proof (bits_range r Hw) as Hb. revert w. induction n as [|n IH]; intros w; cbn [receive]; [constructor|].
  destruct (shift _ _ _) as [v w1]. specialize (IH w1). destruct (receive _ _ r n w1). constructor; [|done].
  pose proof (wrap_range (bits SPI_DEVICE_1 r) v ltac:(lia)). pose proof (Z.pow_le_mono_r 2 (bits SPI_DEVICE_1 r) 8). lia.
Qed.

(** The three kinds of transfer on a bus that is up.  The configuration of each is the one in
    force, with the transfer mode and the chip select. *)
Definition byte_regs r : bank spi_reg := select SPI_CHIP_SELECT_0 (counted SPI_DEVICE_1 SPI_TMOD_TRANS_RECV 1 r).
Definition write_regs r : bank spi_reg := live SPI_DEVICE_1 SPI_TMOD_TRANS SPI_CHIP_SELECT_0 r.
Definition read_regs n r : bank spi_reg := select SPI_CHIP_SELECT_0 (counted SPI_DEVICE_1 SPI_TMOD_RECV n r).
Lemma wr_rd_byte_run b s r w : spi_get_frame_size (data_bit_length SPI_DEVICE_1 r) = 1%nat → s.(spi1) = idle_dev r w →
  let '(v, w') := shift (byte_regs r) (Some (wrap (bits SPI_DEVICE_1 r) b)) w in
  _hard_spi_wr_rd_byte step spi_fuel b s = Ok (wrap (bits SPI_DEVICE_1 r) v, with_spi (idle_dev (released (byte_regs r)) w') s).
Proof.
  intros Hw Hs. assert (Hbits : bits SPI_DEVICE_1 (byte_regs r) = bits SPI_DEVICE_1 r).
  { unfold byte_regs, bits. by rewrite select_width, counted_width. }
  pose proof (transfer_run SPI_DEVICE_1 shift step slack stall eq_refl SPI_CHIP_SELECT_0 ltac:(done) (spi_fuel 1) [b] true r w
    ltac:(done) (spi_fuel_enough 1)) as H.
  unfold exchanged in H. rewrite Hw in H. specialize (H eq_refl). change (length [b] / 1)%nat with 1%nat in H. fold (byte_regs r) in H.
  rewrite elems_bytes in H. pose proof (exchange_bytes (byte_regs r) [b] w) as Hb. unfold byte_regs in Hb at 1.
  rewrite select_width, counted_width in Hb. specialize (Hb Hw). cbn [exchange] in *. rewrite Hbits in *.
  destruct (shift _ _ _) as [v w']. unfold _hard_spi_wr_rd_byte. unfold mbind, M_bind, on_spi. rewrite Hs, H.
  cbn [fst] in Hb. rewrite stored_bytes by done. rewrite decide_True by (split; [done|cbn; lia]). done.
Qed.
Lemma write_run bs s r w : spi_get_frame_size (data_bit_length SPI_DEVICE_1 r) = 1%nat → s.(spi1) = idle_dev r w → bs ≠ [] →
  _hard_spi_write step spi_fuel rt_malloc_align bs s =
  Ok (tt, with_spi (idle_dev (released (write_regs r)) (snd (exchange SPI_DEVICE_1 shift (write_regs r) bs w))) s).
Proof.
  intros Hw Hs Hb. unfold _hard_spi_write, on_spi, spi_send_data_standard. rewrite Hs. change (good_num SPI_DEVICE_1) with true.
  cbn [negb]. destruct (malloc_ok (Z.of_nat (length ([] : list Z) + length bs))) as [a ->].
  change ([] ++ bs) with bs.
  rewrite (send_normal_run SPI_DEVICE_1 shift step slack stall eq_refl SPI_CHIP_SELECT_0) by
    (first [done|apply spi_fuel_enough|rewrite Hw; apply Nat.mod_1_r]).
  cbn [mbind res_bind]. unfold sent. by rewrite Hw, elems_bytes.
Qed.
Lemma read_run n s r w : spi_get_frame_size (data_bit_length SPI_DEVICE_1 r) = 1%nat → s.(spi1) = idle_dev r w → r ser = 0 →
  0 < n ≤ 65536 →
  let '(vs, w') := receive SPI_DEVICE_1 shift (read_regs (Z.to_nat n) r) (Z.to_nat n) w in
  _hard_spi_read step spi_fuel n s = Ok (vs, with_spi (idle_dev (released (read_regs (Z.to_nat n) r)) w') s).
Proof.
  intros Hw Hs Hser Hn.
  pose proof (receive_run SPI_DEVICE_1 shift step slack stall eq_refl SPI_CHIP_SELECT_0 ltac:(done) (spi_fuel (Z.to_nat n)) []
    (Z.to_nat n) r w) as H. rewrite Hw, !Nat.div_1_r in H.
  specialize (H eq_refl ltac:(cbn; lia) ltac:(lia) Hser (spi_fuel_enough _)).
  unfold received in H. rewrite decide_True in H by done.
  rewrite Hw in H. change (snd (exchange _ _ _ (elems 1 []) w)) with w in H. fold (read_regs (Z.to_nat n) r) in H.
  pose proof (receive_bytes (read_regs (Z.to_nat n) r) (Z.to_nat n) w) as Hb.
  unfold read_regs in Hb at 1. rewrite select_width, counted_width in Hb. specialize (Hb Hw).
  destruct (receive _ _ _ _ _) as [vs w']. unfold _hard_spi_read, on_spi. rewrite Hs, H. cbn [fst] in Hb. by rewrite stored_bytes.
Qed.

(** ** Start-up *)
Lemma set_clk_rate_run freq s : 0 < freq → ∃ b, set_clk_rate freq s =
  Ok (tt, with_spi (let c := s.(spi1) in Dev (<[baudr := b]> c.(regs)) c.(txf) c.(rxf) c.(pending) c.(busy) c.(bus)) s).
Proof.
  intros Hf. destruct (clock_get_freq_defined s.(sys) SYSCTL_CLOCK_SPI1) as (f & E & Hr); [by right|].
  destruct (spi_set_clk_rate_run SPI_DEVICE_1 freq s.(sys) s.(spi1).(regs) f Hf E Hr) as (rate & b & Er & _). exists b.
  unfold set_clk_rate. by rewrite Er.
Qed.
Lemma set_speed_up freq s : 0 < freq → up s → ∃ s', set_clk_rate freq s = Ok (tt, s') ∧ up s' ∧ cs_high s' = cs_high s.
Proof.
  intros Hf Hu. destruct (set_clk_rate_run freq s Hf) as (b & E). eexists. split; [exact E|]. split; [|done].
  destruct (up_spi _ Hu) as (r & w & -> & Hs & Hw). apply (up_after s (<[baudr := b]> r) w Hu).
  - by rewrite fn_lookup_insert_ne.
  - unfold data_bit_length. by rewrite fn_lookup_insert_ne.
Qed.
Lemma init_spi_run s : ∃ c r, init_spi 0 0 8 0 s =
    Ok (tt, HardSpi (idle_dev r s.(spi1).(bus)) c s.(pins_regs) s.(pins_mux) s.(_sdcard_use_hw_spi1)) ∧
  r ser = 0 ∧ spi_get_frame_size (data_bit_length SPI_DEVICE_1 r) = 1%nat.
Proof.
  destruct (spi_init_run SPI_DEVICE_1 0 0 8 0 s.(sys) s.(spi1).(regs)) as (c & r & E & _ & Hc & _ & Hs & _); [done..|].
  exists c, r. unfold init_spi. rewrite E. split; [done|]. split; [done|]. unfold data_bit_length. by rewrite Hc.
Qed.
Lemma cs_drive_mode s cs : 0 ≤ cs < K210_IO_NUMS → pins_sound s →
  ch_sel s.(pins_mux).(mux) cs = FUNC_GPIO0 + SOFT_SPI_CSXX_GPIO_FUNC →
  ∃ s', on_pins (gpio_set_drive_mode SOFT_SPI_CSXX_GPIO_FUNC GPIO_DM_OUTPUT) s = Ok (tt, s') ∧ pins_sound s' ∧ cs_output s' = true.
Proof.
  intros Hcs Hp Hf. set (d := GpioDrv s.(pins_regs) s.(pins_mux).(mux) s.(spi1).(bus)).
  destruct (gpio_set_drive_mode_returns SOFT_SPI_CSXX_GPIO_FUNC GPIO_DM_OUTPUT d cs) as (g & E & _); [done..|].
  destruct (gpio_set_drive_mode_spec SOFT_SPI_CSXX_GPIO_FUNC GPIO_DM_OUTPUT d g ltac:(done) Hp E) as (_ & Ho & _ & _ & _ & Hok).
  unfold on_pins. fold d. rewrite E. cbn [mbind res_bind]. eexists. split; [done|]. split; [done|]. exact Ho.
Qed.
Lemma hard_spi_init_up sck miso mosi cs s : 0 ≤ cs < K210_IO_NUMS → pins_sound s →
  ∃ s', _hard_spi_init hw_out sck miso mosi cs s = Ok (tt, s') ∧ up s' ∧ cs_high s' = true ∧ s'.(_sdcard_use_hw_spi1) = 1.
Proof.
  intros Hcs Hp. unfold _hard_spi_init. erewrite M_bind_run by done.
  set (s1 := HardSpi s.(spi1) s.(sys) s.(pins_regs) _ s.(_sdcard_use_hw_spi1)).
  destruct (cs_drive_mode s1 cs Hcs Hp) as (s2 & E2 & Hp2 & Ho2).
  { unfold s1. cbn [pins_mux]. replace (u8 cs) with cs by (symmetry; apply wrap_id; unfold K210_IO_NUMS in Hcs; lia).
    rewrite hal_set_pin_ch_sel by done. by rewrite decide_True. }
  rewrite (M_bind_run _ _ _ _ _ E2).
  destruct (cs_write_pin true s2 Hp2 Ho2) as (s3 & E3 & Hp3 & Ho3 & Hc3 & _ & _). rewrite (M_bind_run _ _ _ _ _ E3).
  do 3 (erewrite M_bind_run by done). set (s6 := HardSpi _ _ _ _ _).
  destruct (init_spi_run s6) as (c & r & E7 & Hs & Hw). rewrite (M_bind_run _ _ _ _ _ E7). set (s7 := HardSpi (idle_dev r s6.(spi1).(bus)) _ _ _ _).
  destruct (set_speed_up (400 * 1000) s7) as (s8 & E8 & [Hp8 Ho8 Hs8] & Hc8); [done|constructor; [exact Hp3|exact Ho3|by exists r, (bus (spi1 s6))]|].
  rewrite (M_bind_run _ _ _ _ _ E8). eexists. split; [done|]. split; [by constructor|]. split; [|done].
  change (cs_high s8 = true). rewrite Hc8. exact Hc3.
Qed.

(** The SPI controller is a bus for the SD card driver. *)
#[export] Instance hard_spi_bus : SpiBus sd_bus tick_get bytes_per_tick.
Proof.
  refine {| bus_pins sck miso mosi cs := 0 ≤ cs < K210_IO_NUMS; bus_ready := pins_sound; bus_up := up;
            bus_selected s := negb (cs_high s); bus_time s := time s.(spi1).(bus) |}.
  - done.
  - intros a b c e s Hp Hs. destruct (hard_spi_init_up a b c e s Hp Hs) as (s' & E & Hu & Hc & _).
    apply (hard_run_returns _ _ _ _ _ E). by rewrite Hc.
  - intros hz s Hhz Hu. destruct (set_speed_up hz s Hhz Hu) as (s' & E & Hu' & Hc).
    apply (hard_run_returns _ _ _ _ _ E). by rewrite Hc.
  - intros s Hu. destruct (cs_write_up false s Hu) as (s' & E & Hu' & Hc). apply (hard_run_returns _ _ _ _ _ E). by rewrite Hc.
  - intros s Hu. destruct (cs_write_up true s Hu) as (s' & E & Hu' & Hc). apply (hard_run_returns _ _ _ _ _ E). by rewrite Hc.
  - intros b s Hu. destruct (up_spi _ Hu) as (r & w & Hs & Hser & Hw). pose proof (wr_rd_byte_run b s r w Hw Hs) as E.
    pose proof (shift_time (byte_regs r) (Some (wrap (bits SPI_DEVICE_1 r) b)) w) as Ht. destruct (shift _ _ w) as [v w'].
    eexists (_, _). split; [exact E|]. split; [|split; [done|]].
    + apply up_after; [done|apply released_ser|]. unfold byte_regs. by rewrite released_width, select_width, counted_width.
    + rewrite Hs. exact Ht.
  - intros bs s Hbs Hu. destruct (up_spi _ Hu) as (r & w & Hs & Hser & Hw).
    apply (hard_run_returns _ _ _ _ _ (write_run bs s r w Hw Hs Hbs)). split; [|done].
    apply up_after; [done|apply released_ser|]. unfold write_regs, live. by rewrite released_width, select_width, enabled_width.
  - intros n s Hn Hu. destruct (up_spi _ Hu) as (r & w & Hs & Hser & Hw).
    pose proof (read_run n s r w Hw Hs Hser ltac:(lia)) as E. destruct (receive _ _ _ _ _) as [vs w'].
    eexists (_, _). split; [exact E|]. split; [|done].
    apply up_after; [done|apply released_ser|]. unfold read_regs. by rewrite released_width, select_width, counted_width.
Defined.

(** C29: the SD card driver on the SPI controller.  For a controller that exchanges at most 32
    frames between two status reads (so that the receive FIFO does not overflow) and
    otherwise keeps any pace, for a heap whose allocations succeed (the code does not look at
    the result), and for calls with whole buffers: whatever the state the controller is
    found in, the start-up and after it any sequence of such calls return, whatever the card
    answers, without a failed assertion, and leave the chip select line high and the
    controller at rest and set for bytes. *)
Theorem hard_spi_sd_session ms fuel sck miso mosi cs calls ty s :
  0 ≤ ms CARD_BUSY_TIMEOUT_MS < 2 ^ 30 → ms CARD_BUSY_TIMEOUT_MS * bytes_per_tick < Z.of_nat fuel →
  0 ≤ cs < K210_IO_NUMS → Forall call_ok calls → pins_sound s →
  ∃ s' : sd_t (hard_spi W), session sd_bus tick_get ms fuel sck miso mosi cs calls (Sd ty s) = Ok (tt, s') ∧
    cs_high (Sdcard.dev s') = true ∧ up (Sdcard.dev s').
Proof.
  intros Hms Hfuel Hp Hc Hs.
  destruct (session_released sd_bus tick_get ms bytes_per_tick (SpiBus0 := hard_spi_bus) Hms fuel Hfuel sck miso mosi cs
    (Info (parse_csd []) (parse_cid 0 []) 0 0 0) calls Hp Hc (Sd ty s) Hs) as ([] & s' & E & Hu & Hsel).
  exists s'. split; [exact E|]. split; [|exact Hu].
  change (false = negb (cs_high (Sdcard.dev s'))) in Hsel. by destruct (cs_high (Sdcard.dev s')).
Qed.
End bus.

(** ** Witness: a card that answers every frame with the number of frames so far *)
Definition demo_fuel (n : nat) : nat := fuel_for 1 n.
Definition demo_hard : hard_spi (list Z) :=
  HardSpi (Dev (λ _, 0) [1; 2] [3] 5 true []) (λ _, 0) (λ _, 0) (HalPads (λ _, 0) (λ _, 0)) 0.
Lemma demo_shift_time r c (w : list Z) :
  Z.of_nat (length w) < Z.of_nat (length (snd (demo_shift r c w))) ≤ Z.of_nat (length w) + 2 ^ 30 * 1.
Proof. cbn [demo_shift snd]. rewrite length_app. cbn [length]. lia. Qed.
Lemma hard_spi_sd_session_witness : ∃ s' : sd_t (hard_spi (list Z)),
  session (sd_bus (λ _ w, w) demo_step demo_fuel (λ _, Some 0x80000000)) (tick_get (λ w, Z.of_nat (length w)) 1)
    demo_ms 501 27 26 28 29 demo_calls (Sd 0 demo_hard) = Ok (tt, s') ∧ cs_high (Sdcard.dev s') = true ∧ up (Sdcard.dev s').
Proof.
  apply (hard_spi_sd_session (λ _ w, w) demo_shift demo_step demo_slack 1 demo_fuel (λ n, le_n (fuel_for 1 n)) (λ _, Some 0x80000000)
    (λ n, ex_intro _ _ eq_refl) (λ w, Z.of_nat (length w)) 1 eq_refl demo_shift_time demo_ms 501 27 26 28 29 demo_calls 0 demo_hard).
  - done.
  - done.
  - done.
  - by repeat (apply Forall_cons; split).
  - by intros [].
Defined.
