(* ===== verification/Imlib.v ===== *)
(** * Images (libraries/imlib/src/imlib.h and imlib.c)

    The image type, the macros that reach its pixels in the three formats that the library
    computes in, conversions between colours, and masks.  The [switch]es over the format are
    the same code with the macros of the format, so an access is a function of the format. *)

From S2P Require Import Prelude FbAlloc.

Definition UINT32_T_MASK : Z := 31.
Definition UINT32_T_SHIFT : Z := 5.
Inductive pixformat_t : Set := PIXFORMAT_BINARY | PIXFORMAT_GRAYSCALE | PIXFORMAT_RGB565 | PIXFORMAT_OTHER.
#[global] Instance pixformat_eq_dec : EqDecision pixformat_t.
Proof. solve_decision. Defined.
(** [data] is indexed by the storage unit of the format: a 32-bit word, a byte, a half word. *)
Record image_t := Image { img_w : Z; img_h : Z; pixfmt : pixformat_t; data : Z → Z }.

(** ** Access to pixels *)
Definition IMAGE_COMPUTE_BINARY_PIXEL_ROW_PTR (img : image_t) (y : Z) : Z :=
  Z.shiftr (img.(img_w) + UINT32_T_MASK) UINT32_T_SHIFT * y.
Definition IMAGE_GET_BINARY_PIXEL_FAST (d : Z → Z) (row_ptr x : Z) : Z :=
  Z.land (Z.shiftr (d (row_ptr + Z.shiftr x UINT32_T_SHIFT)) (Z.land x UINT32_T_MASK)) 1.
Definition IMAGE_SET_BINARY_PIXEL_FAST (row_ptr x : Z) (d : Z → Z) : Z → Z :=
  let i := row_ptr + Z.shiftr x UINT32_T_SHIFT in
  <[i := u32 (Z.lor (d i) (Z.shiftl 1 (Z.land x UINT32_T_MASK)))]> d.
Definition IMAGE_PUT_BINARY_PIXEL_FAST (row_ptr x v : Z) (d : Z → Z) : Z → Z :=
  let i := row_ptr + Z.shiftr x UINT32_T_SHIFT in
  let j := Z.land x UINT32_T_MASK in
  <[i := u32 (Z.lor (Z.land (d i) (Z.lnot (Z.shiftl 1 j))) (Z.shiftl (Z.land v 1) j))]> d.
Definition row_ptr (img : image_t) (y : Z) : Z :=
  match img.(pixfmt) with
  | PIXFORMAT_BINARY => IMAGE_COMPUTE_BINARY_PIXEL_ROW_PTR img y
  | _ => img.(img_w) * y
  end.
Definition get_pixel_fast (img : image_t) (row x : Z) : Z :=
  match img.(pixfmt) with
  | PIXFORMAT_BINARY => IMAGE_GET_BINARY_PIXEL_FAST img.(data) row x
  | _ => img.(data) (row + x)
  end.
Definition set_data (img : image_t) (d : Z → Z) : image_t := Image img.(img_w) img.(img_h) img.(pixfmt) d.
Definition put_pixel_fast (img : image_t) (row x v : Z) : image_t :=
  set_data img
    match img.(pixfmt) with
    | PIXFORMAT_BINARY => IMAGE_PUT_BINARY_PIXEL_FAST row x v img.(data)
    | PIXFORMAT_GRAYSCALE => <[row + x := u8 v]> img.(data)
    | _ => <[row + x := u16 v]> img.(data)
    end.
(** Pixel [x] of row [y] *)
Definition pixel (img : image_t) (x y : Z) : Z := get_pixel_fast img (row_ptr img y) x.
Definition put_pixel (img : image_t) (x y v : Z) : image_t := put_pixel_fast img (row_ptr img y) x v.
(** [IMAGE_BINARY_LINE_LEN] and its kin: storage units and bytes of a row *)
Definition line_len (img : image_t) : Z :=
  match img.(pixfmt) with
  | PIXFORMAT_BINARY => Z.shiftr (img.(img_w) + UINT32_T_MASK) UINT32_T_SHIFT
  | _ => img.(img_w)
  end.
Definition unit_bytes (fmt : pixformat_t) : Z :=
  match fmt with PIXFORMAT_BINARY => 4 | PIXFORMAT_GRAYSCALE => 1 | _ => 2 end.
Definition line_len_bytes (img : image_t) : Z := line_len img * unit_bytes img.(pixfmt).
(** [memcpy] of row [y'] of [src] to row [y] of [dst] *)
Definition copy_row (dst : image_t) (y : Z) (src : image_t) (y' : Z) : image_t :=
  let row := row_ptr dst y in
  set_data dst (λ q, if (row <=? q) && (q <? row + line_len dst) then src.(data) (q - row + row_ptr src y') else dst.(data) q).
(** The storage units at address [p] of the pool *)
Definition pool_units (fmt : pixformat_t) (s : fb_t) (p q : Z) : Z :=
  match fmt with
  | PIXFORMAT_BINARY => s.(mem) (p + 4 * q)
  | PIXFORMAT_GRAYSCALE => u8 (Z.shiftr (s.(mem) (p + q / 4 * 4)) (8 * (q mod 4)))
  | _ => u16 (Z.shiftr (s.(mem) (p + q / 2 * 4)) (16 * (q mod 2)))
  end.

(** ** Colours *)
Definition COLOR_BINARY_MIN : Z := 0.
Definition COLOR_BINARY_MAX : Z := 1.
Definition COLOR_GRAYSCALE_MIN : Z := 0.
Definition COLOR_GRAYSCALE_MAX : Z := 255.
Definition COLOR_R5_MAX : Z := 31.
Definition COLOR_G6_MAX : Z := 63.
Definition COLOR_B5_MAX : Z := 31.
Definition COLOR_RGB565_TO_R5 (pixel : Z) : Z := Z.land (Z.shiftr pixel 11) 0x1F.
Definition COLOR_RGB565_TO_G6 (pixel : Z) : Z := Z.land (Z.shiftr pixel 5) 0x3F.
Definition COLOR_RGB565_TO_B5 (pixel : Z) : Z := Z.land pixel 0x1F.
Definition COLOR_RGB565_TO_R8 (pixel : Z) : Z := let p := Z.land (Z.shiftr pixel 8) 0xF8 in Z.lor p (Z.shiftr p 5).
Definition COLOR_RGB565_TO_G8 (pixel : Z) : Z := let p := Z.land (Z.shiftr pixel 3) 0xFC in Z.lor p (Z.shiftr p 6).
Definition COLOR_RGB565_TO_B8 (pixel : Z) : Z := let p := Z.land (Z.shiftl pixel 3) 0xF8 in Z.lor p (Z.shiftr p 5).
Definition COLOR_R5_G6_B5_TO_RGB565 (r5 g6 b5 : Z) : Z := Z.lor (Z.lor (Z.shiftl r5 11) (Z.shiftl g6 5)) b5.
Definition COLOR_RGB888_TO_Y (r8 g8 b8 : Z) : Z := Z.shiftr (r8 * 38 + g8 * 75 + b8 * 15) 7.
Definition COLOR_RGB565_TO_Y (rgb565 : Z) : Z :=
  COLOR_RGB888_TO_Y (COLOR_RGB565_TO_R8 rgb565) (COLOR_RGB565_TO_G8 rgb565) (COLOR_RGB565_TO_B8 rgb565).
Definition COLOR_GRAYSCALE_TO_BINARY (pixel : Z) : bool := (COLOR_GRAYSCALE_MAX - COLOR_GRAYSCALE_MIN) / 2 + COLOR_GRAYSCALE_MIN <? pixel.
Definition COLOR_RGB565_TO_BINARY (pixel : Z) : bool := 255 / 2 <? COLOR_RGB565_TO_Y pixel.
Definition IM_CLAMP (x min max : Z) : Z := Z.max (Z.min x max) min.
Definition COLOR_BOUND (fmt : pixformat_t) (pixel0 pixel1 threshold : Z) : bool :=
  match fmt with
  | PIXFORMAT_RGB565 =>
      let p0 := u16 pixel0 in let p1 := u16 pixel1 in let t := u16 threshold in
      (Z.abs (COLOR_RGB565_TO_R5 p0 - COLOR_RGB565_TO_R5 p1) <=? COLOR_RGB565_TO_R5 t) &&
      (Z.abs (COLOR_RGB565_TO_G6 p0 - COLOR_RGB565_TO_G6 p1) <=? COLOR_RGB565_TO_G6 t) &&
      (Z.abs (COLOR_RGB565_TO_B5 p0 - COLOR_RGB565_TO_B5 p1) <=? COLOR_RGB565_TO_B5 t)
  | _ => Z.abs (pixel0 - pixel1) <=? threshold
  end.

(** ** Masks *)
Definition image_get_mask_pixel (ptr : image_t) (x y : Z) : bool :=
  (0 <=? x) && (x <? ptr.(img_w)) && (0 <=? y) && (y <? ptr.(img_h)) &&
  match ptr.(pixfmt) with
  | PIXFORMAT_BINARY => negb (pixel ptr x y =? 0)
  | PIXFORMAT_GRAYSCALE => COLOR_GRAYSCALE_TO_BINARY (pixel ptr x y)
  | PIXFORMAT_RGB565 => COLOR_RGB565_TO_BINARY (pixel ptr x y)
  | PIXFORMAT_OTHER => false
  end.

(** ** Pixels are cells of their own *)
Lemma shiftr_word a : Z.shiftr a UINT32_T_SHIFT = a / 32.
Proof. unfold UINT32_T_SHIFT. by rewrite Z.shiftr_div_pow2. Qed.
Lemma land_word a : Z.land a UINT32_T_MASK = a mod 32.
Proof. unfold UINT32_T_MASK. change 31 with (Z.ones 5). by rewrite Z.land_ones. Qed.
Lemma get_binary_testbit d row x : IMAGE_GET_BINARY_PIXEL_FAST d row x = Z.b2z (Z.testbit (d (row + x / 32)) (x mod 32)).
Proof.
  unfold IMAGE_GET_BINARY_PIXEL_FAST. rewrite shiftr_word, land_word. pose proof (Z.mod_pos_bound x 32 ltac:(lia)).
  apply Z.bits_inj'. intros i Hi. change 1 with (Z.ones 1). rewrite Z.land_ones by lia.
  rewrite <-Z.bit0_mod, Z.shiftr_spec, Z.add_0_l by lia. done.
Qed.
Lemma put_binary_testbit row x v d q i : 0 ≤ i < 32 → Z.testbit (IMAGE_PUT_BINARY_PIXEL_FAST row x v d q) i =
  if bool_decide (q = row + x / 32 ∧ i = x mod 32) then Z.testbit v 0 else Z.testbit (d q) i.
Proof.
  intros Hi. unfold IMAGE_PUT_BINARY_PIXEL_FAST. rewrite shiftr_word, land_word. pose proof (Z.mod_pos_bound x 32 ltac:(lia)).
  destruct (decide (q = row + x / 32)) as [-> |Hq].
  - rewrite fn_lookup_insert, wrap_testbit by lia. rewrite bool_decide_eq_true_2 by lia. cbn [andb].
    rewrite Z.lor_spec, Z.land_spec, Z.lnot_spec, shiftl_1_testbit, Z.shiftl_spec by lia.
    assert (∀ j, Z.testbit (Z.land v 1) j = bool_decide (j = 0) && Z.testbit v 0) as ->.
    { intros j. rewrite Z.land_spec. change 1 with (Z.ones 1). case_bool_decide as E; [subst; cbn; by rewrite andb_true_r|].
      destruct (decide (j < 0)); [by rewrite (Z.testbit_neg_r v)|]. by rewrite Z.ones_spec_high, andb_false_r by lia. }
    destruct (decide (i = x mod 32)) as [-> |Hn].
    + rewrite !bool_decide_eq_true_2 by (split_and?; lia). by rewrite andb_false_r.
    + rewrite !bool_decide_eq_false_2 by naive_solver lia. by rewrite andb_true_r, orb_false_r.
  - rewrite fn_lookup_insert_ne by done. rewrite bool_decide_eq_false_2; [done|]. naive_solver.
Qed.

(** The bits of a pixel *)
Definition pixel_bits (fmt : pixformat_t) : Z :=
  match fmt with PIXFORMAT_BINARY => 1 | PIXFORMAT_GRAYSCALE => 8 | _ => 16 end.
Definition image_ok (img : image_t) : Prop :=
  0 ≤ img.(img_w) ∧ 0 ≤ img.(img_h) ∧ ∀ q, in_width (8 * unit_bytes img.(pixfmt)) (img.(data) q).
Definition same_shape (a b : image_t) : Prop := a.(img_w) = b.(img_w) ∧ a.(pixfmt) = b.(pixfmt).
Lemma pixel_range img x y : image_ok img → in_width (pixel_bits img.(pixfmt)) (pixel img x y).
Proof.
  intros (_ & _ & H). unfold pixel, get_pixel_fast, pixel_bits, unit_bytes in *. destruct (pixfmt img); try apply H.
  rewrite get_binary_testbit. destruct (Z.testbit _ _); cbn; lia.
Qed.
Lemma row_ptr_len img y : row_ptr img y = line_len img * y.
Proof. unfold row_ptr, line_len, IMAGE_COMPUTE_BINARY_PIXEL_ROW_PTR. by destruct (pixfmt img). Qed.
Lemma row_ptr_data img d y : row_ptr (set_data img d) y = row_ptr img y.
Proof. done. Qed.
Lemma word_split w x y x' y' : 0 ≤ x < w → 0 ≤ x' < w → w * y + x = w * y' + x' → x = x' ∧ y = y'.
Proof. intros. assert (y = y') by nia. nia. Qed.
(** The unit of pixel [x] lies in its row. *)
Lemma unit_in_row img x y : 0 ≤ x < img.(img_w) →
  let u := match img.(pixfmt) with PIXFORMAT_BINARY => x / 32 | _ => x end in
  0 ≤ u < line_len img ∧ ∀ d, pixel (set_data img d) x y = match img.(pixfmt) with
    | PIXFORMAT_BINARY => Z.b2z (Z.testbit (d (row_ptr img y + u)) (x mod 32))
    | _ => d (row_ptr img y + u) end.
Proof.
  intros Hx. cbv zeta. unfold line_len, pixel, get_pixel_fast. cbn [set_data pixfmt data].
  destruct (pixfmt img); split; try lia; try done.
  - rewrite shiftr_word. unfold UINT32_T_MASK. pose proof (Z.div_pos x 32). split; [lia|]. Z.div_mod_to_equations; lia.
  - intros d. by rewrite get_binary_testbit.
Qed.
Lemma set_data_id img : set_data img (data img) = img.
Proof. by destruct img. Qed.
Lemma unit_put (d : Z → Z) a b w (P : Prop) `{Decision P} : (a = b → P) → (P → a = b) → (<[b := w]> d) a = if bool_decide P then w else d a.
Proof.
  intros H1 H2. case_bool_decide as HP; [rewrite (H2 HP); by rewrite fn_lookup_insert|].
  rewrite fn_lookup_insert_ne; [done|]. intros ->. by apply HP, H1.
Qed.
Lemma pixel_put img x y v x' y' : 0 ≤ x < img.(img_w) → 0 ≤ x' < img.(img_w) →
  pixel (put_pixel img x y v) x' y' = if bool_decide (x' = x ∧ y' = y) then wrap (pixel_bits img.(pixfmt)) v else pixel img x' y'.
Proof.
  intros Hx Hx'. destruct (unit_in_row img x' y' Hx') as [Hu' Hp']. destruct (unit_in_row img x y Hx) as [Hu _].
  pose proof (Hp' (data img)) as Hpi. rewrite set_data_id in Hpi. rewrite Hpi.
  unfold put_pixel, put_pixel_fast. rewrite Hp', !row_ptr_len. unfold pixel_bits. destruct (pixfmt img).
  - rewrite put_binary_testbit by (apply Z.mod_pos_bound; lia).
    rewrite (bool_decide_ext _ (x' = x ∧ y' = y)).
    + case_bool_decide; [|done]. unfold wrap. change (2 ^ 1) with 2. apply Z.bit0_mod.
    + split; [|by intros [-> ->]]. intros [E Em]. destruct (word_split _ _ _ _ _ Hu' Hu E) as [Ed ->]. split; [|done].
      rewrite (Z.div_mod x' 32), (Z.div_mod x 32) by lia. lia.
  - apply unit_put; [intros E; by destruct (word_split _ _ _ _ _ Hu' Hu E)|by intros [-> ->]].
  - apply unit_put; [intros E; by destruct (word_split _ _ _ _ _ Hu' Hu E)|by intros [-> ->]].
  - apply unit_put; [intros E; by destruct (word_split _ _ _ _ _ Hu' Hu E)|by intros [-> ->]].
Qed.
Lemma put_pixel_out img x y v q : 0 ≤ x < img.(img_w) → 0 ≤ y < img.(img_h) → q < 0 ∨ line_len img * img.(img_h) ≤ q →
  data (put_pixel img x y v) q = data img q.
Proof.
  intros Hx Hy Hq. destruct (unit_in_row img x y Hx) as [Hu _]. pose proof (row_ptr_len img y) as Hr.
  assert (0 ≤ row_ptr img y ∧ row_ptr img y + line_len img ≤ line_len img * img_h img) by nia.
  unfold put_pixel, put_pixel_fast, IMAGE_PUT_BINARY_PIXEL_FAST. cbn [set_data data]. rewrite shiftr_word.
  destruct (pixfmt img); rewrite fn_lookup_insert_ne by lia; done.
Qed.
Lemma pixel_copy_row dst y src y' x0 y0 : same_shape dst src → 0 ≤ x0 < dst.(img_w) →
  pixel (copy_row dst y src y') x0 y0 = if bool_decide (y0 = y) then pixel src x0 y' else pixel dst x0 y0.
Proof.
  intros [Ew Ef] Hx. assert (line_len src = line_len dst) as El by (unfold line_len; by rewrite Ew, Ef).
  destruct (unit_in_row dst x0 y0 Hx) as [Hu Hp]. destruct (unit_in_row src x0 y' ltac:(lia)) as [_ Hps].
  pose proof (Hp (data dst)) as Hpd. pose proof (Hps (data src)) as Hpc. rewrite set_data_id in Hpd, Hpc.
  rewrite Hpd, Hpc. unfold copy_row. rewrite Hp, <-Ef, !row_ptr_len, El.
  set (u := match pixfmt dst with PIXFORMAT_BINARY => _ | _ => _ end) in *.
  assert ((line_len dst * y <=? line_len dst * y0 + u) && (line_len dst * y0 + u <? line_len dst * y + line_len dst) = bool_decide (y0 = y)) as ->.
  { case_bool_decide as E; [subst; rewrite (proj2 (Z.leb_le _ _)), (proj2 (Z.ltb_lt _ _)) by lia; done|].
    apply not_true_iff_false. rewrite andb_true_iff, Z.leb_le, Z.ltb_lt. intros [H1 H2]. apply E. nia. }
  case_bool_decide as E; [|done]. subst y0.
  replace (line_len dst * y + u - line_len dst * y + line_len dst * y') with (line_len dst * y' + u) by lia. done.
Qed.
Lemma copy_row_out dst y src y' q : 0 ≤ y < dst.(img_h) → 0 ≤ line_len dst → q < 0 ∨ line_len dst * dst.(img_h) ≤ q →
  data (copy_row dst y src y') q = data dst q.
Proof.
  intros Hy Hl Hq. unfold copy_row. cbn [set_data data]. rewrite row_ptr_len.
  assert (0 ≤ line_len dst * y ∧ line_len dst * y + line_len dst ≤ line_len dst * img_h dst) by nia.
  replace (_ && _) with false; [done|]. symmetry. apply not_true_iff_false. rewrite andb_true_iff, Z.leb_le, Z.ltb_lt. lia.
Qed.
