(* ===== verification/Rolling.v ===== *)
(** * Filters in place (the frame of the filters of libraries/imlib/src/filter.c)

    Every filter computes a pixel from the window of [2 * ksize + 1] by [2 * ksize + 1]
    pixels around it and writes its result over the image.  Results go into a buffer of
    [ksize + 1] rows first, row [y] into row [y % brows] of it, and a row of the image is
    replaced when no window reaches back to it any more.  Where the window of a pixel and
    that of the pixel before lie inside the image, some filters only take out the column
    that was left and put in the one that was entered. *)

From S2P Require Import Prelude Words FbAlloc Imlib.

(** ** The frame *)
Section rolling.
(** [A] are the accumulators that a filter carries from pixel to pixel, [row_start] is what
    the head of a row does to them; [compute] gives the pixel at [x], [y]. *)
Context {A : Type} (ksize : Z) (mask : option image_t) (row_start : A → A).
Context (compute : image_t → Z → Z → A → res (A * Z)).
Definition brows : Z := ksize + 1.
Definition masked_out (x y : Z) : bool := match mask with Some m => negb (image_get_mask_pixel m x y) | None => false end.
Definition filter_pixel (img : image_t) (y x : Z) : image_t * A → res (image_t * A) := λ '(buf, a),
  if masked_out x y then Ok (put_pixel buf x (y mod brows) (pixel img x y), a)
  else '(a, p) ← compute img x y a; Ok (put_pixel buf x (y mod brows) p, a).
Definition filter_row (y : Z) : image_t * image_t * A → res (image_t * image_t * A) := λ '(img, buf, a),
  '(buf, a) ← for_res 0 img.(img_w) (filter_pixel img y) (buf, row_start a);
  Ok (if ksize <=? y then copy_row img (y - ksize) buf ((y - ksize) mod brows) else img, buf, a).
Definition filter_image (img buf : image_t) (a : A) : res image_t :=
  '(img, buf, a) ← for_res 0 img.(img_h) filter_row (img, buf, a);
  let y0 := Z.max (img.(img_h) - ksize) 0 in
  Ok (for_range y0 (img.(img_h) - y0) (λ y img, copy_row img y buf (y mod brows)) img).
End rolling.

(** ** Windows *)
Section windows.
Context {A : Type} (ksize : Z).
Definition kernel_len : Z := ksize * 2 + 1.
Definition in_center (img : image_t) (x y : Z) : bool :=
  (x <? img.(img_w) - ksize) && (ksize <=? y) && (y <? img.(img_h) - ksize).
(** The loop that checks the borders *)
Definition window_full (add : Z → A → res A) (img : image_t) (x y : Z) (a : A) : res A :=
  for_res (- ksize) kernel_len (λ j a,
    let y_j := IM_CLAMP (y + j) 0 (img.(img_h) - 1) in
    for_res (- ksize) kernel_len (λ k a,
      let x_k := IM_CLAMP (x + k) 0 (img.(img_w) - 1) in
      add (pixel img x_k y_j) a) a) a.
(** The loop that does not *)
Definition window_inner (add : Z → A → res A) (img : image_t) (x y : Z) (a : A) : res A :=
  for_res (- ksize) kernel_len (λ j a, for_res (- ksize) kernel_len (λ k a, add (pixel img (x + k) (y + j)) a) a) a.
(** One column out, one column in *)
Definition window_slide (sub add : Z → A → res A) (img : image_t) (x y : Z) (a : A) : res A :=
  for_res (- ksize) kernel_len (λ j a,
    a ← sub (pixel img (x - ksize - 1) (y + j)) a;
    add (pixel img (x + ksize) (y + j)) a) a.
(** [if (!mask && x > ksize && ...)]: slide from the pixel before, or start anew *)
Definition window_acc (mask : option image_t) (reset : A → A) (sub add : Z → A → res A) (settle : A → A)
    (img : image_t) (x y : Z) (a : A) : res A :=
  if bool_decide (mask = None) && (ksize <? x) && in_center img x y
  then a ← window_slide sub add img x y a; Ok (settle a)
  else window_full add img x y (reset a).
(** [if (x >= ksize && ...)]: the same loop with or without the border check *)
Definition window_fold (zero : A) (add : Z → A → res A) (img : image_t) (x y : Z) : res A :=
  if (ksize <=? x) && in_center img x y then window_inner add img x y zero else window_full add img x y zero.

(** The pixels of a window *)
Definition window_row (img : image_t) (x y j : Z) : list Z :=
  (λ k, pixel img (IM_CLAMP (x + k) 0 (img.(img_w) - 1)) (IM_CLAMP (y + j) 0 (img.(img_h) - 1))) <$> seqZ (- ksize) kernel_len.
Definition window (img : image_t) (x y : Z) : list Z := seqZ (- ksize) kernel_len ≫= window_row img x y.
End windows.
#[global] Instance mask_none_dec (mask : option image_t) : Decision (mask = None).
Proof. destruct mask; [right|left]; done. Defined.

(** ** The frame is correct *)
Lemma mod_apart y y' b : 0 < b → Z.abs (y - y') < b → y mod b = y' mod b → y = y'.
Proof.
  intros Hb Hd E. pose proof (Z.div_mod y b ltac:(lia)) as H1. pose proof (Z.div_mod y' b ltac:(lia)) as H2. rewrite E in H1.
  assert (- b < b * (y / b - y' / b) < b) by lia. assert (y / b = y' / b) by nia. congruence.
Qed.
Lemma clamp_range v n : 0 < n → 0 ≤ IM_CLAMP v 0 (n - 1) < n.
Proof. unfold IM_CLAMP. lia. Qed.
Lemma clamp_id v n : 0 ≤ v < n → IM_CLAMP v 0 (n - 1) = v.
Proof. unfold IM_CLAMP. lia. Qed.

Section correct.
Context {A : Type} (ksize : Z) (mask : option image_t) (row_start : A → A) (compute : image_t → Z → Z → A → res (A * Z)).
(** [good x y v]: [v] is right for the pixel at [x], [y]. *)
Context (img0 : image_t) (good : Z → Z → Z → Prop) (Inv : Z → Z → A → Prop).
(** Rows from [y0] on are those of the image that came in. *)
Definition rows_from (y0 : Z) (img : image_t) : Prop :=
  img.(img_h) = img0.(img_h) ∧ same_shape img img0 ∧ ∀ x y, 0 ≤ x < img0.(img_w) → y0 ≤ y < img0.(img_h) → pixel img x y = pixel img0 x y.
Definition filtered (x y v : Z) : Prop := if masked_out mask x y then v = pixel img0 x y else good x y v.
Context (Hk : 0 ≤ ksize) (Hok : image_ok img0).
Context (Hstart : ∀ y a, 0 ≤ y < img0.(img_h) → Inv 0 y (row_start a)).
Context (Hstep : ∀ img x y a, rows_from (y - ksize) img → 0 ≤ x < img0.(img_w) → 0 ≤ y < img0.(img_h) →
  masked_out mask x y = false → Inv x y a → ∃ a' p, compute img x y a = Ok (a', p) ∧ good x y (wrap (pixel_bits img0.(pixfmt)) p) ∧ Inv (x + 1) y a').
Context (Hskip : ∀ x y a, 0 ≤ x < img0.(img_w) → masked_out mask x y = true → Inv x y a → Inv (x + 1) y a).

(** Row [y] of the buffer after the first [n] pixels; nothing else of it has changed. *)
Definition buf_row (y n : Z) (buf0 buf : image_t) : Prop :=
  same_shape buf img0 ∧
  ∀ x r, 0 ≤ x < img0.(img_w) →
    (r = y mod brows ksize → x < n → filtered x y (pixel buf x r)) ∧ (r ≠ y mod brows ksize ∨ n ≤ x → pixel buf x r = pixel buf0 x r).
Lemma filter_pixels_run img y buf a : rows_from (y - ksize) img → same_shape buf img0 → 0 ≤ y < img0.(img_h) →
  ∃ buf' a', for_res 0 img.(img_w) (filter_pixel ksize mask compute img y) (buf, row_start a) = Ok (buf', a') ∧
    buf_row y img0.(img_w) buf buf'.
Proof using Hk Hok Hstart Hstep Hskip.
  intros Himg Hbuf Hy. pose proof Himg as (_ & [Ew _] & Hrows). rewrite Ew.
  destruct (for_res_ind (λ x '(buf', a'), buf_row y x buf buf' ∧ Inv x y a') 0 (img_w img0) (filter_pixel ksize mask compute img y) (buf, row_start a))
    as ([buf' a'] & E & [Hb _]); [apply Hok| | |by exists buf', a'].
  - split; [|by apply Hstart]. split; [done|]. intros x r Hx. split; [lia|done].
  - intros x [b1 a1] Hx [[[Ebw Ebf] Hb] Hi]. rewrite Z.add_0_l. unfold filter_pixel.
    assert (Hput : ∀ v, filtered x y (wrap (pixel_bits img0.(pixfmt)) v) → buf_row y (x + 1) buf (put_pixel b1 x (y mod brows ksize) v)).
    { intros v Hv. split; [done|]. intros x' r Hx'. rewrite pixel_put by lia. rewrite Ebf. destruct (Hb x' r Hx') as [Hb1 Hb2].
      case_bool_decide as E; [destruct E as [-> ->]; split; [done|lia]|]. split.
      - intros Er Hlt. apply Hb1; [done|]. destruct (decide (x' = x)) as [-> |]; [tauto|lia].
      - intros Ho. apply Hb2. destruct Ho as [Ho|Ho]; [by left|right; lia]. }
    unfold filtered in Hput. destruct (masked_out mask x y) eqn:Em.
    + eexists. split; [reflexivity|]. split; [|by apply Hskip]. apply Hput. rewrite Hrows by lia. apply wrap_id, pixel_range, Hok.
    + destruct (Hstep img x y a1 Himg Hx Hy Em Hi) as (a2 & p & -> & Hg & Hi2). eexists. split; [reflexivity|]. split; [by apply Hput|done].
Qed.

(** After [y] rows: those that were copied are filtered, the buffer holds the last ones. *)
Record rolled (y : Z) (img buf : image_t) : Prop := {
  ro_rows : rows_from (y - ksize) img;
  ro_done : ∀ x y', 0 ≤ x < img0.(img_w) → 0 ≤ y' → y' < y - ksize → filtered x y' (pixel img x y');
  ro_out : ∀ q, q < 0 ∨ line_len img0 * img0.(img_h) ≤ q → data img q = data img0 q;
  ro_shape : same_shape buf img0;
  ro_buf : ∀ x y', 0 ≤ x < img0.(img_w) → y - brows ksize ≤ y' < y → 0 ≤ y' → filtered x y' (pixel buf x (y' mod brows ksize))
}.
Lemma line_len_shape a b : same_shape a b → line_len a = line_len b.
Proof. intros [Ew Ef]. unfold line_len. by rewrite Ew, Ef. Qed.
Lemma line_len_nonneg : 0 ≤ line_len img0.
Proof using Hok.
  clear - Hok. destruct Hok as (Hw & _). unfold line_len. destruct (pixfmt img0); try done. rewrite shiftr_word. unfold UINT32_T_MASK.
  apply Z.div_pos; lia.
Qed.
(** Copying a row of the buffer into the image *)
Lemma copy_filtered img buf y r : img.(img_h) = img0.(img_h) → same_shape img img0 → same_shape buf img0 → 0 ≤ y < img0.(img_h) →
  (∀ x, 0 ≤ x < img0.(img_w) → filtered x y (pixel buf x r)) →
  let img' := copy_row img y buf r in
  (∀ x y', 0 ≤ x < img0.(img_w) → if bool_decide (y' = y) then filtered x y (pixel img' x y') else pixel img' x y' = pixel img x y') ∧
  (∀ q, q < 0 ∨ line_len img0 * img0.(img_h) ≤ q → data img' q = data img q).
Proof using Hok.
  intros Eh Hi Hb Hy Hr. cbv zeta. pose proof (line_len_shape _ _ Hi) as El. pose proof line_len_nonneg as Hl. split.
  - intros x y' Hx. destruct Hi as [Ew Ef], Hb as [Ebw Ebf]. rewrite pixel_copy_row by (unfold same_shape; split; congruence || lia).
    case_bool_decide; [by apply Hr|done].
  - intros q Hq. rewrite copy_row_out; [done|rewrite Eh; done|rewrite El; done|rewrite Eh, El; done].
Qed.
Lemma filter_row_run y img buf a : 0 ≤ y < img0.(img_h) → rolled y img buf →
  ∃ img' buf' a', filter_row ksize mask row_start compute y (img, buf, a) = Ok (img', buf', a') ∧ rolled (y + 1) img' buf'.
Proof using Hk Hok Hstart Hstep Hskip.
  intros Hy [Hrows Hdone Hout Hshape Hbuf]. destruct (filter_pixels_run img y buf a Hrows Hshape Hy) as (buf' & a' & E & Hb' & Hp').
  unfold filter_row. rewrite E. cbn [mbind res_bind]. eexists _, _, _. split; [reflexivity|].
  assert (Hring : ∀ x y', 0 ≤ x < img_w img0 → y + 1 - brows ksize ≤ y' < y + 1 → 0 ≤ y' → filtered x y' (pixel buf' x (y' mod brows ksize))).
  { intros x y' Hx Hy' H0. destruct (Hp' x (y' mod brows ksize) Hx) as [Hnew Hold]. destruct (decide (y' = y)) as [-> |Hne]; [apply Hnew; [done|lia]|].
    rewrite Hold; [apply Hbuf; [done|lia|done]|]. left. intros Em. apply Hne. apply mod_apart in Em; [done|unfold brows; lia|unfold brows in *; lia]. }
  destruct Hrows as (Eh & Hs & Hrows). destruct (Z.leb_spec ksize y) as [Hge|Hlt].
  - destruct (copy_filtered img buf' (y - ksize) ((y - ksize) mod brows ksize) Eh Hs Hb') as [Hin Hcout];
      [lia|intros x Hx; apply Hring; unfold brows; lia|].
    split; [|intros x y' Hx H0 Hl|intros q Hq|done|done].
    + split_and!; [done|done|]. intros x y' Hx Hy'. specialize (Hin x y' Hx). rewrite bool_decide_eq_false_2 in Hin by lia. rewrite Hin. apply Hrows; lia.
    + specialize (Hin x y' Hx). case_bool_decide; [by subst|]. rewrite Hin. apply Hdone; lia.
    + rewrite Hcout by done. by apply Hout.
  - split; [split_and!; [done|done|]; intros; apply Hrows; lia|intros; lia|done|done|done].
Qed.

(** The filter returns; every pixel is as specified and nothing outside the image changes,
    whatever the buffer held. *)
Lemma filter_image_run buf a : same_shape buf img0 → ∃ img',
  filter_image ksize mask row_start compute img0 buf a = Ok img' ∧ img'.(img_h) = img0.(img_h) ∧ same_shape img' img0 ∧
  (∀ x y, 0 ≤ x < img0.(img_w) → 0 ≤ y < img0.(img_h) → filtered x y (pixel img' x y)) ∧
  ∀ q, q < 0 ∨ line_len img0 * img0.(img_h) ≤ q → data img' q = data img0 q.
Proof using Hk Hok Hstart Hstep Hskip.
  intros Hb. pose proof Hok as (_ & Hh & _). unfold filter_image.
  destruct (for_res_ind (λ y '(img, buf, a), rolled y img buf) 0 (img_h img0) (filter_row ksize mask row_start compute) (img0, buf, a))
    as ([[img1 buf1] a1] & E & [Hrows Hdone Hout Hshape Hbuf]); [done| | |].
  - split; [by split_and!|intros; lia|done|done|intros; lia].
  - intros y [[img1 buf1] a1] Hy Hr. rewrite Z.add_0_l. destruct (filter_row_run y img1 buf1 a1 Hy Hr) as (img' & buf' & a' & E & H'). by exists (img', buf', a').
  - rewrite E. cbn [mbind res_bind]. destruct Hrows as (Eh & Hs & _). rewrite Eh. eexists. split; [reflexivity|].
    set (y0 := Z.max (img_h img0 - ksize) 0).
    assert (Hfin : (λ n img, img.(img_h) = img0.(img_h) ∧ same_shape img img0 ∧
        (∀ x y, 0 ≤ x < img0.(img_w) → 0 ≤ y < y0 + n → filtered x y (pixel img x y)) ∧
        ∀ q, q < 0 ∨ line_len img0 * img0.(img_h) ≤ q → data img q = data img0 q) (img_h img0 - y0)
        (for_range y0 (img_h img0 - y0) (λ y img, copy_row img y buf1 (y mod brows ksize)) img1)).
    { apply for_range_ind; [lia| |].
      - split_and!; [done|done|intros; apply Hdone; lia|done].
      - intros n img Hn (Eh' & Hs' & Hd & Ho). destruct (copy_filtered img buf1 (y0 + n) ((y0 + n) mod brows ksize) Eh' Hs' Hshape) as [Hin Hcout];
          [lia|intros x Hx; apply Hbuf; unfold brows; lia|]. split_and!; [done|done| |].
        + intros x y Hx Hy. specialize (Hin x y Hx). case_bool_decide; [by subst|]. rewrite Hin. apply Hd; lia.
        + intros q Hq. rewrite Hcout by done. by apply Ho. }
    destruct Hfin as (H1 & H2 & H3 & H4). split_and!; [done|done| |done]. intros x y Hx Hy. apply H3; lia.
Qed.
End correct.

(** ** The windows are correct *)
Section window_correct.
Context {A : Type} (ksize : Z) (img0 : image_t).
Context (Hk : 0 ≤ ksize).
Definition window_size : Z := kernel_len ksize * kernel_len ksize.
Definition pixel_ok (p : Z) : Prop := in_width (pixel_bits img0.(pixfmt)) p.
Lemma window_row_length img x y j : length (window_row ksize img x y j) = Z.to_nat (kernel_len ksize).
Proof. unfold window_row. by rewrite length_fmap, length_seqZ. Qed.
Lemma rows_length img (js : list Z) x y : length (js ≫= window_row ksize img x y) = (length js * Z.to_nat (kernel_len ksize))%nat.
Proof. induction js as [|j js IH]; [done|]. rewrite bind_cons, length_app, IH, window_row_length. cbn [length]. lia. Qed.
Lemma window_length img x y : Z.of_nat (length (window ksize img x y)) = window_size.
Proof using Hk. unfold window, window_size. rewrite rows_length, length_seqZ. unfold kernel_len. lia. Qed.
Lemma window_ok x y : image_ok img0 → Forall pixel_ok (window ksize img0 x y).
Proof.
  intros Hok. apply Forall_forall. intros p Hp. unfold window in Hp. apply list_elem_of_bind in Hp as (j & Hp & _).
  apply list_elem_of_fmap in Hp as (k & -> & _). by apply pixel_range.
Qed.
(** Rows that are still to be read are those of the image that came in. *)
Lemma rows_from_clamp img x y v j : rows_from img0 (y - ksize) img → 0 ≤ x < img0.(img_w) → 0 ≤ y < img0.(img_h) → - ksize ≤ j →
  pixel img (IM_CLAMP v 0 (img.(img_w) - 1)) (IM_CLAMP (y + j) 0 (img.(img_h) - 1)) =
  pixel img0 (IM_CLAMP v 0 (img0.(img_w) - 1)) (IM_CLAMP (y + j) 0 (img0.(img_h) - 1)).
Proof.
  intros (-> & [-> _] & Hr) Hx Hy Hj. apply Hr; [apply clamp_range; lia|]. unfold IM_CLAMP. lia.
Qed.

Section add.
Context (add : Z → A → res A) (rep : list Z → A → Prop).
Context (Hadd : ∀ p P a, pixel_ok p → Z.of_nat (length P) < window_size → rep P a → ∃ a', add p a = Ok a' ∧ rep (P ++ [p]) a').
Lemma window_full_run img x y a : image_ok img0 → rows_from img0 (y - ksize) img → 0 ≤ x < img0.(img_w) → 0 ≤ y < img0.(img_h) →
  rep [] a → ∃ a', window_full ksize add img x y a = Ok a' ∧ rep (window ksize img0 x y) a'.
Proof using Hk Hadd.
  intros Hok Hr Hx Hy Ha. assert (0 ≤ kernel_len ksize) as Hn by (unfold kernel_len; lia). unfold window_full, window.
  apply (for_res_ind (λ j, rep (seqZ (- ksize) j ≫= window_row ksize img0 x y))); [done|done|].
  intros j a1 Hj Ha1. rewrite (seqZ_app (- ksize) j 1), bind_app by lia. change (seqZ (- ksize + j) 1) with [- ksize + j].
  cbn [mbind list_bind]. rewrite app_nil_r. unfold window_row at 2.
  apply (for_res_ind (λ k, rep ((seqZ (- ksize) j ≫= window_row ksize img0 x y) ++ ((λ k, pixel img0 (IM_CLAMP (x + k) 0 (img_w img0 - 1)) (IM_CLAMP (y + (- ksize + j)) 0 (img_h img0 - 1))) <$> seqZ (- ksize) k))));
    [done|by rewrite app_nil_r|].
  intros k a2 Hkk Ha2. rewrite (seqZ_app (- ksize) k 1), fmap_app by lia. change (seqZ (- ksize + k) 1) with [- ksize + k].
  cbn [fmap list_fmap]. rewrite app_assoc, (rows_from_clamp img x y) by (done || lia).
  apply Hadd; [by apply pixel_range| |done].
  rewrite length_app, rows_length, length_fmap, !length_seqZ. unfold window_size in *. nia.
Qed.
End add.

(** Where the window lies inside the image the border check changes nothing. *)
Lemma in_center_spec img x y : in_center ksize img x y = true ↔ x < img.(img_w) - ksize ∧ ksize ≤ y < img.(img_h) - ksize.
Proof. unfold in_center. rewrite !andb_true_iff, !Z.ltb_lt, Z.leb_le. lia. Qed.
Lemma window_fold_full zero add img x y : window_fold (A := A) ksize zero add img x y = window_full ksize add img x y zero.
Proof using Hk.
  unfold window_fold. destruct (_ && _) eqn:E; [|done]. apply andb_true_iff in E as [E1 E2]. apply Z.leb_le in E1. apply in_center_spec in E2.
  unfold window_inner, window_full. apply for_res_ext. intros j a Hj. unfold kernel_len in *. apply for_res_ext. intros k a' Hkk.
  by rewrite !clamp_id by lia.
Qed.

Section slide.
Context (sub add : Z → A → res A) (rep : list Z → A → Prop).
Context (Hperm : ∀ P Q a, P ≡ₚ Q → rep P a → rep Q a).
Context (Hadd : ∀ p P a, pixel_ok p → Z.of_nat (length P) < window_size → rep P a → ∃ a', add p a = Ok a' ∧ rep (P ++ [p]) a').
Context (Hsub : ∀ p P a, Forall pixel_ok (p :: P) → Z.of_nat (length P) < window_size → rep (p :: P) a → ∃ a', sub p a = Ok a' ∧ rep P a').
Lemma row_slide x y j : 0 ≤ x - ksize - 1 → x + ksize < img0.(img_w) → 0 ≤ y + j < img0.(img_h) → ∃ mid,
  window_row ksize img0 (x - 1) y j = pixel img0 (x - ksize - 1) (y + j) :: mid ∧
  window_row ksize img0 x y j = mid ++ [pixel img0 (x + ksize) (y + j)].
Proof using Hk.
  intros Hl Hr Hj. exists ((λ k, pixel img0 (x + k) (y + j)) <$> seqZ (- ksize) (2 * ksize)).
  unfold window_row, kernel_len. rewrite (clamp_id (y + j)) by done. split.
  - rewrite seqZ_cons by lia. rewrite fmap_cons, clamp_id by lia. f_equal; [f_equal; lia|].
    replace (Z.succ (- ksize)) with (1 + - ksize) by lia. replace (Z.pred (ksize * 2 + 1)) with (2 * ksize) by lia.
    rewrite <-(fmap_add_seqZ 1), <-list_fmap_compose. apply list_fmap_ext. intros i k Hi%list_elem_of_lookup_2%elem_of_seqZ. cbn.
    rewrite clamp_id by lia. f_equal. lia.
  - replace (ksize * 2 + 1) with (2 * ksize + 1) by lia. rewrite (seqZ_app _ (2 * ksize) 1), fmap_app by lia. f_equal.
    + apply list_fmap_ext. intros i k Hi%list_elem_of_lookup_2%elem_of_seqZ. by rewrite clamp_id by lia.
    + change (seqZ (- ksize + 2 * ksize) 1) with [- ksize + 2 * ksize]. cbn. rewrite clamp_id by lia. repeat f_equal. lia.
Qed.
Lemma window_slide_run img x y a : image_ok img0 → rows_from img0 (y - ksize) img → ksize < x → in_center ksize img x y = true → 0 ≤ x < img0.(img_w) →
  rep (window ksize img0 (x - 1) y) a → ∃ a', window_slide ksize sub add img x y a = Ok a' ∧ rep (window ksize img0 x y) a'.
Proof using Hk Hperm Hadd Hsub.
  intros Hok (Eh & [Ew _] & Hr) Hlx Hc Hx Ha. apply in_center_spec in Hc. rewrite Ew, Eh in Hc.
  assert (0 ≤ kernel_len ksize) as Hn by (unfold kernel_len; lia). unfold window_slide, window in *.
  set (wx := window_row ksize img0 x y). set (wp := window_row ksize img0 (x - 1) y) in *.
  destruct (for_res_ind (λ j, rep ((seqZ (- ksize) j ≫= wx) ++ (seqZ (- ksize + j) (kernel_len ksize - j) ≫= wp))) (- ksize) (kernel_len ksize)
    (λ j a, a ← sub (pixel img (x - ksize - 1) (y + j)) a; add (pixel img (x + ksize) (y + j)) a) a) as (a' & E & H'); [done| | |].
  - rewrite Z.add_0_r, Z.sub_0_r. done.
  - intros j a1 Hj Ha1. assert (0 ≤ y + (- ksize + j) < img_h img0) as Hyj by (unfold kernel_len in *; lia).
    destruct (row_slide x y (- ksize + j)) as (mid & Ep & Ex); [lia|lia|done|].
    rewrite (seqZ_app (- ksize) j 1), bind_app by lia. change (seqZ (- ksize + j) 1) with [- ksize + j].
    rewrite (seqZ_cons (- ksize + j)) in Ha1 by lia. rewrite bind_cons in Ha1. unfold wp at 1 in Ha1. rewrite Ep in Ha1. cbn [mbind list_bind]. rewrite app_nil_r.
    unfold wx at 2. rewrite Ex. rewrite !Hr by (unfold kernel_len in *; lia).
    replace (- ksize + (j + 1)) with (Z.succ (- ksize + j)) by lia. replace (kernel_len ksize - (j + 1)) with (Z.pred (kernel_len ksize - j)) by lia.
    set (done := seqZ (- ksize) j ≫= wx) in *. set (rest := seqZ (Z.succ (- ksize + j)) (Z.pred (kernel_len ksize - j)) ≫= wp) in *.
    assert (Hlen : Z.of_nat (length (done ++ mid ++ rest)) < window_size).
    { pose proof (window_row_length img0 x y (- ksize + j)) as Hml. rewrite Ex, length_app in Hml. cbn in Hml.
      unfold done, rest, wx, wp. rewrite !length_app, !rows_length, !length_seqZ. unfold window_size. nia. }
    destruct (Hsub (pixel img0 (x - ksize - 1) (y + (- ksize + j))) (done ++ mid ++ rest) a1) as (a2 & -> & Ha2); [| done| |].
    + constructor; [by apply pixel_range|]. rewrite !Forall_app. split_and!.
      * apply Forall_bind, Forall_forall. intros i _. apply Forall_fmap, Forall_forall. intros k _. by apply pixel_range.
      * assert (Forall pixel_ok (wx (- ksize + j))) as Hw by (apply Forall_fmap, Forall_forall; intros k _; by apply pixel_range).
        unfold wx in Hw. rewrite Ex in Hw. by apply Forall_app in Hw as [? _].
      * apply Forall_bind, Forall_forall. intros i _. apply Forall_fmap, Forall_forall. intros k _. by apply pixel_range.
    + refine (Hperm _ _ _ _ Ha1). cbn [app]. by rewrite <-Permutation_middle.
    + cbn [mbind res_bind]. destruct (Hadd (pixel img0 (x + ksize) (y + (- ksize + j))) (done ++ mid ++ rest) a2) as (a3 & -> & Ha3); [by apply pixel_range|done|done|].
      exists a3. split; [done|]. refine (Hperm _ _ _ _ Ha3). rewrite <-!app_assoc. apply Permutation_app_head, Permutation_app_head, Permutation_app_comm.
  - exists a'. split; [exact E|]. rewrite Z.sub_diag in H'. change (seqZ _ 0) with (@nil Z) in H'. by rewrite app_nil_r in H'.
Qed.
End slide.

(** Both ways of getting at a window give the same: [clean] is what a pixel is computed
    from; while the window slides it may hold less ([rep]) until [settle]. *)
Section acc.
Context (mask : option image_t) (reset : A → A) (sub add : Z → A → res A) (settle : A → A) (rep clean : list Z → A → Prop).
Context (Hreset : ∀ a, clean [] (reset a)) (Hclean : ∀ P a, clean P a → rep P a).
Context (Hsettle : ∀ P a, Forall pixel_ok P → Z.of_nat (length P) = window_size → rep P a → clean P (settle a)).
Context (Hperm : ∀ P Q a, P ≡ₚ Q → rep P a → rep Q a).
Context (Hadd : ∀ p P a, pixel_ok p → Forall pixel_ok P → Z.of_nat (length P) < window_size → rep P a → ∃ a', add p a = Ok a' ∧ rep (P ++ [p]) a').
Context (Hadd' : ∀ p P a, pixel_ok p → Z.of_nat (length P) < window_size → clean P a → ∃ a', add p a = Ok a' ∧ clean (P ++ [p]) a').
Context (Hsub : ∀ p P a, Forall pixel_ok (p :: P) → Z.of_nat (length P) < window_size → rep (p :: P) a → ∃ a', sub p a = Ok a' ∧ rep P a').
Definition acc_inv (x y : Z) (a : A) : Prop := x = 0 ∨ mask ≠ None ∨ clean (window ksize img0 (x - 1) y) a.
Lemma window_acc_run img x y a : image_ok img0 → rows_from img0 (y - ksize) img → 0 ≤ x < img0.(img_w) → 0 ≤ y < img0.(img_h) →
  acc_inv x y a → ∃ a', window_acc ksize mask reset sub add settle img x y a = Ok a' ∧ clean (window ksize img0 x y) a'.
Proof using Hk Hreset Hclean Hsettle Hperm Hadd Hadd' Hsub.
  intros Hok Hr Hx Hy Hi. unfold window_acc. destruct (bool_decide (mask = None) && (ksize <? x) && in_center ksize img x y) eqn:E.
  - apply andb_true_iff in E as [[Em Ex]%andb_true_iff Ec]. apply bool_decide_eq_true in Em. apply Z.ltb_lt in Ex.
    destruct Hi as [-> |[Hm|Hi]]; [lia|done|].
    destruct (window_slide_run sub add (λ P a, Forall pixel_ok P ∧ rep P a)) with (img := img) (x := x) (y := y) (a := a) as (a' & -> & _ & H');
      [| | |done|done|done|done|done|split; [by apply window_ok|by apply Hclean]|].
    + intros P Q b HPQ [HP Hb]. split; [by rewrite <-HPQ|by eapply Hperm].
    + intros p P b Hp Hl [HP Hb]. destruct (Hadd p P b Hp HP Hl Hb) as (b' & E & Hb'). exists b'. split; [done|]. split; [|done].
      apply Forall_app. by split; [|constructor].
    + intros p P b Hp Hl [_ Hb]. destruct (Hsub p P b Hp Hl Hb) as (b' & E & Hb'). exists b'. split; [done|]. split; [|done]. by inversion Hp.
    + eexists. split; [reflexivity|]. apply Hsettle; [by apply window_ok|by apply window_length|done].
  - by apply window_full_run with (rep := clean).
Qed.
Lemma acc_inv_start y a : acc_inv 0 y a.
Proof. by left. Qed.
Lemma acc_inv_next x y a : clean (window ksize img0 x y) a → acc_inv (x + 1) y a.
Proof. intros H. right. right. by replace (x + 1 - 1) with x by lia. Qed.
Lemma acc_inv_skip x y a : masked_out mask x y = true → acc_inv (x + 1) y a.
Proof. intros H. right. left. intros ->. discriminate. Qed.
End acc.
End window_correct.
