(* ===== verification/FilterBase.v ===== *)
(** * What the image filters share (libraries/imlib/src/filter.c)

    Channels of a pixel, the comparison with a threshold, the buffer and the tables that are
    taken from the pool, sums and counts over a window, and what the frame of [Rolling]
    gives for a whole filter. *)

From S2P Require Import Prelude Words FbAlloc Imlib Rolling.

(** ** Pixels, buffers and tables *)
Definition channels (fmt : pixformat_t) : list (Z → Z) :=
  match fmt with
  | PIXFORMAT_RGB565 => [COLOR_RGB565_TO_R5; COLOR_RGB565_TO_G6; COLOR_RGB565_TO_B5]
  | _ => [λ p, p]
  end.
Definition compose (fmt : pixformat_t) (vs : list Z) : Z :=
  match fmt with
  | PIXFORMAT_RGB565 => COLOR_R5_G6_B5_TO_RGB565 (nth 0 vs 0) (nth 1 vs 0) (nth 2 vs 0)
  | _ => nth 0 vs 0
  end.
(** Brightness, as it is compared with the threshold, and the two results *)
Definition luma (fmt : pixformat_t) (p : Z) : Z := match fmt with PIXFORMAT_RGB565 => COLOR_RGB565_TO_Y p | _ => p end.
Definition BINARY_MAX (fmt : pixformat_t) : Z :=
  match fmt with PIXFORMAT_BINARY => COLOR_BINARY_MAX | PIXFORMAT_GRAYSCALE => 0xFF | _ => 0xFFFF end.
(** A binary pixel is a [uint32_t], so it is compared without sign. *)
Definition below (fmt : pixformat_t) (d old : Z) : bool :=
  match fmt with PIXFORMAT_BINARY => u32 d <? old | _ => d <? old end.
Definition threshold_pixel (fmt : pixformat_t) (threshold : bool) (offset : Z) (invert : bool) (pixel old : Z) : res Z :=
  if threshold then
    d ← c_int (luma fmt pixel - offset);
    Ok (if xorb (below fmt d (luma fmt old)) invert then BINARY_MAX fmt else 0)
  else Ok pixel.
(** [buf.data = fb_alloc(LINE_LEN_BYTES(img) * brows, FB_ALLOC_NO_HINT)] *)
Definition buf_alloc (img : image_t) (ksize : Z) (s : fb_t) : res (image_t * fb_t) :=
  '(p, s) ← fb_alloc (u32 (line_len_bytes img * brows ksize)) 0 s;
  Ok (Image img.(img_w) (brows ksize) img.(pixfmt) (pool_units img.(pixfmt) s (default 0 p)), s).
(** A table of bytes from the pool, and what is in it *)
Definition table_alloc (size : Z) (s : fb_t) : res ((Z → Z) * fb_t) :=
  '(p, s) ← fb_alloc size 0 s; Ok (pool_units PIXFORMAT_GRAYSCALE s (default 0 p), s).

(** ** Sums of channels *)
Definition c_ints (vs : list Z) : res (list Z) := mapM c_int vs.
Definition acc_step (op : Z → Z → Z) (fmt : pixformat_t) (p : Z) (accs : list Z) : res (list Z) :=
  c_ints (zip_with (λ c a, op a (c p)) (channels fmt) accs).
Definition acc_zero (fmt : pixformat_t) : list Z := (λ _, 0) <$> channels fmt.
Definition window_sums (fmt : pixformat_t) (ksize : Z) (mask : option image_t) (img : image_t) (x y : Z) (accs : list Z) : res (list Z) :=
  window_acc ksize mask (λ _, acc_zero fmt) (acc_step Z.sub fmt) (acc_step Z.add fmt) id img x y accs.

(** ** The pool *)
(** Room for blocks of these sizes below [p] *)
Fixpoint fb_room (sizes : list Z) (p : Z) : Prop :=
  match sizes with
  | [] => 0 ≤ p
  | n :: sizes => 0 < n ≤ 2 ^ 31 ∧ fb_room sizes (p - (fb_round n 0 + word))
  end.
Lemma fb_room_le sizes p : fb_room sizes p → 0 ≤ p.
Proof.
  revert p. induction sizes as [|n sizes IH]; intros p; cbn; [done|]. intros [Hn H%IH].
  pose proof (fb_round_spec n 0 Hn) as [[Hr _] _]. change (cache_align 0) with false in Hr. cbn in Hr. unfold word in *. lia.
Qed.
Definition pool_is (s0 : fb_t) (bs : list block) (s : fb_t) : Prop := fb_inv s bs ∧ pool s = pool s0.
Lemma fb_alloc_fits s0 s bs n sizes : pool_is s0 bs s → fb_room (n :: sizes) (pointer s) →
  ∃ r s' b, fb_alloc n 0 s = Ok (Some r, s') ∧ pool_is s0 (b :: bs) s' ∧ fb_room sizes (pointer s').
Proof.
  intros [Hinv Hp] [Hn Hroom]. pose proof (fb_alloc_run s bs n 0 Hinv Hn) as H. cbv zeta in H. pose proof (fb_room_le _ _ Hroom).
  destruct (Z.ltb_spec (pointer s - (fb_round n 0 + word)) 0); [lia|].
  destruct H as (r & s' & E & Hi & Hpool & _ & Hptr & _). exists r, s', (Blk (fb_round n 0 + word) false).
  split; [done|]. split; [split; [done|congruence]|]. by rewrite Hptr.
Qed.
Lemma fb_free_run s0 s b bs : pool_is s0 (b :: bs) s → ∃ s', fb_free s = Ok s' ∧ pool_is s0 bs s'.
Proof.
  intros [Hinv Hp]. destruct (fb_load_top _ _ _ Hinv) as (Hlt & Hload & Hb & Hinv'). unfold fb_free. rewrite Hlt, Hload. cbn [mbind res_bind].
  eexists. split; [reflexivity|]. rewrite b_word_len by done. by split.
Qed.
(** Freeing from an empty stack does nothing. *)
Lemma fb_free_empty s0 s : pool_is s0 [] s → fb_free s = Ok s.
Proof.
  intros [[Hc%chain_pointer _ _ _ _] _]. unfold fb_free. rewrite (proj2 (Z.ltb_ge _ _)); [done|]. unfold chain_len in Hc. cbn in Hc. lia.
Qed.
Definition buf_size (img : image_t) (ksize : Z) : Z := u32 (line_len_bytes img * brows ksize).
Lemma buf_alloc_run s0 s bs img ksize sizes : pool_is s0 bs s → fb_room (buf_size img ksize :: sizes) (pointer s) →
  ∃ buf s' b, buf_alloc img ksize s = Ok (buf, s') ∧ same_shape buf img ∧ pool_is s0 (b :: bs) s' ∧ fb_room sizes (pointer s').
Proof.
  intros Hs Hroom. destruct (fb_alloc_fits s0 s bs _ _ Hs Hroom) as (r & s' & b & E & Hs' & Hr). unfold buf_alloc.
  unfold buf_size in E. rewrite E. cbn [mbind res_bind]. by eexists _, s', b.
Qed.
Lemma table_alloc_run s0 s bs n sizes : pool_is s0 bs s → fb_room (n :: sizes) (pointer s) →
  ∃ t s' b, table_alloc n s = Ok (t, s') ∧ pool_is s0 (b :: bs) s' ∧ fb_room sizes (pointer s').
Proof.
  intros Hs Hroom. destruct (fb_alloc_fits s0 s bs _ _ Hs Hroom) as (r & s' & b & E & Hs' & Hr). unfold table_alloc.
  rewrite E. cbn [mbind res_bind]. by eexists _, s', b.
Qed.

(** The tables of a filter above the buffer, and the frees at its end *)
Lemma gray_table_run s0 s b bs n : pool_is s0 (b :: bs) s → fb_room [n] (pointer s) → ∃ t s1 s2, pool_is s0 bs s2 ∧
  table_alloc n s = Ok (t, s1) ∧ ∀ T (k : fb_t → res T), (s ← fb_free s1; s ← fb_free s; k s) = k s2.
Proof.
  intros Hs Hr. destruct (table_alloc_run s0 s _ n [] Hs Hr) as (t & s1 & b1 & E & Hs1 & _).
  destruct (fb_free_run s0 s1 b1 _ Hs1) as (s2 & F1 & Hs2). destruct (fb_free_run s0 s2 b _ Hs2) as (s3 & F2 & Hs3).
  exists t, s1, s3. split; [done|]. split; [done|]. intros T k. rewrite F1. cbn [mbind res_bind]. by rewrite F2.
Qed.
Lemma rgb_tables_run s0 s b bs : pool_is s0 (b :: bs) s → fb_room [32; 64; 32] (pointer s) → ∃ t1 t2 t3 s1 s2, pool_is s0 bs s2 ∧
  (∀ T (k : (Z → Z) → (Z → Z) → (Z → Z) → fb_t → res T),
    ('(r, s) ← table_alloc 32 s; '(g, s) ← table_alloc 64 s; '(b, s) ← table_alloc 32 s; k r g b s) = k t1 t2 t3 s1) ∧
  ∀ T (k : fb_t → res T), (s ← fb_free s1; s ← fb_free s; s ← fb_free s; s ← fb_free s; k s) = k s2.
Proof.
  intros Hs Hr. destruct (table_alloc_run s0 s _ 32 _ Hs Hr) as (t1 & s1 & b1 & E1 & Hs1 & Hr1).
  destruct (table_alloc_run s0 s1 _ 64 _ Hs1 Hr1) as (t2 & s2 & b2 & E2 & Hs2 & Hr2). destruct (table_alloc_run s0 s2 _ 32 _ Hs2 Hr2) as (t3 & s3 & b3 & E3 & Hs3 & _).
  destruct (fb_free_run s0 s3 b3 _ Hs3) as (s4 & F1 & Hs4). destruct (fb_free_run s0 s4 b2 _ Hs4) as (s5 & F2 & Hs5).
  destruct (fb_free_run s0 s5 b1 _ Hs5) as (s6 & F3 & Hs6). destruct (fb_free_run s0 s6 b _ Hs6) as (s7 & F4 & Hs7).
  exists t1, t2, t3, s3, s7. split; [done|]. split; intros T k.
  - rewrite E1. cbn [mbind res_bind]. rewrite E2. cbn [mbind res_bind]. by rewrite E3.
  - rewrite F1. cbn [mbind res_bind]. rewrite F2. cbn [mbind res_bind]. rewrite F3. cbn [mbind res_bind]. by rewrite F4.
Qed.

(** What a filter promises: it returns, what it puts at each pixel that the mask does not
    leave out is [good] there, nothing outside the image changes, and the pool is as it was. *)
Definition filters (mask : option image_t) (good : Z → Z → Z → Prop) (img : image_t) (bs : list block) (s : fb_t) (r : res (image_t * fb_t)) : Prop :=
  ∃ img' s', r = Ok (img', s') ∧ fb_inv s' bs ∧ pointer s' = pointer s ∧ img'.(img_h) = img.(img_h) ∧ same_shape img' img ∧
    (∀ x y, 0 ≤ x < img.(img_w) → 0 ≤ y < img.(img_h) → if masked_out mask x y then pixel img' x y = pixel img x y else good x y (pixel img' x y)) ∧
    ∀ q, q < 0 ∨ line_len img * img.(img_h) ≤ q → data img' q = data img q.

(** ** Channels *)
Definition channel_max (fmt : pixformat_t) : list Z :=
  match fmt with
  | PIXFORMAT_BINARY => [1] | PIXFORMAT_GRAYSCALE => [255] | _ => [31; 63; 31]
  end.
Definition thresholded (fmt : pixformat_t) (threshold : bool) (offset : Z) (invert : bool) (p old : Z) : Z :=
  if threshold then (if xorb (below fmt (luma fmt p - offset) (luma fmt old)) invert then BINARY_MAX fmt else 0) else p.
Lemma land_ones_range p n : 0 ≤ n → 0 ≤ Z.land p (Z.ones n) ≤ 2 ^ n - 1.
Proof. intros. rewrite Z.land_ones by done. pose proof (Z.mod_pos_bound p (2 ^ n)). lia. Qed.
Lemma channel_range fmt p : fmt ≠ PIXFORMAT_OTHER → in_width (pixel_bits fmt) p → Forall2 (λ c m, 0 ≤ c p ≤ m) (channels fmt) (channel_max fmt).
Proof.
  intros Hf Hp. destruct fmt; cbn in *; [constructor; [lia|constructor]|constructor; [lia|constructor]| |done].
  constructor; [|constructor; [|constructor; [|constructor]]]; [apply (land_ones_range _ 5); lia|apply (land_ones_range _ 6); lia|apply (land_ones_range _ 5); lia].
Qed.
Lemma lor_low a c n : 0 ≤ n → 0 ≤ c < 2 ^ n → Z.lor (a * 2 ^ n) c = a * 2 ^ n + c.
Proof.
  intros Hn Hc. rewrite <-Z.shiftl_mul_pow2 by done. assert (Z.land (Z.shiftl a n) c = 0) as H0.
  { apply Z.bits_inj'. intros i Hi. rewrite Z.land_spec, Z.shiftl_spec, Z.bits_0 by done.
    destruct (decide (i < n)); [by rewrite Z.testbit_neg_r by lia|]. rewrite (testbit_above n c i) by lia. by rewrite andb_false_r. }
  by rewrite <-Z.lxor_lor, <-Z.add_nocarry_lxor.
Qed.
Lemma compose_rgb r g b : 0 ≤ g ≤ 63 → 0 ≤ b ≤ 31 → COLOR_R5_G6_B5_TO_RGB565 r g b = r * 2048 + g * 32 + b.
Proof.
  intros Hg Hb. unfold COLOR_R5_G6_B5_TO_RGB565. rewrite !Z.shiftl_mul_pow2 by lia.
  rewrite (lor_low r (g * 2 ^ 5) 11) by lia. replace (r * 2 ^ 11 + g * 2 ^ 5) with ((r * 2 ^ 6 + g) * 2 ^ 5) by lia.
  rewrite lor_low by lia. lia.
Qed.
Lemma compose_range fmt vs : fmt ≠ PIXFORMAT_OTHER → Forall2 (λ v m, 0 ≤ v ≤ m) vs (channel_max fmt) → in_width (pixel_bits fmt) (compose fmt vs).
Proof.
  intros Hf H. destruct fmt; cbn in H; try done; repeat match goal with H : Forall2 _ _ _ |- _ => inversion_clear H end; cbn; try lia.
  rewrite compose_rgb by lia. lia.
Qed.
Lemma thresholded_range fmt threshold offset invert p old : in_width (pixel_bits fmt) p → in_width (pixel_bits fmt) (thresholded fmt threshold offset invert p old).
Proof. intros Hp. unfold thresholded. destruct threshold; [|done]. destruct (xorb _ _), fmt; cbn; unfold COLOR_BINARY_MAX; lia. Qed.
Lemma in_width_land w x m : 0 ≤ w → in_width w m → in_width w (Z.land x m).
Proof.
  intros Hw Hm. apply in_width_testbit; [done|apply Z.land_nonneg; lia|]. intros i Hi.
  by rewrite Z.land_spec, (testbit_above w m), andb_false_r.
Qed.
Lemma in_width_lor w x y : 0 ≤ w → in_width w x → in_width w y → in_width w (Z.lor x y).
Proof.
  intros Hw Hx Hy. apply in_width_testbit; [done|apply Z.lor_nonneg; lia|]. intros i Hi.
  by rewrite Z.lor_spec, (testbit_above w x), (testbit_above w y).
Qed.
Lemma in_width_shiftr w x k : 0 ≤ w → 0 ≤ k → in_width w x → in_width w (Z.shiftr x k).
Proof.
  intros Hw Hk Hx. apply in_width_testbit; [done|apply Z.shiftr_nonneg; lia|]. intros i Hi.
  rewrite Z.shiftr_spec by lia. apply (testbit_above w); [done|lia].
Qed.
Lemma luma_range fmt p : in_width (pixel_bits fmt) p → in_width 16 (luma fmt p).
Proof.
  intros Hp. destruct fmt; cbn in *; try lia. unfold COLOR_RGB565_TO_Y, COLOR_RGB888_TO_Y.
  assert (∀ x m k, in_width 8 m → 0 ≤ k → in_width 8 (Z.lor (Z.land x m) (Z.shiftr (Z.land x m) k))) as H.
  { intros x m k Hm Hk. pose proof (in_width_land 8 x m ltac:(lia) Hm). apply in_width_lor; [lia|done|]. by apply in_width_shiftr. }
  rewrite Z.shiftr_div_pow2 by lia. unfold COLOR_RGB565_TO_R8, COLOR_RGB565_TO_G8, COLOR_RGB565_TO_B8. cbv zeta.
  pose proof (H (Z.shiftr p 8) 0xF8 5 ltac:(lia) ltac:(lia)). pose proof (H (Z.shiftr p 3) 0xFC 6 ltac:(lia) ltac:(lia)). pose proof (H (Z.shiftl p 3) 0xF8 5 ltac:(lia) ltac:(lia)).
  Z.div_mod_to_equations; lia.
Qed.
Lemma threshold_pixel_ok fmt threshold offset invert p old : in_width (pixel_bits fmt) p → - 2 ^ 30 ≤ offset ≤ 2 ^ 30 →
  threshold_pixel fmt threshold offset invert p old = Ok (thresholded fmt threshold offset invert p old).
Proof.
  intros Hp Ho. unfold threshold_pixel, thresholded. destruct threshold; [|done]. pose proof (luma_range fmt p Hp).
  by rewrite c_int_ok by lia.
Qed.

(** ** Sums *)
Definition sumZ (vs : list Z) : Z := foldr Z.add 0 vs.
Lemma sumZ_app a b : sumZ (a ++ b) = sumZ a + sumZ b.
Proof. unfold sumZ. induction a as [|x a IH]; cbn; [done|]. rewrite IH. lia. Qed.
Lemma sumZ_perm a b : a ≡ₚ b → sumZ a = sumZ b.
Proof. unfold sumZ. induction 1; cbn; lia. Qed.
Lemma sumZ_bound vs m : Forall (λ v, 0 ≤ v ≤ m) vs → 0 ≤ sumZ vs ≤ m * Z.of_nat (length vs).
Proof. induction 1; cbn [sumZ foldr length]; [lia|]. unfold sumZ in *. lia. Qed.
(** The sums over a window, channel by channel *)
Definition sums (fmt : pixformat_t) (P : list Z) : list Z := (λ c, sumZ (c <$> P)) <$> channels fmt.
Lemma c_ints_ok vs : Forall (λ v, - 2 ^ 31 ≤ v < 2 ^ 31) vs → c_ints vs = Ok vs.
Proof. unfold c_ints. induction 1 as [|v vs Hv _ IH]; [done|]. cbn. by rewrite c_int_ok, IH. Qed.

Section sums.
Context (img0 : image_t) (ksize : Z).
Let fmt := img0.(pixfmt).
Context (Hfmt : fmt ≠ PIXFORMAT_OTHER) (Hk : 0 ≤ ksize ≤ 255).
Lemma window_size_bound : 1 ≤ window_size ksize ≤ 261121.
Proof using Hk. unfold window_size, kernel_len. nia. Qed.
Definition sums_of (P : list Z) (accs : list Z) : Prop := Forall (pixel_ok img0) P ∧ accs = sums fmt P.
Lemma sums_bound P : Forall (pixel_ok img0) P → Forall2 (λ v m, 0 ≤ v ≤ m * Z.of_nat (length P)) (sums fmt P) (channel_max fmt).
Proof using Hfmt.
  intros HP. unfold sums. apply Forall2_fmap_l. assert (∀ p, p ∈ P → Forall2 (λ c m, 0 ≤ c p ≤ m) (channels fmt) (channel_max fmt)) as Hc.
  { intros p Hp. apply channel_range; [done|]. by eapply Forall_forall in HP. }
  assert (length (channels fmt) = length (channel_max fmt)) as Hl by (destruct fmt; done).
  apply Forall2_same_length_lookup_2; [done|]. intros i c m Hci Hmi. rewrite <-(length_fmap c P). apply sumZ_bound, Forall_fmap, Forall_forall.
  intros p Hp. cbn. exact (Forall2_lookup_lr _ _ _ _ _ _ (Hc p Hp) Hci Hmi).
Qed.
Lemma sums_int P : Forall (pixel_ok img0) P → Z.of_nat (length P) ≤ window_size ksize → Forall (λ v, - 2 ^ 31 ≤ v < 2 ^ 31) (sums fmt P).
Proof using Hfmt Hk.
  intros HP Hl. pose proof window_size_bound. apply Forall_lookup. intros i v Hv. destruct (Forall2_lookup_l _ _ _ _ _ (sums_bound P HP) Hv) as (m & Hm & Hb).
  assert (m ≤ 255) by (destruct fmt; cbn in Hm; repeat (destruct i as [|i]; cbn in Hm; [injection Hm as <-; lia|]); done). nia.
Qed.
Lemma sums_step op P Q p : (∀ c, op (sumZ (c <$> P)) (c p) = sumZ (c <$> Q)) → Forall (pixel_ok img0) Q → Z.of_nat (length Q) ≤ window_size ksize →
  acc_step op fmt p (sums fmt P) = Ok (sums fmt Q).
Proof using Hfmt Hk.
  intros Hop HQ Hl. unfold acc_step. assert (zip_with (λ c a, op a (c p)) (channels fmt) (sums fmt P) = sums fmt Q) as ->.
  { unfold sums. induction (channels fmt) as [|c cs IH]; [done|]. cbn. by rewrite Hop, IH. }
  apply c_ints_ok, sums_int; done.
Qed.
Lemma window_sums_run mask img x y accs : image_ok img0 → rows_from img0 (y - ksize) img → 0 ≤ x < img0.(img_w) → 0 ≤ y < img0.(img_h) →
  acc_inv ksize img0 mask sums_of x y accs →
  window_sums fmt ksize mask img x y accs = Ok (sums fmt (window ksize img0 x y)).
Proof using Hfmt Hk.
  intros Hok Hr Hx Hy Hi. assert (Hstep : ∀ p P a, pixel_ok img0 p → Z.of_nat (length P) < window_size ksize → sums_of P a → ∃ a', acc_step Z.add fmt p a = Ok a' ∧ sums_of (P ++ [p]) a').
  { intros p P a Hp Hl [HP ->]. assert (Forall (pixel_ok img0) (P ++ [p])) by (apply Forall_app; by split; [|constructor]).
    eexists. split; [|by split]. apply sums_step; [|done|rewrite length_app; cbn; lia]. intros c. rewrite fmap_app, sumZ_app. cbn. lia. }
  destruct (window_acc_run ksize img0 ltac:(lia) mask (λ _, acc_zero fmt) (acc_step Z.sub fmt) (acc_step Z.add fmt) id sums_of sums_of)
    with (img := img) (x := x) (y := y) (a := accs) as (a' & E & _ & ->); try done; auto.
  - intros P Q a HPQ [HP ->]. split; [by rewrite <-HPQ|]. unfold sums. apply list_fmap_ext. intros i c _. by apply sumZ_perm, fmap_Permutation.
  - intros p P a HpP Hl [_ ->]. inversion_clear HpP as [|? ? Hp HP]. eexists. split; [|by split]. apply sums_step; [|done|lia]. intros c. cbn. unfold sumZ. lia.
Qed.
End sums.

(** ** Counting *)
Definition cnt (f : Z → bool) (vs : list Z) : Z := sumZ ((λ v, if f v then 1 else 0) <$> vs).
Lemma cnt_perm f a b : a ≡ₚ b → cnt f a = cnt f b.
Proof. intros H. by apply sumZ_perm, fmap_Permutation. Qed.
Lemma cnt_cons f v vs : cnt f (v :: vs) = (if f v then 1 else 0) + cnt f vs.
Proof. done. Qed.
Lemma cnt_app f a b : cnt f (a ++ b) = cnt f a + cnt f b.
Proof. unfold cnt. by rewrite fmap_app, sumZ_app. Qed.
Lemma cnt_range f vs : 0 ≤ cnt f vs ≤ Z.of_nat (length vs).
Proof. induction vs as [|v vs IH]; [done|]. rewrite cnt_cons. cbn [length]. destruct (f v); lia. Qed.
Lemma cnt_ext f g vs : (∀ v, v ∈ vs → f v = g v) → cnt f vs = cnt g vs.
Proof. intros H. unfold cnt. f_equal. apply list_fmap_ext. intros i v Hv. by rewrite H by (by eapply list_elem_of_lookup_2). Qed.
Lemma cnt_none f vs : (∀ v, v ∈ vs → f v = false) → cnt f vs = 0.
Proof.
  intros H. induction vs as [|v vs IH]; [done|]. rewrite cnt_cons, H by (by left). rewrite IH; [done|]. intros x Hx. apply H. by right.
Qed.
Lemma cnt_all f vs : (∀ v, v ∈ vs → f v = true) → cnt f vs = Z.of_nat (length vs).
Proof.
  intros H. induction vs as [|v vs IH]; [done|]. rewrite cnt_cons, H by (by left). rewrite IH; [cbn [length]; lia|]. intros x Hx. apply H. by right.
Qed.
Lemma cnt_lt_S i vs : cnt (λ x, x <? i + 1) vs = cnt (λ x, x <? i) vs + cnt (λ x, x =? i) vs.
Proof.
  induction vs as [|v vs IH]; [done|]. rewrite !cnt_cons, IH. destruct (Z.ltb_spec v (i + 1)), (Z.ltb_spec v i), (Z.eqb_spec v i); lia.
Qed.

(** ** What the frame gives for any filter *)
Section frame.
Context {A : Type} (ksize : Z) (mask : option image_t) (row_start : A → A) (compute : image_t → Z → Z → A → res (A * Z)).
Context (img : image_t) (good : Z → Z → Z → Prop) (Inv : Z → Z → A → Prop).
Context (Hk : 0 ≤ ksize) (Hok : image_ok img).
Context (Hstart : ∀ y a, 0 ≤ y < img.(img_h) → Inv 0 y (row_start a)).
Context (Hstep : ∀ img1 x y a, rows_from img (y - ksize) img1 → 0 ≤ x < img.(img_w) → 0 ≤ y < img.(img_h) →
  masked_out mask x y = false → Inv x y a → ∃ a' p, compute img1 x y a = Ok (a', p) ∧ in_width (pixel_bits img.(pixfmt)) p ∧ good x y p ∧ Inv (x + 1) y a').
Context (Hskip : ∀ x y a, 0 ≤ x < img.(img_w) → masked_out mask x y = true → Inv x y a → Inv (x + 1) y a).
(** The rest of the function, from the filled buffer to the frees *)
Lemma filter_frame s0 bs buf a (tail : image_t → res (image_t * fb_t)) s' : fb_inv s0 bs → same_shape buf img →
  (∀ img', tail img' = Ok (img', s')) → pool_is s0 bs s' →
  filters mask good img bs s0 (img' ← filter_image ksize mask row_start compute img buf a; tail img').
Proof using Hk Hok Hstart Hstep Hskip.
  intros Hs0 Hb Hf [Hi Hp].
  destruct (filter_image_run ksize mask row_start compute img good Inv Hk Hok Hstart) with (buf := buf) (a := a) as (img' & -> & Eh & Hs & Hpix & Hq);
    [|done|done|].
  - intros img1 x y a1 Hr Hx Hy Hm Hi1. destruct (Hstep img1 x y a1 Hr Hx Hy Hm Hi1) as (a' & p & E & Hw & Hg & Hi2).
    exists a', p. by rewrite wrap_id.
  - cbn [mbind res_bind]. rewrite Hf. exists img', s'. split_and!; [done|done|by apply (fb_inv_pointer s0 s' bs)|done|done| |done].
    intros x y Hx Hy. exact (Hpix x y Hx Hy).
Qed.
End frame.

(** ** Concrete images *)
Definition demo_gray : image_t := Image 5 4 PIXFORMAT_GRAYSCALE (λ i, nth (Z.to_nat i)
  [10; 20; 30; 40; 50;  11; 21; 31; 41; 51;  12; 22; 250; 42; 52;  13; 23; 33; 43; 53] 0).
Definition demo_rgb : image_t := Image 2 1 PIXFORMAT_RGB565 (λ i, nth (Z.to_nat i) [0xF800; 0x07FF] 0).
Lemma nth_in_width w vs q : Forall (λ v, in_width w v) vs → 0 ≤ w → in_width w (nth q vs 0).
Proof.
  intros H Hw. destruct (nth_in_or_default q vs 0) as [Hin| ->].
  - rewrite Forall_forall in H. apply H. by apply list_elem_of_In.
  - pose proof (Z.pow_pos_nonneg 2 w ltac:(lia) Hw). lia.
Qed.
Lemma demo_gray_ok : image_ok demo_gray.
Proof. split_and!; [done|done|]. intros q. apply nth_in_width; [|done]. repeat constructor; done. Qed.
Lemma demo_rgb_ok : image_ok demo_rgb.
Proof. split_and!; [done|done|]. intros q. apply nth_in_width; [|done]. repeat constructor; done. Qed.
Definition filter_pool : fb_t := Fb 0x80000000 512 512 (λ _, 0).
Lemma filter_pool_inv : fb_inv filter_pool [].
Proof. by split. Qed.
