(* ===== verification/Filters.v ===== *)
(** * Mean and median filters (libraries/imlib/src/filter.c)

    The two filters that slide sums and histograms along a row.  In each the three cases of
    the [switch] differ in the channels of a pixel: one for binary and grayscale images,
    three for RGB565. *)

From stdpp Require Import sorting.
From S2P Require Import Prelude Words Float64 Float32 FbAlloc Imlib Rolling FilterBase.

(** ** The mean filter *)
Definition mean_compute (ksize over32_n : Z) (threshold : bool) (offset : Z) (invert : bool) (mask : option image_t)
    (img : image_t) (x y : Z) (accs : list Z) : res (list Z * Z) :=
  let fmt := img.(pixfmt) in
  accs ← window_sums fmt ksize mask img x y accs;
  vs ← c_ints ((λ acc, acc * over32_n) <$> accs);
  p ← threshold_pixel fmt threshold offset invert (compose fmt ((λ v, Z.shiftr v 16) <$> vs)) (pixel img x y);
  Ok (accs, p).
Definition imlib_mean_filter (img : image_t) (ksize : Z) (threshold : bool) (offset : Z) (invert : bool) (mask : option image_t)
    (s : fb_t) : res (image_t * fb_t) :=
  n ← c_int ((ksize * 2 + 1) * (ksize * 2 + 1));
  over32_n ← c_quot 65536 n;
  match img.(pixfmt) with
  | PIXFORMAT_OTHER => Ok (img, s)
  | _ =>
      '(buf, s) ← buf_alloc img ksize s;
      let zero := acc_zero img.(pixfmt) in
      img ← filter_image ksize mask (λ _, zero) (mean_compute ksize over32_n threshold offset invert mask) img buf zero;
      s ← fb_free s;
      Ok (img, s)
  end.

(** ** The median filter *)
(** The first bin at which the running sum reaches the cutoff *)
Fixpoint cutoff_index (data : Z → Z) (cutoff : Z) (len : nat) (i sum : Z) : Z :=
  match len with
  | O => i
  | S len => if sum <? cutoff then cutoff_index data cutoff len (i + 1) (sum + data i) else i
  end.
Definition hist_median (data : Z → Z) (len cutoff : Z) : Z := u8 (cutoff_index data cutoff (Z.to_nat len) 0 0 - 1).
(** The histograms: 64 bins of four grey levels, or one bin for each level of a channel *)
Definition bins_of (fmt : pixformat_t) : list (Z → Z) :=
  match fmt with PIXFORMAT_RGB565 => channels fmt | _ => [λ p, Z.shiftr p 2] end.
Definition bin_count (fmt : pixformat_t) : list Z := match fmt with PIXFORMAT_RGB565 => [32; 64; 32] | _ => [64] end.
Definition hist_step (d : Z) (fmt : pixformat_t) (p : Z) (hs : list (Z → Z)) : res (list (Z → Z)) :=
  Ok (zip_with (λ c (h : Z → Z), <[c p := u8 (h (c p) + d)]> h) (bins_of fmt) hs).
Definition hist_zero (fmt : pixformat_t) : list (Z → Z) := (λ _, λ _, 0) <$> bins_of fmt.
Definition window_hists (fmt : pixformat_t) (ksize : Z) (mask : option image_t) (img : image_t) (x y : Z) (hs : list (Z → Z)) : res (list (Z → Z)) :=
  window_acc ksize mask (λ _, hist_zero fmt) (hist_step (-1) fmt) (hist_step 1 fmt) id img x y hs.
(** [pixel <<= 2] in the grayscale case *)
Definition median_pixel (fmt : pixformat_t) (cutoff : Z) (hs : list (Z → Z)) : Z :=
  let vs := zip_with (λ h len, hist_median h len cutoff) hs (bin_count fmt) in
  match fmt with PIXFORMAT_RGB565 => compose fmt vs | _ => u8 (Z.shiftl (nth 0 vs 0) 2) end.
Definition median_compute_binary (ksize cutoff : Z) (threshold : bool) (offset : Z) (invert : bool) (mask : option image_t)
    (img : image_t) (x y : Z) (sum : list Z) : res (list Z * Z) :=
  sum ← window_sums PIXFORMAT_BINARY ksize mask img x y sum;
  p ← threshold_pixel PIXFORMAT_BINARY threshold offset invert (if cutoff <=? nth 0 sum 0 then 1 else 0) (pixel img x y);
  Ok (sum, p).
Definition median_compute (ksize cutoff : Z) (threshold : bool) (offset : Z) (invert : bool) (mask : option image_t)
    (img : image_t) (x y : Z) (hs : list (Z → Z)) : res (list (Z → Z) * Z) :=
  let fmt := img.(pixfmt) in
  hs ← window_hists fmt ksize mask img x y hs;
  p ← threshold_pixel fmt threshold offset invert (median_pixel fmt cutoff hs) (pixel img x y);
  Ok (hs, p).
Definition median_cutoff (percentile : float) (n : Z) : res Z := f_to_int (floorf (f_mul percentile (f_of_Z n))).
Definition imlib_median_filter (img : image_t) (ksize : Z) (percentile : float) (threshold : bool) (offset : Z) (invert : bool)
    (mask : option image_t) (s : fb_t) : res (image_t * fb_t) :=
  n ← c_int ((ksize * 2 + 1) * (ksize * 2 + 1));
  cutoff ← median_cutoff percentile n;
  match img.(pixfmt) with
  | PIXFORMAT_BINARY =>
      '(buf, s) ← buf_alloc img ksize s;
      img ← filter_image ksize mask id (median_compute_binary ksize cutoff threshold offset invert mask) img buf [0];
      s ← fb_free s;
      Ok (img, s)
  | PIXFORMAT_GRAYSCALE =>
      '(buf, s) ← buf_alloc img ksize s;
      '(data, s) ← table_alloc 64 s;
      img ← filter_image ksize mask id (median_compute ksize cutoff threshold offset invert mask) img buf [data];
      s ← fb_free s;
      s ← fb_free s;
      Ok (img, s)
  | PIXFORMAT_RGB565 =>
      '(buf, s) ← buf_alloc img ksize s;
      '(r_data, s) ← table_alloc 32 s;
      '(g_data, s) ← table_alloc 64 s;
      '(b_data, s) ← table_alloc 32 s;
      img ← filter_image ksize mask id (median_compute ksize cutoff threshold offset invert mask) img buf [r_data; g_data; b_data];
      s ← fb_free s;
      s ← fb_free s;
      s ← fb_free s;
      s ← fb_free s;
      Ok (img, s)
  | PIXFORMAT_OTHER => Ok (img, s)
  end.

(** ** The mean *)
Definition mean_of (ksize : Z) (img : image_t) (x y : Z) : Z :=
  compose img.(pixfmt) ((λ sum, Z.shiftr (sum * (65536 / window_size ksize)) 16) <$> sums img.(pixfmt) (window ksize img x y)).
Lemma mean_channels ksize img x y : image_ok img → img.(pixfmt) ≠ PIXFORMAT_OTHER → 0 ≤ ksize ≤ 255 →
  let over32_n := 65536 / window_size ksize in
  Forall (λ v, 0 ≤ v < 2 ^ 31) ((λ acc, acc * over32_n) <$> sums img.(pixfmt) (window ksize img x y)) ∧
  Forall2 (λ v m, 0 ≤ v ≤ m) ((λ sum, Z.shiftr (sum * over32_n) 16) <$> sums img.(pixfmt) (window ksize img x y)) (channel_max img.(pixfmt)).
Proof.
  intros Hok Hf Hk. cbv zeta. pose proof (window_size_bound ksize Hk) as Hn. set (n := window_size ksize) in *.
  assert (0 ≤ 65536 / n ∧ 65536 / n * n ≤ 65536) as [Ho Hon] by (split; [apply Z.div_pos; lia|rewrite Z.mul_comm; apply Z.mul_div_le; lia]).
  pose proof (sums_bound img Hf _ (window_ok ksize img x y Hok)) as Hb.
  assert (Z.of_nat (length (window ksize img x y)) = n) as El by (apply window_length; lia). rewrite El in Hb.
  assert (Hmax : Forall2 (λ v m, 0 ≤ v * (65536 / n) ≤ m * 65536) (sums (pixfmt img) (window ksize img x y)) (channel_max (pixfmt img))).
  { eapply Forall2_impl; [exact Hb|]. cbn. intros v m Hv. split; [nia|]. trans (m * n * (65536 / n)); [nia|]. assert (0 ≤ m) by nia. nia. }
  split.
  - apply Forall_fmap, Forall_lookup. intros i v Hv. destruct (Forall2_lookup_l _ _ _ _ _ Hmax Hv) as (m & Hm & Hvm). cbn.
    assert (m ≤ 255) by (destruct (pixfmt img); cbn in Hm; repeat (destruct i as [|i]; cbn in Hm; [injection Hm as <-; lia|]); done). lia.
  - apply Forall2_fmap_l. eapply Forall2_impl; [exact Hmax|]. cbn. intros v m Hv. rewrite Z.shiftr_div_pow2 by lia.
    split; [apply Z.div_pos; lia|]. apply Z.div_le_upper_bound; lia.
Qed.

(** The mean filter works in place as if on a copy: every pixel that the mask does not
    leave out becomes the scaled sum of the window around it in the image that came in,
    channel by channel and with the border repeated, or the result of comparing that mean
    with the pixel; whether the sums were slid along the row or taken anew makes no
    difference, no sum overflows, nothing outside the image is written and the pool is
    given back as it was. *)
Theorem imlib_mean_filter_spec img ksize threshold offset invert mask s bs :
  image_ok img → img.(pixfmt) ≠ PIXFORMAT_OTHER → 0 ≤ ksize ≤ 255 → - 2 ^ 30 ≤ offset ≤ 2 ^ 30 →
  fb_inv s bs → fb_room [buf_size img ksize] (pointer s) →
  filters mask (λ x y v, v = thresholded img.(pixfmt) threshold offset invert (mean_of ksize img x y) (pixel img x y)) img bs s
    (imlib_mean_filter img ksize threshold offset invert mask s).
Proof.
  intros Hok Hf Hk Ho Hinv Hroom. pose proof (window_size_bound ksize Hk) as Hn. unfold imlib_mean_filter.
  change ((ksize * 2 + 1) * (ksize * 2 + 1)) with (window_size ksize).
  rewrite c_int_ok by lia. cbn [mbind res_bind]. unfold c_quot. rewrite (proj2 (Z.eqb_neq _ _)) by lia. rewrite Z.quot_div_nonneg by lia.
  assert (0 ≤ 65536 / window_size ksize ≤ 65536) by (split; [apply Z.div_pos; lia|apply Z.div_le_upper_bound; nia]).
  rewrite c_int_ok by lia. cbn [mbind res_bind].
  assert (∀ r : res (image_t * fb_t), match pixfmt img with PIXFORMAT_OTHER => Ok (img, s) | _ => r end = r) as -> by (intros r; by destruct (pixfmt img)).
  destruct (buf_alloc_run s s bs img ksize [] (conj Hinv eq_refl) Hroom) as (buf & s1 & b & -> & Hb & Hs1 & _). cbn [mbind res_bind].
  destruct (fb_free_run s s1 b bs Hs1) as (s2 & Efree & Hs2).
  assert (Hrange : ∀ x y, in_width (pixel_bits (pixfmt img)) (mean_of ksize img x y)).
  { intros x y. destruct (mean_channels ksize img x y Hok Hf Hk) as [_ Hc]. by apply compose_range. }
  apply filter_frame with (Inv := acc_inv ksize img mask (sums_of img)) (s' := s2); try done; [lia|intros; apply acc_inv_start| | |].
  - intros img1 x y a Hr Hx Hy _ Hi. pose proof Hr as (_ & [_ Ef] & Hrows). unfold mean_compute. rewrite Ef.
    rewrite (window_sums_run img ksize Hf Hk) by done. cbn [mbind res_bind]. destruct (mean_channels ksize img x y Hok Hf Hk) as [Hint _].
    rewrite c_ints_ok by (eapply Forall_impl; [exact Hint|]; cbn; lia). cbn [mbind res_bind]. rewrite <-list_fmap_compose.
    rewrite Hrows by lia. change (compose _ _) with (mean_of ksize img x y). rewrite threshold_pixel_ok by done. cbn [mbind res_bind].
    eexists _, _. refine (conj _ (conj _ (conj _ _))); [reflexivity|by apply thresholded_range|done|]. apply acc_inv_next. by split; [apply window_ok|].
  - intros x y a _ Hm _. by apply acc_inv_skip.
  - intros img'. by rewrite Efree.
Qed.

(** ** The value at a rank *)
(** The [k]th smallest, counting from 1 *)
Definition kth_smallest (k : Z) (vs : list Z) : Z := nth (Z.to_nat (k - 1)) (merge_sort Z.le vs) 0.
Lemma sorted_rank s v k : StronglySorted Z.le s → 1 ≤ k → cnt (λ x, x <? v) s < k ≤ cnt (λ x, x <? v + 1) s → nth (Z.to_nat (k - 1)) s 0 = v.
Proof.
  intros Hs. revert k. induction Hs as [|a s Hs IH Ha]; intros k Hk; [change (cnt _ []) with 0; lia|]. rewrite !cnt_cons. intros H.
  assert (Hge : v < a → cnt (λ x, x <? v + 1) s = 0).
  { intros Hva. apply cnt_none. intros x Hx. rewrite Forall_forall in Ha. specialize (Ha x Hx). apply Z.ltb_ge. lia. }
  assert (v ≤ a → cnt (λ x, x <? v) s = 0) as Hle.
  { intros Hva. apply cnt_none. intros x Hx. rewrite Forall_forall in Ha. specialize (Ha x Hx). apply Z.ltb_ge. lia. }
  destruct (Z.ltb_spec a v), (Z.ltb_spec a (v + 1)); try lia.
  - pose proof (cnt_range (λ x, x <? v) s). replace (Z.to_nat (k - 1)) with (S (Z.to_nat (k - 1 - 1))) by lia. apply IH; lia.
  - rewrite Hle in H by lia. destruct (decide (k = 1)) as [-> |]; [change (Z.to_nat (1 - 1)) with 0%nat; cbn; lia|]. replace (Z.to_nat (k - 1)) with (S (Z.to_nat (k - 1 - 1))) by lia. apply IH; lia.
Qed.
Lemma kth_smallest_rank vs v k : 1 ≤ k → cnt (λ x, x <? v) vs < k ≤ cnt (λ x, x <? v + 1) vs → kth_smallest k vs = v.
Proof.
  intros Hk H. apply sorted_rank; [apply (StronglySorted_merge_sort _)|done|]. by rewrite !(cnt_perm _ _ _ (merge_sort_Permutation Z.le vs)).
Qed.
Lemma cutoff_index_spec data vs cutoff len : (∀ i, 0 ≤ i < len → data i = cnt (λ x, x =? i) vs) → Forall (λ v, 0 ≤ v < len) vs →
  1 ≤ cutoff ≤ Z.of_nat (length vs) → ∀ n i, 0 ≤ i → Z.of_nat n + i = len → cnt (λ x, x <? i) vs < cutoff →
  let r := cutoff_index data cutoff n i (cnt (λ x, x <? i) vs) in
  i < r ≤ len ∧ cnt (λ x, x <? r - 1) vs < cutoff ≤ cnt (λ x, x <? r) vs.
Proof.
  intros Hd Hvs Hc. induction n as [|n IH]; intros i Hi Hn Hlt; cbn [cutoff_index].
  - rewrite (cnt_all (λ x, x <? i)) in Hlt; [lia|]. intros v Hv. rewrite Forall_forall in Hvs. specialize (Hvs v Hv). apply Z.ltb_lt. lia.
  - rewrite (proj2 (Z.ltb_lt _ _)) by done. rewrite Hd, <-cnt_lt_S by lia.
    destruct (decide (cnt (λ x, x <? i + 1) vs < cutoff)) as [H1|H1]; [destruct (IH (i + 1)) as [H2 H3]; [lia|lia|done|split; [lia|done]]|].
    destruct n; cbn [cutoff_index]; [|rewrite (proj2 (Z.ltb_ge _ _)) by lia]; (split; [lia|]); rewrite Z.add_simpl_r; lia.
Qed.
Lemma hist_median_spec data vs cutoff len : 0 < len ≤ 256 → (∀ i, 0 ≤ i < len → data i = cnt (λ x, x =? i) vs) → Forall (λ v, 0 ≤ v < len) vs →
  1 ≤ cutoff ≤ Z.of_nat (length vs) → hist_median data len cutoff = kth_smallest cutoff vs.
Proof.
  intros Hl Hd Hvs Hc. unfold hist_median.
  assert (cnt (λ x, x <? 0) vs = 0) as H0.
  { apply cnt_none. intros v Hv. rewrite Forall_forall in Hvs. specialize (Hvs v Hv). apply Z.ltb_ge. lia. }
  destruct (cutoff_index_spec data vs cutoff len Hd Hvs Hc (Z.to_nat len) 0 ltac:(lia) ltac:(lia) ltac:(lia)) as [Hr Hrank].
  rewrite H0 in Hr, Hrank. rewrite wrap_id by lia. symmetry. apply kth_smallest_rank; [lia|]. by rewrite Z.sub_add.
Qed.

(** ** Histograms of a window *)
Definition hists_of (fmt : pixformat_t) (P : list Z) (hs : list (Z → Z)) : Prop :=
  Forall2 (λ (c h : Z → Z), ∀ v, h v = u8 (cnt (λ x, x =? v) (c <$> P))) (bins_of fmt) hs.
Section hists.
Context (img0 : image_t) (ksize : Z).
Let fmt := img0.(pixfmt).
Context (Hk : 0 ≤ ksize).
Lemma hists_step d P Q p hs : (∀ f : Z → bool, ∀ c : Z → Z, cnt f (c <$> P) + (if f (c p) then d else 0) = cnt f (c <$> Q)) →
  hists_of fmt P hs → ∃ hs', hist_step d fmt p hs = Ok hs' ∧ hists_of fmt Q hs'.
Proof.
  intros Hd H. eexists. split; [reflexivity|]. unfold hists_of in *. induction H as [|c h cs hs Hh _ IH]; cbn [zip_with]; [constructor|].
  constructor; [|done]. intros v. rewrite <-(Hd _ c). destruct (decide (v = c p)) as [-> |Hne].
  - rewrite fn_lookup_insert, Hh, Z.eqb_refl. unfold wrap. by rewrite Zplus_mod_idemp_l.
  - rewrite fn_lookup_insert_ne by done. rewrite (proj2 (Z.eqb_neq (c p) v)) by done. by rewrite Z.add_0_r.
Qed.
Lemma window_hists_run mask img x y hs : image_ok img0 → rows_from img0 (y - ksize) img → 0 ≤ x < img0.(img_w) → 0 ≤ y < img0.(img_h) →
  acc_inv ksize img0 mask (hists_of fmt) x y hs →
  ∃ hs', window_hists fmt ksize mask img x y hs = Ok hs' ∧ hists_of fmt (window ksize img0 x y) hs'.
Proof using Hk.
  intros Hok Hr Hx Hy Hi. assert (Hadd : ∀ p P a, hists_of fmt P a → ∃ a', hist_step 1 fmt p a = Ok a' ∧ hists_of fmt (P ++ [p]) a').
  { intros p P a H. apply (hists_step 1 P); [|done]. intros f c. rewrite fmap_app, cnt_app. change (c <$> [p]) with [c p]. rewrite cnt_cons. change (cnt f []) with 0. lia. }
  apply (window_acc_run ksize img0 Hk mask (λ _, hist_zero fmt) (hist_step (-1) fmt) (hist_step 1 fmt) id (hists_of fmt) (hists_of fmt)); try done; auto.
  - intros _. unfold hists_of, hist_zero. apply Forall2_fmap_r, Forall_Forall2_diag, Forall_forall. intros c _ v. done.
  - intros P Q a HPQ H. unfold hists_of in *. eapply Forall2_impl; [exact H|]. cbn. intros c h Hh v. rewrite Hh. f_equal. by apply cnt_perm, fmap_Permutation.
  - intros p P a _ _ H. apply (hists_step (-1) (p :: P)); [|done]. intros f c. rewrite fmap_cons, cnt_cons. destruct (f (c p)); lia.
Qed.
End hists.

(** ** The median *)
Definition median_of (cutoff : Z) (fmt : pixformat_t) (P : list Z) : Z :=
  match fmt with
  | PIXFORMAT_BINARY => if cutoff <=? sumZ P then 1 else 0
  | PIXFORMAT_RGB565 => compose fmt ((λ c, kth_smallest cutoff (c <$> P)) <$> channels fmt)
  | _ => 4 * kth_smallest cutoff ((λ p, Z.shiftr p 2) <$> P)
  end.
Lemma kth_smallest_elem k vs : 1 ≤ k ≤ Z.of_nat (length vs) → kth_smallest k vs ∈ vs.
Proof.
  intros Hk. unfold kth_smallest. rewrite <-(merge_sort_Permutation Z.le vs) at 2. apply list_elem_of_In, nth_In.
  rewrite (Permutation_length (merge_sort_Permutation Z.le vs)). lia.
Qed.
Lemma bins_range fmt p : fmt ≠ PIXFORMAT_BINARY → fmt ≠ PIXFORMAT_OTHER → in_width (pixel_bits fmt) p → Forall2 (λ c len, 0 ≤ c p < len) (bins_of fmt) (bin_count fmt).
Proof.
  intros Hb Ho Hp. destruct fmt; try done.
  - constructor; [|constructor]. cbn in *. rewrite Z.shiftr_div_pow2 by lia. change (2 ^ 2) with 4. Z.div_mod_to_equations; lia.
  - pose proof (channel_range PIXFORMAT_RGB565 p Ho Hp) as H. change (channels _) with (bins_of PIXFORMAT_RGB565) in H. cbn [channel_max bin_count] in *.
    repeat match goal with H : Forall2 _ _ _ |- _ => inversion_clear H end. repeat constructor; lia.
Qed.
Lemma kth_smallest_range k vs len : 1 ≤ k ≤ Z.of_nat (length vs) → Forall (λ v, 0 ≤ v < len) vs → 0 ≤ kth_smallest k vs < len.
Proof. intros Hk Hvs. rewrite Forall_forall in Hvs. apply Hvs. by apply kth_smallest_elem. Qed.

Section median.
Context (fmt : pixformat_t) (Hb : fmt ≠ PIXFORMAT_BINARY) (Ho : fmt ≠ PIXFORMAT_OTHER).
Context (P : list Z) (HP : Forall (λ p, in_width (pixel_bits fmt) p) P) (Hlen : Z.of_nat (length P) ≤ 255).
Context (cutoff : Z) (Hc : 1 ≤ cutoff ≤ Z.of_nat (length P)).
Lemma bins_of_P : Forall2 (λ c len, 0 < len ≤ 256 ∧ Forall (λ v, 0 ≤ v < len) (c <$> P)) (bins_of fmt) (bin_count fmt).
Proof using Hb Ho HP.
  assert (length (bins_of fmt) = length (bin_count fmt)) as Hl by (destruct fmt; done).
  apply Forall2_same_length_lookup_2; [done|]. intros i c len Hci Hli. split.
  - destruct fmt; cbn in Hli; repeat (destruct i as [|i]; cbn in Hli; [injection Hli as <-; lia|]); done.
  - apply Forall_fmap, Forall_forall. intros p Hp. cbn. rewrite Forall_forall in HP.
    exact (Forall2_lookup_lr _ _ _ _ _ _ (bins_range fmt p Hb Ho (HP p Hp)) Hci Hli).
Qed.
(** The cutoff picks the value of its rank out of each histogram. *)
Lemma hists_median hs : hists_of fmt P hs →
  zip_with (λ h len, hist_median h len cutoff) hs (bin_count fmt) = (λ c, kth_smallest cutoff (c <$> P)) <$> bins_of fmt.
Proof using Hb Ho HP Hlen Hc.
  unfold hists_of. intros Hh. pose proof bins_of_P as Hbins. revert Hh Hbins. generalize (bins_of fmt) (bin_count fmt). intros cs lens Hh. revert lens.
  induction Hh as [|c h cs hs Hh _ IH]; intros lens; inversion_clear 1 as [|? len ? lens' [Hl Hv] Hr]; [done|]. cbn. f_equal; [|by apply IH].
  apply (hist_median_spec _ (c <$> P)); [done| |done|by rewrite length_fmap]. intros i Hi. rewrite Hh. apply wrap_id.
  pose proof (cnt_range (λ x, x =? i) (c <$> P)) as Hr'. rewrite length_fmap in Hr'. cbn. lia.
Qed.
Lemma median_pixel_spec hs : hists_of fmt P hs → median_pixel fmt cutoff hs = median_of cutoff fmt P ∧ in_width (pixel_bits fmt) (median_of cutoff fmt P).
Proof using Hb Ho HP Hlen Hc.
  intros Hh. unfold median_pixel. rewrite (hists_median hs Hh). pose proof bins_of_P as Hbins.
  assert (Hk : ∀ c len, Forall (λ v, 0 ≤ v < len) (c <$> P) → 0 ≤ kth_smallest cutoff (c <$> P) < len).
  { intros c len Hv. apply kth_smallest_range; [by rewrite length_fmap|done]. }
  destruct fmt eqn:Ef; try done.
  - inversion_clear Hbins as [|? ? ? ? [_ Hv] _]. apply Hk in Hv. cbn. rewrite Z.shiftl_mul_pow2 by lia. rewrite wrap_id by lia. lia.
  - split; [done|]. apply compose_range; [done|]. repeat match goal with H : Forall2 _ _ _ |- _ => inversion_clear H end.
    repeat match goal with H : _ ∧ Forall _ _ |- _ => destruct H as [_ H%Hk] end. cbn. repeat constructor; cbn in *; lia.
Qed.
End median.

(** One pixel of the median filter *)
Section median_step.
Context (img : image_t) (ksize cutoff : Z) (threshold : bool) (offset : Z) (invert : bool) (mask : option image_t).
Let fmt := img.(pixfmt).
Context (Hok : image_ok img) (Ho : fmt ≠ PIXFORMAT_OTHER) (Hk : 0 ≤ ksize ≤ 7) (Hoff : - 2 ^ 30 ≤ offset ≤ 2 ^ 30).
Context (Hc : 1 ≤ cutoff ≤ window_size ksize).
Definition median_at (x y : Z) : Z := thresholded fmt threshold offset invert (median_of cutoff fmt (window ksize img x y)) (pixel img x y).
Lemma median_window x y : Forall (λ p, in_width (pixel_bits fmt) p) (window ksize img x y) ∧ Z.of_nat (length (window ksize img x y)) = window_size ksize.
Proof using Hok Hk. split; [by apply window_ok|apply window_length, Hk]. Qed.
Lemma median_small x y : Z.of_nat (length (window ksize img x y)) ≤ 255.
Proof using Hok Hk. destruct (median_window x y) as [_ ->]. unfold window_size, kernel_len. clear Hoff Hc. nia. Qed.
Lemma median_hists x y hs : fmt ≠ PIXFORMAT_BINARY → hists_of fmt (window ksize img x y) hs →
  median_pixel fmt cutoff hs = median_of cutoff fmt (window ksize img x y) ∧ in_width (pixel_bits fmt) (median_of cutoff fmt (window ksize img x y)).
Proof using Hok Hk Ho Hc.
  intros Hb. destruct (median_window x y) as [HP El]. apply median_pixel_spec; [done|done|done|apply median_small|by rewrite El].
Qed.
Lemma median_at_range x y : in_width (pixel_bits fmt) (median_at x y).
Proof using Hok Hk Ho Hc.
  apply thresholded_range. destruct (decide (fmt = PIXFORMAT_BINARY)) as [-> |Hb]; [cbn; destruct (_ <=? _); lia|].
  apply (median_hists x y ((λ (c : Z → Z) v, u8 (cnt (λ p, p =? v) (c <$> window ksize img x y))) <$> bins_of fmt) Hb).
  unfold hists_of. apply Forall2_fmap_r, Forall_Forall2_diag, Forall_forall. done.
Qed.
Lemma median_compute_run img1 x y hs : fmt ≠ PIXFORMAT_BINARY → rows_from img (y - ksize) img1 → 0 ≤ x < img.(img_w) → 0 ≤ y < img.(img_h) →
  acc_inv ksize img mask (hists_of fmt) x y hs →
  ∃ hs' p, median_compute ksize cutoff threshold offset invert mask img1 x y hs = Ok (hs', p) ∧ in_width (pixel_bits fmt) p ∧ p = median_at x y ∧ acc_inv ksize img mask (hists_of fmt) (x + 1) y hs'.
Proof using Hok Hk Ho Hc Hoff.
  intros Hb Hr Hx Hy Hi. pose proof Hr as (_ & [_ Ef] & Hrows). unfold median_compute. rewrite Ef.
  destruct (window_hists_run img ksize ltac:(lia) mask img1 x y hs) as (hs' & E & Hh); [done..|]. fold fmt in E, Hh |- *. rewrite E. cbn [mbind res_bind].
  destruct (median_hists x y hs' Hb Hh) as [-> Hw]. rewrite Hrows, threshold_pixel_ok by (done || lia). cbn [mbind res_bind].
  eexists _, _. refine (conj _ (conj _ (conj _ _))); [reflexivity|apply (median_at_range x y)|done|by apply acc_inv_next].
Qed.
Lemma median_binary_run img1 x y sum : fmt = PIXFORMAT_BINARY → rows_from img (y - ksize) img1 → 0 ≤ x < img.(img_w) → 0 ≤ y < img.(img_h) →
  acc_inv ksize img mask (sums_of img) x y sum →
  ∃ sum' p, median_compute_binary ksize cutoff threshold offset invert mask img1 x y sum = Ok (sum', p) ∧ in_width (pixel_bits fmt) p ∧ p = median_at x y ∧ acc_inv ksize img mask (sums_of img) (x + 1) y sum'.
Proof using Hok Hk Ho Hc Hoff.
  intros Hb Hr Hx Hy Hi. pose proof Hr as (_ & [_ Ef] & Hrows). unfold median_compute_binary. rewrite <-Hb.
  rewrite (window_sums_run img ksize Ho ltac:(lia)) by done. cbn [mbind res_bind]. rewrite Hrows by lia.
  assert ((if cutoff <=? nth 0 (sums (pixfmt img) (window ksize img x y)) 0 then 1 else 0) = median_of cutoff fmt (window ksize img x y)) as ->.
  { fold fmt. rewrite Hb. cbn. unfold sums. cbn. by rewrite list_fmap_id. }
  rewrite threshold_pixel_ok; [|fold fmt; rewrite Hb; cbn; destruct (_ <=? _); lia|done]. cbn [mbind res_bind].
  eexists _, _. refine (conj _ (conj _ (conj _ _))); [reflexivity|apply (median_at_range x y)|done|]. apply acc_inv_next. split; [by apply window_ok|done].
Qed.
Lemma median_hists_frame s bs buf hs (tail : image_t → res (image_t * fb_t)) s' : fmt ≠ PIXFORMAT_BINARY → fb_inv s bs → same_shape buf img →
  (∀ img', tail img' = Ok (img', s')) → pool_is s bs s' →
  filters mask (λ x y v, v = median_at x y) img bs s (img' ← filter_image ksize mask id (median_compute ksize cutoff threshold offset invert mask) img buf hs; tail img').
Proof using Hok Hk Ho Hc Hoff.
  intros Hb Hinv Hbuf Ht Hs'. apply filter_frame with (Inv := acc_inv ksize img mask (hists_of fmt)) (s' := s'); try done.
  - apply Hk.
  - intros. apply acc_inv_start.
  - intros. by apply median_compute_run.
  - intros. by apply acc_inv_skip.
Qed.
Lemma median_binary_frame s bs buf sum (tail : image_t → res (image_t * fb_t)) s' : fmt = PIXFORMAT_BINARY → fb_inv s bs → same_shape buf img →
  (∀ img', tail img' = Ok (img', s')) → pool_is s bs s' →
  filters mask (λ x y v, v = median_at x y) img bs s (img' ← filter_image ksize mask id (median_compute_binary ksize cutoff threshold offset invert mask) img buf sum; tail img').
Proof using Hok Hk Ho Hc Hoff.
  intros Hb Hinv Hbuf Ht Hs'. apply filter_frame with (Inv := acc_inv ksize img mask (sums_of img)) (s' := s'); try done.
  - apply Hk.
  - intros. apply acc_inv_start.
  - intros. by apply median_binary_run.
  - intros. by apply acc_inv_skip.
Qed.
End median_step.
Definition median_tables (fmt : pixformat_t) : list Z :=
  match fmt with PIXFORMAT_GRAYSCALE => [64] | PIXFORMAT_RGB565 => [32; 64; 32] | _ => [] end.

(** C23: The median filter, for kernels up to 15 by 15 and a percentile that selects a rank
    of the window: every pixel that the mask does not leave out becomes, channel by
    channel, the value of that rank among the pixels of the window around it in the image
    that came in (to a multiple of 4 for grayscale, by a count of ones for binary), or the
    result of comparing it with the pixel; no counter wraps, the histograms that are slid
    along a row are those of the window, nothing outside the image is written and every
    block taken from the pool is given back. *)
Theorem imlib_median_filter_spec img ksize percentile cutoff threshold offset invert mask s bs :
  image_ok img → 0 ≤ ksize ≤ 7 → - 2 ^ 30 ≤ offset ≤ 2 ^ 30 → img.(pixfmt) ≠ PIXFORMAT_OTHER →
  median_cutoff percentile (window_size ksize) = Ok cutoff → 1 ≤ cutoff ≤ window_size ksize →
  fb_inv s bs → fb_room (buf_size img ksize :: median_tables img.(pixfmt)) (pointer s) →
  filters mask (λ x y v, v = thresholded img.(pixfmt) threshold offset invert
      (median_of cutoff img.(pixfmt) (window ksize img x y)) (pixel img x y)) img bs s
    (imlib_median_filter img ksize percentile threshold offset invert mask s).
Proof.
  intros Hok Hk Ho Hf Hcut Hc Hinv Hroom. pose proof (window_size_bound ksize ltac:(lia)) as Hn. unfold imlib_median_filter.
  change ((ksize * 2 + 1) * (ksize * 2 + 1)) with (window_size ksize). rewrite c_int_ok by lia. cbn [mbind res_bind]. rewrite Hcut. cbn [mbind res_bind].
  destruct (buf_alloc_run s s bs img ksize _ (conj Hinv eq_refl) Hroom) as (buf & s1 & b & Ebuf & Hb & Hs1 & Hroom1).
  change (λ x y v, v = thresholded _ _ _ _ _ _) with (λ x y v, v = median_at img ksize cutoff threshold offset invert x y).
  destruct (pixfmt img) eqn:Ef; [| | |done]; rewrite Ebuf; cbn [mbind res_bind median_tables] in Hroom1 |- *.
  - destruct (fb_free_run s s1 b bs Hs1) as (s2 & Efree & Hs2).
    apply median_binary_frame with (s' := s2); try done; [congruence|intros; by rewrite Efree].
  - destruct (gray_table_run s s1 b bs 64 Hs1 Hroom1) as (t & s2 & s3 & Hs3 & -> & Efree). cbn [mbind res_bind].
    apply median_hists_frame with (s' := s3); try congruence; done.
  - destruct (rgb_tables_run s s1 b bs Hs1 Hroom1) as (t1 & t2 & t3 & s2 & s3 & Hs3 & -> & Efree).
    apply median_hists_frame with (s' := s3); try congruence; done.
Qed.

(** ** Concrete images *)
Lemma imlib_mean_filter_spec_witness :
  filters None (λ x y v, v = thresholded PIXFORMAT_GRAYSCALE false 0 false (mean_of 1 demo_gray x y) (pixel demo_gray x y)) demo_gray [] fb_demo
    (imlib_mean_filter demo_gray 1 false 0 false None fb_demo) ∧
  mean_of 1 demo_gray 2 1 = 55.
Proof. split; [apply imlib_mean_filter_spec; [apply demo_gray_ok|done|done|done|apply fb_demo_inv|done]|reflexivity]. Defined.
Lemma imlib_median_filter_spec_witness :
  filters None (λ x y v, v = thresholded PIXFORMAT_RGB565 true 0 true (median_of 4 PIXFORMAT_RGB565 (window 1 demo_rgb x y)) (pixel demo_rgb x y)) demo_rgb [] fb_demo
    (imlib_median_filter demo_rgb 1 (f_of_bits 0x3F000000) true 0 true None fb_demo) ∧
  median_of 4 PIXFORMAT_RGB565 (window 1 demo_rgb 0 0) = 0xF800.
Proof.
  split; [apply (imlib_median_filter_spec demo_rgb 1 (f_of_bits 0x3F000000) 4); [apply demo_rgb_ok|done|done|done|reflexivity|done|apply fb_demo_inv|done]|vm_compute; reflexivity].
Defined.

