(* ===== verification/ModeFilter.v ===== *)
(** * Mode filter (imlib_mode_filter of libraries/imlib/src/filter.c)

    For each window the most frequent value is kept while its histogram is built or slid:
    [mcount] is the count of the value [mode], -1 before anything was counted, and 256 once
    the mode has lost so many pixels that the histogram has to be searched again. *)

From S2P Require Import Prelude Words FbAlloc Imlib Rolling FilterBase.

(** ** Definitions *)
Record tally := Tally { bins : Z → Z; mode : Z; mcount : Z }.
(** [find_mode]: a word of four empty bins is skipped *)
Definition scan_bin (bins : Z → Z) (j : Z) : Z * Z → Z * Z := λ '(mode, mcount),
  if mcount <? bins j then (u8 j, bins j) else (mode, mcount).
Definition find_mode (bins : Z → Z) (len : Z) : Z :=
  fst (for_range 0 (len `div` 4) (λ g s, if word_at bins (4 * g) =? 0 then s else for_range (4 * g) 4 (scan_bin bins) s) (0, 0)).
Definition tally_add (p : Z) (t : tally) : tally :=
  let b : Z → Z := <[p := u8 (t.(bins) p + 1)]> t.(bins) in
  if t.(mcount) <? b p then Tally b p (b p) else Tally b t.(mode) t.(mcount).
Definition tally_sub (n2 p : Z) (t : tally) : tally :=
  let b : Z → Z := <[p := u8 (t.(bins) p - 1)]> t.(bins) in
  Tally b t.(mode) (if p =? t.(mode) then (if b p <? n2 then 256 else b p) else t.(mcount)).
Definition tally_reset (mcount : Z) (t : tally) : tally := Tally (λ _, 0) t.(mode) mcount.
(** The search, and the bins from which the count is then taken *)
Definition tally_settle (from : Z → Z) (len : Z) (t : tally) : tally :=
  if t.(mcount) =? 256 then let m := find_mode t.(bins) len in Tally t.(bins) m (from m) else t.

Definition mode_n2 (n : Z) : Z := u8 (n `quot` 2).
Section mode.
Context (ksize n2 : Z) (threshold : bool) (offset : Z) (invert : bool) (mask : option image_t).
Definition mode_binary (img : image_t) (x y : Z) (sum : list Z) : res (list Z * Z) :=
  sum ← window_sums PIXFORMAT_BINARY ksize mask img x y sum;
  p ← threshold_pixel PIXFORMAT_BINARY threshold offset invert (if n2 <? nth 0 sum 0 then 1 else 0) (pixel img x y);
  Ok (sum, p).
Definition mode_gray (img : image_t) (x y : Z) (t : tally) : res (tally * Z) :=
  t ← window_acc ksize mask (tally_reset (-1)) (λ p t, Ok (tally_sub n2 p t)) (λ p t, Ok (tally_add p t))
        (λ t, tally_settle t.(bins) 256 t) img x y t;
  p ← threshold_pixel PIXFORMAT_GRAYSCALE threshold offset invert t.(mode) (pixel img x y);
  Ok (t, p).
(** Three tallies; the count of the blue mode comes from the red bins. *)
Definition rgb_each (f : Z → tally → tally) (p : Z) : tally * tally * tally → tally * tally * tally := λ '(r, g, b),
  (f (COLOR_RGB565_TO_R5 p) r, f (COLOR_RGB565_TO_G6 p) g, f (COLOR_RGB565_TO_B5 p) b).
Definition rgb_reset : tally * tally * tally → tally * tally * tally := λ '(r, g, b), (tally_reset 0 r, tally_reset 0 g, tally_reset 0 b).
Definition rgb_settle : tally * tally * tally → tally * tally * tally := λ '(r, g, b),
  (tally_settle r.(bins) 32 r, tally_settle g.(bins) 64 g, tally_settle r.(bins) 32 b).
Definition rgb_row_start : tally * tally * tally → tally * tally * tally := λ '(r, g, b),
  (Tally r.(bins) 0 0, Tally g.(bins) 0 0, Tally b.(bins) 0 0).
Definition mode_rgb (img : image_t) (x y : Z) (t : tally * tally * tally) : res (tally * tally * tally * Z) :=
  '(r, g, b) ← window_acc ksize mask rgb_reset (λ p t, Ok (rgb_each (tally_sub n2) p t)) (λ p t, Ok (rgb_each tally_add p t)) rgb_settle img x y t;
  Ok ((r, g, b), COLOR_R5_G6_B5_TO_RGB565 r.(mode) g.(mode) b.(mode)).
End mode.
Definition imlib_mode_filter (img : image_t) (ksize : Z) (threshold : bool) (offset : Z) (invert : bool)
    (mask : option image_t) (s : fb_t) : res (image_t * fb_t) :=
  n ← c_int ((ksize * 2 + 1) * (ksize * 2 + 1));
  let n2 := mode_n2 n in
  match img.(pixfmt) with
  | PIXFORMAT_BINARY =>
      '(buf, s) ← buf_alloc img ksize s;
      img ← filter_image ksize mask id (mode_binary ksize n2 threshold offset invert mask) img buf [0];
      s ← fb_free s;
      s ← fb_free s;
      Ok (img, s)
  | PIXFORMAT_GRAYSCALE =>
      '(buf, s) ← buf_alloc img ksize s;
      '(bs, s) ← table_alloc 256 s;
      img ← filter_image ksize mask (λ t, Tally t.(bins) 0 (-1)) (mode_gray ksize n2 threshold offset invert mask) img buf (Tally bs 0 (-1));
      s ← fb_free s;
      s ← fb_free s;
      Ok (img, s)
  | PIXFORMAT_RGB565 =>
      '(buf, s) ← buf_alloc img ksize s;
      '(r, s) ← table_alloc 32 s;
      '(g, s) ← table_alloc 64 s;
      '(b, s) ← table_alloc 32 s;
      img ← filter_image ksize mask rgb_row_start (mode_rgb ksize n2 mask) img buf (Tally r 0 0, Tally g 0 0, Tally b 0 0);
      s ← fb_free s;
      s ← fb_free s;
      s ← fb_free s;
      s ← fb_free s;
      Ok (img, s)
  | PIXFORMAT_OTHER => Ok (img, s)
  end.

(** ** The search *)
(** Value and count of the first of the most frequent among the bins before [n] *)
Definition scanned (bins : Z → Z) (n : Z) (s : Z * Z) : Prop :=
  (∀ v, 0 ≤ v < n → bins v ≤ s.2) ∧ (s.2 = 0 ∨ bins s.1 = s.2) ∧ (s.1 = 0 ∨ 0 ≤ s.1 < n) ∧ 0 ≤ s.2.
Lemma scan_bin_run bins n s : in_width 8 n → scanned bins n s → scanned bins (n + 1) (scan_bin bins n s).
Proof.
  intros Hn (H1 & H2 & H3 & H4). destruct s as [m c]. unfold scan_bin, scanned in *. cbn in *. destruct (Z.ltb_spec c (bins n)) as [Hlt|Hge]; cbn.
  - rewrite wrap_id by done. split_and!; [|by right|lia|lia]. intros v Hv. destruct (decide (v = n)) as [-> |]; [lia|]. specialize (H1 v). lia.
  - split_and!; [|done|lia|lia]. intros v Hv. destruct (decide (v = n)) as [-> |]; [lia|]. apply H1. lia.
Qed.
Lemma empty_word bins a : bytes_ok bins → word_at bins a = 0 → ∀ j, 0 ≤ j < 4 → bins (a + j) = 0.
Proof.
  intros Hb E j Hj. rewrite <-(mem_read_total bins a 4 j Hj). unfold word_at in E.
  rewrite <-(word_bytes_word (mem_read bins a 4)); [|apply Nat2Z.inj; by rewrite mem_read_length|by apply mem_read_bytes].
  rewrite E. assert (j = 0 ∨ j = 1 ∨ j = 2 ∨ j = 3) as [-> | [-> | [-> | ->]]] by lia; done.
Qed.
Lemma find_mode_spec bins len : bytes_ok bins → 0 < len ≤ 256 → len mod 4 = 0 →
  0 ≤ find_mode bins len < len ∧ ∀ v, 0 ≤ v < len → bins v ≤ bins (find_mode bins len).
Proof.
  intros Hb Hl Hm. assert (0 ≤ len `div` 4) as Hg by (apply Z.div_pos; lia). assert (4 * (len `div` 4) = len) as E4 by (Z.div_mod_to_equations; lia).
  assert (Hs : scanned bins (4 * (len `div` 4)) (for_range 0 (len `div` 4) (λ g s, if word_at bins (4 * g) =? 0 then s else for_range (4 * g) 4 (scan_bin bins) s) (0, 0))).
  { apply (for_range_ind (λ g, scanned bins (4 * g))); [done|split_and!; cbn; [lia|by left|by left|done]|]. intros g s Hgr Hs. rewrite Z.add_0_l.
    replace (4 * (g + 1)) with (4 * g + 4) by lia. destruct (Z.eqb_spec (word_at bins (4 * g)) 0) as [E|_].
    - destruct Hs as (H1 & H2 & H3 & H4). split_and!; [|done|lia|done]. intros v Hv. destruct (decide (v < 4 * g)); [apply H1; lia|].
      replace v with (4 * g + (v - 4 * g)) by lia. rewrite (empty_word bins (4 * g) Hb E) by lia. done.
    - apply (for_range_ind (λ j, scanned bins (4 * g + j))); [done|by rewrite Z.add_0_r|]. intros j s' Hj Hs'. rewrite Z.add_assoc. apply scan_bin_run; [lia|done]. }
  rewrite E4 in Hs. unfold find_mode. destruct Hs as (H1 & H2 & H3 & H4). split; [lia|]. intros v Hv. destruct H2 as [H2|H2].
  - specialize (H1 v Hv). pose proof (Hb (fst (for_range 0 (len `div` 4) (λ g s, if word_at bins (4 * g) =? 0 then s else for_range (4 * g) 4 (scan_bin bins) s) (0, 0)))). lia.
  - rewrite H2. by apply H1.
Qed.

(** ** The tally of a window *)
(** [m] is a most frequent value of [vs]. *)
Definition is_mode (vs : list Z) (m : Z) : Prop := ∀ v, cnt (λ x, x =? v) vs ≤ cnt (λ x, x =? m) vs.
Definition tally_bins (vs : list Z) (t : tally) : Prop := ∀ v, t.(bins) v = u8 (cnt (λ x, x =? v) vs).
Definition tally_max (vs : list Z) (t : tally) : Prop :=
  vs = [] ∧ t.(mcount) = -1 ∨ t.(mcount) = t.(bins) t.(mode) ∧ ∀ v, t.(bins) v ≤ t.(mcount).
Definition tally_clean (vs : list Z) (t : tally) : Prop := tally_bins vs t ∧ tally_max vs t.
Definition tally_rep (vs : list Z) (t : tally) : Prop := tally_bins vs t ∧ (t.(mcount) = 256 ∨ tally_max vs t).
Lemma tally_bins_perm vs vs' t : vs ≡ₚ vs' → tally_bins vs t → tally_bins vs' t.
Proof. intros Hp H v. by rewrite H, (cnt_perm _ vs vs'). Qed.
Lemma tally_rep_perm vs vs' t : vs ≡ₚ vs' → tally_rep vs t → tally_rep vs' t.
Proof.
  intros Hp [Hb Hm]. split; [by eapply tally_bins_perm|]. destruct Hm as [Hm|[[-> Hm]|Hm]]; [by left| |by right; right].
  apply Permutation_nil_l in Hp. subst. right. by left.
Qed.
Lemma tally_reset_clean c t : c = -1 ∨ c = 0 → tally_clean [] (tally_reset c t).
Proof. intros Hc. split; [done|]. destruct Hc as [-> | ->]; [by left|by right]. Qed.
Lemma tally_bins_exact vs t : Z.of_nat (length vs) ≤ 255 → tally_bins vs t → ∀ v, t.(bins) v = cnt (λ x, x =? v) vs.
Proof. intros Hl Hb v. rewrite Hb. apply wrap_id. pose proof (cnt_range (λ x, x =? v) vs). lia. Qed.
Lemma tally_bins_add p vs t (m c : Z) : tally_bins vs t → tally_bins (vs ++ [p]) (Tally (<[p := u8 (t.(bins) p + 1)]> t.(bins)) m c).
Proof.
  intros Hb v. cbn [bins]. rewrite cnt_app, cnt_cons. change (cnt _ []) with 0. destruct (decide (v = p)) as [-> |Hne].
  - rewrite fn_lookup_insert, Hb, Z.eqb_refl. unfold wrap. by rewrite Zplus_mod_idemp_l, Z.add_0_r.
  - rewrite fn_lookup_insert_ne by done. rewrite (proj2 (Z.eqb_neq p v)) by done. by rewrite Hb, Z.add_0_r.
Qed.
Lemma tally_bins_sub p vs t (m c : Z) : tally_bins (p :: vs) t → tally_bins vs (Tally (<[p := u8 (t.(bins) p - 1)]> t.(bins)) m c).
Proof.
  intros Hb v. cbn [bins]. destruct (decide (v = p)) as [-> |Hne].
  - rewrite fn_lookup_insert, Hb, cnt_cons, Z.eqb_refl. unfold wrap. rewrite Zminus_mod_idemp_l. f_equal. lia.
  - rewrite fn_lookup_insert_ne by done. rewrite Hb, cnt_cons, (proj2 (Z.eqb_neq p v)) by done. done.
Qed.
Lemma tally_add_shape p t : ∃ m c, tally_add p t = Tally (<[p := u8 (t.(bins) p + 1)]> t.(bins)) m c.
Proof. unfold tally_add. cbv zeta. destruct (_ <? _); by eexists _, _. Qed.
Lemma tally_add_max p vs t : Z.of_nat (length vs) < 255 → tally_bins vs t → tally_max vs t → tally_max (vs ++ [p]) (tally_add p t).
Proof.
  intros Hl Hb Hm. right. pose proof (tally_bins_exact vs t ltac:(lia) Hb) as Ex. pose proof (cnt_range (λ x, x =? p) vs) as Hc.
  assert (Hle : ∀ v, bins t v ≤ mcount t ∨ bins t v = 0 ∧ mcount t = -1).
  { intros v. destruct Hm as [[-> Hm]|[_ Hm]]; [right; by rewrite Ex|by left]. }
  unfold tally_add. cbv zeta. rewrite Ex, wrap_id by lia. rewrite !fn_lookup_insert. destruct (Z.ltb_spec (mcount t) (cnt (λ x, x =? p) vs + 1)); cbn.
  - rewrite fn_lookup_insert. split; [done|]. intros v. destruct (decide (v = p)) as [-> |]; [by rewrite fn_lookup_insert|].
    rewrite fn_lookup_insert_ne by done. specialize (Hle v). lia.
  - destruct Hm as [[-> Hm]|[Hm Hall]]; [lia|]. pose proof (Hall p) as Hp. rewrite Ex in Hp. assert (mode t ≠ p) by (intros E; rewrite E, Ex in Hm; lia).
    rewrite fn_lookup_insert_ne by done. split; [done|]. intros v. destruct (decide (v = p)) as [-> |]; [rewrite fn_lookup_insert; lia|].
    by rewrite fn_lookup_insert_ne.
Qed.
Lemma tally_add_clean p vs t : Z.of_nat (length vs) < 255 → tally_clean vs t → tally_clean (vs ++ [p]) (tally_add p t).
Proof.
  intros Hl [Hb Hm]. split; [|by apply tally_add_max]. destruct (tally_add_shape p t) as (m & c & ->). by apply tally_bins_add.
Qed.
Lemma tally_add_rep p vs t : Z.of_nat (length vs) < 255 → tally_rep vs t → tally_rep (vs ++ [p]) (tally_add p t).
Proof.
  intros Hl [Hb [Hm|Hm]]; [|destruct (tally_add_clean p vs t Hl (conj Hb Hm)); split; [done|by right]].
  split; [destruct (tally_add_shape p t) as (m & c & ->); by apply tally_bins_add|]. left.
  unfold tally_add. cbv zeta. rewrite Hm, fn_lookup_insert, (proj2 (Z.ltb_ge _ _)); [done|]. pose proof (wrap_range 8 (bins t p + 1) ltac:(lia)). lia.
Qed.
(** After one of the [n] values is taken out, a value that keeps [n / 2] of them is still
    the mode: the others together are no more. *)
Lemma cnt_two v m vs : v ≠ m → cnt (λ x, x =? v) vs + cnt (λ x, x =? m) vs ≤ Z.of_nat (length vs).
Proof.
  intros Hne. induction vs as [|x vs IH]; [done|]. rewrite !cnt_cons. cbn [length]. destruct (Z.eqb_spec x v), (Z.eqb_spec x m); subst; try done; lia.
Qed.
Lemma tally_sub_rep n p vs t : Z.of_nat (length vs) < n → n ≤ 255 → Z.odd n = true → tally_rep (p :: vs) t → tally_rep vs (tally_sub (mode_n2 n) p t).
Proof.
  intros Hl Hn Ho [Hb Hm]. pose proof (tally_bins_sub p vs t (mode t) 0 Hb) as Hb'. split; [exact Hb'|].
  pose proof (tally_bins_exact vs _ ltac:(lia) Hb') as Hx. clear Hb'. rename Hx into Hb'. cbn [bins] in Hb'. unfold tally_sub, mode_n2, tally_max. cbn. rewrite Z.odd_spec in Ho. destruct Ho as [k Hk].
  assert (u8 (n `quot` 2) = k) as -> by (rewrite Z.quot_div_nonneg by lia; replace (n `div` 2) with k by (Z.div_mod_to_equations; lia); apply wrap_id; lia).
  destruct (Z.eqb_spec p (mode t)) as [<-|Hne].
  - case_match eqn:Hge; [by left|apply Z.ltb_ge in Hge]. right. right. split; [done|]. intros v.
    destruct (decide (v = p)) as [-> |Hv]; [done|]. rewrite (Hb' p) in Hge |- *. rewrite (Hb' v). pose proof (cnt_two v p vs Hv). lia.
  - destruct Hm as [Hm|[[Hm _]|[Hm Hall]]]; [by left|done|]. right. right. rewrite fn_lookup_insert_ne by congruence. split; [done|].
    intros v. pose proof (tally_bins_exact (p :: vs) t ltac:(cbn [length]; lia) Hb) as Hx. destruct (decide (v = p)) as [-> |Hv]; [|by rewrite fn_lookup_insert_ne].
    rewrite Hb'. specialize (Hall p). rewrite Hx, cnt_cons, Z.eqb_refl in Hall. lia.
Qed.
Lemma tally_bins_bytes vs t : tally_bins vs t → bytes_ok t.(bins).
Proof. intros Hb q. rewrite Hb. apply wrap_range. lia. Qed.
Lemma tally_settle_clean len vs t : 0 < len ≤ 256 → len mod 4 = 0 → Forall (λ v, 0 ≤ v < len) vs → Z.of_nat (length vs) ≤ 255 →
  tally_rep vs t → tally_clean vs (tally_settle t.(bins) len t).
Proof.
  intros Hl Hm Hv Hn [Hb Hr]. unfold tally_settle. destruct (Z.eqb_spec (mcount t) 256) as [_|Hne]; [|destruct Hr as [Hr|Hr]; [done|by split]].
  split; [exact Hb|]. right. split; [done|]. cbn. destruct (find_mode_spec (bins t) len (tally_bins_bytes vs t Hb) Hl Hm) as [Hin Hmax].
  intros v. destruct (decide (0 ≤ v < len)) as [Hvr|Hvr]; [by apply Hmax|].
  rewrite (tally_bins_exact vs t Hn Hb), cnt_none; [pose proof (tally_bins_bytes vs t Hb (find_mode (bins t) len)); lia|].
  intros x Hx. rewrite Forall_forall in Hv. specialize (Hv x Hx). apply Z.eqb_neq. lia.
Qed.
Lemma tally_clean_mode vs t : 0 < Z.of_nat (length vs) ≤ 255 → tally_clean vs t → is_mode vs t.(mode) ∧ t.(mode) ∈ vs.
Proof.
  intros Hl [Hb Hm]. pose proof (tally_bins_exact vs t ltac:(lia) Hb) as Hx. destruct Hm as [[-> _]|[Hm Hall]]; [cbn in Hl; lia|].
  assert (is_mode vs (mode t)) as Hi by (intros v; rewrite <-!Hx, <-Hm; apply Hall). split; [done|].
  destruct (decide (mode t ∈ vs)) as [|Hn]; [done|]. exfalso. destruct vs as [|v vs]; [cbn in Hl; lia|]. pose proof (Hi v) as Hv.
  rewrite (cnt_none (λ x, x =? mode t)) in Hv; [rewrite cnt_cons, Z.eqb_refl in Hv; pose proof (cnt_range (λ x, x =? v) vs); lia|].
  intros x Hxin. apply Z.eqb_neq. intros ->. done.
Qed.

(** ** One pixel *)
Section mode_step.
Context (img : image_t) (ksize : Z) (mask : option image_t).
Let fmt := img.(pixfmt).
Let n2 := mode_n2 (window_size ksize).
Context (Hok : image_ok img) (Hk : 0 ≤ ksize ≤ 7).
Lemma mode_window x y : Forall (λ p, in_width (pixel_bits fmt) p) (window ksize img x y) ∧ 0 < Z.of_nat (length (window ksize img x y)) ≤ 255.
Proof using Hok Hk. split; [by apply window_ok|]. rewrite window_length by lia. unfold window_size, kernel_len. nia. Qed.
Lemma mode_size : window_size ksize ≤ 255 ∧ Z.odd (window_size ksize) = true.
Proof using Hk. split; [unfold window_size, kernel_len; nia|]. unfold window_size, kernel_len. rewrite Z.odd_mul. replace (ksize * 2 + 1) with (1 + 2 * ksize) by lia. by rewrite Z.odd_add_mul_2. Qed.
Lemma window_gray_run img1 x y t : fmt = PIXFORMAT_GRAYSCALE → rows_from img (y - ksize) img1 → 0 ≤ x < img.(img_w) → 0 ≤ y < img.(img_h) →
  acc_inv ksize img mask tally_clean x y t →
  ∃ t', window_acc ksize mask (tally_reset (-1)) (λ p t, Ok (tally_sub n2 p t)) (λ p t, Ok (tally_add p t))
      (λ t, tally_settle t.(bins) 256 t) img1 x y t = Ok t' ∧ tally_clean (window ksize img x y) t'.
Proof using Hok Hk.
  intros Hf Hr Hx Hy Hi. destruct mode_size as [Hn Ho].
  apply (window_acc_run ksize img ltac:(lia) mask (tally_reset (-1)) (λ p t, Ok (tally_sub n2 p t)) (λ p t, Ok (tally_add p t)) _ tally_rep tally_clean); try done.
  - intros. apply tally_reset_clean. by left.
  - intros P a [Hb Hm]. split; [done|by right].
  - intros P a HP Hl Ha. apply tally_settle_clean; [done|done| |lia|done]. eapply Forall_impl; [exact HP|]. unfold pixel_ok. fold fmt. rewrite Hf. done.
  - intros P Q a. apply tally_rep_perm.
  - intros p P a _ _ Hl Ha. eexists. split; [reflexivity|]. apply tally_add_rep; [lia|done].
  - intros p P a _ Hl Ha. eexists. split; [reflexivity|]. apply tally_add_clean; [lia|done].
  - intros p P a _ Hl Ha. eexists. split; [reflexivity|]. by apply tally_sub_rep.
Qed.
Lemma mode_gray_run threshold offset invert img1 x y t : fmt = PIXFORMAT_GRAYSCALE → - 2 ^ 30 ≤ offset ≤ 2 ^ 30 →
  rows_from img (y - ksize) img1 → 0 ≤ x < img.(img_w) → 0 ≤ y < img.(img_h) → acc_inv ksize img mask tally_clean x y t →
  ∃ t' m, mode_gray ksize n2 threshold offset invert mask img1 x y t = Ok (t', thresholded fmt threshold offset invert m (pixel img x y)) ∧
    in_width (pixel_bits fmt) m ∧ is_mode (window ksize img x y) m ∧ m ∈ window ksize img x y ∧ acc_inv ksize img mask tally_clean (x + 1) y t'.
Proof using Hok Hk.
  intros Hf Hoff Hr Hx Hy Hi. destruct (window_gray_run img1 x y t Hf Hr Hx Hy Hi) as (t' & E & Hc). destruct (mode_window x y) as [HP Hl].
  destruct (tally_clean_mode _ t' Hl Hc) as [Hmode Hin]. assert (in_width (pixel_bits fmt) (mode t')) as Hw by (rewrite Forall_forall in HP; by apply HP).
  unfold mode_gray. rewrite E. cbn [mbind res_bind]. destruct Hr as (_ & _ & Hrows). rewrite Hrows by lia. rewrite Hf in Hw |- *.
  rewrite threshold_pixel_ok by done. cbn [mbind res_bind]. exists t', (mode t'). split; [done|]. split; [done|]. split; [done|]. split; [done|].
  by apply acc_inv_next.
Qed.
Definition R5s (P : list Z) : list Z := COLOR_RGB565_TO_R5 <$> P.
Definition G6s (P : list Z) : list Z := COLOR_RGB565_TO_G6 <$> P.
Definition B5s (P : list Z) : list Z := COLOR_RGB565_TO_B5 <$> P.
(** Of the blue tally only the bins are right, and the mode is a bin once there is one. *)
Definition rgb_inv (inv : list Z → tally → Prop) (P : list Z) : tally * tally * tally → Prop := λ '(r, g, b),
  inv (R5s P) r ∧ inv (G6s P) g ∧ tally_bins (B5s P) b ∧ (0 ≤ b.(mode) < 32 ∨ P = [] ∧ b.(mcount) = 0).
Lemma rgb_range p : 0 ≤ COLOR_RGB565_TO_R5 p < 32 ∧ 0 ≤ COLOR_RGB565_TO_G6 p < 64 ∧ 0 ≤ COLOR_RGB565_TO_B5 p < 32.
Proof.
  pose proof (land_ones_range (Z.shiftr p 11) 5 ltac:(lia)). pose proof (land_ones_range (Z.shiftr p 5) 6 ltac:(lia)). pose proof (land_ones_range p 5 ltac:(lia)).
  change (Z.ones 5) with 31 in *. change (Z.ones 6) with 63 in *. unfold COLOR_RGB565_TO_R5, COLOR_RGB565_TO_G6, COLOR_RGB565_TO_B5. lia.
Qed.
Lemma decompose_rgb r g b : 0 ≤ r < 32 → 0 ≤ g < 64 → 0 ≤ b < 32 →
  let p := COLOR_R5_G6_B5_TO_RGB565 r g b in
  COLOR_RGB565_TO_R5 p = r ∧ COLOR_RGB565_TO_G6 p = g ∧ COLOR_RGB565_TO_B5 p = b ∧ in_width 16 p.
Proof.
  intros Hr Hg Hb p. assert (p = r * 2048 + g * 32 + b) as -> by (apply compose_rgb; lia). unfold COLOR_RGB565_TO_R5, COLOR_RGB565_TO_G6, COLOR_RGB565_TO_B5.
  change 31 with (Z.ones 5). change 63 with (Z.ones 6). rewrite !Z.land_ones, !Z.shiftr_div_pow2 by lia. change (2 ^ 11) with 2048. change (2 ^ 5) with 32. change (2 ^ 6) with 64.
  split_and!; try lia; Z.div_mod_to_equations; lia.
Qed.
Lemma tally_sub_mode n p t : mode (tally_sub n p t) = mode t.
Proof. done. Qed.
Lemma tally_add_mode n p t : 0 ≤ p < n → 0 ≤ mode t < n → 0 ≤ mode (tally_add p t) < n.
Proof. intros Hp Hm. unfold tally_add. cbv zeta. by destruct (_ <? _). Qed.
Lemma rgb_add_inv (inv : list Z → tally → Prop) p P t :
  (∀ vs v t, Z.of_nat (length vs) < 255 → inv vs t → inv (vs ++ [v]) (tally_add v t)) → Z.of_nat (length P) < 255 →
  rgb_inv inv P t → rgb_inv inv (P ++ [p]) (rgb_each tally_add p t).
Proof.
  intros Hinv Hl. destruct t as [[r g] b]. intros (Hr & Hg & Hb & Hm). destruct (rgb_range p) as (_ & _ & Hp). unfold rgb_inv, rgb_each, R5s, G6s, B5s in *.
  rewrite !fmap_app. split; [apply Hinv; [by rewrite length_fmap|done]|]. split; [apply Hinv; [by rewrite length_fmap|done]|]. split.
  - destruct (tally_add_shape (COLOR_RGB565_TO_B5 p) b) as (m & c & ->). by apply tally_bins_add.
  - left. destruct Hm as [Hm|[-> Hm]]; [by apply tally_add_mode|]. unfold tally_add. cbv zeta. by rewrite fn_lookup_insert, Hb, Hm.
Qed.
Lemma rgb_inv_perm P Q t : P ≡ₚ Q → rgb_inv tally_rep P t → rgb_inv tally_rep Q t.
Proof.
  intros Hp. destruct t as [[r g] b]. intros (Hr & Hg & Hb & Hm). split; [|split; [|split]].
  - eapply tally_rep_perm; [|exact Hr]. by apply fmap_Permutation.
  - eapply tally_rep_perm; [|exact Hg]. by apply fmap_Permutation.
  - eapply tally_bins_perm; [|exact Hb]. by apply fmap_Permutation.
  - destruct Hm as [Hm|[-> Hm]]; [by left|]. apply Permutation_nil_l in Hp. subst. by right.
Qed.
Lemma rgb_sub_rep p P t : Z.of_nat (length P) < window_size ksize → rgb_inv tally_rep (p :: P) t → rgb_inv tally_rep P (rgb_each (tally_sub n2) p t).
Proof using Hk.
  intros Hl. destruct t as [[r g] b]. intros (Hr & Hg & Hb & Hm). destruct mode_size as [Hn Ho]. unfold rgb_inv, rgb_each, R5s, G6s, B5s in *.
  rewrite fmap_cons in Hr, Hg, Hb. split; [|split; [|split; [|destruct Hm as [Hm|[Hm _]]; [by left|done]]]].
  - apply tally_sub_rep; [by rewrite length_fmap|done|done|done].
  - apply tally_sub_rep; [by rewrite length_fmap|done|done|done].
  - by apply tally_bins_sub.
Qed.
Lemma rgb_settle_clean P t : Z.of_nat (length P) ≤ 255 → rgb_inv tally_rep P t → rgb_inv tally_clean P (rgb_settle t).
Proof.
  intros Hl. destruct t as [[r g] b]. intros (Hr & Hg & Hb & Hm). unfold rgb_inv, rgb_settle, R5s, G6s, B5s in *.
  assert (∀ (c : Z → Z) n, (∀ p, 0 ≤ c p < n) → Forall (λ v, 0 ≤ v < n) (c <$> P)) as HP by (intros; apply Forall_fmap, Forall_true; done).
  split; [|split; [|split]].
  - apply tally_settle_clean; [done|done|apply HP; apply rgb_range|by rewrite length_fmap|done].
  - apply tally_settle_clean; [done|done|apply HP; apply rgb_range|by rewrite length_fmap|done].
  - unfold tally_settle. by destruct (_ =? _).
  - unfold tally_settle. destruct (_ =? _); [|done]. left. apply (find_mode_spec (bins b) 32); [by eapply tally_bins_bytes|done|done].
Qed.
Lemma window_rgb_run img1 x y t : rows_from img (y - ksize) img1 → 0 ≤ x < img.(img_w) → 0 ≤ y < img.(img_h) →
  acc_inv ksize img mask (rgb_inv tally_clean) x y t →
  ∃ t', window_acc ksize mask rgb_reset (λ p t, Ok (rgb_each (tally_sub n2) p t)) (λ p t, Ok (rgb_each tally_add p t)) rgb_settle img1 x y t = Ok t' ∧
    rgb_inv tally_clean (window ksize img x y) t'.
Proof using Hok Hk.
  intros Hr Hx Hy Hi. destruct mode_size as [Hn _].
  apply (window_acc_run ksize img ltac:(lia) mask rgb_reset (λ p t, Ok (rgb_each (tally_sub n2) p t)) (λ p t, Ok (rgb_each tally_add p t)) _
    (rgb_inv tally_rep) (rgb_inv tally_clean)); try done.
  - intros [[r g] b]. split; [|split; [|split]]; [apply tally_reset_clean; by right|apply tally_reset_clean; by right|done|by right].
  - intros P [[r g] b] ([Hr1 Hr2] & [Hg1 Hg2] & Hb). split; [|split; [|done]]; (split; [done|by right]).
  - intros P a _ Hl Ha. apply rgb_settle_clean; [lia|done].
  - intros P Q a. apply rgb_inv_perm.
  - intros p P a _ _ Hl Ha. eexists. split; [reflexivity|]. apply rgb_add_inv; [intros; by apply tally_add_rep|lia|done].
  - intros p P a _ Hl Ha. eexists. split; [reflexivity|]. apply rgb_add_inv; [intros; by apply tally_add_clean|lia|done].
  - intros p P a _ Hl Ha. eexists. split; [reflexivity|]. by apply rgb_sub_rep.
Qed.
(** Red and green are modes of their channels. *)
Definition rgb_modes (x y v : Z) : Prop :=
  is_mode (R5s (window ksize img x y)) (COLOR_RGB565_TO_R5 v) ∧ is_mode (G6s (window ksize img x y)) (COLOR_RGB565_TO_G6 v).
Lemma mode_rgb_run img1 x y t : rows_from img (y - ksize) img1 → 0 ≤ x < img.(img_w) → 0 ≤ y < img.(img_h) →
  acc_inv ksize img mask (rgb_inv tally_clean) x y t →
  ∃ t' p, mode_rgb ksize n2 mask img1 x y t = Ok (t', p) ∧ in_width 16 p ∧ rgb_modes x y p ∧ acc_inv ksize img mask (rgb_inv tally_clean) (x + 1) y t'.
Proof using Hok Hk.
  intros Hr Hx Hy Hi. destruct (window_rgb_run img1 x y t Hr Hx Hy Hi) as ([[r g] b] & E & Hc). destruct (mode_window x y) as [_ Hl].
  unfold mode_rgb. rewrite E. cbn [mbind res_bind]. pose proof Hc as (Hcr & Hcg & _ & Hm).
  destruct (tally_clean_mode (R5s (window ksize img x y)) r ltac:(unfold R5s; by rewrite length_fmap) Hcr) as [Hmr Hir]. destruct (tally_clean_mode (G6s (window ksize img x y)) g ltac:(unfold G6s; by rewrite length_fmap) Hcg) as [Hmg Hig].
  apply list_elem_of_fmap in Hir as (pr & Er & _). apply list_elem_of_fmap in Hig as (pg & Eg & _).
  destruct (decompose_rgb (mode r) (mode g) (mode b)) as (Dr & Dg & _ & Hw); [rewrite Er; apply rgb_range|rewrite Eg; apply rgb_range| |].
  { destruct Hm as [Hm|[Hm _]]; [done|]. rewrite Hm in Hl. cbn in Hl. lia. }
  eexists _, _. split; [reflexivity|]. split; [done|]. split; [|by apply acc_inv_next]. unfold rgb_modes. by rewrite Dr, Dg.
Qed.
(** Among bits the majority is the mode. *)
Lemma majority_mode P : Forall (λ p, in_width 1 p) P → 0 < Z.of_nat (length P) ≤ 255 → Z.odd (Z.of_nat (length P)) = true →
  let m := if mode_n2 (Z.of_nat (length P)) <? sumZ P then 1 else 0 in is_mode P m ∧ m ∈ P.
Proof.
  intros HP Hl Ho m. assert (Hsum : sumZ P = cnt (λ x, x =? 1) P ∧ Z.of_nat (length P) = cnt (λ x, x =? 0) P + cnt (λ x, x =? 1) P).
  { clear - HP. induction HP as [|p P Hp _ [IH1 IH2]]; [done|]. rewrite !cnt_cons. cbn [length]. unfold sumZ in *. cbn [foldr].
    assert (p = 0 ∨ p = 1) as [-> | ->] by lia; cbn; lia. }
  assert (Hother : ∀ v, v ≠ 0 → v ≠ 1 → cnt (λ x, x =? v) P = 0).
  { intros v H0 H1. apply cnt_none. intros p Hp. rewrite Forall_forall in HP. specialize (HP p Hp). apply Z.eqb_neq. lia. }
  rewrite Z.odd_spec in Ho. destruct Ho as [k Ek]. assert (mode_n2 (Z.of_nat (length P)) = k) as En.
  { unfold mode_n2. rewrite Z.quot_div_nonneg by lia. replace (Z.of_nat (length P) `div` 2) with k by (Z.div_mod_to_equations; lia). apply wrap_id. lia. }
  assert (Hin : ∀ v, 0 < cnt (λ x, x =? v) P → v ∈ P).
  { intros v Hv. destruct (decide (v ∈ P)) as [|Hn]; [done|]. rewrite cnt_none in Hv; [lia|]. intros x Hx. apply Z.eqb_neq. by intros ->. }
  assert (Hm : cnt (λ x, x =? m) P = Z.max (cnt (λ x, x =? 0) P) (cnt (λ x, x =? 1) P) ∧ 0 < cnt (λ x, x =? m) P).
  { subst m. rewrite En. destruct (Z.ltb_spec k (sumZ P)); lia. }
  split; [|apply Hin, Hm]. intros v. destruct (decide (v = 0)) as [-> |]; [lia|]. destruct (decide (v = 1)) as [-> |]; [lia|]. rewrite Hother by done. lia.
Qed.
Lemma mode_binary_run threshold offset invert img1 x y sum : fmt = PIXFORMAT_BINARY → - 2 ^ 30 ≤ offset ≤ 2 ^ 30 →
  rows_from img (y - ksize) img1 → 0 ≤ x < img.(img_w) → 0 ≤ y < img.(img_h) → acc_inv ksize img mask (sums_of img) x y sum →
  ∃ sum' m, mode_binary ksize n2 threshold offset invert mask img1 x y sum = Ok (sum', thresholded fmt threshold offset invert m (pixel img x y)) ∧
    in_width (pixel_bits fmt) m ∧ is_mode (window ksize img x y) m ∧ m ∈ window ksize img x y ∧ acc_inv ksize img mask (sums_of img) (x + 1) y sum'.
Proof using Hok Hk.
  intros Hf Hoff Hr Hx Hy Hi. destruct (mode_window x y) as [HP Hl]. assert (fmt ≠ PIXFORMAT_OTHER) as Ho by (rewrite Hf; done).
  unfold mode_binary. rewrite <-Hf. rewrite (window_sums_run img ksize Ho) by (done || lia). cbn [mbind res_bind].
  destruct (majority_mode (window ksize img x y)) as [Hm Hin]; [by rewrite Hf in HP|done|rewrite window_length by lia; apply mode_size|].
  rewrite window_length in Hm, Hin by lia. fold n2 in Hm, Hin. destruct Hr as (_ & _ & Hrows). rewrite Hrows by lia.
  assert (nth 0 (sums (pixfmt img) (window ksize img x y)) 0 = sumZ (window ksize img x y)) as ->.
  { fold fmt. rewrite Hf. unfold sums. cbn. by rewrite list_fmap_id. }
  set (m := if n2 <? sumZ (window ksize img x y) then 1 else 0) in *. assert (in_width (pixel_bits fmt) m) as Hw by (rewrite Forall_forall in HP; by apply HP).
  rewrite threshold_pixel_ok by done. cbn [mbind res_bind]. exists (sums fmt (window ksize img x y)), m. split; [done|]. split; [done|]. split; [done|]. split; [done|].
  apply acc_inv_next. split; [by apply window_ok|done].
Qed.

(** ** The filter *)
Definition mode_good (threshold : bool) (offset : Z) (invert : bool) (x y v : Z) : Prop :=
  match fmt with
  | PIXFORMAT_RGB565 => rgb_modes x y v
  | _ => ∃ m, is_mode (window ksize img x y) m ∧ m ∈ window ksize img x y ∧ v = thresholded fmt threshold offset invert m (pixel img x y)
  end.
Section frames.
Context (threshold : bool) (offset : Z) (invert : bool) (Hoff : - 2 ^ 30 ≤ offset ≤ 2 ^ 30).
Context (s : fb_t) (bs : list block) (buf : image_t) (tail : image_t → res (image_t * fb_t)) (s' : fb_t).
Context (Hinv : fb_inv s bs) (Hbuf : same_shape buf img) (Htail : ∀ img', tail img' = Ok (img', s')) (Hs' : pool_is s bs s').
Lemma mode_binary_frame sum : fmt = PIXFORMAT_BINARY →
  filters mask (mode_good threshold offset invert) img bs s (img' ← filter_image ksize mask id (mode_binary ksize n2 threshold offset invert mask) img buf sum; tail img').
Proof using All.
  intros Hf. apply filter_frame with (Inv := acc_inv ksize img mask (sums_of img)) (s' := s'); try done; [apply Hk|intros; apply acc_inv_start| |intros; by apply acc_inv_skip].
  intros img1 x y a Hr Hx Hy _ Hi. destruct (mode_binary_run threshold offset invert img1 x y a Hf Hoff Hr Hx Hy Hi) as (a' & m & E & Hw & Hm & Hin & Hi').
  eexists a', _. split; [exact E|]. split; [by apply thresholded_range|]. split; [|done]. unfold mode_good. rewrite Hf. by exists m.
Qed.
Lemma mode_gray_frame row_start t : fmt = PIXFORMAT_GRAYSCALE →
  filters mask (mode_good threshold offset invert) img bs s (img' ← filter_image ksize mask row_start (mode_gray ksize n2 threshold offset invert mask) img buf t; tail img').
Proof using All.
  intros Hf. apply filter_frame with (Inv := acc_inv ksize img mask tally_clean) (s' := s'); try done; [apply Hk|intros; apply acc_inv_start| |intros; by apply acc_inv_skip].
  intros img1 x y a Hr Hx Hy _ Hi. destruct (mode_gray_run threshold offset invert img1 x y a Hf Hoff Hr Hx Hy Hi) as (a' & m & E & Hw & Hm & Hin & Hi').
  eexists a', _. split; [exact E|]. split; [by apply thresholded_range|]. split; [|done]. unfold mode_good. rewrite Hf. by exists m.
Qed.
Lemma mode_rgb_frame row_start t : fmt = PIXFORMAT_RGB565 →
  filters mask (mode_good threshold offset invert) img bs s (img' ← filter_image ksize mask row_start (mode_rgb ksize n2 mask) img buf t; tail img').
Proof using All.
  intros Hf. apply filter_frame with (Inv := acc_inv ksize img mask (rgb_inv tally_clean)) (s' := s'); try done; [apply Hk|intros; apply acc_inv_start| |intros; by apply acc_inv_skip].
  intros img1 x y a Hr Hx Hy _ Hi. destruct (mode_rgb_run img1 x y a Hr Hx Hy Hi) as (a' & p & E & Hw & Hm & Hi').
  exists a', p. split; [exact E|]. split; [fold fmt; by rewrite Hf|]. split; [|done]. unfold mode_good. by rewrite Hf.
Qed.
End frames.
End mode_step.
Definition mode_tables (fmt : pixformat_t) : list Z :=
  match fmt with PIXFORMAT_GRAYSCALE => [256] | PIXFORMAT_RGB565 => [32; 64; 32] | _ => [] end.

(** The mode filter, for kernels up to 15 by 15: every pixel that the mask does not
    leave out becomes a most frequent value of the window around it in the image that came
    in, or the result of comparing that value with the pixel; of an RGB565 image this holds
    of the red and of the green channel.  Although the tally is slid along the row and is
    searched again only when the mode has lost more than half of the window, the mode is
    never stale.  Nothing outside the image is written, and the pool is as it was (for a
    binary image when nothing else was on it). *)
Theorem imlib_mode_filter_spec img ksize threshold offset invert mask s bs :
  image_ok img → 0 ≤ ksize ≤ 7 → - 2 ^ 30 ≤ offset ≤ 2 ^ 30 → img.(pixfmt) ≠ PIXFORMAT_OTHER →
  fb_inv s bs → (img.(pixfmt) = PIXFORMAT_BINARY → bs = []) → fb_room (buf_size img ksize :: mode_tables img.(pixfmt)) (pointer s) →
  filters mask (mode_good img ksize threshold offset invert) img bs s (imlib_mode_filter img ksize threshold offset invert mask s).
Proof.
  intros Hok Hk Ho Hf Hinv Hempty Hroom. pose proof (window_size_bound ksize ltac:(lia)) as Hn. unfold imlib_mode_filter.
  change ((ksize * 2 + 1) * (ksize * 2 + 1)) with (window_size ksize). rewrite c_int_ok by lia. cbn [mbind res_bind].
  destruct (buf_alloc_run s s bs img ksize _ (conj Hinv eq_refl) Hroom) as (buf & s1 & b & Ebuf & Hb & Hs1 & Hroom1).
  destruct (pixfmt img) eqn:Ef; [| | |done]; rewrite Ebuf; cbn [mbind res_bind mode_tables] in Hroom1 |- *.
  - rewrite (Hempty eq_refl) in *. destruct (fb_free_run s s1 b [] Hs1) as (s2 & Efree & Hs2).
    apply mode_binary_frame with (s' := s2); try done. intros img'. rewrite Efree. cbn [mbind res_bind]. by rewrite (fb_free_empty s).
  - destruct (gray_table_run s s1 b bs 256 Hs1 Hroom1) as (t & s2 & s3 & Hs3 & -> & Efree). cbn [mbind res_bind].
    apply mode_gray_frame with (s' := s3); done.
  - destruct (rgb_tables_run s s1 b bs Hs1 Hroom1) as (t1 & t2 & t3 & s2 & s3 & Hs3 & -> & Efree).
    apply mode_rgb_frame with (s' := s3); done.
Qed.

(** ** Concrete images *)
Lemma imlib_mode_filter_spec_witness :
  filters None (mode_good demo_gray 1 false 0 false) demo_gray [] filter_pool (imlib_mode_filter demo_gray 1 false 0 false None filter_pool).
Proof. apply imlib_mode_filter_spec; [apply demo_gray_ok|done|done|done|apply filter_pool_inv|done|done]. Defined.
(** In a binary image the block below the buffer is freed too. *)
Lemma mode_binary_frees_twice : ∃ r s1 img' s2, fb_alloc 16 0 filter_pool = Ok (Some r, s1) ∧
  imlib_mode_filter (Image 1 1 PIXFORMAT_BINARY (λ _, 1)) 1 false 0 false None s1 = Ok (img', s2) ∧ pointer s1 < pointer s2 ∧ pointer s2 = pointer filter_pool.
Proof. eexists _, _, _, _. split; [reflexivity|]. split; [reflexivity|]. split; reflexivity. Qed.
(** The blue channel, whose count is taken from the red bins, is not always a mode. *)
Definition demo_blue : image_t := Image 5 3 PIXFORMAT_RGB565 (λ i, nth (Z.to_nat i) [2; 1; 0; 2; 1;  1; 2; 0; 2; 0;  0; 2; 2; 2; 1] 0).
Lemma mode_blue_stale :
  (match imlib_mode_filter demo_blue 1 false 0 false None filter_pool with Ok (img', _) => COLOR_RGB565_TO_B5 (pixel img' 3 1) | _ => -1 end) = 0 ∧
  ¬ is_mode (B5s (window 1 demo_blue 3 1)) 0.
Proof. split; [lazy; reflexivity|]. intros H. by apply (H 2). Qed.
