(* ===== verification/Midpoint.v ===== *)
(** * Midpoint filter (imlib_midpoint_filter of libraries/imlib/src/filter.c)

    Between the smallest and the largest value of the window, as far up as [bias] says.  The
    loop that looks for both takes a new smallest value first and looks at the largest one
    only otherwise, so a maximum that comes first in the window is missed. *)

From Stdlib Require Import Sorted.
From S2P Require Import Prelude Words Float64 Float32 FbAlloc Imlib Rolling FilterBase.

(** ** Definitions *)
Definition mid_step (p : Z) : Z * Z → Z * Z := λ '(mn, mx),
  if p <? mn then (p, mx) else if mx <? p then (mn, p) else (mn, mx).
Definition mid_step_binary (p : Z) : Z * Z → Z * Z := λ '(mn, mx), (Z.land mn p, Z.lor mx p).
Definition mid_zero (fmt : pixformat_t) : list (Z * Z) := (λ m, (m, 0)) <$> channel_max fmt.
Definition mid_add (fmt : pixformat_t) (p : Z) (ms : list (Z * Z)) : res (list (Z * Z)) :=
  Ok (zip_with (λ c, (match fmt with PIXFORMAT_BINARY => mid_step_binary | _ => mid_step end) (c p)) (channels fmt) ms).
Definition bias_entry (bias : float) (i : Z) : res Z := v ← f_to_int (floorf (f_mul (f_of_Z i) bias)); Ok (u8 v).
Definition fill_bias (bias : float) (t : Z → Z) : res (Z → Z) := for_res 0 256 (λ i t, v ← bias_entry bias i; Ok (<[i := v]> t)) t.
(** [u8BiasTable[i]] *)
Definition bias_at (t : Z → Z) (i : Z) : res Z := if (0 <=? i) && (i <? 256) then Ok (t i) else Fault FUB.
Definition mid_binary (bias : float) (mn mx : Z) : res Z :=
  f_to_int (floorf (f_add (f_mul (f_of_Z mn) (f_sub (f_of_Z 1) bias)) (f_mul (f_of_Z mx) bias))).
Definition mid_value (fmt : pixformat_t) (bias : float) (t : Z → Z) : Z * Z → res Z := λ '(mn, mx),
  match fmt with
  | PIXFORMAT_BINARY => mid_binary bias mn mx
  | _ => v ← bias_at t (mx - mn); Ok (mn + v)
  end.
Definition midpoint_compute (ksize : Z) (bias : float) (t : Z → Z) (threshold : bool) (offset : Z) (invert : bool)
    (img : image_t) (x y : Z) (_ : unit) : res (unit * Z) :=
  let fmt := img.(pixfmt) in
  ms ← window_fold ksize (mid_zero fmt) (mid_add fmt) img x y;
  vs ← mapM (mid_value fmt bias t) ms;
  p ← threshold_pixel fmt threshold offset invert (compose fmt vs) (pixel img x y);
  Ok (tt, p).
Definition imlib_midpoint_filter (img : image_t) (ksize : Z) (bias : float) (threshold : bool) (offset : Z) (invert : bool)
    (mask : option image_t) (s : fb_t) : res (image_t * fb_t) :=
  '(t, s) ← table_alloc 256 s;
  t ← fill_bias bias t;
  match img.(pixfmt) with
  | PIXFORMAT_OTHER => s ← fb_free s; Ok (img, s)
  | _ =>
      '(buf, s) ← buf_alloc img ksize s;
      img ← filter_image ksize mask id (midpoint_compute ksize bias t threshold offset invert) img buf tt;
      s ← fb_free s;
      s ← fb_free s;
      Ok (img, s)
  end.

(** ** The smallest and the largest value *)
Definition minZ (top : Z) (vs : list Z) : Z := foldr Z.min top vs.
Definition maxZ (vs : list Z) : Z := foldr Z.max 0 vs.
Lemma minZ_le top vs v : v ∈ vs → minZ top vs ≤ v.
Proof. induction 1; cbn; unfold minZ in *; lia. Qed.
Lemma minZ_app top a b : minZ top (a ++ b) = Z.min (minZ top a) (minZ top b).
Proof. unfold minZ. induction a as [|x a IH]; cbn; [|rewrite IH; lia]. induction b; cbn; lia. Qed.
Lemma maxZ_app a b : maxZ (a ++ b) = Z.max (maxZ a) (maxZ b).
Proof. unfold maxZ. induction a as [|x a IH]; cbn; [|rewrite IH; lia]. induction b; cbn; lia. Qed.
Lemma maxZ_ge vs v : v ∈ vs → v ≤ maxZ vs.
Proof. induction 1; cbn; unfold maxZ in *; lia. Qed.
Lemma minZ_range top vs : Forall (λ v, 0 ≤ v ≤ top) vs → 0 ≤ top → 0 ≤ minZ top vs ≤ top.
Proof. unfold minZ. induction 1; cbn; lia. Qed.
Lemma maxZ_range top vs : Forall (λ v, 0 ≤ v ≤ top) vs → 0 ≤ top → 0 ≤ maxZ vs ≤ top.
Proof. unfold maxZ. induction 1; cbn; lia. Qed.
Lemma min_max_le top vs : vs ≠ [] → minZ top vs ≤ maxZ vs.
Proof. destruct vs as [|v vs]; [done|]. intros _. cbn. lia. Qed.
(** The maximum of the window is not only its first value. *)
Definition max_again (vs : list Z) : Prop := match vs with v :: vs => ∃ w, w ∈ vs ∧ v ≤ w | [] => False end.

Definition mid_fold (top : Z) (vs : list Z) : Z * Z := foldl (λ a p, mid_step p a) (top, 0) vs.
Lemma mid_fold_snoc top vs p : mid_fold top (vs ++ [p]) = mid_step p (mid_fold top vs).
Proof. unfold mid_fold. by rewrite foldl_app. Qed.
Lemma maxZ_elem vs : Forall (λ v, 0 ≤ v) vs → vs ≠ [] → maxZ vs ∈ vs.
Proof.
  induction 1 as [|v vs Hv Hvs IH]; [done|]. intros _. change (maxZ (v :: vs)) with (Z.max v (maxZ vs)). destruct (decide (vs = [])) as [-> |Hne].
  - rewrite Z.max_l by (cbn; lia). by left.
  - destruct (Z.max_spec v (maxZ vs)) as [[_ ->]|[_ ->]]; [right; by apply IH|by left].
Qed.
Lemma mid_fold_inv top vs : Forall (λ v, 0 ≤ v ≤ top) vs →
  (mid_fold top vs).1 = minZ top vs ∧ 0 ≤ (mid_fold top vs).2 ≤ maxZ vs ∧
  match vs with v :: l => ∀ w, w ∈ l → v ≤ w → w ≤ (mid_fold top vs).2 | [] => True end.
Proof.
  induction vs as [|p vs IH] using rev_ind; intros Hvs; [cbn; lia|]. apply Forall_app in Hvs as [Hvs Hp]. inversion_clear Hp as [|? ? Hp' _].
  destruct (IH Hvs) as (H1 & H2 & H3). rewrite mid_fold_snoc, minZ_app, maxZ_app. destruct (mid_fold top vs) as [mn mx]. cbn in H1, H2, H3. subst mn.
  change (minZ top [p]) with (Z.min p top). change (maxZ [p]) with (Z.max p 0). rewrite (Z.min_l p) by lia.
  pose proof (minZ_range top vs Hvs ltac:(lia)) as Hmn. unfold mid_step. destruct (Z.ltb_spec p (minZ top vs)).
  - cbn. split; [lia|]. split; [lia|]. destruct vs as [|v l]; [cbn; intros w Hw; by apply elem_of_nil in Hw|]. cbn [app]. intros w Hw Hvw.
    apply elem_of_app in Hw as [Hw|Hw]; [by apply H3|]. apply list_elem_of_singleton in Hw as ->. pose proof (minZ_le top (v :: l) v ltac:(left)). lia.
  - destruct (Z.ltb_spec mx p); cbn; (split; [lia|]; split; [lia|]); (destruct vs as [|v l]; [cbn; intros w Hw; by apply elem_of_nil in Hw|]); cbn [app]; intros w Hw Hvw;
      (apply elem_of_app in Hw as [Hw|Hw]; [specialize (H3 w Hw Hvw); lia|apply list_elem_of_singleton in Hw as ->; lia]).
Qed.
Lemma mid_fold_spec top vs : Forall (λ v, 0 ≤ v ≤ top) vs → max_again vs → mid_fold top vs = (minZ top vs, maxZ vs).
Proof.
  intros Hvs Hm. destruct (mid_fold_inv top vs Hvs) as (H1 & H2 & H3). destruct vs as [|v l]; [done|]. destruct Hm as (w & Hw & Hvw).
  pose proof (maxZ_ge l w Hw). inversion_clear Hvs as [|? ? Hv Hl]. assert (maxZ l ∈ l) as Hin.
  { apply maxZ_elem; [|intros ->; by apply elem_of_nil in Hw]. eapply Forall_impl; [exact Hl|]. cbn. lia. }
  specialize (H3 (maxZ l) Hin ltac:(lia)). change (maxZ (v :: l)) with (Z.max v (maxZ l)) in *. destruct (mid_fold top (v :: l)) as [mn mx]. cbn in *. f_equal; [done|lia].
Qed.
(** In a window whose values only fall, the largest value is never looked at. *)
Lemma mid_fold_falling top a l : StronglySorted (λ v w, w < v) (a :: l) → a < top → (mid_fold top (a :: l)).2 = 0.
Proof.
  intros Hs Ha. unfold mid_fold. cbn [foldl]. unfold mid_step at 2. rewrite (proj2 (Z.ltb_lt _ _)) by done.
  cut (∀ p, p = a → (foldl (λ a p, mid_step p a) (p, 0) l).2 = 0); [by auto|]. revert a Hs Ha. induction l as [|b l IH]; intros a Hs Ha p ->; [done|].
  inversion_clear Hs as [|? ? Hs' Hf]. inversion_clear Hf as [|? ? Hb _]. cbn [foldl]. unfold mid_step at 2. rewrite (proj2 (Z.ltb_lt _ _)) by done.
  apply (IH b); [done|lia|done].
Qed.
Definition mid_fold_binary (vs : list Z) : Z * Z := foldl (λ a p, mid_step_binary p a) (1, 0) vs.
Lemma mid_fold_binary_spec vs : Forall (λ v, 0 ≤ v ≤ 1) vs → mid_fold_binary vs = (minZ 1 vs, maxZ vs).
Proof.
  induction vs as [|p vs IH] using rev_ind; [done|]. intros H. apply Forall_app in H as [Hvs Hp]. inversion_clear Hp as [|? ? Hp' _].
  unfold mid_fold_binary in *. rewrite foldl_app, IH, minZ_app, maxZ_app by done. change (minZ 1 [p]) with (Z.min p 1). change (maxZ [p]) with (Z.max p 0).
  pose proof (minZ_range 1 vs Hvs ltac:(lia)) as H1. pose proof (maxZ_range 1 vs Hvs ltac:(lia)) as H2. cbn.
  assert (∀ a, 0 ≤ a ≤ 1 → a = 0 ∨ a = 1) as Hbit by lia. destruct (Hbit _ H1) as [-> | ->], (Hbit _ H2) as [-> | ->], (Hbit _ Hp') as [-> | ->]; done.
Qed.

(** ** One pixel *)
Definition bias_value (bias : float) (i : Z) : Z := match bias_entry bias i with Ok v => v | _ => 0 end.
Definition mid_of (fmt : pixformat_t) (bias : float) : Z * Z → Z := λ '(mn, mx),
  match fmt with
  | PIXFORMAT_BINARY => match mid_binary bias mn mx with Ok v => v | _ => 0 end
  | _ => mn + bias_value bias (mx - mn)
  end.
(** Smallest and largest value of a window, channel by channel *)
Definition extremes (fmt : pixformat_t) (P : list Z) : list (Z * Z) :=
  zip_with (λ c top, (minZ top (c <$> P), maxZ (c <$> P))) (channels fmt) (channel_max fmt).
(** A bias that leads from the smallest value no further than to the largest one *)
Definition bias_ok (fmt : pixformat_t) (bias : float) : Prop :=
  (∀ i, 0 ≤ i < 256 → ∃ v, bias_entry bias i = Ok v ∧ v ≤ i) ∧
  (fmt = PIXFORMAT_BINARY → ∀ mn mx, 0 ≤ mn → mn ≤ mx → mx ≤ 1 → ∃ v, mid_binary bias mn mx = Ok v ∧ 0 ≤ v ≤ 1).
Definition is_bias_table (bias : float) (t : Z → Z) : Prop := ∀ i, 0 ≤ i < 256 → bias_entry bias i = Ok (t i).
Lemma fill_bias_run fmt bias t : bias_ok fmt bias → ∃ t', fill_bias bias t = Ok t' ∧ is_bias_table bias t'.
Proof.
  intros [Hb _]. unfold fill_bias.
  destruct (for_res_ind (λ n (t : Z → Z), ∀ i, 0 ≤ i < n → bias_entry bias i = Ok (t i)) 0 256 (λ i t, v ← bias_entry bias i; Ok (<[i := v]> t)) t)
    as (t' & E & H); [done|lia| |by exists t'].
  intros n t1 Hn Ht. rewrite Z.add_0_l. destruct (Hb n Hn) as (v & E & _). rewrite E. cbn [mbind res_bind]. eexists. split; [reflexivity|].
  intros i Hi. destruct (decide (i = n)) as [-> |Hne]; [by rewrite fn_lookup_insert|]. rewrite fn_lookup_insert_ne by done. apply Ht. lia.
Qed.
Lemma bias_entry_nonneg bias i v : bias_entry bias i = Ok v → 0 ≤ v.
Proof. unfold bias_entry. destruct (f_to_int _) as [z|]; [|done]. cbn. intros [= <-]. apply wrap_range. lia. Qed.

Section midpoint_step.
Context (img : image_t) (ksize : Z) (bias : float) (t : Z → Z) (threshold : bool) (offset : Z) (invert : bool) (mask : option image_t).
Let fmt := img.(pixfmt).
Context (Hok : image_ok img) (Ho : fmt ≠ PIXFORMAT_OTHER) (Hk : 0 ≤ ksize) (Hoff : - 2 ^ 30 ≤ offset ≤ 2 ^ 30).
Definition max_seen (x y : Z) : Prop := fmt ≠ PIXFORMAT_BINARY → ∀ c, c ∈ channels fmt → max_again (c <$> window ksize img x y).
Lemma window_extremes img1 x y : rows_from img (y - ksize) img1 → 0 ≤ x < img.(img_w) → 0 ≤ y < img.(img_h) → max_seen x y →
  window_fold ksize (mid_zero fmt) (mid_add fmt) img1 x y = Ok (extremes fmt (window ksize img x y)).
Proof using Hok Ho Hk.
  intros Hr Hx Hy Hm. rewrite window_fold_full by done.
  set (step := match fmt with PIXFORMAT_BINARY => mid_step_binary | _ => mid_step end).
  destruct (window_full_run ksize img Hk (mid_add fmt) (λ P ms, ms = zip_with (λ c top, foldl (λ a p, step p a) (top, 0) (c <$> P)) (channels fmt) (channel_max fmt)))
    with (img := img1) (x := x) (y := y) (a := mid_zero fmt) as (ms & -> & ->); try done.
  - intros p P ms _ _ ->. eexists. split; [reflexivity|]. fold step. destruct fmt; cbn; by rewrite ?fmap_app, ?foldl_app.
  - unfold mid_zero. destruct fmt; done.
  - f_equal. unfold extremes. pose proof (window_ok ksize img x y Hok) as HP. fold fmt in HP.
    assert (Hc : Forall2 (λ c top, foldl (λ a p, step p a) (top, 0) (c <$> window ksize img x y) = (minZ top (c <$> window ksize img x y), maxZ (c <$> window ksize img x y)))
      (channels fmt) (channel_max fmt)).
    { apply Forall2_same_length_lookup_2; [by destruct fmt|]. intros i c top Hci Hti.
      assert (Forall (λ v, 0 ≤ v ≤ top) (c <$> window ksize img x y)) as Hv.
      { apply Forall_fmap, Forall_forall. intros p Hp. rewrite Forall_forall in HP. exact (Forall2_lookup_lr _ _ _ _ _ _ (channel_range fmt p Ho (HP p Hp)) Hci Hti). }
      subst step. destruct (decide (fmt = PIXFORMAT_BINARY)) as [Eb|Eb].
      - rewrite Eb in *. destruct i; [|done]. injection Hti as <-. by apply mid_fold_binary_spec.
      - apply list_elem_of_lookup_2 in Hci. specialize (Hm Eb c Hci). pose proof (mid_fold_spec top _ Hv Hm). by destruct fmt. }
    induction Hc as [|c top cs tops Hh _ IH]; [done|]. cbn. by rewrite Hh, IH.
Qed.
Context (Hbias : bias_ok fmt bias) (Ht : is_bias_table bias t).
Lemma mid_value_ok c top mn mx : (c, top) ∈ zip (channels fmt) (channel_max fmt) → 0 ≤ mn → mn ≤ mx → mx ≤ top →
  mid_value fmt bias t (mn, mx) = Ok (mid_of fmt bias (mn, mx)) ∧ 0 ≤ mid_of fmt bias (mn, mx) ≤ top.
Proof using Ho Hbias Ht.
  intros Hct Hmn Hle Hmx. destruct Hbias as [Hb Hbin].
  assert (Hother : top ≤ 255 → (v ← bias_at t (mx - mn); Ok (mn + v)) = Ok (mn + bias_value bias (mx - mn)) ∧ 0 ≤ mn + bias_value bias (mx - mn) ≤ top).
  { intros Htop. destruct (Hb (mx - mn) ltac:(lia)) as (v & E & Hv). pose proof (bias_entry_nonneg _ _ _ E) as Hv0. unfold bias_value. rewrite E.
    pose proof (Ht (mx - mn) ltac:(lia)) as E'. rewrite E in E'. injection E' as Ev. unfold bias_at.
    rewrite (proj2 (Z.leb_le 0 (mx - mn))), (proj2 (Z.ltb_lt (mx - mn) 256)) by lia. cbn. rewrite <-Ev. split; [done|lia]. }
  unfold mid_value, mid_of. clearbody fmt. destruct fmt; [|apply Hother|apply Hother|done].
  - apply list_elem_of_singleton in Hct. injection Hct as -> ->. destruct (Hbin eq_refl mn mx Hmn Hle Hmx) as (v & -> & Hv). done.
  - apply list_elem_of_singleton in Hct. injection Hct as -> ->. lia.
  - cbn in Hct. rewrite !elem_of_cons in Hct. destruct Hct as [[= -> ->]|[[= -> ->]|[[= -> ->]|Hct]]]; [lia|lia|lia|by apply elem_of_nil in Hct].
Qed.
Lemma mid_values_ok x y : mapM (mid_value fmt bias t) (extremes fmt (window ksize img x y)) = Ok (mid_of fmt bias <$> extremes fmt (window ksize img x y)) ∧
  Forall2 (λ v m, 0 ≤ v ≤ m) (mid_of fmt bias <$> extremes fmt (window ksize img x y)) (channel_max fmt).
Proof using Hok Ho Hk Hbias Ht.
  unfold extremes. pose proof (window_ok ksize img x y Hok) as HP. fold fmt in HP.
  assert (window ksize img x y ≠ []) as Hne by (intros E; pose proof (window_length ksize Hk img x y) as Hl; rewrite E in Hl; cbn in Hl; unfold window_size, kernel_len in Hl; lia).
  assert (Hc : Forall2 (λ c top, mid_value fmt bias t (minZ top (c <$> window ksize img x y), maxZ (c <$> window ksize img x y)) =
      Ok (mid_of fmt bias (minZ top (c <$> window ksize img x y), maxZ (c <$> window ksize img x y))) ∧
      0 ≤ mid_of fmt bias (minZ top (c <$> window ksize img x y), maxZ (c <$> window ksize img x y)) ≤ top) (channels fmt) (channel_max fmt)).
  { apply Forall2_same_length_lookup_2; [by destruct fmt|]. intros i c top Hci Hti.
    assert (Forall (λ v, 0 ≤ v ≤ top) (c <$> window ksize img x y)) as Hv.
    { apply Forall_fmap, Forall_forall. intros p Hp. rewrite Forall_forall in HP. exact (Forall2_lookup_lr _ _ _ _ _ _ (channel_range fmt p Ho (HP p Hp)) Hci Hti). }
    assert (0 ≤ top) as Htop by (destruct (window ksize img x y) as [|p P]; [done|]; inversion_clear Hv; lia).
    apply (mid_value_ok c); [apply list_elem_of_lookup; exists i; by rewrite lookup_zip_with, Hci, Hti|by apply minZ_range| |by apply maxZ_range].
    apply min_max_le. intros E. by apply fmap_nil_inv in E. }
  clear HP Hne. induction Hc as [|c top cs tops [Hh Hr] _ [IH1 IH2]]; [done|]. cbn [zip_with mapM]. rewrite Hh. cbn [mbind res_bind]. rewrite IH1. split; [done|]. rewrite fmap_cons. by constructor.
Qed.
(** What a pixel becomes *)
Definition midpoint_at (x y : Z) : Z :=
  thresholded fmt threshold offset invert (compose fmt (mid_of fmt bias <$> extremes fmt (window ksize img x y))) (pixel img x y).
Lemma midpoint_run img1 x y : rows_from img (y - ksize) img1 → 0 ≤ x < img.(img_w) → 0 ≤ y < img.(img_h) → max_seen x y →
  midpoint_compute ksize bias t threshold offset invert img1 x y tt = Ok (tt, midpoint_at x y) ∧ in_width (pixel_bits fmt) (midpoint_at x y).
Proof using Hok Ho Hk Hbias Ht Hoff.
  intros Hr Hx Hy Hm. destruct (mid_values_ok x y) as [E Hv]. pose proof (compose_range fmt _ Ho Hv) as Hw.
  split; [|by apply thresholded_range]. pose proof Hr as (_ & [_ Ef] & Hrows). unfold midpoint_compute. rewrite Ef. fold fmt.
  rewrite window_extremes by done. cbn [mbind res_bind]. rewrite E. cbn [mbind res_bind]. rewrite Hrows by lia. by rewrite threshold_pixel_ok.
Qed.
End midpoint_step.

(** The midpoint filter: with a bias that stays between its ends, and as long as the
    largest value of a window is not only its first one, every pixel that the mask does not
    leave out becomes, channel by channel, the smallest value of the window around it in
    the image that came in plus the biased distance to the largest, or the result of
    comparing that with the pixel; the table is never read outside its 256 entries, nothing
    outside the image is written and both blocks are given back. *)
Theorem imlib_midpoint_filter_spec img ksize bias threshold offset invert mask s bs :
  image_ok img → 0 ≤ ksize → - 2 ^ 30 ≤ offset ≤ 2 ^ 30 → img.(pixfmt) ≠ PIXFORMAT_OTHER → bias_ok img.(pixfmt) bias →
  (∀ x y, 0 ≤ x < img.(img_w) → 0 ≤ y < img.(img_h) → masked_out mask x y = false → max_seen img ksize x y) →
  fb_inv s bs → fb_room [256; buf_size img ksize] (pointer s) →
  filters mask (λ x y v, v = midpoint_at img ksize bias threshold offset invert x y) img bs s
    (imlib_midpoint_filter img ksize bias threshold offset invert mask s).
Proof.
  intros Hok Hk Ho Hf Hbias Hseen Hinv Hroom. unfold imlib_midpoint_filter.
  destruct (table_alloc_run s s bs 256 _ (conj Hinv eq_refl) Hroom) as (t0 & s1 & b1 & -> & Hs1 & Hroom1). cbn [mbind res_bind].
  destruct (fill_bias_run _ bias t0 Hbias) as (t & -> & Ht). cbn [mbind res_bind].
  assert (∀ r1 r : res (image_t * fb_t), match pixfmt img with PIXFORMAT_OTHER => r1 | _ => r end = r) as -> by (intros r1 r; by destruct (pixfmt img)).
  destruct (buf_alloc_run s s1 _ img ksize [] Hs1 Hroom1) as (buf & s2 & b2 & -> & Hb & Hs2 & _). cbn [mbind res_bind].
  destruct (fb_free_run s s2 b2 _ Hs2) as (s3 & F1 & Hs3). destruct (fb_free_run s s3 b1 _ Hs3) as (s4 & F2 & Hs4).
  apply filter_frame with (Inv := λ _ _ _, True) (s' := s4); try done.
  - intros img1 x y [] Hr Hx Hy Hm _. destruct (midpoint_run img ksize bias t threshold offset invert Hok Hf Hk Ho Hbias Ht img1 x y Hr Hx Hy (Hseen x y Hx Hy Hm)) as [E Hw].
    by exists tt, (midpoint_at img ksize bias threshold offset invert x y).
  - intros img'. rewrite F1. cbn [mbind res_bind]. by rewrite F2.
Qed.

(** ** Concrete images *)
Definition half : float := f_of_bits 0x3F000000.
Definition bias_check (bias : float) : bool :=
  forallb (λ i, match bias_entry bias (Z.of_nat i) with Ok v => v <=? Z.of_nat i | _ => false end) (seq 0 256).
Lemma bias_check_ok bias : bias_check bias = true → bias_ok PIXFORMAT_GRAYSCALE bias.
Proof.
  intros H. split; [|done]. unfold bias_check in H. rewrite forallb_forall in H. intros i Hi. specialize (H (Z.to_nat i)). rewrite Z2Nat.id in H by lia.
  destruct (bias_entry bias i) as [v|]; [|by discriminate H; apply in_seq; lia]. exists v. split; [done|]. apply Z.leb_le, H, in_seq. lia.
Qed.
Lemma half_ok : bias_ok PIXFORMAT_GRAYSCALE half.
Proof. apply bias_check_ok. vm_compute. reflexivity. Qed.
(** An image that gets brighter to the right and downwards *)
Definition rising : image_t := Image 4 3 PIXFORMAT_GRAYSCALE (λ i, nth (Z.to_nat i) [10; 20; 30; 40;  11; 21; 31; 41;  12; 22; 32; 242] 0).
Lemma rising_ok : image_ok rising.
Proof. split_and!; [done|done|]. intros q. apply nth_in_width; [|done]. repeat constructor; done. Qed.
Lemma rising_seen x y : 0 ≤ x < 4 → 0 ≤ y < 3 → max_seen rising 1 x y.
Proof.
  intros Hx Hy _ c Hc. apply list_elem_of_singleton in Hc as ->.
  assert (existsb (λ v, hd 0 ((λ p, p) <$> window 1 rising x y) <=? v) (tail ((λ p, p) <$> window 1 rising x y)) = true) as H.
  { assert (∀ k, 0 ≤ k < 4 → k = 0 ∨ k = 1 ∨ k = 2 ∨ k = 3) as Hd by lia.
    destruct (Hd x Hx) as [-> |[-> |[-> | ->]]], (Hd y ltac:(lia)) as [-> |[-> |[-> | ->]]]; try reflexivity; lia. }
  destruct ((λ p, p) <$> window 1 rising x y) as [|v l]; [done|]. apply existsb_exists in H as (w & Hw & Hvw).
  exists w. split; [by apply list_elem_of_In|by apply Z.leb_le].
Qed.
Lemma imlib_midpoint_filter_spec_witness :
  filters None (λ x y v, v = midpoint_at rising 1 half false 0 false x y) rising [] filter_pool
    (imlib_midpoint_filter rising 1 half false 0 false None filter_pool) ∧ midpoint_at rising 1 half false 0 false 3 2 = 136.
Proof.
  split; [|reflexivity].
  apply imlib_midpoint_filter_spec; [apply rising_ok|done|done|done|apply half_ok|intros x y Hx Hy _; by apply rising_seen|apply filter_pool_inv|done].
Defined.
(** In an image that gets darker the table is read before its first entry. *)
Lemma midpoint_of_falling : imlib_midpoint_filter (Image 3 1 PIXFORMAT_GRAYSCALE (λ i, 30 - 10 * i)) 0 half false 0 false None filter_pool = Fault FUB.
Proof. vm_compute. reflexivity. Qed.
