(* ===== verification/FloodFill.v ===== *)
(** * Flood fill (imlib_flood_fill_int of libraries/imlib/src/blob.c)

    A scan-line fill: a stretch of a row is marked, then the rows above and below it are
    searched for pixels from which to go on; what is left of the search waits on a stack
    ([Collections.lifo_t]) that takes all the memory the frame-buffer allocator has
    ([FbAlloc]).  The three cases of the [switch] are the same code with the macros of
    the pixel format. *)

From S2P Require Import Prelude FbAlloc Collections Imlib.

(** [xylr_t]: six [int16_t], and their bytes in the stack *)
Record xylr_t := Xylr { cx : Z; cy : Z; cl : Z; cr : Z; ct_l : Z; cb_l : Z }.
Definition int16_bytes (v : Z) : list Z := [u8 v; u8 (v / 256)].
Definition int16_of (b0 b1 : Z) : Z := let v := b0 + 256 * b1 in if v <? 2 ^ 15 then v else v - 2 ^ 16.
Definition xylr_size : Z := 12.
Definition xylr_bytes (c : xylr_t) : list Z :=
  int16_bytes c.(cx) ++ int16_bytes c.(cy) ++ int16_bytes c.(cl) ++ int16_bytes c.(cr) ++ int16_bytes c.(ct_l) ++ int16_bytes c.(cb_l).
Definition bytes_xylr (bs : list Z) : xylr_t :=
  let f i := int16_of (nth (2 * i) bs 0) (nth (2 * i + 1) bs 0) in Xylr (f 0%nat) (f 1%nat) (f 2%nat) (f 3%nat) (f 4%nat) (f 5%nat).

(** ** The fill *)
(** A stretch of a row: [y], [left], [right]; what the callback gets. *)
Definition stretch : Type := Z * Z * Z.
Definition range (a b : Z) : list Z := seqZ a (b - a + 1).
Section fill.
Context (img : image_t) (seed_pixel seed_threshold floating_threshold : Z).
(** Is pixel [i] of row [y'] unmarked and near enough to the seed and to pixel [j] of row [y]? *)
Definition admits (out : Z → Z) (y' i y j : Z) : bool :=
  (IMAGE_GET_BINARY_PIXEL_FAST out (IMAGE_COMPUTE_BINARY_PIXEL_ROW_PTR img y') i =? 0) &&
  COLOR_BOUND img.(pixfmt) (get_pixel_fast img (row_ptr img y') i) seed_pixel seed_threshold &&
  COLOR_BOUND img.(pixfmt) (get_pixel_fast img (row_ptr img y') i) (get_pixel_fast img (row_ptr img y) j) floating_threshold.
(** The two [while] loops; [n] passes are enough to reach the border. *)
Fixpoint go_left (out : Z → Z) (y : Z) (n : nat) (left : Z) : Z :=
  match n with
  | O => left
  | S n => if (0 <? left) && admits out y (left - 1) y left then go_left out y n (left - 1) else left
  end.
Fixpoint go_right (out : Z → Z) (y : Z) (n : nat) (right : Z) : Z :=
  match n with
  | O => right
  | S n => if (right <? img.(img_w) - 1) && admits out y (right + 1) y right then go_right out y n (right + 1) else right
  end.
Definition set_stretch (y left right : Z) (out : Z → Z) : Z → Z :=
  foldl (λ d i, IMAGE_SET_BINARY_PIXEL_FAST (IMAGE_COMPUTE_BINARY_PIXEL_ROW_PTR img y) i d) out (range left right).
(** The search above and below; the pixel to go on from and the context to come back to *)
Definition scan (out : Z → Z) (lifo : lifo_t) (lifo_len : Z) (c : xylr_t) : option (Z * Z * xylr_t) :=
  if lifo_size lifo <? lifo_len then
    match (if 0 <? c.(cy) then find (λ i, admits out (c.(cy) - 1) i c.(cy) i) (range c.(ct_l) c.(cr)) else None) with
    | Some i => Some (i, c.(cy) - 1, Xylr c.(cx) c.(cy) c.(cl) c.(cr) (i + 1) c.(cb_l))
    | None =>
        match (if c.(cy) <? img.(img_h) - 1 then find (λ i, admits out (c.(cy) + 1) i c.(cy) i) (range c.(cb_l) c.(cr)) else None) with
        | Some i => Some (i, c.(cy) + 1, Xylr c.(cx) c.(cy) c.(cl) c.(cr) c.(ct_l) (i + 1))
        | None => None
        end
    end
  else None.
(** The inner [for(;;)]: until a pixel is found or the stack is empty *)
Fixpoint resume (fuel : nat) (out : Z → Z) (lifo_len : Z) (c : xylr_t) (lifo : lifo_t) (cb : list stretch)
  : res (option (Z * Z) * lifo_t * list stretch) :=
  match scan out lifo lifo_len c with
  | Some (x', y', context) => Ok (Some (x', y'), lifo_enqueue lifo (xylr_bytes context), cb)
  | None =>
      let cb := cb ++ [(c.(cy), c.(cl), c.(cr))] in
      if lifo_size lifo =? 0 then Ok (None, lifo, cb) else
      let '(context, lifo) := lifo_dequeue lifo in
      match fuel with
      | O => Fault FFuel
      | S fuel => resume fuel out lifo_len (bytes_xylr context) lifo cb
      end
  end.
(** The outer [for(;;)] *)
Fixpoint fill_loop (pops fuel : nat) (lifo_len x y : Z) (out : Z → Z) (lifo : lifo_t) (cb : list stretch)
  : res ((Z → Z) * list stretch) :=
  match fuel with
  | O => Fault FFuel
  | S fuel =>
      let left := go_left out y (Z.to_nat x) x in
      let right := go_right out y (Z.to_nat (img.(img_w) - 1 - x)) x in
      let out := set_stretch y left right out in
      '(next, lifo, cb) ← resume pops out lifo_len (Xylr x y left right left left) lifo cb;
      match next with
      | None => Ok (out, cb)
      | Some (x, y) => fill_loop pops fuel lifo_len x y out lifo cb
      end
  end.
End fill.

(** The stack takes what memory there is; its bytes are what the pool holds. *)
Definition lifo_alloc_all (data_len : Z) (s : fb_t) : res (lifo_t * bool * fb_t) :=
  '(p, tmp_size, s) ← fb_alloc_all 0 s;
  let base := default 0 p in
  Ok (Lifo 0 (tmp_size / data_len) data_len (λ q, u8 (Z.shiftr (s.(mem) (base + q / 4 * 4)) (8 * (q mod 4)))), bool_decide (is_Some p), s).
Definition lifo_free (allocated : bool) (s : fb_t) : res fb_t := if allocated then fb_free s else Ok s.
(** [out] is a binary image of the size of [img]; the calls of the callback are listed. *)
Definition imlib_flood_fill_int (fuel : nat) (out : Z → Z) (img : image_t) (x y seed_threshold floating_threshold : Z)
    (s : fb_t) : res ((Z → Z) * list stretch * fb_t) :=
  '(lifo, allocated, s) ← lifo_alloc_all xylr_size s;
  '(out, cb) ← match img.(pixfmt) with
               | PIXFORMAT_OTHER => Ok (out, [])
               | _ => fill_loop img (get_pixel_fast img (row_ptr img y) x) seed_threshold floating_threshold
                        fuel fuel lifo.(l_size) x y out lifo []
               end;
  s ← lifo_free allocated s;
  Ok (out, cb, s).

(** ** Contexts survive the stack *)
Definition int16 (v : Z) : Prop := - 2 ^ 15 ≤ v < 2 ^ 15.
Lemma int16_roundtrip v : int16 v → int16_of (u8 v) (u8 (v / 256)) = v.
Proof.
  unfold int16, int16_of, wrap. intros Hv. change (2 ^ 8) with 256. change (2 ^ 15) with 32768 in *. change (2 ^ 16) with 65536.
  destruct (Z.ltb_spec (v mod 256 + 256 * ((v / 256) mod 256)) 32768); Z.div_mod_to_equations; lia.
Qed.
Definition ctx_int16 (c : xylr_t) : Prop :=
  int16 c.(cx) ∧ int16 c.(cy) ∧ int16 c.(cl) ∧ int16 c.(cr) ∧ int16 c.(ct_l) ∧ int16 c.(cb_l).
Lemma xylr_roundtrip c : ctx_int16 c → bytes_xylr (xylr_bytes c) = c.
Proof.
  destruct c. intros (? & ? & ? & ? & ? & ?). cbn in *. unfold bytes_xylr, xylr_bytes, int16_bytes. cbn.
  by rewrite !int16_roundtrip.
Qed.
(** The stack as the list of contexts in it, the next one last *)
Definition stack (lifo : lifo_t) (S : list xylr_t) : Prop :=
  l_data_len lifo = xylr_size ∧ lifo_inv lifo (xylr_bytes <$> S) ∧ Forall ctx_int16 S.
Lemma stack_size lifo S : stack lifo S → lifo_size lifo = Z.of_nat (length S).
Proof. intros (_ & [] & _). unfold lifo_size. by rewrite li_len, length_fmap. Qed.
Lemma stack_push lifo S c : stack lifo S → ctx_int16 c → lifo_size lifo < l_size lifo →
  stack (lifo_enqueue lifo (xylr_bytes c)) (S ++ [c]) ∧ l_size (lifo_enqueue lifo (xylr_bytes c)) = l_size lifo.
Proof.
  intros (Hd & Hi & HS) Hc Hsz. destruct (lifo_refines lifo _ (xylr_bytes c) Hi) as (_ & _ & Hp & _); [by rewrite Hd|].
  destruct Hp as [Hp _].
  { unfold lifo_is_not_full. apply negb_true_iff, Z.eqb_neq. unfold lifo_size in Hsz. lia. }
  split; [|done]. split; [done|]. rewrite fmap_app. split; [exact Hp|]. apply Forall_app. split; [exact HS|by constructor].
Qed.
Lemma stack_pop lifo S c : stack lifo (S ++ [c]) →
  bytes_xylr (fst (lifo_dequeue lifo)) = c ∧ stack (snd (lifo_dequeue lifo)) S ∧ l_size (snd (lifo_dequeue lifo)) = l_size lifo.
Proof.
  intros (Hd & Hi & HS). destruct (lifo_refines lifo _ (xylr_bytes c) Hi) as (_ & _ & _ & Hp); [by rewrite Hd|].
  apply Forall_app in HS as [HS Hc]. apply Forall_cons_1 in Hc as [Hc _].
  destruct (Hp (xylr_bytes <$> S) (xylr_bytes c)) as (_ & E & Hs); [by rewrite fmap_app|].
  split; [rewrite E; by apply xylr_roundtrip|]. split; [|done]. split; [done|]. by split.
Qed.

(** ** Marks *)
Definition cell : Type := Z * Z.
Definition cells_of (s : stretch) : list cell := let '(y, a, b) := s in (λ i, (i, y)) <$> range a b.
Definition all_cells (segs : list stretch) : list cell := segs ≫= cells_of.
Lemma elem_of_range i a b : i ∈ range a b ↔ a ≤ i ≤ b.
Proof. unfold range. rewrite elem_of_seqZ. lia. Qed.
Lemma elem_of_cells p y a b : p ∈ cells_of (y, a, b) ↔ p.2 = y ∧ a ≤ p.1 ≤ b.
Proof.
  unfold cells_of. rewrite list_elem_of_fmap. split.
  - intros (i & -> & Hi%elem_of_range). done.
  - destruct p as [i y']. cbn. intros [-> Hi]. exists i. by rewrite elem_of_range.
Qed.
Lemma elem_of_all_cells p segs : p ∈ all_cells segs ↔ ∃ s, s ∈ segs ∧ p ∈ cells_of s.
Proof. unfold all_cells. rewrite list_elem_of_bind. naive_solver. Qed.
Lemma NoDup_cells s : NoDup (cells_of s).
Proof. destruct s as [[y a] b]. unfold cells_of. apply NoDup_fmap; [intros ?? [=]; done|]. apply NoDup_seqZ. Qed.

(** Pixel [x] of row [y] is a bit of its own. *)
Definition marked_in (img : image_t) (d : Z → Z) (p : cell) : bool :=
  negb (IMAGE_GET_BINARY_PIXEL_FAST d (IMAGE_COMPUTE_BINARY_PIXEL_ROW_PTR img p.2) p.1 =? 0).
Definition inside (img : image_t) (p : cell) : Prop := 0 ≤ p.1 < img.(img_w) ∧ 0 ≤ p.2 < img.(img_h).
Definition word_of (img : image_t) (p : cell) : Z := (img.(img_w) + 31) / 32 * p.2 + p.1 / 32.
Lemma marked_testbit img d p : marked_in img d p = Z.testbit (d (word_of img p)) (p.1 mod 32).
Proof.
  unfold marked_in, IMAGE_GET_BINARY_PIXEL_FAST, IMAGE_COMPUTE_BINARY_PIXEL_ROW_PTR, word_of.
  rewrite land_1_testbit, !shiftr_word, land_word. pose proof (Z.mod_pos_bound p.1 32 ltac:(lia)).
  by rewrite Z.shiftr_spec, Z.add_0_l by lia.
Qed.
Lemma word_inj img p q : inside img p → inside img q → word_of img p = word_of img q → p.1 mod 32 = q.1 mod 32 → p = q.
Proof.
  intros [Hpx Hpy] [Hqx Hqy]. unfold word_of. set (n := (img_w img + 31) / 32). destruct p as [a b], q as [a' b']. cbn in *.
  intros Hw Hm. assert (a / 32 < n) by (unfold n; Z.div_mod_to_equations; lia).
  assert (a' / 32 < n) by (unfold n; Z.div_mod_to_equations; lia).
  assert (0 ≤ a / 32 ∧ 0 ≤ a' / 32) as [? ?] by (split; apply Z.div_pos; lia).
  assert (b = b') by nia. subst b'. assert (a / 32 = a' / 32) by lia.
  f_equal. rewrite (Z.div_mod a 32), (Z.div_mod a' 32) by lia. lia.
Qed.
Lemma marked_set img d p q : inside img p → inside img q →
  marked_in img (IMAGE_SET_BINARY_PIXEL_FAST (IMAGE_COMPUTE_BINARY_PIXEL_ROW_PTR img p.2) p.1 d) q =
  bool_decide (q = p) || marked_in img d q.
Proof.
  intros Hp Hq. rewrite !marked_testbit. unfold IMAGE_SET_BINARY_PIXEL_FAST. rewrite shiftr_word, land_word.
  assert (IMAGE_COMPUTE_BINARY_PIXEL_ROW_PTR img p.2 + p.1 / 32 = word_of img p) as ->.
  { unfold IMAGE_COMPUTE_BINARY_PIXEL_ROW_PTR, word_of. by rewrite shiftr_word. }
  pose proof (Z.mod_pos_bound p.1 32 ltac:(lia)). pose proof (Z.mod_pos_bound q.1 32 ltac:(lia)).
  destruct (decide (word_of img q = word_of img p)) as [E|E].
  - rewrite E, fn_lookup_insert, wrap_testbit by lia. rewrite bool_decide_eq_true_2 by lia. cbn [andb].
    change (Z.lor (d (word_of img p)) (Z.shiftl 1 (p.1 mod 32))) with (set_bit_at (p.1 mod 32) (d (word_of img p))).
    rewrite set_bit_at_testbit by lia. f_equal. apply bool_decide_ext. split; [|by intros ->].
    intros Hm. symmetry. by apply (word_inj img).
  - rewrite fn_lookup_insert_ne by done. rewrite bool_decide_eq_false_2; [done|]. by intros ->.
Qed.
Lemma marked_stretch img d y a b q : 0 ≤ a → b < img.(img_w) → 0 ≤ y < img.(img_h) → inside img q →
  marked_in img (set_stretch img y a b d) q = bool_decide (q ∈ cells_of (y, a, b)) || marked_in img d q.
Proof.
  intros Ha Hb Hy Hq. unfold set_stretch, cells_of.
  assert (Hr : Forall (λ i, 0 ≤ i < img.(img_w)) (range a b)) by (apply Forall_forall; intros i Hi%elem_of_range; lia).
  revert d. induction Hr as [|i js Hi _ IH]; intros d; cbn [foldl fmap list_fmap]; [done|].
  rewrite IH. etrans; [apply (f_equal (orb _)), (marked_set img d (i, y) q); done|]. rewrite (bool_decide_ext (q ∈ (i, y) :: _) (q ∈ (λ i, (i, y)) <$> js ∨ q = (i, y)))
    by (rewrite elem_of_cons; naive_solver).
  by rewrite bool_decide_or, <-orb_assoc.
Qed.

(** ** What is to be filled *)
Definition pix (img : image_t) (p : cell) : Z := get_pixel_fast img (row_ptr img p.2) p.1.
Definition seg_of (c : xylr_t) : stretch := (c.(cy), c.(cl), c.(cr)).
Definition adjacent (p q : cell) : Prop := p.2 = q.2 ∧ Z.abs (p.1 - q.1) = 1 ∨ p.1 = q.1 ∧ Z.abs (p.2 - q.2) = 1.
Section region.
Context (img : image_t) (seed_threshold floating_threshold : Z) (out0 : Z → Z) (seed : cell).
(** From a filled pixel the fill goes on to a neighbour that was not marked, is near
    enough to the seed, and near enough to the pixel it comes from. *)
Definition grows (p q : cell) : Prop :=
  adjacent p q ∧ inside img q ∧ marked_in img out0 q = false ∧
  COLOR_BOUND img.(pixfmt) (pix img q) (pix img seed) seed_threshold = true ∧
  COLOR_BOUND img.(pixfmt) (pix img q) (pix img p) floating_threshold = true.
Definition region : cell → Prop := rtc grows seed.
End region.

(** ** The invariant *)
Section correct.
Context (img : image_t) (st ft : Z) (out0 : Z → Z) (seed : cell) (full : Prop).
Hypothesis Hw : 0 < img.(img_w) < 2 ^ 15.
Hypothesis Hh : 0 < img.(img_h) < 2 ^ 15.
#[local] Notation goes := (grows img st ft out0 seed).
#[local] Notation admit_ := (admits img (pix img seed) st ft).

Definition unit_ok (c : xylr_t) : Prop :=
  0 ≤ c.(cx) < img.(img_w) ∧ 0 ≤ c.(cy) < img.(img_h) ∧ 0 ≤ c.(cl) ∧ c.(cl) ≤ c.(cr) < img.(img_w) ∧
  c.(cl) ≤ c.(ct_l) ≤ c.(cr) + 1 ∧ c.(cl) ≤ c.(cb_l) ≤ c.(cr) + 1.
(** [q] is among the pixels that [c] still has to look at from [p]. *)
Definition pending (c : xylr_t) (p q : cell) : Prop :=
  p.2 = c.(cy) ∧ p.1 = q.1 ∧ q.1 ≤ c.(cr) ∧ (q.2 = c.(cy) - 1 ∧ c.(ct_l) ≤ q.1 ∨ q.2 = c.(cy) + 1 ∧ c.(cb_l) ≤ q.1).
Record inv (out : Z → Z) (segs : list stretch) (units : list xylr_t) (tgt : option cell) : Prop := {
  i_marks : ∀ q, inside img q → marked_in img out q = marked_in img out0 q || bool_decide (q ∈ all_cells segs);
  i_nodup : NoDup (all_cells segs);
  i_segs : ∀ q, q ∈ all_cells segs → region img st ft out0 seed q ∧ inside img q;
  i_nonempty : Forall (λ s, cells_of s ≠ []) segs;
  i_units : Forall unit_ok units;
  i_tgt : ∀ q, tgt = Some q → region img st ft out0 seed q ∧ inside img q ∧ q ∉ all_cells segs;
  i_seed : seed ∈ all_cells segs ∨ tgt = Some seed;
  i_full : full → ∀ p q, p ∈ all_cells segs → goes p q →
    q ∈ all_cells segs ∨ tgt = Some q ∨ ∃ c, c ∈ units ∧ pending c p q
}.
Lemma all_cells_perm segs segs' : segs ≡ₚ segs' → all_cells segs ≡ₚ all_cells segs'.
Proof. unfold all_cells. by intros ->. Qed.
Lemma inv_perm out segs segs' units tgt : segs ≡ₚ segs' → inv out segs units tgt → inv out segs' units tgt.
Proof.
  intros Hp [H1 H2 H3 H4 H5 H6 H7 H8]. pose proof (all_cells_perm _ _ Hp) as Hc.
  assert (He : ∀ q, q ∈ all_cells segs ↔ q ∈ all_cells segs') by (intros q; by rewrite Hc).
  split; try done.
  - intros q Hq. rewrite H1 by done. by rewrite (bool_decide_ext _ _ (He q)).
  - by rewrite <-Hc.
  - intros q. rewrite <-He. apply H3.
  - by rewrite <-Hp.
  - intros q Hq. rewrite <-He. by apply H6.
  - by rewrite <-He.
  - intros Hf p q. rewrite <-!He. by apply H8.
Qed.

(** Trying a neighbour *)
Lemma admits_grows out segs units tgt p q : inv out segs units tgt → inside img q → adjacent p q →
  admit_ out q.2 q.1 p.2 p.1 = true → goes p q ∧ q ∉ all_cells segs.
Proof.
  intros Hi Hq Ha. unfold admit_, admits. rewrite !andb_true_iff. intros [[Hm Hs] Hf].
  assert (marked_in img out q = false) as Hu by (unfold marked_in; by rewrite Hm).
  rewrite (i_marks _ _ _ _ Hi) in Hu by done. apply orb_false_iff in Hu as [Hu Hn]. by apply bool_decide_eq_false in Hn.
Qed.
Lemma grows_tried out segs units tgt p q : inv out segs units tgt → goes p q →
  admit_ out q.2 q.1 p.2 p.1 = false → q ∈ all_cells segs.
Proof.
  intros Hi (_ & Hq & Hm & Hs & Hf). unfold admit_, admits, pix in *. rewrite Hs, Hf, !andb_true_r.
  intros Hu. pose proof (i_marks _ _ _ _ Hi q Hq) as E. unfold marked_in at 1 in E. rewrite Hu, Hm in E.
  symmetry in E. by apply bool_decide_eq_true in E.
Qed.

(** ** Going left and right *)
Lemma go_left_spec out y n left : Z.of_nat n = left →
  let l := go_left img (pix img seed) st ft out y n left in
  0 ≤ l ≤ left ∧ (∀ i, l ≤ i < left → admit_ out y i y (i + 1) = true) ∧ (0 < l → admit_ out y (l - 1) y l = false).
Proof.
  revert left. induction n as [|n IH]; intros left Hn; cbn [go_left]; [split_and!; [lia|lia|intros; lia|lia]|].
  destruct (Z.ltb_spec 0 left); [|lia]. cbn [andb].
  destruct (admits img (pix img seed) st ft out y (left - 1) y left) eqn:E; [|split_and!; [lia|lia|intros; lia|done]].
  destruct (IH (left - 1)) as (Hl & Ha & Hs); [lia|]. split; [lia|]. split; [|done]. intros i Hi.
  destruct (decide (i = left - 1)) as [->|]; [by replace (left - 1 + 1) with left by lia|apply Ha; lia].
Qed.
Lemma go_right_spec out y n right : Z.of_nat n = img.(img_w) - 1 - right →
  let r := go_right img (pix img seed) st ft out y n right in
  right ≤ r ≤ img.(img_w) - 1 ∧ (∀ i, right < i ≤ r → admit_ out y i y (i - 1) = true) ∧
  (r < img.(img_w) - 1 → admit_ out y (r + 1) y r = false).
Proof.
  revert right. induction n as [|n IH]; intros right Hn; cbn [go_right]; [split_and!; [lia|lia|intros; lia|lia]|].
  destruct (Z.ltb_spec right (img_w img - 1)); [|lia]. cbn [andb].
  destruct (admits img (pix img seed) st ft out y (right + 1) y right) eqn:E; [|split_and!; [lia|lia|intros; lia|done]].
  destruct (IH (right + 1)) as (Hl & Ha & Hs); [lia|]. split; [lia|]. split; [|done]. intros i Hi.
  destruct (decide (i = right + 1)) as [->|]; [by replace (right + 1 - 1) with right by lia|apply Ha; lia].
Qed.

(** Every pixel of the new stretch grows out of the pixel it starts from. *)
Lemma stretch_left out segs units y x l : inv out segs units (Some (x, y)) → 0 ≤ l →
  (∀ i, l ≤ i < x → admit_ out y i y (i + 1) = true) → ∀ i, l ≤ i ≤ x →
  region img st ft out0 seed (i, y) ∧ inside img (i, y) ∧ (i, y) ∉ all_cells segs.
Proof.
  intros Hi Hl Ha i Hx. destruct (i_tgt _ _ _ _ Hi (x, y) eq_refl) as (Hr & [Hin Hin'] & Hn). cbn in Hin, Hin'.
  remember (Z.to_nat (x - i)) as k eqn:Hk. revert i Hk Hx. induction k as [|k IH]; intros i Hk Hx.
  - by replace i with x by lia.
  - destruct (IH (i + 1)) as (Hr' & _ & _); [lia|lia|].
    destruct (admits_grows _ _ _ _ (i + 1, y) (i, y) Hi) as [Hg Hn']; [split; cbn; lia|left; cbn; lia|apply Ha; cbn; lia|].
    split; [by apply rtc_r with (i + 1, y)|]. split; [split; cbn; lia|done].
Qed.
Lemma stretch_right out segs units y x r : inv out segs units (Some (x, y)) → r ≤ img.(img_w) - 1 →
  (∀ i, x < i ≤ r → admit_ out y i y (i - 1) = true) → ∀ i, x ≤ i ≤ r →
  region img st ft out0 seed (i, y) ∧ inside img (i, y) ∧ (i, y) ∉ all_cells segs.
Proof.
  intros Hi Hl Ha i Hx. destruct (i_tgt _ _ _ _ Hi (x, y) eq_refl) as (Hr & [Hin Hin'] & Hn). cbn in Hin, Hin'.
  remember (Z.to_nat (i - x)) as k eqn:Hk. revert i Hk Hx. induction k as [|k IH]; intros i Hk Hx.
  - by replace i with x by lia.
  - destruct (IH (i - 1)) as (Hr' & _ & _); [lia|lia|].
    destruct (admits_grows _ _ _ _ (i - 1, y) (i, y) Hi) as [Hg Hn']; [split; cbn; lia|left; cbn; lia|apply Ha; cbn; lia|].
    split; [by apply rtc_r with (i - 1, y)|]. split; [split; cbn; lia|done].
Qed.

(** Adding a stretch that is maximal *)
Lemma inv_stretch out segs units x y l r : inv out segs units (Some (x, y)) → 0 ≤ l ≤ x → x ≤ r ≤ img.(img_w) - 1 →
  (∀ i, l ≤ i ≤ r → region img st ft out0 seed (i, y) ∧ inside img (i, y) ∧ (i, y) ∉ all_cells segs) →
  (0 < l → admit_ out y (l - 1) y l = false) → (r < img.(img_w) - 1 → admit_ out y (r + 1) y r = false) →
  inv (set_stretch img y l r out) ((y, l, r) :: segs) (Xylr x y l r l l :: units) None.
Proof.
  intros Hi Hl Hr Hnew Hleft Hright. destruct (i_tgt _ _ _ _ Hi (x, y) eq_refl) as (_ & [Hx Hy] & _). cbn in Hx, Hy.
  assert (Hmem : ∀ q, q ∈ all_cells ((y, l, r) :: segs) ↔ (q.2 = y ∧ l ≤ q.1 ≤ r) ∨ q ∈ all_cells segs).
  { intros q. unfold all_cells. rewrite bind_cons, elem_of_app, elem_of_cells. done. }
  split; try done.
  - intros q Hq. rewrite marked_stretch, (i_marks _ _ _ _ Hi) by (done || lia).
    rewrite (bool_decide_ext _ _ (Hmem q)), bool_decide_or, (bool_decide_ext _ _ (elem_of_cells q y l r)).
    rewrite !orb_assoc. f_equal. apply orb_comm.
  - unfold all_cells. rewrite bind_cons. apply NoDup_app. split; [apply NoDup_cells|]. split; [|apply (i_nodup _ _ _ _ Hi)].
    intros [i y'] [[= ->] Hq]%elem_of_cells. by apply Hnew.
  - intros [i y']. rewrite Hmem. intros [[[= ->] Hq]|Hq]; [by destruct (Hnew i Hq) as (? & ? & _)|by apply (i_segs _ _ _ _ Hi)].
  - constructor; [|apply (i_nonempty _ _ _ _ Hi)]. intros E. assert ((x, y) ∈ cells_of (y, l, r)) as Hc by (apply elem_of_cells; cbn; lia).
    rewrite E in Hc. by apply elem_of_nil in Hc.
  - constructor; [|apply (i_units _ _ _ _ Hi)]. unfold unit_ok. cbn. lia.
  - left. apply Hmem. destruct (i_seed _ _ _ _ Hi) as [|Hs]; [by right|]. injection Hs as <-. left. cbn. lia.
  - intros Hf p q. rewrite !Hmem. intros [[Hpy Hpx]|Hp] Hg.
    + destruct p as [j py], q as [i qy]. cbn in Hpy, Hpx. subst py. destruct (Hg) as ([[Hqy Ha]|[Hqx Ha]] & [Hqw Hqh] & _);
        cbn in Hqy, Ha, Hqw, Hqh || cbn in Hqx, Ha, Hqw, Hqh.
      * subst qy. destruct (decide (l ≤ i ≤ r)); [by left; left|]. left; right.
        destruct (decide (i < j)); (apply (grows_tried _ _ _ _ _ _ Hi Hg); cbn).
        -- replace i with (l - 1) by lia. replace j with l by lia. apply Hleft. lia.
        -- replace i with (r + 1) by lia. replace j with r by lia. apply Hright. lia.
      * right; right. exists (Xylr x y l r l l). split; [left|]. unfold pending. cbn. lia.
    + destruct (i_full _ _ _ _ Hi Hf p q Hp Hg) as [|[Ht|(c & Hc & Hpd)]]; [by left; right| |].
      * injection Ht as <-. left; left. cbn. lia.
      * right; right. exists c. by split; [right|].
Qed.

(** ** The search above and below *)
Lemma find_range_some f a b i : find f (range a b) = Some i → a ≤ i ≤ b ∧ f i = true ∧ ∀ j, a ≤ j < i → f j = false.
Proof. intros (Hi & Hf & Hj)%find_seqZ_some. split; [lia|done]. Qed.
Lemma find_range_none f a b j : find f (range a b) = None → a ≤ j ≤ b → f j = false.
Proof. intros H Hj. apply (find_seqZ_none _ _ _ _ H). lia. Qed.

Lemma inv_retarget out segs units units' tgt : inv out segs units None → Forall unit_ok units' →
  (∀ q, tgt = Some q → region img st ft out0 seed q ∧ inside img q ∧ q ∉ all_cells segs) →
  (full → ∀ p q c, goes p q → q ∉ all_cells segs → c ∈ units → pending c p q →
    tgt = Some q ∨ ∃ c', c' ∈ units' ∧ pending c' p q) →
  inv out segs units' tgt.
Proof.
  intros Hi Hu Ht Hp. split; try apply Hi; try done.
  - destruct (i_seed _ _ _ _ Hi); [by left|done].
  - intros Hf p q Hpc Hg. destruct (i_full _ _ _ _ Hi Hf p q Hpc Hg) as [|[|(c & Hc & Hpd)]]; [by left|done|].
    destruct (decide (q ∈ all_cells segs)); [by left|right]. by apply (Hp Hf p q c).
Qed.
Lemma target_ok out segs units p q : inv out segs units None → p ∈ all_cells segs → inside img q → adjacent p q →
  admit_ out q.2 q.1 p.2 p.1 = true → region img st ft out0 seed q ∧ inside img q ∧ q ∉ all_cells segs.
Proof.
  intros Hi Hp Hq Ha Hadm. destruct (admits_grows _ _ _ _ p q Hi Hq Ha Hadm) as [Hg Hn].
  split; [|done]. apply rtc_r with p; [by apply (i_segs _ _ _ _ Hi)|done].
Qed.
Definition look (out : Z → Z) (c : xylr_t) (y' i : Z) : bool := admit_ out y' i c.(cy) i.
Lemma above_tried out segs units c p q : inv out segs (c :: units) None → goes p q → q ∉ all_cells segs → pending c p q →
  (q.2 = c.(cy) - 1 ∧ 0 < c.(cy) ∧ c.(ct_l) ≤ q.1 ≤ c.(cr) ∧ look out c (c.(cy) - 1) q.1 = true) ∨
  (q.2 = c.(cy) + 1 ∧ c.(cy) < img.(img_h) - 1 ∧ c.(cb_l) ≤ q.1 ≤ c.(cr) ∧ look out c (c.(cy) + 1) q.1 = true).
Proof.
  intros Hi Hg Hn (Hpy & Hpx & Hr & Hv). assert (admit_ out q.2 q.1 p.2 p.1 = true) as Hl.
  { destruct (admits img (pix img seed) st ft out q.2 q.1 p.2 p.1) eqn:E; [done|]. by destruct Hn; apply (grows_tried _ _ _ _ p q Hi). }
  rewrite Hpy, Hpx in Hl. destruct Hg as (_ & [_ Hq] & _). unfold look.
  destruct Hv as [[Hy Hx]|[Hy Hx]]; rewrite Hy in *; [left|right]; (split; [done|]); (split; [lia|]); (split; [lia|done]).
Qed.
(** What the search finds becomes the next target; what is left of it waits in the new context. *)
Lemma scan_found out segs units c c' i y' : inv out segs (c :: units) None → seg_of c ∈ segs → unit_ok c' →
  c.(cl) ≤ i ≤ c.(cr) → 0 ≤ y' < img.(img_h) → Z.abs (c.(cy) - y') = 1 → look out c y' i = true →
  (∀ p q, goes p q → q ∉ all_cells segs → pending c p q → q = (i, y') ∨ pending c' p q) →
  inv out segs (c' :: units) (Some (i, y')).
Proof.
  intros Hi Hs Hc' Hx Hy' Hy Hl Hp.
  pose proof (i_units _ _ _ _ Hi) as Hu. apply Forall_cons in Hu as [(_ & _ & Hcl & Hcr & _) Hu].
  apply (inv_retarget _ _ (c :: units)); [done|by constructor| |].
  - intros q [= <-]. apply (target_ok _ _ _ (i, c.(cy)) _ Hi).
    + apply elem_of_all_cells. exists (seg_of c). split; [done|]. apply elem_of_cells. done.
    + split; cbn; lia.
    + right. cbn. lia.
    + exact Hl.
  - intros _ p q d Hg Hn Hd Hpd. apply elem_of_cons in Hd as [->|Hd].
    + destruct (Hp p q Hg Hn Hpd) as [->|]; [by left|right]. exists c'. by split; [left|].
    + right. exists d. by split; [right|].
Qed.
Lemma scan_some out segs units c lifo lifo_len x' y' c' : inv out segs (c :: units) None → seg_of c ∈ segs →
  scan img (pix img seed) st ft out lifo lifo_len c = Some (x', y', c') →
  lifo_size lifo < lifo_len ∧ seg_of c' = seg_of c ∧ unit_ok c' ∧ inv out segs (c' :: units) (Some (x', y')).
Proof.
  intros Hi Hs. unfold scan. destruct (Z.ltb_spec (lifo_size lifo) lifo_len) as [Hsz|]; [|done].
  pose proof (i_units _ _ _ _ Hi) as Hu. apply Forall_cons in Hu as [Hu _].
  destruct (Hu) as (Hcx & Hcy & Hcl & Hcr & Hct & Hcb).
  case_match eqn:Habove.
  - intros [= <- <- <-]. destruct (Z.ltb_spec 0 c.(cy)); [|done]. apply find_range_some in Habove as (Hz & Hf & Hj).
    split; [done|]. split; [done|]. assert (unit_ok (Xylr c.(cx) c.(cy) c.(cl) c.(cr) (z + 1) c.(cb_l))) as Hok
      by (split_and!; cbn; lia).
    split; [done|]. apply (scan_found _ _ _ c); try done; try lia. intros p q Hg Hn Hpd.
    destruct (above_tried _ _ _ _ _ _ Hi Hg Hn Hpd) as [(Hqy & _ & Hqx & Hl)|(Hqy & _ & Hqx & Hl)];
      destruct Hpd as (Hpy & Hpx & Hr & Hv); [|right; unfold pending; cbn; lia].
    destruct (Z.lt_trichotomy q.1 z) as [|[E|]]; [|by left; apply injective_projections|right; unfold pending; cbn; lia].
    specialize (Hj q.1 ltac:(lia)). unfold look in Hl. cbn in Hj. congruence.
  - match goal with |- match ?e with _ => _ end = _ → _ => destruct e as [z|] eqn:Hbelow end; [|done]. intros [= <- <- <-].
    destruct (Z.ltb_spec c.(cy) (img.(img_h) - 1)); [|done]. apply find_range_some in Hbelow as (Hz & Hf & Hj).
    split; [done|]. split; [done|]. assert (unit_ok (Xylr c.(cx) c.(cy) c.(cl) c.(cr) c.(ct_l) (z + 1))) as Hok
      by (split_and!; cbn; lia).
    split; [done|]. apply (scan_found _ _ _ c); try done; try lia. intros p q Hg Hn Hpd.
    destruct (above_tried _ _ _ _ _ _ Hi Hg Hn Hpd) as [(Hqy & Hy & Hqx & Hl)|(Hqy & _ & Hqx & Hl)];
      destruct Hpd as (Hpy & Hpx & Hr & Hv); [right; unfold pending; cbn; lia|].
    destruct (Z.lt_trichotomy q.1 z) as [|[E|]]; [|by left; apply injective_projections|right; unfold pending; cbn; lia].
    specialize (Hj q.1 ltac:(lia)). unfold look in Hl. cbn in Hj. congruence.
Qed.
Lemma scan_none out segs units c lifo lifo_len : inv out segs (c :: units) None →
  (full → lifo_size lifo < lifo_len) →
  scan img (pix img seed) st ft out lifo lifo_len c = None → inv out segs units None.
Proof.
  intros Hi Hroom Hscan. pose proof (i_units _ _ _ _ Hi) as Hu. apply Forall_cons in Hu as [_ Hu].
  apply (inv_retarget _ _ (c :: units)); [done|done|done|]. intros Hf p q d Hg Hn Hd Hpd.
  apply elem_of_cons in Hd as [->|Hd]; [|right; by exists d].
  unfold scan in Hscan. rewrite (proj2 (Z.ltb_lt _ _)) in Hscan by auto.
  case_match eqn:Habove; [done|]. case_match eqn:Hbelow; [done|].
  destruct (above_tried _ _ _ _ _ _ Hi Hg Hn Hpd) as [(_ & Hy & Hqx & Hl)|(_ & Hy & Hqx & Hl)].
  - rewrite (proj2 (Z.ltb_lt _ _)) in Habove by lia. pose proof (find_range_none _ _ _ _ Habove Hqx) as E.
    unfold look in Hl. cbn in E. congruence.
  - rewrite (proj2 (Z.ltb_lt _ _)) in Hbelow by lia. pose proof (find_range_none _ _ _ _ Hbelow Hqx) as E.
    unfold look in Hl. cbn in E. congruence.
Qed.

(** ** There are no more stretches than pixels *)
Definition area : nat := Z.to_nat (img.(img_w) * img.(img_h)).
Lemma segs_bound out segs units tgt : inv out segs units tgt → (length segs ≤ area)%nat.
Proof.
  intros Hi. trans (length (all_cells segs)).
  - pose proof (i_nonempty _ _ _ _ Hi) as Hn. clear Hi. induction Hn as [|s segs Hs Hn IH]; [done|].
    unfold all_cells in *. rewrite bind_cons, length_app. cbn [length]. destruct (cells_of s); [done|cbn; lia].
  - set (grid := (λ k, (k mod img.(img_w), k / img.(img_w))) <$> seqZ 0 (img.(img_w) * img.(img_h))).
    assert (length grid = area) as <- by (unfold grid; by rewrite length_fmap, length_seqZ).
    apply submseteq_length, NoDup_submseteq; [apply (i_nodup _ _ _ _ Hi)|]. intros [i j] Hq.
    apply (i_segs _ _ _ _ Hi) in Hq as [_ [Hx Hy]]. cbn in *. apply list_elem_of_fmap.
    exists (j * img.(img_w) + i). split; [|apply elem_of_seqZ; nia].
    rewrite Z.add_comm, Z.mod_add, Z.mod_small, Z.div_add, Z.div_small by lia. done.
Qed.
Lemma inv_units_perm out segs units units' tgt : units ≡ₚ units' → inv out segs units tgt → inv out segs units' tgt.
Proof.
  intros Hp Hi. split; try apply Hi.
  - rewrite <-Hp. apply Hi.
  - intros Hf p q Hc Hg. destruct (i_full _ _ _ _ Hi Hf p q Hc Hg) as [|[|(c & Hcu & Hpd)]]; [by left|by right; left|].
    right; right. exists c. by rewrite <-Hp.
Qed.
Lemma unit_int16 c : unit_ok c → ctx_int16 c.
Proof. unfold unit_ok, ctx_int16, int16. lia. Qed.

(** ** The two loops *)
Context (lifo_len : Z).
Hypothesis Hroom : full → img.(img_w) * img.(img_h) ≤ lifo_len.
Lemma resume_push out segs S c c' lifo cb x' y' : stack lifo S → l_size lifo = lifo_len → inv out segs (c :: S) None →
  segs ≡ₚ cb ++ (seg_of <$> c :: S) → scan img (pix img seed) st ft out lifo lifo_len c = Some (x', y', c') →
  ∃ S', stack (lifo_enqueue lifo (xylr_bytes c')) S' ∧ l_size (lifo_enqueue lifo (xylr_bytes c')) = lifo_len ∧
    inv out segs S' (Some (x', y')) ∧ segs ≡ₚ cb ++ (seg_of <$> S').
Proof.
  intros Hst Hsz Hi Hp Hscan.
  assert (seg_of c ∈ segs) as Hc by (rewrite Hp; apply elem_of_app; right; left).
  destruct (scan_some _ _ _ _ _ _ _ _ _ Hi Hc Hscan) as (Hlt & Hseg & Hok & Hi').
  destruct (stack_push lifo S c' Hst) as [Hst' Hsz']; [by apply unit_int16|lia|].
  assert (c' :: S ≡ₚ S ++ [c']) as Hperm by apply Permutation_cons_append.
  exists (S ++ [c']). split; [done|]. split; [by rewrite Hsz'|].
  split; [by apply (inv_units_perm _ _ (c' :: S))|]. rewrite Hp, <-Hperm. by rewrite !fmap_cons, Hseg.
Qed.
Lemma resume_ok pops out segs S c lifo cb : stack lifo S → l_size lifo = lifo_len → inv out segs (c :: S) None →
  segs ≡ₚ cb ++ (seg_of <$> c :: S) → (length S ≤ pops)%nat →
  ∃ next lifo' cb', resume img (pix img seed) st ft pops out lifo_len c lifo cb = Ok (next, lifo', cb') ∧
    match next with
    | None => inv out cb' [] None
    | Some p => ∃ S', stack lifo' S' ∧ l_size lifo' = lifo_len ∧ inv out segs S' (Some p) ∧ segs ≡ₚ cb' ++ (seg_of <$> S')
    end.
Proof.
  revert S c lifo cb. induction pops as [|pops IH]; intros S c lifo cb Hst Hsz Hi Hp Hlen;
    pose proof (segs_bound _ _ _ _ Hi) as Hb; pose proof (stack_size _ _ Hst) as HS; cbn [resume];
    (destruct (scan img (pix img seed) st ft out lifo lifo_len c) as [[[x' y'] c']|] eqn:Hscan;
      [eexists _, _, _; split; [reflexivity|]; by apply (resume_push out segs S c)|]);
    (assert (inv out segs S None) as Hi' by (apply (scan_none _ _ _ _ _ _ Hi) in Hscan; [done|]; intros Hf; specialize (Hroom Hf);
      apply Permutation_length in Hp; rewrite length_app, length_fmap in Hp; cbn [length] in Hp; unfold area in Hb; lia));
    (assert (segs ≡ₚ (cb ++ [seg_of c]) ++ (seg_of <$> S)) as Hp' by (by rewrite <-app_assoc));
    rewrite HS; destruct S as [|c2 S] using rev_ind; rewrite ?length_app; cbn [length].
  all: try (eexists _, _, _; split; [reflexivity|]; rewrite app_nil_r in Hp'; by apply (inv_perm _ segs)).
  - rewrite length_app in Hlen. cbn in Hlen. lia.
  - rewrite (proj2 (Z.eqb_neq _ _)) by lia. destruct (stack_pop _ _ _ Hst) as (Hpop & Hst' & Hsz').
    destruct (lifo_dequeue lifo) as [b lifo'] eqn:Hdq. cbn [fst snd] in *. rewrite Hpop.
    rewrite length_app in Hlen. cbn in Hlen. apply (IH S); [done|by rewrite Hsz'| | |lia].
    + by apply (inv_units_perm _ _ (S ++ [c2])); [symmetry; apply Permutation_cons_append|].
    + rewrite Hp'. by rewrite <-(Permutation_cons_append S c2).
Qed.
Lemma fill_loop_ok pops fuel x y out segs lifo S cb : stack lifo S → l_size lifo = lifo_len →
  inv out segs S (Some (x, y)) → segs ≡ₚ cb ++ (seg_of <$> S) → (area < length segs + fuel)%nat → (area ≤ pops)%nat →
  ∃ out' cb', fill_loop img (pix img seed) st ft pops fuel lifo_len x y out lifo cb = Ok (out', cb') ∧ inv out' cb' [] None.
Proof.
  revert x y out segs lifo S cb. induction fuel as [|fuel IH]; intros x y out segs lifo S cb Hst Hsz Hi Hp Hfuel Hpops.
  { apply segs_bound in Hi. lia. }
  destruct (i_tgt _ _ _ _ Hi (x, y) eq_refl) as (_ & [Hx Hy] & _). cbn in Hx, Hy. cbn [fill_loop].
  destruct (go_left_spec out y (Z.to_nat x) x ltac:(lia)) as (Hl & Hla & Hls).
  destruct (go_right_spec out y (Z.to_nat (img.(img_w) - 1 - x)) x ltac:(lia)) as (Hr & Hra & Hrs).
  set (l := go_left img (pix img seed) st ft out y (Z.to_nat x) x) in *.
  set (r := go_right img (pix img seed) st ft out y (Z.to_nat (img.(img_w) - 1 - x)) x) in *.
  assert (inv (set_stretch img y l r out) ((y, l, r) :: segs) (Xylr x y l r l l :: S) None) as Hi'.
  { apply inv_stretch; try done. intros i Hix. destruct (decide (i ≤ x)).
    - by apply (stretch_left out segs S y x l); [done|lia|done|lia].
    - by apply (stretch_right out segs S y x r); [done|lia|done|lia]. }
  pose proof (segs_bound _ _ _ _ Hi') as Hb'. cbn [length] in Hb'.
  assert ((y, l, r) :: segs ≡ₚ cb ++ (seg_of <$> Xylr x y l r l l :: S)) as Hp'
    by (rewrite Hp; cbn [fmap list_fmap]; apply Permutation_middle).
  destruct (resume_ok pops _ _ S _ lifo cb Hst Hsz Hi' Hp') as (next & lifo' & cb' & Hrun & Hnext).
  { apply Permutation_length in Hp. rewrite length_app, length_fmap in Hp. lia. }
  rewrite Hrun. cbn [mbind res_bind]. destruct next as [[x' y']|]; [|by eexists _, _].
  destruct Hnext as (S' & Hst' & Hsz' & Hi'' & Hp''). apply (IH _ _ _ ((y, l, r) :: segs) _ S'); try done. cbn [length]. lia.
Qed.
End correct.

(** ** The whole fill *)
Lemma inv_start img st ft out seed full : inside img seed → inv img st ft out seed full out [] [] (Some seed).
Proof.
  intros Hs. split; try done.
  - intros q _. cbn. by rewrite orb_false_r.
  - constructor.
  - intros q Hq. by apply elem_of_nil in Hq.
  - intros q [= <-]. split; [apply rtc_refl|]. split; [done|apply not_elem_of_nil].
  - by right.
  - intros _ p q Hp. by apply elem_of_nil in Hp.
Qed.
Lemma inv_region img st ft out0 seed (full : Prop) out cb : full → inv img st ft out0 seed full out cb [] None →
  ∀ q, region img st ft out0 seed q → q ∈ all_cells cb.
Proof.
  intros Hf Hi. assert (∀ p q, rtc (grows img st ft out0 seed) p q → p ∈ all_cells cb → q ∈ all_cells cb) as Hclosed.
  { intros p q Hr. induction Hr as [|p p' q Hg _ IH]; [done|]. intros Hp. apply IH.
    destruct (i_full _ _ _ _ _ _ _ _ _ _ Hi Hf p p' Hp Hg) as [|[|(c & Hc & _)]]; [done|done|by apply elem_of_nil in Hc]. }
  intros q Hq. apply (Hclosed seed q Hq). by destruct (i_seed _ _ _ _ _ _ _ _ _ _ Hi).
Qed.
(** The stack takes all the memory and gives it back. *)
Lemma lifo_alloc_all_run s bs : fb_inv s bs → pointer s ≠ 0 →
  ∃ lifo allocated s1 s2, lifo_alloc_all xylr_size s = Ok (lifo, allocated, s1) ∧ stack lifo [] ∧
    l_size lifo = (pointer s - word) / xylr_size ∧
    lifo_free allocated s1 = Ok s2 ∧ fb_inv s2 bs ∧ pointer s2 = pointer s.
Proof.
  intros Hi Hp. pose proof (fb_avail_spec s bs 0 Hi) as Ha. rewrite (proj2 (Z.eqb_neq _ _) Hp) in Ha.
  destruct Ha as [_ Ha]. assert (∀ n d, 0 ≤ n < 2 ^ 32 → stack (Lifo 0 (n / xylr_size) xylr_size d) []) as Hst.
  { intros n d Hn. split; [done|]. split; [|constructor]. unfold xylr_size.
    split; cbn; [done|done|Z.div_mod_to_equations; lia|constructor|done]. }
  unfold lifo_alloc_all. destruct (Z.eqb_spec (pointer s) word) as [Hw|Hw].
  - rewrite Ha. cbn [mbind res_bind]. eexists _, _, _, _. split; [reflexivity|]. split; [by apply Hst|].
    cbn. rewrite Hw. done.
  - destruct Ha as (r & n & s1 & -> & Hi1 & Hp1 & Hpool & Hn). rewrite (Hn eq_refl). cbn [mbind res_bind].
    destruct (fb_load_top _ _ _ Hi1) as (Hlt & Hload & Hok & Hi2). cbn [b_len] in Hi2.
    eexists _, _, s1, _. split; [reflexivity|]. split; [apply Hst; destruct Hok as [[? ?] _]; cbn in *; unfold word in *; lia|].
    split; [done|]. cbn [lifo_free bool_decide]. split.
    + unfold lifo_free. rewrite bool_decide_eq_true_2 by done. unfold fb_free. rewrite Hlt, Hload. cbn [mbind res_bind].
      by rewrite (b_word_len _ Hok).
    + split; [exact Hi2|]. cbn. lia.
Qed.

(** C30: flood fill of an image of at most 32767 by 32767 pixels, in any format.  With at least a
    word left in the frame-buffer pool, the call returns, gives the pool back as it was, and
    the stretches the callback gets are disjoint, lie in the region that grows out of the seed
    (pixel by pixel, each near enough to the seed and to the one it is reached from, and
    unmarked before), and are what is marked in [out] on top of what was.  When the stack has room
    for as many contexts as the image has pixels, the stretches cover that region. *)
Theorem imlib_flood_fill_int_spec fuel out img x y seed_threshold floating_threshold s bs :
  0 < img.(img_w) < 2 ^ 15 → 0 < img.(img_h) < 2 ^ 15 → inside img (x, y) → img.(pixfmt) ≠ PIXFORMAT_OTHER →
  fb_inv s bs → pointer s ≠ 0 → (area img < fuel)%nat →
  ∃ out' cb s', imlib_flood_fill_int fuel out img x y seed_threshold floating_threshold s = Ok (out', cb, s') ∧
    fb_inv s' bs ∧ pointer s' = pointer s ∧ NoDup (all_cells cb) ∧
    (∀ q, q ∈ all_cells cb → region img seed_threshold floating_threshold out (x, y) q) ∧
    (∀ q, inside img q → marked_in img out' q = marked_in img out q || bool_decide (q ∈ all_cells cb)) ∧
    (img.(img_w) * img.(img_h) ≤ (pointer s - word) / xylr_size →
      ∀ q, region img seed_threshold floating_threshold out (x, y) q → q ∈ all_cells cb).
Proof.
  intros Hw Hh Hs Hf Hi Hp Hfuel. set (st := seed_threshold). set (ft := floating_threshold).
  destruct (lifo_alloc_all_run s bs Hi Hp) as (lifo & allocated & s1 & s2 & Halloc & Hst & Hsz & Hfree & Hi2 & Hp2).
  set (full := img.(img_w) * img.(img_h) ≤ l_size lifo).
  destruct (fill_loop_ok img st ft out (x, y) full Hw Hh (l_size lifo) (λ H, H) fuel fuel x y out [] lifo [] [])
    as (out' & cb & Hrun & Hinv); [done|done|by apply inv_start|done|cbn; lia|lia|].
  exists out', cb, s2. split_and!; try done.
  - unfold imlib_flood_fill_int. rewrite Halloc. cbn [mbind res_bind].
    change (get_pixel_fast img (row_ptr img y) x) with (pix img (x, y)).
    destruct (pixfmt img); try done; rewrite Hrun; cbn [mbind res_bind]; by rewrite Hfree.
  - apply (i_nodup _ _ _ _ _ _ _ _ _ _ Hinv).
  - intros q Hq. by apply (i_segs _ _ _ _ _ _ _ _ _ _ Hinv).
  - apply (i_marks _ _ _ _ _ _ _ _ _ _ Hinv).
  - intros Hroom. apply (inv_region img st ft out (x, y) full out' cb); [unfold full; by rewrite Hsz|exact Hinv].
Qed.
(** Two columns of five joined at the bottom; the seed is at the top of the left one. *)
Definition demo_img : image_t := Image 3 3 PIXFORMAT_GRAYSCALE (λ i, nth (Z.to_nat i) [5; 0; 5; 5; 0; 5; 5; 5; 5] 0).
Lemma imlib_flood_fill_int_spec_witness : ∃ out' cb s',
  imlib_flood_fill_int 10 (λ _, 0) demo_img 0 0 1 1 fb_demo = Ok (out', cb, s') ∧ NoDup (all_cells cb) ∧
  (region demo_img 1 1 (λ _, 0) (0, 0) (2, 0) → (2, 0) ∈ all_cells cb).
Proof.
  destruct (imlib_flood_fill_int_spec 10 (λ _, 0) demo_img 0 0 1 1 fb_demo []) as (out' & cb & s' & Hr & _ & _ & Hn & _ & _ & Hf);
    [done|done|by split|done|apply fb_demo_inv|done|by apply Nat.leb_le|].
  exists out', cb, s'. split; [exact Hr|]. split; [exact Hn|]. apply Hf. apply Z.leb_le. reflexivity.
Defined.
(** With room for one context only, the fill stops two rows down and says nothing: the third
    row is in the region and is not filled. *)
Lemma imlib_flood_fill_short_stack : ∃ out' cb s',
  imlib_flood_fill_int 10 (λ _, 0) demo_img 0 0 1 1 (Fb 0x80000000 16 16 (λ _, 0)) = Ok (out', cb, s') ∧
  region demo_img 1 1 (λ _, 0) (0, 0) (0, 2) ∧ (0, 2) ∉ all_cells cb.
Proof.
  eexists _, _, _. split; [vm_compute; reflexivity|]. split.
  - apply rtc_l with (0, 1); [|apply rtc_once]; (split; [right; cbn; lia|]); (split; [split; cbn; lia|]); split_and!; reflexivity.
  - intros H. repeat (apply elem_of_cons in H as [[=]|H]). by apply elem_of_nil in H.
Qed.
