(* ===== verification/FatFs.v ===== *)
(** * What the FAT glue asks of FatFs

    The functions of the FatFs library that vfs_fat.c and vfs_fat_sdspi.c call (ff.h), as a
    class of operations on a library state [F] (mounted volumes and the disk under them),
    and what the glue relies on when they return [FR_OK], as a second class.  FatFs is
    third-party code; a small volume at the end, kept in memory and bounded in size, has
    the operations and obeys the laws. *)

From Stdlib Require Import Ascii.
From S2P Require Import Prelude Vfs.

Inductive FRESULT : Set :=
| FR_OK | FR_DISK_ERR | FR_INT_ERR | FR_NOT_READY | FR_NO_FILE | FR_NO_PATH | FR_INVALID_NAME | FR_DENIED | FR_EXIST
| FR_INVALID_OBJECT | FR_WRITE_PROTECTED | FR_INVALID_DRIVE | FR_NOT_ENABLED | FR_NO_FILESYSTEM | FR_MKFS_ABORTED
| FR_TIMEOUT | FR_LOCKED | FR_NOT_ENOUGH_CORE | FR_TOO_MANY_OPEN_FILES | FR_INVALID_PARAMETER.
#[export] Instance FRESULT_eq_dec : EqDecision FRESULT.
Proof. solve_decision. Defined.
Definition is_ok (r : FRESULT) : bool := bool_decide (r = FR_OK).
Lemma is_ok_spec r : is_ok r = true ↔ r = FR_OK.
Proof. apply bool_decide_eq_true. Qed.

Definition FA_READ : Z := 0x01.
Definition FA_WRITE : Z := 0x02.
Definition FA_OPEN_EXISTING : Z := 0x00.
Definition FA_CREATE_NEW : Z := 0x04.
Definition FA_CREATE_ALWAYS : Z := 0x08.
Definition FA_OPEN_ALWAYS : Z := 0x10.
Definition AM_RDO : Z := 0x01.
Definition AM_DIR : Z := 0x10.

(** [FILINFO]; a name of length 0 ends a directory. *)
Record FILINFO := Filinfo { fsize : Z; fdate : Z; ftime : Z; fattrib : Z; fname : path }.
(** [FIL]: [obj.fs] is not a null pointer, [obj.objsize], [fptr], and what the glue does not look at *)
Record FIL (P : Type) := Fil { obj_fs : bool; objsize : Z; fptr : Z; fil_rest : P }.
Arguments Fil {_}.
Arguments obj_fs {_}.
Arguments objsize {_}.
Arguments fptr {_}.
Arguments fil_rest {_}.

(** The disk can fail at any call: nothing says that one returns [FR_OK]. *)
Class FatFs (F P D : Type) := {
  zero_rest : P;
  zero_dir : D;
  f_open : FIL P → path → Z → F → FRESULT * FIL P * F;
  f_close : FIL P → F → FRESULT * FIL P * F;
  f_read : FIL P → Z → F → FRESULT * list Z * FIL P * F;
  f_write : FIL P → list Z → F → FRESULT * Z * FIL P * F;
  f_lseek : FIL P → Z → F → FRESULT * FIL P * F;
  f_truncate : FIL P → F → FRESULT * FIL P * F;
  f_sync : FIL P → F → FRESULT * FIL P * F;
  f_unlink : path → F → FRESULT * F;
  f_rename : path → path → F → FRESULT * F;
  f_mkdir : path → F → FRESULT * F;
  f_stat : path → F → FRESULT * FILINFO * F;
  f_utime : path → Z → Z → F → FRESULT * F;
  f_opendir : D → path → F → FRESULT * D * F;
  f_readdir : D → F → FRESULT * FILINFO * D * F;
  f_rewinddir : D → F → FRESULT * D * F;
  f_closedir : D → F → FRESULT * D * F;
  f_getfree : path → F → FRESULT * Z * Z * Z * F;   (* free clusters, n_fatent, csize *)
  f_mount : bool → path → Z → F → FRESULT * F;      (* is there a [FATFS]? *)
  f_mkfs : path → F → FRESULT * F;
  fs_csize : F → Z
}.
Definition zero_fil {F P D} `{FatFs F P D} : FIL P := Fil false 0 0 zero_rest.

(** [good f fil]: the object is open on a mounted volume and no error has stopped it;
    [content f fil]: the bytes of its file; [apart]: two objects of different files;
    [of_path fil p]: the object was opened under the name [p]; [lookup f p]: the bytes a file
    has on the disk; [rest f d]: the entries a directory has still to give. *)
Class FatFsLaws (F P D : Type) `{FatFs F P D} := {
  good : F → FIL P → Prop;
  content : F → FIL P → list Z;
  apart : FIL P → FIL P → Prop;
  of_path : FIL P → path → Prop;
  on_disk : F → path → option (list Z);
  rest : F → D → list FILINFO;
  good_ok f fil : good f fil → obj_fs fil = true ∧ 0 ≤ fptr fil ≤ objsize fil ∧
    objsize fil = Z.of_nat (length (content f fil)) ∧ objsize fil < 2 ^ 63;
  open_ok f fil p m fil' f' : f_open fil p m f = (FR_OK, fil', f') →
    good f' fil' ∧ fptr fil' = 0 ∧ of_path fil' p ∧
    (m = FA_READ → on_disk f p = Some (content f' fil')) ∧
    (m = Z.lor FA_WRITE FA_CREATE_NEW → content f' fil' = [] ∧
      ∀ g, good f g → good f' g ∧ content f' g = content f g ∧ apart g fil');
  seek_ok f fil ofs fil' f' : good f fil → 0 ≤ ofs → f_lseek fil ofs f = (FR_OK, fil', f') →
    good f' fil' ∧ (ofs ≤ objsize fil → fptr fil' = ofs ∧ content f' fil' = content f fil);
  fs_kept f fil n bs : obj_fs (snd (fst (f_lseek fil n f))) = obj_fs fil ∧ obj_fs (snd (fst (f_read fil n f))) = obj_fs fil ∧
    obj_fs (snd (fst (f_write fil bs f))) = obj_fs fil ∧ obj_fs (snd (fst (f_sync fil f))) = obj_fs fil ∧
    obj_fs (snd (fst (f_truncate fil f))) = obj_fs fil;
  (* an object that was stopped by an error does not move *)
  read_ok f fil n r bs fil' f' : good f fil → 0 ≤ n → f_read fil n f = (r, bs, fil', f') →
    good f' fil' ∧ content f' fil' = content f fil ∧
      (r = FR_OK → bs = take (Z.to_nat n) (drop (Z.to_nat (fptr fil)) (content f fil)) ∧
        fptr fil' = fptr fil + Z.of_nat (length bs)) ∨
    r ≠ FR_OK ∧ ∀ ofs, fst (fst (f_lseek fil' ofs f')) ≠ FR_OK;
  write_ok f fil bs r n fil' f' : good f fil → f_write fil bs f = (r, n, fil', f') →
    0 ≤ n ≤ Z.of_nat (length bs) ∧
    (good f' fil' ∧ objsize fil ≤ objsize fil' ∧
      (r = FR_OK → fptr fil' = fptr fil + n ∧
        content f' fil' = take (Z.to_nat (fptr fil)) (content f fil) ++ take (Z.to_nat n) bs ++
          drop (Z.to_nat (fptr fil + n)) (content f fil)) ∨
     r ≠ FR_OK ∧ ∀ ofs, fst (fst (f_lseek fil' ofs f')) ≠ FR_OK);
  read_path f fil n p : of_path fil p → of_path (snd (fst (f_read fil n f))) p;
  write_path f fil bs p : of_path fil p → of_path (snd (fst (f_write fil bs f))) p;
  (* what is done to one file leaves the others alone *)
  read_apart f fil n g : apart g fil → good f g →
    let '(_, _, fil', f') := f_read fil n f in good f' g ∧ content f' g = content f g ∧ apart g fil';
  apart_sym g h : apart g h → apart h g;
  write_apart f fil bs g : apart g fil → good f g →
    let '(_, _, fil', f') := f_write fil bs f in good f' g ∧ content f' g = content f g ∧ apart g fil';
  close_ok f fil p fil' f' : good f fil → of_path fil p → f_close fil f = (FR_OK, fil', f') →
    on_disk f' p = Some (content f fil);
  (* without a volume there is nothing to mount *)
  mount_null f : fst (f_mount false ["0"%char; ":"%char] 1 f) = FR_NOT_ENABLED;
  readdir_ok f d i d' f' : f_readdir d f = (FR_OK, i, d', f') →
    match rest f d with [] => fname i = [] ∧ rest f' d' = [] | j :: l => i = j ∧ fname j ≠ [] ∧ rest f' d' = l end;
}.

(** ** A volume in memory
    Files of at most [room] bytes; a longer write is cut, as on a full disk. *)
Module Toy.
Definition room : Z := 8.
Definition vol : Type := path → option (list Z).
Definition P : Type := path * Z.
Definition D : Type := list FILINFO.
Definition name (fil : FIL P) : path := fst fil.(fil_rest).
Definition mode_has (m b : Z) : bool := negb (Z.land m b =? 0).
Definition may (fil : FIL P) (b : Z) : bool := fil.(obj_fs) && mode_has (snd fil.(fil_rest)) b.
Definition len (c : list Z) : Z := Z.of_nat (length c).
Definition bytes (f : vol) (fil : FIL P) : list Z := default [] (f (name fil)).
Definition put (f : vol) (p : path) (c : option (list Z)) : vol := λ q, if decide (q = p) then c else f q.
Definition sized (fil : FIL P) (c : list Z) (pos : Z) : FIL P := Fil fil.(obj_fs) (len c) pos fil.(fil_rest).
Definition open (fil : FIL P) (p : path) (m : Z) (f : vol) : FRESULT * FIL P * vol :=
  let ok c f := (FR_OK, Fil true (len c) 0 (p, m), f) in
  let no r := (r, Fil false 0 0 ([], 0), f) in
  match f p with
  | Some c => if mode_has m FA_CREATE_NEW then no FR_EXIST
              else if mode_has m FA_CREATE_ALWAYS then ok [] (put f p (Some []))
              else if len c <=? room then ok c f else no FR_DENIED
  | None => if mode_has m (FA_CREATE_NEW + FA_CREATE_ALWAYS + FA_OPEN_ALWAYS) then ok [] (put f p (Some [])) else no FR_NO_FILE
  end.
Definition close (fil : FIL P) (f : vol) : FRESULT * FIL P * vol := (FR_OK, Fil false 0 0 fil.(fil_rest), f).
Definition read (fil : FIL P) (n : Z) (f : vol) : FRESULT * list Z * FIL P * vol :=
  if may fil FA_READ then
    let bs := take (Z.to_nat n) (drop (Z.to_nat fil.(fptr)) (bytes f fil)) in
    (FR_OK, bs, Fil fil.(obj_fs) fil.(objsize) (fil.(fptr) + len bs) fil.(fil_rest), f)
  else (FR_DENIED, [], fil, f).
Definition write (fil : FIL P) (bs : list Z) (f : vol) : FRESULT * Z * FIL P * vol :=
  if may fil FA_WRITE then
    let w := take (Z.to_nat (room - fil.(fptr))) bs in
    let c := take (Z.to_nat fil.(fptr)) (bytes f fil) ++ w ++ drop (Z.to_nat (fil.(fptr) + len w)) (bytes f fil) in
    (FR_OK, len w, sized fil c (fil.(fptr) + len w), put f (name fil) (Some c))
  else (FR_DENIED, 0, fil, f).
Definition lseek (fil : FIL P) (ofs : Z) (f : vol) : FRESULT * FIL P * vol :=
  if ofs <=? fil.(objsize) then (FR_OK, Fil fil.(obj_fs) fil.(objsize) ofs fil.(fil_rest), f)
  else if may fil FA_WRITE then
    let c := bytes f fil ++ replicate (Z.to_nat (ofs `min` room - fil.(objsize))) 0 in
    (FR_OK, sized fil c (len c), put f (name fil) (Some c))
  else (FR_OK, Fil fil.(obj_fs) fil.(objsize) fil.(objsize) fil.(fil_rest), f).
Definition truncate (fil : FIL P) (f : vol) : FRESULT * FIL P * vol :=
  if may fil FA_WRITE then
    let c := take (Z.to_nat fil.(fptr)) (bytes f fil) in (FR_OK, sized fil c fil.(fptr), put f (name fil) (Some c))
  else (FR_DENIED, fil, f).
Definition readdir (d : D) (f : vol) : FRESULT * FILINFO * D * vol :=
  match d with
  | [] => (FR_OK, Filinfo 0 0 0 0 [], [], f)
  | i :: l => if bool_decide (fname i = []) then (FR_INT_ERR, i, l, f) else (FR_OK, i, l, f)
  end.
#[export] Instance toy : FatFs vol P D := {|
  zero_rest := ([], 0); zero_dir := [];
  f_open := open; f_close := close; f_read := read; f_write := write; f_lseek := lseek; f_truncate := truncate;
  f_sync fil f := (FR_OK, fil, f);
  f_unlink p f := (if f p then FR_OK else FR_NO_FILE, put f p None);
  f_rename p q f := (if f p then FR_OK else FR_NO_FILE, put (put f q (f p)) p None);
  f_mkdir p f := (FR_DENIED, f);
  f_stat p f := (match f p with Some c => FR_OK | None => FR_NO_FILE end, Filinfo (len (default [] (f p))) 0 0 0 p, f);
  f_utime p d t f := (FR_OK, f);
  f_opendir d p f := (FR_OK, [Filinfo 0 0 0 AM_DIR ["D"%char]; Filinfo 3 0 0 0 ["F"%char]], f);
  f_readdir := readdir; f_rewinddir d f := (FR_OK, [], f); f_closedir d f := (FR_OK, d, f);
  f_getfree p f := (FR_OK, 5, 10, 1, f);
  f_mount fs p opt f := (if negb fs && (opt =? 1) then FR_NOT_ENABLED else FR_OK, f); f_mkfs p f := (FR_OK, λ _, None);
  fs_csize f := 1
|}.
Definition good (f : vol) (fil : FIL P) : Prop :=
  fil.(obj_fs) = true ∧ ∃ c, f (name fil) = Some c ∧ fil.(objsize) = len c ∧ 0 ≤ fil.(fptr) ≤ len c ∧ len c ≤ room.
Lemma put_at f p c : put f p c p = c.
Proof. unfold put. by rewrite decide_True. Qed.
Lemma put_other f p q c : q ≠ p → put f p c q = f q.
Proof. unfold put. intros. by rewrite decide_False. Qed.
Lemma bytes_put f p c fil : name fil = p → bytes (put f p (Some c)) fil = c.
Proof. intros <-. unfold bytes. by rewrite put_at. Qed.
Lemma bytes_other f p c fil : name fil ≠ p → bytes (put f p c) fil = bytes f fil.
Proof. intros. unfold bytes. by rewrite put_other. Qed.
Lemma good_other f p c fil : name fil ≠ p → good f fil → good (put f p c) fil.
Proof. intros Hp (H1 & c' & H2 & H3). split; [done|]. exists c'. by rewrite put_other. Qed.
Lemma good_put f fil c pos : obj_fs fil = true → 0 ≤ pos ≤ len c → len c ≤ room → good (put f (name fil) (Some c)) (sized fil c pos).
Proof. intros H1 H2 H3. split; [done|]. exists c. split; [apply put_at|]. done. Qed.
Lemma open_spec f fil p m fil' f' : open fil p m f = (FR_OK, fil', f') →
  good f' fil' ∧ fptr fil' = 0 ∧ name fil' = p ∧ (m = FA_READ → f p = Some (bytes f' fil')) ∧
  (m = Z.lor FA_WRITE FA_CREATE_NEW → bytes f' fil' = [] ∧
    ∀ g, good f g → good f' g ∧ bytes f' g = bytes f g ∧ name g ≠ name fil').
Proof.
  unfold open. destruct (f p) as [c|] eqn:Hp.
  - destruct (mode_has m FA_CREATE_NEW) eqn:Hn; [done|]. destruct (mode_has m FA_CREATE_ALWAYS) eqn:Ha.
    + intros [= <- <-]. split_and!; [|done|done|by intros ->|by intros ->]. split; [done|]. exists []. by rewrite put_at.
    + destruct (Z.leb_spec (len c) room); [|done]. intros [= <- <-]. split_and!; [|done|done| |by intros ->].
      * split; [done|]. exists c. unfold len in *. split_and!; try done; cbn; lia.
      * intros _. unfold bytes. cbn. by rewrite Hp.
  - destruct (mode_has m _) eqn:Hn; [|done]. intros [= <- <-]. split_and!; [|done|done|by intros ->|].
    + split; [done|]. exists []. by rewrite put_at.
    + intros _. split; [by apply bytes_put|]. intros g Hg. assert (name g ≠ p) as Hne.
      { intros <-. destruct Hg as (_ & c & Hc & _). congruence. }
      split_and!; [by apply good_other|by apply bytes_other|done].
Qed.
Lemma lseek_spec f fil ofs r fil' f' : good f fil → 0 ≤ ofs → lseek fil ofs f = (r, fil', f') →
  good f' fil' ∧ (ofs ≤ objsize fil → fptr fil' = ofs ∧ bytes f' fil' = bytes f fil).
Proof.
  intros (Ho & c & Hc & Hs & Hp & Hr) Hofs. unfold lseek. destruct (Z.leb_spec ofs (objsize fil)).
  { intros [= <- <- <-]. split; [|done]. split; [done|]. exists c. split_and!; cbn; try done; lia. }
  unfold may. rewrite Ho. cbn [andb]. destruct (mode_has _ _).
  - intros [= <- <- <-]. split; [|lia]. assert (bytes f fil = c) as -> by (unfold bytes; by rewrite Hc).
    apply good_put; [done|unfold len; lia|]. unfold len in *. rewrite length_app, length_replicate. unfold room in *. lia.
  - intros [= <- <- <-]. split; [|lia]. split; [done|]. exists c. split_and!; cbn; try done; lia.
Qed.
Lemma read_spec f fil n r bs fil' f' : good f fil → 0 ≤ n → read fil n f = (r, bs, fil', f') →
  good f' fil' ∧ f' = f ∧ name fil' = name fil ∧
  (r = FR_OK → bs = take (Z.to_nat n) (drop (Z.to_nat (fptr fil)) (bytes f fil)) ∧ fptr fil' = fptr fil + Z.of_nat (length bs)).
Proof.
  intros (Ho & c & Hc & Hs & Hp & Hr) Hn. unfold read. destruct (may fil FA_READ); intros [= <- <- <- <-]; [|split_and!; [|done..]; by split; [|exists c]].
  split_and!; try done. split; [done|]. exists c. split; [done|]. cbn. unfold bytes. rewrite Hc. unfold len in *. cbn.
  rewrite length_take, length_drop. lia.
Qed.
Lemma write_spec f fil bs r n fil' f' : good f fil → write fil bs f = (r, n, fil', f') →
  0 ≤ n ≤ Z.of_nat (length bs) ∧ good f' fil' ∧ objsize fil ≤ objsize fil' ∧ name fil' = name fil ∧
  (∀ g, name g ≠ name fil → good f g → good f' g ∧ bytes f' g = bytes f g) ∧
  (r = FR_OK → fptr fil' = fptr fil + n ∧
    bytes f' fil' = take (Z.to_nat (fptr fil)) (bytes f fil) ++ take (Z.to_nat n) bs ++ drop (Z.to_nat (fptr fil + n)) (bytes f fil)).
Proof.
  intros (Ho & c & Hc & Hs & Hp & Hr). unfold write. assert (bytes f fil = c) as Hb by (unfold bytes; by rewrite Hc).
  destruct (may fil FA_WRITE); intros [= <- <- <- <-]; [|split; [lia|]; split; [by split; [|exists c]|]; done].
  rewrite Hb. set (w := take (Z.to_nat (room - fptr fil)) bs). unfold len in *.
  assert (Z.of_nat (length w) ≤ Z.of_nat (length bs) ∧ Z.of_nat (length w) ≤ room - fptr fil) as [Hw1 Hw2].
  { unfold w. rewrite length_take. unfold room in *. lia. }
  split; [lia|]. split; [|split; [|split; [done|split]]].
  - apply good_put; unfold len; [done|rewrite !length_app, length_take, length_drop; lia..].
  - cbn. unfold len. rewrite !length_app, length_take, length_drop. lia.
  - intros g Hg Hgood. split; [by apply good_other|by apply bytes_other].
  - intros _. split; [done|]. rewrite bytes_put by done. rewrite Nat2Z.id. f_equal. f_equal. unfold w. rewrite length_take.
    destruct (Nat.min_spec (Z.to_nat (room - fptr fil)) (length bs)) as [[? ->]|[? ->]]; [done|]. by rewrite !take_ge by lia.
Qed.
#[export] Program Instance toy_laws : FatFsLaws vol P D := {|
  FatFs.good := good; content := bytes; apart g h := name g ≠ name h; of_path fil p := name fil = p; on_disk f p := f p; rest f d := d
|}.
Next Obligation.
  intros f fil (Ho & c & Hc & Hs & Hp & Hr). unfold bytes. rewrite Hc. cbn. unfold room, len in *. split_and!; try done; lia.
Qed.
Next Obligation. intros * E. by apply open_spec in E. Qed.
Next Obligation. intros * Hg Hofs E. exact (lseek_spec _ _ _ _ _ _ Hg Hofs E). Qed.
Next Obligation.
  intros. cbn. unfold lseek, read, write, truncate. split_and!; try done; repeat case_match; try done; by simplify_eq/=.
Qed.
Next Obligation.
  intros * Hg Hn E. left. destruct (read_spec _ _ _ _ _ _ _ Hg Hn E) as (? & -> & Hname & ?). split; [done|]. split; [|done].
  unfold bytes. by rewrite Hname.
Qed.
Next Obligation.
  intros * Hg E. destruct (write_spec _ _ _ _ _ _ _ Hg E) as (? & ? & ? & _ & _ & ?). split; [done|]. by left.
Qed.
Next Obligation. intros * <-. cbn. unfold read. by destruct (may fil FA_READ). Qed.
Next Obligation. intros * <-. cbn. unfold write. by destruct (may fil FA_WRITE). Qed.
Next Obligation. intros * Hne Hg. cbn. unfold read. by destruct (may fil FA_READ). Qed.
Next Obligation. intros * Hne E. by apply Hne. Qed.
Next Obligation.
  intros * Hne Hg. cbn. unfold write. destruct (may fil FA_WRITE); [|done]. split; [by apply good_other|]. split; [by apply bytes_other|done].
Qed.
Next Obligation. intros * (Ho & c & Hc & _) <- [= <- <-]. unfold bytes. by rewrite Hc. Qed.
Next Obligation. done. Qed.
Next Obligation. intros f d i d' f' E. cbn in E. unfold readdir in E. destruct d; [by simplify_eq|]. case_bool_decide; by simplify_eq. Qed.
End Toy.
