(* ===== verification/VfsFat.v ===== *)
(** * The FAT file system behind the switch (components/fatfs/vfs_fat.c)

    The context of a mounted volume: its table of open files, the [O_APPEND] flag of each,
    and its lock, counted as the number of times it was taken and not released.  Every
    operation is written over the functions of [FatFs]; [errno] is part of the state, and a
    failed allocation is an argument. *)

From Stdlib Require Import Ascii.
From S2P Require Import Prelude Vfs FatFs.

(** Flags of the C library *)
Definition O_RDONLY : Z := 0.
Definition O_WRONLY : Z := 1.
Definition O_RDWR : Z := 2.
Definition O_ACCMODE : Z := 3.
Definition O_APPEND : Z := 0x0008.
Definition O_CREAT : Z := 0x0200.
Definition O_TRUNC : Z := 0x0400.
Definition O_EXCL : Z := 0x0800.
Definition SEEK_SET : Z := 0.
Definition SEEK_CUR : Z := 1.
Definition SEEK_END : Z := 2.
Definition W_OK : Z := 2.
Definition S_IRWX : Z := 0x1ff. (* S_IRWXU | S_IRWXG | S_IRWXO *)
Definition S_IFREG : Z := 0x8000.
Definition S_IFDIR : Z := 0x4000.
Definition FILENAME_MAX : Z := 1024.
Definition has (flags f : Z) : bool := negb (Z.land flags f =? 0).

(** The numbers of the C library *)
Definition errno_val (e : errno_t) : Z :=
  match e with
  | E_NONE => 0 | EPERM => 1 | ENOENT => 2 | EINTR => 4 | EIO => 5 | ENXIO => 6 | EBADF => 9 | ENOMEM => 12 | EACCES => 13
  | EEXIST => 17 | EXDEV => 18 | ENODEV => 19 | EINVAL => 22 | ENFILE => 23 | ENOSPC => 28 | ENOSYS => 88
  | ETIMEDOUT => 116 | ENOTSUP => 134
  end.
Definition fat_mode_conv (m : Z) : Z :=
  let acc_mode := Z.land m O_ACCMODE in
  let res := if acc_mode =? O_RDONLY then FA_READ else if acc_mode =? O_WRONLY then FA_WRITE
             else if acc_mode =? O_RDWR then Z.lor FA_READ FA_WRITE else 0 in
  if has m O_CREAT && has m O_EXCL then Z.lor res FA_CREATE_NEW
  else if has m O_CREAT && has m O_TRUNC then Z.lor res FA_CREATE_ALWAYS
  else if has m O_APPEND then Z.lor res FA_OPEN_ALWAYS
  else Z.lor res FA_OPEN_EXISTING.
Definition fresult_to_errno (fr : FRESULT) : errno_t :=
  match fr with
  | FR_DISK_ERR | FR_INT_ERR => EIO
  | FR_NOT_READY => ENODEV
  | FR_NO_FILE | FR_NO_PATH => ENOENT
  | FR_INVALID_NAME => EINVAL
  | FR_DENIED => EACCES
  | FR_EXIST => EEXIST
  | FR_INVALID_OBJECT => EBADF
  | FR_WRITE_PROTECTED => EACCES
  | FR_INVALID_DRIVE => ENXIO
  | FR_NOT_ENABLED | FR_NO_FILESYSTEM => ENODEV
  | FR_MKFS_ABORTED => EINTR
  | FR_TIMEOUT => ETIMEDOUT
  | FR_LOCKED => EACCES
  | FR_NOT_ENOUGH_CORE => ENOMEM
  | FR_TOO_MANY_OPEN_FILES => ENFILE
  | FR_INVALID_PARAMETER => EINVAL
  | FR_OK => E_NONE
  end.

(** [struct tm], [fat_date_t] and [fat_time_t] *)
Record tm := Tm { tm_sec : Z; tm_min : Z; tm_hour : Z; tm_mday : Z; tm_mon : Z; tm_year : Z }.
Definition fat_date (mday mon year : Z) : Z := wrap 5 mday + 2 ^ 5 * wrap 4 mon + 2 ^ 9 * wrap 7 year.
Definition fat_time (sec min hour : Z) : Z := wrap 5 sec + 2 ^ 5 * wrap 6 min + 2 ^ 11 * wrap 5 hour.
Definition tm_of_fat (fdate ftime : Z) : tm :=
  Tm (ftime mod 2 ^ 5 * 2) (ftime / 2 ^ 5 mod 2 ^ 6) (ftime / 2 ^ 11 mod 2 ^ 5)
     (fdate mod 2 ^ 5) (fdate / 2 ^ 5 mod 2 ^ 4 - 1) (fdate / 2 ^ 9 mod 2 ^ 7 + 80).
Definition fat_of_tm (t : tm) : Z * Z :=
  (fat_date t.(tm_mday) (t.(tm_mon) + 1) (t.(tm_year) - 80), fat_time (Z.quot t.(tm_sec) 2) t.(tm_min) t.(tm_hour)).
Record stat_t := Stat { st_size : Z; st_mode : Z; st_mtime : Z }.
Definition get_stat_mode (is_dir : bool) : Z := Z.lor S_IRWX (if is_dir then S_IFDIR else S_IFREG).

(** A time goes through the directory entry of a file and comes back with its seconds rounded
    down to an even number, up to the year 2107; later years come back 128 years early. *)
Theorem fat_time_roundtrip t :
  0 ≤ t.(tm_sec) < 60 → 0 ≤ t.(tm_min) < 60 → 0 ≤ t.(tm_hour) < 24 → 1 ≤ t.(tm_mday) ≤ 31 → 0 ≤ t.(tm_mon) < 12 → 80 ≤ t.(tm_year) →
  let '(fdate, ftime) := fat_of_tm t in
  in_width 16 fdate ∧ in_width 16 ftime ∧
  tm_of_fat fdate ftime = Tm (t.(tm_sec) / 2 * 2) t.(tm_min) t.(tm_hour) t.(tm_mday) t.(tm_mon) (80 + (t.(tm_year) - 80) mod 128).
Proof.
  destruct t as [sec min hour mday mon year]. cbn. intros Hs Hm Hh Hd Hmo Hy. unfold fat_of_tm, tm_of_fat, fat_date, fat_time. cbn.
  rewrite Z.quot_div_nonneg by lia. unfold wrap. change (2 ^ 5) with 32. change (2 ^ 4) with 16. change (2 ^ 7) with 128.
  change (2 ^ 6) with 64. change (2 ^ 9) with 512. change (2 ^ 11) with 2048. change (2 ^ 16) with 65536.
  split_and!; [Z.div_mod_to_equations; lia..|]. f_equal; Z.div_mod_to_equations; lia.
Qed.
Section fat.
Context {F P D : Type} `{FatFs F P D}.
(** [vfs_fat_ctx_t], [errno], and the library *)
Record fat_s := Fat {
  fat_drive : path;
  max_files : Z;
  lock : Z;
  o_append : Z → bool;
  files : Z → FIL P;
  errno : errno_t;
  lib : F
}.
Definition with_lock (n : Z) (s : fat_s) : fat_s := Fat s.(fat_drive) s.(max_files) n s.(o_append) s.(files) s.(errno) s.(lib).
Definition with_append (a : Z → bool) (s : fat_s) : fat_s := Fat s.(fat_drive) s.(max_files) s.(lock) a s.(files) s.(errno) s.(lib).
Definition with_files (t : Z → FIL P) (s : fat_s) : fat_s := Fat s.(fat_drive) s.(max_files) s.(lock) s.(o_append) t s.(errno) s.(lib).
Definition with_errno (e : errno_t) (s : fat_s) : fat_s := Fat s.(fat_drive) s.(max_files) s.(lock) s.(o_append) s.(files) e s.(lib).
Definition with_lib (f : F) (s : fat_s) : fat_s := Fat s.(fat_drive) s.(max_files) s.(lock) s.(o_append) s.(files) s.(errno) f.
Abbreviation G := (M fat_s).
Definition acquire : G unit := modify (λ s, with_lock (s.(lock) + 1) s).
Definition release : G unit := modify (λ s, with_lock (s.(lock) - 1) s).
Definition set_errno (e : errno_t) : G unit := modify (with_errno e).
(** [errno = e; return -1;] *)
Definition fails (e : errno_t) : G Z := _ ← set_errno e; mret (-1).
Definition lib_call {A} (op : F → A * F) : G A := λ s, let '(a, f) := op s.(lib) in Ok (a, with_lib f s).
(** A call on [&fat_ctx->files[fd]]; past the table there is no file object. *)
Definition good_fd (s : fat_s) (fd : Z) : bool := (0 <=? fd) && (fd <? s.(max_files)).
Definition on_file {A} (fd : Z) (op : FIL P → F → A * FIL P * F) : G A := λ s,
  if good_fd s fd then
    let '(a, fil, f) := op (s.(files) fd) s.(lib) in Ok (a, with_lib f (with_files (<[fd := fil]> s.(files)) s))
  else Fault FUB.
Definition the_file (fd : Z) : G (FIL P) := λ s, if good_fd s fd then Ok (s.(files) fd, s) else Fault FUB.
(** [if (res != FR_OK) { errno = fresult_to_errno(res); return -1; } return 0;] *)
Definition rc (res : FRESULT) : G Z := if is_ok res then mret 0 else fails (fresult_to_errno res).

Definition get_next_fd (s : fat_s) : Z :=
  default (-1) (find (λ i, negb (obj_fs (s.(files) i))) (seqZ 0 s.(max_files))).
Definition file_cleanup (fd : Z) : G unit := modify (λ s, with_files (<[fd := zero_fil]> s.(files)) s).
(** [snprintf] into a buffer of [FILENAME_MAX + 3] bytes *)
Definition prepend_drive_to_path (p : path) (s : fat_s) : path := take (Z.to_nat (FILENAME_MAX + 2)) (s.(fat_drive) ++ p).

(** ** Files *)
Definition vfs_fat_open (p : path) (flags mode : Z) : G Z :=
  _ ← acquire;
  p ← gets (prepend_drive_to_path p);
  fd ← gets get_next_fd;
  if fd <? 0 then _ ← release; fails ENFILE else
  res ← on_file fd (λ fil, f_open fil p (fat_mode_conv flags));
  if negb (is_ok res) then _ ← file_cleanup fd; _ ← release; fails (fresult_to_errno res) else
  _ ← modify (λ s, with_append (<[fd := bool_decide (Z.land flags O_APPEND = O_APPEND)]> s.(o_append)) s);
  _ ← release;
  mret fd.
Definition vfs_fat_write (fd : Z) (data : list Z) : G Z :=
  file ← the_file fd;
  append ← gets (λ s, s.(o_append) fd);
  res ← (if append : bool then on_file fd (λ fil, f_lseek fil (objsize fil)) else mret FR_OK);
  if negb (is_ok res) then fails (fresult_to_errno res) else
  '(res, written) ← on_file fd (λ fil, f_write fil (take (Z.to_nat (u32 (Z.of_nat (length data)))) data));
  if ((written =? 0) && negb (Z.of_nat (length data) =? 0)) && is_ok res then fails ENOSPC else
  if negb (is_ok res) then
    _ ← set_errno (fresult_to_errno res);
    if written =? 0 then mret (-1) else mret written
  else mret written.
(** The bytes go to the caller's buffer, also when the call fails half way. *)
Definition vfs_fat_read (fd size : Z) : G (Z * list Z) :=
  '(res, bs) ← on_file fd (λ fil, f_read fil (u32 size));
  let read := Z.of_nat (length bs) in
  if negb (is_ok res) then
    _ ← set_errno (fresult_to_errno res);
    if read =? 0 then mret (-1, bs) else mret (read, bs)
  else mret (read, bs).
Definition vfs_fat_pread (fd size offset : Z) : G (Z * list Z) :=
  _ ← acquire;
  file ← the_file fd;
  let prev_pos := fptr file in
  f_res ← on_file fd (λ fil, f_lseek fil (u64 offset));
  if negb (is_ok f_res) then _ ← set_errno (fresult_to_errno f_res); _ ← release; mret (-1, []) else
  '(f_res, bs) ← on_file fd (λ fil, f_read fil (u32 size));
  ret ← (if is_ok f_res then mret (Z.of_nat (length bs)) else fails (fresult_to_errno f_res));
  f_res ← on_file fd (λ fil, f_lseek fil (u64 prev_pos));
  ret ← (if is_ok f_res then mret ret
         else _ ← (if 0 <=? ret then set_errno (fresult_to_errno f_res) else mret tt); mret (-1));
  _ ← release;
  mret (ret, bs).
Definition vfs_fat_pwrite (fd : Z) (src : list Z) (offset : Z) : G Z :=
  _ ← acquire;
  file ← the_file fd;
  let prev_pos := fptr file in
  f_res ← on_file fd (λ fil, f_lseek fil (u64 offset));
  if negb (is_ok f_res) then _ ← set_errno (fresult_to_errno f_res); _ ← release; mret (-1) else
  '(f_res, wr) ← on_file fd (λ fil, f_write fil (take (Z.to_nat (u32 (Z.of_nat (length src)))) src));
  if ((wr =? 0) && negb (Z.of_nat (length src) =? 0)) && is_ok f_res then fails ENOSPC else
  ret ← (if is_ok f_res then mret wr else fails (fresult_to_errno f_res));
  f_res ← on_file fd (λ fil, f_lseek fil (u64 prev_pos));
  ret ← (if is_ok f_res then mret ret
         else _ ← (if 0 <=? ret then set_errno (fresult_to_errno f_res) else mret tt); mret (-1));
  _ ← release;
  mret ret.
Definition vfs_fat_fsync (fd : Z) : G Z := _ ← acquire; res ← on_file fd f_sync; _ ← release; rc res.
Definition vfs_fat_close (fd : Z) : G Z :=
  _ ← acquire; res ← on_file fd f_close; _ ← file_cleanup fd; _ ← release; rc res.
Definition vfs_fat_lseek (fd offset mode : Z) : G Z :=
  file ← the_file fd;
  let seek new_pos :=
    res ← on_file fd (λ fil, f_lseek fil (u64 new_pos));
    if negb (is_ok res) then fails (fresult_to_errno res) else mret new_pos in
  if mode =? SEEK_SET then seek offset
  else if mode =? SEEK_CUR then seek (fptr file + offset)
  else if mode =? SEEK_END then seek (objsize file + offset)
  else fails EINVAL.
Definition vfs_fat_fstat (fd : Z) : G (Z * stat_t) :=
  file ← the_file fd; mret (0, Stat (objsize file) (Z.lor S_IRWX S_IFREG) 0).
Definition vfs_fat_ftruncate (fd length : Z) : G Z :=
  if length <? 0 then fails EINVAL else
  _ ← acquire;
  file ← the_file fd;
  ret ← (if objsize file <? length then fails EPERM else
         res ← on_file fd (λ fil, f_lseek fil (u64 length));
         if negb (is_ok res) then fails (fresult_to_errno res) else
         res ← on_file fd f_truncate;
         rc res);
  _ ← release;
  mret ret.

(** ** Names *)
Definition on_path (op : path → F → FRESULT * F) (p : path) : G Z :=
  _ ← acquire; p ← gets (prepend_drive_to_path p); res ← lib_call (op p); _ ← release; rc res.
Definition vfs_fat_unlink (p : path) : G Z := on_path f_unlink p.
Definition vfs_fat_mkdir (p : path) (mode : Z) : G Z := on_path f_mkdir p.
Definition vfs_fat_rmdir (p : path) : G Z := on_path f_unlink p.
Definition vfs_fat_rename (src dst : path) : G Z :=
  _ ← acquire; src ← gets (prepend_drive_to_path src); dst ← gets (prepend_drive_to_path dst);
  res ← lib_call (f_rename src dst); _ ← release; rc res.
Definition vfs_fat_stat (mktime : tm → Z) (p : path) : G (Z * option stat_t) :=
  if path_eqb p [slash] then mret (0, Some (Stat 0 (get_stat_mode true) 0)) else
  _ ← acquire; p ← gets (prepend_drive_to_path p);
  '(res, info) ← lib_call (f_stat p); _ ← release;
  if negb (is_ok res) then r ← fails (fresult_to_errno res); mret (r, None) else
  mret (0, Some (Stat info.(fsize) (get_stat_mode (has info.(fattrib) AM_DIR)) (mktime (tm_of_fat info.(fdate) info.(ftime))))).
Definition vfs_fat_access (p : path) (amode : Z) : G Z :=
  _ ← acquire; p ← gets (prepend_drive_to_path p); '(res, info) ← lib_call (f_stat p); _ ← release;
  if is_ok res then
    if bool_decide (Z.land amode W_OK = W_OK) && bool_decide (Z.land info.(fattrib) AM_RDO = AM_RDO)
    then fails EACCES else mret 0
  else fails (fresult_to_errno res).
(** [times] is a null pointer or what it points to; [now] is [gettimeofday]. *)
Definition vfs_fat_utime (localtime : Z → tm) (now : Z) (p : path) (times : option Z) : G Z :=
  let tm_time := localtime (default now times) in
  if tm_time.(tm_year) <? 80 then fails EINVAL else
  let '(fdate, ftime) := fat_of_tm tm_time in
  on_path (λ p, f_utime p fdate ftime) p.
Definition vfs_fat_truncate (malloc : bool) (p : path) (length : Z) : G Z :=
  if length <? 0 then fails EINVAL else
  _ ← acquire; p ← gets (prepend_drive_to_path p);
  if negb malloc then _ ← release; fails ENOMEM else
  '(res, file) ← lib_call (f_open zero_fil p FA_WRITE);
  if negb (is_ok res) then _ ← release; fails (fresult_to_errno res) else
  '(ret, file) ←
    (if objsize file <? length then _ ← release; r ← fails EPERM; mret (r, file) else
     '(res, file) ← lib_call (f_lseek file (u64 length));
     if negb (is_ok res) then _ ← release; r ← fails (fresult_to_errno res); mret (r, file) else
     '(res, file) ← lib_call (f_truncate file); _ ← release;
     r ← rc res; mret (r, file));
  '(res, file) ← lib_call (f_close file);
  if negb (is_ok res) then fails (fresult_to_errno res) else mret ret.

(** [stale]: the upper halves of [size_t read] and [size_t written], of which the library
    writes the lower ones. *)
Fixpoint copy_loop (fuel : nat) (copy_buf_size : Z) (stale : Z * Z) (size_left : Z) (pf1 pf2 : FIL P) : G (FRESULT * FIL P * FIL P) :=
  if size_left <=? 0 then mret (FR_OK, pf1, pf2) else
  match fuel with
  | O => c_fail FFuel
  | S fuel =>
      let will_copy := if size_left <? copy_buf_size then size_left else copy_buf_size in
      '(res, buf, pf1) ← lib_call (f_read pf1 (u32 will_copy));
      if negb (is_ok res) then mret (res, pf1, pf2) else
      if negb (Z.of_nat (length buf) + 2 ^ 32 * fst stale =? will_copy) then mret (FR_DISK_ERR, pf1, pf2) else
      '(res, written, pf2) ← lib_call (f_write pf2 buf);
      if negb (is_ok res) then mret (res, pf1, pf2) else
      if negb (written + 2 ^ 32 * snd stale =? will_copy) then mret (FR_DISK_ERR, pf1, pf2) else
      copy_loop fuel copy_buf_size stale (size_left - will_copy) pf1 pf2
  end.
(** [malloc]: do the three allocations succeed?  One pass for each byte is enough. *)
Definition vfs_fat_link (malloc : bool) (stale : Z * Z) (n1 n2 : path) : G Z :=
  _ ← acquire; n1 ← gets (prepend_drive_to_path n1); n2 ← gets (prepend_drive_to_path n2);
  copy_buf_size ← gets (λ s, fs_csize s.(lib));
  if negb malloc then _ ← release; fails ENOMEM else
  '(res, pf1) ← lib_call (f_open zero_fil n1 (Z.lor FA_READ FA_OPEN_EXISTING));
  if negb (is_ok res) then _ ← release; rc res else
  '(res, pf2) ← lib_call (f_open zero_fil n2 (Z.lor FA_WRITE FA_CREATE_NEW));
  _ ← release;
  if negb (is_ok res) then _ ← lib_call (f_close pf1); rc res else
  '(res, pf1, pf2) ← copy_loop (Z.to_nat (objsize pf1)) copy_buf_size stale (objsize pf1) pf1 pf2;
  _ ← lib_call (f_close pf2);
  _ ← lib_call (f_close pf1);
  rc res.

(** ** Directories *)
Record vfs_fat_dir_t := FatDir { d_offset : Z; ffdir : D }.
Inductive d_type_t : Set := DT_DIR | DT_REG.
Definition DIRENT_NAME_MAX : Z := 256.
Record dirent := Dirent { d_type : d_type_t; d_name : path }.
Definition strlcpy (src : path) (n : Z) : path := take (Z.to_nat (n - 1)) src.
Definition vfs_fat_opendir (malloc : bool) (name : path) : G (option vfs_fat_dir_t) :=
  _ ← acquire; name ← gets (prepend_drive_to_path name);
  if negb malloc then _ ← release; _ ← set_errno ENOMEM; mret None else
  '(res, d) ← lib_call (f_opendir zero_dir name); _ ← release;
  if negb (is_ok res) then _ ← set_errno (fresult_to_errno res); mret None else
  mret (Some (FatDir 0 d)).
Definition vfs_fat_closedir (pdir : vfs_fat_dir_t) : G Z :=
  '(res, _) ← lib_call (f_closedir pdir.(ffdir)); rc res.
(** The result, [*out_dirent] and the stream *)
Definition vfs_fat_readdir_r (pdir : vfs_fat_dir_t) : G (errno_t * option dirent * vfs_fat_dir_t) :=
  '(res, filinfo, d) ← lib_call (f_readdir pdir.(ffdir));
  if negb (is_ok res) then mret (fresult_to_errno res, None, FatDir pdir.(d_offset) d) else
  if bool_decide (filinfo.(fname) = []) then mret (E_NONE, None, FatDir pdir.(d_offset) d) else
  let entry := Dirent (if has filinfo.(fattrib) AM_DIR then DT_DIR else DT_REG) (strlcpy filinfo.(fname) DIRENT_NAME_MAX) in
  mret (E_NONE, Some entry, FatDir (pdir.(d_offset) + 1) d).
Definition vfs_fat_readdir (pdir : vfs_fat_dir_t) : G (option dirent * vfs_fat_dir_t) :=
  '(err, out_dirent, pdir) ← vfs_fat_readdir_r pdir;
  if negb (bool_decide (err = E_NONE)) then _ ← set_errno err; mret (None, pdir) else mret (out_dirent, pdir).
Definition vfs_fat_telldir (pdir : vfs_fat_dir_t) : Z := pdir.(d_offset).
Fixpoint seekdir_loop (fuel : nat) (offset : Z) (pdir : vfs_fat_dir_t) : G vfs_fat_dir_t :=
  if pdir.(d_offset) <? offset then
    match fuel with
    | O => c_fail FFuel
    | S fuel =>
        '(res, _, d) ← lib_call (f_readdir pdir.(ffdir));
        if negb (is_ok res) then _ ← set_errno (fresult_to_errno res); mret (FatDir pdir.(d_offset) d)
        else seekdir_loop fuel offset (FatDir (pdir.(d_offset) + 1) d)
    end
  else mret pdir.
Definition vfs_fat_seekdir (pdir : vfs_fat_dir_t) (offset : Z) : G vfs_fat_dir_t :=
  let skip pdir := seekdir_loop (Z.to_nat offset) offset pdir in
  if offset <? pdir.(d_offset) then
    '(res, d) ← lib_call (f_rewinddir pdir.(ffdir));
    if negb (is_ok res) then _ ← set_errno (fresult_to_errno res); mret (FatDir pdir.(d_offset) d)
    else skip (FatDir 0 d)
  else skip pdir.

(** ** The calls of the switch
    The memory of the program, the directory streams behind the pointers the switch holds,
    and the results of the allocations to come.  [w_stuck] records a call that did not
    return. *)
Record fat_w := FatW {
  w_fat : fat_s;
  w_mem : Z → Z;
  w_dirs : Z → vfs_fat_dir_t;
  w_heap : list (option Z);
  w_stuck : option fault
}.
Context (mktime : tm → Z) (localtime : Z → tm) (now : F → Z) (stale : Z * Z).
Context (put_stat : Z → stat_t → (Z → Z) → Z → Z) (put_dirent : Z → dirent → (Z → Z) → Z → Z)
  (put_ptr : Z → Z → (Z → Z) → Z → Z) (cur_dirent : Z → Z).
Context (get_times : (Z → Z) → Z → option Z).
Definition set_mem (m : Z → Z) (w : fat_w) : fat_w := FatW w.(w_fat) m w.(w_dirs) w.(w_heap) w.(w_stuck).
Definition set_dir (p : Z) (d : vfs_fat_dir_t) (w : fat_w) : fat_w := FatW w.(w_fat) w.(w_mem) (<[p := d]> w.(w_dirs)) w.(w_heap) w.(w_stuck).
Definition pop_heap (w : fat_w) : option Z * fat_w :=
  match w.(w_heap) with
  | [] => (None, w)
  | a :: h => (a, FatW w.(w_fat) w.(w_mem) w.(w_dirs) h w.(w_stuck))
  end.
Definition run {A} (m : G A) (k : A → fat_w → Z * fat_w) (w : fat_w) : Z * fat_w :=
  match m w.(w_fat) with
  | Ok (a, s) => k a (FatW s w.(w_mem) w.(w_dirs) w.(w_heap) w.(w_stuck))
  | Fault f => (-1, FatW w.(w_fat) w.(w_mem) w.(w_dirs) w.(w_heap) (Some f))
  end.
Definition ret (r : Z) (w : fat_w) : Z * fat_w := (r, w).
Definition fat_has (c : vfs_call) : bool := match c with C_fcntl _ _ _ | C_ioctl _ _ _ => false | _ => true end.
Definition fat_run (c : vfs_call) (w : fat_w) : Z * fat_w :=
  match c with
  | C_open p flags mode => run (vfs_fat_open p flags mode) ret w
  | C_close fd => run (vfs_fat_close fd) ret w
  | C_read fd dst size => run (vfs_fat_read fd size) (λ '(r, bs) w, (r, set_mem (mem_write w.(w_mem) dst bs) w)) w
  | C_write fd src size => run (vfs_fat_write fd (mem_read w.(w_mem) src size)) ret w
  | C_lseek fd off mode => run (vfs_fat_lseek fd off mode) ret w
  | C_pread fd dst size off => run (vfs_fat_pread fd size off) (λ '(r, bs) w, (r, set_mem (mem_write w.(w_mem) dst bs) w)) w
  | C_pwrite fd src size off => run (vfs_fat_pwrite fd (mem_read w.(w_mem) src size) off) ret w
  | C_fstat fd st => run (vfs_fat_fstat fd) (λ '(r, v) w, (r, set_mem (put_stat st v w.(w_mem)) w)) w
  | C_fcntl _ _ _ | C_ioctl _ _ _ => (-1, w)
  | C_fsync fd => run (vfs_fat_fsync fd) ret w
  | C_stat p st => run (vfs_fat_stat mktime p)
      (λ '(r, v) w, (r, match v with Some v => set_mem (put_stat st v w.(w_mem)) w | None => w end)) w
  | C_utime p times => run (vfs_fat_utime localtime (now w.(w_fat).(lib)) p (get_times w.(w_mem) times)) ret w
  | C_link p q =>
      let '(a, w) := pop_heap w in let '(b, w) := pop_heap w in let '(c, w) := pop_heap w in
      run (vfs_fat_link (bool_decide (is_Some a ∧ is_Some b ∧ is_Some c)) stale p q) ret w
  | C_unlink p => run (vfs_fat_unlink p) ret w
  | C_rename p q => run (vfs_fat_rename p q) ret w
  | C_mkdir p mode => run (vfs_fat_mkdir p mode) ret w
  | C_rmdir p => run (vfs_fat_rmdir p) ret w
  | C_access p amode => run (vfs_fat_access p amode) ret w
  | C_truncate p len => let '(a, w) := pop_heap w in run (vfs_fat_truncate (bool_decide (is_Some a)) p len) ret w
  | C_ftruncate fd len => run (vfs_fat_ftruncate fd len) ret w
  | C_opendir p =>
      let '(a, w) := pop_heap w in
      run (vfs_fat_opendir (bool_decide (is_Some a)) p)
        (λ d w, match d with Some d => (default 0 a, set_dir (default 0 a) d w) | None => (0, w) end) w
  | C_readdir dir => run (vfs_fat_readdir (w.(w_dirs) dir))
      (λ '(e, d) w, let w := set_dir dir d w in
         match e with
         | Some e => (cur_dirent dir, set_mem (put_dirent (cur_dirent dir) e w.(w_mem)) w)
         | None => (0, w)
         end) w
  | C_readdir_r dir entry out_dirent => run (vfs_fat_readdir_r (w.(w_dirs) dir))
      (λ '(err, e, d) w, let w := set_dir dir d w in
         (errno_val err, set_mem (match e with
                                  | Some e => put_ptr out_dirent entry (put_dirent entry e w.(w_mem))
                                  | None => put_ptr out_dirent 0 w.(w_mem)
                                  end) w)) w
  | C_telldir dir => (vfs_fat_telldir (w.(w_dirs) dir), w)
  | C_seekdir dir loc => run (vfs_fat_seekdir (w.(w_dirs) dir) loc) (λ d w, (0, set_dir dir d w)) w
  | C_closedir dir => run (vfs_fat_closedir (w.(w_dirs) dir)) ret w
  end.

(** ** What leaves the table of open files as it is *)
Context `{!FatFsLaws F P D}.
Definition is_open (s : fat_s) (fd : Z) : bool := obj_fs (s.(files) fd).
(** [m] returns, takes the lock [n] times more than it gives it back, and no file of a
    table of [mx] is opened or closed. *)
Definition keeps (mx n : Z) {A} (m : G A) : Prop := ∀ s, s.(max_files) = mx →
  ∃ a s', m s = Ok (a, s') ∧ s'.(max_files) = mx ∧ s'.(lock) = s.(lock) + n ∧ ∀ fd, is_open s' fd = is_open s fd.
Lemma keeps_ret mx {A} (a : A) : keeps mx 0 (mret a).
Proof. intros s Hs. exists a, s. split_and!; try done; lia. Qed.
Lemma keeps_bind mx n1 n2 n {A B} (m : G A) (k : A → G B) :
  keeps mx n1 m → (∀ a, keeps mx n2 (k a)) → n = n1 + n2 → keeps mx n (m ≫= k).
Proof.
  intros Hm Hk -> s Hs. destruct (Hm s Hs) as (a & s1 & E & H1 & H2 & H3). destruct (Hk a s1 H1) as (b & s2 & E2 & H4 & H5 & H6).
  exists b, s2. split_and!; [by rewrite (M_bind_run _ _ _ _ _ E)|done|lia|]. intros fd. by rewrite H6.
Qed.
Lemma keeps_modify mx n f : (∀ s, (f s).(max_files) = s.(max_files) ∧ (f s).(lock) = s.(lock) + n ∧ (f s).(files) = s.(files)) →
  keeps mx n (modify f).
Proof.
  intros Hf s Hs. destruct (Hf s) as (H1 & H2 & H3). exists tt, (f s). split_and!; [done|congruence|done|]. intros fd. unfold is_open. by rewrite H3.
Qed.
Lemma keeps_gets mx {A} (f : fat_s → A) : keeps mx 0 (gets f).
Proof. intros s Hs. exists (f s), s. split_and!; try done; lia. Qed.
Lemma keeps_lib mx {A} (op : F → A * F) : keeps mx 0 (lib_call op).
Proof. intros s Hs. unfold lib_call. destruct (op (lib s)) as [a f]. eexists _, _. split; [reflexivity|]. cbn. split_and!; try done; lia. Qed.
Lemma keeps_acquire mx : keeps mx 1 acquire.
Proof. by apply keeps_modify. Qed.
Lemma keeps_release mx : keeps mx (-1) release.
Proof. by apply keeps_modify. Qed.
Lemma keeps_errno mx e : keeps mx 0 (set_errno e).
Proof. apply keeps_modify. intros s. cbn. split_and!; try done; lia. Qed.
Lemma good_fd_spec s fd : good_fd s fd = true ↔ 0 ≤ fd < s.(max_files).
Proof. unfold good_fd. rewrite andb_true_iff, Z.leb_le, Z.ltb_lt. done. Qed.
Lemma keeps_the_file mx fd : 0 ≤ fd < mx → keeps mx 0 (the_file fd).
Proof.
  intros Hfd s Hs. unfold the_file. rewrite (proj2 (good_fd_spec s fd)) by lia. eexists _, s. split_and!; try done; lia.
Qed.
Lemma keeps_on_file mx fd {A} (op : FIL P → F → A * FIL P * F) : 0 ≤ fd < mx →
  (∀ fil f, obj_fs (snd (fst (op fil f))) = obj_fs fil) → keeps mx 0 (on_file fd op).
Proof.
  intros Hfd Hop s Hs. unfold on_file. rewrite (proj2 (good_fd_spec s fd)) by lia. specialize (Hop (files s fd) (lib s)).
  destruct (op (files s fd) (lib s)) as [[a fil] f]. eexists _, _. split; [reflexivity|]. cbn. split_and!; [done|lia|].
  intros fd'. unfold is_open. cbn. destruct (decide (fd' = fd)) as [-> |]; [by rewrite fn_lookup_insert|by rewrite fn_lookup_insert_ne].
Qed.
Lemma keeps_if mx n (b : bool) {A} (m1 m2 : G A) : keeps mx n m1 → keeps mx n m2 → keeps mx n (if b then m1 else m2).
Proof. by destruct b. Qed.
Lemma keeps_fails mx e : keeps mx 0 (fails e).
Proof. eapply keeps_bind; [apply keeps_errno|intros; apply keeps_ret|done]. Qed.
Lemma keeps_rc mx r : keeps mx 0 (rc r).
Proof. apply keeps_if; [apply keeps_ret|apply keeps_fails]. Qed.
Lemma keeps_then mx n1 n {A B} (m : G A) (k : A → G B) :
  keeps mx n1 m → (∀ a, keeps mx (n - n1) (k a)) → keeps mx n (m ≫= k).
Proof. intros Hm Hk. eapply keeps_bind; [exact Hm|exact Hk|lia]. Qed.
Lemma keeps_eq mx n {A} (m : G A) : keeps mx 0 m → n = 0 → keeps mx n m.
Proof. by intros ? ->. Qed.
Lemma fs_kept_seek fil n f : obj_fs (snd (fst (f_lseek fil n f))) = obj_fs fil.
Proof. apply (fs_kept f fil n []). Qed.
Lemma fs_kept_read fil n f : obj_fs (snd (fst (f_read fil n f))) = obj_fs fil.
Proof. apply (fs_kept f fil n []). Qed.
Lemma fs_kept_write fil bs f : obj_fs (snd (fst (f_write fil bs f))) = obj_fs fil.
Proof. apply (fs_kept f fil 0 bs). Qed.
Lemma fs_kept_sync fil f : obj_fs (snd (fst (f_sync fil f))) = obj_fs fil.
Proof. apply (fs_kept f fil 0 []). Qed.
Lemma fs_kept_trunc fil f : obj_fs (snd (fst (f_truncate fil f))) = obj_fs fil.
Proof. apply (fs_kept f fil 0 []). Qed.
#[local] Ltac keep :=
  intros; repeat match goal with
  | |- keeps _ _ (let _ := _ in _) => cbv zeta
  | |- ∀ _ : _ * _, _ => intros []
  | |- ∀ _, _ => intro
  | |- keeps _ _ (if _ then _ else _) => apply keeps_if
  | |- keeps _ _ (match ?x with None => _ | Some _ => _ end) => destruct x
  | |- keeps _ _ (_ ← acquire; _) => apply (keeps_then _ 1); [apply keeps_acquire|]
  | |- keeps _ _ (_ ← release; _) => apply (keeps_then _ (-1)); [apply keeps_release|]
  | |- keeps _ _ (_ ← _; _) => apply (keeps_then _ 0)
  | |- keeps _ _ (gets _) => apply keeps_gets
  | |- keeps _ _ (lib_call _) => apply keeps_lib
  | |- keeps _ _ (set_errno _) => apply keeps_errno
  | |- keeps _ _ (the_file _) => by apply keeps_the_file
  | |- keeps _ _ (on_file _ _) => by apply keeps_on_file; [|intros ??; apply fs_kept_seek || apply fs_kept_read || apply fs_kept_write || apply fs_kept_sync || apply fs_kept_trunc]
  | |- keeps _ _ (mret _) => apply keeps_eq; [apply keeps_ret|lia]
  | |- keeps _ _ (fails _) => apply keeps_eq; [apply keeps_fails|lia]
  | |- keeps _ _ (rc _) => apply keeps_eq; [apply keeps_rc|lia]
  | |- context [let '(_, _) := ?x in _] => is_var x; destruct x
  end.
Lemma keeps_write mx fd data : 0 ≤ fd < mx → keeps mx 0 (vfs_fat_write fd data).
Proof. unfold vfs_fat_write. keep. Qed.
Lemma keeps_read mx fd size : 0 ≤ fd < mx → keeps mx 0 (vfs_fat_read fd size).
Proof. unfold vfs_fat_read. keep. Qed.
Lemma keeps_pread mx fd size off : 0 ≤ fd < mx → keeps mx 0 (vfs_fat_pread fd size off).
Proof. unfold vfs_fat_pread. keep. Qed.
Lemma keeps_lseek mx fd off mode : 0 ≤ fd < mx → keeps mx 0 (vfs_fat_lseek fd off mode).
Proof. unfold vfs_fat_lseek. keep. Qed.
Lemma keeps_fsync mx fd : 0 ≤ fd < mx → keeps mx 0 (vfs_fat_fsync fd).
Proof. unfold vfs_fat_fsync. keep. Qed.
Lemma keeps_fstat mx fd : 0 ≤ fd < mx → keeps mx 0 (vfs_fat_fstat fd).
Proof. unfold vfs_fat_fstat. keep. Qed.
Lemma keeps_ftruncate mx fd len : 0 ≤ fd < mx → keeps mx 0 (vfs_fat_ftruncate fd len).
Proof. unfold vfs_fat_ftruncate. keep. Qed.
Lemma keeps_on_path mx op p : keeps mx 0 (on_path op p).
Proof. unfold on_path. keep. Qed.
Lemma keeps_rename mx p q : keeps mx 0 (vfs_fat_rename p q).
Proof. unfold vfs_fat_rename. keep. Qed.
Lemma keeps_stat mx mk p : keeps mx 0 (vfs_fat_stat mk p).
Proof. unfold vfs_fat_stat. keep. Qed.
Lemma keeps_access mx p a : keeps mx 0 (vfs_fat_access p a).
Proof. unfold vfs_fat_access. keep. Qed.
Lemma keeps_utime mx lt t p ts : keeps mx 0 (vfs_fat_utime lt t p ts).
Proof. unfold vfs_fat_utime. apply keeps_if; [apply keeps_fails|]. destruct (fat_of_tm _). apply keeps_on_path. Qed.
Lemma keeps_truncate mx b p len : keeps mx 0 (vfs_fat_truncate b p len).
Proof.
  unfold vfs_fat_truncate. apply keeps_if; [keep|]. apply (keeps_then _ 1); [apply keeps_acquire|intros _].
  apply (keeps_then _ 0); [keep|intros q]. apply keeps_if; [keep|]. apply (keeps_then _ 0); [keep|intros [r file]].
  apply keeps_if; [keep|]. apply (keeps_then _ (-1)); keep.
Qed.
Lemma keeps_copy mx cb st fuel size pf1 pf2 : 0 < cb → size ≤ Z.of_nat fuel → keeps mx 0 (copy_loop fuel cb st size pf1 pf2).
Proof.
  intros Hcb. revert size pf1 pf2. induction fuel as [|fuel IH]; intros size pf1 pf2 Hs; cbn [copy_loop].
  - rewrite (proj2 (Z.leb_le _ _)) by lia. keep.
  - destruct (Z.leb_spec size 0); [keep|]. keep. apply IH. destruct (Z.ltb_spec size cb); lia.
Qed.
Lemma keeps_link mx b st p q s : 0 < fs_csize s.(lib) → s.(max_files) = mx →
  ∃ a s', vfs_fat_link b st p q s = Ok (a, s') ∧ s'.(max_files) = mx ∧ s'.(lock) = s.(lock) ∧ ∀ fd, is_open s' fd = is_open s fd.
Proof.
  intros Hc Hs. set (s1 := with_lock (lock s + 1) s). unfold vfs_fat_link.
  rewrite (M_bind_run acquire _ _ tt s1) by done. rewrite (M_bind_run _ _ _ (prepend_drive_to_path p s1) s1) by done.
  rewrite (M_bind_run _ _ _ (prepend_drive_to_path q s1) s1) by done. rewrite (M_bind_run _ _ _ (fs_csize (lib s)) s1) by done.
  lazymatch goal with |- context [?m s1 = Ok _] => assert (keeps mx (-1) m) as Hm end.
  { apply keeps_if; [keep|]. apply (keeps_then _ 0); [keep|intros [r1 pf1]]. apply keeps_if; [keep|].
    apply (keeps_then _ 0); [keep|intros [r2 pf2]]. apply (keeps_then _ (-1)); [apply keeps_release|intros _].
    apply keeps_if; [keep|]. apply (keeps_then _ 0); [apply keeps_copy; lia|intros [[r3 pf1'] pf2']]. keep. }
  destruct (Hm s1 Hs) as (a & s' & H1 & H2 & H3 & H4). exists a, s'. split_and!; [done|done|cbn in H3; lia|done].
Qed.
Lemma keeps_opendir mx b p : keeps mx 0 (vfs_fat_opendir b p).
Proof. unfold vfs_fat_opendir. keep. Qed.
Lemma keeps_closedir mx d : keeps mx 0 (vfs_fat_closedir d).
Proof. unfold vfs_fat_closedir. keep. Qed.
Lemma keeps_readdir_r mx d : keeps mx 0 (vfs_fat_readdir_r d).
Proof. unfold vfs_fat_readdir_r. keep. Qed.
Lemma keeps_readdir mx d : keeps mx 0 (vfs_fat_readdir d).
Proof. unfold vfs_fat_readdir. keep. apply keeps_readdir_r. Qed.
Lemma keeps_seekdir_loop mx off fuel d : off ≤ d_offset d + Z.of_nat fuel → keeps mx 0 (seekdir_loop fuel off d).
Proof.
  revert d. induction fuel as [|fuel IH]; intros d Hd; cbn [seekdir_loop].
  - rewrite (proj2 (Z.ltb_ge _ _)) by lia. keep.
  - keep. apply IH. cbn. lia.
Qed.
Lemma keeps_seekdir mx d off : 0 ≤ d_offset d → keeps mx 0 (vfs_fat_seekdir d off).
Proof.
  intros Hd. unfold vfs_fat_seekdir. keep; apply keeps_seekdir_loop; cbn; lia.
Qed.

(** ** Opening and closing *)
#[local] Ltac msimpl :=
  cbv beta iota zeta delta [mbind M_bind mret M_ret gets modify c_fail lib_call acquire release set_errno fails rc the_file
    on_file file_cleanup good_fd with_lock with_append with_files with_errno with_lib negb
    fat_drive max_files lock o_append files errno lib].
Lemma next_fd_spec s :
  (get_next_fd s = -1 ∧ ∀ i, 0 ≤ i < s.(max_files) → is_open s i = true) ∨
  (0 ≤ get_next_fd s < s.(max_files) ∧ is_open s (get_next_fd s) = false ∧ ∀ j, 0 ≤ j < get_next_fd s → is_open s j = true).
Proof.
  unfold get_next_fd. destruct (find _ _) as [i|] eqn:E; unfold default, id.
  - apply find_seqZ_some in E as (Hi & Hf & Hj). right. unfold is_open. split; [lia|]. split; [by apply negb_true_iff|].
    intros j Hj'. apply negb_false_iff, Hj, Hj'.
  - left. split; [done|]. intros i Hi. unfold is_open. apply negb_false_iff, (find_seqZ_none _ _ _ _ E). lia.
Qed.
(** What [open] leaves, where the table has a free entry *)
Definition opened (s : fat_s) (fd flags : Z) (r : FRESULT) (fil : FIL P) (f : F) : fat_s :=
  Fat s.(fat_drive) s.(max_files) s.(lock)
    (if is_ok r then <[fd := bool_decide (Z.land flags O_APPEND = O_APPEND)]> s.(o_append) else s.(o_append))
    (if is_ok r then <[fd := fil]> s.(files) else <[fd := zero_fil]> (<[fd := fil]> s.(files)))
    (if is_ok r then s.(errno) else fresult_to_errno r) f.
Lemma vfs_fat_open_run p flags mode s :
  let fd := get_next_fd s in
  vfs_fat_open p flags mode s =
    if fd <? 0 then Ok (-1, with_errno ENFILE s) else
    let '(r, fil, f) := f_open (s.(files) fd) (prepend_drive_to_path p s) (fat_mode_conv flags) s.(lib) in
    Ok (if is_ok r then fd else -1, opened s fd flags r fil f).
Proof.
  cbv zeta. pose proof (next_fd_spec s) as Hn. destruct s as [drive mx lk app fls err lb]. unfold vfs_fat_open. msimpl.
  change (get_next_fd (Fat _ _ _ _ _ _ _)) with (get_next_fd (Fat drive mx lk app fls err lb)).
  set (fd := get_next_fd _) in *. cbn [max_files] in Hn. destruct (Z.ltb_spec fd 0).
  { unfold with_errno. cbn. by rewrite Z.add_simpl_r. }
  assert ((0 <=? fd) && (fd <? mx) = true) as -> by (rewrite andb_true_iff, Z.leb_le, Z.ltb_lt; lia).
  unfold prepend_drive_to_path. cbn [fat_drive files lib].
  destruct (f_open _ _ _ _) as [[r fil] f]. unfold opened. destruct (is_ok r); cbn; by rewrite Z.add_simpl_r.
Qed.
Lemma vfs_fat_close_run fd s : good_fd s fd = true →
  vfs_fat_close fd s =
    let '(r, fil, f) := f_close (s.(files) fd) s.(lib) in
    Ok (if is_ok r then 0 else -1,
        Fat s.(fat_drive) s.(max_files) s.(lock) s.(o_append) (<[fd := zero_fil]> (<[fd := fil]> s.(files)))
          (if is_ok r then s.(errno) else fresult_to_errno r) f).
Proof.
  intros Hfd. destruct s as [drive mx lk app fls err lb]. unfold vfs_fat_close, good_fd in *. cbn [max_files] in Hfd. msimpl. rewrite Hfd.
  destruct (f_close _ _) as [[r fil] f]. destruct (is_ok r); by rewrite Z.add_simpl_r.
Qed.
(** A write that finds the disk full returns with the lock taken. *)
Lemma vfs_fat_pwrite_lock mx fd src off s : s.(max_files) = mx → 0 ≤ fd < mx →
  ∃ a s', vfs_fat_pwrite fd src off s = Ok (a, s') ∧ s'.(max_files) = mx ∧ (∀ j, is_open s' j = is_open s j) ∧
    (s'.(lock) = s.(lock) ∨ s'.(lock) = s.(lock) + 1 ∧ a = -1 ∧ s'.(errno) = ENOSPC).
Proof.
  intros Hs Hfd. set (s1 := with_lock (lock s + 1) s). unfold vfs_fat_pwrite. rewrite (M_bind_run acquire _ _ tt s1) by done.
  destruct (keeps_the_file mx fd Hfd s1 Hs) as (file & s2 & E2 & M2 & L2 & O2). rewrite (M_bind_run _ _ _ _ _ E2). cbv zeta.
  destruct (keeps_on_file mx fd (λ fil, f_lseek fil (u64 off)) Hfd (λ fil f, fs_kept_seek fil _ f) s2 M2) as (r & s3 & E3 & M3 & L3 & O3).
  rewrite (M_bind_run _ _ _ _ _ E3). assert (∀ j, is_open s3 j = is_open s j) as O by (intros j; by rewrite O3, O2).
  assert (lock s3 = lock s + 1) as L by (cbn in L2; lia).
  assert (∀ A (m : G A), keeps mx (-1) m → ∃ a s', m s3 = Ok (a, s') ∧ max_files s' = mx ∧ (∀ j, is_open s' j = is_open s j) ∧ lock s' = lock s)
    as Hkeep.
  { intros A m Hm. destruct (Hm s3 M3) as (a & s' & E & M' & L' & O'). exists a, s'. split_and!; [done|done|intros j; by rewrite O'|lia]. }
  destruct (is_ok r); cbn [negb].
  2: { destruct (Hkeep _ (_ ← set_errno (fresult_to_errno r); _ ← release; mret (-1))) as (a & s' & H1 & H2 & H3 & H4); [keep|].
       exists a, s'. split_and!; try done. by left. }
  destruct (keeps_on_file mx fd (λ fil, f_write fil (take (Z.to_nat (u32 (Z.of_nat (length src)))) src)) Hfd
    (λ fil f, fs_kept_write fil _ f) s3 M3) as ([r4 wr] & s4 & E4 & M4 & L4 & O4). rewrite (M_bind_run _ _ _ _ _ E4).
  destruct (_ && is_ok r4).
  - eexists _, (with_errno ENOSPC s4). split; [reflexivity|]. split_and!; [done|intros j; cbn; by rewrite <-O, <-O4|right; cbn; split_and!; [lia|done|done]].
  - match goal with |- ∃ a s', ?m s4 = _ ∧ _ => assert (keeps mx (-1) m) as Hm by keep end.
    destruct (Hm s4 M4) as (a & s' & H1 & H2 & H3 & H4). exists a, s'. split_and!; [done|done|intros j; by rewrite H4, O4|left; lia].
Qed.
(** ** The calls on the table of open files *)
Definition call_fd (c : vfs_call) : option Z :=
  match c with
  | C_close fd | C_read fd _ _ | C_write fd _ _ | C_lseek fd _ _ | C_pread fd _ _ _ | C_pwrite fd _ _ _ | C_fstat fd _
  | C_fsync fd | C_ftruncate fd _ => Some fd
  | _ => None
  end.
Definition call_ok (c : vfs_call) (w : fat_w) : Prop :=
  (∀ fd, call_fd c = Some fd → 0 ≤ fd < w.(w_fat).(max_files)) ∧
  match c with C_link _ _ => 0 < fs_csize w.(w_fat).(lib) | C_seekdir d _ => 0 ≤ d_offset (w.(w_dirs) d) | _ => True end.
(** The same table, the lock given back unless a positioned write found the disk full *)
Definition same_table (w w' : fat_w) (c : vfs_call) (r : Z) : Prop :=
  w'.(w_stuck) = w.(w_stuck) ∧ w'.(w_fat).(max_files) = w.(w_fat).(max_files) ∧
  (∀ fd, is_open w'.(w_fat) fd = is_open w.(w_fat) fd) ∧
  (w'.(w_fat).(lock) = w.(w_fat).(lock) ∨
   (∃ fd src size off, c = C_pwrite fd src size off) ∧ r = -1 ∧ w'.(w_fat).(errno) = ENOSPC ∧ w'.(w_fat).(lock) = w.(w_fat).(lock) + 1).
Lemma run_same {A} (m : G A) k w c :
  keeps w.(w_fat).(max_files) 0 m → (∀ a w1, let w' := snd (k a w1) in w'.(w_fat) = w1.(w_fat) ∧ w'.(w_stuck) = w1.(w_stuck)) →
  same_table w (snd (run m k w)) c (fst (run m k w)).
Proof.
  intros Hm Hk. destruct (Hm _ eq_refl) as (a & s' & E & M' & L' & O'). unfold run. rewrite E.
  match goal with |- context [k a ?w1] => destruct (Hk a w1) as [E1 E2] end. cbv zeta in *.
  unfold same_table. rewrite E1, E2. split_and!; [done|done|done|left; cbn; lia].
Qed.
Lemma pop_heap_fat w : (snd (pop_heap w)).(w_fat) = w.(w_fat) ∧ (snd (pop_heap w)).(w_stuck) = w.(w_stuck) ∧ (snd (pop_heap w)).(w_dirs) = w.(w_dirs).
Proof. unfold pop_heap. by destruct (w_heap w). Qed.
Lemma same_table_popped w w1 w2 c r : w1.(w_fat) = w.(w_fat) → w1.(w_stuck) = w.(w_stuck) → same_table w1 w2 c r → same_table w w2 c r.
Proof. unfold same_table. by intros -> ->. Qed.
Definition touches_table (c : vfs_call) : bool := match c with C_open _ _ _ | C_close _ => true | _ => false end.
Lemma fat_run_same c w : call_ok c w → touches_table c = false → same_table w (snd (fat_run c w)) c (fst (fat_run c w)).
Proof.
  intros [Hfd Hc] Ht. destruct c; try done; cbn [fat_run]; try specialize (Hfd _ eq_refl);
    unfold vfs_fat_unlink, vfs_fat_mkdir, vfs_fat_rmdir;
    try (apply run_same; [by auto using keeps_read, keeps_write, keeps_lseek, keeps_pread, keeps_fstat, keeps_fsync, keeps_ftruncate,
      keeps_stat, keeps_utime, keeps_on_path, keeps_rename, keeps_access, keeps_readdir, keeps_readdir_r, keeps_closedir, keeps_seekdir
      |intros a ?; repeat case_match; done]).
  - destruct (vfs_fat_pwrite_lock _ fd (mem_read w.(w_mem) src size) off w.(w_fat) eq_refl Hfd) as (a & s' & E & M' & O' & L').
    unfold run. rewrite E. cbn. split_and!; [done|done|done|]. cbn. destruct L' as [|(? & -> & ?)]; [by left|right]. by split; [eauto|].
  - by split_and!; [..|left].
  - by split_and!; [..|left].
  - destruct (pop_heap_fat w) as (F1 & S1 & _). destruct (pop_heap w) as [a w1]. cbn in F1, S1.
    destruct (pop_heap_fat w1) as (F2 & S2 & _). destruct (pop_heap w1) as [b w2]. cbn in F2, S2.
    destruct (pop_heap_fat w2) as (F3 & S3 & _). destruct (pop_heap w2) as [c w3]. cbn in F3, S3.
    apply (same_table_popped _ w3); [congruence|congruence|]. rewrite <-F1, <-F2, <-F3 in Hc.
    destruct (keeps_link _ (bool_decide (is_Some a ∧ is_Some b ∧ is_Some c)) stale p q _ Hc eq_refl) as (r & s' & E & M' & L' & O').
    unfold run. rewrite E. split_and!; [done|done|done|by left].
  - destruct (pop_heap_fat w) as (F1 & S1 & _). destruct (pop_heap w) as [a w1]. cbn in F1, S1.
    apply (same_table_popped _ w1); [done|done|]. apply run_same; [apply keeps_truncate|done].
  - destruct (pop_heap_fat w) as (F1 & S1 & _). destruct (pop_heap w) as [a w1]. cbn in F1, S1.
    apply (same_table_popped _ w1); [done|done|]. apply run_same; [apply keeps_opendir|]. intros d ?. by destruct d.
  - by split_and!; [..|left].
Qed.
(** Opening takes the first free entry, and closing frees an entry, whatever the library answers. *)
Lemma fat_run_open p flags mode w : let '(r, w') := fat_run (C_open p flags mode) w in
  w'.(w_stuck) = w.(w_stuck) ∧ w'.(w_fat).(max_files) = w.(w_fat).(max_files) ∧
  ((r < 0 ∧ ∀ fd, is_open w'.(w_fat) fd = is_open w.(w_fat) fd) ∨
   (0 ≤ r < w.(w_fat).(max_files) ∧ is_open w.(w_fat) r = false ∧ (∀ j, 0 ≤ j < r → is_open w.(w_fat) j = true) ∧
    ∀ fd, is_open w'.(w_fat) fd = bool_decide (fd = r) || is_open w.(w_fat) fd)).
Proof.
  cbn [fat_run]. unfold run. rewrite vfs_fat_open_run. destruct (next_fd_spec (w_fat w)) as [[-> Hn]|(Hfd & Hfree & Hlow)].
  { cbn. split_and!; [done|done|]. left. by split; [lia|]. }
  rewrite (proj2 (Z.ltb_ge _ _)) by lia. set (fd := get_next_fd (w_fat w)) in *.
  destruct (f_open _ _ _ _) as [[r fil] f] eqn:E. cbn. split; [done|]. split; [done|]. unfold is_open, opened in *.
  destruct (is_ok r) eqn:Hr; cbn [files].
  - right. apply is_ok_spec in Hr as ->. destruct (open_ok _ _ _ _ _ _ E) as (Hg & _). apply good_ok in Hg as [Hg _].
    split_and!; try done; try lia. intros j. destruct (decide (j = fd)) as [-> |].
    + by rewrite fn_lookup_insert, bool_decide_eq_true_2.
    + by rewrite fn_lookup_insert_ne, bool_decide_eq_false_2.
  - left. split; [lia|]. intros j. destruct (decide (j = fd)) as [-> |]; [by rewrite fn_lookup_insert|by rewrite !fn_lookup_insert_ne].
Qed.
Lemma fat_run_close fd w : 0 ≤ fd < w.(w_fat).(max_files) → let '(r, w') := fat_run (C_close fd) w in
  w'.(w_stuck) = w.(w_stuck) ∧ w'.(w_fat).(max_files) = w.(w_fat).(max_files) ∧
  ∀ j, is_open w'.(w_fat) j = negb (bool_decide (j = fd)) && is_open w.(w_fat) j.
Proof.
  intros Hfd%good_fd_spec. cbn [fat_run]. unfold run. rewrite vfs_fat_close_run by done.
  destruct (f_close _ _) as [[r fil] f]. cbn. split; [done|]. split; [done|]. intros j. unfold is_open. cbn [files].
  destruct (decide (j = fd)) as [-> |].
  - by rewrite fn_lookup_insert, bool_decide_eq_true_2.
  - by rewrite !fn_lookup_insert_ne, bool_decide_eq_false_2.
Qed.

(** ** Positions and contents *)
Definition the_content (s : fat_s) (fd : Z) : list Z := content s.(lib) (s.(files) fd).
Definition good_file (s : fat_s) (fd : Z) : Prop := good s.(lib) (s.(files) fd).
Lemma u64_position f fil : good f fil → u64 (fptr fil) = fptr fil.
Proof. intros Hg. apply good_ok in Hg as (_ & Hp & _ & Hs). apply wrap_id. lia. Qed.
Lemma u64_offset f fil off : good f fil → 0 ≤ off ≤ objsize fil → u64 off = off.
Proof. intros Hg ?. apply good_ok in Hg as (_ & Hp & _ & Hs). apply wrap_id. lia. Qed.
(** Running an operation call by call *)
Lemma on_file_run {A} fd (op : FIL P → F → A * FIL P * F) s a fil f : good_fd s fd = true → op (s.(files) fd) s.(lib) = (a, fil, f) →
  on_file fd op s = Ok (a, with_lib f (with_files (<[fd := fil]> s.(files)) s)).
Proof. intros Hfd E. unfold on_file. by rewrite Hfd, E. Qed.
Lemma the_file_run fd s : good_fd s fd = true → the_file fd s = Ok (s.(files) fd, s).
Proof. intros Hfd. unfold the_file. by rewrite Hfd. Qed.
Lemma lib_call_run {A} (op : F → A * F) s a f : op s.(lib) = (a, f) → lib_call op s = Ok (a, with_lib f s).
Proof. intros E. unfold lib_call. by rewrite E. Qed.
#[local] Ltac fields := cbn [with_lock with_lib with_files with_errno with_append fat_drive max_files lock o_append files errno lib negb fst snd].
#[local] Ltac fields_in E :=
  cbn [with_lock with_lib with_files with_errno with_append fat_drive max_files lock o_append files errno lib negb fst snd] in E.
#[local] Ltac step :=
  match goal with
  | |- context [((the_file ?fd) ≫= ?k) ?s] => rewrite (M_bind_run (the_file fd) k s _ _ (the_file_run fd s ltac:(eassumption)))
  | |- context [((on_file ?fd ?op) ≫= ?k) ?s] =>
      let E := fresh "E" in let r := fresh "r" in let fil := fresh "fil" in let f := fresh "f" in
      destruct (op (files s fd) (lib s)) as [[r fil] f] eqn:E;
      rewrite (M_bind_run (on_file fd op) k s _ _ (on_file_run fd op s _ _ _ ltac:(eassumption) E)); fields_in E; rewrite ?fn_lookup_insert in E
  | |- context [((lib_call ?op) ≫= ?k) ?s] =>
      let E := fresh "E" in let r := fresh "r" in let f := fresh "f" in
      destruct (op (lib s)) as [r f] eqn:E;
      rewrite (M_bind_run (lib_call op) k s _ _ (lib_call_run op s _ _ E)); fields_in E
  | |- context [(?m ≫= ?k) ?s] => rewrite (M_bind_run m k s _ _ eq_refl)
  end; cbv zeta; fields;
  repeat match goal with |- context [let '(_, _) := ?x in _] => is_var x; let r := fresh "r" in let b := fresh "b" in destruct x as [r b] end.
(** The two outcomes of a call *)
#[local] Ltac outcome :=
  match goal with
  | |- context [is_ok ?r] => let Hr := fresh "Hr" in destruct (is_ok r) eqn:Hr; fields; [apply is_ok_spec in Hr; subst r|]
  end.

(** What [pread] reads successfully is the part of the file asked for, cut at its end, and the
    position, the content, [errno] and the lock are as before. *)
Theorem vfs_fat_pread_spec fd size off s r bs s' :
  good_fd s fd = true → good_file s fd → in_width 32 size → 0 ≤ off ≤ objsize (s.(files) fd) →
  vfs_fat_pread fd size off s = Ok (r, bs, s') → 0 ≤ r →
  bs = take (Z.to_nat size) (drop (Z.to_nat off) (the_content s fd)) ∧ r = Z.of_nat (length bs) ∧
  good_file s' fd ∧ fptr (s'.(files) fd) = fptr (s.(files) fd) ∧ the_content s' fd = the_content s fd ∧
  s'.(lock) = s.(lock) ∧ s'.(errno) = s.(errno).
Proof.
  intros Hfd Hg Hsize Hoff. unfold vfs_fat_pread, good_file, the_content in *.
  step. step. rewrite (u64_offset _ _ _ Hg Hoff), (u64_position _ _ Hg). step. outcome.
  2: { repeat step. intros [= <- <- <-] ?; lia. }
  destruct (seek_ok _ _ _ _ _ Hg (proj1 Hoff) E) as [Hg1 Hp1]. destruct Hp1 as [Hp1 Hc1]; [lia|].
  step. rewrite (wrap_id 32 size) in E0 by done. outcome.
  2: { step. step. outcome; repeat step; intros [= <- <- <-] ?; lia. }
  destruct (read_ok _ _ _ _ _ _ _ Hg1 (proj1 Hsize) E0) as [(Hg2 & Hc2 & Hok)|[? _]]; [|done].
  destruct (Hok eq_refl) as [-> _]. step. step. outcome.
  2: { rewrite (proj2 (Z.leb_le _ _)) by lia. repeat step. intros [= <- <- <-] ?; lia. }
  repeat step. intros [= <- <- <-] _. fields. rewrite fn_lookup_insert.
  pose proof (good_ok _ _ Hg) as (_ & Hp0 & Hl0 & _). pose proof (good_ok _ _ Hg2) as (_ & _ & Hl2 & _).
  destruct (seek_ok _ _ _ _ _ Hg2 (proj1 Hp0) E1) as [Hg3 Hp3]. destruct Hp3 as [Hp3 Hc3]; [rewrite Hl2, Hc2, Hc1; lia|].
  rewrite Hp1, Hc1. split_and!; try done; [congruence|lia].
Qed.
Lemma errno_not_nospc r : fresult_to_errno r ≠ ENOSPC.
Proof. by destruct r. Qed.
(** C32: a positioned write puts the bytes it reports at the place asked for and leaves the position
    and the lock as they were; an error gives the lock back too.  The exception is a disk
    found full: then the position has moved and the lock is never given back. *)
Theorem vfs_fat_pwrite_spec fd src off s r s' :
  good_fd s fd = true → good_file s fd → in_width 32 (Z.of_nat (length src)) → 0 ≤ off ≤ objsize (s.(files) fd) →
  vfs_fat_pwrite fd src off s = Ok (r, s') →
  if 0 <=? r then
    r ≤ Z.of_nat (length src) ∧ s'.(lock) = s.(lock) ∧ good_file s' fd ∧ fptr (s'.(files) fd) = fptr (s.(files) fd) ∧
    the_content s' fd = take (Z.to_nat off) (the_content s fd) ++ take (Z.to_nat r) src ++ drop (Z.to_nat (off + r)) (the_content s fd)
  else r = -1 ∧
    if decide (s'.(errno) = ENOSPC)
    then s'.(lock) = s.(lock) + 1 ∧ src ≠ [] ∧ fptr (s'.(files) fd) = off ∧ the_content s' fd = the_content s fd
    else s'.(lock) = s.(lock).
Proof.
  intros Hfd Hg Hlen Hoff. unfold vfs_fat_pwrite, good_file, the_content in *.
  step. step. rewrite (u64_offset _ _ _ Hg Hoff), (u64_position _ _ Hg). step. outcome.
  2: { repeat step. intros [= <- <-]. fields. split; [done|]. by rewrite decide_False by apply errno_not_nospc; lia. }
  destruct (seek_ok _ _ _ _ _ Hg (proj1 Hoff) E) as [Hg1 Hp1]. destruct Hp1 as [Hp1 Hc1]; [lia|].
  step. rewrite (wrap_id 32) in E0 by done. rewrite Nat2Z.id, firstn_all in E0.
  destruct (write_ok _ _ _ _ _ _ _ Hg1 E0) as [Hn Hw]. outcome.
  2: { rewrite andb_false_r. step. step. outcome; repeat step; intros [= <- <-]; fields; (split; [done|]);
       (rewrite decide_False by apply errno_not_nospc); lia. }
  destruct Hw as [(Hg2 & Hsz & Hok)|[? _]]; [|done]. destruct (Hok eq_refl) as [Hp2 Hc2]. rewrite Hp1, Hc1 in Hc2. rewrite andb_true_r.
  destruct ((b =? 0) && negb (Z.of_nat (length src) =? 0)) eqn:Hfull.
  { apply andb_true_iff in Hfull as [Hb%Z.eqb_eq Hs%negb_true_iff%Z.eqb_neq]. subst b. unfold fails. step. intros [= <- <-]. fields.
    rewrite decide_True by done. rewrite !fn_lookup_insert. split_and!; [done|done|by intros ->|lia|].
    rewrite Hc2, Z.add_0_r. cbn [app take Z.to_nat]. apply take_drop. }
  step. step. rewrite (proj2 (Z.leb_le 0 b)) by lia. outcome.
  2: { repeat step. intros [= <- <-]. fields. split; [done|]. rewrite decide_False by apply errno_not_nospc. lia. }
  repeat step. intros [= <- <-]. fields. rewrite (proj2 (Z.leb_le 0 b)), !fn_lookup_insert by lia.
  pose proof (good_ok _ _ Hg) as (_ & Hp0 & Hl0 & _). pose proof (good_ok _ _ Hg1) as (_ & _ & Hl1 & _).
  destruct (seek_ok _ _ _ _ _ Hg2 (proj1 Hp0) E1) as [Hg3 Hp3].
  destruct Hp3 as [Hp3 Hc3]; [rewrite Hl1, Hc1 in Hsz; lia|]. split_and!; [lia|lia|done|done|]. by rewrite Hc3.
Qed.

(** ** A link is a copy *)
Definition upper_halves (st : Z * Z) : Prop := 0 ≤ fst st ∧ 0 ≤ snd st.
Lemma copy_loop_copies fuel cb st size pf1 pf2 path2 s pf1' pf2' s' : 0 < cb < 2 ^ 16 → upper_halves st →
  good s.(lib) pf1 → good s.(lib) pf2 → apart pf1 pf2 → of_path pf2 path2 → size = objsize pf1 - fptr pf1 →
  fptr pf2 = objsize pf2 → content s.(lib) pf2 = take (Z.to_nat (fptr pf1)) (content s.(lib) pf1) →
  copy_loop fuel cb st size pf1 pf2 s = Ok (FR_OK, pf1', pf2', s') →
  good s'.(lib) pf2' ∧ of_path pf2' path2 ∧ content s'.(lib) pf2' = content s.(lib) pf1 ∧ (size ≤ 0 ∨ st = (0, 0)).
Proof.
  intros Hcb Hst. revert size pf1 pf2 s. induction fuel as [|fuel IH]; intros size pf1 pf2 s Hg1 Hg2 Hap Hpath Hsize He Hc; cbn [copy_loop];
    pose proof (good_ok _ _ Hg1) as (_ & Hp1 & Hl1 & _); (destruct (Z.leb_spec size 0);
      [intros [= <- <- <-]; split_and!; [done|done|rewrite Hc; apply take_ge; lia|by left]|]).
  { done. }
  set (n := if size <? cb then size else cb). assert (0 < n ≤ size ∧ n < 2 ^ 16) as [Hn Hn16] by (unfold n; destruct (Z.ltb_spec size cb); lia).
  step. rewrite (wrap_id 32 n) in E by lia. outcome; [|by intros [= -> <- <- <-]].
  pose proof (read_apart s.(lib) pf1 n pf2 (apart_sym _ _ Hap) Hg2) as Hframe.
  destruct (f_read pf1 n (lib s)) as [[[r' bs'] fil'] f'] eqn:E1. injection E as -> -> -> ->.
  destruct Hframe as (Hg2' & Hc2' & Hap').
  destruct (read_ok _ _ _ _ _ _ _ Hg1 (Z.lt_le_incl _ _ (proj1 Hn)) E1) as [(Hg1' & Hc1' & Hok)|[? _]]; [|done]. destruct (Hok eq_refl) as [Hbuf Hpos].
  assert (Z.of_nat (length b0) = n) as Hlen by (rewrite Hbuf, length_take, length_drop; lia).
  destruct (Z.eqb_spec (Z.of_nat (length b0) + 2 ^ 32 * st.1) n) as [Est1|]; [cbn [negb]|done].
  step. outcome; [|by intros [= -> <- <- <-]].
  pose proof (write_apart f pf2 b0 b (apart_sym _ _ Hap') Hg1') as Hframe. pose proof (write_path f pf2 b0 path2 Hpath) as Hpath'.
  destruct (f_write pf2 b0 f) as [[[r' w'] fil'] f'] eqn:E2. injection E as -> -> -> ->. cbn [fst snd] in Hpath'.
  destruct Hframe as (Hg1'' & Hc1'' & Hap'').
  destruct (write_ok _ _ _ _ _ _ _ Hg2' E2) as [Hn2 [(Hg2'' & _ & Hok2)|[? _]]]; [|done]. destruct (Hok2 eq_refl) as [Hpos2 Hc2''].
  destruct (Z.eqb_spec (b2 + 2 ^ 32 * st.2) n) as [Est2|]; [cbn [negb]|done].
  destruct Hst as [Hst1 Hst2]. assert (st.1 = 0 ∧ st.2 = 0) as [Hs1 Hs2] by lia.
  pose proof (good_ok _ _ Hg2') as (_ & Hp2 & Hl2 & _). pose proof (good_ok _ _ Hg2'') as (_ & _ & Hl2'' & _).
  pose proof (good_ok _ _ Hg1'') as (_ & _ & Hl1'' & _).
  assert (content f0 b1 = take (Z.to_nat (fptr pf1 + n)) (content (lib s) pf1)) as Hcopy.
  { rewrite Hc2'', (take_ge b0), (take_ge (content f pf2)), (drop_ge (content f pf2)), app_nil_r by lia.
    rewrite Hc2', Hc, Hbuf, Z2Nat.inj_add by lia. apply take_take_drop. }
  intros Hrun. apply IH in Hrun as (? & ? & Hend & _); fields; try done.
  - split_and!; [done|done|rewrite Hend; fields; congruence|]. right. destruct st; cbn in *; congruence.
  - rewrite Hl1'', Hc1'', Hc1'. lia.
  - rewrite Hpos2, Hl2'', Hcopy, length_take. rewrite He, Hl2, Hc2', Hc, length_take. lia.
  - rewrite Hcopy, Hc1'', Hc1', Hpos. f_equal. lia.
Qed.
Lemma rc_zero r s s' : rc r s = Ok (0, s') ↔ r = FR_OK ∧ s = s'.
Proof.
  unfold rc. destruct (is_ok r) eqn:Hr.
  - apply is_ok_spec in Hr as ->. split; [by intros [= ->]|by intros [_ ->]].
  - split; [done|]. intros [-> _]. done.
Qed.
(** A link is a copy.  When it reports success, what was handed to [f_close] under the second
    name has all the bytes the first name has on the disk, and is on the disk when [f_close]
    succeeds, which is not looked at.  For a file that is not empty it can report success
    only if the upper halves of two variables, never written, happen to be zero. *)
Theorem vfs_fat_link_spec malloc st n1 n2 s s' :
  0 < fs_csize s.(lib) < 2 ^ 16 → upper_halves st → vfs_fat_link malloc st n1 n2 s = Ok (0, s') →
  ∃ c pf1 pf2 f, on_disk s.(lib) (prepend_drive_to_path n1 s) = Some c ∧ good f pf2 ∧ content f pf2 = c ∧
    s'.(lib) = snd (f_close pf1 (snd (f_close pf2 f))) ∧
    (is_ok (fst (fst (f_close pf2 f))) = true → on_disk (snd (f_close pf2 f)) (prepend_drive_to_path n2 s) = Some c) ∧
    (c = [] ∨ st = (0, 0)).
Proof.
  intros Hcb Hst. unfold vfs_fat_link. step. step. step. step. destruct malloc; cbn [negb]; [|repeat step; done].
  step. outcome; [|unfold rc; step; destruct (is_ok _); done].
  change (Z.lor FA_READ FA_OPEN_EXISTING) with FA_READ in *.
  destruct (open_ok _ _ _ _ _ _ E) as (Hg1 & Hp1 & _ & Hdisk & _).
  step. step. outcome; [|step; unfold rc; destruct (is_ok _); done].
  change (prepend_drive_to_path ?p (with_lock _ s)) with (prepend_drive_to_path p s) in *.
  destruct (open_ok _ _ _ _ _ _ E0) as (Hg2 & Hp2 & Hpath & _ & Hnew). destruct (Hnew eq_refl) as [Hempty Hkeep].
  destruct (Hkeep b Hg1) as (Hg1' & Hc1 & Hap).
  rewrite M_bind_Ok. intros ([[r pf1] pf2] & s3 & Hcopy & Hrun). revert Hrun. step. step. rewrite rc_zero. intros [-> <-]. fields.
  pose proof (good_ok _ _ Hg1) as (_ & _ & Hl1 & _). pose proof (good_ok _ _ Hg2) as (_ & _ & Hl2 & _).
  apply (copy_loop_copies _ _ _ _ _ _ (prepend_drive_to_path n2 s)) in Hcopy as (Hg3 & Hpath3 & Hc3 & Hst3); fields; try done.
  2: { rewrite Hp1. lia. }
  2: { by rewrite Hl2, Hempty, Hp2. }
  2: { by rewrite Hempty, Hp1. }
  exists (content f b), pf1, pf2, (lib s3). split_and!; [by apply Hdisk|done|by rewrite Hc3| | |].
  - destruct (f_close pf2 (lib s3)) as [[r4 pf4] f4]. injection E1 as <- <-. cbn. by rewrite E2.
  - destruct (f_close pf2 (lib s3)) as [[r4 pf4] f4] eqn:Eclose. cbn. intros ->%is_ok_spec. rewrite <-Hc1.
    fields_in Hc3. rewrite <-Hc3. by apply (close_ok _ _ _ _ _ Hg3 Hpath3 Eclose).
  - destruct Hst3 as [Hz|]; [left|by right]. apply nil_length_inv. lia.
Qed.
(** A write that reports no error puts the bytes it counts at the position, or behind the last
    byte when the file was opened with [O_APPEND], wherever the position was. *)
Lemma errno_not_none r : r ≠ FR_OK → fresult_to_errno r ≠ E_NONE.
Proof. by destruct r. Qed.
Lemma not_ok r : is_ok r = false → r ≠ FR_OK.
Proof. by intros H2 ->. Qed.
Theorem vfs_fat_write_spec fd data s r s' :
  good_fd s fd = true → good_file s fd → in_width 32 (Z.of_nat (length data)) → s.(errno) = E_NONE →
  vfs_fat_write fd data s = Ok (r, s') → s'.(errno) = E_NONE →
  let at_ := if s.(o_append) fd then objsize (s.(files) fd) else fptr (s.(files) fd) in
  0 ≤ r ≤ Z.of_nat (length data) ∧ good_file s' fd ∧ fptr (s'.(files) fd) = at_ + r ∧
  the_content s' fd = take (Z.to_nat at_) (the_content s fd) ++ take (Z.to_nat r) data ++ drop (Z.to_nat (at_ + r)) (the_content s fd).
Proof.
  intros Hfd Hg Hlen He Hrun He'. cbv zeta. revert Hrun. unfold vfs_fat_write, good_file, the_content in *. step. step.
  assert (∃ r1 fil1 s1, (if s.(o_append) fd then on_file fd (λ fil, f_lseek fil (objsize fil)) else mret FR_OK) s = Ok (r1, s1) ∧
    good_fd s1 fd = true ∧ s1.(errno) = E_NONE ∧ s1.(files) fd = fil1 ∧ (r1 = FR_OK → good s1.(lib) fil1 ∧
      fptr fil1 = (if s.(o_append) fd then objsize (s.(files) fd) else fptr (s.(files) fd)) ∧ content s1.(lib) fil1 = content s.(lib) (s.(files) fd)))
    as (r1 & fil1 & s1 & Hm & Hfd1 & He1 & Hf1 & Hok1).
  { pose proof (good_ok _ _ Hg) as (_ & Hp & _ & _). destruct (o_append s fd).
    - unfold on_file. rewrite Hfd. destruct (f_lseek _ _ _) as [[r1 fil1] f1] eqn:E. eexists _, fil1, _. split; [reflexivity|]. fields.
      rewrite fn_lookup_insert. split_and!; try done. intros ->. assert (0 ≤ objsize (files s fd)) as H0 by lia.
      destruct (seek_ok _ _ _ _ _ Hg H0 E) as [Hg1 Hp1]. split; [done|]. apply Hp1. lia.
    - by eexists _, _, s. }
  rewrite (M_bind_run _ _ _ _ _ Hm). destruct (is_ok r1) eqn:Hr1; cbn [negb].
  2: { unfold fails. intros [= <- <-]. apply not_ok, errno_not_none in Hr1. done. }
  apply is_ok_spec in Hr1 as ->. destruct (Hok1 eq_refl) as (Hg1 & Hp1 & Hc1).
  step. rewrite Hf1, (wrap_id 32), Nat2Z.id, firstn_all in E by done. destruct (write_ok _ _ _ _ _ _ _ Hg1 E) as [Hn Hw]. outcome.
  2: { rewrite andb_false_r. apply not_ok, errno_not_none in Hr. step. destruct (b =? 0); intros [= <- <-]; done. }
  rewrite andb_true_r. destruct ((b =? 0) && _); [unfold fails; intros [= <- <-]; done|]. intros [= <- <-]. fields. rewrite fn_lookup_insert.
  destruct Hw as [(Hg2 & _ & Hok)|[? _]]; [|done]. destruct (Hok eq_refl) as [Hp2 Hc2]. rewrite Hp1, Hc1 in Hc2. rewrite Hp1 in Hp2. done.
Qed.
End fat.
Arguments Fat {F P}.
Arguments fat_s : clear implicits.
Arguments vfs_fat_dir_t : clear implicits.
Arguments fat_w : clear implicits.
Arguments FatW {F P D}.

(** ** A volume with two files, one of them open *)
Module Demo.
Import Toy.
Definition a : path := ["0"; ":"; "/"; "a"]%char.
Definition b : path := ["0"; ":"; "/"; "b"]%char.
Definition disk : vol := put (put (λ _, None) a (Some [1; 2; 3])) b (Some [1; 2; 3; 4; 5; 6; 7; 8]).
Definition fresh : fat_s vol Toy.P := Fat ["0"; ":"]%char 2 0 (λ _, false) (λ _, zero_fil) E_NONE disk.
Definition after {A} (m : res (A * fat_s vol Toy.P)) : fat_s vol Toy.P := match m with Ok (_, s) => s | Fault _ => fresh end.
Definition a_open : fat_s vol Toy.P := after (vfs_fat_open ["/"; "a"]%char O_RDWR 0 fresh).
Definition b_open : fat_s vol Toy.P := after (vfs_fat_open ["/"; "b"]%char O_RDWR 0 fresh).
Lemma a_good : good_file a_open 0.
Proof. split; [done|]. exists [1; 2; 3]. by split_and!. Qed.
Lemma b_good : good_file b_open 0.
Proof. split; [done|]. exists [1; 2; 3; 4; 5; 6; 7; 8]. by split_and!. Qed.
Lemma vfs_fat_pread_spec_witness : ∃ r bs s', vfs_fat_pread 0 5 1 a_open = Ok (r, bs, s') ∧ bs = [2; 3] ∧ fptr (s'.(files) 0) = 0.
Proof.
  destruct (vfs_fat_pread 0 5 1 a_open) as [[[r bs] s']|] eqn:E; [|exfalso; by vm_compute in E]. exists r, bs, s'. split; [done|].
  destruct (vfs_fat_pread_spec 0 5 1 a_open r bs s' eq_refl a_good) as (-> & _ & _ & Hp & _); [done|by split|exact E| |].
  - vm_compute in E. injection E as <- _ _. done.
  - by split; [|rewrite Hp].
Defined.
(** The disk is full behind the eighth byte. *)
Lemma vfs_fat_pwrite_spec_witness : ∃ s', vfs_fat_pwrite 0 [9] 8 b_open = Ok (-1, s') ∧ s'.(lock) = 1 ∧ fptr (s'.(files) 0) = 8.
Proof.
  destruct (vfs_fat_pwrite 0 [9] 8 b_open) as [[r s']|] eqn:E; [|exfalso; by vm_compute in E].
  assert (r = -1 ∧ errno s' = ENOSPC) as [-> He] by (vm_compute in E; injection E as <- <-; done).
  pose proof (vfs_fat_pwrite_spec 0 [9] 8 b_open (-1) s' eq_refl b_good) as H. destruct H as [_ H]; [done|by split|exact E|].
  rewrite decide_True in H by exact He. destruct H as (Hl & _ & Hp & _). exists s'. split; [done|]. by rewrite Hl, Hp.
Defined.
Lemma vfs_fat_link_spec_witness : ∃ s', vfs_fat_link true (0, 0) ["/"; "a"]%char ["/"; "c"]%char fresh = Ok (0, s') ∧
  s'.(lib) ["0"; ":"; "/"; "c"]%char = Some [1; 2; 3].
Proof.
  destruct (vfs_fat_link true (0, 0) ["/"; "a"]%char ["/"; "c"]%char fresh) as [[r s']|] eqn:E; [|exfalso; by vm_compute in E].
  assert (r = 0) as -> by (vm_compute in E; by injection E). exists s'. split; [done|].
  destruct (vfs_fat_link_spec true (0, 0) _ _ fresh s' ltac:(by split) ltac:(by split) E) as (c & pf1 & pf2 & f & Hd & _ & _ & -> & Hc & _).
  change (Some [1; 2; 3] = Some c) in Hd. injection Hd as <-. by apply Hc.
Defined.
Lemma fat_time_roundtrip_witness : tm_of_fat (fst (fat_of_tm (Tm 59 30 12 24 6 126))) (snd (fat_of_tm (Tm 59 30 12 24 6 126))) = Tm 58 30 12 24 6 126.
Proof. exact (proj2 (proj2 (fat_time_roundtrip (Tm 59 30 12 24 6 126) ltac:(by split) ltac:(by split) ltac:(by split) ltac:(by split) ltac:(by split) ltac:(done)))). Defined.
End Demo.
