(* ===== verification/FatSession.v ===== *)
(** * The switch in front of one FAT volume

    [Vfs] with the calls of [VfsFat] as its file system.  The switch keeps the local
    descriptor of a file in eight bits and hands out descriptors of its own; the volume has
    its table of open files.  The sessions below are everything a program can do with files
    and names once the volume is registered, and the theorem is that the two tables never
    disagree. *)

From Stdlib Require Import Ascii.
From S2P Require Import Prelude Vfs FatFs VfsFat.

Section session.
Context {F P D : Type} `{FatFsLaws F P D}.
Context (mktime : tm → Z) (localtime : Z → tm) (now : F → Z) (stale : Z * Z).
Context (put_stat : Z → stat_t → (Z → Z) → Z → Z) (put_dirent : Z → dirent → (Z → Z) → Z → Z)
  (put_ptr : Z → Z → (Z → Z) → Z → Z) (cur_dirent : Z → Z) (get_times : (Z → Z) → Z → option Z).
Context {X : Type} (MAX_FDS mx : Z).
(** The local descriptor goes through a [uint8_t]. *)
Hypothesis Hmx : 0 ≤ mx ≤ 256.

(** What esp_vfs_fat_register passes to the switch: every call but [fcntl] and [ioctl], with
    the context pointer *)
Definition fat_v_has (_ : unit) (c : vfs_call) : bool := fat_has c.
Definition fat_v_ctx (_ : unit) : bool := true.
Definition fat_v_run (_ : unit) (_ : option X) (c : vfs_call) (w : fat_w F P D) : Z * fat_w F P D :=
  fat_run mktime localtime now stale put_stat put_dirent put_ptr cur_dirent get_times c w.
#[local] Notation switch := (vfs_t unit X).
#[local] Notation world := (fat_w F P D).
#[local] Notation do_open := (esp_vfs_open fat_v_has fat_v_ctx fat_v_run MAX_FDS).
#[local] Notation do_close := (esp_vfs_close fat_v_has fat_v_ctx fat_v_run MAX_FDS).
#[local] Notation do_fd := (fd_call fat_v_has fat_v_ctx fat_v_run MAX_FDS).
#[local] Notation do_path := (path_call fat_v_has fat_v_ctx fat_v_run).
#[local] Notation do_path2 := (path_call2 fat_v_has fat_v_ctx fat_v_run).

(** A call on a descriptor: reading, writing, seeking, ... *)
Definition file_call (c : Z → vfs_call) : Prop := ∀ l, call_fd (c l) = Some l ∧ touches_table (c l) = false.
(** A call on a name; a link needs a mounted volume, whose clusters have sectors. *)
Definition name_call (w : world) (c : vfs_call) : Prop :=
  call_fd c = None ∧ touches_table c = false ∧ (∀ d o, c ≠ C_seekdir d o) ∧
  ((∃ p q, c = C_link p q) → 0 < fs_csize w.(w_fat).(lib)).
Inductive session_step : switch * world → switch * world → Prop :=
| S_open p flags mode s w fd e s' w' : do_open p flags mode s w = Ok (fd, e, s', w') → session_step (s, w) (s', w')
| S_close fd s w r e s' w' : do_close fd s w = (r, e, s', w') → session_step (s, w) (s', w')
| S_fd c fd d e0 s w r e w' : file_call c → do_fd fd c (d, e0, w) s w = (r, e, w') → session_step (s, w) (s, w')
| S_name p c s w r e w' : (∀ q, name_call w (c q)) → do_path p c s w = Ok (r, e, w') → session_step (s, w) (s, w')
| S_names p1 p2 c s w r e w' : (∀ q1 q2, name_call w (c q1 q2)) → do_path2 p1 p2 c s w = Ok (r, e, w') →
    session_step (s, w) (s, w').
(** The program's own stores, and what happens on the disk *)
Inductive session : switch * world → Prop :=
| session_start (base : path) x s w : esp_vfs_register base tt x true vfs_init = (ESP_OK, s) →
    w.(w_stuck) = None → w.(w_fat).(max_files) = mx → (∀ l, is_open w.(w_fat) l = false) → session (s, w)
| session_next a b : session a → session_step a b → session b.

(** ** The two tables agree *)
Definition used (s : switch) (fd : Z) : Prop := 0 ≤ fd < MAX_FDS ∧ vfs_index (s.(s_fd_table) fd) ≠ -1.
Definition local (s : switch) (fd : Z) : Z := local_fd (s.(s_fd_table) fd).
Record agree (s : switch) (w : world) : Prop := {
  a_ok : vfs_ok s;
  a_count : s.(s_vfs_count) = 1;
  a_vfs : is_Some (s.(s_vfs) 0);
  a_stuck : w.(w_stuck) = None;
  a_max : w.(w_fat).(max_files) = mx;
  a_entry : ∀ fd, s.(s_fd_table) fd = FD_TABLE_ENTRY_UNUSED ∨
    0 ≤ fd < MAX_FDS ∧ ∃ l, s.(s_fd_table) fd = FdEntry false false false 0 l ∧ 0 ≤ l < mx ∧ is_open w.(w_fat) l = true;
  a_inj : ∀ fd fd', used s fd → used s fd' → local s fd = local s fd' → fd = fd';
  a_onto : ∀ l, is_open w.(w_fat) l = true → ∃ fd, used s fd ∧ local s fd = l
}.
Lemma unused_index s w fd : agree s w → vfs_index (s.(s_fd_table) fd) = -1 ↔ s.(s_fd_table) fd = FD_TABLE_ENTRY_UNUSED.
Proof. intros Ha. split; [|by intros ->]. destruct (a_entry _ _ Ha fd) as [|(_ & l & -> & _)]; [done|]. done. Qed.
Lemma used_spec s w fd : agree s w → used s fd →
  0 ≤ fd < MAX_FDS ∧ s.(s_fd_table) fd = FdEntry false false false 0 (local s fd) ∧ 0 ≤ local s fd < mx ∧ is_open w.(w_fat) (local s fd) = true.
Proof.
  intros Ha [Hfd Hu]. split; [done|]. unfold local. destruct (a_entry _ _ Ha fd) as [E|(_ & l & E & Hl & Ho)]; rewrite E in *; done.
Qed.
#[local] Ltac agree_kept Ha :=
  split; try first [exact (a_ok _ _ Ha)|exact (a_count _ _ Ha)|exact (a_vfs _ _ Ha)|exact (a_inj _ _ Ha)].
(** Calls that change neither table *)
Lemma agree_same s w w' : agree s w → w'.(w_stuck) = w.(w_stuck) → w'.(w_fat).(max_files) = w.(w_fat).(max_files) →
  (∀ l, is_open w'.(w_fat) l = is_open w.(w_fat) l) → agree s w'.
Proof.
  intros Ha H1 H2 H3. agree_kept Ha; [rewrite H1; apply (a_stuck _ _ Ha)|rewrite H2; apply (a_max _ _ Ha)| |].
  - intros fd. destruct (a_entry _ _ Ha fd) as [|(? & l & ? & ? & ?)]; [by left|right].
    split; [done|]. exists l. by rewrite H3.
  - intros l. rewrite H3. apply (a_onto _ _ Ha).
Qed.
Lemma agree_run s w c : agree s w → call_ok c w → touches_table c = false →
  agree s (snd (fat_v_run tt (None : option X) c w)).
Proof.
  intros Ha Hc Ht. destruct (fat_run_same mktime localtime now stale put_stat put_dirent put_ptr cur_dirent get_times c w Hc Ht) as (H1 & H2 & H3 & _).
  by apply (agree_same s w).
Qed.
(** The lowest free descriptor of the switch leads to the file just opened. *)
Lemma agree_open s w w' fd l : agree s w → unused_fd (Z.to_nat MAX_FDS) 0 s = Some fd →
  w'.(w_stuck) = w.(w_stuck) → w'.(w_fat).(max_files) = w.(w_fat).(max_files) → 0 ≤ l < mx → is_open w.(w_fat) l = false →
  (∀ j, is_open w'.(w_fat) j = bool_decide (j = l) || is_open w.(w_fat) j) → agree (take_fd fd false 0 l s) w'.
Proof.
  intros Ha Hfd H1 H2 Hl Hfree Hopen. pose proof (unused_fd_spec (Z.to_nat MAX_FDS) 0 s) as Hs. rewrite Hfd in Hs.
  destruct Hs as (Hfd' & Hun & _). rewrite (unused_index s w fd Ha) in Hun.
  assert (take_fd fd false 0 l s = set_fd fd (FdEntry false false false 0 l) s) as ->.
  { unfold take_fd. rewrite Hun. cbn. by rewrite wrap_id by lia. }
  set (e := FdEntry false false false 0 l). set (s' := set_fd fd e s).
  assert (∀ j, s_fd_table s' j = if decide (j = fd) then e else s_fd_table s j) as Htab.
  { intros j. cbn. case_decide as E; [subst j; by rewrite fn_lookup_insert|by rewrite fn_lookup_insert_ne]. }
  assert (∀ j, used s' j → j = fd ∨ j ≠ fd ∧ used s j) as Hused.
  { intros j [Hj Hu]. rewrite Htab in Hu. case_decide; [by left|right]. by split. }
  assert (∀ j, used s j → j ≠ fd ∧ used s' j ∧ local s' j = local s j) as Hold.
  { intros j [Hj Hu]. assert (j ≠ fd) by (intros ->; by rewrite Hun in Hu). unfold used, local. rewrite Htab, decide_False by done. done. }
  assert (local s' fd = l) as Hlocal by (unfold local; by rewrite Htab, decide_True).
  agree_kept Ha; [|by rewrite H1; apply (a_stuck _ _ Ha)|by rewrite H2; apply (a_max _ _ Ha)| | |].
  - apply set_fd_ok; [apply Ha|cbn; rewrite (a_count _ _ Ha); lia|cbn; lia].
  - intros j. rewrite Htab. case_decide as E.
    + right. subst j. split; [lia|]. exists l. split; [done|]. split; [done|]. by rewrite Hopen, bool_decide_eq_true_2.
    + destruct (a_entry _ _ Ha j) as [|(Hj & k & Ek & Hk & Ho)]; [by left|right]. split; [done|]. exists k. rewrite Hopen, Ho, orb_true_r. done.
  - assert (∀ j, used s j → local s j ≠ l) as Hne.
    { intros j Hj E. apply (used_spec _ _ _ Ha) in Hj as (_ & _ & _ & Ho). rewrite E, Hfree in Ho. done. }
    intros j j' [-> |[Hjn Hj]]%Hused [-> |[Hjn' Hj']]%Hused E; [done|..].
    + rewrite Hlocal in E. destruct (Hold j' Hj') as (_ & _ & E'). by destruct (Hne j' Hj'); rewrite <-E'.
    + rewrite Hlocal in E. destruct (Hold j Hj) as (_ & _ & E'). by destruct (Hne j Hj); rewrite <-E'.
    + destruct (Hold j Hj) as (_ & _ & E1), (Hold j' Hj') as (_ & _ & E2). apply (a_inj _ _ Ha); [done|done|congruence].
  - intros k Hk. rewrite Hopen in Hk. apply orb_true_iff in Hk as [->%bool_decide_eq_true|Hk].
    + exists fd. split; [|done]. split; [lia|]. by rewrite Htab, decide_True.
    + destruct (a_onto _ _ Ha k Hk) as (j & Hj & Ej). exists j. destruct (Hold j Hj) as (_ & Hu & E). by rewrite E.
Qed.
Lemma agree_close s w w' fd : agree s w → used s fd →
  w'.(w_stuck) = w.(w_stuck) → w'.(w_fat).(max_files) = w.(w_fat).(max_files) →
  (∀ j, is_open w'.(w_fat) j = negb (bool_decide (j = local s fd)) && is_open w.(w_fat) j) →
  agree (set_fd fd FD_TABLE_ENTRY_UNUSED s) w'.
Proof.
  intros Ha Hfd H1 H2 Hopen. set (s' := set_fd fd FD_TABLE_ENTRY_UNUSED s).
  assert (∀ j, s_fd_table s' j = if decide (j = fd) then FD_TABLE_ENTRY_UNUSED else s_fd_table s j) as Htab.
  { intros j. cbn. case_decide as E; [subst j; by rewrite fn_lookup_insert|by rewrite fn_lookup_insert_ne]. }
  assert (∀ j, used s' j ↔ j ≠ fd ∧ used s j) as Hused.
  { intros j. unfold used. rewrite Htab. case_decide; [|tauto]. split; [by intros [_ ?]|by intros [? _]]. }
  assert (∀ j, j ≠ fd → local s' j = local s j) as Hlocal by (intros j Hj; unfold local; by rewrite Htab, decide_False).
  agree_kept Ha; [by apply set_fd_unused_ok, Ha|by rewrite H1; apply (a_stuck _ _ Ha)|by rewrite H2; apply (a_max _ _ Ha)| | |].
  - intros j. rewrite Htab. case_decide as E; [by left|].
    destruct (a_entry _ _ Ha j) as [|(Hj & k & Ek & Hk & Ho)]; [by left|right]. split; [done|]. exists k. split; [done|]. split; [done|].
    rewrite Hopen, Ho, andb_true_r. apply negb_true_iff, bool_decide_eq_false_2. intros ->. apply E. apply (a_inj _ _ Ha); [by split; rewrite ?Ek|done|].
    unfold local at 1. by rewrite Ek.
  - intros j j' [Hn Hj]%Hused [Hn' Hj']%Hused. rewrite !Hlocal by done. by apply (a_inj _ _ Ha).
  - intros k Hk. rewrite Hopen in Hk. apply andb_true_iff in Hk as [Hne%negb_true_iff%bool_decide_eq_false Hk].
    destruct (a_onto _ _ Ha k Hk) as (j & Hj & Ej). exists j. assert (j ≠ fd) by (intros ->; congruence). rewrite Hused, Hlocal by done. done.
Qed.

(** ** Every step keeps them in agreement *)
Lemma step_open s w p flags mode fd e s' w' : agree s w → do_open p flags mode s w = Ok (fd, e, s', w') → agree s' w'.
Proof.
  intros Ha E. destruct (open_cases fat_v_has fat_v_ctx fat_v_run MAX_FDS p flags mode s w (a_ok _ _ Ha))
    as [[_ E']|(i & en & q & _ & _ & _ & Hi & _ & E')]; rewrite E' in E; [by injection E as <- <- <- <-|].
  assert (i = 0) as -> by (rewrite (a_count _ _ Ha) in Hi; lia). clear E' Hi. revert E. unfold check_and_call. cbn [negb fat_v_has fat_has].
  change (fat_v_run (vfs en) ?c ?call w) with (fat_run mktime localtime now stale put_stat put_dirent put_ptr cur_dirent get_times call w).
  pose proof (fat_run_open mktime localtime now stale put_stat put_dirent put_ptr cur_dirent get_times q flags mode w) as Hopen.
  destruct (fat_run _ _ _ _ _ _ _ _ _ (C_open q flags mode) w) as [l w1]. destruct Hopen as (H1 & H2 & [[Hl H3]|(Hl & Hfree & _ & H3)]).
  - rewrite (proj2 (Z.ltb_lt _ _)) by lia. intros [= <- <- <- <-]. by apply (agree_same s w).
  - rewrite (proj2 (Z.ltb_ge _ _)) by lia. rewrite (a_max _ _ Ha) in Hl. destruct (unused_fd (Z.to_nat MAX_FDS) 0 s) as [j|] eqn:Hj.
    + intros [= <- <- <- <-]. by apply (agree_open s w).
    + change (fat_v_run (vfs en) ?c ?call w1) with (fat_run mktime localtime now stale put_stat put_dirent put_ptr cur_dirent get_times call w1).
      pose proof (fat_run_close mktime localtime now stale put_stat put_dirent put_ptr cur_dirent get_times l w1) as Hclose.
      destruct (fat_run _ _ _ _ _ _ _ _ _ (C_close l) w1) as [r w2].
      destruct Hclose as (H4 & H5 & H6); [rewrite H2, (a_max _ _ Ha); lia|]. intros [= <- <- <- <-].
      apply (agree_same s w); [done|congruence|congruence|]. intros k. rewrite H6, H3.
      case_bool_decide as Ek; [subst k; by rewrite Hfree|done].
Qed.
Lemma fd_leads s w fd : agree s w → get_vfs_for_fd MAX_FDS fd s = None ∨ used s fd ∧ ∃ e, get_vfs_for_fd MAX_FDS fd s = Some e.
Proof.
  intros Ha. unfold get_vfs_for_fd, fd_valid. destruct (Z.ltb_spec fd MAX_FDS), (Z.leb_spec 0 fd); try (by left). cbn [andb].
  destruct (a_entry _ _ Ha fd) as [E|(_ & l & E' & _)]; [left; by rewrite E|]. rewrite E'. cbn [vfs_index].
  rewrite get_vfs_for_index_in by (rewrite (a_count _ _ Ha); lia). destruct (a_vfs _ _ Ha) as [e He]. right. rewrite He. split; [|by exists e].
  split; [lia|]. by rewrite E'.
Qed.
Lemma step_close s w fd r e s' w' : agree s w → do_close fd s w = (r, e, s', w') → agree s' w'.
Proof.
  intros Ha. unfold esp_vfs_close. destruct (fd_leads s w fd Ha) as [->|(Hu & en & He)]; [by intros [= <- <- <- <-]|]. rewrite He.
  destruct (used_spec _ _ _ Ha Hu) as (Hfd & Hentry & Hl & _).
  rewrite get_local_fd_valid by done. change (local_fd (s_fd_table s fd)) with (local s fd). rewrite (proj2 (Z.ltb_ge _ _)) by lia.
  unfold check_and_call. cbn [negb fat_v_has fat_has].
  change (fat_v_run (vfs en) ?c ?call w) with (fat_run mktime localtime now stale put_stat put_dirent put_ptr cur_dirent get_times call w).
  pose proof (fat_run_close mktime localtime now stale put_stat put_dirent put_ptr cur_dirent get_times (local s fd) w) as Hclose.
  destruct (fat_run _ _ _ _ _ _ _ _ _ (C_close (local s fd)) w) as [r1 w1].
  destruct Hclose as (H1 & H2 & H3); [rewrite (a_max _ _ Ha); lia|]. rewrite Hentry. cbn [permanent has_pending_select].
  intros [= <- <- <- <-]. by apply (agree_close s w).
Qed.
Lemma step_fd s w c fd d r e w' : agree s w → file_call c → do_fd fd c d s w = (r, e, w') → d.2 = w → agree s w'.
Proof.
  intros Ha Hc E Hd. revert E. unfold fd_call. destruct (fd_leads s w fd Ha) as [->|(Hu & en & He)]; [intros ->; by rewrite <-Hd in Ha|].
  rewrite He, get_local_fd_valid by apply Hu. destruct (used_spec _ _ _ Ha Hu) as (Hfd & _ & Hl & _).
  change (local_fd (s_fd_table s fd)) with (local s fd). rewrite (proj2 (Z.ltb_ge _ _)) by lia.
  unfold call_or_enosys, check_and_call, fat_v_has. destruct (fat_has _); cbn [negb]; [|by intros [= <- <- <-]].
  pose proof (agree_run s w (c (local s fd)) Ha) as Hrun. destruct (Hc (local s fd)) as [Hfd' Ht].
  change (fat_v_run (vfs en) ?x ?call w) with (fat_v_run tt None call w).
  destruct (fat_v_run tt None (c (local s fd)) w) as [r1 w1]. intros [= <- <- <-]. apply Hrun; [|done]. split.
  - rewrite Hfd'. intros l [= <-]. rewrite (a_max _ _ Ha). lia.
  - by destruct (c (local s fd)).
Qed.
Lemma agree_named s w en c r e w' : agree s w → name_call w c →
  call_or_enosys fat_v_has fat_v_ctx fat_v_run en c w = (r, e, w') → agree s w'.
Proof.
  intros Ha (Hfd & Ht & Hd & Hlink). unfold call_or_enosys, check_and_call, fat_v_has. destruct (fat_has c); cbn [negb]; [|by intros [= <- <- <-]].
  pose proof (agree_run s w c Ha) as Hrun. change (fat_v_run (vfs en) ?x ?call w) with (fat_v_run tt None call w).
  destruct (fat_v_run tt None c w) as [r1 w1]. intros [= <- <- <-]. apply Hrun; [|done]. split; [by rewrite Hfd|].
  destruct c; try done; [apply Hlink; eauto|]. by destruct (Hd dir loc).
Qed.
Lemma register_first base x s : esp_vfs_register base tt x true (vfs_init : switch) = (ESP_OK, s) →
  vfs_ok s ∧ s.(s_vfs_count) = 1 ∧ is_Some (s.(s_vfs) 0) ∧ ∀ fd, s.(s_fd_table) fd = FD_TABLE_ENTRY_UNUSED.
Proof.
  intros Hreg. assert (vfs_ok (vfs_init : switch)) as Hinit by (split_and!; done).
  pose proof (register_common_spec base (plen base) tt x true (vfs_init : switch)) as Hspec. revert Hreg. unfold esp_vfs_register.
  destruct (esp_vfs_register_common _ _ _ _ _ _) as [[e i] s1] eqn:E. intros [= -> ->].
  destruct (Hspec _ _ _ Hinit (or_intror eq_refl) eq_refl) as (Hok & Hi & _ & _ & _ & Hv & Hf).
  assert (s_vfs_count s = 1) as Hc.
  { revert E. unfold esp_vfs_register_common. repeat (destruct (_ && _); [done|]). by intros [= <- <-]. }
  split; [done|]. split; [done|]. assert (i = 0) as -> by lia. rewrite Hv, fn_lookup_insert, Hf. by split.
Qed.
(** C31: in every session on a volume with at most 256 files, the descriptors of the switch that are in
    use and the open files of the volume correspond one to one: no file is open without a
    descriptor that leads to it, no two descriptors share a file, and no descriptor leads to a
    file that is not open.  So no call leaves the table of open files or is stopped. *)
Theorem fat_sessions_agree a : session a → agree (fst a) (snd a).
Proof.
  induction 1 as [base x s w Hreg Hst Hm Hno|a b Ha IH Hstep].
  - destruct (register_first base x s Hreg) as (Hok & Hc & He & Hf). split; cbn [fst snd]; try done.
    + intros fd. left. by rewrite Hf.
    + intros fd fd' [_ Hu]. by rewrite Hf in Hu.
    + intros l. by rewrite Hno.
  - destruct Hstep; cbn [fst snd] in *.
    + by eapply step_open.
    + by eapply step_close.
    + by eapply step_fd.
    + destruct (path_entry p s (a_ok _ _ IH)) as [E|(i & en & q & E & He & _ & _ & Hq)]; unfold path_call in *; rewrite E in *; [by simplify_eq|].
      rewrite He, Hq in *. cbn in *. simplify_eq. by eapply agree_named.
    + destruct (path_entry p1 s (a_ok _ _ IH)) as [E1|(i & en & q1 & E1 & He1 & _ & _ & Hq1)]; unfold path_call2 in *; rewrite E1 in *; [by simplify_eq|].
      case_decide as Hsame; [|by simplify_eq]. rewrite He1, Hq1 in *. cbn in *.
      destruct (translate_path en p2) as [q2|]; [|done]. cbn in *. simplify_eq. by eapply agree_named.
Qed.
End session.

(** The 257th file of a volume shares the local descriptor of the first. *)
Lemma local_fd_wraps {X} (s : vfs_t unit X) fd : local (take_fd fd false 0 256 s) fd = 0.
Proof. unfold local, take_fd. cbn. by rewrite fn_lookup_insert. Qed.

(** ** The volume of [VfsFat.Demo] mounted at [/s] *)
Module Demo.
Import FatFs.Toy.
Definition base : path := ["/"; "s"]%char.
Definition mounted : vfs_t unit Z := snd (esp_vfs_register base tt 0 true vfs_init).
Definition w0 : fat_w vol FatFs.Toy.P D := FatW VfsFat.Demo.fresh (λ _, 0) (λ _, FatDir 0 []) [] None.
#[local] Notation the_session := (session (λ _, 0) (λ _, Tm 0 0 0 1 0 80) (λ _, 0) (0, 0) (λ _ _ m, m) (λ _ _ m, m) (λ _ _ m, m)
  (λ d, d) (λ _ _, None) (X := Z) 64 2).
Lemma fat_sessions_agree_witness : ∃ s w, the_session (s, w) ∧ is_open w.(w_fat) 0 = true ∧ ∃ fd, used 64 s fd ∧ local s fd = 0.
Proof.
  assert (the_session (mounted, w0)) as H0 by (apply (session_start _ _ _ _ _ _ _ _ _ _ _ base 0); done).
  destruct (esp_vfs_open fat_v_has fat_v_ctx (fat_v_run (λ _, 0) (λ _, Tm 0 0 0 1 0 80) (λ _, 0) (0, 0) (λ _ _ m, m) (λ _ _ m, m) (λ _ _ m, m)
    (λ d, d) (λ _ _, None)) 64 (base ++ ["/"; "a"]%char) O_RDWR 0 mounted w0) as [[[[fd e] s] w]|] eqn:E; [|exfalso; by vm_compute in E].
  assert (the_session (s, w)) as H1 by (eapply session_next; [exact H0|]; eapply S_open; exact E).
  assert (is_open w.(w_fat) 0 = true) as Ho by (vm_compute in E; injection E as _ _ _ <-; done).
  exists s, w. split; [exact H1|]. split; [exact Ho|].
  exact (a_onto _ _ _ _ (fat_sessions_agree _ _ _ _ _ _ _ _ _ 64 2 ltac:(by split) _ H1) 0 Ho).
Defined.
End Demo.
