(* ===== verification/FatMount.v ===== *)
(** * Mounting a FAT volume (vfs_fat.c: registration; vfs_fat_sdspi.c)

    The table of contexts of vfs_fat.c, the base path that vfs_fat_sdspi.c remembers, and
    the switch they register with.  The results of allocations are arguments. *)

From Stdlib Require Import Ascii.
From S2P Require Import Prelude Vfs FatFs VfsFat.

Definition FF_VOLUMES : Z := 1.
(** What registration fills in of [vfs_fat_ctx_t]; the sizes of its character arrays *)
Record fat_ctx := FatCtx { fc_drive : path; fc_base : path; fc_max : Z }.
Definition sizeof_fat_drive : Z := 8.
Definition sizeof_base_path : Z := ESP_VFS_PATH_MAX.

Section mount.
Context {F P D : Type} `{FatFs F P D}.
Record glue := Glue {
  s_fat_ctxs : Z → option fat_ctx;
  s_fat_ctx : option fat_ctx;
  sw : vfs_t unit Z;
  g_lib : F;
  g_errno : errno_t;
  s_base_path : option path
}.
Definition set_ctx (i : Z) (c : option fat_ctx) (g : glue) : glue :=
  Glue (<[i := c]> g.(s_fat_ctxs)) g.(s_fat_ctx) g.(sw) g.(g_lib) g.(g_errno) g.(s_base_path).
Definition set_sw (s : vfs_t unit Z) (g : glue) : glue := Glue g.(s_fat_ctxs) g.(s_fat_ctx) s g.(g_lib) g.(g_errno) g.(s_base_path).
Definition set_base (b : option path) (g : glue) : glue := Glue g.(s_fat_ctxs) g.(s_fat_ctx) g.(sw) g.(g_lib) g.(g_errno) b.
Definition set_compat (c : fat_ctx) (g : glue) : glue := Glue g.(s_fat_ctxs) (Some c) g.(sw) g.(g_lib) g.(g_errno) g.(s_base_path).
Definition set_g_errno (e : errno_t) (g : glue) : glue := Glue g.(s_fat_ctxs) g.(s_fat_ctx) g.(sw) g.(g_lib) e g.(s_base_path).
Abbreviation MG := (M glue).
Definition fatfs {A} (op : F → A * F) : MG A := λ g,
  let '(a, f) := op g.(g_lib) in Ok (a, Glue g.(s_fat_ctxs) g.(s_fat_ctx) g.(sw) f g.(g_errno) g.(s_base_path)).

Definition find_context_index_by_path (base_path : path) (g : glue) : Z :=
  default FF_VOLUMES (find (λ i, match g.(s_fat_ctxs) i with Some c => path_eqb c.(fc_base) base_path | None => false end) (seqZ 0 FF_VOLUMES)).
Definition find_unused_context_index (g : glue) : Z :=
  default FF_VOLUMES (find (λ i, match g.(s_fat_ctxs) i with Some _ => false | None => true end) (seqZ 0 FF_VOLUMES)).
(** [malloc]: the context, its [o_append], and the entry of the switch.  The result says
    whether [*out_fs] was set. *)
Definition esp_vfs_fat_register (base_path fat_drive : path) (max_files : Z) (malloc : bool * bool * bool) : MG (esp_err_t * bool) :=
  ctx ← gets (find_context_index_by_path base_path);
  if ctx <? FF_VOLUMES then mret (ESP_ERR_INVALID_STATE, false) else
  ctx ← gets find_unused_context_index;
  if ctx =? FF_VOLUMES then mret (ESP_ERR_NO_MEM, false) else
  let '(m_ctx, m_append, m_entry) := malloc in
  if negb m_ctx then mret (ESP_ERR_NO_MEM, false) else
  if negb m_append then mret (ESP_ERR_NO_MEM, false) else
  let fat_ctx := FatCtx (strlcpy fat_drive (sizeof_fat_drive - 1)) (strlcpy base_path (sizeof_base_path - 1)) max_files in
  '(err, s) ← gets (λ g, esp_vfs_register base_path tt ctx m_entry g.(sw));
  _ ← modify (set_sw s);
  match err with
  | ESP_OK => _ ← modify (set_ctx ctx (Some fat_ctx)); _ ← modify (set_compat fat_ctx); mret (ESP_OK, true)
  | _ => mret (err, false)
  end.
(** [None] is a null pointer, which [rt_strcmp] must not be given. *)
Definition esp_vfs_fat_unregister_path (base_path : option path) : MG esp_err_t :=
  ctxs ← gets s_fat_ctxs;
  match base_path with
  | None => if forallb (λ i, match ctxs i with None => true | Some _ => false end) (seqZ 0 FF_VOLUMES)
            then mret ESP_ERR_INVALID_STATE else c_fail FUB
  | Some base_path =>
      ctx ← gets (find_context_index_by_path base_path);
      if ctx =? FF_VOLUMES then mret ESP_ERR_INVALID_STATE else
      match ctxs ctx with
      | None => c_fail FUB
      | Some fat_ctx =>
          '(err, s) ← gets (λ g, esp_vfs_unregister fat_ctx.(fc_base) g.(sw));
          _ ← modify (set_sw s);
          match err with ESP_OK => _ ← modify (set_ctx ctx None); mret ESP_OK | _ => mret err end
      end
  end.
(** The two sizes, in bytes *)
Definition esp_vfs_fat_info (base_path : path) : MG (esp_err_t * option (Z * Z)) :=
  ctx ← gets (find_context_index_by_path base_path);
  if ctx =? FF_VOLUMES then mret (ESP_ERR_INVALID_STATE, None) else
  c ← gets (λ g, g.(s_fat_ctxs) ctx);
  match c with
  | None => c_fail FUB
  | Some c =>
      '(res, free_clusters, n_fatent, csize) ← fatfs (f_getfree c.(fc_drive));
      if negb (is_ok res) then _ ← modify (set_g_errno (fresult_to_errno res)); mret (ESP_FAIL, None) else
      let total_sectors := u64 (u32 (n_fatent - 2) * csize) in
      let free_sectors := u64 (free_clusters * csize) in
      mret (ESP_OK, Some (u64 (total_sectors * 512), u64 (free_sectors * 512)))
  end.

(** ** vfs_fat_sdspi.c *)
Definition drv : path := ["0"; ":"]%char.
Definition format_sdcard (malloc : bool) (drv : path) : MG esp_err_t :=
  if negb malloc then mret ESP_ERR_NO_MEM else
  res ← fatfs (f_mkfs drv);
  if negb (is_ok res) then mret ESP_FAIL else mret ESP_OK.
Definition esp_vfs_fat_sdspi_unmount : MG esp_err_t :=
  _ ← fatfs (f_mount false drv 0);
  base_path ← gets s_base_path;
  err ← esp_vfs_fat_unregister_path base_path;
  _ ← modify (set_base None);
  mret err.
Definition esp_vfs_fat_sdspi_format (malloc : bool) : MG esp_err_t := format_sdcard malloc drv.
(** [m_dup]: the copy of the path; [m_work]: the work area of the formatting *)
Definition esp_vfs_fat_sdspi_mount (base_path : path) (format_if_mount_failed : bool) (max_files : Z) (m_dup : bool)
    (m_reg : bool * bool * bool) (m_work : bool) : MG esp_err_t :=
  let fail err := _ ← esp_vfs_fat_sdspi_unmount; mret err in
  _ ← modify (set_base (if m_dup then Some base_path else None));
  if negb m_dup then fail ESP_OK else
  '(err, fs) ← esp_vfs_fat_register base_path drv max_files m_reg;
  if match err with ESP_OK | ESP_ERR_INVALID_STATE => false | _ => true end then fail err else
  res ← fatfs (f_mount fs drv 1);
  if is_ok res then mret ESP_OK else
  if negb ((bool_decide (res = FR_NO_FILESYSTEM) || bool_decide (res = FR_INT_ERR)) && format_if_mount_failed) then fail ESP_FAIL else
  err ← format_sdcard m_work drv;
  match err with
  | ESP_OK =>
      res ← fatfs (f_mount fs drv 0);
      if negb (is_ok res) then fail ESP_FAIL else mret ESP_OK
  | _ => fail err
  end.

(** ** The context table has one entry *)
Lemma find_ctx g base : find_context_index_by_path base g =
  match g.(s_fat_ctxs) 0 with Some c => if path_eqb c.(fc_base) base then 0 else FF_VOLUMES | None => FF_VOLUMES end.
Proof.
  unfold find_context_index_by_path. change (seqZ 0 FF_VOLUMES) with [0]. cbn [find]. destruct (s_fat_ctxs g 0) as [c|]; [|done].
  by destruct (path_eqb (fc_base c) base).
Qed.
Lemma find_unused g : find_unused_context_index g = match g.(s_fat_ctxs) 0 with Some _ => FF_VOLUMES | None => 0 end.
Proof. unfold find_unused_context_index. change (seqZ 0 FF_VOLUMES) with [0]. cbn [find]. by destruct (s_fat_ctxs g 0). Qed.
Lemma path_eqb_spec p q : path_eqb p q = true ↔ p = q.
Proof.
  revert q. induction p as [|a p IH]; intros [|b q]; cbn [path_eqb]; try (by split).
  rewrite andb_true_iff, Ascii.eqb_eq, IH. split; [by intros [-> ->]|by intros [= -> ->]].
Qed.
Lemma path_eqb_neq p q : p ≠ q → path_eqb p q = false.
Proof. intros Hne. destruct (path_eqb p q) eqn:E; [|done]. by apply path_eqb_spec in E. Qed.
(** Does entry [k] of the switch have exactly this prefix? *)
Definition prefix_at (base : path) (s : vfs_t unit Z) (k : Z) : bool :=
  match s.(s_vfs) k with
  | Some e => (plen base =? e.(path_prefix_len)) && same_prefix base e.(path_prefix) e.(path_prefix_len)
  | None => false
  end.
Lemma find_prefix_spec fuel i base s : s.(s_vfs_count) - i ≤ Z.of_nat fuel →
  match find_prefix fuel i base s with
  | Some j => i ≤ j < s.(s_vfs_count) ∧ prefix_at base s j = true ∧ ∀ k, i ≤ k < j → prefix_at base s k = false
  | None => ∀ k, i ≤ k < s.(s_vfs_count) → prefix_at base s k = false
  end.
Proof.
  revert i. induction fuel as [|fuel IH]; intros i Hf; cbn [find_prefix]; [lia|].
  destruct (Z.ltb_spec i (s_vfs_count s)); [|lia]. specialize (IH (i + 1) ltac:(lia)).
  destruct (prefix_at base s i) eqn:E; pose proof E as E'; unfold prefix_at in E; destruct (s_vfs s i) as [e|] eqn:Ei; try rewrite E; try done.
  - split_and!; try done; lia.
  - destruct (find_prefix fuel (i + 1) base s) as [j|].
    + destruct IH as (Hj & Hp & Hk). split_and!; try done; [lia|lia|]. intros k Hk'. destruct (decide (k = i)) as [-> |]; [done|apply Hk; lia].
    + intros k Hk'. destruct (decide (k = i)) as [-> |]; [done|apply IH; lia].
  - destruct (find_prefix fuel (i + 1) base s) as [j|].
    + destruct IH as (Hj & Hp & Hk). split_and!; try done; [lia|lia|]. intros k Hk'. destruct (decide (k = i)) as [-> |]; [done|apply Hk; lia].
    + intros k Hk'. destruct (decide (k = i)) as [-> |]; [done|apply IH; lia].
Qed.
(** Nothing of the switch has this prefix. *)
Definition free_prefix (base : path) (s : vfs_t unit Z) : Prop := ∀ k, 0 ≤ k < s.(s_vfs_count) → prefix_at base s k = false.
Definition entry_of (base : path) (i x : Z) : vfs_entry_t unit Z := VfsEntry tt base (plen base) x i.
Lemma register_switch base x s s' : vfs_ok s → plen base ≤ ESP_VFS_PATH_MAX → free_prefix base s → esp_vfs_register base tt x true s = (ESP_OK, s') →
  vfs_ok s' ∧ ∃ i, 0 ≤ i < s'.(s_vfs_count) ∧ s.(s_vfs) i = None ∧
    s'.(s_vfs) = <[i := Some (entry_of base i x)]> s.(s_vfs) ∧ s'.(s_fd_table) = s.(s_fd_table) ∧
    find_prefix (Z.to_nat VFS_MAX_COUNT) 0 base s' = Some i.
Proof.
  intros Hok Hlen Hfree. unfold esp_vfs_register. pose proof (register_common_spec base (plen base) tt x true s) as Hspec.
  destruct (esp_vfs_register_common _ _ _ _ _ _) as [[e i] s1] eqn:E. intros [= -> ->].
  destruct (Hspec _ _ _ Hok (or_intror eq_refl) eq_refl) as (Hok' & Hi & Hc & Hnone & Hsome & Hv & Hf).
  pose proof Hok as (_ & Hent & _). assert (0 ≤ plen base) by (unfold plen; lia).
  assert (plen base =? LEN_PATH_PREFIX_IGNORED = false) as Hne by (apply Z.eqb_neq; unfold ESP_VFS_PATH_MAX, LEN_PATH_PREFIX_IGNORED in *; lia).
  rewrite Hne in Hv. split; [done|]. exists i. split_and!; try done; try lia.
  pose proof Hok' as ((_ & H8) & _). pose proof (find_prefix_spec (Z.to_nat VFS_MAX_COUNT) 0 base s') as Hp.
  assert (prefix_at base s' i = true) as Hat.
  { unfold prefix_at. rewrite Hv, fn_lookup_insert. cbn. rewrite Z.eqb_refl. apply path_eqb_spec. done. }
  assert (∀ k, k ≠ i → prefix_at base s' k = true → prefix_at base s k = true) as Hother.
  { intros k Hk. unfold prefix_at. by rewrite Hv, fn_lookup_insert_ne. }
  destruct (find_prefix _ 0 base s') as [j|].
  - destruct Hp as (Hj & Hpj & Hk); [unfold VFS_MAX_COUNT in *; lia|]. destruct (decide (j = i)) as [-> |Hji]; [done|].
    apply (Hother j Hji) in Hpj as Hpj'. destruct (s_vfs s j) as [e'|] eqn:Ej.
    + apply Hent in Ej as [Ej _]. rewrite Hfree in Hpj' by lia. done.
    + unfold prefix_at in Hpj'. by rewrite Ej in Hpj'.
  - rewrite Hp in Hat; [done|unfold VFS_MAX_COUNT in *; lia|lia].
Qed.

(** ** Running the calls *)
Lemma fatfs_run {A} (op : F → A * F) g a f : op g.(g_lib) = (a, f) →
  fatfs op g = Ok (a, Glue g.(s_fat_ctxs) g.(s_fat_ctx) g.(sw) f g.(g_errno) g.(s_base_path)).
Proof. intros E. unfold fatfs. by rewrite E. Qed.
#[local] Ltac fields := cbn [s_fat_ctxs s_fat_ctx sw g_lib g_errno s_base_path set_ctx set_sw set_base set_compat negb fst snd].
#[local] Ltac step :=
  match goal with
  | |- context [(fatfs ?op ≫= ?k) ?g] =>
      let E := fresh "E" in let r := fresh "r" in let f := fresh "f" in
      destruct (op (g_lib g)) as [r f] eqn:E; rewrite (M_bind_run (fatfs op) k g _ _ (fatfs_run op g _ _ E))
  | |- context [(?m ≫= ?k) ?g] => rewrite (M_bind_run m k g _ _ eq_refl)
  end; cbv beta zeta; fields.
Definition the_ctx (base : path) (mx : Z) : fat_ctx :=
  FatCtx (strlcpy drv (sizeof_fat_drive - 1)) (strlcpy base (sizeof_base_path - 1)) mx.
(** A successful registration of a first volume *)
Lemma register_run base mx m g : g.(s_fat_ctxs) 0 = None →
  ∃ err fs g', esp_vfs_fat_register base drv mx m g = Ok (err, fs, g') ∧ g'.(s_base_path) = g.(s_base_path) ∧
    (err = ESP_OK → fs = true ∧ g'.(s_fat_ctxs) = <[0 := Some (the_ctx base mx)]> g.(s_fat_ctxs) ∧
      esp_vfs_register base tt 0 (snd m) g.(sw) = (ESP_OK, g'.(sw))) ∧ err ≠ ESP_ERR_INVALID_STATE.
Proof.
  intros Hnone. unfold esp_vfs_fat_register. step. rewrite find_ctx, Hnone. change (FF_VOLUMES <? FF_VOLUMES) with false. cbv iota. step.
  rewrite find_unused, Hnone. change (0 =? FF_VOLUMES) with false. cbv iota. destruct m as [[m1 m2] m3].
  destruct m1; cbn [negb]; [|by eexists _, _, g]. destruct m2; cbn [negb]; [|by eexists _, _, g]. step.
  destruct (esp_vfs_register base tt 0 m3 (sw g)) as [e s] eqn:E. step.
  assert (e ≠ ESP_ERR_INVALID_STATE) as He.
  { revert E. unfold esp_vfs_register, esp_vfs_register_common. repeat case_match; intros; simplify_eq; done. }
  destruct e; try done; try (by eexists _, _, (set_sw s g)). step. step. eexists _, _, _. split; [reflexivity|]. fields. by split_and!.
Qed.
Definition keeps_glue (g g' : glue) : Prop :=
  g'.(s_fat_ctxs) = g.(s_fat_ctxs) ∧ g'.(sw) = g.(sw) ∧ g'.(s_base_path) = g.(s_base_path).
(** What mounting leaves when it reports success for a first volume *)
Lemma mount_success base fmt mx m_reg m_work g g1 : g.(s_fat_ctxs) 0 = None →
  esp_vfs_fat_sdspi_mount base fmt mx true m_reg m_work g = Ok (ESP_OK, g1) →
  g1.(s_fat_ctxs) = <[0 := Some (the_ctx base mx)]> g.(s_fat_ctxs) ∧ g1.(s_base_path) = Some base ∧
  esp_vfs_register base tt 0 (snd m_reg) g.(sw) = (ESP_OK, g1.(sw)).
Proof.
  intros Hnone. unfold esp_vfs_fat_sdspi_mount. step.
  destruct (register_run base mx m_reg (set_base (Some base) g) Hnone) as (err & fs & g' & Hreg & Hbase & Hok & Hinv).
  rewrite (M_bind_run _ _ _ _ _ Hreg).
  assert (∀ e g2 g3, e ≠ ESP_OK → (_ ← esp_vfs_fat_sdspi_unmount; mret e) g2 ≠ Ok (ESP_OK, g3)) as Hfail.
  { intros e g2 g3 He Hf. apply M_bind_Ok in Hf as (a & g4 & _ & Hf). by injection Hf as -> _. }
  destruct err; try (intros Hf; by apply Hfail in Hf); try done. destruct (Hok eq_refl) as (-> & Hctx & Hsw). cbv iota.
  step. destruct (is_ok r).
  { intros [= <-]. fields. split; [done|]. split; [done|]. done. }
  destruct (negb _); [intros Hf; by apply Hfail in Hf|]. unfold format_sdcard. rewrite M_bind_Ok. intros (e & g2 & Hfmt & Hrest).
  assert (keeps_glue g' g2) as (K1 & K2 & K3).
  { revert Hfmt. destruct m_work; cbn [negb]; [|by intros [= <- <-]]. step. by destruct (is_ok _); intros [= <- <-]. }
  destruct e; try (by apply Hfail in Hrest); try done. revert Hrest. step. destruct (is_ok _); cbn [negb]; [|intros Hf; by apply Hfail in Hf].
  intros [= <-]. fields. rewrite K1, K2, K3. done.
Qed.
Lemma unmount_run base c g : g.(s_fat_ctxs) 0 = Some c → g.(s_base_path) = Some base →
  ∃ r g', esp_vfs_fat_sdspi_unmount g = Ok (r, g') ∧ g'.(s_base_path) = None ∧
    if path_eqb c.(fc_base) base
    then r = fst (esp_vfs_unregister c.(fc_base) g.(sw)) ∧ g'.(sw) = snd (esp_vfs_unregister c.(fc_base) g.(sw)) ∧
         g'.(s_fat_ctxs) = match r with ESP_OK => <[0 := None]> g.(s_fat_ctxs) | _ => g.(s_fat_ctxs) end
    else r = ESP_ERR_INVALID_STATE ∧ g'.(sw) = g.(sw) ∧ g'.(s_fat_ctxs) = g.(s_fat_ctxs).
Proof.
  intros Hc Hb. unfold esp_vfs_fat_sdspi_unmount. step. step. rewrite Hb.
  set (g2 := Glue _ _ _ _ _ _). assert (∃ r g3, esp_vfs_fat_unregister_path (Some base) g2 = Ok (r, g3) ∧
    if path_eqb c.(fc_base) base
    then r = fst (esp_vfs_unregister c.(fc_base) g.(sw)) ∧ g3.(sw) = snd (esp_vfs_unregister c.(fc_base) g.(sw)) ∧
         g3.(s_fat_ctxs) = match r with ESP_OK => <[0 := None]> g.(s_fat_ctxs) | _ => g.(s_fat_ctxs) end
    else r = ESP_ERR_INVALID_STATE ∧ g3.(sw) = g.(sw) ∧ g3.(s_fat_ctxs) = g.(s_fat_ctxs)) as (r3 & g3 & E3 & H3).
  { unfold esp_vfs_fat_unregister_path. step. step. rewrite find_ctx. cbn [s_fat_ctxs g2]. rewrite Hc.
    destruct (path_eqb (fc_base c) base); cbv iota; [|by eexists _, g2].
    change (0 =? FF_VOLUMES) with false. cbv iota. rewrite Hc. step.
    change (sw g2) with (sw g). destruct (esp_vfs_unregister (fc_base c) (sw g)) as [e s] eqn:E'.
    step.
    destruct e; eexists _, _; (split; [reflexivity|]); by fields. }
  rewrite (M_bind_run _ _ _ _ _ E3). step. eexists _, _. split; [reflexivity|]. by fields.
Qed.
(** What the switch still has after an unregistration *)
Lemma unregister_switch base i (s : vfs_t unit Z) : vfs_ok s → is_Some (s.(s_vfs) i) → find_prefix (Z.to_nat VFS_MAX_COUNT) 0 base s = Some i →
  fst (esp_vfs_unregister base s) = ESP_OK ∧ (snd (esp_vfs_unregister base s)).(s_vfs) = <[i := None]> s.(s_vfs).
Proof.
  intros Hok [e He] Hp. unfold esp_vfs_unregister. rewrite Hp. pose proof Hok as ((_ & H8) & Hent & _). pose proof (Hent i e He) as [Hi _].
  destruct (unregister_with_id_spec i s) as [[_ [?|[?|?]]]|[-> _]]; [lia|lia|congruence|]. cbn [fst snd]. split; [done|].
  by destruct (drop_fds_spec 0 VFS_MAX_COUNT i (set_vfs i None s) ltac:(done)) as (_ & -> & _).
Qed.

(** C33: mounting a first volume registers it with the switch under its path, and unmounting takes
    exactly that registration away again, but only if the path has at most thirteen characters.
    A path of fourteen or fifteen is cut in the context, so unmounting does not find it: it
    reports an error, forgets the path, and the volume stays registered for good. *)
Theorem esp_vfs_fat_sdspi_mount_unmount base fmt mx m_reg m_work g g1 :
  vfs_ok g.(sw) → g.(s_fat_ctxs) 0 = None → plen base ≤ ESP_VFS_PATH_MAX → free_prefix base g.(sw) →
  esp_vfs_fat_sdspi_mount base fmt mx true m_reg m_work g = Ok (ESP_OK, g1) →
  ∃ i r g2, g.(sw).(s_vfs) i = None ∧ g1.(sw).(s_vfs) = <[i := Some (entry_of base i 0)]> g.(sw).(s_vfs) ∧
    esp_vfs_fat_sdspi_unmount g1 = Ok (r, g2) ∧ g2.(s_base_path) = None ∧
    if plen base <=? 13
    then r = ESP_OK ∧ g2.(s_fat_ctxs) 0 = None ∧ ∀ k, g2.(sw).(s_vfs) k = g.(sw).(s_vfs) k
    else r = ESP_ERR_INVALID_STATE ∧ is_Some (g2.(s_fat_ctxs) 0) ∧ g2.(sw) = g1.(sw).
Proof.
  intros Hok Hnone Hlen Hfree Hmount. destruct (mount_success _ _ _ _ _ _ _ Hnone Hmount) as (Hctx & Hbase & Hreg).
  destruct m_reg as [m_ctx m_entry]. cbn [snd] in Hreg.
  assert (m_entry = true) as ->.
  { destruct m_entry; [done|]. exfalso. revert Hreg. unfold esp_vfs_register, esp_vfs_register_common. repeat case_match; intros; simplify_eq; done. }
  destruct (register_switch base 0 _ _ Hok Hlen Hfree Hreg) as (Hok' & i & Hi & Hfreei & Hv & Hf & Hp).
  destruct (unmount_run base (the_ctx base mx) g1) as (r & g2 & Hrun & Hb2 & Hres); [by rewrite Hctx, fn_lookup_insert|done|].
  exists i, r, g2. split; [done|]. split; [done|]. split; [done|]. split; [done|]. cbn [fc_base the_ctx] in Hres.
  assert (strlcpy base (sizeof_base_path - 1) = take 13 base) as E by done. rewrite E in Hres.
  destruct (Z.leb_spec (plen base) 13) as [Hshort|Hlong].
  - assert (take 13 base = base) as Et by (apply take_ge; unfold plen in Hshort; lia). rewrite Et, (proj2 (path_eqb_spec _ _) eq_refl) in Hres.
    destruct (unregister_switch base i (sw g1) Hok') as [Hr Hs]; [by rewrite Hv, fn_lookup_insert|done|].
    destruct Hres as (-> & -> & ->). rewrite Hr, Hs. split; [done|]. split; [by rewrite fn_lookup_insert|]. intros k. rewrite Hv.
    destruct (decide (k = i)) as [-> |]; [by rewrite fn_lookup_insert, Hfreei|by rewrite !fn_lookup_insert_ne].
  - rewrite path_eqb_neq in Hres by (intros Et; apply (f_equal length) in Et; rewrite length_take in Et; unfold plen in Hlong; lia).
    destruct Hres as (-> & -> & ->). split; [done|]. rewrite Hctx, fn_lookup_insert. done.
Qed.

(** Mounting a path that is mounted already fails, and takes the first mount with it: the volume
    is unmounted, its registration with the switch is gone, whatever the arguments. *)
Theorem esp_vfs_fat_sdspi_mount_twice `{!FatFsLaws F P D} base i fmt mx m_reg m_work c g :
  vfs_ok g.(sw) → g.(s_fat_ctxs) 0 = Some c → c.(fc_base) = base →
  find_prefix (Z.to_nat VFS_MAX_COUNT) 0 base g.(sw) = Some i → is_Some (g.(sw).(s_vfs) i) →
  ∃ g', esp_vfs_fat_sdspi_mount base fmt mx true m_reg m_work g = Ok (ESP_FAIL, g') ∧
    g'.(s_fat_ctxs) 0 = None ∧ g'.(sw).(s_vfs) = <[i := None]> g.(sw).(s_vfs) ∧ g'.(s_base_path) = None.
Proof.
  intros Hok Hc Hbase Hp Hi. unfold esp_vfs_fat_sdspi_mount. step.
  assert (esp_vfs_fat_register base drv mx m_reg (set_base (Some base) g) = Ok (ESP_ERR_INVALID_STATE, false, set_base (Some base) g)) as Hreg.
  { unfold esp_vfs_fat_register. step. rewrite find_ctx. cbn [set_base s_fat_ctxs]. rewrite Hc, Hbase, (proj2 (path_eqb_spec _ _) eq_refl). done. }
  rewrite (M_bind_run _ _ _ _ _ Hreg). cbv beta iota. step. pose proof (mount_null g.(g_lib)) as Hnull. cbn [g_lib set_base] in E.
  change ["0"; ":"]%char with drv in Hnull. rewrite E in Hnull. cbn in Hnull. subst r. cbn [is_ok bool_decide].
  change (is_ok FR_NOT_ENABLED) with false. cbv iota. rewrite !bool_decide_false by done. cbn [orb andb negb].
  match goal with |- context [(_ ≫= _) ?g1] => destruct (unmount_run base c g1) as (r & g2 & Hrun & Hb & Hres); [done|done|] end.
  rewrite Hbase, (proj2 (path_eqb_spec _ _) eq_refl) in Hres. cbn [sw s_fat_ctxs] in Hres.
  destruct (unregister_switch base i (sw g) Hok Hi Hp) as [Hr Hs]. destruct Hres as (-> & Hsw & Hctx). rewrite Hr in *.
  rewrite (M_bind_run _ _ _ _ _ Hrun). exists g2. split; [done|]. by rewrite Hctx, Hsw, Hs, fn_lookup_insert.
Qed.
(** Without memory for the path, nothing is mounted, and success is reported. *)
Lemma mount_without_memory base fmt mx m_reg m_work g : g.(s_fat_ctxs) 0 = None →
  ∃ g', esp_vfs_fat_sdspi_mount base fmt mx false m_reg m_work g = Ok (ESP_OK, g') ∧ g'.(sw) = g.(sw) ∧ g'.(s_fat_ctxs) = g.(s_fat_ctxs).
Proof.
  intros Hc. unfold esp_vfs_fat_sdspi_mount. step.
  assert (∃ r g', esp_vfs_fat_sdspi_unmount (set_base None g) = Ok (r, g') ∧ g'.(sw) = g.(sw) ∧ g'.(s_fat_ctxs) = g.(s_fat_ctxs))
    as (r & g' & Hrun & Hg); [|by exists g'; rewrite (M_bind_run _ _ _ _ _ Hrun)].
  unfold esp_vfs_fat_sdspi_unmount. step. step.
  assert (∀ g2, s_fat_ctxs g2 0 = None → esp_vfs_fat_unregister_path None g2 = Ok (ESP_ERR_INVALID_STATE, g2)) as Hun.
  { intros g2 Hc2. unfold esp_vfs_fat_unregister_path. step. change (seqZ 0 FF_VOLUMES) with [0]. cbn [forallb]. by rewrite Hc2. }
  match goal with |- context [esp_vfs_fat_unregister_path None ≫= ?k] => rewrite (M_bind_run _ k _ _ _ (Hun (Glue _ _ _ _ _ _) Hc)) end.
  step. by eexists _, _.
Qed.
End mount.
Arguments Glue {F}.
Arguments glue : clear implicits.

Module Demo.
Import FatFs.Toy.
Definition base : path := ["/"; "s"]%char.
Definition long_base : path := ["/"; "1"; "2"; "3"; "4"; "5"; "6"; "7"; "8"; "9"; "0"; "1"; "2"; "3"]%char.
Definition g0 : glue vol := Glue (λ _, None) None vfs_init (λ _, None) E_NONE None.
Definition mounted : glue vol := match esp_vfs_fat_sdspi_mount base false 4 true (true, true, true) true g0 with Ok (_, g) => g | Fault _ => g0 end.
Lemma init_ok : vfs_ok g0.(sw).
Proof. split; [done|]. split; [done|]. intros fd. done. Qed.
(** The long path stays registered. *)
Lemma esp_vfs_fat_sdspi_mount_unmount_witness : ∃ i g1 g2, esp_vfs_fat_sdspi_mount long_base false 4 true (true, true, true) true g0 = Ok (ESP_OK, g1) ∧
  esp_vfs_fat_sdspi_unmount g1 = Ok (ESP_ERR_INVALID_STATE, g2) ∧ is_Some (g2.(sw).(s_vfs) i).
Proof.
  destruct (esp_vfs_fat_sdspi_mount long_base false 4 true (true, true, true) true g0) as [[e g1]|] eqn:E; [|exfalso; by vm_compute in E].
  assert (e = ESP_OK) as -> by (vm_compute in E; by injection E).
  destruct (esp_vfs_fat_sdspi_mount_unmount long_base false 4 (true, true, true) true g0 g1 init_ok eq_refl ltac:(done) ltac:(intros k ?; cbn in *; lia) E)
    as (i & r & g2 & _ & Hv & Hrun & _ & Hr). destruct Hr as (-> & _ & Hsw). exists i, g1, g2. split; [done|]. split; [done|].
  rewrite Hsw, Hv, fn_lookup_insert. done.
Defined.
Lemma esp_vfs_fat_sdspi_mount_twice_witness : ∃ g', esp_vfs_fat_sdspi_mount base false 4 true (true, true, true) true mounted = Ok (ESP_FAIL, g') ∧
  g'.(s_fat_ctxs) 0 = None.
Proof.
  assert (esp_vfs_fat_sdspi_mount base false 4 true (true, true, true) true g0 = Ok (ESP_OK, mounted)) as E by reflexivity.
  destruct (mount_success base false 4 (true, true, true) true g0 mounted eq_refl E) as (_ & _ & Hreg).
  destruct (register_switch base 0 _ _ init_ok ltac:(done) ltac:(intros k ?; cbn in *; lia) Hreg) as [Hok _].
  destruct (esp_vfs_fat_sdspi_mount_twice base 0 false 4 (true, true, true) true (the_ctx base 4) mounted Hok eq_refl eq_refl eq_refl) as (g' & H1 & H2 & _).
  { by eexists. }
  exists g'. split; [exact H1|exact H2].
Defined.
End Demo.
