(* ===== verification/Aes.v ===== *)
(** * AES accelerator (cores/k210/k210-sdk/drivers/k210_aes.c)

    The driver loads key, initialisation vector and lengths, feeds the engine words and
    reads words back, in pieces of at most 80 bytes, which is what the engine holds.  The
    engine is a class of operations with laws: what it computes, [aes_out], is a function
    of its registers and the words it was fed. *)

From S2P Require Import Prelude Words SysctlRegs Sysctl.

Definition AES_ECB : Z := 0.
Definition AES_CBC : Z := 1.
Definition AES_GCM : Z := 2.
Definition AES_128 : Z := 16.
Definition AES_192 : Z := 24.
Definition AES_256 : Z := 32.
Definition IV_LEN_96 : Z := 12.
Definition IV_LEN_128 : Z := 16.
Definition AES_HARD_ENCRYPTION : Z := 0.
Definition AES_HARD_DECRYPTION : Z := 1.

(** ** Registers *)
Inductive aes_reg : Set :=
| aes_key (i : Z) | encrypt_sel | mode_ctl | aes_iv (i : Z) | aes_endian | dma_sel
| gb_aad_num | gb_pc_num | gb_aes_en | aes_key_ext (i : Z).
#[export] Instance aes_reg_eq_dec : EqDecision aes_reg.
Proof. solve_decision. Defined.
Definition cipher_mode : field aes_reg := Field mode_ctl (BF 0 3).
Definition kmode : field aes_reg := Field mode_ctl (BF 3 2).

(** The registers behind which the engine works.  [e_step] is what happens before the
    CPU next looks at a flag. *)
Class AesEngine (E : Type) := {
  e_start : bank aes_reg → E;
  e_step : E → E;
  data_in_flag : E → Z;
  data_out_flag : E → Z;
  tag_in_flag : E → Z;
  tag_chk : E → Z;
  aes_aad_data : Z → E → E;
  aes_text_data : Z → E → E;
  aes_out_data : E → Z * E;
  gcm_in_tag : Z → Z → E → E;
  gcm_out_tag : Z → E → Z;
  tag_clear : Z → E → E
}.
Record cbc_context_t := CbcContext { cbc_key : Z; cbc_iv : Z }.
Record gcm_context_t := GcmContext { gcm_key : Z; gcm_iv : Z; gcm_aad : Z; gcm_aad_len : Z }.

(** ** Words in memory *)
Definition words_at (m : Z → Z) (a n : Z) : list Z := (λ i, word_at m (a + 4 * i)) <$> seqZ 0 n.
(** [uint8_data], zero but for its first [r] bytes, as a word *)
Definition partial_word (m : Z → Z) (a r : Z) : Z := word_of (mem_read m a r ++ replicate (Z.to_nat (4 - r)) 0).
Definition round_up (len : Z) : Z := u64 (len + 15) / 16 * 16.
Definition is_block_mode (mode : Z) : bool := (mode =? AES_ECB) || (mode =? AES_CBC).

Section aes.
Context {E : Type} `{AesEngine E} (reset_regs : bank aes_reg) (fuel : nat).
Record aes_s := Aes { aregs : bank aes_reg; eng : E; amem : Z → Z; asys : bank sysctl_reg }.
Abbreviation A := (M aes_s).
Definition on_regs (f : bank aes_reg → bank aes_reg) : A unit := modify (λ s, Aes (f s.(aregs)) s.(eng) s.(amem) s.(asys)).
Definition on_eng (f : E → E) : A unit := modify (λ s, Aes s.(aregs) (f s.(eng)) s.(amem) s.(asys)).
Definition store (a : Z) (bs : list Z) : A unit := modify (λ s, Aes s.(aregs) s.(eng) (mem_write s.(amem) a bs) s.(asys)).
(** [while(!flag()) ;] *)
Fixpoint wait_for (n : nat) (flag : E → Z) (e : E) : res E :=
  let e := e_step e in
  if negb (flag e =? 0) then Ok e else match n with O => Fault FFuel | S n => wait_for n flag e end.
Definition wait (flag : E → Z) : A unit := λ s,
  e ← wait_for fuel flag s.(eng); Ok (tt, Aes s.(aregs) e s.(amem) s.(asys)).

Definition aes_clk_init : A unit := modify (λ s,
  let sys := snd (sysctl_clock_enable (sysctl_clock_to_Z SYSCTL_CLOCK_AES) s.(asys)) in
  Aes reset_regs s.(eng) s.(amem) (sysctl_reset (sysctl_reset_id_to_Z SYSCTL_RESET_AES) sys)).
Definition aes_write_aad (aad_data : Z) : A unit := on_eng (aes_aad_data aad_data).
Definition aes_write_text (text_data : Z) : A unit := on_eng (aes_text_data text_data).
Definition gcm_write_tag (tag : Z) : A unit :=
  m ← gets amem;
  _ ← on_eng (gcm_in_tag 0 (word_at m (tag + 12)));
  _ ← on_eng (gcm_in_tag 1 (word_at m (tag + 8)));
  _ ← on_eng (gcm_in_tag 2 (word_at m (tag + 4)));
  on_eng (gcm_in_tag 3 (word_at m tag)).
Definition aes_read_out_data : A Z := λ s, let '(w, e) := aes_out_data s.(eng) in Ok (w, Aes s.(aregs) e s.(amem) s.(asys)).
Definition gcm_clear_chk_tag : A unit := on_eng (tag_clear 0).
Definition gcm_check_tag (gcm_tag : Z) : A Z :=
  _ ← wait tag_in_flag;
  _ ← gcm_write_tag gcm_tag;
  _ ← wait tag_chk;
  _ ← on_eng e_step;
  chk ← gets (λ s, tag_chk s.(eng));
  if chk =? 2 then _ ← gcm_clear_chk_tag; mret 1 else _ ← gcm_clear_chk_tag; mret 0.
Definition be_bytes (w : Z) : list Z :=
  [wrap 8 (Z.land (Z.shiftr w 24) 0xff); wrap 8 (Z.land (Z.shiftr w 16) 0xff);
   wrap 8 (Z.land (Z.shiftr w 8) 0xff); wrap 8 (Z.land w 0xff)].
Definition gcm_get_tag (gcm_tag : Z) : A unit :=
  t ← gets (λ s, gcm_out_tag 3 s.(eng)); _ ← store gcm_tag (be_bytes t);
  t ← gets (λ s, gcm_out_tag 2 s.(eng)); _ ← store (gcm_tag + 4) (be_bytes t);
  t ← gets (λ s, gcm_out_tag 1 s.(eng)); _ ← store (gcm_tag + 8) (be_bytes t);
  t ← gets (λ s, gcm_out_tag 0 s.(eng)); _ ← store (gcm_tag + 12) (be_bytes t);
  _ ← gcm_check_tag gcm_tag;
  mret tt.

(** Each word waits for the engine to take it. *)
Fixpoint feed (put : Z → A unit) (ws : list Z) : A unit :=
  match ws with
  | [] => mret tt
  | w :: ws => _ ← wait data_in_flag; _ ← put w; feed put ws
  end.
(** [len] bytes at [a], the last word filled up with zeros *)
Definition feed_bytes (put : Z → A unit) (a len : Z) : A unit :=
  let uint32_num := len / 4 in
  m ← gets amem;
  _ ← feed put (words_at m a uint32_num);
  let remainder := len mod 4 in
  if remainder =? 0 then mret tt else feed put [partial_word m (a + 4 * uint32_num) remainder].

Definition load_key (m : Z → Z) (key len : Z) (r : bank aes_reg) : bank aes_reg :=
  for_range 0 (len / 4) (λ i r,
    let w := word_at m (key + len - 4 * i - 4) in
    if i <? 4 then <[aes_key i := w]> r else <[aes_key_ext (i - 4) := w]> r) r.
Definition load_iv (m : Z → Z) (iv len : Z) (r : bank aes_reg) : bank aes_reg :=
  for_range 0 (len / 4) (λ i r, <[aes_iv i := word_at m (iv + len - 4 * i - 4)]> r) r.
Definition aes_init (input_key input_key_len iv iv_len gcm_aad mode sel gcm_aad_len input_data_len : Z) : A unit :=
  _ ← aes_clk_init;
  let padding_len := if is_block_mode mode then round_up input_data_len else input_data_len in
  m ← gets amem;
  _ ← on_regs (λ r, <[aes_endian := Z.lor (r aes_endian) 1]> r);
  _ ← on_regs (load_key m input_key input_key_len);
  _ ← on_regs (load_iv m iv iv_len);
  _ ← on_regs (fset kmode (input_key_len / 8 - 2));
  _ ← on_regs (fset cipher_mode mode);
  _ ← on_regs <[encrypt_sel := sel]>;
  _ ← on_regs <[gb_aad_num := u32 (gcm_aad_len - 1)]>;
  _ ← on_regs <[gb_pc_num := u32 (padding_len - 1)]>;
  _ ← on_regs (λ r, <[gb_aes_en := Z.lor (r gb_aes_en) 1]> r);
  r ← gets aregs;
  _ ← on_eng (λ _, e_start r);
  if mode =? AES_GCM then feed_bytes aes_write_aad gcm_aad gcm_aad_len else mret tt.

Definition aes_input_bytes (input_data input_data_len mode : Z) : A unit :=
  let padding_len := round_up input_data_len in
  _ ← feed_bytes aes_write_text input_data input_data_len;
  if is_block_mode mode then feed aes_write_text (replicate (Z.to_nat ((padding_len - input_data_len) / 4)) 0)
  else mret tt.
Fixpoint drain (out : Z) (n : nat) : A unit :=
  match n with
  | O => mret tt
  | S n => _ ← wait data_out_flag; w ← aes_read_out_data; _ ← store out (word_bytes w); drain (out + 4) n
  end.
(** Its first half is [aes_input_bytes], which the source has twice. *)
Definition process_less_80_bytes (input_data output_data input_data_len mode : Z) : A unit :=
  let padding_len := round_up input_data_len in
  _ ← aes_input_bytes input_data input_data_len mode;
  let uint32_num := if is_block_mode mode then padding_len / 4 else input_data_len / 4 in
  let remainder := input_data_len mod 4 in
  _ ← drain output_data (Z.to_nat uint32_num);
  if (mode =? AES_GCM) && negb (remainder =? 0) then
    _ ← wait data_out_flag; w ← aes_read_out_data;
    store (output_data + 4 * uint32_num) (take (Z.to_nat remainder) (word_bytes w))
  else mret tt.
Fixpoint process_chunks (ps : list Z) (input_data output_data mode : Z) : A unit :=
  match ps with
  | [] => mret tt
  | i :: ps => _ ← process_less_80_bytes (input_data + i * 80) (output_data + i * 80) 80 mode;
               process_chunks ps input_data output_data mode
  end.
(** The counter of the pieces has 32 bits. *)
Definition aes_process (input_data output_data input_data_len mode : Z) : A unit :=
  let n := input_data_len / 80 in
  _ ← (if 80 <=? input_data_len then process_chunks (seqZ 0 n) input_data output_data mode else mret tt);
  let temp_len := input_data_len mod 80 in
  if temp_len =? 0 then mret tt
  else process_less_80_bytes (input_data + n * 80) (output_data + n * 80) temp_len mode.

(** ** The calls: ECB, CBC and GCM with three key sizes *)
Definition aes_ecb128_hard_decrypt (input_key input_data input_len output_data : Z) : A unit :=
  _ ← aes_init input_key AES_128 0 0 0 AES_ECB AES_HARD_DECRYPTION 0 input_len;
  aes_process input_data output_data (round_up input_len) AES_ECB.
Definition aes_ecb128_hard_encrypt (input_key input_data input_len output_data : Z) : A unit :=
  _ ← aes_init input_key AES_128 0 0 0 AES_ECB AES_HARD_ENCRYPTION 0 input_len;
  aes_process input_data output_data input_len AES_ECB.
Definition aes_ecb192_hard_decrypt (input_key input_data input_len output_data : Z) : A unit :=
  _ ← aes_init input_key AES_192 0 0 0 AES_ECB AES_HARD_DECRYPTION 0 input_len;
  aes_process input_data output_data (round_up input_len) AES_ECB.
Definition aes_ecb192_hard_encrypt (input_key input_data input_len output_data : Z) : A unit :=
  _ ← aes_init input_key AES_192 0 0 0 AES_ECB AES_HARD_ENCRYPTION 0 input_len;
  aes_process input_data output_data input_len AES_ECB.
Definition aes_ecb256_hard_decrypt (input_key input_data input_len output_data : Z) : A unit :=
  _ ← aes_init input_key AES_256 0 0 0 AES_ECB AES_HARD_DECRYPTION 0 input_len;
  aes_process input_data output_data (round_up input_len) AES_ECB.
Definition aes_ecb256_hard_encrypt (input_key input_data input_len output_data : Z) : A unit :=
  _ ← aes_init input_key AES_256 0 0 0 AES_ECB AES_HARD_ENCRYPTION 0 input_len;
  aes_process input_data output_data input_len AES_ECB.
Definition aes_cbc128_hard_decrypt (context : cbc_context_t) (input_data input_len output_data : Z) : A unit :=
  _ ← aes_init context.(cbc_key) AES_128 context.(cbc_iv) IV_LEN_128 0 AES_CBC AES_HARD_DECRYPTION 0 input_len;
  aes_process input_data output_data (round_up input_len) AES_CBC.
Definition aes_cbc128_hard_encrypt (context : cbc_context_t) (input_data input_len output_data : Z) : A unit :=
  _ ← aes_init context.(cbc_key) AES_128 context.(cbc_iv) IV_LEN_128 0 AES_CBC AES_HARD_ENCRYPTION 0 input_len;
  aes_process input_data output_data input_len AES_CBC.
Definition aes_cbc192_hard_decrypt (context : cbc_context_t) (input_data input_len output_data : Z) : A unit :=
  _ ← aes_init context.(cbc_key) AES_192 context.(cbc_iv) IV_LEN_128 0 AES_CBC AES_HARD_DECRYPTION 0 input_len;
  aes_process input_data output_data (round_up input_len) AES_CBC.
Definition aes_cbc192_hard_encrypt (context : cbc_context_t) (input_data input_len output_data : Z) : A unit :=
  _ ← aes_init context.(cbc_key) AES_192 context.(cbc_iv) IV_LEN_128 0 AES_CBC AES_HARD_ENCRYPTION 0 input_len;
  aes_process input_data output_data input_len AES_CBC.
Definition aes_cbc256_hard_decrypt (context : cbc_context_t) (input_data input_len output_data : Z) : A unit :=
  _ ← aes_init context.(cbc_key) AES_256 context.(cbc_iv) IV_LEN_128 0 AES_CBC AES_HARD_DECRYPTION 0 input_len;
  aes_process input_data output_data (round_up input_len) AES_CBC.
Definition aes_cbc256_hard_encrypt (context : cbc_context_t) (input_data input_len output_data : Z) : A unit :=
  _ ← aes_init context.(cbc_key) AES_256 context.(cbc_iv) IV_LEN_128 0 AES_CBC AES_HARD_ENCRYPTION 0 input_len;
  aes_process input_data output_data input_len AES_CBC.
Definition aes_gcm128_hard_decrypt (context : gcm_context_t) (input_data input_len output_data gcm_tag : Z) : A unit :=
  _ ← aes_init context.(gcm_key) AES_128 context.(gcm_iv) IV_LEN_96 context.(gcm_aad) AES_GCM AES_HARD_DECRYPTION context.(gcm_aad_len) input_len;
  _ ← aes_process input_data output_data input_len AES_GCM;
  gcm_get_tag gcm_tag.
Definition aes_gcm128_hard_encrypt (context : gcm_context_t) (input_data input_len output_data gcm_tag : Z) : A unit :=
  _ ← aes_init context.(gcm_key) AES_128 context.(gcm_iv) IV_LEN_96 context.(gcm_aad) AES_GCM AES_HARD_ENCRYPTION context.(gcm_aad_len) input_len;
  _ ← aes_process input_data output_data input_len AES_GCM;
  gcm_get_tag gcm_tag.
Definition aes_gcm192_hard_decrypt (context : gcm_context_t) (input_data input_len output_data gcm_tag : Z) : A unit :=
  _ ← aes_init context.(gcm_key) AES_192 context.(gcm_iv) IV_LEN_96 context.(gcm_aad) AES_GCM AES_HARD_DECRYPTION context.(gcm_aad_len) input_len;
  _ ← aes_process input_data output_data input_len AES_GCM;
  gcm_get_tag gcm_tag.
Definition aes_gcm192_hard_encrypt (context : gcm_context_t) (input_data input_len output_data gcm_tag : Z) : A unit :=
  _ ← aes_init context.(gcm_key) AES_192 context.(gcm_iv) IV_LEN_96 context.(gcm_aad) AES_GCM AES_HARD_ENCRYPTION context.(gcm_aad_len) input_len;
  _ ← aes_process input_data output_data input_len AES_GCM;
  gcm_get_tag gcm_tag.
Definition aes_gcm256_hard_decrypt (context : gcm_context_t) (input_data input_len output_data gcm_tag : Z) : A unit :=
  _ ← aes_init context.(gcm_key) AES_256 context.(gcm_iv) IV_LEN_96 context.(gcm_aad) AES_GCM AES_HARD_DECRYPTION context.(gcm_aad_len) input_len;
  _ ← aes_process input_data output_data input_len AES_GCM;
  gcm_get_tag gcm_tag.
Definition aes_gcm256_hard_encrypt (context : gcm_context_t) (input_data input_len output_data gcm_tag : Z) : A unit :=
  _ ← aes_init context.(gcm_key) AES_256 context.(gcm_iv) IV_LEN_96 context.(gcm_aad) AES_GCM AES_HARD_ENCRYPTION context.(gcm_aad_len) input_len;
  _ ← aes_process input_data output_data input_len AES_GCM;
  gcm_get_tag gcm_tag.
End aes.

(** ** What the engine promises *)
(** Its registers when it was enabled, the words it was fed, and how many were read *)
Record seen := Seen { s_regs : bank aes_reg; s_aad : list Z; s_text : list Z; s_taken : nat }.
(** In ECB and CBC every four words in give four words out.  In GCM that is so once the
    additional data is in, and the last word counts even when it does not end a block. *)
Definition aad_complete (b : bank aes_reg) (aad : list Z) : bool := b gb_aad_num + 1 <=? 4 * Z.of_nat (length aad).
Definition text_complete (b : bank aes_reg) (text : list Z) : bool := b gb_pc_num + 1 <=? 4 * Z.of_nat (length text).
Definition out_count (b : bank aes_reg) (aad text : list Z) : nat :=
  let n := length text in
  let blocks := (4 * (n / 4))%nat in
  if is_block_mode (fget cipher_mode b) then blocks
  else if aad_complete b aad then (if text_complete b text then n else blocks) else 0%nat.
(** Flags come up within [lat] looks: the engine holds twenty words, and hands out a word
    that is due. *)
Class AesLaws (E : Type) `{AesEngine E} (lat : nat) := {
  view : E → seen;
  aes_out : bank aes_reg → list Z → list Z → list Z;
  aes_tag : bank aes_reg → list Z → list Z → Z → Z;
  outs (e : E) : list Z := let v := view e in aes_out v.(s_regs) v.(s_aad) v.(s_text);
  finished (e : E) : Prop := let v := view e in
    aad_complete v.(s_regs) v.(s_aad) = true ∧ text_complete v.(s_regs) v.(s_text) = true ∧ v.(s_taken) = length (outs e);
  start_view b : view (e_start b) = Seen b [] [] 0;
  step_view e : view (e_step e) = view e;
  aad_view e w : data_in_flag e ≠ 0 → view (aes_aad_data w e) =
    let v := view e in Seen v.(s_regs) (v.(s_aad) ++ [w]) v.(s_text) v.(s_taken);
  text_view e w : data_in_flag e ≠ 0 → view (aes_text_data w e) =
    let v := view e in Seen v.(s_regs) v.(s_aad) (v.(s_text) ++ [w]) v.(s_taken);
  out_view e : data_out_flag e ≠ 0 → let v := view e in
    outs e !! v.(s_taken) = Some (fst (aes_out_data e)) ∧
    view (snd (aes_out_data e)) = Seen v.(s_regs) v.(s_aad) v.(s_text) (S v.(s_taken));
  in_live e : (length (view e).(s_text) < (view e).(s_taken) + 20)%nat →
    ∃ n, (n ≤ lat)%nat ∧ data_in_flag (Nat.iter (S n) e_step e) ≠ 0;
  out_live e : ((view e).(s_taken) < length (outs e))%nat →
    ∃ n, (n ≤ lat)%nat ∧ data_out_flag (Nat.iter (S n) e_step e) ≠ 0;
  out_len b aad text : length (aes_out b aad text) = out_count b aad text;
  out_prefix b aad text more : aes_out b aad text `prefix_of` aes_out b aad (text ++ more);
  out_width b aad text : Forall (λ w, in_width 32 w) (aes_out b aad text);
  tag_live e : finished e → ∃ n, (n ≤ lat)%nat ∧ tag_in_flag (Nat.iter (S n) e_step e) ≠ 0;
  tag_out e i : finished e → gcm_out_tag i e = aes_tag (view e).(s_regs) (view e).(s_aad) (view e).(s_text) i;
  tag_width b aad text i : in_width 32 (aes_tag b aad text i);
  tag_view e i w : view (gcm_in_tag i w e) = view e;
  chk_live e w0 w1 w2 w3 : finished e → ∃ n, (n ≤ lat)%nat ∧
    tag_chk (Nat.iter (S n) e_step (gcm_in_tag 3 w3 (gcm_in_tag 2 w2 (gcm_in_tag 1 w1 (gcm_in_tag 0 w0 e))))) ≠ 0;
  clear_view e w : view (tag_clear w e) = view e
}.

Section run.
Context {E : Type} `{HE : AesEngine E} (reset_regs : bank aes_reg) (fuel : nat) `{!AesLaws E fuel}.
Abbreviation state := (aes_s (E := E)).
Definition with_eng (e : E) (s : state) : state := Aes s.(aregs) e s.(amem) s.(asys).
Definition with_mem (m : Z → Z) (s : state) : state := Aes s.(aregs) s.(eng) m s.(asys).
Lemma iter_view n e : view (Nat.iter n e_step e) = view e.
Proof. induction n as [|n IH]; [done|]. cbn [Nat.iter nat_rect]. by rewrite step_view. Qed.
Lemma wait_for_run n flag e : (∃ k, (k ≤ n)%nat ∧ flag (Nat.iter (S k) e_step e) ≠ 0) →
  ∃ e', wait_for n flag e = Ok e' ∧ flag e' ≠ 0 ∧ view e' = view e.
Proof.
  revert e. induction n as [|n IH]; intros e (k & Hk & Hf); cbn [wait_for];
    (destruct (Z.eqb_spec (flag (e_step e)) 0) as [E0|]; cbn [negb]; [|by eexists; rewrite step_view]).
  - by replace k with 0%nat in Hf by lia.
  - destruct k as [|k]; [done|]. destruct (IH (e_step e)) as (e' & H1 & H2 & H3).
    + exists k. split; [lia|]. by rewrite <-Nat.iter_succ_r.
    + exists e'. by rewrite H3, step_view.
Qed.
Lemma wait_run flag (s : state) : (∃ k, (k ≤ fuel)%nat ∧ flag (Nat.iter (S k) e_step s.(eng)) ≠ 0) →
  ∃ e', wait fuel flag s = Ok (tt, with_eng e' s) ∧ flag e' ≠ 0 ∧ view e' = view s.(eng).
Proof. intros Hk. destruct (wait_for_run _ _ _ Hk) as (e' & H1 & H2 & H3). exists e'. unfold wait. by rewrite H1. Qed.

(** Feeding and draining *)
Lemma feed_text_run ws (s : state) b aad text taken : view s.(eng) = Seen b aad text taken → (length text + length ws ≤ taken + 20)%nat →
  ∃ e', feed fuel aes_write_text ws s = Ok (tt, with_eng e' s) ∧ view e' = Seen b aad (text ++ ws) taken.
Proof.
  revert s text. induction ws as [|w ws IH]; intros s text Hv Hl; cbn [feed length] in *.
  { exists s.(eng). rewrite app_nil_r. by destruct s. }
  destruct (wait_run data_in_flag s) as (e1 & H1 & H2 & H3); [apply in_live; rewrite Hv; cbn; lia|].
  rewrite (M_bind_run _ _ _ _ _ H1). rewrite (M_bind_run _ _ _ tt (with_eng (aes_text_data w e1) s)) by done.
  destruct (IH (with_eng (aes_text_data w e1) s) (text ++ [w])) as (e2 & H4 & H5).
  - cbn. by rewrite text_view, H3, Hv.
  - rewrite length_app. cbn. lia.
  - exists e2. by rewrite H4, H5, <-app_assoc.
Qed.
Lemma feed_aad_run ws (s : state) b aad : view s.(eng) = Seen b aad [] 0 →
  ∃ e', feed fuel aes_write_aad ws s = Ok (tt, with_eng e' s) ∧ view e' = Seen b (aad ++ ws) [] 0.
Proof.
  revert s aad. induction ws as [|w ws IH]; intros s aad Hv; cbn [feed].
  { exists s.(eng). rewrite app_nil_r. by destruct s. }
  destruct (wait_run data_in_flag s) as (e1 & H1 & H2 & H3); [apply in_live; rewrite Hv; cbn; lia|].
  rewrite (M_bind_run _ _ _ _ _ H1). rewrite (M_bind_run _ _ _ tt (with_eng (aes_aad_data w e1) s)) by done.
  destruct (IH (with_eng (aes_aad_data w e1) s) (aad ++ [w])) as (e2 & H4 & H5).
  - cbn. by rewrite aad_view, H3, Hv.
  - exists e2. by rewrite H4, H5, <-app_assoc.
Qed.
Definition bytes_of (ws : list Z) : list Z := concat (word_bytes <$> ws).
Lemma bytes_of_length ws : length (bytes_of ws) = (4 * length ws)%nat.
Proof. induction ws as [|w ws IH]; [done|]. cbn. rewrite length_app, word_bytes_length. unfold bytes_of in IH. lia. Qed.
Lemma bytes_of_app xs ys : bytes_of (xs ++ ys) = bytes_of xs ++ bytes_of ys.
Proof. unfold bytes_of. by rewrite fmap_app, concat_app. Qed.
Lemma out_run (s : state) b aad text taken : view s.(eng) = Seen b aad text taken → (taken < length (aes_out b aad text))%nat →
  ∃ e1 w e2, wait fuel data_out_flag s = Ok (tt, with_eng e1 s) ∧ aes_read_out_data (with_eng e1 s) = Ok (w, with_eng e2 s) ∧
    aes_out b aad text !! taken = Some w ∧ view e2 = Seen b aad text (S taken).
Proof.
  intros Hv Hl. destruct (wait_run data_out_flag s) as (e1 & H1 & H2 & H3).
  { apply out_live. unfold outs. by rewrite Hv. }
  destruct (out_view _ H2) as [H4 H5]. unfold outs in H4. rewrite H3, Hv in H4, H5.
  exists e1, (fst (aes_out_data e1)), (snd (aes_out_data e1)). unfold aes_read_out_data. cbn. by destruct (aes_out_data e1).
Qed.
Lemma drain_run n out (s : state) b aad text taken : view s.(eng) = Seen b aad text taken →
  (taken + n ≤ length (aes_out b aad text))%nat →
  ∃ e' m', drain fuel out n s = Ok (tt, with_mem m' (with_eng e' s)) ∧ view e' = Seen b aad text (taken + n) ∧
    ∀ q, m' q = mem_write s.(amem) out (bytes_of (take n (drop taken (aes_out b aad text)))) q.
Proof.
  revert s out taken. induction n as [|n IH]; intros s out taken Hv Hl; cbn [drain].
  { exists s.(eng), s.(amem). rewrite Nat.add_0_r. by destruct s. }
  destruct (out_run s b aad text taken Hv) as (e1 & w & e2 & H1 & H2 & H3 & H4); [lia|].
  rewrite (M_bind_run _ _ _ _ _ H1), (M_bind_run _ _ _ _ _ H2).
  set (s2 := with_mem (mem_write (amem s) out (word_bytes w)) (with_eng e2 s)). rewrite (M_bind_run _ _ _ tt s2) by done.
  destruct (IH s2 (out + 4) (S taken) H4) as (e' & m' & H5 & H6 & H7); [lia|].
  exists e', m'. rewrite H5. split; [done|]. rewrite H6. split; [f_equal; lia|]. intros q. rewrite H7.
  cbn [s2 amem with_mem with_eng]. rewrite (drop_S _ _ _ H3). cbn [firstn fmap list_fmap concat bytes_of]. 
  rewrite <-mem_write_app, word_bytes_length. done.
Qed.

(** Pieces of a message *)
Definition text_words (m : Z → Z) (a len mode : Z) : list Z :=
  words_at m a (len / 4) ++ (if len mod 4 =? 0 then [] else [partial_word m (a + 4 * (len / 4)) (len mod 4)]) ++
  (if is_block_mode mode then replicate (Z.to_nat ((round_up len - len) / 4)) 0 else []).
Definition out_length (mode len : Z) : Z := if is_block_mode mode then round_up len else len.
Lemma words_at_app m a n k : 0 ≤ n → 0 ≤ k → words_at m a (n + k) = words_at m a n ++ words_at m (a + 4 * n) k.
Proof.
  intros Hn Hk. unfold words_at. rewrite seqZ_app, fmap_app by done. f_equal. replace (0 + n) with (n + 0) by lia.
  rewrite <-(fmap_add_seqZ n 0 k), <-list_fmap_compose. apply list_fmap_ext. intros i x _. cbn. f_equal. lia.
Qed.
Lemma words_at_length m a n : 0 ≤ n → Z.of_nat (length (words_at m a n)) = n.
Proof. intros. unfold words_at. rewrite length_fmap, length_seqZ. lia. Qed.
Lemma words_at_ext m m' a n : (∀ q, a ≤ q < a + 4 * n → m q = m' q) → words_at m a n = words_at m' a n.
Proof.
  intros Em. unfold words_at. apply list_fmap_ext. intros i x Hx. apply lookup_seqZ in Hx as [-> ?].
  unfold word_at. f_equal. apply mem_read_ext. intros q Hq. apply Em. lia.
Qed.
Lemma text_words_ext m m' a len mode : 0 ≤ len → (∀ q, a ≤ q < a + len → m q = m' q) → text_words m a len mode = text_words m' a len mode.
Proof.
  intros Hl Em. unfold text_words. f_equal; [|f_equal].
  - apply words_at_ext. intros q Hq. apply Em. Z.div_mod_to_equations. lia.
  - destruct (_ =? 0); [done|]. unfold partial_word. do 3 f_equal. apply mem_read_ext. intros q Hq. apply Em. Z.div_mod_to_equations. lia.
Qed.
Lemma round_up_id len : 0 ≤ len < 2 ^ 32 → len ≤ round_up len < len + 16 ∧ round_up len mod 16 = 0.
Proof. intros. unfold round_up. rewrite (wrap_id 64) by lia. Z.div_mod_to_equations. lia. Qed.
Lemma round_up_add k r : 0 ≤ k → 0 ≤ r → 80 * k + r < 2 ^ 32 → round_up (80 * k + r) = 80 * k + round_up r.
Proof. intros. unfold round_up. rewrite !(wrap_id 64) by lia. Z.div_mod_to_equations. lia. Qed.
Lemma text_words_add m a k r mode : 0 ≤ k → 0 ≤ r → 80 * k + r < 2 ^ 32 →
  text_words m a (80 * k + r) mode = words_at m a (20 * k) ++ text_words m (a + 80 * k) r mode.
Proof.
  intros Hk Hr Hl. unfold text_words. rewrite round_up_add by done.
  replace ((80 * k + r) / 4) with (20 * k + r / 4) by (Z.div_mod_to_equations; lia).
  replace ((80 * k + r) mod 4) with (r mod 4) by (Z.div_mod_to_equations; lia).
  rewrite words_at_app by (Z.div_mod_to_equations; lia). replace (a + 4 * (20 * k)) with (a + 80 * k) by lia.
  replace (a + 4 * (20 * k + r / 4)) with (a + 80 * k + 4 * (r / 4)) by lia.
  replace (80 * k + round_up r - (80 * k + r)) with (round_up r - r) by lia. by rewrite <-app_assoc.
Qed.
Lemma text_words_length m a len mode : 0 ≤ len < 2 ^ 32 →
  Z.of_nat (length (text_words m a len mode)) = (out_length mode len + 3) / 4.
Proof.
  intros Hl. unfold text_words, out_length. rewrite !length_app, !Nat2Z.inj_add, words_at_length by (Z.div_mod_to_equations; lia).
  pose proof (round_up_id len Hl) as [Hr Hr16].
  destruct (Z.eqb_spec (len mod 4) 0), (is_block_mode mode); cbn [length]; rewrite ?length_replicate; Z.div_mod_to_equations; lia.
Qed.
Lemma feed_bytes_run put (s : state) a len (add : list Z → seen) :
  view s.(eng) = add [] → (∀ s' ws ws', view s'.(eng) = add ws → (length ws + length ws' ≤ Z.to_nat ((len + 3) / 4))%nat →
    ∃ e', feed fuel put ws' s' = Ok (tt, with_eng e' s') ∧ view e' = add (ws ++ ws')) → 0 ≤ len →
  ∃ e', feed_bytes fuel put a len s = Ok (tt, with_eng e' s) ∧ view e' = add (text_words s.(amem) a len AES_GCM).
Proof.
  intros Hv Hput Hl. unfold feed_bytes, text_words. rewrite (M_bind_run _ _ _ s.(amem) s) by done.
  change (is_block_mode AES_GCM) with false. cbv iota. rewrite app_nil_r.
  pose proof (words_at_length s.(amem) a (len / 4) ltac:(Z.div_mod_to_equations; lia)) as Hw.
  destruct (Hput s [] (words_at s.(amem) a (len / 4)) Hv) as (e1 & H1 & H2).
  { cbn [length]. Z.div_mod_to_equations. lia. }
  rewrite (M_bind_run _ _ _ _ _ H1). destruct (Z.eqb_spec (len mod 4) 0) as [|Hne].
  - exists e1. rewrite app_nil_r. done.
  - destruct (Hput (with_eng e1 s) (words_at s.(amem) a (len / 4)) [partial_word s.(amem) (a + 4 * (len / 4)) (len mod 4)] H2)
      as (e2 & H3 & H4); [cbn [length]; Z.div_mod_to_equations; lia|]. exists e2. by rewrite H3, H4.
Qed.
Lemma input_run (s : state) a len mode b aad text taken : view s.(eng) = Seen b aad text taken → length text = taken →
  0 ≤ len ≤ 80 →
  ∃ e', aes_input_bytes fuel a len mode s = Ok (tt, with_eng e' s) ∧ view e' = Seen b aad (text ++ text_words s.(amem) a len mode) taken.
Proof.
  intros Hv Ht Hl. unfold aes_input_bytes. pose proof (round_up_id len ltac:(lia)) as [Hr Hr16].
  destruct (feed_bytes_run aes_write_text s a len (λ ws, Seen b aad (text ++ ws) taken)) as (e1 & H1 & H2).
  - by rewrite app_nil_r.
  - intros s' ws ws' Hv' Hlen. rewrite app_assoc. apply feed_text_run; [done|]. rewrite length_app. Z.div_mod_to_equations. lia.
  - lia.
  - rewrite (M_bind_run _ _ _ _ _ H1). pose proof (text_words_length s.(amem) a len AES_GCM ltac:(lia)) as Hlen. unfold out_length in Hlen.
    change (is_block_mode AES_GCM) with false in Hlen. cbv iota in Hlen. unfold text_words at 1. destruct (is_block_mode mode) eqn:Hmode.
    + destruct (feed_text_run (replicate (Z.to_nat ((round_up len - len) / 4)) 0) (with_eng e1 s) b aad _ taken H2) as (e2 & H3 & H4).
      { rewrite length_app, length_replicate. Z.div_mod_to_equations. lia. }
      exists e2. rewrite H3, H4. split; [done|]. f_equal. rewrite <-app_assoc. f_equal. unfold text_words.
      change (is_block_mode AES_GCM) with false. cbv iota. by rewrite app_nil_r, <-app_assoc.
    + exists e1. by rewrite H2.
Qed.

(** One piece: its output is what the engine adds to what it gave before *)
Definition mode_ok (mode : Z) (b : bank aes_reg) : Prop :=
  (mode = AES_ECB ∨ mode = AES_CBC ∨ mode = AES_GCM) ∧ is_block_mode (fget cipher_mode b) = is_block_mode mode.
Definition new_bytes (b : bank aes_reg) (aad text ws : list Z) : list Z := bytes_of (drop (length text) (aes_out b aad (text ++ ws))).
Lemma chunk_run inp out len mode (s : state) b aad text : view s.(eng) = Seen b aad text (length text) → mode_ok mode b → 0 ≤ len ≤ 80 →
  let ws := text_words s.(amem) inp len mode in
  out_count b aad (text ++ ws) = length (text ++ ws) →
  ∃ e' m', process_less_80_bytes fuel inp out len mode s = Ok (tt, with_mem m' (with_eng e' s)) ∧
    view e' = Seen b aad (text ++ ws) (length (text ++ ws)) ∧
    ∀ q, m' q = mem_write s.(amem) out (take (Z.to_nat (out_length mode len)) (new_bytes b aad text ws)) q.
Proof.
  intros Hv [Hmode Hm] Hl ws Hc. unfold process_less_80_bytes. pose proof (round_up_id len ltac:(lia)) as [Hr Hr16].
  destruct (input_run s inp len mode b aad text _ Hv eq_refl Hl) as (e1 & H1 & H2). rewrite (M_bind_run _ _ _ _ _ H1).
  fold ws in H2. pose proof (text_words_length s.(amem) inp len mode ltac:(lia)) as Hlen. fold ws in Hlen. unfold out_length in *.
  pose proof (out_len b aad (text ++ ws)) as Hout. rewrite Hc, length_app in Hout.
  set (n := if is_block_mode mode then round_up len / 4 else len / 4).
  destruct (drain_run (Z.to_nat n) out (with_eng e1 s) b aad (text ++ ws) (length text) H2) as (e2 & m2 & H3 & H4 & H5).
  { rewrite Hout. unfold n. destruct (is_block_mode mode); Z.div_mod_to_equations; lia. }
  rewrite (M_bind_run _ _ _ _ _ H3). set (news := drop (length text) (aes_out b aad (text ++ ws))) in *.
  assert (length news = length ws) as Hnews by (unfold news; rewrite length_drop; lia).
  destruct ((mode =? AES_GCM) && negb (len mod 4 =? 0)) eqn:Hlast.
  - apply andb_true_iff in Hlast as [->%Z.eqb_eq Hrem%negb_true_iff%Z.eqb_neq].
    change (is_block_mode AES_GCM) with false in *. cbv iota in *.
    destruct (out_run (with_mem m2 (with_eng e2 (with_eng e1 s))) b aad (text ++ ws) _ H4) as (e3 & w & e4 & H6 & H7 & H8 & H9).
    { rewrite Hout. Z.div_mod_to_equations. lia. }
    rewrite (M_bind_run _ _ _ _ _ H6), (M_bind_run _ _ _ _ _ H7). eexists e4, _. split; [reflexivity|].
    rewrite H9, length_app. split; [f_equal; Z.div_mod_to_equations; lia|]. intros q. cbn [amem with_mem with_eng] in *.
    rewrite (mem_write_ext m2 _ _ _ _ H5). replace (out + 4 * n) with (out + Z.of_nat (length (bytes_of (take (Z.to_nat n) news))))
      by (rewrite bytes_of_length, length_take; unfold n; Z.div_mod_to_equations; lia).
    rewrite mem_write_app. f_equal. unfold new_bytes. fold news. rewrite <-(take_drop (Z.to_nat n) news) at 2.
    rewrite bytes_of_app, take_app_ge by (rewrite bytes_of_length, length_take; unfold n; Z.div_mod_to_equations; lia). f_equal.
    assert (drop (Z.to_nat n) news = [w]) as Hd.
    { unfold news. rewrite drop_drop. rewrite (drop_S _ _ _ H8). f_equal. apply nil_length_inv. rewrite length_drop. unfold n. Z.div_mod_to_equations. lia. }
    rewrite Hd, bytes_of_length, length_take. cbn. rewrite app_nil_r. f_equal. unfold n. Z.div_mod_to_equations. lia.
  - eexists e2, m2. split; [reflexivity|]. rewrite H4. split.
    { f_equal. rewrite length_app. revert Hlast. unfold n, is_block_mode in *. destruct Hmode as [-> |[-> | ->]]; cbn in *;
        destruct (Z.eqb_spec (len mod 4) 0); cbn; intros; Z.div_mod_to_equations; lia. }
    intros q. rewrite H5. f_equal. unfold new_bytes. fold news.
    assert (Z.to_nat n = length ws ∧ (length (bytes_of news) ≤ Z.to_nat (if is_block_mode mode then round_up len else len))%nat) as [Hn Hb].
    { rewrite bytes_of_length, Hnews. revert Hlast. unfold n, is_block_mode in *. destruct Hmode as [-> |[-> | ->]]; cbn in *;
        destruct (Z.eqb_spec (len mod 4) 0); cbn; intros; Z.div_mod_to_equations; lia. }
    rewrite !take_ge; [done|done|lia].
Qed.

(** All pieces *)
Definition ready (b : bank aes_reg) (aad : list Z) (mode len : Z) : Prop :=
  mode_ok mode b ∧ (mode = AES_GCM → aad_complete b aad = true ∧ 0 < len ∧ b gb_pc_num = len - 1).
Lemma whole_blocks b aad mode len ws : ready b aad mode len → (length ws mod 4 = 0)%nat → out_count b aad ws = length ws.
Proof.
  intros [[Hmode Hm] Hg] Hw. assert (4 * (length ws / 4) = length ws)%nat as E4.
  { pose proof (Nat.div_mod_eq (length ws) 4). lia. }
  unfold out_count. rewrite E4, Hm. destruct Hmode as [-> |[-> | ->]]; [done|done|]. destruct (Hg eq_refl) as (-> & _). by destruct (text_complete b ws).
Qed.
Lemma text_words_nil m a mode : text_words m a 0 mode = [].
Proof. unfold text_words. by destruct (is_block_mode mode). Qed.
Lemma text_words_80 m a mode : text_words m a 80 mode = words_at m a 20.
Proof.
  pose proof (text_words_add m a 1 0 mode ltac:(lia) ltac:(lia) ltac:(lia)) as Hw. rewrite text_words_nil, app_nil_r in Hw.
  by replace (80 * 1 + 0) with 80 in Hw.
Qed.
(** What the engine adds for two pieces of text, the first of which it has answered *)
Lemma new_bytes_app b aad text ws ws' : length (aes_out b aad (text ++ ws)) = length (text ++ ws) →
  new_bytes b aad text (ws ++ ws') = new_bytes b aad text ws ++ new_bytes b aad (text ++ ws) ws'.
Proof.
  intros Hl. unfold new_bytes. rewrite <-bytes_of_app. f_equal. rewrite <-app_assoc.
  destruct (out_prefix b aad (text ++ ws) ws') as [k Hk]. rewrite <-app_assoc in Hk. rewrite Hk.
  rewrite (drop_app_le (aes_out b aad (text ++ ws)) k (length text)) by (rewrite Hl, length_app; lia). f_equal. by rewrite <-Hl, drop_app_length.
Qed.
Lemma chunks_run inp out mode len k i (s : state) b aad text : ready b aad mode len → view s.(eng) = Seen b aad text (length text) →
  (length text mod 4 = 0)%nat → 0 ≤ i → 80 * (i + Z.of_nat k) ≤ len → out ≤ inp ∨ inp + len ≤ out →
  let ws := words_at s.(amem) (inp + 80 * i) (20 * Z.of_nat k) in
  ∃ e' m', process_chunks fuel (seqZ i (Z.of_nat k)) inp out mode s = Ok (tt, with_mem m' (with_eng e' s)) ∧
    view e' = Seen b aad (text ++ ws) (length (text ++ ws)) ∧
    ∀ q, m' q = mem_write s.(amem) (out + 80 * i) (new_bytes b aad text ws) q.
Proof.
  intros Hready. revert i s text. induction k as [|k IH]; intros i s text Hv Ht Hi Hlen Hdis.
  { cbn zeta. rewrite seqZ_nil by lia. cbn [process_chunks]. exists s.(eng), s.(amem). replace (20 * Z.of_nat 0) with 0 by lia.
    cbn [words_at seqZ]. change (words_at (amem s) (inp + 80 * i) 0) with (@nil Z). rewrite app_nil_r. split; [by destruct s|]. split; [done|].
    intros q. unfold new_bytes. rewrite app_nil_r, drop_ge; [done|]. rewrite out_len, (whole_blocks b aad mode len) by done. done. }
  cbn zeta. rewrite seqZ_cons by lia. cbn [process_chunks]. replace (Z.pred (Z.of_nat (S k))) with (Z.of_nat k) by lia.
  replace (inp + i * 80) with (inp + 80 * i) by lia. replace (out + i * 80) with (out + 80 * i) by lia.
  set (w1 := words_at s.(amem) (inp + 80 * i) 20). assert (length w1 = 20%nat) as Hw1 by (pose proof (words_at_length s.(amem) (inp + 80 * i) 20 ltac:(lia)); unfold w1; lia).
  assert (length (text ++ w1) mod 4 = 0)%nat as Ht1 by (rewrite length_app, Hw1; pose proof (Nat.div_mod_eq (length text) 4); apply Nat.mod_divide; [done|]; exists (length text / 4 + 5)%nat; lia).
  pose proof (whole_blocks b aad mode len (text ++ w1) Hready Ht1) as Hc.
  destruct (chunk_run (inp + 80 * i) (out + 80 * i) 80 mode s b aad text Hv (proj1 Hready) ltac:(lia)) as (e1 & m1 & H1 & H2 & H3).
  { by rewrite text_words_80. }
  rewrite text_words_80 in H2, H3. fold w1 in H2, H3. rewrite (M_bind_run _ _ _ _ _ H1).
  assert (Z.to_nat (out_length mode 80) = 80%nat) as Ho80 by (unfold out_length; by destruct (is_block_mode mode)). rewrite Ho80 in H3.
  assert (length (new_bytes b aad text w1) = 80%nat) as Hnb.
  { unfold new_bytes. rewrite bytes_of_length, length_drop, out_len, Hc, length_app, Hw1. lia. }
  rewrite (take_ge (new_bytes b aad text w1)) in H3 by lia.
  destruct (IH (Z.succ i) (with_mem m1 (with_eng e1 s)) (text ++ w1) H2 Ht1) as (e2 & m2 & H4 & H5 & H6); [lia|lia|done|].
  cbn [amem with_mem with_eng] in *.
  assert (words_at m1 (inp + 80 * Z.succ i) (20 * Z.of_nat k) = words_at s.(amem) (inp + 80 * i + 80) (20 * Z.of_nat k)) as Hw.
  { replace (inp + 80 * Z.succ i) with (inp + 80 * i + 80) by lia. apply words_at_ext. intros q Hq. rewrite H3. apply mem_write_out. lia. }
  rewrite Hw in H5, H6. replace (20 * Z.of_nat (S k)) with (20 + 20 * Z.of_nat k) by lia. rewrite words_at_app by lia.
  replace (inp + 80 * i + 4 * 20) with (inp + 80 * i + 80) by lia. fold w1.
  exists e2, m2. split; [by rewrite H4|]. rewrite app_assoc. split; [done|].
  intros q. rewrite H6, (mem_write_ext m1 _ _ _ _ H3).
  replace (out + 80 * Z.succ i) with (out + 80 * i + Z.of_nat (length (new_bytes b aad text w1))) by (rewrite Hnb; lia).
  rewrite mem_write_app. f_equal. symmetry. apply new_bytes_app. by rewrite out_len.
Qed.
(** The output of a whole message *)
Definition answer (b : bank aes_reg) (aad ws : list Z) (mode len : Z) : list Z := take (Z.to_nat (out_length mode len)) (bytes_of (aes_out b aad ws)).
(** The pieces of eighty bytes *)
Lemma whole_run inp out len mode (s : state) b aad n : view s.(eng) = Seen b aad [] 0 → ready b aad mode len → 0 ≤ len →
  out ≤ inp ∨ inp + len ≤ out → n = len / 80 →
  let ws := words_at s.(amem) inp (20 * n) in
  ∃ e' m', (if 80 <=? len then process_chunks fuel (seqZ 0 n) inp out mode else mret tt) s = Ok (tt, with_mem m' (with_eng e' s)) ∧
    view e' = Seen b aad ws (length ws) ∧ (∀ q, m' q = mem_write s.(amem) out (new_bytes b aad [] ws) q) ∧
    length (aes_out b aad ws) = length ws ∧ length ws = Z.to_nat (20 * n).
Proof.
  intros Hv Hready Hl Hdis Hn ws. assert (0 ≤ n ∧ 80 * n ≤ len) as [Hn0 Hn80] by (subst n; Z.div_mod_to_equations; lia).
  pose proof (words_at_length s.(amem) inp (20 * n) ltac:(lia)) as Hlen. fold ws in Hlen.
  destruct (chunks_run inp out mode len (Z.to_nat n) 0 s b aad [] Hready Hv eq_refl ltac:(lia) ltac:(lia) Hdis) as (e1 & m1 & H1 & H2 & H3).
  rewrite Z2Nat.id in H1, H2, H3 by lia. replace (inp + 80 * 0) with inp in H2, H3 by lia. replace (out + 80 * 0) with out in H3 by lia.
  fold ws in H2, H3. cbn [app] in H2. exists e1, m1. split_and!; [|done|done| |lia].
  - destruct (Z.leb_spec 80 len); [done|]. rewrite <-H1. replace n with 0 by (subst n; rewrite Z.div_small; lia). done.
  - rewrite out_len. apply (whole_blocks b aad mode len); [done|]. apply Nat.mod_divide; [done|]. exists (5 * Z.to_nat n)%nat. lia.
Qed.
Lemma answered m inp b aad mode len : ready b aad mode len → 0 ≤ len < 2 ^ 32 →
  out_count b aad (text_words m inp len mode) = length (text_words m inp len mode).
Proof.
  intros Hready Hl. pose proof (text_words_length m inp len mode Hl) as Hlen. destruct (decide (mode = AES_GCM)) as [-> |Hne].
  - destruct Hready as [[_ Hm] Hg]. destruct (Hg eq_refl) as (Ha & Hpos & Hpc). unfold out_count. rewrite Hm, Ha. unfold text_complete. rewrite Hpc.
    change (out_length AES_GCM len) with len in Hlen. rewrite (proj2 (Z.leb_le _ _)); [done|]. Z.div_mod_to_equations. lia.
  - apply (whole_blocks b aad mode len _ Hready).
    assert (is_block_mode mode = true) as Hb by (destruct Hready as [[[-> |[-> | ->]] _] _]; done). unfold out_length in Hlen. rewrite Hb in Hlen.
    pose proof (round_up_id len Hl) as [? ?]. apply Nat.mod_divide; [done|]. exists (Z.to_nat (round_up len / 16)). Z.div_mod_to_equations. lia.
Qed.
Lemma process_run inp out len mode (s : state) b aad : view s.(eng) = Seen b aad [] 0 → ready b aad mode len → 0 ≤ len < 2 ^ 32 →
  out ≤ inp ∨ inp + len ≤ out →
  let ws := text_words s.(amem) inp len mode in
  ∃ e' m', aes_process fuel inp out len mode s = Ok (tt, with_mem m' (with_eng e' s)) ∧ view e' = Seen b aad ws (length ws) ∧
    ∀ q, m' q = mem_write s.(amem) out (answer b aad ws mode len) q.
Proof.
  intros Hv Hready Hl Hdis ws. set (n := len / 80). set (r := len mod 80). assert (len = 80 * n + r ∧ 0 ≤ r < 80 ∧ 0 ≤ n) as (Elen & Hr & Hn).
  { unfold n, r. Z.div_mod_to_equations. lia. }
  pose proof (text_words_add s.(amem) inp n r mode Hn ltac:(lia) ltac:(lia)) as Hws. rewrite <-Elen in Hws. fold ws in Hws.
  pose proof (answered s.(amem) inp b aad mode len Hready Hl) as Hcount. fold ws in Hcount.
  destruct (whole_run inp out len mode s b aad n Hv Hready ltac:(lia) Hdis eq_refl) as (e1 & m1 & H1 & H2 & H3 & Hout1 & Hw1).
  set (w1 := words_at s.(amem) inp (20 * n)) in *. set (w2 := text_words s.(amem) (inp + 80 * n) r mode) in *.
  unfold aes_process. fold n r. rewrite (M_bind_run _ _ _ _ _ H1).
  assert (length (new_bytes b aad [] w1) = Z.to_nat (80 * n)) as Hnb.
  { unfold new_bytes. rewrite bytes_of_length, length_drop. cbn [app length]. rewrite Hout1. lia. }
  assert (out_length mode len = 80 * n + out_length mode r) as Hol.
  { unfold out_length. rewrite Elen at 1. rewrite round_up_add by lia. destruct (is_block_mode mode); lia. }
  assert (answer b aad ws mode len = new_bytes b aad [] w1 ++ take (Z.to_nat (out_length mode r)) (new_bytes b aad w1 w2)) as Hans.
  { unfold answer. change (bytes_of (aes_out b aad ws)) with (new_bytes b aad [] ws). rewrite Hws, new_bytes_app by done. cbn [app].
    assert (0 ≤ out_length mode r) by (unfold out_length; pose proof (round_up_id r ltac:(lia)); destruct (is_block_mode mode); lia).
    rewrite take_app, Hnb, take_ge by lia. do 2 f_equal. lia. }
  destruct (Z.eqb_spec r 0) as [E0|Hne].
  - assert (w2 = []) as Hw2 by (unfold w2; by rewrite E0, text_words_nil).
    assert (new_bytes b aad w1 [] = []) as Hnil by (unfold new_bytes; rewrite app_nil_r, drop_ge by lia; done).
    rewrite Hw2, Hnil, take_nil, app_nil_r in Hans. rewrite Hw2, app_nil_r in Hws.
    exists e1, m1. split; [done|]. rewrite Hans, Hws. done.
  - replace (inp + n * 80) with (inp + 80 * n) by lia. replace (out + n * 80) with (out + 80 * n) by lia.
    assert (text_words m1 (inp + 80 * n) r mode = w2) as Hw2.
    { apply text_words_ext; [lia|]. intros q Hq. rewrite H3. apply mem_write_out. lia. }
    destruct (chunk_run (inp + 80 * n) (out + 80 * n) r mode (with_mem m1 (with_eng e1 s)) b aad w1 H2 (proj1 Hready) ltac:(lia)) as (e2 & m2 & H4 & H5 & H6).
    { cbn. by rewrite Hw2, <-Hws. }
    cbn [amem with_mem with_eng] in *. rewrite Hw2 in H5, H6. exists e2, m2. rewrite H4. split; [done|]. rewrite Hws. split; [done|].
    intros q. rewrite H6, <-Hws, Hans, (mem_write_ext m1 _ _ _ _ H3), <-mem_write_app, Hnb. do 2 f_equal. lia.
Qed.

(** ** Loading the engine *)
Lemma bytes_of_words_at m a n : bytes_ok m → 0 ≤ n → bytes_of (words_at m a n) = mem_read m a (4 * n).
Proof.
  intros Hm Hn. pattern n. apply natlike_ind; [done| |done]. intros x Hx IH. unfold Z.succ.
  rewrite words_at_app, bytes_of_app, IH, Z.mul_add_distr_l, mem_read_app by lia. f_equal.
  change (words_at m (a + 4 * x) 1) with [word_at m (a + 4 * x + 4 * 0)]. unfold bytes_of. cbn [fmap list_fmap concat]. rewrite app_nil_r, Z.add_0_r.
  apply word_bytes_word; [|by apply mem_read_bytes]. apply Nat2Z.inj. by rewrite mem_read_length.
Qed.
(** The words of a message, as bytes: the message filled up with zeros *)
Lemma bytes_of_text_words m a len mode : bytes_ok m → 0 ≤ len < 2 ^ 32 →
  bytes_of (text_words m a len mode) = mem_read m a len ++ replicate (Z.to_nat ((out_length mode len + 3) / 4 * 4 - len)) 0.
Proof.
  intros Hm Hl. pose proof (round_up_id len Hl) as [Hr Hr16]. unfold text_words. rewrite !bytes_of_app, bytes_of_words_at by (done || Z.div_mod_to_equations; lia).
  assert (∀ n, bytes_of (replicate n 0) = replicate (4 * n) 0) as Hz.
  { intros n. induction n as [|n IH]; [done|]. replace (4 * S n)%nat with (4 + 4 * n)%nat by lia. rewrite replicate_add, <-IH. done. }
  assert (bytes_of (if is_block_mode mode then replicate (Z.to_nat ((round_up len - len) / 4)) 0 else []) =
    replicate (Z.to_nat ((out_length mode len - len) / 4 * 4)) 0) as ->.
  { unfold out_length. destruct (is_block_mode mode); [rewrite Hz; f_equal; Z.div_mod_to_equations; lia|].
    replace (len - len) with 0 by lia. done. }
  assert (len ≤ out_length mode len ∧ (out_length mode len = len ∨ out_length mode len mod 16 = 0)) as [Ho Ho16].
  { unfold out_length. destruct (is_block_mode mode); lia. }
  generalize dependent (out_length mode len). intros ol Ho Ho16. destruct (Z.eqb_spec (len mod 4) 0) as [E0|Hne].
  - replace (4 * (len / 4)) with len by (Z.div_mod_to_equations; lia). cbn [app].
    by replace ((ol + 3) / 4 * 4 - len) with ((ol - len) / 4 * 4) by (Z.div_mod_to_equations; lia).
  - assert (mem_read m a len = mem_read m a (4 * (len / 4)) ++ mem_read m (a + 4 * (len / 4)) (len mod 4)) as ->.
    { rewrite <-mem_read_app by (Z.div_mod_to_equations; lia). f_equal. Z.div_mod_to_equations; lia. }
    assert (Z.of_nat (length (mem_read m (a + 4 * (len / 4)) (len mod 4))) = len mod 4) as Hlen by (apply mem_read_length; Z.div_mod_to_equations; lia).
    unfold partial_word. cbn [bytes_of fmap list_fmap concat]. rewrite app_nil_r, word_bytes_word.
    + rewrite <-!app_assoc, <-replicate_add. do 2 f_equal. f_equal. Z.div_mod_to_equations; lia.
    + rewrite length_app, length_replicate. Z.div_mod_to_equations; lia.
    + apply Forall_app. split; [by apply mem_read_bytes|]. by apply Forall_replicate.
Qed.
(** The key of the registers: they hold it word by word, the last word first. *)
Definition reg_key (b : bank aes_reg) (n : Z) : list Z :=
  bytes_of ((λ i, if i <? 4 then b (aes_key i) else b (aes_key_ext (i - 4))) <$> reverse (seqZ 0 n)).
Definition reg_iv (b : bank aes_reg) (n : Z) : list Z := bytes_of ((λ i, b (aes_iv i)) <$> reverse (seqZ 0 n)).
Record configured (b : bank aes_reg) (mode sel : Z) (key iv : list Z) (aad_len padding_len : Z) : Prop := {
  c_mode : fget cipher_mode b = mode;
  c_size : 8 * (fget kmode b + 2) = Z.of_nat (length key);
  c_sel : b encrypt_sel = sel;
  c_key : reg_key b (Z.of_nat (length key) / 4) = key;
  c_iv : reg_iv b (Z.of_nat (length iv) / 4) = iv;
  c_aad : b gb_aad_num = u32 (aad_len - 1);
  c_pc : b gb_pc_num = u32 (padding_len - 1);
  c_endian : Z.testbit (b aes_endian) 0 = true;
  c_en : Z.testbit (b gb_aes_en) 0 = true
}.
Lemma reversed_words m a n (f : Z → Z) : 0 ≤ n → (∀ i, 0 ≤ i < n → f i = word_at m (a + 4 * n - 4 * i - 4)) → f <$> reverse (seqZ 0 n) = words_at m a n.
Proof.
  intros Hn Hf. unfold words_at. apply list_eq. intros j. rewrite !list_lookup_fmap. destruct (decide (j < Z.to_nat n)%nat) as [Hj|Hj].
  - rewrite reverse_lookup by (rewrite length_seqZ; lia). rewrite !(lookup_seqZ_lt _ _ j), lookup_seqZ_lt by (rewrite ?length_seqZ; lia).
    cbn. rewrite length_seqZ, Hf by lia. do 2 f_equal. lia.
  - rewrite !lookup_ge_None_2; [done|rewrite length_seqZ; lia|rewrite length_reverse, length_seqZ; lia].
Qed.
Lemma load_key_lookup m key len r i : 0 ≤ i < len / 4 →
  (if i <? 4 then load_key m key len r (aes_key i) else load_key m key len r (aes_key_ext (i - 4))) = word_at m (key + len - 4 * i - 4).
Proof.
  intros Hi. unfold load_key. refine (for_range_ind (λ k (r : bank aes_reg), i < k →
    (if i <? 4 then r (aes_key i) else r (aes_key_ext (i - 4))) = word_at m (key + len - 4 * i - 4)) 0 (len / 4) _ r _ _ _ _); [lia|lia| |lia].
  intros k r' Hk IH Hik. cbv beta zeta. rewrite Z.add_0_l. destruct (decide (i = k)) as [-> |Hne].
  - destruct (Z.ltb_spec k 4); by rewrite fn_lookup_insert.
  - destruct (Z.ltb_spec k 4), (Z.ltb_spec i 4); rewrite fn_lookup_insert_ne by (intros [= ?]; lia); apply IH; lia.
Qed.
Lemma load_key_other m key len r k : (∀ i, k ≠ aes_key i ∧ k ≠ aes_key_ext i) → load_key m key len r k = r k.
Proof.
  intros Hk. unfold load_key. destruct (decide (0 ≤ len / 4)); [|by rewrite for_range_0 by lia].
  refine (for_range_ind (λ _ (r' : bank aes_reg), r' k = r k) 0 (len / 4) _ r _ _ _); [lia|done|].
  intros j r' _ IH. cbv beta zeta. destruct (0 + j <? 4); rewrite fn_lookup_insert_ne; try done; apply not_eq_sym, Hk.
Qed.
Lemma load_iv_lookup m iv len r i : 0 ≤ i < len / 4 → load_iv m iv len r (aes_iv i) = word_at m (iv + len - 4 * i - 4).
Proof.
  intros Hi. unfold load_iv. refine (for_range_ind (λ k (r : bank aes_reg), i < k →
    r (aes_iv i) = word_at m (iv + len - 4 * i - 4)) 0 (len / 4) _ r _ _ _ _); [lia|lia| |lia].
  intros k r' Hk IH Hik. cbv beta zeta. rewrite Z.add_0_l. destruct (decide (i = k)) as [-> |Hne]; [by rewrite fn_lookup_insert|].
  rewrite fn_lookup_insert_ne by (intros [= ?]; lia). apply IH. lia.
Qed.
Lemma load_iv_other m iv len r k : (∀ i, k ≠ aes_iv i) → load_iv m iv len r k = r k.
Proof.
  intros Hk. unfold load_iv. destruct (decide (0 ≤ len / 4)); [|by rewrite for_range_0 by lia].
  refine (for_range_ind (λ _ (r' : bank aes_reg), r' k = r k) 0 (len / 4) _ r _ _ _); [lia|done|].
  intros j r' _ IH. cbv beta zeta. rewrite fn_lookup_insert_ne; [done|apply not_eq_sym, Hk].
Qed.
(** The registers that [aes_init] leaves when it enables the engine *)
Definition init_regs (m : Z → Z) (key klen iv ivlen mode sel aad_len padding_len : Z) : bank aes_reg :=
  let r := <[aes_endian := Z.lor (reset_regs aes_endian) 1]> reset_regs in
  let r := load_iv m iv ivlen (load_key m key klen r) in
  let r := fset cipher_mode mode (fset kmode (klen / 8 - 2) r) in
  let r := <[gb_pc_num := u32 (padding_len - 1)]> (<[gb_aad_num := u32 (aad_len - 1)]> (<[encrypt_sel := sel]> r)) in
  <[gb_aes_en := Z.lor (r gb_aes_en) 1]> r.
Lemma init_regs_configured m key klen iv ivlen mode sel aad_len padding_len : bytes_ok m → klen = 16 ∨ klen = 24 ∨ klen = 32 →
  ivlen = 0 ∨ ivlen = 12 ∨ ivlen = 16 → 0 ≤ mode < 3 →
  configured (init_regs m key klen iv ivlen mode sel aad_len padding_len) mode sel (mem_read m key klen) (mem_read m iv ivlen) aad_len padding_len.
Proof.
  intros Hm Hk Hi Hmode. set (b := init_regs _ _ _ _ _ _ _ _ _).
  assert (Hkn : Z.of_nat (length (mem_read m key klen)) = klen) by (apply mem_read_length; lia).
  assert (Hin : Z.of_nat (length (mem_read m iv ivlen)) = ivlen) by (apply mem_read_length; lia).
  assert (Hkey : ∀ r, (∀ i, r ≠ aes_iv i) → r ∉ [gb_aes_en; gb_pc_num; gb_aad_num; encrypt_sel; mode_ctl] →
    b r = load_key m key klen (<[aes_endian := Z.lor (reset_regs aes_endian) 1]> reset_regs) r).
  { intros r Hr Hr'. rewrite !not_elem_of_cons in Hr'. destruct Hr' as (? & ? & ? & ? & ? & _). unfold b, init_regs, fset.
    rewrite !fn_lookup_insert_ne by (cbn; congruence). by rewrite load_iv_other. }
  set (r0 := load_iv m iv ivlen (load_key m key klen (<[aes_endian := Z.lor (reset_regs aes_endian) 1]> reset_regs))).
  assert (Hmc : ∀ f, f_reg f = mode_ctl → fget f b = fget f (fset cipher_mode mode (fset kmode (klen / 8 - 2) r0))).
  { intros f Hf. unfold fget. by rewrite Hf. }
  split; rewrite ?Hkn, ?Hin; try done.
  - rewrite Hmc by done. apply fget_fset_fit; [by split|cbn; lia].
  - rewrite Hmc, fget_fset_ne; [|first [done|apply (bool_decide_unpack _); vm_compute; done]..].
    rewrite fget_fset_fit; [destruct Hk as [-> |[-> | ->]]; done|by split|destruct Hk as [-> |[-> | ->]]; done].
  - unfold reg_key. rewrite (reversed_words m key).
    + rewrite bytes_of_words_at by (done || Z.div_mod_to_equations; lia). f_equal. Z.div_mod_to_equations; lia.
    + Z.div_mod_to_equations; lia.
    + intros i Hi'. replace (key + 4 * (klen / 4) - 4 * i - 4) with (key + klen - 4 * i - 4) by (Z.div_mod_to_equations; lia).
      rewrite <-(load_key_lookup m key klen (<[aes_endian := Z.lor (reset_regs aes_endian) 1]> reset_regs)) by done.
      destruct (i <? 4); apply Hkey; (done || set_solver).
  - unfold reg_iv. rewrite (reversed_words m iv).
    + rewrite bytes_of_words_at by (done || Z.div_mod_to_equations; lia). f_equal. Z.div_mod_to_equations; lia.
    + Z.div_mod_to_equations; lia.
    + intros i Hi'. replace (iv + 4 * (ivlen / 4) - 4 * i - 4) with (iv + ivlen - 4 * i - 4) by (Z.div_mod_to_equations; lia).
      unfold b, init_regs, fset. rewrite !fn_lookup_insert_ne by done. by apply load_iv_lookup.
  - rewrite Hkey by (done || set_solver). rewrite load_key_other, fn_lookup_insert by done. rewrite Z.lor_spec. by rewrite orb_true_r.
  - unfold b, init_regs. rewrite fn_lookup_insert, Z.lor_spec. by rewrite orb_true_r.
Qed.

(** ** A call: load, feed, read *)
Definition clocked (s : state) : bank sysctl_reg :=
  sysctl_reset (sysctl_reset_id_to_Z SYSCTL_RESET_AES) (snd (sysctl_clock_enable (sysctl_clock_to_Z SYSCTL_CLOCK_AES) s.(asys))).
Lemma init_start key klen iv ivlen aad mode sel aad_len len (s : state) :
  let b := init_regs s.(amem) key klen iv ivlen mode sel aad_len (if is_block_mode mode then round_up len else len) in
  aes_init reset_regs fuel key klen iv ivlen aad mode sel aad_len len s =
  (if mode =? AES_GCM then feed_bytes fuel aes_write_aad aad aad_len else mret tt) (Aes b (e_start b) s.(amem) (clocked s)).
Proof. reflexivity. Qed.
Lemma text_words_width m a len mode : bytes_ok m → Forall (λ w, in_width 32 w) (text_words m a len mode).
Proof.
  intros Hm. unfold text_words. rewrite !Forall_app. split; [|split].
  - unfold words_at. apply Forall_fmap, Forall_true. intros i. cbn. apply word_of_width; [|by apply mem_read_bytes]. apply Nat2Z.inj. by rewrite mem_read_length.
  - destruct (Z.eqb_spec (len mod 4) 0); [done|]. apply Forall_singleton. unfold partial_word. apply word_of_width.
    + pose proof (mem_read_length m (a + 4 * (len / 4)) (len mod 4)). rewrite length_app, length_replicate. Z.div_mod_to_equations; lia.
    + apply Forall_app. split; [by apply mem_read_bytes|by apply Forall_replicate].
  - destruct (is_block_mode mode); [by apply Forall_replicate|done].
Qed.
Lemma block_run key klen iv ivlen mode sel inp len plen out (s : state) :
  mode = AES_ECB ∨ mode = AES_CBC → klen = 16 ∨ klen = 24 ∨ klen = 32 → ivlen = 0 ∨ ivlen = 12 ∨ ivlen = 16 →
  bytes_ok s.(amem) → 0 ≤ len ≤ 2 ^ 32 - 16 → plen = len ∨ plen = round_up len → out ≤ inp ∨ inp + plen ≤ out →
  ∃ b ws s', (_ ← aes_init reset_regs fuel key klen iv ivlen 0 mode sel 0 len; aes_process fuel inp out plen mode) s = Ok (tt, s') ∧
    configured b mode sel (mem_read s.(amem) key klen) (mem_read s.(amem) iv ivlen) 0 (round_up len) ∧
    Forall (λ w, in_width 32 w) ws ∧ bytes_of ws = mem_read s.(amem) inp plen ++ replicate (Z.to_nat (round_up len - plen)) 0 ∧
    ∀ q, s'.(amem) q = mem_write s.(amem) out (bytes_of (aes_out b [] ws)) q.
Proof.
  intros Hmode Hk Hi Hm Hl Hp Hdis. pose proof (round_up_id len ltac:(lia)) as [Hr Hr16].
  assert (is_block_mode mode = true ∧ (mode =? AES_GCM) = false ∧ 0 ≤ mode < 3 ∧ mode ≠ AES_GCM) as (Hb & Hng & Hm3 & Hne) by (by destruct Hmode as [-> | ->]).
  assert (round_up plen = round_up len) as Hrp.
  { destruct Hp as [-> | ->]; [done|]. unfold round_up in *. rewrite !(wrap_id 64) by (rewrite ?(wrap_id 64) by lia; Z.div_mod_to_equations; lia). Z.div_mod_to_equations; lia. }
  set (b := init_regs s.(amem) key klen iv ivlen mode sel 0 (round_up len)). set (s1 := Aes b (e_start b) s.(amem) (clocked s)).
  rewrite (M_bind_run _ _ _ tt s1) by (rewrite init_start, Hng, Hb; done).
  assert (configured b mode sel (mem_read s.(amem) key klen) (mem_read s.(amem) iv ivlen) 0 (round_up len)) as Hcfg by (by apply init_regs_configured).
  destruct (process_run inp out plen mode s1 b []) as (e' & m' & H1 & H2 & H3).
  - apply start_view.
  - split; [|done]. split; [tauto|]. by rewrite (c_mode _ _ _ _ _ _ _ Hcfg).
  - lia.
  - done.
  - exists b, (text_words s.(amem) inp plen mode), (with_mem m' (with_eng e' s1)). split; [exact H1|]. split; [done|].
    assert (bytes_of (text_words s.(amem) inp plen mode) = mem_read s.(amem) inp plen ++ replicate (Z.to_nat (round_up len - plen)) 0) as Hbytes.
    { rewrite bytes_of_text_words by (done || lia). do 3 f_equal. unfold out_length. rewrite Hb, Hrp. Z.div_mod_to_equations; lia. }
    split; [by apply text_words_width|]. split; [done|]. intros q. cbn [amem with_mem]. rewrite H3. f_equal. unfold answer, out_length. rewrite Hb, Hrp.
    apply take_ge. rewrite bytes_of_length, out_len, (answered _ _ _ _ _ plen); [|split; [|done]|lia].
    + pose proof (text_words_length s.(amem) inp plen mode ltac:(lia)) as Hlen. unfold out_length in Hlen. rewrite Hb, Hrp in Hlen.
      cbn [s1 amem]. Z.div_mod_to_equations; lia.
    + split; [tauto|]. by rewrite (c_mode _ _ _ _ _ _ _ Hcfg).
Qed.

(** ** The tag *)
Definition tag_bytes (tag : Z → Z) : list Z := be_bytes (tag 3) ++ be_bytes (tag 2) ++ be_bytes (tag 1) ++ be_bytes (tag 0).
Lemma finished_view e e' : view e' = view e → finished e → finished e'.
Proof. unfold finished, outs. by intros ->. Qed.
Lemma check_tag_run a (s : state) : finished s.(eng) → ∃ r e', gcm_check_tag fuel a s = Ok (r, with_eng e' s).
Proof.
  intros Hf. unfold gcm_check_tag. destruct (wait_run tag_in_flag s (tag_live _ Hf)) as (e1 & H1 & _ & Hv1). rewrite (M_bind_run _ _ _ _ _ H1).
  set (m := s.(amem)). set (e2 := gcm_in_tag 3 (word_at m a) (gcm_in_tag 2 (word_at m (a + 4)) (gcm_in_tag 1 (word_at m (a + 8)) (gcm_in_tag 0 (word_at m (a + 12)) e1)))).
  rewrite (M_bind_run _ _ _ tt (with_eng e2 s)) by done.
  destruct (wait_run tag_chk (with_eng e2 s)) as (e3 & H3 & _).
  { apply (chk_live e1). exact (finished_view _ _ Hv1 Hf). }
  rewrite (M_bind_run _ _ _ _ _ H3). rewrite (M_bind_run _ _ _ tt (with_eng (e_step e3) s)) by done.
  rewrite (M_bind_run _ _ _ (tag_chk (e_step e3)) (with_eng (e_step e3) s)) by done. destruct (_ =? 2); by eexists _, _.
Qed.
Lemma get_tag_eq i (s : state) : finished s.(eng) →
  gets (λ s : state, gcm_out_tag i s.(eng)) s = Ok (aes_tag (view s.(eng)).(s_regs) (view s.(eng)).(s_aad) (view s.(eng)).(s_text) i, s).
Proof. intros Hf. unfold gets. by rewrite (tag_out _ _ Hf). Qed.
Lemma get_tag_run a (s : state) : finished s.(eng) → ∃ e' m', gcm_get_tag fuel a s = Ok (tt, with_mem m' (with_eng e' s)) ∧
  ∀ q, m' q = mem_write s.(amem) a (tag_bytes (aes_tag (view s.(eng)).(s_regs) (view s.(eng)).(s_aad) (view s.(eng)).(s_text))) q.
Proof.
  intros Hf. set (t := aes_tag _ _ _). unfold gcm_get_tag.
  set (m1 := mem_write s.(amem) a (be_bytes (t 3))). set (m2 := mem_write m1 (a + 4) (be_bytes (t 2))).
  set (m3 := mem_write m2 (a + 8) (be_bytes (t 1))). set (m4 := mem_write m3 (a + 12) (be_bytes (t 0))).
  rewrite (M_bind_run _ _ _ (t 3) s) by (exact (get_tag_eq 3 s Hf)). rewrite (M_bind_run _ _ _ tt (with_mem m1 s)) by done.
  rewrite (M_bind_run _ _ _ (t 2) (with_mem m1 s)) by (exact (get_tag_eq 2 (with_mem m1 s) Hf)). rewrite (M_bind_run _ _ _ tt (with_mem m2 s)) by done.
  rewrite (M_bind_run _ _ _ (t 1) (with_mem m2 s)) by (exact (get_tag_eq 1 (with_mem m2 s) Hf)). rewrite (M_bind_run _ _ _ tt (with_mem m3 s)) by done.
  rewrite (M_bind_run _ _ _ (t 0) (with_mem m3 s)) by (exact (get_tag_eq 0 (with_mem m3 s) Hf)). rewrite (M_bind_run _ _ _ tt (with_mem m4 s)) by done.
  destruct (check_tag_run a (with_mem m4 s) Hf) as (r & e' & Hrun). rewrite (M_bind_run _ _ _ _ _ Hrun). exists e', m4. split; [by destruct s|].
  assert (∀ q, m2 q = mem_write s.(amem) a (be_bytes (t 3) ++ be_bytes (t 2)) q) as H2 by (intros q; by rewrite <-mem_write_app).
  assert (∀ q, m3 q = mem_write s.(amem) a ((be_bytes (t 3) ++ be_bytes (t 2)) ++ be_bytes (t 1)) q) as H3.
  { intros q. rewrite <-mem_write_app. by apply mem_write_ext. }
  intros q. unfold tag_bytes. rewrite !app_assoc, <-mem_write_app. by apply mem_write_ext.
Qed.
Lemma gcm_run key klen iv aad aad_len sel inp len out tag (s : state) :
  klen = 16 ∨ klen = 24 ∨ klen = 32 → bytes_ok s.(amem) → 0 < len < 2 ^ 32 → 0 < aad_len < 2 ^ 32 → out ≤ inp ∨ inp + len ≤ out →
  ∃ b aws ws s', (_ ← aes_init reset_regs fuel key klen iv IV_LEN_96 aad AES_GCM sel aad_len len;
      _ ← aes_process fuel inp out len AES_GCM; gcm_get_tag fuel tag) s = Ok (tt, s') ∧
    configured b AES_GCM sel (mem_read s.(amem) key klen) (mem_read s.(amem) iv IV_LEN_96) aad_len len ∧
    bytes_of aws = mem_read s.(amem) aad aad_len ++ replicate (Z.to_nat ((aad_len + 3) / 4 * 4 - aad_len)) 0 ∧
    bytes_of ws = mem_read s.(amem) inp len ++ replicate (Z.to_nat ((len + 3) / 4 * 4 - len)) 0 ∧
    ∀ q, s'.(amem) q = mem_write (mem_write s.(amem) out (take (Z.to_nat len) (bytes_of (aes_out b aws ws)))) tag (tag_bytes (aes_tag b aws ws)) q.
Proof.
  intros Hk Hm Hl Ha Hdis. set (b := init_regs s.(amem) key klen iv IV_LEN_96 AES_GCM sel aad_len len). set (s1 := Aes b (e_start b) s.(amem) (clocked s)).
  assert (configured b AES_GCM sel (mem_read s.(amem) key klen) (mem_read s.(amem) iv IV_LEN_96) aad_len len) as Hcfg.
  { apply init_regs_configured; [done|done|unfold IV_LEN_96; lia|done]. }
  set (aws := text_words s.(amem) aad aad_len AES_GCM). set (ws := text_words s.(amem) inp len AES_GCM).
  pose proof (text_words_length s.(amem) aad aad_len AES_GCM ltac:(lia)) as Haws. fold aws in Haws. change (out_length AES_GCM aad_len) with aad_len in Haws.
  pose proof (text_words_length s.(amem) inp len AES_GCM ltac:(lia)) as Hws. fold ws in Hws. change (out_length AES_GCM len) with len in Hws.
  destruct (feed_bytes_run aes_write_aad s1 aad aad_len (λ ws, Seen b ws [] 0)) as (e1 & H1 & H2).
  { apply start_view. }
  { intros s' w w' Hw _. by apply feed_aad_run. }
  { lia. }
  rewrite (M_bind_run _ _ _ tt (with_eng e1 s1)) by (rewrite init_start; exact H1). cbn [s1 amem] in H2. fold aws in H2.
  assert (ready b aws AES_GCM len) as Hready.
  { split; [split; [tauto|by rewrite (c_mode _ _ _ _ _ _ _ Hcfg)]|]. intros _. unfold aad_complete.
    rewrite (c_aad _ _ _ _ _ _ _ Hcfg), (c_pc _ _ _ _ _ _ _ Hcfg), !(wrap_id 32) by lia. split; [|lia]. apply Z.leb_le. Z.div_mod_to_equations; lia. }
  destruct (process_run inp out len AES_GCM (with_eng e1 s1) b aws H2 Hready ltac:(lia) Hdis) as (e2 & m2 & H3 & H4 & H5).
  cbn [s1 amem with_eng with_mem] in H4, H5. fold ws in H4, H5. rewrite (M_bind_run _ _ _ _ _ H3).
  destruct (get_tag_run tag (with_mem m2 (with_eng e2 (with_eng e1 s1)))) as (e3 & m3 & H6 & H7).
  { cbn [eng with_mem with_eng]. unfold finished, outs. rewrite H4. cbn [s_regs s_aad s_text s_taken].
    split; [apply Hready; done|]. rewrite out_len. split; [|symmetry; apply (answered s.(amem) inp b aws AES_GCM len Hready); lia].
    unfold text_complete. rewrite (c_pc _ _ _ _ _ _ _ Hcfg), (wrap_id 32) by lia. apply Z.leb_le. Z.div_mod_to_equations; lia. }
  exists b, aws, ws. eexists. split; [exact H6|]. split; [done|]. split; [by apply bytes_of_text_words; [|lia]|]. split; [by apply bytes_of_text_words; [|lia]|].
  intros q. cbn [amem eng with_mem with_eng] in *. rewrite H7, H4. by apply mem_write_ext.
Qed.

(** ** The calls *)
Inductive key_size : Set := K128 | K192 | K256.
Definition key_len (k : key_size) : Z := match k with K128 => 16 | K192 => 24 | K256 => 32 end.
Definition block_call (cbc : bool) (k : key_size) (dec : bool) (ctx : cbc_context_t) (inp len out : Z) : M state unit :=
  match cbc, k, dec with
  | false, K128, false => aes_ecb128_hard_encrypt reset_regs fuel ctx.(cbc_key) inp len out
  | false, K128, true => aes_ecb128_hard_decrypt reset_regs fuel ctx.(cbc_key) inp len out
  | false, K192, false => aes_ecb192_hard_encrypt reset_regs fuel ctx.(cbc_key) inp len out
  | false, K192, true => aes_ecb192_hard_decrypt reset_regs fuel ctx.(cbc_key) inp len out
  | false, K256, false => aes_ecb256_hard_encrypt reset_regs fuel ctx.(cbc_key) inp len out
  | false, K256, true => aes_ecb256_hard_decrypt reset_regs fuel ctx.(cbc_key) inp len out
  | true, K128, false => aes_cbc128_hard_encrypt reset_regs fuel ctx inp len out
  | true, K128, true => aes_cbc128_hard_decrypt reset_regs fuel ctx inp len out
  | true, K192, false => aes_cbc192_hard_encrypt reset_regs fuel ctx inp len out
  | true, K192, true => aes_cbc192_hard_decrypt reset_regs fuel ctx inp len out
  | true, K256, false => aes_cbc256_hard_encrypt reset_regs fuel ctx inp len out
  | true, K256, true => aes_cbc256_hard_decrypt reset_regs fuel ctx inp len out
  end.
Definition gcm_call (k : key_size) (dec : bool) (ctx : gcm_context_t) (inp len out tag : Z) : M state unit :=
  match k, dec with
  | K128, false => aes_gcm128_hard_encrypt reset_regs fuel ctx inp len out tag
  | K128, true => aes_gcm128_hard_decrypt reset_regs fuel ctx inp len out tag
  | K192, false => aes_gcm192_hard_encrypt reset_regs fuel ctx inp len out tag
  | K192, true => aes_gcm192_hard_decrypt reset_regs fuel ctx inp len out tag
  | K256, false => aes_gcm256_hard_encrypt reset_regs fuel ctx inp len out tag
  | K256, true => aes_gcm256_hard_decrypt reset_regs fuel ctx inp len out tag
  end.
Definition block_mode (cbc : bool) : Z := if cbc then AES_CBC else AES_ECB.
Definition direction (dec : bool) : Z := if dec then AES_HARD_DECRYPTION else AES_HARD_ENCRYPTION.
Definition iv_of (cbc : bool) (m : Z → Z) (ctx : cbc_context_t) : list Z := if cbc then mem_read m ctx.(cbc_iv) 16 else [].

(** What the twelve calls in ECB and CBC do *)
Lemma block_calls_run (cbc : bool) k (dec : bool) ctx inp len out (s : state) :
  let plen := if dec then round_up len else len in
  bytes_ok s.(amem) → 0 ≤ len ≤ 2 ^ 32 - 16 → out ≤ inp ∨ inp + plen ≤ out →
  ∃ b ws s', block_call cbc k dec ctx inp len out s = Ok (tt, s') ∧
    configured b (block_mode cbc) (direction dec) (mem_read s.(amem) ctx.(cbc_key) (key_len k)) (iv_of cbc s.(amem) ctx) 0 (round_up len) ∧
    Forall (λ w, in_width 32 w) ws ∧ bytes_of ws = mem_read s.(amem) inp plen ++ replicate (Z.to_nat (round_up len - plen)) 0 ∧
    ∀ q, s'.(amem) q = mem_write s.(amem) out (bytes_of (aes_out b [] ws)) q.
Proof.
  intros plen Hm Hl Hdis. pose proof (round_up_id len ltac:(lia)) as [Hr _].
  pose proof (block_run ctx.(cbc_key) (key_len k) (if cbc then ctx.(cbc_iv) else 0) (if cbc then 16 else 0) (block_mode cbc) (direction dec) inp len plen out s) as Hrun.
  destruct Hrun as (b & ws & s' & H1 & H2); [by destruct cbc; [right|left]|by destruct k; [left|right; left|right; right]|destruct cbc; lia|done|done| |done|].
  { unfold plen. destruct dec; [by right|by left]. }
  exists b, ws, s'. destruct cbc, k, dec; exact (conj H1 H2).
Qed.
(** C34: each of the twelve calls in ECB and CBC returns, whatever the pace of the engine.  The
    engine was enabled with the key, the vector, the mode, the direction and the length asked
    for, was fed the message filled up with zeros, and all it computes is in the output
    buffer, which may be the input buffer; nothing else has changed. *)
Theorem aes_block_calls_spec (cbc : bool) k (dec : bool) ctx inp len out (s : state) :
  let plen := if dec then round_up len else len in
  bytes_ok s.(amem) → 0 ≤ len ≤ 2 ^ 32 - 16 → out ≤ inp ∨ inp + plen ≤ out →
  ∃ b ws s', block_call cbc k dec ctx inp len out s = Ok (tt, s') ∧
    configured b (block_mode cbc) (direction dec) (mem_read s.(amem) ctx.(cbc_key) (key_len k)) (iv_of cbc s.(amem) ctx) 0 (round_up len) ∧
    bytes_of ws = mem_read s.(amem) inp plen ++ replicate (Z.to_nat (round_up len - plen)) 0 ∧
    ∀ q, s'.(amem) q = mem_write s.(amem) out (bytes_of (aes_out b [] ws)) q.
Proof.
  intros plen Hm Hl Hdis. destruct (block_calls_run cbc k dec ctx inp len out s Hm Hl Hdis) as (b & ws & s' & H1 & H2 & _ & H3). by exists b, ws, s'.
Qed.
(** The six GCM calls feed the engine the additional data and the message, put out as many bytes
    as the message has, and then the tag, its last word first. *)
Theorem aes_gcm_calls_spec k (dec : bool) ctx inp len out tag (s : state) :
  bytes_ok s.(amem) → 0 < len < 2 ^ 32 → 0 < ctx.(gcm_aad_len) < 2 ^ 32 → out ≤ inp ∨ inp + len ≤ out →
  ∃ b aws ws s', gcm_call k dec ctx inp len out tag s = Ok (tt, s') ∧
    configured b AES_GCM (direction dec) (mem_read s.(amem) ctx.(gcm_key) (key_len k)) (mem_read s.(amem) ctx.(gcm_iv) 12) ctx.(gcm_aad_len) len ∧
    bytes_of aws = mem_read s.(amem) ctx.(gcm_aad) ctx.(gcm_aad_len) ++ replicate (Z.to_nat ((ctx.(gcm_aad_len) + 3) / 4 * 4 - ctx.(gcm_aad_len))) 0 ∧
    bytes_of ws = mem_read s.(amem) inp len ++ replicate (Z.to_nat ((len + 3) / 4 * 4 - len)) 0 ∧
    ∀ q, s'.(amem) q = mem_write (mem_write s.(amem) out (take (Z.to_nat len) (bytes_of (aes_out b aws ws)))) tag (tag_bytes (aes_tag b aws ws)) q.
Proof.
  intros Hm Hl Ha Hdis.
  destruct (gcm_run ctx.(gcm_key) (key_len k) ctx.(gcm_iv) ctx.(gcm_aad) ctx.(gcm_aad_len) (direction dec) inp len out tag s) as (b & aws & ws & s' & H1 & H2);
    [by destruct k; [left|right; left|right; right]|done..|].
  exists b, aws, ws, s'. destruct k, dec; exact (conj H1 H2).
Qed.

(** ** Decrypting what was encrypted *)
Class AesInverse := aes_inverse b b' mode key iv n ws :
  configured b mode AES_HARD_ENCRYPTION key iv 0 n → configured b' mode AES_HARD_DECRYPTION key iv 0 n → is_block_mode mode = true →
  (length ws mod 4 = 0)%nat → Forall (λ w, in_width 32 w) ws → aes_out b' [] (aes_out b [] ws) = ws.
Lemma bytes_of_inj ws ws' : Forall (λ w, in_width 32 w) ws → Forall (λ w, in_width 32 w) ws' → bytes_of ws = bytes_of ws' → ws = ws'.
Proof.
  intros Hw. revert ws'. induction Hw as [|w ws Hw Hws IH]; intros [|w' ws'] Hws' E1; [done| | |].
  - apply (f_equal length) in E1. by rewrite !bytes_of_length in E1.
  - apply (f_equal length) in E1. by rewrite !bytes_of_length in E1.
  - apply Forall_cons in Hws' as [Hw' Hws']. unfold bytes_of in E1. cbn [fmap list_fmap concat] in E1.
    apply app_inj_1 in E1 as [E1 E2]; [|by rewrite !word_bytes_length]. f_equal; [by apply word_bytes_inj|by apply IH].
Qed.
Lemma bytes_ok_write m a ws : bytes_ok m → bytes_ok (mem_write m a (bytes_of ws)).
Proof.
  intros Hm q. rewrite mem_write_spec. case_decide as Hq; [|apply Hm].
  assert (Forall (λ x, in_width 8 x) (bytes_of ws)) as Hb.
  { unfold bytes_of. apply Forall_concat, Forall_fmap, Forall_true. intros w. by apply Z_to_little_endian_bound. }
  rewrite Forall_lookup in Hb. destruct (lookup_lt_is_Some_2 (bytes_of ws) (Z.to_nat (q - a))) as [x Hx]; [lia|].
  rewrite (list_lookup_total_correct _ _ _ Hx). by eapply Hb.
Qed.
(** C35: what is encrypted and then decrypted under the same key comes back, filled up with zeros to
    whole blocks, in ECB and CBC and for every key size and length, on an engine whose
    decryption undoes its encryption. *)
Theorem aes_block_roundtrip `{!AesInverse} (cbc : bool) k ctx inp mid out len (s : state) :
  let apart a n := a + n ≤ mid ∨ mid + round_up len ≤ a in
  bytes_ok s.(amem) → 0 ≤ len ≤ 2 ^ 32 - 16 → mid ≤ inp ∨ inp + len ≤ mid → out ≤ mid ∨ mid + round_up len ≤ out →
  apart ctx.(cbc_key) (key_len k) → apart ctx.(cbc_iv) 16 →
  ∃ s1 s2, block_call cbc k false ctx inp len mid s = Ok (tt, s1) ∧ block_call cbc k true ctx mid len out s1 = Ok (tt, s2) ∧
    mem_read s2.(amem) out (round_up len) = mem_read s.(amem) inp len ++ replicate (Z.to_nat (round_up len - len)) 0.
Proof.
  intros apart Hm Hl Hdis1 Hdis2 Hkey Hiv. pose proof (round_up_id len ltac:(lia)) as [Hr Hr16].
  destruct (block_calls_run cbc k false ctx inp len mid s Hm Hl Hdis1) as (b1 & w1 & s1 & H1 & C1 & F1 & E1 & M1).
  assert (bytes_ok s1.(amem)) as Hm1 by (intros q; rewrite M1; by apply bytes_ok_write).
  destruct (block_calls_run cbc k true ctx mid len out s1 Hm1 Hl Hdis2) as (b2 & w2 & s2 & H2 & C2 & F2 & E2 & M2).
  assert (Z.of_nat (length (bytes_of w1)) = round_up len) as L1.
  { pose proof (mem_read_length s.(amem) inp len ltac:(lia)). rewrite E1, length_app, length_replicate. lia. }
  assert (is_block_mode (block_mode cbc) = true) as Hb by (by destruct cbc). rewrite bytes_of_length in L1.
  assert (length w1 mod 4 = 0)%nat as Hw4 by (apply Nat.mod_divide; [done|]; exists (Z.to_nat (round_up len / 16)); Z.div_mod_to_equations; lia).
  assert (Z.of_nat (length (bytes_of (aes_out b1 [] w1))) = round_up len) as Lo.
  { rewrite bytes_of_length, out_len. unfold out_count. rewrite (c_mode _ _ _ _ _ _ _ C1), Hb. pose proof (Nat.div_mod_eq (length w1) 4). lia. }
  assert (∀ a n, apart a n → mem_read s1.(amem) a n = mem_read s.(amem) a n) as Hkept.
  { intros a n Ha. rewrite (mem_read_ext s1.(amem) _ _ _ (λ q _, M1 q)). apply mem_read_write_ne. unfold apart in Ha. lia. }
  assert (w2 = aes_out b1 [] w1) as ->.
  { apply bytes_of_inj; [done|apply out_width|]. rewrite E2, Z.sub_diag, app_nil_r, (mem_read_ext s1.(amem) _ _ _ (λ q _, M1 q)), <-Lo. apply mem_read_write. }
  assert (aes_out b2 [] (aes_out b1 [] w1) = w1) as Einv.
  { refine (aes_inverse _ _ _ _ _ _ _ C1 _ Hb Hw4 F1). unfold iv_of in *. by rewrite !Hkept in C2. }
  exists s1, s2. split; [done|]. split; [done|]. rewrite <-E1, (mem_read_ext s2.(amem) _ _ _ (λ q _, M2 q)), Einv, <-L1, <-bytes_of_length. apply mem_read_write.
Qed.
End run.
Arguments Aes {E}.
Arguments aes_s : clear implicits.

(** ** An engine that adds the first word of the key, bit by bit *)
Module Toy.
Definition key_word (b : bank aes_reg) : Z := word_of (take 4 (reg_key b (2 * (fget kmode b + 2)))).
Definition toy_out (b : bank aes_reg) (aad text : list Z) : list Z := take (out_count b aad text) ((λ w, wrap 32 (Z.lxor w (key_word b))) <$> text).
Definition full (e : seen) : bool := bool_decide (e.(s_taken) + 20 ≤ length e.(s_text))%nat.
Definition toy_read (e : seen) : Z * seen :=
  (default 0 (toy_out e.(s_regs) e.(s_aad) e.(s_text) !! e.(s_taken)), Seen e.(s_regs) e.(s_aad) e.(s_text) (S e.(s_taken))).
#[export] Instance toy : AesEngine seen := {|
  e_start b := Seen b [] [] 0; e_step e := e;
  data_in_flag e := Z.b2z (negb (full e));
  data_out_flag e := Z.b2z (bool_decide (s_taken e < length (toy_out (s_regs e) (s_aad e) (s_text e)))%nat);
  tag_in_flag e := 1; tag_chk e := 2;
  aes_aad_data w e := Seen (s_regs e) (s_aad e ++ [w]) (s_text e) (s_taken e);
  aes_text_data w e := Seen (s_regs e) (s_aad e) (s_text e ++ [w]) (s_taken e);
  aes_out_data := toy_read; gcm_in_tag i w e := e; gcm_out_tag i e := wrap 32 i; tag_clear w e := e
|}.
Lemma out_count_le b aad text : (out_count b aad text ≤ length text)%nat.
Proof. unfold out_count. pose proof (Nat.div_mod_eq (length text) 4). repeat case_match; lia. Qed.
Lemma out_count_mono b aad text more : (out_count b aad text ≤ out_count b aad (text ++ more))%nat.
Proof.
  unfold out_count, text_complete. rewrite length_app. pose proof (Nat.div_mod_eq (length text) 4). pose proof (Nat.div_mod_eq (length text + length more) 4).
  pose proof (Nat.Div0.div_le_mono (length text) (length text + length more) 4 ltac:(lia)).
  destruct (is_block_mode _), (aad_complete b aad); try lia. destruct (Z.leb_spec (b gb_pc_num + 1) (4 * Z.of_nat (length text)));
    destruct (Z.leb_spec (b gb_pc_num + 1) (4 * Z.of_nat (length text + length more))); lia.
Qed.
#[export] Program Instance toy_laws : AesLaws seen 0 := {|
  view e := e; aes_out := toy_out; aes_tag b aad text i := wrap 32 i
|}.
Next Obligation. done. Qed.
Next Obligation. done. Qed.
Next Obligation. by intros []. Qed.
Next Obligation. by intros []. Qed.
Next Obligation.
  intros e He. cbn in He. case_bool_decide as Hl; [|done]. split; [|done]. cbn. destruct (lookup_lt_is_Some_2 _ _ Hl) as [x Hx]. by rewrite Hx.
Qed.
Next Obligation. intros e He. exists 0%nat. split; [done|]. cbn. unfold full. rewrite bool_decide_eq_false_2 by lia. done. Qed.
Next Obligation. intros e He. exists 0%nat. split; [done|]. cbn. rewrite bool_decide_eq_true_2 by exact He. done. Qed.
Next Obligation. intros. unfold toy_out. rewrite length_take, length_fmap. pose proof (out_count_le b aad text). lia. Qed.
Next Obligation.
  intros. unfold toy_out. rewrite fmap_app. pose proof (out_count_le b aad text). pose proof (out_count_mono b aad text more).
  set (n := out_count b aad text) in *. set (m := out_count b aad (text ++ more)) in *. set (f := λ w, _).
  exists (take (m - n) (drop n ((f <$> text) ++ (f <$> more)))).
  rewrite <-(take_app_le (f <$> text) (f <$> more) n) by (rewrite length_fmap; lia). rewrite take_take_drop. f_equal. lia.
Qed.
Next Obligation. intros. unfold toy_out. apply Forall_take, Forall_fmap, Forall_true. intros w. by apply wrap_range. Qed.
Next Obligation. intros e He. by exists 0%nat. Qed.
Next Obligation. done. Qed.
Next Obligation. intros. by apply wrap_range. Qed.
Next Obligation. done. Qed.
Next Obligation. intros * He. by exists 0%nat. Qed.
Next Obligation. done. Qed.
Lemma toy_whole b mode d key iv n ws : configured b mode d key iv 0 n → is_block_mode mode = true → (length ws mod 4 = 0)%nat →
  toy_out b [] ws = (λ w, wrap 32 (Z.lxor w (word_of (take 4 key)))) <$> ws.
Proof.
  intros C Hb Hw4. unfold toy_out. assert (key_word b = word_of (take 4 key)) as ->.
  { unfold key_word. do 2 f_equal. etrans; [|exact (c_key _ _ _ _ _ _ _ C)]. f_equal. pose proof (c_size _ _ _ _ _ _ _ C). Z.div_mod_to_equations; lia. }
  apply take_ge. rewrite length_fmap. unfold out_count. rewrite (c_mode _ _ _ _ _ _ _ C), Hb. pose proof (Nat.div_mod_eq (length ws) 4). lia.
Qed.
#[export] Instance toy_inverse : AesInverse 0.
Proof.
  intros b b' mode key iv n ws C C' Hb Hw4 Hws. cbn [aes_out toy_laws]. rewrite (toy_whole _ _ _ _ _ _ ws C), (toy_whole _ _ _ _ _ _ _ C') by (done || by rewrite length_fmap).
  set (k := word_of (take 4 key)).
  rewrite <-list_fmap_compose. etrans; [|apply list_fmap_id]. apply list_fmap_ext. intros i w Hw. cbn. rewrite Forall_lookup in Hws. specialize (Hws _ _ Hw).
  apply Z.bits_inj'. intros j Hj. rewrite wrap_testbit, Z.lxor_spec, wrap_testbit, Z.lxor_spec by lia.
  case_bool_decide; cbn [andb]; [by rewrite xorb_assoc, xorb_nilpotent, xorb_false_r|]. by rewrite (testbit_above 32 w j) by (done || lia).
Qed.
End Toy.
(** A key, a message of 83 bytes and a vector in memory *)
Module Demo.
Import Toy.
Definition mem : Z → Z := λ q, q mod 251.
Definition s0 : aes_s seen := Aes (λ _, 0) (Seen (λ _, 0) [] [] 0) mem (λ _, 0).
Definition ctx : cbc_context_t := CbcContext 0 32.
Definition gctx : gcm_context_t := GcmContext 0 32 48 5.
Lemma mem_ok : bytes_ok mem.
Proof. intros q. unfold mem. pose proof (Z.mod_pos_bound q 251). cbn. lia. Qed.
Lemma aes_block_calls_spec_witness : ∃ s', block_call (λ _, 0) 0 true K192 false ctx 100 83 100 s0 = Ok (tt, s') ∧ amem s' 196 = mem 196.
Proof.
  destruct (aes_block_calls_spec (λ _, 0) 0 true K192 false ctx 100 83 100 s0 mem_ok ltac:(by split) ltac:(by left)) as (b & ws & s' & H1 & C & Hws & Hm).
  exists s'. split; [exact H1|]. rewrite Hm. apply mem_write_out. right. rewrite bytes_of_length, out_len. pose proof (Toy.out_count_le b [] ws) as Hc.
  apply (f_equal length) in Hws. rewrite bytes_of_length in Hws. change (4 * length ws = 96)%nat in Hws. lia.
Defined.
Lemma aes_gcm_calls_spec_witness : ∃ s', gcm_call (λ _, 0) 0 K256 true gctx 100 83 300 400 s0 = Ok (tt, s') ∧ amem s' 399 = mem 399.
Proof.
  destruct (aes_gcm_calls_spec (λ _, 0) 0 K256 true gctx 100 83 300 400 s0 mem_ok ltac:(by split) ltac:(by split) ltac:(by right)) as (b & aws & ws & s' & H1 & C & Ha & Hws & Hm).
  exists s'. split; [exact H1|]. rewrite Hm, mem_write_out by (left; done). apply mem_write_out. right. rewrite length_take. lia.
Defined.
Lemma aes_block_roundtrip_witness : ∃ s1 s2, block_call (λ _, 0) 0 true K128 false ctx 100 83 200 s0 = Ok (tt, s1) ∧
  block_call (λ _, 0) 0 true K128 true ctx 200 83 200 s1 = Ok (tt, s2) ∧ amem s2 200 = 100.
Proof.
  destruct (aes_block_roundtrip (λ _, 0) 0 true K128 ctx 100 200 200 83 s0 mem_ok ltac:(by split) ltac:(by right) ltac:(by left) ltac:(by left) ltac:(by left))
    as (s1 & s2 & H1 & H2 & Hm).
  exists s1, s2. split; [exact H1|]. split; [exact H2|]. apply (f_equal (λ l, l !! 0%nat)) in Hm. rewrite mem_read_lookup in Hm by done.
  assert (Z.of_nat (length (mem_read (amem s0) 100 83)) = 83) as Hl by (by apply mem_read_length).
  rewrite lookup_app_l in Hm by lia. rewrite mem_read_lookup in Hm by lia. by injection Hm.
Defined.
End Demo.
