(* ===== verification/Klayers.v ===== *)
(** * Layers of a neural network in software (k210_kpu.c): the integer layers

    The layer functions take the address of their arguments in the model and a context,
    and work on byte memory; the arguments are read from memory as the C structures lay
    them out.  Images in the memory of the accelerator are padded: a row takes 16, 32 or
    a multiple of 64 bytes, and 4, 2 or 1 channels share a line of 64 bytes. *)

From S2P Require Import Prelude Words.

Definition AI_IO_BASE_ADDR : Z := 0x40600000.
Definition KLF_MAIN_MEM_OUT : Z := 1.

(** [kpu_model_context_t], the members for this format; pointers are addresses, callbacks
    are numbers. *)
Record kpu_model_context_t := Ctx {
  is_nncase : Z; model_buffer : Z; main_buffer : Z; output_count : Z; outputs : Z;
  layer_headers : Z; body_start : Z; layers_length : Z; current_layer : Z; current_body : Z;
  dma_ch : Z; done_callback : Z; kmodel_fully_connected_buffer : Z; userdata : Z
}.

(** ** Arguments of the layers *)
Record kpu_model_shape_t := Shape { width : Z; height : Z; channels : Z }.
Definition shape_at (m : Z → Z) (a : Z) : kpu_model_shape_t := Shape (word_at m a) (word_at m (a + 4)) (word_at m (a + 8)).
Record kpu_model_quant_add_layer_argument_t := QuantAdd {
  qa_in_a : Z; qa_in_b : Z; qa_out : Z; qa_count : Z; in_a_offset : Z; in_a_mul : Z; in_a_shift : Z;
  in_b_offset : Z; in_b_mul : Z; in_b_shift : Z; out_offset : Z; out_mul : Z; out_shift : Z
}.
Definition quant_add_at (m : Z → Z) (a : Z) : kpu_model_quant_add_layer_argument_t :=
  QuantAdd (word_at m (a + 4)) (word_at m (a + 8)) (word_at m (a + 12)) (word_at m (a + 16))
    (s32 (word_at m (a + 20))) (s32 (word_at m (a + 24))) (s32 (word_at m (a + 28)))
    (s32 (word_at m (a + 32))) (s32 (word_at m (a + 36))) (s32 (word_at m (a + 40)))
    (s32 (word_at m (a + 44))) (s32 (word_at m (a + 48))) (s32 (word_at m (a + 52))).
Record kpu_model_quant_max_pool2d_layer_argument_t := MaxPool {
  mp_in : Z; mp_out : Z; mp_in_shape : kpu_model_shape_t; mp_out_shape : kpu_model_shape_t;
  kernel_width : Z; kernel_height : Z; stride_width : Z; stride_height : Z; padding_width : Z; padding_height : Z
}.
Definition max_pool_at (m : Z → Z) (a : Z) : kpu_model_quant_max_pool2d_layer_argument_t :=
  MaxPool (word_at m (a + 4)) (word_at m (a + 8)) (shape_at m (a + 12)) (shape_at m (a + 24))
    (word_at m (a + 36)) (word_at m (a + 40)) (word_at m (a + 44)) (word_at m (a + 48)) (word_at m (a + 52)) (word_at m (a + 56)).

Section layers.
Context (arg : Z) (ctx : kpu_model_context_t).
(** The words that most of the argument structures begin with, after the flags *)
Definition main_mem_in_address (m : Z → Z) : Z := word_at m (arg + 4).
Definition main_mem_out_address (m : Z → Z) : Z := word_at m (arg + 8).
Definition kpu_mem_out_address (m : Z → Z) : Z := word_at m (arg + 8).
Definition in_buffer (m : Z → Z) : Z := ctx.(main_buffer) + main_mem_in_address m.
Definition out_buffer (m : Z → Z) : Z := ctx.(main_buffer) + main_mem_out_address m.
Definition memcpy (dest src n : Z) (m : Z → Z) : Z → Z := mem_write m dest (mem_read m src n).

(** ** Images in the memory of the accelerator *)

(** [row_padding], [row_group], [row_length] *)
Definition row_layout (width : Z) : Z * Z * Z :=
  if width <=? 16 then (16, 4, 1) else if width <=? 32 then (32, 2, 1) else (64, 1, u32 ((width + 63) / 64)).
(** [UPLOAD_BEGIN] and [UPLOAD_END]: [row] writes one row and moves the source on *)
Definition upload_loop (dest height channels : Z) (layout : Z * Z * Z)
    (row : Z → Z * (Z → Z) → Z * (Z → Z)) (s : Z * (Z → Z)) : Z * (Z → Z) :=
  let '(row_padding, row_group, row_length) := layout in
  for_range 0 channels (λ oc s,
    let channel_origin := dest + u64 (oc / row_group * row_length * height * 64 + oc mod row_group * row_padding) in
    for_range 0 height (λ y s, row (channel_origin + u64 (y * row_length * 64)) s) s) s.
(** [y_origin[x] = *src++] for bytes and for 64-bit words *)
Definition put_byte (y_origin x : Z) : Z * (Z → Z) → Z * (Z → Z) := λ '(src, m), (src + 1, <[y_origin + x := m src]> m).
Definition put_dword (y_origin x : Z) : Z * (Z → Z) → Z * (Z → Z) :=
  λ '(src, m), (src + 8, mem_write m (y_origin + 8 * x) (dword_bytes (dword_at m src))).
Definition kpu_upload_core (width height channels src kpu_addr : Z) (m : Z → Z) : Z → Z :=
  let dest := u32 (AI_IO_BASE_ADDR + kpu_addr * 64) in
  let layout := row_layout width in
  if (src mod 8 =? 0) && (width mod 8 =? 0) then
    let width := width / 8 in
    if width =? 1 then snd (upload_loop dest height channels layout (λ y_origin, put_dword y_origin 0) (src, m))
    else if width =? 2 then
      snd (upload_loop dest height channels layout (λ y_origin s, put_dword y_origin 1 (put_dword y_origin 0 s)) (src, m))
    else if width =? 4 then
      snd (upload_loop dest height channels layout (λ y_origin s,
        put_dword y_origin 3 (put_dword y_origin 2 (put_dword y_origin 1 (put_dword y_origin 0 s)))) (src, m))
    else snd (upload_loop dest height channels layout (λ y_origin s, for_range 0 width (put_dword y_origin) s) (src, m))
  else snd (upload_loop dest height channels layout (λ y_origin s, for_range 0 width (put_byte y_origin) s) (src, m)).
Definition kpu_upload (m : Z → Z) : Z → Z :=
  kpu_upload_core (word_at m (arg + 12)) (word_at m (arg + 16)) (word_at m (arg + 20)) (in_buffer m) (kpu_mem_out_address m) m.
(** One byte of each channel, four channels a line, four lines (of which one is used) apart *)
Definition kpu_add_padding (m : Z → Z) : Z → Z :=
  let dest := u32 (AI_IO_BASE_ADDR + kpu_mem_out_address m * 64) in
  let channels := word_at m (arg + 12) in
  snd (for_range 0 channels (λ oc s,
    let channel_origin := dest + u32 (oc / 4 * 1 * 4 * 64) + u32 (oc mod 4 * 16) in
    for_range 0 1 (λ y s, for_range 0 1 (put_byte (channel_origin + u32 (y * 1 * 64))) s) s) (in_buffer m, m)).
Definition kpu_remove_padding (m : Z → Z) : Z → Z :=
  let src := in_buffer m in
  let channels := word_at m (arg + 12) in
  snd (for_range 0 channels (λ oc '(dest, m), (dest + 1, <[dest := m (src + u32 (oc * 16))]> m)) (out_buffer m, m)).

(** ** Elementwise layers *)
Definition kpu_kmodel_input_float (src dest count : Z) (m : Z → Z) : Z → Z := memcpy dest src (count * 4) m.
Definition kpu_requantize (m : Z → Z) : Z → Z :=
  let src := in_buffer m in
  let dest := out_buffer m in
  let count := word_at m (arg + 12) in
  let table := arg + 16 in
  for_range 0 count (λ oc m, <[dest + oc := m (table + m (src + oc))]> m) m.
Definition kpu_concat (m : Z → Z) : Z → Z :=
  let dest := ctx.(main_buffer) + word_at m (arg + 4) in
  let count := word_at m (arg + 8) in
  snd (for_range 0 count (λ i '(dest, m),
    let start := word_at m (arg + 12 + 8 * i) in
    let size := word_at m (arg + 12 + 8 * i + 4) in
    (dest + size, memcpy dest (ctx.(main_buffer) + start) size m)) (dest, m)).
(** A [float] is moved by its bits. *)
Definition kpu_tf_flatten (m : Z → Z) : Z → Z :=
  let src := in_buffer m in
  let sh := shape_at m (arg + 12) in
  snd (for_range 0 sh.(height) (λ oy s, for_range 0 sh.(width) (λ ox s, for_range 0 sh.(channels) (λ oc '(dest, m),
    (dest + 4, memcpy dest (src + 4 * u32 ((oc * sh.(height) + oy) * sh.(width) + ox)) 4 m)) s) s) (out_buffer m, m)).

(** ** Fixed-point addition *)
Definition kpu_carry_shift (value shift : Z) : res Z :=
  if 0 <? shift then
    value ← c_shr value (shift - 1);
    Ok (if negb (Z.land value 1 =? 0) then if value <? 0 then Z.shiftr value 1 - 1 else Z.shiftr value 1 + 1
        else Z.shiftr value 1)
  else Ok value.
Definition qadd_value (p : kpu_model_quant_add_layer_argument_t) (a b : Z) : res Z :=
  a ← c_int64 (a + p.(in_a_offset));
  b ← c_int64 (b + p.(in_b_offset));
  a ← c_int64 (a * p.(in_a_mul));
  b ← c_int64 (b * p.(in_b_mul));
  v ← (if p.(in_a_shift) =? p.(in_b_shift) then v ← c_int64 (a + b); c_shr v p.(in_a_shift)
       else a ← c_shr a p.(in_a_shift); b ← c_shr b p.(in_b_shift); c_int64 (a + b));
  v ← c_int64 (v * p.(out_mul));
  v ← kpu_carry_shift v (u32 p.(out_shift));
  v ← c_int64 (v + p.(out_offset));
  Ok (Z.min 0xFF (Z.max 0 v)).
(** [QADD_UNROLL_S]: eight loads of each operand, then eight stores *)
Fixpoint qadd_lanes (p : kpu_model_quant_add_layer_argument_t) (xs ys : list Z) : res (list Z) :=
  match xs, ys with
  | x :: xs, y :: ys => v ← qadd_value p x y; vs ← qadd_lanes p xs ys; Ok (v :: vs)
  | _, _ => Ok []
  end.
Definition kpu_quantized_add (m : Z → Z) : res (Z → Z) :=
  let p := quant_add_at m arg in
  let src_a := ctx.(main_buffer) + p.(qa_in_a) in
  let src_b := ctx.(main_buffer) + p.(qa_in_b) in
  let dest := ctx.(main_buffer) + p.(qa_out) in
  let count := u32 (p.(qa_count) + 7) / 8 in
  for_res 0 count (λ i m,
    vs ← qadd_lanes p (mem_read m (src_a + 8 * i) 8) (mem_read m (src_b + 8 * i) 8);
    Ok (mem_write m (dest + 8 * i) vs)) m.

(** ** Pooling *)

(** The window of an output: its origin in the input, and the part of the kernel inside *)
Definition window (out stride padding kernel size : Z) : Z * Z * Z :=
  let origin := s32 (s32 (u32 (out * stride)) - padding) in
  (origin, s32 (Z.max 0 (- origin)), s32 (Z.min kernel (u32 (size - origin)))).
Definition max_in_window (m : Z → Z) (channel_src in_width : Z) (window_x window_y : Z * Z * Z) : Z :=
  let '(in_x_origin, kernel_x_start, kernel_x_end) := window_x in
  let '(in_y_origin, kernel_y_start, kernel_y_end) := window_y in
  for_range kernel_y_start (kernel_y_end - kernel_y_start) (λ kernel_y value,
    for_range kernel_x_start (kernel_x_end - kernel_x_start) (λ kernel_x value,
      let in_x := in_x_origin + kernel_x in
      let in_y := in_y_origin + kernel_y in
      Z.max value (m (channel_src + u32 (in_y * in_width + in_x)))) value) 0.
Definition kpu_quantized_max_pool2d (m : Z → Z) : Z → Z :=
  let p := max_pool_at m arg in
  let src := ctx.(main_buffer) + p.(mp_in) in
  let dest := ctx.(main_buffer) + p.(mp_out) in
  let in_shape := p.(mp_in_shape) in
  let out_shape := p.(mp_out_shape) in
  snd (for_range 0 out_shape.(channels) (λ oc s,
    let channel_src := src + u32 (in_shape.(width) * in_shape.(height) * oc) in
    for_range 0 out_shape.(height) (λ out_y s, for_range 0 out_shape.(width) (λ out_x '(dest, m),
      let value := max_in_window m channel_src in_shape.(width)
        (window out_x p.(stride_width) p.(padding_width) p.(kernel_width) in_shape.(width))
        (window out_y p.(stride_height) p.(padding_height) p.(kernel_height) in_shape.(height)) in
      (dest + 1, <[dest := value]> m)) s) s) (dest, m)).
End layers.

(** ** Copying a row *)
Definition copies_row (w : Z) (row : Z → Z * (Z → Z) → Z * (Z → Z)) : Prop := ∀ y src m, bytes_ok m →
  y + w ≤ src ∨ src + w ≤ y → ∃ m', row y (src, m) = (src + w, m') ∧ ∀ q, m' q = mem_write m y (mem_read m src w) q.
Lemma put_bytes_copy w : 0 ≤ w → copies_row w (λ y s, for_range 0 w (put_byte y) s).
Proof.
  intros Hw y src m Hm Hd.
  refine (for_range_ind (λ k (s : Z * (Z → Z)), k ≤ w → ∃ m', s = (src + k, m') ∧ ∀ q, m' q = mem_write m y (mem_read m src k) q) 0 w _ _ Hw _ _ _); [|intros k s Hk IH Hk'|lia].
  - intros _. exists m. split; [by rewrite Z.add_0_r|]. intros q. by rewrite mem_write_nil.
  - destruct IH as (m1 & -> & E); [lia|]. eexists. split; [unfold put_byte; f_equal; lia|].
    assert (Hl : Z.of_nat (length (mem_read m src k)) = k) by (apply mem_read_length; lia).
    intros q. rewrite insert_mem_write, (mem_write_ext _ (mem_write m y (mem_read m src k))) by done.
    assert (m1 (src + k) = m (src + k)) as -> by (rewrite E; apply mem_write_out; lia).
    replace (0 + k) with (Z.of_nat (length (mem_read m src k))) by lia. by rewrite mem_write_app, mem_read_app by lia.
Qed.
Lemma put_dwords_copy w : 0 ≤ w → copies_row (8 * w) (λ y s, for_range 0 w (put_dword y) s).
Proof.
  intros Hw y src m Hm Hd.
  refine (for_range_ind (λ k (s : Z * (Z → Z)), k ≤ w → ∃ m', s = (src + 8 * k, m') ∧ ∀ q, m' q = mem_write m y (mem_read m src (8 * k)) q) 0 w _ _ Hw _ _ _); [|intros k s Hk IH Hk'|lia].
  - intros _. exists m. split; [by rewrite Z.add_0_r|]. intros q. by rewrite mem_write_nil.
  - destruct IH as (m1 & -> & E); [lia|]. eexists. split; [unfold put_dword; f_equal; lia|].
    assert (Hl : Z.of_nat (length (mem_read m src (8 * k))) = 8 * k) by (apply mem_read_length; lia).
    intros q. rewrite (mem_write_ext _ (mem_write m y (mem_read m src (8 * k)))) by done.
    rewrite (dword_at_ext m1 m), dword_copy by (done || intros p Hp; rewrite E; apply mem_write_out; lia).
    replace (8 * (0 + k)) with (Z.of_nat (length (mem_read m src (8 * k)))) by lia.
    by rewrite mem_write_app, Z.mul_add_distr_l, mem_read_app by lia.
Qed.
(** Whatever way [kpu_upload_core] chooses, it copies rows of [w] bytes. *)
Lemma upload_core_rows w h c src a m : 0 ≤ w → ∃ row, copies_row w row ∧
  kpu_upload_core w h c src a m = snd (upload_loop (u32 (AI_IO_BASE_ADDR + a * 64)) h c (row_layout w) row (src, m)).
Proof.
  intros Hw. unfold kpu_upload_core. destruct (_ && _) eqn:E.
  - apply andb_true_iff in E as [_ E%Z.eqb_eq]. exists (λ y s, for_range 0 (w / 8) (put_dword y) s). split.
    + replace w with (8 * (w / 8)) at 1 by (Z.div_mod_to_equations; lia). apply put_dwords_copy. by apply Z.div_pos.
    + destruct (Z.eqb_spec (w / 8) 1) as [-> |]; [done|]. destruct (Z.eqb_spec (w / 8) 2) as [-> |]; [done|].
      by destruct (Z.eqb_spec (w / 8) 4) as [-> |].
  - exists (λ y s, for_range 0 w (put_byte y) s). split; [by apply put_bytes_copy|done].
Qed.

(** ** The padded layout *)
Definition layout_ok (w : Z) (layout : Z * Z * Z) : Prop :=
  let '(pad, g, L) := layout in 0 < g ∧ 0 < L ∧ 0 ≤ pad ∧
  (∀ i, 0 ≤ i < g → i * pad + w ≤ 64 * L) ∧ (g = 1 ∨ w ≤ pad).
Lemma row_layout_ok w : 0 ≤ w < 2 ^ 32 → layout_ok w (row_layout w).
Proof.
  intros Hw. unfold row_layout, layout_ok. destruct (Z.leb_spec w 16); [split_and!; lia|].
  destruct (Z.leb_spec w 32); [split_and!; lia|]. rewrite wrap_id by (Z.div_mod_to_equations; lia).
  split_and!; try lia; try (Z.div_mod_to_equations; lia).
Qed.
(** Where row [y] of channel [oc] begins *)
Definition slot (layout : Z * Z * Z) (h oc y : Z) : Z :=
  let '(pad, g, L) := layout in (oc / g * h + y) * (64 * L) + oc mod g * pad.
Lemma slots_disjoint w layout h oc y oc' y' : 0 ≤ w → layout_ok w layout → 0 ≤ y < h → 0 ≤ y' < h → (oc, y) ≠ (oc', y') →
  slot layout h oc y + w ≤ slot layout h oc' y' ∨ slot layout h oc' y' + w ≤ slot layout h oc y.
Proof.
  destruct layout as [[pad g] L]. intros Hw (Hg & HL & Hp & Hfit & Hpad) Hy Hy' Hne. unfold slot.
  pose proof (Z.mod_pos_bound oc g Hg) as Hm. pose proof (Z.mod_pos_bound oc' g Hg) as Hm'.
  pose proof (Hfit _ Hm) as F. pose proof (Hfit _ Hm') as F'.
  pose proof (Z.mul_nonneg_nonneg (oc mod g) pad) as P. pose proof (Z.mul_nonneg_nonneg (oc' mod g) pad) as P'.
  set (l := oc / g * h + y). set (l' := oc' / g * h + y').
  destruct (Z.lt_trichotomy l l') as [Hl|[Hl|Hl]].
  - left. assert (l * (64 * L) + 64 * L ≤ l' * (64 * L)) by nia. lia.
  - assert (oc / g = oc' / g ∧ y = y') as [Hq ->] by (apply (Z.div_mod_unique h); unfold l, l' in Hl; lia). rewrite Hl.
    assert (oc mod g ≠ oc' mod g) as Hmod.
    { intros E. apply Hne. f_equal. rewrite (Z.div_mod oc g), (Z.div_mod oc' g) by lia. congruence. }
    destruct Hpad as [-> |Hpad]; [rewrite !Z.mod_1_r in Hmod; done|].
    destruct (Z.lt_total (oc mod g) (oc' mod g)) as [|[|]]; [left|done|right]; nia.
  - right. assert (l' * (64 * L) + 64 * L ≤ l * (64 * L)) by nia. lia.
Qed.
(** The memory that [c] channels take *)
Definition upload_size (layout : Z * Z * Z) (h c : Z) : Z := let '(_, g, L) := layout in (c + g - 1) / g * h * (64 * L).
Lemma slot_bound w layout h c oc y : 0 ≤ w → layout_ok w layout → 0 ≤ oc < c → 0 ≤ y < h →
  0 ≤ slot layout h oc y ∧ slot layout h oc y + w ≤ upload_size layout h c.
Proof.
  destruct layout as [[pad g] L]. intros Hw (Hg & HL & Hp & Hfit & Hpad) Ho Hy. unfold slot, upload_size.
  pose proof (Z.mod_pos_bound oc g Hg) as Hm. pose proof (Hfit _ Hm) as F.
  assert (0 ≤ oc / g) as H0 by (apply Z.div_pos; lia).
  assert (oc / g + 1 ≤ (c + g - 1) / g) as Hq.
  { apply Z.div_le_lower_bound; [done|]. pose proof (Z.mul_div_le oc g Hg). lia. }
  pose proof (Z.mul_nonneg_nonneg (oc mod g) pad) as P.
  pose proof (Z.mul_nonneg_nonneg (oc / g) h H0 ltac:(lia)) as Hh.
  pose proof (Z.mul_nonneg_nonneg (oc / g * h + y) (64 * L) ltac:(lia) ltac:(lia)) as Hn.
  assert ((oc / g * h + y + 1) * (64 * L) ≤ (c + g - 1) / g * h * (64 * L)); [|lia].
  apply Z.mul_le_mono_nonneg_r; [lia|]. pose proof (Z.mul_le_mono_nonneg_r (oc / g + 1) ((c + g - 1) / g) h). lia.
Qed.
Definition row_addr (dest : Z) (layout : Z * Z * Z) (h r : Z) : Z := dest + slot layout h (r / h) (r mod h).
Lemma row_addr_eq dest layout h oc y : 0 ≤ y < h → row_addr dest layout h (oc * h + y) = dest + slot layout h oc y.
Proof.
  intros Hy. unfold row_addr. rewrite (Z.add_comm (oc * h)). rewrite Z.div_add, Z.mod_add by lia.
  by rewrite Z.div_small, Z.mod_small, Z.add_0_l by lia.
Qed.
Lemma row_index h c r : 0 < h → 0 ≤ r < c * h → 0 ≤ r / h < c ∧ 0 ≤ r mod h < h ∧ r = r / h * h + r mod h.
Proof.
  intros Hh Hr. pose proof (Z.div_mod r h ltac:(lia)). pose proof (Z.mod_pos_bound r h Hh). split_and!; try lia.
  - apply Z.div_pos; lia.
  - apply Z.div_lt_upper_bound; lia.
Qed.
Lemma upload_loop_run dest w h c layout row src m : copies_row w row → layout_ok w layout → bytes_ok m →
  0 ≤ w → 0 < h → 0 ≤ c → upload_size layout h c < 2 ^ 64 →
  dest + upload_size layout h c ≤ src ∨ src + c * h * w ≤ dest →
  rows_copied m src w (row_addr dest layout h) (c * h) (snd (upload_loop dest h c layout row (src, m))).
Proof.
  intros Hrow Hlay Hm Hw Hh Hc Hsize Hsep.
  set (P := λ (k : Z) (s : Z * (Z → Z)), ∃ m', s = (src + k * w, m') ∧ bytes_ok m' ∧ rows_copied m src w (row_addr dest layout h) k m').
  cut (P (c * h) (upload_loop dest h c layout row (src, m))); [intros (m' & -> & _ & H); exact H|].
  assert (Hstep : ∀ oc y s, 0 ≤ oc < c → 0 ≤ y < h → P (oc * h + y) s → P (oc * h + y + 1) (row (dest + slot layout h oc y) s)).
  { intros oc y s Ho Hy (m1 & -> & Hm1 & Hrows).
    assert (0 ≤ oc * h + y < c * h) as Hk by nia. pose proof (slot_bound w layout h c oc y Hw Hlay Ho Hy) as Hb.
    pose proof (Z.mul_le_mono_nonneg_r (oc * h + y + 1) (c * h) w Hw ltac:(lia)) as Hkw.
    pose proof (Z.mul_nonneg_nonneg (oc * h + y) w ltac:(lia) Hw) as Hkw0.
    destruct (Hrow (dest + slot layout h oc y) (src + (oc * h + y) * w) m1 Hm1) as (m2 & -> & E); [lia|].
    exists m2. split; [f_equal; lia|]. split.
    - intros q. rewrite E. apply bytes_ok_mem_write; [done|]. by apply mem_read_bytes.
    - rewrite <-(row_addr_eq dest layout h oc y Hy) in E. apply (rows_copied_step m src w _ _ m1); [lia|done|done| | |done].
      + intros r Hr. destruct (row_index h c r Hh ltac:(lia)) as (Hq & Hmod & Er).
        rewrite row_addr_eq by done. unfold row_addr.
        destruct (slots_disjoint w layout h (r / h) (r mod h) oc y Hw Hlay Hmod Hy); [intros [= <- <-]; lia|lia|lia].
      + intros r x Hr Hx. destruct (row_index h c r Hh ltac:(lia)) as (Hq & Hmod & _).
        pose proof (slot_bound w layout h c (r / h) (r mod h) Hw Hlay Hq Hmod). unfold row_addr. lia. }
  unfold upload_loop. destruct layout as [[pad g] L] eqn:El. destruct Hlay as (Hg & HL & Hp & Hfit & Hpad).
  refine (for_range_ind (λ k s, P (k * h) s) 0 c _ _ Hc _ _);
    [exists m; split; [f_equal; lia|split; [done|apply rows_copied_0]]|]. intros oc s Ho IH. cbv beta zeta. rewrite Z.add_0_l.
  replace ((oc + 1) * h) with (oc * h + h) by lia.
  refine (for_range_ind (λ k s, P (oc * h + k) s) 0 h _ _ ltac:(lia) _ _); [by rewrite Z.add_0_r|]. intros y s' Hy IH'. cbv beta. rewrite Z.add_0_l, Z.add_assoc.
  pose proof (slot_bound w (pad, g, L) h c oc y Hw (conj Hg (conj HL (conj Hp (conj Hfit Hpad)))) Ho Hy) as Hb.
  assert (0 ≤ oc / g) as Hq by (apply Z.div_pos; lia).
  pose proof (Z.mul_nonneg_nonneg (oc / g * h) L ltac:(nia) ltac:(lia)). pose proof (Z.mul_nonneg_nonneg y L ltac:(lia) ltac:(lia)).
  pose proof (Z.mul_nonneg_nonneg (oc mod g) pad ltac:(pose proof (Z.mod_pos_bound oc g Hg); lia) Hp).
  rewrite !wrap_id by (unfold slot in Hb; lia).
  replace (dest + (oc / g * L * h * 64 + oc mod g * pad) + y * L * 64) with (dest + slot (pad, g, L) h oc y) by (unfold slot; lia).
  apply Hstep; done.
Qed.

(** The image fits into the memory of the accelerator, and the source is elsewhere. *)
Definition AI_RAM_SIZE : Z := 2 * 1024 * 1024.
Definition upload_fits (w h c src a : Z) : Prop :=
  0 ≤ w < 2 ^ 32 ∧ 0 < h ∧ 0 ≤ c ∧ 0 ≤ a ∧ a * 64 + upload_size (row_layout w) h c ≤ AI_RAM_SIZE ∧
  (AI_IO_BASE_ADDR + AI_RAM_SIZE ≤ src ∨ src + c * h * w ≤ AI_IO_BASE_ADDR).

(** C38: An image that fits into the memory of the accelerator is laid out as the accelerator
    expects it: pixel [x] of row [y] of channel [oc] is at its place in the padded layout,
    and no other byte of memory changes; whether the copy goes by bytes, or by words when
    source and width allow it, makes no difference. *)
Theorem kpu_upload_core_spec w h c src a m : bytes_ok m → upload_fits w h c src a →
  let m' := kpu_upload_core w h c src a m in
  let base := AI_IO_BASE_ADDR + a * 64 in
  (∀ oc y x, 0 ≤ oc < c → 0 ≤ y < h → 0 ≤ x < w →
    m' (base + slot (row_layout w) h oc y + x) = m (src + (oc * h + y) * w + x)) ∧
  (∀ q, (∀ oc y, 0 ≤ oc < c → 0 ≤ y < h →
    ¬ (base + slot (row_layout w) h oc y ≤ q < base + slot (row_layout w) h oc y + w)) → m' q = m q).
Proof.
  intros Hm (Hw & Hh & Hc & Ha & Hfit & Hsep). cbv zeta.
  destruct (upload_core_rows w h c src a m ltac:(lia)) as (row & Hrow & ->).
  pose proof (row_layout_ok w Hw) as Hlay.
  assert (0 ≤ upload_size (row_layout w) h c) as Hs0.
  { destruct (row_layout w) as [[pad g] L]. destruct Hlay as (Hg & HL & _). unfold upload_size.
    pose proof (Z.div_pos (c + g - 1) g ltac:(lia) Hg). apply Z.mul_nonneg_nonneg; [apply Z.mul_nonneg_nonneg|]; lia. }
  unfold AI_RAM_SIZE, AI_IO_BASE_ADDR in *. rewrite wrap_id by lia.
  destruct (upload_loop_run (0x40600000 + a * 64) w h c (row_layout w) row src m Hrow Hlay Hm ltac:(lia) Hh Hc ltac:(lia) ltac:(lia)) as [Hin Hout].
  split.
  - intros oc y x Ho Hy Hx. rewrite <-(row_addr_eq _ _ _ _ _ Hy). apply Hin; [nia|done].
  - intros q Hq. apply Hout. intros r Hr. destruct (row_index h c r Hh Hr) as (Hq' & Hmod & _). by apply Hq.
Qed.

Lemma kpu_upload_core_spec_witness :
  kpu_upload_core 24 2 3 0x80001000 5 (λ q, q mod 256) (0x40600000 + 5 * 64 + slot (row_layout 24) 2 1 1 + 7) = (0x80001000 + (1 * 2 + 1) * 24 + 7) mod 256 ∧
  kpu_upload_core 24 2 3 0x80001000 5 (λ q, q mod 256) 3 = 3.
Proof.
  destruct (kpu_upload_core_spec 24 2 3 0x80001000 5 (λ q, q mod 256)) as [Hin Hout].
  - intros q. cbv beta. apply Z.mod_pos_bound. lia.
  - unfold upload_fits, AI_RAM_SIZE, AI_IO_BASE_ADDR. vm_compute. intuition discriminate.
  - split; [exact (Hin 1 1 7 ltac:(lia) ltac:(lia) ltac:(lia))|].
    rewrite Hout; [reflexivity|]. intros oc y Ho Hy. cbn. unfold AI_IO_BASE_ADDR. 
    pose proof (Z.div_pos oc 2). pose proof (Z.mod_pos_bound oc 2). nia.
Defined.

(** ** The maximum over a range *)
Definition is_max (S : Z → Prop) (v : Z) : Prop := 0 ≤ v ∧ (∀ p, S p → p ≤ v) ∧ (v = 0 ∨ S v).
Lemma is_max_add S S' p v : is_max S v → (∀ x, S' x ↔ S x ∨ x = p) → is_max S' (Z.max v p).
Proof.
  intros (H0 & Hu & Ha) E. split; [lia|]. split.
  - intros x [Hx| ->]%E; [pose proof (Hu x Hx)|]; lia.
  - destruct (Z.max_spec v p) as [[? ->]|[? ->]]; [right; apply E; by right|].
    destruct Ha as [Ha|Ha]; [by left|right; apply E; by left].
Qed.
Lemma is_max_iff S S' v : (∀ x, S x ↔ S' x) → is_max S v → is_max S' v.
Proof. intros E (H0 & Hu & Ha). split; [done|]. split; [intros p Hp%E; auto|]. destruct Ha; [by left|right; by apply E]. Qed.
Lemma max_row f lo n S v : 0 ≤ n → is_max S v →
  is_max (λ p, S p ∨ ∃ i, lo ≤ i < lo + n ∧ p = f i) (for_range lo n (λ i v, Z.max v (f i)) v).
Proof.
  intros Hn Hv. refine (for_range_ind (λ k v, is_max (λ p, S p ∨ ∃ i, lo ≤ i < lo + k ∧ p = f i) v) lo n _ v Hn _ _).
  - eapply is_max_iff; [|exact Hv]. intros x. split; [by left|intros [|(i & Hi & _)]; [done|lia]].
  - intros k v' Hk IH. eapply is_max_add; [exact IH|]. intros x. split.
    + intros [Hx|(i & Hi & ->)]; [by left; left|]. destruct (decide (i = lo + k)) as [-> |]; [by right|].
      left. right. exists i. split; [lia|done].
    + intros [[Hx|(i & Hi & ->)]| ->]; [by left|right; exists i|right; exists (lo + k)]; (split; [lia|done]).
Qed.
Lemma max_square f ylo yn xlo xn : is_max
  (λ p, ∃ y x, ylo ≤ y < ylo + yn ∧ xlo ≤ x < xlo + xn ∧ p = f y x)
  (for_range ylo yn (λ y v, for_range xlo xn (λ x v, Z.max v (f y x)) v) 0).
Proof.
  destruct (decide (0 ≤ yn)) as [Hy|]; [|rewrite for_range_0 by lia; split; [done|split; [intros p (y & x & ? & _); lia|by left]]].
  refine (for_range_ind (λ k v, is_max (λ p, ∃ y x, ylo ≤ y < ylo + k ∧ xlo ≤ x < xlo + xn ∧ p = f y x) v) ylo yn _ 0 Hy _ _).
  - split; [done|]. split; [intros p (y & x & ? & _); lia|by left].
  - intros k v Hk IH. destruct (decide (0 ≤ xn)) as [Hx|].
    + eapply is_max_iff; [|by apply max_row]. intros p. split.
      * intros [(y & x & ? & ? & ->)|(x & ? & ->)]; [exists y, x|exists (ylo + k), x]; (split_and!; [lia|lia|lia|lia|done]).
      * intros (y & x & ? & ? & ->). destruct (decide (y = ylo + k)) as [-> |]; [right; by exists x|left; exists y, x; by split_and!; try lia].
    + rewrite for_range_0 by lia. eapply is_max_iff; [|exact IH]. intros p. split; intros (y & x & ? & ? & _); lia.
Qed.

(** ** Pooling windows *)
Lemma s32_id x : - 2 ^ 31 ≤ x < 2 ^ 31 → s32 x = x.
Proof.
  intros Hx. unfold s32. cbv zeta. destruct (decide (0 ≤ x)).
  - rewrite wrap_id by lia. by rewrite (proj2 (Z.ltb_lt _ _)) by lia.
  - assert (u32 x = x + 2 ^ 32) as ->.
    { unfold wrap. symmetry. apply (Z.mod_unique _ _ (-1)); lia. }
    rewrite (proj2 (Z.ltb_ge _ _)) by lia. lia.
Qed.
(** What keeps the arithmetic of a window in its 32 bits: the output begins inside the
    input or at its end. *)
Definition window_ok (out stride padding kernel size : Z) : Prop :=
  0 ≤ out * stride < 2 ^ 31 ∧ 0 ≤ padding < 2 ^ 31 ∧ 0 ≤ kernel < 2 ^ 31 ∧ 0 ≤ size < 2 ^ 31 ∧ out * stride - padding ≤ size.
Lemma window_eq out stride padding kernel size : window_ok out stride padding kernel size →
  let o := out * stride - padding in window out stride padding kernel size = (o, Z.max 0 (- o), Z.min kernel (size - o)).
Proof.
  intros (Ho & Hp & Hk & Hs & Hle). cbv zeta. unfold window. rewrite (wrap_id 32 (out * stride)) by lia.
  rewrite (s32_id (out * stride)), (s32_id (out * stride - padding)) by lia. cbv zeta.
  rewrite (wrap_id 32) by lia. by rewrite !s32_id by lia.
Qed.

Definition max_pool_ok (p : kpu_model_quant_max_pool2d_layer_argument_t) (src dest : Z) : Prop :=
  let i := p.(mp_in_shape) in let o := p.(mp_out_shape) in
  0 ≤ o.(width) ∧ 0 ≤ o.(height) ∧ 0 ≤ o.(channels) ∧ o.(channels) * i.(height) * i.(width) < 2 ^ 32 ∧
  (∀ x, 0 ≤ x < o.(width) → window_ok x p.(stride_width) p.(padding_width) p.(kernel_width) i.(width)) ∧
  (∀ y, 0 ≤ y < o.(height) → window_ok y p.(stride_height) p.(padding_height) p.(kernel_height) i.(height)) ∧
  (dest + o.(channels) * o.(height) * o.(width) ≤ src ∨ src + o.(channels) * i.(height) * i.(width) ≤ dest).
(** The pixels of the input that the kernel of one output covers *)
Definition covered (m : Z → Z) (p : kpu_model_quant_max_pool2d_layer_argument_t) (src oc y x v : Z) : Prop :=
  let i := p.(mp_in_shape) in ∃ ky kx, 0 ≤ ky < p.(kernel_height) ∧ 0 ≤ kx < p.(kernel_width) ∧
    let iy := y * p.(stride_height) - p.(padding_height) + ky in
    let ix := x * p.(stride_width) - p.(padding_width) + kx in
    0 ≤ iy < i.(height) ∧ 0 ≤ ix < i.(width) ∧ v = m (src + (oc * i.(height) + iy) * i.(width) + ix).

Lemma max_in_window_ext m m1 a w wx wy : (∀ ky kx,
    wy.1.2 ≤ ky < wy.2 → wx.1.2 ≤ kx < wx.2 → let q := a + u32 ((wy.1.1 + ky) * w + (wx.1.1 + kx)) in m1 q = m q) →
  max_in_window m1 a w wx wy = max_in_window m a w wx wy.
Proof.
  destruct wx as [[ox xs] xe], wy as [[oy ys] ye]. cbn [fst snd]. intros E. unfold max_in_window.
  apply for_range_ext. intros ky v Hky. apply for_range_ext. intros kx v' Hkx. cbv zeta. rewrite E by lia. done.
Qed.
Section pooling.
Context (m : Z → Z) (src W H OC oc out_y out_x sw sh pw ph kw kh : Z).
Context (Hoc : 0 ≤ oc < OC) (Hsize : OC * H * W < 2 ^ 32).
Context (Wx : window_ok out_x sw pw kw W) (Wy : window_ok out_y sh ph kh H).
Lemma pixel_address iy ix : 0 ≤ iy < H → 0 ≤ ix < W →
  src + u32 (W * H * oc) + u32 (iy * W + ix) = src + (oc * H + iy) * W + ix ∧ src ≤ src + (oc * H + iy) * W + ix < src + OC * H * W.
Proof using Hoc Hsize.
  intros Hiy Hix. assert (0 ≤ iy * W + ix < H * W) as H1 by nia.
  pose proof (Z.mul_nonneg_nonneg oc (H * W)). pose proof (Z.mul_le_mono_nonneg_r (oc + 1) OC (H * W)).
  rewrite !wrap_id by lia. lia.
Qed.
Lemma max_in_window_max :
  is_max (λ pix, ∃ ky kx, 0 ≤ ky < kh ∧ 0 ≤ kx < kw ∧ 0 ≤ out_y * sh - ph + ky < H ∧ 0 ≤ out_x * sw - pw + kx < W ∧
      pix = m (src + (oc * H + (out_y * sh - ph + ky)) * W + (out_x * sw - pw + kx)))
    (max_in_window m (src + u32 (W * H * oc)) W (window out_x sw pw kw W) (window out_y sh ph kh H)).
Proof using Hoc Hsize Wx Wy.
  rewrite !window_eq by done. unfold max_in_window.
  eapply is_max_iff; [|apply (max_square (λ ky kx, m (src + u32 (W * H * oc) + u32 ((out_y * sh - ph + ky) * W + (out_x * sw - pw + kx)))))].
  intros pix. split; intros (ky & kx & Hrest); exists ky, kx.
  - destruct Hrest as (? & ? & ->). rewrite (proj1 (pixel_address (out_y * sh - ph + ky) (out_x * sw - pw + kx) ltac:(lia) ltac:(lia))). split_and!; try lia; done.
  - destruct Hrest as (? & ? & ? & ? & ->). rewrite (proj1 (pixel_address (out_y * sh - ph + ky) (out_x * sw - pw + kx) ltac:(lia) ltac:(lia))). split_and!; try lia; done.
Qed.
Lemma max_in_window_agree m1 : agree m (λ q, src ≤ q < src + OC * H * W) m1 →
  max_in_window m1 (src + u32 (W * H * oc)) W (window out_x sw pw kw W) (window out_y sh ph kh H) =
  max_in_window m (src + u32 (W * H * oc)) W (window out_x sw pw kw W) (window out_y sh ph kh H).
Proof using Hoc Hsize Wx Wy.
  intros Hag. apply max_in_window_ext. rewrite !window_eq by done. cbn [fst snd]. intros ky kx Hky Hkx. cbv zeta.
  destruct (pixel_address (out_y * sh - ph + ky) (out_x * sw - pw + kx)) as [-> Hr]; [lia|lia|]. by apply Hag.
Qed.
End pooling.

(** C39: Every output of [kpu_quantized_max_pool2d] is the largest of the pixels that its
    kernel covers, 0 when it covers none; pixels outside the input, in the padding, do not
    take part.  Nothing but the output is written. *)
Theorem kpu_quantized_max_pool2d_spec arg ctx m :
  let p := max_pool_at m arg in
  let src := ctx.(main_buffer) + p.(mp_in) in
  let dest := ctx.(main_buffer) + p.(mp_out) in
  let o := p.(mp_out_shape) in
  max_pool_ok p src dest →
  let m' := kpu_quantized_max_pool2d arg ctx m in
  (∀ oc y x, 0 ≤ oc < o.(channels) → 0 ≤ y < o.(height) → 0 ≤ x < o.(width) →
    is_max (covered m p src oc y x) (m' (dest + (oc * o.(height) + y) * o.(width) + x))) ∧
  (∀ q, q < dest ∨ dest + o.(channels) * o.(height) * o.(width) ≤ q → m' q = m q).
Proof.
  cbv zeta. unfold kpu_quantized_max_pool2d. set (p := max_pool_at m arg). clearbody p. cbv zeta.
  generalize (main_buffer ctx + mp_in p) (main_buffer ctx + mp_out p). intros src dest (HW & HH & HC & Hsize & Hx & Hy & Hsep).
  destruct p as [? ? [W H C0] [OW OH OC] kw kh sw sh pw ph]. cbn [mp_in_shape mp_out_shape width height channels kernel_width kernel_height stride_width stride_height padding_width padding_height] in *.
  destruct (grid_result m (λ q, src ≤ q < src + OC * H * W) dest (dest + OC * (OH * (OW * 1))) ltac:(intros q ??; lia) OC OH OW 1
    (λ oc out_y out_x '(dest, m1), (dest + 1, <[dest := max_in_window m1 (src + u32 (W * H * oc)) W
      (window out_x sw pw kw W) (window out_y sh ph kh H)]> m1))
    (λ oc out_y out_x, [max_in_window m (src + u32 (W * H * oc)) W (window out_x sw pw kw W) (window out_y sh ph kh H)]) HC HH HW)
    with (d := dest) (m := m) as [Hin Hout]; [|done|lia|lia|done|].
  { intros oc y x Ho Hy' Hx'. apply emits_one. intros m1. eapply (max_in_window_agree m src W H OC); eauto. }
  split.
  - intros oc y x Ho Hy' Hx'. specialize (Hin oc y x 0 Ho Hy' Hx' ltac:(lia)). rewrite Z.mul_1_r, Z.add_0_r in Hin.
    cbv zeta in Hin |- *. rewrite Z.add_assoc in Hin. rewrite Hin. eapply (max_in_window_max m src W H OC); eauto.
  - intros q Hq. apply Hout. lia.
Qed.

(** One channel of 3 by 3 pixels at address 100 under a kernel of 2 by 2 with stride 2 and
    no padding, into one row of two pixels at 200; the argument record is at 0. *)
Definition demo_pool : Z → Z := foldr (λ '(a, x) m, mem_write m a (word_bytes x)) (λ q, if q =? 104 then 9 else 1)
  [(4, 100); (8, 200); (12, 3); (16, 3); (20, 1); (24, 2); (28, 1); (32, 1); (36, 2); (40, 2); (44, 2); (48, 2); (52, 0); (56, 0)].
Lemma kpu_quantized_max_pool2d_spec_witness : let m' := kpu_quantized_max_pool2d 0 (Ctx 0 0 0 0 0 0 0 0 0 0 0 0 0 0) demo_pool in
  is_max (covered demo_pool (max_pool_at demo_pool 0) 100 0 0 0) (m' 200) ∧ m' 202 = 1.
Proof.
  destruct (kpu_quantized_max_pool2d_spec 0 (Ctx 0 0 0 0 0 0 0 0 0 0 0 0 0 0) demo_pool) as [Hin Hout].
  - change (max_pool_at demo_pool 0) with (MaxPool 100 200 (Shape 3 3 1) (Shape 2 1 1) 2 2 2 2 0 0).
    unfold max_pool_ok, window_ok. cbn. repeat split; intros; lia.
  - split; [exact (Hin 0 0 0 ltac:(vm_compute; intuition discriminate) ltac:(vm_compute; intuition discriminate) ltac:(vm_compute; intuition discriminate))|].
    rewrite Hout; [reflexivity|]. right. vm_compute. discriminate.
Defined.

(** ** The layers that move data *)

(** From planes (channel, row, column) to pixels (row, column, channel) *)
Theorem kpu_tf_flatten_spec arg ctx m :
  let sh := shape_at m (arg + 12) in
  let src := in_buffer arg ctx m in
  let dest := out_buffer arg ctx m in
  0 ≤ sh.(width) → 0 ≤ sh.(height) → 0 ≤ sh.(channels) → sh.(channels) * sh.(height) * sh.(width) < 2 ^ 32 →
  dest + 4 * (sh.(channels) * sh.(height) * sh.(width)) ≤ src ∨ src + 4 * (sh.(channels) * sh.(height) * sh.(width)) ≤ dest →
  let m' := kpu_tf_flatten arg ctx m in
  (∀ oy ox oc j, 0 ≤ oy < sh.(height) → 0 ≤ ox < sh.(width) → 0 ≤ oc < sh.(channels) → 0 ≤ j < 4 →
    m' (dest + ((oy * sh.(width) + ox) * sh.(channels) + oc) * 4 + j) =
    m (src + ((oc * sh.(height) + oy) * sh.(width) + ox) * 4 + j)) ∧
  (∀ q, q < dest ∨ dest + 4 * (sh.(channels) * sh.(height) * sh.(width)) ≤ q → m' q = m q).
Proof.
  cbv zeta. unfold kpu_tf_flatten. generalize (in_buffer arg ctx m) (out_buffer arg ctx m). intros src dest.
  destruct (shape_at m (arg + 12)) as [W H C]. cbn [width height channels]. intros HW HH HC Hsize Hsep. cbv zeta.
  set (from := λ oy ox oc, src + 4 * ((oc * H + oy) * W + ox)).
  assert (Hfrom : ∀ oy ox oc, 0 ≤ oy < H → 0 ≤ ox < W → 0 ≤ oc < C →
    src + 4 * u32 ((oc * H + oy) * W + ox) = from oy ox oc ∧ src ≤ from oy ox oc ∧ from oy ox oc + 4 ≤ src + 4 * (C * H * W)).
  { intros oy ox oc Hy Hx Hc. assert (0 ≤ oy * W + ox < H * W) by nia.
    pose proof (Z.mul_nonneg_nonneg oc (H * W)). pose proof (Z.mul_le_mono_nonneg_r (oc + 1) C (H * W)).
    unfold from. rewrite wrap_id by lia. lia. }
  destruct (grid_result m (λ q, src ≤ q < src + 4 * (C * H * W)) dest (dest + H * (W * (C * 4))) ltac:(intros q ??; lia) H W C 4
    (λ oy ox oc '(d, m1), (d + 4, memcpy d (src + 4 * u32 ((oc * H + oy) * W + ox)) 4 m1))
    (λ oy ox oc, mem_read m (from oy ox oc) 4) HH HW HC)
    with (d := dest) (m := m) as [Hin Hout]; [|by intros; apply mem_read_length|lia|lia|done|].
  { intros oy ox oc Hy Hx Hc d m1 Hd He Hag. destruct (Hfrom oy ox oc Hy Hx Hc) as (-> & Hl & Hr).
    rewrite mem_read_length by lia. eexists. split; [done|]. intros q. unfold memcpy.
    by rewrite (mem_read_ext m1 m) by (intros; apply Hag; lia). }
  split; [|intros q Hq; apply Hout; lia]. intros oy ox oc j Hy Hx Hc Hj. etrans; [exact (Hin oy ox oc j Hy Hx Hc Hj)|].
  rewrite mem_read_total by done. unfold from. f_equal. lia.
Qed.

(** A table of 256 bytes applied to each byte; the output may be the input. *)
Lemma kpu_requantize_spec arg ctx m :
  let count := word_at m (arg + 12) in
  let src := in_buffer arg ctx m in
  let dest := out_buffer arg ctx m in
  0 ≤ count → (dest ≤ src ∨ src + count ≤ dest) → (∀ q, arg + 16 ≤ q < arg + 272 → ¬ (dest ≤ q < dest + count)) →
  (∀ i, 0 ≤ i < count → 0 ≤ m (src + i) < 256) →
  let m' := kpu_requantize arg ctx m in
  (∀ i, 0 ≤ i < count → m' (dest + i) = m (arg + 16 + m (src + i))) ∧ (∀ q, ¬ (dest ≤ q < dest + count) → m' q = m q).
Proof.
  cbv zeta. unfold kpu_requantize. generalize (in_buffer arg ctx m) (out_buffer arg ctx m) (word_at m (arg + 12)).
  intros src dest n Hn Hsep Htab Hbyte. cbv zeta.
  refine (for_range_ind (λ k (m' : Z → Z), (∀ i, 0 ≤ i < k → m' (dest + i) = m (arg + 16 + m (src + i))) ∧
    (∀ q, ¬ (dest ≤ q < dest + k) → m' q = m q)) 0 n _ m Hn _ _); [by split; [lia|]|].
  intros k m1 Hk [Hin Hout]. rewrite Z.add_0_l. rewrite (Hout (src + k)) by lia.
  rewrite (Hout (arg + 16 + m (src + k))) by (pose proof (Hbyte k Hk); pose proof (Htab (arg + 16 + m (src + k))); lia).
  unfold insert, fn_insert. split.
  - intros i Hi. destruct (decide (i = k)) as [-> |]; [by rewrite decide_True|]. rewrite decide_False by lia. apply Hin. lia.
  - intros q Hq. rewrite decide_False by lia. apply Hout. lia.
Qed.
(** The inputs one after the other *)
Lemma kpu_concat_spec arg ctx m :
  let count := word_at m (arg + 8) in
  let start i := word_at m (arg + 12 + 8 * i) in
  let size i := word_at m (arg + 12 + 8 * i + 4) in
  let dest := ctx.(main_buffer) + word_at m (arg + 4) in
  let out := concat ((λ i, mem_read m (ctx.(main_buffer) + start i) (size i)) <$> seqZ 0 count) in
  (∀ i, 0 ≤ i < count → 0 ≤ size i) →
  (∀ q, dest ≤ q < dest + Z.of_nat (length out) → ¬ (arg ≤ q < arg + 12 + 8 * count) ∧
    ∀ i, 0 ≤ i < count → ¬ (ctx.(main_buffer) + start i ≤ q < ctx.(main_buffer) + start i + size i)) →
  ∀ q, kpu_concat arg ctx m q = mem_write m dest out q.
Proof.
  intros count start size dest out Hsize Hsep. unfold kpu_concat. fold count dest. cbv zeta.
  assert (Hem : emits m (λ q, (arg ≤ q < arg + 12 + 8 * count) ∨ ∃ i, 0 ≤ i < count ∧
      ctx.(main_buffer) + start i ≤ q < ctx.(main_buffer) + start i + size i) dest (dest + Z.of_nat (length out))
    (for_range 0 count (λ i '(d, m1), (d + word_at m1 (arg + 12 + 8 * i + 4),
      memcpy d (ctx.(main_buffer) + word_at m1 (arg + 12 + 8 * i)) (word_at m1 (arg + 12 + 8 * i + 4)) m1))) out).
  { apply emits_range. { intros q Hq [Ha|(i & Hi & Hr)]; destruct (Hsep q Hq) as [H1 H2]; [done|by apply (H2 i Hi)]. }
    intros i Hi d m1 Hd He Hag. rewrite !(word_at_ext m1 m) by (intros; apply Hag; left; lia).
    fold (start i) (size i). rewrite mem_read_length by (apply Hsize; lia). eexists. split; [done|]. intros q. unfold memcpy.
    rewrite (mem_read_ext m1 m); [done|]. intros p Hp. apply Hag. right. exists i. split; [lia|done]. }
  destruct (Hem dest m) as (m' & E & Hm'); [lia|lia|done|]. intros q. by rewrite E, <-Hm'.
Qed.

(** ** Fixed-point addition *)

(** The shift rounds half up; but for negative values whose rounding bit is set it is two
    too low. *)
Lemma kpu_carry_shift_spec value shift : 1 ≤ shift ≤ 64 →
  kpu_carry_shift value shift = Ok ((value + 2 ^ (shift - 1)) / 2 ^ shift -
    (if (value <? 0) && Z.testbit value (shift - 1) then 2 else 0)).
Proof.
  intros Hs. unfold kpu_carry_shift. rewrite (proj2 (Z.ltb_lt _ _)), c_shr_ok by lia. cbn [mbind res_bind]. f_equal.
  assert (E : Z.testbit value (shift - 1) = Z.odd (Z.shiftr value (shift - 1))) by (by rewrite <-Z.bit0_odd, Z.shiftr_spec, Z.add_0_l by lia).
  rewrite E. rewrite Z.shiftr_div_pow2 by lia. set (y := value / 2 ^ (shift - 1)).
  assert ((y <? 0) = (value <? 0)) as Hneg.
  { unfold y. pose proof (Z.pow_pos_nonneg 2 (shift - 1)). destruct (Z.ltb_spec value 0).
    - apply Z.ltb_lt. apply Z.div_lt_upper_bound; lia.
    - apply Z.ltb_ge. apply Z.div_pos; lia. }
  assert ((value + 2 ^ (shift - 1)) / 2 ^ shift = (y + 1) / 2) as ->.
  { replace shift with (shift - 1 + 1) at 2 by lia. rewrite Z.pow_add_r, <-Z.div_div by lia. unfold y. change (2 ^ 1) with 2.
    f_equal. rewrite <-(Z.mul_1_l (2 ^ (shift - 1))) at 1. by rewrite Z.div_add by lia. }
  clearbody y. change 1 with (Z.ones 1) at 1. rewrite Z.land_ones, Z.shiftr_div_pow2 by lia. change (2 ^ 1) with 2.
  rewrite Hneg. pose proof (Zmod_odd y) as Hodd. rewrite Hodd.
  destruct (Z.odd y), (value <? 0); cbn [negb andb Z.eqb]; Z.div_mod_to_equations; lia.
Qed.
(** Parameters for which no step of the addition leaves 64 bits *)
Definition qadd_ok (p : kpu_model_quant_add_layer_argument_t) : Prop :=
  let small x := - 255 ≤ x ≤ 255 in let int32 x := - 2 ^ 31 ≤ x < 2 ^ 31 in
  small p.(in_a_offset) ∧ small p.(in_b_offset) ∧ int32 p.(in_a_mul) ∧ int32 p.(in_b_mul) ∧ int32 p.(out_mul) ∧ int32 p.(out_offset) ∧
  10 ≤ p.(in_a_shift) < 64 ∧ 10 ≤ p.(in_b_shift) < 64 ∧ 0 ≤ p.(out_shift) ≤ 64.
Lemma carry_shift_bound v s : - 2 ^ 62 ≤ v ≤ 2 ^ 62 → 0 ≤ s ≤ 64 → ∃ v', kpu_carry_shift v s = Ok v' ∧ - 2 ^ 62 - 2 ≤ v' ≤ 2 ^ 62 + 2.
Proof.
  intros Hv Hs. destruct (decide (s = 0)) as [-> |]; [exists v; split; [done|lia]|].
  rewrite kpu_carry_shift_spec by lia. eexists. split; [done|].
  pose proof (Z.pow_pos_nonneg 2 (s - 1)). assert (2 ^ s = 2 * 2 ^ (s - 1)) as Hp by (rewrite <-Z.pow_succ_r by lia; f_equal; lia).
  assert (- 2 ^ 62 ≤ (v + 2 ^ (s - 1)) / 2 ^ s ≤ 2 ^ 62 + 1); [|by destruct (_ && _); lia].
  split; [apply Z.div_le_lower_bound; [lia|]|apply Z.div_le_upper_bound; [lia|]]; rewrite Hp; nia.
Qed.
Lemma shiftr_bound v s b : 10 ≤ s → 0 ≤ b → - (2 ^ 10 * b) ≤ v ≤ 2 ^ 10 * b → - b ≤ Z.shiftr v s ≤ b.
Proof.
  intros Hs Hb Hv. rewrite Z.shiftr_div_pow2 by lia.
  assert (2 ^ 10 ≤ 2 ^ s) as Hp by (apply Z.pow_le_mono_r; lia).
  split; [apply Z.div_le_lower_bound; [lia|]|apply Z.div_le_upper_bound; [lia|]]; nia.
Qed.
Lemma qadd_value_ok p a b : qadd_ok p → 0 ≤ a < 256 → 0 ≤ b < 256 → ∃ v, qadd_value p a b = Ok v ∧ 0 ≤ v ≤ 255.
Proof.
  destruct p as [? ? ? ? oa ma sa ob mb sb oo mo so]. unfold qadd_ok. cbn. intros (Hoa & Hob & Hma & Hmb & Hmo & Hoo & Hsa & Hsb & Hso) Ha Hb.
  unfold qadd_value. cbn [in_a_offset in_b_offset in_a_mul in_b_mul out_mul out_offset in_a_shift in_b_shift out_shift].
  assert (- (2 ^ 40) ≤ (a + oa) * ma ≤ 2 ^ 40) as Hpa by nia. assert (- (2 ^ 40) ≤ (b + ob) * mb ≤ 2 ^ 40) as Hpb by nia.
  rewrite !(c_int64_ok (a + oa)), !(c_int64_ok (b + ob)) by lia. cbn [mbind res_bind].
  rewrite !(c_int64_ok ((a + oa) * ma)), !(c_int64_ok ((b + ob) * mb)) by lia. cbn [mbind res_bind].
  generalize dependent ((a + oa) * ma). intros pa Hpa. generalize dependent ((b + ob) * mb). intros pb Hpb.
  assert (∃ v, (if sa =? sb then v ← c_int64 (pa + pb); c_shr v sa else pa ← c_shr pa sa; pb ← c_shr pb sb; c_int64 (pa + pb)) = Ok v ∧
    - 2 ^ 31 ≤ v ≤ 2 ^ 31) as (v & -> & Hv).
  { destruct (Z.eqb_spec sa sb) as [-> |].
    - rewrite c_int64_ok by lia. cbn [mbind res_bind]. rewrite c_shr_ok by lia. eexists. split; [done|]. apply shiftr_bound; lia.
    - rewrite !c_shr_ok by lia. cbn [mbind res_bind]. pose proof (shiftr_bound pa sa (2 ^ 30)). pose proof (shiftr_bound pb sb (2 ^ 30)).
      rewrite c_int64_ok by lia. eexists. split; [done|]. lia. }
  cbn [mbind res_bind]. assert (- 2 ^ 62 ≤ v * mo ≤ 2 ^ 62) as Hm by nia. rewrite c_int64_ok by lia. cbn [mbind res_bind].
  rewrite (wrap_id 32 so) by lia. destruct (carry_shift_bound _ _ Hm Hso) as (v' & -> & Hv'). cbn [mbind res_bind].
  rewrite c_int64_ok by lia. cbn [mbind res_bind]. eexists. split; [done|]. lia.
Qed.
Lemma qadd_lanes_run p xs ys : qadd_ok p → Forall (λ x, in_width 8 x) xs → Forall (λ y, in_width 8 y) ys → length xs = length ys →
  ∃ vs, qadd_lanes p xs ys = Ok vs ∧ length vs = length xs ∧ Forall (λ v, in_width 8 v) vs ∧
    ∀ i, (i < length xs)%nat → qadd_value p (xs !!! i) (ys !!! i) = Ok (vs !!! i).
Proof.
  intros Hp. revert ys. induction xs as [|x xs IH]; intros [|y ys] Hx Hy Hl; try done; [exists []; split_and!; [done|done|done|cbn; lia]|].
  apply Forall_cons in Hx as [Hx Hxs], Hy as [Hy Hys]. destruct (IH ys Hxs Hys) as (vs & E & Hvl & Hvw & Hv); [by injection Hl|].
  destruct (qadd_value_ok p x y Hp) as (v & Ev & Hr); [lia|lia|]. exists (v :: vs). cbn [qadd_lanes]. rewrite Ev. cbn [mbind res_bind].
  rewrite E. split_and!; [done|cbn; lia|constructor; [lia|done]|]. intros [|i] Hi; [done|]. apply Hv. cbn in Hi. lia.
Qed.
(** Sums of quantized values; the output may be one of the inputs.  Whole groups of eight
    bytes are written, up to seven more than were asked for. *)
Theorem kpu_quantized_add_spec arg ctx m :
  let p := quant_add_at m arg in
  let src_a := ctx.(main_buffer) + p.(qa_in_a) in
  let src_b := ctx.(main_buffer) + p.(qa_in_b) in
  let dest := ctx.(main_buffer) + p.(qa_out) in
  let n := 8 * (u32 (p.(qa_count) + 7) / 8) in
  bytes_ok m → qadd_ok p → (dest ≤ src_a ∨ src_a + n ≤ dest) → (dest ≤ src_b ∨ src_b + n ≤ dest) →
  ∃ m', kpu_quantized_add arg ctx m = Ok m' ∧
    (∀ j, 0 ≤ j < n → qadd_value p (m (src_a + j)) (m (src_b + j)) = Ok (m' (dest + j))) ∧
    (∀ q, ¬ (dest ≤ q < dest + n) → m' q = m q).
Proof.
  cbv zeta. unfold kpu_quantized_add. set (p := quant_add_at m arg). clearbody p. cbv zeta.
  generalize (main_buffer ctx + qa_in_a p) (main_buffer ctx + qa_in_b p) (main_buffer ctx + qa_out p). intros src_a src_b dest Hm Hp.
  pose proof (wrap_range 32 (qa_count p + 7) ltac:(lia)) as Hc. assert (0 ≤ u32 (qa_count p + 7) / 8) as Hn by (apply Z.div_pos; lia).
  revert Hn. generalize (u32 (qa_count p + 7) / 8). intros n Hn Ha Hb. clear Hc.
  destruct (for_res_ind (λ k (m' : Z → Z), bytes_ok m' ∧
    (∀ j, 0 ≤ j < 8 * k → qadd_value p (m (src_a + j)) (m (src_b + j)) = Ok (m' (dest + j))) ∧
    (∀ q, ¬ (dest ≤ q < dest + 8 * k) → m' q = m q)) 0 n
    (λ i m, vs ← qadd_lanes p (mem_read m (src_a + 8 * i) 8) (mem_read m (src_b + 8 * i) 8); Ok (mem_write m (dest + 8 * i) vs)) m)
    as (m' & E & _ & H1 & H2); [done|split; [done|split; [lia|done]]| |by exists m'].
  intros k m1 Hk (Hm1 & Hin & Hout). rewrite Z.add_0_l.
  assert (Hl : ∀ a, length (mem_read m1 a 8) = 8%nat) by (intros; apply Nat2Z.inj; by rewrite mem_read_length).
  destruct (qadd_lanes_run p (mem_read m1 (src_a + 8 * k) 8) (mem_read m1 (src_b + 8 * k) 8) Hp) as (vs & -> & Hvl & Hvw & Hv);
    [by apply mem_read_bytes, Hm1|by apply mem_read_bytes, Hm1|by rewrite !Hl|]. rewrite Hl in Hvl, Hv. cbn [mbind res_bind].
  eexists. split; [done|]. split; [by apply bytes_ok_mem_write|]. split.
  - intros j Hj. rewrite mem_write_spec, Hvl. case_decide as Hd; [|apply Hin; lia].
    specialize (Hv (Z.to_nat (j - 8 * k)) ltac:(lia)). replace (Z.to_nat (dest + j - (dest + 8 * k))) with (Z.to_nat (j - 8 * k)) by lia.
    rewrite <-Hv, !mem_read_total, !Hout by lia. f_equal; f_equal; lia.
  - intros q Hq. rewrite mem_write_spec, Hvl, decide_False by lia. apply Hout. lia.
Qed.
