(* ===== verification/Kfloat.v ===== *)
(** * Layers of a neural network in software (k210_kpu.c): the floating-point layers

    The layers of a model that compute in [float], and the functions of the older
    interface that convert between bytes and floats.  [expf] of the C library is an
    argument.  An array of floats is a row of words in memory. *)

From S2P Require Import Prelude Words Float64 Float32 Klayers.
From Stdlib Require Import SpecFloat.

Definition KLA_RELU : Z := 1.
Definition KLA_RELU6 : Z := 2.
(** [FLT_MIN], the smallest normal number *)
Definition FLT_MIN : float := f_of_bits 0x00800000.
(** [1e-10f] *)
Definition epsilon : float := f_of_bits 0x2edbe6ff.
(** [quantize_param_t], [kpu_model_quant_param_t] *)
Record quantize_param_t := QuantizeParam { scale : float; bias : float }.
Definition quant_param_at (m : Z → Z) (a : Z) : quantize_param_t := QuantizeParam (ld_f m a) (ld_f m (a + 4)).
(** [max(x, 0)], [min(x, 6)] of the source: comparisons *)
Definition f_max0 (x : float) : float := if f_lt (f_of_Z 0) x then x else f_of_Z 0.
Definition f_min6 (x : float) : float := if f_lt x (f_of_Z 6) then x else f_of_Z 6.
(** [value < 0 ? 0 : value > 0xFF ? 0xFF : value] *)
Definition clamp_byte (value : Z) : Z := if value <? 0 then 0 else if 0xFF <? value then 0xFF else value.

(** ** Loops *)

(** [sum += *src++], [n] times *)
Definition sum_floats (m : Z → Z) (src n : Z) (sum : float) : float :=
  for_range 0 n (λ i sum, f_add sum (ld_f m (src + 4 * i))) sum.
(** [sum += a[i] * b[i]] *)
Definition dot (m : Z → Z) (a b n : Z) (sum : float) : float :=
  for_range 0 n (λ i sum, f_add sum (f_mul (ld_f m (a + 4 * i)) (ld_f m (b + 4 * i)))) sum.
(** [dest[i] = f(...)], an element at a time *)
Definition fill_floats (dest n : Z) (f : (Z → Z) → Z → float) (m : Z → Z) : Z → Z :=
  for_range 0 n (λ i m, st_f (dest + 4 * i) (f m i) m) m.
Definition apply_act (act : Z) (x : float) : float :=
  if act =? KLA_RELU then f_max0 x else if act =? KLA_RELU6 then f_min6 (f_max0 x) else x.
Definition kpu_float_activation (data count act : Z) (m : Z → Z) : Z → Z :=
  if act =? KLA_RELU then fill_floats data count (λ m i, f_max0 (ld_f m (data + 4 * i))) m
  else if act =? KLA_RELU6 then fill_floats data count (λ m i, f_min6 (f_max0 (ld_f m (data + 4 * i)))) m
  else m.

(** ** The functions of the older interface *)
Definition kpu_add (src1 : Z) (q1 : quantize_param_t) (src2 : Z) (q2 : quantize_param_t) (count dest : Z) (q3 : quantize_param_t)
    (m : Z → Z) : res (Z → Z) :=
  for_res 0 count (λ i m,
    let a := f_of_Z (m (src1 + i)) in
    let b := f_of_Z (m (src2 + i)) in
    value ← f_to_int (f_div (f_sub (f_add (f_add (f_add (f_mul a q1.(scale)) q1.(bias)) (f_mul b q2.(scale))) q2.(bias)) q3.(bias)) q3.(scale));
    Ok (<[dest + i := clamp_byte value]> m)) m.
Definition sum_bytes (m : Z → Z) (src n : Z) : Z := for_range 0 n (λ i sum, sum + m (src + i)) 0.
Definition average_byte (q1 q2 : quantize_param_t) (kernel_size sum : Z) : res Z :=
  value ← f_to_int (f_div (f_sub (f_div (f_add (f_mul (f_of_Z sum) q1.(scale)) q1.(bias)) (f_of_Z kernel_size)) q2.(bias)) q2.(scale));
  Ok (clamp_byte value).
(** Into the memory of the accelerator, the averages go four to a line, four lines apart. *)
Definition kpu_global_average_pool (src : Z) (q1 : quantize_param_t) (kernel_size channels dest : Z) (q2 : quantize_param_t)
    (m : Z → Z) : res (Z → Z) :=
  let padded := (AI_IO_BASE_ADDR <=? dest) && (dest <? AI_IO_BASE_ADDR + 2 * 1024 * 1024) in
  for_res 0 channels (λ oc m,
    value ← average_byte q1 q2 kernel_size (sum_bytes m (src + oc * kernel_size) kernel_size);
    let place := if padded then dest + oc / 4 * 1 * 4 * 64 + oc mod 4 * 16 else dest + oc in
    Ok (<[place := value]> m)) m.
Definition kpu_global_average_pool_float (src : Z) (q : quantize_param_t) (kernel_size channels dest : Z) (m : Z → Z) : Z → Z :=
  fill_floats dest channels (λ m oc, f_div (f_add (f_mul (f_of_Z (sum_bytes m (src + oc * kernel_size) kernel_size)) q.(scale)) q.(bias))
    (f_of_Z kernel_size)) m.
Definition kpu_matmul_end (src channels dest : Z) (q1 : quantize_param_t) (m : Z → Z) : Z → Z :=
  fill_floats dest channels (λ m i, f_add (f_mul (f_of_Z (m (src + i * 16))) q1.(scale)) q1.(bias)) m.
Definition kpu_fully_connected (src weights biases dest input_channels output_channels : Z) (m : Z → Z) : Z → Z :=
  fill_floats dest output_channels (λ m oc,
    f_add (dot m src (weights + 4 * (oc * input_channels)) input_channels (f_of_Z 0)) (ld_f m (biases + 4 * oc))) m.
Definition kpu_dequantize (src : Z) (q1 : quantize_param_t) (count dest : Z) (m : Z → Z) : Z → Z :=
  fill_floats dest count (λ m i, f_add (f_mul (f_of_Z (m (src + i))) q1.(scale)) q1.(bias)) m.

(** ** The layers of a model *)
Section layers.
Context (expf : float → float) (arg : Z) (ctx : kpu_model_context_t).
Definition kpu_kmodel_add (m : Z → Z) : Z → Z :=
  let src_a := ctx.(main_buffer) + word_at m (arg + 4) in
  let src_b := ctx.(main_buffer) + word_at m (arg + 8) in
  let dest := ctx.(main_buffer) + word_at m (arg + 12) in
  fill_floats dest (word_at m (arg + 16)) (λ m i, f_add (ld_f m (src_a + 4 * i)) (ld_f m (src_b + 4 * i))) m.
Definition kpu_global_average_pool2d (m : Z → Z) : Z → Z :=
  let src := in_buffer arg ctx m in
  let kernel_size := word_at m (arg + 12) in
  fill_floats (out_buffer arg ctx m) (word_at m (arg + 16))
    (λ m oc, f_div (sum_floats m (src + 4 * (oc * kernel_size)) kernel_size (f_of_Z 0)) (f_of_Z kernel_size)) m.
Definition average_in_window (m : Z → Z) (channel_src in_width : Z) (window_x window_y : Z * Z * Z) : float :=
  let '(in_x_origin, kernel_x_start, kernel_x_end) := window_x in
  let '(in_y_origin, kernel_y_start, kernel_y_end) := window_y in
  let '(value, kernel_count) := for_range kernel_y_start (kernel_y_end - kernel_y_start) (λ kernel_y s,
    for_range kernel_x_start (kernel_x_end - kernel_x_start) (λ kernel_x '(value, kernel_count),
      let in_x := in_x_origin + kernel_x in
      let in_y := in_y_origin + kernel_y in
      (f_add value (ld_f m (channel_src + 4 * u32 (in_y * in_width + in_x))), f_add kernel_count (f_of_Z 1))) s)
    (f_of_Z 0, f_of_Z 0) in
  f_div value kernel_count.
Definition kpu_average_pool2d (m : Z → Z) : Z → Z :=
  let p := max_pool_at m arg in
  let src := ctx.(main_buffer) + p.(mp_in) in
  let dest := ctx.(main_buffer) + p.(mp_out) in
  let in_shape := p.(mp_in_shape) in
  let out_shape := p.(mp_out_shape) in
  snd (for_range 0 out_shape.(channels) (λ oc s,
    let channel_src := src + 4 * u32 (in_shape.(width) * in_shape.(height) * oc) in
    for_range 0 out_shape.(height) (λ out_y s, for_range 0 out_shape.(width) (λ out_x '(dest, m),
      let value := average_in_window m channel_src in_shape.(width)
        (window out_x p.(stride_width) p.(padding_width) p.(kernel_width) in_shape.(width))
        (window out_y p.(stride_height) p.(padding_height) p.(kernel_height) in_shape.(height)) in
      (dest + 4, st_f dest value m)) s) s) (dest, m)).
Definition kpu_quantize (m : Z → Z) : res (Z → Z) :=
  let src := in_buffer arg ctx m in
  let q := quant_param_at m (arg + 16) in
  let scale := f_div (f_of_Z 1) q.(scale) in
  let dest := out_buffer arg ctx m in
  for_res 0 (word_at m (arg + 12)) (λ i m,
    value ← f_to_int (roundf (f_mul (f_sub (ld_f m (src + 4 * i)) q.(bias)) scale));
    Ok (<[dest + i := clamp_byte value]> m)) m.
Definition kpu_kmodel_dequantize (m : Z → Z) : Z → Z :=
  let src := in_buffer arg ctx m in
  let q := quant_param_at m (arg + 16) in
  fill_floats (out_buffer arg ctx m) (word_at m (arg + 12)) (λ m oc, f_add (f_mul (f_of_Z (m (src + oc))) q.(scale)) q.(bias)) m.
Definition kpu_kmodel_channelwise_dequantize (m : Z → Z) : Z → Z :=
  let count := word_at m (arg + 16) in
  let '(_, _, m) := for_range 0 (word_at m (arg + 12)) (λ oc '(src, dest, m),
    let q := quant_param_at m (arg + 20 + 8 * oc) in
    for_range 0 count (λ _ '(src, dest, m),
      (src + 1, dest + 4, st_f dest (f_add (f_mul (f_of_Z (m src)) q.(scale)) q.(bias)) m)) (src, dest, m))
    (in_buffer arg ctx m, out_buffer arg ctx m, m) in m.
Definition kpu_l2_normalization (m : Z → Z) : Z → Z :=
  let src := in_buffer arg ctx m in
  let channels := word_at m (arg + 12) in
  let sum := dot m src src channels (f_of_Z 0) in
  let sum := if f_lt sum epsilon then epsilon else sum in
  let sum := f_div (f_of_Z 1) (f_sqrt sum) in
  fill_floats (out_buffer arg ctx m) channels (λ m oc, f_mul (ld_f m (src + 4 * oc)) sum) m.
Definition kpu_softmax (m : Z → Z) : Z → Z :=
  let src := in_buffer arg ctx m in
  let dest := out_buffer arg ctx m in
  let channels := word_at m (arg + 12) in
  let max := for_range 0 channels (λ oc max, f_max max (ld_f m (src + 4 * oc))) FLT_MIN in
  let '(sum, m) := for_range 0 channels (λ oc '(sum, m),
    let value := expf (f_sub (ld_f m (src + 4 * oc)) max) in
    (f_add sum value, st_f (dest + 4 * oc) value m)) (f_of_Z 0, m) in
  fill_floats dest channels (λ m oc, f_div (ld_f m (dest + 4 * oc)) sum) m.
Definition kpu_logistic (m : Z → Z) : Z → Z :=
  let src := in_buffer arg ctx m in
  fill_floats (out_buffer arg ctx m) (word_at m (arg + 12))
    (λ m oc, f_div (f_of_Z 1) (f_add (f_of_Z 1) (expf (f_opp (ld_f m (src + 4 * oc)))))) m.

(** [FC_UNROLL_S]: eight products at a time *)
Definition dot_unrolled (m : Z → Z) (src weights n : Z) : float :=
  let '(_, _, sum) := for_range 0 (n / 8) (λ _ '(c_src, c_weights, sum),
    (c_src + 32, c_weights + 32, dot m c_src c_weights 8 sum)) (src, weights, f_of_Z 0) in sum.
(** Weights and biases are copied into a buffer first. *)
Definition kpu_kmodel_fully_connected (m : Z → Z) : res (Z → Z) :=
  let src := in_buffer arg ctx m in
  let dest := out_buffer arg ctx m in
  let in_channels := word_at m (arg + 12) in
  let out_channels := word_at m (arg + 16) in
  if ctx.(kmodel_fully_connected_buffer) =? 0 then Fault FAssert else
  let bias := ctx.(kmodel_fully_connected_buffer) in
  let weights := ctx.(kmodel_fully_connected_buffer) + out_channels * 4 in
  let m := memcpy weights (arg + 24) (u32 (out_channels * in_channels) * 4) m in
  let m := memcpy bias (arg + 24 + 4 * u32 (in_channels * out_channels)) (out_channels * 4) m in
  let m := if in_channels mod 8 =? 0
    then fill_floats dest out_channels (λ m oc,
      f_add (dot_unrolled m src (weights + 4 * u32 (oc * in_channels)) in_channels) (ld_f m (bias + 4 * oc))) m
    else fill_floats dest out_channels (λ m oc,
      f_add (dot m src (weights + 4 * u32 (oc * in_channels)) in_channels (f_of_Z 0)) (ld_f m (bias + 4 * oc))) m in
  Ok (kpu_float_activation dest out_channels (word_at m (arg + 20)) m).

(** [in_y], [in_x]: [min(floorf(o * scale), size - 1)], a comparison of floats *)
Definition nearest (o : Z) (scale : float) (size : Z) : res Z :=
  let a := floorf (f_mul (f_of_Z o) scale) in
  let b := f_of_Z (u32 (size - 1)) in
  f_to_uint32 (if f_lt a b then a else b).
(** Both resizing functions, for elements of [k] bytes *)
Definition resize_nearest (k : Z) (m : Z → Z) : res (Z → Z) :=
  let src := in_buffer arg ctx m in
  let in_shape := shape_at m (arg + 12) in
  let out_width := word_at m (arg + 24) in
  let out_height := word_at m (arg + 28) in
  let height_scale := f_div (f_of_Z in_shape.(height)) (f_of_Z out_height) in
  let width_scale := f_div (f_of_Z in_shape.(width)) (f_of_Z out_width) in
  '(_, m) ← for_res 0 in_shape.(channels) (λ oc s,
    let channel_src := src + k * u32 (in_shape.(width) * in_shape.(height) * oc) in
    for_res 0 out_height (λ oy s,
      in_y ← nearest oy height_scale in_shape.(height);
      let y_origin := channel_src + k * u32 (in_y * in_shape.(width)) in
      for_res 0 out_width (λ ox '(dest, m),
        in_x ← nearest ox width_scale in_shape.(width);
        Ok (dest + k, memcpy dest (y_origin + k * in_x) k m)) s) s) (out_buffer arg ctx m, m);
  Ok m.
Definition kpu_resize_nearest_neighbor : (Z → Z) → res (Z → Z) := resize_nearest 4.
Definition kpu_quant_resize_nearest_neighbor : (Z → Z) → res (Z → Z) := resize_nearest 1.
End layers.

(** ** Arrays of floats *)
Definition float_bytes (x : float) : list Z := word_bytes (f_to_bits x).
Lemma fill_floats_spec dest n f m : 0 ≤ n →
  (∀ i m', 0 ≤ i < n → (∀ q, ¬ (dest ≤ q < dest + 4 * i) → m' q = m q) → f m' i = f m i) →
  (∀ i, 0 ≤ i < n → mem_read (fill_floats dest n f m) (dest + 4 * i) 4 = float_bytes (f m i)) ∧
  (∀ q, ¬ (dest ≤ q < dest + 4 * n) → fill_floats dest n f m q = m q).
Proof.
  intros Hn Hf. unfold fill_floats.
  refine (for_range_ind (λ k (m' : Z → Z), (∀ i, 0 ≤ i < k → mem_read m' (dest + 4 * i) 4 = float_bytes (f m i)) ∧
    (∀ q, ¬ (dest ≤ q < dest + 4 * k) → m' q = m q)) 0 n _ m Hn _ _); [split; [lia|done]|].
  intros k m1 Hk [Hin Hout]. rewrite Z.add_0_l, (Hf k m1 Hk Hout). unfold st_f. split.
  - intros i Hi. destruct (decide (i = k)) as [-> |].
    + pose proof (mem_read_write m1 (dest + 4 * k) (float_bytes (f m k))) as E.
      unfold float_bytes in E. by rewrite word_bytes_length in E.
    + rewrite mem_read_write_ne by lia. apply Hin. lia.
  - intros q Hq. rewrite mem_write_out by (rewrite word_bytes_length; lia). apply Hout. lia.
Qed.
Lemma dot_ext m m' a a' b b' n sum : (∀ i, 0 ≤ i < n → word_at m (a + 4 * i) = word_at m' (a' + 4 * i)) →
  (∀ i, 0 ≤ i < n → word_at m (b + 4 * i) = word_at m' (b' + 4 * i)) → dot m a b n sum = dot m' a' b' n sum.
Proof. intros Ha Hb. unfold dot. apply for_range_ext. intros i s Hi. unfold ld_f. by rewrite Ha, Hb by lia. Qed.
Lemma dot_app m a b n k sum : 0 ≤ n → 0 ≤ k → dot m a b (n + k) sum = dot m (a + 4 * n) (b + 4 * n) k (dot m a b n sum).
Proof.
  intros Hn Hk. unfold dot. rewrite for_range_app by done. rewrite for_range_shift. apply for_range_ext.
  intros i s Hi. f_equal. f_equal; f_equal; lia.
Qed.
(** Eight products at a time are the same sum in the same order. *)
Lemma dot_unrolled_eq m a b n : 0 ≤ n → n mod 8 = 0 → dot_unrolled m a b n = dot m a b n (f_of_Z 0).
Proof.
  intros Hn H8. unfold dot_unrolled.
  assert (for_range 0 (n / 8) (λ _ '(c_src, c_weights, sum), (c_src + 32, c_weights + 32, dot m c_src c_weights 8 sum)) (a, b, f_of_Z 0) =
    (a + 32 * (n / 8), b + 32 * (n / 8), dot m a b (8 * (n / 8)) (f_of_Z 0))) as ->.
  { refine (for_range_ind (λ k s, s = (a + 32 * k, b + 32 * k, dot m a b (8 * k) (f_of_Z 0))) 0 (n / 8) _ _ _ _ _).
    - apply Z.div_pos; lia.
    - by rewrite !Z.mul_0_r, !Z.add_0_r.
    - intros k s Hk ->. replace (8 * (k + 1)) with (8 * k + 8) by lia. rewrite dot_app by lia.
      replace (a + 4 * (8 * k)) with (a + 32 * k) by lia. replace (b + 4 * (8 * k)) with (b + 32 * k) by lia.
      f_equal. f_equal; lia. }
  do 2 f_equal. Z.div_mod_to_equations; lia.
Qed.

(** ** Fully connected layers *)

(** A float after a trip through memory *)
Definition reloaded (x : float) : float := f_of_bits (word_of (float_bytes x)).
Definition activated (act : Z) (x : float) : float :=
  if act =? KLA_RELU then f_max0 (reloaded x) else if act =? KLA_RELU6 then f_min6 (f_max0 (reloaded x)) else x.
Lemma activation_spec data n act m x : 0 ≤ n →
  (∀ i, 0 ≤ i < n → mem_read m (data + 4 * i) 4 = float_bytes (x i)) →
  (∀ i, 0 ≤ i < n → mem_read (kpu_float_activation data n act m) (data + 4 * i) 4 = float_bytes (activated act (x i))) ∧
  (∀ q, ¬ (data ≤ q < data + 4 * n) → kpu_float_activation data n act m q = m q).
Proof.
  intros Hn Hx. unfold kpu_float_activation, activated.
  assert (∀ g : float → float,
    (∀ i, 0 ≤ i < n → mem_read (fill_floats data n (λ m i, g (ld_f m (data + 4 * i))) m) (data + 4 * i) 4 = float_bytes (g (reloaded (x i)))) ∧
    (∀ q, ¬ (data ≤ q < data + 4 * n) → fill_floats data n (λ m i, g (ld_f m (data + 4 * i))) m q = m q)) as Hg.
  { intros g. destruct (fill_floats_spec data n (λ m i, g (ld_f m (data + 4 * i))) m Hn) as [Hin Hout].
    - intros i m' Hi E. unfold ld_f. rewrite (word_at_ext m' m); [done|]. intros q Hq. apply E. lia.
    - split; [|done]. intros i Hi. rewrite Hin by done. unfold ld_f, word_at. by rewrite Hx. }
  case_match; [apply (Hg f_max0)|]. case_match; [apply (Hg (λ x, f_min6 (f_max0 x)))|done].
Qed.

Section fully_connected.
Context (arg : Z) (ctx : kpu_model_context_t) (m : Z → Z).
Definition fc_in : Z := word_at m (arg + 12).
Definition fc_out : Z := word_at m (arg + 16).
Definition fc_weights : Z := arg + 24.
Definition fc_biases : Z := arg + 24 + 4 * (fc_in * fc_out).
Definition fc_end : Z := fc_biases + 4 * fc_out.
(** The buffer holds the biases and then the weights. *)
Definition fc_buffer_size : Z := 4 * fc_out + 4 * (fc_in * fc_out).
Definition apart (a n b k : Z) : Prop := a + n ≤ b ∨ b + k ≤ a.
Record fc_ok : Prop := {
  fc_sizes : 0 ≤ fc_in ∧ 0 ≤ fc_out ∧ fc_in * fc_out < 2 ^ 32;
  fc_buffer : ctx.(kmodel_fully_connected_buffer) ≠ 0;
  fc_buf_in : apart ctx.(kmodel_fully_connected_buffer) fc_buffer_size (in_buffer arg ctx m) (4 * fc_in);
  fc_buf_arg : apart ctx.(kmodel_fully_connected_buffer) fc_buffer_size arg (fc_end - arg);
  fc_out_in : apart (out_buffer arg ctx m) (4 * fc_out) (in_buffer arg ctx m) (4 * fc_in);
  fc_out_arg : apart (out_buffer arg ctx m) (4 * fc_out) arg (fc_end - arg);
  fc_out_buf : apart (out_buffer arg ctx m) (4 * fc_out) ctx.(kmodel_fully_connected_buffer) fc_buffer_size
}.
(** The weighted sum and bias of one output *)
Definition fc_sum (oc : Z) : float :=
  f_add (dot m (in_buffer arg ctx m) (fc_weights + 4 * (oc * fc_in)) fc_in (f_of_Z 0)) (ld_f m (fc_biases + 4 * oc)).
(** Memory with weights and biases in the buffer *)
Definition fc_loaded (m2 : Z → Z) : Prop :=
  (∀ q, ¬ (ctx.(kmodel_fully_connected_buffer) ≤ q < ctx.(kmodel_fully_connected_buffer) + fc_buffer_size) → m2 q = m q) ∧
  (∀ j, 0 ≤ j < 4 * (fc_in * fc_out) → m2 (ctx.(kmodel_fully_connected_buffer) + fc_out * 4 + j) = m (fc_weights + j)) ∧
  (∀ j, 0 ≤ j < 4 * fc_out → m2 (ctx.(kmodel_fully_connected_buffer) + j) = m (fc_biases + j)).
Lemma fc_load : fc_ok → fc_loaded
  (memcpy ctx.(kmodel_fully_connected_buffer) (arg + 24 + 4 * u32 (fc_in * fc_out)) (fc_out * 4)
    (memcpy (ctx.(kmodel_fully_connected_buffer) + fc_out * 4) (arg + 24) (u32 (fc_out * fc_in) * 4) m)).
Proof using Type.
  intros [(Hi & Ho & Hio) _ _ Hba _ _ _]. pose proof (Z.mul_nonneg_nonneg _ _ Hi Ho) as Hio0.
  unfold fc_loaded, apart, fc_end, fc_biases, fc_weights, fc_buffer_size in *. rewrite (Z.mul_comm fc_out fc_in), wrap_id by lia. unfold memcpy.
  set (buf := kmodel_fully_connected_buffer ctx) in *.
  set (m1 := mem_write m (buf + fc_out * 4) _).
  assert (Hm1 : ∀ q, ¬ (buf + fc_out * 4 ≤ q < buf + fc_out * 4 + 4 * (fc_in * fc_out)) → m1 q = m q).
  { intros q Hq. apply mem_write_out. rewrite mem_read_length by lia. lia. }
  split_and!.
  - intros q Hq. rewrite mem_write_out by (rewrite mem_read_length by lia; lia). apply Hm1. lia.
  - intros j Hj. rewrite mem_write_out by (rewrite mem_read_length by lia; lia). unfold m1.
    rewrite mem_write_spec, mem_read_length, decide_True by lia.
    replace (buf + fc_out * 4 + j - (buf + fc_out * 4)) with j by lia. by rewrite mem_read_total by lia.
  - intros j Hj. rewrite mem_write_spec, mem_read_length, decide_True by lia.
    replace (buf + j - buf) with j by lia. rewrite mem_read_total by lia. apply Hm1. lia.
Qed.
Lemma fc_output m2 m3 oc : fc_ok → fc_loaded m2 → 0 ≤ oc < fc_out →
  (∀ q, ¬ (out_buffer arg ctx m ≤ q < out_buffer arg ctx m + 4 * fc_out) → m3 q = m2 q) →
  f_add (dot m3 (in_buffer arg ctx m) (ctx.(kmodel_fully_connected_buffer) + fc_out * 4 + 4 * u32 (oc * fc_in)) fc_in (f_of_Z 0))
    (ld_f m3 (ctx.(kmodel_fully_connected_buffer) + 4 * oc)) = fc_sum oc.
Proof using Type.
  intros [(Hi & Ho & Hio) _ Hbi _ Hoi _ Hob] (Hout & Hw & Hb) Hoc H3. unfold apart, fc_buffer_size in *.
  assert (0 ≤ oc * fc_in ∧ oc * fc_in + fc_in ≤ fc_in * fc_out) as [Hr0 Hr] by nia.
  unfold fc_sum. rewrite wrap_id by lia. f_equal.
  - apply dot_ext; intros i Hi'; apply word_at_moved; intros j Hj.
    + by rewrite H3, Hout by (unfold fc_buffer_size; lia).
    + rewrite H3 by lia. replace (kmodel_fully_connected_buffer ctx + fc_out * 4 + 4 * (oc * fc_in) + 4 * i + j)
        with (kmodel_fully_connected_buffer ctx + fc_out * 4 + (4 * (oc * fc_in) + 4 * i + j)) by lia.
      rewrite Hw by lia. f_equal. lia.
  - unfold ld_f. f_equal. apply word_at_moved. intros j Hj. rewrite H3 by lia.
    rewrite <-Z.add_assoc, Hb by lia. f_equal. lia.
Qed.
End fully_connected.

Lemma apart_sub a n b k q : apart a n b k → a ≤ q < a + n → ¬ (b ≤ q < b + k).
Proof. unfold apart. lia. Qed.
(** C40: A fully connected layer computes, for each output channel, the weighted sum of the
    inputs with that channel's weights in the model, its bias added and the activation
    applied, whether the sum is taken one product or eight products at a time; it writes
    its output and the buffer for the weights and nothing else. *)
Theorem kpu_kmodel_fully_connected_spec arg ctx m : fc_ok arg ctx m →
  ∃ m', kpu_kmodel_fully_connected arg ctx m = Ok m' ∧
    (∀ oc, 0 ≤ oc < fc_out arg m → mem_read m' (out_buffer arg ctx m + 4 * oc) 4 =
      float_bytes (activated (word_at m (arg + 20)) (fc_sum arg ctx m oc))) ∧
    (∀ q, ¬ (out_buffer arg ctx m ≤ q < out_buffer arg ctx m + 4 * fc_out arg m) →
      ¬ (ctx.(kmodel_fully_connected_buffer) ≤ q < ctx.(kmodel_fully_connected_buffer) + fc_buffer_size arg m) → m' q = m q).
Proof.
  intros Hok. pose proof Hok as [(Hi & Ho & Hio) Hnz Hbi Hba Hoi Hoa Hob]. unfold kpu_kmodel_fully_connected.
  rewrite (proj2 (Z.eqb_neq _ _)) by done. eexists. split; [reflexivity|]. cbv zeta. fold (fc_in arg m) (fc_out arg m).
  pose proof (fc_load arg ctx m Hok) as Hload. set (m2 := memcpy _ (arg + 24 + _) _ _) in *. clearbody m2.
  pose proof (Z.mul_nonneg_nonneg _ _ Hi Ho) as Hio0.
  set (dest := out_buffer arg ctx m) in *.
  set (m3 := if fc_in arg m mod 8 =? 0 then _ else _).
  assert (H3 : (∀ i, 0 ≤ i < fc_out arg m → mem_read m3 (dest + 4 * i) 4 = float_bytes (fc_sum arg ctx m i)) ∧
    (∀ q, ¬ (dest ≤ q < dest + 4 * fc_out arg m) → m3 q = m2 q)).
  { assert (Hf : ∀ f, (∀ m' oc, f m' oc = f_add (dot m' (in_buffer arg ctx m)
        (ctx.(kmodel_fully_connected_buffer) + fc_out arg m * 4 + 4 * u32 (oc * fc_in arg m)) (fc_in arg m) (f_of_Z 0))
        (ld_f m' (ctx.(kmodel_fully_connected_buffer) + 4 * oc))) →
      (∀ i, 0 ≤ i < fc_out arg m → mem_read (fill_floats dest (fc_out arg m) f m2) (dest + 4 * i) 4 = float_bytes (fc_sum arg ctx m i)) ∧
      (∀ q, ¬ (dest ≤ q < dest + 4 * fc_out arg m) → fill_floats dest (fc_out arg m) f m2 q = m2 q)).
    { intros f Ef. assert (∀ i m', 0 ≤ i < fc_out arg m → (∀ q, ¬ (dest ≤ q < dest + 4 * fc_out arg m) → m' q = m2 q) → f m' i = fc_sum arg ctx m i) as Hsum
        by (intros i m' Hi' E; rewrite Ef; by eapply fc_output).
      destruct (fill_floats_spec dest (fc_out arg m) f m2 Ho) as [H1 H2].
      - intros i m' Hi' E. rewrite !Hsum; [done|done|done|done|]. intros q Hq. apply E. lia.
      - split; [|done]. intros i Hi'. by rewrite H1, Hsum. }
    unfold m3. destruct (Z.eqb_spec (fc_in arg m mod 8) 0); apply Hf; [|done]. intros m' oc. by rewrite dot_unrolled_eq. }
  destruct H3 as [H3 H3o].
  assert (word_at m3 (arg + 20) = word_at m (arg + 20)) as ->.
  { apply word_at_ext. intros q Hq. unfold apart, fc_end, fc_biases, fc_buffer_size in *.
    rewrite H3o by lia. apply (proj1 Hload). unfold fc_buffer_size. lia. }
  destruct (activation_spec dest (fc_out arg m) (word_at m (arg + 20)) m3 _ Ho H3) as [H4 H4o]. split; [done|].
  intros q Hq1 Hq2. rewrite H4o, H3o by done. by apply (proj1 Hload).
Qed.
(** Two inputs 1 and 2 at 100, the weights 3 and 4 and the bias 5 after the argument record
    at 0, the result at 200, the buffer for the weights at 300. *)
Definition demo_fc : Z → Z := foldr (λ '(a, x) m, mem_write m a (word_bytes x)) (λ _, 0)
  [(4, 100); (8, 200); (12, 2); (16, 1); (24, 0x40400000); (28, 0x40800000); (32, 0x40a00000); (100, 0x3f800000); (104, 0x40000000)].
Definition demo_ctx : kpu_model_context_t := Ctx 0 0 0 0 0 0 0 0 0 0 0 0 300 0.
Lemma kpu_kmodel_fully_connected_spec_witness : ∃ m', kpu_kmodel_fully_connected 0 demo_ctx demo_fc = Ok m' ∧
  mem_read m' 200 4 = word_bytes 0x41800000.
Proof.
  destruct (kpu_kmodel_fully_connected_spec 0 demo_ctx demo_fc) as (m' & E & H & _).
  - split; vm_compute; intuition discriminate.
  - exists m'. split; [exact E|]. refine (eq_trans (H 0 ltac:(vm_compute; intuition discriminate)) _). vm_compute. reflexivity.
Defined.
