(* ===== verification/Kpu.v ===== *)
(** * The neural network accelerator (k210_kpu.c): registers, layers and tasks

    A layer of the accelerator is twelve 64-bit words that are pushed into a FIFO, in order.
    A task is an array of such layers in memory; its input is brought in by DMA, interrupts
    of the accelerator ask for more layers, and the output is fetched by DMA.  DMA is a
    [DmaService], the interrupt of the accelerator goes through an [IrqController]. *)

From S2P Require Import Prelude Words SysctlRegs Sysctl Plic DmaService Klayers.

Definition LAYER_BURST_SIZE : Z := 12.
Definition IRQN_AI_INTERRUPT : Z := 25.
Definition KPU_FIFO_DATA_OUT : Z := 0x40800030.
Definition SYSCTL_DMA_SELECT_AI_RX_REQ : Z := 22.
Definition DMAC_MSIZE_8 : Z := 2.
Definition DMAC_MSIZE_16 : Z := 3.
Definition DMAC_TRANS_WIDTH_64 : Z := 3.
Definition DMAC_ADDR_INCREMENT : Z := 0.
Definition DMAC_ADDR_NOCHANGE : Z := 1.

(** [kpu_config_t], but for [layer_argument_fifo], which is a queue *)
Inductive kpu_reg : Set :=
| interrupt_status | interrupt_raw | interrupt_mask | interrupt_clear | fifo_threshold | fifo_data_out | fifo_ctrl | eight_bit_mode.
#[export] Instance kpu_reg_eq_dec : EqDecision kpu_reg.
Proof. solve_decision. Defined.
(** [kpu_config_interrupt_t], [kpu_config_fifo_threshold_t]: words from their members *)
Definition interrupt_word (calc_done_int layer_cfg_almost_empty_int layer_cfg_almost_full_int : Z) : Z :=
  bf_set (BF 2 1) layer_cfg_almost_full_int (bf_set (BF 1 1) layer_cfg_almost_empty_int (bf_set (BF 0 1) calc_done_int 0)).
Definition threshold_word (fifo_full_threshold fifo_empty_threshold : Z) : Z :=
  bf_set (BF 4 4) fifo_empty_threshold (bf_set (BF 0 4) fifo_full_threshold 0).

(** ** Layers of the accelerator *)
Record kpu_layer_argument_t := Layer {
  interrupt_enabe : Z; image_addr : Z; image_channel_num : Z; image_size : Z; kernel_pool_type_cfg : Z;
  kernel_load_cfg : Z; kernel_offset : Z; kernel_calc_type_cfg : Z; write_back_cfg : Z; conv_value : Z;
  conv_value2 : Z; dma_parameter : Z
}.
Definition LAYER_SIZE : Z := 96.
Definition layer_at (m : Z → Z) (a : Z) : kpu_layer_argument_t :=
  Layer (dword_at m a) (dword_at m (a + 8)) (dword_at m (a + 16)) (dword_at m (a + 24)) (dword_at m (a + 32))
    (dword_at m (a + 40)) (dword_at m (a + 48)) (dword_at m (a + 56)) (dword_at m (a + 64)) (dword_at m (a + 72))
    (dword_at m (a + 80)) (dword_at m (a + 88)).
Definition int_en := BF 0 1.
Definition full_add := BF 2 1.
Definition image_src_addr := BF 0 15.
Definition i_ch_num := BF 0 10.
Definition o_ch_num := BF 32 10.
Definition i_row_wid := BF 0 10.
Definition i_col_high := BF 10 9.
Definition bwsx_base_addr := BF 32 32.
Definition para_start_addr := BF 32 32.
Definition channel_switch_addr := BF 0 15.
Definition active_addr := BF 32 32.
Definition send_data_out := BF 0 1.
Definition dma_total_byte := BF 32 32.
(** Setting a field of a layer in memory: word [i] of the layer at [a] *)
Definition set_layer_field (a i : Z) (f : bitfield) (v : Z) (m : Z → Z) : Z → Z :=
  mem_write m (a + 8 * i) (dword_bytes (bf_set f v (dword_at m (a + 8 * i)))).

(** [kpu_task_t]; pointers are addresses *)
Record kpu_task_t := Task {
  layers : Z; remain_layers : Z; callback : Z; ctx : Z; src : Z; dst : Z; src_length : Z; dst_length : Z;
  layers_length : Z; remain_layers_length : Z; dma_ch : Z; task_eight_bit_mode : Z; output_scale : Z; output_bias : Z
}.
(** The functions that the driver registers as callbacks, and those of its users *)
Inductive kpu_fn : Set :=
| f_run_all_done | f_continue | f_push_layers | f_done | f_config_input | f_data_ready | f_ai_step | f_kmodel_done | f_user (f : Z).
#[export] Instance kpu_fn_eq_dec : EqDecision kpu_fn.
Proof. solve_decision. Defined.
(** The task that [kpu_run] copies into [g_kpu_context] *)
Definition G_TASK : Z := 0.

Section kpu.
Context {D P : Type} `{DmaService D kpu_fn} `{IrqController P kpu_fn Z}.
(** [pushed] is what went into [layer_argument_fifo]; [tasks] are the task structures by
    address; [called] are the calls of user callbacks with their arguments; [g_status] and
    [k_status] are [g_kpu_context.kpu_status] and [kpu_status]. *)
Record kpu_s := Kpu {
  kregs : bank kpu_reg; pushed : list Z; kmem : Z → Z; kdma : D; kirq : P; ksys : bank sysctl_reg;
  tasks : Z → kpu_task_t; g_status : Z; k_status : Z; called : list (Z * Z)
}.
Abbreviation K := (M kpu_s).
Definition set_reg (r : kpu_reg) (v : Z) : K unit := modify (λ s,
  Kpu (<[r := v]> s.(kregs)) s.(pushed) s.(kmem) s.(kdma) s.(kirq) s.(ksys) s.(tasks) s.(g_status) s.(k_status) s.(called)).
Definition push (ws : list Z) : K unit := modify (λ s,
  Kpu s.(kregs) (s.(pushed) ++ ws) s.(kmem) s.(kdma) s.(kirq) s.(ksys) s.(tasks) s.(g_status) s.(k_status) s.(called)).
Definition on_mem (f : (Z → Z) → Z → Z) : K unit := modify (λ s,
  Kpu s.(kregs) s.(pushed) (f s.(kmem)) s.(kdma) s.(kirq) s.(ksys) s.(tasks) s.(g_status) s.(k_status) s.(called)).
Definition on_dma (f : D → res D) : K unit := λ s, d ← f s.(kdma);
  Ok (tt, Kpu s.(kregs) s.(pushed) s.(kmem) d s.(kirq) s.(ksys) s.(tasks) s.(g_status) s.(k_status) s.(called)).
Definition on_irq (f : P → P) : K unit := modify (λ s,
  Kpu s.(kregs) s.(pushed) s.(kmem) s.(kdma) (f s.(kirq)) s.(ksys) s.(tasks) s.(g_status) s.(k_status) s.(called)).
Definition on_sys (f : bank sysctl_reg → bank sysctl_reg) : K unit := modify (λ s,
  Kpu s.(kregs) s.(pushed) s.(kmem) s.(kdma) s.(kirq) (f s.(ksys)) s.(tasks) s.(g_status) s.(k_status) s.(called)).
Definition set_task (a : Z) (f : kpu_task_t → kpu_task_t) : K unit := modify (λ s,
  Kpu s.(kregs) s.(pushed) s.(kmem) s.(kdma) s.(kirq) s.(ksys) (<[a := f (s.(tasks) a)]> s.(tasks)) s.(g_status) s.(k_status) s.(called)).
Definition set_status (g k : Z) : K unit := modify (λ s,
  Kpu s.(kregs) s.(pushed) s.(kmem) s.(kdma) s.(kirq) s.(ksys) s.(tasks) g k s.(called)).
Definition call_user (f x : Z) : K unit := modify (λ s,
  Kpu s.(kregs) s.(pushed) s.(kmem) s.(kdma) s.(kirq) s.(ksys) s.(tasks) s.(g_status) s.(k_status) (s.(called) ++ [(f, x)])).
Definition the_task (a : Z) : K kpu_task_t := gets (λ s, s.(tasks) a).
Definition read_layer (a : Z) : K kpu_layer_argument_t := gets (λ s, layer_at s.(kmem) a).

(** ** Pushing layers *)
Definition layer_words (l : kpu_layer_argument_t) : list Z :=
  [l.(interrupt_enabe); l.(image_addr); l.(image_channel_num); l.(image_size); l.(kernel_pool_type_cfg); l.(kernel_load_cfg);
   l.(kernel_offset); l.(kernel_calc_type_cfg); l.(write_back_cfg); l.(conv_value); l.(conv_value2); l.(dma_parameter)].
Definition kpu_send_layer (l : kpu_layer_argument_t) : K unit := push (layer_words l).
(** The loops over [task->remain_layers] *)
Fixpoint push_layers (a : Z) (n : nat) : K unit :=
  match n with
  | O => mret tt
  | S n => l ← read_layer a; kpu_send_layer l ≫= λ _, push_layers (a + LAYER_SIZE) n
  end.
(** What [kpu_continue] and [kpu_config_input] have in common: the next [burst] layers *)
Definition next_layers (burst : Z) (last : K unit) (task : Z) : K unit :=
  t ← the_task task;
  if t.(remain_layers_length) <=? burst then
    push_layers t.(remain_layers) (Z.to_nat t.(remain_layers_length)) ≫= λ _,
    set_task task (λ t, Task t.(layers) t.(remain_layers) t.(callback) t.(ctx) t.(src) t.(dst) t.(src_length) t.(dst_length)
      t.(layers_length) 0 t.(dma_ch) t.(task_eight_bit_mode) t.(output_scale) t.(output_bias)) ≫= λ _,
    last
  else
    push_layers t.(remain_layers) (Z.to_nat burst) ≫= λ _,
    set_task task (λ t, Task t.(layers) (t.(remain_layers) + LAYER_SIZE * burst) t.(callback) t.(ctx) t.(src) t.(dst) t.(src_length)
      t.(dst_length) t.(layers_length) (t.(remain_layers_length) - burst) t.(dma_ch) t.(task_eight_bit_mode) t.(output_scale) t.(output_bias)).
Definition kpu_continue (task : Z) : K Z :=
  set_reg interrupt_clear (interrupt_word 1 1 1) ≫= λ _,
  t ← the_task task;
  if t.(remain_layers_length) =? 0 then mret 0 else
  next_layers 1 (mret tt) task ≫= λ _, mret 0.

(** ** One run of a task ([kpu_run]) *)
Definition kpu_run_all_done (task : Z) : K Z :=
  k ← gets k_status;
  set_status 0 k ≫= λ _,
  t ← the_task task;
  call_user t.(callback) task ≫= λ _, mret 0.
Definition dma_select (channel : Z) : K unit := on_sys (λ s, snd (sysctl_dma_select channel SYSCTL_DMA_SELECT_AI_RX_REQ s)).
Definition kpu_run_dma_output (ch dst length task : Z) : K Z :=
  dma_select ch ≫= λ _,
  on_dma (ds_register ch f_run_all_done task 1) ≫= λ _,
  on_dma (ds_single ch (DmaRequest KPU_FIFO_DATA_OUT dst DMAC_ADDR_NOCHANGE DMAC_ADDR_INCREMENT DMAC_MSIZE_8 DMAC_TRANS_WIDTH_64
    (u32 (length + 7) / 8))) ≫= λ _,
  mret 0.
Definition last_layer (t : kpu_task_t) : Z := t.(layers) + LAYER_SIZE * u32 (t.(layers_length) - 1).
(** [dma_total_byte + 1] is computed in 32 bits. *)
Definition output_bytes (l : kpu_layer_argument_t) : Z := u32 (bf_get dma_total_byte l.(dma_parameter) + 1).
Definition input_bytes (l : kpu_layer_argument_t) : Z :=
  bf_get channel_switch_addr l.(kernel_calc_type_cfg) * 64 * (bf_get i_ch_num l.(image_channel_num) + 1).
Definition kpu_run_dma_input_done_push_layers (task : Z) : K Z :=
  t ← the_task task;
  set_reg interrupt_clear 7 ≫= λ _,
  on_dma (λ d, Ok (ds_intclear t.(dma_ch) d)) ≫= λ _,
  set_reg fifo_threshold (threshold_word 10 1) ≫= λ _,
  set_reg eight_bit_mode (bf_set (BF 0 1) t.(task_eight_bit_mode) 0) ≫= λ _,
  l ← read_layer (last_layer t);
  kpu_run_dma_output t.(dma_ch) t.(dst) (output_bytes l) task ≫= λ _,
  set_reg interrupt_mask (interrupt_word 0 0 1) ≫= λ _,
  kpu_continue task ≫= λ _,
  mret 0.
Definition kpu_run_dma_input (ch src : Z) (cb : kpu_fn) (task : Z) : K unit :=
  t ← the_task task;
  first_layer ← read_layer t.(layers);
  on_dma (ds_register ch cb task 1) ≫= λ _,
  on_dma (ds_single ch (DmaRequest src AI_IO_BASE_ADDR DMAC_ADDR_INCREMENT DMAC_ADDR_INCREMENT DMAC_MSIZE_16 DMAC_TRANS_WIDTH_64
    (input_bytes first_layer / 8))).
Definition ai_interrupt (priority : Z) (f : kpu_fn) (x : Z) : K unit :=
  on_irq (irq_set_priority IRQN_AI_INTERRUPT priority) ≫= λ _,
  on_irq (irq_register IRQN_AI_INTERRUPT f (Some x)) ≫= λ _,
  on_irq (irq_enable IRQN_AI_INTERRUPT).
Definition mark_last_layer (t : kpu_task_t) : K unit :=
  on_mem (set_layer_field (last_layer t) 11 send_data_out 1) ≫= λ _,
  on_mem (set_layer_field (last_layer t) 0 int_en 1).
Definition kpu_run (v_task : kpu_task_t) (ch source dest callback : Z) : K Z :=
  s ← gets g_status;
  k ← gets k_status;
  if negb (s =? 0) then mret (-1) else
  set_status 1 k ≫= λ _,
  set_task G_TASK (λ _, v_task) ≫= λ _,
  l ← read_layer (last_layer v_task);
  mark_last_layer v_task ≫= λ _,
  set_task G_TASK (λ t, Task t.(layers) t.(layers) callback t.(ctx) t.(src) dest t.(src_length) (u32 (output_bytes l))
    t.(layers_length) t.(layers_length) ch t.(task_eight_bit_mode) t.(output_scale) t.(output_bias)) ≫= λ _,
  ai_interrupt 1 f_continue G_TASK ≫= λ _,
  kpu_run_dma_input ch source f_push_layers G_TASK ≫= λ _,
  mret 0.

(** ** Tasks that are prepared by hand ([kpu_start]) *)
Definition kpu_done (task : Z) : K Z :=
  g ← gets g_status;
  set_status g 0 ≫= λ _,
  t ← the_task task;
  call_user t.(callback) t.(ctx) ≫= λ _, mret 0.
Definition kpu_config_input (ctx : Z) : K Z :=
  set_reg interrupt_clear 7 ≫= λ _,
  next_layers LAYER_BURST_SIZE (set_reg interrupt_mask 7) ctx ≫= λ _, mret 0.
Definition kpu_data_output (task : Z) : K unit :=
  t ← the_task task;
  dma_select t.(dma_ch) ≫= λ _,
  on_dma (ds_register t.(dma_ch) f_done task 1) ≫= λ _,
  on_dma (ds_single t.(dma_ch) (DmaRequest KPU_FIFO_DATA_OUT t.(dst) DMAC_ADDR_NOCHANGE DMAC_ADDR_INCREMENT DMAC_MSIZE_8
    DMAC_TRANS_WIDTH_64 t.(dst_length))).
Definition kpu_data_ready (task : Z) : K Z :=
  t ← the_task task;
  on_dma (λ d, Ok (ds_intclear t.(dma_ch) d)) ≫= λ _,
  kpu_data_output task ≫= λ _,
  set_reg eight_bit_mode t.(task_eight_bit_mode) ≫= λ _,
  set_reg interrupt_mask 7 ≫= λ _,
  set_reg interrupt_clear 7 ≫= λ _,
  set_reg fifo_threshold (threshold_word 12 1) ≫= λ _,
  ai_interrupt 2 f_config_input task ≫= λ _,
  kpu_config_input task ≫= λ _,
  set_reg interrupt_mask (interrupt_word 1 0 1) ≫= λ _,
  mret 0.
Definition input_address (l : kpu_layer_argument_t) : Z := AI_IO_BASE_ADDR + bf_get image_src_addr l.(image_addr) * 64.
Definition kpu_data_input (task : Z) : K unit :=
  t ← the_task task;
  if t.(src) =? 0 then kpu_data_ready task ≫= λ _, mret tt else
  on_dma (ds_register t.(dma_ch) f_data_ready task 1) ≫= λ _,
  layer ← read_layer t.(layers);
  on_dma (ds_single t.(dma_ch) (DmaRequest t.(src) (input_address layer) DMAC_ADDR_INCREMENT DMAC_ADDR_INCREMENT DMAC_MSIZE_16
    DMAC_TRANS_WIDTH_64 t.(src_length))).
Definition kpu_start (task : Z) : K Z :=
  k ← gets k_status;
  g ← gets g_status;
  if negb (k =? 0) then mret (-1) else
  set_status g 1 ≫= λ _,
  set_task task (λ t, Task t.(layers) t.(layers) t.(callback) t.(ctx) t.(src) t.(dst) t.(src_length) t.(dst_length)
    t.(layers_length) t.(layers_length) t.(dma_ch) t.(task_eight_bit_mode) t.(output_scale) t.(output_bias)) ≫= λ _,
  kpu_data_input task ≫= λ _,
  mret 0.
(** [alloc size] is the block that [rt_malloc_align] returns, 0 for none.  The block is
    cleared before it is checked. *)
Definition kpu_single_task_init (alloc : Z → Z) (task : Z) : K Z :=
  on_sys (λ s, snd (sysctl_clock_enable (sysctl_clock_to_Z SYSCTL_CLOCK_AI) s)) ≫= λ _,
  t ← the_task task;
  mark_last_layer t ≫= λ _,
  first_layer ← read_layer t.(layers);
  last ← read_layer (last_layer t);
  let src_length := u32 (input_bytes first_layer / 8) in
  let dst_length := u32 (output_bytes last + 7) / 8 in
  let dst := alloc (dst_length * 8) in
  set_task task (λ t, Task t.(layers) t.(remain_layers) t.(callback) t.(ctx) t.(src) dst src_length dst_length
    t.(layers_length) t.(remain_layers_length) t.(dma_ch) t.(task_eight_bit_mode) t.(output_scale) t.(output_bias)) ≫= λ _,
  (if dst =? 0 then c_fail FUB else on_mem (λ m, mem_write m dst (replicate (Z.to_nat (dst_length * 8)) 0))) ≫= λ _,
  mret 0.
Definition kpu_get_output_buf (alloc : Z → Z) (task : Z) : K Z :=
  t ← the_task task;
  last ← read_layer (last_layer t);
  mret (alloc (u32 (output_bytes last + 7) / 8 * 8)).
(** A model of the older format: the addresses of weights, normalisation and activation
    of each layer are filled in. *)
Definition kpu_model_load_from_buffer (task buffer : Z) : K Z :=
  m ← gets kmem;
  let version := word_at m buffer in
  let flags := word_at m (buffer + 4) in
  let layers_length := word_at m (buffer + 8) in
  let layers := buffer + word_at m (buffer + 16) in
  let layer_meta i := buffer + 20 + 28 * i in
  if negb (version =? 1) then mret (-1) else
  let last := u32 (layers_length - 1) in
  set_task task (λ t, Task layers t.(remain_layers) t.(callback) t.(ctx) t.(src) t.(dst) t.(src_length) t.(dst_length)
    layers_length t.(remain_layers_length) t.(dma_ch) (Z.land flags 1) (word_at m (layer_meta last + 20)) (word_at m (layer_meta last + 24))) ≫= λ _,
  on_mem (for_range 0 layers_length (λ i m,
    let l := layers + LAYER_SIZE * i in
    let m := set_layer_field l 5 para_start_addr (buffer + word_at m (layer_meta i)) m in
    let m := set_layer_field l 4 bwsx_base_addr (buffer + word_at m (layer_meta i + 4)) m in
    set_layer_field l 7 active_addr (buffer + word_at m (layer_meta i + 8)) m)) ≫= λ _,
  mret 0.

(** ** Single layers *)
Definition kpu_init (eight_bit : Z) (f : kpu_fn) (x : Z) : K unit :=
  set_reg interrupt_clear 7 ≫= λ _,
  set_reg fifo_threshold (threshold_word 10 1) ≫= λ _,
  set_reg eight_bit_mode (bf_set (BF 0 1) eight_bit 0) ≫= λ _,
  set_reg interrupt_mask (interrupt_word 1 0 1) ≫= λ _,
  ai_interrupt 1 f x.
Definition kpu_input_dma (layer : kpu_layer_argument_t) (src ch : Z) (f : kpu_fn) (x : Z) : K unit :=
  on_dma (ds_register ch f x 1) ≫= λ _,
  on_dma (ds_single ch (DmaRequest src (input_address layer) DMAC_ADDR_INCREMENT DMAC_ADDR_INCREMENT DMAC_MSIZE_16
    DMAC_TRANS_WIDTH_64 (input_bytes layer / 8))).
Definition kpu_conv2d_core (layer : Z) : K unit := l ← read_layer layer; kpu_send_layer l.
Definition kpu_conv2d (layer : Z) : K unit :=
  set_reg interrupt_clear (interrupt_word 1 1 1) ≫= λ _,
  set_reg interrupt_mask (interrupt_word 1 0 1) ≫= λ _,
  kpu_conv2d_core layer.
(** The output of a single layer by DMA: what both functions have in common *)
Definition conv2d_output (layer ch dest : Z) (count : kpu_layer_argument_t → Z) (f : kpu_fn) (x : Z) : K unit :=
  set_reg interrupt_clear (interrupt_word 1 1 1) ≫= λ _,
  set_reg interrupt_mask (interrupt_word 1 1 1) ≫= λ _,
  on_mem (set_layer_field layer 11 send_data_out 1) ≫= λ _,
  dma_select ch ≫= λ _,
  on_dma (ds_register ch f x 1) ≫= λ _,
  l ← read_layer layer;
  on_dma (ds_single ch (DmaRequest KPU_FIFO_DATA_OUT dest DMAC_ADDR_NOCHANGE DMAC_ADDR_INCREMENT DMAC_MSIZE_8 DMAC_TRANS_WIDTH_64 (count l))) ≫= λ _,
  kpu_conv2d_core layer.
Definition output_beats (l : kpu_layer_argument_t) : Z := u32 (bf_get dma_total_byte l.(dma_parameter) + 8) / 8.
Definition kpu_conv2d_output (layer ch dest : Z) (f : kpu_fn) (x : Z) : K unit := conv2d_output layer ch dest output_beats f x.
Definition kpu_conv2d_output_full_add (layer ch dest : Z) (f : kpu_fn) (x : Z) : K unit :=
  l ← read_layer layer;
  let channels := bf_get o_ch_num l.(image_channel_num) + 1 in
  on_mem (set_layer_field layer 0 full_add 1) ≫= λ _,
  conv2d_output layer ch dest (λ _, channels) f x.
Definition kpu_input_with_padding (layer src width height channels : Z) : K unit :=
  l ← read_layer layer;
  on_mem (λ m, snd (upload_loop (input_address l) (u64 height) (u64 channels) (row_layout width)
    (λ y_origin s, for_range 0 (u64 width) (put_byte y_origin) s) (src, m))).
End kpu.
Arguments kpu_s : clear implicits.

(** ** Events

    The end of a transfer on a channel calls what is registered for the channel, the
    interrupt of the accelerator what is registered for it. *)
Section events.
Context {D P : Type} `{DS : DmaService D kpu_fn} `{IC : IrqController P kpu_fn Z}.
Abbreviation state := (kpu_s D P).
Definition ignore {A} (k : M state A) : M state unit := k ≫= λ _, mret tt.
Definition run_callback (f : kpu_fn) (x : Z) : M state unit :=
  match f with
  | f_run_all_done => ignore (kpu_run_all_done x)
  | f_continue => ignore (kpu_continue x)
  | f_push_layers => ignore (kpu_run_dma_input_done_push_layers x)
  | f_done => ignore (kpu_done x)
  | f_config_input => ignore (kpu_config_input x)
  | f_data_ready => ignore (kpu_data_ready x)
  | f_user f => call_user f x
  | f_ai_step | f_kmodel_done => mret tt
  end.
Inductive kpu_event : Set := ev_dma (c : Z) | ev_ai.
Definition on_event (e : kpu_event) : M state unit := λ s,
  match e with
  | ev_dma c => match ds_callback s.(kdma) c with Some (f, x) => run_callback f x s | None => Ok (tt, s) end
  | ev_ai => match irq_handler s.(kirq) IRQN_AI_INTERRUPT with Some (f, Some x) => run_callback f x s | _ => Ok (tt, s) end
  end.

(** ** Layers in memory *)
Definition layers_from (m : Z → Z) (a n : Z) : list kpu_layer_argument_t := (λ i, layer_at m (a + LAYER_SIZE * i)) <$> seqZ 0 n.
Definition words_of (ls : list kpu_layer_argument_t) : list Z := concat (layer_words <$> ls).
Lemma layers_from_app m a n k : 0 ≤ n → 0 ≤ k → layers_from m a (n + k) = layers_from m a n ++ layers_from m (a + LAYER_SIZE * n) k.
Proof.
  intros Hn Hk. unfold layers_from. rewrite seqZ_app, fmap_app by done. f_equal.
  rewrite Z.add_0_l, <-(Z.add_0_r n) at 1. rewrite <-fmap_add_seqZ, <-list_fmap_compose. apply list_fmap_ext. intros i j _. cbn. f_equal. lia.
Qed.
Lemma layers_from_1 m a : layers_from m a 1 = [layer_at m a].
Proof. unfold layers_from. change (seqZ 0 1) with [0]. cbn [fmap list_fmap]. by rewrite Z.mul_0_r, Z.add_0_r. Qed.
Definition layer_at_last (ls : list kpu_layer_argument_t) : kpu_layer_argument_t := default (Layer 0 0 0 0 0 0 0 0 0 0 0 0) (last ls).
Lemma words_of_app ls ls' : words_of (ls ++ ls') = words_of ls ++ words_of ls'.
Proof. unfold words_of. by rewrite fmap_app, concat_app. Qed.
Lemma push_layers_run n a (s : state) : push_layers a n s =
  Ok (tt, Kpu s.(kregs) (s.(pushed) ++ words_of (layers_from s.(kmem) a (Z.of_nat n))) s.(kmem) s.(kdma) s.(kirq) s.(ksys)
    s.(tasks) s.(g_status) s.(k_status) s.(called)).
Proof.
  revert a s. induction n as [|n IH]; intros a s; [by destruct s; cbn; rewrite app_nil_r|].
  change (push_layers a (S n) s) with (push_layers (a + LAYER_SIZE) n (Kpu s.(kregs) (s.(pushed) ++ layer_words (layer_at s.(kmem) a)) s.(kmem)
    s.(kdma) s.(kirq) s.(ksys) s.(tasks) s.(g_status) s.(k_status) s.(called))).
  rewrite IH. cbn [kregs pushed kmem kdma kirq ksys tasks g_status k_status called]. do 3 f_equal. rewrite <-app_assoc. f_equal.
  replace (Z.of_nat (S n)) with (1 + Z.of_nat n) by lia. rewrite layers_from_app, layers_from_1, words_of_app, Z.mul_1_r by lia.
  unfold words_of at 2. cbn [fmap list_fmap concat]. by rewrite app_nil_r.
Qed.

(** ** A run of a task *)
Section run.
Context (a n ch cb : Z) (L : list kpu_layer_argument_t) (pushed0 : list Z) (called0 : list (Z * Z)).
Context (Hn : 1 ≤ n < 2 ^ 32) (Hch : 0 ≤ ch < 6).
(** The state of a run of which [k] layers have been pushed *)
Record run_inv (k : Z) (s : state) : Prop := {
  ri_layers : layers_from s.(kmem) a n = L;
  ri_task : let T := s.(tasks) G_TASK in T.(layers) = a ∧ T.(layers_length) = n ∧ T.(dma_ch) = ch ∧ T.(callback) = cb;
  ri_irq : irq_handler s.(kirq) IRQN_AI_INTERRUPT = Some (f_continue, Some G_TASK);
  ri_dma : ds_ok s.(kdma);
  ri_callback : ds_callback s.(kdma) ch = Some (f_push_layers, G_TASK) ∨ ds_callback s.(kdma) ch = Some (f_run_all_done, G_TASK);
  ri_range : 0 ≤ k ≤ n;
  ri_left : (s.(tasks) G_TASK).(remain_layers_length) = n - k;
  ri_next : k < n → (s.(tasks) G_TASK).(remain_layers) = a + LAYER_SIZE * k;
  ri_pushed : s.(pushed) = pushed0 ++ words_of (take (Z.to_nat k) L);
  ri_status : s.(g_status) = 1 ∧ s.(called) = called0 ∨ s.(g_status) = 0 ∧ s.(called) = called0 ++ [(cb, G_TASK)]
}.
Lemma take_layers m k : layers_from m a n = L → 0 ≤ k < n → take (Z.to_nat (k + 1)) L = take (Z.to_nat k) L ++ [layer_at m (a + LAYER_SIZE * k)].
Proof using Type.
  intros <- Hk. replace n with (k + (1 + (n - k - 1))) by lia. rewrite layers_from_app, (layers_from_app _ _ 1), layers_from_1 by lia.
  assert (Hl : ∀ m a n, 0 ≤ n → length (layers_from m a n) = Z.to_nat n) by (intros; unfold layers_from; by rewrite length_fmap, length_seqZ).
  rewrite !take_app, !Hl by lia. replace (Z.to_nat (k + 1) - Z.to_nat k)%nat with 1%nat by lia. replace (Z.to_nat k - Z.to_nat k)%nat with O by lia.
  rewrite (take_ge (layers_from m a k) (Z.to_nat (k + 1))), (take_ge (layers_from m a k) (Z.to_nat k)) by (rewrite Hl; lia).
  cbn [app take length Nat.sub]. by rewrite app_nil_r.
Qed.
Lemma kpu_continue_inv k s : run_inv k s → ∃ s', kpu_continue G_TASK s = Ok (0, s') ∧ run_inv (Z.min n (k + 1)) s' ∧
  s'.(kdma) = s.(kdma) ∧ s'.(g_status) = s.(g_status) ∧ s'.(called) = s.(called).
Proof using Hn.
  destruct s as [r pu m d p sy t g ks c]. intros [Hl (Ha & Hln & Hc & Hcb) Hirq Hd Hdc Hk Hleft Hnext Hp Hst].
  cbn [kregs pushed kmem kdma kirq ksys tasks g_status k_status called] in *.
  unfold kpu_continue. rewrite (M_bind_run _ _ _ tt (Kpu (<[interrupt_clear := interrupt_word 1 1 1]> r) pu m d p sy t g ks c)) by done.
  unfold the_task at 1. rewrite (M_bind_run _ _ _ (t G_TASK) (Kpu (<[interrupt_clear := interrupt_word 1 1 1]> r) pu m d p sy t g ks c)) by done.
  destruct (Z.eqb_spec (remain_layers_length (t G_TASK)) 0) as [E0|Hne].
  { eexists. split; [done|]. rewrite Z.min_l by lia. split; [|done]. split; cbn; try done; try lia. by replace n with k by lia. }
  set (t1 := t G_TASK) in *.
  assert (Hpush : pu ++ words_of (layers_from m (remain_layers t1) 1) = pushed0 ++ words_of (take (Z.to_nat (k + 1)) L)).
  { rewrite Hp, Hnext, layers_from_1, (take_layers m k), words_of_app by (done || lia). by rewrite app_assoc. }
  unfold next_layers, the_task. rewrite (M_bind_run _ _ _ tt (Kpu (<[interrupt_clear := interrupt_word 1 1 1]> r)
    (pushed0 ++ words_of (take (Z.to_nat (k + 1)) L)) m d p sy (<[G_TASK := 
      if remain_layers_length t1 <=? 1 then Task t1.(layers) t1.(remain_layers) t1.(callback) t1.(ctx) t1.(src) t1.(dst) t1.(src_length) t1.(dst_length)
      t1.(layers_length) 0 t1.(dma_ch) t1.(task_eight_bit_mode) t1.(output_scale) t1.(output_bias)
      else Task t1.(layers) (t1.(remain_layers) + LAYER_SIZE * 1) t1.(callback) t1.(ctx) t1.(src) t1.(dst) t1.(src_length)
      t1.(dst_length) t1.(layers_length) (t1.(remain_layers_length) - 1) t1.(dma_ch) t1.(task_eight_bit_mode) t1.(output_scale) t1.(output_bias)]> t) g ks c)).
  2:{ rewrite (M_bind_run _ _ _ t1 (Kpu (<[interrupt_clear := interrupt_word 1 1 1]> r) pu m d p sy t g ks c)) by done.
      destruct (Z.leb_spec (remain_layers_length t1) 1) as [Hle|Hgt].
      - replace (Z.to_nat (remain_layers_length t1)) with 1%nat by lia. rewrite (M_bind_run _ _ _ _ _ (push_layers_run 1 _ _)).
        cbn [kregs pushed kmem kdma kirq ksys tasks g_status k_status called]. change (Z.of_nat 1) with 1. by rewrite Hpush.
      - rewrite (M_bind_run _ _ _ _ _ (push_layers_run 1 _ _)).
        cbn [kregs pushed kmem kdma kirq ksys tasks g_status k_status called]. change (Z.of_nat 1) with 1. by rewrite Hpush. }
  eexists. split; [done|]. split; [|done]. rewrite Z.min_r by lia.
  split; cbn [kregs pushed kmem kdma kirq ksys tasks g_status k_status called]; rewrite ?fn_lookup_insert; try done; try lia.
  - by destruct (_ <=? 1).
  - destruct (Z.leb_spec (remain_layers_length t1) 1); cbn [remain_layers_length]; lia.
  - intros Hk1. destruct (Z.leb_spec (remain_layers_length t1) 1); [lia|]. cbn [remain_layers]. rewrite Hnext by lia. lia.
Qed.
(** What the environment does between events: registers move, transfers end and memory
    outside the layers changes, but not what the driver relies on. *)
Record env_step (s s' : state) : Prop := {
  es_layers : layers_from s'.(kmem) a n = layers_from s.(kmem) a n;
  es_tasks : s'.(tasks) G_TASK = s.(tasks) G_TASK;
  es_irq : irq_handler s'.(kirq) IRQN_AI_INTERRUPT = irq_handler s.(kirq) IRQN_AI_INTERRUPT;
  es_dma : ds_ok s'.(kdma);
  es_callback : ds_callback s'.(kdma) ch = ds_callback s.(kdma) ch;
  es_pushed : s'.(pushed) = s.(pushed);
  es_status : s'.(g_status) = s.(g_status);
  es_called : s'.(called) = s.(called)
}.
Lemma env_inv k s s' : run_inv k s → env_step s s' → run_inv k s'.
Proof using Type. intros [] []. split; by repeat match goal with E : _ s' _ = _ |- _ => rewrite E | E : _ s' = _ |- _ => rewrite E | E : _ = _ |- _ => rewrite E end. Qed.
Lemma all_done_inv k s : run_inv k s → s.(g_status) = 1 → ∃ s', kpu_run_all_done G_TASK s = Ok (0, s') ∧ run_inv k s' ∧
  s'.(g_status) = 0 ∧ s'.(called) = called0 ++ [(cb, G_TASK)].
Proof using Type.
  intros [] Hs. eexists. split; [done|]. destruct ri_status0 as [[_ Hc]|[? _]]; [|congruence].
  destruct ri_task0 as (? & ? & ? & Hcb). cbn. rewrite Hcb, Hc. split; [|done]. split; cbn; try done. right. by rewrite ?Hcb, ?Hc.
Qed.
Lemma run_dma_output_run dst len (s : state) : ds_ok s.(kdma) → 1 ≤ u32 (len + 7) / 8 → ∃ d sy,
  kpu_run_dma_output ch dst len G_TASK s = Ok (0, Kpu s.(kregs) s.(pushed) s.(kmem) d s.(kirq) sy s.(tasks) s.(g_status) s.(k_status) s.(called)) ∧
  ds_ok d ∧ ds_callback d ch = Some (f_run_all_done, G_TASK) ∧
  ds_request d ch = Some (DmaRequest KPU_FIFO_DATA_OUT dst DMAC_ADDR_NOCHANGE DMAC_ADDR_INCREMENT DMAC_MSIZE_8 DMAC_TRANS_WIDTH_64 (u32 (len + 7) / 8)).
Proof using Hch.
  intros Hd Hlen. destruct (ds_register_ok ch f_run_all_done G_TASK 1 s.(kdma) Hch Hd) as (d1 & E1 & Hd1 & Hc1 & _ & _).
  destruct (ds_single_ok ch (DmaRequest KPU_FIFO_DATA_OUT dst DMAC_ADDR_NOCHANGE DMAC_ADDR_INCREMENT DMAC_MSIZE_8 DMAC_TRANS_WIDTH_64
    (u32 (len + 7) / 8)) d1 Hch) as (d2 & E2 & Hd2 & Hr2 & Hc2 & _); [|done|].
  { unfold request_ok. cbn. pose proof (wrap_range 32 (len + 7)). unfold DMAC_ADDR_NOCHANGE, DMAC_ADDR_INCREMENT, DMAC_MSIZE_8, DMAC_TRANS_WIDTH_64.
    split_and!; try lia. Z.div_mod_to_equations; lia. }
  eexists d2, _. split; [|by rewrite Hc2].
  unfold kpu_run_dma_output, dma_select, on_sys, on_dma. cbn [mbind M_bind modify]. unfold mbind, M_bind, modify. cbn [kdma].
  rewrite E1. cbn [res_bind kdma]. rewrite E2. done.
Qed.
Lemma last_layer_eq m T : layers_from m a n = L → T.(layers) = a → T.(layers_length) = n → layer_at m (last_layer T) = layer_at_last L.
Proof using Hn.
  intros <- Ha Hl. unfold last_layer, layer_at_last. rewrite Ha, Hl, wrap_id by lia.
  replace n with (n - 1 + 1) at 2 by lia. by rewrite layers_from_app, layers_from_1, last_snoc by lia.
Qed.
Context (Hout : 1 ≤ u32 (output_bytes (layer_at_last L) + 7) / 8).
Lemma push_layers_inv k s : run_inv k s → ∃ s', kpu_run_dma_input_done_push_layers G_TASK s = Ok (0, s') ∧ run_inv (Z.min n (k + 1)) s' ∧
  ds_callback s'.(kdma) ch = Some (f_run_all_done, G_TASK) ∧ s'.(g_status) = s.(g_status) ∧ s'.(called) = s.(called).
Proof using Hn Hch Hout.
  intros Hi. destruct Hi as [Hl (Ha & Hln & Hc & Hcb) Hirq Hd Hdc Hk Hleft Hnext Hp Hst].
  destruct (ds_intclear_ok ch s.(kdma) Hch Hd) as [Hd1 _].
  set (r := <[eight_bit_mode := bf_set (BF 0 1) (s.(tasks) G_TASK).(task_eight_bit_mode) 0]> (<[fifo_threshold := threshold_word 10 1]> (<[interrupt_clear := 7]> s.(kregs)))).
  destruct (run_dma_output_run (s.(tasks) G_TASK).(dst) (output_bytes (layer_at_last L))
    (Kpu r s.(pushed) s.(kmem) (ds_intclear ch s.(kdma)) s.(kirq) s.(ksys) s.(tasks) s.(g_status) s.(k_status) s.(called)) Hd1 Hout)
    as (d & sy & Eo & Hd2 & Hc2 & _). cbn [kregs pushed kmem kdma kirq ksys tasks g_status k_status called] in *.
  destruct (kpu_continue_inv k (Kpu (<[interrupt_mask := interrupt_word 0 0 1]> r) s.(pushed) s.(kmem) d s.(kirq) sy s.(tasks) s.(g_status) s.(k_status) s.(called)))
    as (s' & Ec & Hi' & Hd' & Hg' & Hcl'); [by split; try done; right|].
  exists s'. split; [|cbn in *; split; [done|split; [by rewrite Hd'|done]]].
  unfold kpu_run_dma_input_done_push_layers, the_task, read_layer.
  rewrite (M_bind_run _ _ _ (s.(tasks) G_TASK) s) by done.
  rewrite (M_bind_run _ _ _ tt (Kpu (<[interrupt_clear := 7]> s.(kregs)) s.(pushed) s.(kmem) s.(kdma) s.(kirq) s.(ksys) s.(tasks) s.(g_status) s.(k_status) s.(called))) by done.
  rewrite (M_bind_run _ _ _ tt (Kpu (<[interrupt_clear := 7]> s.(kregs)) s.(pushed) s.(kmem) (ds_intclear ch s.(kdma)) s.(kirq) s.(ksys) s.(tasks) s.(g_status) s.(k_status) s.(called)))
    by (by rewrite Hc).
  rewrite (M_bind_run _ _ _ tt (Kpu (<[fifo_threshold := threshold_word 10 1]> (<[interrupt_clear := 7]> s.(kregs))) s.(pushed) s.(kmem) (ds_intclear ch s.(kdma)) s.(kirq) s.(ksys) s.(tasks) s.(g_status) s.(k_status) s.(called))) by done.
  rewrite (M_bind_run _ _ _ tt (Kpu r s.(pushed) s.(kmem) (ds_intclear ch s.(kdma)) s.(kirq) s.(ksys) s.(tasks) s.(g_status) s.(k_status) s.(called))) by done.
  rewrite (M_bind_run _ _ _ (layer_at_last L) (Kpu r s.(pushed) s.(kmem) (ds_intclear ch s.(kdma)) s.(kirq) s.(ksys) s.(tasks) s.(g_status) s.(k_status) s.(called)))
    by (unfold gets; cbn; by rewrite (last_layer_eq _ _ Hl Ha Hln)).
  rewrite Hc, (M_bind_run _ _ _ _ _ Eo).
  rewrite (M_bind_run _ _ _ tt (Kpu (<[interrupt_mask := interrupt_word 0 0 1]> r) s.(pushed) s.(kmem) d s.(kirq) sy s.(tasks) s.(g_status) s.(k_status) s.(called))) by done.
  by rewrite (M_bind_run _ _ _ _ _ Ec).
Qed.
(** While a run is under way, the transfer of its channel ends or the accelerator
    interrupts; the environment may act at any time. *)
Inductive run_step : state → state → Prop :=
| rs_dma s s' : s.(g_status) = 1 → on_event (ev_dma ch) s = Ok (tt, s') → run_step s s'
| rs_ai s s' : s.(g_status) = 1 → on_event ev_ai s = Ok (tt, s') → run_step s s'
| rs_env s s' : env_step s s' → run_step s s'.
Lemma ai_inv k s : run_inv k s → ∃ s', on_event ev_ai s = Ok (tt, s') ∧ run_inv (Z.min n (k + 1)) s'.
Proof using Hn.
  intros Hi. destruct (kpu_continue_inv k s Hi) as (s' & E & Hi' & _). exists s'. split; [|done].
  unfold on_event. rewrite (ri_irq _ _ Hi). cbn [run_callback]. unfold ignore. by rewrite (M_bind_run _ _ _ _ _ E).
Qed.
Lemma dma_inv k s : run_inv k s → s.(g_status) = 1 → ∃ s' k', on_event (ev_dma ch) s = Ok (tt, s') ∧ run_inv k' s'.
Proof using Hn Hch Hout.
  intros Hi Hs. unfold on_event. destruct (ri_callback _ _ Hi) as [Ec|Ec]; rewrite Ec; cbn [run_callback]; unfold ignore.
  - destruct (push_layers_inv k s Hi) as (s' & E & Hi' & _). exists s', (Z.min n (k + 1)). by rewrite (M_bind_run _ _ _ _ _ E).
  - destruct (all_done_inv k s Hi Hs) as (s' & E & Hi' & _). exists s', k. by rewrite (M_bind_run _ _ _ _ _ E).
Qed.
Lemma reachable_inv k s s' : run_inv k s → rtc run_step s s' → ∃ k', run_inv k' s'.
Proof using Hn Hch Hout.
  intros Hi Hr. revert k Hi. induction Hr as [s|s1 s2 s3 Hst _ IH]; intros k Hi; [by exists k|]. destruct Hst as [s1 s2 Hs E|s1 s2 Hs E|s1 s2 He].
  - destruct (dma_inv k s1 Hi Hs) as (s' & k' & E' & Hi'). rewrite E in E'. injection E' as <-. by apply (IH k').
  - destruct (ai_inv k s1 Hi) as (s' & E' & Hi'). rewrite E in E'. injection E' as <-. by apply (IH (Z.min n (k + 1))).
  - apply (IH k). by apply (env_inv k s1).
Qed.
Lemma run_inv_outcome k s : run_inv k s → 0 ≤ k ≤ n ∧ s.(pushed) = pushed0 ++ words_of (take (Z.to_nat k) L) ∧
  (s.(g_status) = 1 ∧ s.(called) = called0 ∨ s.(g_status) = 0 ∧ s.(called) = called0 ++ [(cb, G_TASK)]) ∧
  (s.(g_status) = 1 → ∃ s', on_event (ev_dma ch) s = Ok (tt, s')) ∧
  ∃ s', on_event ev_ai s = Ok (tt, s') ∧ s'.(pushed) = pushed0 ++ words_of (take (Z.to_nat (k + 1)) L).
Proof using Hn Hch Hout.
  intros Hi. pose proof Hi as []. split; [done|]. split; [done|]. split; [done|]. split.
  - intros Hs. destruct (dma_inv k s Hi Hs) as (s' & _ & E & _). by exists s'.
  - destruct (ai_inv k s Hi) as (s' & E & Hi'). exists s'. split; [done|]. rewrite (ri_pushed _ _ Hi'). do 2 f_equal.
    destruct (decide (k = n)) as [-> |]; [|by rewrite Z.min_r by lia]. rewrite Z.min_l by lia.
    assert (length L = Z.to_nat n) as Hl by (rewrite <-ri_layers0; unfold layers_from; by rewrite length_fmap, length_seqZ).
    by rewrite !take_ge by lia.
Qed.
End run.

Lemma kpu_input_dma_run l source ch f x (s : state) d1 d2 : ds_register ch f x 1 s.(kdma) = Ok d1 →
  ds_single ch (DmaRequest source (input_address l) DMAC_ADDR_INCREMENT DMAC_ADDR_INCREMENT DMAC_MSIZE_16 DMAC_TRANS_WIDTH_64 (input_bytes l / 8)) d1 = Ok d2 →
  kpu_input_dma l source ch f x s =
  Ok (tt, Kpu s.(kregs) s.(pushed) s.(kmem) d2 s.(kirq) s.(ksys) s.(tasks) s.(g_status) s.(k_status) s.(called)).
Proof. intros E1 E2. unfold kpu_input_dma, on_dma. unfold mbind, M_bind. rewrite E1. cbn [res_bind kdma]. by rewrite E2. Qed.

(** ** Starting a run *)

(** The layers of a task as they are run: the last one raises an interrupt and sends its
    result out. *)
Definition mark (l : kpu_layer_argument_t) : kpu_layer_argument_t :=
  Layer (bf_set int_en 1 l.(interrupt_enabe)) l.(image_addr) l.(image_channel_num) l.(image_size) l.(kernel_pool_type_cfg)
    l.(kernel_load_cfg) l.(kernel_offset) l.(kernel_calc_type_cfg) l.(write_back_cfg) l.(conv_value) l.(conv_value2)
    (bf_set send_data_out 1 l.(dma_parameter)).
Definition task_layers (m : Z → Z) (t : kpu_task_t) : list kpu_layer_argument_t :=
  layers_from m t.(layers) (t.(layers_length) - 1) ++ [mark (layer_at m (last_layer t))].
Definition marked (t : kpu_task_t) (m : Z → Z) : Z → Z :=
  set_layer_field (last_layer t) 0 int_en 1 (set_layer_field (last_layer t) 11 send_data_out 1 m).
Lemma dword_at_write m a w : in_width 64 w → dword_at (mem_write m a (dword_bytes w)) a = w.
Proof.
  intros Hw. unfold dword_at. pose proof (mem_read_write m a (dword_bytes w)) as E. rewrite dword_bytes_length in E.
  change (Z.of_nat 8) with 8 in E. rewrite E. unfold word_of, dword_bytes. rewrite little_endian_to_Z_to_little_endian by lia. by apply wrap_id.
Qed.
Lemma dword_at_write_ne m a bs a' : a' + 8 ≤ a ∨ a + Z.of_nat (length bs) ≤ a' → dword_at (mem_write m a bs) a' = dword_at m a'.
Proof. intros. unfold dword_at. by rewrite mem_read_write_ne. Qed.
Lemma dword_at_width m a : bytes_ok m → in_width 64 (dword_at m a).
Proof.
  intros Hm. unfold dword_at, word_of. pose proof (little_endian_to_Z_bound 8 (mem_read m a 8) ltac:(lia) (mem_read_bytes m a 8 Hm)) as Hw.
  rewrite mem_read_length in Hw by lia. exact Hw.
Qed.
Lemma field_other m a i f v b : b + 8 ≤ a + 8 * i ∨ a + 8 * i + 8 ≤ b → dword_at (set_layer_field a i f v m) b = dword_at m b.
Proof. intros Hb. unfold set_layer_field. apply dword_at_write_ne. rewrite dword_bytes_length. lia. Qed.
Lemma field_same m a i f v : bytes_ok m → bf_wf 64 f → dword_at (set_layer_field a i f v m) (a + 8 * i) = bf_set f v (dword_at m (a + 8 * i)).
Proof. intros Hm Hf. unfold set_layer_field. apply dword_at_write, bf_set_range; [done|by apply dword_at_width]. Qed.
Lemma field_bytes_ok m a i f v : bytes_ok m → bytes_ok (set_layer_field a i f v m).
Proof. intros Hm. apply bytes_ok_mem_write; [done|apply dword_bytes_width]. Qed.
Lemma layer_at_other m a b f i v : b + LAYER_SIZE ≤ a → 0 ≤ i → layer_at (set_layer_field a i f v m) b = layer_at m b.
Proof. unfold LAYER_SIZE. intros Hb Hi. unfold layer_at. by rewrite !field_other by lia. Qed.
Lemma marked_last m t : bytes_ok m → layer_at (marked t m) (last_layer t) = mark (layer_at m (last_layer t)).
Proof.
  intros Hm. unfold marked. set (a := last_layer t). set (m1 := set_layer_field a 11 send_data_out 1 m).
  pose proof (field_same m1 a 0 int_en 1 (field_bytes_ok _ _ _ _ _ Hm) ltac:(field_dec)) as E0. rewrite Z.mul_0_r, Z.add_0_r in E0.
  pose proof (field_same m a 11 send_data_out 1 Hm ltac:(field_dec)) as E11. change (8 * 11) with 88 in E11. fold m1 in E11.
  assert (∀ b, a + 8 ≤ b → dword_at (set_layer_field a 0 int_en 1 m1) b = dword_at m1 b) as H0 by (intros; apply field_other; lia).
  assert (∀ b, b < a + 80 + 1 → dword_at m1 b = dword_at m b) as H1 by (intros; apply field_other; lia).
  unfold layer_at, mark. cbn [interrupt_enabe image_addr image_channel_num image_size kernel_pool_type_cfg kernel_load_cfg kernel_offset
    kernel_calc_type_cfg write_back_cfg conv_value conv_value2 dma_parameter]. by rewrite E0, !H0, E11, !H1 by lia.
Qed.
Lemma marked_layers m t n : bytes_ok m → t.(layers_length) = n → 1 ≤ n < 2 ^ 32 → layers_from (marked t m) t.(layers) n = task_layers m t.
Proof.
  intros Hm <- Hn. unfold task_layers. set (n := t.(layers_length)) in *.
  assert (last_layer t = t.(layers) + LAYER_SIZE * (n - 1)) as El by (unfold last_layer; fold n; by rewrite wrap_id by lia).
  replace n with (n - 1 + 1) at 1 by lia. rewrite layers_from_app, layers_from_1, <-El, marked_last by (done || lia). f_equal.
  unfold layers_from. apply list_fmap_ext. intros i j Hj. apply lookup_seqZ in Hj as [-> Hi].
  unfold marked. unfold LAYER_SIZE in *. by rewrite !layer_at_other by (unfold LAYER_SIZE; lia).
Qed.
Lemma input_bytes_bound l : 0 ≤ input_bytes l < 2 ^ 31.
Proof.
  unfold input_bytes. pose proof (bf_get_range 64 channel_switch_addr (kernel_calc_type_cfg l) ltac:(field_dec)) as H1.
  pose proof (bf_get_range 64 i_ch_num (image_channel_num l) ltac:(field_dec)) as H2. cbn in H1, H2. nia.
Qed.
Lemma input_bytes_mark l : input_bytes (mark l) = input_bytes l.
Proof. done. Qed.
Lemma output_bytes_mark l : output_bytes (mark l) = output_bytes l.
Proof. unfold output_bytes, mark. cbn [dma_parameter]. by rewrite (bf_get_set_ne 64) by field_dec. Qed.
(** What must hold of a task: its first layer takes input and its last one sends output. *)
Record task_ok (m : Z → Z) (t : kpu_task_t) : Prop := {
  tk_length : 1 ≤ t.(layers_length) < 2 ^ 32;
  tk_input : 1 ≤ input_bytes (layer_at m t.(layers)) / 8;
  tk_output : 1 ≤ u32 (output_bytes (layer_at m (last_layer t)) + 7) / 8
}.
Lemma first_marked m t : bytes_ok m → task_ok m t → input_bytes (layer_at (marked t m) t.(layers)) = input_bytes (layer_at m t.(layers)).
Proof.
  intros Hm [Hn _ _]. assert (last_layer t = t.(layers) + LAYER_SIZE * (t.(layers_length) - 1)) as El by (unfold last_layer; by rewrite wrap_id by lia).
  destruct (decide (t.(layers_length) = 1)) as [E1|].
  - assert (last_layer t = t.(layers)) as <- by (rewrite El, E1; lia). by rewrite marked_last.
  - unfold marked. by rewrite !layer_at_other by (unfold LAYER_SIZE in *; lia).
Qed.
Definition input_request (m : Z → Z) (t : kpu_task_t) (source : Z) : dma_request :=
  DmaRequest source AI_IO_BASE_ADDR DMAC_ADDR_INCREMENT DMAC_ADDR_INCREMENT DMAC_MSIZE_16 DMAC_TRANS_WIDTH_64 (input_bytes (layer_at m t.(layers)) / 8).
Lemma kpu_run_run (v : kpu_task_t) ch source dest cb (s : state) : bytes_ok s.(kmem) → task_ok s.(kmem) v → 0 ≤ ch < 6 → ds_ok s.(kdma) → s.(g_status) = 0 →
  ∃ s1, kpu_run v ch source dest cb s = Ok (0, s1) ∧ ds_request s1.(kdma) ch = Some (input_request s.(kmem) v source) ∧
    run_inv v.(layers) v.(layers_length) ch cb (task_layers s.(kmem) v) s.(pushed) s.(called) 0 s1.
Proof.
  intros Hm Hv Hch Hd Hg. pose proof Hv as [Hn Hin Hout].
  destruct (ds_register_ok ch f_push_layers G_TASK 1 s.(kdma) Hch Hd) as (d1 & E1 & Hd1 & Hc1 & _ & _).
  destruct (ds_single_ok ch (input_request s.(kmem) v source) d1 Hch) as (d2 & E2 & Hd2 & Hr2 & Hc2 & _); [|done|].
  { unfold request_ok, input_request. cbn. pose proof (input_bytes_bound (layer_at (kmem s) (layers v))).
    unfold DMAC_ADDR_INCREMENT, DMAC_MSIZE_16, DMAC_TRANS_WIDTH_64. split_and!; try lia. Z.div_mod_to_equations; lia. }
  set (t := <[G_TASK := Task v.(layers) v.(layers) cb v.(ctx) v.(src) dest v.(src_length) (u32 (output_bytes (layer_at s.(kmem) (last_layer v))))
    v.(layers_length) v.(layers_length) ch v.(task_eight_bit_mode) v.(output_scale) v.(output_bias)]> (<[G_TASK := v]> s.(tasks))).
  set (p := irq_enable IRQN_AI_INTERRUPT (irq_register IRQN_AI_INTERRUPT f_continue (Some G_TASK) (irq_set_priority IRQN_AI_INTERRUPT 1 s.(kirq)))).
  exists (Kpu s.(kregs) s.(pushed) (marked v s.(kmem)) d2 p s.(ksys) t 1 s.(k_status) s.(called)).
  split; [|split; [done|]].
  - unfold kpu_run. rewrite (M_bind_run _ _ _ 0 s) by (by rewrite <-Hg). rewrite (M_bind_run _ _ _ s.(k_status) s) by done. cbn [Z.eqb negb].
    set (s1 := Kpu s.(kregs) s.(pushed) s.(kmem) s.(kdma) s.(kirq) s.(ksys) (<[G_TASK := v]> s.(tasks)) 1 s.(k_status) s.(called)).
    rewrite (M_bind_run _ _ _ tt (Kpu s.(kregs) s.(pushed) s.(kmem) s.(kdma) s.(kirq) s.(ksys) s.(tasks) 1 s.(k_status) s.(called))) by done.
    rewrite (M_bind_run _ _ _ tt s1) by done.
    rewrite (M_bind_run _ _ _ (layer_at s.(kmem) (last_layer v)) s1) by done.
    rewrite (M_bind_run _ _ _ tt (Kpu s.(kregs) s.(pushed) (marked v s.(kmem)) s.(kdma) s.(kirq) s.(ksys) (<[G_TASK := v]> s.(tasks)) 1 s.(k_status) s.(called))) by done.
    rewrite (M_bind_run _ _ _ tt (Kpu s.(kregs) s.(pushed) (marked v s.(kmem)) s.(kdma) s.(kirq) s.(ksys) t 1 s.(k_status) s.(called)))
      by (unfold set_task, modify, t; cbn; by rewrite fn_lookup_insert).
    rewrite (M_bind_run _ _ _ tt (Kpu s.(kregs) s.(pushed) (marked v s.(kmem)) s.(kdma) p s.(ksys) t 1 s.(k_status) s.(called))) by done.
    rewrite (M_bind_run _ _ _ tt (Kpu s.(kregs) s.(pushed) (marked v s.(kmem)) d2 p s.(ksys) t 1 s.(k_status) s.(called))); [done|].
    unfold kpu_run_dma_input, the_task, read_layer, on_dma, gets. unfold mbind, M_bind. cbn [tasks kmem kdma].
    rewrite E1. cbn [res_bind kdma]. assert (layers (t G_TASK) = layers v) as -> by (unfold t; by rewrite fn_lookup_insert).
    rewrite first_marked by done. fold (input_request s.(kmem) v source). by rewrite E2.
  - assert (Ht : t G_TASK = Task v.(layers) v.(layers) cb v.(ctx) v.(src) dest v.(src_length) (u32 (output_bytes (layer_at s.(kmem) (last_layer v))))
      v.(layers_length) v.(layers_length) ch v.(task_eight_bit_mode) v.(output_scale) v.(output_bias)) by (unfold t; by rewrite fn_lookup_insert).
    split; cbn [kregs pushed kmem kdma kirq ksys tasks g_status k_status called]; rewrite ?Ht; cbn [remain_layers_length remain_layers layers layers_length dma_ch callback]; try done; try lia.
    + by apply marked_layers.
    + unfold p. by rewrite irq_handler_enable, irq_handler_register, decide_True.
    + left. by rewrite Hc2.
    + cbn. by rewrite app_nil_r.
    + by left.
Qed.

(** The tasks of [kpu_start] get their layers twelve at a time. *)
Lemma kpu_config_input_burst task (s : state) : let T := s.(tasks) task in let b := Z.min LAYER_BURST_SIZE T.(remain_layers_length) in
  0 ≤ T.(remain_layers_length) → ∃ s', kpu_config_input task s = Ok (0, s') ∧
    s'.(pushed) = s.(pushed) ++ words_of (layers_from s.(kmem) T.(remain_layers) b) ∧ s'.(kmem) = s.(kmem) ∧
    (s'.(tasks) task).(remain_layers_length) = T.(remain_layers_length) - b ∧
    (b < T.(remain_layers_length) → (s'.(tasks) task).(remain_layers) = T.(remain_layers) + LAYER_SIZE * b).
Proof.
  cbv zeta. intros Hr. unfold kpu_config_input, next_layers, the_task.
  set (s1 := Kpu (<[interrupt_clear := 7]> s.(kregs)) s.(pushed) s.(kmem) s.(kdma) s.(kirq) s.(ksys) s.(tasks) s.(g_status) s.(k_status) s.(called)).
  rewrite (M_bind_run _ _ _ tt s1) by done. unfold mbind at 1, M_bind at 1. rewrite (M_bind_run _ _ _ (s.(tasks) task) s1) by done.
  destruct (Z.leb_spec (remain_layers_length (tasks s task)) LAYER_BURST_SIZE).
  - rewrite (M_bind_run _ _ _ _ _ (push_layers_run _ _ _)), Z2Nat.id by done. eexists. split; [reflexivity|].
    cbn. rewrite fn_lookup_insert, Z.min_r by lia. cbn. split_and!; [done|done|lia|lia].
  - rewrite (M_bind_run _ _ _ _ _ (push_layers_run _ _ _)). eexists. split; [reflexivity|].
    cbn [kregs pushed kmem kdma kirq ksys tasks g_status k_status called]. rewrite fn_lookup_insert, Z.min_l by lia. split_and!; done.
Qed.
(** While one run is under way another is refused, with nothing changed. *)
Lemma kpu_run_busy v ch source dest cb (s : state) : s.(g_status) ≠ 0 → kpu_run v ch source dest cb s = Ok (-1, s).
Proof. intros Hs. unfold kpu_run. rewrite (M_bind_run _ _ _ s.(g_status) s), (M_bind_run _ _ _ s.(k_status) s) by done. by rewrite (proj2 (Z.eqb_neq _ _)). Qed.
End events.

(** C37: A task is run layer by layer, however the events fall: [kpu_run] starts the transfer
    of the input, and from then on, whatever order transfers end and interrupts come in and
    whatever else happens, the accelerator has been given the first so many layers of the
    task in order, whole and each once, the last of them marked to send its result; every
    interrupt adds the next layer until there is none, no event is one the driver fails on,
    and the callback is called once, when the device is free again. *)
Theorem kpu_run_in_order {D P} `{DmaService D kpu_fn} `{IrqController P kpu_fn Z} (v : kpu_task_t) ch source dest cb (s : kpu_s D P) :
  bytes_ok s.(kmem) → task_ok s.(kmem) v → 0 ≤ ch < 6 → ds_ok s.(kdma) → s.(g_status) = 0 →
  let L := task_layers s.(kmem) v in
  ∃ s1, kpu_run v ch source dest cb s = Ok (0, s1) ∧ ds_request s1.(kdma) ch = Some (input_request s.(kmem) v source) ∧
    s1.(pushed) = s.(pushed) ∧
    ∀ s2, rtc (run_step v.(layers) v.(layers_length) ch) s1 s2 → ∃ k, 0 ≤ k ≤ v.(layers_length) ∧
      s2.(pushed) = s.(pushed) ++ words_of (take (Z.to_nat k) L) ∧
      (s2.(g_status) = 1 ∧ s2.(called) = s.(called) ∨ s2.(g_status) = 0 ∧ s2.(called) = s.(called) ++ [(cb, G_TASK)]) ∧
      (s2.(g_status) = 1 → ∃ s3, on_event (ev_dma ch) s2 = Ok (tt, s3)) ∧
      ∃ s3, on_event ev_ai s2 = Ok (tt, s3) ∧ s3.(pushed) = s.(pushed) ++ words_of (take (Z.to_nat (k + 1)) L).
Proof.
  intros Hm Hv Hch Hd Hg. destruct (kpu_run_run v ch source dest cb s Hm Hv Hch Hd Hg) as (s1 & E & Hr & Hi). exists s1.
  split; [done|]. split; [done|]. split; [by rewrite (ri_pushed _ _ _ _ _ _ _ _ _ Hi); cbn; rewrite app_nil_r|].
  assert (Hout : 1 ≤ u32 (output_bytes (layer_at_last (task_layers s.(kmem) v)) + 7) / 8).
  { unfold task_layers, layer_at_last. rewrite last_snoc.
    change (1 ≤ u32 (output_bytes (mark (layer_at (kmem s) (last_layer v))) + 7) / 8). rewrite output_bytes_mark. exact (tk_output _ _ Hv). }
  intros s2 Hs2. destruct (reachable_inv _ _ _ _ _ _ _ (tk_length _ _ Hv) Hch Hout _ _ _ Hi Hs2) as (k & Hi2).
  exists k. exact (run_inv_outcome _ _ _ _ _ _ _ (tk_length _ _ Hv) Hch Hout _ _ Hi2).
Qed.
Module Demo.
#[local] Existing Instance Dmac.demo_hw.
#[local] Instance dma_irqs : IrqController (plic_t Dmac.dmac_fn Dmac.dmac_ptr) Dmac.dmac_fn Dmac.dmac_ptr := plic_controller 0.
#[local] Instance kpu_irqs : IrqController (plic_t kpu_fn Z) kpu_fn Z := plic_controller 0.
Definition dma : Dmac.dmac_t kpu_fn Z * plic_t Dmac.dmac_fn Dmac.dmac_ptr :=
  (Dmac.Dmac Dmac.demo_dmac (λ _, Dmac.DmacContext 0 None None), Plic (λ _, 0) (λ _, no_instance) true).
#[local] Instance dma_service : DmaService (Dmac.dmac_t kpu_fn Z * plic_t Dmac.dmac_fn Dmac.dmac_ptr) kpu_fn :=
  dmac_service Dmac.demo_latch Dmac.demo_step 0.
Definition task : kpu_task_t := Task 0x80001000 0 0 0 0 0 0 0 2 0 0 1 0 0.
Definition machine : kpu_s (Dmac.dmac_t kpu_fn Z * plic_t Dmac.dmac_fn Dmac.dmac_ptr) (plic_t kpu_fn Z) :=
  Kpu (λ _, 0) [] (λ _, 1) dma (Plic (λ _, 0) (λ _, no_instance) true) (λ _, 0) (λ _, task) 0 0 [].
Lemma task_fits : task_ok (λ _, 1) task.
Proof. by split; vm_compute. Qed.
Lemma dma_fits : ds_ok dma.
Proof. split; [intros n Hn; apply Z.bits_0|]. intros j Hj x y. cbn. discriminate. Qed.
Lemma kpu_run_in_order_witness : ∃ s1 s3, kpu_run task 5 0x80010000 0x80020000 7 machine = Ok (0, s1) ∧
  on_event ev_ai s1 = Ok (tt, s3) ∧ s3.(pushed) = words_of (take 1 (task_layers (λ _, 1) task)).
Proof.
  destruct (kpu_run_in_order task 5 0x80010000 0x80020000 7 machine) as (s1 & E & _ & Hp & Hr);
    [intros q; cbn; lia|exact task_fits|lia|exact dma_fits|reflexivity|].
  destruct (Hr s1 (rtc_refl _ s1)) as (k & Hk & Hpk & _ & _ & s3 & E3 & Hp3). exists s1, s3. split; [exact E|]. split; [exact E3|].
  assert (k = 0) as ->; [|exact Hp3]. rewrite Hp in Hpk. destruct (decide (k = 0)) as [|Hne]; [done|]. exfalso.
  cbn [pushed machine] in Hpk. rewrite app_nil_l in Hpk. assert (Z.to_nat k = 1%nat ∨ Z.to_nat k = 2%nat) as [Ek|Ek] by (cbn in Hk; lia);
    rewrite Ek in Hpk; discriminate.
Defined.
End Demo.
