(* ===== verification/Kmodel.v ===== *)
(** * Running a model (k210_kpu.c, kpu_helper.c)

    A model is a block of memory: a header, the outputs, a header for each layer and the
    bodies of the layers.  [ai_step] interprets it, layer by layer: software layers run at
    once, one after the other; a layer for the accelerator is pushed, and the interrupt at
    its end, or the end of the transfer of its result, calls [ai_step] again.  The build is
    the one for version 3 of the format only ([ONLY_KMODEL_V3]). *)

From S2P Require Import Prelude Words SysctlRegs Sysctl Plic DmaService Float32 Klayers Kfloat Kpu.

Definition KL_ADD : Z := 1.
Definition KL_QUANTIZED_ADD : Z := 2.
Definition KL_GLOBAL_AVERAGE_POOL2D : Z := 5.
Definition KL_QUANTIZED_MAX_POOL2D : Z := 8.
Definition KL_AVERAGE_POOL2D : Z := 9.
Definition KL_QUANTIZE : Z := 11.
Definition KL_DEQUANTIZE : Z := 12.
Definition KL_REQUANTIZE : Z := 13.
Definition KL_L2_NORMALIZATION : Z := 14.
Definition KL_SOFTMAX : Z := 15.
Definition KL_CONCAT : Z := 16.
Definition KL_QUANTIZED_CONCAT : Z := 17.
Definition KL_FULLY_CONNECTED : Z := 18.
Definition KL_TENSORFLOW_FLATTEN : Z := 20.
Definition KL_RESIZE_NEAREST_NEIGHBOR : Z := 22.
Definition KL_QUANTIZED_RESIZE_NEAREST_NEIGHBOR : Z := 23.
Definition KL_CHANNELWISE_DEQUANTIZE : Z := 24.
Definition KL_LOGISTIC : Z := 25.
Definition KL_K210_CONV : Z := 10240.
Definition KL_K210_ADD_PADDING : Z := 10241.
Definition KL_K210_REMOVE_PADDING : Z := 10242.
Definition KL_K210_UPLOAD : Z := 10243.

(** ** Parsing *)

(** The header of a model, and the header of layer [i] *)
Definition kmodel_version (m : Z → Z) (buffer : Z) : Z := word_at m buffer.
Definition kmodel_flags (m : Z → Z) (buffer : Z) : Z := word_at m (buffer + 4).
Definition kmodel_arch (m : Z → Z) (buffer : Z) : Z := word_at m (buffer + 8).
Definition layer_type (m : Z → Z) (headers i : Z) : Z := word_at m (headers + 8 * i).
Definition layer_body_size (m : Z → Z) (headers i : Z) : Z := word_at m (headers + 8 * i + 4).
(** [kpu_prealloc_for_fully_conn_layer]: [ioc_mut] and [max_oc] *)
Definition prealloc_sizes (m : Z → Z) (c : kpu_model_context_t) : Z * Z :=
  let '(_, max_oc, ioc_mut) := for_range 0 c.(Klayers.layers_length) (λ id '(body, max_oc, ioc_mut),
    let '(max_oc, ioc_mut) :=
      if layer_type m c.(layer_headers) id =? KL_FULLY_CONNECTED then
        let ic := word_at m (body + 12) in
        let oc := word_at m (body + 16) in
        if ioc_mut <? u32 (ic * oc) then (oc, u32 (ic * oc)) else (max_oc, ioc_mut)
      else (max_oc, ioc_mut) in
    (body + layer_body_size m c.(layer_headers) id, max_oc, ioc_mut)) (c.(body_start), 0, 0) in
  (max_oc, ioc_mut).
Definition set_fc_buffer (a : Z) (c : kpu_model_context_t) : kpu_model_context_t :=
  Ctx c.(is_nncase) c.(model_buffer) c.(main_buffer) c.(output_count) c.(outputs) c.(layer_headers) c.(body_start)
    c.(Klayers.layers_length) c.(current_layer) c.(current_body) c.(Klayers.dma_ch) c.(done_callback) a c.(userdata).
Definition kpu_prealloc_for_fully_conn_layer (alloc : Z → Z) (m : Z → Z) (c : kpu_model_context_t) : kpu_model_context_t :=
  let '(max_oc, ioc_mut) := prealloc_sizes m c in
  if negb (ioc_mut =? 0) then set_fc_buffer (alloc (u32 (ioc_mut + max_oc) * 4)) c else c.
(** [alloc k size] is the [k]-th block that [rt_malloc_align] returns.  The sum of the body
    sizes is not used. *)
Definition kpu_load_kmodel (alloc : nat → Z → Z) (m : Z → Z) (buffer : Z) (c : kpu_model_context_t) : Z * kpu_model_context_t :=
  if (kmodel_version m buffer =? 3) && (kmodel_arch m buffer =? 0) then
    let output_count := word_at m (buffer + 24) in
    let outputs := buffer + 28 in
    let layer_headers := outputs + 8 * output_count in
    let layers_length := word_at m (buffer + 12) in
    let body_start := layer_headers + 8 * layers_length in
    let main := alloc 0%nat (word_at m (buffer + 20)) in
    let c := Ctx 0 buffer main output_count outputs layer_headers body_start layers_length c.(current_layer) c.(current_body)
               c.(Klayers.dma_ch) c.(done_callback) 0 c.(userdata) in
    if main =? 0 then (-1, c) else (0, kpu_prealloc_for_fully_conn_layer (alloc 1%nat) m c)
  else (-1, c).
(** The address and size of an output *)
Definition kpu_get_output (m : Z → Z) (c : kpu_model_context_t) (index : Z) : option (Z * Z) :=
  if negb (c.(is_nncase) =? 0) then None else
  if c.(output_count) <=? index then None else
  Some (c.(main_buffer) + word_at m (c.(outputs) + 8 * index), word_at m (c.(outputs) + 8 * index + 4)).
(** The blocks that are given back, and the context after that *)
Definition kpu_model_free (c : kpu_model_context_t) : list Z * kpu_model_context_t :=
  if negb (c.(is_nncase) =? 0) then ([], c) else
  let freed := [c.(main_buffer)] in
  let c := Ctx c.(is_nncase) c.(model_buffer) 0 c.(output_count) c.(outputs) c.(layer_headers) c.(body_start)
    c.(Klayers.layers_length) c.(current_layer) c.(current_body) c.(Klayers.dma_ch) c.(done_callback) c.(kmodel_fully_connected_buffer) c.(userdata) in
  if negb (c.(kmodel_fully_connected_buffer) =? 0) then (freed ++ [c.(kmodel_fully_connected_buffer)], set_fc_buffer 0 c) else (freed, c).

(** ** Helpers of the library (kpu_helper.c) *)
Definition maix_kpu_helper_probe_model_size (m : Z → Z) (model_buffer buffer_size : Z) : Z :=
  if (kmodel_version m model_buffer =? 3) && (kmodel_arch m model_buffer =? 0) then
    let output_count := word_at m (model_buffer + 24) in
    let layers_length := word_at m (model_buffer + 12) in
    let layer_headers := model_buffer + 28 + 8 * output_count in
    let body_start := layer_headers + 8 * layers_length in
    let body_size := u32 (body_start - model_buffer) in
    if buffer_size <? body_size then -1 else
    s32 (for_range 0 layers_length (λ i body_size, u32 (body_size + layer_body_size m layer_headers i)) body_size)
  else -1.
(** [k210_kpu_shape_t] *)
Record k210_kpu_shape_t := KpuShape { chn : Z; h : Z; w : Z; vaild : Z }.
Definition conv_layer_at (m : Z → Z) (c : kpu_model_context_t) (body : Z) : kpu_layer_argument_t :=
  layer_at m (c.(model_buffer) + word_at m (body + 8)).
Definition maix_kpu_helper_get_input_shape (m : Z → Z) (c : kpu_model_context_t) : option k210_kpu_shape_t :=
  if negb (c.(is_nncase) =? 0) then None else
  if layer_type m c.(layer_headers) 0 =? KL_K210_CONV then
    let layer_arg := conv_layer_at m c c.(body_start) in
    Some (KpuShape (1 + bf_get i_ch_num layer_arg.(image_channel_num)) (1 + bf_get i_col_high layer_arg.(image_size))
            (1 + bf_get i_row_wid layer_arg.(image_size)) 1)
  else None.
Definition o_row_wid := BF 32 10.
Definition o_col_high := BF 42 9.
(** [_layer] is the layer before the convolution, null when there is none. *)
Definition maix_kpu_helper_get_output_shape (m : Z → Z) (c : kpu_model_context_t) : res (option k210_kpu_shape_t) :=
  if negb (c.(is_nncase) =? 0) then Ok None else
  let n := c.(Klayers.layers_length) in
  if negb (layer_type m c.(layer_headers) (n - 1) =? KL_DEQUANTIZE) || negb (layer_type m c.(layer_headers) (n - 2) =? KL_K210_CONV) then Ok None else
  let '(_layer, body) := for_range 0 (u32 (n - 2)) (λ i '(_, body), (Some i, body + layer_body_size m c.(layer_headers) i)) (None, c.(body_start)) in
  match _layer with
  | None => Fault FUB
  | Some i =>
      if layer_type m c.(layer_headers) i =? KL_K210_CONV then
        let layer_arg := conv_layer_at m c body in
        Ok (Some (KpuShape (1 + bf_get o_ch_num layer_arg.(image_channel_num)) (1 + bf_get o_col_high layer_arg.(image_size))
              (1 + bf_get o_row_wid layer_arg.(image_size)) 1))
      else Ok None
  end.
(** In this build a context of the other format falls through to the same member. *)
Definition maix_kpu_helper_get_output_count (c : kpu_model_context_t) : Z := s32 c.(output_count).

(** ** Layers in software *)

(** The cases of [ai_step] that work on memory, [None] for the others *)
Definition soft_layer (expf : float → float) (type body : Z) (c : kpu_model_context_t) (m : Z → Z) : option (res (Z → Z)) :=
  if type =? KL_ADD then Some (Ok (kpu_kmodel_add body c m))
  else if type =? KL_QUANTIZED_ADD then Some (kpu_quantized_add body c m)
  else if type =? KL_GLOBAL_AVERAGE_POOL2D then Some (Ok (kpu_global_average_pool2d body c m))
  else if type =? KL_QUANTIZED_MAX_POOL2D then Some (Ok (kpu_quantized_max_pool2d body c m))
  else if type =? KL_AVERAGE_POOL2D then Some (Ok (kpu_average_pool2d body c m))
  else if type =? KL_QUANTIZE then Some (kpu_quantize body c m)
  else if type =? KL_DEQUANTIZE then Some (Ok (kpu_kmodel_dequantize body c m))
  else if type =? KL_REQUANTIZE then Some (Ok (kpu_requantize body c m))
  else if type =? KL_L2_NORMALIZATION then Some (Ok (kpu_l2_normalization body c m))
  else if type =? KL_SOFTMAX then Some (Ok (kpu_softmax expf body c m))
  else if (type =? KL_CONCAT) || (type =? KL_QUANTIZED_CONCAT) then Some (Ok (kpu_concat body c m))
  else if type =? KL_FULLY_CONNECTED then Some (kpu_kmodel_fully_connected body c m)
  else if type =? KL_TENSORFLOW_FLATTEN then Some (Ok (kpu_tf_flatten body c m))
  else if type =? KL_RESIZE_NEAREST_NEIGHBOR then Some (kpu_resize_nearest_neighbor body c m)
  else if type =? KL_QUANTIZED_RESIZE_NEAREST_NEIGHBOR then Some (kpu_quant_resize_nearest_neighbor body c m)
  else if type =? KL_CHANNELWISE_DEQUANTIZE then Some (Ok (kpu_kmodel_channelwise_dequantize body c m))
  else if type =? KL_LOGISTIC then Some (Ok (kpu_logistic expf body c m))
  else if type =? KL_K210_ADD_PADDING then Some (Ok (kpu_add_padding body c m))
  else if type =? KL_K210_REMOVE_PADDING then Some (Ok (kpu_remove_padding body c m))
  else if type =? KL_K210_UPLOAD then Some (Ok (kpu_upload body c m))
  else None.

(** ** The interpreter *)
Section interpreter.
Context {D P : Type} `{DmaService D kpu_fn} `{IrqController P kpu_fn Z} (expf : float → float).
(** The device, the context that the callbacks are given, and the interrupt enables of the
    processor *)
Record model_s := Model { dev : kpu_s D P; kc : kpu_model_context_t; csr : csr_t }.
Abbreviation KM := (M model_s).
Definition on_dev {A} (k : M (kpu_s D P) A) : KM A := λ s, '(x, d) ← k s.(dev); Ok (x, Model d s.(kc) s.(csr)).
Definition CTX : Z := 1.
Definition advance (c : kpu_model_context_t) (body_size : Z) : kpu_model_context_t :=
  Ctx c.(is_nncase) c.(model_buffer) c.(main_buffer) c.(output_count) c.(outputs) c.(layer_headers) c.(body_start)
    c.(Klayers.layers_length) (u32 (c.(current_layer) + 1)) (c.(current_body) + body_size) c.(Klayers.dma_ch) c.(done_callback)
    c.(kmodel_fully_connected_buffer) c.(userdata).
(** The layer that [kpu_conv] pushes: the one in the model, with the addresses of its
    parameters, and with its result sent out or an interrupt at its end *)
Definition conv_layer (m : Z → Z) (arg : Z) (c : kpu_model_context_t) : kpu_layer_argument_t :=
  let l := conv_layer_at m c arg in
  let main_mem_out := negb (Z.land (word_at m arg) KLF_MAIN_MEM_OUT =? 0) in
  Layer (if main_mem_out then l.(interrupt_enabe) else bf_set int_en 1 l.(interrupt_enabe))
    l.(image_addr) l.(image_channel_num) l.(image_size)
    (bf_set bwsx_base_addr (c.(model_buffer) + word_at m (arg + 16)) l.(kernel_pool_type_cfg))
    (bf_set para_start_addr (c.(model_buffer) + word_at m (arg + 12)) l.(kernel_load_cfg))
    l.(kernel_offset)
    (bf_set active_addr (c.(model_buffer) + word_at m (arg + 20)) l.(kernel_calc_type_cfg))
    l.(write_back_cfg) l.(conv_value) l.(conv_value2)
    (if main_mem_out then bf_set send_data_out 1 l.(dma_parameter) else l.(dma_parameter)).
Definition conv_request (m : Z → Z) (arg : Z) (c : kpu_model_context_t) : option dma_request :=
  if negb (Z.land (word_at m arg) KLF_MAIN_MEM_OUT =? 0) then
    Some (DmaRequest KPU_FIFO_DATA_OUT (c.(main_buffer) + word_at m (arg + 4)) DMAC_ADDR_NOCHANGE DMAC_ADDR_INCREMENT DMAC_MSIZE_8
      DMAC_TRANS_WIDTH_64 (output_beats (conv_layer m arg c)))
  else None.
Definition kpu_conv (arg : Z) (c : kpu_model_context_t) : M (kpu_s D P) unit :=
  m ← gets kmem;
  let layer := conv_layer m arg c in
  (match conv_request m arg c with
   | Some r =>
       let ch := c.(Klayers.dma_ch) in
       Kpu.set_reg interrupt_clear (interrupt_word 1 1 1) ≫= λ _,
       Kpu.set_reg interrupt_mask (interrupt_word 1 1 1) ≫= λ _,
       dma_select ch ≫= λ _,
       on_dma (ds_register ch (if negb (c.(current_layer) =? c.(Klayers.layers_length)) then f_ai_step else f_kmodel_done) CTX 1) ≫= λ _,
       on_dma (ds_single ch r)
   | None =>
       Kpu.set_reg interrupt_clear (interrupt_word 1 1 1) ≫= λ _,
       Kpu.set_reg interrupt_mask (interrupt_word 0 1 1)
   end) ≫= λ _,
  kpu_send_layer layer.
Definition kpu_kmodel_done (c : kpu_model_context_t) : M (kpu_s D P) Z :=
  Kpu.set_reg interrupt_clear (interrupt_word 1 1 1) ≫= λ _,
  Kpu.set_reg interrupt_mask (interrupt_word 1 1 1) ≫= λ _,
  call_user c.(done_callback) c.(userdata) ≫= λ _, mret 0.
Fixpoint ai_step (fuel : nat) : KM Z :=
  match fuel with
  | O => c_fail FFuel
  | S fuel =>
      c ← gets kc;
      m ← gets (λ s, s.(dev).(kmem));
      let cnt_layer_id := c.(current_layer) in
      let layer_body := c.(current_body) in
      let type := layer_type m c.(layer_headers) cnt_layer_id in
      let c := advance c (layer_body_size m c.(layer_headers) cnt_layer_id) in
      modify (λ s, Model s.(dev) c s.(csr)) ≫= λ _,
      if type =? KL_K210_CONV then on_dev (kpu_conv layer_body c) ≫= λ _, mret 0 else
      match soft_layer expf type layer_body c m with
      | None => c_fail FAssert
      | Some r =>
          on_dev (λ d, m' ← r; on_mem (λ _, m') d) ≫= λ _,
          if negb (cnt_layer_id =? u32 (c.(Klayers.layers_length) - 1)) then ai_step fuel
          else on_dev (kpu_kmodel_done c)
      end
  end.
Definition ai_step_not_isr (fuel : nat) : KM unit :=
  modify (λ s, Model s.(dev) s.(kc) (clear_mstatus MSTATUS_MIE (clear_mie MIP_MEIP s.(csr)))) ≫= λ _,
  ai_step fuel ≫= λ _,
  modify (λ s, Model s.(dev) s.(kc) (set_mstatus MSTATUS_MIE (set_mie MIP_MEIP s.(csr)))).
Definition kpu_kmodel_input_with_padding (layer : kpu_layer_argument_t) (src : Z) (m : Z → Z) : Z → Z :=
  kpu_upload_core (bf_get i_row_wid layer.(image_size) + 1) (bf_get i_col_high layer.(image_size) + 1)
    (bf_get i_ch_num layer.(image_channel_num) + 1) src (bf_get image_src_addr layer.(image_addr)) m.
Definition kpu_run_kmodel (fuel : nat) (src ch done userdata : Z) : KM Z :=
  c ← gets kc;
  if negb (c.(is_nncase) =? 0) then mret (-1) else
  let c := Ctx c.(is_nncase) c.(model_buffer) c.(main_buffer) c.(output_count) c.(outputs) c.(layer_headers) c.(body_start)
    c.(Klayers.layers_length) 0 c.(body_start) ch done c.(kmodel_fully_connected_buffer) userdata in
  modify (λ s, Model s.(dev) c s.(csr)) ≫= λ _,
  m ← gets (λ s, s.(dev).(kmem));
  on_dev (Kpu.set_reg interrupt_clear 7 ≫= λ _,
    Kpu.set_reg fifo_threshold (threshold_word 10 1) ≫= λ _,
    Kpu.set_reg eight_bit_mode (bf_set (BF 0 1) (Z.land (kmodel_flags m c.(model_buffer)) 1) 0) ≫= λ _,
    Kpu.set_reg interrupt_mask (interrupt_word 1 0 1) ≫= λ _,
    ai_interrupt 1 f_ai_step CTX) ≫= λ _,
  let type := layer_type m c.(layer_headers) 0 in
  if type =? KL_K210_CONV then
    let layer_arg := conv_layer_at m c c.(body_start) in
    if negb ((bf_get i_row_wid layer_arg.(image_size) + 1) mod 64 =? 0) then
      on_dev (on_mem (kpu_kmodel_input_with_padding layer_arg src)) ≫= λ _,
      ai_step_not_isr fuel ≫= λ _, mret 0
    else on_dev (kpu_input_dma layer_arg src c.(Klayers.dma_ch) f_ai_step CTX) ≫= λ _, mret 0
  else if type =? KL_FULLY_CONNECTED then
    on_dev (on_mem (λ m, kpu_kmodel_input_float src (c.(main_buffer) + word_at m (c.(body_start) + 4)) (word_at m (c.(body_start) + 12)) m)) ≫= λ _,
    ai_step_not_isr fuel ≫= λ _, mret 0
  else mret (-1).
End interpreter.
Arguments model_s : clear implicits.

(** ** Reference: the effect of a model on memory

    Layers one after the other, each once.  [hw] is what the accelerator does with the layer
    it was given, and with the transfer of the result when there is one. *)
Section reference.
Context (expf : float → float) (hw : list Z → option dma_request → (Z → Z) → Z → Z) (c : kpu_model_context_t).
(** A last layer whose result is not sent to main memory has no effect here: nothing in
    [kpu_conv] tells its end that it is the last (see [last_conv_steps_on]).  A transfer must
    not be empty. *)
Definition conv_effect (is_last : bool) (body : Z) (m : Z → Z) : res ((Z → Z) * list Z) :=
  let ws := layer_words (conv_layer m body c) in
  match conv_request m body c with
  | Some r => if r.(rq_count) =? 0 then Fault FUB else Ok (hw ws (Some r) m, ws)
  | None => if is_last then Fault FUB else Ok (hw ws None m, ws)
  end.
Definition layer_effect (is_last : bool) (type body : Z) (m : Z → Z) : res ((Z → Z) * list Z) :=
  if type =? KL_K210_CONV then conv_effect is_last body m
  else match soft_layer expf type body c m with Some r => m' ← r; Ok (m', []) | None => Fault FAssert end.
(** The layers from [i] on, the first of them with its body at [body]: the memory they leave
    and the words that go to the accelerator *)
Fixpoint model_effect (k : nat) (i body : Z) (m : Z → Z) : res ((Z → Z) * list Z) :=
  match k with
  | O => Ok (m, [])
  | S k =>
      let size := layer_body_size m c.(layer_headers) i in
      '(m', ws) ← layer_effect (bool_decide (k = O)) (layer_type m c.(layer_headers) i) body m;
      '(m'', ws') ← model_effect k (i + 1) (body + size) m';
      Ok (m'', ws ++ ws')
  end.
End reference.

(** ** The accelerator at work *)
Section run.
Context {D P : Type} `{DS : DmaService D kpu_fn} `{IC : IrqController P kpu_fn Z} (expf : float → float).
Context (hw : list Z → option dma_request → (Z → Z) → Z → Z) (F : nat).
Abbreviation state := (model_s D P).
Definition model_callback (f : option (kpu_fn * Z)) : M state unit :=
  match f with
  | Some (f_ai_step, _) => ai_step expf F ≫= λ _, mret tt
  | Some (f_kmodel_done, _) => c ← gets kc; on_dev (kpu_kmodel_done c) ≫= λ _, mret tt
  | _ => mret tt
  end.
(** The layer that was given to the accelerator last ends: its effect is seen, and the
    interrupt that is not masked, or that of the transfer, calls what is registered. *)
Definition layer_ends : M state unit :=
  s ← gets dev;
  ch ← gets (λ s, s.(kc).(Klayers.dma_ch));
  let ws := drop (length s.(pushed) - 12) s.(pushed) in
  if Z.testbit (s.(kregs) interrupt_mask) 0 then
    on_dev (on_mem (hw ws (ds_request s.(kdma) ch))) ≫= λ _, model_callback (ds_callback s.(kdma) ch)
  else on_dev (on_mem (hw ws None)) ≫= λ _,
    model_callback (match irq_handler s.(kirq) IRQN_AI_INTERRUPT with Some (f, Some x) => Some (f, x) | _ => None end).
Fixpoint rounds (r : nat) : M state unit :=
  match r with O => mret tt | S r => layer_ends ≫= λ _, rounds r end.

(** A transfer from memory to memory, 64 bits wide, both of whose addresses count up *)
Definition dma_copy (r : dma_request) (m : Z → Z) : Z → Z := λ a,
  if (r.(rq_dst) <=? a) && (a <? r.(rq_dst) + 8 * r.(rq_count)) then m (r.(rq_src) + (a - r.(rq_dst))) else m a.
(** The transfer of the input ends: its bytes are there, and its interrupt calls what is
    registered for the channel. *)
Definition input_ends : M state unit :=
  s ← gets dev;
  ch ← gets (λ s, s.(kc).(Klayers.dma_ch));
  on_dev (on_mem (match ds_request s.(kdma) ch with Some r => dma_copy r | None => λ m, m end)) ≫= λ _,
  model_callback (ds_callback s.(kdma) ch).
(** What happens after [kpu_run_kmodel]: the end of the transfer of the input, when there is
    one, and the ends of layers *)
Definition events (by_dma : bool) (r : nat) : M state unit :=
  match r with
  | O => mret tt
  | S r => (if by_dma then input_ends else layer_ends) ≫= λ _, rounds r
  end.

Context (c0 : kpu_model_context_t).
(** The context before layer [i] *)
Definition ctx_at (i body : Z) : kpu_model_context_t :=
  Ctx c0.(is_nncase) c0.(model_buffer) c0.(main_buffer) c0.(output_count) c0.(outputs) c0.(layer_headers) c0.(body_start)
    c0.(Klayers.layers_length) i body c0.(Klayers.dma_ch) c0.(done_callback) c0.(kmodel_fully_connected_buffer) c0.(userdata).
Lemma advance_at i body size : 0 ≤ i < 2 ^ 32 - 1 → advance (ctx_at i body) size = ctx_at (i + 1) (body + size).
Proof using Type. intros Hi. unfold advance, ctx_at. cbn. by rewrite wrap_id by lia. Qed.
Lemma soft_layer_at t b i body m : soft_layer expf t b (ctx_at i body) m = soft_layer expf t b c0 m.
Proof using Type. reflexivity. Qed.
Lemma conv_layer_at_ctx m b i body : conv_layer m b (ctx_at i body) = conv_layer m b c0.
Proof using Type. reflexivity. Qed.
Lemma conv_request_at m b i body : conv_request m b (ctx_at i body) = conv_request m b c0.
Proof using Type. reflexivity. Qed.
Context (n : Z) (Hn : 1 ≤ n < 2 ^ 32) (Hlen : c0.(Klayers.layers_length) = n).
Context (Hch : 0 ≤ c0.(Klayers.dma_ch) < 6).
(** What the interpreter relies on between layers *)
Record ready (s : state) : Prop := {
  rd_dma : ds_ok s.(dev).(kdma);
  rd_irq : irq_handler s.(dev).(kirq) IRQN_AI_INTERRUPT = Some (f_ai_step, Some CTX)
}.
(** A run that starts at [s] with [k]: after [r] ends of layers it is over. *)
Definition finishes (start : M state Z) (s : state) (m : Z → Z) (ws : list Z) : Prop := ∃ r s',
  (start ≫= λ _, rounds r) s = Ok (tt, s') ∧ s'.(dev).(kmem) = m ∧ s'.(dev).(pushed) = s.(dev).(pushed) ++ ws ∧
  s'.(dev).(called) = s.(dev).(called) ++ [(c0.(done_callback), c0.(userdata))] ∧
  ∀ j, (j < r)%nat → ∃ sj, (start ≫= λ _, rounds j) s = Ok (tt, sj) ∧ sj.(dev).(called) = s.(dev).(called).
(** The same with the events that come after the start *)
Definition runs_to (by_dma : bool) (start : M state Z) (s : state) (m : Z → Z) (ws : list Z) : Prop := ∃ r s',
  (start ≫= λ _, events by_dma r) s = Ok (tt, s') ∧ s'.(dev).(kmem) = m ∧ s'.(dev).(pushed) = s.(dev).(pushed) ++ ws ∧
  s'.(dev).(called) = s.(dev).(called) ++ [(c0.(done_callback), c0.(userdata))] ∧
  ∀ j, (j < r)%nat → ∃ sj, (start ≫= λ _, events by_dma j) s = Ok (tt, sj) ∧ sj.(dev).(called) = s.(dev).(called).
Lemma finishes_eq start start' s s1 m ws : start s = start' s1 → s1.(dev).(pushed) = s.(dev).(pushed) → s1.(dev).(called) = s.(dev).(called) →
  finishes start' s1 m ws → finishes start s m ws.
Proof using Type.
  intros E Ep Ec (r & s' & E1 & Hm & Hp & Hc & Hj).
  assert (Eb : ∀ j, (start ≫= λ _, rounds j) s = (start' ≫= λ _, rounds j) s1) by (intros j; unfold mbind, M_bind; by rewrite E).
  exists r, s'. rewrite Eb, <-Ep, <-Ec. split_and!; try done. intros j Hjr. rewrite Eb. by apply Hj.
Qed.
Lemma finishes_round start start' s s1 s2 x m ws ws' : start s = Ok (x, s1) →
  (∀ r, (layer_ends ≫= λ _, rounds r) s1 = (start' ≫= λ _, rounds r) s2) →
  s1.(dev).(called) = s.(dev).(called) → s2.(dev).(called) = s.(dev).(called) → s2.(dev).(pushed) = s.(dev).(pushed) ++ ws →
  finishes start' s2 m ws' → finishes start s m (ws ++ ws').
Proof using Type.
  intros E Er Ec1 Ec2 Ep (r & s' & E1 & Hm & Hp & Hc & Hj).
  assert (Eb : ∀ j, (start ≫= λ _, rounds (S j)) s = (start' ≫= λ _, rounds j) s2).
  { intros j. rewrite (M_bind_run _ _ _ _ _ E). cbn [rounds]. by rewrite Er. }
  exists (S r), s'. rewrite Eb. split_and!; [done|done|by rewrite Hp, Ep, app_assoc|by rewrite Hc, Ec2|].
  intros [|j] Hjr.
  - exists s1. rewrite (M_bind_run _ _ _ _ _ E). by split.
  - rewrite Eb. rewrite <-Ec2. apply Hj. lia.
Qed.
Lemma finishes_done s b : finishes (on_dev (kpu_kmodel_done (ctx_at n b))) s s.(dev).(kmem) [].
Proof using Type.
  exists O. eexists. split; [reflexivity|]. cbn. rewrite app_nil_r. split_and!; try done. intros j Hj. lia.
Qed.

(** ** A layer for the accelerator *)
Lemma kpu_conv_irq m b i body (d : kpu_s D P) : d.(kmem) = m → conv_request m b c0 = None →
  kpu_conv b (ctx_at i body) d = Ok (tt, Kpu (<[interrupt_mask := interrupt_word 0 1 1]> (<[interrupt_clear := interrupt_word 1 1 1]> d.(kregs)))
    (d.(pushed) ++ layer_words (conv_layer m b c0)) m d.(kdma) d.(kirq) d.(ksys) d.(tasks) d.(g_status) d.(k_status) d.(called)).
Proof using Type.
  intros <- E. unfold kpu_conv. rewrite (M_bind_run _ _ _ d.(kmem) d) by done. rewrite conv_request_at, conv_layer_at_ctx, E. done.
Qed.
Lemma kpu_conv_dma m b i body (d : kpu_s D P) r : d.(kmem) = m → ds_ok d.(kdma) → conv_request m b c0 = Some r → r.(rq_count) ≠ 0 →
  ∃ dma sy, kpu_conv b (ctx_at i body) d = Ok (tt, Kpu (<[interrupt_mask := interrupt_word 1 1 1]> (<[interrupt_clear := interrupt_word 1 1 1]> d.(kregs)))
    (d.(pushed) ++ layer_words (conv_layer m b c0)) m dma d.(kirq) sy d.(tasks) d.(g_status) d.(k_status) d.(called)) ∧ ds_ok dma ∧
    ds_callback dma c0.(Klayers.dma_ch) = Some (if negb (i =? n) then f_ai_step else f_kmodel_done, CTX) ∧
    ds_request dma c0.(Klayers.dma_ch) = Some r.
Proof using Hlen Hch.
  intros <- Hd E Hc. set (f := if negb (i =? n) then f_ai_step else f_kmodel_done).
  destruct (ds_register_ok c0.(Klayers.dma_ch) f CTX 1 d.(kdma) Hch Hd) as (d1 & E1 & Hd1 & Hc1 & _ & _).
  destruct (ds_single_ok c0.(Klayers.dma_ch) r d1 Hch) as (d2 & E2 & Hd2 & Hr2 & Hc2 & _); [|done|].
  { unfold conv_request in E. destruct (negb _) in E; [|done]. injection E as <-. unfold request_ok. cbn in Hc |- *. unfold output_beats in *.
    pose proof (wrap_range 32 (bf_get dma_total_byte (dma_parameter (conv_layer (kmem d) b c0)) + 8)).
    unfold DMAC_ADDR_NOCHANGE, DMAC_ADDR_INCREMENT, DMAC_MSIZE_8, DMAC_TRANS_WIDTH_64. split_and!; try lia; Z.div_mod_to_equations; lia. }
  eexists d2, _. split; [|split; [done|by rewrite Hc2]].
  unfold kpu_conv. rewrite (M_bind_run _ _ _ d.(kmem) d) by done. rewrite conv_request_at, conv_layer_at_ctx, E. cbn [ctx_at current_layer Klayers.layers_length Klayers.dma_ch].
  rewrite Hlen. fold f. unfold dma_select, on_sys, on_dma, Kpu.set_reg. unfold mbind, M_bind, modify. cbn [kdma].
  rewrite E1. cbn [res_bind kdma]. rewrite E2. done.
Qed.
Lemma callback_bind f x (s : state) r : (model_callback (Some (f, x)) ≫= λ _, rounds r) s =
  ((match f with f_ai_step => ai_step expf F | f_kmodel_done => c ← gets kc; on_dev (kpu_kmodel_done c) | _ => mret 0 end) ≫= λ _, rounds r) s.
Proof using Type.
  unfold model_callback. destruct f; try done. unfold mbind, M_bind. by destruct (ai_step expf F s) as [[??]|].
Qed.
(** The end of a layer whose interrupt is not masked, and of one whose result is transferred *)
Definition effected (g : (Z → Z) → Z → Z) (d : kpu_s D P) : kpu_s D P :=
  Kpu d.(kregs) d.(pushed) (g d.(kmem)) d.(kdma) d.(kirq) d.(ksys) d.(tasks) d.(g_status) d.(k_status) d.(called).
Lemma last_words (pu ws : list Z) : length ws = 12%nat → drop (length (pu ++ ws) - 12) (pu ++ ws) = ws.
Proof using Type. intros Hl. rewrite length_app, Hl, Nat.add_sub. by rewrite drop_app_length. Qed.
Lemma layer_ends_irq (d : kpu_s D P) c cs pu ws : d.(pushed) = pu ++ ws → length ws = 12%nat → d.(kregs) interrupt_mask = interrupt_word 0 1 1 →
  irq_handler d.(kirq) IRQN_AI_INTERRUPT = Some (f_ai_step, Some CTX) →
  layer_ends (Model d c cs) = model_callback (Some (f_ai_step, CTX)) (Model (effected (hw ws None) d) c cs).
Proof using Type.
  intros Ep Hl Em Ei. unfold layer_ends. rewrite (M_bind_run _ _ _ d (Model d c cs)), (M_bind_run _ _ _ c.(Klayers.dma_ch) (Model d c cs)) by done. cbv zeta.
  rewrite Em, Ep, last_words by done. change (Z.testbit (interrupt_word 0 1 1) 0) with false. cbv iota.
  rewrite (M_bind_run _ _ _ tt (Model (effected (hw ws None) d) c cs)) by done. by rewrite Ei.
Qed.
Lemma layer_ends_dma (d : kpu_s D P) c cs pu ws rq f : d.(pushed) = pu ++ ws → length ws = 12%nat → d.(kregs) interrupt_mask = interrupt_word 1 1 1 →
  ds_callback d.(kdma) c.(Klayers.dma_ch) = Some (f, CTX) → ds_request d.(kdma) c.(Klayers.dma_ch) = rq →
  layer_ends (Model d c cs) = model_callback (Some (f, CTX)) (Model (effected (hw ws rq) d) c cs).
Proof using Type.
  intros Ep Hl Em Ec Er. unfold layer_ends. rewrite (M_bind_run _ _ _ d (Model d c cs)), (M_bind_run _ _ _ c.(Klayers.dma_ch) (Model d c cs)) by done. cbv zeta.
  rewrite Em, Ep, last_words by done. change (Z.testbit (interrupt_word 1 1 1) 0) with true. cbv iota.
  rewrite Er, (M_bind_run _ _ _ tt (Model (effected (hw ws rq) d) c cs)) by done. by rewrite Ec.
Qed.
Lemma ends_round (s s2 : state) f r : layer_ends s = model_callback (Some (f, CTX)) s2 →
  (layer_ends ≫= λ _, rounds r) s =
  ((match f with f_ai_step => ai_step expf F | f_kmodel_done => c ← gets kc; on_dev (kpu_kmodel_done c) | _ => mret 0 end) ≫= λ _, rounds r) s2.
Proof using Type. intros E. rewrite <-(callback_bind f CTX). unfold mbind at 1, M_bind at 1. by rewrite E. Qed.
(** The end of a layer that keeps its result, the last one as well, steps on to the layer
    after it. *)
Lemma last_conv_steps_on m b i body (d : kpu_s D P) cs : d.(kmem) = m → conv_request m b c0 = None →
  irq_handler d.(kirq) IRQN_AI_INTERRUPT = Some (f_ai_step, Some CTX) →
  ∃ d', kpu_conv b (ctx_at i body) d = Ok (tt, d') ∧
    layer_ends (Model d' (ctx_at i body) cs) =
    (ai_step expf F ≫= λ _, mret tt) (Model (effected (hw (layer_words (conv_layer m b c0)) None) d') (ctx_at i body) cs).
Proof using Type.
  intros Hm E Hirq. eexists. split; [by apply (kpu_conv_irq m)|]. rewrite (layer_ends_irq _ _ _ d.(pushed) (layer_words (conv_layer m b c0))); [done|done|done|apply fn_lookup_insert|done].
Qed.
(** The end of the transfer of the input *)
Lemma input_ends_run (s : state) rq f r : ds_request s.(dev).(kdma) s.(kc).(Klayers.dma_ch) = Some rq →
  ds_callback s.(dev).(kdma) s.(kc).(Klayers.dma_ch) = Some (f, CTX) →
  (input_ends ≫= λ _, rounds r) s =
  ((match f with f_ai_step => ai_step expf F | f_kmodel_done => c ← gets kc; on_dev (kpu_kmodel_done c) | _ => mret 0 end) ≫= λ _, rounds r)
    (Model (effected (dma_copy rq) s.(dev)) s.(kc) s.(csr)).
Proof using Type.
  intros Er Ec. rewrite <-(callback_bind f CTX). unfold mbind at 1, M_bind at 1. unfold input_ends.
  rewrite (M_bind_run _ _ _ s.(dev) s), (M_bind_run _ _ _ s.(kc).(Klayers.dma_ch) s) by done. rewrite Er, Ec.
  by rewrite (M_bind_run _ _ _ tt (Model (effected (dma_copy rq) s.(dev)) s.(kc) s.(csr))).
Qed.

(** ** The interpreter computes the effect of the model *)
Lemma ai_step_unfold f i body (s : state) : s.(kc) = ctx_at i body → 0 ≤ i < n →
  let m := s.(dev).(kmem) in
  let type := layer_type m c0.(layer_headers) i in
  let c := ctx_at (i + 1) (body + layer_body_size m c0.(layer_headers) i) in
  let s1 := Model s.(dev) c s.(csr) in
  ai_step expf (S f) s =
  (if type =? KL_K210_CONV then on_dev (kpu_conv body c) ≫= λ _, mret 0 else
   match soft_layer expf type body c0 m with
   | None => c_fail FAssert
   | Some r => on_dev (λ d, m' ← r; on_mem (λ _, m') d) ≫= λ _,
       if negb (i =? n - 1) then ai_step expf f else on_dev (kpu_kmodel_done c)
   end) s1.
Proof using Hn Hlen.
  destruct s as [d c cs]. cbn [kc dev csr]. intros -> Hi. cbv zeta. cbn [ai_step].
  rewrite (M_bind_run _ _ _ (ctx_at i body) (Model d (ctx_at i body) cs)) by done.
  rewrite (M_bind_run _ _ _ d.(kmem) (Model d (ctx_at i body) cs)) by done. cbv zeta.
  change (current_layer (ctx_at i body)) with i. change (current_body (ctx_at i body)) with body. change (layer_headers (ctx_at i body)) with (layer_headers c0).
  rewrite advance_at by lia.
  rewrite (M_bind_run _ _ _ tt (Model d (ctx_at (i + 1) (body + layer_body_size d.(kmem) c0.(layer_headers) i)) cs)) by done.
  rewrite soft_layer_at. change (Klayers.layers_length (ctx_at ?a ?b)) with (Klayers.layers_length c0). rewrite Hlen, (wrap_id 32 (n - 1)) by lia. done.
Qed.
Lemma on_dev_run {A} (k : M (kpu_s D P) A) (s : state) x d : k s.(dev) = Ok (x, d) → on_dev k s = Ok (x, Model d s.(kc) s.(csr)).
Proof using Type. intros E. unfold on_dev. by rewrite E. Qed.
(** A layer for the accelerator, and what comes after its end *)
Lemma run_conv start k i body body' (s : state) m1 ws1 m2 ws2 : Z.of_nat k = n - (i + 1) → 0 ≤ i → ready s →
  let c := ctx_at (i + 1) body' in
  start s = (on_dev (kpu_conv body c) ≫= λ _, mret 0) (Model s.(dev) c s.(csr)) →
  conv_effect hw c0 (bool_decide (k = O)) body s.(dev).(kmem) = Ok (m1, ws1) → (k = O → m2 = m1 ∧ ws2 = []) →
  (∀ s', s'.(kc) = c → ready s' → s'.(dev).(kmem) = m1 → k ≠ O → finishes (ai_step expf F) s' m2 ws2) →
  finishes start s m2 (ws1 ++ ws2).
Proof using Hn Hlen Hch.
  intros Hk Hi [Hd Hirq] c Hstart He Hlast IH. unfold conv_effect in He.
  destruct (conv_request (kmem (dev s)) body c0) as [rq|] eqn:Erq.
  - destruct (Z.eqb_spec (rq_count rq) 0) as [|Hcount]; [done|]. injection He as <- <-.
    destruct (kpu_conv_dma _ body (i + 1) body' s.(dev) rq eq_refl Hd Erq Hcount) as (dma & sy & Ec & Hd' & Hcb & Hrq). fold c in Ec.
    rewrite (M_bind_run _ _ _ _ _ (on_dev_run _ (Model s.(dev) c s.(csr)) _ _ Ec)) in Hstart.
    eapply finishes_round; [exact Hstart| |reflexivity| | |].
    + intros r. apply ends_round. eapply layer_ends_dma; [reflexivity|reflexivity|apply fn_lookup_insert|exact Hcb|exact Hrq].
    + reflexivity.
    + reflexivity.
    + destruct (Z.eqb_spec (i + 1) n) as [En|Hne]; cbn [negb].
      * destruct (Hlast ltac:(lia)) as [-> ->]. eapply (finishes_eq _ (on_dev (kpu_kmodel_done c))); [reflexivity|reflexivity|reflexivity|].
        unfold c. rewrite En. exact (finishes_done _ body').
      * apply IH; [reflexivity|by split|reflexivity|lia].
  - case_bool_decide as Ek; [done|]. injection He as <- <-.
    pose proof (kpu_conv_irq _ body (i + 1) body' s.(dev) eq_refl Erq) as Ec. fold c in Ec.
    rewrite (M_bind_run _ _ _ _ _ (on_dev_run _ (Model s.(dev) c s.(csr)) _ _ Ec)) in Hstart.
    eapply finishes_round; [exact Hstart| |reflexivity| | |].
    + intros r. apply ends_round. eapply layer_ends_irq; [reflexivity|reflexivity|apply fn_lookup_insert|exact Hirq].
    + reflexivity.
    + reflexivity.
    + apply IH; [reflexivity|by split|reflexivity|done].
Qed.
Context (HF : n ≤ Z.of_nat F).
Lemma run_from k i body f (s : state) m ws : Z.of_nat k = n - i → (1 ≤ k)%nat → 0 ≤ i → s.(kc) = ctx_at i body → ready s → (k ≤ f)%nat →
  model_effect expf hw c0 k i body s.(dev).(kmem) = Ok (m, ws) → finishes (ai_step expf f) s m ws.
Proof using Hn Hlen Hch HF.
  revert i body f s m ws. induction k as [|k IH]; intros i body f s m ws Hk Hk1 Hi Hc Hr Hf Hm; [lia|].
  destruct f as [|f]; [lia|]. pose proof (ai_step_unfold f i body s Hc ltac:(lia)) as Hstep. cbv zeta in Hstep.
  cbn [model_effect] in Hm. apply res_bind_Ok in Hm as ([m1 ws1] & E1 & ([m2 ws2] & E2 & [= <- <-])%res_bind_Ok).
  unfold layer_effect in E1. destruct (layer_type (kmem (dev s)) (layer_headers c0) i =? KL_K210_CONV) eqn:Et.
  - apply (run_conv (ai_step expf (S f)) k i body (body + layer_body_size (kmem (dev s)) (layer_headers c0) i) s m1 ws1 m2 ws2);
      [lia|done|done|exact Hstep|exact E1|intros ->; by injection E2 as <- <-|].
    intros s' Hc' Hr' Hm' Hk'. apply (IH (i + 1) (body + layer_body_size (kmem (dev s)) (layer_headers c0) i)); [lia|lia|lia|done|done|lia|by rewrite Hm'].
  - destruct (soft_layer _ _ _ _ _) as [r|] eqn:Es in E1; [|done]. rewrite Es in Hstep.
    apply res_bind_Ok in E1 as (m1' & -> & [= <- <-]). rewrite app_nil_l.
    set (c := ctx_at (i + 1) _) in Hstep.
    rewrite (M_bind_run _ _ _ tt (Model (effected (λ _, m1') s.(dev)) c s.(csr))) in Hstep by done.
    destruct (Z.eqb_spec i (n - 1)) as [Ei|Hne]; cbn [negb] in Hstep.
    + assert (k = 0%nat) as -> by lia. injection E2 as <- <-. eapply finishes_eq; [exact Hstep|done|done|].
      assert (c = ctx_at n (body + layer_body_size (kmem (dev s)) (layer_headers c0) i)) as -> by (unfold c; f_equal; lia).
      exact (finishes_done (Model (effected (λ _, m1') s.(dev)) _ s.(csr)) _).
    + eapply finishes_eq; [exact Hstep|done|done|].
      eapply (IH (i + 1)); [lia|lia|lia|reflexivity| |lia|exact E2]. by destruct Hr.
Qed.
End run.

(** ** The interrupt enables of the processor play no part. *)
Section csr_free.
Context {D P : Type} `{DS : DmaService D kpu_fn} `{IC : IrqController P kpu_fn Z} (expf : float → float).
Context (hw : list Z → option dma_request → (Z → Z) → Z → Z) (F : nat).
Abbreviation state := (model_s D P).
Definition with_csr (cs : csr_t) (s : state) : state := Model s.(dev) s.(kc) cs.
Definition csr_free {A} (k : M state A) : Prop := ∀ s cs,
  k (with_csr cs s) = match k s with Ok (a, s') => Ok (a, with_csr cs s') | Fault f => Fault f end.
Lemma csr_free_bind {A B} (k : M state A) (g : A → M state B) : csr_free k → (∀ a, csr_free (g a)) → csr_free (k ≫= g).
Proof. intros Hk Hg s cs. unfold mbind, M_bind. rewrite Hk. destruct (k s) as [[a s']|]; [apply Hg|done]. Qed.
Lemma csr_free_on_dev {A} (k : M (kpu_s D P) A) : csr_free (on_dev k).
Proof. intros s cs. unfold on_dev. cbn [dev with_csr]. by destruct (k s.(dev)) as [[a d]|]. Qed.
Lemma csr_free_ai_step f : csr_free (ai_step expf f).
Proof.
  induction f as [|f IH]; [by intros s cs|]. cbn [ai_step]. apply csr_free_bind; [by intros s cs|]. intros c.
  apply csr_free_bind; [by intros s cs|]. intros m. cbv zeta. apply csr_free_bind; [by intros s cs|]. intros _.
  case_match; [apply csr_free_bind; [apply csr_free_on_dev|by intros ? s cs]|].
  case_match; [|by intros s cs]. apply csr_free_bind; [apply csr_free_on_dev|]. intros _. case_match; [done|apply csr_free_on_dev].
Qed.
Lemma csr_free_callback f : csr_free (model_callback expf F f).
Proof.
  destruct f as [[[] x]|]; try (by intros s cs); cbn [model_callback].
  apply csr_free_bind; [apply csr_free_ai_step|by intros ? s cs].
Qed.
Lemma csr_free_rounds r : csr_free (rounds expf hw F r).
Proof.
  induction r as [|r IH]; [by intros s cs|]. cbn [rounds]. apply csr_free_bind; [|done]. unfold layer_ends.
  apply csr_free_bind; [by intros s cs|]. intros d. apply csr_free_bind; [by intros s cs|]. intros ch. cbv zeta.
  case_match; (apply csr_free_bind; [apply csr_free_on_dev|]; intros _; apply csr_free_callback).
Qed.
(** What a run leaves but for the interrupt enables is what it leaves with others. *)
Lemma finishes_csr c0 (start start' : M state Z) s s1 cs m ws :
  (∀ x s2, start' s1 = Ok (x, s2) → start s = Ok (0, with_csr cs s2)) →
  s1.(dev).(pushed) = s.(dev).(pushed) → s1.(dev).(called) = s.(dev).(called) →
  finishes expf hw F c0 start' s1 m ws → finishes expf hw F c0 start s m ws.
Proof.
  intros Hs Ep Ec (r & s' & E & Hm & Hp & Hc & Hj).
  assert (Hb : ∀ j sj, (start' ≫= λ _, rounds expf hw F j) s1 = Ok (tt, sj) → (start ≫= λ _, rounds expf hw F j) s = Ok (tt, with_csr cs sj)).
  { intros j sj Ej. apply M_bind_Ok in Ej as (x & s2 & E1 & E2). rewrite (M_bind_run _ _ _ _ _ (Hs x s2 E1)), csr_free_rounds, E2. done. }
  exists r, (with_csr cs s'). split; [by apply Hb|]. rewrite <-Ep, <-Ec. split_and!; [done..|].
  intros j Hjr. destruct (Hj j Hjr) as (sj & Ej & Hcj). exists (with_csr cs sj). by rewrite (Hb j sj Ej).
Qed.
End csr_free.

(** ** Starting a model *)
Section start.
Context {D P : Type} `{DS : DmaService D kpu_fn} `{IC : IrqController P kpu_fn Z} (expf : float → float).
Context (hw : list Z → option dma_request → (Z → Z) → Z → Z) (F : nat).
(** The context of a run, and the memory with its input *)
Definition started (c : kpu_model_context_t) (ch done userdata : Z) : kpu_model_context_t :=
  Ctx c.(is_nncase) c.(model_buffer) c.(main_buffer) c.(output_count) c.(outputs) c.(layer_headers) c.(body_start)
    c.(Klayers.layers_length) 0 c.(body_start) ch done c.(kmodel_fully_connected_buffer) userdata.
Definition input_by_cpu (m : Z → Z) (c : kpu_model_context_t) (src : Z) : option (Z → Z) :=
  let type := layer_type m c.(layer_headers) 0 in
  if type =? KL_K210_CONV then
    let l := conv_layer_at m c c.(body_start) in
    if negb ((bf_get i_row_wid l.(image_size) + 1) mod 64 =? 0) then Some (kpu_kmodel_input_with_padding l src m) else None
  else if type =? KL_FULLY_CONNECTED then
    Some (kpu_kmodel_input_float src (c.(main_buffer) + word_at m (c.(body_start) + 4)) (word_at m (c.(body_start) + 12)) m)
  else None.
Definition input_by_dma (m : Z → Z) (c : kpu_model_context_t) (src : Z) : option dma_request :=
  let l := conv_layer_at m c c.(body_start) in
  if (layer_type m c.(layer_headers) 0 =? KL_K210_CONV) && ((bf_get i_row_wid l.(image_size) + 1) mod 64 =? 0) then
    Some (DmaRequest src (input_address l) DMAC_ADDR_INCREMENT DMAC_ADDR_INCREMENT DMAC_MSIZE_16 DMAC_TRANS_WIDTH_64 (input_bytes l / 8))
  else None.
(** Memory with the input in its place, however it comes there *)
Definition with_input (m : Z → Z) (c : kpu_model_context_t) (src : Z) : option (Z → Z) :=
  match input_by_dma m c src with
  | Some r => if r.(rq_count) =? 0 then None else Some (dma_copy r m)
  | None => input_by_cpu m c src
  end.
Definition kmodel_regs (m : Z → Z) (c : kpu_model_context_t) (r : bank kpu_reg) : bank kpu_reg :=
  <[interrupt_mask := interrupt_word 1 0 1]> (<[eight_bit_mode := bf_set (BF 0 1) (Z.land (kmodel_flags m c.(model_buffer)) 1) 0]>
    (<[fifo_threshold := threshold_word 10 1]> (<[interrupt_clear := 7]> r))).
Definition kmodel_irq (p : P) : P :=
  irq_enable IRQN_AI_INTERRUPT (irq_register IRQN_AI_INTERRUPT f_ai_step (Some CTX) (irq_set_priority IRQN_AI_INTERRUPT 1 p)).
(** The state in which the first layer is run *)
Definition at_first_layer (s : model_s D P) (ch done userdata : Z) (m : Z → Z) : model_s D P :=
  let d := s.(dev) in
  Model (Kpu (kmodel_regs d.(kmem) s.(kc) d.(kregs)) d.(pushed) m d.(kdma) (kmodel_irq d.(kirq)) d.(ksys) d.(tasks) d.(g_status) d.(k_status) d.(called))
    (started s.(kc) ch done userdata) s.(csr).
Lemma kpu_run_kmodel_cpu src ch done userdata (s : model_s D P) m : s.(kc).(is_nncase) = 0 → input_by_cpu s.(dev).(kmem) s.(kc) src = Some m →
  kpu_run_kmodel expf F src ch done userdata s = (ai_step_not_isr expf F ≫= λ _, mret 0) (at_first_layer s ch done userdata m).
Proof.
  intros Hnn Hin. unfold kpu_run_kmodel. rewrite (M_bind_run _ _ _ s.(kc) s) by done. rewrite (proj2 (Z.eqb_eq _ _) Hnn). cbn [negb]. cbv zeta.
  fold (started s.(kc) ch done userdata). set (c := started s.(kc) ch done userdata).
  rewrite (M_bind_run _ _ _ tt (Model s.(dev) c s.(csr))) by done.
  rewrite (M_bind_run _ _ _ s.(dev).(kmem) (Model s.(dev) c s.(csr))) by done.
  rewrite (M_bind_run _ _ _ tt (at_first_layer s ch done userdata s.(dev).(kmem))) by done.
  unfold input_by_cpu in Hin. change (layer_headers c) with (layer_headers s.(kc)). change (body_start c) with (body_start s.(kc)).
  change (conv_layer_at (kmem (dev s)) c (body_start (kc s))) with (conv_layer_at (kmem (dev s)) (kc s) (body_start (kc s))).
  destruct (_ =? KL_K210_CONV) in Hin |- *.
  - cbv zeta in *. destruct (negb _) in Hin |- *; [|discriminate]. injection Hin as <-.
    by rewrite (M_bind_run _ _ _ tt (at_first_layer s ch done userdata (kpu_kmodel_input_with_padding (conv_layer_at (kmem (dev s)) (kc s) (body_start (kc s))) src (kmem (dev s))))).
  - destruct (_ =? KL_FULLY_CONNECTED) in Hin |- *; [|discriminate]. injection Hin as <-.
    by rewrite (M_bind_run _ _ _ tt (at_first_layer s ch done userdata (kpu_kmodel_input_float src (main_buffer (kc s) + word_at (kmem (dev s)) (body_start (kc s) + 4))
      (word_at (kmem (dev s)) (body_start (kc s) + 12)) (kmem (dev s))))).
Qed.
Lemma not_isr_run c0 s (m : Z → Z) ws (s1 : model_s D P) start : finishes expf hw F c0 (ai_step expf F) s1 m ws →
  start s = (ai_step_not_isr expf F ≫= λ _, mret 0) s1 → s1.(dev).(pushed) = s.(dev).(pushed) → s1.(dev).(called) = s.(dev).(called) →
  finishes expf hw F c0 start s m ws.
Proof.
  intros Hf Hs Ep Ec. refine (finishes_csr expf hw F c0 start (ai_step expf F) s s1
    (set_mstatus MSTATUS_MIE (set_mie MIP_MEIP (clear_mstatus MSTATUS_MIE (clear_mie MIP_MEIP s1.(csr))))) m ws _ Ep Ec Hf).
  intros x s2 E. rewrite Hs. unfold ai_step_not_isr. unfold mbind at 1, M_bind at 1.
  rewrite (M_bind_run _ _ _ tt (with_csr (clear_mstatus MSTATUS_MIE (clear_mie MIP_MEIP s1.(csr))) s1)) by done.
  unfold mbind at 1, M_bind at 1. by rewrite csr_free_ai_step, E.
Qed.
(** Input that the DMA controller brings in: its end runs the first layer. *)
Lemma kpu_run_kmodel_by_dma src ch done userdata (s : model_s D P) rq : 0 ≤ ch < 6 → ds_ok s.(dev).(kdma) → s.(kc).(is_nncase) = 0 →
  input_by_dma s.(dev).(kmem) s.(kc) src = Some rq → rq.(rq_count) ≠ 0 →
  ∃ s', kpu_run_kmodel expf F src ch done userdata s = Ok (0, s') ∧ s'.(kc) = started s.(kc) ch done userdata ∧ ready s' ∧
    s'.(dev).(kmem) = s.(dev).(kmem) ∧ s'.(dev).(pushed) = s.(dev).(pushed) ∧ s'.(dev).(called) = s.(dev).(called) ∧
    ds_callback s'.(dev).(kdma) ch = Some (f_ai_step, CTX) ∧ ds_request s'.(dev).(kdma) ch = Some rq.
Proof.
  intros Hch Hd Hnn Hrq Hin. unfold input_by_dma in Hrq. cbv zeta in Hrq. set (l := conv_layer_at _ _ _) in *.
  destruct (Z.eqb_spec (layer_type (kmem (dev s)) (layer_headers (kc s)) 0) KL_K210_CONV) as [Ht|]; [|done].
  destruct (Z.eqb_spec ((bf_get i_row_wid (image_size l) + 1) mod 64) 0) as [Hw|]; [|done]. injection Hrq as <-.
  assert (1 ≤ input_bytes l / 8) by (pose proof (input_bytes_bound l); cbn [rq_count] in Hin; pose proof (Z.div_pos (input_bytes l) 8); lia). clear Hin.
  destruct (ds_register_ok ch f_ai_step CTX 1 s.(dev).(kdma) Hch Hd) as (d1 & E1 & Hd1 & Hc1 & _ & _).
  destruct (ds_single_ok ch (DmaRequest src (input_address l) DMAC_ADDR_INCREMENT DMAC_ADDR_INCREMENT DMAC_MSIZE_16 DMAC_TRANS_WIDTH_64 (input_bytes l / 8)) d1 Hch)
    as (d2 & E2 & Hd2 & Hr2 & Hc2 & _); [|done|].
  { unfold request_ok. cbn. pose proof (input_bytes_bound l). unfold DMAC_ADDR_INCREMENT, DMAC_MSIZE_16, DMAC_TRANS_WIDTH_64. split_and!; try lia. Z.div_mod_to_equations; lia. }
  set (s1 := at_first_layer s ch done userdata s.(dev).(kmem)).
  exists (Model (Kpu s1.(dev).(kregs) s1.(dev).(pushed) s1.(dev).(kmem) d2 s1.(dev).(kirq) s1.(dev).(ksys) s1.(dev).(tasks) s1.(dev).(g_status) s1.(dev).(k_status) s1.(dev).(called)) s1.(kc) s1.(csr)).
  split; [|split; [done|split; [split; [done|]|]]].
  - unfold kpu_run_kmodel. rewrite (M_bind_run _ _ _ s.(kc) s) by done. rewrite (proj2 (Z.eqb_eq _ _) Hnn). cbn [negb]. cbv zeta.
    fold (started s.(kc) ch done userdata). set (c := started s.(kc) ch done userdata).
    rewrite (M_bind_run _ _ _ tt (Model s.(dev) c s.(csr))) by done.
    rewrite (M_bind_run _ _ _ s.(dev).(kmem) (Model s.(dev) c s.(csr))) by done.
    rewrite (M_bind_run _ _ _ tt s1) by done.
    change (layer_headers c) with (layer_headers s.(kc)). rewrite Ht. cbn [Z.eqb Pos.eqb KL_K210_CONV].
    change (conv_layer_at (kmem (dev s)) c (body_start c)) with l. rewrite Hw. cbn [Z.eqb negb].
    change (Klayers.dma_ch c) with ch. pose proof (kpu_input_dma_run l src ch f_ai_step CTX s1.(dev) d1 d2 E1 E2) as Ei.
    by rewrite (M_bind_run _ _ _ _ _ (on_dev_run _ s1 _ _ Ei)).
  - cbn. unfold kmodel_irq. by rewrite irq_handler_enable, irq_handler_register, decide_True.
  - split_and!; try done. cbn. by rewrite Hc2.
Qed.
(** The events of a run whose input comes by DMA *)
Lemma dma_run c0 (start : M (model_s D P) Z) s s1 rq (m : Z → Z) ws x : start s = Ok (x, s1) →
  ds_request s1.(dev).(kdma) s1.(kc).(Klayers.dma_ch) = Some rq → ds_callback s1.(dev).(kdma) s1.(kc).(Klayers.dma_ch) = Some (f_ai_step, CTX) →
  s1.(dev).(pushed) = s.(dev).(pushed) → s1.(dev).(called) = s.(dev).(called) →
  finishes expf hw F c0 (ai_step expf F) (Model (effected (dma_copy rq) s1.(dev)) s1.(kc) s1.(csr)) m ws →
  runs_to expf hw F c0 true start s m ws.
Proof.
  intros E Er Ec Ep El (r & s' & E1 & Hm & Hp & Hc & Hj). cbn in Hp, Hc, Hj. rewrite Ep in Hp. rewrite El in Hc, Hj.
  assert (Eb : ∀ j, (start ≫= λ _, events expf hw F true (S j)) s =
    (ai_step expf F ≫= λ _, rounds expf hw F j) (Model (effected (dma_copy rq) s1.(dev)) s1.(kc) s1.(csr))).
  { intros j. rewrite (M_bind_run _ _ _ _ _ E). cbn [events]. by rewrite (input_ends_run expf hw F s1 rq f_ai_step j Er Ec). }
  exists (S r), s'. rewrite Eb. split_and!; [done..|]. intros [|j] Hjr.
  - exists s1. rewrite (M_bind_run _ _ _ _ _ E). by split.
  - rewrite Eb. apply Hj. lia.
Qed.
Lemma cpu_run c0 (start : M (model_s D P) Z) s (m : Z → Z) ws : finishes expf hw F c0 start s m ws → runs_to expf hw F c0 false start s m ws.
Proof.
  assert (E : ∀ j, events expf hw F false j = rounds expf hw F j) by (by intros []).
  intros (r & s' & H). exists r, s'. rewrite E. destruct H as (? & ? & ? & ? & H). split_and!; [done..|]. intros j. rewrite E. apply H.
Qed.
End start.

(** C36: Running a model computes its effect.  [kpu_run_kmodel] puts the input in its place,
    by the processor or, when the first layer is a convolution of rows of a multiple of 64
    pixels, by a DMA transfer whose end runs the first layer.  It and the callbacks that
    follow it, at the end of that transfer and of each layer that the accelerator is given,
    run every layer once and in order, software layers at once and the others when the one
    before has ended, and leave memory as the layers leave it one after the other; the
    accelerator is given its layers and nothing else; the user's callback is called once, at
    the end and not before.  This is so for the models that have an effect
    ([with_input], [model_effect]): a layer of a supported type first and each layer
    supported, a convolution at the end that sends its result to main memory, transfers that
    are not empty, and not the nncase format. *)
Theorem kpu_run_kmodel_refines {D P} `{DmaService D kpu_fn} `{IrqController P kpu_fn Z} expf hw F src ch done userdata (s : model_s D P) m0 m ws :
  s.(kc).(is_nncase) = 0 → 1 ≤ s.(kc).(Klayers.layers_length) < 2 ^ 32 → s.(kc).(Klayers.layers_length) ≤ Z.of_nat F →
  0 ≤ ch < 6 → ds_ok s.(dev).(kdma) → with_input s.(dev).(kmem) s.(kc) src = Some m0 →
  model_effect expf hw (started s.(kc) ch done userdata) (Z.to_nat s.(kc).(Klayers.layers_length)) 0 s.(kc).(body_start) m0 = Ok (m, ws) →
  let by_dma := bool_decide (is_Some (input_by_dma s.(dev).(kmem) s.(kc) src)) in
  ∃ r s', (kpu_run_kmodel expf F src ch done userdata ≫= λ _, events expf hw F by_dma r) s = Ok (tt, s') ∧
    s'.(dev).(kmem) = m ∧ s'.(dev).(pushed) = s.(dev).(pushed) ++ ws ∧
    s'.(dev).(called) = s.(dev).(called) ++ [(done, userdata)] ∧
    ∀ j, (j < r)%nat → ∃ sj, (kpu_run_kmodel expf F src ch done userdata ≫= λ _, events expf hw F by_dma j) s = Ok (tt, sj) ∧
      sj.(dev).(called) = s.(dev).(called).
Proof.
  intros Hnn Hn HF Hch Hd Hin Heff. cbv zeta. set (c := started s.(kc) ch done userdata) in *.
  pose proof (λ s1, run_from expf hw F c s.(kc).(Klayers.layers_length) Hn eq_refl Hch HF (Z.to_nat s.(kc).(Klayers.layers_length)) 0 s.(kc).(body_start)
    F s1 m ws ltac:(lia) ltac:(lia) ltac:(lia)) as Hrun.
  unfold with_input in Hin. destruct (input_by_dma _ _ _) as [rq|] eqn:Erq.
  - rewrite bool_decide_true by eauto. destruct (Z.eqb_spec rq.(rq_count) 0) as [|Hc]; [done|]. injection Hin as <-.
    destruct (kpu_run_kmodel_by_dma expf F src ch done userdata s rq Hch Hd Hnn Erq Hc) as (s1 & E & Ek & [Hd1 Hi1] & Em & Ep & El & Ec & Er).
    apply (dma_run expf hw F c _ s s1 rq m ws 0); [done|by rewrite Ek|by rewrite Ek|done|done|].
    apply Hrun; [by rewrite Ek|by split|lia|]. cbn. by rewrite Em.
  - rewrite bool_decide_false by (intros [? [=]]). apply (cpu_run expf hw F c), (not_isr_run expf hw F c s m ws (at_first_layer s ch done userdata m0)); [|by apply kpu_run_kmodel_cpu|done|done].
    apply Hrun; [done| |lia|exact Heff].
    split; [done|]. cbn. unfold kmodel_irq. by rewrite irq_handler_enable, irq_handler_register, decide_True.
Qed.
Module Demo.
#[local] Existing Instance Kpu.Demo.dma_service.
#[local] Existing Instance Kpu.Demo.kpu_irqs.
(** A model of two layers at address 0: a convolution whose result goes to main memory, and
    the removal of padding; the accelerator answers 7.  With rows of 64 pixels the input
    comes by DMA. *)
Definition model (wide : bool) : Z → Z := foldr (λ '(a, x) m, mem_write m a (word_bytes x)) (λ _, 0)
  ([(0, 3); (12, 2); (20, 32); (28, KL_K210_CONV); (32, 24); (36, KL_K210_REMOVE_PADDING); (40, 16);
   (44, 1); (52, 88); (76, 16); (80, 1); (2048, 5)] ++ (if wide then [(112, 63); (144, 1)] else [])).
Definition ctx0 : kpu_model_context_t := Ctx 0 0 1024 0 28 28 44 2 0 0 0 0 0 0.
Definition hw (_ : list Z) (r : option dma_request) (m : Z → Z) : Z → Z := match r with Some r => <[r.(rq_dst) := 7]> m | None => m end.
Definition machine (wide : bool) : model_s (Dmac.dmac_t kpu_fn Z * plic_t Dmac.dmac_fn Dmac.dmac_ptr) (plic_t kpu_fn Z) :=
  Model (Kpu (λ _, 0) [] (model wide) Kpu.Demo.dma (Plic (λ _, 0) (λ _, no_instance) true) (λ _, 0) (λ _, Kpu.Demo.task) 0 0 []) ctx0 (Csr 0 0 0).
Definition m0 (wide : bool) : Z → Z :=
  if wide then dma_copy (DmaRequest 2048 AI_IO_BASE_ADDR DMAC_ADDR_INCREMENT DMAC_ADDR_INCREMENT DMAC_MSIZE_16 DMAC_TRANS_WIDTH_64 8) (model true)
  else kpu_kmodel_input_with_padding (conv_layer_at (model false) ctx0 44) 2048 (model false).
Definition effect (wide : bool) : res ((Z → Z) * list Z) := model_effect (λ x, x) hw (started ctx0 3 9 5) 2 0 44 (m0 wide).
Definition effect_checks (wide : bool) : bool :=
  match effect wide with
  | Ok (m, ws) => (m 1040 =? 7) && (m AI_IO_BASE_ADDR =? 5) && (length ws =? 12)%nat
  | Fault _ => false
  end.
Lemma effect_ok : effect_checks true && effect_checks false = true.
Proof. by vm_compute. Qed.
Lemma effect_run wide : ∃ m ws, effect wide = Ok (m, ws) ∧ m 1040 = 7 ∧ m AI_IO_BASE_ADDR = 5.
Proof.
  assert (Ho : effect_checks wide = true) by (pose proof effect_ok; destruct wide; by destruct (effect_checks true), (effect_checks false)).
  unfold effect_checks in Ho. destruct (effect wide) as [[m ws]|]; [|done]. exists m, ws. split; [done|]. lia.
Qed.
Definition demo_runs (wide : bool) : Prop := ∃ r s',
  (kpu_run_kmodel (λ x, x) 2 2048 3 9 5 ≫= λ _, events (λ x, x) hw 2 wide r) (machine wide) = Ok (tt, s') ∧
  s'.(dev).(kmem) 1040 = 7 ∧ s'.(dev).(kmem) AI_IO_BASE_ADDR = 5 ∧ s'.(dev).(called) = [(9, 5)].
Lemma kpu_run_kmodel_refines_witness : demo_runs true ∧ demo_runs false.
Proof.
  assert (H : ∀ wide, demo_runs wide); [|exact (conj (H true) (H false))].
  intros wide. destruct (effect_run wide) as (m & ws & E & H7 & H5).
  destruct (kpu_run_kmodel_refines (λ x, x) hw 2 2048 3 9 5 (machine wide) (m0 wide) m ws) as (r & s' & Er & Hm & _ & Hc & _);
    [reflexivity|cbn; lia|cbn; lia|lia|exact Kpu.Demo.dma_fits|destruct wide; reflexivity|exact E|].
  exists r, s'. rewrite Hm. split; [|split; [exact H7|split; [exact H5|exact Hc]]].
  destruct wide; exact Er.
Defined.
End Demo.
